(* ===== verification/_CoqProject ===== *)
-Q . S2P
Prelude.v
Words.v
Pmm.v
PmmFacts.v
PmmInit.v
PmmThms.v
PageAlloc.v
Vmm.v
VmmFacts.v
VmmMap.v
VmmSpace.v
VmmThms.v
CStr.v
Vfs.v
VfsText.v
VfsFacts.v
VfsOps.v
VfsSafe.v
VfsThms.v
Ring.v
Kernel.v
Tty.v
Fd.v
Sched.v
SchedFacts.v
SchedThms.v
LineDisc.v
UserCopy.v
UserMem.v
UserMemThms.v
Pipe.v
PipeFacts.v
PipeThms.v
FdFacts.v
FdInv.v
FdThms.v
PtyIo.v
LineDiscThms.v
LazyMmap.v
LazyFacts.v
LazyThms.v
Signals.v
SignalFacts.v
SignalThms.v
Process.v
Frames.v
ProcFacts.v
ProcThms.v
Mmap.v
MmapFacts.v
MmapThms.v
Socket.v
SocketFacts.v
SocketThms.v
Events.v
Poll.v
PollFacts.v
PollThms.v
ReadyThms.v
Input.v
InputFacts.v
InputThms.v
Ident.v
Clock.v
ClockThms.v
Ioctl.v
IoctlThms.v
Pseudo.v
Paths.v
PathCalls.v
FileIo.v
FileFacts.v
FileThms.v
PathThms.v
Elf.v
Exec.v
ElfFacts.v
ExecFacts.v
ExecThms.v
Dispatch.v
