(* ===== verification/Prelude.v ===== *)
(** * YabroOS-32: a verification development of the kernel

    YabroOS-32 is a small 64-bit kernel with a Linux-like system call
    interface.  Its kernel is four C files, [src/src/kernel/pmm.c], [vmm.c],
    [vfs.c] and [main.c].  This development translates their data and
    operations to functions on explicit state and proves what they do.

    ** The program and the files that model it

    - {b Physical memory} ([pmm.c]).  [Pmm] has the regions of the memory map,
      the reserved ranges and pages, the page states and reference counts
      (record [pmm]) and every function of the file.  [PmmFacts] relates the
      state to one set of tracked pages ([pmm_wf]) and states the abstract pool
      of reference-counted pages and the simulation, [PmmInit] shows that
      [pmm_init] establishes the invariant, [PmmThms] has the theorems.
    - {b The allocator interface} ([PageAlloc]).  The class [PageAllocator] is
      what the virtual memory manager may rely on: a held page stays held,
      its contents are its owner's, an allocation gives a page nobody held.
      [pmm_page_allocator] is its instance for [pmm.c].
    - {b Virtual memory} ([vmm.c]).  [Vmm] has physical memory as a map of
      64-bit words, the kernel and user page tables in it, and a log of TLB
      operations (record [machine]).  [VmmFacts] reads the tables as a tree of
      owned pages, [VmmMap] treats mapping and copy-on-write, [VmmSpace] the
      creation of spaces, [VmmThms] has the theorems.
    - {b File system} ([vfs.c], [vfs.h]).  [CStr] has the C strings, [Vfs] the
      node table with its child lists, mounts and calls, [VfsText] the texts of
      /proc.  [VfsFacts] states the invariant ([vfs_ok]: child lists are
      lists, every slot in use hangs on exactly one of them, no cycles through
      parents), [VfsOps] shows that every call keeps it,
      [VfsSafe] that no call follows a dangling pointer or runs out of fuel,
      [VfsThms] has the theorems.
    - {b Kernel objects} ([main.c]).  [Kernel] has the globals and structs of
      [main.c] as one record [kernel]; [Ring] the ring buffers.  A pointer to
      an element of a table is its index, [private_data] the type [ptr].
    - {b Terminals} ([Tty], [LineDisc], [PtyIo]; facts and theorem in
      [LineDiscThms]): the pseudo terminals, the line discipline, reads and
      writes.
    - {b Descriptors} ([Fd], [Pipe]; facts in [FdFacts], [FdInv], theorems in
      [FdThms]): open files, dup, fcntl, close, tables shared and
      copied by clone, and the reference counts of what descriptors hold.
    - {b Pipes} ([Pipe]; [PipeFacts], [PipeThms]).
    - {b Scheduler} ([Sched]; [SchedFacts], [SchedThms]): choosing, sleeping,
      waking, queueing of signals.
    - {b Areas mapped on first use} ([LazyMmap]): the table [lazy_mmaps] of a
      task and the page faults that fill it.  [LazyFacts] reads the table as a
      map from addresses to protections ([cover]) and treats the filling of
      one page ([filled]), [LazyThms] has the theorems.
    - {b Signals} ([Signals]; [SignalFacts], [SignalThms]): rt_sigaction,
      rt_sigprocmask, kill, tgkill, delivery to a handler, rt_sigreturn and the
      end of the dispatcher, which works on the saved frame.
    - {b Processes} ([Process]): creation, exit, wait4, futexes, nanosleep,
      yielding, priorities and preemption by the timer.  [Frames] shows which
      operations change no task, [ProcFacts] states the invariant of the task
      table ([proc_ok]) and the two kinds of steps that keep it, shows it for
      every call and follows an exit, [ProcThms] has the theorems.
    - {b Memory maps} ([Mmap]): mmap, munmap, mprotect, mremap, brk and the
      mapping of the framebuffer.  [MmapFacts] has the searches of the address
      space and the loops over the pages of a range, [MmapThms] the theorems.
    - {b Unix sockets} ([Socket]): creation, names, listening, connecting and
      accepting, the two byte streams, messages and options.  [SocketFacts]
      reads the rings as queues and treats the copy loops, [SocketThms] has the
      theorems.
    - {b Waiting for descriptors} ([Events], [Poll]): event counters and timers
      as files, what makes each kind of file ready, poll, select, epoll and
      their table of watches.  [PollFacts] gives readiness as a function of the
      state ([poll_mask], [epoll_mask]), which the read positions of evdev files
      do not disturb ([synced]), reads the table of watches as a finite map
      ([interest]) and follows the passes over the descriptors; [PollThms] and
      [ReadyThms] have the theorems.
    - {b Input devices} ([Input]): the decoders of the keyboard and the mouse,
      the event rings, the reads of evdev files and of the console.
      [InputFacts] states the abstract keyboard, a set of held keys and a list
      of events, [InputThms] has the theorems.
    - {b Identity and clocks} ([Ident], [Clock]): process and user numbers,
      limits, names and system information; the monotonic clock and the
      real-time clock, with their calls.  [ClockThms] has the theorems.
    - {b Paths} ([Pseudo], [Paths], [PathCalls]): the texts of /proc that depend
      on a process and the device files, the normal form of paths, open, and the
      other calls that take a path.  [PathThms] has the theorem.
    - {b Files} ([FileIo]): read and write with their variants on every kind of
      descriptor, and the position of a file.  [FileFacts] joins the pieces a
      write is done in, [FileThms] has the theorems.
    - {b Programs} ([Elf], [Exec]): the headers and segments of an ELF file, its
      interpreter, the first stack, execve.  [ElfFacts] states a flat memory of
      bytes and rights and shows that the page tables refine it, [ExecFacts]
      lays the stack out, [ExecThms] has the theorems.
    - {b ioctl} ([Ioctl]): the requests of sockets, pipes, terminals, the
      console, the framebuffer and event devices.  [IoctlThms] shows when a
      terminal takes a foreground group and that its signals then reach a task,
      that the size of a terminal is read back as it was set, and that after a
      positive answer of FIONREAD a read does not wait and gives no more.
    - {b The dispatcher} ([Dispatch]): syscall_dispatch, with the table of calls.
    - {b User memory} ([UserCopy]; [UserMem], [UserMemThms]): the copies
      between kernel and user space, proved against [PageAllocator].
    - [Words] has the machine words (wrap-around, bits, byte access), this file
      the state monad, record updates, lists and the automation.

    System calls enter through the frame of saved registers ([Dispatch]); they
    read and write user memory by way of [UserCopy], which walks the tables of
    [Vmm], which takes its pages from [Pmm].  Descriptors lead to pipes, terminals
    and vfs nodes; a call that cannot go on puts its task to sleep and the
    other end wakes it ([Sched]).  [kernel] contains the [machine] and the
    [vfs]; [on_vm] runs an operation of the machine on it.

    ** What the theorems show

    - C1, C2: the allocator simulates a pool of counted pages, and its
      invariant holds after boot and for ever.
    - C3, C4: mapping changes one translation, a copy-on-write fault gives
      the writer a page of its own with the same bytes.
    - C5, C6: the file system's invariant in every state reached by calls, and
      what unlink does.
    - C7: the line discipline is the fold of one step per byte.
    - C8: a copy to user memory, byte by byte.
    - C9, C10: pipes.  C11: the scheduler starves nobody.
    - C12, C13: reference counts are the numbers of open descriptors; close on
      every branch.
    - C14, C15: removing, protecting or replacing a range of areas is the
      operation on the map from addresses to protections, or fails and changes
      nothing; a fault gives a zeroed page.
    - C16-C18: delivery of a signal on every branch, the return from a
      handler, and the types of the signal state.
    - C19, C20: the invariant of the task table from boot on, and the exit of a
      process whose parent waits for it.
    - C21-C23: the search for a free place finds the lowest, munmap and brk on
      every branch, with what every other address and process keeps.
    - C24, C25: what is sent on one side of a socket is queued for the other
      in order and sleepers are woken; connections are accepted in the order in
      which they were made.
    - C26-C29: the table of epoll is a finite map; epoll_wait and poll answer
      exactly for what is ready, sleep until the first of their deadlines, and
      are made again with the same deadline.
    - C30: poll, select, epoll and read agree on what is ready.
    - C31, C32: a loaded program has the memory its file, its interpreter and its
      arguments describe, and finds its arguments, environment and auxiliary
      vector on its stack.
    - C33, C34: scancodes are the key events of an abstract keyboard, and a
      read of an event file delivers the oldest events not yet seen.
    - C35-C37: a write in pieces is one store, lseek refuses exactly what
      overflows, and a program reads back what it wrote.
    - C38: the normal form of a path is a walk over its parts.
    - C39, C40: the monotonic clock does not go back, and the real-time clock
      counts the days of the Gregorian calendar.

    ** Machine words, fuel and bounds

    A C integer is a [Z] in its range; where the source can wrap the model
    writes [u64], [u32] and the like.  The regions of [pmm.c] end at most at
    4 GiB (PMM_TRACK_LIMIT), so its page loops cannot wrap.  Loops that are not
    structural take fuel: the number of pages of a range, of bytes of a copy,
    of nodes of the table (a path through parents or siblings visits a slot at
    most once, by [vfs_ok]), of slots of the hash table, of bytes of a path.
    The searches of the address space ([Words.loop]) have a round for every page
    below USER_LIMIT.
    The theorems prove that this is enough: results are stated outright, never
    under the condition that the fuel lasts.  [FdThms] and the others state
    runs of calls as lists of steps.  Only a task that sleeps while nothing else
    can run waits for interrupts without a bound: their number is the fuel of the
    call, and [None] stands for a sleep that outlasts it.

    ** Parameters

    [HhdmBase] is the address at which the boot loader maps physical memory;
    the memory map, kernel addresses and page table root of start of day are
    arguments of [pmm_init].  Instructions and devices are arguments of the
    functions that read them: cpuid, the time stamp counter (a value for every
    time it is read), the registers of the real-time clock, the bytes at the
    ports of the keyboard controller, the framebuffer and the size of the
    console.  So is code outside the C files: the mount functions of file
    systems registered from outside and the boot medium ([find_file_in_root],
    [bootfs_path_is_dir], [bootfs_read_root_file] of main.rs and the FAT reader
    it calls).  Bytes of the kernel stack that the source copies out without
    setting them ([junk]) are arguments too.  [Dispatch.world] collects them for
    the dispatcher.  [kernel_wait_tick] is what interrupts do while the
    processor is halted in a sleeping call; the invariant of the task table asks
    that it starts and creates no task ([shrinks]).  Where a call only looks at
    the time of day, [rtc_now] is an argument; [Clock] models it.

    ** Not modelled

    The assembly entry of a system call, the programming of the keyboard
    controller and the interval timer, the descriptor tables of
    the processor and start of day, the serial port, the text console and the
    framebuffer ([main.c]) are not modelled, nor is exec_build_user_stack, which
    nothing calls.  Debug output is left out, and so are globals that are
    written and never read (heap_base, heap_end).  Process numbers are an int in
    the source and unbounded here; the steps of a run ask that the next one is
    below INT_MAX.  A descriptor out of range is an empty entry where the source
    reads past its table.  The processor masks interrupts on entry to a system
    call (IA32_FMASK) and there is one processor, so an operation here is one
    step.  The shell, the user programs, the ports (including the vendored
    PureDOOM.h) and limine are not part of the kernel. *)

From Stdlib Require Export ZArith Lia Bool.
From stdpp Require Export base gmap list.

Global Unset Program Cases.

(** ** The state monad *)

Definition ST (S A : Type) : Type := S -> A * S.

Declare Scope st_scope.
Delimit Scope st_scope with st.
Bind Scope st_scope with ST.

Definition st_ret {S A} (a : A) : ST S A := fun s => (a, s).
Definition st_bind {S A B} (m : ST S A) (k : A -> ST S B) : ST S B :=
  fun s => let '(a, s') := m s in k a s'.
Definition st_get {S} : ST S S := fun s => (s, s).
Definition st_gets {S A} (f : S -> A) : ST S A := fun s => (f s, s).
Definition st_put {S} (s : S) : ST S unit := fun _ => (tt, s).
Definition st_mod {S} (f : S -> S) : ST S unit := fun s => (tt, f s).

(** A run whose result is known, its final state kept as a term. *)
Lemma run_eq {S A} (p : A * S) (a : A) : fst p = a -> p = (a, snd p).
Proof. destruct p. by intros <-. Qed.

(** The state after a run. *)
Definition exec {S A} (m : ST S A) (s : S) : S := snd (m s).

Lemma exec_bind {S A B} (m : ST S A) (n : A -> ST S B) (s : S) : exec (st_bind m n) s = exec (n (fst (m s))) (exec m s).
Proof. unfold exec, st_bind. by destruct (m s). Qed.

Lemma exec_get {S B} (n : S -> ST S B) (s : S) : exec (st_bind st_get n) s = exec (n s) s.
Proof. done. Qed.
Lemma exec_mod {S B} (f : S -> S) (n : unit -> ST S B) (s : S) : exec (st_bind (st_mod f) n) s = exec (n tt) (f s).
Proof. done. Qed.
Lemma exec_seq {S A B} (m : ST S A) (n : ST S B) (s : S) : exec (st_bind m (fun _ => n)) s = exec n (exec m s).
Proof. unfold exec, st_bind. by destruct (m s). Qed.
Lemma exec_ret {S A} (a : A) (s : S) : exec (st_ret a) s = s.
Proof. done. Qed.
Lemma exec_if {S A} (b : bool) (m n : ST S A) (s : S) : exec (if b then m else n) s = if b then exec m s else exec n s.
Proof. by destruct b. Qed.

Lemma bind_fst {S A B} (m : ST S A) (n : A -> ST S B) (s : S) : fst (st_bind m n s) = fst (n (fst (m s)) (exec m s)).
Proof. unfold exec, st_bind. by destruct (m s). Qed.

Lemma bind_eq {S A B} (m : ST S A) (n : A -> ST S B) (s : S) : st_bind m n s = n (fst (m s)) (exec m s).
Proof. unfold exec, st_bind. by destruct (m s). Qed.

Lemma bind_get {S B} (n : S -> ST S B) (s : S) : st_bind st_get n s = n s s.
Proof. done. Qed.

(** The state after a straight-line program. *)
Ltac run_exec := repeat first [rewrite exec_get | rewrite exec_mod | rewrite exec_seq | rewrite exec_ret]; cbv beta zeta.

(** What a computation leaves as it was: every run relates the state before to
    the state after. *)
Definition keeps {S A} (R : relation S) (m : ST S A) : Prop := forall s, R s (exec m s).

Section Keeps.
Context {S : Type} (R : relation S) `{!PreOrder R}.

Lemma keeps_ret {A} (a : A) : keeps R (st_ret a).
Proof. intros s. apply PreOrder_Reflexive. Qed.
Lemma keeps_mod (f : S -> S) : (forall s, R s (f s)) -> keeps R (st_mod f).
Proof. done. Qed.
Lemma keeps_bind {A B} (m : ST S A) (n : A -> ST S B) : keeps R m -> (forall a, keeps R (n a)) -> keeps R (st_bind m n).
Proof. intros Hm Hn s. rewrite exec_bind. by eapply PreOrder_Transitive; [apply Hm | apply Hn]. Qed.
Lemma keeps_get {B} (n : S -> ST S B) : (forall s0, keeps R (n s0)) -> keeps R (st_bind st_get n).
Proof. intros Hn s. apply Hn. Qed.
Lemma keeps_fold {A} (f : S -> A -> S) l : (forall s a, R s (f s a)) -> forall s, R s (foldl f s l).
Proof. intros Hf. induction l as [|a l IH]; intros s; [apply PreOrder_Reflexive|]. cbn [foldl]. by eapply PreOrder_Transitive; [apply Hf | apply IH]. Qed.
Lemma keeps_weaken {A} (R' : relation S) (m : ST S A) : (forall s s', R' s s' -> R s s') -> keeps R' m -> keeps R m.
Proof. intros H Hm s. apply H, Hm. Qed.
End Keeps.

Create HintDb keeps discriminated.
#[export] Hint Constants Opaque : keeps.

(** Goes through a program; [auto with keeps] knows its parts and updates. *)
Ltac keeps_step :=
  cbv zeta;
  lazymatch goal with
  | |- keeps _ (st_ret _) => apply keeps_ret; exact _
  | |- keeps _ (st_bind st_get _) => apply keeps_get; intros ?
  | |- keeps _ (st_bind _ _) => apply keeps_bind; [exact _ | | intros ?]
  | |- keeps _ (st_mod _) => first [solve [auto with keeps nocore] | apply keeps_mod; intros ?; auto with keeps nocore]
  | |- keeps _ (if ?b then _ else _) => destruct b
  | |- keeps _ (match ?x with _ => _ end) => destruct x
  | |- keeps _ _ => solve [auto with keeps nocore]
  end.
Ltac keeps := repeat keeps_step.

Notation "'let!' x ':=' m 'in' k" := (st_bind m (fun x => k))
  (at level 10, x binder, m at level 100, k at level 200) : st_scope.
Notation "m ';;;' k" := (st_bind m (fun _ => k))
  (at level 199, k at level 200, right associativity) : st_scope.

(** ** Record updates

    [r <| f := v |>] is [r] with its field [f] set to [v].  An instance of
    [Eta] lists the fields of a record type. *)

Class Eta (R : Type) := eta : R -> R.
Class Setter {R T} (proj : R -> T) := upd_field : (T -> T) -> R -> R.
Arguments upd_field {R T} proj {_} f r.

Ltac make_setter proj :=
  lazymatch type of proj with
  | ?R -> _ =>
      let inst := constr:(_ : Eta R) in
      let e := eval hnf in inst in
      let p := eval pattern proj in e in
      lazymatch p with ?g _ => exact (fun f r => g (fun r => f (proj r)) r) end
  end.
#[global] Hint Extern 0 (Setter ?p) => make_setter p : typeclass_instances.

Notation "r '<|' p ':=' v '|>'" := (upd_field p (fun _ => v) r)
  (at level 1, left associativity, p at level 9, v at level 99, format "r <| p := v |>").

(** A table of the kernel: an array of structs, zero where never written. *)
Definition cell {A} (blank : A) (m : gmap Z A) (i : Z) : A := default blank (m !! i).

Lemma cell_insert {A} (blank : A) (m : gmap Z A) (i : Z) x j : cell blank (<[i := x]> m) j = if (i =? j)%Z then x else cell blank m j.
Proof. unfold cell. destruct (Z.eqb_spec i j) as [->|Hne]; [by rewrite lookup_insert_eq | by rewrite lookup_insert_ne]. Qed.

Lemma cell_insert_eq {A} (blank : A) (m : gmap Z A) (i : Z) x : cell blank (<[i := x]> m) i = x.
Proof. by rewrite cell_insert, Z.eqb_refl. Qed.

Lemma cell_insert_ne {A} (blank : A) (m : gmap Z A) (i : Z) x j : i <> j -> cell blank (<[i := x]> m) j = cell blank m j.
Proof. intros Hne. by rewrite cell_insert, (proj2 (Z.eqb_neq i j)). Qed.

(** [lia] with the quotients and remainders of the goal and the context
    turned into equations. *)
Ltac dlia := Z.to_euclidean_division_equations; lia.

(** The C truth value of a pointer. *)
Definition is_some {A} (o : option A) : bool := match o with Some _ => true | None => false end.
Definition is_nil {A} (l : list A) : bool := match l with [] => true | _ => false end.

(** ** Lists *)

Lemma length_filter_iff_in {A} (P Q : A -> Prop) `{!forall x, Decision (P x)} `{!forall x, Decision (Q x)}
    (l : list A) :
  (forall q, q ∈ l -> Q q <-> P q) -> length (filter P l) = length (filter Q l).
Proof.
  induction l as [|x l IH]; intros HPQ; [done|]. rewrite !filter_cons.
  assert (Hx : Q x <-> P x) by (apply HPQ; left).
  assert (Hl : length (filter P l) = length (filter Q l)) by (apply IH; intros; apply HPQ; by right).
  destruct (decide (P x)), (decide (Q x)); try tauto; cbn [length]; by rewrite Hl.
Qed.

Lemma length_filter_all {A} (P : A -> Prop) `{!forall x, Decision (P x)} (l : list A) :
  (forall q, q ∈ l -> P q) -> length (filter P l) = length l.
Proof.
  induction l as [|x l IH]; intros HP; [done|]. rewrite filter_cons, decide_True by (apply HP; left).
  cbn [length]. f_equal. apply IH. intros; apply HP; by right.
Qed.

(** Removing one element of a duplicate-free list from a filter. *)
Lemma length_filter_remove `{EqDecision A} (P Q : A -> Prop) `{!forall x, Decision (P x)} `{!forall x, Decision (Q x)}
    (p : A) (l : list A) :
  NoDup l -> p ∈ l -> P p -> (forall q, q ∈ l -> Q q <-> P q /\ q <> p) ->
  length (filter P l) = S (length (filter Q l)).
Proof.
  induction l as [|x l IH]; intros Hnd Hin HP HPQ; [by apply not_elem_of_nil in Hin|].
  apply NoDup_cons in Hnd as [Hx Hnd]. rewrite !filter_cons.
  destruct (decide (x = p)) as [->|Hne].
  - rewrite decide_True by done. rewrite decide_False by (rewrite HPQ by left; tauto).
    cbn [length]. f_equal. apply length_filter_iff_in. intros q Hq.
    rewrite HPQ by (by right). assert (q <> p) by (by intros ->). tauto.
  - assert (Hin' : p ∈ l) by (apply elem_of_cons in Hin as [?|?]; congruence || done).
    assert (HPQx : Q x <-> P x /\ x <> p) by (apply HPQ; left).
    assert (Hl : length (filter P l) = S (length (filter Q l)))
      by (apply IH; auto; intros; apply HPQ; by right).
    destruct (decide (P x)); [rewrite decide_True by tauto | rewrite decide_False by tauto];
      cbn [length]; by rewrite Hl.
Qed.

(** An invariant of a loop that folds over a list. *)
Lemma foldl_inv {A B} (P : A -> Prop) (f : A -> B -> A) (l : list B) (a : A) :
  (forall a b, b ∈ l -> P a -> P (f a b)) -> P a -> P (foldl f a l).
Proof.
  revert a. induction l as [|b l IH]; intros a Hf Ha; [done|]. cbn [foldl].
  apply IH; [intros; apply Hf; [by right | done] | apply Hf; [by left | done]].
Qed.

(** The search of a C loop finds the first index. *)
Lemma find_first {A} (P : A -> bool) l x : List.find P l = Some x ->
  P x = true /\ exists l1 l2, l = l1 ++ x :: l2 /\ forall y, y ∈ l1 -> P y = false.
Proof.
  induction l as [|y l IH]; [done|]. cbn. destruct (P y) eqn:E.
  - intros [= <-]. split; [done|]. exists [], l. split; [done|]. intros z Hz. by apply not_elem_of_nil in Hz.
  - intros H. destruct (IH H) as (HP & l1 & l2 & -> & Hl). split; [done|]. exists (y :: l1), l2. split; [done|].
    intros z Hz. apply elem_of_cons in Hz as [->|Hz]; [done | by apply Hl].
Qed.

Lemma find_seqZ (P : Z -> bool) a n x : List.find P (seqZ a n) = Some x ->
  (a <= x < a + n)%Z /\ P x = true /\ forall y, (a <= y < x)%Z -> P y = false.
Proof.
  intros H. pose proof (find_some _ _ H) as [Hin%list_elem_of_In%elem_of_seqZ _]. destruct (find_first P _ x H) as (HP & l1 & l2 & El & Hl).
  split; [lia|]. split; [done|]. intros y Hy. apply Hl.
  assert (Hlen : Z.of_nat (length l1) = (x - a)%Z).
  { assert (E : seqZ a n !! length l1 = Some x) by (rewrite El; apply list_lookup_middle; done). apply lookup_seqZ in E. lia. }
  assert (E : seqZ a n !! Z.to_nat (y - a) = Some y) by (apply lookup_seqZ; lia).
  rewrite El, lookup_app_l in E by lia. by apply list_elem_of_lookup_2 in E.
Qed.

Lemma find_seqZ_none (P : Z -> bool) a n : List.find P (seqZ a n) = None -> forall y, (a <= y < a + n)%Z -> P y = false.
Proof. intros H y Hy. apply (find_none _ _ H), list_elem_of_In, elem_of_seqZ. lia. Qed.

(** ** Sums over a list *)

Definition sumZ {A} (f : A -> Z) (l : list A) : Z := foldr (fun x s => f x + s)%Z 0%Z l.

Lemma sumZ_ext {A} (f g : A -> Z) l : (forall x, x ∈ l -> f x = g x) -> sumZ f l = sumZ g l.
Proof.
  induction l as [|x l IH]; intros H; [done|]. cbn. rewrite (H x) by left. f_equal. apply IH. intros y Hy. apply H. by right.
Qed.

Lemma sumZ_le {A} (f g : A -> Z) l : (forall x, x ∈ l -> f x <= g x)%Z -> (sumZ f l <= sumZ g l)%Z.
Proof.
  induction l as [|x l IH]; intros H; [done|]. cbn. pose proof (H x ltac:(left)).
  assert (forall y, y ∈ l -> f y <= g y)%Z by (intros; apply H; by right). specialize (IH ltac:(done)). unfold sumZ in *. lia.
Qed.

Lemma sumZ_lt {A} (f g : A -> Z) l x : x ∈ l -> (forall x, x ∈ l -> f x <= g x)%Z -> (f x < g x)%Z -> (sumZ f l < sumZ g l)%Z.
Proof.
  induction l as [|y l IH]; intros Hin H Hlt; [by apply not_elem_of_nil in Hin|]. cbn.
  assert (Ht : forall q, q ∈ l -> (f q <= g q)%Z) by (intros; apply H; by right).
  apply elem_of_cons in Hin as [->|Hin].
  - pose proof (sumZ_le f g l Ht). unfold sumZ in *. lia.
  - pose proof (H y ltac:(left)). specialize (IH Hin Ht Hlt). unfold sumZ in *. lia.
Qed.

Lemma sumZ_nonneg {A} (f : A -> Z) l : (forall x, x ∈ l -> 0 <= f x)%Z -> (0 <= sumZ f l)%Z.
Proof.
  induction l as [|x l IH]; intros H; [done|]. cbn. pose proof (H x ltac:(left)).
  assert (0 <= sumZ f l)%Z by (apply IH; intros; apply H; by right). unfold sumZ in *. lia.
Qed.

(** The sum when one summand changes. *)
Lemma sumZ_update {A} (f g : A -> Z) l x : NoDup l -> x ∈ l -> (forall y, y ∈ l -> y <> x -> g y = f y) ->
  (sumZ g l = sumZ f l - f x + g x)%Z.
Proof.
  induction l as [|y l IH]; intros Hnd Hin H; [by apply not_elem_of_nil in Hin|].
  apply NoDup_cons in Hnd as [Hy Hnd]. cbn. apply elem_of_cons in Hin as [->|Hin].
  - fold (sumZ f l) (sumZ g l). rewrite (sumZ_ext g f); [lia|]. intros z Hz. apply H; [by right | by intros ->].
  - fold (sumZ f l) (sumZ g l). rewrite (H y) by (by left || (by intros ->)). rewrite (IH Hnd Hin); [lia|].
    intros z Hz. apply H. by right.
Qed.

Lemma sumZ_elem {A} (f : A -> Z) l x : x ∈ l -> (forall y, y ∈ l -> 0 <= f y)%Z -> (f x <= sumZ f l)%Z.
Proof.
  induction l as [|y l IH]; intros Hin H; [by apply not_elem_of_nil in Hin|]. cbn. fold (sumZ f l).
  assert (Ht : forall q, q ∈ l -> (0 <= f q)%Z) by (intros; apply H; by right). pose proof (sumZ_nonneg f l Ht).
  apply elem_of_cons in Hin as [->|Hin]; [lia|]. pose proof (H y ltac:(left)). specialize (IH Hin Ht). lia.
Qed.

Lemma sumZ_bound {A} (f : A -> Z) l : (forall y, y ∈ l -> f y <= 1)%Z -> (sumZ f l <= Z.of_nat (length l))%Z.
Proof.
  induction l as [|y l IH]; intros H; [done|]. cbn [sumZ foldr length]. fold (sumZ f l). pose proof (H y ltac:(left)).
  assert (sumZ f l <= Z.of_nat (length l))%Z by (apply IH; intros; apply H; by right). lia.
Qed.

Lemma count_sumZ {A} (p : A -> bool) l : Z.of_nat (length (List.filter p l)) = sumZ (fun x => Z.b2z (p x)) l.
Proof. induction l as [|x l IH]; [done|]. cbn. fold (sumZ (fun x => Z.b2z (p x)) l). destruct (p x); cbn [length Z.b2z]; lia. Qed.

(** ** Loops with early return

    [for_each l body] runs [body] on the elements of [l] in order;
    [body] gives [None] to continue and [Some r] to return [r] from the
    enclosing function. *)
Fixpoint for_each {S A R} (l : list A) (body : A -> ST S (option R)) : ST S (option R) :=
  match l with
  | [] => st_ret None
  | x :: l => st_bind (body x) (fun r => match r with Some r => st_ret (Some r) | None => for_each l body end)
  end.

Definition continue_ {S R} : ST S (option R) := st_ret None.
Definition return_ {S R} (r : R) : ST S (option R) := st_ret (Some r).
