(* ===== verification/Words.v ===== *)
(** * Machine words

    The kernel computes on [uint64_t], [uint32_t], [uint16_t] and [uint8_t].
    Every word is a [Z]; [u64], [u32], [u16] and [u8] are the wrap-around of
    the C types and are written wherever the C operation can wrap.  [has] is
    the C truth value of [a & b].  [loop] runs a step a number of rounds that is
    written in binary, for the searches of the address space. *)

From S2P Require Import Prelude.
Local Open Scope Z_scope.

Definition u8 (x : Z) : Z := x mod 2 ^ 8.
Definition u16 (x : Z) : Z := x mod 2 ^ 16.
Definition u32 (x : Z) : Z := x mod 2 ^ 32.
Definition u64 (x : Z) : Z := x mod 2 ^ 64.
(** The conversions to the signed types [int8_t], [int] and [int64_t]. *)
Definition s8 (x : Z) : Z := if u8 x <? 2 ^ 7 then u8 x else u8 x - 2 ^ 8.
Definition s32 (x : Z) : Z := if u32 x <? 2 ^ 31 then u32 x else u32 x - 2 ^ 32.
Definition s64 (x : Z) : Z := if u64 x <? 2 ^ 63 then u64 x else u64 x - 2 ^ 64.
Definition UINT64_MAX : Z := 0xFFFFFFFFFFFFFFFF.
Definition UINT16_MAX : Z := 0xFFFF.

(** C's [~x] on [uint64_t]. *)
Definition not64 (x : Z) : Z := Z.lxor x UINT64_MAX.

(** The C condition [(x & m)]. *)
Definition has (x m : Z) : bool := negb (Z.land x m =? 0).

Definition PAGE_SIZE : Z := 0x1000.
Definition PAGE_MASK : Z := 0xFFFFFFFFFFFFF000.

Definition is_u64 (x : Z) : Prop := 0 <= x < 2 ^ 64.

(** ** Wrap-around *)

Lemma u64_small x : 0 <= x < 2 ^ 64 -> u64 x = x.
Proof. apply Z.mod_small. Qed.
Lemma u64_range x : 0 <= u64 x < 2 ^ 64.
Proof. apply Z.mod_pos_bound; lia. Qed.
Lemma u16_small x : 0 <= x < 2 ^ 16 -> u16 x = x.
Proof. apply Z.mod_small. Qed.
Lemma u16_range x : 0 <= u16 x < 2 ^ 16.
Proof. apply Z.mod_pos_bound; lia. Qed.
Lemma u8_small x : 0 <= x < 2 ^ 8 -> u8 x = x.
Proof. apply Z.mod_small. Qed.
Lemma u8_range x : 0 <= u8 x < 2 ^ 8.
Proof. apply Z.mod_pos_bound; lia. Qed.
Lemma u32_small x : 0 <= x < 2 ^ 32 -> u32 x = x.
Proof. apply Z.mod_small. Qed.

(** ** Bits *)

Lemma testbit_high x k i : 0 <= x < 2 ^ k -> 0 <= k <= i -> Z.testbit x i = false.
Proof.
  intros Hx Hi. rewrite <- (Z.mod_small x (2 ^ k)) by lia.
  apply Z.mod_pow2_bits_high. lia.
Qed.

Lemma testbit_pow2 k i : 0 <= k -> 0 <= i -> Z.testbit (2 ^ k) i = (k =? i).
Proof. intros. apply Z.pow2_bits_eqb. lia. Qed.

Lemma has_pow2 x k : 0 <= k -> has x (2 ^ k) = Z.testbit x k.
Proof.
  intros Hk. unfold has. destruct (Z.testbit x k) eqn:E.
  - apply negb_true_iff, Z.eqb_neq. intros H0.
    assert (Hb : Z.testbit (Z.land x (2 ^ k)) k = true).
    { by rewrite Z.land_spec, E, testbit_pow2, Z.eqb_refl by lia. }
    rewrite H0, Z.bits_0 in Hb. done.
  - apply negb_false_iff, Z.eqb_eq, Z.bits_inj'. intros i Hi.
    rewrite Z.land_spec, testbit_pow2, Z.bits_0 by lia.
    destruct (Z.eqb_spec k i); [subst; by rewrite E | by rewrite andb_false_r].
Qed.

Lemma testbit_UINT64_MAX i : 0 <= i -> Z.testbit UINT64_MAX i = (i <? 64).
Proof.
  intros Hi. change UINT64_MAX with (Z.ones 64).
  destruct (Z.ltb_spec i 64); [rewrite Z.ones_spec_low | rewrite Z.ones_spec_high]; lia || done.
Qed.

Lemma testbit_u64 x i : 0 <= i -> Z.testbit (u64 x) i = (i <? 64) && Z.testbit x i.
Proof.
  intros Hi. unfold u64. destruct (Z.ltb_spec i 64).
  - by rewrite Z.mod_pow2_bits_low by lia.
  - by rewrite Z.mod_pow2_bits_high by lia.
Qed.

(** A mask of the bits [lo, hi). *)
Lemma testbit_mask lo hi i : 0 <= lo <= hi -> 0 <= i ->
  Z.testbit (Z.shiftl (Z.ones (hi - lo)) lo) i = (lo <=? i) && (i <? hi).
Proof.
  intros Hl Hi. rewrite Z.shiftl_spec by lia.
  destruct (Z.leb_spec lo i); cbn [andb].
  - destruct (Z.ltb_spec i hi); [rewrite Z.ones_spec_low | rewrite Z.ones_spec_high]; lia || done.
  - apply Z.testbit_neg_r. lia.
Qed.

Lemma testbit_PAGE_MASK i : 0 <= i -> Z.testbit PAGE_MASK i = (12 <=? i) && (i <? 64).
Proof. intros. change PAGE_MASK with (Z.shiftl (Z.ones (64 - 12)) 12). by apply testbit_mask. Qed.

Lemma testbit_not64 x i : 0 <= i -> Z.testbit (not64 x) i = xorb (Z.testbit x i) (i <? 64).
Proof. intros. unfold not64. by rewrite Z.lxor_spec, testbit_UINT64_MAX. Qed.

Lemma land_range x y k : 0 <= k -> 0 <= y < 2 ^ k -> 0 <= Z.land x y < 2 ^ k.
Proof.
  intros Hk Hy. assert (0 <= Z.land x y) by (apply Z.land_nonneg; lia). split; [done|].
  replace (Z.land x y) with (Z.land (Z.land x y) (Z.ones k)).
  - rewrite Z.land_ones by lia. apply Z.mod_pos_bound. lia.
  - apply Z.bits_inj'. intros i Hi. rewrite !Z.land_spec.
    destruct (Z.lt_ge_cases i k).
    + rewrite Z.ones_spec_low by lia. by rewrite andb_true_r.
    + rewrite (testbit_high y k) by lia. by rewrite !andb_false_r.
Qed.

Lemma bits_range x k : 0 <= k -> 0 <= x -> (forall i, k <= i -> Z.testbit x i = false) -> x < 2 ^ k.
Proof.
  intros Hk Hx Hb. replace x with (Z.land x (Z.ones k)).
  - rewrite Z.land_ones by lia. apply Z.mod_pos_bound. lia.
  - apply Z.bits_inj'. intros i Hi. rewrite Z.land_spec.
    destruct (Z.lt_ge_cases i k).
    + rewrite Z.ones_spec_low by lia. by rewrite andb_true_r.
    + by rewrite Hb by lia.
Qed.

Lemma lor_range x y k : 0 <= k -> 0 <= x < 2 ^ k -> 0 <= y < 2 ^ k -> 0 <= Z.lor x y < 2 ^ k.
Proof.
  intros Hk Hx Hy. assert (0 <= Z.lor x y) by (apply Z.lor_nonneg; lia). split; [done|].
  apply bits_range; try lia. intros i Hi. rewrite Z.lor_spec.
  by rewrite (testbit_high x k), (testbit_high y k) by lia.
Qed.

Lemma not64_range x : is_u64 x -> is_u64 (not64 x).
Proof.
  intros Hx. unfold is_u64, not64 in *. assert (0 <= Z.lxor x UINT64_MAX) by (apply Z.lxor_nonneg; unfold UINT64_MAX; lia).
  split; [done|]. apply bits_range; [lia | done|]. intros i Hi. fold (not64 x). rewrite testbit_not64 by lia.
  rewrite (testbit_high x 64) by lia. by rewrite (proj2 (Z.ltb_ge i 64)) by lia.
Qed.

(** ** Page alignment *)

Lemma land_low_mask x k : 0 <= k <= 64 -> 0 <= x < 2 ^ 64 ->
  Z.land x (Z.shiftl (Z.ones (64 - k)) k) = x - x mod 2 ^ k.
Proof.
  intros Hk Hx. rewrite <- (Z.land_ones x k) by lia.
  rewrite (Z.sub_nocarry_ldiff x).
  - apply Z.bits_inj'. intros i Hi. rewrite Z.land_spec, Z.ldiff_spec, Z.land_spec.
    rewrite testbit_mask by lia. destruct (Z.leb_spec k i).
    + rewrite Z.ones_spec_high by lia. rewrite andb_false_r. cbn [negb].
      destruct (Z.ltb_spec i 64); [by rewrite !andb_true_r|].
      by rewrite (testbit_high x 64) by lia.
    + rewrite Z.ones_spec_low by lia. cbn. rewrite andb_false_r, andb_true_r.
      by destruct (Z.testbit x i).
  - apply Z.bits_inj'. intros i Hi. rewrite Z.ldiff_spec, Z.land_spec, Z.bits_0.
    by destruct (Z.testbit x i), (Z.testbit (Z.ones k) i).
Qed.

Lemma land_PAGE_MASK x : 0 <= x < 2 ^ 64 -> Z.land x PAGE_MASK = x - x mod PAGE_SIZE.
Proof. intros Hx. apply (land_low_mask x 12); lia. Qed.

Lemma land_PAGE_MASK_aligned x : 0 <= x < 2 ^ 64 -> x mod PAGE_SIZE = 0 -> Z.land x PAGE_MASK = x.
Proof. intros Hx Ha. rewrite land_PAGE_MASK by done. lia. Qed.

Lemma land_low12 x : Z.land x (PAGE_SIZE - 1) = x mod PAGE_SIZE.
Proof. change (PAGE_SIZE - 1) with (Z.ones 12). by rewrite Z.land_ones by lia. Qed.

(** Bit [n mod 64] of word [n / 64]: how the bitmaps index a page number. *)
Lemma word_index_inj n m : 0 <= n -> 0 <= m ->
  Z.shiftr n 6 = Z.shiftr m 6 -> Z.land n 63 = Z.land m 63 -> n = m.
Proof.
  intros Hn Hm. rewrite !Z.shiftr_div_pow2 by lia.
  change 63 with (Z.ones 6). rewrite !Z.land_ones by lia. change (2 ^ 6) with 64. dlia.
Qed.

Lemma land_63_range n : 0 <= Z.land n 63 < 64.
Proof. change 63 with (Z.ones 6). rewrite Z.land_ones by lia. apply Z.mod_pos_bound. lia. Qed.

Lemma has_shiftr_1 w k : 0 <= k -> has (Z.shiftr w k) 1 = Z.testbit w k.
Proof.
  intros Hk. change 1 with (2 ^ 0). rewrite has_pow2, Z.shiftr_spec by lia. done.
Qed.

Lemma testbit_shiftl_1 k i : 0 <= k -> 0 <= i -> Z.testbit (Z.shiftl 1 k) i = (k =? i).
Proof. intros. by rewrite Z.shiftl_1_l, testbit_pow2. Qed.

(** ** Page-table entries *)

Lemma land_shift_field x k n : 0 <= k -> 0 <= n -> 0 <= x ->
  Z.land (Z.shiftr x k) (Z.ones n) = (x / 2 ^ k) mod 2 ^ n.
Proof. intros. by rewrite Z.land_ones, Z.shiftr_div_pow2 by lia. Qed.

Lemma has_low12 x : has x (PAGE_SIZE - 1) = negb (x mod PAGE_SIZE =? 0).
Proof. unfold has. by rewrite land_low12. Qed.

(** ** Loops with a binary bound

    [for (;;)] loops whose number of rounds is bounded by the size of the
    address space: the fuel is a [positive], so that it can be large and a run
    still ends as soon as the loop does. *)

(** A step goes on with [inl] or ends with [inr]. *)
Fixpoint loop {A B} (fuel : positive) (step : A -> A + B) (a : A) : A + B :=
  match fuel with
  | xH => step a
  | xO p => match loop p step a with inl b => loop p step b | r => r end
  | xI p =>
      match step a with
      | inl b => match loop p step b with inl c => loop p step c | r => r end
      | r => r
      end
  end.

Section Loop.
Context {A B : Type} (step : A -> A + B) (I : A -> Prop) (Q : B -> Prop) (mu : A -> Z).
Hypothesis step_next : forall a b, I a -> step a = inl b -> I b /\ mu b < mu a.
Hypothesis step_end : forall a r, I a -> step a = inr r -> Q r.

(** A loop that has not ended has used up its fuel. *)
Lemma loop_run fuel : forall a, I a ->
  match loop fuel step a with
  | inl b => I b /\ mu b + Zpos fuel <= mu a
  | inr r => Q r
  end.
Proof.
  induction fuel as [p IH|p IH|]; intros a Ha; cbn [loop].
  - destruct (step a) as [b|r] eqn:E; [|by apply (step_end a)]. destruct (step_next a b Ha E) as [Hb Hm].
    pose proof (IH b Hb) as H1. destruct (loop p step b) as [c|r]; [|done]. destruct H1 as [Hc H1].
    pose proof (IH c Hc) as H2. destruct (loop p step c) as [d|r]; [|done]. destruct H2. split; [done | lia].
  - pose proof (IH a Ha) as H1. destruct (loop p step a) as [b|r]; [|done]. destruct H1 as [Hb H1].
    pose proof (IH b Hb) as H2. destruct (loop p step b) as [c|r]; [|done]. destruct H2. split; [done | lia].
  - destruct (step a) as [b|r] eqn:E; [|by apply (step_end a)]. destruct (step_next a b Ha E). split; [done | lia].
Qed.

(** With enough fuel the loop ends. *)
Lemma loop_ends fuel a : I a -> (forall b, I b -> 0 <= mu b) -> mu a < Zpos fuel -> exists r, loop fuel step a = inr r /\ Q r.
Proof.
  intros Ha Hpos Hf. pose proof (loop_run fuel a Ha) as H. destruct (loop fuel step a) as [b|r]; [|by exists r].
  destruct H as [Hb H]. pose proof (Hpos b Hb). lia.
Qed.
End Loop.
