(* ===== verification/Pmm.v ===== *)
(** * Physical memory manager: [src/kernel/pmm.c]

    The static variables of pmm.c are the fields of [pmm]; every function of
    the file is a definition of the same name that takes the state and gives
    back its result and the new state.  The bitmaps [page_state] and
    [reserved_state] keep the 64 pages of a word in one [uint64_t], as the
    code does; arrays that pmm_init clears are finite maps read with default
    0.  Physical memory, which the code reaches through the HHDM window, is a
    map from the physical address of an 8-byte word to its value. *)

From S2P Require Import Prelude Words.
Local Open Scope Z_scope.

Definition MAX_REGIONS : Z := 64.
Definition MAX_RESERVED_PAGES : Z := 65536.
Definition MAX_PAGE_TABLES : Z := 65536.
Definition PAGE_TABLE_HASH_SIZE : Z := 131072.
Definition LIMINE_MEMMAP_USABLE : Z := 0.
Definition PMM_MIN_PHYS : Z := 0x01000000.
Definition PTE_P : Z := 0x001.
Definition PTE_W : Z := 0x002.
Definition PTE_PS : Z := 0x80.
Definition PTE_ADDR_MASK : Z := 0x000FFFFFFFFFF000.
Definition PMM_TRACK_LIMIT : Z := 0x100000000.

Record limine_memmap_entry := MemmapEntry { e_base : Z; e_length : Z; e_type : Z }.

(** [struct limine_memmap_entry **entries] with its [count]: the outer option
    is the NULL array, the inner one a NULL element. *)
Definition memmap : Type := option (list (option limine_memmap_entry)).

Definition memmap_list (entries : memmap) : list (option limine_memmap_entry) :=
  match entries with Some l => l | None => [] end.

Record pmm_region := PmmRegion { r_base : Z; r_end : Z; r_next : Z; r_free_head : Z }.

Record pmm := Pmm {
  regions : list pmm_region;
  reserved_pages : list Z;
  seen_page_tables : gmap Z Z;
  seen_page_table_count : Z;
  g_hhdm : Z;
  g_free_pages : Z;
  g_kernel_base : Z;
  g_kernel_end : Z;
  g_total_pages : Z;
  page_state : gmap Z Z;
  reserved_state : gmap Z Z;
  page_refs : gmap Z Z;
  g_ready : bool
}.

(** An array element; elements never written hold the 0 of [.bss]. *)
Definition arr (a : gmap Z Z) (i : Z) : Z := default 0 (a !! i).

Definition region_count (st : pmm) : Z := Z.of_nat (length (regions st)).
Definition reserved_count (st : pmm) : Z := Z.of_nat (length (reserved_pages st)).

Definition set_regions (v : list pmm_region) (st : pmm) : pmm :=
  Pmm v (reserved_pages st) (seen_page_tables st) (seen_page_table_count st) (g_hhdm st)
    (g_free_pages st) (g_kernel_base st) (g_kernel_end st) (g_total_pages st) (page_state st)
    (reserved_state st) (page_refs st) (g_ready st).
Definition set_reserved_pages (v : list Z) (st : pmm) : pmm :=
  Pmm (regions st) v (seen_page_tables st) (seen_page_table_count st) (g_hhdm st)
    (g_free_pages st) (g_kernel_base st) (g_kernel_end st) (g_total_pages st) (page_state st)
    (reserved_state st) (page_refs st) (g_ready st).
Definition set_seen (t : gmap Z Z) (n : Z) (st : pmm) : pmm :=
  Pmm (regions st) (reserved_pages st) t n (g_hhdm st)
    (g_free_pages st) (g_kernel_base st) (g_kernel_end st) (g_total_pages st) (page_state st)
    (reserved_state st) (page_refs st) (g_ready st).
Definition set_free_pages (v : Z) (st : pmm) : pmm :=
  Pmm (regions st) (reserved_pages st) (seen_page_tables st) (seen_page_table_count st) (g_hhdm st)
    v (g_kernel_base st) (g_kernel_end st) (g_total_pages st) (page_state st)
    (reserved_state st) (page_refs st) (g_ready st).
Definition set_total_pages (v : Z) (st : pmm) : pmm :=
  Pmm (regions st) (reserved_pages st) (seen_page_tables st) (seen_page_table_count st) (g_hhdm st)
    (g_free_pages st) (g_kernel_base st) (g_kernel_end st) v (page_state st)
    (reserved_state st) (page_refs st) (g_ready st).
Definition set_page_state (v : gmap Z Z) (st : pmm) : pmm :=
  Pmm (regions st) (reserved_pages st) (seen_page_tables st) (seen_page_table_count st) (g_hhdm st)
    (g_free_pages st) (g_kernel_base st) (g_kernel_end st) (g_total_pages st) v
    (reserved_state st) (page_refs st) (g_ready st).
Definition set_reserved_state (v : gmap Z Z) (st : pmm) : pmm :=
  Pmm (regions st) (reserved_pages st) (seen_page_tables st) (seen_page_table_count st) (g_hhdm st)
    (g_free_pages st) (g_kernel_base st) (g_kernel_end st) (g_total_pages st) (page_state st)
    v (page_refs st) (g_ready st).
Definition set_page_refs (v : gmap Z Z) (st : pmm) : pmm :=
  Pmm (regions st) (reserved_pages st) (seen_page_tables st) (seen_page_table_count st) (g_hhdm st)
    (g_free_pages st) (g_kernel_base st) (g_kernel_end st) (g_total_pages st) (page_state st)
    (reserved_state st) v (g_ready st).
Definition set_ready (v : bool) (st : pmm) : pmm :=
  Pmm (regions st) (reserved_pages st) (seen_page_tables st) (seen_page_table_count st) (g_hhdm st)
    (g_free_pages st) (g_kernel_base st) (g_kernel_end st) (g_total_pages st) (page_state st)
    (reserved_state st) (page_refs st) v.

(** ** Helpers of the file *)

Definition align_up (x : Z) : Z := Z.land (u64 (x + PAGE_SIZE - 1)) PAGE_MASK.
Definition align_down (x : Z) : Z := Z.land x PAGE_MASK.
Definition page_of (x : Z) : Z := Z.land x PAGE_MASK.
Definition tracked (phys : Z) : bool := phys <? PMM_TRACK_LIMIT.

Definition page_is_allocated (st : pmm) (phys : Z) : bool :=
  if negb (tracked phys) then true
  else
    let n := phys / PAGE_SIZE in
    has (Z.shiftr (arr (page_state st) (Z.shiftr n 6)) (Z.land n 63)) 1.

Definition page_set_allocated (phys : Z) (allocated : bool) (st : pmm) : pmm :=
  if negb (tracked phys) then st
  else
    let n := phys / PAGE_SIZE in
    let mask := Z.shiftl 1 (Z.land n 63) in
    let i := Z.shiftr n 6 in
    let w := arr (page_state st) i in
    set_page_state (<[i := if allocated then Z.lor w mask else Z.land w (not64 mask)]> (page_state st)) st.

Definition page_is_reserved_fast (st : pmm) (phys : Z) : bool :=
  if negb (tracked phys) then false
  else
    let n := phys / PAGE_SIZE in
    has (Z.shiftr (arr (reserved_state st) (Z.shiftr n 6)) (Z.land n 63)) 1.

Definition page_set_reserved (phys : Z) (st : pmm) : pmm :=
  if negb (tracked phys) then st
  else
    let n := phys / PAGE_SIZE in
    let i := Z.shiftr n 6 in
    set_reserved_state
      (<[i := Z.lor (arr (reserved_state st) i) (Z.shiftl 1 (Z.land n 63))]> (reserved_state st)) st.

Definition in_region (phys : Z) (r : pmm_region) : bool := (r_base r <=? phys) && (phys <? r_end r).

Definition phys_in_usable_region (st : pmm) (phys : Z) : bool :=
  existsb (in_region phys) (regions st).

(** [if (g_free_pages) --g_free_pages;] *)
Definition dec_free (st : pmm) : pmm :=
  if g_free_pages st =? 0 then st else set_free_pages (g_free_pages st - 1) st.

Definition reserve_page (phys : Z) (st : pmm) : bool * pmm :=
  let phys := page_of phys in
  if (phys =? 0) || (2 ^ 52 <=? phys) then (false, st)
  else if page_is_reserved_fast st phys then (false, st)
  else if MAX_RESERVED_PAGES <=? reserved_count st then (false, st)
  else
    let st := set_reserved_pages (reserved_pages st ++ [phys]) st in
    let st := page_set_reserved phys st in
    if g_ready st && phys_in_usable_region st phys && negb (page_is_allocated st phys)
    then (true, dec_free (page_set_allocated phys true st))
    else (true, st).

(** The loop [for (p = start; p < end; p += PAGE_SIZE)] of pmm_reserve_range,
    with its [break] before [p] would wrap. *)
Fixpoint reserve_loop (fuel : nat) (p last : Z) (st : pmm) : pmm :=
  match fuel with
  | O => st
  | S fuel =>
      if p <? last then
        let st := snd (reserve_page p st) in
        if UINT64_MAX - PAGE_SIZE <? p then st
        else reserve_loop fuel (p + PAGE_SIZE) last st
      else st
  end.

(** The pages of [start, last), which is how often such a loop runs. *)
Definition page_steps (start last : Z) : nat :=
  Z.to_nat ((last - start + PAGE_SIZE - 1) / PAGE_SIZE).

Definition pmm_reserve_range (base len : Z) (st : pmm) : pmm :=
  if len =? 0 then st
  else
    let start := page_of base in
    let last := align_up (u64 (base + len)) in
    if last <? base then st
    else reserve_loop (page_steps start last) start last st.

Definition is_reserved (st : pmm) (phys : Z) : bool := page_is_reserved_fast st (page_of phys).

Definition entry_describes (phys : Z) (e : option limine_memmap_entry) : bool :=
  match e with
  | None => false
  | Some e =>
      if (e_length e =? 0) || (UINT64_MAX - e_length e <? e_base e) then false
      else (e_base e <=? phys) && (u64 (phys - e_base e) <? e_length e)
  end.

Definition phys_is_described (phys : Z) (entries : memmap) : bool :=
  existsb (entry_describes phys) (memmap_list entries).

(** ** The page-table hash set *)

Fixpoint seen_probe (probes : nat) (slot phys : Z) (st : pmm) : bool * pmm :=
  match probes with
  | O => (true, st)
  | S probes =>
      let old := arr (seen_page_tables st) slot in
      if old =? phys then (true, st)
      else if old =? 0 then
        (false, set_seen (<[slot := phys]> (seen_page_tables st)) (seen_page_table_count st + 1) st)
      else seen_probe probes (Z.land (slot + 1) (PAGE_TABLE_HASH_SIZE - 1)) phys st
  end.

Definition seen_slot (phys : Z) : Z :=
  Z.land (u64 (Z.shiftr phys 12 * 11400714819323198485)) (PAGE_TABLE_HASH_SIZE - 1).

Definition page_table_seen (phys : Z) (st : pmm) : bool * pmm :=
  if MAX_PAGE_TABLES <=? seen_page_table_count st then (true, st)
  else seen_probe (Z.to_nat PAGE_TABLE_HASH_SIZE) (seen_slot phys) phys st.

Definition pmm_phys_to_virt (st : pmm) (phys : Z) : option Z :=
  if g_hhdm st =? 0 then None
  else if UINT64_MAX - g_hhdm st <? phys then None
  else
    let va := g_hhdm st + phys in
    if negb (Z.shiftr va 48 =? 0xFFFF) then None else Some va.

(** ** Start of day *)

Section Tables.
  Variable mem : gmap Z Z.
  Variable entries : memmap.

Fixpoint reserve_page_table_tree (level : nat) (table_phys : Z) (st : pmm) : pmm :=
  let table_phys := page_of table_phys in
  match level with
  | O => st
  | S below =>
      if (table_phys =? 0) || (PTE_ADDR_MASK <? table_phys) then st
      else if negb (phys_is_described table_phys entries) then st
      else
        let '(seen, st) := page_table_seen table_phys st in
        if seen then st
        else
          let st := snd (reserve_page table_phys st) in
          match pmm_phys_to_virt st table_phys with
          | None => st
          | Some _ =>
              foldl (fun st i =>
                let e := arr mem (table_phys + 8 * i) in
                if negb (has e PTE_P) || (level =? 1)%nat then st
                else if ((level =? 3)%nat || (level =? 2)%nat) && has e PTE_PS then st
                else
                  let child := Z.land e PTE_ADDR_MASK in
                  if negb (child =? 0) && phys_is_described child entries
                  then reserve_page_table_tree below child st
                  else st) st (seqZ 0 512)
          end
  end.

Definition reserve_active_page_tables (cr3 : Z) (st : pmm) : pmm :=
  reserve_page_table_tree 4 cr3 (set_seen ∅ 0 st).

End Tables.

Definition add_memmap_region (st : pmm) (e : option limine_memmap_entry) : pmm :=
  if region_count st <? MAX_REGIONS then
    match e with
    | None => st
    | Some e =>
        if negb (e_type e =? LIMINE_MEMMAP_USABLE) || (e_length e <? PAGE_SIZE) then st
        else
          let start := e_base e in
          let last := u64 (e_base e + e_length e) in
          if last <? e_base e then st
          else
            let start := align_up start in
            let last := align_down last in
            let start := if start <? PMM_MIN_PHYS then PMM_MIN_PHYS else start in
            let last := if PMM_TRACK_LIMIT <? last then PMM_TRACK_LIMIT else last in
            if last <=? start then st
            else
              let n := (last - start) / PAGE_SIZE in
              set_total_pages (u64 (g_total_pages st + n))
                (set_free_pages (u64 (g_free_pages st + n))
                  (set_regions (regions st ++ [PmmRegion start last start 0]) st))
    end
  else st.

(** One round of pmm_init's last loop, over the recorded reserved pages. *)
Definition init_mark_reserved (st : pmm) (rp : Z) : pmm :=
  let st := if rp <? PMM_TRACK_LIMIT then page_set_allocated rp true st else st in
  if phys_in_usable_region st rp then dec_free st else st.

(** pmm_init's loop over the pages of the kernel image. *)
Definition reserve_kernel_image (st : pmm) : pmm :=
  if (g_kernel_base st <? g_kernel_end st) && (g_kernel_end st - g_kernel_base st <? 2 ^ 40)
  then foldl (fun st p => snd (reserve_page p st)) st
         ((fun i => g_kernel_base st + PAGE_SIZE * i) <$>
            seqZ 0 ((g_kernel_end st - g_kernel_base st) / PAGE_SIZE))
  else st.

Definition pmm_init (mem : gmap Z Z) (cr3 : Z) (entries : memmap) (hhdm kernel_base kernel_end : Z)
    (st : pmm) : pmm :=
  let st := Pmm [] [] (seen_page_tables st) (seen_page_table_count st) hhdm 0
              (align_down kernel_base) (align_up kernel_end) 0 ∅ ∅ ∅ false in
  match entries with
  | None => st
  | Some l =>
      if hhdm =? 0 then st
      else
        let st := foldl add_memmap_region st l in
        let st := reserve_kernel_image st in
        let st := reserve_active_page_tables mem entries cr3 st in
        let st := foldl init_mark_reserved st (reserved_pages st) in
        set_ready (negb (region_count st =? 0)) st
  end.

(** ** Allocation *)

Definition set_region_next (i : nat) (v : Z) (st : pmm) : pmm :=
  set_regions (alter (fun r => PmmRegion (r_base r) (r_end r) v (r_free_head r)) i (regions st)) st.

(** [page_set_allocated(p, true); page_refs[p / PAGE_SIZE] = 1;] and the
    decrement of the free counter. *)
Definition take_page (p : Z) (st : pmm) : pmm :=
  let st := page_set_allocated p true st in
  dec_free (set_page_refs (<[p / PAGE_SIZE := 1]> (page_refs st)) st).

Definition unusable (st : pmm) (p : Z) : bool :=
  (PMM_TRACK_LIMIT <=? p) || (p <? PMM_MIN_PHYS) || is_reserved st p.

(** The [while (p < r->end)] loop from the region's [next] pointer. *)
Fixpoint alloc_scan_next (fuel i : nat) (last p : Z) (st : pmm) : option Z * pmm :=
  match fuel with
  | O => (None, st)
  | S fuel =>
      if p <? last then
        let st := set_region_next i (p + PAGE_SIZE) st in
        if unusable st p then alloc_scan_next fuel i last (p + PAGE_SIZE) st
        else if page_is_allocated st p then alloc_scan_next fuel i last (p + PAGE_SIZE) st
        else (Some p, take_page p st)
      else (None, st)
  end.

(** The [for (p = r->base; p < r->end; ...)] rescan of the region. *)
Fixpoint alloc_rescan (fuel i : nat) (last p : Z) (st : pmm) : option Z * pmm :=
  match fuel with
  | O => (None, st)
  | S fuel =>
      if p <? last then
        if unusable st p then alloc_rescan fuel i last (p + PAGE_SIZE) st
        else if negb (page_is_allocated st p)
        then (Some p, set_region_next i (p + PAGE_SIZE) (take_page p st))
        else alloc_rescan fuel i last (p + PAGE_SIZE) st
      else (None, st)
  end.

Definition alloc_from_region (i : nat) (st : pmm) : option Z * pmm :=
  match regions st !! i with
  | None => (None, st)
  | Some r =>
      match alloc_scan_next (page_steps (r_next r) (r_end r)) i (r_end r) (r_next r) st with
      | (Some p, st) => (Some p, st)
      | (None, st) => alloc_rescan (page_steps (r_base r) (r_end r)) i (r_end r) (r_base r) st
      end
  end.

Fixpoint alloc_regions (n i : nat) (st : pmm) : option Z * pmm :=
  match n with
  | O => (None, st)
  | S n =>
      match alloc_from_region i st with
      | (Some p, st) => (Some p, st)
      | (None, st) => alloc_regions n (S i) st
      end
  end.

(** The C function gives 0 when there is no page. *)
Definition pmm_alloc_page (st : pmm) : Z * pmm :=
  if negb (g_ready st) || (g_hhdm st =? 0) then (0, st)
  else
    match alloc_regions (length (regions st)) 0 st with
    | (Some p, st) => (p, st)
    | (None, st) => (0, st)
    end.

(** The body of pmm_free_page once the region of [phys] is found. *)
Definition drop_ref (phys : Z) (st : pmm) : pmm :=
  if negb (page_is_allocated st phys) then st
  else
    let idx := phys / PAGE_SIZE in
    let refs := arr (page_refs st) idx in
    if 1 <? refs then set_page_refs (<[idx := u16 (refs - 1)]> (page_refs st)) st
    else
      let st := set_page_refs (<[idx := 0]> (page_refs st)) st in
      let st := page_set_allocated phys false st in
      set_free_pages (u64 (g_free_pages st + 1)) st.

Fixpoint free_in_regions (phys : Z) (rs : list pmm_region) (st : pmm) : pmm :=
  match rs with
  | [] => st
  | r :: rs =>
      if negb (in_region phys r) then free_in_regions phys rs st
      else drop_ref phys st
  end.

Definition pmm_free_page (phys : Z) (st : pmm) : pmm :=
  let phys := page_of phys in
  if negb (g_ready st) || (phys =? 0) || (2 ^ 52 <=? phys) || is_reserved st phys then st
  else if PMM_TRACK_LIMIT <=? phys then st
  else free_in_regions phys (regions st) st.

Definition pmm_page_refcount (st : pmm) (phys : Z) : Z :=
  let phys := page_of phys in
  if negb (g_ready st) || (phys =? 0) || (PMM_TRACK_LIMIT <=? phys) then 0
  else arr (page_refs st) (phys / PAGE_SIZE).

Definition pmm_page_is_reserved (st : pmm) (phys : Z) : Z :=
  if is_reserved st (page_of phys) then 1 else 0.

Definition pmm_retain_page (phys : Z) (st : pmm) : Z * pmm :=
  let phys := page_of phys in
  if negb (g_ready st) || (phys =? 0) || (PMM_TRACK_LIMIT <=? phys) || is_reserved st phys then (-1, st)
  else if negb (page_is_allocated st phys) then (-1, st)
  else
    let idx := phys / PAGE_SIZE in
    let refs := arr (page_refs st) idx in
    if refs =? UINT16_MAX then (-1, st)
    else if refs =? 0 then (0, set_page_refs (<[idx := 1]> (page_refs st)) st)
    else (0, set_page_refs (<[idx := u16 (refs + 1)]> (page_refs st)) st).

Definition pmm_free_count (st : pmm) : Z := g_free_pages st.
Definition pmm_total_count (st : pmm) : Z := g_total_pages st.
Definition pmm_hhdm (st : pmm) : Z := g_hhdm st.

(** ** Operations that touch the page itself *)

Definition zero_words (phys : Z) (n : Z) (mem : gmap Z Z) : gmap Z Z :=
  foldl (fun mem i => <[phys + 8 * i := 0]> mem) mem (seqZ 0 n).

Definition pmm_alloc_zeroed (s : pmm * gmap Z Z) : Z * (pmm * gmap Z Z) :=
  let '(st, mem) := s in
  let '(phys, st) := pmm_alloc_page st in
  if phys =? 0 then (0, (st, mem))
  else
    match pmm_phys_to_virt st phys with
    | None => (0, (pmm_free_page phys st, mem))
    | Some _ => (phys, (st, zero_words phys 512 mem))
    end.

Definition SELFTEST_WORD : Z := 0x594142524f4f5348.

Definition pmm_hhdm_selftest (s : pmm * gmap Z Z) : Z * (pmm * gmap Z Z) :=
  let '(st, mem) := s in
  if negb (g_ready st) || (g_hhdm st =? 0) then (-1, (st, mem))
  else
    let '(phys, st) := pmm_alloc_page st in
    if phys =? 0 then (-1, (st, mem))
    else
      match pmm_phys_to_virt st phys with
      | None => (-1, (st, mem))
      | Some _ =>
          let mem := <[phys := SELFTEST_WORD]> mem in
          if negb (arr mem phys =? SELFTEST_WORD) then (-1, (st, mem))
          else (0, (st, <[phys := 0]> mem))
      end.
