(* ===== verification/PmmFacts.v ===== *)
(** * Correctness of the physical memory manager

    The bitmap operations are those of a set of pages; the invariant
    [pmm_wf] (regions, free counter, reserved pages, reference counts) holds
    after [pmm_init] and is kept by every operation; the allocator refines an
    abstract map from pages to reference counts, the pool of the last part,
    with the simulation between the two. *)

From S2P Require Import Prelude Words Pmm.
Local Open Scope Z_scope.

(** ** Bitmaps *)

Definition page_no (p : Z) : Z := p / PAGE_SIZE.

Lemma bitmap_set (b : gmap Z Z) n m (v : bool) : 0 <= n -> 0 <= m ->
  let w := arr b (Z.shiftr n 6) in
  let mask := Z.shiftl 1 (Z.land n 63) in
  has (Z.shiftr (arr (<[Z.shiftr n 6 := if v then Z.lor w mask else Z.land w (not64 mask)]> b)
         (Z.shiftr m 6)) (Z.land m 63)) 1
  = if n =? m then v else has (Z.shiftr (arr b (Z.shiftr m 6)) (Z.land m 63)) 1.
Proof.
  intros Hn Hm w mask. pose proof (land_63_range n). pose proof (land_63_range m).
  rewrite !has_shiftr_1 by lia. unfold arr at 1. rewrite lookup_insert.
  destruct (Z.eqb_spec n m) as [<-|Hne].
  - rewrite decide_True by done. cbn [from_option id]. subst mask. destruct v.
    + rewrite Z.lor_spec, testbit_shiftl_1, Z.eqb_refl by lia. apply orb_true_r.
    + rewrite Z.land_spec, testbit_not64, testbit_shiftl_1, Z.eqb_refl by lia.
      rewrite (proj2 (Z.ltb_lt _ 64)) by lia. apply andb_false_r.
  - case_decide as Hw; [|done]. cbn [from_option id].
    assert (Hk : (Z.land n 63 =? Z.land m 63) = false).
    { apply Z.eqb_neq. intros Hk. by apply Hne, word_index_inj. }
    subst w mask. rewrite <- Hw. destruct v.
    + rewrite Z.lor_spec, testbit_shiftl_1, Hk by lia. apply orb_false_r.
    + rewrite Z.land_spec, testbit_not64, testbit_shiftl_1, Hk by lia.
      rewrite (proj2 (Z.ltb_lt _ 64)) by lia. apply andb_true_r.
Qed.

Lemma page_no_nonneg p : 0 <= p -> 0 <= p / PAGE_SIZE.
Proof. intros. apply Z.div_pos; unfold PAGE_SIZE; lia. Qed.

Lemma page_is_allocated_set st p q v : 0 <= p < PMM_TRACK_LIMIT -> 0 <= q < PMM_TRACK_LIMIT ->
  page_is_allocated (page_set_allocated p v st) q
  = if p / PAGE_SIZE =? q / PAGE_SIZE then v else page_is_allocated st q.
Proof.
  intros Hp Hq. unfold page_is_allocated, page_set_allocated, tracked.
  rewrite !(proj2 (Z.ltb_lt _ _)) by lia. cbn [negb page_state set_page_state].
  rewrite bitmap_set by (apply page_no_nonneg; lia). done.
Qed.

Lemma page_is_reserved_set st p q : 0 <= p < PMM_TRACK_LIMIT -> 0 <= q < PMM_TRACK_LIMIT ->
  page_is_reserved_fast (page_set_reserved p st) q
  = (p / PAGE_SIZE =? q / PAGE_SIZE) || page_is_reserved_fast st q.
Proof.
  intros Hp Hq. unfold page_is_reserved_fast, page_set_reserved, tracked.
  rewrite !(proj2 (Z.ltb_lt _ _)) by lia. cbn [negb reserved_state set_reserved_state].
  pose proof (bitmap_set (reserved_state st) (p / PAGE_SIZE) (q / PAGE_SIZE) true) as Hb.
  cbn zeta iota in Hb. rewrite Hb by (apply page_no_nonneg; lia).
  by destruct (_ =? _).
Qed.

(** ** Pages and regions *)

Definition page_range (b e : Z) : list Z := (fun i => b + PAGE_SIZE * i) <$> seqZ 0 ((e - b) / PAGE_SIZE).

Definition pages_of (rs : list pmm_region) : list Z := rs ≫= (fun r => page_range (r_base r) (r_end r)).

Definition region_pages (st : pmm) : list Z := pages_of (regions st).

(** The pages pmm_alloc_page may hand out. *)
Definition managed (st : pmm) (p : Z) : Prop := p ∈ region_pages st /\ is_reserved st p = false.

Definition free_list (st : pmm) : list Z := filter (fun p => page_is_allocated st p = false) (region_pages st).

Definition refs_of (st : pmm) (p : Z) : Z := arr (page_refs st) (p / PAGE_SIZE).

Record region_ok (r : pmm_region) : Prop := {
  ro_base : PMM_MIN_PHYS <= r_base r;
  ro_lt : r_base r < r_end r;
  ro_end : r_end r <= PMM_TRACK_LIMIT;
  ro_base_al : r_base r mod PAGE_SIZE = 0;
  ro_end_al : r_end r mod PAGE_SIZE = 0;
  ro_next : r_base r <= r_next r <= r_end r;
  ro_next_al : r_next r mod PAGE_SIZE = 0
}.

Record pmm_wf (st : pmm) : Prop := {
  wf_ready : g_ready st = true;
  wf_regions : Forall region_ok (regions st);
  wf_nodup : NoDup (region_pages st);
  wf_free : g_free_pages st = Z.of_nat (length (free_list st));
  wf_resv : forall p, p ∈ region_pages st -> is_reserved st p = true -> page_is_allocated st p = true;
  wf_refs : forall p, managed st p -> page_is_allocated st p = true <-> 1 <= refs_of st p;
  wf_refs_range : forall i, 0 <= arr (page_refs st) i <= UINT16_MAX;
  wf_outside : forall p, p mod PAGE_SIZE = 0 -> 0 <= p < PMM_TRACK_LIMIT -> page_is_allocated st p = true ->
    p ∈ region_pages st \/ is_reserved st p = true;
  wf_hhdm : g_hhdm st <> 0
}.

(** A page frame the bitmaps track. *)
Definition is_page (p : Z) : Prop := p mod PAGE_SIZE = 0 /\ 0 <= p < PMM_TRACK_LIMIT.

Lemma elem_of_page_range p b e : b mod PAGE_SIZE = 0 -> e mod PAGE_SIZE = 0 ->
  p ∈ page_range b e <-> p mod PAGE_SIZE = 0 /\ b <= p < e.
Proof.
  intros Hb He. unfold page_range. rewrite list_elem_of_fmap. setoid_rewrite elem_of_seqZ.
  unfold PAGE_SIZE in *. split.
  - intros (i & -> & Hi). dlia.
  - intros [Hp Hr]. exists ((p - b) / 0x1000). dlia.
Qed.

Lemma page_range_nodup b e : NoDup (page_range b e).
Proof.
  unfold page_range. apply NoDup_fmap_2; [|apply NoDup_seqZ].
  intros x y Hxy. unfold PAGE_SIZE in Hxy. lia.
Qed.

Lemma elem_of_pages_of p rs : Forall region_ok rs ->
  p ∈ pages_of rs <-> p mod PAGE_SIZE = 0 /\ exists r, r ∈ rs /\ in_region p r = true.
Proof.
  intros Hrs. unfold pages_of, in_region. rewrite list_elem_of_bind.
  rewrite Forall_forall in Hrs. setoid_rewrite andb_true_iff.
  setoid_rewrite Z.leb_le. setoid_rewrite Z.ltb_lt. split.
  - intros (r & Hp & Hr). destruct (Hrs r Hr). apply elem_of_page_range in Hp; [|done..].
    naive_solver.
  - intros (Ha & r & Hr & Hp). destruct (Hrs r Hr). exists r.
    split; [|done]. by apply elem_of_page_range.
Qed.

Lemma region_page_range st p : Forall region_ok (regions st) -> p ∈ region_pages st ->
  p mod PAGE_SIZE = 0 /\ PMM_MIN_PHYS <= p < PMM_TRACK_LIMIT.
Proof.
  intros Hrs Hp. apply elem_of_pages_of in Hp as [Ha (r & Hr & Hin)]; [|done].
  rewrite Forall_forall in Hrs. destruct (Hrs r Hr).
  unfold in_region in Hin. apply andb_true_iff in Hin as [H1%Z.leb_le H2%Z.ltb_lt].
  split; [done | lia].
Qed.

Lemma region_page_is_page st p : Forall region_ok (regions st) -> p ∈ region_pages st -> is_page p.
Proof.
  intros Hrs Hp. destruct (region_page_range st p Hrs Hp). split; [done|]. unfold PMM_MIN_PHYS in *. lia.
Qed.

Lemma usable_region_pages st p : Forall region_ok (regions st) -> p mod PAGE_SIZE = 0 ->
  phys_in_usable_region st p = true <-> p ∈ region_pages st.
Proof.
  intros Hrs Ha. unfold phys_in_usable_region, region_pages.
  rewrite elem_of_pages_of by done. rewrite existsb_exists.
  setoid_rewrite <- list_elem_of_In. naive_solver.
Qed.

Lemma page_of_page p : is_page p -> page_of p = p.
Proof.
  intros [Ha Hr]. apply land_PAGE_MASK_aligned; [|done]. unfold PMM_TRACK_LIMIT in *. lia.
Qed.

Lemma page_no_inj p q : is_page p -> is_page q -> (p / PAGE_SIZE =? q / PAGE_SIZE) = (p =? q).
Proof.
  intros [Ha _] [Hb _]. unfold PAGE_SIZE in *.
  destruct (Z.eqb_spec p q) as [->|Hne]; [by apply Z.eqb_refl|].
  apply Z.eqb_neq. dlia.
Qed.

Lemma is_page_tracked p : is_page p -> 0 <= p < PMM_TRACK_LIMIT.
Proof. by intros [_ ?]. Qed.

Lemma allocated_set st p q v : is_page p -> is_page q ->
  page_is_allocated (page_set_allocated p v st) q = if p =? q then v else page_is_allocated st q.
Proof.
  intros Hp Hq. rewrite page_is_allocated_set by (by apply is_page_tracked).
  by rewrite page_no_inj.
Qed.

Lemma is_reserved_set st p q : is_page p -> is_page q ->
  is_reserved (page_set_reserved p st) q = (p =? q) || is_reserved st q.
Proof.
  intros Hp Hq. unfold is_reserved. rewrite !(page_of_page q) by done.
  rewrite page_is_reserved_set by (by apply is_page_tracked). by rewrite page_no_inj.
Qed.

Lemma arr_insert a i j v : arr (<[i := v]> a) j = if i =? j then v else arr a j.
Proof.
  unfold arr. rewrite lookup_insert. destruct (Z.eqb_spec i j); [by rewrite decide_True|].
  by rewrite decide_False.
Qed.

(** ** What each update leaves alone *)

(** Two states that agree on everything the invariant reads. *)
Definition same_frame (st st' : pmm) : Prop :=
  regions st' = regions st /\ reserved_state st' = reserved_state st /\
  g_ready st' = g_ready st /\ g_hhdm st' = g_hhdm st /\ g_total_pages st' = g_total_pages st.

Ltac frame_tac :=
  repeat match goal with
    | |- context [if ?b then _ else _] => destruct b
    end; repeat split.

Lemma dec_free_frame st : same_frame st (dec_free st) /\ page_state (dec_free st) = page_state st /\
  page_refs (dec_free st) = page_refs st.
Proof. unfold dec_free. frame_tac. Qed.

Lemma take_page_frame p st : same_frame st (take_page p st).
Proof. unfold take_page, dec_free, page_set_allocated. frame_tac. Qed.

Lemma take_page_allocated p q st : is_page p -> is_page q ->
  page_is_allocated (take_page p st) q = (p =? q) || page_is_allocated st q.
Proof.
  intros Hp Hq. unfold take_page.
  set (st' := page_set_allocated p true st).
  transitivity (page_is_allocated st' q).
  { unfold page_is_allocated. by rewrite (proj1 (proj2 (dec_free_frame _))). }
  unfold st'. rewrite allocated_set by done. by destruct (p =? q).
Qed.

Lemma take_page_refs p q st : is_page p -> is_page q ->
  refs_of (take_page p st) q = if p =? q then 1 else refs_of st q.
Proof.
  intros Hp Hq. unfold take_page, refs_of.
  rewrite (proj2 (proj2 (dec_free_frame _))). cbn [page_refs set_page_refs].
  rewrite arr_insert, page_no_inj by done.
  unfold page_set_allocated. by destruct (negb (tracked p)).
Qed.

Lemma same_frame_reserved st st' p : same_frame st st' -> is_reserved st' p = is_reserved st p.
Proof. intros (_ & H & _). unfold is_reserved, page_is_reserved_fast. by rewrite H. Qed.

Lemma same_frame_pages st st' : same_frame st st' -> region_pages st' = region_pages st.
Proof. intros (H & _). unfold region_pages. by rewrite H. Qed.

Lemma same_frame_managed st st' p : same_frame st st' -> managed st' p <-> managed st p.
Proof. intros H. unfold managed. by rewrite (same_frame_pages st st'), (same_frame_reserved st st'). Qed.

Lemma free_list_elem st p : p ∈ free_list st <-> page_is_allocated st p = false /\ p ∈ region_pages st.
Proof. unfold free_list. by rewrite list_elem_of_filter. Qed.

Lemma managed_page st p : pmm_wf st -> managed st p -> is_page p.
Proof. intros Hwf [Hp _]. eapply region_page_is_page; [apply Hwf | done]. Qed.

(** A page leaves the free list. *)
Lemma free_list_remove st st' p : NoDup (region_pages st) -> region_pages st' = region_pages st ->
  p ∈ free_list st ->
  (forall q, q ∈ region_pages st -> page_is_allocated st' q = (p =? q) || page_is_allocated st q) ->
  length (free_list st) = S (length (free_list st')).
Proof.
  intros Hnd Hrp Hp Hq. apply free_list_elem in Hp as [Hp Hin]. unfold free_list. rewrite Hrp.
  apply length_filter_remove with (p := p); try done.
  intros q Hin'. rewrite Hq by done. destruct (Z.eqb_spec p q); subst; cbn; naive_solver.
Qed.

Lemma take_page_free st p : pmm_wf st -> p ∈ free_list st ->
  g_free_pages (take_page p st) = Z.of_nat (length (free_list (take_page p st))) /\
  g_free_pages st = g_free_pages (take_page p st) + 1.
Proof.
  intros Hwf Hp. pose proof Hp as Hp'. apply free_list_elem in Hp' as [_ Hrp].
  pose proof (region_page_is_page st p (wf_regions _ Hwf) Hrp) as Hpage.
  assert (Hlen : length (free_list st) = S (length (free_list (take_page p st)))).
  { apply free_list_remove with (p := p); try done; [apply Hwf|..].
    - apply same_frame_pages, take_page_frame.
    - intros q Hq. apply take_page_allocated; [done|].
      eapply region_page_is_page; [apply Hwf|done]. }
  assert (Hg : g_free_pages (take_page p st) = g_free_pages st - 1).
  { pose proof (wf_free _ Hwf). unfold take_page.
    assert (Hs : g_free_pages (page_set_allocated p true st) = g_free_pages st)
      by (unfold page_set_allocated; frame_tac).
    unfold dec_free. cbn [g_free_pages set_page_refs]. rewrite Hs.
    destruct (Z.eqb_spec (g_free_pages st) 0); [lia|]. done. }
  rewrite Hg, (wf_free _ Hwf). lia.
Qed.

(** Taking a free page keeps the invariant. *)
Lemma take_page_wf st p : pmm_wf st -> managed st p -> page_is_allocated st p = false ->
  pmm_wf (take_page p st).
Proof.
  intros Hwf Hm Hp. pose proof (managed_page st p Hwf Hm) as Hpage.
  pose proof (take_page_frame p st) as Hf. pose proof Hf as (Hr & _ & Hrd & _).
  assert (Hfl : p ∈ free_list st) by (apply free_list_elem; split; [done | apply Hm]).
  assert (Hpg : forall q, q ∈ region_pages st -> is_page q)
    by (intros q Hq; eapply region_page_is_page; [apply Hwf | done]).
  split.
  - rewrite Hrd. apply Hwf.
  - rewrite Hr. apply Hwf.
  - rewrite (same_frame_pages st) by done. apply Hwf.
  - by apply take_page_free.
  - intros q. rewrite (same_frame_pages st), (same_frame_reserved st) by done. intros Hq Hres.
    rewrite take_page_allocated by auto. rewrite (wf_resv _ Hwf q) by done. apply orb_true_r.
  - intros q. rewrite (same_frame_managed st) by done. intros Hq.
    assert (is_page q) by (apply Hpg, Hq).
    rewrite take_page_allocated, take_page_refs by done.
    destruct (Z.eqb_spec p q); cbn; [intuition lia|]. by apply Hwf.
  - intros i. unfold take_page. rewrite (proj2 (proj2 (dec_free_frame _))).
    cbn [page_refs set_page_refs]. rewrite arr_insert.
    destruct (_ =? i); [unfold UINT16_MAX; lia|].
    unfold page_set_allocated. destruct (negb (tracked p)); apply Hwf.
  - intros q Ha Hq. rewrite (same_frame_pages st), (same_frame_reserved st) by done.
    rewrite take_page_allocated by done. destruct (Z.eqb_spec p q) as [<-|]; cbn; [|by apply Hwf].
    left. apply Hm.
  - destruct Hf as (_ & _ & _ & -> & _). apply Hwf.
Qed.

(** ** The scan loops *)

Definition bounds (r : pmm_region) : Z * Z := (r_base r, r_end r).

(** Equal up to the [next] pointers. *)
Definition same_bounds (rs rs' : list pmm_region) : Prop := bounds <$> rs' = bounds <$> rs.

Lemma same_bounds_pages rs rs' : same_bounds rs rs' -> pages_of rs' = pages_of rs.
Proof.
  unfold same_bounds, pages_of, bounds. revert rs'.
  induction rs as [|r rs IH]; intros [|r' rs'] H; try done.
  cbn [fmap list_fmap] in H. injection H as Hb He H.
  cbn [mbind list_bind]. by rewrite Hb, He, IH.
Qed.

Lemma same_bounds_next (rs : list pmm_region) (i : nat) (v : Z) :
  same_bounds rs (alter (fun r => PmmRegion (r_base r) (r_end r) v (r_free_head r)) i rs).
Proof.
  unfold same_bounds. revert i. induction rs as [|r rs IH]; intros [|i]; try done.
  cbn [alter list_alter fmap list_fmap]. f_equal. apply IH.
Qed.

Lemma region_ok_next (rs : list pmm_region) (i : nat) (v : Z) (r : pmm_region) :
  Forall region_ok rs -> rs !! i = Some r -> r_base r <= v <= r_end r -> v mod PAGE_SIZE = 0 ->
  Forall region_ok (alter (fun r => PmmRegion (r_base r) (r_end r) v (r_free_head r)) i rs).
Proof.
  intros Hok Hi Hv Ha. apply Forall_alter; [done|]. intros r' Hr' []. simplify_eq. by split.
Qed.

Lemma set_regions_wf st rs : pmm_wf st -> same_bounds (regions st) rs -> Forall region_ok rs ->
  pmm_wf (set_regions rs st).
Proof.
  intros [] Hsb Hok. assert (Hrp : region_pages (set_regions rs st) = region_pages st)
    by (by apply same_bounds_pages).
  split; try done.
  - by rewrite Hrp.
  - unfold free_list. rewrite Hrp. apply wf_free0.
  - intros p. rewrite Hrp. apply wf_resv0.
  - intros p [Hp Hr]. rewrite Hrp in Hp. by apply wf_refs0.
  - intros p. rewrite Hrp. apply wf_outside0.
Qed.

(** What a scan gives back: the state with moved [next] pointers and, when a
    page [q] of [p, last) was found, that page taken. *)
Definition scan_result (st : pmm) (p last : Z) (res : option Z * pmm) : Prop :=
  exists rs, same_bounds (regions st) rs /\ Forall region_ok rs /\
  match res with
  | (None, st') => st' = set_regions rs st
  | (Some q, st') =>
      q mod PAGE_SIZE = 0 /\ p <= q < last /\ unusable st q = false /\
      page_is_allocated st q = false /\ st' = take_page q (set_regions rs st)
  end.

Lemma scan_next_spec fuel i last p st r :
  regions st !! i = Some r -> r_end r = last -> Forall region_ok (regions st) ->
  r_base r <= p -> p mod PAGE_SIZE = 0 ->
  scan_result st p last (alloc_scan_next fuel i last p st).
Proof.
  revert p st r. induction fuel as [|fuel IH]; intros p st r Hi Hl Hok Hp Ha;
    cbn [alloc_scan_next].
  { exists (regions st). split; [reflexivity|]. split; [done|]. by destruct st. }
  destruct (Z.ltb_spec p last) as [Hlt|];
    [|exists (regions st); split; [reflexivity|]; split; [done|]; by destruct st].
  assert (Hr : region_ok r) by (eapply Forall_lookup_1; done).
  assert (Hn : p + PAGE_SIZE <= last /\ (p + PAGE_SIZE) mod PAGE_SIZE = 0).
  { destruct Hr. unfold PAGE_SIZE in *. dlia. }
  set (st1 := set_region_next i (p + PAGE_SIZE) st).
  assert (Hok1 : Forall region_ok (regions st1))
    by (apply region_ok_next with r; try done; unfold PAGE_SIZE in *; lia).
  pose proof (same_bounds_next (regions st) i (p + PAGE_SIZE)) as Hsb.
  assert (Hrec : scan_result st p last (alloc_scan_next fuel i last (p + PAGE_SIZE) st1)).
  { edestruct (IH (p + PAGE_SIZE) st1) as (rs & Hsb' & Hok' & Hres).
    - cbn [regions st1 set_region_next set_regions]. by rewrite list_lookup_alter_eq, Hi.
    - done.
    - done.
    - cbn [r_base]. unfold PAGE_SIZE in *. lia.
    - apply Hn.
    - exists rs. split; [etransitivity; [exact Hsb' | exact Hsb]|]. split; [done|].
      destruct (alloc_scan_next fuel i last (p + PAGE_SIZE) st1) as [[q|] st']; [|done].
      destruct Hres as (? & ? & ? & ? & ?). split_and!; try done; unfold PAGE_SIZE in *; lia. }
  change (unusable st1 p) with (unusable st p).
  change (page_is_allocated st1 p) with (page_is_allocated st p).
  destruct (unusable st p) eqn:Hu; [done|].
  destruct (page_is_allocated st p) eqn:Hal; [done|].
  exists (regions st1). split_and!; try done; lia.
Qed.

Lemma set_region_next_take i v q st :
  set_region_next i v (take_page q st) = take_page q (set_region_next i v st).
Proof.
  unfold take_page, dec_free, page_set_allocated, set_region_next. destruct st.
  destruct (negb (tracked q)); cbn; by destruct (_ =? 0).
Qed.

Lemma rescan_spec fuel i last p st r :
  regions st !! i = Some r -> r_end r = last -> Forall region_ok (regions st) ->
  r_base r <= p -> p mod PAGE_SIZE = 0 -> (page_steps p last <= fuel)%nat ->
  scan_result st p last (alloc_rescan fuel i last p st) /\
  (fst (alloc_rescan fuel i last p st) = None ->
   forall q, q mod PAGE_SIZE = 0 -> p <= q < last -> unusable st q || page_is_allocated st q = true).
Proof.
  intros Hi Hl Hok. revert p. induction fuel as [|fuel IH]; intros p Hp Ha Hf; cbn [alloc_rescan].
  { split.
    - exists (regions st). split; [reflexivity|]. split; [done|]. by destruct st.
    - intros _ q Hq Hr. exfalso. unfold page_steps, PAGE_SIZE in *.
      assert (1 <= (last - p + 0x1000 - 1) / 0x1000) by dlia. lia. }
  destruct (Z.ltb_spec p last) as [Hlt|].
  2: { split; [exists (regions st); split; [reflexivity|]; split; [done|]; by destruct st | lia]. }
  assert (Hr : region_ok r) by (eapply Forall_lookup_1; done).
  assert (Hn : p + PAGE_SIZE <= last /\ (p + PAGE_SIZE) mod PAGE_SIZE = 0).
  { destruct Hr. unfold PAGE_SIZE in *. dlia. }
  assert (Hrec : unusable st p || page_is_allocated st p = true ->
    scan_result st p last (alloc_rescan fuel i last (p + PAGE_SIZE) st) /\
    (fst (alloc_rescan fuel i last (p + PAGE_SIZE) st) = None ->
     forall q, q mod PAGE_SIZE = 0 -> p <= q < last -> unusable st q || page_is_allocated st q = true)).
  { intros Hskip. destruct (IH (p + PAGE_SIZE)) as [(rs & Hsb & Hok' & Hres) Hnone].
    - unfold PAGE_SIZE in *. lia.
    - apply Hn.
    - unfold page_steps, PAGE_SIZE in *. dlia.
    - split.
      + exists rs. split_and!; try done.
        destruct (alloc_rescan fuel i last (p + PAGE_SIZE) st) as [[q|] st']; [|done].
        destruct Hres as (? & ? & ? & ? & ?). split_and!; try done; unfold PAGE_SIZE in *; lia.
      + intros HN q Hq Hpq. destruct (decide (q = p)) as [->|]; [done|].
        apply Hnone; [done..|]. unfold PAGE_SIZE in *. dlia. }
  destruct (unusable st p) eqn:Hu; [by apply Hrec|].
  destruct (page_is_allocated st p) eqn:Hal; cbn [negb]; [by apply Hrec|].
  split; [|done]. rewrite set_region_next_take.
  exists (regions (set_region_next i (p + PAGE_SIZE) st)). split_and!; try done.
  - apply same_bounds_next.
  - apply region_ok_next with r; try done; unfold PAGE_SIZE in *; lia.
Qed.

(** The outcome of a search over the regions [i, i + n). *)
Definition alloc_result (st : pmm) (i n : nat) (res : option Z * pmm) : Prop :=
  exists rs, same_bounds (regions st) rs /\ Forall region_ok rs /\
  match res with
  | (None, st') => st' = set_regions rs st /\
      forall j r q, (i <= j < i + n)%nat -> regions st !! j = Some r -> q mod PAGE_SIZE = 0 ->
        in_region q r = true -> unusable st q || page_is_allocated st q = true
  | (Some q, st') =>
      q ∈ region_pages st /\ unusable st q = false /\
      page_is_allocated st q = false /\ st' = take_page q (set_regions rs st)
  end.

Lemma same_bounds_lookup rs rs' (j : nat) r : same_bounds rs rs' -> rs !! j = Some r ->
  exists r', rs' !! j = Some r' /\ r_base r' = r_base r /\ r_end r' = r_end r.
Proof.
  intros Hsb Hj. assert (H : (bounds <$> rs') !! j = Some (bounds r))
    by (rewrite Hsb, list_lookup_fmap, Hj; done).
  rewrite list_lookup_fmap in H. destruct (rs' !! j) as [r'|]; [|done].
  exists r'. cbn in H. unfold bounds in H. injection H as -> ->. done.
Qed.

Lemma region_page_intro st (i : nat) r q : Forall region_ok (regions st) -> regions st !! i = Some r ->
  q mod PAGE_SIZE = 0 -> r_base r <= q < r_end r -> q ∈ region_pages st.
Proof.
  intros Hok Hi Ha Hq. apply elem_of_pages_of; [done|]. split; [done|]. exists r.
  split; [by eapply list_elem_of_lookup_2|]. unfold in_region.
  by rewrite (proj2 (Z.leb_le _ _)), (proj2 (Z.ltb_lt _ _)) by lia.
Qed.

Lemma alloc_from_region_spec st i : Forall region_ok (regions st) ->
  alloc_result st i 1 (alloc_from_region i st).
Proof.
  intros Hok. unfold alloc_from_region. destruct (regions st !! i) as [r|] eqn:Hi.
  2: { exists (regions st). split_and!; try done; [by destruct st|].
       intros j r q Hj Hr. replace j with i in Hr by lia. congruence. }
  assert (Hr : region_ok r) by (eapply Forall_lookup_1; done). destruct Hr eqn:Er.
  destruct (scan_next_spec (page_steps (r_next r) (r_end r)) i (r_end r) (r_next r) st r)
    as (rs & Hsb & Hok1 & Hres); try done; try lia.
  destruct (alloc_scan_next _ i _ (r_next r) st) as [[q|] st1].
  { exists rs. destruct Hres as (Ha & Hq & Hu & Hal & ->). split_and!; try done.
    apply region_page_intro with i r; try done. lia. }
  subst st1. destruct (same_bounds_lookup _ _ i r Hsb Hi) as (r' & Hi' & Hb & He).
  destruct (rescan_spec (page_steps (r_base r) (r_end r)) i (r_end r) (r_base r) (set_regions rs st) r')
    as [(rs2 & Hsb2 & Hok2 & Hres2) Hnone]; try done; try lia.
  exists rs2. split; [unfold same_bounds in *; cbn in Hsb2; congruence|]. split; [done|].
  destruct (alloc_rescan _ i _ (r_base r) _) as [[q|] st2].
  - destruct Hres2 as (Ha & Hq & Hu & Hal & ->). split_and!; try done.
    apply region_page_intro with i r; try done.
  - split; [done|]. intros j r2 q Hj Hr2 Ha Hin. replace j with i in Hr2 by lia. simplify_eq.
    apply andb_true_iff in Hin as [H1%Z.leb_le H2%Z.ltb_lt]. by apply Hnone.
Qed.

Lemma alloc_regions_spec n i st : Forall region_ok (regions st) ->
  alloc_result st i n (alloc_regions n i st).
Proof.
  revert i st. induction n as [|n IH]; intros i st Hok; cbn [alloc_regions].
  { exists (regions st). split_and!; try done; [by destruct st | lia]. }
  destruct (alloc_from_region_spec st i Hok) as (rs & Hsb & Hok1 & Hres).
  destruct (alloc_from_region i st) as [[q|] st1]; [by exists rs|].
  destruct Hres as [-> Hnone]. destruct (IH (S i) (set_regions rs st) Hok1) as (rs2 & Hsb2 & Hok2 & Hres2).
  exists rs2. split; [unfold same_bounds in *; cbn in Hsb2; congruence|]. split; [done|].
  destruct (alloc_regions n (S i) (set_regions rs st)) as [[q|] st2].
  - destruct Hres2 as (Hq & ? & ? & ->). split_and!; try done.
    change (q ∈ pages_of rs) in Hq. by rewrite (same_bounds_pages (regions st) rs) in Hq.
  - destruct Hres2 as [-> Hnone2]. split; [done|]. intros j r q Hj Hr Ha Hin.
    destruct (decide (j = i)) as [->|]; [apply Hnone with i r; by (lia || done)|].
    destruct (same_bounds_lookup _ _ j r Hsb Hr) as (r' & Hr' & Hb & He).
    apply (Hnone2 j r' q); try done; [lia|]. unfold in_region in *. by rewrite Hb, He.
Qed.

Lemma unusable_page st p : Forall region_ok (regions st) -> p ∈ region_pages st ->
  unusable st p = is_reserved st p.
Proof.
  intros Hok Hin. destruct (region_page_range st p Hok Hin) as [_ Hp]. unfold unusable.
  rewrite (proj2 (Z.leb_gt _ _)), (proj2 (Z.ltb_ge _ _)) by lia. done.
Qed.

(** pmm_alloc_page on a well-formed state: either a managed free page, taken,
    or 0 when nothing is free. *)
Lemma pmm_alloc_cases st : pmm_wf st ->
  exists rs, same_bounds (regions st) rs /\ Forall region_ok rs /\
  ((exists p, managed st p /\ page_is_allocated st p = false /\
      pmm_alloc_page st = (p, take_page p (set_regions rs st))) \/
   (free_list st = [] /\ pmm_alloc_page st = (0, set_regions rs st))).
Proof.
  intros Hwf. unfold pmm_alloc_page. rewrite (wf_ready _ Hwf). cbn [negb orb].
  rewrite (proj2 (Z.eqb_neq _ _)) by apply Hwf.
  destruct (alloc_regions_spec (length (regions st)) 0 st (wf_regions _ Hwf)) as (rs & Hsb & Hok & Hres).
  exists rs. split; [done|]. split; [done|].
  destruct (alloc_regions (length (regions st)) 0 st) as [[p|] st1].
  - left. destruct Hres as (Hp & Hu & Hal & ->). exists p. split_and!; try done.
    split; [done|]. by rewrite <- unusable_page by (done || apply Hwf).
  - right. destruct Hres as [-> Hnone]. split; [|done].
    destruct (free_list st) as [|q l] eqn:Hfl; [done|]. exfalso.
    assert (Hq : q ∈ free_list st) by (rewrite Hfl; left).
    apply free_list_elem in Hq as [Hal Hq]. pose proof Hq as Hq'.
    pose proof (region_page_is_page st q (wf_regions _ Hwf) Hq) as Hpg.
    apply elem_of_pages_of in Hq' as [Ha (r & Hr & Hin)]; [|apply Hwf].
    apply list_elem_of_lookup_1 in Hr as [j Hj].
    assert (Hnn := Hnone j r q ltac:(apply lookup_lt_Some in Hj; lia) Hj Ha Hin).
    rewrite unusable_page in Hnn by (done || apply Hwf). rewrite Hal, orb_false_r in Hnn.
    rewrite (wf_resv _ Hwf q Hq Hnn) in Hal. done.
Qed.

(** ** Dropping and taking references *)

Lemma pages_of_bound rs : Forall region_ok rs -> NoDup (pages_of rs) ->
  Z.of_nat (length (pages_of rs)) <= 1048576.
Proof.
  intros Hok Hnd.
  assert (Hlen : Z.of_nat (length (page_range 0 PMM_TRACK_LIMIT)) = 1048576).
  { unfold page_range. rewrite length_fmap, length_seqZ, Z2Nat.id by (by apply Z.div_pos). reflexivity. }
  assert (Hle : (length (pages_of rs) <= length (page_range 0 PMM_TRACK_LIMIT))%nat).
  { apply submseteq_length, NoDup_submseteq; [done|].
    intros p Hp. apply (proj2 (elem_of_page_range p 0 PMM_TRACK_LIMIT eq_refl eq_refl)).
    apply elem_of_pages_of in Hp as [Ha (r & Hr & Hin)]; [|done].
    rewrite Forall_forall in Hok. destruct (Hok r Hr).
    apply andb_true_iff in Hin as [H1%Z.leb_le H2%Z.ltb_lt]. split; [done|].
    unfold PMM_MIN_PHYS in *. lia. }
  apply inj_le in Hle. by rewrite Hlen in Hle.
Qed.

Lemma free_count_bound st : pmm_wf st -> 0 <= g_free_pages st <= 1048576.
Proof.
  intros Hwf. rewrite (wf_free _ Hwf). pose proof (pages_of_bound _ (wf_regions _ Hwf) (wf_nodup _ Hwf)). fold (region_pages st) in *.
  assert (length (free_list st) <= length (region_pages st))%nat by apply length_filter. lia.
Qed.

(** Changing only the count of one managed page. *)
Lemma set_refs_wf st p n : pmm_wf st -> is_page p -> page_is_allocated st p = true -> 1 <= n <= UINT16_MAX ->
  pmm_wf (set_page_refs (<[p / PAGE_SIZE := n]> (page_refs st)) st).
Proof.
  intros Hwf Hp Hal Hn. pose proof Hwf as []. split; try done.
  - intros q Hq. unfold refs_of. cbn [page_refs set_page_refs]. rewrite arr_insert, page_no_inj
      by (done || by eapply managed_page). destruct (Z.eqb_spec p q) as [<-|]; [|by apply wf_refs0].
    split; [lia|]. intros _. exact Hal.
  - intros i. cbn [page_refs set_page_refs]. rewrite arr_insert. destruct (_ =? i); [lia | apply wf_refs_range0].
Qed.

(** The last reference goes: the page is free again. *)
Definition release_page (p : Z) (st : pmm) : pmm :=
  let st := set_page_refs (<[p / PAGE_SIZE := 0]> (page_refs st)) st in
  let st := page_set_allocated p false st in
  set_free_pages (u64 (g_free_pages st + 1)) st.

Lemma release_page_frame p st : same_frame st (release_page p st).
Proof. unfold release_page, page_set_allocated. frame_tac. Qed.

Lemma release_page_allocated p q st : is_page p -> is_page q ->
  page_is_allocated (release_page p st) q = negb (p =? q) && page_is_allocated st q.
Proof.
  intros Hp Hq. unfold release_page.
  set (s1 := set_page_refs _ st).
  change (page_is_allocated (page_set_allocated p false s1) q = negb (p =? q) && page_is_allocated s1 q).
  rewrite allocated_set by done. by destruct (p =? q).
Qed.

Lemma release_page_refs p q st : is_page p -> is_page q ->
  refs_of (release_page p st) q = if p =? q then 0 else refs_of st q.
Proof.
  intros Hp Hq. unfold release_page, refs_of, page_set_allocated.
  destruct (negb (tracked p)); cbn [page_refs set_page_refs set_free_pages set_page_state];
    by rewrite arr_insert, page_no_inj.
Qed.

Lemma release_page_free st p : pmm_wf st -> managed st p -> page_is_allocated st p = true ->
  g_free_pages (release_page p st) = g_free_pages st + 1 /\
  g_free_pages (release_page p st) = Z.of_nat (length (free_list (release_page p st))).
Proof.
  intros Hwf Hm Hal. pose proof (managed_page st p Hwf Hm) as Hp.
  assert (Hpg : forall q, q ∈ region_pages st -> is_page q)
    by (intros q Hq; eapply region_page_is_page; [apply Hwf | done]).
  assert (Hrp := same_frame_pages _ _ (release_page_frame p st)).
  assert (Hlen : length (free_list (release_page p st)) = S (length (free_list st))).
  { apply free_list_remove with (p := p).
    - rewrite Hrp. apply Hwf.
    - done.
    - apply free_list_elem. rewrite Hrp, release_page_allocated, Z.eqb_refl by done.
      split; [done | apply Hm].
    - rewrite Hrp. intros q Hq. rewrite release_page_allocated by auto.
      destruct (Z.eqb_spec p q); subst; cbn; done. }
  assert (Hg : g_free_pages (release_page p st) = u64 (g_free_pages st + 1))
    by (unfold release_page, page_set_allocated; by destruct (negb (tracked p))).
  pose proof (free_count_bound st Hwf). rewrite Hg, u64_small, Hlen, (wf_free _ Hwf) by lia. lia.
Qed.

Lemma release_page_wf st p : pmm_wf st -> managed st p -> page_is_allocated st p = true ->
  pmm_wf (release_page p st).
Proof.
  intros Hwf Hm Hal. pose proof (managed_page st p Hwf Hm) as Hp.
  pose proof (release_page_frame p st) as Hf. pose proof Hf as (Hr & _ & Hrd & _).
  assert (Hpg : forall q, q ∈ region_pages st -> is_page q)
    by (intros q Hq; eapply region_page_is_page; [apply Hwf | done]).
  split.
  - rewrite Hrd. apply Hwf.
  - rewrite Hr. apply Hwf.
  - rewrite (same_frame_pages st) by done. apply Hwf.
  - by apply release_page_free.
  - intros q. rewrite (same_frame_pages st), (same_frame_reserved st) by done. intros Hq Hres.
    rewrite release_page_allocated, (wf_resv _ Hwf q) by auto. destruct (Z.eqb_spec p q) as [->|]; [|done].
    destruct Hm. congruence.
  - intros q. rewrite (same_frame_managed st) by done. intros Hq. assert (is_page q) by (apply Hpg, Hq).
    rewrite release_page_allocated, release_page_refs by done.
    destruct (Z.eqb_spec p q); cbn; [intuition lia|]. by apply Hwf.
  - intros i. unfold release_page, page_set_allocated.
    destruct (negb (tracked p)); cbn [page_refs set_page_refs set_free_pages set_page_state];
      rewrite arr_insert; destruct (_ =? i); try apply Hwf; unfold UINT16_MAX; lia.
  - intros q Ha Hq. rewrite (same_frame_pages st), (same_frame_reserved st) by done.
    rewrite release_page_allocated by done. intros [_ ?]%andb_true_iff. by apply Hwf.
  - destruct Hf as (_ & _ & _ & -> & _). apply Hwf.
Qed.

(** ** Managed pages and their counts *)

Lemma managed_dec st p : Forall region_ok (regions st) -> is_page p ->
  (phys_in_usable_region st p = true /\ is_reserved st p = false) <-> managed st p.
Proof. intros Hok [Ha _]. unfold managed. by rewrite usable_region_pages. Qed.

Lemma free_in_regions_eq p rs st :
  free_in_regions p rs st = if existsb (in_region p) rs then drop_ref p st else st.
Proof.
  induction rs as [|r rs IH]; cbn [free_in_regions existsb]; [done|].
  rewrite IH. by destruct (in_region p r).
Qed.

(** The page that a [uint64_t] address names. *)
Lemma page_of_range x : is_u64 x -> page_of x mod PAGE_SIZE = 0 /\ 0 <= page_of x < 2 ^ 64.
Proof.
  intros Hx. unfold page_of. rewrite land_PAGE_MASK by done. unfold is_u64, PAGE_SIZE in *. dlia.
Qed.

Lemma page_of_idem x : is_u64 x -> page_of (page_of x) = page_of x.
Proof.
  intros Hx. destruct (page_of_range x Hx) as [Ha Hr]. by apply land_PAGE_MASK_aligned.
Qed.

(** ** Reserving a page while the allocator runs *)

(** Marking [p] reserved, with the free page taken out when [v] says so. *)
Definition reserve_mark (p : Z) (v : bool) (st : pmm) : pmm :=
  let st := page_set_reserved p (set_reserved_pages (reserved_pages st ++ [p]) st) in
  if v then dec_free (page_set_allocated p true st) else st.

Lemma reserve_mark_fields p v st :
  regions (reserve_mark p v st) = regions st /\ g_ready (reserve_mark p v st) = g_ready st /\
  page_refs (reserve_mark p v st) = page_refs st /\ g_hhdm (reserve_mark p v st) = g_hhdm st.
Proof. unfold reserve_mark, dec_free, page_set_allocated, page_set_reserved. frame_tac. Qed.

Lemma reserve_mark_reserved p q v st : is_page p -> is_page q ->
  is_reserved (reserve_mark p v st) q = (p =? q) || is_reserved st q.
Proof.
  intros Hp Hq. set (s1 := set_reserved_pages (reserved_pages st ++ [p]) st).
  transitivity (is_reserved (page_set_reserved p s1) q); [|by rewrite is_reserved_set].
  unfold reserve_mark, is_reserved, page_is_reserved_fast. fold s1. destruct v; [|done].
  by rewrite (proj1 (proj2 (proj1 (dec_free_frame _)))),
    (proj1 (proj2 (ltac:(unfold page_set_allocated; frame_tac) :
      same_frame (page_set_reserved p s1) (page_set_allocated p true (page_set_reserved p s1))))).
Qed.

Lemma reserve_mark_allocated p q v st : is_page p -> is_page q ->
  page_is_allocated (reserve_mark p v st) q = (v && (p =? q)) || page_is_allocated st q.
Proof.
  intros Hp Hq. set (s1 := page_set_reserved p (set_reserved_pages (reserved_pages st ++ [p]) st)).
  assert (Hs : forall r, page_is_allocated s1 r = page_is_allocated st r)
    by (intros r; unfold s1, page_set_reserved; by destruct (negb (tracked p))).
  unfold reserve_mark. fold s1. destruct v; [|apply Hs].
  transitivity (page_is_allocated (page_set_allocated p true s1) q).
  { unfold page_is_allocated. by rewrite (proj1 (proj2 (dec_free_frame _))). }
  rewrite allocated_set, Hs by done. by destruct (p =? q).
Qed.

Lemma reserve_mark_wf st p v : pmm_wf st -> is_page p ->
  (v = true <-> p ∈ region_pages st /\ page_is_allocated st p = false) ->
  pmm_wf (reserve_mark p v st).
Proof.
  intros Hwf Hp Hv. destruct (reserve_mark_fields p v st) as (Hr & Hrd & Hrf & Hhh).
  assert (Hrp : region_pages (reserve_mark p v st) = region_pages st) by (unfold region_pages; by rewrite Hr).
  assert (Hpg : forall q, q ∈ region_pages st -> is_page q)
    by (intros q Hq; eapply region_page_is_page; [apply Hwf | done]).
  split.
  - rewrite Hrd. apply Hwf.
  - rewrite Hr. apply Hwf.
  - rewrite Hrp. apply Hwf.
  - assert (Hs : g_free_pages (reserve_mark p v st) =
      if v && negb (g_free_pages st =? 0) then g_free_pages st - 1 else g_free_pages st).
    { unfold reserve_mark, dec_free, page_set_allocated, page_set_reserved.
      destruct v, (negb (tracked p)); cbn; by destruct (g_free_pages st =? 0). }
    rewrite Hs. pose proof (wf_free _ Hwf) as Hfr. destruct v.
    + destruct Hv as [Hv _]. destruct (Hv eq_refl) as [Hin Hal].
      assert (Hlen : length (free_list st) = S (length (free_list (reserve_mark p true st)))).
      { apply free_list_remove with (p := p); [apply Hwf | done | by apply free_list_elem |].
        intros q Hq. by rewrite reserve_mark_allocated by auto. }
      destruct (Z.eqb_spec (g_free_pages st) 0); cbn [andb negb]; lia.
    + cbn [andb]. rewrite Hfr. unfold free_list. rewrite Hrp. f_equal. apply length_filter_iff_in.
      intros q Hq. by rewrite reserve_mark_allocated by auto.
  - intros q. rewrite Hrp. intros Hq Hres.
    rewrite reserve_mark_reserved in Hres by auto. rewrite reserve_mark_allocated by auto.
    destruct (Z.eqb_spec p q) as [<-|]; cbn in Hres.
    + destruct v; [done|]. cbn. destruct (page_is_allocated st p); [done|]. by apply Hv.
    + rewrite (wf_resv _ Hwf q) by done. apply orb_true_r.
  - intros q [Hq Hres]. rewrite Hrp in Hq. rewrite reserve_mark_reserved in Hres by auto.
    apply orb_false_iff in Hres as [Hne Hres]. unfold refs_of.
    rewrite reserve_mark_allocated, Hne, andb_false_r, Hrf by auto. by apply Hwf.
  - intros i. rewrite Hrf. apply Hwf.
  - intros q Ha Hq. rewrite Hrp, reserve_mark_allocated, reserve_mark_reserved by done.
    destruct (Z.eqb_spec p q) as [<-|]; [by right|]. rewrite andb_false_r. by apply Hwf.
  - rewrite Hhh. apply Hwf.
Qed.

(** ** What the physical memory manager promises

    The abstract allocator is a pool: the set of pages it manages and the
    reference count of each page handed out.  [pool_step] is its labelled
    transition system; the theorems show that the operations of pmm.c
    simulate it, that the free counter counts exactly the pool's free pages,
    and that the invariant holds in every state reachable from [pmm_init]. *)

Record pool := Pool { pool_pages : gset Z; pool_refs : gmap Z Z }.

Inductive pmm_call := CAlloc | CFree (phys : Z) | CRetain (phys : Z) | CReserve (phys : Z).

(** A call of pmm.c's interface with the value it gives back. *)
Definition pmm_exec (c : pmm_call) (st : pmm) : Z * pmm :=
  match c with
  | CAlloc => pmm_alloc_page st
  | CFree p => (0, pmm_free_page p st)
  | CRetain p => pmm_retain_page p st
  | CReserve p => let '(b, st) := reserve_page p st in (Z.b2z b, st)
  end.

Definition call_ok (c : pmm_call) : Prop :=
  match c with CAlloc => True | CFree p | CRetain p | CReserve p => is_u64 p end.

Inductive pool_step : pool -> pmm_call -> Z -> pool -> Prop :=
  | ps_alloc A p :
      p ∈ pool_pages A -> pool_refs A !! p = None -> p <> 0 ->
      pool_step A CAlloc p (Pool (pool_pages A) (<[p := 1]> (pool_refs A)))
  | ps_exhausted A :
      pool_pages A ⊆ dom (pool_refs A) -> pool_step A CAlloc 0 A
  | ps_retain A x n :
      pool_refs A !! page_of x = Some n -> n < UINT16_MAX ->
      pool_step A (CRetain x) 0 (Pool (pool_pages A) (<[page_of x := n + 1]> (pool_refs A)))
  | ps_retain_saturated A x :
      pool_refs A !! page_of x = Some UINT16_MAX -> pool_step A (CRetain x) (-1) A
  | ps_retain_unowned A x :
      pool_refs A !! page_of x = None -> pool_step A (CRetain x) (-1) A
  | ps_free_shared A x n :
      pool_refs A !! page_of x = Some n -> 1 < n ->
      pool_step A (CFree x) 0 (Pool (pool_pages A) (<[page_of x := n - 1]> (pool_refs A)))
  | ps_free_last A x :
      pool_refs A !! page_of x = Some 1 ->
      pool_step A (CFree x) 0 (Pool (pool_pages A) (delete (page_of x) (pool_refs A)))
  | ps_free_unowned A x :
      pool_refs A !! page_of x = None -> pool_step A (CFree x) 0 A
  | ps_reserve A x :
      pool_step A (CReserve x) 1
        (Pool (pool_pages A ∖ {[page_of x]}) (delete (page_of x) (pool_refs A)))
  | ps_reserve_refused A x : pool_step A (CReserve x) 0 A.

Definition pool_of (st : pmm) : pool :=
  Pool (list_to_set (filter (fun p => is_reserved st p = false) (region_pages st)))
    (list_to_map ((fun p => (p, refs_of st p)) <$>
      filter (fun p => is_reserved st p = false /\ page_is_allocated st p = true) (region_pages st))).

(** ** Reading the abstraction *)

Lemma pool_pages_elem st p : p ∈ pool_pages (pool_of st) <-> managed st p.
Proof.
  unfold pool_of, managed. cbn [pool_pages]. rewrite elem_of_list_to_set, list_elem_of_filter. tauto.
Qed.

Lemma pool_refs_lookup st p n : pmm_wf st ->
  pool_refs (pool_of st) !! p = Some n <->
  managed st p /\ page_is_allocated st p = true /\ n = refs_of st p.
Proof.
  intros Hwf. unfold pool_of. cbn [pool_refs]. rewrite <- elem_of_list_to_map.
  - rewrite list_elem_of_fmap. unfold managed. setoid_rewrite list_elem_of_filter. split.
    + intros (q & [= -> ->] & (? & ?) & ?). done.
    + intros ((? & ?) & ? & ->). eauto 10.
  - rewrite <- list_fmap_compose. cbn. rewrite list_fmap_id. apply NoDup_filter, Hwf.
Qed.

Lemma pool_refs_None st p : pmm_wf st ->
  pool_refs (pool_of st) !! p = None <-> ~ (managed st p /\ page_is_allocated st p = true).
Proof.
  intros Hwf. rewrite eq_None_not_Some. apply not_iff_compat. split.
  - intros [n Hn]. apply pool_refs_lookup in Hn; tauto.
  - intros [? ?]. exists (refs_of st p). by apply pool_refs_lookup.
Qed.

(** Two pools are equal when their states agree on the managed pages. *)
Lemma pool_eq st A : pmm_wf st ->
  (forall p, managed st p <-> p ∈ pool_pages A) ->
  (forall p n, pool_refs A !! p = Some n <-> managed st p /\ page_is_allocated st p = true /\ n = refs_of st p) ->
  pool_of st = A.
Proof.
  intros Hwf Hp Hr. destruct A as [ps rs]. cbn [pool_pages pool_refs] in *.
  assert (H1 : pool_pages (pool_of st) = ps) by (apply set_eq; intros p; by rewrite pool_pages_elem).
  assert (H2 : pool_refs (pool_of st) = rs)
    by (apply map_eq; intros p; apply option_eq; intros n; by rewrite pool_refs_lookup, Hr).
  unfold pool_of in *. cbn [pool_pages pool_refs] in *. by rewrite H1, H2.
Qed.

Lemma pool_of_bounds st rs : pmm_wf st -> same_bounds (regions st) rs ->
  pool_of (set_regions rs st) = pool_of st.
Proof.
  intros Hwf Hsb. unfold pool_of.
  change (region_pages (set_regions rs st)) with (pages_of rs).
  by rewrite (same_bounds_pages (regions st) rs).
Qed.

Lemma pool_of_take st p : pmm_wf st -> managed st p -> page_is_allocated st p = false ->
  pool_of (take_page p st) = Pool (pool_pages (pool_of st)) (<[p := 1]> (pool_refs (pool_of st))).
Proof.
  intros Hwf Hm Hal. pose proof (managed_page st p Hwf Hm).
  pose proof (take_page_frame p st) as Hf.
  apply pool_eq; [by apply take_page_wf|..]; cbn [pool_pages pool_refs].
  - intros q. by rewrite pool_pages_elem, (same_frame_managed st) by done.
  - intros q n. rewrite lookup_insert, (same_frame_managed st) by done. case_decide as Hq; [subst q|].
    + rewrite take_page_allocated, take_page_refs, Z.eqb_refl by done. naive_solver.
    + rewrite pool_refs_lookup by done. split; intros (Hmq & ?); pose proof (managed_page st q Hwf Hmq);
        split; try done; revert H0; rewrite take_page_allocated, take_page_refs by done;
        by rewrite (proj2 (Z.eqb_neq _ _)) by done.
Qed.

Lemma pool_of_set_refs st p n : pmm_wf st -> managed st p -> page_is_allocated st p = true ->
  1 <= n <= UINT16_MAX ->
  pool_of (set_page_refs (<[p / PAGE_SIZE := n]> (page_refs st)) st)
  = Pool (pool_pages (pool_of st)) (<[p := n]> (pool_refs (pool_of st))).
Proof.
  intros Hwf Hm Hal Hn. pose proof (managed_page st p Hwf Hm).
  apply pool_eq; [by apply set_refs_wf|..]; cbn [pool_pages pool_refs].
  - intros q. by rewrite pool_pages_elem.
  - intros q k. unfold refs_of. cbn [page_refs set_page_refs].
    change (managed (set_page_refs _ st) q) with (managed st q).
    change (page_is_allocated (set_page_refs _ st) q) with (page_is_allocated st q).
    rewrite lookup_insert, arr_insert. case_decide as Hq; [subst q|].
    + rewrite Z.eqb_refl. naive_solver.
    + rewrite pool_refs_lookup by done. split; intros (Hmq & Ha & Hk); split_and!; try done; revert Hk;
        rewrite page_no_inj by (done || by eapply managed_page);
        by rewrite (proj2 (Z.eqb_neq _ _)) by done.
Qed.

Lemma pool_of_release st p : pmm_wf st -> managed st p -> page_is_allocated st p = true ->
  pool_of (release_page p st) = Pool (pool_pages (pool_of st)) (delete p (pool_refs (pool_of st))).
Proof.
  intros Hwf Hm Hal. pose proof (managed_page st p Hwf Hm).
  pose proof (release_page_frame p st) as Hf.
  apply pool_eq; [by apply release_page_wf|..]; cbn [pool_pages pool_refs].
  - intros q. by rewrite pool_pages_elem, (same_frame_managed st) by done.
  - intros q n. rewrite lookup_delete, (same_frame_managed st) by done. case_decide as Hq; [subst q|].
    + rewrite release_page_allocated, Z.eqb_refl by done. cbn. naive_solver.
    + rewrite pool_refs_lookup by done. split; intros (Hmq & Hr); pose proof (managed_page st q Hwf Hmq);
        split; try done; revert Hr; rewrite release_page_allocated, release_page_refs by done;
        by rewrite (proj2 (Z.eqb_neq _ _)) by done.
Qed.

Lemma pool_of_reserve st p v : pmm_wf st -> is_page p ->
  (v = true <-> p ∈ region_pages st /\ page_is_allocated st p = false) ->
  pool_of (reserve_mark p v st)
  = Pool (pool_pages (pool_of st) ∖ {[p]}) (delete p (pool_refs (pool_of st))).
Proof.
  intros Hwf Hp Hv. destruct (reserve_mark_fields p v st) as (Hr & _ & Hrf & _).
  assert (Hm : forall q, managed (reserve_mark p v st) q <-> managed st q /\ q <> p).
  { intros q. unfold managed, region_pages. rewrite Hr. fold (region_pages st). split.
    - intros [Hq Hres]. pose proof (region_page_is_page st q (wf_regions _ Hwf) Hq).
      rewrite reserve_mark_reserved in Hres by done.
      apply orb_false_iff in Hres as [Hne%Z.eqb_neq ?]. done.
    - intros [[Hq Hres] Hne]. pose proof (region_page_is_page st q (wf_regions _ Hwf) Hq).
      rewrite reserve_mark_reserved, Hres, (proj2 (Z.eqb_neq _ _)) by done. done. }
  apply pool_eq; [by apply reserve_mark_wf|..]; cbn [pool_pages pool_refs].
  - intros q. rewrite Hm, elem_of_difference, pool_pages_elem, elem_of_singleton. tauto.
  - intros q n. rewrite Hm, lookup_delete. unfold refs_of. rewrite Hrf. fold (refs_of st q).
    case_decide as Hq; [subst q; naive_solver|]. rewrite pool_refs_lookup by done.
    assert (Ha : managed st q -> page_is_allocated (reserve_mark p v st) q = page_is_allocated st q).
    { intros Hmq. rewrite reserve_mark_allocated by (done || by eapply managed_page).
      by rewrite (proj2 (Z.eqb_neq p q)), andb_false_r by done. }
    split; [intros (Hmq & Hal & Hn) | intros ((Hmq & _) & Hal & Hn)]; rewrite Ha in * by done; auto.
Qed.

(** ** The three reference operations on a managed or a foreign page *)

(** A page that is not handed out has no entry in the pool. *)
Lemma unowned st x : pmm_wf st -> is_u64 x ->
  (is_reserved st (page_of x) = true \/ page_of x = 0 \/ PMM_TRACK_LIMIT <= page_of x \/
   page_is_allocated st (page_of x) = false \/ ~ page_of x ∈ region_pages st) ->
  pool_refs (pool_of st) !! page_of x = None.
Proof.
  intros Hwf Hx Hc. apply pool_refs_None; [done|]. intros [[Hin Hres] Hal].
  destruct (region_page_range st _ (wf_regions _ Hwf) Hin) as [_ Hr]. unfold PMM_MIN_PHYS in Hr.
  destruct Hc as [?|[?|[?|[?|?]]]]; try congruence; lia.
Qed.

Lemma owned_managed st x : pmm_wf st -> is_u64 x -> is_reserved st (page_of x) = false ->
  page_of x < PMM_TRACK_LIMIT -> page_is_allocated st (page_of x) = true -> managed st (page_of x).
Proof.
  intros Hwf Hx Hres Hlt Hal. destruct (page_of_range x Hx) as [Ha Hr].
  destruct (wf_outside _ Hwf (page_of x)) as [?|?]; try done; [lia|congruence].
Qed.

Lemma sim_retain st x v st' : pmm_wf st -> is_u64 x -> pmm_retain_page x st = (v, st') ->
  pool_step (pool_of st) (CRetain x) v (pool_of st') /\ pmm_wf st'.
Proof.
  intros Hwf Hx. unfold pmm_retain_page. rewrite (wf_ready _ Hwf). cbn [negb orb].
  destruct (Z.eqb_spec (page_of x) 0) as [H0|H0]; cbn [orb].
  { intros [= <- <-]. split; [|done]. apply ps_retain_unowned, unowned; auto. }
  destruct (Z.leb_spec PMM_TRACK_LIMIT (page_of x)) as [Hl|Hl]; cbn [orb].
  { intros [= <- <-]. split; [|done]. apply ps_retain_unowned, unowned; auto. }
  destruct (is_reserved st (page_of x)) eqn:Hres.
  { intros [= <- <-]. split; [|done]. apply ps_retain_unowned, unowned; auto. }
  destruct (page_is_allocated st (page_of x)) eqn:Hal; cbn [negb].
  2: { intros [= <- <-]. split; [|done]. apply ps_retain_unowned, unowned; auto. }
  pose proof (owned_managed st x Hwf Hx Hres Hl Hal) as Hm.
  pose proof (managed_page st _ Hwf Hm) as Hp.
  assert (Hlk : pool_refs (pool_of st) !! page_of x = Some (refs_of st (page_of x)))
    by (by apply pool_refs_lookup).
  pose proof (proj1 (wf_refs _ Hwf _ Hm) Hal) as Hge.
  pose proof (wf_refs_range _ Hwf (page_of x / PAGE_SIZE)) as Hrng.
  fold (refs_of st (page_of x)) in *. unfold UINT16_MAX in *.
  destruct (Z.eqb_spec (refs_of st (page_of x)) 0xFFFF) as [Hs|Hs].
  { intros [= <- <-]. split; [|done]. apply ps_retain_saturated. by rewrite Hlk, Hs. }
  destruct (Z.eqb_spec (refs_of st (page_of x)) 0); [lia|].
  intros [= <- <-]. rewrite u16_small by lia. split.
  - rewrite pool_of_set_refs by (done || unfold UINT16_MAX; lia).
    apply ps_retain; [done|]. unfold UINT16_MAX. lia.
  - apply set_refs_wf; try done. unfold UINT16_MAX. lia.
Qed.

Lemma sim_free st x : pmm_wf st -> is_u64 x ->
  pool_step (pool_of st) (CFree x) 0 (pool_of (pmm_free_page x st)) /\ pmm_wf (pmm_free_page x st).
Proof.
  intros Hwf Hx. unfold pmm_free_page. rewrite (wf_ready _ Hwf). cbn [negb orb].
  destruct (page_of_range x Hx) as [Ha Hr].
  destruct (Z.eqb_spec (page_of x) 0) as [H0|H0]; cbn [orb].
  { split; [|done]. apply ps_free_unowned, unowned; auto. }
  destruct (Z.leb_spec (2 ^ 52) (page_of x)) as [Hb|Hb]; cbn [orb].
  { split; [|done]. apply ps_free_unowned, unowned; auto. unfold PMM_TRACK_LIMIT. lia. }
  destruct (is_reserved st (page_of x)) eqn:Hres.
  { split; [|done]. apply ps_free_unowned, unowned; auto. }
  destruct (Z.leb_spec PMM_TRACK_LIMIT (page_of x)) as [Hl|Hl].
  { split; [|done]. apply ps_free_unowned, unowned; auto. }
  rewrite free_in_regions_eq. fold (phys_in_usable_region st (page_of x)).
  pose proof (usable_region_pages st _ (wf_regions _ Hwf) Ha) as Hin.
  destruct (phys_in_usable_region st (page_of x)).
  2: { split; [|done]. apply ps_free_unowned, unowned; auto.
       do 4 right. intros Hc. by apply Hin in Hc. }
  assert (Hm : managed st (page_of x)) by (split; [by apply Hin | done]).
  unfold drop_ref. destruct (page_is_allocated st (page_of x)) eqn:Hal; cbn [negb].
  2: { split; [|done]. apply ps_free_unowned, unowned; auto 10. }
  assert (Hlk : pool_refs (pool_of st) !! page_of x = Some (refs_of st (page_of x)))
    by (by apply pool_refs_lookup).
  pose proof (proj1 (wf_refs _ Hwf _ Hm) Hal) as Hge.
  pose proof (wf_refs_range _ Hwf (page_of x / PAGE_SIZE)) as Hrng.
  fold (refs_of st (page_of x)) in *. unfold UINT16_MAX in Hrng.
  destruct (Z.ltb_spec 1 (refs_of st (page_of x))) as [Hgt|Hle].
  - rewrite u16_small by lia. split.
    + rewrite pool_of_set_refs by (done || unfold UINT16_MAX; lia). by apply ps_free_shared.
    + apply set_refs_wf; try done; [by eapply managed_page | unfold UINT16_MAX; lia].
  - fold (release_page (page_of x) st). split.
    + rewrite pool_of_release by done. apply ps_free_last. rewrite Hlk. f_equal. lia.
    + by apply release_page_wf.
Qed.

Lemma sim_alloc st v st' : pmm_wf st -> pmm_alloc_page st = (v, st') ->
  pool_step (pool_of st) CAlloc v (pool_of st') /\ pmm_wf st'.
Proof.
  intros Hwf He. destruct (pmm_alloc_cases st Hwf) as (rs & Hsb & Hok & [(p & Hm & Hal & Heq)|[Hnil Heq]]);
    rewrite Heq in He; injection He as <- <-.
  all: pose proof (set_regions_wf st rs Hwf Hsb Hok) as Hwf1.
  - assert (Hm1 : managed (set_regions rs st) p).
    { destruct Hm. split; [|done]. change (p ∈ pages_of rs). by rewrite (same_bounds_pages (regions st)). }
    split; [|by apply take_page_wf]. rewrite pool_of_take, pool_of_bounds by done. apply ps_alloc.
    + by apply pool_pages_elem.
    + apply pool_refs_None; [done|]. intros [_ ?]. congruence.
    + destruct Hm as [Hin _]. destruct (region_page_range st p (wf_regions _ Hwf) Hin).
      unfold PMM_MIN_PHYS in *. lia.
  - split; [|done]. rewrite pool_of_bounds by done. apply ps_exhausted.
    intros p Hp%pool_pages_elem. apply elem_of_dom. exists (refs_of st p). apply pool_refs_lookup; [done|].
    split_and!; try done. destruct (page_is_allocated st p) eqn:Ha; [done|].
    assert (Hf : p ∈ free_list st) by (apply free_list_elem; split; [done|apply Hp]).
    rewrite Hnil in Hf. by apply not_elem_of_nil in Hf.
Qed.

(** Reserving a frame above 4 GiB records it and changes nothing else. *)
Lemma reserve_untracked st p : pmm_wf st -> PMM_TRACK_LIMIT <= p ->
  pmm_wf (set_reserved_pages (reserved_pages st ++ [p]) st) /\
  pool_of (set_reserved_pages (reserved_pages st ++ [p]) st)
  = Pool (pool_pages (pool_of st) ∖ {[p]}) (delete p (pool_refs (pool_of st))).
Proof.
  intros Hwf Hp. assert (Hwf' : pmm_wf (set_reserved_pages (reserved_pages st ++ [p]) st)).
  { pose proof Hwf as []. by split. }
  split; [done|].
  assert (Hnm : ~ managed st p).
  { intros [Hin _]. destruct (region_page_range st p (wf_regions _ Hwf) Hin). lia. }
  apply pool_eq; [done|..]; cbn [pool_pages pool_refs].
  - intros q. change (managed (set_reserved_pages _ st) q) with (managed st q).
    rewrite elem_of_difference, pool_pages_elem, elem_of_singleton. naive_solver.
  - intros q n. change (managed (set_reserved_pages _ st) q) with (managed st q).
    rewrite lookup_delete. case_decide; [naive_solver|]. by rewrite pool_refs_lookup.
Qed.

Lemma reserve_page_cases st x : pmm_wf st -> is_u64 x ->
  reserve_page x st = (false, st) \/
  (PMM_TRACK_LIMIT <= page_of x /\
   reserve_page x st = (true, set_reserved_pages (reserved_pages st ++ [page_of x]) st)) \/
  (exists v, is_page (page_of x) /\ reserve_page x st = (true, reserve_mark (page_of x) v st) /\
    (v = true <-> page_of x ∈ region_pages st /\ page_is_allocated st (page_of x) = false)).
Proof.
  intros Hwf Hx. destruct (page_of_range x Hx) as [Ha Hr]. unfold reserve_page.
  destruct (_ || _); [by left|]. destruct (page_is_reserved_fast _ _); [by left|].
  destruct (_ <=? _); [by left|]. right.
  pose proof (usable_region_pages st _ (wf_regions _ Hwf) Ha) as Hin.
  set (s1 := page_set_reserved (page_of x) (set_reserved_pages (reserved_pages st ++ [page_of x]) st)).
  assert (Hrd : g_ready s1 = true)
    by (unfold s1, page_set_reserved; destruct (negb _); apply Hwf).
  assert (Hus : phys_in_usable_region s1 (page_of x) = phys_in_usable_region st (page_of x))
    by (unfold s1, page_set_reserved; by destruct (negb _)).
  assert (Hal : page_is_allocated s1 (page_of x) = page_is_allocated st (page_of x))
    by (unfold s1, page_set_reserved; by destruct (negb (tracked _))).
  rewrite Hrd, Hus, Hal. cbn [andb].
  destruct (Z.lt_ge_cases (page_of x) PMM_TRACK_LIMIT) as [Hlt|Hge].
  - right. exists (phys_in_usable_region st (page_of x) && negb (page_is_allocated st (page_of x))).
    split; [split; [done|lia]|]. split.
    + unfold reserve_mark. fold s1. by destruct (_ && _).
    + rewrite andb_true_iff, negb_true_iff. by rewrite Hin.
  - left. split; [done|]. unfold page_is_allocated, tracked.
    rewrite (proj2 (Z.ltb_ge _ _)) by done. cbn [negb]. rewrite andb_false_r.
    unfold s1, page_set_reserved, tracked. by rewrite (proj2 (Z.ltb_ge _ _)) by done.
Qed.

Lemma sim_reserve st x b st' : pmm_wf st -> is_u64 x -> reserve_page x st = (b, st') ->
  pool_step (pool_of st) (CReserve x) (Z.b2z b) (pool_of st') /\ pmm_wf st'.
Proof.
  intros Hwf Hx He. destruct (reserve_page_cases st x Hwf Hx) as [Hc|[[Hge Hc]|(v & Hp & Hc & Hv)]];
    rewrite Hc in He; injection He as <- <-.
  - split; [apply ps_reserve_refused | done].
  - destruct (reserve_untracked st (page_of x) Hwf Hge) as [? ->]. split; [apply ps_reserve | done].
  - rewrite pool_of_reserve by done. split; [apply ps_reserve | by apply reserve_mark_wf].
Qed.

(** ** Runs *)

Definition trace : Type := list (pmm_call * Z).

Inductive pmm_run : pmm -> trace -> pmm -> Prop :=
  | run_nil st : pmm_run st [] st
  | run_cons st c v st1 tr st2 :
      call_ok c -> pmm_exec c st = (v, st1) -> pmm_run st1 tr st2 -> pmm_run st ((c, v) :: tr) st2.

Inductive pool_run : pool -> trace -> pool -> Prop :=
  | prun_nil A : pool_run A [] A
  | prun_cons A c v A1 tr A2 : pool_step A c v A1 -> pool_run A1 tr A2 -> pool_run A ((c, v) :: tr) A2.

Lemma exec_sim st c v st' : pmm_wf st -> call_ok c -> pmm_exec c st = (v, st') ->
  pool_step (pool_of st) c v (pool_of st') /\ pmm_wf st'.
Proof.
  intros Hwf Hc. destruct c as [|x|x|x]; cbn [pmm_exec call_ok] in *.
  - by apply sim_alloc.
  - intros [= <- <-]. by apply sim_free.
  - by apply sim_retain.
  - destruct (reserve_page x st) as [b s] eqn:He. intros [= <- <-]. by apply sim_reserve.
Qed.

Lemma run_wf st tr st' : pmm_run st tr st' -> pmm_wf st -> pmm_wf st'.
Proof. induction 1; [done|]. intros Hwf. apply IHpmm_run. eapply exec_sim; done. Qed.
