(* ===== verification/PmmInit.v ===== *)
(** * [pmm_init] establishes the invariant

    Limine hands over a memory map whose usable entries do not overlap; under
    that documented promise the state pmm_init leaves behind is well-formed,
    whatever the kernel image and the active page tables it reserves. *)

From S2P Require Import Prelude Words Pmm PmmFacts.
Local Open Scope Z_scope.

(** An entry whose fields are [uint64_t]. *)
Definition entry_u64 (e : option limine_memmap_entry) : Prop :=
  match e with Some e => is_u64 (e_base e) /\ is_u64 (e_length e) | None => True end.

(** An entry that pmm_init takes pages from. *)
Definition usable_entry (e : limine_memmap_entry) : Prop :=
  e_type e = LIMINE_MEMMAP_USABLE /\ e_base e + e_length e < 2 ^ 64.

Definition entries_disjoint (a b : option limine_memmap_entry) : Prop :=
  match a, b with
  | Some e, Some f => usable_entry e -> usable_entry f ->
      e_base e + e_length e <= e_base f \/ e_base f + e_length f <= e_base e
  | _, _ => True
  end.

(** The Limine protocol: usable entries of the memory map never overlap. *)
Definition memmap_ok (l : list (option limine_memmap_entry)) : Prop :=
  Forall entry_u64 l /\ ForallOrdPairs entries_disjoint l.

(** The state while pmm_init runs, before the reserved pages are marked. *)
Record init_inv (st : pmm) : Prop := {
  ii_ready : g_ready st = false;
  ii_state : page_state st = ∅;
  ii_refs : page_refs st = ∅;
  ii_hhdm : g_hhdm st <> 0;
  ii_regions : Forall region_ok (regions st);
  ii_nodup : NoDup (region_pages st);
  ii_free : g_free_pages st = Z.of_nat (length (region_pages st));
  ii_total : g_total_pages st = Z.of_nat (length (region_pages st));
  ii_resv : forall p, is_page p -> is_reserved st p = true <-> p ∈ reserved_pages st;
  ii_rnodup : NoDup (filter (fun p => p < PMM_TRACK_LIMIT) (reserved_pages st));
  ii_rpages : forall p, p ∈ reserved_pages st -> p mod PAGE_SIZE = 0 /\ 0 <= p
}.

(** ** The regions *)

(** No region of [st] overlaps the usable entry [e]. *)
Definition region_clear (st : pmm) (e : option limine_memmap_entry) : Prop :=
  match e with
  | Some e => usable_entry e -> forall r, r ∈ regions st ->
      r_end r <= e_base e \/ e_base e + e_length e <= r_base r
  | None => True
  end.

Lemma align_up_bound x : is_u64 x -> x + PAGE_SIZE - 1 < 2 ^ 64 ->
  align_up x mod PAGE_SIZE = 0 /\ x <= align_up x < x + PAGE_SIZE.
Proof.
  intros Hx Hs. unfold align_up, is_u64 in *. rewrite u64_small by (unfold PAGE_SIZE in *; lia).
  rewrite land_PAGE_MASK by (unfold PAGE_SIZE in *; lia). unfold PAGE_SIZE in *. dlia.
Qed.

Lemma align_up_wrap x : is_u64 x -> 2 ^ 64 <= x + PAGE_SIZE - 1 -> align_up x = 0.
Proof.
  intros Hx Hs. unfold align_up, u64, is_u64 in *.
  replace ((x + PAGE_SIZE - 1) mod 2 ^ 64) with (x + PAGE_SIZE - 1 - 2 ^ 64).
  - rewrite land_PAGE_MASK by (unfold PAGE_SIZE in *; lia). unfold PAGE_SIZE in *. dlia.
  - unfold PAGE_SIZE in *. apply Z.mod_unique with 1; lia.
Qed.

Lemma align_down_bound x : is_u64 x -> align_down x mod PAGE_SIZE = 0 /\ align_down x <= x < align_down x + PAGE_SIZE.
Proof.
  intros Hx. unfold align_down. rewrite land_PAGE_MASK by done. unfold PAGE_SIZE in *. dlia.
Qed.

(** The region an entry gives, when it gives one. *)
Lemma add_memmap_region_cases st e : entry_u64 e ->
  add_memmap_region st e = st \/
  exists en r n, e = Some en /\ usable_entry en /\ region_ok r /\
    e_base en <= r_base r /\ r_end r <= e_base en + e_length en /\
    n = (r_end r - r_base r) / PAGE_SIZE /\
    add_memmap_region st e =
      set_total_pages (u64 (g_total_pages st + n))
        (set_free_pages (u64 (g_free_pages st + n)) (set_regions (regions st ++ [r]) st)).
Proof.
  intros Hu. unfold add_memmap_region. destruct (_ <? MAX_REGIONS); [|by left].
  destruct e as [e|]; [|by left]. destruct Hu as [Hb Hl].
  destruct (_ || _) eqn:Hg; [by left|].
  apply orb_false_iff in Hg as [Ht%negb_false_iff%Z.eqb_eq Hlen%Z.ltb_ge].
  destruct (Z.ltb_spec (u64 (e_base e + e_length e)) (e_base e)) as [|Hw]; [by left|].
  unfold is_u64 in *.
  assert (Hsum : e_base e + e_length e < 2 ^ 64 /\ u64 (e_base e + e_length e) = e_base e + e_length e).
  { destruct (Z.lt_ge_cases (e_base e + e_length e) (2 ^ 64)); [split; [done|apply u64_small; lia]|].
    exfalso. unfold u64 in Hw. rewrite (Z.mod_eq (e_base e + e_length e)) in Hw by lia.
    assert ((e_base e + e_length e) / 2 ^ 64 = 1) by (symmetry; apply Z.div_unique with (e_base e + e_length e - 2 ^ 64); lia).
    lia. }
  destruct Hsum as [Hs ->].
  assert (Hup : e_base e + PAGE_SIZE - 1 < 2 ^ 64) by lia.
  destruct (align_up_bound (e_base e)) as [Hua Hub]; [split; lia | done |].
  destruct (align_down_bound (e_base e + e_length e)) as [Hda Hdb]; [split; lia|].
  set (start := if align_up (e_base e) <? PMM_MIN_PHYS then PMM_MIN_PHYS else align_up (e_base e)).
  set (last := if PMM_TRACK_LIMIT <? align_down (e_base e + e_length e) then PMM_TRACK_LIMIT
               else align_down (e_base e + e_length e)).
  destruct (Z.leb_spec last start) as [|Hlt]; [by left|]. right.
  exists e, (PmmRegion start last start 0), ((last - start) / PAGE_SIZE).
  assert (Hst : start mod PAGE_SIZE = 0 /\ PMM_MIN_PHYS <= start /\ e_base e <= start)
    by (unfold start; destruct (Z.ltb_spec (align_up (e_base e)) PMM_MIN_PHYS); split_and!; lia || done).
  assert (Hla : last mod PAGE_SIZE = 0 /\ last <= PMM_TRACK_LIMIT /\ last <= e_base e + e_length e)
    by (unfold last; destruct (Z.ltb_spec PMM_TRACK_LIMIT (align_down (e_base e + e_length e))); split_and!; lia || done).
  destruct Hst as (? & ? & ?), Hla as (? & ? & ?).
  split; [done|]. split; [done|]. split; [split; cbn; lia || done|].
  cbn [r_base r_end]. split_and!; lia || done.
Qed.

Lemma length_page_range b e : b mod PAGE_SIZE = 0 -> e mod PAGE_SIZE = 0 -> b <= e ->
  Z.of_nat (length (page_range b e)) = (e - b) / PAGE_SIZE.
Proof.
  intros. unfold page_range. rewrite length_fmap, length_seqZ, Z2Nat.id; [done|].
  apply Z.div_pos; unfold PAGE_SIZE; lia.
Qed.

Lemma pages_of_snoc rs r : pages_of (rs ++ [r]) = pages_of rs ++ page_range (r_base r) (r_end r).
Proof. unfold pages_of. rewrite bind_app. cbn. by rewrite app_nil_r. Qed.

Lemma add_region_inv st e : init_inv st -> entry_u64 e -> region_clear st e ->
  init_inv (add_memmap_region st e) /\
  forall e', entries_disjoint e e' -> region_clear st e' -> region_clear (add_memmap_region st e) e'.
Proof.
  intros Hi Hu Hc. destruct (add_memmap_region_cases st e Hu) as
    [->|(en & r & n & -> & Hus & Hok & Hb & He & Hn & ->)]; [done|].
  cbn [region_clear] in Hc. specialize (Hc Hus). pose proof Hok as [].
  assert (Hok' : Forall region_ok (regions st ++ [r]))
    by (apply Forall_app; split; [apply Hi | by constructor]).
  assert (Hnd : NoDup (pages_of (regions st ++ [r]))).
  { rewrite pages_of_snoc. apply NoDup_app. split; [apply Hi|]. split; [|apply page_range_nodup].
    intros p Hp Hr. apply elem_of_page_range in Hr as [_ Hr]; [|done..].
    apply elem_of_pages_of in Hp as [_ (r' & Hr' & Hin)]; [|apply Hi].
    apply andb_true_iff in Hin as [H1%Z.leb_le H2%Z.ltb_lt]. specialize (Hc r' Hr'). lia. }
  assert (Hlen : Z.of_nat (length (pages_of (regions st ++ [r]))) = Z.of_nat (length (region_pages st)) + n).
  { rewrite pages_of_snoc, length_app, Nat2Z.inj_add, length_page_range by lia. by rewrite Hn. }
  pose proof (pages_of_bound _ Hok' Hnd) as Hbd.
  split.
  - destruct Hi. split; try done.
    + cbn [g_free_pages set_total_pages set_free_pages]. rewrite ii_free0.
      change (region_pages _) with (pages_of (regions st ++ [r])) at 2. rewrite u64_small; lia.
    + cbn [g_total_pages set_total_pages]. rewrite ii_total0.
      change (region_pages _) with (pages_of (regions st ++ [r])) at 2. rewrite u64_small; lia.
  - intros [f|] Hd Hcf; [|done]. cbn [region_clear entries_disjoint] in *. intros Huf r' Hr'.
    cbn [regions set_total_pages set_free_pages set_regions] in Hr'.
    apply elem_of_app in Hr' as [Hr'|Hr'%list_elem_of_singleton]; [by apply Hcf|]. subst r'.
    specialize (Hd Hus Huf). lia.
Qed.

Lemma foldl_regions_inv l st : memmap_ok l -> init_inv st -> (forall e, e ∈ l -> region_clear st e) ->
  init_inv (foldl add_memmap_region st l).
Proof.
  revert st. induction l as [|e l IH]; intros st [Hu Hd] Hi Hc; cbn [foldl]; [done|].
  apply Forall_cons in Hu as [Hue Hu]. inversion_clear Hd as [|? ? Hde Hd'].
  destruct (add_region_inv st e) as [Hi' Hc']; try done; [apply Hc; by left|].
  apply IH; [by split | done |]. intros e' He'. apply Hc'; [|apply Hc; by right].
  rewrite List.Forall_forall in Hde. apply Hde. by apply list_elem_of_In.
Qed.

(** ** Reserving while pmm_init runs *)

Lemma init_reserve st x : init_inv st -> is_u64 x -> init_inv (snd (reserve_page x st)).
Proof.
  intros Hi Hx. destruct (page_of_range x Hx) as [Ha Hr]. unfold reserve_page.
  set (p := page_of x) in *. destruct (_ || _); [done|].
  destruct (page_is_reserved_fast st p) eqn:Hres; [done|].
  destruct (MAX_RESERVED_PAGES <=? _); [done|].
  set (s1 := page_set_reserved p (set_reserved_pages (reserved_pages st ++ [p]) st)).
  assert (Hrd : g_ready s1 = false) by (unfold s1, page_set_reserved; destruct (negb _); apply Hi).
  rewrite Hrd. cbn [andb snd].
  assert (Hrp : reserved_pages s1 = reserved_pages st ++ [p])
    by (unfold s1, page_set_reserved; by destruct (negb _)).
  assert (Hst : same_frame st s1 \/ regions s1 = regions st) by (right; unfold s1, page_set_reserved; by destruct (negb _)).
  assert (Hnew : p < PMM_TRACK_LIMIT -> p ∉ reserved_pages st).
  { intros Hlt Hin. assert (Hpg : is_page p) by (split; [done|lia]). apply (ii_resv _ Hi) in Hin; [|done].
    unfold is_reserved in Hin. rewrite page_of_page in Hin by done. congruence. }
  destruct Hi. split; rewrite ?Hrp;
    try (unfold s1, page_set_reserved; destruct (negb (tracked p)); done).
  - intros q Hq. rewrite elem_of_app, list_elem_of_singleton.
    destruct (Z.lt_ge_cases p PMM_TRACK_LIMIT) as [Hlt|Hge].
    + assert (Hpg : is_page p) by (split; [done|lia]). unfold s1.
      rewrite is_reserved_set by done.
      change (is_reserved (set_reserved_pages _ st) q) with (is_reserved st q).
      rewrite orb_true_iff, Z.eqb_eq, ii_resv0 by done. naive_solver.
    + assert (Hs : is_reserved s1 q = is_reserved st q).
      { unfold s1, page_set_reserved, tracked. by rewrite (proj2 (Z.ltb_ge _ _)) by done. }
      rewrite Hs, ii_resv0 by done. destruct Hq. split; [by left|]. intros [?| ->]; [done|lia].
  - rewrite filter_app, filter_cons, filter_nil. case_decide as Hlt; [|by rewrite app_nil_r].
    apply NoDup_app. split; [done|]. split; [|apply NoDup_singleton].
    intros q [_ Hq]%list_elem_of_filter Hq'%list_elem_of_singleton. subst q. by apply Hnew.
  - intros q [Hq|Hq%list_elem_of_singleton]%elem_of_app; [by apply ii_rpages0|]. subst q. lia.
Qed.

Lemma init_set_seen st t n : init_inv st -> init_inv (set_seen t n st).
Proof. intros []. by split. Qed.

Lemma seen_probe_set probes slot p st b st' : seen_probe probes slot p st = (b, st') ->
  exists t n, st' = set_seen t n st.
Proof.
  revert slot. induction probes as [|k IH]; intros slot; cbn [seen_probe].
  - intros [= _ <-]. exists (seen_page_tables st), (seen_page_table_count st). by destruct st.
  - destruct (_ =? p); [intros [= _ <-]; exists (seen_page_tables st), (seen_page_table_count st); by destruct st|].
    destruct (_ =? 0); [intros [= _ <-]; eauto | apply IH].
Qed.

Lemma init_seen st p b st' : init_inv st -> page_table_seen p st = (b, st') -> init_inv st'.
Proof.
  intros Hi. unfold page_table_seen. destruct (_ <=? _); [by intros [= _ <-]|].
  intros (t & n & ->)%seen_probe_set. by apply init_set_seen.
Qed.

Lemma land_ADDR_MASK_u64 e : is_u64 (Z.land e PTE_ADDR_MASK).
Proof. apply land_range; [lia|]. unfold PTE_ADDR_MASK. lia. Qed.

Lemma init_tree mem entries level tp st : is_u64 tp -> init_inv st ->
  init_inv (reserve_page_table_tree mem entries level tp st).
Proof.
  revert tp st. induction level as [|level IH]; intros tp st Ht Hi; [done|].
  cbn [reserve_page_table_tree]. destruct (_ || _); [done|]. destruct (negb _); [done|].
  destruct (page_table_seen (page_of tp) st) as [seen s1] eqn:Hs.
  pose proof (init_seen st _ _ _ Hi Hs) as Hi1. destruct seen; [done|].
  destruct (page_of_range tp Ht) as [_ Hr].
  pose proof (init_reserve s1 (page_of tp) Hi1 Hr) as Hi2.
  destruct (pmm_phys_to_virt _ _); [|done].
  apply foldl_inv; [|done]. intros a i _ Hia.
  destruct (_ || _); [done|]. destruct (_ && _); [done|]. destruct (_ && _); [|done].
  apply IH; [apply land_ADDR_MASK_u64 | done].
Qed.

(** ** Marking the reserved pages *)

(** After the pages [done] of the reserved list have been marked. *)
Record mark_inv (st0 st : pmm) (marked : list Z) : Prop := {
  mi_frame : same_frame st0 st;
  mi_refs : page_refs st = ∅;
  mi_alloc : forall p, is_page p -> page_is_allocated st p = true <-> p ∈ marked;
  mi_free : g_free_pages st = Z.of_nat (length (free_list st))
}.

Lemma mark_step st0 st marked p : init_inv st0 -> mark_inv st0 st marked ->
  p mod PAGE_SIZE = 0 -> 0 <= p -> (p < PMM_TRACK_LIMIT -> p ∉ marked) ->
  mark_inv st0 (init_mark_reserved st p) (marked ++ [p]).
Proof.
  intros Hi Hm Ha Hp Hnew. destruct Hm as [Hf Hrf Hal Hfr].
  pose proof (same_frame_pages _ _ Hf) as Hrp.
  assert (Hok : Forall region_ok (regions st)) by (destruct Hf as [-> _]; apply Hi).
  unfold init_mark_reserved. destruct (Z.ltb_spec p PMM_TRACK_LIMIT) as [Hlt|Hge].
  - assert (Hpg : is_page p) by (split; [done|lia]).
    set (s1 := page_set_allocated p true st).
    assert (Hf1 : same_frame st s1) by (unfold s1, page_set_allocated; frame_tac).
    assert (Hg1 : g_free_pages s1 = g_free_pages st) by (unfold s1, page_set_allocated; frame_tac).
    assert (Hr1 : page_refs s1 = page_refs st) by (unfold s1, page_set_allocated; frame_tac).
    assert (Ha1 : forall q, is_page q -> page_is_allocated s1 q = (p =? q) || page_is_allocated st q)
      by (intros q Hq; unfold s1; rewrite allocated_set by done; by destruct (p =? q)).
    assert (Hu : phys_in_usable_region s1 p = true <-> p ∈ region_pages st).
    { rewrite <- (same_frame_pages _ _ Hf1). apply usable_region_pages; [|done]. by destruct Hf1 as [-> _]. }
    set (v := phys_in_usable_region s1 p) in *.
    assert (Hpg' : forall q, q ∈ region_pages st -> is_page q)
      by (intros q Hq; eapply region_page_is_page; done).
    assert (Hnal : page_is_allocated st p = false)
      by (destruct (page_is_allocated st p) eqn:E; [|done]; apply Hal in E; [|done]; by apply Hnew in E).
    assert (Halloc : forall q, is_page q -> page_is_allocated (if v then dec_free s1 else s1) q = true
               <-> q ∈ marked ++ [p]).
    { intros q Hq. transitivity (page_is_allocated s1 q = true).
      { destruct v; [|done]. unfold page_is_allocated. by rewrite (proj1 (proj2 (dec_free_frame s1))). }
      rewrite Ha1, orb_true_iff, Z.eqb_eq, Hal, elem_of_app, list_elem_of_singleton by done. naive_solver. }
    split; try done.
    + destruct v; [|destruct Hf as (?&?&?&?&?), Hf1 as (?&?&?&?&?); by split_and!; etransitivity].
      destruct (dec_free_frame s1) as [Hf2 _].
      destruct Hf as (?&?&?&?&?), Hf1 as (?&?&?&?&?), Hf2 as (?&?&?&?&?). split_and!; congruence.
    + destruct v; [rewrite (proj2 (proj2 (dec_free_frame s1)))|]; congruence.
    + destruct v.
      * assert (Hlen : length (free_list st) = S (length (free_list (dec_free s1)))).
        { apply free_list_remove with (p := p).
          - rewrite Hrp. apply Hi.
          - rewrite (same_frame_pages _ _ (proj1 (dec_free_frame s1))). by apply same_frame_pages.
          - apply free_list_elem. split; [done | by apply Hu].
          - intros q Hq. rewrite <- Ha1 by auto. unfold page_is_allocated.
            by rewrite (proj1 (proj2 (dec_free_frame s1))). }
        unfold dec_free at 1. rewrite Hg1. destruct (Z.eqb_spec (g_free_pages st) 0); [lia|].
        cbn [g_free_pages set_free_pages]. lia.
      * rewrite Hg1, Hfr. unfold free_list. rewrite (same_frame_pages _ _ Hf1). f_equal.
        apply length_filter_iff_in. intros q Hq. rewrite Ha1 by auto.
        destruct (Z.eqb_spec p q) as [<-|]; [|done]. exfalso. by apply Hu in Hq.
  - assert (Hnu : phys_in_usable_region st p = false).
    { destruct (phys_in_usable_region st p) eqn:E; [|done].
      apply usable_region_pages in E; [|done..]. destruct (region_page_range st p Hok E). lia. }
    rewrite Hnu. split; try done. intros q Hq. rewrite Hal by done.
    rewrite elem_of_app, list_elem_of_singleton. destruct Hq. split; [by left|]. intros [?| ->]; [done|lia].
Qed.

Lemma mark_all st0 l st marked : init_inv st0 -> mark_inv st0 st marked ->
  (forall p, p ∈ l -> p mod PAGE_SIZE = 0 /\ 0 <= p) ->
  NoDup (filter (fun p => p < PMM_TRACK_LIMIT) (marked ++ l)) ->
  mark_inv st0 (foldl init_mark_reserved st l) (marked ++ l).
Proof.
  intros Hi. revert st marked. induction l as [|p l IH]; intros st marked Hm Hl Hnd; cbn [foldl].
  { by rewrite app_nil_r. }
  replace (marked ++ p :: l) with ((marked ++ [p]) ++ l) in * by (by rewrite <- app_assoc).
  apply IH; [|intros; apply Hl; by right | done].
  destruct (Hl p) as [Ha Hp]; [by left|]. apply mark_step; try done.
  intros Hlt Hin. rewrite !filter_app, filter_cons, filter_nil, decide_True in Hnd by done.
  apply NoDup_app in Hnd as [Hnd _]. apply NoDup_app in Hnd as (_ & Hd & _).
  apply (Hd p); [by apply list_elem_of_filter | by left].
Qed.

Lemma init_marked_wf st0 st : init_inv st0 -> mark_inv st0 st (reserved_pages st0) ->
  pmm_wf (set_ready true st).
Proof.
  intros Hi [Hf Hrf Hal Hfr]. pose proof (same_frame_pages _ _ Hf) as Hrp.
  assert (Hpg : forall q, q ∈ region_pages st -> is_page q).
  { intros q Hq. rewrite Hrp in Hq. eapply region_page_is_page; [apply Hi | done]. }
  assert (Hres : forall q, is_page q -> is_reserved st q = page_is_allocated st q).
  { intros q Hq. rewrite (same_frame_reserved st0 st) by done. apply eq_true_iff_eq.
    by rewrite (ii_resv _ Hi), Hal. }
  split; try done.
  - cbn [regions set_ready]. destruct Hf as [-> _]. apply Hi.
  - change (region_pages (set_ready true st)) with (region_pages st). rewrite Hrp. apply Hi.
  - intros p Hp Hr. change (is_reserved st p = true) in Hr. change (page_is_allocated st p = true).
    by rewrite <- Hres by auto.
  - intros p [Hp Hr]. change (is_reserved st p = false) in Hr. change (page_is_allocated st p = true <-> 1 <= refs_of st p).
    rewrite <- Hres, Hr by auto. unfold refs_of. rewrite Hrf.
    unfold arr. rewrite lookup_empty. cbn. split; [done | lia].
  - intros i. cbn [page_refs set_ready]. rewrite Hrf. unfold arr. rewrite lookup_empty. cbn.
    unfold UINT16_MAX. lia.
  - intros p Ha Hp Hpa. change (page_is_allocated st p = true) in Hpa. right.
    change (is_reserved st p = true). by rewrite Hres by done.
  - cbn [g_hhdm set_ready]. destruct Hf as (_&_&_&->&_). apply Hi.
Qed.

(** The kernel image [kernel_base, kernel_end) lies in 64-bit space. *)
Lemma pmm_init_sound mem cr3 l hhdm kb ke st :
  memmap_ok l -> is_u64 cr3 -> is_u64 kb -> is_u64 ke -> hhdm <> 0 ->
  let st' := pmm_init mem cr3 (Some l) hhdm kb ke st in
  regions st' <> [] -> pmm_wf st'.
Proof.
  intros Hl Hc Hkb Hke Hh st' Hne. unfold st', pmm_init in *. clear st'.
  rewrite (proj2 (Z.eqb_neq hhdm 0)) in * by done.
  set (s0 := Pmm [] [] _ _ hhdm 0 _ _ 0 ∅ ∅ ∅ false) in *.
  assert (H0 : init_inv s0).
  { split; try done.
    - by constructor.
    - intros p [_ Hp]. unfold is_reserved, page_is_reserved_fast. cbn [reserved_state s0].
      unfold arr. rewrite lookup_empty. cbn [from_option]. rewrite Z.shiftr_0_l.
      change (reserved_pages s0) with (@nil Z). rewrite elem_of_nil.
      change (has 0 1) with false. by destruct (negb (tracked (page_of p))).
    - by constructor.
    - by intros p ?%not_elem_of_nil. }
  set (s1 := foldl add_memmap_region s0 l) in *.
  assert (H1 : init_inv s1).
  { apply foldl_regions_inv; try done. intros [e|] _; [|done]. intros _ r Hr. by apply not_elem_of_nil in Hr. }
  set (s2 := reserve_kernel_image s1) in *.
  assert (H2 : init_inv s2).
  { unfold s2, reserve_kernel_image. clear Hne s2.
    destruct (_ && _) eqn:Hb; [|done]. apply foldl_inv; [|done].
    intros a p Hp Hia. apply init_reserve; [done|]. apply list_elem_of_fmap in Hp as (i & -> & Hi%elem_of_seqZ).
    apply andb_true_iff in Hb as [Hlt%Z.ltb_lt _].
    assert (Hk : g_kernel_base s1 = align_down kb /\ g_kernel_end s1 = align_up ke).
    { unfold s1. apply (foldl_inv (fun s => g_kernel_base s = align_down kb /\ g_kernel_end s = align_up ke)); [|done].
      intros a' e _ Ha'. unfold add_memmap_region. by repeat case_match. }
    destruct Hk as [Hk1 Hk2]. rewrite Hk1, Hk2 in *.
    assert (0 <= align_up ke < 2 ^ 64) by (apply land_range; [lia | unfold PAGE_MASK; lia]).
    assert (0 <= align_down kb < 2 ^ 64) by (apply land_range; [lia | unfold PAGE_MASK; lia]).
    unfold is_u64, PAGE_SIZE in *. dlia. }
  set (s3 := reserve_active_page_tables mem (Some l) cr3 s2) in *.
  assert (H3 : init_inv s3) by (apply init_tree; [done | by apply init_set_seen]).
  set (s4 := foldl init_mark_reserved s3 (reserved_pages s3)) in *.
  assert (H4 : mark_inv s3 s4 (reserved_pages s3)).
  { apply (mark_all s3 (reserved_pages s3) s3 []); try apply H3.
    assert (Hna : forall p, is_page p -> page_is_allocated s3 p = false).
    { intros p [_ Hp]. unfold page_is_allocated, tracked. rewrite (proj2 (Z.ltb_lt _ _)) by lia.
      cbn [negb]. rewrite (ii_state _ H3). unfold arr. rewrite lookup_empty. cbn [from_option].
      by rewrite Z.shiftr_0_l. }
    split; try done; [apply H3 | |].
    - intros p Hp. rewrite Hna by done. split; [done|]. by intros ?%not_elem_of_nil.
    - rewrite (ii_free _ H3). f_equal. unfold free_list.
      symmetry. apply length_filter_all. intros p Hp.
      apply Hna. eapply region_page_is_page; [apply H3 | done]. }
  assert (Hrc : negb (region_count s4 =? 0) = true).
  { apply negb_true_iff, Z.eqb_neq. cbn [regions set_ready] in Hne. unfold region_count.
    destruct (regions s4); [done|]. cbn [length]. lia. }
  rewrite Hrc. by apply init_marked_wf with s3.
Qed.
