(* ===== verification/PmmThms.v ===== *)
(** * Theorems of the physical memory manager

    The hash set of page tables, and the properties of pmm.c stated on runs
    of its interface, each with a witness on the state pmm_init builds from a
    small memory map. *)

From S2P Require Import Prelude Words Pmm PmmFacts PmmInit.
Local Open Scope Z_scope.

(** ** The hash set of visited page tables *)

Definition probe_slot (phys i : Z) : Z := (seen_slot phys + i) mod PAGE_TABLE_HASH_SIZE.

(** The tables recorded so far. *)
Definition seen_in (t : gmap Z Z) (p : Z) : Prop := exists s, t !! s = Some p.

(** Every key sits at the end of an unbroken probe sequence. *)
Record seen_inv (t : gmap Z Z) (n : Z) : Prop := {
  si_keys : forall s v, t !! s = Some v -> v <> 0 /\ 0 <= s < PAGE_TABLE_HASH_SIZE;
  si_path : forall s v, t !! s = Some v -> exists d, 0 <= d /\ s = probe_slot v d /\
    forall j, 0 <= j < d -> arr t (probe_slot v j) <> 0;
  si_count : n = Z.of_nat (size t)
}.

Lemma arr_nonzero t s n : seen_inv t n -> arr t s <> 0 <-> exists v, t !! s = Some v.
Proof.
  intros Hi. unfold arr. destruct (t !! s) as [v|] eqn:E; cbn.
  - split; [by eauto|]. intros _. by apply (si_keys _ _ Hi s v).
  - split; [done|]. by intros [v ?].
Qed.

Lemma probe_slot_range p i : 0 <= probe_slot p i < PAGE_TABLE_HASH_SIZE.
Proof. apply Z.mod_pos_bound. unfold PAGE_TABLE_HASH_SIZE. lia. Qed.

Lemma seen_slot_range p : 0 <= seen_slot p < PAGE_TABLE_HASH_SIZE.
Proof. apply (land_range _ _ 17); [lia|]. unfold PAGE_TABLE_HASH_SIZE. lia. Qed.

Lemma probe_slot_0 p : seen_slot p = probe_slot p 0.
Proof. unfold probe_slot. rewrite Z.add_0_r, Z.mod_small; [done | apply seen_slot_range]. Qed.

Lemma probe_slot_succ p i : Z.land (probe_slot p i + 1) (PAGE_TABLE_HASH_SIZE - 1) = probe_slot p (i + 1).
Proof.
  change (PAGE_TABLE_HASH_SIZE - 1) with (Z.ones 17). rewrite Z.land_ones by lia.
  unfold probe_slot. change (2 ^ 17) with PAGE_TABLE_HASH_SIZE.
  rewrite Z.add_mod_idemp_l by (unfold PAGE_TABLE_HASH_SIZE; lia). f_equal. lia.
Qed.

(** A table that is full has at least [PAGE_TABLE_HASH_SIZE] keys. *)
Lemma seen_full t n p : seen_inv t n ->
  (forall j, 0 <= j < PAGE_TABLE_HASH_SIZE -> arr t (probe_slot p j) <> 0) -> PAGE_TABLE_HASH_SIZE <= n.
Proof.
  intros Hi Hfull. rewrite (si_count _ _ Hi).
  assert (Hall : forall s, s ∈ seqZ 0 PAGE_TABLE_HASH_SIZE -> s ∈ dom t).
  { intros s Hs%elem_of_seqZ. apply elem_of_dom. pose proof (seen_slot_range p).
    specialize (Hfull ((s - seen_slot p) mod PAGE_TABLE_HASH_SIZE)).
    assert (Hs' : probe_slot p ((s - seen_slot p) mod PAGE_TABLE_HASH_SIZE) = s).
    { unfold probe_slot. rewrite Z.add_mod_idemp_r by (unfold PAGE_TABLE_HASH_SIZE; lia).
      rewrite Z.mod_small; lia. }
    rewrite Hs' in Hfull. apply (arr_nonzero t s n Hi), Hfull, Z.mod_pos_bound.
    unfold PAGE_TABLE_HASH_SIZE. lia. }
  assert (Hlen : (length (seqZ 0 PAGE_TABLE_HASH_SIZE) <= length (elements (dom t)))%nat).
  { apply submseteq_length, NoDup_submseteq; [apply NoDup_seqZ|].
    intros s Hs. by apply elem_of_elements, Hall. }
  rewrite length_seqZ in Hlen. apply inj_le in Hlen.
  rewrite Z2Nat.id in Hlen by (unfold PAGE_TABLE_HASH_SIZE; lia).
  by rewrite <- size_dom.
Qed.

(** The probe loop after [i] occupied slots that do not hold [p]. *)
Lemma seen_probe_spec k i p st n :
  seen_inv (seen_page_tables st) (seen_page_table_count st) -> p <> 0 -> 0 <= i ->
  Z.of_nat k + i = PAGE_TABLE_HASH_SIZE -> seen_page_table_count st < PAGE_TABLE_HASH_SIZE ->
  n = seen_page_table_count st ->
  (forall j, 0 <= j < i -> arr (seen_page_tables st) (probe_slot p j) <> 0 /\
                          arr (seen_page_tables st) (probe_slot p j) <> p) ->
  let '(b, st') := seen_probe k (probe_slot p i) p st in
  (b = true <-> seen_in (seen_page_tables st) p) /\
  seen_inv (seen_page_tables st') (seen_page_table_count st') /\
  (forall q, seen_in (seen_page_tables st') q <-> seen_in (seen_page_tables st) q \/ q = p) /\
  seen_page_table_count st' = if b then n else n + 1.
Proof.
  intros Hi Hp. set (t := seen_page_tables st) in *. revert i.
  induction k as [|k IH]; intros i H0 Hk Hc Hn Hpre; cbn [seen_probe].
  { exfalso. pose proof (seen_full t _ p Hi) as Hf. enough (PAGE_TABLE_HASH_SIZE <= seen_page_table_count st) by lia.
    apply Hf. intros j Hj. apply Hpre. lia. }
  fold t. destruct (Z.eqb_spec (arr t (probe_slot p i)) p) as [He|Hne].
  { assert (Hin : seen_in t p).
    { destruct (proj1 (arr_nonzero t (probe_slot p i) _ Hi)) as [v Hv]; [by rewrite He|].
      exists (probe_slot p i). unfold arr in He. rewrite Hv in *. cbn in He. by subst v. }
    split; [done|]. split; [done|]. split; [|done]. intros q. split; [by left|]. by intros [?| ->]. }
  destruct (Z.eqb_spec (arr t (probe_slot p i)) 0) as [Hz|Hnz].
  - assert (Hnot : ~ seen_in t p).
    { intros [s Hs]. destruct (si_path _ _ Hi s p Hs) as (d & Hd & -> & Hpath).
      assert (Harr : arr t (probe_slot p d) = p) by (unfold arr; by rewrite Hs).
      destruct (Z.lt_trichotomy d i) as [Hlt|[->|Hgt]].
      - by apply (Hpre d); [lia|].
      - congruence.
      - by apply (Hpath i); [lia|]. }
    assert (Hfree : t !! probe_slot p i = None).
    { destruct (t !! probe_slot p i) as [v|] eqn:E; [|done]. exfalso.
      apply (proj2 (arr_nonzero t (probe_slot p i) _ Hi)); [by eauto | done]. }
    cbn [seen_page_tables seen_page_table_count set_seen]. split; [split; done|]. split; [|split].
    + split.
      * intros s v. rewrite lookup_insert. case_decide as Hs; [|by apply Hi].
        intros [= <-]. subst s. split; [done | apply probe_slot_range].
      * intros s v. rewrite lookup_insert.
        assert (Hmono : forall s', arr t s' <> 0 -> arr (<[probe_slot p i := p]> t) s' <> 0).
        { intros s' Hs'. rewrite arr_insert. by destruct (_ =? s'). }
        case_decide as Hs.
        -- intros [= <-]. exists i. split; [done|]. split; [done|]. intros j Hj. by apply Hmono, Hpre.
        -- intros Hv. destruct (si_path _ _ Hi s v Hv) as (d & Hd & Hsd & Hpath).
           exists d. split; [done|]. split; [done|]. intros j Hj. by apply Hmono, Hpath.
      * rewrite map_size_insert_None by done. pose proof (si_count _ _ Hi). lia.
    + intros q. split.
      * intros [s Hs]. rewrite lookup_insert in Hs. case_decide; [right; congruence|]. left. by exists s.
      * intros [[s Hs]| ->]; [|exists (probe_slot p i); apply lookup_insert_eq].
        exists s. rewrite lookup_insert_ne; [done|]. intros Heq. rewrite Heq in Hfree. congruence.
    + lia.
  - rewrite probe_slot_succ. apply IH; try done; try lia. intros j Hj.
    destruct (decide (j = i)) as [->|]; [done|]. apply Hpre. lia.
Qed.

Definition pmm_blank : pmm := Pmm [] [] ∅ 0 0 0 0 0 0 ∅ ∅ ∅ false.

Lemma seen_inv_empty : seen_inv ∅ 0.
Proof. split; try done; intros s v H; by rewrite lookup_empty in H. Qed.

(** [page_table_seen] is insertion into a set: it answers true exactly
    for a page table recorded before, records the table otherwise, and keeps
    the open-addressing invariant of the table; the probe loop always
    terminates on a free slot or on the key. *)
Theorem page_table_seen_set st p : p <> 0 ->
  seen_inv (seen_page_tables st) (seen_page_table_count st) ->
  seen_page_table_count st < MAX_PAGE_TABLES ->
  let '(b, st') := page_table_seen p st in
  (b = true <-> seen_in (seen_page_tables st) p) /\
  seen_inv (seen_page_tables st') (seen_page_table_count st') /\
  (forall q, seen_in (seen_page_tables st') q <-> seen_in (seen_page_tables st) q \/ q = p) /\
  seen_page_table_count st' = if b then seen_page_table_count st else seen_page_table_count st + 1.
Proof.
  intros Hp Hi Hc. unfold page_table_seen. rewrite (proj2 (Z.leb_gt _ _)) by done.
  rewrite probe_slot_0. unfold MAX_PAGE_TABLES in Hc. apply seen_probe_spec; try done; try lia.
  unfold PAGE_TABLE_HASH_SIZE. lia.
Qed.

Lemma page_table_seen_set_witness :
  let '(b, st') := page_table_seen 0x2000 pmm_blank in
  (b = true <-> seen_in ∅ 0x2000) /\ seen_inv (seen_page_tables st') (seen_page_table_count st') /\
  (forall q, seen_in (seen_page_tables st') q <-> seen_in ∅ q \/ q = 0x2000) /\
  seen_page_table_count st' = if b then 0 else 0 + 1.
Proof.
  apply (page_table_seen_set pmm_blank 0x2000); [discriminate | exact seen_inv_empty | reflexivity].
Defined.

(** ** A concrete boot *)

Definition demo_memmap : list (option limine_memmap_entry) :=
  [Some (MemmapEntry 0 0x9000 0); Some (MemmapEntry 0xFFF000 0x8000 0); None;
   Some (MemmapEntry 0x2000000 0x3800 0)].

(** A PML4 at 0x2000000 whose first entry points to a table at 0x2001000. *)
Definition demo_mem : gmap Z Z := {[ 0x2000000 := 0x2001003 ]}.

Definition demo_boot : pmm :=
  pmm_init demo_mem 0x2000000 (Some demo_memmap) 0xFFFF800000000000 0x1000000 0x1001800 pmm_blank.

Lemma demo_memmap_ok : memmap_ok demo_memmap.
Proof.
  split; [repeat constructor; vm_compute; intros; discriminate|].
  unfold demo_memmap. repeat constructor; cbn; unfold usable_entry; cbn; lia.
Qed.

Lemma demo_boot_wf : pmm_wf demo_boot.
Proof.
  apply pmm_init_sound; [exact demo_memmap_ok | by vm_compute | by vm_compute | by vm_compute | discriminate |].
  vm_compute. discriminate.
Qed.

(** ** The properties *)

(** C1.  Every run of the interface of pmm.c (pmm_alloc_page, pmm_free_page,
    pmm_retain_page, reserve_page, in any order and with any addresses) from
    a well-formed state is a run of the abstract pool with the same results:
    an allocation gives a managed page nobody holds, a retain adds one
    reference, a free drops one and gives the page back with the last, a
    reserved page leaves the pool; and the invariant holds at the end. *)
Theorem pmm_refines_pool st tr st' : pmm_wf st -> pmm_run st tr st' ->
  pool_run (pool_of st) tr (pool_of st') /\ pmm_wf st'.
Proof.
  intros Hwf Hrun. split; [|by eapply run_wf]. induction Hrun as [|st c v st1 tr st2 Hc He Hr IH].
  - constructor.
  - destruct (exec_sim _ _ _ _ Hwf Hc He) as [Hs Hwf1]. econstructor; [done | by apply IH].
Qed.

Definition demo_trace : trace :=
  [(CAlloc, 0x1002000); (CRetain 0x1002000, 0); (CFree 0x1002abc, 0); (CFree 0x1002000, 0); (CAlloc, 0x1003000)].

Fixpoint run_calls (cs : list pmm_call) (st : pmm) : pmm :=
  match cs with [] => st | c :: cs => run_calls cs (snd (pmm_exec c st)) end.

Lemma pmm_refines_pool_witness :
  pool_run (pool_of demo_boot) demo_trace (pool_of (run_calls (fst <$> demo_trace) demo_boot)).
Proof.
  apply (pmm_refines_pool demo_boot demo_trace); [exact demo_boot_wf|].
  unfold demo_trace. cbn [fmap list_fmap fst run_calls].
  repeat (eapply run_cons;
    [first [exact I | by vm_compute] | vm_compute; reflexivity |]).
  vm_compute. apply run_nil.
Defined.

(** C2.  pmm_init on a memory map whose usable entries do not overlap leaves
    a well-formed allocator, and so does every run after it. *)
Theorem pmm_boot_invariant mem cr3 l hhdm kb ke st tr st' :
  memmap_ok l -> is_u64 cr3 -> is_u64 kb -> is_u64 ke -> hhdm <> 0 ->
  regions (pmm_init mem cr3 (Some l) hhdm kb ke st) <> [] ->
  pmm_run (pmm_init mem cr3 (Some l) hhdm kb ke st) tr st' -> pmm_wf st'.
Proof. intros. eapply run_wf; [done|]. by apply pmm_init_sound. Qed.

Lemma pmm_boot_invariant_witness : pmm_wf (snd (pmm_exec CAlloc demo_boot)).
Proof.
  apply (pmm_boot_invariant demo_mem 0x2000000 demo_memmap 0xFFFF800000000000 0x1000000 0x1001800 pmm_blank
           [(CAlloc, 0x1002000)] (snd (pmm_exec CAlloc demo_boot))).
  - exact demo_memmap_ok.
  - by vm_compute.
  - by vm_compute.
  - by vm_compute.
  - discriminate.
  - vm_compute. discriminate.
  - fold demo_boot. eapply run_cons; [exact I | vm_compute; reflexivity |]. vm_compute. apply run_nil.
Defined.

(** The counter pmm_free_count reports is exact: it is the number of
    managed pages of the pool that nobody holds. *)
Theorem pmm_free_count_exact st : pmm_wf st ->
  pmm_free_count st = Z.of_nat (size (pool_pages (pool_of st) ∖ dom (pool_refs (pool_of st)))).
Proof.
  intros Hwf. unfold pmm_free_count. rewrite (wf_free _ Hwf). f_equal.
  rewrite <- (size_list_to_set (C := gset Z) (free_list st)) by (apply NoDup_filter, Hwf).
  f_equal. apply set_eq. intros p.
  rewrite elem_of_list_to_set, free_list_elem, elem_of_difference, pool_pages_elem, not_elem_of_dom,
    pool_refs_None by done. split.
  - intros [Hal Hin]. assert (Hm : managed st p).
    { split; [done|]. destruct (is_reserved st p) eqn:Hr; [|done].
      rewrite (wf_resv _ Hwf p Hin Hr) in Hal. done. }
    split; [done|]. intros [_ ?]. congruence.
  - intros [Hm Hn]. split; [|apply Hm]. destruct (page_is_allocated st p); [|done]. by destruct Hn.
Qed.

Lemma pmm_free_count_exact_witness :
  pmm_free_count demo_boot = 6 /\
  pmm_free_count demo_boot =
    Z.of_nat (size (pool_pages (pool_of demo_boot) ∖ dom (pool_refs (pool_of demo_boot)))).
Proof. split; [vm_compute; reflexivity | apply (pmm_free_count_exact demo_boot), demo_boot_wf]. Defined.

(**  The search is complete: pmm_alloc_page gives 0 exactly when the free
    counter is 0; no free page is ever missed, whatever the [next] pointers. *)
Theorem pmm_alloc_exhausted_iff st : pmm_wf st ->
  fst (pmm_alloc_page st) = 0 <-> pmm_free_count st = 0.
Proof.
  intros Hwf. unfold pmm_free_count. rewrite (wf_free _ Hwf).
  destruct (pmm_alloc_cases st Hwf) as (rs & _ & _ & [(p & Hm & Hal & ->)|[Hnil ->]]); cbn [fst].
  - assert (Hp : p ∈ free_list st) by (apply free_list_elem; split; [done | apply Hm]).
    destruct Hm as [Hin _]. destruct (region_page_range st p (wf_regions _ Hwf) Hin).
    destruct (free_list st); [by apply not_elem_of_nil in Hp|].
    unfold PMM_MIN_PHYS in *. cbn [length]. lia.
  - by rewrite Hnil.
Qed.

Lemma pmm_alloc_exhausted_iff_witness :
  fst (pmm_alloc_page demo_boot) = 0 <-> pmm_free_count demo_boot = 0.
Proof. apply (pmm_alloc_exhausted_iff demo_boot), demo_boot_wf. Defined.

(**  A reserved page (kernel image, active page tables, device memory) is
    never handed out: no allocation of any later run returns it. *)
Theorem pmm_reserved_never_allocated st tr st' p : pmm_wf st -> is_reserved st p = true ->
  pmm_run st tr st' -> forall v, (CAlloc, v) ∈ tr -> p <> 0 -> v <> p.
Proof.
  intros Hwf Hres Hrun v Hv Hp0 ->.
  assert (Hn : p ∉ pool_pages (pool_of st)) by (rewrite pool_pages_elem; unfold managed; intros [_ ?]; congruence).
  clear Hres. induction Hrun as [|st c w st1 tr st2 Hc He Hr IH]; [by apply not_elem_of_nil in Hv|].
  destruct (exec_sim _ _ _ _ Hwf Hc He) as [Hs Hwf1].
  apply elem_of_cons in Hv as [[= <- <-]|Hv].
  - inversion Hs; subst; congruence.
  - apply IH; try done. inversion Hs; subst; try done; cbn [pool_pages]; set_solver.
Qed.

Lemma pmm_reserved_never_allocated_witness : 0x1002000 <> 0x2001000.
Proof.
  apply (pmm_reserved_never_allocated demo_boot [(CAlloc, 0x1002000)] (snd (pmm_exec CAlloc demo_boot)) 0x2001000).
  - exact demo_boot_wf.
  - vm_compute. reflexivity.
  - eapply run_cons; [exact I | vm_compute; reflexivity |]. vm_compute. apply run_nil.
  - left.
  - discriminate.
Defined.
