(* ===== verification/PageAlloc.v ===== *)
(** * The interface between the allocator and its clients

    [PageAllocator] states what pmm.c promises to the code that allocates
    page tables and data pages; the virtual memory manager is verified
    against the class, and the instance [pmm_allocator] discharges it from
    the refinement of pmm.c. *)

From S2P Require Import Prelude Words Pmm PmmFacts.
Local Open Scope Z_scope.

Class PageAllocator (inv : pmm -> Prop) (held : pmm -> Z -> Prop) : Prop := {
  (** A held page is a page frame below 4 GiB, and is not frame 0. *)
  pa_page s p : inv s -> held s p -> p mod PAGE_SIZE = 0 /\ 0 < p < PMM_TRACK_LIMIT;
  (** Allocation gives a page nobody holds, or 0 and nothing changes hands. *)
  pa_alloc s p s' : inv s -> pmm_alloc_page s = (p, s') -> p <> 0 ->
    ~ held s p /\ (forall q, held s' q <-> held s q \/ q = p);
  pa_alloc_fail s s' : inv s -> pmm_alloc_page s = (0, s') -> forall q, held s' q <-> held s q;
  pa_alloc_inv s p s' : inv s -> pmm_alloc_page s = (p, s') ->
    inv s' /\ g_hhdm s' = g_hhdm s /\ (p <> 0 -> pmm_page_refcount s' p = 1) /\
    (forall q, held s q -> pmm_page_refcount s' q = pmm_page_refcount s q);
  (** Allocation fails only when the free counter is 0, and takes at most one page. *)
  pa_supply s p s' : inv s -> pmm_alloc_page s = (p, s') ->
    (p = 0 -> pmm_free_count s = 0) /\ pmm_free_count s - 1 <= pmm_free_count s';
  (** A reserved page is never handed out. *)
  pa_reserved s p s' : inv s -> pmm_alloc_page s = (p, s') -> p <> 0 -> pmm_page_is_reserved s p = 0;
  (** A held page has a reference count of at least one. *)
  pa_count s p : inv s -> held s p -> 1 <= pmm_page_refcount s p <= UINT16_MAX;
  (** Freeing drops one reference of the page and touches no other page. *)
  pa_free s p : inv s -> is_u64 p ->
    inv (pmm_free_page p s) /\ g_hhdm (pmm_free_page p s) = g_hhdm s /\
    (forall q, held (pmm_free_page p s) q -> held s q) /\
    (forall q, held s q -> q <> page_of p -> held (pmm_free_page p s) q /\
       pmm_page_refcount (pmm_free_page p s) q = pmm_page_refcount s q);
  pa_free_shared s p : inv s -> held s p -> 1 < pmm_page_refcount s p ->
    held (pmm_free_page p s) p /\ pmm_page_refcount (pmm_free_page p s) p = pmm_page_refcount s p - 1;
  pa_free_last s p : inv s -> held s p -> pmm_page_refcount s p = 1 -> ~ held (pmm_free_page p s) p;
  (** Freeing never makes memory scarcer. *)
  pa_free_supply s p : inv s -> pmm_free_count s <= pmm_free_count (pmm_free_page p s);
  (** Retaining adds one reference, or changes nothing. *)
  pa_retain s p r s' : inv s -> is_u64 p -> pmm_retain_page p s = (r, s') ->
    inv s' /\ g_hhdm s' = g_hhdm s /\ (forall q, held s' q <-> held s q) /\
    (forall q, held s q -> pmm_page_refcount s' q =
       pmm_page_refcount s q + (if (r =? 0) && (q =? page_of p) then 1 else 0)) /\
    (r = 0 -> held s (page_of p))
}.

(** A page the pool has handed out. *)
Definition pool_held (s : pmm) (p : Z) : Prop := is_Some (pool_refs (pool_of s) !! p).

Lemma pool_count s p n : pmm_wf s -> pool_refs (pool_of s) !! p = Some n -> pmm_page_refcount s p = n.
Proof.
  intros Hwf Hn. apply pool_refs_lookup in Hn as (Hm & _ & ->); [|done].
  pose proof (managed_page s p Hwf Hm) as Hp. unfold pmm_page_refcount.
  rewrite page_of_page, (wf_ready _ Hwf) by done. cbn [negb orb].
  destruct (region_page_range s p (wf_regions _ Hwf) (proj1 Hm)) as [_ Hr]. unfold PMM_MIN_PHYS in Hr.
  by rewrite (proj2 (Z.eqb_neq _ _)), (proj2 (Z.leb_gt _ _)) by lia.
Qed.

Lemma pool_held_page s p : pmm_wf s -> pool_held s p -> p mod PAGE_SIZE = 0 /\ PMM_MIN_PHYS <= p < PMM_TRACK_LIMIT.
Proof.
  intros Hwf [n Hn]. apply pool_refs_lookup in Hn as ([Hin _] & _); [|done].
  by apply region_page_range with s; [apply Hwf|].
Qed.

Lemma alloc_hhdm s p s' : pmm_wf s -> pmm_alloc_page s = (p, s') -> g_hhdm s' = g_hhdm s.
Proof.
  intros Hwf He. destruct (pmm_alloc_cases s Hwf) as (rs & _ & _ & [(q & _ & _ & Heq)|[_ Heq]]);
    rewrite Heq in He; injection He as <- <-; [|done].
  by destruct (take_page_frame q (set_regions rs s)) as (_ & _ & _ & -> & _).
Qed.

Lemma alloc_supply s p s' : pmm_wf s -> pmm_alloc_page s = (p, s') ->
  (p = 0 -> pmm_free_count s = 0) /\ pmm_free_count s - 1 <= pmm_free_count s'.
Proof.
  intros Hwf He. unfold pmm_free_count. rewrite (wf_free _ Hwf) at 1.
  destruct (pmm_alloc_cases s Hwf) as (rs & _ & _ & [(q & Hm & _ & Heq)|[-> Heq]]);
    rewrite Heq in He; injection He as <- <-; [|cbn; split; lia].
  split.
  - intros ->. destruct (region_page_range s 0 (wf_regions _ Hwf) (proj1 Hm)) as [_ H0].
    unfold PMM_MIN_PHYS in H0. lia.
  - unfold take_page, dec_free, page_set_allocated.
    destruct (negb (tracked q)); cbn [g_free_pages set_page_refs set_page_state set_regions];
      destruct (Z.eqb_spec (g_free_pages s) 0); cbn [g_free_pages set_free_pages set_page_refs set_page_state set_regions]; lia.
Qed.

Lemma alloc_unreserved s p s' : pmm_wf s -> pmm_alloc_page s = (p, s') -> p <> 0 -> pmm_page_is_reserved s p = 0.
Proof.
  intros Hwf He Hp. destruct (pmm_alloc_cases s Hwf) as (rs & _ & _ & [(q & Hm & _ & Heq)|[_ Heq]]);
    rewrite Heq in He; injection He as <- <-; [|done].
  unfold pmm_page_is_reserved. rewrite page_of_page by (by eapply managed_page). by rewrite (proj2 Hm).
Qed.

Lemma free_hhdm p s : g_hhdm (pmm_free_page p s) = g_hhdm s.
Proof.
  unfold pmm_free_page. destruct (_ || _); [done|]. destruct (_ <=? _); [done|].
  rewrite free_in_regions_eq. destruct (existsb _ _); [|done].
  unfold drop_ref. destruct (negb (page_is_allocated _ _)); [done|]. destruct (1 <? _); [done|].
  unfold page_set_allocated. by destruct (negb _).
Qed.

Lemma retain_hhdm p s r s' : pmm_retain_page p s = (r, s') -> g_hhdm s' = g_hhdm s.
Proof. unfold pmm_retain_page. repeat case_match; by intros [= _ <-]. Qed.

(** ** The steps of the pool, inverted *)

Lemma step_alloc_inv A v A' : pool_step A CAlloc v A' ->
  (v <> 0 /\ pool_refs A !! v = None /\ pool_refs A' = <[v := 1]> (pool_refs A)) \/ (v = 0 /\ A' = A).
Proof. inversion 1; subst; [left | right]; done. Qed.

Lemma step_free_inv A x v A' : pool_step A (CFree x) v A' ->
  (exists n, pool_refs A !! page_of x = Some n /\ 1 < n /\ pool_refs A' = <[page_of x := n - 1]> (pool_refs A)) \/
  (pool_refs A !! page_of x = Some 1 /\ pool_refs A' = delete (page_of x) (pool_refs A)) \/
  (pool_refs A !! page_of x = None /\ A' = A).
Proof. inversion 1; subst; eauto 10. Qed.

Lemma step_retain_inv A x v A' : pool_step A (CRetain x) v A' ->
  (v = 0 /\ exists n, pool_refs A !! page_of x = Some n /\ pool_refs A' = <[page_of x := n + 1]> (pool_refs A)) \/
  (v = -1 /\ A' = A).
Proof. inversion 1; subst; eauto 10. Qed.

(** A count that two pools share. *)
Lemma count_same s s' q : pmm_wf s -> pmm_wf s' -> pool_held s q ->
  pool_refs (pool_of s') !! q = pool_refs (pool_of s) !! q ->
  pool_held s' q /\ pmm_page_refcount s' q = pmm_page_refcount s q.
Proof.
  intros Hwf Hwf' [n Hn] He. unfold pool_held. rewrite He, Hn. split; [done|].
  rewrite (pool_count s q n) by done. apply pool_count; congruence.
Qed.

Lemma free_view s p : pmm_wf s -> is_u64 p ->
  (forall q, pool_held (pmm_free_page p s) q -> pool_held s q) /\
  (forall q, pool_held s q -> q <> page_of p -> pool_held (pmm_free_page p s) q /\
     pmm_page_refcount (pmm_free_page p s) q = pmm_page_refcount s q).
Proof.
  intros Hwf Hp. destruct (sim_free s p Hwf Hp) as [Hs Hwf']. unfold pool_held at 1 2.
  destruct (step_free_inv _ _ _ _ Hs) as [(n & Hn & Hgt & Hr)|[[Hn Hr]|[Hn He]]].
  - rewrite Hr. split; [intros q; rewrite lookup_insert; case_decide; subst; [by eauto | done]|].
    intros q Hq Hne. apply count_same; try done. by rewrite Hr, lookup_insert_ne.
  - rewrite Hr. split; [intros q [k [_ Hk]%lookup_delete_Some]; by exists k|].
    intros q Hq Hne. apply count_same; try done. by rewrite Hr, lookup_delete_ne.
  - rewrite He. split; [done|]. intros q Hq Hne. apply count_same; try done. by rewrite He.
Qed.

Lemma held_u64 s p : pmm_wf s -> pool_held s p -> is_u64 p /\ page_of p = p.
Proof.
  intros Hwf Hh. pose proof (pool_held_page s p Hwf Hh) as [Ha Hr].
  unfold is_u64, PMM_MIN_PHYS, PMM_TRACK_LIMIT in *. split; [lia|].
  apply page_of_page. split; [done | unfold PMM_TRACK_LIMIT; lia].
Qed.

Lemma free_held_view s p : pmm_wf s -> pool_held s p ->
  (1 < pmm_page_refcount s p -> pool_held (pmm_free_page p s) p /\
     pmm_page_refcount (pmm_free_page p s) p = pmm_page_refcount s p - 1) /\
  (pmm_page_refcount s p = 1 -> ~ pool_held (pmm_free_page p s) p).
Proof.
  intros Hwf Hh. destruct (held_u64 s p Hwf Hh) as [Hu Hpp]. destruct Hh as [k Hk].
  rewrite (pool_count s p k) by done. destruct (sim_free s p Hwf Hu) as [Hs Hwf'].
  apply step_free_inv in Hs. rewrite Hpp in Hs.
  destruct Hs as [(n & Hn & Hgt & Hr)|[[Hn Hr]|[Hn He]]]; rewrite Hk in Hn; simplify_eq.
  - split; [|lia]. intros _. assert (Hl : pool_refs (pool_of (pmm_free_page p s)) !! p = Some (n - 1))
      by (rewrite Hr; apply lookup_insert_eq).
    split; [by exists (n - 1) | by apply pool_count].
  - split; [lia|]. intros _ [k Hk']. by rewrite Hr, lookup_delete_eq in Hk'.
Qed.

Lemma retain_view s p r s' : pmm_wf s -> is_u64 p -> pmm_retain_page p s = (r, s') ->
  (forall q, pool_held s' q <-> pool_held s q) /\
  (forall q, pool_held s q -> pmm_page_refcount s' q =
     pmm_page_refcount s q + (if (r =? 0) && (q =? page_of p) then 1 else 0)) /\
  (r = 0 -> pool_held s (page_of p)).
Proof.
  intros Hwf Hp He. destruct (sim_retain s p r s' Hwf Hp He) as [Hs Hwf'].
  destruct (step_retain_inv _ _ _ _ Hs) as [(-> & n & Hn & Hr)|[-> Hr]]; unfold pool_held at 1 2.
  - rewrite Hr. split_and!; [intros q; rewrite lookup_insert; case_decide; subst; naive_solver| |by exists n].
    intros q [k Hk]. rewrite (pool_count s q k) by done. apply pool_count; [done|].
    rewrite Hr, lookup_insert. destruct (Z.eqb_spec q (page_of p)) as [->|]; cbn [andb Z.eqb].
    + rewrite decide_True by done. congruence.
    + rewrite decide_False by done. rewrite Hk. f_equal. lia.
  - rewrite Hr. split_and!; [done| |done]. intros q Hq. cbn. rewrite Z.add_0_r.
    apply count_same; try done. by rewrite Hr.
Qed.

Lemma alloc_view s p s' : pmm_wf s -> pmm_alloc_page s = (p, s') ->
  (p <> 0 /\ ~ pool_held s p /\ (forall q, pool_held s' q <-> pool_held s q \/ q = p) /\
     pmm_page_refcount s' p = 1) \/
  (p = 0 /\ forall q, pool_held s' q <-> pool_held s q).
Proof.
  intros Hwf He. destruct (sim_alloc s p s' Hwf He) as [Hs Hwf'].
  destruct (step_alloc_inv _ _ _ Hs) as [(Hp & Hn & Hr)|[Hp Hr]]; [left|right]; unfold pool_held.
  - split; [done|]. split; [rewrite Hn; by intros [? ?]|]. split.
    + intros q. rewrite Hr, lookup_insert. case_decide; subst; naive_solver.
    + apply pool_count; [done|]. rewrite Hr. apply lookup_insert_eq.
  - split; [done|]. by rewrite Hr.
Qed.

Lemma alloc_counts s p s' q : pmm_wf s -> pmm_alloc_page s = (p, s') -> pool_held s q ->
  pmm_page_refcount s' q = pmm_page_refcount s q.
Proof.
  intros Hwf He Hq. destruct (sim_alloc s p s' Hwf He) as [Hs Hwf'].
  apply count_same; try done.
  destruct (step_alloc_inv _ _ _ Hs) as [(Hp & Hn & Hr)|[Hp Hr]]; [|by rewrite Hr].
  rewrite Hr, lookup_insert_ne; [done|]. intros ->. destruct Hq. congruence.
Qed.

Lemma free_supply s p : pmm_wf s -> pmm_free_count s <= pmm_free_count (pmm_free_page p s).
Proof.
  intros Hwf. pose proof (free_count_bound s Hwf) as Hb. unfold pmm_free_count, pmm_free_page.
  destruct (_ || _); [lia|]. destruct (_ <=? _); [lia|]. rewrite free_in_regions_eq. destruct (existsb _ _); [|lia].
  unfold drop_ref. destruct (negb (page_is_allocated _ _)); [lia|]. destruct (1 <? _); [cbn; lia|].
  unfold page_set_allocated. destruct (negb _); cbn [g_free_pages set_free_pages set_page_refs set_page_state]; rewrite u64_small; lia.
Qed.

#[global] Instance pmm_allocator : PageAllocator pmm_wf pool_held.
Proof.
  split.
  - intros s p Hwf Hh. destruct (pool_held_page s p Hwf Hh). unfold PMM_MIN_PHYS in *. lia.
  - intros s p s' Hwf He Hp. destruct (alloc_view s p s' Hwf He) as [(_ & ? & ? & _)|[? _]]; done.
  - intros s s' Hwf He. destruct (alloc_view s 0 s' Hwf He) as [(? & _)|[_ ?]]; done.
  - intros s p s' Hwf He. split_and!.
    + by eapply sim_alloc.
    + by eapply alloc_hhdm.
    + intros Hp. destruct (alloc_view s p s' Hwf He) as [(_ & _ & _ & ?)|[? _]]; done.
    + intros q Hq. by eapply alloc_counts.
  - intros s p s' Hwf He. by apply alloc_supply.
  - apply alloc_unreserved.
  - intros s p Hwf [n Hn]. rewrite (pool_count s p n) by done.
    apply pool_refs_lookup in Hn as (Hm & Hal & ->); [|done].
    split; [by apply (wf_refs _ Hwf) | apply (wf_refs_range _ Hwf)].
  - intros s p Hwf Hp. split_and!; [by apply sim_free | apply free_hhdm | by apply free_view..].
  - intros s p Hwf Hh. by apply free_held_view.
  - intros s p Hwf Hh. by apply free_held_view.
  - intros s p Hwf. by apply free_supply.
  - intros s p r s' Hwf Hp He. split_and!; [by eapply sim_retain | by eapply retain_hhdm | by eapply retain_view..].
Qed.
