(* ===== verification/Vmm.v ===== *)
(** * Virtual memory manager: [src/kernel/vmm.c]

    The state is the machine the kernel runs on: physical memory, CR3, the
    TLB operations issued, the physical memory manager, and the two static
    variables of vmm.c.  A kernel pointer into the HHDM window, [hhdm + p], is
    represented by the physical address [p] it denotes; [table] gives [None]
    where the C function gives NULL.  [&t[i]] is the address [t + 8 * i]. *)

From S2P Require Import Prelude Words Pmm.
Local Open Scope Z_scope.
Local Open Scope st_scope.

Definition PTE_U : Z := 0x004.
Definition PTE_PWT : Z := 0x008.
Definition PTE_PCD : Z := 0x010.
Definition PTE_COW : Z := 0x200.
Definition PTE_NX : Z := 0x8000000000000000.
Definition USER_TOP : Z := 0x0000800000000000.

(** The TLB instructions of the code. *)
Inductive tlb_op := Invlpg (va : Z) | LoadCr3 (cr3 : Z).

Record machine := Machine {
  m_pmm : pmm;
  m_mem : gmap Z Z;
  m_cr3 : Z;
  m_tlb : list tlb_op;
  m_kernel_cr3 : Z;
  m_fb_phys : Z;
  m_fb_size : Z;
  m_user_pml4 : Z;
  m_user_valid : bool
}.

Definition set_pmm (v : pmm) (m : machine) : machine :=
  Machine v (m_mem m) (m_cr3 m) (m_tlb m) (m_kernel_cr3 m) (m_fb_phys m) (m_fb_size m) (m_user_pml4 m) (m_user_valid m).
Definition set_mem (v : gmap Z Z) (m : machine) : machine :=
  Machine (m_pmm m) v (m_cr3 m) (m_tlb m) (m_kernel_cr3 m) (m_fb_phys m) (m_fb_size m) (m_user_pml4 m) (m_user_valid m).
Definition set_cr3 (v : Z) (m : machine) : machine :=
  Machine (m_pmm m) (m_mem m) v (m_tlb m) (m_kernel_cr3 m) (m_fb_phys m) (m_fb_size m) (m_user_pml4 m) (m_user_valid m).
Definition log_tlb (o : tlb_op) (m : machine) : machine :=
  Machine (m_pmm m) (m_mem m) (m_cr3 m) (m_tlb m ++ [o]) (m_kernel_cr3 m) (m_fb_phys m) (m_fb_size m) (m_user_pml4 m) (m_user_valid m).
Definition set_user (pml4 : Z) (valid : bool) (m : machine) : machine :=
  Machine (m_pmm m) (m_mem m) (m_cr3 m) (m_tlb m) (m_kernel_cr3 m) (m_fb_phys m) (m_fb_size m) pml4 valid.

(** ** Memory and the allocator as effects *)

Definition ld (a : Z) : ST machine Z := st_gets (fun m => arr (m_mem m) a).
Definition sto (a v : Z) : ST machine unit := st_mod (fun m => set_mem (<[a := v]> (m_mem m)) m).
Definition alloc_page : ST machine Z :=
  fun m => let '(p, s) := pmm_alloc_page (m_pmm m) in (p, set_pmm s m).
Definition free_page (p : Z) : ST machine unit := st_mod (fun m => set_pmm (pmm_free_page p (m_pmm m)) m).
Definition retain_page (p : Z) : ST machine Z :=
  fun m => let '(r, s) := pmm_retain_page p (m_pmm m) in (r, set_pmm s m).
Definition invlpg (va : Z) : ST machine unit := st_mod (log_tlb (Invlpg va)).
Definition load_cr3 (v : Z) : ST machine unit := st_mod (fun m => log_tlb (LoadCr3 v) (set_cr3 v m)).

(** Bytes of the little-endian words. *)
Definition ld8 (mem : gmap Z Z) (a : Z) : Z := Z.land (Z.shiftr (arr mem (a - a mod 8)) (8 * (a mod 8))) 0xFF.
Definition st8 (mem : gmap Z Z) (a b : Z) : gmap Z Z :=
  let w := arr mem (a - a mod 8) in
  let s := 8 * (a mod 8) in
  <[a - a mod 8 := Z.lor (Z.land w (not64 (Z.shiftl 0xFF s))) (Z.shiftl b s)]> mem.

(** [for (j = 0; j < n; j++) dp[j] = sp[j];] *)
Definition copy_bytes (dst src n : Z) (mem : gmap Z Z) : gmap Z Z :=
  foldl (fun mem j => st8 mem (dst + j) (ld8 mem (src + j))) mem (seqZ 0 n).

(** ** Helpers of the file *)

Definition idx4 (v : Z) : Z := Z.land (Z.shiftr v 39) 0x1ff.
Definition idx3 (v : Z) : Z := Z.land (Z.shiftr v 30) 0x1ff.
Definition idx2 (v : Z) : Z := Z.land (Z.shiftr v 21) 0x1ff.
Definition idx1 (v : Z) : Z := Z.land (Z.shiftr v 12) 0x1ff.
Definition canonical_user (va : Z) : bool := va <? USER_TOP.

Definition table (m : machine) (phys : Z) : option Z :=
  if (phys =? 0) || has phys (PAGE_SIZE - 1) then None
  else
    match pmm_phys_to_virt (m_pmm m) (Z.land phys PTE_ADDR_MASK) with
    | None => None
    | Some _ => Some (Z.land phys PTE_ADDR_MASK)
    end.

Definition zero_table (phys : Z) : ST machine unit := st_mod (fun m => set_mem (zero_words phys 512 (m_mem m)) m).

Definition zero_page (phys : Z) : ST machine bool :=
  let! m := st_get in
  match table m phys with
  | None => st_ret false
  | Some p => zero_table p ;;; st_ret true
  end.

(** The flags of an intermediate entry. *)
Definition PTE_TABLE : Z := Z.lor PTE_P (Z.lor PTE_W PTE_U).

Definition new_user_table (entry : Z) : ST machine (option Z) :=
  let! phys := alloc_page in
  if phys =? 0 then st_ret None
  else
    let! m := st_get in
    match table m phys with
    | None => free_page phys ;;; st_ret None
    | Some virt =>
        zero_table virt ;;;
        sto entry (Z.lor (Z.land phys PTE_ADDR_MASK) PTE_TABLE) ;;;
        st_ret (Some virt)
    end.

Definition ensure_user_child (parent idx : Z) : ST machine (option Z) :=
  let! e := ld (parent + 8 * idx) in
  if negb (has e PTE_P) || has e PTE_PS then new_user_table (parent + 8 * idx)
  else
    let! m := st_get in
    match table m (Z.land e PTE_ADDR_MASK) with
    | None => new_user_table (parent + 8 * idx)
    | Some child =>
        let wanted := Z.lor (Z.land e PTE_ADDR_MASK) PTE_TABLE in
        (if negb (Z.land e (Z.lor PTE_W PTE_U) =? Z.lor PTE_W PTE_U)
         then sto (parent + 8 * idx) wanted else st_ret tt) ;;;
        st_ret (Some child)
    end.

(** ** Address spaces *)

(** [for (i = first; i < last; i++) dst[i] = src[i];] *)
Definition copy_word_loop (dst src first last : Z) (mem : gmap Z Z) : gmap Z Z :=
  foldl (fun mem i => <[dst + 8 * i := arr mem (src + 8 * i)]> mem) mem (seqZ first (last - first)).

Definition copy_words (dst src first last : Z) : ST machine unit :=
  st_mod (fun m => set_mem (copy_word_loop dst src first last (m_mem m)) m).

Definition vmm_user_space_create : ST machine Z :=
  let! m := st_get in
  let current_cr3 := Z.land (m_cr3 m) PAGE_MASK in
  if (current_cr3 =? 0) || (PTE_ADDR_MASK <? current_cr3) then st_ret (-1)
  else
    let source_cr3 := if negb (m_kernel_cr3 m =? 0) then Z.land (m_kernel_cr3 m) PAGE_MASK else current_cr3 in
    if (source_cr3 =? 0) || (PTE_ADDR_MASK <? source_cr3) then st_ret (-1)
    else
      match table m source_cr3 with
      | None => st_ret (-1)
      | Some src =>
          let! pml4_phys := alloc_page in
          if pml4_phys =? 0 then st_ret (-1)
          else
            let! m := st_get in
            match table m pml4_phys with
            | None => free_page pml4_phys ;;; st_ret (-1)
            | Some dst =>
                zero_table dst ;;;
                copy_words dst src 256 512 ;;;
                st_mod (set_user pml4_phys true) ;;;
                st_ret 0
            end
      end.

Definition vmm_user_cr3 (m : machine) : Z := if m_user_valid m then m_user_pml4 m else 0.

(** [destroy_clone_level(phys, level)] with [below = level - 1]. *)
Fixpoint destroy_clone_level (below : nat) (phys : Z) : ST machine unit :=
  let! m := st_get in
  match table m (Z.land phys PAGE_MASK) with
  | None => st_ret tt
  | Some tabp =>
      match below with
      | O => st_ret tt
      | S below' =>
          let! _ := for_each (R := unit) (seqZ 0 512) (fun i =>
            let! e := ld (tabp + 8 * i) in
            if negb (has e PTE_P) || has e PTE_PS then continue_
            else destroy_clone_level below' (Z.land e PTE_ADDR_MASK) ;;; continue_) in
          st_ret tt
      end ;;;
      free_page (Z.land phys PAGE_MASK)
  end.

Definition destroy_clone_root (root_phys : Z) : ST machine unit :=
  let! m := st_get in
  match table m (Z.land root_phys PAGE_MASK) with
  | None => st_ret tt
  | Some root =>
      let! _ := for_each (R := unit) (seqZ 0 256) (fun i =>
        let! e := ld (root + 8 * i) in
        if negb (has e PTE_P) || has e PTE_PS then continue_
        else destroy_clone_level 2 (Z.land e PTE_ADDR_MASK) ;;; continue_) in
      free_page (Z.land root_phys PAGE_MASK)
  end.

(** [clone_user_tables(src_phys, level, err)] with [below = level - 1]; the
    pair is the C result and the value left in [*err]. *)
Fixpoint clone_user_tables (below : nat) (src_phys err : Z) : ST machine (Z * Z) :=
  let! dst_phys := alloc_page in
  if dst_phys =? 0 then st_ret (0, -1)
  else
    let! m := st_get in
    match table m src_phys, table m dst_phys with
    | Some src, Some dst =>
        zero_table dst ;;;
        let! r := for_each (seqZ 0 512) (fun i =>
          let! e := ld (src + 8 * i) in
          if negb (has e PTE_P) then continue_
          else if has e PTE_PS then destroy_clone_level below dst_phys ;;; return_ (0, -2)
          else
            match below with
            | O => sto (dst + 8 * i) e ;;; continue_
            | S below' =>
                let! r := clone_user_tables below' (Z.land e PTE_ADDR_MASK) err in
                let '(np, err') := r in
                if np =? 0 then destroy_clone_level below dst_phys ;;; return_ (0, err')
                else
                  sto (dst + 8 * i) (Z.lor (Z.land np PTE_ADDR_MASK) (Z.land e (not64 PTE_ADDR_MASK))) ;;;
                  continue_
            end) in
        match r with
        | Some r => st_ret r
        | None => st_ret (dst_phys, err)
        end
    | _, _ => free_page dst_phys ;;; st_ret (0, -1)
    end.

Fixpoint preflight_fork_pages (below : nat) (src_phys : Z) : ST machine Z :=
  let! m := st_get in
  match table m src_phys with
  | None => st_ret (-1)
  | Some src =>
      let! r := for_each (seqZ 0 512) (fun i =>
        let! e := ld (src + 8 * i) in
        if negb (has e PTE_P) then continue_
        else if has e PTE_PS then return_ (-2)
        else
          match below with
          | O =>
              let page := Z.land e PTE_ADDR_MASK in
              if page =? 0 then return_ (-1)
              else
                let! m := st_get in
                if negb (pmm_page_is_reserved (m_pmm m) page =? 0) then continue_
                else
                  let! k := retain_page page in
                  if negb (k =? 0) then return_ (-1)
                  else free_page page ;;; continue_
          | S below' =>
              let! k := preflight_fork_pages below' (Z.land e PTE_ADDR_MASK) in
              if negb (k =? 0) then return_ (-1) else continue_
          end) in
      st_ret (default 0 r)
  end.

(** The [virt_base] argument of the C function only feeds debug output. *)
Fixpoint apply_fork_cow (below : nat) (src_phys dst_phys : Z) : ST machine Z :=
  let! m := st_get in
  match table m src_phys, table m dst_phys with
  | Some src, Some dst =>
      let! r := for_each (seqZ 0 512) (fun i =>
        let! e := ld (src + 8 * i) in
        if negb (has e PTE_P) then continue_
        else if has e PTE_PS then return_ (-2)
        else
          match below with
          | O =>
              let page := Z.land e PTE_ADDR_MASK in
              if page =? 0 then return_ (-1)
              else
                let! m := st_get in
                if negb (pmm_page_is_reserved (m_pmm m) page =? 0) then sto (dst + 8 * i) e ;;; continue_
                else
                  let! k := retain_page page in
                  if negb (k =? 0) then return_ (-1)
                  else if has e PTE_W then
                    let cow := Z.lor (Z.land e (not64 PTE_W)) PTE_COW in
                    sto (src + 8 * i) cow ;;; sto (dst + 8 * i) cow ;;; continue_
                  else sto (dst + 8 * i) e ;;; continue_
          | S below' =>
              let! d := ld (dst + 8 * i) in
              let np := Z.land d PTE_ADDR_MASK in
              if np =? 0 then return_ (-1)
              else
                let! k := apply_fork_cow below' (Z.land e PTE_ADDR_MASK) np in
                if negb (k =? 0) then return_ (-1) else continue_
          end) in
      st_ret (default 0 r)
  | _, _ => st_ret (-1)
  end.

(** The result is the C return code and, with code 0, [*dst_cr3_out]. *)
Definition vmm_user_space_clone (src_cr3 : Z) : ST machine (Z * Z) :=
  if src_cr3 =? 0 then st_ret (-1, 0)
  else
    let! m := st_get in
    match table m (Z.land src_cr3 PTE_ADDR_MASK) with
    | None => st_ret (-1, 0)
    | Some src =>
        let! dst_phys := alloc_page in
        if dst_phys =? 0 then st_ret (-1, 0)
        else
          let! m := st_get in
          match table m dst_phys with
          | None => free_page dst_phys ;;; st_ret (-1, 0)
          | Some dst =>
              zero_table dst ;;;
              copy_words dst src 256 512 ;;;
              let! err := for_each (seqZ 0 256) (fun i =>
                let! e := ld (src + 8 * i) in
                if negb (has e PTE_P) then continue_
                else if has e PTE_PS then return_ (-2)
                else
                  let! r := clone_user_tables 2 (Z.land e PTE_ADDR_MASK) 0 in
                  let '(np, err) := r in
                  if np =? 0 then return_ err
                  else
                    sto (dst + 8 * i) (Z.lor (Z.land np PTE_ADDR_MASK) (Z.land e (not64 PTE_ADDR_MASK))) ;;;
                    continue_) in
              let err := default 0 err in
              if negb (err =? 0) then destroy_clone_root dst_phys ;;; st_ret (err, 0)
              else
                let! bad := for_each (seqZ 0 256) (fun i =>
                  let! e := ld (src + 8 * i) in
                  if negb (has e PTE_P) then continue_
                  else if has e PTE_PS then return_ tt
                  else
                    let! k := preflight_fork_pages 2 (Z.land e PTE_ADDR_MASK) in
                    if negb (k =? 0) then return_ tt else continue_) in
                match bad with
                | Some _ => destroy_clone_root dst_phys ;;; st_ret (-1, 0)
                | None =>
                    let! bad := for_each (seqZ 0 256) (fun i =>
                      let! e := ld (src + 8 * i) in
                      if negb (has e PTE_P) then continue_
                      else
                        let! d := ld (dst + 8 * i) in
                        let np := Z.land d PTE_ADDR_MASK in
                        if np =? 0 then return_ tt
                        else
                          let! k := apply_fork_cow 2 (Z.land e PTE_ADDR_MASK) np in
                          if negb (k =? 0) then return_ tt else continue_) in
                    match bad with
                    | Some _ => destroy_clone_root dst_phys ;;; st_ret (-1, 0)
                    | None => st_ret (0, dst_phys)
                    end
                end
          end
    end.

(** [destroy_user_level(phys, level)] with [below = level - 1]. *)
Fixpoint destroy_user_level (below : nat) (phys : Z) : ST machine unit :=
  let! m := st_get in
  match table m (Z.land phys PAGE_MASK) with
  | None => st_ret tt
  | Some tabp =>
      let! _ := for_each (R := unit) (seqZ 0 512) (fun i =>
        let! e := ld (tabp + 8 * i) in
        if negb (has e PTE_P) then continue_
        else
          match below with
          | S below' =>
              if negb (has e PTE_PS) then
                let child := Z.land e PTE_ADDR_MASK in
                destroy_user_level below' child ;;; free_page child
              else st_ret tt
          | O =>
              let page := Z.land e PTE_ADDR_MASK in
              let! m := st_get in
              let fb := Z.land (m_fb_phys m) PAGE_MASK in
              let fbsize := m_fb_size m in
              let fbend := u64 (fb + Z.land (u64 (fbsize + PAGE_SIZE - 1)) PAGE_MASK) in
              if (fbsize =? 0) || (page <? fb) || (fbend <=? page) then free_page page else st_ret tt
          end ;;;
          sto (tabp + 8 * i) 0 ;;; continue_) in
      st_ret tt
  end.

(** ** Walks

    The walks of vmm.c repeat the same lines for every level:
    [if (!(e & PTE_P) || (e & PTE_PS)) return -1; t = table(e & PTE_ADDR_MASK);
    if (!t) return -1;], which is [entry_child]. *)

Definition entry_child (m : machine) (e : Z) : option Z :=
  if negb (has e PTE_P) || has e PTE_PS then None else table m (Z.land e PTE_ADDR_MASK).

(** The walk of [vmm_user_translate] from a PML4: the address of the leaf
    entry, through present entries that are not large pages. *)
Definition walk_leaf (m : machine) (pml4 virt : Z) : option Z :=
  match entry_child m (arr (m_mem m) (pml4 + 8 * idx4 virt)) with
  | None => None
  | Some pdpt =>
      match entry_child m (arr (m_mem m) (pdpt + 8 * idx3 virt)) with
      | None => None
      | Some pd =>
          match entry_child m (arr (m_mem m) (pd + 8 * idx2 virt)) with
          | None => None
          | Some pt => Some (pt + 8 * idx1 virt)
          end
      end
  end.

(** [cow_walk]: the address of the leaf entry of [virt]. *)
Definition cow_walk (m : machine) (cr3 virt : Z) : option Z :=
  if has virt (PAGE_SIZE - 1) || (0x0000800000000000 <=? virt) then None
  else
    match table m (Z.land cr3 PAGE_MASK) with
    | None => None
    | Some pml4 => walk_leaf m pml4 virt
    end.

Definition vmm_user_cow_fault (cr3 virt : Z) : ST machine Z :=
  let virt := Z.land virt PAGE_MASK in
  let! m := st_get in
  match cow_walk m cr3 virt with
  | None => st_ret (-1)
  | Some leaf =>
      let! pte := ld leaf in
      if negb (has pte PTE_P) || negb (has pte PTE_U) || negb (has pte PTE_COW) || has pte PTE_W then st_ret (-1)
      else
        let oldphys := Z.land pte PTE_ADDR_MASK in
        let refs := pmm_page_refcount (m_pmm m) oldphys in
        if refs =? 1 then
          sto leaf (Z.lor pte PTE_W) ;;;
          let! w := ld leaf in
          sto leaf (Z.land w (not64 PTE_COW)) ;;;
          let! m := st_get in
          (if Z.land (m_cr3 m) PAGE_MASK =? Z.land cr3 PAGE_MASK then invlpg virt else st_ret tt) ;;;
          st_ret 0
        else
          let! np := alloc_page in
          if np =? 0 then st_ret (-1)
          else
            let! m := st_get in
            match pmm_phys_to_virt (m_pmm m) oldphys, pmm_phys_to_virt (m_pmm m) np with
            | Some _, Some _ =>
                st_mod (fun m => set_mem (copy_bytes np oldphys PAGE_SIZE (m_mem m)) m) ;;;
                let flags := Z.land pte 0xFFF in
                let flags := Z.land flags (not64 PTE_COW) in
                let flags := Z.lor flags (Z.lor PTE_P (Z.lor PTE_U PTE_W)) in
                sto leaf (Z.lor (Z.lor (Z.land np PTE_ADDR_MASK) flags) (Z.land pte PTE_NX)) ;;;
                let! w := ld leaf in
                sto leaf (Z.land w (not64 PTE_COW)) ;;;
                free_page oldphys ;;;
                invlpg virt ;;;
                st_ret 0
            | _, _ => free_page np ;;; st_ret (-1)
            end
  end.

Definition vmm_user_space_destroy (cr3 : Z) : ST machine Z :=
  if cr3 =? 0 then st_ret (-1)
  else
    let pml4_phys := Z.land cr3 PAGE_MASK in
    let! m := st_get in
    match table m pml4_phys with
    | None => st_ret (-1)
    | Some pml4 =>
        let! _ := for_each (R := unit) (seqZ 0 256) (fun i =>
          let! e := ld (pml4 + 8 * i) in
          if negb (has e PTE_P) || has e PTE_PS then continue_
          else
            let child := Z.land e PTE_ADDR_MASK in
            destroy_user_level 2 child ;;;
            free_page child ;;;
            sto (pml4 + 8 * i) 0 ;;;
            continue_) in
        free_page pml4_phys ;;;
        st_ret 0
    end.

Definition vmm_user_activate (cr3 : Z) : ST machine Z :=
  let cr3 := Z.land cr3 PAGE_MASK in
  let! m := st_get in
  match (if cr3 =? 0 then None else table m cr3) with
  | None => st_ret (-1)
  | Some _ => st_mod (set_user cr3 true) ;;; st_ret 0
  end.

Definition vmm_user_flush_tlb : ST machine unit :=
  let! m := st_get in
  if negb (m_user_valid m) || (m_user_pml4 m =? 0) || (m_kernel_cr3 m =? 0) then st_ret tt
  else
    let user := Z.land (m_user_pml4 m) PAGE_MASK in
    let kern := Z.land (m_kernel_cr3 m) PAGE_MASK in
    let current := Z.land (m_cr3 m) PAGE_MASK in
    if current =? user then load_cr3 user
    else load_cr3 user ;;; load_cr3 kern.

(** The leaf flags a caller may ask for. *)
Definition PTE_LEAF_FLAGS : Z := Z.lor PTE_W (Z.lor PTE_NX (Z.lor PTE_PWT PTE_PCD)).

Definition leaf_pte (phys flags : Z) : Z :=
  Z.lor (Z.lor (Z.lor (Z.land phys PTE_ADDR_MASK) PTE_P) PTE_U) (Z.land flags PTE_LEAF_FLAGS).

Definition vmm_user_map (virt phys flags : Z) : ST machine Z :=
  let! m := st_get in
  if negb (m_user_valid m) || negb (canonical_user virt) || has virt 0xfff || has phys 0xfff then st_ret (-1)
  else
    match table m (m_user_pml4 m) with
    | None => st_ret (-1)
    | Some pml4 =>
        let! pdpt := ensure_user_child pml4 (idx4 virt) in
        match pdpt with
        | None => st_ret (-1)
        | Some pdpt =>
            let! pd := ensure_user_child pdpt (idx3 virt) in
            match pd with
            | None => st_ret (-1)
            | Some pd =>
                let! pt := ensure_user_child pd (idx2 virt) in
                match pt with
                | None => st_ret (-1)
                | Some pt =>
                    sto (pt + 8 * idx1 virt) (leaf_pte phys flags) ;;;
                    let! m := st_get in
                    (if Z.land (m_cr3 m) PAGE_MASK =? Z.land (m_user_pml4 m) PAGE_MASK
                     then invlpg virt else st_ret tt) ;;;
                    st_ret 0
                end
            end
        end
    end.

(** [Some (phys, pte)] is return code 0 with the two outputs, [None] is -1. *)
Definition translate_from (m : machine) (pml4 virt : Z) : option (Z * Z) :=
  match walk_leaf m pml4 virt with
  | None => None
  | Some leaf =>
      let pte := arr (m_mem m) leaf in
      if negb (has pte PTE_P) then None
      else Some (Z.lor (Z.land pte PTE_ADDR_MASK) (Z.land virt 0xfff), pte)
  end.

Definition vmm_user_translate (m : machine) (virt : Z) : option (Z * Z) :=
  if negb (m_user_valid m) || negb (canonical_user virt) then None
  else
    match table m (m_user_pml4 m) with
    | None => None
    | Some pml4 => translate_from m pml4 virt
    end.

Definition vmm_cr3_translate_direct (m : machine) (cr3_phys va : Z) : option (Z * Z) :=
  if (cr3_phys =? 0) || has cr3_phys (PAGE_SIZE - 1) || negb (canonical_user va) then None
  else
    match table m cr3_phys with
    | None => None
    | Some pml4 => translate_from m pml4 va
    end.

Definition vmm_user_translate_cr3 (m : machine) (cr3 virt : Z) : option (Z * Z) :=
  vmm_cr3_translate_direct m (Z.land cr3 PAGE_MASK) virt.

(** [!(e & P) || (e & PS) || !(e & U) || !(e & W)] *)
Definition bad_user_entry (e : Z) : bool :=
  negb (has e PTE_P) || has e PTE_PS || negb (has e PTE_U) || negb (has e PTE_W).

Definition vmm_user_validate_page_cr3 (m : machine) (cr3 virt : Z) (require_write require_exec : bool) : Z :=
  if (cr3 =? 0) || negb (canonical_user virt) then -1
  else
    match table m (Z.land cr3 PAGE_MASK) with
    | None => -1
    | Some pml4 =>
        let e4 := arr (m_mem m) (pml4 + 8 * idx4 virt) in
        if bad_user_entry e4 then -2
        else
          match table m (Z.land e4 PTE_ADDR_MASK) with
          | None => -2
          | Some pdpt =>
              let e3 := arr (m_mem m) (pdpt + 8 * idx3 virt) in
              if bad_user_entry e3 then -3
              else
                match table m (Z.land e3 PTE_ADDR_MASK) with
                | None => -3
                | Some pd =>
                    let e2 := arr (m_mem m) (pd + 8 * idx2 virt) in
                    if bad_user_entry e2 then -4
                    else
                      match table m (Z.land e2 PTE_ADDR_MASK) with
                      | None => -4
                      | Some pt =>
                          let pte := arr (m_mem m) (pt + 8 * idx1 virt) in
                          if negb (has pte PTE_P) || negb (has pte PTE_U) then -5
                          else if require_write && negb (has pte PTE_W) then -6
                          else if require_exec && has pte PTE_NX then -7
                          else 0
                      end
                end
          end
    end.

Definition low_byte (e : Z) : Z := Z.land e 0xff.

(** [Some out] is return code 0. *)
Definition vmm_user_debug_walk (m : machine) (virt : Z) : option Z :=
  if negb (m_user_valid m) || negb (canonical_user virt) || has virt (PAGE_SIZE - 1) then None
  else
    match table m (m_user_pml4 m) with
    | None => None
    | Some pml4 =>
        let e4 := arr (m_mem m) (pml4 + 8 * idx4 virt) in
        match entry_child m e4 with
        | None => None
        | Some pdpt =>
            let e3 := arr (m_mem m) (pdpt + 8 * idx3 virt) in
            match entry_child m e3 with
            | None => None
            | Some pd =>
                let e2 := arr (m_mem m) (pd + 8 * idx2 virt) in
                match entry_child m e2 with
                | None => None
                | Some pt =>
                    let e1 := arr (m_mem m) (pt + 8 * idx1 virt) in
                    if negb (has e1 PTE_P) then None
                    else Some (Z.lor (Z.lor (Z.lor (low_byte e4) (Z.shiftl (low_byte e3) 8))
                                 (Z.shiftl (low_byte e2) 16)) (Z.shiftl (low_byte e1) 24))
                end
            end
        end
    end.

(** One page of vmm_user_range_ok. *)
Definition range_page_ok (m : machine) (write : bool) (va : Z) : bool :=
  match vmm_user_translate m va with
  | None => false
  | Some (_, pte) =>
      if negb (has pte PTE_U) then false
      else negb (write && negb (has pte PTE_W) && negb (has pte PTE_COW))
  end.

(** [for (va = first;; va += PAGE_SIZE)]; the fuel is the number of pages. *)
Fixpoint range_loop (fuel : nat) (m : machine) (write : bool) (last va : Z) : bool :=
  match fuel with
  | O => false
  | S fuel =>
      if negb (range_page_ok m write va) then false
      else if va =? last then true
      else if USER_TOP - PAGE_SIZE <? va then false
      else range_loop fuel m write last (va + PAGE_SIZE)
  end.

Definition vmm_user_range_ok (m : machine) (virt len : Z) (write : bool) : bool :=
  if negb (m_user_valid m) || (len =? 0) || negb (canonical_user virt) || (USER_TOP - virt <? len) then false
  else
    let first := Z.land virt PAGE_MASK in
    let last := Z.land (u64 (virt + len - 1)) PAGE_MASK in
    range_loop (Z.to_nat ((last - first) / PAGE_SIZE + 1)) m write last first.

Definition vmm_user_switch : ST machine unit :=
  let! m := st_get in
  if negb (m_user_valid m) then st_ret tt else load_cr3 (m_user_pml4 m).

Definition vmm_current_user_pml4 (m : machine) : Z := if m_user_valid m then m_user_pml4 m else 0.

(** [Some phys] is return code 0 with [*phys_out]. *)
Definition vmm_user_unmap (virt : Z) : ST machine (option Z) :=
  let! m := st_get in
  if negb (m_user_valid m) || negb (canonical_user virt) || has virt (PAGE_SIZE - 1) then st_ret None
  else
    match table m (m_user_pml4 m) with
    | None => st_ret None
    | Some pml4 =>
        match walk_leaf m pml4 virt with
        | None => st_ret None
        | Some leaf =>
            let! e := ld leaf in
            if negb (has e PTE_P) then st_ret None
            else
              sto leaf 0 ;;;
              invlpg virt ;;;
              st_ret (Some (Z.land e PTE_ADDR_MASK))
        end
    end.

(** The last part of vmm_user_protect, with the [pte] it read. *)
Definition protect_leaf (virt flags pte : Z) : ST machine Z :=
  let! m := st_get in
  match table m (m_user_pml4 m) with
  | None => st_ret (-1)
  | Some pml4 =>
      let e4 := arr (m_mem m) (pml4 + 8 * idx4 virt) in
      match table m (Z.land e4 PTE_ADDR_MASK) with
      | None => st_ret (-1)
      | Some pdpt =>
          let e3 := arr (m_mem m) (pdpt + 8 * idx3 virt) in
          match table m (Z.land e3 PTE_ADDR_MASK) with
          | None => st_ret (-1)
          | Some pd =>
              let e2 := arr (m_mem m) (pd + 8 * idx2 virt) in
              match table m (Z.land e2 PTE_ADDR_MASK) with
              | None => st_ret (-1)
              | Some pt =>
                  sto (pt + 8 * idx1 virt) (leaf_pte (Z.land pte PTE_ADDR_MASK) flags) ;;;
                  invlpg virt ;;;
                  st_ret 0
              end
          end
      end
  end.

Definition vmm_user_protect (virt flags : Z) : ST machine Z :=
  let! m := st_get in
  if negb (m_user_valid m) || negb (canonical_user virt) || has virt (PAGE_SIZE - 1) then st_ret (-1)
  else
    match vmm_user_translate m virt with
    | None => st_ret (-1)
    | Some (_, pte) =>
        if has flags PTE_W && has pte PTE_COW then
          let! r := vmm_user_cow_fault (m_user_pml4 m) virt in
          if negb (r =? 0) then st_ret (-1)
          else
            let! m := st_get in
            match vmm_user_translate m virt with
            | None => st_ret (-1)
            | Some (_, pte) => protect_leaf virt flags pte
            end
        else protect_leaf virt flags pte
    end.
