(* ===== verification/VmmFacts.v ===== *)
(** * Page-table trees

    The translation of an address space is read off its page-table tree.
    [tab_at] follows a path of indices from the root; [tree_wf] says that the
    tables of the user half are pages held from the allocator and that no
    table is reached by two paths.  Every function of vmm.c that changes
    tables is shown to be a [vm_step]: it keeps the tree well-formed and says
    exactly which translations change. *)

From S2P Require Import Prelude Words Pmm PmmFacts PageAlloc Vmm.
Local Open Scope Z_scope.

(** ** Entries *)

Lemma testbit_ADDR_MASK i : 0 <= i -> Z.testbit PTE_ADDR_MASK i = (12 <=? i) && (i <? 52).
Proof. intros. change PTE_ADDR_MASK with (Z.shiftl (Z.ones (52 - 12)) 12). by apply testbit_mask. Qed.

Definition addr_of (e : Z) : Z := Z.land e PTE_ADDR_MASK.

Lemma addr_of_range e : 0 <= addr_of e < 2 ^ 52.
Proof. apply land_range; [lia|]. unfold PTE_ADDR_MASK. lia. Qed.

Lemma addr_of_aligned e : addr_of e mod PAGE_SIZE = 0.
Proof.
  unfold addr_of. change PAGE_SIZE with (2 ^ 12). rewrite <- Z.land_ones by lia.
  apply Z.bits_inj'. intros i Hi. rewrite !Z.land_spec, testbit_ADDR_MASK, Z.bits_0 by lia.
  destruct (Z.leb_spec 12 i); [rewrite Z.ones_spec_high by lia; apply andb_false_r|].
  cbn [andb]. by rewrite andb_false_r.
Qed.

Lemma addr_of_page p : p mod PAGE_SIZE = 0 -> 0 <= p < 2 ^ 52 -> addr_of p = p.
Proof.
  intros Ha Hp. apply Z.bits_inj'. intros i Hi. unfold addr_of. rewrite Z.land_spec, testbit_ADDR_MASK by lia.
  destruct (Z.leb_spec 12 i); cbn [andb].
  - destruct (Z.ltb_spec i 52); [by rewrite andb_true_r|]. by rewrite (testbit_high p 52) by lia.
  - rewrite andb_false_r. symmetry. change PAGE_SIZE with (2 ^ 12) in Ha.
    rewrite <- Z.land_ones in Ha by lia.
    assert (Hb : Z.testbit (Z.land p (Z.ones 12)) i = Z.testbit 0 i) by (by rewrite Ha).
    by rewrite Z.land_spec, Z.ones_spec_low, andb_true_r, Z.bits_0 in Hb by lia.
Qed.

(** Flags as bits. *)
Lemma has_P e : has e PTE_P = Z.testbit e 0.
Proof. apply (has_pow2 e 0). lia. Qed.
Lemma has_W e : has e PTE_W = Z.testbit e 1.
Proof. apply (has_pow2 e 1). lia. Qed.
Lemma has_U e : has e PTE_U = Z.testbit e 2.
Proof. apply (has_pow2 e 2). lia. Qed.
Lemma has_PS e : has e PTE_PS = Z.testbit e 7.
Proof. apply (has_pow2 e 7). lia. Qed.
Lemma has_COW e : has e PTE_COW = Z.testbit e 9.
Proof. apply (has_pow2 e 9). lia. Qed.
Lemma has_NX e : has e PTE_NX = Z.testbit e 63.
Proof. apply (has_pow2 e 63). lia. Qed.

Lemma testbit_TABLE i : 0 <= i -> Z.testbit PTE_TABLE i = (i <? 3).
Proof.
  intros Hi. change PTE_TABLE with (Z.ones 3).
  destruct (Z.ltb_spec i 3); [rewrite Z.ones_spec_low | rewrite Z.ones_spec_high]; lia || done.
Qed.

(** The bits of a flag constant, as a test on the bit index. *)
Lemma testbit_LEAF_FLAGS i : 0 <= i ->
  Z.testbit PTE_LEAF_FLAGS i = (i =? 1) || (i =? 63) || (i =? 3) || (i =? 4).
Proof.
  intros Hi. unfold PTE_LEAF_FLAGS. rewrite !Z.lor_spec.
  change PTE_W with (2 ^ 1). change PTE_NX with (2 ^ 63). change PTE_PWT with (2 ^ 3). change PTE_PCD with (2 ^ 4).
  rewrite !testbit_pow2 by lia. rewrite !(Z.eqb_sym i). by rewrite !orb_assoc.
Qed.

Create Rewrite HintDb bits.
#[global] Hint Rewrite Z.lor_spec Z.land_spec testbit_ADDR_MASK testbit_TABLE testbit_LEAF_FLAGS
  testbit_not64 Z.bits_0 using lia : bits.
#[global] Hint Rewrite (testbit_pow2 0 : forall i, 0 <= 0 -> 0 <= i -> Z.testbit PTE_P i = (0 =? i))
  (testbit_pow2 1 : forall i, 0 <= 1 -> 0 <= i -> Z.testbit PTE_W i = (1 =? i))
  (testbit_pow2 2 : forall i, 0 <= 2 -> 0 <= i -> Z.testbit PTE_U i = (2 =? i))
  (testbit_pow2 9 : forall i, 0 <= 9 -> 0 <= i -> Z.testbit PTE_COW i = (9 =? i))
  (testbit_pow2 63 : forall i, 0 <= 63 -> 0 <= i -> Z.testbit PTE_NX i = (63 =? i)) using lia : bits.

Ltac bit_cases :=
  repeat match goal with
    | |- context [?a =? ?b] => destruct (Z.eqb_spec a b)
    | |- context [?a <? ?b] => destruct (Z.ltb_spec a b)
    | |- context [?a <=? ?b] => destruct (Z.leb_spec a b)
    end; cbn [andb orb xorb negb]; rewrite ?andb_true_r, ?andb_false_r, ?orb_true_r, ?orb_false_r.

(** Equality of words built from masks, bit by bit. *)
Ltac bits_eq :=
  apply Z.bits_inj'; let i := fresh "i" in intros i ?; autorewrite with bits; bit_cases; try lia; try done.

(** One bit of such a word. *)
Ltac bit_at := autorewrite with bits; cbn [Z.leb Z.ltb Z.eqb Z.compare Pos.compare Pos.compare_cont Pos.eqb andb orb xorb negb];
  rewrite ?andb_true_r, ?andb_false_r, ?orb_true_r, ?orb_false_r; try done.

Lemma addr_of_table e : addr_of (Z.lor (Z.land e PTE_ADDR_MASK) PTE_TABLE) = addr_of e.
Proof. unfold addr_of. bits_eq. Qed.

Lemma table_flags e : let w := Z.lor (Z.land e PTE_ADDR_MASK) PTE_TABLE in
  has w PTE_P = true /\ has w PTE_PS = false /\ has w PTE_U = true /\ has w PTE_W = true.
Proof. cbn zeta. rewrite has_P, has_PS, has_U, has_W. split_and!; bit_at. Qed.

Lemma leaf_pte_spec phys flags : phys mod PAGE_SIZE = 0 -> 0 <= phys < 2 ^ 52 ->
  let w := leaf_pte phys flags in
  addr_of w = phys /\ has w PTE_P = true /\ has w PTE_U = true /\ has w PTE_COW = false /\
  has w PTE_W = has flags PTE_W /\ has w PTE_NX = has flags PTE_NX.
Proof.
  intros Ha Hp. cbn zeta. unfold leaf_pte. rewrite !has_P, !has_U, !has_COW, !has_W, !has_NX.
  split; [|split_and!; bit_at].
  rewrite <- (addr_of_page phys) at 2 by done. unfold addr_of. bits_eq.
Qed.

(** ** Trees *)

(** The base of the HHDM window, fixed at boot. *)
Class HhdmBase := hhdm_base : Z.

Section Hhdm.
Context {HB : HhdmBase}.

(** An address that names no table: 0, or beyond the end of the window. *)
Definition no_table (p : Z) : bool := (p =? 0) || (UINT64_MAX - hhdm_base <? p).

(** The child table an entry names, when the HHDM reaches it. *)
Definition child (e : Z) : option Z :=
  if negb (has e PTE_P) || has e PTE_PS || no_table (addr_of e) then None else Some (addr_of e).

Fixpoint tab_at (mem : gmap Z Z) (t : Z) (path : list Z) : option Z :=
  match path with
  | [] => Some t
  | i :: path =>
      match child (arr mem (t + 8 * i)) with
      | None => None
      | Some t' => tab_at mem t' path
      end
  end.

(** A path to a table of the user half. *)
Definition upath (path : list Z) : Prop :=
  (length path <= 3)%nat /\ Forall (fun i => 0 <= i < 512) path /\
  match path with i :: _ => i < 256 | [] => True end.

Definition va_path (va : Z) : list Z := [idx4 va; idx3 va; idx2 va].

Definition user_va (va : Z) : Prop := 0 <= va < USER_TOP.

(** The leaf entry that maps [va], 0 when the walk does not get there. *)
Definition pte_of (mem : gmap Z Z) (root va : Z) : Z :=
  match tab_at mem root (va_path va) with
  | Some pt => arr mem (pt + 8 * idx1 va)
  | None => 0
  end.

Lemma tab_at_app mem t p1 p2 :
  tab_at mem t (p1 ++ p2) = match tab_at mem t p1 with Some t' => tab_at mem t' p2 | None => None end.
Proof.
  revert t. induction p1 as [|i p1 IH]; intros t; cbn [tab_at app]; [done|].
  destruct (child _); [apply IH | done].
Qed.

Lemma idx_range va : 0 <= idx4 va < 512 /\ 0 <= idx3 va < 512 /\ 0 <= idx2 va < 512 /\ 0 <= idx1 va < 512.
Proof.
  assert (H : forall k, 0 <= Z.land (Z.shiftr va k) 0x1ff < 512) by (intros k; apply (land_range _ _ 9); lia).
  unfold idx4, idx3, idx2, idx1. split_and!; apply H.
Qed.

Lemma idx_div va : 0 <= va ->
  idx4 va = va / 2 ^ 39 mod 512 /\ idx3 va = va / 2 ^ 30 mod 512 /\
  idx2 va = va / 2 ^ 21 mod 512 /\ idx1 va = va / 2 ^ 12 mod 512.
Proof.
  intros Hv. unfold idx4, idx3, idx2, idx1. change 0x1ff with (Z.ones 9).
  split_and!; apply (land_shift_field _ _ 9); lia.
Qed.

Lemma idx4_user va : user_va va -> 0 <= idx4 va < 256.
Proof.
  intros Hv. unfold user_va, USER_TOP in Hv. destruct (idx_div va ltac:(lia)) as (-> & _).
  assert (va / 2 ^ 39 < 256) by (apply Z.div_lt_upper_bound; lia).
  assert (0 <= va / 2 ^ 39) by (apply Z.div_pos; lia). rewrite Z.mod_small; lia.
Qed.

(** Two user addresses with the same four indices lie in the same page. *)
Lemma idx_inj va va' : user_va va -> user_va va' ->
  va_path va = va_path va' -> idx1 va = idx1 va' -> va / PAGE_SIZE = va' / PAGE_SIZE.
Proof.
  intros Hv Hv' Hp H1. unfold va_path in Hp. injection Hp as H4 H3 H2.
  unfold user_va, USER_TOP in *.
  destruct (idx_div va ltac:(lia)) as (E4 & E3 & E2 & E1).
  destruct (idx_div va' ltac:(lia)) as (F4 & F3 & F2 & F1).
  rewrite E4, F4 in H4. rewrite E3, F3 in H3. rewrite E2, F2 in H2. rewrite E1, F1 in H1.
  clear E4 E3 E2 E1 F4 F3 F2 F1. unfold PAGE_SIZE. change 0x1000 with (2 ^ 12).
  assert (Hd : forall x k, 0 <= x -> x / 2 ^ (k + 9) = x / 2 ^ k / 512 \/ k < 0).
  { intros x k Hx. destruct (Z.lt_ge_cases k 0); [by right|left].
    rewrite Z.pow_add_r by lia. change (2 ^ 9) with 512. rewrite Z.div_div by lia. done. }
  assert (Hs : forall k, 0 <= k -> va / 2 ^ (k + 9) = va' / 2 ^ (k + 9) ->
             (va / 2 ^ k) mod 512 = (va' / 2 ^ k) mod 512 -> va / 2 ^ k = va' / 2 ^ k).
  { intros k Hk Hq Hm. destruct (Hd va k) as [Ha|]; [lia| |lia]. destruct (Hd va' k) as [Hb|]; [lia| |lia].
    rewrite Ha, Hb in Hq. pose proof (Z.div_mod (va / 2 ^ k) 512). pose proof (Z.div_mod (va' / 2 ^ k) 512). lia. }
  apply (Hs 12); [lia| |done]. apply (Hs 21); [lia| |done]. apply (Hs 30); [lia| |done].
  apply (Hs 39); [lia| |done].
  rewrite !Z.div_small by lia. done.
Qed.

Lemma va_path_page va va' : 0 <= va -> 0 <= va' -> va / PAGE_SIZE = va' / PAGE_SIZE ->
  va_path va = va_path va' /\ idx1 va = idx1 va'.
Proof.
  intros Hv Hv' Hp. unfold va_path.
  destruct (idx_div va Hv) as (-> & -> & -> & ->). destruct (idx_div va' Hv') as (-> & -> & -> & ->).
  unfold PAGE_SIZE in Hp. change 0x1000 with (2 ^ 12) in Hp.
  assert (H : forall k, 12 <= k -> va / 2 ^ k = va' / 2 ^ k).
  { intros k Hk. replace k with (12 + (k - 12)) by lia. rewrite Z.pow_add_r by lia.
    rewrite <- !Z.div_div by lia. by rewrite Hp. }
  rewrite !(H 39), !(H 30), !(H 21), !(H 12) by lia. done.
Qed.

Lemma upath_va va : user_va va -> upath (va_path va).
Proof.
  intros Hv. destruct (idx_range va) as (? & ? & ? & _). pose proof (idx4_user va Hv).
  split; [done|]. split; [unfold va_path; by rewrite !Forall_cons, Forall_nil|]. cbn. lia.
Qed.

Lemma upath_prefix p1 p2 : upath (p1 ++ p2) -> upath p1.
Proof.
  intros (Hl & Hf & Hh). rewrite length_app in Hl. apply Forall_app in Hf as [Hf _].
  split; [lia|]. split; [done|]. by destruct p1.
Qed.

(** ** The HHDM window *)

(** The window lies in the upper half and maps the first 4 GiB. *)
Definition hhdm_ok (h : Z) : Prop := h = hhdm_base /\ 0xFFFF000000000000 <= h /\ h + PMM_TRACK_LIMIT <= 2 ^ 64.

Lemma phys_to_virt_eq s p : hhdm_ok (g_hhdm s) -> 0 <= p ->
  pmm_phys_to_virt s p = if UINT64_MAX - hhdm_base <? p then None else Some (g_hhdm s + p).
Proof.
  intros (E & Hl & Hh) Hp. rewrite <- E. unfold pmm_phys_to_virt, UINT64_MAX, PMM_TRACK_LIMIT in *.
  rewrite (proj2 (Z.eqb_neq _ _)) by lia.
  destruct (Z.ltb_spec (0xFFFFFFFFFFFFFFFF - g_hhdm s) p); [done|].
  replace (Z.shiftr (g_hhdm s + p) 48) with 0xFFFF; [done|].
  rewrite Z.shiftr_div_pow2 by lia.
  apply Z.div_unique with (g_hhdm s + p - 0xFFFF * 2 ^ 48); lia.
Qed.

Lemma reach_low h p : hhdm_ok h -> 0 < p < PMM_TRACK_LIMIT -> no_table p = false.
Proof. intros (E & Hl & Hh) Hp. unfold no_table, UINT64_MAX, PMM_TRACK_LIMIT in *. rewrite <- E. lia. Qed.

Lemma phys_to_virt_ok s p : hhdm_ok (g_hhdm s) -> 0 < p < PMM_TRACK_LIMIT -> pmm_phys_to_virt s p = Some (g_hhdm s + p).
Proof.
  intros Hh Hp. rewrite phys_to_virt_eq by (done || lia). pose proof (reach_low _ p Hh Hp) as Hr.
  unfold no_table in Hr. by apply orb_false_iff in Hr as [_ ->].
Qed.

Lemma table_addr m e : hhdm_ok (g_hhdm (m_pmm m)) ->
  table m (addr_of e) = if no_table (addr_of e) then None else Some (addr_of e).
Proof.
  intros Hh. unfold table, no_table. rewrite has_low12, addr_of_aligned. cbn [Z.eqb negb]. rewrite orb_false_r.
  pose proof (addr_of_range e). pose proof (addr_of_aligned e).
  destruct (addr_of e =? 0); [done|]. fold (addr_of (addr_of e)).
  rewrite addr_of_page, phys_to_virt_eq by (done || lia). cbn [orb]. by destruct (_ <? _).
Qed.

Lemma table_frame m p : hhdm_ok (g_hhdm (m_pmm m)) -> p mod PAGE_SIZE = 0 -> 0 < p < 2 ^ 52 ->
  table m p = if no_table p then None else Some p.
Proof. intros Hh Ha Hp. rewrite <- (addr_of_page p), table_addr, addr_of_page by (done || lia). done. Qed.

Lemma table_page m p : hhdm_ok (g_hhdm (m_pmm m)) -> p mod PAGE_SIZE = 0 -> 0 < p < PMM_TRACK_LIMIT -> table m p = Some p.
Proof.
  intros Hh Ha Hp. rewrite table_frame by (done || unfold PMM_TRACK_LIMIT in *; lia). by erewrite reach_low.
Qed.

Lemma entry_child_eq m e : hhdm_ok (g_hhdm (m_pmm m)) -> entry_child m e = child e.
Proof.
  intros Hh. unfold entry_child, child. fold (addr_of e). rewrite table_addr by done.
  destruct (negb _ || _); cbn [orb]; [done|]. by destruct (no_table (addr_of e)).
Qed.

Lemma walk_leaf_eq m root va : hhdm_ok (g_hhdm (m_pmm m)) ->
  walk_leaf m root va =
    match tab_at (m_mem m) root (va_path va) with Some pt => Some (pt + 8 * idx1 va) | None => None end.
Proof.
  intros Hh. unfold walk_leaf, va_path. cbn [tab_at]. rewrite !entry_child_eq by done.
  destruct (child _) as [t3|]; [|done]. rewrite entry_child_eq by done.
  destruct (child (arr _ (t3 + _))) as [t2|]; [|done]. rewrite entry_child_eq by done.
  by destruct (child _).
Qed.

Lemma translate_from_eq m root va : hhdm_ok (g_hhdm (m_pmm m)) ->
  translate_from m root va =
    let pte := pte_of (m_mem m) root va in
    if has pte PTE_P then Some (Z.lor (addr_of pte) (Z.land va 0xfff), pte) else None.
Proof.
  intros Hh. unfold translate_from, pte_of. rewrite walk_leaf_eq by done.
  destruct (tab_at _ _ _); [|done]. cbn zeta. by destruct (has _ _).
Qed.

End Hhdm.

(** ** Memory writes *)

Lemma slot_inj t1 t2 i j : t1 mod PAGE_SIZE = 0 -> t2 mod PAGE_SIZE = 0 -> 0 <= i < 512 -> 0 <= j < 512 ->
  t1 + 8 * i = t2 + 8 * j -> t1 = t2 /\ i = j.
Proof. intros H1 H2 Hi Hj He. unfold PAGE_SIZE in *. dlia. Qed.

(** The page a word lies in. *)
Definition page_base (a : Z) : Z := a - a mod PAGE_SIZE.

Lemma slot_page t i : t mod PAGE_SIZE = 0 -> 0 <= i < 512 -> page_base (t + 8 * i) = t.
Proof. intros Ht Hi. unfold page_base, PAGE_SIZE in *. dlia. Qed.

Lemma arr_zero_in mem p n i : 0 <= i < n -> arr (zero_words p n mem) (p + 8 * i) = 0.
Proof.
  intros Hi. assert (Hin : i ∈ seqZ 0 n) by (apply elem_of_seqZ; lia). unfold zero_words. clear Hi. revert Hin.
  induction (seqZ 0 n) as [|j l IH] using rev_ind; intros Hin; [by apply not_elem_of_nil in Hin|].
  rewrite foldl_snoc, arr_insert. destruct (Z.eqb_spec (p + 8 * j) (p + 8 * i)); [done|].
  apply IH. apply elem_of_app in Hin as [?|Hin%list_elem_of_singleton]; [done|]. congruence.
Qed.

Lemma arr_zero_out mem p n a : (forall i, 0 <= i < n -> a <> p + 8 * i) -> arr (zero_words p n mem) a = arr mem a.
Proof.
  intros Ha. assert (Hin : forall i, i ∈ seqZ 0 n -> a <> p + 8 * i) by (intros i Hi%elem_of_seqZ; apply Ha; lia).
  unfold zero_words. clear Ha. revert Hin.
  induction (seqZ 0 n) as [|j l IH] using rev_ind; intros Hin; [done|].
  rewrite foldl_snoc, arr_insert. destruct (Z.eqb_spec (p + 8 * j) a) as [He|].
  - exfalso. apply (Hin j); [set_solver | done].
  - apply IH. intros i Hi. apply Hin. set_solver.
Qed.

(** Zeroing a page leaves the words of every other page. *)
Lemma arr_zero_page mem p a : p mod PAGE_SIZE = 0 -> page_base a <> p -> arr (zero_words p 512 mem) a = arr mem a.
Proof. intros Hp Ha. apply arr_zero_out. intros i Hi ->. by rewrite slot_page in Ha. Qed.

(** ** Well-formed trees *)

Section Trees.
Context {HB : HhdmBase} {inv : pmm -> Prop} {held : pmm -> Z -> Prop} `{PA : !PageAllocator inv held}.

Record vm_inv (m : machine) : Prop := {
  vi_pmm : inv (m_pmm m);
  vi_hhdm : hhdm_ok (g_hhdm (m_pmm m))
}.

Record tree_wf (m : machine) (root : Z) : Prop := {
  tw_held : forall p t, upath p -> tab_at (m_mem m) root p = Some t -> held (m_pmm m) t;
  tw_inj : forall p1 p2 t, upath p1 -> upath p2 ->
    tab_at (m_mem m) root p1 = Some t -> tab_at (m_mem m) root p2 = Some t -> p1 = p2
}.

(** A page that is no table of the tree. *)
Definition not_table (m : machine) (root q : Z) : Prop :=
  forall p, upath p -> tab_at (m_mem m) root p <> Some q.

Lemma table_page_facts m root p t : vm_inv m -> tree_wf m root -> upath p ->
  tab_at (m_mem m) root p = Some t -> t mod PAGE_SIZE = 0 /\ 0 < t < PMM_TRACK_LIMIT.
Proof. intros Hi Ht Hp Htab. eapply pa_page; [apply Hi | by eapply tw_held]. Qed.

(** A write outside every table of the tree changes no path. *)
Lemma tab_at_write_out mem root a v p :
  (forall p1 i p2 t, p = p1 ++ i :: p2 -> tab_at mem root p1 = Some t -> t + 8 * i <> a) ->
  tab_at (<[a := v]> mem) root p = tab_at mem root p.
Proof.
  revert root. induction p as [|i p IH]; intros root Hout; cbn [tab_at]; [done|].
  rewrite arr_insert. destruct (Z.eqb_spec a (root + 8 * i)) as [->|_].
  { exfalso. by apply (Hout [] i p root). }
  destruct (child (arr mem (root + 8 * i))) as [t'|] eqn:Hc; [|done].
  apply IH. intros p1 j p2 t Hp Ht. apply (Hout (i :: p1) j p2 t); [by rewrite Hp|].
  cbn [tab_at]. by rewrite Hc.
Qed.

(** A write that names the same child changes no path at all. *)
Lemma tab_at_write_same mem root a v p : child v = child (arr mem a) ->
  tab_at (<[a := v]> mem) root p = tab_at mem root p.
Proof.
  intros Hv. revert root. induction p as [|i p IH]; intros root; cbn [tab_at]; [done|].
  rewrite arr_insert. destruct (Z.eqb_spec a (root + 8 * i)) as [->|_].
  - rewrite Hv. destruct (child (arr mem (root + 8 * i))); [apply IH | done].
  - destruct (child (arr mem (root + 8 * i))); [apply IH | done].
Qed.

(** A change of memory off the tables of the tree. *)
Lemma tab_at_agree mem mem' root p :
  (forall p1 i t, p1 ++ [i] `prefix_of` p -> tab_at mem root p1 = Some t -> arr mem' (t + 8 * i) = arr mem (t + 8 * i)) ->
  tab_at mem' root p = tab_at mem root p.
Proof.
  revert root. induction p as [|i p IH]; intros root Hag; cbn [tab_at]; [done|].
  rewrite (Hag [] i root); [|by exists p|done].
  destruct (child (arr mem (root + 8 * i))) as [t'|] eqn:Hc; [|done].
  apply IH. intros p1 j t Hp Ht. apply (Hag (i :: p1) j t); [by apply prefix_cons|].
  cbn [tab_at]. by rewrite Hc.
Qed.

Lemma upath_index p i : upath (p ++ [i]) -> 0 <= i < 512.
Proof. intros (_ & Hf & _). apply Forall_app in Hf as [_ Hf]. by apply Forall_cons in Hf as [? _]. Qed.

(** A write to slot [i] of the table at [p0], seen from another path. *)
Lemma tab_at_write_slot m root p0 i t v p : vm_inv m -> tree_wf m root ->
  upath p0 -> 0 <= i < 512 -> tab_at (m_mem m) root p0 = Some t -> upath p -> ~ (p0 ++ [i]) `prefix_of` p ->
  tab_at (<[t + 8 * i := v]> (m_mem m)) root p = tab_at (m_mem m) root p.
Proof.
  intros Hi Ht Hp0 Hr Ht0 Hp Hnp. apply tab_at_write_out. intros p1 j p2 t1 -> Ht1 He.
  assert (Hp1 : upath p1) by (by eapply upath_prefix).
  assert (Hj : 0 <= j < 512).
  { apply (upath_index p1). apply (upath_prefix _ p2). by rewrite <- app_assoc. }
  destruct (table_page_facts m root p1 t1) as [Ha1 _]; try done.
  destruct (table_page_facts m root p0 t) as [Ha0 _]; try done.
  apply slot_inj in He as [-> ->]; try done. apply Hnp.
  rewrite (tw_inj _ _ Ht p0 p1 t) by done. exists p2. by rewrite <- app_assoc.
Qed.

(** Below a slot that names the table [c]. *)
Lemma tab_at_through mem t i c p : child (arr mem (t + 8 * i)) = Some c ->
  tab_at mem t (i :: p) = tab_at mem c p.
Proof. intros Hc. cbn [tab_at]. by rewrite Hc. Qed.

(** *** Steps *)

(** What a function that only adds tables guarantees. *)
Record vm_step (root : Z) (m m' : machine) : Prop := {
  vs_inv : vm_inv m';
  vs_tree : tree_wf m' root;
  vs_view : forall va, user_va va -> pte_of (m_mem m') root va = pte_of (m_mem m) root va;
  vs_mono : forall p t, upath p -> tab_at (m_mem m) root p = Some t -> tab_at (m_mem m') root p = Some t;
  vs_kernel : forall j, 256 <= j < 512 -> arr (m_mem m') (root + 8 * j) = arr (m_mem m) (root + 8 * j);
  vs_held : forall q, held (m_pmm m) q -> held (m_pmm m') q;
  vs_data : forall a, held (m_pmm m) (page_base a) -> not_table m root (page_base a) ->
    arr (m_mem m') a = arr (m_mem m) a /\ not_table m' root (page_base a);
  vs_user : m_user_pml4 m' = m_user_pml4 m /\ m_user_valid m' = m_user_valid m /\ m_cr3 m' = m_cr3 m
}.

Lemma vm_step_refl root m : vm_inv m -> tree_wf m root -> vm_step root m m.
Proof. intros. by split. Qed.

Lemma vm_step_trans root m1 m2 m3 : vm_step root m1 m2 -> vm_step root m2 m3 -> vm_step root m1 m3.
Proof.
  intros H1 H2. split.
  - apply H2.
  - apply H2.
  - intros va Hv. rewrite (vs_view _ _ _ H2), (vs_view _ _ _ H1) by done. done.
  - intros p t Hp Ht. by apply (vs_mono _ _ _ H2), (vs_mono _ _ _ H1).
  - intros j Hj. rewrite (vs_kernel _ _ _ H2), (vs_kernel _ _ _ H1) by done. done.
  - intros q Hq. by apply (vs_held _ _ _ H2), (vs_held _ _ _ H1).
  - intros a Hh Hn. destruct (vs_data _ _ _ H1 a) as [E1 N1]; try done.
    destruct (vs_data _ _ _ H2 a) as [E2 N2]; [by apply (vs_held _ _ _ H1) | done |].
    split; [congruence | done].
  - destruct (vs_user _ _ _ H1) as (?&?&?), (vs_user _ _ _ H2) as (?&?&?). split_and!; congruence.
Qed.

(** *** Paths through a slot *)

Lemma tab_at_slot mem root p0 i t p : tab_at mem root p0 = Some t ->
  tab_at mem root (p0 ++ i :: p) = match child (arr mem (t + 8 * i)) with Some c => tab_at mem c p | None => None end.
Proof. intros Ht. by rewrite tab_at_app, Ht. Qed.

Lemma upath_nil : upath [].
Proof. split_and!; [cbn; lia | apply Forall_nil_2 | done]. Qed.

(** The slot of an intermediate table is neither a leaf entry of the user
    half nor an entry of the kernel half. *)
Lemma slot_not_leaf m root p0 i t va pt : vm_inv m -> tree_wf m root -> upath (p0 ++ [i]) ->
  tab_at (m_mem m) root p0 = Some t -> user_va va -> tab_at (m_mem m) root (va_path va) = Some pt ->
  t + 8 * i <> pt + 8 * idx1 va.
Proof.
  intros Hi Ht Hp0 Htab Hv Hpt He.
  assert (Hu : upath p0) by (by eapply upath_prefix). pose proof (upath_va va Hv) as Hva.
  apply slot_inj in He as [-> _].
  - assert (p0 = va_path va) as -> by (by eapply tw_inj). destruct Hp0 as (Hl & _). cbn in Hl. lia.
  - by apply (table_page_facts m root p0).
  - by apply (table_page_facts m root (va_path va)).
  - by apply (upath_index p0).
  - apply idx_range.
Qed.

Lemma slot_not_kernel m root p0 i t j : vm_inv m -> tree_wf m root -> upath (p0 ++ [i]) ->
  tab_at (m_mem m) root p0 = Some t -> 256 <= j < 512 -> t + 8 * i <> root + 8 * j.
Proof.
  intros Hi Ht Hp0 Htab Hj He.
  assert (Hu : upath p0) by (by eapply upath_prefix).
  apply slot_inj in He as [-> ->]; [| |  |by apply (upath_index p0)|lia].
  - assert (p0 = []) as -> by (by eapply tw_inj; eauto using upath_nil).
    destruct Hp0 as (_ & _ & Hh). cbn in Hh. lia.
  - by apply (table_page_facts m root p0).
  - by apply (table_page_facts m root []); auto using upath_nil.
Qed.

(** *** Adding a table *)

(** [m'] is [m] with the fresh page [c] zeroed and linked at slot [i] of [t]. *)
Record linked (m m' : machine) (t i c e : Z) : Prop := {
  lk_mem : m_mem m' = <[t + 8 * i := e]> (zero_words c 512 (m_mem m));
  lk_entry : child e = Some c;
  lk_inv : vm_inv m';
  lk_fresh : ~ held (m_pmm m) c;
  lk_held : forall q, held (m_pmm m') q <-> held (m_pmm m) q \/ q = c;
  lk_user : m_user_pml4 m' = m_user_pml4 m /\ m_user_valid m' = m_user_valid m /\ m_cr3 m' = m_cr3 m
}.

Section Link.
Variables (m m' : machine) (root : Z) (p0 : list Z) (i t c e : Z).
Hypothesis (Hi : vm_inv m) (Ht : tree_wf m root).
Hypothesis (Hp0 : upath (p0 ++ [i])) (Htab : tab_at (m_mem m) root p0 = Some t).
Hypothesis (Hno : child (arr (m_mem m) (t + 8 * i)) = None).
Hypothesis (Hl : linked m m' t i c e).

Lemma link_c : c mod PAGE_SIZE = 0 /\ 0 < c < PMM_TRACK_LIMIT.
Proof. eapply pa_page; [apply (lk_inv _ _ _ _ _ _ Hl) | apply (lk_held _ _ _ _ _ _ Hl); by right]. Qed.

(** The words of a page held before, other than the slot, are kept. *)
Lemma link_word a : held (m_pmm m) (page_base a) -> a <> t + 8 * i -> arr (m_mem m') a = arr (m_mem m) a.
Proof.
  intros Hh Ha. rewrite (lk_mem _ _ _ _ _ _ Hl), arr_insert.
  rewrite (proj2 (Z.eqb_neq _ _)) by congruence. apply arr_zero_page; [apply link_c|].
  intros He. apply (lk_fresh _ _ _ _ _ _ Hl). by rewrite <- He.
Qed.

Lemma link_table_word p s j : upath p -> tab_at (m_mem m) root p = Some s -> 0 <= j < 512 -> s + 8 * j <> t + 8 * i ->
  arr (m_mem m') (s + 8 * j) = arr (m_mem m) (s + 8 * j).
Proof.
  intros Hp Hs Hj Hne. apply link_word; [|done].
  rewrite slot_page; [by eapply tw_held | | done]. by apply (table_page_facts m root p).
Qed.

Lemma link_slot : arr (m_mem m') (t + 8 * i) = e.
Proof. by rewrite (lk_mem _ _ _ _ _ _ Hl), arr_insert, Z.eqb_refl. Qed.

Lemma link_new j : 0 <= j < 512 -> arr (m_mem m') (c + 8 * j) = 0.
Proof.
  intros Hj. rewrite (lk_mem _ _ _ _ _ _ Hl), arr_insert.
  destruct (Z.eqb_spec (t + 8 * i) (c + 8 * j)) as [He|]; [|by apply arr_zero_in].
  exfalso. assert (Hu : upath p0) by (by eapply upath_prefix).
  apply slot_inj in He as [-> _]; [| |apply link_c|by apply (upath_index p0)|done].
  - apply (lk_fresh _ _ _ _ _ _ Hl). by eapply tw_held.
  - by apply (table_page_facts m root p0).
Qed.

(** Paths that avoid the slot. *)
Lemma link_other p : upath p -> ~ (p0 ++ [i]) `prefix_of` p -> tab_at (m_mem m') root p = tab_at (m_mem m) root p.
Proof.
  intros Hp Hnp. apply tab_at_agree. intros p1 j s [k ->] Hs.
  assert (Hp1j : upath (p1 ++ [j])) by (by eapply upath_prefix).
  assert (Hp1 : upath p1) by (by eapply upath_prefix).
  assert (Hu : upath p0) by (by eapply upath_prefix).
  apply (link_table_word p1); [done..|by apply (upath_index p1)|]. intros He. apply Hnp.
  apply slot_inj in He as [-> ->]; [| | |by apply (upath_index p1)|by apply (upath_index p0)].
  - rewrite (tw_inj _ _ Ht p0 p1 t) by done. by exists k.
  - by apply (table_page_facts m root p1).
  - by apply (table_page_facts m root p0).
Qed.

Lemma link_parent : tab_at (m_mem m') root p0 = Some t.
Proof.
  rewrite link_other; [done | by eapply upath_prefix |].
  intros [k Hk]. apply (f_equal length) in Hk. rewrite !length_app in Hk. cbn in Hk. lia.
Qed.

(** Paths through the slot: the new table, and nothing below it. *)
Lemma link_through p : upath (p0 ++ i :: p) ->
  tab_at (m_mem m) root (p0 ++ i :: p) = None /\
  tab_at (m_mem m') root (p0 ++ i :: p) = match p with [] => Some c | _ => None end.
Proof.
  intros Hp. rewrite !(tab_at_slot _ root p0 i t) by (exact Htab || exact link_parent).
  rewrite Hno, link_slot, (lk_entry _ _ _ _ _ _ Hl). split; [done|].
  destruct p as [|j p]; [done|]. cbn [tab_at]. rewrite link_new; [done|].
  destruct Hp as (_ & Hf & _). apply Forall_app in Hf as [_ Hf].
  by apply Forall_cons in Hf as [_ [Hj _]%Forall_cons].
Qed.

Lemma link_cases p : upath p ->
  (tab_at (m_mem m') root p = tab_at (m_mem m) root p) \/
  (p = p0 ++ [i] /\ tab_at (m_mem m) root p = None /\ tab_at (m_mem m') root p = Some c).
Proof.
  intros Hp. destruct (decide (p0 ++ [i] `prefix_of` p)) as [[k ->]|Hn]; [|left; by apply link_other].
  rewrite <- app_assoc in *. cbn in *. destruct (link_through k Hp) as [E1 E2].
  destruct k; [right; done | left; by rewrite E1, E2].
Qed.

Lemma link_tree : tree_wf m' root.
Proof.
  split.
  - intros p s Hp Hs. apply (lk_held _ _ _ _ _ _ Hl).
    destruct (link_cases p Hp) as [E|(-> & _ & E)]; rewrite E in Hs; [left; by eapply tw_held | right; congruence].
  - assert (Hc : forall p s, upath p -> tab_at (m_mem m) root p = Some s -> s <> c).
    { intros p s Hp Hs ->. apply (lk_fresh _ _ _ _ _ _ Hl). by eapply tw_held. }
    intros p1 p2 s Hp1 Hp2 H1 H2.
    destruct (link_cases p1 Hp1) as [E1|(-> & _ & E1)], (link_cases p2 Hp2) as [E2|(-> & _ & E2)];
      rewrite E1 in H1; rewrite E2 in H2; simplify_eq; try done.
    + by eapply tw_inj.
    + by apply Hc in H1.
    + by apply Hc in H2.
Qed.

Lemma link_pte va : user_va va -> pte_of (m_mem m') root va = pte_of (m_mem m) root va.
Proof.
  intros Hv. unfold pte_of. destruct (idx_range va) as (_ & _ & _ & H1).
  destruct (link_cases (va_path va) (upath_va va Hv)) as [->|(_ & -> & ->)]; [|by apply link_new].
  destruct (tab_at (m_mem m) root (va_path va)) as [pt|] eqn:Hpt; [|done].
  apply (link_table_word (va_path va)); [by apply upath_va | done | done |].
  apply not_eq_sym. by eapply slot_not_leaf.
Qed.

Lemma link_step : vm_step root m m'.
Proof.
  split.
  - apply Hl.
  - apply link_tree.
  - apply link_pte.
  - intros p s Hp Hs. destruct (link_cases p Hp) as [->|(_ & E & _)]; [done | congruence].
  - intros j Hj. apply (link_table_word []); [apply upath_nil | done | lia |].
    apply not_eq_sym. by eapply slot_not_kernel.
  - intros q Hq. apply (lk_held _ _ _ _ _ _ Hl). by left.
  - intros a Hh Hn. split.
    + apply link_word; [done|]. intros ->. apply (Hn p0); [by eapply upath_prefix|].
      rewrite slot_page; [done | | by apply (upath_index p0)].
      apply (table_page_facts m root p0); by eauto using upath_prefix.
    + intros p Hp E. destruct (link_cases p Hp) as [E'|(_ & _ & E')]; rewrite E' in E; [by apply (Hn p)|].
      apply (lk_fresh _ _ _ _ _ _ Hl). congruence.
  - apply Hl.
Qed.

End Link.

End Trees.
