(* ===== verification/VmmMap.v ===== *)
(** * Mapping, unmapping and protecting user pages

    The operations of vmm.c on the active address space, as changes of the
    translation: each one is specified by what it does to [pte_of] on every
    user address, and shown to keep the tree well-formed, the kernel half of
    the PML4 and the data pages.  The second part treats copy-on-write: the
    copy of a shared page, the marking of pages and the copy of a space. *)

From S2P Require Import Prelude Words Pmm PmmFacts PageAlloc Vmm VmmFacts.
Local Open Scope Z_scope.

Section Map.
Context {HB : HhdmBase} {inv : pmm -> Prop} {held : pmm -> Z -> Prop} `{PA : !PageAllocator inv held}.

Local Abbreviation vm_inv := (vm_inv (inv := inv)).
Local Abbreviation tree_wf := (tree_wf (held := held)).
Local Abbreviation vm_step := (vm_step (inv := inv) (held := held)).

(** ** The allocator as the vmm sees it *)

(** Nothing but the allocator's bookkeeping changed. *)
Record same_vm (m m' : machine) : Prop := {
  sv_inv : vm_inv m';
  sv_mem : m_mem m' = m_mem m;
  sv_held : forall q, held (m_pmm m') q <-> held (m_pmm m) q;
  sv_empty : pmm_free_count (m_pmm m) = 0;
  sv_count : pmm_free_count (m_pmm m) - 1 <= pmm_free_count (m_pmm m');
  sv_user : m_user_pml4 m' = m_user_pml4 m /\ m_user_valid m' = m_user_valid m /\ m_cr3 m' = m_cr3 m
}.

Lemma same_vm_step root m m' : tree_wf m root -> same_vm m m' -> vm_step root m m'.
Proof.
  intros Ht [Hi Hm Hh _ _ Hu].
  assert (Ht' : tree_wf m' root).
  { split; [intros p t Hp; rewrite Hm; intros Htab; apply Hh; by eapply tw_held|].
    rewrite Hm. apply Ht. }
  split; [done | done | intros; by rewrite Hm | intros; by rewrite Hm | intros; by rewrite Hm | intros; by apply Hh | | done].
  intros a _ Hn. unfold not_table in *. by rewrite Hm.
Qed.

Lemma new_user_table_spec t i m r m' : vm_inv m -> new_user_table (t + 8 * i) m = (r, m') ->
  match r with
  | Some c => (exists e, linked (inv := inv) (held := held) m m' t i c e) /\
      pmm_free_count (m_pmm m) - 1 <= pmm_free_count (m_pmm m')
  | None => same_vm m m'
  end.
Proof.
  intros Hi. unfold new_user_table, st_bind, alloc_page.
  destruct (pmm_alloc_page (m_pmm m)) as [p s] eqn:Ha.
  destruct (pa_alloc_inv _ _ _ (vi_pmm _ Hi) Ha) as (Hs & Hh & _).
  destruct (pa_supply _ _ _ (vi_pmm _ Hi) Ha) as [Hz Hc].
  destruct (Z.eqb_spec p 0) as [->|Hp].
  { intros [= <- <-]. split; [split; [done | cbn; rewrite Hh; apply Hi] | done | | by apply Hz | done | done].
    by apply (pa_alloc_fail _ _ (vi_pmm _ Hi) Ha). }
  destruct (pa_alloc _ _ _ (vi_pmm _ Hi) Ha Hp) as [Hf Hq].
  destruct (pa_page s p Hs ltac:(apply Hq; by right)) as [Hal Hr].
  unfold st_get. rewrite table_page; [|cbn; rewrite Hh; apply Hi|done|unfold PMM_TRACK_LIMIT in *; lia].
  intros [= <- <-]. split; [|done]. eexists. split; [done | | split; [done | cbn; rewrite Hh; apply Hi] | done | done | done].
  unfold child. destruct (table_flags p) as (-> & -> & _). rewrite addr_of_table, addr_of_page
    by (done || unfold PMM_TRACK_LIMIT in *; lia). cbn [negb orb]. erewrite reach_low; [done | apply Hi | done].
Qed.

(** Rewriting the flags of an intermediate entry. *)
Lemma flags_step root m p0 i t e : vm_inv m -> tree_wf m root -> upath (p0 ++ [i]) ->
  tab_at (m_mem m) root p0 = Some t -> child e = child (arr (m_mem m) (t + 8 * i)) ->
  vm_step root m (set_mem (<[t + 8 * i := e]> (m_mem m)) m).
Proof.
  intros Hi Ht Hp0 Htab Hc.
  assert (Hp : upath p0) by (by eapply upath_prefix).
  assert (Hsame : forall p, tab_at (<[t + 8 * i := e]> (m_mem m)) root p = tab_at (m_mem m) root p)
    by (intros p; by apply tab_at_write_same).
  split; cbn [set_mem m_mem m_pmm m_user_pml4 m_user_valid m_cr3]; try done.
  - split; [apply Hi | apply Hi].
  - split; cbn [set_mem m_mem m_pmm].
    + intros p s Hp'. rewrite Hsame. by apply (tw_held _ _ Ht).
    + intros p1 p2 s Hp1 Hp2. rewrite !Hsame. by apply (tw_inj _ _ Ht).
  - intros va Hv. unfold pte_of. rewrite Hsame. destruct (tab_at (m_mem m) root (va_path va)) as [pt|] eqn:Hpt; [|done].
    rewrite arr_insert, (proj2 (Z.eqb_neq _ _)); [done|]. by eapply slot_not_leaf.
  - intros p s _. by rewrite Hsame.
  - intros j Hj. rewrite arr_insert, (proj2 (Z.eqb_neq _ _)); [done|]. by eapply slot_not_kernel.
  - intros a Hh Hn. split; [|intros p; cbn; rewrite Hsame; apply Hn].
    rewrite arr_insert. destruct (Z.eqb_spec (t + 8 * i) a) as [<-|]; [|done].
    exfalso. apply (Hn p0); [done|]. rewrite slot_page; [done | | by apply (upath_index p0)].
    by apply (table_page_facts m root p0).
Qed.

(** An entry with the flags of a table names the same child. *)
Lemma child_table e c : child e = Some c -> child (Z.lor (Z.land e PTE_ADDR_MASK) PTE_TABLE) = child e.
Proof.
  intros Hc. unfold child in *. destruct (table_flags e) as (-> & -> & _). rewrite addr_of_table. cbn [negb orb].
  destruct (negb (has e PTE_P) || has e PTE_PS); [done|]. cbn [orb] in *. by destruct (no_table (addr_of e)).
Qed.

(** A table below slot [i] of the table at [p0]: the translations stay. *)
Lemma ensure_user_child_spec root p0 i t m r m' : vm_inv m -> tree_wf m root -> upath (p0 ++ [i]) ->
  tab_at (m_mem m) root p0 = Some t -> ensure_user_child t i m = (r, m') ->
  vm_step root m m' /\ (forall c, r = Some c -> tab_at (m_mem m') root (p0 ++ [i]) = Some c) /\
  (r = None -> pmm_free_count (m_pmm m) = 0) /\ pmm_free_count (m_pmm m) - 1 <= pmm_free_count (m_pmm m').
Proof.
  intros Hi Ht Hp0 Htab. set (e := arr (m_mem m) (t + 8 * i)).
  assert (Hnew : child e = None -> new_user_table (t + 8 * i) m = (r, m') ->
    vm_step root m m' /\ (forall c, r = Some c -> tab_at (m_mem m') root (p0 ++ [i]) = Some c) /\
    (r = None -> pmm_free_count (m_pmm m) = 0) /\ pmm_free_count (m_pmm m) - 1 <= pmm_free_count (m_pmm m')).
  { intros Hno He. apply new_user_table_spec in He; [|done]. destruct r as [c|].
    - destruct He as [[e' Hl] Hc]. split; [by eapply link_step|]. split; [|done]. intros ? [= <-].
      by eapply (link_through m m' root p0 i t c e' Hi Ht Hp0 Htab Hno Hl []).
    - split; [by apply same_vm_step|]. split; [done|]. split; [intros _; apply He | apply He]. }
  unfold ensure_user_child, st_bind, ld, st_gets. fold e.
  destruct (negb (has e PTE_P) || has e PTE_PS) eqn:Hf.
  { apply Hnew. unfold child. by rewrite Hf. }
  unfold st_get. fold (addr_of e). rewrite table_addr by apply Hi.
  destruct (no_table (addr_of e)) eqn:Hz; [apply Hnew; unfold child; by rewrite Hf, Hz|].
  assert (Hce : child e = Some (addr_of e)) by (unfold child; by rewrite Hf, Hz).
  assert (Hch : tab_at (m_mem m) root (p0 ++ [i]) = Some (addr_of e))
    by (rewrite (tab_at_slot _ _ _ _ t) by done; fold e; by rewrite Hce).
  destruct (negb (Z.land e _ =? _)); intros [= <- <-].
  - split; [by eapply (flags_step root m p0), child_table|].
    cbn [set_mem m_mem m_pmm]. split; [|split; [done | lia]].
    intros ? [= <-]. rewrite tab_at_write_same; [done | by eapply child_table].
  - split; [by apply vm_step_refl|]. split; [by intros ? [= <-] | split; [done | lia]].
Qed.

(** ** Writing a leaf *)

(** The translation of the page of [va] becomes [v], every other one stays. *)
Record leaf_step (root va v : Z) (m m' : machine) : Prop := {
  ls_inv : vm_inv m';
  ls_tree : tree_wf m' root;
  ls_view : forall va', user_va va' ->
    pte_of (m_mem m') root va' = if va' / PAGE_SIZE =? va / PAGE_SIZE then v else pte_of (m_mem m) root va';
  ls_kernel : forall j, 256 <= j < 512 -> arr (m_mem m') (root + 8 * j) = arr (m_mem m) (root + 8 * j);
  ls_held : forall q, held (m_pmm m) q -> held (m_pmm m') q;
  ls_data : forall a, held (m_pmm m) (page_base a) -> not_table m root (page_base a) ->
    arr (m_mem m') a = arr (m_mem m) a /\ not_table m' root (page_base a);
  ls_user : m_user_pml4 m' = m_user_pml4 m /\ m_user_valid m' = m_user_valid m
}.

Lemma leaf_write root va v m m' pt : vm_inv m -> tree_wf m root -> user_va va ->
  tab_at (m_mem m) root (va_path va) = Some pt ->
  m_mem m' = <[pt + 8 * idx1 va := v]> (m_mem m) -> vm_inv m' ->
  (forall q, held (m_pmm m) q -> held (m_pmm m') q) ->
  m_user_pml4 m' = m_user_pml4 m /\ m_user_valid m' = m_user_valid m ->
  leaf_step root va v m m'.
Proof.
  intros Hi Ht Hv Hpt Hmem Hi' Hh Hu. destruct (idx_range va) as (_ & _ & _ & H1).
  pose proof (upath_va va Hv) as Hup. destruct (table_page_facts m root (va_path va) pt Hi Ht Hup Hpt) as [Hal _].
  assert (Hsame : forall p, upath p -> tab_at (m_mem m') root p = tab_at (m_mem m) root p).
  { intros p Hp. rewrite Hmem. apply tab_at_write_slot with (va_path va); try done.
    intros [k Hk]. destruct Hp as (Hl & _). rewrite Hk in Hl. rewrite !length_app in Hl. cbn in Hl. lia. }
  split; try done.
  - split.
    + intros p t Hp. rewrite Hsame by done. intros Htab. apply Hh. by eapply tw_held.
    + intros p1 p2 t Hp1 Hp2. rewrite !Hsame by done. by apply (tw_inj _ _ Ht).
  - intros va' Hv'. pose proof (upath_va va' Hv') as Hup'. unfold pte_of. rewrite Hsame by done.
    destruct (Z.eqb_spec (va' / PAGE_SIZE) (va / PAGE_SIZE)) as [He|Hne].
    + destruct (va_path_page va' va) as [-> ->]; [apply Hv' | apply Hv | done|].
      by rewrite Hpt, Hmem, arr_insert, Z.eqb_refl.
    + destruct (tab_at (m_mem m) root (va_path va')) as [pt'|] eqn:Hpt'; [|done].
      rewrite Hmem, arr_insert. destruct (Z.eqb_spec (pt + 8 * idx1 va) (pt' + 8 * idx1 va')) as [He|]; [|done].
      destruct (table_page_facts m root (va_path va') pt' Hi Ht Hup' Hpt') as [Hal' _].
      apply slot_inj in He as [-> Hidx]; try done; [|apply idx_range].
      exfalso. apply Hne. apply idx_inj; try done. by apply (tw_inj _ _ Ht _ _ pt').
  - intros j Hj. rewrite Hmem, arr_insert, (proj2 (Z.eqb_neq _ _)); [done|]. intros He.
    destruct (table_page_facts m root [] root Hi Ht upath_nil eq_refl) as [Hr _].
    apply slot_inj in He as [-> _]; try done; [|lia].
    assert (va_path va = []) by (by apply (tw_inj _ _ Ht _ _ root); auto using upath_nil). done.
  - intros a Ha Hn. split; [|intros p Hp; rewrite Hsame by done; by apply Hn].
    rewrite Hmem, arr_insert. destruct (Z.eqb_spec (pt + 8 * idx1 va) a) as [<-|]; [|done].
    exfalso. apply (Hn (va_path va) Hup). by rewrite slot_page.
Qed.

(** A change of the tree followed by the leaf write. *)
Lemma step_leaf root va v m m1 m' : vm_step root m m1 -> leaf_step root va v m1 m' -> leaf_step root va v m m'.
Proof.
  intros Hs Hl. split.
  - apply Hl.
  - apply Hl.
  - intros va' Hv'. rewrite (ls_view _ _ _ _ _ Hl) by done. destruct (_ =? _); [done | by apply Hs].
  - intros j Hj. rewrite (ls_kernel _ _ _ _ _ Hl), (vs_kernel _ _ _ Hs) by done. done.
  - intros q Hq. by apply (ls_held _ _ _ _ _ Hl), (vs_held _ _ _ Hs).
  - intros a Ha Hn. destruct (vs_data _ _ _ Hs a Ha Hn) as [<- Hn'].
    apply (ls_data _ _ _ _ _ Hl); [by apply (vs_held _ _ _ Hs) | done].
  - destruct (ls_user _ _ _ _ _ Hl) as [-> ->], (vs_user _ _ _ Hs) as (-> & -> & _). done.
Qed.

(** ** The active address space *)

(** The address space the file operates on: [user_pml4] with [user_valid]. *)
Record user_ok (m : machine) : Prop := {
  uo_inv : vm_inv m;
  uo_valid : m_user_valid m = true;
  uo_tree : tree_wf m (m_user_pml4 m)
}.

Lemma user_root m : user_ok m -> table m (m_user_pml4 m) = Some (m_user_pml4 m).
Proof.
  intros [Hi _ Ht]. destruct (table_page_facts m (m_user_pml4 m) [] (m_user_pml4 m) Hi Ht upath_nil eq_refl).
  apply table_page; [apply Hi | done | unfold PMM_TRACK_LIMIT in *; lia].
Qed.

Lemma leaf_user_ok va v m m' : user_ok m -> leaf_step (m_user_pml4 m) va v m m' -> user_ok m'.
Proof.
  intros Ho Hl. destruct (ls_user _ _ _ _ _ Hl) as [E1 E2].
  split; [apply Hl | rewrite E2; apply Ho | rewrite E1; apply Hl].
Qed.

Lemma step_user_ok m m' : user_ok m -> vm_step (m_user_pml4 m) m m' -> user_ok m'.
Proof.
  intros Ho Hs. destruct (vs_user _ _ _ Hs) as (E1 & E2 & _).
  split; [apply Hs | rewrite E2; apply Ho | rewrite E1; apply Hs].
Qed.

Lemma canonical_user_iff va : canonical_user va = true <-> va < USER_TOP.
Proof. unfold canonical_user, USER_TOP. lia. Qed.

(** The translation of the active space. *)
Lemma user_translate_eq m va : user_ok m -> user_va va ->
  vmm_user_translate m va =
    let pte := pte_of (m_mem m) (m_user_pml4 m) va in
    if has pte PTE_P then Some (Z.lor (addr_of pte) (Z.land va 0xfff), pte) else None.
Proof.
  intros Ho Hv. unfold vmm_user_translate. rewrite (uo_valid _ Ho), (proj2 (canonical_user_iff va)) by apply Hv.
  cbn [negb orb]. rewrite user_root by done. apply translate_from_eq, Ho.
Qed.

(** The guards of the operations on one page. *)
Definition page_va (va : Z) : Prop := user_va va /\ va mod PAGE_SIZE = 0.

Lemma page_va_guard m va : user_ok m -> page_va va ->
  negb (m_user_valid m) || negb (canonical_user va) || has va (PAGE_SIZE - 1) = false.
Proof.
  intros Ho [Hv Ha]. rewrite (uo_valid _ Ho), (proj2 (canonical_user_iff va)), has_low12, Ha by apply Hv. done.
Qed.

Lemma log_tlb_leaf root va v m m' o : leaf_step root va v m m' -> leaf_step root va v m (log_tlb o m').
Proof. intros [[] [] ? ? ? ? ?]. by split. Qed.

(** [m1] is on the way of [vmm_user_map] from [m]: the table at [p] is
    reached and at most [k] pages were taken. *)
Definition reached (root : Z) (m : machine) (p : list Z) (t k : Z) (m1 : machine) : Prop :=
  vm_step root m m1 /\ tab_at (m_mem m1) root p = Some t /\
  pmm_free_count (m_pmm m) - k <= pmm_free_count (m_pmm m1).

Lemma reached_next root m p t k i m1 r m2 : reached root m p t k m1 -> upath (p ++ [i]) ->
  ensure_user_child t i m1 = (r, m2) ->
  match r with
  | Some c => reached root m (p ++ [i]) c (k + 1) m2
  | None => vm_step root m m2 /\ pmm_free_count (m_pmm m) <= k
  end.
Proof.
  intros (Hs & Ht & Hc) Hup He.
  destruct (ensure_user_child_spec root p i t m1 r m2) as (S2 & T2 & N2 & C2); try done; [apply Hs..|].
  destruct r as [c|].
  - split; [by eapply vm_step_trans|]. split; [by apply T2 | lia].
  - split; [by eapply vm_step_trans|]. specialize (N2 eq_refl). lia.
Qed.

Definition frame_addr (p : Z) : Prop := p mod PAGE_SIZE = 0 /\ 0 <= p < 2 ^ 52.

Lemma vmm_user_map_spec m va phys flags r m' : user_ok m -> page_va va -> frame_addr phys ->
  vmm_user_map va phys flags m = (r, m') ->
  (r = 0 /\ leaf_step (m_user_pml4 m) va (leaf_pte phys flags) m m') \/
  (r = -1 /\ vm_step (m_user_pml4 m) m m' /\ pmm_free_count (m_pmm m) < 3).
Proof.
  intros Ho Hva [Hpa _]. pose proof (upath_va va (proj1 Hva)) as Hup. set (root := m_user_pml4 m).
  unfold vmm_user_map, st_bind at 1, st_get at 1. change 0xfff with (PAGE_SIZE - 1).
  rewrite page_va_guard by done. rewrite has_low12, Hpa, user_root by done. cbn [negb Z.eqb orb]. fold root.
  unfold st_bind at 1. destruct (ensure_user_child root (idx4 va) m) as [r1 m1] eqn:E1.
  apply (reached_next root m [] root 0) in E1;
    [|split; [apply vm_step_refl; apply Ho | split; [done | lia]] | by apply (upath_prefix _ [idx3 va; idx2 va])].
  destruct r1 as [pdpt|]; [|intros [= <- <-]; right; split_and!; [done | apply E1 | lia]].
  unfold st_bind at 1. destruct (ensure_user_child pdpt (idx3 va) m1) as [r2 m2] eqn:E2.
  apply (reached_next root m _ _ _ _ _ _ _ E1) in E2; [|by apply (upath_prefix _ [idx2 va])].
  destruct r2 as [pd|]; [|intros [= <- <-]; right; split_and!; [done | apply E2 | lia]].
  unfold st_bind at 1. destruct (ensure_user_child pd (idx2 va) m2) as [r3 m3] eqn:E3.
  apply (reached_next root m _ _ _ _ _ _ _ E2) in E3; [|done].
  destruct r3 as [pt|]; [|intros [= <- <-]; right; split_and!; [done | apply E3 | lia]].
  destruct E3 as (Hs & Hpt & _). intros Hr. left.
  assert (Hl : forall m4, m4 = set_mem (<[pt + 8 * idx1 va := leaf_pte phys flags]> (m_mem m3)) m3 ->
             leaf_step root va (leaf_pte phys flags) m m4).
  { intros m4 ->. eapply step_leaf; [exact Hs|].
    apply leaf_write with pt; try done; [apply Hs | apply Hs | apply Hva | split; apply Hs]. }
  revert Hr. unfold st_bind, sto, st_mod, st_get, st_ret, invlpg, st_mod.
  destruct (Z.land _ _ =? _); intros [= <- <-]; split; [done | by apply log_tlb_leaf, Hl | done | by apply Hl].
Qed.

(** ** Unmapping and protecting *)

(** The leaf entry of a user address, when the walk reaches one. *)
Lemma walk_present m va : user_ok m -> user_va va -> has (pte_of (m_mem m) (m_user_pml4 m) va) PTE_P = true ->
  exists pt, tab_at (m_mem m) (m_user_pml4 m) (va_path va) = Some pt /\
    walk_leaf m (m_user_pml4 m) va = Some (pt + 8 * idx1 va) /\
    arr (m_mem m) (pt + 8 * idx1 va) = pte_of (m_mem m) (m_user_pml4 m) va.
Proof.
  intros Ho Hv. rewrite walk_leaf_eq by apply Ho. unfold pte_of.
  destruct (tab_at _ _ _) as [pt|]; [|done]. intros _. by exists pt.
Qed.

Lemma vmm_user_unmap_spec m va : user_ok m -> page_va va ->
  let pte := pte_of (m_mem m) (m_user_pml4 m) va in
  let '(r, m') := vmm_user_unmap va m in
  if has pte PTE_P then r = Some (addr_of pte) /\ leaf_step (m_user_pml4 m) va 0 m m' else r = None /\ m' = m.
Proof.
  intros Ho Hva. cbn zeta. unfold vmm_user_unmap, st_bind at 1, st_get. rewrite page_va_guard by done.
  rewrite user_root by done. destruct (has (pte_of _ _ va) PTE_P) eqn:HP.
  - destruct (walk_present m va Ho (proj1 Hva) HP) as (pt & Hpt & Hw & Hpte). rewrite Hw.
    unfold st_bind, ld, st_gets, sto, st_mod, invlpg, st_mod, st_ret. rewrite Hpte, HP. cbn [negb].
    split; [done|]. apply log_tlb_leaf, leaf_write with pt; try done; [apply Ho | apply Ho | apply Hva|].
    split; apply Ho.
  - rewrite walk_leaf_eq by apply Ho. unfold pte_of in HP. destruct (tab_at _ _ _) as [pt|]; [|done].
    unfold st_bind, ld, st_gets. by rewrite HP.
Qed.

(** The entry that vmm_user_protect writes over [pte]. *)
Lemma protect_leaf_spec m va flags : user_ok m -> page_va va ->
  let pte := pte_of (m_mem m) (m_user_pml4 m) va in has pte PTE_P = true ->
  let '(r, m') := protect_leaf va flags pte m in
  r = 0 /\ leaf_step (m_user_pml4 m) va (leaf_pte (addr_of pte) flags) m m'.
Proof.
  intros Ho Hva pte HP. destruct (walk_present m va Ho (proj1 Hva) HP) as (pt & Hpt & _ & _).
  unfold protect_leaf, st_bind at 1, st_get. rewrite user_root by done.
  unfold va_path in Hpt. cbn [tab_at] in Hpt. set (e4 := arr _ (_ + 8 * idx4 va)) in *.
  assert (Hch : forall e c, child e = Some c -> table m (Z.land e PTE_ADDR_MASK) = Some c).
  { intros e c. unfold child. fold (addr_of e). rewrite table_addr by apply Ho.
    destruct (negb _ || _); [done|]. cbn [orb]. by destruct (no_table (addr_of e)). }
  destruct (child e4) as [t3|] eqn:E4; [|done]. rewrite (Hch _ _ E4).
  destruct (child (arr _ (t3 + _))) as [t2|] eqn:E3; [|done]. rewrite (Hch _ _ E3).
  destruct (child (arr _ (t2 + _))) as [t1|] eqn:E2; [|done]. rewrite (Hch _ _ E2). injection Hpt as ->.
  unfold st_bind, sto, st_mod, invlpg, st_mod, st_ret. split; [done|].
  apply log_tlb_leaf, leaf_write with pt; try done; [apply Ho | apply Ho | apply Hva | | split; apply Ho].
  unfold va_path. cbn [tab_at]. fold e4. by rewrite E4, E3, E2.
Qed.

(** Two writes of the same leaf. *)
Lemma leaf_leaf root va v w m m1 m' : leaf_step root va w m m1 -> leaf_step root va v m1 m' ->
  leaf_step root va v m m'.
Proof.
  intros H1 H2. split.
  - apply H2.
  - apply H2.
  - intros va' Hv'. rewrite (ls_view _ _ _ _ _ H2), (ls_view _ _ _ _ _ H1) by done. by destruct (_ =? _).
  - intros j Hj. rewrite (ls_kernel _ _ _ _ _ H2), (ls_kernel _ _ _ _ _ H1) by done. done.
  - intros q Hq. by apply (ls_held _ _ _ _ _ H2), (ls_held _ _ _ _ _ H1).
  - intros a Ha Hn. destruct (ls_data _ _ _ _ _ H1 a Ha Hn) as [<- Hn'].
    apply (ls_data _ _ _ _ _ H2); [by apply (ls_held _ _ _ _ _ H1) | done].
  - destruct (ls_user _ _ _ _ _ H1) as [E1 E2], (ls_user _ _ _ _ _ H2) as [F1 F2]. split; congruence.
Qed.

End Map.

(** ** Copy on write

    [vmm_user_cow_fault] on the tree of an address space: which faults it
    resolves, and that the resolved page is private, writable and holds the
    bytes of the page it replaces. *)

(** ** Bytes of words *)

Lemma ld8_bit mem a i : 0 <= i ->
  Z.testbit (ld8 mem a) i = (i <? 8) && Z.testbit (arr mem (a - a mod 8)) (8 * (a mod 8) + i).
Proof.
  intros Hi. unfold ld8. change 0xFF with (Z.ones 8). rewrite Z.land_spec, Z.shiftr_spec by lia.
  rewrite (Z.add_comm i). destruct (Z.ltb_spec i 8).
  - rewrite Z.ones_spec_low by lia. apply andb_true_r.
  - rewrite Z.ones_spec_high by lia. apply andb_false_r.
Qed.

Lemma ld8_range mem a : 0 <= ld8 mem a < 256.
Proof. apply (land_range _ _ 8); lia. Qed.

(** A byte in the lane of [a] of the word [w]. *)
Lemma st8_word_bit w b s k : 0 <= s <= 56 -> 0 <= b < 256 -> 0 <= k < 64 ->
  Z.testbit (Z.lor (Z.land w (not64 (Z.shiftl 0xFF s))) (Z.shiftl b s)) k =
    if (s <=? k) && (k <? s + 8) then Z.testbit b (k - s) else Z.testbit w k.
Proof.
  intros Hs Hb Hk. rewrite Z.lor_spec, Z.land_spec, testbit_not64 by lia. rewrite (Z.shiftl_spec b) by lia.
  change 0xFF with (Z.ones 8). replace 8 with ((s + 8) - s) at 1 by lia.
  rewrite testbit_mask by lia. rewrite (proj2 (Z.ltb_lt k 64)) by lia.
  destruct (Z.leb_spec s k); cbn [andb].
  - destruct (Z.ltb_spec k (s + 8)); cbn [xorb]; [by rewrite andb_false_r|].
    rewrite (testbit_high b 8) by lia. by rewrite andb_true_r, orb_false_r.
  - rewrite (Z.testbit_neg_r b) by lia. cbn [xorb]. by rewrite andb_true_r, orb_false_r.
Qed.

Lemma ld8_st8 mem a b a' : 0 <= b < 256 ->
  ld8 (st8 mem a b) a' = if a =? a' then b else ld8 mem a'.
Proof.
  intros Hb. apply Z.bits_inj'. intros i Hi. rewrite ld8_bit by done. unfold st8. rewrite arr_insert.
  assert (Hr : 0 <= a mod 8 < 8) by (apply Z.mod_pos_bound; lia).
  assert (Hr' : 0 <= a' mod 8 < 8) by (apply Z.mod_pos_bound; lia).
  destruct (Z.ltb_spec i 8); cbn [andb].
  - destruct (Z.eqb_spec (a - a mod 8) (a' - a' mod 8)) as [He|He].
    + rewrite st8_word_bit by lia. rewrite He.
      destruct (Z.eqb_spec a a') as [->|Hne].
      * rewrite (proj2 (Z.leb_le _ _)), (proj2 (Z.ltb_lt _ _)) by lia. cbn [andb]. f_equal. lia.
      * rewrite ld8_bit by done. rewrite (proj2 (Z.ltb_lt i 8)) by done. cbn [andb].
        destruct (Z.leb_spec (8 * (a mod 8)) (8 * (a' mod 8) + i)); cbn [andb]; [|done].
        rewrite (proj2 (Z.ltb_ge _ _)); [done|]. lia.
    + destruct (Z.eqb_spec a a') as [->|]; [done|]. rewrite ld8_bit by done.
      by rewrite (proj2 (Z.ltb_lt i 8)) by done.
  - destruct (a =? a'); [by rewrite (testbit_high b 8) by lia|].
    rewrite ld8_bit by done. by rewrite (proj2 (Z.ltb_ge i 8)) by done.
Qed.

(** The copy loop, for source and destination that do not overlap. *)
Lemma copy_bytes_word dst src n mem a :
  (forall j, 0 <= j < n -> a <> (dst + j) - (dst + j) mod 8) -> arr (copy_bytes dst src n mem) a = arr mem a.
Proof.
  intros Ha. unfold copy_bytes.
  assert (Hin : forall j, j ∈ seqZ 0 n -> a <> (dst + j) - (dst + j) mod 8)
    by (intros j Hj%elem_of_seqZ; apply Ha; lia).
  clear Ha. induction (seqZ 0 n) as [|j l IH] using rev_ind; [done|].
  rewrite foldl_snoc. unfold st8 at 1. rewrite arr_insert, (proj2 (Z.eqb_neq _ _)).
  - apply IH. intros k Hk. apply Hin. set_solver.
  - apply not_eq_sym, Hin. set_solver.
Qed.

Lemma copy_bytes_spec dst src n mem j : 0 <= j < n ->
  (forall i k, 0 <= i < n -> 0 <= k < n -> dst + i <> src + k) ->
  ld8 (copy_bytes dst src n mem) (dst + j) = ld8 mem (src + j).
Proof.
  intros Hj Hdis. unfold copy_bytes.
  assert (Hin : j ∈ seqZ 0 n) by (apply elem_of_seqZ; lia).
  assert (Hl : forall i, i ∈ seqZ 0 n -> 0 <= i < n) by (intros i Hi%elem_of_seqZ; lia).
  clear Hj. set (f := fun mem j => st8 mem (dst + j) (ld8 mem (src + j))).
  assert (Hsrc : forall l i, (forall i, i ∈ l -> 0 <= i < n) -> 0 <= i < n -> ld8 (foldl f mem l) (src + i) = ld8 mem (src + i)).
  { induction l as [|k l IH] using rev_ind; intros i Hk Hi; [done|].
    rewrite foldl_snoc. unfold f at 1. rewrite ld8_st8 by apply ld8_range.
    rewrite (proj2 (Z.eqb_neq _ _)); [apply IH; set_solver|]. apply Hdis; [apply Hk; set_solver | done]. }
  assert (Hjn : 0 <= j < n) by (by apply Hl).
  revert Hin Hl. induction (seqZ 0 n) as [|k l IH] using rev_ind; intros Hin Hl; [by apply not_elem_of_nil in Hin|].
  rewrite foldl_snoc. unfold f at 1. rewrite ld8_st8 by apply ld8_range.
  destruct (Z.eqb_spec (dst + k) (dst + j)) as [He|Hne].
  - assert (k = j) as -> by lia. apply Hsrc; [intros; apply Hl; set_solver | done].
  - apply IH; [|intros; apply Hl; set_solver].
    apply elem_of_app in Hin as [?|Hin%list_elem_of_singleton]; [done | congruence].
Qed.

(** ** The fault handler *)

Section Cow.
Context {HB : HhdmBase} {inv : pmm -> Prop} {held : pmm -> Z -> Prop} `{PA : !PageAllocator inv held}.

Local Abbreviation vm_inv := (vm_inv (inv := inv)).
Local Abbreviation tree_wf := (tree_wf (held := held)).
Local Abbreviation vm_step := (vm_step (inv := inv) (held := held)).
Local Abbreviation leaf_step := (leaf_step (inv := inv) (held := held)).

(** A fresh page was taken and filled; every held page keeps its words. *)
Lemma fresh_step root m m' c : vm_inv m -> tree_wf m root -> vm_inv m' ->
  (forall a, page_base a <> c -> arr (m_mem m') a = arr (m_mem m) a) -> ~ held (m_pmm m) c ->
  (forall q, held (m_pmm m') q <-> held (m_pmm m) q \/ q = c) ->
  m_user_pml4 m' = m_user_pml4 m /\ m_user_valid m' = m_user_valid m /\ m_cr3 m' = m_cr3 m ->
  vm_step root m m' /\ (forall p, upath p -> tab_at (m_mem m') root p = tab_at (m_mem m) root p).
Proof.
  intros Hi Ht Hi' Hw Hf Hh Hu.
  assert (Hhw : forall a, held (m_pmm m) (page_base a) -> arr (m_mem m') a = arr (m_mem m) a)
    by (intros a Ha; apply Hw; by intros <-).
  assert (Htw : forall p t j, upath p -> tab_at (m_mem m) root p = Some t -> 0 <= j < 512 ->
            arr (m_mem m') (t + 8 * j) = arr (m_mem m) (t + 8 * j)).
  { intros p t j Hp Hpt Hj. apply Hhw. rewrite slot_page; [by eapply tw_held | | done].
    by apply (table_page_facts m root p). }
  assert (Hsame : forall p, upath p -> tab_at (m_mem m') root p = tab_at (m_mem m) root p).
  { intros p Hp. apply tab_at_agree. intros p1 i t [k ->] Hpt.
    assert (Hp1 : upath (p1 ++ [i])) by (by eapply upath_prefix).
    apply (Htw p1); [by eapply upath_prefix | done | by apply (upath_index p1)]. }
  split; [|done]. split.
  - done.
  - split.
    + intros p t Hp. rewrite Hsame by done. intros Hpt. apply Hh. left. by eapply tw_held.
    + intros p1 p2 t Hp1 Hp2. rewrite !Hsame by done. by apply (tw_inj _ _ Ht).
  - intros va Hv. pose proof (upath_va va Hv). unfold pte_of. rewrite Hsame by done.
    destruct (tab_at (m_mem m) root (va_path va)) eqn:Hpt; [|done].
    apply (Htw (va_path va)); try done. apply idx_range.
  - intros p t Hp. by rewrite Hsame.
  - intros j Hj. apply (Htw []); [apply upath_nil | done | lia].
  - intros q Hq. apply Hh. by left.
  - intros a Ha Hn. split; [by apply Hhw|]. intros p Hp. rewrite Hsame by done. by apply Hn.
  - done.
Qed.

(** The faults the handler is for: a present user page marked copy-on-write. *)
Definition cow_pte (pte : Z) : bool := has pte PTE_P && has pte PTE_U && has pte PTE_COW && negb (has pte PTE_W).

(** The entry of a page made private in place. *)
Definition cow_taken (pte : Z) : Z := Z.land (Z.lor pte PTE_W) (not64 PTE_COW).

(** The entry of the private copy [np]. *)
Definition cow_copied (np pte : Z) : Z :=
  Z.land (Z.lor (Z.lor (Z.land np PTE_ADDR_MASK)
                       (Z.lor (Z.land (Z.land pte 0xFFF) (not64 PTE_COW)) (Z.lor PTE_P (Z.lor PTE_U PTE_W))))
                (Z.land pte PTE_NX)) (not64 PTE_COW).

Lemma testbit_FFF i : 0 <= i -> Z.testbit 0xFFF i = (i <? 12).
Proof.
  intros Hi. change 0xFFF with (Z.ones 12).
  destruct (Z.ltb_spec i 12); [rewrite Z.ones_spec_low | rewrite Z.ones_spec_high]; lia || done.
Qed.

Lemma cow_taken_spec pte : 0 <= pte < 2 ^ 64 -> let w := cow_taken pte in
  addr_of w = addr_of pte /\ has w PTE_P = has pte PTE_P /\ has w PTE_U = has pte PTE_U /\
  has w PTE_W = true /\ has w PTE_COW = false /\ has w PTE_NX = has pte PTE_NX.
Proof.
  intros Hp. cbn zeta. unfold cow_taken. rewrite !has_P, !has_U, !has_W, !has_COW, !has_NX.
  split; [unfold addr_of; bits_eq; try (by rewrite ?orb_false_r, ?andb_true_r) | split_and!; bit_at].
Qed.

Lemma cow_copied_spec np pte : frame_addr np -> let w := cow_copied np pte in
  addr_of w = np /\ has w PTE_P = true /\ has w PTE_U = true /\
  has w PTE_W = true /\ has w PTE_COW = false /\ has w PTE_NX = has pte PTE_NX.
Proof.
  intros [Ha Hp]. cbn zeta. unfold cow_copied. rewrite !has_P, !has_U, !has_W, !has_COW, !has_NX.
  split; [|split_and!; rewrite ?Z.land_spec, ?Z.lor_spec, ?Z.land_spec, ?testbit_FFF by lia; bit_at].
  rewrite <- (addr_of_page np) at 2 by done. unfold addr_of.
  apply Z.bits_inj'. intros i Hi. autorewrite with bits. rewrite testbit_FFF by lia. bit_cases; try lia; done.
Qed.

Lemma page_mask_user va : user_va va ->
  let b := Z.land va PAGE_MASK in user_va b /\ b mod PAGE_SIZE = 0 /\ b / PAGE_SIZE = va / PAGE_SIZE.
Proof.
  intros Hv. cbn zeta. unfold user_va, USER_TOP in *. rewrite land_PAGE_MASK by lia.
  unfold PAGE_SIZE. dlia.
Qed.

Lemma cow_walk_eq m cr3 va : vm_inv m -> tree_wf m (Z.land cr3 PAGE_MASK) -> user_va va ->
  cow_walk m cr3 (Z.land va PAGE_MASK) =
    match tab_at (m_mem m) (Z.land cr3 PAGE_MASK) (va_path va) with Some pt => Some (pt + 8 * idx1 va) | None => None end.
Proof.
  intros Hi Ht Hv. destruct (page_mask_user va Hv) as (Hv' & Ha & Hd). unfold cow_walk.
  rewrite has_low12, Ha. cbn [negb Z.eqb orb].
  assert (Hlt : (0x0000800000000000 <=? Z.land va PAGE_MASK) = false) by (apply Z.leb_gt; unfold user_va, USER_TOP in *; lia).
  rewrite Hlt. set (root := Z.land cr3 PAGE_MASK) in *.
  destruct (table_page_facts m root [] root Hi Ht upath_nil eq_refl).
  rewrite table_page; [|apply Hi | done | unfold PMM_TRACK_LIMIT in *; lia].
  rewrite walk_leaf_eq by apply Hi.
  destruct (va_path_page (Z.land va PAGE_MASK) va) as [-> ->]; [apply Hv' | apply Hv | done | done].
Qed.

(** A data page: held, and no table of the active tree. *)
Definition data_page (m : machine) (p : Z) : Prop := held (m_pmm m) p /\ not_table m (m_user_pml4 m) p.

(** What a resolved fault on [va] leaves behind: [w] is the new entry. *)
Record cow_done (root va w : Z) (m m' : machine) : Prop := {
  cd_step : leaf_step root va w m m';
  cd_flags : has w PTE_P = true /\ has w PTE_U = true /\ has w PTE_W = true /\
    has w PTE_COW = false /\ has w PTE_NX = has (pte_of (m_mem m) root va) PTE_NX;
  cd_bytes : forall j, 0 <= j < PAGE_SIZE ->
    ld8 (m_mem m') (addr_of w + j) = ld8 (m_mem m) (addr_of (pte_of (m_mem m) root va) + j);
  cd_private : pmm_page_refcount (m_pmm m') (addr_of w) = 1;
  cd_word : is_u64 w;
  cd_held : held (m_pmm m') (addr_of w) /\ not_table m' root (addr_of w);
  cd_frame : addr_of w = addr_of (pte_of (m_mem m) root va) \/ ~ held (m_pmm m) (addr_of w);
  cd_supply : pmm_free_count (m_pmm m) - 1 <= pmm_free_count (m_pmm m')
}.

Lemma log_tlb_done root va w m m' o : cow_done root va w m m' -> cow_done root va w m (log_tlb o m').
Proof. intros []. split; [by apply log_tlb_leaf | done..]. Qed.

Lemma page_base_page p : p mod PAGE_SIZE = 0 -> page_base p = p.
Proof. intros E. unfold page_base. lia. Qed.

(** A data page of the tree stays one. *)
Lemma leaf_keeps_page root va w m m' p : leaf_step root va w m m' -> p mod PAGE_SIZE = 0 ->
  held (m_pmm m) p /\ not_table m root p -> held (m_pmm m') p /\ not_table m' root p.
Proof.
  intros Hl Ha [Hh Hn]. split; [by apply (ls_held _ _ _ _ _ Hl)|]. pose proof (page_base_page p Ha) as Hb.
  destruct (ls_data _ _ _ _ _ Hl p) as [_ H]; by rewrite Hb in *.
Qed.

Lemma land_not64_u64 x y : is_u64 x -> is_u64 (Z.land y (not64 x)).
Proof. intros Hx. apply (land_range _ _ 64); [lia|]. by apply not64_range. Qed.

(** The word of a byte of the page [p]. *)
Lemma byte_word p j : p mod PAGE_SIZE = 0 -> 0 <= j < PAGE_SIZE ->
  page_base ((p + j) - (p + j) mod 8) = p.
Proof. intros Hp Hj. unfold page_base, PAGE_SIZE in *. dlia. Qed.

Lemma ld8_agree mem mem' a : arr mem' (a - a mod 8) = arr mem (a - a mod 8) -> ld8 mem' a = ld8 mem a.
Proof. intros He. unfold ld8. by rewrite He. Qed.

Lemma copy_page_off np old mem a : np mod PAGE_SIZE = 0 -> page_base a <> np ->
  arr (copy_bytes np old PAGE_SIZE mem) a = arr mem a.
Proof. intros Hal Hb. apply copy_bytes_word. intros j Hj ->. apply Hb. by apply byte_word. Qed.

Lemma copy_page_bytes np old mem j : np mod PAGE_SIZE = 0 -> old mod PAGE_SIZE = 0 -> np <> old ->
  0 <= j < PAGE_SIZE -> ld8 (copy_bytes np old PAGE_SIZE mem) (np + j) = ld8 mem (old + j).
Proof.
  intros Hn Ho Hne Hj. apply copy_bytes_spec; [done|]. intros i k Hi Hk. unfold PAGE_SIZE in *. dlia.
Qed.

Section Fault.
Variables (m : machine) (cr3 va pt : Z).
Let root := Z.land cr3 PAGE_MASK.
Let pte := arr (m_mem m) (pt + 8 * idx1 va).
Let old := addr_of pte.
Hypothesis (Hi : vm_inv m) (Ht : tree_wf m root) (Hv : user_va va).
Hypothesis (Hpt : tab_at (m_mem m) root (va_path va) = Some pt).
Hypothesis (Hcow : cow_pte pte = true).
Hypothesis (Hheld : held (m_pmm m) old) (Hdata : not_table m root old) (Hword : is_u64 pte).

Lemma fault_pte : pte_of (m_mem m) root va = pte.
Proof. unfold pte_of. by rewrite Hpt. Qed.

(** The last reference: the page is taken over in place. *)
Lemma cow_take : pmm_page_refcount (m_pmm m) old = 1 ->
  cow_done root va (cow_taken pte) m
    (set_mem (<[pt + 8 * idx1 va := cow_taken pte]> (<[pt + 8 * idx1 va := Z.lor pte PTE_W]> (m_mem m))) m).
Proof.
  intros Hr. destruct (cow_taken_spec pte Hword) as (Ea & Ep & Eu & Ew & Ec & En).
  apply andb_true_iff in Hcow as [[[Hp Hu]%andb_true_iff Hc]%andb_true_iff Hw].
  assert (Hl : leaf_step root va (cow_taken pte) m
    (set_mem (<[pt + 8 * idx1 va := cow_taken pte]> (<[pt + 8 * idx1 va := Z.lor pte PTE_W]> (m_mem m))) m)).
  { apply leaf_write with pt; try done; [|split; apply Hi].
    cbn [set_mem m_mem]. by rewrite insert_insert_eq. }
  split; [done | rewrite fault_pte; split_and!; congruence | | rewrite Ea; exact Hr | | | | cbn; lia].
  2: { by apply land_not64_u64. }
  2: { rewrite Ea. apply (leaf_keeps_page _ _ _ _ _ _ Hl); [apply addr_of_aligned | done]. }
  2: { left. by rewrite fault_pte. }
  intros j Hj. rewrite Ea, fault_pte. apply ld8_agree.
  apply (ls_data _ _ _ _ _ Hl); rewrite byte_word by (apply addr_of_aligned || done); done.
Qed.

(** A shared page: the fault moves to a fresh copy. *)
Lemma cow_copy np s mem1 : pmm_alloc_page (m_pmm m) = (np, s) -> np <> 0 -> pmm_page_refcount (m_pmm m) old <> 1 ->
  (forall a, page_base a <> np -> arr mem1 a = arr (m_mem m) a) ->
  (forall j, 0 <= j < PAGE_SIZE -> ld8 mem1 (np + j) = ld8 (m_mem m) (old + j)) ->
  cow_done root va (cow_copied np pte) m
    (set_pmm (pmm_free_page old s)
       (set_mem (<[pt + 8 * idx1 va := cow_copied np pte]> mem1) (set_pmm s m))).
Proof.
  intros Ha Hnp Hr Hoff Hby. destruct (pa_alloc _ _ _ (vi_pmm _ Hi) Ha Hnp) as [Hf Hh].
  destruct (pa_alloc_inv _ _ _ (vi_pmm _ Hi) Ha) as (Hs & Hhd & Hc1 & Hcq).
  destruct (pa_page s np Hs ltac:(apply Hh; by right)) as [Hal Hrg].
  destruct (pa_page _ old (vi_pmm _ Hi) Hheld) as [Hoa Hor].
  destruct (pa_count _ old (vi_pmm _ Hi) Hheld) as [Hcnt _].
  assert (Hpo : page_of old = old) by (apply page_of_page; split; [done | unfold PMM_TRACK_LIMIT in *; lia]).
  assert (Hne : np <> old) by (by intros ->).
  assert (Hou : is_u64 old) by (unfold is_u64, PMM_TRACK_LIMIT in *; lia).
  destruct (pa_free s old Hs Hou) as (Hs' & Hhd' & _ & Hfo). rewrite Hpo in Hfo.
  assert (Hsh : held s old) by (apply Hh; by left).
  destruct (pa_free_shared s old Hs Hsh) as [Hfh _]; [rewrite Hcq by done; lia|].
  destruct (cow_copied_spec np pte) as (Ea & Ep & Eu & Ew & Ec & En);
    [split; [done | unfold PMM_TRACK_LIMIT in *; lia]|].
  set (m2 := set_mem mem1 (set_pmm s m)).
  destruct (fresh_step root m m2 np) as [Hst Htab]; try done; [split; [done | cbn; rewrite Hhd; apply Hi]|].
  assert (Hptn : forall a, page_base a = np -> a <> pt + 8 * idx1 va).
  { intros a Hb ->. pose proof (upath_va va Hv) as Hup.
    destruct (table_page_facts m root _ pt Hi Ht Hup Hpt) as [Hpa _].
    rewrite slot_page in Hb by (done || apply idx_range). apply Hf. rewrite <- Hb. by eapply tw_held. }
  assert (Hl2 : leaf_step root va (cow_copied np pte) m2
    (set_pmm (pmm_free_page old s) (set_mem (<[pt + 8 * idx1 va := cow_copied np pte]> mem1) (set_pmm s m)))).
  { apply leaf_write with pt; try done; [apply Hst | apply Hst | | |].
    + rewrite Htab; [done | by apply upath_va].
    + split; [done | cbn; rewrite Hhd', Hhd; apply Hi].
    + cbn. intros q Hq. destruct (decide (q = old)) as [->|]; [done | by apply Hfo]. }
  split.
  - by eapply step_leaf.
  - rewrite fault_pte. split_and!; done.
  - intros j Hj. rewrite Ea, fault_pte. cbn [set_pmm set_mem m_mem].
    rewrite (ld8_agree mem1); [by apply Hby|].
    rewrite arr_insert, (proj2 (Z.eqb_neq _ _)); [done|]. apply not_eq_sym, Hptn. by apply byte_word.
  - rewrite Ea. cbn [set_pmm m_pmm]. destruct (Hfo np) as [_ ->]; [apply Hh; by right | done | by apply Hc1].
  - by apply land_not64_u64.
  - rewrite Ea. apply (leaf_keeps_page _ _ _ _ _ _ Hl2); [done|]. split; [apply Hh; by right|].
    intros p Hp. rewrite Htab by done. intros Hpt'. apply Hf. by apply (tw_held _ _ Ht p).
  - right. by rewrite Ea.
  - cbn [set_pmm m_pmm]. destruct (pa_supply _ _ _ (vi_pmm _ Hi) Ha) as [_ H1]. pose proof (pa_free_supply s old Hs). lia.
Qed.

End Fault.

#[local] Opaque copy_bytes.

Lemma cow_guard pte :
  negb (has pte PTE_P) || negb (has pte PTE_U) || negb (has pte PTE_COW) || has pte PTE_W = negb (cow_pte pte).
Proof. unfold cow_pte. by destruct (has pte PTE_P), (has pte PTE_U), (has pte PTE_COW), (has pte PTE_W). Qed.

(** The page of a copy-on-write entry is a data page somebody holds. *)
Definition cow_sound (root va : Z) (m : machine) : Prop :=
  let pte := pte_of (m_mem m) root va in
  cow_pte pte = true -> is_u64 pte /\ held (m_pmm m) (addr_of pte) /\ not_table m root (addr_of pte).

Lemma cow_fault_spec m cr3 va r m' : let root := Z.land cr3 PAGE_MASK in
  vm_inv m -> tree_wf m root -> user_va va -> cow_sound root va m ->
  vmm_user_cow_fault cr3 va m = (r, m') ->
  let cow := cow_pte (pte_of (m_mem m) root va) in
  (r = 0 /\ cow = true /\ exists w, cow_done root va w m m') \/
  (r = -1 /\ cow = false /\ m' = m) \/
  (r = -1 /\ cow = true /\ same_vm (inv := inv) (held := held) m m').
Proof.
  intros root Hi Ht Hv Hh. unfold cow_sound in Hh. unfold vmm_user_cow_fault, st_bind at 1, st_get at 1.
  rewrite cow_walk_eq by done. fold root. unfold pte_of in *.
  destruct (tab_at (m_mem m) root (va_path va)) as [pt|] eqn:Hpt; [|intros [= <- <-]; right; left; done].
  unfold st_bind at 1, ld, st_gets at 1. rewrite cow_guard. cbn zeta.
  set (pte := arr (m_mem m) (pt + 8 * idx1 va)) in *.
  destruct (cow_pte pte) eqn:Hcow; cbn [negb]; [|intros [= <- <-]; right; left; done].
  destruct (Hh eq_refl) as (Hu & Hheld & Hdata). fold (addr_of pte).
  destruct (Z.eqb_spec (pmm_page_refcount (m_pmm m) (addr_of pte)) 1) as [H1|H1].
  - pose proof (cow_take m cr3 va pt Hi Ht Hv Hpt Hcow Hheld Hdata Hu H1) as Hd.
    unfold st_bind, sto, st_mod, st_gets, st_get, st_ret, invlpg, st_mod.
    cbn [set_mem m_mem m_cr3]. rewrite arr_insert, Z.eqb_refl. fold root. fold (cow_taken pte).
    destruct (Z.land (m_cr3 m) PAGE_MASK =? root); intros [= <- <-]; left;
      (split; [done|]; split; [done|]); exists (cow_taken pte); [by apply log_tlb_done | done].
  - unfold st_bind at 1, alloc_page. destruct (pmm_alloc_page (m_pmm m)) as [np s] eqn:Ha.
    destruct (pa_alloc_inv _ _ _ (vi_pmm _ Hi) Ha) as (Hs & Hhd & _).
    destruct (pa_supply _ _ _ (vi_pmm _ Hi) Ha) as [Hz Hc].
    destruct (Z.eqb_spec np 0) as [->|Hnp].
    { intros [= <- <-]. right. right. split; [done|]. split; [done|].
      split; [split; [done | cbn; rewrite Hhd; apply Hi] | done | | by apply Hz | done | done].
      by apply (pa_alloc_fail _ _ (vi_pmm _ Hi) Ha). }
    destruct (pa_alloc _ _ _ (vi_pmm _ Hi) Ha Hnp) as [Hf Hq].
    destruct (pa_page s np Hs ltac:(apply Hq; by right)) as [Hal Hrg].
    destruct (pa_page _ _ (vi_pmm _ Hi) Hheld) as [Hoa Hor].
    unfold st_bind at 1, st_get at 1. cbn [set_pmm m_pmm].
    assert (Hhok : hhdm_ok (g_hhdm s)) by (rewrite Hhd; apply Hi).
    rewrite !phys_to_virt_ok by (done || unfold PMM_TRACK_LIMIT in *; lia).
    assert (Hne : np <> addr_of pte) by (by intros ->).
    pose proof (cow_copy m cr3 va pt Hi Ht Hv Hpt Hheld np s
      (copy_bytes np (addr_of pte) PAGE_SIZE (m_mem m)) Ha Hnp H1
      (fun a => copy_page_off np (addr_of pte) (m_mem m) a Hal)
      (fun j => copy_page_bytes np (addr_of pte) (m_mem m) j Hal Hoa Hne)) as Hd.
    unfold st_bind, sto, st_mod, st_gets, st_ret, invlpg, free_page, st_mod.
    cbn [set_mem m_mem set_pmm m_pmm]. rewrite arr_insert, Z.eqb_refl, insert_insert_eq.
    fold (cow_copied np pte). intros [= <- <-]. left. split; [done|]. split; [done|].
    exists (cow_copied np pte). by apply log_tlb_done.
Qed.

(** ** Protecting a page

    A write permission on a shared page first makes the page private. *)

Lemma page_root m : user_ok (inv := inv) (held := held) m -> Z.land (m_user_pml4 m) PAGE_MASK = m_user_pml4 m.
Proof.
  intros [Hi _ Ht]. destruct (table_page_facts m (m_user_pml4 m) [] (m_user_pml4 m) Hi Ht upath_nil eq_refl).
  apply land_PAGE_MASK_aligned; [unfold PMM_TRACK_LIMIT in *; lia | done].
Qed.

Lemma vmm_user_protect_spec m va flags r m' : user_ok (inv := inv) (held := held) m -> page_va va ->
  cow_sound (m_user_pml4 m) va m -> vmm_user_protect va flags m = (r, m') ->
  let root := m_user_pml4 m in
  let pte := pte_of (m_mem m) root va in
  (r = -1 /\ has pte PTE_P = false /\ m' = m) \/
  (r = 0 /\ has pte PTE_P = true /\ has flags PTE_W && has pte PTE_COW = false /\
     leaf_step root va (leaf_pte (addr_of pte) flags) m m') \/
  (r = 0 /\ cow_pte pte = true /\ has flags PTE_W = true /\ exists w m1, cow_done root va w m m1 /\
     leaf_step root va (leaf_pte (addr_of w) flags) m m' /\ leaf_step root va (leaf_pte (addr_of w) flags) m1 m') \/
  (r = -1 /\ has flags PTE_W && has pte PTE_COW = true /\
     (m' = m \/ same_vm (inv := inv) (held := held) m m')).
Proof.
  intros Ho Hva Hcs. cbn zeta. unfold vmm_user_protect, st_bind at 1, st_get. rewrite page_va_guard by done.
  rewrite (user_translate_eq m va Ho (proj1 Hva)). cbn zeta.
  destruct (has (pte_of _ _ va) PTE_P) eqn:HP; [|intros [= <- <-]; left; done].
  destruct (has flags PTE_W && has (pte_of _ _ va) PTE_COW) eqn:Hfl.
  - unfold st_bind at 1. destruct (vmm_user_cow_fault (m_user_pml4 m) va m) as [k m1] eqn:Hf.
    apply cow_fault_spec in Hf; rewrite ?page_root by done; [|apply Ho | apply Ho | apply Hva | done].
    rewrite page_root in Hf by done. cbn zeta in Hf.
    destruct Hf as [(-> & Hc & w & Hd)|[(-> & _ & ->)|(-> & _ & Hs)]]; cbn [Z.eqb negb].
    + pose proof (cd_step _ _ _ _ _ Hd) as Hl. pose proof (leaf_user_ok va w m m1 Ho Hl) as Ho1.
      destruct (ls_user _ _ _ _ _ Hl) as [Er _]. destruct (cd_flags _ _ _ _ _ Hd) as (Hw & _).
      unfold st_bind at 1. rewrite (user_translate_eq m1 va Ho1 (proj1 Hva)). cbn zeta.
      assert (Hpw : pte_of (m_mem m1) (m_user_pml4 m1) va = w)
        by (rewrite Er, (ls_view _ _ _ _ _ Hl), Z.eqb_refl by apply Hva; done).
      rewrite Hpw, Hw. intros Hp. pose proof (protect_leaf_spec m1 va flags Ho1 Hva) as Hps. cbn zeta in Hps.
      rewrite Hpw, Hp, Er in Hps. destruct (Hps Hw) as [-> Hl2]. right; right; left.
      split; [done|]. split; [done|]. split; [by apply andb_true_iff in Hfl as [? _]|].
      exists w, m1. split; [done|]. split; [by eapply leaf_leaf | done].
    + intros [= <- <-]. right; right; right. split_and!; [done | done | by left].
    + intros [= <- <-]. right; right; right. split_and!; [done | done | by right].
  - intros Hp. pose proof (protect_leaf_spec m va flags Ho Hva) as Hps. cbn zeta in Hps.
    rewrite Hp in Hps. destruct (Hps HP) as [-> Hl]. right; left. done.
Qed.

End Cow.
