(* ===== verification/VmmSpace.v ===== *)
(** * Creating an address space, and checking user ranges *)

From S2P Require Import Prelude Words Pmm PmmFacts PageAlloc Vmm VmmFacts VmmMap.
Local Open Scope Z_scope.

(** ** The word copy of the kernel half *)

Lemma copy_words_off dst src b e mem a : (forall i, b <= i < e -> a <> dst + 8 * i) ->
  arr (copy_word_loop dst src b e mem) a = arr mem a.
Proof.
  intros Ha. assert (Hin : forall i, i ∈ seqZ b (e - b) -> a <> dst + 8 * i) by (intros i Hi%elem_of_seqZ; apply Ha; lia).
  unfold copy_word_loop. clear Ha. induction (seqZ b (e - b)) as [|j l IH] using rev_ind; [done|].
  rewrite foldl_snoc, arr_insert, (proj2 (Z.eqb_neq _ _)).
  - apply IH. intros i Hi. apply Hin. set_solver.
  - apply not_eq_sym, Hin. set_solver.
Qed.

Lemma copy_words_in dst src b e mem i :
  (forall i j, b <= i < e -> b <= j < e -> dst + 8 * i <> src + 8 * j) -> b <= i < e ->
  arr (copy_word_loop dst src b e mem) (dst + 8 * i) = arr mem (src + 8 * i).
Proof.
  intros Hd Hi. unfold copy_word_loop. assert (Hin : i ∈ seqZ b (e - b)) by (apply elem_of_seqZ; lia).
  assert (Hl : forall j, j ∈ seqZ b (e - b) -> b <= j < e) by (intros j Hj%elem_of_seqZ; lia).
  set (f := fun mem i => <[dst + 8 * i := arr mem (src + 8 * i)]> mem).
  assert (Hsrc : forall l, (forall j, j ∈ l -> b <= j < e) -> arr (foldl f mem l) (src + 8 * i) = arr mem (src + 8 * i)).
  { induction l as [|j l IH] using rev_ind; intros Hj; [done|].
    rewrite foldl_snoc. unfold f at 1. rewrite arr_insert, (proj2 (Z.eqb_neq _ _)).
    - apply IH. intros k Hk. apply Hj. set_solver.
    - apply Hd; [apply Hj; set_solver | done]. }
  revert Hin Hl. induction (seqZ b (e - b)) as [|j l IH] using rev_ind; intros Hin Hl; [by apply not_elem_of_nil in Hin|].
  rewrite foldl_snoc. unfold f at 1. rewrite arr_insert.
  destruct (Z.eqb_spec (dst + 8 * j) (dst + 8 * i)) as [He|Hne].
  - assert (j = i) as -> by lia. apply Hsrc. intros; apply Hl. set_solver.
  - apply IH; [|intros; apply Hl; set_solver].
    apply elem_of_app in Hin as [?|Hin%list_elem_of_singleton]; [done | congruence].
Qed.

(** The PML4 that [vmm_user_space_create] builds in the page [p]. *)
Definition new_pml4 (p src : Z) (mem : gmap Z Z) : gmap Z Z := copy_word_loop p src 256 512 (zero_words p 512 mem).

Lemma new_pml4_spec p src mem : p mod PAGE_SIZE = 0 -> src mod PAGE_SIZE = 0 -> p <> src ->
  (forall i, 0 <= i < 256 -> arr (new_pml4 p src mem) (p + 8 * i) = 0) /\
  (forall j, 256 <= j < 512 -> arr (new_pml4 p src mem) (p + 8 * j) = arr mem (src + 8 * j)) /\
  (forall a, page_base a <> p -> arr (new_pml4 p src mem) a = arr mem a).
Proof.
  intros Hp Hs Hne. unfold new_pml4. split; [|split].
  - intros i Hi. rewrite copy_words_off by lia. apply arr_zero_in. lia.
  - intros j Hj. rewrite copy_words_in; [| |done].
    + apply arr_zero_page; [done|]. by rewrite slot_page by (done || lia).
    + intros a b Ha Hb He. apply slot_inj in He as [? _]; done || lia.
  - intros a Ha. rewrite copy_words_off; [by apply arr_zero_page|].
    intros i Hi ->. apply Ha, slot_page; [done | lia].
Qed.

(** ** Ranges *)

(** Every page of a range passes: what the loop of [vmm_user_range_ok] tests. *)
Lemma range_loop_spec m w last va n : va mod PAGE_SIZE = 0 -> 0 <= va -> last = va + PAGE_SIZE * Z.of_nat n ->
  last <= USER_TOP - PAGE_SIZE ->
  range_loop (S n) m w last va = true <->
  (forall k, 0 <= k <= Z.of_nat n -> range_page_ok m w (va + PAGE_SIZE * k) = true).
Proof.
  revert va. induction n as [|n IH]; intros va Ha H0 Hl Ht.
  - cbn [range_loop]. change (Z.of_nat 0) with 0 in *. rewrite Z.mul_0_r, Z.add_0_r in Hl. subst last. rewrite Z.eqb_refl.
    split.
    + intros Hr k Hk. assert (k = 0) as -> by lia. rewrite Z.mul_0_r, Z.add_0_r.
      by destruct (range_page_ok m w va).
    + intros Hk. specialize (Hk 0). rewrite Z.mul_0_r, Z.add_0_r in Hk. by rewrite Hk by lia.
  - remember (S n) as n1 eqn:En. cbn [range_loop]. assert (Hne : va <> last) by (unfold PAGE_SIZE in *; lia).
    rewrite (proj2 (Z.eqb_neq va last)) by done.
    assert (Hlt : (USER_TOP - PAGE_SIZE <? va) = false) by (apply Z.ltb_ge; unfold PAGE_SIZE in *; lia).
    rewrite Hlt. subst n1. split.
    + destruct (range_page_ok m w va) eqn:H; [|done]. cbn [negb]. intros Hr k Hk.
      destruct (decide (k = 0)) as [->|]; [by rewrite Z.mul_0_r, Z.add_0_r|].
      replace (va + PAGE_SIZE * k) with (va + PAGE_SIZE + PAGE_SIZE * (k - 1)) by lia.
      apply IH; try done; try (unfold PAGE_SIZE in *; dlia).
    + intros Hk. pose proof (Hk 0) as H. rewrite Z.mul_0_r, Z.add_0_r in H. rewrite H by lia. cbn [negb].
      apply IH; try (unfold PAGE_SIZE in *; dlia). intros k Hk'.
      replace (va + PAGE_SIZE + PAGE_SIZE * k) with (va + PAGE_SIZE * (k + 1)) by lia. apply Hk. lia.
Qed.

(** A page passes exactly when its first address does: the test reads only
    the leaf entry. *)
Lemma range_page_ok_page {HB : HhdmBase} m w va va' : hhdm_ok (g_hhdm (m_pmm m)) -> user_va va -> user_va va' ->
  va / PAGE_SIZE = va' / PAGE_SIZE -> range_page_ok m w va = range_page_ok m w va'.
Proof.
  intros Hh Hv Hv' He. unfold range_page_ok, vmm_user_translate.
  rewrite !(proj2 (canonical_user_iff _)) by (apply Hv || apply Hv').
  destruct (negb (m_user_valid m) || negb true); [done|]. destruct (table m (m_user_pml4 m)) as [root|]; [|done].
  rewrite !translate_from_eq by done. unfold pte_of.
  destruct (va_path_page va va') as [-> ->]; [apply Hv | apply Hv' | done|].
  cbn zeta. by destruct (has _ PTE_P).
Qed.

Definition user_access (m : machine) (w : bool) (a : Z) : Prop :=
  exists phys pte, vmm_user_translate m a = Some (phys, pte) /\ has pte PTE_U = true /\
    (w = true -> has pte PTE_W = true \/ has pte PTE_COW = true).

Lemma range_page_ok_iff m w a : range_page_ok m w a = true <-> user_access m w a.
Proof.
  unfold range_page_ok, user_access. destruct (vmm_user_translate m a) as [[phys pte]|].
  - split.
    + intros H. exists phys, pte. split; [done|].
      destruct (has pte PTE_U), w, (has pte PTE_W), (has pte PTE_COW); cbn in H; auto; done.
    + intros (? & ? & [= <- <-] & HU & HW). rewrite HU. destruct w; [|done].
      destruct (HW eq_refl) as [-> | ->]; cbn; [done | by destruct (has pte PTE_W)].
  - split; [done | by intros (? & ? & ? & _)].
Qed.

Lemma range_ok_spec {HB : HhdmBase} m virt len w : hhdm_ok (g_hhdm (m_pmm m)) -> m_user_valid m = true -> 0 <= virt -> 0 <= len ->
  vmm_user_range_ok m virt len w = true <->
  0 < len /\ virt + len <= USER_TOP /\ forall a, virt <= a < virt + len -> range_page_ok m w a = true.
Proof.
  intros Hh Huv Hv Hl. unfold vmm_user_range_ok. rewrite Huv. cbn [negb orb].
  destruct (Z.eqb_spec len 0) as [->|Hl0]; cbn [orb]; [split; [done | lia]|].
  unfold canonical_user. destruct (Z.ltb_spec virt USER_TOP) as [Hvt|Hvt]; cbn [negb orb]; [|split; [done | lia]].
  destruct (Z.ltb_spec (USER_TOP - virt) len) as [Hlt|Hlt]; [split; [done | lia]|].
  rewrite u64_small by (unfold USER_TOP in *; lia). rewrite !land_PAGE_MASK by (unfold USER_TOP in *; lia).
  set (first := virt - virt mod PAGE_SIZE).
  set (e := virt + len - 1). set (last := e - e mod PAGE_SIZE).
  assert (Hf : first mod PAGE_SIZE = 0 /\ 0 <= first <= virt /\ virt < first + PAGE_SIZE)
    by (unfold first, PAGE_SIZE in *; dlia).
  assert (Hla : last mod PAGE_SIZE = 0 /\ last <= e < last + PAGE_SIZE /\ first <= last)
    by (unfold first, last, e, PAGE_SIZE in *; dlia).
  assert (Htop : last <= USER_TOP - PAGE_SIZE) by (unfold last, e, PAGE_SIZE, USER_TOP in *; dlia).
  assert (Hn : exists n : nat, last = first + PAGE_SIZE * Z.of_nat n).
  { exists (Z.to_nat ((last - first) / PAGE_SIZE)). unfold PAGE_SIZE in *. dlia. }
  destruct Hn as [n Hn].
  replace (Z.to_nat ((last - first) / PAGE_SIZE + 1)) with (S n) by (rewrite Hn; unfold PAGE_SIZE; dlia).
  rewrite range_loop_spec by (lia || done). split.
  - intros Hk. split; [lia|]. split; [lia|]. intros a Ha.
    rewrite (range_page_ok_page m w a (first + PAGE_SIZE * ((a - first) / PAGE_SIZE))); try done.
    + apply Hk. unfold e, PAGE_SIZE in *. dlia.
    + unfold user_va. lia.
    + unfold user_va, e, USER_TOP, PAGE_SIZE in *. dlia.
    + unfold PAGE_SIZE in *. dlia.
  - intros (_ & _ & Ha) k Hk.
    assert (Hb : forall b, b = first + PAGE_SIZE * k -> user_va b /\ b <= e /\ virt < b + PAGE_SIZE).
    { intros b ->. unfold user_va, e, USER_TOP, PAGE_SIZE in *. lia. }
    destruct (Hb _ eq_refl) as (Hbu & Hbe & Hbv). set (b := first + PAGE_SIZE * k) in *.
    rewrite (range_page_ok_page m w b (Z.max b virt)); try done.
    + apply Ha. unfold e in *. lia.
    + unfold user_va in *. lia.
    + unfold PAGE_SIZE in *. assert (b mod 4096 = 0) by (unfold b; dlia). dlia.
Qed.

(** ** Creation *)

Section Create.
Context {HB : HhdmBase} {inv : pmm -> Prop} {held : pmm -> Z -> Prop} `{PA : !PageAllocator inv held}.

Local Abbreviation vm_inv := (vm_inv (inv := inv)).
Local Abbreviation user_ok := (user_ok (inv := inv) (held := held)).

(** The page the kernel half is copied from. *)
Definition source_of (m : machine) : Z :=
  if negb (m_kernel_cr3 m =? 0) then Z.land (m_kernel_cr3 m) PAGE_MASK else Z.land (m_cr3 m) PAGE_MASK.

(** Both registers hold page frames below 2^52, and the HHDM reaches the source. *)
Definition cr3_ok (m : machine) : Prop :=
  0 < Z.land (m_cr3 m) PAGE_MASK <= PTE_ADDR_MASK /\ 0 < source_of m <= PTE_ADDR_MASK /\ no_table (source_of m) = false.

Record created (m m' : machine) : Prop := {
  cr_ok : user_ok m';
  cr_fresh : ~ held (m_pmm m) (m_user_pml4 m');
  cr_held : forall q, held (m_pmm m') q <-> held (m_pmm m) q \/ q = m_user_pml4 m';
  cr_empty : forall va, user_va va -> vmm_user_translate m' va = None;
  cr_kernel : forall j, 256 <= j < 512 -> arr (m_mem m') (m_user_pml4 m' + 8 * j) = arr (m_mem m) (source_of m + 8 * j);
  cr_rest : forall a, page_base a <> m_user_pml4 m' -> arr (m_mem m') a = arr (m_mem m) a
}.

Lemma source_page m : source_of m mod PAGE_SIZE = 0.
Proof.
  unfold source_of. change PAGE_SIZE with (2 ^ 12).
  assert (H : forall x, Z.land x PAGE_MASK mod 2 ^ 12 = 0).
  { intros x. rewrite <- Z.land_ones by lia. apply Z.bits_inj'. intros i Hi.
    rewrite !Z.land_spec, testbit_PAGE_MASK, Z.bits_0 by lia.
    destruct (Z.leb_spec 12 i); [rewrite Z.ones_spec_high by lia; apply andb_false_r|].
    cbn [andb]. by rewrite andb_false_r. }
  by destruct (negb _).
Qed.

(** A root with an empty user half. *)
Lemma empty_root m root : vm_inv m -> held (m_pmm m) root -> m_user_valid m = true -> m_user_pml4 m = root ->
  (forall i, 0 <= i < 256 -> arr (m_mem m) (root + 8 * i) = 0) ->
  user_ok m /\ forall va, user_va va -> vmm_user_translate m va = None.
Proof.
  intros Hi Hh Hv <- Hz. set (root := m_user_pml4 m) in *.
  assert (Hp : forall p t, upath p -> tab_at (m_mem m) root p = Some t -> p = [] /\ t = root).
  { intros [|i p] t (_ & Hf & Hi256); [by intros [= <-]|]. apply Forall_cons in Hf as [Hi0 _].
    cbn [tab_at]. rewrite Hz by lia. done. }
  assert (Ho : user_ok m).
  { split; [done | done |]. split.
    - intros p t Hup Htab. by destruct (Hp p t Hup Htab) as [_ ->].
    - intros p1 p2 t H1 H2 T1 T2. destruct (Hp p1 t H1 T1) as [-> _], (Hp p2 t H2 T2) as [-> _]. done. }
  split; [done|]. intros va Hva. rewrite (user_translate_eq m va Ho Hva). cbn zeta. unfold pte_of. fold root.
  destruct (tab_at (m_mem m) root (va_path va)) as [t|] eqn:E; [|done].
  destruct (Hp _ _ (upath_va va Hva) E) as [? _]. done.
Qed.

#[local] Opaque zero_words copy_word_loop.

Lemma vmm_user_space_create_spec m r m' : vm_inv m -> cr3_ok m -> pmm_page_is_reserved (m_pmm m) (source_of m) = 1 ->
  vmm_user_space_create m = (r, m') ->
  (r = 0 /\ created m m') \/ (r = -1 /\ pmm_free_count (m_pmm m) = 0 /\ same_vm (inv := inv) (held := held) m m').
Proof.
  intros Hi ([Hc1 Hc2] & [Hs1 Hs2] & Hreach) Hres. pose proof (source_page m) as Hsa.
  unfold vmm_user_space_create, st_bind at 1, st_get at 1. fold (source_of m). set (src := source_of m) in *.
  rewrite !(proj2 (Z.eqb_neq _ 0)), !(proj2 (Z.ltb_ge _ _)) by lia. cbn [orb].
  rewrite table_frame by (apply Hi || done || unfold PTE_ADDR_MASK in *; lia). rewrite Hreach.
  unfold st_bind at 1, alloc_page. destruct (pmm_alloc_page (m_pmm m)) as [p s] eqn:Ha.
  destruct (pa_alloc_inv _ _ _ (vi_pmm _ Hi) Ha) as (Hs & Hhd & _).
  destruct (pa_supply _ _ _ (vi_pmm _ Hi) Ha) as [Hz Hcn].
  destruct (Z.eqb_spec p 0) as [->|Hp].
  { intros [= <- <-]. right. split; [done|]. specialize (Hz eq_refl). split; [done|].
    split; [split; [done | cbn; rewrite Hhd; apply Hi] | done | | done | done | done].
    by apply (pa_alloc_fail _ _ (vi_pmm _ Hi) Ha). }
  destruct (pa_alloc _ _ _ (vi_pmm _ Hi) Ha Hp) as [Hf Hq].
  pose proof (pa_reserved _ _ _ (vi_pmm _ Hi) Ha Hp) as Hnr.
  destruct (pa_page s p Hs ltac:(apply Hq; by right)) as [Hal Hr].
  assert (Hne : p <> src) by (intros ->; congruence).
  unfold st_bind at 1, st_get. rewrite table_page; [|cbn; rewrite Hhd; apply Hi | done | unfold PMM_TRACK_LIMIT in *; lia].
  destruct (new_pml4_spec p src (m_mem m) Hal Hsa Hne) as (Hlow & Hhigh & Hrest).
  unfold st_bind, zero_table, copy_words, st_mod, st_ret. cbn [set_pmm set_mem set_user m_mem].
  fold (new_pml4 p src (m_mem m)). set (mem' := new_pml4 p src (m_mem m)) in *.
  clearbody mem'. intros [= <- <-]. left. split; [done|].
  set (m' := set_user _ _ _).
  destruct (empty_root m' p) as [Ho He]; try done.
  { split; [done | cbn; rewrite Hhd; apply Hi]. }
  { apply Hq. by right. }
Qed.

End Create.
