(* ===== verification/VmmThms.v ===== *)
(** * Properties of vmm.c

    The properties of the virtual memory manager, stated against the
    interface of the page allocator, with a concrete boot as witness. *)

From S2P Require Import Prelude Words Pmm PmmFacts PmmInit PmmThms PageAlloc.
From S2P Require Import Vmm VmmFacts VmmMap VmmSpace.
Local Open Scope Z_scope.

Section Claims.
Context {HB : HhdmBase} {inv : pmm -> Prop} {held : pmm -> Z -> Prop} `{PA : !PageAllocator inv held}.

Local Abbreviation user_ok := (user_ok (inv := inv) (held := held)).
Local Abbreviation data_page := (data_page (held := held)).

(** What an operation on the active address space leaves alone: the kernel
    half of the PML4 and every data page. *)
Definition kernel_half_kept (m m' : machine) : Prop :=
  forall j, 256 <= j < 512 -> arr (m_mem m') (m_user_pml4 m + 8 * j) = arr (m_mem m) (m_user_pml4 m + 8 * j).
Definition data_kept (m m' : machine) : Prop :=
  forall a, held (m_pmm m) (page_base a) -> not_table m (m_user_pml4 m) (page_base a) -> arr (m_mem m') a = arr (m_mem m) a.

(** The translation of one page is [t], every other one is as in [m]. *)
Definition remapped (m m' : machine) (va : Z) (t : Z -> option (Z * Z)) : Prop :=
  forall va', user_va va' ->
    vmm_user_translate m' va' = if va' / PAGE_SIZE =? va / PAGE_SIZE then t va' else vmm_user_translate m va'.

Lemma leaf_remapped m m' va w : user_ok m -> page_va va ->
  leaf_step (inv := inv) (held := held) (m_user_pml4 m) va w m m' ->
  user_ok m' /\ kernel_half_kept m m' /\ data_kept m m' /\
  remapped m m' va (fun va' => if has w PTE_P then Some (Z.lor (addr_of w) (Z.land va' 0xfff), w) else None).
Proof.
  intros Ho Hva Hl. pose proof (leaf_user_ok va w m m' Ho Hl) as Ho'.
  split; [done|]. split; [exact (ls_kernel _ _ _ _ _ Hl)|]. split; [intros a Ha Hn; by apply (ls_data _ _ _ _ _ Hl)|].
  intros va' Hv'. rewrite (user_translate_eq m' va' Ho' Hv'), (user_translate_eq m va' Ho Hv'). cbn zeta.
  destruct (ls_user _ _ _ _ _ Hl) as [-> _]. rewrite (ls_view _ _ _ _ _ Hl) by done.
  by destruct (_ =? _).
Qed.

(** C3.  vmm_user_map with three free pages succeeds; a success maps exactly
    the requested page (present, user, with the requested frame and flags)
    and leaves every other translation, a failure leaves all of them; the
    kernel half, the data pages and the invariant of the tree are kept
    either way. *)
Theorem vmm_user_map_correct m va phys flags r m' : user_ok m -> page_va va -> frame_addr phys ->
  vmm_user_map va phys flags m = (r, m') ->
  (3 <= pmm_free_count (m_pmm m) -> r = 0) /\ user_ok m' /\ kernel_half_kept m m' /\ data_kept m m' /\
  remapped m m' va (fun va' =>
    if r =? 0 then Some (Z.lor phys (Z.land va' 0xfff), leaf_pte phys flags) else vmm_user_translate m va').
Proof.
  intros Ho Hva Hph He. destruct (vmm_user_map_spec m va phys flags r m' Ho Hva Hph He) as [[-> Hl]|(-> & Hs & Hc)].
  - destruct (leaf_remapped m m' va _ Ho Hva Hl) as (Ho' & Hk & Hd & Hr). split; [done|]. split; [done|].
    split; [done|]. split; [done|]. intros va' Hv'. rewrite Hr by done. cbn [Z.eqb].
    destruct (leaf_pte_spec phys flags) as (-> & -> & _); [apply Hph.. | done].
  - pose proof (step_user_ok m m' Ho Hs) as Ho'.
    split; [lia|]. split; [done|]. split; [exact (vs_kernel _ _ _ Hs)|]. split; [intros a Ha Hn; by apply (vs_data _ _ _ Hs)|].
    intros va' Hv'. rewrite (user_translate_eq m' va' Ho' Hv'). cbn zeta.
    destruct (vs_user _ _ _ Hs) as (-> & _). rewrite (vs_view _ _ _ Hs) by done.
    rewrite (user_translate_eq m va' Ho Hv'). cbn [Z.eqb]. by destruct (_ =? _).
Qed.

(** vmm_user_unmap gives back the frame of a mapped page and removes
    exactly that translation; on an unmapped page it fails and changes
    nothing. *)
Theorem vmm_user_unmap_correct m va : user_ok m -> page_va va ->
  let '(r, m') := vmm_user_unmap va m in
  match vmm_user_translate m va with
  | Some (phys, pte) => r = Some phys /\ user_ok m' /\ kernel_half_kept m m' /\ data_kept m m' /\
      remapped m m' va (fun _ => None)
  | None => r = None /\ m' = m
  end.
Proof.
  intros Ho Hva. pose proof (vmm_user_unmap_spec m va Ho Hva) as Hs. cbn zeta in Hs.
  destruct (vmm_user_unmap va m) as [r m']. rewrite (user_translate_eq m va Ho (proj1 Hva)). cbn zeta.
  destruct (has (pte_of _ _ va) PTE_P); [|done]. destruct Hs as [-> Hl].
  destruct (leaf_remapped m m' va 0 Ho Hva Hl) as (Ho' & Hk & Hd & Hr). split; [|done].
  f_equal. change 0xfff with (PAGE_SIZE - 1). rewrite land_low12, (proj2 Hva). by rewrite Z.lor_0_r.
Qed.

(**  vmm_user_range_ok(virt, len, w) holds exactly when the range is not
    empty, ends below USER_TOP and every byte of it is mapped for the user,
    with write or copy-on-write permission when [w] is set. *)
Theorem vmm_user_range_ok_iff m virt len w : user_ok m -> 0 <= virt -> 0 <= len ->
  vmm_user_range_ok m virt len w = true <->
  0 < len /\ virt + len <= USER_TOP /\ forall a, virt <= a < virt + len -> user_access m w a.
Proof.
  intros Ho Hv Hl. rewrite range_ok_spec; [|apply Ho | apply Ho | done | done].
  by setoid_rewrite range_page_ok_iff.
Qed.

(** vmm_user_space_create gives an address space with no user mapping
    whose kernel half is the one of the kernel's PML4, on a page nobody
    held, and touches no other page; it fails only when memory is exhausted. *)
Theorem vmm_user_space_create_correct m r m' : vm_inv (inv := inv) m -> cr3_ok m ->
  pmm_page_is_reserved (m_pmm m) (source_of m) = 1 -> vmm_user_space_create m = (r, m') ->
  (r = 0 /\ created (inv := inv) (held := held) m m') \/
  (r = -1 /\ pmm_free_count (m_pmm m) = 0 /\ m_mem m' = m_mem m).
Proof.
  intros Hi Hc Hs He. destruct (vmm_user_space_create_spec m r m' Hi Hc Hs He) as [?|(? & ? & Hv)]; [by left|].
  right. split_and!; [done | done | apply Hv].
Qed.

(** C4.  A write fault on a page that is present, user and copy-on-write is
    resolved unless memory is exhausted: the page becomes writable and
    private (one reference), keeps its execute permission, and reads back
    byte by byte as before; no other translation, data page or kernel entry
    changes.  Any other fault is refused and changes nothing. *)
Theorem vmm_user_cow_fault_correct m va r m' : user_ok m -> page_va va ->
  cow_sound (held := held) (m_user_pml4 m) va m -> vmm_user_cow_fault (m_user_pml4 m) va m = (r, m') ->
  match vmm_user_translate m va with
  | Some (old, pte) =>
      if cow_pte pte then
        (r = 0 /\ user_ok m' /\ kernel_half_kept m m' /\ data_kept m m' /\
         exists phys w, remapped m m' va (fun va' => Some (Z.lor phys (Z.land va' 0xfff), w)) /\
           has w PTE_W = true /\ has w PTE_COW = false /\ has w PTE_NX = has pte PTE_NX /\
           pmm_page_refcount (m_pmm m') phys = 1 /\
           forall j, 0 <= j < PAGE_SIZE -> ld8 (m_mem m') (phys + j) = ld8 (m_mem m) (old + j)) \/
        (r = -1 /\ pmm_free_count (m_pmm m) = 0 /\ m_mem m' = m_mem m)
      else r = -1 /\ m' = m
  | None => r = -1 /\ m' = m
  end.
Proof.
  intros Ho Hva Hcs He. apply cow_fault_spec in He; rewrite ?page_root by done; [|apply Ho | apply Ho | apply Hva | done].
  rewrite page_root in He by done. cbn zeta in He. rewrite (user_translate_eq m va Ho (proj1 Hva)). cbn zeta.
  set (pte := pte_of (m_mem m) (m_user_pml4 m) va) in *.
  destruct He as [(-> & Hc & w & [Hl Hfl Hby Hpr _ _ _])|[(-> & Hc & ->)|(-> & Hc & Hs)]].
  - assert (HP : has pte PTE_P = true) by (unfold cow_pte in Hc; by destruct (has pte PTE_P)).
    rewrite HP, Hc. left. destruct (leaf_remapped m m' va w Ho Hva Hl) as (Ho' & Hk & Hd & Hr).
    split; [done|]. split; [done|]. split; [done|]. split; [done|].
    destruct Hfl as (FP & FU & FW & FC & FN). exists (addr_of w), w. rewrite FP in Hr.
    split; [done|]. split_and!; try done. intros j Hj. rewrite Hby by done. fold pte. f_equal. f_equal.
    change 0xfff with (PAGE_SIZE - 1). rewrite land_low12, (proj2 Hva). by rewrite Z.lor_0_r.
  - destruct (has pte PTE_P); [by rewrite Hc | done].
  - assert (HP : has pte PTE_P = true) by (unfold cow_pte in Hc; by destruct (has pte PTE_P)).
    rewrite HP, Hc. right. split_and!; [done | apply Hs | apply Hs].
Qed.

Lemma alloc_data m : user_ok m -> fst (pmm_alloc_page (m_pmm m)) <> 0 ->
  user_ok (snd (alloc_page m)) /\ data_page (snd (alloc_page m)) (fst (pmm_alloc_page (m_pmm m))).
Proof.
  intros Ho. unfold alloc_page. destruct (pmm_alloc_page (m_pmm m)) as [p s] eqn:Ha. cbn [fst snd]. intros Hp.
  destruct (pa_alloc _ _ _ (vi_pmm _ (uo_inv _ Ho)) Ha Hp) as [Hf Hh].
  destruct (pa_alloc_inv _ _ _ (vi_pmm _ (uo_inv _ Ho)) Ha) as (Hi & Hhd & _).
  destruct (fresh_step (inv := inv) (held := held) (m_user_pml4 m) m (set_pmm s m) p) as [Hs Ht]; try done;
    [apply Ho | apply Ho | split; [done | cbn; rewrite Hhd; apply Ho] |].
  split; [by apply (step_user_ok m)|]. split; [apply Hh; by right|].
  intros q Hq Hn. rewrite Ht in Hn by done. apply Hf. by apply (tw_held _ _ (uo_tree _ Ho) q).
Qed.

Lemma leaf_data m m' va w p : leaf_step (inv := inv) (held := held) (m_user_pml4 m) va w m m' ->
  p mod PAGE_SIZE = 0 -> data_page m p -> data_page m' p.
Proof.
  intros Hl Ha Hp. unfold data_page. destruct (ls_user _ _ _ _ _ Hl) as [-> _]. by eapply leaf_keeps_page.
Qed.

Lemma map_data m va p flags : user_ok m -> page_va va -> frame_addr p -> data_page m p ->
  fst (vmm_user_map va p flags m) = 0 ->
  user_ok (snd (vmm_user_map va p flags m)) /\ data_page (snd (vmm_user_map va p flags m)) p.
Proof.
  intros Ho Hva Hp Hd. destruct (vmm_user_map va p flags m) as [r m'] eqn:E. cbn [fst snd]. intros ->.
  destruct (vmm_user_map_spec m va p flags 0 m' Ho Hva Hp E) as [[_ Hl]|[? _]]; [|done].
  split; [by eapply leaf_user_ok | eapply leaf_data; try done; apply Hp].
Qed.

(** The entry of a copy-on-write page. *)
Definition cow_entry (p : Z) : Z := Z.lor (Z.land p PTE_ADDR_MASK) (Z.lor PTE_P (Z.lor PTE_U PTE_COW)).

Lemma mark_cow m va p pt : user_ok m -> page_va va -> frame_addr p -> data_page m p ->
  tab_at (m_mem m) (m_user_pml4 m) (va_path va) = Some pt ->
  let m' := set_mem (<[pt + 8 * idx1 va := cow_entry p]> (m_mem m)) m in
  user_ok m' /\ cow_sound (held := held) (m_user_pml4 m') va m'.
Proof.
  intros Ho Hva Hp Hd Hpt m'.
  assert (Hl : leaf_step (inv := inv) (held := held) (m_user_pml4 m) va (cow_entry p) m m').
  { apply leaf_write with pt; try done; [apply Ho | apply Ho | apply Hva | split; apply Ho]. }
  split; [by eapply leaf_user_ok|]. unfold cow_sound.
  assert (Hw : pte_of (m_mem m') (m_user_pml4 m') va = cow_entry p)
    by (change (m_user_pml4 m') with (m_user_pml4 m); rewrite (ls_view _ _ _ _ _ Hl), Z.eqb_refl by apply Hva; done).
  rewrite Hw. assert (Haddr : addr_of (cow_entry p) = p).
  { rewrite <- (addr_of_page p) at 2 by apply Hp. unfold addr_of, cow_entry. bits_eq. }
  rewrite Haddr. intros _. split; [|eapply leaf_data; try done; apply Hp].
  unfold is_u64, cow_entry. apply lor_range; [lia| |vm_compute; split; [congruence | reflexivity]].
  pose proof (addr_of_range p) as Hr. unfold addr_of in Hr. lia.
Qed.

End Claims.

(** ** A concrete machine *)

Definition demo_vm : machine := Machine demo_boot demo_mem 0x2000000 [] 0 0 0 0 false.
#[local] Instance demo_hhdm : HhdmBase := 0xFFFF800000000000.
Definition demo_user : machine := snd (vmm_user_space_create demo_vm).

Local Abbreviation pmm_user_ok := (user_ok (inv := pmm_wf) (held := pool_held)).

Lemma demo_vm_inv : vm_inv (inv := pmm_wf) demo_vm.
Proof.
  split; [exact demo_boot_wf|].
  assert (E : g_hhdm (m_pmm demo_vm) = 0xFFFF800000000000) by (vm_compute; reflexivity).
  rewrite E. unfold hhdm_ok, PMM_TRACK_LIMIT. split; [reflexivity | lia].
Qed.

Lemma demo_cr3_ok : cr3_ok demo_vm.
Proof. unfold cr3_ok. split_and!; vm_compute; congruence. Qed.

Lemma demo_source : pmm_page_is_reserved (m_pmm demo_vm) (source_of demo_vm) = 1.
Proof. vm_compute. reflexivity. Qed.

Lemma demo_create_ok : fst (vmm_user_space_create demo_vm) = 0.
Proof. vm_compute. reflexivity. Qed.

Lemma demo_created : created (inv := pmm_wf) (held := pool_held) demo_vm demo_user.
Proof.
  pose proof (vmm_user_space_create_spec (inv := pmm_wf) (held := pool_held) demo_vm _ _
    demo_vm_inv demo_cr3_ok demo_source (surjective_pairing _)) as H.
  rewrite demo_create_ok in H.
  destruct H as [[_ H]|[H _]]; [exact H | discriminate H].
Qed.

Lemma demo_user_ok : pmm_user_ok demo_user.
Proof. apply (cr_ok _ _ demo_created). Qed.

Lemma demo_page_va : page_va 0x400000.
Proof. split; [split; vm_compute; congruence | reflexivity]. Qed.

Lemma demo_frame : frame_addr 0x1003000.
Proof. split; [reflexivity | lia]. Qed.


Lemma vmm_user_map_correct_witness :
  let m' := snd (vmm_user_map 0x400000 0x1003000 PTE_W demo_user) in
  pmm_user_ok m' /\ remapped demo_user m' 0x400000 (fun va' => Some (Z.lor 0x1003000 (Z.land va' 0xfff), leaf_pte 0x1003000 PTE_W)).
Proof.
  cbn zeta.
  pose proof (vmm_user_map_correct (inv := pmm_wf) (held := pool_held) demo_user 0x400000 0x1003000 PTE_W _ _
    demo_user_ok demo_page_va demo_frame (surjective_pairing _)) as (H0 & H1 & _ & _ & H2).
  assert (Hr : fst (vmm_user_map 0x400000 0x1003000 PTE_W demo_user) = 0) by (vm_compute; reflexivity).
  rewrite Hr in H2. split; [exact H1 | exact H2].
Defined.

Lemma vmm_user_unmap_correct_witness :
  snd (vmm_user_unmap 0x400000 demo_user) = demo_user.
Proof.
  pose proof (vmm_user_unmap_correct (inv := pmm_wf) (held := pool_held) demo_user 0x400000
    demo_user_ok demo_page_va) as H.
  rewrite (cr_empty _ _ demo_created 0x400000 (proj1 demo_page_va)) in H.
  rewrite (surjective_pairing (vmm_user_unmap 0x400000 demo_user)) in H. exact (proj2 H).
Defined.

Lemma vmm_user_space_create_correct_witness :
  created (inv := pmm_wf) (held := pool_held) demo_vm (snd (vmm_user_space_create demo_vm)).
Proof.
  pose proof (vmm_user_space_create_correct (inv := pmm_wf) (held := pool_held) demo_vm _ _
    demo_vm_inv demo_cr3_ok demo_source (surjective_pairing _)) as H.
  rewrite demo_create_ok in H. destruct H as [[_ H]|[H _]]; [exact H | discriminate H].
Defined.

(** A machine with one data page, mapped at 0x400000 and then marked
    copy-on-write. *)
Definition demo_data : machine := snd (alloc_page demo_user).
Definition demo_mapped : machine := snd (vmm_user_map 0x400000 0x1003000 PTE_W demo_data).
Definition demo_cow : machine :=
  set_mem (<[0x1006000 + 8 * idx1 0x400000 := cow_entry 0x1003000]> (m_mem demo_mapped)) demo_mapped.

Lemma demo_alloc : fst (pmm_alloc_page (m_pmm demo_user)) = 0x1003000.
Proof. vm_compute. reflexivity. Qed.

Lemma demo_data_ok : pmm_user_ok demo_data /\ data_page (held := pool_held) demo_data 0x1003000.
Proof.
  pose proof (alloc_data (inv := pmm_wf) (held := pool_held) demo_user demo_user_ok) as H.
  rewrite demo_alloc in H. apply H. discriminate.
Qed.

Lemma demo_map_ok : fst (vmm_user_map 0x400000 0x1003000 PTE_W demo_data) = 0.
Proof. vm_compute. reflexivity. Qed.

Lemma demo_mapped_ok : pmm_user_ok demo_mapped /\ data_page (held := pool_held) demo_mapped 0x1003000.
Proof.
  destruct demo_data_ok as [Ho Hd].
  exact (map_data (inv := pmm_wf) (held := pool_held) demo_data 0x400000 0x1003000 PTE_W
           Ho demo_page_va demo_frame Hd demo_map_ok).
Qed.

Lemma demo_pt : tab_at (m_mem demo_mapped) (m_user_pml4 demo_mapped) (va_path 0x400000) = Some 0x1006000.
Proof. vm_compute. reflexivity. Qed.

Lemma demo_cow_ok : pmm_user_ok demo_cow /\ cow_sound (held := pool_held) (m_user_pml4 demo_cow) 0x400000 demo_cow.
Proof.
  destruct demo_mapped_ok as [Ho Hd].
  exact (mark_cow (inv := pmm_wf) (held := pool_held) demo_mapped 0x400000 0x1003000 0x1006000
           Ho demo_page_va demo_frame Hd demo_pt).
Qed.

Lemma vmm_user_cow_fault_correct_witness :
  let m' := snd (vmm_user_cow_fault (m_user_pml4 demo_cow) 0x400000 demo_cow) in
  pmm_user_ok m' /\ exists phys w,
    remapped demo_cow m' 0x400000 (fun va' => Some (Z.lor phys (Z.land va' 0xfff), w)) /\ has w PTE_W = true.
Proof.
  cbn zeta. destruct demo_cow_ok as [Ho Hc].
  pose proof (vmm_user_cow_fault_correct (inv := pmm_wf) (held := pool_held) demo_cow 0x400000 _ _
    Ho demo_page_va Hc (surjective_pairing _)) as H.
  assert (Ht : vmm_user_translate demo_cow 0x400000 = Some (0x1003000, cow_entry 0x1003000)) by (vm_compute; reflexivity).
  assert (Hp : cow_pte (cow_entry 0x1003000) = true) by (vm_compute; reflexivity).
  assert (Hf : fst (vmm_user_cow_fault (m_user_pml4 demo_cow) 0x400000 demo_cow) = 0) by (vm_compute; reflexivity).
  rewrite Ht, Hp, Hf in H. destruct H as [(_ & H1 & _ & _ & phys & w & H2 & H3 & _)|[H _]]; [|discriminate H].
  split; [exact H1|]. exists phys, w. split; [exact H2 | exact H3].
Defined.

Lemma vmm_user_range_ok_iff_witness : user_access demo_mapped true 0x400020.
Proof.
  refine (proj2 (proj2 (proj1 (vmm_user_range_ok_iff (inv := pmm_wf) (held := pool_held) demo_mapped 0x400010 100 true
    (proj1 demo_mapped_ok) _ _) _)) 0x400020 _); [lia | lia | vm_compute; reflexivity | lia].
Defined.
