(* ===== verification/CStr.v ===== *)
(** * C strings and text buffers

    A NUL-terminated string is the list of the bytes before its terminator;
    [cs] turns a literal into one.  A bounded output buffer is the list of the
    bytes written so far. *)

From Stdlib Require Import Ascii String.
From S2P Require Import Prelude Words.
Local Open Scope Z_scope.

Definition cstr : Type := list Z.

Definition cs (s : string) : cstr := map (fun a => Z.of_nat (nat_of_ascii a)) (list_ascii_of_string s).

(** A string that fits its C representation: bytes, none of them NUL. *)
Definition is_cstr (s : cstr) : Prop := Forall (fun c => 0 < c < 256) s.

(** The loop that advances while both characters are equal and not NUL. *)
Fixpoint eq (a b : cstr) : bool :=
  match a, b with
  | [], [] => true
  | x :: a, y :: b => if x =? y then eq a b else false
  | _, _ => false
  end.

Lemma eq_spec a b : eq a b = true <-> a = b.
Proof.
  revert b. induction a as [|x a IH]; intros [|y b]; cbn [eq]; try done.
  destruct (Z.eqb_spec x y) as [->|Hne].
  - rewrite IH. split; congruence.
  - split; congruence.
Qed.

Lemma eq_refl' a : eq a a = true.
Proof. by apply eq_spec. Qed.

Lemma eq_neq a b : a <> b -> eq a b = false.
Proof. intros Hn. destruct (eq a b) eqn:E; [|done]. by apply eq_spec in E. Qed.

Definition ascii_lower (c : Z) : Z := if (65 <=? c) && (c <=? 90) then c + 32 else c.

(** Comparison of directory names, case-insensitive. *)
Fixpoint eq_dir_name (a b : cstr) : bool :=
  match a, b with
  | x :: a, y :: b => if negb (ascii_lower x =? ascii_lower y) then false else eq_dir_name a b
  | [], [] => true
  | _, _ => false
  end.

Lemma eq_dir_name_spec a b : eq_dir_name a b = true <-> map ascii_lower a = map ascii_lower b.
Proof.
  revert b. induction a as [|x a IH]; intros [|y b]; cbn [eq_dir_name map]; try done.
  destruct (Z.eqb_spec (ascii_lower x) (ascii_lower y)) as [E|Hne]; cbn [negb].
  - rewrite IH, E. split; congruence.
  - split; congruence.
Qed.

Lemma eq_dir_name_refl a : eq_dir_name a a = true.
Proof. by apply eq_dir_name_spec. Qed.

(** ** Paths *)

Definition SLASH : Z := 47.

(** [while (p[i]=='/') i++;] *)
Fixpoint skip_slashes (p : cstr) : cstr :=
  match p with
  | c :: p' => if c =? SLASH then skip_slashes p' else p
  | [] => []
  end.

(** The longest prefix without a slash, and the rest. *)
Fixpoint span_part (p : cstr) : cstr * cstr :=
  match p with
  | c :: p' => if c =? SLASH then ([], p) else let '(a, r) := span_part p' in (c :: a, r)
  | [] => ([], [])
  end.

Lemma skip_slashes_le p : (length (skip_slashes p) <= length p)%nat.
Proof. induction p as [|c p IH]; cbn; [lia|]. destruct (c =? SLASH); cbn; lia. Qed.

Lemma span_part_le p : (length (snd (span_part p)) <= length p)%nat.
Proof.
  induction p as [|c p IH]; cbn [span_part]; [done|]. destruct (c =? SLASH); [done|].
  destruct (span_part p) as [a r]. cbn in *. lia.
Qed.

Lemma span_part_app p : p = fst (span_part p) ++ snd (span_part p).
Proof.
  induction p as [|c p IH]; cbn [span_part]; [done|]. destruct (c =? SLASH); [done|].
  destruct (span_part p) as [a r]. cbn in *. by rewrite <- IH.
Qed.

(** ** Output buffers *)

(** One character, when it and the terminator still fit in [cap] bytes. *)
Definition out_ch (cap : Z) (out : cstr) (c : Z) : cstr :=
  if Z.of_nat (length out) + 1 <? cap then out ++ [c] else out.

Definition out_str (cap : Z) (out s : cstr) : cstr := foldl (out_ch cap) out s.

(** A bounded buffer keeps a prefix of what is written to it. *)
Lemma out_str_eq cap out s : Z.of_nat (length out) <= Z.max 0 (cap - 1) ->
  out_str cap out s = out ++ take (Z.to_nat (cap - 1) - length out) s.
Proof.
  unfold out_str. revert out. induction s as [|c s IH]; intros out Ho; cbn [foldl].
  { by rewrite take_nil, app_nil_r. }
  unfold out_ch at 2. destruct (Z.ltb_spec (Z.of_nat (length out) + 1) cap).
  - rewrite IH by (rewrite length_app; cbn [length]; lia). rewrite length_app, <- app_assoc. cbn [length app].
    replace (Z.to_nat (cap - 1) - length out)%nat with (S (Z.to_nat (cap - 1) - (length out + 1)))%nat by lia.
    done.
  - rewrite IH by done. replace (Z.to_nat (cap - 1) - length out)%nat with 0%nat by lia. done.
Qed.

Lemma out_str_bound cap out s : Z.of_nat (length out) <= Z.max 0 (cap - 1) ->
  Z.of_nat (length (out_str cap out s)) <= Z.max 0 (cap - 1).
Proof. intros Ho. rewrite out_str_eq by done. rewrite length_app, length_take. lia. Qed.
