(* ===== verification/Vfs.v ===== *)
(** * Virtual file system: [src/kernel/vfs.c], the node tree and the files

    The static arrays of vfs.c are the maps of the record [vfs]; a pointer to
    a node, a mount or a data buffer is the index of its array element, NULL
    is [None].  Directories are singly linked lists through [children] and
    [next], as in the code; the fuel of a walk along [next] is the number of
    nodes in use, which VfsFacts shows to be enough.  Buffer 64 is
    [vfs_xorg_log_data], buffers 0 to 63 are [vfs_data_pool].  A [const char*]
    parameter is the string it points to, so the null tests on paths have no
    counterpart. *)

From Stdlib Require Import String.
From S2P Require Import Prelude Words CStr.
Local Open Scope Z_scope.
Local Open Scope st_scope.

Definition VFS_NAME_MAX : nat := 31.
Definition VFS_PATH_MAX : nat := 260.
Definition VFS_MAX_NODES : Z := 16384.
Definition VFS_MAX_MOUNTS : Z := 8.
Definition VFS_MAX_FS : Z := 8.
Definition VFS_DATA_SLOT_SIZE : Z := 64 * 1024.
Definition VFS_DATA_SLOTS : Z := 64.
Definition VFS_XORG_LOG_CAP : Z := 64 * 1024.
Definition XORG_LOG : Z := 64.
Definition S_IFDIR : Z := 0x4000.
Definition S_IFREG : Z := 0x8000.
Definition S_IFLNK : Z := 0xA000.
Definition S_IFSOCK : Z := 0xC000.
Definition EFAULT : Z := 14.
Definition EINVAL : Z := 22.
Definition ENOSPC : Z := 28.

Definition VFS_NODE_DIR : Z := 1.
Definition VFS_NODE_FILE : Z := 2.
Definition VFS_NODE_PROC_FILE : Z := 3.
Definition VFS_NODE_SYMLINK : Z := 4.
Definition VFS_NODE_DEV_NULL : Z := 10.
Definition VFS_NODE_DEV_ZERO : Z := 11.
Definition VFS_NODE_DEV_CONSOLE : Z := 12.
Definition VFS_NODE_DEV_TTY : Z := 13.
Definition VFS_NODE_DEV_RANDOM : Z := 14.
Definition VFS_NODE_DEV_URANDOM : Z := 15.
Definition VFS_NODE_SYS_FILE : Z := 16.
Definition VFS_NODE_BOOT_FILE : Z := 17.
Definition VFS_NODE_DEV_FB : Z := 18.
Definition VFS_NODE_DEV_INPUT : Z := 19.
Definition VFS_NODE_DEV_INPUT_MOUSE : Z := 20.
Definition VFS_NODE_SOCKET : Z := 21.

Record vfs_node := VfsNode {
  n_name : cstr;
  n_ino : Z;
  n_mode : Z;
  n_type : Z;
  n_parent : option Z;
  n_children : option Z;
  n_next : option Z;
  n_mounted : option Z;
  n_link_target : option cstr;
  n_boot_path : cstr;
  n_data : option Z;
  n_size : Z;
  n_capacity : Z;
  n_nlink : Z;
  n_inode_owner : option Z
}.

(** A node of all zero bytes. *)
Definition node_zero : vfs_node := VfsNode [] 0 0 0 None None None None None [] None 0 0 0 None.

(** The mount functions of the file; [vfs_fs_type] is a name with one of them. *)
Inductive mount_fn := ProcMount | DevMount.
Record vfs_fs_type := VfsFsType { fs_name : cstr; fs_mount : mount_fn }.

Record vfs_mount_t := VfsMount { mt_fs_name : cstr; mt_mountpoint : option Z; mt_root : option Z }.
Definition mount_zero : vfs_mount_t := VfsMount [] None None.

Record vfs := Vfs {
  v_nodes : gmap Z vfs_node;
  v_node_used : Z;
  v_next_ino : Z;
  v_root : option Z;
  v_data_used : gmap Z bool;
  v_data : gmap Z (gmap Z Z);
  v_mounts : gmap Z vfs_mount_t;
  v_mount_used : Z;
  v_filesystems : list vfs_fs_type
}.

(** ** Access to the arrays *)

Definition nd (s : vfs) (i : Z) : vfs_node := default node_zero (v_nodes s !! i).
Definition mt (s : vfs) (i : Z) : vfs_mount_t := default mount_zero (v_mounts s !! i).
Definition data_at (s : vfs) (d i : Z) : Z := default 0 (default ∅ (v_data s !! d) !! i).
Definition slot_used (s : vfs) (i : Z) : bool := default false (v_data_used s !! i).

Definition set_nodes (v : gmap Z vfs_node) (s : vfs) : vfs :=
  Vfs v (v_node_used s) (v_next_ino s) (v_root s) (v_data_used s) (v_data s) (v_mounts s) (v_mount_used s) (v_filesystems s).
Definition set_counts (used ino : Z) (s : vfs) : vfs :=
  Vfs (v_nodes s) used ino (v_root s) (v_data_used s) (v_data s) (v_mounts s) (v_mount_used s) (v_filesystems s).
Definition set_root (r : option Z) (s : vfs) : vfs :=
  Vfs (v_nodes s) (v_node_used s) (v_next_ino s) r (v_data_used s) (v_data s) (v_mounts s) (v_mount_used s) (v_filesystems s).
Definition set_used (u : gmap Z bool) (s : vfs) : vfs :=
  Vfs (v_nodes s) (v_node_used s) (v_next_ino s) (v_root s) u (v_data s) (v_mounts s) (v_mount_used s) (v_filesystems s).
Definition set_data (d : gmap Z (gmap Z Z)) (s : vfs) : vfs :=
  Vfs (v_nodes s) (v_node_used s) (v_next_ino s) (v_root s) (v_data_used s) d (v_mounts s) (v_mount_used s) (v_filesystems s).
Definition set_mounts (m : gmap Z vfs_mount_t) (used : Z) (s : vfs) : vfs :=
  Vfs (v_nodes s) (v_node_used s) (v_next_ino s) (v_root s) (v_data_used s) (v_data s) m used (v_filesystems s).
Definition set_filesystems (l : list vfs_fs_type) (s : vfs) : vfs :=
  Vfs (v_nodes s) (v_node_used s) (v_next_ino s) (v_root s) (v_data_used s) (v_data s) (v_mounts s) (v_mount_used s) l.

(** [upd i f] assigns fields of the node [i]. *)
Definition upd_node (i : Z) (f : vfs_node -> vfs_node) (s : vfs) : vfs := set_nodes (<[i := f (nd s i)]> (v_nodes s)) s.
Definition upd (i : Z) (f : vfs_node -> vfs_node) : ST vfs unit := st_mod (upd_node i f).

Definition with_name v (n : vfs_node) := VfsNode v (n_ino n) (n_mode n) (n_type n) (n_parent n) (n_children n) (n_next n)
  (n_mounted n) (n_link_target n) (n_boot_path n) (n_data n) (n_size n) (n_capacity n) (n_nlink n) (n_inode_owner n).
Definition with_ino v (n : vfs_node) := VfsNode (n_name n) v (n_mode n) (n_type n) (n_parent n) (n_children n) (n_next n)
  (n_mounted n) (n_link_target n) (n_boot_path n) (n_data n) (n_size n) (n_capacity n) (n_nlink n) (n_inode_owner n).
Definition with_mode v (n : vfs_node) := VfsNode (n_name n) (n_ino n) v (n_type n) (n_parent n) (n_children n) (n_next n)
  (n_mounted n) (n_link_target n) (n_boot_path n) (n_data n) (n_size n) (n_capacity n) (n_nlink n) (n_inode_owner n).
Definition with_parent v (n : vfs_node) := VfsNode (n_name n) (n_ino n) (n_mode n) (n_type n) v (n_children n) (n_next n)
  (n_mounted n) (n_link_target n) (n_boot_path n) (n_data n) (n_size n) (n_capacity n) (n_nlink n) (n_inode_owner n).
Definition with_children v (n : vfs_node) := VfsNode (n_name n) (n_ino n) (n_mode n) (n_type n) (n_parent n) v (n_next n)
  (n_mounted n) (n_link_target n) (n_boot_path n) (n_data n) (n_size n) (n_capacity n) (n_nlink n) (n_inode_owner n).
Definition with_next v (n : vfs_node) := VfsNode (n_name n) (n_ino n) (n_mode n) (n_type n) (n_parent n) (n_children n) v
  (n_mounted n) (n_link_target n) (n_boot_path n) (n_data n) (n_size n) (n_capacity n) (n_nlink n) (n_inode_owner n).
Definition with_mounted v (n : vfs_node) := VfsNode (n_name n) (n_ino n) (n_mode n) (n_type n) (n_parent n) (n_children n) (n_next n)
  v (n_link_target n) (n_boot_path n) (n_data n) (n_size n) (n_capacity n) (n_nlink n) (n_inode_owner n).
Definition with_link_target v (n : vfs_node) := VfsNode (n_name n) (n_ino n) (n_mode n) (n_type n) (n_parent n) (n_children n) (n_next n)
  (n_mounted n) v (n_boot_path n) (n_data n) (n_size n) (n_capacity n) (n_nlink n) (n_inode_owner n).
Definition with_boot (size : Z) (path : cstr) (n : vfs_node) := VfsNode (n_name n) (n_ino n) (n_mode n) (n_type n) (n_parent n)
  (n_children n) (n_next n) (n_mounted n) (n_link_target n) path (n_data n) size size (n_nlink n) (n_inode_owner n).
Definition with_data (d : option Z) (cap : Z) (n : vfs_node) := VfsNode (n_name n) (n_ino n) (n_mode n) (n_type n) (n_parent n)
  (n_children n) (n_next n) (n_mounted n) (n_link_target n) (n_boot_path n) d (n_size n) cap (n_nlink n) (n_inode_owner n).
Definition with_size v (n : vfs_node) := VfsNode (n_name n) (n_ino n) (n_mode n) (n_type n) (n_parent n) (n_children n) (n_next n)
  (n_mounted n) (n_link_target n) (n_boot_path n) (n_data n) v (n_capacity n) (n_nlink n) (n_inode_owner n).
Definition with_nlink v (n : vfs_node) := VfsNode (n_name n) (n_ino n) (n_mode n) (n_type n) (n_parent n) (n_children n) (n_next n)
  (n_mounted n) (n_link_target n) (n_boot_path n) (n_data n) (n_size n) (n_capacity n) v (n_inode_owner n).
Definition with_owner v (n : vfs_node) := VfsNode (n_name n) (n_ino n) (n_mode n) (n_type n) (n_parent n) (n_children n) (n_next n)
  (n_mounted n) (n_link_target n) (n_boot_path n) (n_data n) (n_size n) (n_capacity n) (n_nlink n) v.

(** [n->inode_owner ? n->inode_owner : n] *)
Definition owner_of (s : vfs) (i : Z) : Z := default i (n_inode_owner (nd s i)).

(** ** Strings and nodes *)

Definition cp (s : cstr) : cstr := take VFS_NAME_MAX s.
Definition cp_path (s : cstr) : cstr := take (VFS_PATH_MAX - 1) s.

Definition new_node (n : cstr) (t m : Z) : ST vfs (option Z) :=
  let! s := st_get in
  if VFS_MAX_NODES <=? v_node_used s then st_ret None
  else
    let x := v_node_used s in
    st_mod (set_counts (v_node_used s + 1) (v_next_ino s + 1)) ;;;
    upd x (fun _ => VfsNode (cp n) (v_next_ino s) m t None None None None None [] None 0 0 1 (Some x)) ;;;
    st_ret (Some x).

Definition vfs_alloc_file_data : ST vfs (option Z) :=
  for_each (seqZ 0 VFS_DATA_SLOTS) (fun i =>
    let! s := st_get in
    if negb (slot_used s i) then
      st_mod (fun s => set_data (<[i := ∅]> (v_data s)) (set_used (<[i := true]> (v_data_used s)) s)) ;;;
      return_ i
    else continue_).

Definition vfs_free_file_data (n : Z) : ST vfs unit :=
  let! s := st_get in
  match n_data (nd s n) with
  | None => st_ret tt
  | Some d =>
      if (0 <=? d) && (d <? VFS_DATA_SLOTS) then
        st_mod (fun s => set_used (<[d := false]> (v_data_used s)) s) ;;;
        upd n (with_data None 0)
      else st_ret tt
  end.

Definition vfs_drop_link (n : Z) : ST vfs unit :=
  let! s := st_get in
  let owner := owner_of s n in
  (if 0 <? n_nlink (nd s owner) then upd owner (fun x => with_nlink (n_nlink x - 1) x) else st_ret tt) ;;;
  let! s := st_get in
  if n_nlink (nd s owner) =? 0 then
    upd owner (with_size 0) ;;;
    let! s := st_get in
    match n_data (nd s owner) with
    | None => st_ret tt
    | Some d => if negb (d =? XORG_LOG) then vfs_free_file_data owner else st_ret tt
    end
  else st_ret tt.

Definition add (p x : Z) : ST vfs unit :=
  let! s := st_get in
  upd x (with_parent (Some p)) ;;;
  upd x (with_next (n_children (nd s p))) ;;;
  upd p (with_children (Some x)).

Definition mk (p : Z) (n : cstr) (t m : Z) : ST vfs (option Z) :=
  let! x := new_node n t m in
  match x with
  | Some i => add p i ;;; st_ret (Some i)
  | None => st_ret None
  end.

Definition mkd (p : Z) (n : cstr) : ST vfs (option Z) := mk p n VFS_NODE_DIR (Z.lor S_IFDIR 0x1ED).

Definition is_dev_type (t : Z) : bool :=
  (t =? VFS_NODE_DEV_NULL) || (t =? VFS_NODE_DEV_ZERO) || (t =? VFS_NODE_DEV_CONSOLE) || (t =? VFS_NODE_DEV_TTY) ||
  (t =? VFS_NODE_DEV_RANDOM) || (t =? VFS_NODE_DEV_URANDOM) || (t =? VFS_NODE_DEV_FB) || (t =? VFS_NODE_DEV_INPUT) ||
  (t =? VFS_NODE_DEV_INPUT_MOUSE).

Definition mkf (p : Z) (n : cstr) (t : Z) : ST vfs (option Z) :=
  mk p n t (if is_dev_type t then Z.lor 0x2000 0x1B6 else Z.lor S_IFREG 0x124).

Definition mkl (p : Z) (n t : cstr) : ST vfs (option Z) :=
  let! x := new_node n VFS_NODE_SYMLINK (Z.lor S_IFLNK 0x1FF) in
  match x with
  | Some i => upd i (with_link_target (Some t)) ;;; add p i ;;; st_ret (Some i)
  | None => st_ret None
  end.

(** ** Lookup *)

(** The nodes reached from [x] along [next]. *)
Fixpoint chain (fuel : nat) (s : vfs) (x : option Z) : list Z :=
  match fuel, x with
  | S fuel, Some i => i :: chain fuel s (n_next (nd s i))
  | _, _ => []
  end.

Definition kids (s : vfs) (d : Z) : list Z := chain (Z.to_nat (v_node_used s)) s (n_children (nd s d)).

(** The directories [usr] and [lib] of the root take the spelling they are
    looked up with. *)
Definition renames_root_dir (s : vfs) (x : Z) (n : cstr) : bool :=
  bool_decide (n_parent (nd s x) = v_root s) &&
  ((eq_dir_name n (cs "usr") && eq_dir_name (n_name (nd s x)) (cs "usr")) ||
   (eq_dir_name n (cs "lib") && eq_dir_name (n_name (nd s x)) (cs "lib"))).

Definition vfs_lookup_child (d : Z) (n : cstr) : ST vfs (option Z) :=
  let! s := st_get in
  if negb (n_type (nd s d) =? VFS_NODE_DIR) then st_ret None
  else
    match find (fun x => eq (n_name (nd s x)) n) (kids s d) with
    | Some x => st_ret (Some x)
    | None =>
        match find (fun x => (n_type (nd s x) =? VFS_NODE_DIR) && eq_dir_name (n_name (nd s x)) n) (kids s d) with
        | Some x =>
            (if renames_root_dir s x n then upd x (with_name (cp n)) else st_ret tt) ;;;
            st_ret (Some x)
        | None => st_ret None
        end
    end.

Definition vfs_child_at (s : vfs) (d i : Z) : option Z :=
  if negb (n_type (nd s d) =? VFS_NODE_DIR) then None else kids s d !! Z.to_nat i.

Definition vfs_child_count (s : vfs) (d : Z) : Z :=
  if negb (n_type (nd s d) =? VFS_NODE_DIR) then 0 else Z.of_nat (length (kids s d)).

(** The root of what is mounted on [x], or [x]. *)
Definition mr (s : vfs) (x : Z) : Z :=
  match n_mounted (nd s x) with
  | Some m => match mt_root (mt s m) with Some r => r | None => x end
  | None => x
  end.

(** The step of a [..] component. *)
Definition lookup_dotdot (s : vfs) (cur : Z) : Z :=
  match n_parent (nd s cur) with
  | None => cur
  | Some p =>
      let at_mount := match n_mounted (nd s p) with
                      | Some m => bool_decide (mt_root (mt s m) = Some cur)
                      | None => false
                      end in
      if at_mount then match n_parent (nd s p) with Some g => g | None => p end else p
  end.

(** [while(p[i]) { ... }]; every round consumes a character. *)
Fixpoint lookup_loop (fuel : nat) (cur : Z) (p : cstr) : ST vfs (option Z) :=
  match fuel with
  | O => st_ret (Some cur)
  | S fuel =>
      match skip_slashes p with
      | [] => st_ret (Some cur)
      | p =>
          let '(whole, rest) := span_part p in
          let part := take VFS_NAME_MAX whole in
          let! s := st_get in
          if eq part (cs ".") then lookup_loop fuel cur rest
          else if eq part (cs "..") then lookup_loop fuel (lookup_dotdot s cur) rest
          else
            let! r := vfs_lookup_child (mr s cur) part in
            match r with
            | None => st_ret None
            | Some c => let! s := st_get in lookup_loop fuel (mr s c) rest
            end
      end
  end.

Definition vfs_lookup (p : cstr) : ST vfs (option Z) :=
  let! s := st_get in
  match p, v_root s with
  | c :: rest, root =>
      if negb (c =? SLASH) then st_ret None
      else
        match rest, root with
        | [], _ => st_ret root
        | _, Some r => lookup_loop (length p) r rest
        | _, None => st_ret None
        end
  | [], _ => st_ret None
  end.

(** ** Mounts *)

Definition mountpoint (t : cstr) : ST vfs (option Z) :=
  match t with
  | [] => st_ret None
  | c :: _ =>
      if negb (c =? SLASH) then st_ret None
      else if eq t (cs "/") then st_gets v_root
      else if (VFS_PATH_MAX <=? length t)%nat then st_ret None
      else vfs_lookup t
  end.

Definition vfs_register_filesystem (f : vfs_fs_type) : ST vfs Z :=
  let! s := st_get in
  if VFS_MAX_FS <=? Z.of_nat (length (v_filesystems s)) then st_ret (-1)
  else if existsb (fun g => eq (fs_name g) (fs_name f)) (v_filesystems s) then st_ret (-2)
  else st_mod (set_filesystems (v_filesystems s ++ [f])) ;;; st_ret 0.

(** Assigns a mount's root. *)
Definition set_mt_root (m : Z) (r : option Z) : ST vfs unit :=
  st_mod (fun s => set_mounts (<[m := VfsMount (mt_fs_name (mt s m)) (mt_mountpoint (mt s m)) r]> (v_mounts s)) (v_mount_used s) s).

Definition proc_fd_links (sfd pfd : Z) : ST vfs Z :=
  mkl sfd (cs "0") (cs "/dev/tty") ;;; mkl pfd (cs "0") (cs "/dev/tty") ;;;
  mkl sfd (cs "1") (cs "/dev/console") ;;; mkl pfd (cs "1") (cs "/dev/console") ;;;
  mkl sfd (cs "2") (cs "/dev/console") ;;; mkl pfd (cs "2") (cs "/dev/console") ;;;
  st_ret 0.

Definition proc_mount (mp m : Z) : ST vfs Z :=
  let! r := new_node (cs "proc") VFS_NODE_DIR (Z.lor S_IFDIR 0x1ED) in
  match r with
  | None => st_ret (-1)
  | Some r =>
      upd r (with_parent (Some mp)) ;;;
      set_mt_root m (Some r) ;;;
      let! self := mkd r (cs "self") in
      let! pid := mkd r (cs "1") in
      match self, pid with
      | Some self, Some pid =>
          let! sfd := mkd self (cs "fd") in
          let! pfd := mkd pid (cs "fd") in
          match sfd, pfd with
          | Some sfd, Some pfd =>
              mkf r (cs "cpuinfo") VFS_NODE_PROC_FILE ;;;
              mkf r (cs "meminfo") VFS_NODE_PROC_FILE ;;;
              mkf r (cs "uptime") VFS_NODE_PROC_FILE ;;;
              mkf r (cs "version") VFS_NODE_PROC_FILE ;;;
              for_each (R := unit) [cs "status"; cs "cmdline"; cs "maps"] (fun n =>
                mkf self n VFS_NODE_PROC_FILE ;;; mkf pid n VFS_NODE_PROC_FILE ;;; continue_) ;;;
              mkl self (cs "exe") (cs "/HELLO.ELF") ;;;
              mkl pid (cs "exe") (cs "/HELLO.ELF") ;;;
              proc_fd_links sfd pfd
          | _, _ => st_ret (-1)
          end
      | _, _ => st_ret (-1)
      end
  end.

Definition dev_mount (mp m : Z) : ST vfs Z :=
  let! r := new_node (cs "dev") VFS_NODE_DIR (Z.lor S_IFDIR 0x1ED) in
  match r with
  | None => st_ret (-1)
  | Some r =>
      upd r (with_parent (Some mp)) ;;;
      set_mt_root m (Some r) ;;;
      mkf r (cs "null") VFS_NODE_DEV_NULL ;;;
      mkf r (cs "zero") VFS_NODE_DEV_ZERO ;;;
      mkf r (cs "console") VFS_NODE_DEV_CONSOLE ;;;
      mkf r (cs "tty") VFS_NODE_DEV_TTY ;;;
      mkf r (cs "random") VFS_NODE_DEV_RANDOM ;;;
      mkf r (cs "urandom") VFS_NODE_DEV_URANDOM ;;;
      mkf r (cs "fb0") VFS_NODE_DEV_FB ;;;
      let! input := mkd r (cs "input") in
      match input with
      | None => st_ret (-1)
      | Some input =>
          mkf input (cs "event0") VFS_NODE_DEV_INPUT ;;;
          mkf input (cs "event1") VFS_NODE_DEV_INPUT_MOUSE ;;;
          mkl r (cs "stdin") (cs "/dev/tty") ;;;
          mkl r (cs "stdout") (cs "/dev/console") ;;;
          mkl r (cs "stderr") (cs "/dev/console") ;;;
          st_ret 0
      end
  end.

Definition run_mount (f : mount_fn) (mp m : Z) : ST vfs Z :=
  match f with ProcMount => proc_mount mp m | DevMount => dev_mount mp m end.

Definition procfs : vfs_fs_type := VfsFsType (cs "procfs") ProcMount.
Definition devfs : vfs_fs_type := VfsFsType (cs "devfs") DevMount.

Definition vfs_mount (name target : cstr) : ST vfs Z :=
  let! s := st_get in
  if VFS_MAX_MOUNTS <=? v_mount_used s then st_ret (-1)
  else
    match find (fun g => eq (fs_name g) name) (v_filesystems s) with
    | None => st_ret (-2)
    | Some f =>
        let! mp := mountpoint target in
        let! s := st_get in
        match mp with
        | None => st_ret (-3)
        | Some mp =>
            if negb (n_type (nd s mp) =? VFS_NODE_DIR) then st_ret (-3)
            else if is_some (n_mounted (nd s mp)) then st_ret (-4)
            else
              let m := v_mount_used s in
              st_mod (fun s => set_mounts (<[m := VfsMount (fs_name f) (Some mp) None]> (v_mounts s)) (m + 1) s) ;;;
              let! k := run_mount (fs_mount f) mp m in
              if negb (k =? 0) then
                st_mod (fun s => set_mounts (v_mounts s) (v_mount_used s - 1) s) ;;; st_ret (-5)
              else upd mp (with_mounted (Some m)) ;;; st_ret 0
        end
    end.

(** ** Creating and removing names *)

(** One component of [canonicalize_system_path], cut at [VFS_NAME_MAX]. *)
Fixpoint canon_loop (fuel : nat) (cap : Z) (dst src : cstr) : cstr :=
  match fuel with
  | O => dst
  | S fuel =>
      match src with
      | [] => dst
      | _ =>
          if negb (Z.of_nat (length dst) + 1 <? cap) then dst
          else
            match skip_slashes src with
            | [] => dst
            | src =>
                let '(whole, rest) := span_part src in
                let dst := if (1 <? Z.of_nat (length dst)) && negb (default 0 (last dst) =? SLASH)
                           then out_ch cap dst SLASH else dst in
                canon_loop fuel cap (out_str cap dst (take VFS_NAME_MAX whole)) rest
            end
      end
  end.

Definition canonicalize_system_path (src : cstr) (cap : Z) : cstr :=
  match src with
  | c :: rest => if negb (c =? SLASH) then [] else canon_loop (S (length rest)) cap (out_ch cap [] SLASH) rest
  | [] => []
  end.

(** Trailing slashes are dropped, but not the first character. *)
Fixpoint strip_slashes (fuel : nat) (p : cstr) : cstr :=
  match fuel with
  | O => p
  | S fuel =>
      if (1 <? length p)%nat && (default 0 (last p) =? SLASH) then strip_slashes fuel (removelast p) else p
  end.

(** The part after the last slash, and the length of the part up to it. *)
Definition last_name (p : cstr) : cstr := rev (fst (span_part (rev p))).
Definition slash_pos (p : cstr) : nat := length p - length (last_name p).

(** The directory and the name of a path, [None] where the code gives up
    before looking the directory up. *)
Definition split_for_create (path : cstr) : option (cstr * cstr) :=
  match path with
  | [] => None
  | c :: _ =>
      if negb (c =? SLASH) then None
      else
        let n := length path in
        if (n <? 2)%nat || (VFS_PATH_MAX <=? n)%nat then None
        else
          let parent := strip_slashes n path in
          let n := length parent in
          let slash := slash_pos parent in
          if (slash =? 0)%nat || (n <=? slash)%nat then None
          else if (VFS_NAME_MAX <? n - slash)%nat then None
          else Some (if (slash =? 1)%nat then take 1 parent else take (slash - 1) parent, drop slash parent)
  end.

Definition vfs_parent_for_create (path : cstr) : ST vfs (option (Z * cstr)) :=
  match split_for_create path with
  | None => st_ret None
  | Some (parent, name) =>
      let! p := vfs_lookup parent in
      st_ret (match p with Some p => Some (p, name) | None => None end)
  end.

Definition vfs_create_file (path : cstr) (truncate : bool) : ST vfs (option Z) :=
  let! n := vfs_lookup path in
  let! s := st_get in
  match n with
  | Some n =>
      if n_type (nd s n) =? VFS_NODE_FILE then
        let inode := owner_of s n in
        (if truncate then upd inode (with_size 0) else st_ret tt) ;;;
        let! s := st_get in
        upd n (with_size (n_size (nd s inode))) ;;;
        st_ret (Some n)
      else st_ret None
  | None =>
      let! pn := vfs_parent_for_create path in
      let! s := st_get in
      match pn with
      | None => st_ret None
      | Some (p, name) =>
          if negb (n_type (nd s p) =? VFS_NODE_DIR) then st_ret None
          else
            let! n := new_node name VFS_NODE_FILE (Z.lor S_IFREG 0x1B6) in
            match n with
            | None => st_ret None
            | Some n =>
                if eq path (cs "/var/log/Xorg.0.log") then
                  upd n (with_data (Some XORG_LOG) VFS_XORG_LOG_CAP) ;;; add p n ;;; st_ret (Some n)
                else
                  let! d := vfs_alloc_file_data in
                  match d with
                  | None => st_mod (fun s => set_counts (v_node_used s - 1) (v_next_ino s) s) ;;; st_ret None
                  | Some d => upd n (with_data (Some d) VFS_DATA_SLOT_SIZE) ;;; add p n ;;; st_ret (Some n)
                  end
            end
      end
  end.

(** The common part of vfs_create_socket and vfs_mkdir; [t], [m] are the type
    and mode of the new node. *)
Definition create_named (path : cstr) (need_name : bool) (t m : Z) : ST vfs (option Z) :=
  match path with
  | [] => st_ret None
  | c :: rest =>
      if negb (c =? SLASH) || is_nil rest then st_ret None
      else
        let canon := canonicalize_system_path path (Z.of_nat VFS_PATH_MAX) in
        match canon with
        | [] => st_ret None
        | _ =>
            let! e := vfs_lookup canon in
            match e with
            | Some _ => st_ret None
            | None =>
                let! pn := vfs_parent_for_create canon in
                let! s := st_get in
                match pn with
                | None => st_ret None
                | Some (p, name) =>
                    if negb (n_type (nd s p) =? VFS_NODE_DIR) || (need_name && is_nil name)
                    then st_ret None
                    else mk p name t m
                end
            end
        end
  end.

Definition vfs_create_socket (path : cstr) (mode : Z) : ST vfs (option Z) :=
  create_named path true VFS_NODE_SOCKET (Z.lor S_IFSOCK (Z.land mode 0x1FF)).

Definition vfs_mkdir (path : cstr) (mode : Z) : ST vfs (option Z) :=
  create_named path false VFS_NODE_DIR (Z.lor S_IFDIR (Z.land mode 0x1FF)).

Definition vfs_link (oldpath newpath : cstr) : ST vfs Z :=
  let! src := vfs_lookup oldpath in
  let! s := st_get in
  match src with
  | None => st_ret (-1)
  | Some src =>
      if bool_decide (Some src = v_root s) || is_some (n_mounted (nd s src)) ||
         negb (n_type (nd s src) =? VFS_NODE_FILE) then st_ret (-1)
      else
        let! pn := vfs_parent_for_create newpath in
        let! s := st_get in
        match pn with
        | None => st_ret (-1)
        | Some (p, name) =>
            if negb (n_type (nd s p) =? VFS_NODE_DIR) || is_nil name then st_ret (-1)
            else
              let! e := vfs_lookup newpath in
              match e with
              | Some _ => st_ret (-2)
              | None =>
                  let! s := st_get in
                  let owner := owner_of s src in
                  let! alias := new_node name VFS_NODE_FILE (n_mode (nd s src)) in
                  match alias with
                  | None => st_ret (-3)
                  | Some alias =>
                      let! s := st_get in
                      upd alias (with_ino (n_ino (nd s owner))) ;;;
                      upd alias (with_owner (Some owner)) ;;;
                      upd alias (with_nlink 0) ;;;
                      upd owner (fun x => with_nlink (u32 (n_nlink x + 1)) x) ;;;
                      let! s := st_get in
                      upd alias (with_data (n_data (nd s owner)) (n_capacity (nd s owner))) ;;;
                      upd alias (with_size (n_size (nd s owner))) ;;;
                      add p alias ;;;
                      st_ret 0
                  end
              end
        end
  end.

(** The predecessor of [n] in the list of [p]: [None] when [n] is the first. *)
Fixpoint pred_of (n : Z) (prev : option Z) (l : list Z) : option (option Z) :=
  match l with
  | [] => None
  | x :: l => if x =? n then Some prev else pred_of n (Some x) l
  end.

(** [pp = &p->children; while ( *pp && *pp != n) pp = &( *pp)->next;
    if ( *pp != n) return false; *pp = n->next;] *)
Definition unlist (p n : Z) : ST vfs bool :=
  let! s := st_get in
  match pred_of n None (kids s p) with
  | None => st_ret false
  | Some None => upd p (with_children (n_next (nd s n))) ;;; st_ret true
  | Some (Some q) => upd q (with_next (n_next (nd s n))) ;;; st_ret true
  end.

Definition detach (n : Z) : ST vfs unit := upd n (with_parent None) ;;; upd n (with_next None).

Definition vfs_unlink (path : cstr) : ST vfs Z :=
  let! n := vfs_lookup path in
  let! s := st_get in
  match n with
  | None => st_ret (-1)
  | Some n =>
      if bool_decide (Some n = v_root s) || (n_type (nd s n) =? VFS_NODE_DIR) ||
         is_some (n_mounted (nd s n)) then st_ret (-1)
      else
        match n_parent (nd s n) with
        | None => st_ret (-1)
        | Some p =>
            if negb (n_type (nd s p) =? VFS_NODE_DIR) then st_ret (-1)
            else
              let! ok := unlist p n in
              if negb ok then st_ret (-1)
              else detach n ;;; vfs_drop_link n ;;; st_ret 0
        end
  end.

Definition vfs_rmdir (path : cstr) : ST vfs Z :=
  let! n := vfs_lookup path in
  let! s := st_get in
  match n with
  | None => st_ret (-1)
  | Some n =>
      if bool_decide (Some n = v_root s) || negb (n_type (nd s n) =? VFS_NODE_DIR) ||
         is_some (n_mounted (nd s n)) then st_ret (-1)
      else if is_some (n_children (nd s n)) then st_ret (-2)
      else
        match n_parent (nd s n) with
        | None => st_ret (-1)
        | Some p =>
            if negb (n_type (nd s p) =? VFS_NODE_DIR) then st_ret (-1)
            else
              let! ok := unlist p n in
              if negb ok then st_ret (-1) else detach n ;;; st_ret 0
        end
  end.

(** [for (p = node; p; p = p->parent) if (p == ancestor) return 1;] *)
Fixpoint is_ancestor_loop (fuel : nat) (s : vfs) (ancestor : Z) (p : option Z) : bool :=
  match fuel, p with
  | S fuel, Some p => if p =? ancestor then true else is_ancestor_loop fuel s ancestor (n_parent (nd s p))
  | _, _ => false
  end.

Definition vfs_is_ancestor (s : vfs) (ancestor node : Z) : bool :=
  is_ancestor_loop (Z.to_nat (v_node_used s)) s ancestor (Some node).

(** Takes the node a rename replaces out of its directory; [false] is the
    code's [return -1]. *)
Definition displace (existing : option Z) : ST vfs bool :=
  match existing with
  | None => st_ret true
  | Some e =>
      let! s := st_get in
      if is_some (n_mounted (nd s e)) || (n_type (nd s e) =? VFS_NODE_DIR) then st_ret false
      else
        match n_parent (nd s e) with
        | None => st_ret false
        | Some ep =>
            let! ok := unlist ep e in
            if negb ok then st_ret false
            else detach e ;;; vfs_drop_link e ;;; st_ret true
        end
  end.

(** The last lines of vfs_rename: out of the old directory, renamed, into [p]. *)
Definition relocate (n p : Z) (name : cstr) : ST vfs unit :=
  let! s := st_get in
  (match n_parent (nd s n) with
   | Some op => unlist op n ;;; st_ret tt
   | None => st_ret tt
   end) ;;;
  upd n (with_name (cp name)) ;;;
  add p n.

Definition vfs_rename (oldpath newpath : cstr) : ST vfs Z :=
  let! n := vfs_lookup oldpath in
  let! s := st_get in
  match n with
  | None => st_ret (-1)
  | Some n =>
      if bool_decide (Some n = v_root s) || is_some (n_mounted (nd s n)) then st_ret (-1)
      else
        let! pn := vfs_parent_for_create newpath in
        let! s := st_get in
        match pn with
        | None => st_ret (-1)
        | Some (p, name) =>
            if negb (n_type (nd s p) =? VFS_NODE_DIR) || is_nil name then st_ret (-1)
            else if (n_type (nd s n) =? VFS_NODE_DIR) && vfs_is_ancestor s n p then st_ret (-1)
            else
              let! existing := vfs_lookup newpath in
              if bool_decide (existing = Some n) then st_ret 0
              else
                let! ok := displace existing in
                if negb ok then st_ret (-1)
                else relocate n p name ;;; st_ret 0
        end
  end.

Definition vfs_is_dir (s : vfs) (n : Z) : bool := n_type (nd s n) =? VFS_NODE_DIR.
Definition vfs_type (s : vfs) (n : option Z) : Z := match n with Some n => n_type (nd s n) | None => 0 end.
Definition vfs_mode (s : vfs) (n : option Z) : Z := match n with Some n => n_mode (nd s n) | None => 0 end.
Definition vfs_ino (s : vfs) (n : option Z) : Z := match n with Some n => n_ino (nd s n) | None => 0 end.
Definition vfs_link_target (s : vfs) (n : option Z) : option cstr :=
  match n with Some n => n_link_target (nd s n) | None => None end.

(** ** File contents *)

(** [for (i = 0; i < n; i++) data[off + i] = src[i];] on the buffer [d]. *)
Fixpoint poke_bytes (m : gmap Z Z) (off : Z) (src : list Z) : gmap Z Z :=
  match src with
  | [] => m
  | b :: src => poke_bytes (<[off := b]> m) (off + 1) src
  end.

Definition poke (d : option Z) (off : Z) (src : list Z) : ST vfs unit :=
  match d with
  | None => st_ret tt
  | Some d => st_mod (fun s => set_data (<[d := poke_bytes (default ∅ (v_data s !! d)) off src]> (v_data s)) s)
  end.

Definition vfs_file_is_regular (s : vfs) (n : Z) : bool := n_type (nd s n) =? VFS_NODE_FILE.
Definition vfs_is_boot_file (s : vfs) (n : Z) : bool := n_type (nd s n) =? VFS_NODE_BOOT_FILE.
Definition vfs_file_data (s : vfs) (n : Z) : option Z :=
  if negb (vfs_file_is_regular s n) then None else n_data (nd s (owner_of s n)).
Definition vfs_file_size (s : vfs) (n : Z) : Z :=
  if vfs_file_is_regular s n then n_size (nd s (owner_of s n))
  else if vfs_is_boot_file s n then n_size (nd s n) else 0.
Definition vfs_boot_path (s : vfs) (n : Z) : cstr :=
  if (n_type (nd s n) =? VFS_NODE_BOOT_FILE) && negb (is_nil (n_boot_path (nd s n))) then n_boot_path (nd s n)
  else n_name (nd s n).
Definition vfs_node_name (s : vfs) (n : Z) : cstr := n_name (nd s n).

Definition vfs_file_truncate (n len : Z) : ST vfs Z :=
  let! s := st_get in
  if negb (vfs_file_is_regular s n) then st_ret (-1)
  else
    let inode := owner_of s n in
    let x := nd s inode in
    if n_capacity x <? len then st_ret (-1)
    else
      (if n_size x <? len then poke (n_data x) (n_size x) (repeat 0 (Z.to_nat (len - n_size x))) else st_ret tt) ;;;
      upd inode (with_size len) ;;;
      st_ret 0.

Definition vfs_write_kernel_file (n : Z) (data : list Z) : ST vfs Z :=
  let! s := st_get in
  if negb (vfs_file_is_regular s n) then st_ret (-1)
  else
    let inode := owner_of s n in
    let x := nd s inode in
    let len := Z.of_nat (length data) in
    if n_capacity x <? len then st_ret (-1)
    else
      poke (n_data x) 0 data ;;;
      upd inode (with_size len) ;;;
      upd n (with_size len) ;;;
      st_ret 0.

(** [src = None] is the null pointer. *)
Definition vfs_file_write (n off : Z) (src : option (list Z)) (len : Z) : ST vfs Z :=
  let! s := st_get in
  if negb (vfs_file_is_regular s n) then st_ret (- EINVAL)
  else if negb (is_some src) && negb (len =? 0) then st_ret (- EFAULT)
  else
    let inode := owner_of s n in
    let x := nd s inode in
    if n_capacity x <=? off then st_ret (- ENOSPC)
    else
      let room := n_capacity x - off in
      let w := if len <? room then len else room in
      poke (n_data x) off (take (Z.to_nat w) (default [] src)) ;;;
      (if n_size x <? u64 (off + w) then upd inode (with_size (u64 (off + w))) else st_ret tt) ;;;
      let! s := st_get in
      upd n (with_size (n_size (nd s inode))) ;;;
      st_ret w.

(** ** Directory chains *)

(** The loop of vfs_ensure_dir: [cur] is the prefix built so far, [p] what is left. *)
Fixpoint ensure_loop (fuel : nat) (cur p : cstr) : ST vfs bool :=
  match fuel with
  | O => st_ret true
  | S fuel =>
      match skip_slashes p with
      | [] => st_ret true
      | p =>
          let '(part, rest) := span_part p in
          if (VFS_NAME_MAX <? length part)%nat then st_ret false
          else
            let cur := if (1 <? length cur)%nat then cur ++ [SLASH] else cur in
            if (VFS_PATH_MAX <=? length cur + length part)%nat then st_ret false
            else
              let cur := cur ++ part in
              let! node := vfs_lookup cur in
              let! s := st_get in
              match node with
              | Some node => if negb (vfs_is_dir s node) then st_ret false else ensure_loop fuel cur rest
              | None =>
                  let! d := vfs_mkdir cur 0x1ED in
                  match d with
                  | Some _ => ensure_loop fuel cur rest
                  | None =>
                      let! again := vfs_lookup cur in
                      if negb (is_some again) then st_ret false else ensure_loop fuel cur rest
                  end
              end
      end
  end.

Definition vfs_ensure_dir (path : cstr) : ST vfs Z :=
  match path with
  | [] => st_ret (-1)
  | c :: rest =>
      if negb (c =? SLASH) then st_ret (-1)
      else if is_nil rest then st_ret 0
      else
        let! ok := ensure_loop (length path) [SLASH] rest in
        if negb ok then st_ret (-1)
        else
          let! a := vfs_lookup path in
          match a with
          | None => st_ret (-1)
          | Some _ =>
              let! b := vfs_lookup path in
              let! s := st_get in
              st_ret (match b with Some b => if vfs_is_dir s b then 0 else -1 | None => -1 end)
          end
  end.

(** The loop of vfs_import_boot_file; [path] is the whole path, kept in the node. *)
Fixpoint import_loop (fuel : nat) (path : cstr) (size parent : Z) (p : cstr) : ST vfs Z :=
  match fuel with
  | O => st_ret (-1)
  | S fuel =>
      match p with
      | [] => st_ret (-1)
      | _ =>
          let '(whole, rest) := span_part p in
          let rest := skip_slashes rest in
          let part := take VFS_NAME_MAX whole in
          if is_nil part then import_loop fuel path size parent rest
          else
            let! child := vfs_lookup_child parent part in
            if negb (is_nil rest) then
              let! child := (match child with Some c => st_ret (Some c) | None => mkd parent part end) in
              let! s := st_get in
              match child with
              | None => st_ret (-1)
              | Some c =>
                  if negb (n_type (nd s c) =? VFS_NODE_DIR) then st_ret (-1) else import_loop fuel path size c rest
              end
            else
              let! s := st_get in
              match child with
              | Some c =>
                  if n_type (nd s c) =? VFS_NODE_BOOT_FILE then upd c (with_boot size (cp_path path)) ;;; st_ret 0
                  else st_ret (-1)
              | None =>
                  let! f := new_node part VFS_NODE_BOOT_FILE (Z.lor S_IFREG 0x124) in
                  match f with
                  | None => st_ret (-1)
                  | Some f => upd f (with_boot size (cp_path path)) ;;; add parent f ;;; st_ret 0
                  end
              end
      end
  end.

Definition vfs_import_boot_file (path : cstr) (size : Z) : ST vfs Z :=
  let! s := st_get in
  if is_nil path || (size =? 0) then st_ret (-1)
  else
    match skip_slashes path, v_root s with
    | [], _ | _, None => st_ret (-1)
    | p, Some root => import_loop (length p) path size root p
    end.

(** [n->mounted] of the node a path names, without crossing mounts. *)
Fixpoint mounted_loop (fuel : nat) (n : Z) (t : cstr) : ST vfs (option Z) :=
  match fuel with
  | O => st_ret (Some n)
  | S fuel =>
      match skip_slashes t with
      | [] => st_ret (Some n)
      | t =>
          let '(whole, rest) := span_part t in
          let! c := vfs_lookup_child n (take VFS_NAME_MAX whole) in
          match c with None => st_ret None | Some c => mounted_loop fuel c rest end
      end
  end.

Definition vfs_mounted (t : cstr) : ST vfs bool :=
  let! s := st_get in
  match v_root s with
  | None => st_ret false
  | Some root =>
      if eq t (cs "/") then st_ret true
      else
        let! n := mounted_loop (length t) root (drop 1 t) in
        let! s := st_get in
        st_ret (match n with Some n => is_some (n_mounted (nd s n)) | None => false end)
  end.

(** ** Start of day *)

(** The string literals of vfs_init. *)
Definition NL : cstr := [10].
Definition DQ : cstr := [34].
Definition os_release : cstr :=
  cs "NAME=YabroOS-32" ++ NL ++ cs "VERSION=0.1" ++ NL ++ cs "ID=yabroos-32" ++ NL ++
  cs "PRETTY_NAME=" ++ DQ ++ cs "YabroOS-32 v0.1" ++ DQ ++ NL.
Definition hostname : cstr := cs "yabroos-32" ++ NL.
Definition motd : cstr := cs "Welcome to YabroOS-32 v0.0.2." ++ NL.

(** [if (x) body] on the result of a node constructor. *)
Definition when_some (o : option Z) (body : Z -> ST vfs unit) : ST vfs unit :=
  match o with Some x => body x | None => st_ret tt end.

Definition init_file (path contents : cstr) : ST vfs unit :=
  let! n := vfs_create_file path false in
  when_some n (fun n => vfs_write_kernel_file n contents ;;; st_ret tt).

Definition init_tmp (root : Z) : ST vfs unit :=
  let! d := mkd root (cs "tmp") in
  when_some d (fun d =>
    upd d (with_mode (Z.lor S_IFDIR 0x3FF)) ;;;
    let! xd := mkd d (cs ".X11-unix") in
    when_some xd (fun xd => upd xd (with_mode (Z.lor S_IFDIR 0x3FF)))).

Definition init_var (root : Z) : ST vfs unit :=
  let! d := mkd root (cs "var") in
  when_some d (fun d =>
    let! l := mkd d (cs "log") in
    when_some l (fun l => upd l (with_mode (Z.lor S_IFDIR 0x1ED))) ;;;
    let! b := mkd d (cs "lib") in
    when_some b (fun b =>
      let! k := mkd b (cs "xkb") in
      when_some k (fun k => upd k (with_mode (Z.lor S_IFDIR 0x1FD))))).

Definition init_sys (root : Z) : ST vfs unit :=
  let! sysdir := mkd root (cs "sys") in
  when_some sysdir (fun sysdir =>
    let! classdir := mkd sysdir (cs "class") in
    when_some classdir (fun classdir =>
      let! graphics := mkd classdir (cs "graphics") in
      when_some graphics (fun graphics =>
        let! fb0 := mkd graphics (cs "fb0") in
        when_some fb0 (fun fb0 =>
          let! device := mkd fb0 (cs "device") in
          when_some device (fun device =>
            mkl device (cs "subsystem") (cs "../../../../bus/platform") ;;; st_ret tt))))).

(** The arrays as vfs_init clears them; the data buffers keep their bytes. *)
Definition vfs_reset (s : vfs) : vfs := Vfs ∅ 0 1 None ∅ (v_data s) ∅ 0 [].

Definition vfs_init : ST vfs unit :=
  st_mod vfs_reset ;;;
  let! r := new_node [] VFS_NODE_DIR (Z.lor S_IFDIR 0x1ED) in
  st_mod (set_root r) ;;;
  when_some r (fun root =>
    mkd root (cs "proc") ;;; mkd root (cs "dev") ;;;
    init_tmp root ;;;
    init_var root ;;;
    mkd root (cs "etc") ;;; mkd root (cs "bin") ;;;
    mkd root (cs "usr") ;;; mkd root (cs "lib") ;;;
    init_sys root ;;;
    init_file (cs "/etc/os-release") os_release ;;;
    init_file (cs "/etc/hostname") hostname ;;;
    init_file (cs "/etc/motd") motd ;;;
    vfs_register_filesystem procfs ;;; vfs_register_filesystem devfs ;;;
    vfs_mount (cs "procfs") (cs "/proc") ;;; vfs_mount (cs "devfs") (cs "/dev") ;;;
    st_ret tt).
