(* ===== verification/VfsText.v ===== *)
(** * Virtual file system: directory listings and the text of /proc

    The buffer an output function fills is the list of bytes written so far;
    its length is [*pos].  The CPUID instruction, the up-time and the reader
    of the boot file system (main.rs) are parameters. *)

From Stdlib Require Import String.
From S2P Require Import Prelude Words Pmm CStr Vfs.
Local Open Scope Z_scope.
Local Open Scope st_scope.

(** ** vfs_list_dir *)

Definition vfs_out_ch : Z -> cstr -> Z -> cstr := out_ch.
Definition vfs_out_str : Z -> cstr -> cstr -> cstr := out_str.

(** Comparison of names, case-insensitive: negative, 0 or positive. *)
Fixpoint vfs_name_cmp (a b : cstr) : Z :=
  match a, b with
  | x :: a, y :: b =>
      let cx := ascii_lower x in
      let cy := ascii_lower y in
      if negb (cx =? cy) then (if cx <? cy then -1 else 1) else vfs_name_cmp a b
  | [], [] => 0
  | _ :: _, [] => 1
  | [], _ :: _ => -1
  end.

(** [while (j>0 && vfs_name_cmp(items[j-1],v)>0) { items[j]=items[j-1]; --j; } items[j]=v;]
    on the sorted prefix, held in reverse. *)
Fixpoint sift (s : vfs) (v : Z) (rsorted : list Z) : list Z :=
  match rsorted with
  | x :: r => if 0 <? vfs_name_cmp (n_name (nd s x)) (n_name (nd s v)) then x :: sift s v r else v :: rsorted
  | [] => [v]
  end.

Definition sort_items (s : vfs) (items : list Z) : list Z := rev (foldl (fun acc v => sift s v acc) [] items).

Definition list_entry (s : vfs) (cap : Z) (out : cstr) (x : Z) : cstr :=
  let out := vfs_out_str cap out (n_name (nd s x)) in
  let out := if n_type (nd s x) =? VFS_NODE_DIR then vfs_out_ch cap out SLASH
             else if n_type (nd s x) =? VFS_NODE_SYMLINK then vfs_out_ch cap out 64 else out in
  vfs_out_ch cap out 10.

(** The entries that are listed: those with a name. *)
Definition listed (s : vfs) (d : Z) : list Z :=
  take (Z.to_nat VFS_MAX_NODES) (List.filter (fun x => negb (is_nil (n_name (nd s x)))) (kids s d)).

(** [path = None] is the null pointer, read as the root. *)
Definition vfs_list_dir (path : option cstr) (cap : Z) : ST vfs cstr :=
  if cap =? 0 then st_ret []
  else
    let src := default (cs "/") path in
    match src with
    | [] => st_ret []
    | c :: _ =>
        if negb (c =? SLASH) then st_ret []
        else if (VFS_PATH_MAX <=? length src)%nat then st_ret []
        else
          let! d := vfs_lookup (strip_slashes (length src) src) in
          let! s := st_get in
          match d with
          | None => st_ret []
          | Some d =>
              if negb (n_type (nd s d) =? VFS_NODE_DIR) then st_ret []
              else st_ret (foldl (list_entry s cap) [] (sort_items s (listed s d)))
          end
    end.

(** ** Numbers *)

Definition proc_putc : Z -> cstr -> Z -> cstr := out_ch.
Definition proc_puts : Z -> cstr -> cstr -> cstr := out_str.

(** The decimal digits of [v], least significant first, at most 32. *)
Fixpoint digits (n : nat) (v : Z) : list Z :=
  match n with
  | O => []
  | S n => if v =? 0 then [] else (48 + v mod 10) :: digits n (v / 10)
  end.

Definition proc_put_u64 (cap : Z) (out : cstr) (v : Z) : cstr :=
  if v =? 0 then proc_putc cap out 48 else foldl (proc_putc cap) out (rev (digits 32 v)).

Definition proc_put_kb (cap : Z) (out : cstr) (bytes : Z) : cstr :=
  proc_puts cap (proc_put_u64 cap out (bytes / 1024)) (cs " kB" ++ NL).

Definition TAB : cstr := [9].

(** ** /proc/cpuinfo *)

Section Cpu.
(** The CPUID instruction: (eax, ebx, ecx, edx) of a leaf and subleaf. *)
Variable cpuid : Z -> Z -> Z * Z * Z * Z.

Definition kernel_cpuid (leaf subleaf : Z) : Z * Z * Z * Z := cpuid leaf subleaf.

Definition kernel_cpuid_max_basic : Z := let '(a, _, _, _) := kernel_cpuid 0 0 in a.
Definition kernel_cpuid_max_extended : Z := let '(a, _, _, _) := kernel_cpuid 0x80000000 0 in a.

(** The bytes of a 32-bit register in memory order. *)
Definition reg_bytes (r : Z) : list Z :=
  [Z.land r 0xFF; Z.land (Z.shiftr r 8) 0xFF; Z.land (Z.shiftr r 16) 0xFF; Z.land (Z.shiftr r 24) 0xFF].

(** What a C string function sees of a byte array: the bytes before NUL. *)
Fixpoint before_nul (l : list Z) : cstr :=
  match l with
  | [] => []
  | c :: l => if c =? 0 then [] else c :: before_nul l
  end.

Fixpoint skip_spaces (l : cstr) : cstr :=
  match l with
  | c :: l' => if c =? 32 then skip_spaces l' else l
  | [] => []
  end.

Definition brand_regs (i : Z) : list Z :=
  let '(a, b, c, d) := kernel_cpuid (0x80000002 + i) 0 in
  reg_bytes a ++ reg_bytes b ++ reg_bytes c ++ reg_bytes d.

Definition kernel_cpu_brand (cap : Z) : cstr :=
  if cap =? 0 then []
  else if kernel_cpuid_max_extended <? 0x80000004 then []
  else
    let raw := brand_regs 0 ++ brand_regs 1 ++ brand_regs 2 in
    let n := if cap <=? Z.of_nat (length raw) then cap - 1 else Z.of_nat (length raw) in
    let dst := before_nul (take (Z.to_nat n) raw) in
    take (Z.to_nat (cap - 1)) (rev (skip_spaces (rev (skip_spaces dst)))).

Definition kernel_cpu_vendor (cap : Z) : cstr :=
  if cap =? 0 then []
  else
    let '(_, b, c, d) := kernel_cpuid 0 0 in
    before_nul (take (Z.to_nat (Z.min 12 (cap - 1))) (reg_bytes b ++ reg_bytes d ++ reg_bytes c)).

(** [if (reg & (1U << bit)) proc_puts(name);] *)
Definition put_flag (cap reg : Z) (out : cstr) (f : Z * string) : cstr :=
  if has reg (Z.shiftl 1 (fst f)) then proc_puts cap out (cs (snd f)) else out.

Definition edx_flags : list (Z * string) :=
  [(0, " fpu"); (4, " tsc"); (5, " msr"); (8, " cx8"); (9, " apic"); (15, " cmov"); (23, " mmx"); (25, " sse");
   (26, " sse2")]%string.
Definition ecx_flags : list (Z * string) :=
  [(0, " sse3"); (9, " ssse3"); (19, " sse4_1"); (20, " sse4_2"); (28, " avx"); (30, " rdrand")]%string.
Definition ebx7_flags : list (Z * string) :=
  [(3, " bmi1"); (5, " avx2"); (8, " bmi2"); (18, " rdseed"); (29, " sha_ni")]%string.

Definition put_line (cap : Z) (out key : cstr) (body : cstr -> cstr) : cstr :=
  proc_putc cap (body (proc_puts cap out key)) 10.

(** The family and model shown for the signature [a] of leaf 1. *)
Definition display_family (a : Z) : Z :=
  let family := Z.land (Z.shiftr a 8) 0xF in
  if family =? 0xF then family + Z.land (Z.shiftr a 20) 0xFF else family.
Definition display_model (a : Z) : Z :=
  let family := Z.land (Z.shiftr a 8) 0xF in
  let model := Z.land (Z.shiftr a 4) 0xF in
  if (family =? 0x6) || (family =? 0xF) then model + Z.shiftl (Z.land (Z.shiftr a 16) 0xF) 4 else model.

Definition proc_make_cpuinfo (cap : Z) : cstr :=
  let maxb := kernel_cpuid_max_basic in
  let '(a, b, c, d) := kernel_cpuid 1 0 in
  let logical := Z.land (Z.shiftr b 16) 0xFF in
  let logical := if logical =? 0 then 1 else logical in
  let vendor := kernel_cpu_vendor 16 in
  let brand := kernel_cpu_brand 64 in
  let out := proc_puts cap [] (cs "processor" ++ TAB ++ cs ": 0" ++ NL) in
  let out := put_line cap out (cs "vendor_id" ++ TAB ++ cs ": ") (fun o => proc_puts cap o vendor) in
  let out := put_line cap out (cs "cpu family" ++ TAB ++ cs ": ") (fun o => proc_put_u64 cap o (display_family a)) in
  let out := put_line cap out (cs "model" ++ TAB ++ TAB ++ cs ": ") (fun o => proc_put_u64 cap o (display_model a)) in
  let out := put_line cap out (cs "stepping" ++ TAB ++ cs ": ") (fun o => proc_put_u64 cap o (Z.land a 0xF)) in
  let out := if is_nil brand then out
             else put_line cap out (cs "model name" ++ TAB ++ cs ": ") (fun o => proc_puts cap o brand) in
  let out := put_line cap out (cs "siblings" ++ TAB ++ cs ": ") (fun o => proc_put_u64 cap o logical) in
  put_line cap out (cs "flags" ++ TAB ++ TAB ++ cs ":") (fun out =>
    let out := foldl (put_flag cap d) out edx_flags in
    let out := foldl (put_flag cap c) out ecx_flags in
    if 7 <=? maxb then
      let '(_, b7, c7, _) := kernel_cpuid 7 0 in
      put_flag cap c7 (foldl (put_flag cap b7) out ebx7_flags) (1, " avx_vnni"%string)
    else out).

(** ** /proc/meminfo *)

Definition proc_make_meminfo (p : pmm) (cap : Z) : cstr :=
  let total := u64 (pmm_total_count p * 4096) in
  let free := u64 (pmm_free_count p * 4096) in
  let out := proc_put_kb cap (proc_puts cap [] (cs "MemTotal:       ")) total in
  let out := proc_put_kb cap (proc_puts cap out (cs "MemFree:        ")) free in
  let out := proc_put_kb cap (proc_puts cap out (cs "MemAvailable:   ")) free in
  proc_put_kb cap (proc_puts cap out (cs "PageSize:       ")) 4096.

(** ** vfs_read_file *)

(** The up-time line for [ns] nanoseconds. *)
Definition uptime_text (ns : Z) : cstr :=
  let sec := ns / 1000000000 in
  let frac := (ns mod 1000000000) / 10000000 in
  (if sec =? 0 then [48] else rev (digits 24 sec)) ++
  [46; 48 + frac / 10; 48 + frac mod 10] ++ cs " 0.00" ++ NL.

(** The text of a path or device, [None] where the code leaves [s] null. *)
Definition read_text (ns t : Z) (path : cstr) : option cstr :=
  if eq path (cs "/proc/version") then Some (cs "YabroOS-32 v0.1 (procfs+musl-abi)" ++ NL)
  else if eq path (cs "/proc/uptime") then Some (uptime_text ns)
  else if eq path (cs "/proc/self/status") || eq path (cs "/proc/1/status") then
    Some (cs "Name:" ++ TAB ++ cs "init" ++ NL ++ cs "State:" ++ TAB ++ cs "R (running)" ++ NL ++
          cs "Pid:" ++ TAB ++ cs "1" ++ NL)
  else if eq path (cs "/proc/self/cmdline") || eq path (cs "/proc/1/cmdline") then Some (cs "/HELLO.ELF" ++ NL)
  else if eq path (cs "/proc/self/maps") || eq path (cs "/proc/1/maps") then
    Some (cs "00400000-00401000 r-xp /HELLO.ELF" ++ NL)
  else if t =? VFS_NODE_DEV_NULL then None
  else if t =? VFS_NODE_DEV_ZERO then Some (cs "[dev/zero]" ++ NL)
  else if (t =? VFS_NODE_DEV_CONSOLE) || (t =? VFS_NODE_DEV_TTY) then Some (cs "[terminal device]" ++ NL)
  else if (t =? VFS_NODE_DEV_RANDOM) || (t =? VFS_NODE_DEV_URANDOM) then Some (cs "[random device]" ++ NL)
  else None.

(** bootfs_read_root_file(path, 0, out, cap): the bytes it stores. *)
Variable bootfs_read : cstr -> Z -> list Z.

(** The bytes stored in [out] before the terminator. *)
Definition vfs_read_file (p : pmm) (ns : Z) (path : cstr) (cap : Z) : ST vfs (list Z) :=
  if cap =? 0 then st_ret []
  else
    let! n := vfs_lookup path in
    let! s := st_get in
    match n with
    | None => st_ret []
    | Some n =>
        let x := nd s n in
        if (n_type x =? VFS_NODE_DIR) || (n_type x =? VFS_NODE_SYMLINK) then st_ret []
        else if vfs_file_is_regular s n then
          st_ret (map (data_at s (default 0 (n_data x))) (seqZ 0 (Z.min (n_size x) (cap - 1))))
        else if vfs_is_boot_file s n then
          if is_nil (n_boot_path x) then st_ret [] else st_ret (bootfs_read (n_boot_path x) cap)
        else if eq path (cs "/proc/cpuinfo") then st_ret (proc_make_cpuinfo cap)
        else if eq path (cs "/proc/meminfo") then st_ret (proc_make_meminfo p cap)
        else
          match read_text ns (n_type x) path with
          | None => st_ret []
          | Some t => st_ret (take (Z.to_nat (cap - 1)) t)
          end
    end.
End Cpu.
