(* ===== verification/VfsFacts.v ===== *)
(** * The node tree of the file system

    [shape s K] ties the linked lists of the state to an abstract tree: [K d]
    is the list of the children of [d].  The primitive operations (a new
    node, linking it into a directory, taking it out) are specified on [K].
    [vfs_ok], at the end, is the invariant of the file system. *)

From Stdlib Require Import String.
From S2P Require Import Prelude Words CStr Vfs.
Local Open Scope Z_scope.

(** ** Nodes *)

Definition live (s : vfs) (i : Z) : Prop := 0 <= i < v_node_used s.

Lemma nd_upd s i f j : nd (upd_node i f s) j = if i =? j then f (nd s i) else nd s j.
Proof.
  unfold nd at 1, upd_node. cbn [set_nodes v_nodes]. destruct (Z.eqb_spec i j) as [->|Hne].
  - by rewrite lookup_insert_eq.
  - by rewrite lookup_insert_ne.
Qed.

Lemma nd_upd_eq s i f : nd (upd_node i f s) i = f (nd s i).
Proof. by rewrite nd_upd, Z.eqb_refl. Qed.

Lemma nd_upd_ne s i f j : i <> j -> nd (upd_node i f s) j = nd s j.
Proof. intros Hne. by rewrite nd_upd, (proj2 (Z.eqb_neq _ _)). Qed.

(** Two assignments to the same node. *)
Lemma upd_upd s i f g : upd_node i f (upd_node i g s) = upd_node i (fun n => f (g n)) s.
Proof. unfold upd_node at 1. rewrite nd_upd_eq. unfold upd_node, set_nodes. cbn. by rewrite insert_insert_eq. Qed.

Lemma upd_set_used s i f U : upd_node i f (set_used U s) = set_used U (upd_node i f s).
Proof. done. Qed.

(** ** Linked lists *)

Fixpoint llist (s : vfs) (x : option Z) (l : list Z) : Prop :=
  match l with
  | [] => x = None
  | i :: l => x = Some i /\ llist s (n_next (nd s i)) l
  end.

Lemma llist_chain s l x fuel : llist s x l -> (length l <= fuel)%nat -> chain fuel s x = l.
Proof.
  revert x fuel. induction l as [|i l IH]; intros x fuel Hl Hf; cbn [llist] in Hl.
  - subst x. by destruct fuel.
  - destruct Hl as [-> Hl]. destruct fuel as [|fuel]; cbn [length] in Hf; [lia|]. cbn [chain]. f_equal.
    apply IH; [done | lia].
Qed.

Lemma llist_agree s s' x l : (forall i, i ∈ l -> n_next (nd s' i) = n_next (nd s i)) -> llist s x l -> llist s' x l.
Proof.
  revert x. induction l as [|i l IH]; intros x Hag Hl; cbn [llist] in *; [done|].
  destruct Hl as [-> Hl]. split; [done|]. rewrite Hag by left. apply IH; [|done]. intros; apply Hag; by right.
Qed.

(** ** Shapes *)

Record shape (s : vfs) (K : Z -> list Z) : Prop := {
  sh_used : 0 <= v_node_used s <= VFS_MAX_NODES;
  sh_list : forall d, live s d -> llist s (n_children (nd s d)) (K d);
  sh_live : forall d x, live s d -> x ∈ K d -> live s x;
  sh_nodup : forall d, live s d -> NoDup (K d);
  sh_disj : forall d d' x, live s d -> live s d' -> x ∈ K d -> x ∈ K d' -> d = d'
}.

Lemma shape_len s K d : shape s K -> live s d -> (length (K d) <= Z.to_nat (v_node_used s))%nat.
Proof.
  intros Hs Hd. rewrite <- (length_seqZ 0 (v_node_used s)). apply submseteq_length, NoDup_submseteq.
  - by apply (sh_nodup _ _ Hs).
  - intros x Hx. apply elem_of_seqZ. destruct (sh_live _ _ Hs d x); [done | done | lia].
Qed.

(** The fuel of [kids] suffices. *)
Lemma kids_eq s K d : shape s K -> live s d -> kids s d = K d.
Proof. intros Hs Hd. apply llist_chain; [by apply (sh_list _ _ Hs) | by apply shape_len]. Qed.

(** A change of the nodes that keeps the links. *)
Definition same_links (s s' : vfs) : Prop :=
  v_node_used s' = v_node_used s /\
  forall i, live s i -> n_children (nd s' i) = n_children (nd s i) /\ n_next (nd s' i) = n_next (nd s i).

Lemma shape_same s s' K : shape s K -> same_links s s' -> shape s' K.
Proof.
  intros Hs [Hu Hl]. assert (Hlv : forall i, live s' i <-> live s i) by (intros i; unfold live; by rewrite Hu).
  split.
  - rewrite Hu. apply Hs.
  - intros d Hd%Hlv. rewrite (proj1 (Hl d Hd)). apply llist_agree with s; [|by apply Hs].
    intros i Hi. apply Hl. by apply (sh_live _ _ Hs d).
  - intros d x Hd%Hlv Hx. apply Hlv. by apply (sh_live _ _ Hs d).
  - intros d Hd%Hlv. by apply (sh_nodup _ _ Hs).
  - intros d d' x Hd%Hlv Hd'%Hlv. by apply (sh_disj _ _ Hs).
Qed.

Lemma upd_same_links s i f : (forall n, n_children (f n) = n_children n /\ n_next (f n) = n_next n) ->
  same_links s (upd_node i f s).
Proof.
  intros Hf. split; [done|]. intros j _. rewrite nd_upd. destruct (Z.eqb_spec i j) as [->|]; [apply Hf | done].
Qed.

(** ** Changing one list *)

Definition fset {A} (K : Z -> A) (d : Z) (v : A) : Z -> A := fun x => if x =? d then v else K x.

Lemma fset_eq {A} (K : Z -> A) d v : fset K d v d = v.
Proof. unfold fset. by rewrite Z.eqb_refl. Qed.
Lemma fset_ne {A} (K : Z -> A) d v x : x <> d -> fset K d v x = K x.
Proof. intros Hne. unfold fset. by rewrite (proj2 (Z.eqb_neq _ _)). Qed.

(** In no directory. *)
Definition loose (s : vfs) (K : Z -> list Z) (x : Z) : Prop := forall d, live s d -> x ∉ K d.

(** What [add p x] leaves in the nodes. *)
Definition added (p x : Z) (s : vfs) : vfs :=
  upd_node p (with_children (Some x))
    (upd_node x (with_next (n_children (nd s p))) (upd_node x (with_parent (Some p)) s)).

Lemma add_eq p x s : add p x s = (tt, added p x s).
Proof. done. Qed.

Lemma added_nd p x s j :
  nd (added p x s) j =
    let n := if x =? j then with_next (n_children (nd s p)) (with_parent (Some p) (nd s x)) else nd s j in
    if p =? j then with_children (Some x) n else n.
Proof.
  unfold added. cbn zeta. rewrite !nd_upd, Z.eqb_refl.
  destruct (Z.eqb_spec p j) as [->|]; by destruct (x =? j).
Qed.

Lemma add_shape s K p x : shape s K -> live s p -> live s x -> loose s K x ->
  shape (added p x s) (fset K p (x :: K p)).
Proof.
  intros Hs Hp Hx Hlo.
  assert (Hnx : forall i, i <> x -> n_next (nd (added p x s) i) = n_next (nd s i)).
  { intros i Hne. rewrite added_nd. cbn zeta. rewrite (proj2 (Z.eqb_neq x i)) by congruence. by destruct (p =? i). }
  assert (Hll : forall d, live s d -> llist (added p x s) (n_children (nd s d)) (K d)).
  { intros d Hd. apply llist_agree with s; [|by apply Hs]. intros i Hi. apply Hnx. intros ->. by apply (Hlo d). }
  split.
  - apply Hs.
  - intros d Hd. rewrite added_nd. cbn zeta. destruct (Z.eqb_spec p d) as [->|Hne].
    + rewrite fset_eq. cbn [n_children with_children llist]. split; [done|].
      rewrite added_nd. cbn zeta. rewrite Z.eqb_refl. destruct (d =? x); by apply Hll.
    + rewrite fset_ne by congruence. destruct (Z.eqb_spec x d) as [->|]; by apply Hll.
  - intros d y Hd Hy. unfold fset in Hy. destruct (Z.eqb_spec d p) as [->|]; [|by apply (sh_live _ _ Hs d)].
    apply elem_of_cons in Hy as [->|Hy]; [done | by apply (sh_live _ _ Hs p)].
  - intros d Hd. unfold fset. destruct (Z.eqb_spec d p) as [->|]; [|by apply Hs].
    apply NoDup_cons. split; [by apply Hlo | by apply Hs].
  - intros d d' y Hd Hd' Hy Hy'. unfold fset in *.
    destruct (Z.eqb_spec d p) as [->|], (Z.eqb_spec d' p) as [->|]; try done.
    + apply elem_of_cons in Hy as [->|Hy]; [by destruct (Hlo d') | by apply (sh_disj _ _ Hs p d' y)].
    + apply elem_of_cons in Hy' as [->|Hy']; [by destruct (Hlo d) | by apply (sh_disj _ _ Hs d p y)].
    + by apply (sh_disj _ _ Hs d d' y).
Qed.

(** ** Taking a node out *)

Lemma pred_of_split n prev l : NoDup l ->
  match pred_of n prev l with
  | None => n ∉ l
  | Some q => exists l1 l2, l = l1 ++ n :: l2 /\ q = match last l1 with Some y => Some y | None => prev end
  end.
Proof.
  revert prev. induction l as [|x l IH]; intros prev Hnd; cbn [pred_of]; [by apply not_elem_of_nil|].
  apply NoDup_cons in Hnd as [Hx Hnd]. destruct (Z.eqb_spec x n) as [->|Hne].
  - by exists [], l.
  - specialize (IH (Some x) Hnd). destruct (pred_of n (Some x) l) as [q|].
    + destruct IH as (l1 & l2 & -> & ->). exists (x :: l1), l2. split; [done|].
      rewrite last_cons. by destruct (last l1).
    + rewrite elem_of_cons. intros [->|?]; done.
Qed.

(** [n->next] skipped in the list. *)
Lemma llist_skip s s' x l1 l2 n q : llist s x (l1 ++ q :: n :: l2) -> NoDup (l1 ++ q :: n :: l2) ->
  n_next (nd s' q) = n_next (nd s n) -> (forall i, i <> q -> n_next (nd s' i) = n_next (nd s i)) ->
  llist s' x (l1 ++ q :: l2).
Proof.
  revert x. induction l1 as [|y l1 IH]; intros x Hl Hnd Hq Hag; cbn [app llist] in *.
  - destruct Hl as (-> & _ & Hl). split; [done|]. rewrite Hq. apply llist_agree with s; [|done].
    intros i Hi. apply Hag. intros ->. apply NoDup_cons in Hnd as [Hq' _]. apply Hq'. by right.
  - destruct Hl as [-> Hl]. apply NoDup_cons in Hnd as [Hy Hnd]. split; [done|].
    rewrite Hag; [by apply IH|]. intros ->. apply Hy. set_solver.
Qed.

Definition without (n : Z) (l : list Z) : list Z := List.filter (fun x => negb (x =? n)) l.

Lemma without_split n l1 l2 : NoDup (l1 ++ n :: l2) -> without n (l1 ++ n :: l2) = l1 ++ l2.
Proof.
  intros Hnd. apply NoDup_app in Hnd as (_ & Hd & Hnd). apply NoDup_cons in Hnd as [Hn _].
  assert (Hk : forall l, n ∉ l -> without n l = l).
  { induction l as [|x l IH]; intros Hx; [done|]. apply not_elem_of_cons in Hx as [Hne Hx].
    unfold without in *. cbn [List.filter]. rewrite (proj2 (Z.eqb_neq x n)) by congruence. cbn [negb]. by rewrite IH. }
  unfold without. rewrite List.filter_app. cbn [List.filter]. rewrite Z.eqb_refl. cbn [negb].
  f_equal; apply Hk; [|done]. intros Hin. apply (Hd n Hin). left.
Qed.

Lemma elem_of_without n l x : x ∈ without n l <-> x ∈ l /\ x <> n.
Proof.
  unfold without. rewrite !list_elem_of_In, List.filter_In. split.
  - intros [Hx Hn]. split; [done|]. by destruct (Z.eqb_spec x n).
  - intros [Hx Hn]. split; [done|]. by rewrite (proj2 (Z.eqb_neq x n)).
Qed.

(** The state after [unlist p n] when [n] is in the list of [p]. *)
Definition unlisted (p n : Z) (s : vfs) : vfs :=
  match pred_of n None (kids s p) with
  | Some (Some q) => upd_node q (with_next (n_next (nd s n))) s
  | _ => upd_node p (with_children (n_next (nd s n))) s
  end.

Lemma unlist_spec s K p n : shape s K -> live s p ->
  (n ∉ K p /\ unlist p n s = (false, s)) \/
  (n ∈ K p /\ unlist p n s = (true, unlisted p n s) /\ shape (unlisted p n s) (fset K p (without n (K p)))).
Proof.
  intros Hs Hp. unfold unlist, unlisted, st_bind, st_get. rewrite (kids_eq s K p Hs Hp).
  pose proof (pred_of_split n None (K p) (sh_nodup _ _ Hs p Hp)) as Hsp.
  destruct (pred_of n None (K p)) as [q|]; [|by left].
  right. destruct Hsp as (l1 & l2 & HK & Hq).
  split; [rewrite HK; set_solver|].
  assert (Hnd : NoDup (l1 ++ n :: l2)) by (rewrite <- HK; by apply Hs).
  assert (Hw : without n (K p) = l1 ++ l2) by (rewrite HK; by apply without_split).
  assert (Hl : llist s (n_children (nd s p)) (l1 ++ n :: l2)) by (rewrite <- HK; by apply Hs).
  assert (Hfin : forall s', v_node_used s' = v_node_used s ->
    llist s' (n_children (nd s' p)) (l1 ++ l2) ->
    (forall d, live s d -> d <> p -> llist s' (n_children (nd s' d)) (K d)) ->
    shape s' (fset K p (without n (K p)))).
  { intros s' Hu Hlp Hld. assert (Hlv : forall i, live s' i <-> live s i) by (intros i; unfold live; by rewrite Hu).
    assert (Hsub : forall d y, y ∈ fset K p (without n (K p)) d -> y ∈ K d).
    { intros d y. unfold fset. destruct (Z.eqb_spec d p) as [->|]; [|done]. by intros [? _]%elem_of_without. }
    split.
    - rewrite Hu. apply Hs.
    - intros d Hd%Hlv. unfold fset. destruct (Z.eqb_spec d p) as [->|]; [by rewrite Hw | by apply Hld].
    - intros d y Hd%Hlv Hy%Hsub. apply Hlv. by apply (sh_live _ _ Hs d).
    - intros d Hd%Hlv. unfold fset. destruct (Z.eqb_spec d p) as [->|]; [|by apply Hs].
      rewrite Hw. apply NoDup_app in Hnd as (H1 & H2 & [_ H3]%NoDup_cons). apply NoDup_app.
      split; [done|]. split; [|done]. intros y Hy Hy2. apply (H2 y Hy). by right.
    - intros d d' y Hd%Hlv Hd'%Hlv Hy%Hsub Hy'%Hsub. by apply (sh_disj _ _ Hs d d' y). }
  destruct (last l1) as [y|] eqn:Hlast; subst q; (split; [done|]); apply Hfin; try done.
  - apply last_Some in Hlast as [l1' ->].
    rewrite nd_upd. assert (Hch : n_children (if y =? p then with_next (n_next (nd s n)) (nd s y) else nd s p) = n_children (nd s p))
      by (by destruct (Z.eqb_spec y p) as [->|]).
    rewrite Hch. rewrite <- app_assoc in *. cbn [app] in *. apply (llist_skip s _ _ l1' l2 n y); try done.
    + by rewrite nd_upd_eq.
    + intros i Hi. by rewrite nd_upd_ne.
  - intros d Hd Hne. rewrite nd_upd.
    assert (Hch : n_children (if y =? d then with_next (n_next (nd s n)) (nd s y) else nd s d) = n_children (nd s d))
      by (by destruct (Z.eqb_spec y d) as [->|]).
    rewrite Hch. apply llist_agree with s; [|by apply Hs]. intros i Hi. rewrite nd_upd_ne; [done|]. intros ->.
    apply Hne. apply (sh_disj _ _ Hs d p i); try done. rewrite HK. apply last_Some in Hlast as [l1' ->]. set_solver.
  - apply last_None in Hlast as ->. rewrite nd_upd_eq. cbn [n_children with_children app llist] in *.
    destruct Hl as [_ Hl]. apply llist_agree with s; [|done]. intros i Hi. rewrite nd_upd.
    by destruct (Z.eqb_spec p i) as [->|].
  - intros d Hd Hne. rewrite nd_upd_ne by congruence. apply llist_agree with s; [|by apply Hs].
    intros i Hi. rewrite nd_upd. by destruct (Z.eqb_spec p i) as [->|].
Qed.

(** ** The invariant of the file system

    [vfs_wf s K]: the directories form the tree [K]; every file has an inode
    owner whose link count is the number of its names; every live inode owns
    a data buffer nobody else owns, and no buffer is leaked. *)

Definition ftype (s : vfs) (i : Z) : Z := n_type (nd s i).

(** An inode: a file node that is its own owner. *)
Definition inode (s : vfs) (o : Z) : Prop :=
  live s o /\ ftype s o = VFS_NODE_FILE /\ n_inode_owner (nd s o) = Some o.

(** [x] is a name of the inode [o]. *)
Definition names (s : vfs) (o x : Z) : Prop :=
  ftype s x = VFS_NODE_FILE /\ n_inode_owner (nd s x) = Some o /\ is_Some (n_parent (nd s x)).

#[global] Instance names_dec s o x : Decision (names s o x).
Proof. unfold names. apply _. Defined.

Definition links (s : vfs) (o : Z) : Z := Z.of_nat (length (filter (names s o) (seqZ 0 (v_node_used s)))).

Definition is_slot (d : Z) : Prop := 0 <= d < VFS_DATA_SLOTS.

(** The buffer of an inode. *)
Definition buffer_ok (s : vfs) (n : vfs_node) : Prop :=
  0 <= n_size n <= n_capacity n /\
  ((n_data n = None /\ n_capacity n = 0 /\ n_nlink n = 0) \/
   (n_data n = Some XORG_LOG /\ n_capacity n = VFS_XORG_LOG_CAP) \/
   (exists d, n_data n = Some d /\ is_slot d /\ slot_used s d = true /\ n_capacity n = VFS_DATA_SLOT_SIZE /\ 0 < n_nlink n)).

(** [e] is the inode whose link count is still to be dropped, if any: the
    operations are in such a state between taking a name out and
    vfs_drop_link. *)
Record vfs_wfx (s : vfs) (K : Z -> list Z) (e : option Z) : Prop := {
  w_shape : shape s K;
  w_kid_parent : forall d x, live s d -> x ∈ K d -> n_parent (nd s x) = Some d;
  w_parent : forall x p, live s x -> n_parent (nd s x) = Some p -> live s p /\ ftype s p = VFS_NODE_DIR;
  w_file_kid : forall x p, live s x -> ftype s x = VFS_NODE_FILE -> n_parent (nd s x) = Some p -> x ∈ K p;
  w_root : forall r, v_root s = Some r -> live s r /\ ftype s r = VFS_NODE_DIR;
  w_mount : forall x m, live s x -> n_mounted (nd s x) = Some m -> ftype s x = VFS_NODE_DIR;
  w_mtroot : forall m r, mt_root (mt s m) = Some r -> live s r /\ ftype s r = VFS_NODE_DIR;
  w_owner : forall x, live s x -> ftype s x = VFS_NODE_FILE -> exists o, n_inode_owner (nd s x) = Some o /\ inode s o;
  w_self : forall x, live s x -> ftype s x <> VFS_NODE_FILE -> n_inode_owner (nd s x) = Some x /\ n_data (nd s x) = None;
  w_links : forall o, inode s o -> n_nlink (nd s o) = links s o + (if bool_decide (e = Some o) then 1 else 0);
  w_buffer : forall o, inode s o -> buffer_ok s (nd s o);
  w_excl : forall o o' d, inode s o -> inode s o' -> is_slot d ->
    n_data (nd s o) = Some d -> n_data (nd s o') = Some d -> o = o';
  w_noleak : forall d, is_slot d -> slot_used s d = true -> exists o, inode s o /\ n_data (nd s o) = Some d
}.

Abbreviation vfs_wf s K := (vfs_wfx s K None).

Definition vfs_ok (s : vfs) : Prop := exists K, vfs_wf s K.

(** ** Changes of names, modes, sizes and contents *)

(** The fields the invariant reads, sizes apart. *)
Definition core (n : vfs_node) :=
  (n_type n, n_parent n, n_children n, n_next n, n_mounted n, n_data n, n_capacity n, n_nlink n, n_inode_owner n).

Record same_core (s s' : vfs) : Prop := {
  sc_used : v_node_used s' = v_node_used s;
  sc_root : v_root s' = v_root s;
  sc_slots : forall d, slot_used s' d = slot_used s d;
  sc_mounts : forall m, mt s' m = mt s m;
  sc_core : forall i, live s i -> core (nd s' i) = core (nd s i);
  sc_size : forall o, inode s o -> 0 <= n_size (nd s' o) <= n_capacity (nd s o)
}.

Lemma core_fields n n' : core n' = core n ->
  n_type n' = n_type n /\ n_parent n' = n_parent n /\ n_children n' = n_children n /\ n_next n' = n_next n /\
  n_mounted n' = n_mounted n /\ n_data n' = n_data n /\ n_capacity n' = n_capacity n /\ n_nlink n' = n_nlink n /\
  n_inode_owner n' = n_inode_owner n.
Proof. unfold core. intros [= ? ? ? ? ? ? ? ? ?]. done. Qed.

Lemma links_agree s s' o : v_node_used s' = v_node_used s ->
  (forall x, live s x -> names s' o x <-> names s o x) -> links s' o = links s o.
Proof.
  intros Hu Hn. unfold links. rewrite Hu. f_equal. apply length_filter_iff_in.
  intros q Hq%elem_of_seqZ. symmetry. apply Hn. unfold live. lia.
Qed.

Lemma same_core_wf s s' K e : vfs_wfx s K e -> same_core s s' -> vfs_wfx s' K e.
Proof.
  intros W [Hu Hr Hs Hm Hc Hz].
  assert (Hf : forall i, live s i -> ftype s' i = ftype s i /\ n_parent (nd s' i) = n_parent (nd s i) /\
    n_children (nd s' i) = n_children (nd s i) /\ n_next (nd s' i) = n_next (nd s i) /\
    n_mounted (nd s' i) = n_mounted (nd s i) /\ n_data (nd s' i) = n_data (nd s i) /\
    n_capacity (nd s' i) = n_capacity (nd s i) /\ n_nlink (nd s' i) = n_nlink (nd s i) /\
    n_inode_owner (nd s' i) = n_inode_owner (nd s i)) by (intros i Hi; by apply core_fields, Hc).
  assert (Hl : forall i, live s' i <-> live s i) by (intros i; unfold live; by rewrite Hu).
  assert (Hi : forall o, inode s' o <-> inode s o).
  { intros o. unfold inode. rewrite Hl. split; intros (Ho & Ht); destruct (Hf o Ho) as (Et & _ & _ & _ & _ & _ & _ & _ & Eo);
      [rewrite Et, Eo in Ht | rewrite Et, Eo]; done. }
  split.
  - apply shape_same with s; [apply W|]. split; [done|]. intros i Hli. split; by apply Hf.
  - intros d x Hd%Hl Hx. destruct (Hf x) as (_ & -> & _); [by apply (sh_live _ _ (w_shape _ _ _ W) d)|].
    by apply (w_kid_parent _ _ _ W).
  - intros x p Hx%Hl. destruct (Hf x Hx) as (_ & -> & _). intros Hp. destruct (w_parent _ _ _ W x p Hx Hp) as [Hpl Hpt].
    destruct (Hf p Hpl) as (-> & _). by rewrite Hl.
  - intros x p Hx%Hl. destruct (Hf x Hx) as (-> & -> & _). by apply (w_file_kid _ _ _ W).
  - intros r. rewrite Hr, Hl. intros Hrt. destruct (w_root _ _ _ W r Hrt) as [Hrl Hrd].
    destruct (Hf r Hrl) as (-> & _). done.
  - intros x m Hx%Hl. destruct (Hf x Hx) as (-> & _ & _ & _ & -> & _). by apply (w_mount _ _ _ W).
  - intros m r. rewrite Hm, Hl. intros Hrt. destruct (w_mtroot _ _ _ W m r Hrt) as [Hrl Hrd]. destruct (Hf r Hrl) as (-> & _). done.
  - intros x Hx%Hl. destruct (Hf x Hx) as (-> & _ & _ & _ & _ & _ & _ & _ & ->). setoid_rewrite Hi. by apply (w_owner _ _ _ W).
  - intros x Hx%Hl. destruct (Hf x Hx) as (-> & _ & _ & _ & _ & -> & _ & _ & ->). by apply (w_self _ _ _ W).
  - intros o Hin%Hi. destruct (Hf o (proj1 Hin)) as (_ & _ & _ & _ & _ & _ & _ & -> & _).
    rewrite (links_agree s s' o Hu); [by apply W|]. intros x Hx. unfold names.
    by destruct (Hf x Hx) as (-> & -> & _ & _ & _ & _ & _ & _ & ->).
  - intros o Hin%Hi. destruct (w_buffer _ _ _ W o Hin) as [_ Hb]. unfold buffer_ok.
    destruct (Hf o (proj1 Hin)) as (_ & _ & _ & _ & _ & -> & -> & -> & _). split; [by apply Hz|]. by setoid_rewrite Hs.
  - intros o o' d Hin%Hi Hin'%Hi. destruct (Hf o (proj1 Hin)) as (_ & _ & _ & _ & _ & -> & _).
    destruct (Hf o' (proj1 Hin')) as (_ & _ & _ & _ & _ & -> & _). by apply (w_excl _ _ _ W).
  - intros d. rewrite Hs. intros Hd Hus. destruct (w_noleak _ _ _ W d Hd Hus) as (o & Ho & E).
    exists o. rewrite Hi. split; [done|]. by destruct (Hf o (proj1 Ho)) as (_ & _ & _ & _ & _ & -> & _).
Qed.

(** An assignment to one node that keeps its core. *)
Lemma upd_same_core s i f : (forall n, core (f n) = core n) ->
  (forall o, inode s o -> 0 <= n_size (nd (upd_node i f s) o) <= n_capacity (nd s o)) -> same_core s (upd_node i f s).
Proof.
  intros Hf Hz. split; try done. intros j _. rewrite nd_upd. by destruct (Z.eqb_spec i j) as [->|].
Qed.

Lemma upd_wf s K e i f : vfs_wfx s K e -> (forall n, core (f n) = core n /\ n_size (f n) = n_size n) ->
  vfs_wfx (upd_node i f s) K e.
Proof.
  intros W Hf. apply same_core_wf with s; [done|]. apply upd_same_core; [intros; apply Hf|].
  intros o Ho. destruct (w_buffer _ _ _ W o Ho) as [Hz _]. rewrite nd_upd.
  destruct (Z.eqb_spec i o) as [->|]; [|done]. by rewrite (proj2 (Hf _)).
Qed.

(** ** Lookup *)

(** Only the spelling of names changed. *)
Record respelled (s s' : vfs) : Prop := {
  rs_used : v_node_used s' = v_node_used s;
  rs_ino : v_next_ino s' = v_next_ino s;
  rs_root : v_root s' = v_root s;
  rs_slots : v_data_used s' = v_data_used s;
  rs_data : v_data s' = v_data s;
  rs_mounts : v_mounts s' = v_mounts s;
  rs_nodes : forall i, exists nm, nd s' i = with_name nm (nd s i)
}.

Lemma respelled_refl s : respelled s s.
Proof. split; try done. intros i. exists (n_name (nd s i)). by destruct (nd s i). Qed.

Lemma respelled_trans s1 s2 s3 : respelled s1 s2 -> respelled s2 s3 -> respelled s1 s3.
Proof.
  intros H1 H2. split; try (etransitivity; [apply H2 | apply H1]).
  intros i. destruct (rs_nodes _ _ H1 i) as [a Ha]. destruct (rs_nodes _ _ H2 i) as [b Hb].
  exists b. rewrite Hb, Ha. done.
Qed.

Lemma respelled_core s s' i : respelled s s' -> core (nd s' i) = core (nd s i) /\ n_size (nd s' i) = n_size (nd s i).
Proof. intros H. destruct (rs_nodes _ _ H i) as [nm ->]. done. Qed.

Lemma respelled_type s s' i : respelled s s' -> ftype s' i = ftype s i.
Proof. intros H. unfold ftype. destruct (rs_nodes _ _ H i) as [nm ->]. done. Qed.

Lemma respelled_live s s' i : respelled s s' -> live s' i <-> live s i.
Proof. intros H. unfold live. by rewrite (rs_used _ _ H). Qed.

Lemma respelled_same s s' K : vfs_wf s K -> respelled s s' -> same_core s s'.
Proof.
  intros W H. split; try apply H.
  - intros d. unfold slot_used. by rewrite (rs_slots _ _ H).
  - intros m. unfold mt. by rewrite (rs_mounts _ _ H).
  - intros i _. by apply respelled_core.
  - intros o Ho. rewrite (proj2 (respelled_core s s' o H)). apply (w_buffer _ _ _ W o Ho).
Qed.

Lemma respelled_wf s s' K : vfs_wf s K -> respelled s s' -> vfs_wf s' K.
Proof. intros W H. apply same_core_wf with s; [done | by eapply respelled_same]. Qed.

(** A node a path can lead to: live, and in a directory unless it is one. *)
Definition findable (s : vfs) (K : Z -> list Z) (n : Z) : Prop :=
  live s n /\ (ftype s n = VFS_NODE_DIR \/ exists d, live s d /\ n ∈ K d).

Lemma respelled_findable s s' K n : respelled s s' -> findable s' K n <-> findable s K n.
Proof.
  intros H. unfold findable. rewrite (respelled_live s s' n H), (respelled_type s s' n H).
  by setoid_rewrite (respelled_live s s' _ H).
Qed.

Lemma lookup_child_spec s K d nm r s' : vfs_wf s K -> live s d -> vfs_lookup_child d nm s = (r, s') ->
  respelled s s' /\ forall n, r = Some n -> live s n /\ n ∈ K d.
Proof.
  intros W Hd. unfold vfs_lookup_child, st_bind at 1, st_get.
  destruct (negb (n_type (nd s d) =? VFS_NODE_DIR)); [intros [= <- <-]; split; [apply respelled_refl | done]|].
  rewrite (kids_eq s K d (w_shape _ _ _ W) Hd).
  assert (Hin : forall f x, find f (K d) = Some x -> live s x /\ x ∈ K d).
  { intros f x [Hx _]%List.find_some. apply list_elem_of_In in Hx.
    split; [by apply (sh_live _ _ (w_shape _ _ _ W) d) | done]. }
  destruct (find (fun x => eq (n_name (nd s x)) nm) (K d)) as [x|] eqn:F1.
  { intros [= <- <-]. split; [apply respelled_refl|]. intros n [= <-]. by eapply Hin. }
  clear F1. destruct (find _ (K d)) as [x|] eqn:F2; [|intros [= <- <-]; split; [apply respelled_refl | done]].
  unfold st_bind. destruct (renames_root_dir s x nm); cbn; intros [= <- <-].
  - split; [|intros n [= <-]; by eapply Hin]. split; try done. intros i. rewrite nd_upd.
    destruct (Z.eqb_spec x i) as [->|]; [by eexists|]. exists (n_name (nd s i)). by destruct (nd s i).
  - split; [apply respelled_refl|]. intros n [= <-]. by eapply Hin.
Qed.

Lemma mr_findable s K x : vfs_wf s K -> findable s K x -> findable s K (mr s x).
Proof.
  intros W Hx. unfold mr. destruct (n_mounted (nd s x)) as [m|] eqn:Hm; [|done].
  destruct (mt_root (mt s m)) as [r|] eqn:Hr; [|done].
  destruct (w_mtroot _ _ _ W m r Hr). by split; [|left].
Qed.

Lemma dotdot_findable s K x : vfs_wf s K -> findable s K x -> findable s K (lookup_dotdot s x).
Proof.
  intros W Hx. unfold lookup_dotdot. destruct (n_parent (nd s x)) as [p|] eqn:Hp; [|done].
  destruct (w_parent _ _ _ W x p (proj1 Hx) Hp) as [Hpl Hpt].
  assert (Hpf : findable s K p) by (by split; [|left]).
  destruct (n_mounted (nd s p)) as [m|]; [|done]. destruct (bool_decide _); [|done].
  destruct (n_parent (nd s p)) as [g|] eqn:Hg; [|done].
  destruct (w_parent _ _ _ W p g Hpl Hg). by split; [|left].
Qed.

Lemma lookup_loop_spec fuel s K cur p r s' : vfs_wf s K -> findable s K cur -> lookup_loop fuel cur p s = (r, s') ->
  respelled s s' /\ forall n, r = Some n -> findable s K n.
Proof.
  revert s cur p. induction fuel as [|fuel IH]; intros s cur p W Hc; cbn [lookup_loop].
  { intros [= <- <-]. split; [apply respelled_refl | by intros n [= <-]]. }
  destruct (skip_slashes p) as [|c p'] eqn:Hp.
  { intros [= <- <-]. split; [apply respelled_refl | by intros n [= <-]]. }
  destruct (span_part (c :: p')) as [whole rest]. unfold st_bind at 1, st_get.
  destruct (eq _ (cs ".")); [by apply IH|].
  destruct (eq _ (cs "..")); [apply IH; [done | by apply dotdot_findable]|].
  unfold st_bind at 1. destruct (vfs_lookup_child (mr s cur) _ s) as [q s1] eqn:Hq.
  destruct (lookup_child_spec s K _ _ q s1 W (proj1 (mr_findable s K cur W Hc)) Hq) as [Hs1 Hn].
  destruct q as [q|]; [|intros [= <- <-]; by split].
  unfold st_bind. intros He. pose proof (respelled_wf s s1 K W Hs1) as W1.
  assert (Hqf : findable s K q).
  { destruct (Hn q eq_refl). split; [done|]. right. exists (mr s cur). split; [apply (mr_findable s K cur W Hc) | done]. }
  destruct (IH s1 (mr s1 q) rest W1) as [Hs2 Hr]; [|done|].
  - apply mr_findable; [done|]. by apply (respelled_findable s s1 K q Hs1).
  - split; [by apply respelled_trans with s1|]. intros n Hn'. apply (respelled_findable s s1 K n Hs1). by apply Hr.
Qed.

Lemma vfs_lookup_spec s K p r s' : vfs_wf s K -> vfs_lookup p s = (r, s') ->
  respelled s s' /\ vfs_wf s' K /\ forall n, r = Some n -> findable s K n.
Proof.
  intros W He.
  assert (H : respelled s s' /\ forall n, r = Some n -> findable s K n).
  { revert He. unfold vfs_lookup, st_bind, st_get.
    assert (Hroot : forall x, v_root s = Some x -> findable s K x)
      by (intros x Hx; destruct (w_root _ _ _ W x Hx); by split; [|left]).
    destruct p as [|c rest]; [intros [= <- <-]; split; [apply respelled_refl | done]|].
    destruct (negb (c =? SLASH)); [intros [= <- <-]; split; [apply respelled_refl | done]|].
    destruct rest as [|c' rest]; [intros [= <- <-]; split; [apply respelled_refl | done]|].
    destruct (v_root s) as [x|] eqn:Hx; [|intros [= <- <-]; split; [apply respelled_refl | done]].
    apply lookup_loop_spec; [done | by apply Hroot]. }
  split; [apply H|]. split; [by eapply respelled_wf; [|apply H] | apply H].
Qed.

Lemma parent_for_create_spec s K p r s' : vfs_wf s K -> vfs_parent_for_create p s = (r, s') ->
  respelled s s' /\ vfs_wf s' K /\ forall q nm, r = Some (q, nm) -> findable s K q.
Proof.
  intros W. unfold vfs_parent_for_create. destruct (split_for_create p) as [[dir nm]|].
  - unfold st_bind. destruct (vfs_lookup dir s) as [q s1] eqn:Hq. intros [= <- <-].
    destruct (vfs_lookup_spec s K dir q s1 W Hq) as (H1 & H2 & H3). split; [done|]. split; [done|].
    intros q' nm'. destruct q as [q|]; [|done]. intros [= <- <-]. by apply H3.
  - intros [= <- <-]. split; [apply respelled_refl|]. by split.
Qed.
