(* ===== verification/VfsOps.v ===== *)
(** * The operations of the file system keep its invariant

    Two changes of the tree carry all of them: a new node enters a directory
    ([inserted]), and a node leaves its directory ([removed]).  The second part
    shows it for every call. *)

From Stdlib Require Import String.
From S2P Require Import Prelude Words CStr Vfs VfsFacts.
Local Open Scope Z_scope.

(** ** Entering a directory *)

(** [s'] is [s] with the new node [N] in the directory [p]; [o] is the inode
    that gained a name, when [N] is a second name of an inode. *)
Record inserted (s s' : vfs) (p : Z) (N : vfs_node) (o : option Z) : Prop := {
  in_used : v_node_used s' = v_node_used s + 1;
  in_max : v_node_used s < VFS_MAX_NODES;
  in_dir : live s p /\ ftype s p = VFS_NODE_DIR;
  in_new : nd s' (v_node_used s) = N;
  in_old : forall i, live s i -> n_size (nd s' i) = n_size (nd s i) /\
    core (nd s' i) =
      let n := if i =? p then with_children (Some (v_node_used s)) (nd s i) else nd s i in
      core (if bool_decide (o = Some i) then with_nlink (n_nlink n + 1) n else n);
  in_links : n_parent N = Some p /\ n_next N = n_children (nd s p) /\ n_children N = None /\ n_mounted N = None;
  in_root : v_root s' = v_root s;
  in_mounts : forall m, mt s' m = mt s m;
  in_slots : forall d, is_slot d -> slot_used s' d = true <->
    slot_used s d = true \/ (n_type N = VFS_NODE_FILE /\ o = None /\ n_data N = Some d);
  in_file : n_type N = VFS_NODE_FILE ->
    match o with
    | None => n_inode_owner N = Some (v_node_used s) /\ n_nlink N = 1 /\ buffer_ok s' N /\
        forall d, is_slot d -> n_data N = Some d -> slot_used s d = false
    | Some o => inode s o /\ 0 < n_nlink (nd s o) /\ n_inode_owner N = Some o
    end;
  in_other : n_type N <> VFS_NODE_FILE -> o = None /\ n_inode_owner N = Some (v_node_used s) /\ n_data N = None
}.

Section Insert.
Variables (s s' : vfs) (K : Z -> list Z) (p : Z) (N : vfs_node) (o : option Z).
Hypothesis (W : vfs_wf s K) (I : inserted s s' p N o).
Let x := v_node_used s.
Let K' := fset (fset K x []) p (x :: K p).

Lemma ins_p : p <> x /\ live s p.
Proof. destruct (in_dir _ _ _ _ _ I) as [Hp _]. split; [unfold live, x in *; lia | done]. Qed.

Lemma ins_live i : live s' i <-> live s i \/ i = x.
Proof. unfold live, x. rewrite (in_used _ _ _ _ _ I). pose proof (sh_used _ _ (w_shape _ _ _ W)). lia. Qed.

Lemma ins_old i : live s i -> ftype s' i = ftype s i /\ n_parent (nd s' i) = n_parent (nd s i) /\
  n_next (nd s' i) = n_next (nd s i) /\ n_mounted (nd s' i) = n_mounted (nd s i) /\ n_data (nd s' i) = n_data (nd s i) /\
  n_capacity (nd s' i) = n_capacity (nd s i) /\ n_inode_owner (nd s' i) = n_inode_owner (nd s i) /\
  n_nlink (nd s' i) = (if bool_decide (o = Some i) then n_nlink (nd s i) + 1 else n_nlink (nd s i)) /\
  n_children (nd s' i) = (if i =? p then Some x else n_children (nd s i)).
Proof.
  intros Hi. destruct (in_old _ _ _ _ _ I i Hi) as [_ Hc]. cbn zeta in Hc. apply core_fields in Hc.
  destruct Hc as (E1 & E2 & E3 & E4 & E5 & E6 & E7 & E8 & E9). unfold ftype.
  rewrite E1, E2, E3, E4, E5, E6, E7, E8, E9. unfold x. by destruct (i =? p), (bool_decide (o = Some i)).
Qed.

Lemma ins_x : ftype s' x = n_type N /\ nd s' x = N.
Proof. unfold x, ftype. by rewrite (in_new _ _ _ _ _ I). Qed.

Lemma ins_kids d : live s d -> K' d = if d =? p then x :: K p else K d.
Proof.
  intros Hd. unfold K', fset. destruct (d =? p); [done|]. destruct (Z.eqb_spec d x) as [->|]; [|done].
  unfold live, x in Hd. lia.
Qed.

Lemma ins_kids_x : K' x = [].
Proof. unfold K'. rewrite fset_ne by (apply not_eq_sym, ins_p). apply fset_eq. Qed.

Lemma ins_shape : shape s' K'.
Proof.
  destruct ins_p as [Hpx Hp]. pose proof (w_shape _ _ _ W) as Hs.
  assert (Hnx : ~ live s x) by (unfold live, x; lia).
  assert (Hll : forall l y, (forall i, i ∈ l -> live s i) -> llist s y l -> llist s' y l).
  { intros l y Hl. apply llist_agree. intros i Hi. by apply ins_old, Hl. }
  split.
  - rewrite (in_used _ _ _ _ _ I). pose proof (in_max _ _ _ _ _ I). pose proof (sh_used _ _ Hs). lia.
  - intros d [Hd| ->]%ins_live.
    + rewrite ins_kids by done. destruct (ins_old d Hd) as (_ & _ & _ & _ & _ & _ & _ & _ & ->).
      destruct (Z.eqb_spec d p) as [->|].
      * cbn [llist]. split; [done|]. rewrite (proj2 ins_x), (proj1 (proj2 (in_links _ _ _ _ _ I))).
        apply Hll; [intros i; by apply (sh_live _ _ Hs p) | by apply Hs].
      * apply Hll; [intros i; by apply (sh_live _ _ Hs d) | by apply Hs].
    + rewrite ins_kids_x, (proj2 ins_x). apply I.
  - intros d y [Hd| ->]%ins_live; [|rewrite ins_kids_x; by intros ?%not_elem_of_nil].
    rewrite ins_kids by done. intros Hy. apply ins_live. destruct (Z.eqb_spec d p) as [->|].
    + apply elem_of_cons in Hy as [->|Hy]; [by right | left; by apply (sh_live _ _ Hs p)].
    + left. by apply (sh_live _ _ Hs d).
  - intros d [Hd| ->]%ins_live; [|rewrite ins_kids_x; apply NoDup_nil_2].
    rewrite ins_kids by done. destruct (Z.eqb_spec d p) as [->|]; [|by apply Hs].
    apply NoDup_cons. split; [|by apply Hs]. intros Hx. apply Hnx. by apply (sh_live _ _ Hs p).
  - assert (Hnk : forall d, live s d -> x ∉ K d) by (intros d Hd Hx; apply Hnx; by apply (sh_live _ _ Hs d)).
    intros d d' y [Hd| ->]%ins_live [Hd'| ->]%ins_live Hy Hy'; rewrite ?ins_kids_x in *;
      try (by apply not_elem_of_nil in Hy); try (by apply not_elem_of_nil in Hy').
    rewrite ins_kids in Hy, Hy' by done.
    destruct (Z.eqb_spec d p) as [->|], (Z.eqb_spec d' p) as [->|]; try done.
    + apply elem_of_cons in Hy as [->|Hy]; [by destruct (Hnk d') | by apply (sh_disj _ _ Hs p d' y)].
    + apply elem_of_cons in Hy' as [->|Hy']; [by destruct (Hnk d) | by apply (sh_disj _ _ Hs d p y)].
    + by apply (sh_disj _ _ Hs d d' y).
Qed.

Lemma ins_inode i : inode s' i <-> inode s i \/ (i = x /\ n_type N = VFS_NODE_FILE /\ o = None).
Proof.
  unfold inode. rewrite ins_live. split.
  - intros ([Hi| ->] & Ht & Ho).
    + left. destruct (ins_old i Hi) as (E1 & _ & _ & _ & _ & _ & E2 & _). rewrite E1 in Ht. rewrite E2 in Ho. done.
    + right. destruct ins_x as [Et En]. rewrite Et in Ht. rewrite En in Ho. split; [done|]. split; [done|].
      pose proof (in_file _ _ _ _ _ I Ht) as Hf. destruct o as [o'|]; [|done].
      destruct Hf as ((Hl & _) & _ & E). rewrite Ho in E. injection E as <-. unfold live, x in Hl. lia.
  - intros [(Hi & Ht & Ho)|(-> & Ht & En)].
    + destruct (ins_old i Hi) as (-> & _ & _ & _ & _ & _ & -> & _). split; [by left | done].
    + destruct ins_x as [-> ->]. split; [by right|]. split; [done|].
      pose proof (in_file _ _ _ _ _ I Ht) as Hf. rewrite En in Hf. apply Hf.
Qed.

Lemma ins_links i : live s i \/ i = x -> links s' i = links s i + (if bool_decide (names s' i x) then 1 else 0).
Proof.
  intros Hi. unfold links. rewrite (in_used _ _ _ _ _ I). fold x.
  replace (seqZ 0 (x + 1)) with (seqZ 0 x ++ [x]).
  2:{ pose proof (sh_used _ _ (w_shape _ _ _ W)). unfold x. rewrite seqZ_app by lia. done. }
  rewrite filter_app, length_app. rewrite (length_filter_iff_in (names s' i) (names s i)).
  2:{ intros q Hq%elem_of_seqZ. assert (Hl : live s q) by (unfold live, x in *; lia). unfold names.
      destruct (ins_old q Hl) as (-> & -> & _ & _ & _ & _ & -> & _). done. }
  rewrite filter_cons, filter_nil. destruct (decide (names s' i x)).
  - rewrite bool_decide_true by done. cbn [length]. lia.
  - rewrite bool_decide_false by done. cbn [length]. lia.
Qed.

(** No node names the index that is not in use yet. *)
Lemma links_fresh : links s x = 0.
Proof.
  assert (Hn : forall q, q ∈ seqZ 0 (v_node_used s) -> ~ names s x q).
  - intros q Hq%elem_of_seqZ (Ht & Ho & _).
    destruct (w_owner _ _ _ W q) as (o' & E & Hin); [unfold live; lia | done |].
    rewrite Ho in E. injection E as <-. destruct Hin as [Hl _]. unfold live, x in Hl. lia.
  - unfold links. induction (seqZ 0 (v_node_used s)) as [|q l IH]; [done|].
    rewrite filter_cons, decide_False by (apply Hn; left). apply IH. intros; apply Hn. by right.
Qed.

Lemma ins_nlink i : inode s' i -> n_nlink (nd s' i) = links s' i + 0.
Proof.
  intros Hi. rewrite ins_links by (apply ins_inode in Hi as [[? _]|[? _]]; auto).
  destruct ins_x as [Et En].
  assert (Hnx : names s' i x <-> n_type N = VFS_NODE_FILE /\ n_inode_owner N = Some i).
  { unfold names. rewrite Et, En. destruct (in_links _ _ _ _ _ I) as (-> & _). split; [by intros (? & ? & _) | by intros []]. }
  apply ins_inode in Hi as [Hi|(-> & Ht & Eo)].
  - destruct (ins_old i (proj1 Hi)) as (_ & _ & _ & _ & _ & _ & _ & -> & _). rewrite (w_links _ _ _ W i Hi), Z.add_0_r.
    assert (Heq : o = Some i <-> names s' i x).
    { rewrite Hnx. split.
      - intros Eo. destruct (decide (n_type N = VFS_NODE_FILE)) as [Ht|Ht].
        + pose proof (in_file _ _ _ _ _ I Ht) as Hf. rewrite Eo in Hf. split; [done | apply Hf].
        + destruct (in_other _ _ _ _ _ I Ht). congruence.
      - intros [Ht E]. pose proof (in_file _ _ _ _ _ I Ht) as Hf. destruct o as [o'|].
        + destruct Hf as (_ & _ & E'). congruence.
        + destruct Hf as (E' & _). rewrite E in E'. injection E' as ->. destruct Hi as [Hl _]. unfold live, x in Hl. lia. }
    destruct (bool_decide_reflect (o = Some i)), (bool_decide_reflect (names s' i x)); tauto || lia.
  - pose proof (in_file _ _ _ _ _ I Ht) as Hf. rewrite Eo in Hf. destruct Hf as (E & E1 & _).
    rewrite En, E1, links_fresh. rewrite bool_decide_true by (apply Hnx; done). lia.
Qed.

Lemma ins_buffer i : inode s' i -> buffer_ok s' (nd s' i).
Proof.
  intros [Hi|(-> & Ht & Eo)]%ins_inode.
  - destruct (w_buffer _ _ _ W i Hi) as [Hz Hb]. unfold buffer_ok.
    destruct (in_old _ _ _ _ _ I i (proj1 Hi)) as [-> _].
    destruct (ins_old i (proj1 Hi)) as (_ & _ & _ & _ & -> & -> & _ & -> & _). split; [done|].
    assert (Hnl : bool_decide (o = Some i) = true -> 0 < n_nlink (nd s i)).
    { intros Eo%bool_decide_eq_true. destruct (decide (n_type N = VFS_NODE_FILE)) as [Ht|Ht].
      - pose proof (in_file _ _ _ _ _ I Ht) as Hf. rewrite Eo in Hf. apply Hf.
      - destruct (in_other _ _ _ _ _ I Ht). congruence. }
    destruct Hb as [(E1 & E2 & E3)|[Hb|(d & E1 & E2 & E3 & E4 & E5)]].
    + left. destruct (bool_decide (o = Some i)); [specialize (Hnl eq_refl); lia | done].
    + right. by left.
    + right; right. exists d. split_and!; try done; [apply (in_slots _ _ _ _ _ I d E2); by left|].
      destruct (bool_decide (o = Some i)); lia.
  - destruct ins_x as [_ ->]. pose proof (in_file _ _ _ _ _ I Ht) as Hf. rewrite Eo in Hf. apply Hf.
Qed.

(** The new inode's slot was free. *)
Lemma ins_fresh_slot i d : o = None -> n_type N = VFS_NODE_FILE -> is_slot d -> n_data N = Some d ->
  inode s i -> n_data (nd s i) <> Some d.
Proof.
  intros Eo Ht Hd Hn Hi E. pose proof (in_file _ _ _ _ _ I Ht) as Hf. rewrite Eo in Hf.
  destruct Hf as (_ & _ & _ & Hfree). specialize (Hfree d Hd Hn).
  destruct (w_buffer _ _ _ W i Hi) as [_ [(E' & _)|[(E' & _)|(d' & E' & _ & Hu & _)]]]; rewrite E in E'.
  - done.
  - injection E' as ->. unfold is_slot, XORG_LOG, VFS_DATA_SLOTS in Hd. lia.
  - injection E' as <-. congruence.
Qed.

Theorem inserted_wf : vfs_wf s' K'.
Proof.
  destruct ins_p as [Hpx Hp]. destruct ins_x as [Etx Enx]. destruct (in_links _ _ _ _ _ I) as (Ip & _ & _ & Im).
  pose proof (proj2 (in_dir _ _ _ _ _ I)) as Hpd.
  split.
  - apply ins_shape.
  - intros d y [Hd| ->]%ins_live; [|rewrite ins_kids_x; by intros ?%not_elem_of_nil].
    rewrite ins_kids by done. intros Hy.
    assert (Hold : forall d, live s d -> y ∈ K d -> n_parent (nd s' y) = Some d).
    { intros d' Hd' Hy'. destruct (ins_old y) as (_ & -> & _); [by apply (sh_live _ _ (w_shape _ _ _ W) d')|].
      by apply (w_kid_parent _ _ _ W). }
    destruct (Z.eqb_spec d p) as [->|]; [|by apply Hold].
    apply elem_of_cons in Hy as [->|Hy]; [by rewrite Enx | by apply Hold].
  - intros y q [Hy| ->]%ins_live.
    + destruct (ins_old y Hy) as (_ & -> & _). intros Hq. destruct (w_parent _ _ _ W y q Hy Hq) as [Hl Ht].
      split; [apply ins_live; by left|]. by destruct (ins_old q Hl) as (-> & _).
    + rewrite Enx, Ip. intros [= <-]. split; [apply ins_live; by left|]. by destruct (ins_old p Hp) as (-> & _).
  - intros y q [Hy| ->]%ins_live.
    + destruct (ins_old y Hy) as (-> & -> & _). intros Ht Hq.
      destruct (w_parent _ _ _ W y q Hy Hq) as [Hl _]. rewrite ins_kids by done.
      pose proof (w_file_kid _ _ _ W y q Hy Ht Hq). destruct (Z.eqb_spec q p) as [->|]; [by right | done].
    + rewrite Enx, Ip. intros _ [= <-]. rewrite ins_kids, Z.eqb_refl by done. left.
  - intros r. rewrite (in_root _ _ _ _ _ I). intros Hr. destruct (w_root _ _ _ W r Hr) as [Hl Ht].
    split; [apply ins_live; by left|]. by destruct (ins_old r Hl) as (-> & _).
  - intros y m [Hy| ->]%ins_live; [|by rewrite Enx, Im].
    destruct (ins_old y Hy) as (-> & _ & _ & -> & _). by apply (w_mount _ _ _ W).
  - intros m r. rewrite (in_mounts _ _ _ _ _ I). intros Hr'. destruct (w_mtroot _ _ _ W m r Hr') as [Hl Htr].
    split; [apply ins_live; by left|]. by destruct (ins_old r Hl) as (-> & _).
  - intros y [Hy| ->]%ins_live.
    + destruct (ins_old y Hy) as (-> & _ & _ & _ & _ & _ & -> & _). intros Ht.
      destruct (w_owner _ _ _ W y Hy Ht) as (o' & E & Hi). exists o'. split; [done|]. apply ins_inode. by left.
    + rewrite Etx, Enx. intros Ht. pose proof (in_file _ _ _ _ _ I Ht) as Hf. remember o as q eqn:Eq in Hf. destruct q as [o'|].
      * exists o'. split; [apply Hf|]. apply ins_inode. left. apply Hf.
      * exists x. split; [apply Hf|]. apply ins_inode. by right.
  - intros y [Hy| ->]%ins_live.
    + destruct (ins_old y Hy) as (-> & _ & _ & _ & -> & _ & -> & _). by apply (w_self _ _ _ W).
    + rewrite Etx, Enx. intros Ht. apply (in_other _ _ _ _ _ I Ht).
  - apply ins_nlink.
  - apply ins_buffer.
  - intros i j d Hi%ins_inode Hj%ins_inode Hd.
    destruct Hi as [Hi|(-> & Ht & Eo)], Hj as [Hj|(-> & Ht' & Eo')]; rewrite ?Enx.
    + destruct (ins_old i (proj1 Hi)) as (_ & _ & _ & _ & -> & _).
      destruct (ins_old j (proj1 Hj)) as (_ & _ & _ & _ & -> & _). by apply (w_excl _ _ _ W).
    + destruct (ins_old i (proj1 Hi)) as (_ & _ & _ & _ & -> & _). intros E1 E2.
      by destruct (ins_fresh_slot i d Eo' Ht' Hd E2 Hi).
    + destruct (ins_old j (proj1 Hj)) as (_ & _ & _ & _ & -> & _). intros E1 E2.
      by destruct (ins_fresh_slot j d Eo Ht Hd E1 Hj).
    + done.
  - intros d Hd Hu. apply (in_slots _ _ _ _ _ I d Hd) in Hu as [Hu|(Ht & Eo & En)].
    + destruct (w_noleak _ _ _ W d Hd Hu) as (i & Hi & E). exists i. split; [apply ins_inode; by left|].
      by destruct (ins_old i (proj1 Hi)) as (_ & _ & _ & _ & -> & _).
    + exists x. split; [apply ins_inode; by right | by rewrite Enx].
Qed.

End Insert.

(** ** Leaving a directory *)

(** The link fields of a node in no list are free. *)
Lemma loose_shape s K n f : shape s K -> loose s K n -> (forall x, n_children (f x) = n_children x) ->
  shape (upd_node n f s) K.
Proof.
  intros Hs Hlo Hf. split; try apply Hs.
  intros d Hd. assert (Hc : n_children (nd (upd_node n f s) d) = n_children (nd s d))
    by (rewrite nd_upd; by destruct (Z.eqb_spec n d) as [->|]).
  rewrite Hc. apply llist_agree with s; [|by apply Hs].
  intros i Hi. rewrite nd_upd_ne; [done|]. intros ->. by apply (Hlo d).
Qed.

(** The fields the invariant reads, other than the links of the tree. *)
Definition payload (n : vfs_node) :=
  (n_type n, n_mounted n, n_data n, n_size n, n_capacity n, n_nlink n, n_inode_owner n).

Lemma payload_fields n n' : payload n' = payload n ->
  n_type n' = n_type n /\ n_mounted n' = n_mounted n /\ n_data n' = n_data n /\ n_size n' = n_size n /\
  n_capacity n' = n_capacity n /\ n_nlink n' = n_nlink n /\ n_inode_owner n' = n_inode_owner n.
Proof. unfold payload. intros [= ? ? ? ? ? ? ?]. done. Qed.

(** Nothing but links changed, and those of [n] include its parent. *)
Record relinked (s s' : vfs) (n : Z) (q : option Z) : Prop := {
  rl_used : v_node_used s' = v_node_used s;
  rl_root : v_root s' = v_root s;
  rl_slots : v_data_used s' = v_data_used s;
  rl_mounts : v_mounts s' = v_mounts s;
  rl_nodes : forall i, payload (nd s' i) = payload (nd s i) /\
    n_parent (nd s' i) = if i =? n then q else n_parent (nd s i)
}.

Lemma unlisted_nodes p n s i : payload (nd (unlisted p n s) i) = payload (nd s i) /\
  n_parent (nd (unlisted p n s) i) = n_parent (nd s i).
Proof.
  unfold unlisted. destruct (pred_of n None (kids s p)) as [[q|]|]; rewrite nd_upd;
    (destruct (_ =? i) eqn:E; [apply Z.eqb_eq in E as -> |]; done).
Qed.

Lemma unlisted_frame p n s : v_node_used (unlisted p n s) = v_node_used s /\ v_root (unlisted p n s) = v_root s /\
  v_data_used (unlisted p n s) = v_data_used s /\ v_mounts (unlisted p n s) = v_mounts s.
Proof. unfold unlisted. by destruct (pred_of n None (kids s p)) as [[q|]|]. Qed.

(** The state after [unlist] and [detach]. *)
Definition taken_out (p n : Z) (s : vfs) : vfs :=
  upd_node n (with_next None) (upd_node n (with_parent None) (unlisted p n s)).

Lemma taken_out_relinked p n s : relinked s (taken_out p n s) n None.
Proof.
  destruct (unlisted_frame p n s) as (E1 & E2 & E3 & E4). split; try done.
  intros i. unfold taken_out. rewrite nd_upd, !nd_upd_eq.
  destruct (Z.eqb_spec n i) as [<-|Hne].
  - rewrite Z.eqb_refl. split; [|done]. apply unlisted_nodes.
  - rewrite nd_upd_ne by done. rewrite (proj2 (Z.eqb_neq i n)) by congruence. apply unlisted_nodes.
Qed.

Lemma taken_out_shape p n s K : shape s K -> live s p -> n ∈ K p ->
  shape (taken_out p n s) (fset K p (without n (K p))).
Proof.
  intros Hs Hp Hn. destruct (unlist_spec s K p n Hs Hp) as [[? _]|(_ & _ & Hs1)]; [done|].
  assert (Hlo : loose (unlisted p n s) (fset K p (without n (K p))) n).
  { intros d Hd Hin. unfold live in Hd. rewrite (proj1 (unlisted_frame p n s)) in Hd. unfold fset in Hin.
    destruct (Z.eqb_spec d p) as [->|Hne]; [by apply elem_of_without in Hin as [_ ?]|].
    apply Hne. by apply (sh_disj _ _ Hs d p n). }
  apply loose_shape; [|done|done]. by apply loose_shape.
Qed.

Lemma relinked_inode s s' n q i : relinked s s' n q -> inode s' i <-> inode s i.
Proof.
  intros R. destruct (rl_nodes _ _ _ _ R i) as [P _]. apply payload_fields in P as (E1 & _ & _ & _ & _ & _ & E2).
  unfold inode, live, ftype. by rewrite (rl_used _ _ _ _ R), E1, E2.
Qed.

(** The names of an inode when [n] loses its place. *)
Lemma relinked_links s s' K n i : vfs_wf s K -> relinked s s' n None -> live s n -> is_Some (n_parent (nd s n)) ->
  links s i = links s' i + (if bool_decide (ftype s n = VFS_NODE_FILE /\ n_inode_owner (nd s n) = Some i) then 1 else 0).
Proof.
  intros W R Hn Hp. unfold links. rewrite (rl_used _ _ _ _ R).
  assert (Hnm : forall x, names s' i x <-> names s i x /\ x <> n).
  { intros x. destruct (rl_nodes _ _ _ _ R x) as [P Ep]. apply payload_fields in P as (E1 & _ & _ & _ & _ & _ & E2).
    unfold names, ftype. rewrite E1, E2, Ep. destruct (Z.eqb_spec x n) as [->|]; [|naive_solver].
    split; [by intros (_ & _ & []) | naive_solver]. }
  destruct (bool_decide_reflect (ftype s n = VFS_NODE_FILE /\ n_inode_owner (nd s n) = Some i)) as [[Ht Ho]|Hno].
  - rewrite (length_filter_remove (names s i) (names s' i) n); [lia | apply NoDup_seqZ | | done | intros; apply Hnm].
    apply elem_of_seqZ. unfold live in Hn. lia.
  - rewrite (length_filter_iff_in (names s i) (names s' i)); [lia|]. intros x _. rewrite Hnm. split; [naive_solver|].
    intros (Ht & Ho & Hpx). split; [done|]. intros ->. by apply Hno.
Qed.

Lemma taken_out_wf s K p n : vfs_wf s K -> live s p -> n ∈ K p ->
  vfs_wfx (taken_out p n s) (fset K p (without n (K p)))
    (if bool_decide (ftype s n = VFS_NODE_FILE) then n_inode_owner (nd s n) else None).
Proof.
  intros W Hp Hn. pose proof (taken_out_relinked p n s) as R. pose proof (taken_out_shape p n s K (w_shape _ _ _ W) Hp Hn) as Hs.
  set (s' := taken_out p n s) in *. set (K' := fset K p (without n (K p))) in *.
  assert (Hnl : live s n) by (by apply (sh_live _ _ (w_shape _ _ _ W) p)).
  assert (Hl : forall i, live s' i <-> live s i) by (intros i; unfold live; by rewrite (rl_used _ _ _ _ R)).
  assert (Hf : forall i, n_type (nd s' i) = n_type (nd s i) /\ n_mounted (nd s' i) = n_mounted (nd s i) /\
    n_data (nd s' i) = n_data (nd s i) /\ n_size (nd s' i) = n_size (nd s i) /\ n_capacity (nd s' i) = n_capacity (nd s i) /\
    n_nlink (nd s' i) = n_nlink (nd s i) /\ n_inode_owner (nd s' i) = n_inode_owner (nd s i))
    by (intros i; apply payload_fields, (rl_nodes _ _ _ _ R)).
  assert (Ht : forall i, ftype s' i = ftype s i) by (intros i; apply Hf).
  assert (Hpar : forall i, n_parent (nd s' i) = if i =? n then None else n_parent (nd s i)) by apply R.
  assert (Hin : forall i, inode s' i <-> inode s i) by (intros i; by apply (relinked_inode s s' n None)).
  assert (HK : forall d y, y ∈ K' d <-> y ∈ K d /\ (d = p -> y <> n)).
  { intros d y. unfold K', fset. destruct (Z.eqb_spec d p) as [->|]; [rewrite elem_of_without|]; naive_solver. }
  assert (Hsl : forall d, slot_used s' d = slot_used s d) by (intros d; unfold slot_used; by rewrite (rl_slots _ _ _ _ R)).
  split.
  - done.
  - intros d y Hd%Hl [Hy Hne]%HK. rewrite Hpar. destruct (Z.eqb_spec y n) as [->|]; [|by apply (w_kid_parent _ _ _ W)].
    exfalso. apply Hne; [|done]. by apply (sh_disj _ _ (w_shape _ _ _ W) d p n).
  - intros y q Hy%Hl. rewrite Hpar, Hl, Ht. destruct (y =? n); [done|]. by apply (w_parent _ _ _ W).
  - intros y q Hy%Hl. rewrite Hpar, Ht. destruct (Z.eqb_spec y n) as [->|Hne]; [done|]. intros Hty Hq.
    apply HK. split; [by apply (w_file_kid _ _ _ W) | done].
  - intros r. rewrite (rl_root _ _ _ _ R), Hl, Ht. apply (w_root _ _ _ W).
  - intros y m Hy%Hl. destruct (Hf y) as (_ & -> & _). rewrite Ht. by apply (w_mount _ _ _ W).
  - intros m r. unfold mt. rewrite (rl_mounts _ _ _ _ R), Hl, Ht. apply (w_mtroot _ _ _ W).
  - intros y Hy%Hl. rewrite Ht. destruct (Hf y) as (_ & _ & _ & _ & _ & _ & ->). setoid_rewrite Hin. by apply (w_owner _ _ _ W).
  - intros y Hy%Hl. rewrite Ht. destruct (Hf y) as (_ & _ & -> & _ & _ & _ & ->). by apply (w_self _ _ _ W).
  - intros o Ho%Hin. destruct (Hf o) as (_ & _ & _ & _ & _ & -> & _). rewrite (w_links _ _ _ W o Ho).
    rewrite (relinked_links s s' K n o W R Hnl); [|rewrite (w_kid_parent _ _ _ W p n Hp Hn); by eexists].
    destruct (bool_decide_reflect (ftype s n = VFS_NODE_FILE)) as [Hty|Hty].
    + rewrite (bool_decide_ext (ftype s n = VFS_NODE_FILE /\ n_inode_owner (nd s n) = Some o)
                 (n_inode_owner (nd s n) = Some o)) by naive_solver.
      rewrite (bool_decide_false (None = Some o)) by done. apply Z.add_0_r.
    + rewrite bool_decide_false by naive_solver. apply Z.add_0_r.
  - intros o Ho%Hin. destruct (w_buffer _ _ _ W o Ho) as [Hz Hb]. unfold buffer_ok.
    destruct (Hf o) as (_ & _ & -> & -> & -> & -> & _). split; [done|]. by setoid_rewrite Hsl.
  - intros o o' d Ho%Hin Ho'%Hin. destruct (Hf o) as (_ & _ & -> & _). destruct (Hf o') as (_ & _ & -> & _).
    by apply (w_excl _ _ _ W).
  - intros d. rewrite Hsl. setoid_rewrite Hin. intros Hd Hu. destruct (w_noleak _ _ _ W d Hd Hu) as (o & Ho & E).
    exists o. split; [done|]. by destruct (Hf o) as (_ & _ & -> & _).
Qed.

(** ** Changing an inode in place *)

(** The fields that place a node in the tree. *)
Definition place (n : vfs_node) := (n_type n, n_parent n, n_children n, n_next n, n_mounted n, n_inode_owner n).

Lemma place_fields n n' : place n' = place n ->
  n_type n' = n_type n /\ n_parent n' = n_parent n /\ n_children n' = n_children n /\ n_next n' = n_next n /\
  n_mounted n' = n_mounted n /\ n_inode_owner n' = n_inode_owner n.
Proof. unfold place. intros [= ? ? ? ? ? ?]. done. Qed.

Section Change.
Variables (s s' : vfs) (K : Z -> list Z) (e : option Z).
Hypothesis (W : vfs_wfx s K e).
Hypothesis (Hu : v_node_used s' = v_node_used s) (Hr : v_root s' = v_root s) (Hm : v_mounts s' = v_mounts s).
Hypothesis (Hpl : forall i, place (nd s' i) = place (nd s i)).

Lemma chg_fields i : ftype s' i = ftype s i /\ n_parent (nd s' i) = n_parent (nd s i) /\
  n_children (nd s' i) = n_children (nd s i) /\ n_next (nd s' i) = n_next (nd s i) /\
  n_mounted (nd s' i) = n_mounted (nd s i) /\ n_inode_owner (nd s' i) = n_inode_owner (nd s i).
Proof. unfold ftype. apply place_fields, Hpl. Qed.

Lemma chg_live i : live s' i <-> live s i.
Proof. unfold live. by rewrite Hu. Qed.

Lemma chg_inode i : inode s' i <-> inode s i.
Proof. unfold inode. destruct (chg_fields i) as (-> & _ & _ & _ & _ & ->). by rewrite chg_live. Qed.

Lemma chg_links o : links s' o = links s o.
Proof.
  apply links_agree; [done|]. intros x _. unfold names. by destruct (chg_fields x) as (-> & -> & _ & _ & _ & ->).
Qed.

(** The tree is kept; what is left to show concerns buffers and counts. *)
Lemma changed_wf e' :
  (forall x, live s x -> ftype s x <> VFS_NODE_FILE -> n_data (nd s' x) = None) ->
  (forall o, inode s o -> n_nlink (nd s' o) = links s o + (if bool_decide (e' = Some o) then 1 else 0)) ->
  (forall o, inode s o -> buffer_ok s' (nd s' o)) ->
  (forall o o' d, inode s o -> inode s o' -> is_slot d -> n_data (nd s' o) = Some d -> n_data (nd s' o') = Some d -> o = o') ->
  (forall d, is_slot d -> slot_used s' d = true -> exists o, inode s o /\ n_data (nd s' o) = Some d) ->
  vfs_wfx s' K e'.
Proof.
  intros Hdat Hnl Hbuf Hex Hno. split.
  - apply shape_same with s; [apply W|]. split; [done|]. intros i _. split; apply chg_fields.
  - intros d x Hd%chg_live Hx. destruct (chg_fields x) as (_ & -> & _). by apply (w_kid_parent _ _ _ W).
  - intros x p Hx%chg_live. destruct (chg_fields x) as (_ & -> & _), (chg_fields p) as (-> & _).
    rewrite chg_live. by apply (w_parent _ _ _ W).
  - intros x p Hx%chg_live. destruct (chg_fields x) as (-> & -> & _). by apply (w_file_kid _ _ _ W).
  - intros r. rewrite Hr, chg_live. destruct (chg_fields r) as (-> & _). apply (w_root _ _ _ W).
  - intros x m Hx%chg_live. destruct (chg_fields x) as (-> & _ & _ & _ & -> & _). by apply (w_mount _ _ _ W).
  - intros m r. unfold mt. rewrite Hm, chg_live. destruct (chg_fields r) as (-> & _). apply (w_mtroot _ _ _ W).
  - intros x Hx%chg_live. destruct (chg_fields x) as (-> & _ & _ & _ & _ & ->). setoid_rewrite chg_inode.
    by apply (w_owner _ _ _ W).
  - intros x Hx%chg_live. destruct (chg_fields x) as (-> & _ & _ & _ & _ & ->). intros Ht.
    split; [by apply (w_self _ _ _ W) | by apply Hdat].
  - intros o Ho%chg_inode. rewrite chg_links. by apply Hnl.
  - intros o Ho%chg_inode. by apply Hbuf.
  - intros o o' d Ho%chg_inode Ho'%chg_inode. by apply Hex.
  - intros d. setoid_rewrite chg_inode. apply Hno.
Qed.

End Change.

(** *** Dropping a link *)

(** A node that is no file may change its count and size. *)
Lemma nonfile_upd_wf s K e i f : vfs_wfx s K e -> live s i -> ftype s i <> VFS_NODE_FILE ->
  (forall n, place (f n) = place n /\ n_data (f n) = n_data n) -> vfs_wfx (upd_node i f s) K e.
Proof.
  intros W Hi Ht Hf.
  assert (Hne : forall o, inode s o -> nd (upd_node i f s) o = nd s o)
    by (intros o (_ & Hto & _); apply nd_upd_ne; by intros ->).
  apply (changed_wf s (upd_node i f s) K e W); try done.
  - intros j. rewrite nd_upd. destruct (Z.eqb_spec i j) as [->|]; [apply Hf | done].
  - intros x Hx Htx. rewrite nd_upd. destruct (Z.eqb_spec i x) as [->|]; [rewrite (proj2 (Hf _))|]; by apply (w_self _ _ _ W).
  - intros o Ho. rewrite Hne by done. by apply (w_links _ _ _ W).
  - intros o Ho. rewrite Hne by done. by apply (w_buffer _ _ _ W).
  - intros o o' d Ho Ho'. rewrite !Hne by done. by apply (w_excl _ _ _ W).
  - intros d Hd Hus. destruct (w_noleak _ _ _ W d Hd Hus) as (o & Ho & E). exists o. by rewrite Hne.
Qed.

(** An inode whose new count is the number of its names; its slot may be
    given back. *)
Lemma inode_upd_wf s K e o f U : vfs_wfx s K e -> inode s o -> (forall i, e = Some i -> i = o) ->
  (forall n, place (f n) = place n) -> n_nlink (f (nd s o)) = links s o ->
  let s' := set_used U (upd_node o f s) in
  buffer_ok s' (f (nd s o)) ->
  (forall d, is_slot d -> slot_used s' d = true <->
     slot_used s d = true /\ (n_data (nd s o) = Some d -> n_data (f (nd s o)) = Some d)) ->
  (forall d, is_slot d -> n_data (f (nd s o)) = Some d -> n_data (nd s o) = Some d) ->
  vfs_wf s' K.
Proof.
  intros W Ho He Hf Hnl s' Hb Hsl Hd.
  assert (Hnd : forall i, nd s' i = if o =? i then f (nd s o) else nd s i) by (intros i; apply nd_upd).
  assert (Hsame : forall i d, is_slot d -> n_data (nd s' i) = Some d -> n_data (nd s i) = Some d).
  { intros i d Hd'. rewrite Hnd. destruct (Z.eqb_spec o i) as [->|]; [by apply Hd | done]. }
  apply (changed_wf s s' K e W); try done.
  - intros i. rewrite Hnd. destruct (Z.eqb_spec o i) as [->|]; [apply Hf | done].
  - intros x Hx Htx. rewrite Hnd. destruct (Z.eqb_spec o x) as [->|]; [by destruct Ho as (_ & ? & _) | by apply (w_self _ _ _ W)].
  - intros i Hi. rewrite Hnd. rewrite (bool_decide_false (None = Some i)), Z.add_0_r by done.
    destruct (Z.eqb_spec o i) as [->|Hne]; [done|]. rewrite (w_links _ _ _ W i Hi).
    rewrite bool_decide_false; [lia|]. intros E. by apply Hne, eq_sym, He.
  - intros i Hi. rewrite Hnd. destruct (Z.eqb_spec o i) as [->|Hne]; [done|].
    destruct (w_buffer _ _ _ W i Hi) as [Hz [H1|[H1|(d & E1 & E2 & E3 & E4 & E5)]]]; split; try done; [by left | right; by left|].
    right; right. exists d. split_and!; try done. apply Hsl; [done|]. split; [done|]. intros E.
    exfalso. apply Hne. by apply (w_excl _ _ _ W o i d).
  - intros i j d Hi Hj Hd' E1%Hsame E2%Hsame; try done. by apply (w_excl _ _ _ W i j d).
  - intros d Hd' Hus. apply Hsl in Hus as [Hus Hk]; [|done].
    destruct (w_noleak _ _ _ W d Hd' Hus) as (i & Hi & E). exists i. split; [done|]. rewrite Hnd.
    destruct (Z.eqb_spec o i) as [->|]; [by apply Hk | done].
Qed.

(** The names an operation leaves behind. *)
Definition pending (s : vfs) (n : Z) : option Z :=
  if bool_decide (ftype s n = VFS_NODE_FILE) then n_inode_owner (nd s n) else None.

Lemma links_nonneg s o : 0 <= links s o.
Proof. unfold links. lia. Qed.

(** [vfs_drop_link] settles the pending count, and frees the buffer of an
    inode that lost its last name. *)
Lemma drop_link_wf s K n : vfs_wfx s K (pending s n) -> live s n -> vfs_wf (snd (vfs_drop_link n s)) K.
Proof.
  intros W Hn. unfold vfs_drop_link, st_bind, st_get. unfold pending in W.
  destruct (bool_decide_reflect (ftype s n = VFS_NODE_FILE)) as [Ht|Ht].
  - destruct (w_owner _ _ _ W n Hn Ht) as (o & Eo & Ho). unfold owner_of. rewrite Eo in *. cbn [default from_option id].
    pose proof (w_links _ _ _ W o Ho) as Hl. rewrite bool_decide_true in Hl by done.
    pose proof (links_nonneg s o). rewrite (proj2 (Z.ltb_lt 0 _)) by lia.
    destruct (w_buffer _ _ _ W o Ho) as [Hz Hb]. cbn [st_mod upd snd]. rewrite nd_upd_eq. cbn [n_nlink with_nlink].
    destruct (Z.eqb_spec (n_nlink (nd s o) - 1) 0) as [E0|E0].
    + rewrite !nd_upd_eq. cbn [n_data with_size with_nlink].
      destruct Hb as [(_ & _ & ?)|[(Ed & Ec)|(d & Ed & Hd & Hu & Ec & Hk)]]; [lia| |]; rewrite Ed.
      * (* the log buffer is never freed *)
        cbn [Z.eqb negb XORG_LOG Pos.eqb snd st_ret]. rewrite upd_upd.
        apply (inode_upd_wf s K _ o (fun x => with_size 0 (with_nlink (n_nlink x - 1) x)) (v_data_used s) W Ho);
          try done; [naive_solver | cbn; lia | | naive_solver].
        split; [cbn; rewrite Ec; unfold VFS_XORG_LOG_CAP; lia|]. right. left. done.
      * unfold is_slot, VFS_DATA_SLOTS in Hd. rewrite (proj2 (Z.eqb_neq d XORG_LOG)) by (unfold XORG_LOG; lia). cbn [negb].
        unfold vfs_free_file_data, st_bind, st_get. rewrite !nd_upd_eq. cbn [n_data with_size with_nlink]. rewrite Ed.
        rewrite (proj2 (Z.leb_le 0 d)), (proj2 (Z.ltb_lt d VFS_DATA_SLOTS)) by (unfold VFS_DATA_SLOTS; lia). cbn [andb snd st_mod upd].
        rewrite upd_set_used, !upd_upd.
        apply (inode_upd_wf s K _ o (fun x => with_data None 0 (with_size 0 (with_nlink (n_nlink x - 1) x)))
          (<[d := false]> (v_data_used s)) W Ho); try done; [naive_solver | cbn; lia | |].
        -- split; [cbn; lia|]. left. cbn. split_and!; [done | done | lia].
        -- intros d' Hd'. unfold slot_used at 1. cbn [set_used v_data_used n_data with_data]. rewrite lookup_insert.
           destruct (decide (d = d')) as [<-|Hne]; cbn [default from_option id].
           ++ split; [done|]. intros [_ Hx]. by specialize (Hx Ed).
           ++ fold (slot_used s d'). rewrite Ed. split; [intros; split; [done | congruence] | by intros [? _]].
    + cbn [snd st_ret].
      apply (inode_upd_wf s K _ o (fun x => with_nlink (n_nlink x - 1) x) (v_data_used s) W Ho);
        try done; [naive_solver | cbn; lia | | naive_solver].
      split; [done|]. cbn. destruct Hb as [(_ & _ & ?)|[?|(d & Ed & Hd & Hu & Ec & Hk)]]; [lia | right; by left|].
      right; right. exists d. split_and!; try done. lia.
  - destruct (w_self _ _ _ W n Hn Ht) as [Eo Ed]. unfold owner_of. rewrite Eo. cbn [default from_option id].
    assert (Hstep : forall k : bool, vfs_wf (if k then upd_node n (fun x => with_nlink (n_nlink x - 1) x) s else s) K)
      by (intros []; [by apply nonfile_upd_wf | done]).
    assert (Hnd : forall k : bool, n_data (nd (if k then upd_node n (fun x => with_nlink (n_nlink x - 1) x) s else s) n) = None /\
      ftype (if k then upd_node n (fun x => with_nlink (n_nlink x - 1) x) s else s) n <> VFS_NODE_FILE).
    { intros []; [|done]. unfold ftype. by rewrite nd_upd_eq. }
    destruct (0 <? n_nlink (nd s n)) eqn:Hk; cbn [upd st_mod st_ret snd];
      destruct (_ =? 0); cbn [snd]; try (apply (Hstep true) || apply (Hstep false)).
    all: rewrite nd_upd_eq; cbn [n_data with_size]; (rewrite (proj1 (Hnd true)) || rewrite (proj1 (Hnd false))); cbn [snd st_ret].
    + apply nonfile_upd_wf; [apply (Hstep true) | done | apply (Hnd true) | done].
    + apply nonfile_upd_wf; [done..|done].
Qed.

(** ** unlink, rmdir *)

Lemma pending_taken p n s : pending (taken_out p n s) n = pending s n.
Proof.
  pose proof (taken_out_relinked p n s) as R. destruct (rl_nodes _ _ _ _ R n) as [P _].
  apply payload_fields in P as (E1 & _ & _ & _ & _ & _ & E2). unfold pending, ftype. by rewrite E1, E2.
Qed.

Lemma taken_live p n s i : live (taken_out p n s) i <-> live s i.
Proof. unfold live. by rewrite (rl_used _ _ _ _ (taken_out_relinked p n s)). Qed.

(** Taking a name out and dropping its link. *)
Lemma removed_wf s K p n : vfs_wf s K -> live s p -> n ∈ K p ->
  vfs_wf (snd (vfs_drop_link n (taken_out p n s))) (fset K p (without n (K p))).
Proof.
  intros W Hp Hn. apply drop_link_wf.
  - rewrite pending_taken. by apply taken_out_wf.
  - apply taken_live. by apply (sh_live _ _ (w_shape _ _ _ W) p).
Qed.

(** A directory is not a file, so no count is pending. *)
Lemma removed_dir_wf s K p n : vfs_wf s K -> live s p -> n ∈ K p -> ftype s n = VFS_NODE_DIR ->
  vfs_wf (taken_out p n s) (fset K p (without n (K p))).
Proof.
  intros W Hp Hn Ht. pose proof (taken_out_wf s K p n W Hp Hn) as H. by rewrite Ht in H.
Qed.

(** [unlist] and [detach] on a node in the list of [p]. *)
Lemma unlist_detach s K p n : vfs_wf s K -> live s p -> n ∈ K p ->
  unlist p n s = (true, unlisted p n s) /\ snd (detach n (unlisted p n s)) = taken_out p n s.
Proof.
  intros W Hp Hn. destruct (unlist_spec s K p n (w_shape _ _ _ W) Hp) as [[? _]|(_ & E & _)]; [done|]. by split.
Qed.

Lemma vfs_unlink_cases s K path : vfs_wf s K ->
  let '(n, s1) := vfs_lookup path s in
  let '(r, s') := vfs_unlink path s in
  (r = -1 /\ s' = s1 /\
     forall x, n = Some x -> Some x = v_root s \/ ftype s x = VFS_NODE_DIR \/ is_some (n_mounted (nd s x)) = true) \/
  (exists x p, r = 0 /\ n = Some x /\ live s p /\ x ∈ K p /\ ftype s x <> VFS_NODE_DIR /\
     s' = snd (vfs_drop_link x (taken_out p x s1)) /\ vfs_wf s' (fset K p (without x (K p)))).
Proof.
  intros W. destruct (vfs_lookup path s) as [n s1] eqn:HL.
  destruct (vfs_lookup_spec s K path n s1 W HL) as (R & W1 & Hn).
  unfold vfs_unlink, st_bind at 1. rewrite HL. unfold st_bind at 1, st_get.
  destruct n as [x|]; [|left; by split_and!]. destruct (Hn x eq_refl) as [Hx Hf].
  rewrite (rs_root _ _ R).
  destruct (bool_decide_reflect (Some x = v_root s)) as [Hrt|Hrt]; cbn [orb].
  { left. split_and!; try done. intros ? [= <-]. by left. }
  assert (Hty : n_type (nd s1 x) = ftype s x) by (apply (respelled_type s s1 x R)). rewrite Hty.
  destruct (Z.eqb_spec (ftype s x) VFS_NODE_DIR) as [Hd|Hd]; cbn [orb].
  { left. split_and!; try done. intros ? [= <-]. right. by left. }
  destruct (core_fields _ _ (proj1 (respelled_core s s1 x R))) as (_ & Ep & _ & _ & Em & _). rewrite Em.
  destruct (is_some (n_mounted (nd s x))) eqn:Hmt.
  { left. split_and!; try done. intros ? [= <-]. right. by right. }
  destruct Hf as [?|(d & Hdl & Hxd)]; [done|].
  rewrite Ep, (w_kid_parent _ _ _ W d x Hdl Hxd).
  assert (Htd : (n_type (nd s1 d) =? VFS_NODE_DIR) = true).
  { apply Z.eqb_eq. rewrite <- (proj2 (w_parent _ _ _ W x d Hx (w_kid_parent _ _ _ W d x Hdl Hxd))).
    apply (respelled_type s s1 d R). }
  rewrite Htd. cbn [negb]. assert (Hdl1 : live s1 d) by (by apply (respelled_live s s1 d R)).
  destruct (unlist_detach s1 K d x W1 Hdl1 Hxd) as [Hun Hde].
  unfold st_bind at 1. rewrite Hun. cbn [negb]. unfold st_bind at 1.
  destruct (detach x (unlisted d x s1)) as [u s2]. cbn [snd] in Hde. subst s2.
  unfold st_bind. pose proof (removed_wf s1 K d x W1 Hdl1 Hxd) as Hrw.
  destruct (vfs_drop_link x (taken_out d x s1)) as [v s3] eqn:Hdr. cbn [snd st_ret] in *.
  right. exists x, d. rewrite Hdr. repeat (split; [done|]). done.
Qed.

Lemma vfs_rmdir_cases s K path : vfs_wf s K ->
  let '(n, s1) := vfs_lookup path s in
  let '(r, s') := vfs_rmdir path s in
  (r <> 0 /\ s' = s1) \/
  (exists x p, r = 0 /\ n = Some x /\ live s p /\ x ∈ K p /\ ftype s x = VFS_NODE_DIR /\ K x = [] /\
     s' = taken_out p x s1 /\ vfs_wf s' (fset K p (without x (K p)))).
Proof.
  intros W. destruct (vfs_lookup path s) as [n s1] eqn:HL.
  destruct (vfs_lookup_spec s K path n s1 W HL) as (R & W1 & Hn).
  unfold vfs_rmdir, st_bind at 1. rewrite HL. unfold st_bind at 1, st_get.
  destruct n as [x|]; [|left; by split]. destruct (Hn x eq_refl) as [Hx _].
  destruct (bool_decide _ || _ || _) eqn:Hg; [left; by split|].
  apply orb_false_iff in Hg as [[_ Ht%negb_false_iff%Z.eqb_eq]%orb_false_iff _].
  destruct (n_children (nd s1 x)) as [c|] eqn:Hc; [left; by split|]. cbn [is_some].
  destruct (n_parent (nd s1 x)) as [p|] eqn:Hp; [|left; by split].
  assert (Hx1 : live s1 x) by (by apply (respelled_live s s1 x R)).
  destruct (w_parent _ _ _ W1 x p Hx1 Hp) as [Hpl1 Hpt]. unfold ftype in Hpt. rewrite Hpt. cbn [Z.eqb negb VFS_NODE_DIR Pos.eqb].
  unfold st_bind at 1. destruct (unlist_spec s1 K p x (w_shape _ _ _ W1) Hpl1) as [[_ E]|(Hin & E & _)]; rewrite E; cbn [negb].
  { left. by split. }
  destruct (unlist_detach s1 K p x W1 Hpl1 Hin) as [_ Hde]. unfold st_bind.
  destruct (detach x (unlisted p x s1)) as [u s2]. cbn [snd st_ret] in *. subst s2. right. exists x, p.
  split; [done|]. split; [done|]. split; [by apply (respelled_live s s1 p R)|]. split; [done|].
  split; [rewrite <- (respelled_type s s1 x R); exact Ht|]. split.
  - pose proof (sh_list _ _ (w_shape _ _ _ W1) x Hx1) as Hl. rewrite Hc in Hl. destruct (K x); [done|]. by destruct Hl.
  - split; [done|]. by apply removed_dir_wf.
Qed.

(** ** New nodes *)

(** The node [new_node] builds at index [v_node_used s]. *)
Definition blank_node (s : vfs) (n : cstr) (t m : Z) : vfs_node :=
  VfsNode (cp n) (v_next_ino s) m t None None None None None [] None 0 0 1 (Some (v_node_used s)).

Definition with_new (N : vfs_node) (s : vfs) : vfs :=
  upd_node (v_node_used s) (fun _ => N) (set_counts (v_node_used s + 1) (v_next_ino s + 1) s).

Lemma new_node_eq n t m s : new_node n t m s =
  if VFS_MAX_NODES <=? v_node_used s then (None, s) else (Some (v_node_used s), with_new (blank_node s n t m) s).
Proof. unfold new_node, st_bind, st_get. by destruct (_ <=? _). Qed.

Lemma nd_with_new N s i : nd (with_new N s) i = if v_node_used s =? i then N else nd s i.
Proof. unfold with_new. by rewrite nd_upd. Qed.

Lemma attach_inserted s s1 p N o : v_node_used s < VFS_MAX_NODES -> live s p -> ftype s p = VFS_NODE_DIR ->
  v_node_used s1 = v_node_used s + 1 -> v_root s1 = v_root s -> v_mounts s1 = v_mounts s ->
  nd s1 (v_node_used s) = N -> n_children N = None -> n_mounted N = None ->
  (forall i, live s i -> nd s1 i = if bool_decide (o = Some i) then with_nlink (n_nlink (nd s i) + 1) (nd s i) else nd s i) ->
  (forall d, is_slot d -> slot_used s1 d = true <->
    slot_used s d = true \/ (n_type N = VFS_NODE_FILE /\ o = None /\ n_data N = Some d)) ->
  (n_type N = VFS_NODE_FILE ->
    match o with
    | None => n_inode_owner N = Some (v_node_used s) /\ n_nlink N = 1 /\ buffer_ok s1 N /\
        forall d, is_slot d -> n_data N = Some d -> slot_used s d = false
    | Some o => inode s o /\ 0 < n_nlink (nd s o) /\ n_inode_owner N = Some o
    end) ->
  (n_type N <> VFS_NODE_FILE -> o = None /\ n_inode_owner N = Some (v_node_used s) /\ n_data N = None) ->
  inserted s (added p (v_node_used s) s1) p (with_next (n_children (nd s p)) (with_parent (Some p) N)) o.
Proof.
  intros Hmax Hp Hpd Hu Hr Hm HN Hc Hmt Hold Hsl Hf Hot. set (x := v_node_used s) in *.
  assert (Hpx : p <> x) by (unfold live, x in *; lia).
  assert (Hpo : bool_decide (o = Some p) = false).
  { apply bool_decide_false. intros ->. destruct (decide (n_type N = VFS_NODE_FILE)) as [Ht|Ht].
    - destruct (Hf Ht) as ((_ & Ht' & _) & _). rewrite Hpd in Ht'. discriminate Ht'.
    - destruct (Hot Ht) as [E _]. discriminate E. }
  assert (Hchp : n_children (nd s1 p) = n_children (nd s p)) by (rewrite Hold, Hpo by done; done).
  split; try done.
  - rewrite added_nd. cbn zeta. fold x. rewrite Z.eqb_refl, (proj2 (Z.eqb_neq p x)), HN, Hchp by done. done.
  - intros i Hi. assert (Hix : x <> i) by (unfold live, x in *; lia).
    rewrite added_nd. cbn zeta. rewrite (proj2 (Z.eqb_neq x i)) by done. rewrite (Z.eqb_sym p i).
    rewrite Hold by done. fold x. destruct (i =? p), (bool_decide (o = Some i)); done.
  - intros m. unfold mt. cbn. by rewrite Hm.
Qed.

(** The last step of every creation. *)
Lemma attach_wf s s1 K p N o : vfs_wf s K -> inserted s (added p (v_node_used s) s1) p N o ->
  vfs_wf (added p (v_node_used s) s1) (fset (fset K (v_node_used s) []) p (v_node_used s :: K p)).
Proof. intros W I. by apply (inserted_wf s _ K p N o). Qed.

(** [mk] in a directory: anything but a regular file. *)
Lemma mk_spec s K p n t m : vfs_wf s K -> live s p -> ftype s p = VFS_NODE_DIR -> t <> VFS_NODE_FILE ->
  let '(r, s') := mk p n t m s in
  (r = None /\ s' = s /\ VFS_MAX_NODES <= v_node_used s) \/
  (r = Some (v_node_used s) /\ inserted s s' p
     (with_next (n_children (nd s p)) (with_parent (Some p) (blank_node s n t m))) None /\
   vfs_wf s' (fset (fset K (v_node_used s) []) p (v_node_used s :: K p))).
Proof.
  intros W Hp Hpd Ht. unfold mk, st_bind. rewrite new_node_eq.
  destruct (Z.leb_spec VFS_MAX_NODES (v_node_used s)); [by left|]. rewrite add_eq. cbn [st_ret].
  assert (I : inserted s (added p (v_node_used s) (with_new (blank_node s n t m) s)) p
     (with_next (n_children (nd s p)) (with_parent (Some p) (blank_node s n t m))) None).
  { apply attach_inserted; try done.
    - by rewrite nd_with_new, Z.eqb_refl.
    - intros i Hi. rewrite nd_with_new, (proj2 (Z.eqb_neq _ _)) by (unfold live in Hi; lia). done.
    - intros d Hd. split; [by left|]. by intros [?|[? _]]. }
  right. split; [done|]. split; [done|]. by eapply attach_wf.
Qed.

(** ** Regular files *)

Lemma alloc_data_spec s : let '(r, s') := vfs_alloc_file_data s in
  match r with
  | Some d => is_slot d /\ slot_used s d = false /\
      s' = set_data (<[d := ∅]> (v_data s)) (set_used (<[d := true]> (v_data_used s)) s)
  | None => s' = s /\ forall d, is_slot d -> slot_used s d = true
  end.
Proof.
  unfold vfs_alloc_file_data.
  assert (H : forall l, (forall d, d ∈ l -> is_slot d) -> let '(r, s') := for_each l (fun i =>
      st_bind st_get (fun s => if negb (slot_used s i) then
        st_bind (st_mod (fun s => set_data (<[i := ∅]> (v_data s)) (set_used (<[i := true]> (v_data_used s)) s)))
          (fun _ => return_ i) else continue_)) s in
    match r with
    | Some d => is_slot d /\ slot_used s d = false /\
        s' = set_data (<[d := ∅]> (v_data s)) (set_used (<[d := true]> (v_data_used s)) s)
    | None => s' = s /\ forall d, d ∈ l -> slot_used s d = true
    end).
  { induction l as [|i l IH]; intros Hl; cbn [for_each]; [split; [done|]; by intros d ?%not_elem_of_nil|].
    unfold st_bind at 1 2, st_get. destruct (slot_used s i) eqn:Hu; cbn [negb continue_ st_ret].
    - specialize (IH ltac:(intros; apply Hl; by right)). destruct (for_each l _ s) as [[d|] s']; [done|].
      destruct IH as [-> IH]. split; [done|]. intros d [->|Hd]%elem_of_cons; auto.
    - cbn. split; [apply Hl; left | done]. }
  specialize (H (seqZ 0 VFS_DATA_SLOTS)). unfold is_slot in *.
  destruct (for_each _ _ s) as [[d|] s']; [apply H; intros d' ?%elem_of_seqZ; lia|].
  destruct H as [-> H]; [intros d' ?%elem_of_seqZ; lia|]. split; [done|]. intros d Hd. apply H. apply elem_of_seqZ. lia.
Qed.

(** The states between [new_node] and [add] of a file whose buffer is [d]. *)
Lemma new_file_inserted s p name d U D m : v_node_used s < VFS_MAX_NODES -> live s p -> ftype s p = VFS_NODE_DIR ->
  (d = XORG_LOG /\ U = v_data_used s \/ is_slot d /\ slot_used s d = false /\ U = <[d := true]> (v_data_used s)) ->
  let x := v_node_used s in
  let N := with_data (Some d) VFS_DATA_SLOT_SIZE (blank_node s name VFS_NODE_FILE m) in
  inserted s (added p x (upd_node x (with_data (Some d) VFS_DATA_SLOT_SIZE)
                (set_data D (set_used U (with_new (blank_node s name VFS_NODE_FILE m) s))))) p
    (with_next (n_children (nd s p)) (with_parent (Some p) N)) None.
Proof.
  intros Hmax Hp Hpd Hd x N.
  assert (Hsl : forall k, is_slot k -> default false (U !! k) = true <-> slot_used s k = true \/ d = k).
  { intros k Hk. destruct Hd as [[-> ->]|(Hd & Hu & ->)].
    - unfold slot_used. split; [by left|]. intros [?|<-]; [done|]. unfold is_slot, XORG_LOG, VFS_DATA_SLOTS in Hk. lia.
    - rewrite lookup_insert. unfold slot_used. destruct (decide (d = k)); cbn [default from_option id]; naive_solver. }
  set (s1 := upd_node x (with_data (Some d) VFS_DATA_SLOT_SIZE) _).
  assert (Hnd : forall i, nd s1 i = if x =? i then N else nd s i).
  { intros i. unfold s1. rewrite nd_upd. change (nd (set_data D (set_used U ?a))) with (nd a). rewrite !nd_with_new.
    unfold x. rewrite Z.eqb_refl. by destruct (v_node_used s =? i). }
  assert (Hs1 : forall k, slot_used s1 k = default false (U !! k)) by done.
  assert (Hfr : v_node_used s1 = v_node_used s + 1 /\ v_root s1 = v_root s /\ v_mounts s1 = v_mounts s) by done.
  clearbody s1. destruct Hfr as (? & ? & ?). apply attach_inserted; try done.
  - fold x. by rewrite Hnd, Z.eqb_refl.
  - intros i Hi. rewrite Hnd. rewrite (proj2 (Z.eqb_neq x i)) by (unfold live, x in *; lia). done.
  - intros k Hk. rewrite Hs1, Hsl by done.
    split; [intros [?|<-]; [by left | by right] | intros [?|(_ & _ & [= <-])]; [by left | by right]].
  - intros _. split; [done|]. split; [done|]. split.
    + split; [cbn; unfold VFS_DATA_SLOT_SIZE; lia|]. destruct Hd as [[-> _]|(Hd & _ & _)]; [right; left; done|].
      right; right. exists d. split_and!; try done. rewrite Hs1. apply Hsl; [done | by right].
    + intros k Hk [= <-]. destruct Hd as [[-> _]|(_ & Hu & _)]; [|done].
      unfold is_slot, XORG_LOG, VFS_DATA_SLOTS in Hk. lia.
Qed.

(** A failed creation: the node is given back. *)
Lemma give_back_wf s K N : vfs_wf s K ->
  vfs_wf (set_counts (v_node_used (with_new N s) - 1) (v_next_ino (with_new N s)) (with_new N s)) K.
Proof.
  intros W. apply same_core_wf with s; [done|]. split; try done.
  - cbn. lia.
  - intros i Hi. change (nd (set_counts _ _ ?a)) with (nd a). rewrite nd_with_new, (proj2 (Z.eqb_neq _ _)); [done|].
    unfold live in Hi. lia.
  - intros o Ho. change (nd (set_counts _ _ ?a)) with (nd a). rewrite nd_with_new, (proj2 (Z.eqb_neq _ _)).
    + apply (w_buffer _ _ _ W o Ho).
    + destruct Ho as [Hl _]. unfold live in Hl. lia.
Qed.

Lemma upd_size_wf s K e i v : vfs_wfx s K e -> (inode s i -> 0 <= v <= n_capacity (nd s i)) ->
  vfs_wfx (upd_node i (with_size v) s) K e.
Proof.
  intros W Hv. apply same_core_wf with s; [done|]. apply upd_same_core; [done|].
  intros o Ho. rewrite nd_upd. destruct (Z.eqb_spec i o) as [->|]; [by apply Hv | apply (w_buffer _ _ _ W o Ho)].
Qed.

Lemma size_frame s i v j : ftype (upd_node i (with_size v) s) j = ftype s j /\
  owner_of (upd_node i (with_size v) s) j = owner_of s j.
Proof. unfold ftype, owner_of. rewrite nd_upd. by destruct (Z.eqb_spec i j) as [->|]. Qed.

(** The inode of a file. *)
Lemma owner_inode s K e n : vfs_wfx s K e -> live s n -> ftype s n = VFS_NODE_FILE ->
  inode s (owner_of s n) /\ (inode s n -> owner_of s n = n).
Proof.
  intros W Hn Ht. destruct (w_owner _ _ _ W n Hn Ht) as (o & Eo & Ho). unfold owner_of. rewrite Eo. split; [done|].
  intros (_ & _ & E). cbn [default from_option id]. congruence.
Qed.

(** [n->size = inode->size] after the size of the inode was set to [v]. *)
Lemma sync_size_wf s K e n v : vfs_wfx s K e -> live s n -> ftype s n = VFS_NODE_FILE ->
  0 <= v <= n_capacity (nd s (owner_of s n)) ->
  vfs_wfx (upd_node n (with_size v) (upd_node (owner_of s n) (with_size v) s)) K e.
Proof.
  intros W Hn Ht Hv. destruct (owner_inode s K e n W Hn Ht) as [Ho Hself].
  assert (W1 : vfs_wfx (upd_node (owner_of s n) (with_size v) s) K e) by (apply upd_size_wf; [done | intros; done]).
  apply upd_size_wf; [done|]. intros Hi.
  assert (Hin : inode s n).
  { destruct Hi as (Hl & Ht' & Ho'). split; [done|]. unfold ftype in *. rewrite nd_upd in Ht', Ho'.
    destruct (Z.eqb_spec (owner_of s n) n) as [E|]; [|done]. by rewrite E in *. }
  rewrite nd_upd. rewrite Hself in * by done. rewrite Z.eqb_refl. done.
Qed.

Lemma sync_old_wf s K e n : vfs_wfx s K e -> live s n -> ftype s n = VFS_NODE_FILE ->
  vfs_wfx (upd_node n (with_size (n_size (nd s (owner_of s n)))) s) K e.
Proof.
  intros W Hn Ht. apply upd_size_wf; [done|]. intros Hi. destruct (owner_inode s K e n W Hn Ht) as [_ Hself].
  rewrite Hself by done. apply (w_buffer _ _ _ W n Hi).
Qed.

(** What vfs_create_file does with a path that names nothing. *)
Record file_created (s : vfs) (K : Z -> list Z) (path : cstr) (s' : vfs) (x : Z) : Prop := {
  fc_state : exists p dir name s2 N, split_for_create path = Some (dir, name) /\
    fst (vfs_lookup dir (snd (vfs_lookup path s))) = Some p /\ respelled s s2 /\ inserted s2 s' p N None /\
    x = v_node_used s /\ n_name N = cp name /\ n_type N = VFS_NODE_FILE /\ n_size N = 0 /\
    n_capacity N = VFS_DATA_SLOT_SIZE /\
    vfs_wf s' (fset (fset K x []) p (x :: K p))
}.

Lemma vfs_create_file_spec s K path tr r s' : vfs_wf s K -> vfs_create_file path tr s = (r, s') ->
  vfs_ok s' /\
  match fst (vfs_lookup path s) with
  | Some n => if ftype s n =? VFS_NODE_FILE then r = Some n /\ vfs_file_size s' n = (if tr then 0 else vfs_file_size s n)
              else r = None /\ s' = snd (vfs_lookup path s)
  | None => match r with Some x => file_created s K path s' x | None => True end
  end.
Proof.
  intros W. unfold vfs_create_file, st_bind at 1.
  destruct (vfs_lookup path s) as [n s1] eqn:HL. cbn [fst snd].
  destruct (vfs_lookup_spec s K path n s1 W HL) as (R1 & W1 & Hn1).
  unfold st_bind at 1, st_get. destruct n as [n|].
  { destruct (Hn1 n eq_refl) as [Hn _]. assert (Hl1 : live s1 n) by (by apply (respelled_live s s1 n R1)).
    pose proof (respelled_type s s1 n R1) as Et. change (n_type (nd s1 n)) with (ftype s1 n). rewrite Et.
    destruct (Z.eqb_spec (ftype s n) VFS_NODE_FILE) as [Ht|]; [|intros [= <- <-]; split; [by exists K | done]].
    assert (Ht1 : ftype s1 n = VFS_NODE_FILE) by congruence.
    assert (Eo : owner_of s1 n = owner_of s n).
    { unfold owner_of. by destruct (core_fields _ _ (proj1 (respelled_core s s1 n R1))) as (_ & _ & _ & _ & _ & _ & _ & _ & ->). }
    assert (Hsz : forall s2, ftype s2 n = VFS_NODE_FILE -> owner_of s2 n = owner_of s n ->
              vfs_file_size s2 n = n_size (nd s2 (owner_of s n))).
    { intros s2 E1 E2. unfold vfs_file_size, vfs_file_is_regular. unfold ftype in E1. by rewrite E1, E2. }
    unfold st_bind. destruct tr; cbn [upd st_mod st_ret]; intros [= <- <-].
    - rewrite nd_upd_eq. cbn [n_size with_size]. split.
      + exists K. apply sync_size_wf; try done. destruct (w_buffer _ _ _ W1 (owner_of s1 n)); [by eapply owner_inode | lia].
      + split; [done|]. rewrite Hsz.
        * rewrite !nd_upd, Eo, Z.eqb_refl. by destruct (n =? owner_of s n).
        * by rewrite !(proj1 (size_frame _ _ _ _)).
        * by rewrite !(proj2 (size_frame _ _ _ _)).
    - split; [exists K; by apply sync_old_wf|]. split; [done|]. rewrite (Hsz s) by done. rewrite Hsz.
      + rewrite nd_upd. rewrite Eo. rewrite (proj2 (respelled_core s s1 (owner_of s n) R1)).
        destruct (Z.eqb_spec n (owner_of s n)) as [E|]; [done|]. by apply respelled_core.
      + by rewrite (proj1 (size_frame _ _ _ _)).
      + by rewrite (proj2 (size_frame _ _ _ _)). }
  unfold st_bind at 1. destruct (vfs_parent_for_create path s1) as [pn s2] eqn:HP.
  destruct (parent_for_create_spec s1 K path pn s2 W1 HP) as (R2 & W2 & Hp).
  unfold st_bind at 1. destruct pn as [[p name]|]; [|intros [= <- <-]; split; [by exists K | done]].
  destruct (n_type (nd s2 p) =? VFS_NODE_DIR) eqn:Hpd; cbn [negb]; [|intros [= <- <-]; split; [by exists K | done]].
  apply Z.eqb_eq in Hpd. pose proof (respelled_trans s s1 s2 R1 R2) as R.
  assert (Hpl : live s2 p) by (apply (respelled_live s1 s2 p R2); by apply (Hp p name)).
  unfold st_bind at 1. rewrite new_node_eq. destruct (Z.leb_spec VFS_MAX_NODES (v_node_used s2)) as [|Hmax];
    [intros [= <- <-]; split; [by exists K | done]|].
  assert (Hfin : forall d U D, (d = XORG_LOG /\ U = v_data_used s2 \/ is_slot d /\ slot_used s2 d = false /\ U = <[d := true]> (v_data_used s2)) ->
    let s3 := added p (v_node_used s2) (upd_node (v_node_used s2) (with_data (Some d) VFS_DATA_SLOT_SIZE)
                (set_data D (set_used U (with_new (blank_node s2 name VFS_NODE_FILE (Z.lor S_IFREG 0x1B6)) s2)))) in
    vfs_ok s3 /\ file_created s K path s3 (v_node_used s2)).
  { intros d U D Hd s3. pose proof (new_file_inserted s2 p name d U D (Z.lor S_IFREG 0x1B6) Hmax Hpl Hpd Hd) as I.
    pose proof (attach_wf s2 _ K p _ None W2 I) as W3. fold s3 in W3, I. split; [by eexists|]. split.
    unfold vfs_parent_for_create in HP. destruct (split_for_create path) as [[dir nm]|] eqn:Hsp; [|done].
    unfold st_bind in HP. rewrite HL. cbn [snd]. destruct (vfs_lookup dir s1) as [q s2'] eqn:HLd. injection HP as Hq <-.
    destruct q as [q|]; [|done]. injection Hq as -> ->.
    exists p, dir, name, s2'. eexists. rewrite HLd. cbn [fst].
    split; [done|]. split; [done|]. split; [done|]. split; [exact I|]. split; [apply (rs_used _ _ R)|]. done. }
  destruct (eq path _); cbn [st_bind upd st_mod]; unfold st_bind, upd, st_mod.
  - rewrite add_eq. intros [= <- <-]. apply (Hfin XORG_LOG (v_data_used s2) (v_data s2)). by left.
  - pose proof (alloc_data_spec (with_new (blank_node s2 name VFS_NODE_FILE (Z.lor S_IFREG 0x1B6)) s2)) as Ha.
    destruct (vfs_alloc_file_data _) as [[d|] s3].
    + destruct Ha as (Hd & Hu & ->). rewrite add_eq. intros [= <- <-].
      apply (Hfin d (<[d := true]> (v_data_used s2)) (<[d := ∅]> (v_data s2))). by right.
    + destruct Ha as [-> _]. intros [= <- <-]. split; [|done]. exists K. by apply give_back_wf.
Qed.

(** ** Every call of vfs.c keeps the invariant of the file system *)

(** ** vfs_link *)

Lemma links_bound s K e o : vfs_wfx s K e -> links s o <= VFS_MAX_NODES.
Proof.
  intros W. pose proof (sh_used _ _ (w_shape _ _ _ W)). unfold links.
  pose proof (length_filter (names s o) (seqZ 0 (v_node_used s))) as H1. rewrite length_seqZ in H1. lia.
Qed.

Lemma links_pos s o x : live s x -> names s o x -> 0 < links s o.
Proof.
  intros Hx Hn. unfold links. assert (Hin : x ∈ filter (names s o) (seqZ 0 (v_node_used s))).
  { apply list_elem_of_filter. split; [done|]. apply elem_of_seqZ. unfold live in Hx. lia. }
  destruct (filter _ _); [by apply not_elem_of_nil in Hin|]. cbn [length]. lia.
Qed.

(** A file a path leads to has a name. *)
Lemma findable_names s K n : vfs_wf s K -> findable s K n -> ftype s n = VFS_NODE_FILE ->
  inode s (owner_of s n) /\ 0 < n_nlink (nd s (owner_of s n)).
Proof.
  intros W [Hn Hf] Ht. destruct (owner_inode s K None n W Hn Ht) as [Ho _]. split; [done|].
  rewrite (w_links _ _ _ W _ Ho). destruct Hf as [E|(d & Hd & Hnd)]; [rewrite E in Ht; discriminate Ht|].
  assert (0 < links s (owner_of s n)); [|destruct (bool_decide _); lia].
  apply (links_pos s _ n Hn). split; [done|]. split; [|rewrite (w_kid_parent _ _ _ W d n Hd Hnd); by eexists].
  destruct (w_owner _ _ _ W n Hn Ht) as (o & Eo & _). unfold owner_of. by rewrite Eo.
Qed.

(** The alias that vfs_link builds for the inode [o]. *)
Definition alias_node (s : vfs) (name : cstr) (mode o : Z) : vfs_node :=
  let i := nd s o in
  VfsNode (cp name) (n_ino i) mode VFS_NODE_FILE None None None None None [] (n_data i) (n_size i) (n_capacity i) 0 (Some o).

Lemma link_inserted s K p name mode o s1 : vfs_wf s K -> v_node_used s < VFS_MAX_NODES -> live s p -> ftype s p = VFS_NODE_DIR ->
  inode s o -> 0 < n_nlink (nd s o) -> let x := v_node_used s in
  v_node_used s1 = v_node_used s + 1 -> v_root s1 = v_root s -> v_mounts s1 = v_mounts s -> v_data_used s1 = v_data_used s ->
  (forall i, nd s1 i = if x =? i then alias_node s name mode o
                      else if o =? i then with_nlink (u32 (n_nlink (nd s o) + 1)) (nd s o) else nd s i) ->
  inserted s (added p x s1) p (with_next (n_children (nd s p)) (with_parent (Some p) (alias_node s name mode o))) (Some o).
Proof.
  intros W Hmax Hp Hpd Ho Hnl x E1 E2 E3 E4 Hnd.
  assert (Hox : x <> o) by (destruct Ho as [Hl _]; unfold live, x in *; lia).
  assert (Hu : u32 (n_nlink (nd s o) + 1) = n_nlink (nd s o) + 1).
  { apply u32_small. pose proof (links_bound s K None o W). rewrite (w_links _ _ _ W o Ho) in *.
    rewrite (bool_decide_false (None = Some o)) in * by done. unfold VFS_MAX_NODES in *. lia. }
  apply attach_inserted; try done.
  - fold x. by rewrite Hnd, Z.eqb_refl.
  - intros i Hi. rewrite Hnd, (proj2 (Z.eqb_neq x i)) by (unfold live, x in *; lia). rewrite Hu.
    destruct (Z.eqb_spec o i) as [->|Hne]; [by rewrite bool_decide_true | rewrite bool_decide_false; congruence].
  - intros d Hd. unfold slot_used. rewrite E4. split; [by left|]. by intros [?|(_ & ? & _)].
Qed.

Lemma vfs_link_spec s K oldp newp r s' : vfs_wf s K -> vfs_link oldp newp s = (r, s') ->
  (r <> 0 /\ respelled s s') \/
  (r = 0 /\ exists src s1 p name s3 N, vfs_lookup oldp s = (Some src, s1) /\ ftype s src = VFS_NODE_FILE /\
     respelled s s3 /\ inserted s3 s' p N (Some (owner_of s src)) /\ n_name N = cp name /\
     n_inode_owner N = Some (owner_of s src) /\ vfs_ok s').
Proof.
  intros W. unfold vfs_link, st_bind at 1. destruct (vfs_lookup oldp s) as [src s1] eqn:HL.
  destruct (vfs_lookup_spec s K oldp src s1 W HL) as (R1 & W1 & Hsrc). unfold st_bind at 1, st_get at 1.
  destruct src as [src|]; [|intros [= <- <-]; left; done].
  destruct (bool_decide _ || _ || _) eqn:Hg; [intros [= <- <-]; left; done|].
  apply orb_false_iff in Hg as [_ Ht%negb_false_iff%Z.eqb_eq].
  unfold st_bind at 1. destruct (vfs_parent_for_create newp s1) as [pn s2] eqn:HP.
  destruct (parent_for_create_spec s1 K newp pn s2 W1 HP) as (R2 & W2 & Hp). unfold st_bind at 1, st_get at 1.
  pose proof (respelled_trans _ _ _ R1 R2) as R12.
  destruct pn as [[p name]|]; [|intros [= <- <-]; left; done].
  destruct (negb (n_type (nd s2 p) =? VFS_NODE_DIR) || is_nil name) eqn:Hg; [intros [= <- <-]; left; done|].
  apply orb_false_iff in Hg as [Hpd%negb_false_iff%Z.eqb_eq _].
  unfold st_bind at 1. destruct (vfs_lookup newp s2) as [e s3] eqn:HE.
  destruct (vfs_lookup_spec s2 K newp e s3 W2 HE) as (R3 & W3 & _). pose proof (respelled_trans _ _ _ R12 R3) as R.
  destruct e as [e|]; [intros [= <- <-]; left; done|].
  unfold st_bind at 1, st_get at 1.
  assert (Eo : owner_of s3 src = owner_of s src).
  { unfold owner_of. by destruct (core_fields _ _ (proj1 (respelled_core s s3 src R))) as (_ & _ & _ & _ & _ & _ & _ & _ & ->). }
  assert (Ht3 : ftype s3 src = VFS_NODE_FILE).
  { rewrite (respelled_type s s3 src R), <- (respelled_type s s1 src R1). exact Ht. }
  assert (Hf3 : findable s3 K src) by (apply (respelled_findable s s3 K src R); by apply Hsrc).
  destruct (findable_names s3 K src W3 Hf3 Ht3) as [Ho Hnl].
  assert (Hpl : live s3 p).
  { apply (respelled_live s2 s3 p R3), (respelled_live s1 s2 p R2). by apply (Hp p name). }
  assert (Hpd3 : ftype s3 p = VFS_NODE_DIR) by (rewrite (respelled_type s2 s3 p R3); exact Hpd).
  unfold st_bind at 1. rewrite new_node_eq. destruct (Z.leb_spec VFS_MAX_NODES (v_node_used s3)) as [|Hmax];
    [intros [= <- <-]; left; done|].
  set (x := v_node_used s3). set (o := owner_of s3 src) in *.
  assert (Hox : x <> o) by (destruct Ho as [Hl _]; unfold live, x in *; lia).
  unfold st_bind, st_get, upd, st_mod, st_ret. rewrite add_eq.
  match goal with |- context [added p x ?a] => set (s4 := a) end.
  assert (I : inserted s3 (added p x s4) p
    (with_next (n_children (nd s3 p)) (with_parent (Some p) (alias_node s3 name (n_mode (nd s3 src)) o))) (Some o)).
  { apply (link_inserted s3 K); try done. intros i. unfold s4. fold x.
    rewrite !nd_upd, !nd_with_new. fold x. rewrite !Z.eqb_refl. rewrite (proj2 (Z.eqb_neq x o)) by done.
    destruct (Z.eqb_spec x i) as [<-|]; [|done].
    rewrite (proj2 (Z.eqb_neq o x)) by congruence. unfold alias_node. by destruct (nd s3 o). }
  clearbody s4. intros [= <- <-]. right. split; [done|].
  exists src, s1, p, name, s3. eexists.
  split; [done|]. split; [rewrite <- (respelled_type s s3 src R); done|]. split; [done|]. rewrite <- Eo.
  split; [exact I|]. split; [done|]. split; [done|]. eexists. by eapply inserted_wf.
Qed.

(** ** vfs_rename *)

(** [n] is now in the directory [p], and nothing else moved. *)
Lemma moved_wf s s' K K' n p : vfs_wf s K -> relinked s s' n (Some p) -> shape s' K' -> live s n ->
  live s p -> ftype s p = VFS_NODE_DIR -> (ftype s n = VFS_NODE_FILE -> is_Some (n_parent (nd s n))) ->
  (forall d y, live s d -> y ∈ K' d <-> if y =? n then d = p else y ∈ K d) -> vfs_wf s' K'.
Proof.
  intros W R Hs Hn Hp Hpd Hfp HK.
  assert (Hl : forall i, live s' i <-> live s i) by (intros i; unfold live; by rewrite (rl_used _ _ _ _ R)).
  assert (Hf : forall i, ftype s' i = ftype s i /\ n_mounted (nd s' i) = n_mounted (nd s i) /\
    n_data (nd s' i) = n_data (nd s i) /\ n_size (nd s' i) = n_size (nd s i) /\ n_capacity (nd s' i) = n_capacity (nd s i) /\
    n_nlink (nd s' i) = n_nlink (nd s i) /\ n_inode_owner (nd s' i) = n_inode_owner (nd s i))
    by (intros i; apply payload_fields, (rl_nodes _ _ _ _ R)).
  assert (Hpar : forall i, n_parent (nd s' i) = if i =? n then Some p else n_parent (nd s i)) by apply R.
  assert (Hin : forall i, inode s' i <-> inode s i) by (intros i; by apply (relinked_inode s s' n (Some p))).
  assert (Hsl : forall d, slot_used s' d = slot_used s d) by (intros d; unfold slot_used; by rewrite (rl_slots _ _ _ _ R)).
  split.
  - done.
  - intros d y Hd%Hl Hy%HK; [|done]. rewrite Hpar. destruct (Z.eqb_spec y n) as [->|]; [congruence | by apply (w_kid_parent _ _ _ W)].
  - intros y q Hy%Hl. rewrite Hpar, Hl. destruct (Hf q) as (-> & _). destruct (y =? n); [by intros [= <-] | by apply (w_parent _ _ _ W)].
  - intros y q Hy%Hl. rewrite Hpar. destruct (Hf y) as (-> & _). intros Ht. destruct (Z.eqb_spec y n) as [->|Hne].
    + intros [= <-]. apply HK; [done|]. by rewrite Z.eqb_refl.
    + intros Hq. apply HK; [by apply (w_parent _ _ _ W y q)|]. rewrite (proj2 (Z.eqb_neq y n)) by done. by apply (w_file_kid _ _ _ W).
  - intros r. rewrite (rl_root _ _ _ _ R), Hl. destruct (Hf r) as (-> & _). apply (w_root _ _ _ W).
  - intros y m Hy%Hl. destruct (Hf y) as (-> & -> & _). by apply (w_mount _ _ _ W).
  - intros m r. unfold mt. rewrite (rl_mounts _ _ _ _ R), Hl. destruct (Hf r) as (-> & _). apply (w_mtroot _ _ _ W).
  - intros y Hy%Hl. destruct (Hf y) as (-> & _ & _ & _ & _ & _ & ->). setoid_rewrite Hin. by apply (w_owner _ _ _ W).
  - intros y Hy%Hl. destruct (Hf y) as (-> & _ & -> & _ & _ & _ & ->). by apply (w_self _ _ _ W).
  - intros o Ho%Hin. destruct (Hf o) as (_ & _ & _ & _ & _ & -> & _). rewrite (w_links _ _ _ W o Ho). f_equal.
    symmetry. apply links_agree; [apply R|]. intros x Hx. unfold names. destruct (Hf x) as (-> & _ & _ & _ & _ & _ & ->).
    rewrite Hpar. destruct (Z.eqb_spec x n) as [->|]; [|done].
    split; intros (Ht & Ho' & _); (split; [done|]; split; [done|]); [by apply Hfp | by eexists].
  - intros o Ho%Hin. destruct (w_buffer _ _ _ W o Ho) as [Hz Hb]. unfold buffer_ok.
    destruct (Hf o) as (_ & _ & -> & -> & -> & -> & _). split; [done|]. by setoid_rewrite Hsl.
  - intros o o' d Ho%Hin Ho'%Hin. destruct (Hf o) as (_ & _ & -> & _). destruct (Hf o') as (_ & _ & -> & _).
    by apply (w_excl _ _ _ W).
  - intros d. rewrite Hsl. setoid_rewrite Hin. intros Hd Hu. destruct (w_noleak _ _ _ W d Hd Hu) as (o & Ho & E).
    exists o. split; [done|]. by destruct (Hf o) as (_ & _ & -> & _).
Qed.

Lemma added_relinked p n s : relinked s (added p n s) n (Some p).
Proof.
  split; try done. intros i. rewrite added_nd. cbn zeta. rewrite (Z.eqb_sym i n).
  destruct (Z.eqb_spec n i) as [->|]; [by destruct (p =? i)|]. by destruct (p =? i).
Qed.

Lemma relinked_name s n nm m q : relinked s m n q -> relinked s (upd_node n (with_name nm) m) n q.
Proof.
  intros [H1 H2 H3 H4 H5]. split; try done. intros i. rewrite nd_upd. destruct (Z.eqb_spec n i) as [->|]; apply H5.
Qed.

Lemma relinked_trans s1 s2 s3 n q q' : relinked s1 s2 n q -> relinked s2 s3 n q' -> relinked s1 s3 n q'.
Proof.
  intros H1 H2. split; try (etransitivity; [apply H2 | apply H1]). intros i.
  destruct (rl_nodes _ _ _ _ H1 i) as [P1 E1], (rl_nodes _ _ _ _ H2 i) as [P2 E2].
  split; [congruence|]. rewrite E2, E1. by destruct (i =? n).
Qed.

Lemma relinked_refl s n : relinked s s n (n_parent (nd s n)).
Proof. split; try done. intros i. split; [done|]. by destruct (Z.eqb_spec i n) as [->|]. Qed.

(** From a state where [n] is in no list, and nothing else changed. *)
Lemma settle s s1 K K1 n p name : vfs_wf s K -> relinked s s1 n (n_parent (nd s n)) -> shape s1 K1 ->
  (forall d y, live s d -> y ∈ K1 d <-> y ∈ K d /\ y <> n) ->
  live s n -> live s p -> ftype s p = VFS_NODE_DIR -> (ftype s n = VFS_NODE_FILE -> is_Some (n_parent (nd s n))) ->
  vfs_ok (added p n (upd_node n (with_name (cp name)) s1)).
Proof.
  intros W R1 Hs1 HK Hn Hp Hpd Hfp. set (s2 := upd_node n (with_name (cp name)) s1).
  assert (Hl : forall i, live s1 i <-> live s i) by (intros i; unfold live; by rewrite (rl_used _ _ _ _ R1)).
  assert (Hs2 : shape s2 K1) by (apply shape_same with s1; [done | by apply upd_same_links]).
  assert (Hlo : loose s2 K1 n) by (intros d Hd Hin; by apply HK in Hin as [_ ?]; [|by apply Hl]).
  exists (fset K1 p (n :: K1 p)).
  apply (moved_wf s _ K _ n p W); try done.
  - eapply relinked_trans; [by apply relinked_name | apply added_relinked].
  - apply add_shape; try done; by apply Hl.
  - intros d y Hd. unfold fset. destruct (Z.eqb_spec d p) as [->|Hdp].
    + rewrite elem_of_cons, HK by done. destruct (Z.eqb_spec y n) as [->|]; naive_solver.
    + rewrite HK by done. destruct (Z.eqb_spec y n) as [->|]; naive_solver.
Qed.

Lemma relocate_ok s K n p name : vfs_wf s K -> live s n -> live s p -> ftype s p = VFS_NODE_DIR ->
  (ftype s n = VFS_NODE_FILE -> is_Some (n_parent (nd s n))) -> vfs_ok (snd (relocate n p name s)).
Proof.
  intros W Hn Hp Hpd Hfp. unfold relocate, st_bind, st_get.
  assert (Hparent : forall d, live s d -> n ∈ K d -> n_parent (nd s n) = Some d) by (intros; by apply (w_kid_parent _ _ _ W)).
  assert (Hloose : loose s K n -> vfs_ok (added p n (upd_node n (with_name (cp name)) s))).
  { intros Hlo. apply (settle s s K K); try done; [apply relinked_refl | apply W|].
    intros d y Hd. split; [|by intros []]. intros Hy. split; [done|]. intros ->. by apply (Hlo d). }
  destruct (n_parent (nd s n)) as [op|] eqn:Hop.
  - destruct (w_parent _ _ _ W n op Hn Hop) as [Hopl _].
    destruct (unlist_spec s K op n (w_shape _ _ _ W) Hopl) as [[Hnot ->]|(Hin & -> & Hs1)]; cbn [st_ret upd st_mod].
    + rewrite add_eq. apply Hloose. intros d Hd Hind. specialize (Hparent d Hd Hind). injection Hparent as ->. done.
    + rewrite add_eq. apply (settle s (unlisted op n s) K (fset K op (without n (K op)))); try done.
      * destruct (unlisted_frame op n s) as (E1 & E2 & E3 & E4). split; try done. intros i.
        destruct (unlisted_nodes op n s i) as [P E]. split; [done|]. rewrite E, Hop. by destruct (Z.eqb_spec i n) as [->|].
      * intros d y Hd. unfold fset. destruct (Z.eqb_spec d op) as [->|Hne]; [apply elem_of_without|].
        split; [|by intros []]. intros Hy. split; [done|]. intros ->. specialize (Hparent d Hd Hy). congruence.
  - cbn [st_ret upd st_mod]. rewrite add_eq. apply Hloose. intros d Hd Hind. specialize (Hparent d Hd Hind). done.
Qed.

(** The node a rename replaces. *)
Lemma displace_spec s K e r s' : vfs_wf s K -> (forall x, e = Some x -> findable s K x) -> displace e s = (r, s') ->
  (r = false /\ s' = s) \/ (r = true /\ e = None /\ s' = s) \/
  (r = true /\ exists x d, e = Some x /\ live s d /\ x ∈ K d /\ s' = snd (vfs_drop_link x (taken_out d x s)) /\
     vfs_wf s' (fset K d (without x (K d)))).
Proof.
  intros W He. unfold displace. destruct e as [x|]; [|intros [= <- <-]; right; left; done].
  destruct (He x eq_refl) as [Hx Hf]. unfold st_bind at 1, st_get.
  destruct (is_some _ || _) eqn:Hg; [intros [= <- <-]; by left|].
  apply orb_false_iff in Hg as [_ Hd%Z.eqb_neq]. destruct Hf as [?|(d & Hdl & Hxd)]; [done|].
  rewrite (w_kid_parent _ _ _ W d x Hdl Hxd). destruct (unlist_detach s K d x W Hdl Hxd) as [Hun Hde].
  unfold st_bind at 1. rewrite Hun. cbn [negb]. unfold st_bind at 1.
  destruct (detach x (unlisted d x s)) as [u s2]. cbn [snd] in Hde. subst s2.
  unfold st_bind. pose proof (removed_wf s K d x W Hdl Hxd) as Hrw.
  destruct (vfs_drop_link x (taken_out d x s)) as [v s3] eqn:Hdr. cbn [snd st_ret] in *. intros [= <- <-].
  right. right. split; [done|]. exists x, d. rewrite Hdr. repeat (split; [done|]). done.
Qed.

(** A computation that moves no node. *)
Definition keeps_place {A} (m : ST vfs A) : Prop :=
  forall s, v_node_used (snd (m s)) = v_node_used s /\ v_root (snd (m s)) = v_root s /\
    forall i, place (nd (snd (m s)) i) = place (nd s i).

Lemma kp_ret {A} (a : A) : keeps_place (st_ret a).
Proof. done. Qed.
Lemma kp_bind {A B} (m : ST vfs A) (k : A -> ST vfs B) :
  keeps_place m -> (forall a, keeps_place (k a)) -> keeps_place (st_bind m k).
Proof.
  intros Hm Hk s. unfold st_bind. destruct (Hm s) as (E1 & E2 & E3). destruct (m s) as [a s1]. cbn [snd] in *.
  destruct (Hk a s1) as (F1 & F2 & F3). split_and!; [congruence | congruence |]. intros i. by rewrite F3, E3.
Qed.
Lemma kp_get {B} (k : vfs -> ST vfs B) : (forall s, keeps_place (k s)) -> keeps_place (st_bind st_get k).
Proof. intros Hk s. apply (Hk s s). Qed.
Lemma kp_upd i f : (forall n, place (f n) = place n) -> keeps_place (upd i f).
Proof.
  intros Hf s. split; [done|]. split; [done|]. intros j. cbn. rewrite nd_upd. by destruct (Z.eqb_spec i j) as [->|].
Qed.
Lemma kp_slots U : keeps_place (st_mod (fun s => set_used (U s) s)).
Proof. done. Qed.

(** Dropping a link changes no type, parent or mount. *)
Lemma drop_link_place n : keeps_place (vfs_drop_link n).
Proof.
  apply kp_get. intros s. apply kp_bind; [destruct (_ <? _); [by apply kp_upd | apply kp_ret]|]. intros _.
  apply kp_get. intros s1. destruct (_ =? _); [|apply kp_ret]. apply kp_bind; [by apply kp_upd|]. intros _.
  apply kp_get. intros s2. destruct (n_data _) as [d|]; [|apply kp_ret]. destruct (negb _); [|apply kp_ret].
  apply kp_get. intros s3. destruct (n_data _) as [d'|]; [|apply kp_ret]. destruct (_ && _); [|apply kp_ret].
  apply kp_bind; [apply (kp_slots (fun s => <[d' := false]> (v_data_used s)))|]. intros _. by apply kp_upd.
Qed.

Lemma place_view s s' : (v_node_used s' = v_node_used s /\ v_root s' = v_root s /\ forall i, place (nd s' i) = place (nd s i)) ->
  forall i, (live s' i <-> live s i) /\ ftype s' i = ftype s i /\ n_parent (nd s' i) = n_parent (nd s i).
Proof.
  intros (E & _ & H) i. destruct (place_fields _ _ (H i)) as (E1 & E2 & _). unfold live, ftype. by rewrite E, E1, E2.
Qed.

Lemma vfs_rename_ok s K oldp newp : vfs_wf s K -> vfs_ok (snd (vfs_rename oldp newp s)).
Proof.
  intros W. unfold vfs_rename, st_bind at 1. destruct (vfs_lookup oldp s) as [n s1] eqn:HL.
  destruct (vfs_lookup_spec s K oldp n s1 W HL) as (R1 & W1 & Hn). unfold st_bind at 1, st_get at 1.
  destruct n as [n|]; [|by exists K].
  destruct (bool_decide _ || _); [by exists K|].
  unfold st_bind at 1. destruct (vfs_parent_for_create newp s1) as [pn s2] eqn:HP.
  destruct (parent_for_create_spec s1 K newp pn s2 W1 HP) as (R2 & W2 & Hp). unfold st_bind at 1, st_get at 1.
  destruct pn as [[p name]|]; [|by exists K].
  destruct (negb (n_type (nd s2 p) =? VFS_NODE_DIR) || is_nil name) eqn:Hg; [by exists K|].
  apply orb_false_iff in Hg as [Hpd%negb_false_iff%Z.eqb_eq _].
  destruct ((n_type (nd s2 n) =? VFS_NODE_DIR) && vfs_is_ancestor s2 n p); [by exists K|].
  unfold st_bind at 1. destruct (vfs_lookup newp s2) as [e s3] eqn:HE.
  destruct (vfs_lookup_spec s2 K newp e s3 W2 HE) as (R3 & W3 & He).
  destruct (bool_decide_reflect (e = Some n)) as [|Hne]; [by exists K|].
  pose proof (respelled_trans _ _ _ R1 (respelled_trans _ _ _ R2 R3)) as R.
  assert (Hn3 : findable s3 K n) by (apply (respelled_findable s s3 K n R); by apply Hn).
  assert (Hpl : live s3 p).
  { apply (respelled_live s2 s3 p R3), (respelled_live s1 s2 p R2). by apply (Hp p name). }
  assert (Hpd3 : ftype s3 p = VFS_NODE_DIR) by (rewrite (respelled_type s2 s3 p R3); exact Hpd).
  assert (He3 : forall x, e = Some x -> findable s3 K x)
    by (intros x Hx; apply (respelled_findable s2 s3 K x R3); by apply He).
  unfold st_bind at 1. destruct (displace e s3) as [ok s4] eqn:HD.
  assert (Hgo : forall K4, vfs_wf s4 K4 -> live s4 n -> live s4 p -> ftype s4 p = VFS_NODE_DIR ->
    (ftype s4 n = VFS_NODE_FILE -> is_Some (n_parent (nd s4 n))) -> vfs_ok (snd (st_bind (relocate n p name) (fun _ => st_ret 0) s4))).
  { intros K4 W4 H1 H2 H3 H4. pose proof (relocate_ok s4 K4 n p name W4 H1 H2 H3 H4) as Hr. unfold st_bind at 1.
    by destruct (relocate n p name s4) as [u s5]. }
  assert (Hfile : ftype s3 n = VFS_NODE_FILE -> is_Some (n_parent (nd s3 n))).
  { intros Ht. destruct Hn3 as [_ [E|(d & Hd & Hin)]]; [rewrite E in Ht; discriminate Ht|].
    rewrite (w_kid_parent _ _ _ W3 d n Hd Hin). by eexists. }
  destruct (displace_spec s3 K e ok s4 W3 He3 HD) as [[-> ->]|[(-> & -> & ->)|(-> & x & d & -> & Hd & Hx & -> & W4)]];
    cbn [negb].
  - by exists K.
  - by apply (Hgo K); [done | apply Hn3 | ..].
  - assert (Hxn : x <> n) by congruence.
    pose proof (taken_out_relinked d x s3) as RT.
    pose proof (place_view _ _ (drop_link_place x (taken_out d x s3))) as Hv.
    assert (Hv' : forall i, (live (snd (vfs_drop_link x (taken_out d x s3))) i <-> live s3 i) /\
      ftype (snd (vfs_drop_link x (taken_out d x s3))) i = ftype s3 i /\
      (i <> x -> n_parent (nd (snd (vfs_drop_link x (taken_out d x s3))) i) = n_parent (nd s3 i))).
    { intros i. destruct (Hv i) as (E1 & E2 & E3). destruct (rl_nodes _ _ _ _ RT i) as [P E].
      apply payload_fields in P as (E4 & _). rewrite E1, E2, E3, (taken_live d x s3 i). split; [done|].
      split; [exact E4|]. intros Hi. rewrite E. by rewrite (proj2 (Z.eqb_neq i x)). }
    apply (Hgo _ W4).
    + apply Hv', Hn3.
    + by apply Hv'.
    + by rewrite (proj1 (proj2 (Hv' p))).
    + rewrite (proj1 (proj2 (Hv' n))), (proj2 (proj2 (Hv' n))) by congruence. done.
Qed.
