(* ===== verification/VfsSafe.v ===== *)
(** * Runs of the file system

    [tri P m Q]: from a state that satisfies the invariant and [P], the
    computation [m] gives a state that satisfies the invariant and [Q] and in
    which every node kept its type.  The calls of vfs.c compose with it, from
    vfs_init to any sequence of calls. *)

From Stdlib Require Import String.
From S2P Require Import Prelude Words CStr Vfs VfsFacts VfsOps.
Local Open Scope Z_scope.

Definition grows (s s' : vfs) : Prop := forall i, live s i -> live s' i /\ ftype s' i = ftype s i.

Lemma grows_refl s : grows s s.
Proof. done. Qed.
Lemma grows_trans s1 s2 s3 : grows s1 s2 -> grows s2 s3 -> grows s1 s3.
Proof. intros H1 H2 i Hi. destruct (H1 i Hi) as [H3 H4]. destruct (H2 i H3). split; [done | congruence]. Qed.

Definition tri {A} (P : vfs -> Prop) (m : ST vfs A) (Q : A -> vfs -> Prop) : Prop :=
  forall s, vfs_ok s -> P s -> vfs_ok (snd (m s)) /\ grows s (snd (m s)) /\ Q (fst (m s)) (snd (m s)).

Definition top {A} : A -> vfs -> Prop := fun _ _ => True.
Definition tt_ : vfs -> Prop := fun _ => True.

Lemma tri_ret {A} P (a : A) Q : (forall s, P s -> Q a s) -> tri P (st_ret a) Q.
Proof. intros H s Ho Hp. split; [done|]. split; [apply grows_refl | by apply H]. Qed.

Lemma tri_bind {A B} P (m : ST vfs A) Q (k : A -> ST vfs B) R :
  tri P m Q -> (forall a, tri (Q a) (k a) R) -> tri P (st_bind m k) R.
Proof.
  intros Hm Hk s Ho Hp. unfold st_bind. destruct (Hm s Ho Hp) as (H1 & H2 & H3). destruct (m s) as [a s1]. cbn [fst snd] in *.
  destruct (Hk a s1 H1 H3) as (H4 & H5 & H6). split; [done|]. split; [by eapply grows_trans | done].
Qed.

Lemma tri_get {A} P (k : vfs -> ST vfs A) R : (forall s, tri (fun s' => P s' /\ s' = s) (k s) R) -> tri P (st_bind st_get k) R.
Proof. intros Hk s Ho Hp. by apply (Hk s s). Qed.

Lemma tri_pre {A} (P P' : vfs -> Prop) (m : ST vfs A) Q : tri P' m Q -> (forall s, P s -> P' s) -> tri P m Q.
Proof. intros Hm Hp s Ho H. apply Hm; [done | by apply Hp]. Qed.

Lemma tri_post {A} P (m : ST vfs A) (Q Q' : A -> vfs -> Prop) : tri P m Q -> (forall a s, Q a s -> Q' a s) -> tri P m Q'.
Proof. intros Hm Hq s Ho H. destruct (Hm s Ho H) as (H1 & H2 & H3). split; [done|]. split; [done | by apply Hq]. Qed.

(** What a growing state keeps. *)
Definition stable (F : vfs -> Prop) : Prop := forall s s', grows s s' -> F s -> F s'.

Lemma tri_frame {A} P F (m : ST vfs A) Q : stable F -> tri P m Q -> tri (fun s => P s /\ F s) m (fun a s => Q a s /\ F s).
Proof.
  intros HF Hm s Ho [Hp Hf]. destruct (Hm s Ho Hp) as (H1 & H2 & H3). split; [done|]. split; [done|].
  split; [done | by eapply HF].
Qed.

(** A sequence whose first step is a creation the rest does not depend on. *)
Lemma tri_seq {A B} F (m : ST vfs A) (k : ST vfs B) R : stable F -> tri F m top -> tri F k R -> tri F (st_bind m (fun _ => k)) R.
Proof.
  intros HF Hm Hk. eapply tri_bind.
  - eapply tri_pre; [apply (tri_frame F F m top HF Hm) | intros s H; by split].
  - intros a. eapply tri_pre; [exact Hk | by intros s [_ H]].
Qed.

Definition dir_at (p : Z) (s : vfs) : Prop := live s p /\ ftype s p = VFS_NODE_DIR.

Lemma dir_stable p : stable (dir_at p).
Proof. intros s s' Hg [Hl Ht]. destruct (Hg p Hl). split; [done | congruence]. Qed.
Lemma tt_stable : stable tt_.
Proof. done. Qed.
Lemma and_stable F G : stable F -> stable G -> stable (fun s => F s /\ G s).
Proof. intros HF HG s s' Hg [? ?]. split; [by eapply HF | by eapply HG]. Qed.

(** The node a constructor returns is a directory. *)
Definition gives_dir (r : option Z) (s : vfs) : Prop := forall x, r = Some x -> dir_at x s.

(** ** Lookups and updates *)

Lemma respelled_grows s s' : respelled s s' -> grows s s'.
Proof. intros R i Hi. split; [by apply (respelled_live s s' i R) | by apply respelled_type]. Qed.

Lemma tri_lookup P p : tri P (vfs_lookup p) top.
Proof.
  intros s [K W] _. destruct (vfs_lookup p s) as [r s'] eqn:E. destruct (vfs_lookup_spec s K p r s' W E) as (R & W' & _).
  split; [by exists K|]. split; [by apply respelled_grows | done].
Qed.

Lemma inserted_grows s s' K p N o : vfs_wf s K -> inserted s s' p N o -> grows s s'.
Proof.
  intros W I i Hi. split; [by apply (ins_live s s' K p N o W I); left | by apply (ins_old s s' p N o I i Hi)].
Qed.

Lemma tri_mk p n t m : t <> VFS_NODE_FILE ->
  tri (dir_at p) (mk p n t m) (fun r s => forall x, r = Some x -> live s x /\ ftype s x = t).
Proof.
  intros Ht s [K W] [Hp Hpd]. pose proof (mk_spec s K p n t m W Hp Hpd Ht) as H.
  destruct (mk p n t m s) as [r s']. cbn [fst snd]. destruct H as [(-> & -> & _)|(-> & I & W')].
  - split; [by exists K|]. by split.
  - split; [by eexists|]. split; [by eapply inserted_grows|]. intros x [= <-].
    split; [by apply (ins_live s s' K p _ None W I); right|]. unfold ftype. by rewrite (in_new _ _ _ _ _ I).
Qed.

Lemma tri_mkd p n : tri (dir_at p) (mkd p n) gives_dir.
Proof. by apply tri_mk. Qed.

Lemma tri_mkf p n t : t <> VFS_NODE_FILE -> tri (dir_at p) (mkf p n t) top.
Proof. intros Ht. eapply tri_post; [by apply tri_mk | done]. Qed.

Lemma tri_upd_core P i f : (forall n, core (f n) = core n /\ n_size (f n) = n_size n) -> tri P (upd i f) top.
Proof.
  intros Hf s [K W] _. split; [exists K; by apply upd_wf|]. split; [|done]. intros j Hj. split; [done|].
  cbn. unfold ftype. rewrite nd_upd. destruct (Z.eqb_spec i j) as [->|]; [|done].
  by destruct (core_fields _ _ (proj1 (Hf (nd s j)))) as (-> & _).
Qed.

(** A new node that is completed before it is linked in: symbolic links and
    boot files. *)
Lemma attach_nonfile s K p n t m f : vfs_wf s K -> v_node_used s < VFS_MAX_NODES -> dir_at p s -> t <> VFS_NODE_FILE ->
  (forall x, n_type (f x) = n_type x /\ n_children (f x) = n_children x /\ n_mounted (f x) = n_mounted x /\
     n_inode_owner (f x) = n_inode_owner x /\ n_data (f x) = n_data x) ->
  let s' := added p (v_node_used s) (upd_node (v_node_used s) f (with_new (blank_node s n t m) s)) in
  vfs_ok s' /\ grows s s'.
Proof.
  intros W Hmax [Hp Hpd] Ht Hf. set (s1 := upd_node (v_node_used s) f (with_new (blank_node s n t m) s)).
  assert (Hnd : forall i, nd s1 i = if v_node_used s =? i then f (blank_node s n t m) else nd s i).
  { intros i. unfold s1. rewrite nd_upd, !nd_with_new, Z.eqb_refl. by destruct (v_node_used s =? i). }
  assert (Hfr : v_node_used s1 = v_node_used s + 1 /\ v_root s1 = v_root s /\ v_mounts s1 = v_mounts s /\ v_data_used s1 = v_data_used s) by done.
  clearbody s1. destruct Hfr as (E1 & E2 & E3 & E4). destruct (Hf (blank_node s n t m)) as (F1 & F2 & F3 & F4 & F5).
  assert (I : inserted s (added p (v_node_used s) s1) p (with_next (n_children (nd s p)) (with_parent (Some p) (f (blank_node s n t m)))) None).
  { apply attach_inserted; try done.
    - by rewrite Hnd, Z.eqb_refl.
    - intros i Hi. rewrite Hnd, (proj2 (Z.eqb_neq _ _)) by (unfold live in Hi; lia). done.
    - intros d Hd. unfold slot_used. rewrite E4. split; [by left|]. rewrite F1. by intros [?|[? _]].
    - rewrite F1. done. }
  split; [eexists; by eapply inserted_wf | by eapply inserted_grows].
Qed.

Lemma tri_mkl p n t : tri (dir_at p) (mkl p n t) top.
Proof.
  intros s [K W] Hp. unfold mkl, st_bind. rewrite new_node_eq. destruct (Z.leb_spec VFS_MAX_NODES (v_node_used s)).
  - split; [by exists K|]. by split.
  - destruct (attach_nonfile s K p n VFS_NODE_SYMLINK (Z.lor S_IFLNK 0x1FF) (with_link_target (Some t)) W) as [H1 H2]; try done.
Qed.

(** A directory in no directory: the root, or the root of a mount. *)
Lemma new_loose_dir s K n m : vfs_wf s K -> v_node_used s < VFS_MAX_NODES ->
  vfs_wf (with_new (blank_node s n VFS_NODE_DIR m) s) (fset K (v_node_used s) []).
Proof.
  intros W Hmax. set (x := v_node_used s). set (s' := with_new _ s). pose proof (w_shape _ _ _ W) as Hs.
  assert (Hnd : forall i, nd s' i = if x =? i then blank_node s n VFS_NODE_DIR m else nd s i) by (intros i; apply nd_with_new).
  assert (Hold : forall i, live s i -> nd s' i = nd s i)
    by (intros i Hi; rewrite Hnd, (proj2 (Z.eqb_neq x i)); [done | unfold live, x in *; lia]).
  assert (Hx : nd s' x = blank_node s n VFS_NODE_DIR m) by (by rewrite Hnd, Z.eqb_refl).
  assert (Hl : forall i, live s' i <-> live s i \/ i = x).
  { intros i. unfold live, x. change (v_node_used s') with (v_node_used s + 1). pose proof (sh_used _ _ Hs). lia. }
  assert (HK : forall d, live s d -> fset K x [] d = K d) by (intros d Hd; apply fset_ne; unfold live, x in *; lia).
  assert (Hi : forall o, inode s' o <-> inode s o).
  { intros o. unfold inode, ftype. rewrite Hl. split.
    - intros ([Ho| ->] & H); [by rewrite Hold in H | rewrite Hx in H; by destruct H].
    - intros (Ho & H). rewrite Hold by done. split; [by left | done]. }
  split.
  - split.
    + change (v_node_used s') with (v_node_used s + 1). pose proof (sh_used _ _ Hs). lia.
    + intros d [Hd| ->]%Hl; [|by rewrite Hx, fset_eq]. rewrite HK, Hold by done. apply llist_agree with s; [|by apply Hs].
      intros i Hi'. by rewrite Hold by (by apply (sh_live _ _ Hs d)).
    + intros d y [Hd| ->]%Hl; [|rewrite fset_eq; by intros ?%not_elem_of_nil]. rewrite HK by done. intros Hy.
      apply Hl. left. by apply (sh_live _ _ Hs d).
    + intros d [Hd| ->]%Hl; [rewrite HK by done; by apply Hs | rewrite fset_eq; apply NoDup_nil_2].
    + intros d d' y [Hd| ->]%Hl [Hd'| ->]%Hl; rewrite ?fset_eq, ?HK by done; try (by intros ?%not_elem_of_nil);
        [by apply (sh_disj _ _ Hs) | by intros _ ?%not_elem_of_nil].
  - intros d y [Hd| ->]%Hl; [|rewrite fset_eq; by intros ?%not_elem_of_nil]. rewrite HK by done. intros Hy.
    rewrite Hold by (by apply (sh_live _ _ Hs d)). by apply (w_kid_parent _ _ _ W).
  - intros y p [Hy| ->]%Hl; [|by rewrite Hx]. rewrite Hold by done. intros Hp.
    destruct (w_parent _ _ _ W y p Hy Hp). rewrite Hl. unfold ftype. rewrite Hold by done. split; [by left | done].
  - intros y p [Hy| ->]%Hl; unfold ftype; [|by rewrite Hx]. rewrite Hold by done. intros Ht Hp.
    rewrite HK by (by apply (w_parent _ _ _ W y p)). by apply (w_file_kid _ _ _ W).
  - intros r Hr. destruct (w_root _ _ _ W r Hr). rewrite Hl. unfold ftype. rewrite Hold by done. split; [by left | done].
  - intros y k [Hy| ->]%Hl; unfold ftype; [|by rewrite Hx]. rewrite Hold by done. by apply (w_mount _ _ _ W).
  - intros k r Hr. destruct (w_mtroot _ _ _ W k r Hr). rewrite Hl. unfold ftype. rewrite Hold by done. split; [by left | done].
  - intros y [Hy| ->]%Hl; unfold ftype; [|by rewrite Hx]. rewrite Hold by done. setoid_rewrite Hi. by apply (w_owner _ _ _ W).
  - intros y [Hy| ->]%Hl; unfold ftype; [|by rewrite Hx]. rewrite Hold by done. by apply (w_self _ _ _ W).
  - intros o Ho%Hi. rewrite Hold by apply Ho. rewrite (w_links _ _ _ W o Ho). f_equal. unfold links.
    change (v_node_used s') with (x + 1). fold x.
    replace (seqZ 0 (x + 1)) with (seqZ 0 x ++ [x]) by (pose proof (sh_used _ _ Hs); unfold x; rewrite seqZ_app by lia; done).
    rewrite filter_app, length_app, filter_cons, decide_False by (unfold names, ftype; rewrite Hx; by intros [? _]).
    rewrite filter_nil, Nat.add_0_r. f_equal. apply length_filter_iff_in. intros q Hq%elem_of_seqZ. unfold names, ftype.
    by rewrite Hold by (unfold live, x in *; lia).
  - intros o Ho%Hi. rewrite Hold by apply Ho. apply (w_buffer _ _ _ W o Ho).
  - intros o o' d Ho%Hi Ho'%Hi. rewrite (Hold o) by apply Ho. rewrite (Hold o') by apply Ho'. by apply (w_excl _ _ _ W).
  - intros d Hd Hu. destruct (w_noleak _ _ _ W d Hd Hu) as (o & Ho & E). exists o. rewrite Hi, Hold by apply Ho. done.
Qed.

Lemma tri_new_dir n m : tri tt_ (new_node n VFS_NODE_DIR m) gives_dir.
Proof.
  intros s [K W] _. rewrite new_node_eq. destruct (Z.leb_spec VFS_MAX_NODES (v_node_used s)) as [|Hmax].
  - split; [by exists K|]. by split.
  - cbn [fst snd]. pose proof (w_shape _ _ _ W) as Hs. pose proof (sh_used _ _ Hs). split; [eexists; by apply new_loose_dir|].
    split.
    + intros i Hi. unfold live, ftype in *. cbn. rewrite nd_with_new, (proj2 (Z.eqb_neq _ _)) by lia. split; [lia | done].
    + intros x [= <-]. split; [unfold live; cbn; lia|]. unfold ftype. by rewrite nd_with_new, Z.eqb_refl.
Qed.

(** ** Mounts *)

(** A directory may get another parent or mount. *)
Lemma dir_upd_wf s K x f : vfs_wf s K -> dir_at x s ->
  (forall n, n_type (f n) = n_type n /\ n_children (f n) = n_children n /\ n_next (f n) = n_next n /\
     n_data (f n) = n_data n /\ n_inode_owner (f n) = n_inode_owner n) ->
  (forall p, n_parent (f (nd s x)) = Some p -> dir_at p s) ->
  (forall d, live s d -> x ∈ K d -> n_parent (f (nd s x)) = Some d) -> vfs_wf (upd_node x f s) K.
Proof.
  intros W [Hx Hxd] Hf Hp Hk. set (s' := upd_node x f s).
  assert (Hnd : forall i, nd s' i = if x =? i then f (nd s x) else nd s i) by (intros i; apply nd_upd).
  assert (Hne : forall i, i <> x -> nd s' i = nd s i) by (intros i Hi; rewrite Hnd, (proj2 (Z.eqb_neq x i)); congruence).
  assert (Hxx : nd s' x = f (nd s x)) by (by rewrite Hnd, Z.eqb_refl).
  destruct (Hf (nd s x)) as (F1 & F2 & F3 & F4 & F5).
  assert (Ht : forall i, ftype s' i = ftype s i).
  { intros i. unfold ftype. rewrite Hnd. by destruct (Z.eqb_spec x i) as [<-|]. }
  assert (Ho : forall i, n_inode_owner (nd s' i) = n_inode_owner (nd s i)).
  { intros i. rewrite Hnd. by destruct (Z.eqb_spec x i) as [<-|]. }
  assert (Hfn : forall i, ftype s i = VFS_NODE_FILE -> nd s' i = nd s i).
  { intros i Hi. apply Hne. intros ->. rewrite Hxd in Hi. discriminate Hi. }
  assert (Hin : forall i, inode s' i <-> inode s i) by (intros i; unfold inode; by rewrite Ht, Ho).
  assert (Hini : forall i, inode s i -> nd s' i = nd s i) by (intros i (_ & Hi & _); by apply Hfn).
  split.
  - apply shape_same with s; [apply W|]. apply upd_same_links. intros n. by destruct (Hf n) as (_ & -> & -> & _).
  - intros d y Hd Hy. destruct (decide (y = x)) as [->|]; [rewrite Hxx; by apply Hk|].
    rewrite Hne by done. by apply (w_kid_parent _ _ _ W).
  - intros y p Hy. rewrite Ht. destruct (decide (y = x)) as [->|]; [rewrite Hxx; by apply Hp|].
    rewrite Hne by done. by apply (w_parent _ _ _ W).
  - intros y p Hy. rewrite Ht. intros Hty. rewrite Hfn by done. by apply (w_file_kid _ _ _ W).
  - intros r. rewrite Ht. apply (w_root _ _ _ W).
  - intros y m Hy. rewrite Ht. destruct (decide (y = x)) as [->|]; [done|]. rewrite Hne by done. by apply (w_mount _ _ _ W).
  - intros m r. rewrite Ht. apply (w_mtroot _ _ _ W).
  - intros y Hy. rewrite Ht, Ho. setoid_rewrite Hin. by apply (w_owner _ _ _ W).
  - intros y Hy. rewrite Ht, Ho. intros Hty. destruct (w_self _ _ _ W y Hy Hty). split; [done|].
    rewrite Hnd. destruct (Z.eqb_spec x y) as [<-|]; [congruence | done].
  - intros o Hoi%Hin. rewrite Hini by done. rewrite (w_links _ _ _ W o Hoi). f_equal. symmetry.
    apply links_agree; [done|]. intros q Hq. unfold names. rewrite Ht.
    split; intros (Hq1 & Hq2 & Hq3); (split; [done|]); [rewrite Hfn in Hq2, Hq3 | rewrite Hfn]; done.
  - intros o Hoi%Hin. rewrite Hini by done. by apply (w_buffer _ _ _ W).
  - intros o o' d Hoi%Hin Hoi'%Hin. rewrite !Hini by done. by apply (w_excl _ _ _ W).
  - intros d Hd Hu. destruct (w_noleak _ _ _ W d Hd Hu) as (o & Hoi & E). exists o. rewrite Hin, Hini by done. done.
Qed.

Lemma dir_upd_grows s x f : (forall n, n_type (f n) = n_type n) -> grows s (upd_node x f s).
Proof.
  intros Hf i Hi. split; [done|]. unfold ftype. rewrite nd_upd. by destruct (Z.eqb_spec x i) as [->|].
Qed.

Lemma tri_set_mounted p m : tri (dir_at p) (upd p (with_mounted (Some m))) top.
Proof.
  intros s [K W] Hp. split; [|by split; [apply dir_upd_grows|]]. exists K. apply dir_upd_wf; try done.
  - intros q Hq. by apply (w_parent _ _ _ W p q (proj1 Hp)).
  - intros d Hd Hin. by apply (w_kid_parent _ _ _ W).
Qed.

(** In no list of children, as the code sees them. *)
Definition in_no_dir (x : Z) (s : vfs) : Prop := forall d, live s d -> x ∉ kids s d.

Lemma tri_new_dir_loose n m : tri tt_ (new_node n VFS_NODE_DIR m)
  (fun r s => forall x, r = Some x -> dir_at x s /\ in_no_dir x s).
Proof.
  intros s [K W] H. destruct (tri_new_dir n m s (ex_intro _ K W) H) as (H1 & H2 & H3).
  split; [done|]. split; [done|]. intros x Hx. split; [by apply H3|].
  rewrite new_node_eq in *. destruct (Z.leb_spec VFS_MAX_NODES (v_node_used s)) as [|Hmax]; [done|]. injection Hx as <-.
  pose proof (new_loose_dir s K n m W Hmax) as W'. cbn [snd]. intros d Hd. rewrite (kids_eq _ _ d (w_shape _ _ _ W') Hd).
  unfold fset. destruct (d =? v_node_used s) eqn:E; [apply not_elem_of_nil|]. apply Z.eqb_neq in E. intros Hin.
  assert (Hds : live s d) by (unfold live in *; cbn in Hd; lia).
  pose proof (sh_live _ _ (w_shape _ _ _ W) d _ Hds Hin) as Hl. unfold live in Hl. lia.
Qed.

Lemma tri_set_parent x p : tri (fun s => (dir_at x s /\ in_no_dir x s) /\ dir_at p s) (upd x (with_parent (Some p))) top.
Proof.
  intros s [K W] [[Hx Hno] Hp]. split; [|by split; [apply dir_upd_grows|]]. exists K. apply dir_upd_wf; try done.
  - by intros q [= <-].
  - intros d Hd Hin. exfalso. apply (Hno d Hd). by rewrite (kids_eq s K d (w_shape _ _ _ W) Hd).
Qed.

Lemma mounts_wf s K M u : vfs_wf s K ->
  (forall m r, mt_root (default mount_zero (M !! m)) = Some r -> dir_at r s) -> vfs_wf (set_mounts M u s) K.
Proof.
  intros W HM. pose proof (shape_same s (set_mounts M u s) K (w_shape _ _ _ W)) as Hs.
  destruct W as [_ W1 W2 W3 W4 W5 W6 W7 W8 W9 W10 W11 W12]. split; try assumption. by apply Hs.
Qed.

Lemma tri_mount_slot P m f mp u : tri P (st_mod (fun s => set_mounts (<[m := VfsMount f mp None]> (v_mounts s)) (u s) s)) top.
Proof.
  intros s [K W] _. split; [|by split]. exists K. apply mounts_wf; [done|]. intros k r. rewrite lookup_insert.
  destruct (decide (m = k)); [done|]. apply (w_mtroot _ _ _ W).
Qed.

Lemma tri_mt_root m r : tri (dir_at r) (set_mt_root m (Some r)) top.
Proof.
  intros s [K W] Hr. split; [|by split]. exists K. apply mounts_wf; [done|]. intros k q. rewrite lookup_insert.
  destruct (decide (m = k)); [by intros [= <-]|]. apply (w_mtroot _ _ _ W).
Qed.

Lemma tri_mount_used P u : tri P (st_mod (fun s => set_mounts (v_mounts s) (u s) s)) top.
Proof. intros s [K W] _. split; [|by split]. exists K. apply mounts_wf; [done|]. apply (w_mtroot _ _ _ W). Qed.

(** *** Sequences of node constructors *)

Definition dirs (l : list Z) (s : vfs) : Prop := Forall (fun p => dir_at p s) l.

Lemma dirs_stable l : stable (dirs l).
Proof. intros s s' Hg Hl. unfold dirs in *. eapply Forall_impl; [exact Hl|]. intros p. by apply dir_stable. Qed.

Lemma dirs_in l p s : p ∈ l -> dirs l s -> dir_at p s.
Proof. intros Hp Hl. unfold dirs in Hl. rewrite Forall_forall in Hl. by apply Hl. Qed.

Lemma dirs_seq {A B} l (m : ST vfs A) (k : ST vfs B) R : tri (dirs l) m top -> tri (dirs l) k R ->
  tri (dirs l) (st_bind m (fun _ => k)) R.
Proof. apply tri_seq, dirs_stable. Qed.

Lemma dirs_bind {B} l (m : ST vfs (option Z)) (k : option Z -> ST vfs B) R : tri (dirs l) m gives_dir ->
  (forall x, tri (dirs (x :: l)) (k (Some x)) R) -> tri (dirs l) (k None) R -> tri (dirs l) (st_bind m k) R.
Proof.
  intros Hm Hs Hn. eapply tri_bind.
  - eapply tri_pre; [apply (tri_frame _ _ m gives_dir (dirs_stable l) Hm) | intros s H; by split].
  - intros [x|]; (eapply tri_pre; [apply Hs || exact Hn|]).
    + intros s [Hx Hl]. constructor; [by apply Hx | done].
    + by intros s [_ Hl].
Qed.

(** The leaves of a sequence. *)
Lemma dirs_mkd l p n : p ∈ l -> tri (dirs l) (mkd p n) gives_dir.
Proof. intros Hp. eapply tri_pre; [apply tri_mkd | intros s; by apply dirs_in]. Qed.
Lemma dirs_mkd_top l p n : p ∈ l -> tri (dirs l) (mkd p n) top.
Proof. intros Hp. eapply tri_post; [by apply dirs_mkd | done]. Qed.
Lemma dirs_mkf l p n t : p ∈ l -> t <> VFS_NODE_FILE -> tri (dirs l) (mkf p n t) top.
Proof. intros Hp Ht. eapply tri_pre; [by apply tri_mkf | intros s; by apply dirs_in]. Qed.
Lemma dirs_mkl l p n t : p ∈ l -> tri (dirs l) (mkl p n t) top.
Proof. intros Hp. eapply tri_pre; [apply tri_mkl | intros s; by apply dirs_in]. Qed.
Lemma dirs_mode l p v : tri (dirs l) (upd p (with_mode v)) top.
Proof. by apply tri_upd_core. Qed.
Lemma dirs_ret {A} l (a : A) : tri (dirs l) (st_ret a) top.
Proof. by apply tri_ret. Qed.
Lemma dirs_mt_root l m r : r ∈ l -> tri (dirs l) (set_mt_root m (Some r)) top.
Proof. intros Hr. eapply tri_pre; [apply tri_mt_root | intros s; by apply dirs_in]. Qed.

Create HintDb vfs.
#[export] Hint Resolve dirs_mkd dirs_mkd_top dirs_mkf dirs_mkl dirs_mode dirs_ret dirs_mt_root dirs_seq dirs_bind : vfs.
#[export] Hint Extern 1 (_ ∈ _ :: _) => (repeat first [left | right; left | right; right; left | right; right; right; left
  | right; right; right; right; left]) : vfs.
#[export] Hint Extern 1 (_ <> VFS_NODE_FILE) => discriminate : vfs.

(** One constructor after the other. *)
Ltac dirs_go :=
  repeat first
    [ apply dirs_ret
    | apply dirs_bind; [solve [auto with vfs] | intros ? | ]
    | apply dirs_seq; [solve [auto with vfs] | ]
    | progress cbn [when_some]
    | solve [auto with vfs] ].

(** A mount function starts with a directory of its own. *)
Lemma mount_root_tri mp n m (k : Z -> ST vfs Z) : (forall r, tri (dirs [r; mp]) (k r) top) ->
  tri (dir_at mp) (st_bind (new_node n VFS_NODE_DIR m) (fun r =>
    match r with
    | None => st_ret (-1)
    | Some r => st_bind (upd r (with_parent (Some mp))) (fun _ => k r)
    end)) top.
Proof.
  intros Hk. eapply tri_bind.
  - eapply tri_pre; [apply (tri_frame _ _ _ _ (dir_stable mp) (tri_new_dir_loose n m)) | intros s H; by split].
  - intros [r|]; [|by apply tri_ret]. cbn beta.
    assert (H : tri (fun s => (dir_at r s /\ in_no_dir r s) /\ dir_at mp s) (upd r (with_parent (Some mp))) (fun _ s => dirs [r; mp] s)).
    { intros s Ho Hp. destruct (tri_set_parent r mp s Ho Hp) as (H1 & H2 & _). split; [done|]. split; [done|].
      destruct Hp as [[Hr _] Hm]. repeat constructor; by eapply dir_stable. }
    eapply tri_pre; [eapply tri_bind; [exact H | intros a; apply Hk]|].
    intros s [Hr Hm]. split; [by apply Hr | done].
Qed.

Lemma dirs_for_each {A R} l (xs : list A) (body : A -> ST vfs (option R)) :
  (forall x, tri (dirs l) (body x) top) -> tri (dirs l) (for_each xs body) top.
Proof.
  intros Hb. induction xs as [|x xs IH]; cbn [for_each]; [apply dirs_ret|]. eapply tri_bind.
  - eapply tri_pre; [apply (tri_frame _ _ _ _ (dirs_stable l) (Hb x)) | intros s H; by split].
  - intros [r|]; (eapply tri_pre; [apply dirs_ret || exact IH | by intros s [_ H]]).
Qed.

Lemma tri_proc_mount mp m : tri (dir_at mp) (proc_mount mp m) top.
Proof.
  apply mount_root_tri. intros r. apply dirs_seq; [auto with vfs|].
  apply dirs_bind; [auto with vfs | intros self | ]; (apply dirs_bind; [auto with vfs | intros pid | apply dirs_ret]);
    [|apply dirs_ret].
  apply dirs_bind; [auto with vfs | intros sfd | ]; (apply dirs_bind; [auto with vfs | intros pfd | apply dirs_ret]);
    [|apply dirs_ret].
  do 4 (apply dirs_seq; [auto with vfs|]). apply dirs_seq.
  - apply dirs_for_each. intros n. dirs_go.
  - unfold proc_fd_links. dirs_go.
Qed.

Lemma tri_dev_mount mp m : tri (dir_at mp) (dev_mount mp m) top.
Proof. apply mount_root_tri. intros r. dirs_go. Qed.

Lemma tri_run_mount f mp m : tri (dir_at mp) (run_mount f mp m) top.
Proof. destruct f; [apply tri_proc_mount | apply tri_dev_mount]. Qed.

Definition gives_live (r : option Z) (s : vfs) : Prop := forall x, r = Some x -> live s x.

Lemma tri_lookup_live P p : tri P (vfs_lookup p) gives_live.
Proof.
  intros s [K W] _. destruct (vfs_lookup p s) as [r s'] eqn:E. destruct (vfs_lookup_spec s K p r s' W E) as (R & W' & Hf).
  split; [by exists K|]. split; [by apply respelled_grows|]. intros x Hx. cbn in Hx. subst r.
  apply (respelled_live s s' x R). by apply Hf.
Qed.

Lemma tri_mountpoint P t : tri P (mountpoint t) gives_live.
Proof.
  unfold mountpoint. destruct t as [|c t]; [by apply tri_ret|]. destruct (negb _); [by apply tri_ret|].
  destruct (eq _ _).
  - intros s [K W] _. split; [by exists K|]. split; [done|]. intros x Hx. by apply (w_root _ _ _ W).
  - destruct (_ <=? _)%nat; [by apply tri_ret | apply tri_lookup_live].
Qed.

Lemma tri_vfs_mount name target : tri tt_ (vfs_mount name target) top.
Proof.
  apply tri_get. intros s0. destruct (_ <=? _); [by apply tri_ret|]. destruct (find _ _) as [f|]; [|by apply tri_ret].
  eapply tri_bind; [apply tri_mountpoint|]. intros mp. apply tri_get. intros s1. destruct mp as [mp|]; [|by apply tri_ret].
  destruct (n_type (nd s1 mp) =? VFS_NODE_DIR) eqn:Hd; cbn [negb]; [|by apply tri_ret]. apply Z.eqb_eq in Hd.
  destruct (is_some _); [by apply tri_ret|].
  apply tri_pre with (P' := dir_at mp); [|intros s [Hl ->]; split; [by apply Hl | done]].
  apply tri_seq; [apply dir_stable | apply (tri_mount_slot _ _ _ _ (fun _ => v_mount_used s1 + 1)) |].
  apply tri_bind with (Q := fun _ => dir_at mp).
  - eapply tri_post; [eapply tri_pre; [apply (tri_frame _ _ _ _ (dir_stable mp) (tri_run_mount (fs_mount f) mp (v_mount_used s1)))|]|].
    + intros s H; by split.
    + by intros a s [_ H].
  - intros k. destruct (negb _).
    + apply tri_seq; [apply dir_stable | apply (tri_mount_used _ (fun s => v_mount_used s - 1)) | by apply tri_ret].
    + apply tri_seq; [apply dir_stable | apply tri_set_mounted | by apply tri_ret].
Qed.

(** ** The calls *)

Lemma tri_create_named path b t m : t <> VFS_NODE_FILE -> tri tt_ (create_named path b t m) top.
Proof.
  intros Ht. unfold create_named. destruct path as [|c rest]; [by apply tri_ret|].
  destruct (_ || _); [by apply tri_ret|]. destruct (canonicalize_system_path _ _) as [|c' l]; [by apply tri_ret|].
  eapply tri_bind; [apply tri_lookup_live|]. intros [e|]; [by apply tri_ret|].
  apply tri_bind with (Q := fun r s => forall p nm, r = Some (p, nm) -> live s p).
  - intros s [K W] _. destruct (vfs_parent_for_create (c' :: l) s) as [r s'] eqn:E.
    destruct (parent_for_create_spec s K (c' :: l) r s' W E) as (R & W' & Hf).
    split; [by exists K|]. split; [by apply respelled_grows|]. intros p nm Hr. cbn in Hr. subst r.
    apply (respelled_live s s' p R). by apply (Hf p nm).
  - intros pn. apply tri_get. intros s1. destruct pn as [[p nm]|]; [|by apply tri_ret].
    destruct (n_type (nd s1 p) =? VFS_NODE_DIR) eqn:Hd; cbn [negb orb]; [|by apply tri_ret].
    destruct (b && is_nil nm); [by apply tri_ret|]. apply Z.eqb_eq in Hd.
    eapply tri_post; [eapply tri_pre; [by apply tri_mk|] | done].
    intros s [Hl ->]. split; [by eapply Hl | done].
Qed.

Lemma tri_lookup_child d n : tri (dir_at d) (vfs_lookup_child d n) gives_live.
Proof.
  intros s [K W] [Hd _]. destruct (vfs_lookup_child d n s) as [r s'] eqn:E.
  destruct (lookup_child_spec s K d n r s' W Hd E) as [R Hf]. split; [exists K; by eapply respelled_wf|].
  split; [by apply respelled_grows|]. intros x Hx. cbn in Hx. subst r. apply (respelled_live s s' x R). by apply Hf.
Qed.

Lemma tri_upd_boot P i size path : tri (fun s => P s /\ live s i /\ ftype s i = VFS_NODE_BOOT_FILE) (upd i (with_boot size path)) top.
Proof.
  intros s [K W] (_ & Hi & Ht). split; [|split; [by apply dir_upd_grows | done]]. exists K. apply nonfile_upd_wf; try done.
  rewrite Ht. discriminate.
Qed.

Lemma tri_import fuel path size parent p : tri (dir_at parent) (import_loop fuel path size parent p) top.
Proof.
  revert parent p. induction fuel as [|fuel IH]; intros parent p; cbn [import_loop]; [by apply tri_ret|].
  destruct p as [|c p]; [by apply tri_ret|]. destruct (span_part (c :: p)) as [whole rest].
  destruct (is_nil (take _ _)); [apply IH|].
  apply tri_bind with (Q := fun r s => gives_live r s /\ dir_at parent s).
  { eapply tri_pre; [apply (tri_frame _ _ _ _ (dir_stable parent) (tri_lookup_child parent _)) | intros s H; by split]. }
  intros child. destruct (negb (is_nil (skip_slashes rest))).
  - apply tri_bind with (Q := gives_live).
    + destruct child as [c'|]; [apply tri_ret; by intros s [H _]|].
      eapply tri_post; [eapply tri_pre; [apply tri_mkd | by intros s [_ H]]|]. intros r s Hr x Hx. by apply (Hr x Hx).
    + intros child'. apply tri_get. intros s1. destruct child' as [c'|]; [|by apply tri_ret].
      destruct (n_type (nd s1 c') =? VFS_NODE_DIR) eqn:Hd; cbn [negb]; [|by apply tri_ret]. apply Z.eqb_eq in Hd.
      eapply tri_pre; [apply IH|]. intros s [Hl ->]. split; [by apply Hl | done].
  - apply tri_get. intros s1. destruct child as [c'|].
    + destruct (Z.eqb_spec (n_type (nd s1 c')) VFS_NODE_BOOT_FILE) as [Hb|]; [|by apply tri_ret].
      eapply tri_bind; [|intros a; by apply (tri_ret (fun _ => True))].
      eapply tri_post; [eapply tri_pre; [apply (tri_upd_boot tt_)|] | done].
      intros s [[Hl _] ->]. split; [done|]. split; [by apply Hl | done].
    + intros s [K W] [[_ Hp] _]. unfold st_bind. rewrite new_node_eq.
      destruct (Z.leb_spec VFS_MAX_NODES (v_node_used s)); [split; [by exists K|]; by split|].
      destruct (attach_nonfile s K parent (take VFS_NAME_MAX whole) VFS_NODE_BOOT_FILE (Z.lor S_IFREG 0x124)
        (with_boot size (cp_path path)) W) as [H1 H2]; try done.
Qed.

(** ** Keeping the invariant *)

Definition safe {A} (m : ST vfs A) : Prop := forall s, vfs_ok s -> vfs_ok (snd (m s)).

Lemma safe_tri {A} (m : ST vfs A) Q : tri tt_ m Q -> safe m.
Proof. intros H s Ho. by apply (H s Ho I). Qed.
Lemma safe_ret {A} (a : A) : safe (st_ret a).
Proof. intros s Ho. exact Ho. Qed.
Lemma safe_bind {A B} (m : ST vfs A) (k : A -> ST vfs B) : safe m -> (forall a, safe (k a)) -> safe (st_bind m k).
Proof. intros Hm Hk s Ho. unfold st_bind. pose proof (Hm s Ho) as H. destruct (m s) as [a s1]. by apply Hk. Qed.
Lemma safe_get {A} (k : vfs -> ST vfs A) : (forall s, safe (k s)) -> safe (st_bind st_get k).
Proof. intros Hk s Ho. by apply (Hk s s). Qed.
Lemma safe_lookup p : safe (vfs_lookup p).
Proof. apply (safe_tri _ gives_live), tri_lookup_live. Qed.

Lemma safe_create_file path tr : safe (vfs_create_file path tr).
Proof. intros s [K W]. destruct (vfs_create_file path tr s) as [r s'] eqn:E. by apply (vfs_create_file_spec s K path tr r s' W). Qed.

Lemma safe_mkdir path m : safe (vfs_mkdir path m).
Proof. apply (safe_tri _ top). by apply tri_create_named. Qed.
Lemma safe_socket path m : safe (vfs_create_socket path m).
Proof. apply (safe_tri _ top). by apply tri_create_named. Qed.

Lemma safe_link a b : safe (vfs_link a b).
Proof.
  intros s [K W]. destruct (vfs_link a b s) as [r s'] eqn:E.
  destruct (vfs_link_spec s K a b r s' W E) as [[_ R]|(_ & src & s1 & p & nm & s3 & N & H)]; [exists K; by eapply respelled_wf | apply H].
Qed.

Lemma safe_unlink p : safe (vfs_unlink p).
Proof.
  intros s [K W]. pose proof (vfs_unlink_cases s K p W) as H. destruct (vfs_lookup p s) as [n s1] eqn:E.
  destruct (vfs_unlink p s) as [r s']. destruct H as [(_ & -> & _)|(x & q & _ & _ & _ & _ & _ & _ & W')]; [|by eexists].
  exists K. by apply (vfs_lookup_spec s K p n s1 W E).
Qed.

Lemma safe_rmdir p : safe (vfs_rmdir p).
Proof.
  intros s [K W]. pose proof (vfs_rmdir_cases s K p W) as H. destruct (vfs_lookup p s) as [n s1] eqn:E.
  destruct (vfs_rmdir p s) as [r s']. destruct H as [(_ & ->)|(x & q & _ & _ & _ & _ & _ & _ & _ & W')]; [|by eexists].
  exists K. by apply (vfs_lookup_spec s K p n s1 W E).
Qed.

Lemma safe_rename a b : safe (vfs_rename a b).
Proof. intros s [K W]. by apply (vfs_rename_ok s K). Qed.

Lemma safe_import path size : safe (vfs_import_boot_file path size).
Proof.
  intros s [K W]. unfold vfs_import_boot_file, st_bind, st_get. destruct (_ || _); [by exists K|].
  destruct (skip_slashes path) as [|c p]; [by exists K|]. destruct (v_root s) as [r|] eqn:Hr; [|by exists K].
  apply (tri_import _ path size r (c :: p) s); [by exists K | by apply (w_root _ _ _ W)].
Qed.

Lemma safe_ensure_loop fuel cur p : safe (ensure_loop fuel cur p).
Proof.
  revert cur p. induction fuel as [|fuel IH]; intros cur p; cbn [ensure_loop]; [apply safe_ret|].
  destruct (skip_slashes p) as [|c p']; [apply safe_ret|]. destruct (span_part (c :: p')) as [part rest].
  destruct (_ <? _)%nat; [apply safe_ret|]. destruct (_ <=? _)%nat; [apply safe_ret|].
  apply safe_bind; [apply safe_lookup|]. intros node. apply safe_get. intros s.
  destruct node as [node|]; [destruct (negb _); [apply safe_ret | apply IH]|].
  apply safe_bind; [apply safe_mkdir|]. intros [d|]; [apply IH|].
  apply safe_bind; [apply safe_lookup|]. intros again. destruct (negb _); [apply safe_ret | apply IH].
Qed.

Lemma safe_ensure_dir path : safe (vfs_ensure_dir path).
Proof.
  unfold vfs_ensure_dir. destruct path as [|c rest]; [apply safe_ret|]. destruct (negb _); [apply safe_ret|].
  destruct (is_nil rest); [apply safe_ret|]. apply safe_bind; [apply safe_ensure_loop|]. intros ok.
  destruct (negb ok); [apply safe_ret|]. apply safe_bind; [apply safe_lookup|]. intros [a|]; [|apply safe_ret].
  apply safe_bind; [apply safe_lookup|]. intros b. apply safe_get. intros s. apply safe_ret.
Qed.

(** ** File contents *)

(** The buffers' bytes are not part of the invariant. *)
Lemma data_wf s K e D : vfs_wfx s K e -> vfs_wfx (set_data D s) K e.
Proof.
  intros W. apply same_core_wf with s; [done|]. split; try done. intros o Ho. apply (w_buffer _ _ _ W o Ho).
Qed.

Lemma poke_wf s K e d off l : vfs_wfx s K e -> vfs_wfx (snd (poke d off l s)) K e.
Proof. intros W. destruct d as [d|]; [by apply data_wf | done]. Qed.

Lemma poke_nd d off l s : nd (snd (poke d off l s)) = nd s /\ v_node_used (snd (poke d off l s)) = v_node_used s.
Proof. by destruct d. Qed.

Lemma safe_write s K n off src len : vfs_wf s K -> live s n -> 0 <= off -> 0 <= len ->
  vfs_ok (snd (vfs_file_write n off src len s)).
Proof.
  intros W Hn Hoff Hlen. unfold vfs_file_write, st_bind at 1, st_get at 1.
  destruct (vfs_file_is_regular s n) eqn:Hreg; cbn [negb]; [|by exists K]. apply Z.eqb_eq in Hreg.
  destruct (_ && _); [by exists K|]. destruct (Z.leb_spec (n_capacity (nd s (owner_of s n))) off) as [|Hcap]; [by exists K|].
  set (cap := n_capacity (nd s (owner_of s n))) in *.
  set (w := if len <? cap - off then len else cap - off).
  assert (Hw : 0 <= w /\ off + w <= cap) by (unfold w; destruct (Z.ltb_spec len (cap - off)); lia).
  destruct (owner_inode s K None n W Hn Hreg) as [Ho Hself].
  destruct (w_buffer _ _ _ W _ Ho) as [Hz Hb].
  assert (Hc : cap <= 65536).
  { unfold cap. destruct Hb as [(_ & -> & _)|[(_ & ->)|(d & _ & _ & _ & -> & _)]]; unfold VFS_XORG_LOG_CAP, VFS_DATA_SLOT_SIZE; lia. }
  rewrite u64_small by lia. unfold st_bind at 1.
  pose proof (poke_wf s K None (n_data (nd s (owner_of s n))) off (take (Z.to_nat w) (default [] src)) W) as W1.
  destruct (poke_nd (n_data (nd s (owner_of s n))) off (take (Z.to_nat w) (default [] src)) s) as [End Eus].
  destruct (poke _ _ _ s) as [u s1]. cbn [snd] in *.
  assert (Hn1 : live s1 n) by (unfold live; by rewrite Eus).
  assert (Ht1 : ftype s1 n = VFS_NODE_FILE) by (unfold ftype; by rewrite End).
  assert (Eo : owner_of s1 n = owner_of s n) by (unfold owner_of; by rewrite End).
  unfold st_bind, st_get, upd, st_mod, st_ret. destruct (Z.ltb_spec (n_size (nd s (owner_of s n))) (off + w)); cbn [snd].
  - exists K. rewrite <- Eo, nd_upd_eq. cbn [n_size with_size]. apply sync_size_wf; try done. rewrite Eo, End. fold cap. lia.
  - exists K. rewrite <- Eo. by apply sync_old_wf.
Qed.

Lemma safe_truncate s K n len : vfs_wf s K -> live s n -> 0 <= len -> vfs_ok (snd (vfs_file_truncate n len s)).
Proof.
  intros W Hn Hlen. unfold vfs_file_truncate, st_bind at 1, st_get at 1.
  destruct (vfs_file_is_regular s n) eqn:Hreg; cbn [negb]; [|by exists K]. apply Z.eqb_eq in Hreg.
  destruct (Z.ltb_spec (n_capacity (nd s (owner_of s n))) len) as [|Hcap]; [by exists K|].
  assert (Hstep : forall s1, vfs_wf s1 K -> nd s1 = nd s -> vfs_ok (upd_node (owner_of s n) (with_size len) s1)).
  { intros s1 W1 End. exists K. apply upd_size_wf; [done|]. intros _. rewrite End. lia. }
  unfold st_bind, upd, st_mod, st_ret. destruct (_ <? _); cbn [snd]; [|by apply Hstep].
  pose proof (poke_wf s K None (n_data (nd s (owner_of s n))) (n_size (nd s (owner_of s n)))
    (repeat 0 (Z.to_nat (len - n_size (nd s (owner_of s n))))) W) as W1.
  destruct (poke_nd (n_data (nd s (owner_of s n))) (n_size (nd s (owner_of s n)))
    (repeat 0 (Z.to_nat (len - n_size (nd s (owner_of s n))))) s) as [End _].
  destruct (poke _ _ _ s) as [u s1]. cbn [snd] in *. by apply Hstep.
Qed.

Lemma safe_kernel_file s K n data : vfs_wf s K -> live s n -> vfs_ok (snd (vfs_write_kernel_file n data s)).
Proof.
  intros W Hn. unfold vfs_write_kernel_file, st_bind at 1, st_get at 1.
  destruct (vfs_file_is_regular s n) eqn:Hreg; cbn [negb]; [|by exists K]. apply Z.eqb_eq in Hreg.
  destruct (Z.ltb_spec (n_capacity (nd s (owner_of s n))) (Z.of_nat (length data))) as [|Hcap]; [by exists K|].
  unfold st_bind at 1. pose proof (poke_wf s K None (n_data (nd s (owner_of s n))) 0 data W) as W1.
  destruct (poke_nd (n_data (nd s (owner_of s n))) 0 data s) as [End Eus].
  destruct (poke _ _ _ s) as [u s1]. cbn [snd] in *.
  assert (Eo : owner_of s1 n = owner_of s n) by (unfold owner_of; by rewrite End).
  unfold st_bind, upd, st_mod, st_ret. cbn [snd]. exists K. rewrite <- Eo. apply sync_size_wf; [done | | | ].
  - unfold live. by rewrite Eus.
  - unfold ftype. by rewrite End.
  - rewrite Eo, End. lia.
Qed.

(** ** Start of day *)

Lemma reset_ok s : vfs_ok (vfs_reset s).
Proof.
  assert (Hno : forall i, ~ live (vfs_reset s) i) by (intros i; unfold live; cbn; lia).
  exists (fun _ => []).
  split; try (intros; match goal with H : live (vfs_reset s) _ |- _ => by destruct (Hno _ H) end);
    try (by intros o [Ho _]; destruct (Hno o)); try (by intros o o' d [Ho _]; destruct (Hno o)).
  - split; try (intros; match goal with H : live (vfs_reset s) _ |- _ => by destruct (Hno _ H) end).
    cbn. unfold VFS_MAX_NODES. lia.
  - done.
  - intros m r. unfold mt. cbn [vfs_reset v_mounts]. by rewrite lookup_empty.
  - intros d _. unfold slot_used. cbn [vfs_reset v_data_used]. by rewrite lookup_empty.
Qed.

Lemma tri_set_root r : tri (gives_dir r) (st_mod (set_root r)) (fun _ => gives_dir r).
Proof.
  intros s [K W] Hr. cbn [st_mod fst snd]. split; [|by split]. exists K.
  pose proof (shape_same s (set_root r s) K (w_shape _ _ _ W)) as Hs.
  destruct W as [_ W1 W2 W3 W4 W5 W6 W7 W8 W9 W10 W11 W12]. split; try assumption. by apply Hs.
Qed.

Lemma safe_register f : safe (vfs_register_filesystem f).
Proof.
  intros s [K W]. unfold vfs_register_filesystem, st_bind, st_get. destruct (_ <=? _); [by exists K|].
  destruct (existsb _ _); [by exists K|]. exists K. cbn [snd st_mod st_ret].
  pose proof (shape_same s (set_filesystems (v_filesystems s ++ [f]) s) K (w_shape _ _ _ W)) as Hs.
  destruct W as [_ W1 W2 W3 W4 W5 W6 W7 W8 W9 W10 W11 W12]. split; try assumption. by apply Hs.
Qed.

Lemma tri_init_tmp r : tri (dirs [r]) (init_tmp r) top.
Proof. unfold init_tmp. dirs_go. Qed.
Lemma tri_init_sys r : tri (dirs [r]) (init_sys r) top.
Proof. unfold init_sys. dirs_go. Qed.
Lemma tri_init_var r : tri (dirs [r]) (init_var r) top.
Proof.
  unfold init_var. apply dirs_bind; [auto with vfs | intros d; cbn [when_some] | apply dirs_ret].
  apply dirs_bind; [auto with vfs | intros l | ]; (apply dirs_seq; [cbn [when_some]; auto with vfs|]); dirs_go.
Qed.

Lemma safe_init_file path c : safe (init_file path c).
Proof.
  intros s [K W]. unfold init_file, st_bind at 1. destruct (vfs_create_file path false s) as [r s1] eqn:E.
  pose proof (vfs_create_file_spec s K path false r s1 W E) as [Ho Hr]. destruct r as [n|]; [|done]. cbn [when_some].
  destruct Ho as [K1 W1]. assert (Hl : live s1 n).
  { destruct (fst (vfs_lookup path s)) as [m|] eqn:EL.
    - destruct (_ =? _); [|by destruct Hr]. destruct Hr as [[= <-] _].
      destruct (vfs_lookup path s) as [q s2] eqn:E2. cbn in EL. subst q.
      destruct (vfs_lookup_spec s K path (Some n) s2 W E2) as (R & _ & Hf). destruct (Hf n eq_refl) as [Hn _].
      unfold vfs_create_file, st_bind at 1 in E. rewrite E2 in E. unfold st_bind at 1, st_get in E.
      destruct (_ =? _) in E; [|done]. unfold st_bind in E. cbn in E. injection E as <-.
      apply (respelled_live s s2 n R) in Hn. exact Hn.
    - destruct Hr as [(p & dir & nm & s2 & N & _ & _ & R & I & -> & _)]. unfold live.
      rewrite (in_used _ _ _ _ _ I), (rs_used _ _ R). pose proof (sh_used _ _ (w_shape _ _ _ W)). lia. }
  unfold st_bind. pose proof (safe_kernel_file s1 K1 n c W1 Hl) as Hk. by destruct (vfs_write_kernel_file n c s1).
Qed.

(** Constructors that need their directories, then calls that need none. *)
Definition okd {A} (l : list Z) (m : ST vfs A) : Prop := forall s, vfs_ok s -> dirs l s -> vfs_ok (snd (m s)).

Lemma okd_safe {A} l (m : ST vfs A) : safe m -> okd l m.
Proof. intros H s Ho _. by apply H. Qed.

Lemma okd_seq {A B} l (m : ST vfs A) (k : ST vfs B) : tri (dirs l) m top -> okd l k -> okd l (st_bind m (fun _ => k)).
Proof.
  intros Hm Hk s Ho Hd. destruct (Hm s Ho Hd) as (H1 & H2 & _). unfold st_bind. destruct (m s) as [a s1].
  apply Hk; [done | by eapply dirs_stable].
Qed.

(** vfs_init establishes the invariant from any state of the arrays. *)
Lemma vfs_init_ok s : vfs_ok (snd (vfs_init s)).
Proof.
  unfold vfs_init, st_bind at 1, st_mod at 1. pose proof (reset_ok s) as H0.
  unfold st_bind at 1. destruct (tri_new_dir [] (Z.lor S_IFDIR 0x1ED) (vfs_reset s) H0 I) as (H1 & _ & G1).
  destruct (new_node [] VFS_NODE_DIR (Z.lor S_IFDIR 0x1ED) (vfs_reset s)) as [r s1]. cbn [fst snd] in *.
  unfold st_bind at 1. destruct (tri_set_root r s1 H1 G1) as (H2 & _ & G2).
  destruct (st_mod (set_root r) s1) as [u s2]. cbn [fst snd] in *.
  destruct r as [root|]; [|done]. cbn [when_some].
  assert (Hd : dirs [root] s2) by (constructor; [by apply G2 | constructor]). clear G1 G2 H1.
  revert s2 H2 Hd. fold (okd (A := unit) [root]).
  match goal with |- forall s2, vfs_ok s2 -> dirs [root] s2 -> vfs_ok (snd (?m s2)) => change (okd [root] m) end.
  do 2 (apply okd_seq; [auto with vfs|]). apply okd_seq; [apply tri_init_tmp|]. apply okd_seq; [apply tri_init_var|].
  do 4 (apply okd_seq; [auto with vfs|]). apply okd_seq; [apply tri_init_sys|]. apply okd_safe.
  do 3 (apply safe_bind; [apply safe_init_file | intros _]). do 2 (apply safe_bind; [apply safe_register | intros _]).
  do 2 (apply safe_bind; [apply (safe_tri _ top), tri_vfs_mount | intros _]). apply safe_ret.
Qed.
