(* ===== verification/VfsThms.v ===== *)
(** * Properties of vfs.c *)

From Stdlib Require Import String Sorted Permutation.
From S2P Require Import Prelude Words Pmm CStr Vfs VfsText VfsFacts VfsOps VfsSafe.
Local Open Scope Z_scope.

(** ** Runs *)

(** The calls of vfs.h that change the state.  A call on an open file carries
    the node the file was opened on. *)
Inductive vfs_call :=
  | VLookup (p : cstr) | VCreate (p : cstr) (truncate : bool) | VMkdir (p : cstr) (m : Z) | VSocket (p : cstr) (m : Z)
  | VLink (a b : cstr) | VUnlink (p : cstr) | VRmdir (p : cstr) | VRename (a b : cstr) | VEnsure (p : cstr)
  | VImport (p : cstr) (size : Z) | VMount (fs p : cstr)
  | VWrite (n off : Z) (src : option (list Z)) (len : Z) | VTruncate (n len : Z) | VKernelWrite (n : Z) (data : list Z).

Definition vfs_exec (c : vfs_call) (s : vfs) : vfs :=
  match c with
  | VLookup p => snd (vfs_lookup p s)
  | VCreate p t => snd (vfs_create_file p t s)
  | VMkdir p m => snd (vfs_mkdir p m s)
  | VSocket p m => snd (vfs_create_socket p m s)
  | VLink a b => snd (vfs_link a b s)
  | VUnlink p => snd (vfs_unlink p s)
  | VRmdir p => snd (vfs_rmdir p s)
  | VRename a b => snd (vfs_rename a b s)
  | VEnsure p => snd (vfs_ensure_dir p s)
  | VImport p n => snd (vfs_import_boot_file p n s)
  | VMount f p => snd (vfs_mount f p s)
  | VWrite n off src len => snd (vfs_file_write n off src len s)
  | VTruncate n len => snd (vfs_file_truncate n len s)
  | VKernelWrite n d => snd (vfs_write_kernel_file n d s)
  end.

(** Nodes are nodes in use, and lengths and offsets are unsigned. *)
Definition vcall_ok (s : vfs) (c : vfs_call) : Prop :=
  match c with
  | VWrite n off _ len => live s n /\ 0 <= off /\ 0 <= len
  | VTruncate n len => live s n /\ 0 <= len
  | VKernelWrite n _ => live s n
  | _ => True
  end.

Inductive vfs_run : vfs -> vfs -> Prop :=
  | vr_nil s : vfs_run s s
  | vr_step s c s' : vcall_ok s c -> vfs_run (vfs_exec c s) s' -> vfs_run s s'.

Lemma vfs_exec_ok c s : vfs_ok s -> vcall_ok s c -> vfs_ok (vfs_exec c s).
Proof.
  intros Ho Hc. destruct c; cbn [vfs_exec vcall_ok] in *.
  - by apply safe_lookup.
  - by apply safe_create_file.
  - by apply safe_mkdir.
  - by apply safe_socket.
  - by apply safe_link.
  - by apply safe_unlink.
  - by apply safe_rmdir.
  - by apply safe_rename.
  - by apply safe_ensure_dir.
  - by apply safe_import.
  - apply (safe_tri _ top (tri_vfs_mount _ _)), Ho.
  - destruct Ho as [K W]. apply (safe_write s K); done || apply Hc.
  - destruct Ho as [K W]. apply (safe_truncate s K); done || apply Hc.
  - destruct Ho as [K W]. by apply (safe_kernel_file s K).
Qed.


(** ** Creating and finding *)

Lemma split_name path dir name : split_for_create path = Some (dir, name) -> cp name = name /\ name <> [].
Proof.
  unfold split_for_create. destruct path as [|c path]; [done|]. destruct (negb _); [done|].
  destruct (_ || _); [done|]. set (q := strip_slashes _ _). destruct (_ || _) eqn:E; [done|].
  destruct (Nat.ltb_spec VFS_NAME_MAX (length q - slash_pos q)); [done|]. intros [= _ <-].
  apply orb_false_iff in E as [_ E%Nat.leb_gt].
  split; [apply take_ge; rewrite length_drop; lia|]. intros H0. apply (f_equal length) in H0.
  rewrite length_drop in H0. change (length (@nil Z)) with 0%nat in H0. lia.
Qed.

(**  What vfs_create_file creates is found: the new node is an empty
    regular file, and looking its name up in the directory of the path gives
    that node and changes nothing. *)
Theorem vfs_create_found s path tr x s' : vfs_ok s -> fst (vfs_lookup path s) = None ->
  vfs_create_file path tr s = (Some x, s') ->
  exists dir name p, split_for_create path = Some (dir, name) /\
    fst (vfs_lookup dir (snd (vfs_lookup path s))) = Some p /\
    vfs_lookup_child p name s' = (Some x, s') /\
    n_type (nd s' x) = VFS_NODE_FILE /\ vfs_file_size s' x = 0.
Proof.
  intros [K W] HL He. destruct (vfs_create_file_spec s K path tr (Some x) s' W He) as [_ H]. rewrite HL in H.
  destruct H as [(p & dir & name & s2 & N & Hsp & Hd & R & I & Hx & Hn & Ht & Hz & _ & W')].
  exists dir, name, p. split; [done|]. split; [done|]. destruct (split_name path dir name Hsp) as [Hcp _].
  pose proof (respelled_wf s s2 K W R) as W2. rewrite <- (rs_used _ _ R) in Hx.
  destruct (in_dir _ _ _ _ _ I) as [Hp Hpd].
  assert (Hp' : live s' p) by (apply (ins_live s2 s' K p N None W2 I); by left).
  assert (HN : nd s' x = N) by (rewrite Hx; apply I).
  split; [|split; [by rewrite HN|]].
  - unfold vfs_lookup_child, st_bind, st_get. rewrite (kids_eq s' _ p (w_shape _ _ _ W') Hp'), fset_eq.
    pose proof (proj1 (ins_old s2 s' p N None I p Hp)) as Ht'. unfold ftype in *. rewrite Ht', Hpd. cbn [Z.eqb negb VFS_NODE_DIR Pos.eqb].
    cbn [find]. rewrite HN, Hn, Hcp, eq_refl'. done.
  - unfold vfs_file_size, vfs_file_is_regular, owner_of. rewrite HN, Ht. cbn [Z.eqb VFS_NODE_FILE Pos.eqb].
    pose proof (in_file _ _ _ _ _ I Ht) as (-> & _). cbn [default from_option id]. by rewrite <- Hx, HN.
Qed.

(** ** Reading back what was written *)

(** Byte [i] of the file [n]. *)
Definition file_byte (s : vfs) (n i : Z) : Z := match vfs_file_data s n with Some d => data_at s d i | None => 0 end.

Lemma poke_bytes_lookup m off l i :
  default 0 (poke_bytes m off l !! i) =
    if (off <=? i) && (i <? off + Z.of_nat (length l)) then default 0 (l !! Z.to_nat (i - off)) else default 0 (m !! i).
Proof.
  revert m off. induction l as [|b l IH]; intros m off; cbn [poke_bytes length].
  - destruct (Z.leb_spec off i); cbn [andb]; [|done]. destruct (Z.ltb_spec i (off + Z.of_nat 0)); [lia | done].
  - rewrite IH. rewrite lookup_insert. destruct (Z.leb_spec off i), (Z.leb_spec (off + 1) i); cbn [andb]; try lia.
    + destruct (Z.ltb_spec i (off + 1 + Z.of_nat (length l))), (Z.ltb_spec i (off + Z.of_nat (S (length l)))); try lia.
      * replace (Z.to_nat (i - off)) with (S (Z.to_nat (i - (off + 1)))) by lia. done.
      * by rewrite decide_False by lia.
    + assert (i = off) as -> by lia. rewrite decide_True by done.
      destruct (Z.ltb_spec off (off + Z.of_nat (S (length l)))); [|lia]. by rewrite Z.sub_diag.
    + by rewrite decide_False by lia.
Qed.

Definition file_cap (s : vfs) (n : Z) : Z := n_capacity (nd s (owner_of s n)).

(** A file of the tables: in use and regular. *)
Definition is_file (s : vfs) (n : Z) : Prop := live s n /\ n_type (nd s n) = VFS_NODE_FILE.

Lemma file_size_eq s n : is_file s n -> vfs_file_size s n = n_size (nd s (owner_of s n)).
Proof. intros [_ Ht]. unfold vfs_file_size, vfs_file_is_regular. by rewrite Ht. Qed.

Lemma file_data_eq s n : is_file s n -> vfs_file_data s n = n_data (nd s (owner_of s n)).
Proof. intros [_ Ht]. unfold vfs_file_data, vfs_file_is_regular. by rewrite Ht. Qed.

Lemma core_size s n v i : core (nd (upd_node n (with_size v) s) i) = core (nd s i).
Proof. rewrite nd_upd. by destruct (Z.eqb_spec n i) as [->|]. Qed.

(** The state a successful write leaves. *)
Lemma write_state s K n off l : vfs_wf s K -> is_file s n -> 0 <= off < file_cap s n ->
  let r := Z.min (Z.of_nat (length l)) (file_cap s n - off) in
  let s' := snd (vfs_file_write n off (Some l) (Z.of_nat (length l)) s) in
  fst (vfs_file_write n off (Some l) (Z.of_nat (length l)) s) = r /\
  v_node_used s' = v_node_used s /\
  exists d, n_data (nd s (owner_of s n)) = Some d /\
    v_data s' = <[d := poke_bytes (default ∅ (v_data s !! d)) off (take (Z.to_nat r) l)]> (v_data s) /\
    (forall i, core (nd s' i) = core (nd s i)) /\
    (forall i, i <> n -> i <> owner_of s n -> nd s' i = nd s i) /\
    n_size (nd s' (owner_of s n)) = Z.max (n_size (nd s (owner_of s n))) (off + r).
Proof.
  intros W [Hn Ht] Hoff. cbn zeta. destruct (owner_inode s K None n W Hn Ht) as [Ho _].
  destruct (w_buffer _ _ _ W _ Ho) as [Hz Hb]. unfold file_cap in *. set (o := owner_of s n) in *.
  assert (Hd : exists d, n_data (nd s o) = Some d /\ n_capacity (nd s o) <= 65536).
  { destruct Hb as [(_ & E & _)|[(E & Ec)|(d & E & _ & _ & Ec & _)]]; [lia| |];
      eexists; rewrite E, Ec; (split; [done | unfold VFS_XORG_LOG_CAP, VFS_DATA_SLOT_SIZE; lia]). }
  destruct Hd as (d & Hd & Hc). set (cap := n_capacity (nd s o)) in *.
  set (r := Z.min (Z.of_nat (length l)) (cap - off)).
  set (s1 := set_data (<[d := poke_bytes (default ∅ (v_data s !! d)) off (take (Z.to_nat r) l)]> (v_data s)) s).
  set (s2 := if n_size (nd s o) <? off + r then upd_node o (with_size (off + r)) s1 else s1).
  assert (E : vfs_file_write n off (Some l) (Z.of_nat (length l)) s = (r, upd_node n (with_size (n_size (nd s2 o))) s2)).
  { unfold vfs_file_write, st_bind at 1, st_get at 1, vfs_file_is_regular. rewrite Ht.
    cbn [Z.eqb negb VFS_NODE_FILE Pos.eqb is_some andb]. fold o. fold cap. rewrite (proj2 (Z.leb_gt cap off)) by lia.
    assert (Hw : (if Z.of_nat (length l) <? cap - off then Z.of_nat (length l) else cap - off) = r)
      by (unfold r; destruct (Z.ltb_spec (Z.of_nat (length l)) (cap - off)); lia).
    rewrite Hw. rewrite u64_small by (unfold r; lia). rewrite Hd.
    unfold st_bind, poke, upd, st_mod, st_ret, st_get, s2, s1. cbn [default from_option id].
    by destruct (n_size (nd s o) <? off + r). }
  rewrite E. cbn [fst snd]. clear E. split; [done|]. split; [unfold s2; by destruct (_ <? _)|]. exists d. split; [done|].
  assert (N1 : nd s1 = nd s) by done. unfold s2.
  destruct (Z.ltb_spec (n_size (nd s o)) (off + r)); (split; [done|]; split; [|split]).
  - intros i. by rewrite !core_size, N1.
  - intros i H1 H2. rewrite !nd_upd_ne by congruence. by rewrite N1.
  - rewrite nd_upd. destruct (Z.eqb_spec n o) as [En|]; cbn [n_size with_size]; rewrite nd_upd_eq; cbn [n_size with_size]; lia.
  - intros i. by rewrite core_size, N1.
  - intros i H1 H2. rewrite nd_upd_ne by congruence. by rewrite N1.
  - rewrite nd_upd. destruct (Z.eqb_spec n o) as [En|]; cbn [n_size with_size]; rewrite N1; lia.
Qed.

(** What one write does, to this file and to the others. *)
Lemma file_write_spec s n off l r s' : vfs_ok s -> is_file s n -> 0 <= off ->
  vfs_file_write n off (Some l) (Z.of_nat (length l)) s = (r, s') ->
  (file_cap s n <= off /\ r = - ENOSPC /\ s' = s) \/
  (off < file_cap s n /\ r = Z.min (Z.of_nat (length l)) (file_cap s n - off) /\
   vfs_file_size s' n = Z.max (vfs_file_size s n) (off + r) /\
   (forall i, file_byte s' n i =
      if (off <=? i) && (i <? off + r) then default 0 (l !! Z.to_nat (i - off)) else file_byte s n i) /\
   (forall m, is_file s m -> owner_of s m = owner_of s n ->
      vfs_file_size s' m = vfs_file_size s' n /\ forall i, file_byte s' m i = file_byte s' n i) /\
   (forall m, is_file s m -> owner_of s m <> owner_of s n -> vfs_file_data s n <> Some XORG_LOG ->
      vfs_file_size s' m = vfs_file_size s m /\ forall i, file_byte s' m i = file_byte s m i)).
Proof.
  intros [K W] Hf Hoff He. destruct (Z.le_gt_cases (file_cap s n) off) as [Hc|Hc].
  { left. revert He. unfold vfs_file_write, st_bind at 1, st_get, vfs_file_is_regular. rewrite (proj2 Hf).
    cbn [Z.eqb negb VFS_NODE_FILE Pos.eqb is_some andb]. rewrite (proj2 (Z.leb_le _ _)) by (exact Hc). by intros [= <- <-]. }
  right. destruct (write_state s K n off l W Hf ltac:(lia)) as (Er & Hu & d & Hd & Hdata & Hcore & Hoth & Hsize).
  rewrite He in *. cbn [fst snd] in *.
  assert (Hst : forall m, is_file s m -> is_file s' m /\ owner_of s' m = owner_of s m /\ vfs_file_data s' m = vfs_file_data s m).
  { intros m [Hm Ht]. destruct (core_fields _ _ (Hcore m)) as (E1 & _ & _ & _ & _ & _ & _ & _ & E2).
    assert (Hi : is_file s' m) by (split; [unfold live in *; by rewrite Hu | by rewrite E1]).
    split; [done|]. assert (Eo : owner_of s' m = owner_of s m) by (unfold owner_of; by rewrite E2). split; [done|].
    rewrite !file_data_eq, Eo by done. by destruct (core_fields _ _ (Hcore (owner_of s m))) as (_ & _ & _ & _ & _ & -> & _). }
  destruct (Hst n Hf) as (Hf' & Eo & Ed). split; [done|]. split; [done|]. split; [|split; [|split]].
  - rewrite !file_size_eq, Eo, Hsize by done. by rewrite Er.
  - intros i. unfold file_byte. rewrite Ed, file_data_eq, Hd by done. unfold data_at. rewrite Hdata, lookup_insert_eq.
    cbn [default from_option id]. rewrite poke_bytes_lookup, length_take.
    assert (Hr0 : 0 <= r <= Z.of_nat (length l)) by lia. rewrite <- Er.
    replace (Z.of_nat (Z.to_nat r `min` length l)) with r by lia.
    destruct (Z.leb_spec off i), (Z.ltb_spec i (off + r)); cbn [andb]; try done. by rewrite lookup_take_lt by lia.
  - intros m Hm Em. destruct (Hst m Hm) as (Hm' & Eom & Edm). split.
    + rewrite !file_size_eq, Eom, Eo, Em by done. done.
    + intros i. unfold file_byte. rewrite Edm, Ed. rewrite !file_data_eq, Em by done. done.
  - intros m Hm Hne Hx. destruct (Hst m Hm) as (Hm' & Eom & Edm).
    destruct (owner_inode s K None m W (proj1 Hm) (proj2 Hm)) as [Hmo _].
    destruct (owner_inode s K None n W (proj1 Hf) (proj2 Hf)) as [Hno Hself].
    assert (Hmn : owner_of s m <> n) by (intros E; apply Hne; rewrite E; symmetry; apply Hself; by rewrite <- E).
    split.
    + rewrite !file_size_eq, Eom by done. rewrite Hoth by done. done.
    + intros i. unfold file_byte. rewrite Edm. destruct (vfs_file_data s m) as [dm|] eqn:Hdm; [|done].
      unfold data_at. rewrite Hdata, lookup_insert_ne; [done|]. intros ->. rewrite file_data_eq in Hx, Hdm by done. apply Hne.
      destruct (w_buffer _ _ _ W _ Hno) as [_ [(E & _)|[(E & _)|(k & E & Hk & _)]]]; rewrite E in *; try congruence.
      apply (w_excl _ _ _ W _ _ k); try done. congruence.
Qed.

(** The node stays a file of the same capacity. *)
Lemma file_write_file s n off l m : vfs_ok s -> is_file s n -> 0 <= off ->
  let s' := snd (vfs_file_write n off (Some l) (Z.of_nat (length l)) s) in
  is_file s m -> is_file s' m /\ file_cap s' m = file_cap s m /\ vfs_file_data s' m = vfs_file_data s m.
Proof.
  intros [K W] Hf Hoff s' [Hm Ht]. destruct (Z.le_gt_cases (file_cap s n) off) as [Hc|Hc].
  { assert (E : s' = s); [|by rewrite E]. unfold s', vfs_file_write, st_bind at 1, st_get, vfs_file_is_regular. rewrite (proj2 Hf).
    cbn [Z.eqb negb VFS_NODE_FILE Pos.eqb is_some andb]. by rewrite (proj2 (Z.leb_le _ _)) by (exact Hc). }
  destruct (write_state s K n off l W Hf ltac:(lia)) as (_ & Hu & _ & _ & _ & Hcore & _). fold s' in Hu, Hcore.
  destruct (core_fields _ _ (Hcore m)) as (E1 & _ & _ & _ & _ & _ & _ & _ & E2). assert (Hi : is_file s' m) by (split; [unfold live in *; by rewrite Hu | by rewrite E1]).
  split; [done|]. assert (Eo : owner_of s' m = owner_of s m) by (unfold owner_of; by rewrite E2). destruct (core_fields _ _ (Hcore (owner_of s m))) as (_ & _ & _ & _ & _ & E3 & E4 & _).
  split; [unfold file_cap; by rewrite Eo, E4|]. by rewrite !file_data_eq, Eo, E3 by done.
Qed.

(** vfs_file_write stores exactly the bytes that fit below the capacity:
    they read back at their offset, every other byte of the file stays, the
    size grows to the end of the write, every hard link of the file sees the
    same bytes and size, and no other file changes (the log buffer apart,
    which all nodes ever created for /var/log/Xorg.0.log share).  At or beyond
    the capacity it gives -ENOSPC and changes nothing. *)
Theorem vfs_file_write_correct s n off l r s' : vfs_ok s -> is_file s n -> 0 <= off ->
  vfs_file_write n off (Some l) (Z.of_nat (length l)) s = (r, s') ->
  (file_cap s n <= off /\ r = - ENOSPC /\ s' = s) \/
  (off < file_cap s n /\ r = Z.min (Z.of_nat (length l)) (file_cap s n - off) /\
   vfs_file_size s' n = Z.max (vfs_file_size s n) (off + r) /\
   (forall i, file_byte s' n i =
      if (off <=? i) && (i <? off + r) then default 0 (l !! Z.to_nat (i - off)) else file_byte s n i) /\
   (forall m, is_file s m -> owner_of s m = owner_of s n ->
      vfs_file_size s' m = vfs_file_size s' n /\ forall i, file_byte s' m i = file_byte s' n i) /\
   (forall m, is_file s m -> owner_of s m <> owner_of s n -> vfs_file_data s n <> Some XORG_LOG ->
      vfs_file_size s' m = vfs_file_size s m /\ forall i, file_byte s' m i = file_byte s m i)).
Proof. apply file_write_spec. Qed.

(** ** Removing a name *)

(** What vfs_drop_link does to an inode with a positive link count. *)
Lemma drop_link_effect s n o : owner_of s n = o -> 0 < n_nlink (nd s o) ->
  let s' := snd (vfs_drop_link n s) in
  v_node_used s' = v_node_used s /\ v_data s' = v_data s /\
  n_nlink (nd s' o) = n_nlink (nd s o) - 1 /\
  (n_nlink (nd s o) = 1 -> forall d, n_data (nd s o) = Some d -> is_slot d -> slot_used s' d = false) /\
  (forall i, n_type (nd s' i) = n_type (nd s i) /\ n_inode_owner (nd s' i) = n_inode_owner (nd s i)) /\
  (forall i, i <> o \/ n_nlink (nd s o) <> 1 ->
     n_size (nd s' i) = n_size (nd s i) /\ n_data (nd s' i) = n_data (nd s i)).
Proof.
  intros Eo Hk. cbn zeta. unfold vfs_drop_link, st_bind, st_get. rewrite Eo, (proj2 (Z.ltb_lt 0 _)) by done.
  cbn [upd st_mod snd]. rewrite nd_upd_eq. cbn [n_nlink with_nlink].
  destruct (Z.eqb_spec (n_nlink (nd s o) - 1) 0) as [E0|E0].
  - rewrite !nd_upd_eq. cbn [n_data with_size with_nlink].
    assert (Hn : forall f s1, nd s1 = nd (upd_node o f s) -> n_type (f (nd s o)) = n_type (nd s o) ->
      n_inode_owner (f (nd s o)) = n_inode_owner (nd s o) ->
      (forall i, n_type (nd s1 i) = n_type (nd s i) /\ n_inode_owner (nd s1 i) = n_inode_owner (nd s i)) /\
      (forall i, i <> o \/ n_nlink (nd s o) <> 1 -> n_size (nd s1 i) = n_size (nd s i) /\ n_data (nd s1 i) = n_data (nd s i))).
    { intros f s1 E Hf1 Hf2. split; intros i; rewrite E, nd_upd; destruct (Z.eqb_spec o i) as [<-|]; try done. intros [?|?]; [done | lia]. }
    destruct (n_data (nd s o)) as [d|] eqn:Ed; cbn [snd st_ret].
    2: { rewrite !upd_upd, nd_upd_eq. cbn. split_and!; try done; try lia; by eapply Hn. }
    destruct (Z.eqb_spec d XORG_LOG) as [->|Hx]; cbn [negb snd st_ret].
    { rewrite !upd_upd, nd_upd_eq. cbn. split_and!; try done; try (by eapply Hn).
      intros _ d [= <-] Hs. unfold is_slot, XORG_LOG, VFS_DATA_SLOTS in Hs. lia. }
    unfold vfs_free_file_data, st_bind, st_get. rewrite !nd_upd_eq. cbn [n_data with_size with_nlink]. rewrite Ed.
    destruct (Z.leb_spec 0 d), (Z.ltb_spec d VFS_DATA_SLOTS); cbn [andb snd st_mod upd st_ret].
    2-4: rewrite !upd_upd, nd_upd_eq; cbn; split_and!; try done; try (by eapply Hn);
      intros _ d' [= <-] Hs; unfold is_slot in Hs; lia.
    rewrite upd_set_used, !upd_upd. split_and!; try done; try (by eapply Hn).
    + change (nd (set_used _ ?u)) with (nd u). by rewrite nd_upd_eq.
    + intros _ d' [= <-] _. unfold slot_used. cbn [set_used v_data_used]. by rewrite lookup_insert_eq.
  - cbn [snd st_ret]. rewrite nd_upd_eq. split_and!; try done; [lia| |];
      intros i; rewrite nd_upd; by destruct (Z.eqb_spec o i) as [<-|].
Qed.

(** C6.  Unlinking the path of a file always succeeds.  The name leaves its
    directory and no other directory changes; the link count of the inode
    drops by one; the last name frees the data buffer; all other
    files keep their contents, and so do the remaining names of this one. *)
Theorem vfs_unlink_correct s path x s1 r s' : vfs_ok s -> vfs_lookup path s = (Some x, s1) -> is_file s x ->
  vfs_unlink path s = (r, s') ->
  let o := owner_of s x in
  r = 0 /\
  (exists p, x ∈ kids s p /\ kids s' p = without x (kids s p) /\ forall d, live s d -> d <> p -> kids s' d = kids s d) /\
  n_nlink (nd s' o) = n_nlink (nd s o) - 1 /\
  (n_nlink (nd s o) = 1 -> forall d, n_data (nd s o) = Some d -> is_slot d -> slot_used s' d = false) /\
  (forall m, is_file s m -> owner_of s m <> o \/ n_nlink (nd s o) <> 1 ->
     vfs_file_size s' m = vfs_file_size s m /\ forall i, file_byte s' m i = file_byte s m i).
Proof.
  intros [K W] HL [Hx Ht] He. cbn zeta. pose proof (vfs_unlink_cases s K path W) as Hc. rewrite HL, He in Hc.
  destruct Hc as [(_ & _ & Hbad)|(x' & p & -> & [= <-] & Hp & Hxp & Hnd & Es & W')].
  { exfalso. destruct (Hbad x eq_refl) as [Hr|[Hd|Hm]].
    - destruct (w_root _ _ _ W x (eq_sym Hr)) as [_ Hd]. unfold ftype in Hd. rewrite Ht in Hd. discriminate Hd.
    - unfold ftype in Hd. rewrite Ht in Hd. discriminate Hd.
    - destruct (n_mounted (nd s x)) as [m|] eqn:Em; [|done]. pose proof (w_mount _ _ _ W x m Hx Em) as Hd.
      unfold ftype in Hd. rewrite Ht in Hd. discriminate Hd. }
  destruct (vfs_lookup_spec s K path _ s1 W HL) as (R & W1 & _). destruct (owner_inode s K None x W Hx Ht) as [Ho _].
  set (o := owner_of s x) in *. pose proof (taken_out_relinked p x s1) as RL. set (s2 := taken_out p x s1) in *.
  assert (Hpay : forall i, payload (nd s2 i) = payload (nd s i)).
  { intros i. rewrite (proj1 (rl_nodes _ _ _ _ RL i)). by destruct (rs_nodes _ _ R i) as [nm ->]. }
  assert (Eo : owner_of s2 x = o).
  { unfold o, owner_of. by destruct (payload_fields _ _ (Hpay x)) as (_ & _ & _ & _ & _ & _ & ->). }
  destruct (payload_fields _ _ (Hpay o)) as (_ & _ & Ed & _ & _ & Ek & _).
  assert (Hk : 0 < n_nlink (nd s o)).
  { rewrite (w_links _ _ _ W o Ho), bool_decide_false by done. assert (links s o <> 0); [|pose proof (links_nonneg s o); lia].
    unfold links. intros E0. assert (Hin : x ∈ filter (names s o) (seqZ 0 (v_node_used s))).
    { apply list_elem_of_filter. split; [|by apply elem_of_seqZ; unfold live in Hx; lia].
      destruct (w_owner _ _ _ W x Hx Ht) as (o' & Eo' & _). split; [done|]. split; [unfold o, owner_of; by rewrite Eo'|].
      rewrite (w_kid_parent _ _ _ W p x Hp Hxp). by eexists. }
    destruct (filter _ _); [by apply not_elem_of_nil in Hin | done]. }
  destruct (drop_link_effect s2 x o Eo ltac:(lia)) as (Hu & Hdt & Hk' & Hfree & Hty & Hkeep). rewrite <- Es in *. rewrite Ek, Ed in *.
  assert (Hlive : forall d, live s' d <-> live s d).
  { intros d. unfold live. by rewrite Hu, (rl_used _ _ _ _ RL), (rs_used _ _ R). }
  assert (Hkids : forall d, live s d -> kids s' d = fset K p (without x (K p)) d)
    by (intros d Hd; apply kids_eq; [apply W' | by apply Hlive]).
  split; [done|]. split; [|split; [done|]; split; [done|]].
  - exists p. rewrite (Hkids p Hp), fset_eq, !(kids_eq s K p (w_shape _ _ _ W) Hp). split; [done|]. split; [done|].
    intros d Hd Hne. rewrite (Hkids d Hd), fset_ne by done. by rewrite (kids_eq s K d (w_shape _ _ _ W) Hd).
  - intros m Hm Hor.
    assert (Hsame : forall i, n_type (nd s' i) = n_type (nd s i) /\ n_inode_owner (nd s' i) = n_inode_owner (nd s i)).
    { intros i. destruct (Hty i) as (-> & ->). by destruct (payload_fields _ _ (Hpay i)) as (-> & _ & _ & _ & _ & _ & ->). }
    assert (Hm' : is_file s' m) by (split; [apply Hlive, Hm | rewrite (proj1 (Hsame m)); apply Hm]).
    assert (Eom : owner_of s' m = owner_of s m) by (unfold owner_of; by destruct (Hsame m) as (_ & ->)).
    destruct (Hkeep (owner_of s m) Hor) as (E1 & E2).
    destruct (payload_fields _ _ (Hpay (owner_of s m))) as (_ & _ & E3 & E4 & _). split; [by rewrite !file_size_eq, Eom, E1|].
    intros i. unfold file_byte. rewrite !file_data_eq, Eom, E2, E3 by done. unfold data_at. rewrite Hdt.
    unfold s2, taken_out. cbn [upd_node set_nodes v_data]. replace (v_data (unlisted p x s1)) with (v_data s1).
    + by rewrite (rs_data _ _ R).
    + unfold unlisted. by destruct (pred_of x None (kids s1 p)) as [[q|]|].
Qed.

(** ** Listing a directory *)

Lemma name_cmp_flip a b : vfs_name_cmp b a = - vfs_name_cmp a b.
Proof.
  revert b. induction a as [|x a IH]; intros [|y b]; cbn [vfs_name_cmp]; try done.
  rewrite (Z.eqb_sym (ascii_lower y)). destruct (Z.eqb_spec (ascii_lower x) (ascii_lower y)); cbn [negb]; [apply IH|].
  destruct (Z.ltb_spec (ascii_lower x) (ascii_lower y)), (Z.ltb_spec (ascii_lower y) (ascii_lower x)); lia.
Qed.

Lemma name_cmp_trans a b c : vfs_name_cmp a b <= 0 -> vfs_name_cmp b c <= 0 -> vfs_name_cmp a c <= 0.
Proof.
  revert b c. induction a as [|x a IH]; intros [|y b] [|z c]; cbn [vfs_name_cmp]; try lia.
  destruct (Z.eqb_spec (ascii_lower x) (ascii_lower y)), (Z.eqb_spec (ascii_lower y) (ascii_lower z)),
    (Z.eqb_spec (ascii_lower x) (ascii_lower z)); cbn [negb]; try congruence.
  - apply IH.
  - destruct (Z.ltb_spec (ascii_lower y) (ascii_lower z)), (Z.ltb_spec (ascii_lower x) (ascii_lower z)); lia.
  - destruct (Z.ltb_spec (ascii_lower x) (ascii_lower y)), (Z.ltb_spec (ascii_lower x) (ascii_lower z)); lia.
  - destruct (Z.ltb_spec (ascii_lower x) (ascii_lower y)), (Z.ltb_spec (ascii_lower y) (ascii_lower z)); lia.
  - destruct (Z.ltb_spec (ascii_lower x) (ascii_lower y)), (Z.ltb_spec (ascii_lower y) (ascii_lower z)),
      (Z.ltb_spec (ascii_lower x) (ascii_lower z)); lia.
Qed.

(** [x] may stand before [y] in a listing. *)
Definition name_le (s : vfs) (x y : Z) : Prop := vfs_name_cmp (n_name (nd s x)) (n_name (nd s y)) <= 0.

#[local] Instance name_le_trans s : Transitive (name_le s).
Proof. intros x y z. apply name_cmp_trans. Qed.

Lemma sift_spec s v l : StronglySorted (flip (name_le s)) l ->
  Permutation (sift s v l) (v :: l) /\ StronglySorted (flip (name_le s)) (sift s v l).
Proof.
  induction 1 as [|x l Hs [IP IS] Hx]; cbn [sift]; [split; [done | by repeat constructor]|].
  destruct (Z.ltb_spec 0 (vfs_name_cmp (n_name (nd s x)) (n_name (nd s v)))) as [Hlt|Hle].
  - split; [rewrite IP; apply Permutation_swap|]. constructor; [done|]. rewrite IP.
    constructor; [unfold flip, name_le; rewrite name_cmp_flip; lia | done].
  - split; [done|]. constructor; [by constructor|]. constructor; [done|].
    eapply Forall_impl; [exact Hx|]. intros y Hy. unfold flip in *. by transitivity x.
Qed.

Lemma sorted_snoc {A} (R : A -> A -> Prop) l x : StronglySorted R l -> List.Forall (fun y => R y x) l -> StronglySorted R (l ++ [x]).
Proof.
  induction 1 as [|y l Hs IH Hy]; cbn [app]; intros Hx; [by repeat constructor|]. inversion Hx; subst.
  constructor; [by apply IH|]. apply List.Forall_app. split; [done | by repeat constructor].
Qed.

Lemma sorted_rev {A} (R : A -> A -> Prop) l : StronglySorted (flip R) l -> StronglySorted R (rev l).
Proof.
  induction 1 as [|x l Hs IH Hx]; cbn [rev]; [constructor|]. apply sorted_snoc; [done|].
  apply List.Forall_rev, Hx.
Qed.

Lemma sort_items_spec s l : Permutation (sort_items s l) l /\ StronglySorted (name_le s) (sort_items s l).
Proof.
  assert (H : forall acc, StronglySorted (flip (name_le s)) acc ->
    let r := foldl (fun acc v => sift s v acc) acc l in Permutation r (acc ++ l) /\ StronglySorted (flip (name_le s)) r).
  { induction l as [|v l IH]; intros acc Ha; cbn [foldl]; [by rewrite app_nil_r|].
    destruct (sift_spec s v acc Ha) as [P1 S1]. destruct (IH _ S1) as [P2 S2]. split; [|done].
    rewrite P2, P1. cbn. by rewrite Permutation_middle. }
  destruct (H [] (SSorted_nil _)) as [P S]. unfold sort_items. split; [by rewrite <- Permutation_rev|].
  by apply sorted_rev.
Qed.

(** The line of one entry. *)
Definition entry_text (s : vfs) (x : Z) : cstr :=
  n_name (nd s x) ++ (if n_type (nd s x) =? VFS_NODE_DIR then [SLASH]
                      else if n_type (nd s x) =? VFS_NODE_SYMLINK then [64] else []) ++ [10].

Lemma list_entry_eq s cap out x : list_entry s cap out x = out_str cap out (entry_text s x).
Proof.
  unfold list_entry, entry_text, vfs_out_ch, vfs_out_str, out_str. rewrite !foldl_app.
  by destruct (n_type (nd s x) =? VFS_NODE_DIR), (n_type (nd s x) =? VFS_NODE_SYMLINK).
Qed.

Lemma list_entries_eq s cap items out : foldl (list_entry s cap) out items = out_str cap out (flat_map (entry_text s) items).
Proof.
  revert out. induction items as [|x l IH]; intros out; cbn [foldl flat_map]; [done|].
  rewrite IH, list_entry_eq. unfold out_str. by rewrite foldl_app.
Qed.

(**  A directory listing is the lines of exactly the named entries of
    the directory, in case-insensitive order of their names, cut at the size
    of the buffer. *)
Theorem vfs_list_dir_correct s path cap d s1 : 0 < cap ->
  (length path < VFS_PATH_MAX)%nat -> hd_error path = Some SLASH ->
  vfs_lookup (strip_slashes (length path) path) s = (Some d, s1) -> n_type (nd s1 d) = VFS_NODE_DIR ->
  exists items, Permutation items (listed s1 d) /\ StronglySorted (name_le s1) items /\
    vfs_list_dir (Some path) cap s = (take (Z.to_nat (cap - 1)) (flat_map (entry_text s1) items), s1).
Proof.
  intros Hcap Hlen Hsl HL Hd. exists (sort_items s1 (listed s1 d)). destruct (sort_items_spec s1 (listed s1 d)) as [P S].
  split; [done|]. split; [done|]. unfold vfs_list_dir. rewrite (proj2 (Z.eqb_neq cap 0)) by lia. cbn [default from_option id].
  destruct path as [|c path]; [done|]. injection Hsl as ->. rewrite Z.eqb_refl. cbn [negb].
  rewrite (proj2 (Nat.leb_gt _ _)) by done. unfold st_bind. rewrite HL. cbn [st_get]. rewrite Hd.
  cbn [Z.eqb negb VFS_NODE_DIR Pos.eqb st_ret]. f_equal. rewrite list_entries_eq, out_str_eq by (cbn [length]; lia).
  cbn [app length]. by rewrite Nat.sub_0_r.
Qed.

(** ** A file system to evaluate on

    After vfs_init: /tmp/a is created, "abc" written to it and /tmp/b linked to it. *)

Definition blank_fs : vfs := Vfs ∅ 0 0 None ∅ ∅ ∅ 0 [].
Definition demo_fs : vfs := snd (vfs_init blank_fs).
Definition demo_a : cstr := cs "/tmp/a".
Definition demo_b : cstr := cs "/tmp/b".
Definition demo_created : vfs := vfs_exec (VCreate demo_a false) demo_fs.
Definition demo_written : vfs := vfs_exec (VWrite 59 0 (Some (cs "abc")) 3) demo_created.
Definition demo_linked : vfs := vfs_exec (VLink demo_a demo_b) demo_written.

Lemma demo_fs_ok : vfs_ok demo_fs.
Proof. apply vfs_init_ok. Qed.

Lemma demo_created_ok : vfs_ok demo_created.
Proof. exact (vfs_exec_ok (VCreate demo_a false) demo_fs demo_fs_ok I). Qed.

Lemma demo_linked_ok : vfs_ok demo_linked.
Proof.
  apply (vfs_exec_ok (VLink demo_a demo_b) demo_written); [|exact I].
  apply (vfs_exec_ok (VWrite 59 0 (Some (cs "abc")) 3) demo_created demo_created_ok).
  cbn [vcall_ok]. split; [|lia]. vm_compute. split; [discriminate | reflexivity].
Qed.

Lemma is_file_check s n : (0 <=? n) && (n <? v_node_used s) && (n_type (nd s n) =? VFS_NODE_FILE) = true -> is_file s n.
Proof. intros [[H1%Z.leb_le H2%Z.ltb_lt]%andb_prop H3%Z.eqb_eq]%andb_prop. exact (conj (conj H1 H2) H3). Qed.


Lemma vfs_create_found_witness : exists dir name p, split_for_create demo_a = Some (dir, name) /\
  fst (vfs_lookup dir (snd (vfs_lookup demo_a demo_fs))) = Some p /\
  vfs_lookup_child p name demo_created = (Some 59, demo_created) /\
  n_type (nd demo_created 59) = VFS_NODE_FILE /\ vfs_file_size demo_created 59 = 0.
Proof.
  apply (vfs_create_found demo_fs demo_a false 59 demo_created demo_fs_ok); [vm_compute; reflexivity|].
  apply (run_eq (vfs_create_file demo_a false demo_fs)). vm_compute. reflexivity.
Defined.

Lemma vfs_file_write_witness : vfs_file_size demo_written 59 = 3 /\ file_byte demo_written 59 1 = 98.
Proof.
  destruct (vfs_file_write_correct demo_created 59 0 (cs "abc") 3 demo_written demo_created_ok) as [(Hc & _)|(_ & _ & Hz & Hb & _)].
  - apply is_file_check. vm_compute. reflexivity.
  - lia.
  - apply (run_eq (vfs_file_write 59 0 (Some (cs "abc")) 3 demo_created)). vm_compute. reflexivity.
  - exfalso. vm_compute in Hc. congruence.
  - rewrite Hz, (Hb 1). split; vm_compute; reflexivity.
Defined.

(** Removing /tmp/a leaves its contents under /tmp/b. *)
Lemma vfs_unlink_witness : fst (vfs_unlink demo_a demo_linked) = 0 /\
  file_byte (snd (vfs_unlink demo_a demo_linked)) 60 1 = 98.
Proof.
  destruct (vfs_unlink_correct demo_linked demo_a 59 (snd (vfs_lookup demo_a demo_linked))
    (fst (vfs_unlink demo_a demo_linked)) (snd (vfs_unlink demo_a demo_linked)) demo_linked_ok) as (Hr & _ & _ & _ & Hk).
  - apply (run_eq (vfs_lookup demo_a demo_linked)). vm_compute. reflexivity.
  - apply is_file_check. vm_compute. reflexivity.
  - apply surjective_pairing.
  - split; [done|]. rewrite (proj2 (Hk 60 ltac:(apply is_file_check; vm_compute; reflexivity)
      ltac:(right; vm_compute; discriminate))). vm_compute. reflexivity.
Defined.

Lemma vfs_list_dir_witness : exists items s1, Permutation items (listed s1 0) /\ StronglySorted (name_le s1) items /\
  vfs_list_dir (Some (cs "/")) 256 demo_linked = (take 255 (flat_map (entry_text s1) items), s1).
Proof.
  destruct (vfs_list_dir_correct demo_linked (cs "/") 256 0 (snd (vfs_lookup (cs "/") demo_linked))) as [items H].
  - lia.
  - apply Nat.ltb_lt. vm_compute. reflexivity.
  - reflexivity.
  - apply (run_eq (vfs_lookup (cs "/") demo_linked)). vm_compute. reflexivity.
  - vm_compute. reflexivity.
  - exists items, (snd (vfs_lookup (cs "/") demo_linked)). exact H.
Defined.

(** ** Two defects *)

(** vfs_read_file reads the size and buffer of the directory entry it finds,
    not of its inode: after a write through the first name the second one
    still shows the old size there, while vfs_file_size gives the new one. *)
Example read_file_stale_alias cpuid bootfs p ns :
  let s := vfs_exec (VWrite 59 3 (Some (cs "def")) 3) demo_linked in
  vfs_file_size s 60 = 6 /\ fst (vfs_read_file cpuid bootfs p ns demo_b 100 s) = cs "abc".
Proof. split; vm_compute; reflexivity. Qed.

(** vfs_rename refuses a busy mount point by testing the node the lookup
    gives, which is the mounted root, not the mount point: renaming /dev
    succeeds, and then both names lead to devfs. *)
Example rename_of_mount_point :
  let s := vfs_exec (VRename (cs "/dev") (cs "/x")) demo_fs in
  fst (vfs_rename (cs "/dev") (cs "/x") demo_fs) = 0 /\
  fst (vfs_lookup (cs "/dev") s) = Some 45 /\ fst (vfs_lookup (cs "/x") s) = Some 45.
Proof. split_and!; vm_compute; reflexivity. Qed.
