(* ===== verification/Ring.v ===== *)
(** * Byte rings

    Pipes, sockets and pseudo terminals keep bytes in arrays used as rings: a
    read index, a write index and a count.  Here a ring is related to the
    queue it holds. *)

From S2P Require Import Prelude Words Pmm.
Local Open Scope Z_scope.

Section Ring.
Variable cap : Z.
Hypothesis cap_pos : 0 < cap.

Definition ring_ok (r w count : Z) : Prop := 0 <= r < cap /\ 0 <= count <= cap /\ w = (r + count) mod cap.

(** The bytes in a ring, oldest first. *)
Definition ring_list (buf : gmap Z Z) (r count : Z) : list Z :=
  map (fun i => arr buf ((r + i) mod cap)) (seqZ 0 count).

Lemma ring_length buf r count : 0 <= count -> Z.of_nat (length (ring_list buf r count)) = count.
Proof. intros. unfold ring_list. rewrite length_map, length_seqZ. lia. Qed.

Lemma ring_push_ok r w count : ring_ok r w count -> count < cap -> ring_ok r ((w + 1) mod cap) (count + 1).
Proof.
  intros (Hr & Hc & ->) Hlt. split; [done|]. split; [lia|]. rewrite Zplus_mod_idemp_l. f_equal. lia.
Qed.

Lemma ring_push buf r w count b : ring_ok r w count -> count < cap ->
  ring_list (<[w := b]> buf) r (count + 1) = ring_list buf r count ++ [b].
Proof.
  intros (Hr & Hc & Hw) Hlt. unfold ring_list. rewrite (seqZ_app 0 count 1) by lia.
  rewrite map_app. f_equal.
  - apply map_ext_in. intros i Hi%list_elem_of_In%elem_of_seqZ. unfold arr. rewrite lookup_insert_ne; [done|].
    intros E. assert (Hm : (r + i) mod cap = (r + count) mod cap) by congruence.
    assert (cap * ((r + count) / cap - (r + i) / cap) = count - i)
      by (pose proof (Z.div_mod (r + count) cap); pose proof (Z.div_mod (r + i) cap); lia).
    assert ((r + count) / cap - (r + i) / cap <= 0 \/ 1 <= (r + count) / cap - (r + i) / cap) as [|] by lia; nia.
  - cbn [seqZ map]. change (seqZ (0 + count) 1) with [0 + count]. cbn [map]. rewrite Z.add_0_l, <- Hw. unfold arr.
    by rewrite lookup_insert_eq.
Qed.

Lemma ring_pop_ok r w count : ring_ok r w count -> 0 < count -> ring_ok ((r + 1) mod cap) w (count - 1).
Proof.
  intros (Hr & Hc & ->) Hlt. split; [apply Z.mod_pos_bound; lia|]. split; [lia|].
  rewrite Zplus_mod_idemp_l. f_equal. lia.
Qed.

Lemma ring_pop buf r w count : ring_ok r w count -> 0 < count ->
  ring_list buf r count = arr buf r :: ring_list buf ((r + 1) mod cap) (count - 1).
Proof.
  intros (Hr & Hc & _) Hlt. unfold ring_list. rewrite (seqZ_cons 0 count) by lia. cbn [map]. f_equal.
  - by rewrite Z.add_0_r, Z.mod_small.
  - apply list_eq. intros j. rewrite !list_lookup_fmap.
    destruct (decide (Z.of_nat j < count - 1)).
    + rewrite !lookup_seqZ_lt by lia. cbn. f_equal. f_equal. rewrite Zplus_mod_idemp_l. f_equal. lia.
    + by rewrite !lookup_seqZ_ge by lia.
Qed.

Lemma ring_empty buf r : ring_list buf r 0 = [].
Proof. done. Qed.
End Ring.
