(* ===== verification/Kernel.v ===== *)
(** * The state of [src/kernel/main.c]

    The global variables of the file as one record, its structs as records
    with the source's fields, its arrays as finite maps that are zero where
    nothing was written.  A pointer to an element of an array is the index of
    the element; [private_data], which the code uses for pointers of several
    types and for device numbers, is the inductive type [ptr].  Variables that
    only bound debug output are left out. *)

From S2P Require Import Prelude Words Pmm Vmm CStr Vfs.
Local Open Scope Z_scope.
Local Open Scope st_scope.

Definition MAX_FILES : Z := 512.
Definition MAX_TASKS : Z := 64.
Definition MAX_FD_TABLES : Z := 32.
Definition PTY_CAP : Z := 65536.
Definition PTY_COUNT : Z := 8.
Definition PIPE_CAP : Z := 65536.
Definition SOCK_CAP : Z := 16384.
Definition KEY_QUEUE_CAP : Z := 128.
Definition INPUT_EVENT_CAP : Z := 256.
Definition MOUSE_EVENT_CAP : Z := 256.
Definition MAX_LAZY_USER_MMAPS : Z := 128.
Definition YABRO_EPOLL_WATCH_MAX : Z := 128.

Definition FD_FILE : Z := 1.
Definition FD_PIPE_R : Z := 2.
Definition FD_PIPE_W : Z := 3.
Definition FD_PSEUDO : Z := 4.
Definition FD_SOCKET : Z := 5.
Definition FD_EVENTFD : Z := 6.
Definition FD_TIMERFD : Z := 7.
Definition FD_PTY_MASTER : Z := 8.
Definition FD_PTY_SLAVE : Z := 9.
Definition FD_EPOLL : Z := 10.

Definition DEV_CONSOLE : Z := 3.
Definition DEV_TTY : Z := 4.
Definition DEV_INPUT : Z := 8.
Definition DEV_INPUT_MOUSE : Z := 9.

Definition TASK_UNUSED : Z := 0.
Definition TASK_RUNNABLE : Z := 1.
Definition TASK_RUNNING : Z := 2.
Definition TASK_BLOCKED : Z := 3.
Definition TASK_ZOMBIE : Z := 4.

Definition IO_WAIT_NONE : Z := 0.
Definition IO_WAIT_SOCKET_READ : Z := 4.
Definition IO_WAIT_SOCKET_WRITE : Z := 5.
Definition IO_WAIT_SOCKET_ACCEPT : Z := 6.
Definition IO_WAIT_NANOSLEEP : Z := 7.
Definition IO_WAIT_PTY_READ : Z := 8.
Definition IO_WAIT_PTY_DRAIN : Z := 9.
Definition IO_WAIT_TTY : Z := 10.

Definition EPERM : Z := 1.
Definition ESRCH : Z := 3.
Definition EIO : Z := 5.
Definition EBADF : Z := 9.
Definition EAGAIN : Z := 11.
Definition ENOMEM : Z := 12.
Definition EMFILE : Z := 24.
Definition EPIPE : Z := 32.
Definition ENAMETOOLONG : Z := 36.
Definition ENOSYS : Z := 38.
Definition ETIMEDOUT : Z := 110.

(** [(uint64_t)(int64_t)-e] *)
Definition neg_errno (e : Z) : Z := u64 (- e).

(** ** Registers *)

Inductive reg :=
  | RAX | RBX | RCX | RDX | RSI | RDI | RBP | R8 | R9 | R10 | R11 | R12 | R13 | R14 | R15
  | RSP | RIP | RFLAGS | CR3 | FS_BASE | GS_BASE.
#[global] Instance reg_eq_dec : EqDecision reg.
Proof. solve_decision. Defined.

(** task_context_t; syscall_frame_t is the same with [user_rip], [user_rflags],
    [user_rsp] and [user_cr3] for the last registers and no segment bases. *)
Definition regs : Type := reg -> Z.
Definition set_reg (c : regs) (r : reg) (v : Z) : regs := fun q => if decide (q = r) then v else c q.
Definition blank_regs : regs := fun _ => 0.

(** ** Pointers of [private_data] *)

Inductive ptr :=
  | PNull
  | PDev (kind : Z)                (* a device or pseudo-file number *)
  | PPipe (i : Z) | PPty (i : Z)
  | PSock (i side : Z)             (* the side is the low bit of the pointer *)
  | PEventfd (i : Z) | PTimerfd (i : Z) | PEpoll (i : Z).
#[global] Instance ptr_eq_dec : EqDecision ptr.
Proof. solve_decision. Defined.

(** Where the data of an open file lies: a data slot of the file system, the
    buffer [pseudo_buf[fd]], the constant text of /sys/kernel/osrelease. *)
Inductive data_ptr := DSlot (d : Z) | DPseudoBuf (fd : Z) | DOsrelease.

(** One open file of a descriptor table. *)
Record file_desc := FileDesc {
  f_in_use : bool;
  f_type : Z;
  f_flags : Z;
  f_offset : Z;
  f_size : Z;
  f_data : option data_ptr;
  f_name : option cstr;
  f_boot_path : cstr;
  f_private : ptr;
  f_vnode : option Z;
  f_shared_offset : option Z;
  f_input_state : option Z;
  f_input_seq : Z
}.
#[global] Instance eta_file_desc : Eta file_desc := fun r => FileDesc (f_in_use r) (f_type r) (f_flags r) (f_offset r) (f_size r) (f_data r) (f_name r) (f_boot_path r) (f_private r) (f_vnode r) (f_shared_offset r) (f_input_state r) (f_input_seq r).
Definition blank_file_desc : file_desc := FileDesc false 0 0 0 0 None None [] PNull None None None 0.

(** The read position of an evdev file, shared by the descriptors of one open. *)
Record input_open_state := InputOpenState {
  is_used : bool;
  is_refs : Z;
  is_kind : Z;
  is_seq : Z
}.
#[global] Instance eta_input_open_state : Eta input_open_state := fun r => InputOpenState (is_used r) (is_refs r) (is_kind r) (is_seq r).
Definition blank_input_open_state : input_open_state := InputOpenState false 0 0 0.

(** The offset of an open file description. *)
Record open_desc_state := OpenDescState {
  od_offset : Z;
  od_refs : Z;
  od_used : bool
}.
#[global] Instance eta_open_desc_state : Eta open_desc_state := fun r => OpenDescState (od_offset r) (od_refs r) (od_used r).
Definition blank_open_desc_state : open_desc_state := OpenDescState 0 0 false.

(** A pipe: a ring of PIPE_CAP bytes. *)
Record pipe_state := PipeState {
  pi_data : gmap Z Z;
  pi_rpos : Z;
  pi_wpos : Z;
  pi_count : Z;
  pi_readers : Z;
  pi_writers : Z
}.
#[global] Instance eta_pipe_state : Eta pipe_state := fun r => PipeState (pi_data r) (pi_rpos r) (pi_wpos r) (pi_count r) (pi_readers r) (pi_writers r).
Definition blank_pipe_state : pipe_state := PipeState ∅ 0 0 0 0 0.

(** A pseudo terminal: two rings, the line being edited and the terminal settings. *)
Record pty_state := PtyState {
  py_m2s : gmap Z Z;
  py_s2m : gmap Z Z;
  py_m2s_r : Z;
  py_m2s_w : Z;
  py_m2s_count : Z;
  py_s2m_r : Z;
  py_s2m_w : Z;
  py_s2m_count : Z;
  py_master_open : bool;
  py_slave_open : bool;
  py_unlocked : bool;
  py_master_refs : Z;
  py_slave_refs : Z;
  py_rows : Z;
  py_cols : Z;
  py_xpixel : Z;
  py_ypixel : Z;
  py_termios : gmap Z Z;
  py_canon : gmap Z Z;
  py_canon_count : Z;
  py_fg_pgrp : Z;
  py_shell_pgrp : Z;
  py_session : Z;
  py_output_stopped : bool;
  py_index : Z
}.
#[global] Instance eta_pty_state : Eta pty_state := fun r => PtyState (py_m2s r) (py_s2m r) (py_m2s_r r) (py_m2s_w r) (py_m2s_count r) (py_s2m_r r) (py_s2m_w r) (py_s2m_count r) (py_master_open r) (py_slave_open r) (py_unlocked r) (py_master_refs r) (py_slave_refs r) (py_rows r) (py_cols r) (py_xpixel r) (py_ypixel r) (py_termios r) (py_canon r) (py_canon_count r) (py_fg_pgrp r) (py_shell_pgrp r) (py_session r) (py_output_stopped r) (py_index r).
Definition blank_pty_state : pty_state := PtyState ∅ ∅ 0 0 0 0 0 0 false false false 0 0 0 0 0 0 ∅ ∅ 0 0 0 0 false 0.

(** A socket pair; the two-element arrays are indexed by side. *)
Record unix_socket_state := UnixSocketState {
  sk_data : gmap Z (gmap Z Z);
  sk_rpos : gmap Z Z;
  sk_wpos : gmap Z Z;
  sk_count : gmap Z Z;
  sk_closed : gmap Z Z;
  sk_refs : Z;
  sk_side_refs : gmap Z Z;
  sk_listener : bool;
  sk_bound : bool;
  sk_connected : bool;
  sk_pending_count : Z;
  sk_domain : Z;
  sk_protocol : Z;
  sk_pending_fd : gmap Z Z;
  sk_path : cstr;
  sk_netlink_pid : Z;
  sk_netlink_groups : Z
}.
#[global] Instance eta_unix_socket_state : Eta unix_socket_state := fun r => UnixSocketState (sk_data r) (sk_rpos r) (sk_wpos r) (sk_count r) (sk_closed r) (sk_refs r) (sk_side_refs r) (sk_listener r) (sk_bound r) (sk_connected r) (sk_pending_count r) (sk_domain r) (sk_protocol r) (sk_pending_fd r) (sk_path r) (sk_netlink_pid r) (sk_netlink_groups r).
Definition blank_unix_socket_state : unix_socket_state := UnixSocketState ∅ ∅ ∅ ∅ ∅ 0 ∅ false false false 0 0 0 ∅ [] 0 0.

Record eventfd_state_k := EventfdState {
  ev_value : Z;
  ev_flags : Z
}.
#[global] Instance eta_eventfd_state_k : Eta eventfd_state_k := fun r => EventfdState (ev_value r) (ev_flags r).
Definition blank_eventfd_state_k : eventfd_state_k := EventfdState 0 0.

Record timerfd_state_k := TimerfdState {
  tm_clockid : Z;
  tm_flags : Z;
  tm_interval_ns : Z;
  tm_next_ns : Z;
  tm_expirations : Z
}.
#[global] Instance eta_timerfd_state_k : Eta timerfd_state_k := fun r => TimerfdState (tm_clockid r) (tm_flags r) (tm_interval_ns r) (tm_next_ns r) (tm_expirations r).
Definition blank_timerfd_state_k : timerfd_state_k := TimerfdState 0 0 0 0 0.

Record epoll_watch_k := EpollWatch {
  ew_used : bool;
  ew_fd : Z;
  ew_events : Z;
  ew_data : Z
}.
#[global] Instance eta_epoll_watch_k : Eta epoll_watch_k := fun r => EpollWatch (ew_used r) (ew_fd r) (ew_events r) (ew_data r).
Definition blank_epoll_watch_k : epoll_watch_k := EpollWatch false 0 0 0.

Record epoll_state_k := EpollState {
  ep_used : bool;
  ep_refs : Z;
  ep_w : gmap Z epoll_watch_k
}.
#[global] Instance eta_epoll_state_k : Eta epoll_state_k := fun r => EpollState (ep_used r) (ep_refs r) (ep_w r).
Definition blank_epoll_state_k : epoll_state_k := EpollState false 0 ∅.

(** An area of a task that is mapped on first use. *)
Record lazy_user_mmap_t := LazyMmap {
  lm_start : Z;
  lm_end : Z;
  lm_prot : Z;
  lm_used : bool
}.
#[global] Instance eta_lazy_user_mmap_t : Eta lazy_user_mmap_t := fun r => LazyMmap (lm_start r) (lm_end r) (lm_prot r) (lm_used r).
Definition blank_lazy_user_mmap_t : lazy_user_mmap_t := LazyMmap 0 0 0 false.

Record sigaction_t := SigAction {
  sa_handler : Z;
  sa_flags : Z;
  sa_restorer : Z;
  sa_mask : Z
}.
#[global] Instance eta_sigaction_t : Eta sigaction_t := fun r => SigAction (sa_handler r) (sa_flags r) (sa_restorer r) (sa_mask r).
Definition blank_sigaction_t : sigaction_t := SigAction 0 0 0 0.

(** A task. *)
Record task_t := Task {
  t_used : bool;
  t_state : Z;
  t_pid : Z;
  t_ppid : Z;
  t_tgid : Z;
  t_pgrp : Z;
  t_session : Z;
  t_controlling_tty : Z;
  t_exit_status : Z;
  t_tid_address : Z;
  t_futex_addr : Z;
  t_futex_cr3 : Z;
  t_futex_deadline_ns : Z;
  t_pipe_wait_fd : Z;
  t_pipe_wait_buf : Z;
  t_pipe_wait_count : Z;
  t_io_wait_kind : Z;
  t_io_wait_valid : bool;
  t_io_wait_nr : Z;
  t_io_wait_deadline_ns : Z;
  t_io_resume_valid : bool;
  t_io_resume_nr : Z;
  t_io_resume_rip : Z;
  t_io_resume_start_ns : Z;
  t_io_resume_deadline_ns : Z;
  t_heap_base : Z;
  t_heap_end : Z;
  t_mmap_next : Z;
  t_lazy_mmaps : list lazy_user_mmap_t;
  t_fb_map_count : Z;
  t_nice : Z;
  t_switches : Z;
  t_cpu_ticks : Z;
  t_wait4_active : bool;
  t_wait4_pid : Z;
  t_wait4_status_ptr : Z;
  t_wait4_reap_pid : Z;
  t_ctx : regs;
  t_sig_pending : gmap Z Z;
  t_sig_blocked : gmap Z Z;
  t_sig_actions : gmap Z sigaction_t;
  t_sig_saved_frame : regs;
  t_sig_saved_valid : bool;
  t_sig_active : bool;
  t_cwd : option Z
}.
#[global] Instance eta_task_t : Eta task_t := fun r => Task (t_used r) (t_state r) (t_pid r) (t_ppid r) (t_tgid r) (t_pgrp r) (t_session r) (t_controlling_tty r) (t_exit_status r) (t_tid_address r) (t_futex_addr r) (t_futex_cr3 r) (t_futex_deadline_ns r) (t_pipe_wait_fd r) (t_pipe_wait_buf r) (t_pipe_wait_count r) (t_io_wait_kind r) (t_io_wait_valid r) (t_io_wait_nr r) (t_io_wait_deadline_ns r) (t_io_resume_valid r) (t_io_resume_nr r) (t_io_resume_rip r) (t_io_resume_start_ns r) (t_io_resume_deadline_ns r) (t_heap_base r) (t_heap_end r) (t_mmap_next r) (t_lazy_mmaps r) (t_fb_map_count r) (t_nice r) (t_switches r) (t_cpu_ticks r) (t_wait4_active r) (t_wait4_pid r) (t_wait4_status_ptr r) (t_wait4_reap_pid r) (t_ctx r) (t_sig_pending r) (t_sig_blocked r) (t_sig_actions r) (t_sig_saved_frame r) (t_sig_saved_valid r) (t_sig_active r) (t_cwd r).
Definition blank_task_t : task_t := Task false 0 0 0 0 0 0 0 0 0 0 0 0 0 0 0 0 false 0 0 false 0 0 0 0 0 0 0 (replicate (Z.to_nat MAX_LAZY_USER_MMAPS) blank_lazy_user_mmap_t) 0 0 0 0 false 0 0 0 blank_regs ∅ ∅ ∅ blank_regs false false None.

(** An event of /dev/input. *)
Record input_event_k := InputEvent {
  ie_sec : Z;
  ie_usec : Z;
  ie_type : Z;
  ie_code : Z;
  ie_value : Z
}.
#[global] Instance eta_input_event_k : Eta input_event_k := fun r => InputEvent (ie_sec r) (ie_usec r) (ie_type r) (ie_code r) (ie_value r).
Definition blank_input_event_k : input_event_k := InputEvent 0 0 0 0 0.

(** Keyboard and mouse: the event rings, the key queue of the console, the decoders and the
    bytes of a key the console still has to deliver ([console_tty_pending_*]). *)
Record input_state := InputState {
  in_event_queue : gmap Z input_event_k;
  in_event_seq : Z;
  in_key_state : gmap Z Z;
  in_mouse_queue : gmap Z input_event_k;
  in_mouse_seq : Z;
  in_key_queue : gmap Z Z;
  in_key_head : Z;
  in_key_tail : Z;
  in_e0_prefix : bool;
  in_shift : bool;
  in_shift_left : bool;
  in_shift_right : bool;
  in_caps_lock : bool;
  in_ctrl_left : bool;
  in_ctrl_right : bool;
  in_mouse_packet : gmap Z Z;
  in_mouse_pos : Z;
  in_mouse_buttons : Z;
  in_pending_pos : Z;
  in_pending_len : Z;
  in_pending_pid : Z;
  in_pending_bytes : gmap Z Z
}.
#[global] Instance eta_input_state : Eta input_state := fun r => InputState (in_event_queue r) (in_event_seq r) (in_key_state r) (in_mouse_queue r) (in_mouse_seq r) (in_key_queue r) (in_key_head r) (in_key_tail r) (in_e0_prefix r) (in_shift r) (in_shift_left r) (in_shift_right r) (in_caps_lock r) (in_ctrl_left r) (in_ctrl_right r) (in_mouse_packet r) (in_mouse_pos r) (in_mouse_buttons r) (in_pending_pos r) (in_pending_len r) (in_pending_pid r) (in_pending_bytes r).
Definition blank_input_state : input_state := InputState ∅ 0 ∅ ∅ 0 ∅ 0 0 false false false false false false false ∅ 0 0 0 0 (-1) ∅.

(** The kernel.  [k_now] is the time kernel_monotonic_ns reads, [k_msr_fs] and [k_msr_gs] are the segment base registers,
    [k_socket_si] to [k_connect_si] the static cursors of the socket calls,
    [k_pseudo_buf] the buffers of the texts of /proc. *)
Record kernel := Kernel {
  k_vm : machine;
  k_vfs : vfs;
  k_tasks : gmap Z task_t;
  k_current : Z;
  k_fd_tables : gmap (Z * Z) file_desc;
  k_fd_table_id : gmap Z Z;
  k_fd_table_refs : gmap Z Z;
  k_open_descs : gmap Z open_desc_state;
  k_input_states : gmap Z input_open_state;
  k_pipes : gmap Z pipe_state;
  k_ptys : gmap Z pty_state;
  k_socks : gmap Z unix_socket_state;
  k_eventfds : gmap Z eventfd_state_k;
  k_timerfds : gmap Z timerfd_state_k;
  k_epolls : gmap Z epoll_state_k;
  k_input : input_state;
  k_console_fg_pgrp : Z;
  k_console_shell_pgrp : Z;
  k_framebuffer_console_active : bool;
  k_framebuffer_users : Z;
  k_now : Z;
  k_timer_ticks : Z;
  k_msr_fs : Z;
  k_msr_gs : Z;
  k_task_switch_pending : bool;
  k_task_switch_target : Z;
  k_task_return_ctx : option Z;
  k_syscall_user_cr3 : Z;
  k_pty_init_done : bool;
  k_next_pid : Z;
  k_syscall_user_rip : Z;
  k_syscall_user_rsp : Z;
  k_syscall_user_rflags : Z;
  k_syscall_saved_rax : Z;
  k_user_exec_pending : bool;
  k_user_exit_pending : bool;
  k_user_exit_status : Z;
  k_task_switch_deferred : bool;
  k_socket_si : Z;
  k_socket_ni : Z;
  k_socketpair_si : Z;
  k_connect_si : Z;
  k_console_termios : gmap Z Z;
  k_pseudo_buf : gmap Z (list Z);
  k_current_exe : cstr;
  k_rand_state : Z;
  k_umask : Z;
  k_process_name : cstr;
  k_robust_head : Z;
  k_robust_len : Z;
  k_repeat_delay_ms : Z;
  k_repeat_period_ms : Z
}.
#[global] Instance eta_kernel : Eta kernel := fun r => Kernel (k_vm r) (k_vfs r) (k_tasks r) (k_current r) (k_fd_tables r) (k_fd_table_id r) (k_fd_table_refs r) (k_open_descs r) (k_input_states r) (k_pipes r) (k_ptys r) (k_socks r) (k_eventfds r) (k_timerfds r) (k_epolls r) (k_input r) (k_console_fg_pgrp r) (k_console_shell_pgrp r) (k_framebuffer_console_active r) (k_framebuffer_users r) (k_now r) (k_timer_ticks r) (k_msr_fs r) (k_msr_gs r) (k_task_switch_pending r) (k_task_switch_target r) (k_task_return_ctx r) (k_syscall_user_cr3 r) (k_pty_init_done r) (k_next_pid r) (k_syscall_user_rip r) (k_syscall_user_rsp r) (k_syscall_user_rflags r) (k_syscall_saved_rax r) (k_user_exec_pending r) (k_user_exit_pending r) (k_user_exit_status r) (k_task_switch_deferred r) (k_socket_si r) (k_socket_ni r) (k_socketpair_si r) (k_connect_si r) (k_console_termios r) (k_pseudo_buf r) (k_current_exe r) (k_rand_state r) (k_umask r) (k_process_name r) (k_robust_head r) (k_robust_len r) (k_repeat_delay_ms r) (k_repeat_period_ms r).
Definition blank_kernel : kernel := Kernel (Machine (Pmm [] [] ∅ 0 0 0 0 0 0 ∅ ∅ ∅ false) ∅ 0 [] 0 0 0 0 false) (Vfs ∅ 0 0 None ∅ ∅ ∅ 0 []) ∅ 0 ∅ ∅ ∅ ∅ ∅ ∅ ∅ ∅ ∅ ∅ ∅ blank_input_state 0 0 true 0 0 0 0 0 false 0 None 0 false 100 0 0 0 0 false false 0 false 0 0 0 0 ∅ ∅ [] 0 0 [] 0 0 250 33.

(** ** Access to the tables *)

Definition task (k : kernel) (i : Z) : task_t := cell blank_task_t (k_tasks k) i.
Definition set_task (i : Z) (t : task_t) (k : kernel) : kernel := k <| k_tasks := <[i := t]> (k_tasks k) |>.
Definition pty (k : kernel) (i : Z) : pty_state := cell blank_pty_state (k_ptys k) i.
Definition set_pty (i : Z) (p : pty_state) (k : kernel) : kernel := k <| k_ptys := <[i := p]> (k_ptys k) |>.
Definition pipe (k : kernel) (i : Z) : pipe_state := cell blank_pipe_state (k_pipes k) i.
Definition set_pipe (i : Z) (p : pipe_state) (k : kernel) : kernel := k <| k_pipes := <[i := p]> (k_pipes k) |>.
Definition sock (k : kernel) (i : Z) : unix_socket_state := cell blank_unix_socket_state (k_socks k) i.
Definition set_sock (i : Z) (s : unix_socket_state) (k : kernel) : kernel := k <| k_socks := <[i := s]> (k_socks k) |>.
Definition epoll (k : kernel) (i : Z) : epoll_state_k := cell blank_epoll_state_k (k_epolls k) i.
Definition set_epoll (i : Z) (e : epoll_state_k) (k : kernel) : kernel := k <| k_epolls := <[i := e]> (k_epolls k) |>.
Definition open_desc (k : kernel) (i : Z) : open_desc_state := cell blank_open_desc_state (k_open_descs k) i.
Definition set_open_desc (i : Z) (d : open_desc_state) (k : kernel) : kernel := k <| k_open_descs := <[i := d]> (k_open_descs k) |>.
Definition in_state (k : kernel) (i : Z) : input_open_state := cell blank_input_open_state (k_input_states k) i.
Definition set_in_state (i : Z) (d : input_open_state) (k : kernel) : kernel := k <| k_input_states := <[i := d]> (k_input_states k) |>.

(** task_fd_tables[t][fd] *)
Definition fdesc (k : kernel) (t fd : Z) : file_desc := default blank_file_desc (k_fd_tables k !! (t, fd)).
Definition set_fdesc (t fd : Z) (f : file_desc) (k : kernel) : kernel := k <| k_fd_tables := <[(t, fd) := f]> (k_fd_tables k) |>.

Definition upd_task (i : Z) (f : task_t -> task_t) (k : kernel) : kernel := set_task i (f (task k i)) k.
Definition upd_fdesc (t fd : Z) (f : file_desc -> file_desc) (k : kernel) : kernel := set_fdesc t fd (f (fdesc k t fd)) k.
Definition upd_pty (i : Z) (f : pty_state -> pty_state) (k : kernel) : kernel := set_pty i (f (pty k i)) k.
Definition upd_pipe (i : Z) (f : pipe_state -> pipe_state) (k : kernel) : kernel := set_pipe i (f (pipe k i)) k.

(** The virtual memory manager's functions run on its part of the state. *)
Definition on_vm {A} (c : ST machine A) : ST kernel A :=
  fun k => let '(a, m) := c (k_vm k) in (a, k <| k_vm := m |>).

(** The virtual file system's functions run on theirs. *)
Definition on_vfs {A} (c : ST vfs A) : ST kernel A :=
  fun k => let '(a, v) := c (k_vfs k) in (a, k <| k_vfs := v |>).

(** Pointers to the kernel's tables are valid indices. *)
Definition task_ok (i : Z) : bool := (0 <=? i) && (i <? MAX_TASKS).
Definition fd_ok (fd : Z) : bool := (0 <=? fd) && (fd <? MAX_FILES).
