(* ===== verification/Tty.v ===== *)
(** * Pseudo terminals: the state of one terminal

    The rings, the terminal settings and the functions of
    [src/kernel/main.c] that work on one [pty_state_k] alone.  The line
    discipline, which also sends signals and wakes tasks, is in LineDisc. *)

From Stdlib Require Import String.
From S2P Require Import Prelude Words Pmm CStr Ring Kernel.
Local Open Scope Z_scope.
Local Open Scope st_scope.

Definition ICANON : Z := 0x2.
Definition ECHO : Z := 0x8.
Definition ISIG : Z := 0x1.
Definition INLCR : Z := 0x40.
Definition IGNCR : Z := 0x80.
Definition ICRNL : Z := 0x100.
Definition IXANY : Z := 0x800.
Definition IXON : Z := 0x400.
Definition OPOST : Z := 0x1.
Definition ONLCR : Z := 0x4.
Definition ECHONL : Z := 0x40.
Definition ECHOE : Z := 0x10.
Definition ECHOK : Z := 0x20.
Definition NOFLSH : Z := 0x80.
Definition ECHOCTL : Z := 0x200.
Definition VINTR : Z := 0.
Definition VQUIT : Z := 1.
Definition VERASE : Z := 2.
Definition VKILL : Z := 3.
Definition VEOF : Z := 4.
Definition VSTART : Z := 8.
Definition VSTOP : Z := 9.
Definition VSUSP : Z := 10.
Definition VEOL : Z := 11.
Definition VEOL2 : Z := 16.
Definition NCCS : Z := 19.
Definition TERMIOS_K_SIZE : Z := 60.

Definition CH_NL : Z := 10.
Definition CH_CR : Z := 13.
Definition CH_TAB : Z := 9.

(** ** /dev/pts paths *)

(** [for (i=9; digit path[i]; ++i) { n = n*10 + digit; if (n >= PTY_COUNT) return -1; }]
    on the rest of the path; [None] is the early return. *)
Fixpoint pts_number (n : Z) (p : cstr) : option Z :=
  match p with
  | c :: p' =>
      if (48 <=? c) && (c <=? 57) then
        let n := n * 10 + (c - 48) in
        if PTY_COUNT <=? n then None else pts_number n p'
      else Some n
  | [] => Some n
  end.

Definition pty_index_from_path (path : option cstr) : Z :=
  match path with
  | None => -1
  | Some path =>
      if negb (eq (take 9 path) (cs "/dev/pts/")) then -1
      else
        match drop 9 path with
        | [] => -1
        | c :: rest =>
            if (c <? 48) || (57 <? c) then -1
            else
              match pts_number 0 (c :: rest) with
              | None => -1
              | Some n => if is_nil rest then n else -1
              end
        end
  end.

(** ** Settings *)

(** The initialiser of pty_default_termios; elements not given are 0. *)
Definition pty_default_termios : list Z :=
  [0x00; 0x05; 0x00; 0x00;
   0x05; 0x00; 0x00; 0x00;
   0xbf; 0x00; 0x00; 0x00;
   0x3b; 0x8a; 0x00; 0x00;
   0x00;
   0x03; 0x1c; 0x7f; 0x15; 0x04; 0x00; 0x01; 0x00;
   0x11; 0x13; 0x1a; 0x00; 0x12; 0x0f; 0x17; 0x16; 0x00].

Definition pty_reset_termios (p : pty_state) : pty_state :=
  p <| py_termios := foldl (fun m i => <[i := default 0 (pty_default_termios !! Z.to_nat i)]> m) (py_termios p) (seqZ 0 TERMIOS_K_SIZE) |>.

(** One terminal as pty_init_once leaves it. *)
Definition pty_fresh (i : Z) : pty_state :=
  pty_reset_termios (blank_pty_state <| py_index := i |> <| py_rows := 30 |> <| py_cols := 80 |>
                       <| py_xpixel := 640 |> <| py_ypixel := 480 |>).

Definition pty_init_once : ST kernel unit :=
  let! k := st_get in
  if k_pty_init_done k then st_ret tt
  else st_mod (fun k => foldl (fun k i => set_pty i (pty_fresh i) k) (k <| k_pty_init_done := true |>) (seqZ 0 PTY_COUNT)).

(** [memcpy(&v, t + off, 4)] *)
Definition le32_at (t : gmap Z Z) (off : Z) : Z :=
  arr t off + 0x100 * arr t (off + 1) + 0x10000 * arr t (off + 2) + 0x1000000 * arr t (off + 3).

Definition tty_iflag (t : gmap Z Z) : Z := le32_at t 0.
Definition tty_oflag (t : gmap Z Z) : Z := le32_at t 4.
Definition tty_lflag (t : gmap Z Z) : Z := le32_at t 12.
Definition tty_cc (t : gmap Z Z) (i : Z) : Z := if (0 <=? i) && (i <? NCCS) then arr t (17 + i) else 0.
Definition tty_cc_match (t : gmap Z Z) (i c : Z) : bool := let v := tty_cc t i in negb (v =? 0) && (c =? v).

(** ** Rings *)

(** The bytes of [src] stored while there is room; the count stored, the ring. *)
Fixpoint pty_ring_write (buf : gmap Z Z) (w count : Z) (src : list Z) : Z * (gmap Z Z * Z * Z) :=
  match src with
  | [] => (0, (buf, w, count))
  | c :: src =>
      if count <? PTY_CAP then
        let '(done, st) := pty_ring_write (<[w := c]> buf) ((w + 1) mod PTY_CAP) (count + 1) src in (done + 1, st)
      else (0, (buf, w, count))
  end.

(** At most [n] bytes taken out; the bytes, the read index and the count. *)
Fixpoint pty_ring_read (buf : gmap Z Z) (r count : Z) (n : nat) : list Z * (Z * Z) :=
  match n with
  | O => ([], (r, count))
  | S n =>
      if 0 <? count then
        let '(l, st) := pty_ring_read buf ((r + 1) mod PTY_CAP) (count - 1) n in (arr buf r :: l, st)
      else ([], (r, count))
  end.

Definition s2m_write (src : list Z) (p : pty_state) : Z * pty_state :=
  let '(done, (buf, w, count)) := pty_ring_write (py_s2m p) (py_s2m_w p) (py_s2m_count p) src in
  (done, p <| py_s2m := buf |> <| py_s2m_w := w |> <| py_s2m_count := count |>).

Definition m2s_write (src : list Z) (p : pty_state) : Z * pty_state :=
  let '(done, (buf, w, count)) := pty_ring_write (py_m2s p) (py_m2s_w p) (py_m2s_count p) src in
  (done, p <| py_m2s := buf |> <| py_m2s_w := w |> <| py_m2s_count := count |>).

(** ** Readiness *)

(** The bytes of the line buffer. *)
Definition canon_bytes (p : pty_state) : list Z := map (arr (py_canon p)) (seqZ 0 (py_canon_count p)).

Definition pty_canon_available (p : pty_state) : bool :=
  let veol := tty_cc (py_termios p) VEOL in
  let veol2 := tty_cc (py_termios p) VEOL2 in
  existsb (fun c => (c =? CH_NL) || tty_cc_match (py_termios p) VEOF c ||
                    (negb (veol =? 0) && (c =? veol)) || (negb (veol2 =? 0) && (c =? veol2)))
    (canon_bytes p).

Definition pty_master_read_ready (p : pty_state) : bool :=
  (negb (py_output_stopped p) && negb (py_s2m_count p =? 0)) || negb (py_slave_open p).

Definition pty_slave_read_ready (p : pty_state) : bool :=
  if has (tty_lflag (py_termios p)) ICANON then pty_canon_available p || negb (py_master_open p)
  else negb (py_m2s_count p =? 0) || negb (py_master_open p).

(** The loop of pty_canon_ready_bytes: [n] and [ready] so far. *)
Fixpoint ready_loop (veof veol veol2 n ready : Z) (l : list Z) : Z :=
  match l with
  | [] => ready
  | c :: l =>
      if negb (veof =? 0) && (c =? veof) then n
      else
        let n := n + 1 in
        ready_loop veof veol veol2 n
          (if (c =? CH_NL) || (negb (veol =? 0) && (c =? veol)) || (negb (veol2 =? 0) && (c =? veol2)) then n else ready) l
  end.

Definition pty_canon_ready_bytes (p : pty_state) : Z :=
  ready_loop (tty_cc (py_termios p) VEOF) (tty_cc (py_termios p) VEOL) (tty_cc (py_termios p) VEOL2) 0 0 (canon_bytes p).

(** ** Output *)

Definition pty_flush_input (p : pty_state) : pty_state :=
  p <| py_m2s_r := 0 |> <| py_m2s_w := 0 |> <| py_m2s_count := 0 |> <| py_canon_count := 0 |>.
Definition pty_flush_output (p : pty_state) : pty_state :=
  p <| py_s2m_r := 0 |> <| py_s2m_w := 0 |> <| py_s2m_count := 0 |>.

(** Bytes of [src] accepted; a newline that output processing expands needs
    room for two bytes. *)
Fixpoint pty_output_write (src : list Z) (p : pty_state) : Z * pty_state :=
  match src with
  | [] => (0, p)
  | c :: src =>
      let oflag := tty_oflag (py_termios p) in
      if has oflag OPOST && has oflag ONLCR && (c =? CH_NL) then
        if PTY_CAP - py_s2m_count p <? 2 then (0, p)
        else
          let '(w, p) := s2m_write [CH_CR; CH_NL] p in
          if negb (w =? 2) then (0, p)
          else let '(done, p) := pty_output_write src p in (done + 1, p)
      else if PTY_CAP <=? py_s2m_count p then (0, p)
      else
        let '(w, p) := s2m_write [c] p in
        if negb (w =? 1) then (0, p)
        else let '(done, p) := pty_output_write src p in (done + 1, p)
  end.

Definition pty_out (src : list Z) (p : pty_state) : pty_state := snd (pty_output_write src p).

Definition pty_echo_char (c lflag : Z) (p : pty_state) : pty_state :=
  if negb (py_master_open p) then p
  else if negb (has lflag ECHO) then
    if (c =? CH_NL) && has lflag ECHONL then pty_out [c] p else p
  else if has lflag ECHOCTL && (((c <? 0x20) && negb (c =? CH_NL) && negb (c =? CH_TAB)) || (c =? 0x7f)) then
    pty_out [94; if c =? 0x7f then 63 else u8 (Z.lxor c 0x40)] p
  else pty_out [c] p.
