(* ===== verification/Fd.v ===== *)
(** * Descriptor tables

    Open file descriptions, descriptor tables and their reference counts
    ([src/kernel/main.c]).  A pointer to a descriptor is the pair of its table
    and its index; the macro [files] is [current_files], evaluated at each use. *)

From S2P Require Import Prelude Words Pmm CStr Vfs Kernel.
Local Open Scope Z_scope.
Local Open Scope st_scope.

Definition UINT32_MAX : Z := 0xFFFFFFFF.
Definition INPUT_OPEN_STATE_CAP : Z := MAX_TASKS * MAX_FILES.
Definition O_CLOEXEC : Z := 0x80000.

(** ** Shared state of open files *)

Definition input_state_alloc (kind seq : Z) : ST kernel (option Z) :=
  let! k := st_get in
  match find (fun i => negb (is_used (in_state k i))) (seqZ 0 INPUT_OPEN_STATE_CAP) with
  | Some i => st_mod (set_in_state i (InputOpenState true 1 kind seq)) ;;; st_ret (Some i)
  | None => st_ret None
  end.

Definition input_state_retain (st : option Z) : ST kernel unit :=
  let! k := st_get in
  match st with
  | Some i =>
      if is_used (in_state k i) && (is_refs (in_state k i) <? UINT32_MAX)
      then st_mod (set_in_state i ((in_state k i) <| is_refs := is_refs (in_state k i) + 1 |>))
      else st_ret tt
  | None => st_ret tt
  end.

Definition input_state_release (st : option Z) : ST kernel unit :=
  let! k := st_get in
  match st with
  | None => st_ret tt
  | Some i =>
      let s := in_state k i in
      if negb (is_used s) then st_ret tt
      else if 1 <? is_refs s then st_mod (set_in_state i (s <| is_refs := is_refs s - 1 |>))
      else st_mod (set_in_state i (InputOpenState false 0 0 0))
  end.

Definition input_fd_seq (k : kernel) (t fd : Z) : Z :=
  let f := fdesc k t fd in
  match f_input_state f with
  | Some i => if is_used (in_state k i) then is_seq (in_state k i) else f_input_seq f
  | None => f_input_seq f
  end.

Definition input_fd_seq_set (t fd seq : Z) : ST kernel unit :=
  st_mod (upd_fdesc t fd (fun f => f <| f_input_seq := seq |>)) ;;;
  let! k := st_get in
  match f_input_state (fdesc k t fd) with
  | Some i => if is_used (in_state k i) then st_mod (set_in_state i ((in_state k i) <| is_seq := seq |>)) else st_ret tt
  | None => st_ret tt
  end.

Definition alloc_open_offset : ST kernel (option Z) :=
  let! k := st_get in
  match find (fun i => negb (od_used (open_desc k i))) (seqZ 0 MAX_FILES) with
  | Some i => st_mod (set_open_desc i (OpenDescState 0 1 true)) ;;; st_ret (Some i)
  | None => st_ret None
  end.

Definition retain_open_offset (p : option Z) : ST kernel unit :=
  let! k := st_get in
  match p with
  | Some i => st_mod (set_open_desc i ((open_desc k i) <| od_refs := u32 (od_refs (open_desc k i) + 1) |>))
  | None => st_ret tt
  end.

(** [if (s->refs && --s->refs == 0) s->used = 0;] *)
Definition release_open_offset (p : option Z) : ST kernel unit :=
  let! k := st_get in
  match p with
  | None => st_ret tt
  | Some i =>
      let d := open_desc k i in
      if od_refs d =? 0 then st_ret tt
      else
        let d := d <| od_refs := od_refs d - 1 |> in
        st_mod (set_open_desc i (if od_refs d =? 0 then d <| od_used := false |> else d))
  end.

Definition fd_offset_get (k : kernel) (t fd : Z) : Z :=
  let f := fdesc k t fd in
  match f_shared_offset f with Some i => od_offset (open_desc k i) | None => f_offset f end.

Definition fd_offset_set (t fd v : Z) : ST kernel unit :=
  st_mod (upd_fdesc t fd (fun f => f <| f_offset := v |>)) ;;;
  let! k := st_get in
  match f_shared_offset (fdesc k t fd) with
  | Some i => st_mod (set_open_desc i ((open_desc k i) <| od_offset := v |>))
  | None => st_ret tt
  end.

Definition fd_set_boot_path (t fd : Z) (path : option cstr) : ST kernel unit :=
  st_mod (upd_fdesc t fd (fun f => f <| f_boot_path := take (VFS_PATH_MAX - 1) (default [] path) |>)).

Definition fd_uses_bootfs (k : kernel) (t fd : Z) : bool :=
  let f := fdesc k t fd in
  match f_vnode f with Some n => vfs_is_boot_file (k_vfs k) n | None => negb (is_nil (f_boot_path f)) end.

(** ** The tables *)

Definition table_id (k : kernel) (ti : Z) : Z := cell 0 (k_fd_table_id k) ti.
Definition table_refs (k : kernel) (t : Z) : Z := cell 0 (k_fd_table_refs k) t.
Definition set_table_id (ti id : Z) (k : kernel) : kernel := k <| k_fd_table_id := <[ti := id]> (k_fd_table_id k) |>.
Definition set_table_refs (t n : Z) (k : kernel) : kernel := k <| k_fd_table_refs := <[t := n]> (k_fd_table_refs k) |>.

Definition task_files_for_task (k : kernel) (ti : Z) : option Z :=
  if negb (task_ok ti) then None
  else
    let id := table_id k ti in
    if (id <? 0) || (MAX_FD_TABLES <=? id) then None else Some id.

Definition current_files (k : kernel) : Z := default 0 (task_files_for_task k (k_current k)).

(** files[fd] *)
Definition file (k : kernel) (fd : Z) : file_desc := fdesc k (current_files k) fd.
Definition upd_file (fd : Z) (f : file_desc -> file_desc) : ST kernel unit :=
  st_mod (fun k => upd_fdesc (current_files k) fd f k).

Definition find_free_fd (k : kernel) : Z :=
  default (-1) (find (fun i => negb (f_in_use (file k i))) (seqZ 0 MAX_FILES)).

Definition fd_is_pty (k : kernel) (fd : Z) : bool :=
  fd_ok fd && f_in_use (file k fd) && ((f_type (file k fd) =? FD_PTY_MASTER) || (f_type (file k fd) =? FD_PTY_SLAVE)).

Definition fd_is_console_stream (k : kernel) (fd : Z) : bool :=
  if negb (fd_ok fd) || negb (f_in_use (file k fd)) || negb (f_type (file k fd) =? FD_PSEUDO) then false
  else bool_decide (f_private (file k fd) = PDev DEV_CONSOLE) || bool_decide (f_private (file k fd) = PDev DEV_TTY).

(** The standard streams. *)
Definition open_stream (fd dev : Z) : ST kernel unit :=
  upd_file fd (fun f => f <| f_in_use := true |> <| f_type := FD_PSEUDO |> <| f_private := PDev dev |>).

(** A table of blank entries is the empty map.  monotonic_init, which comes
    first, sets the clock only. *)
Definition init_files : ST kernel unit :=
  st_mod (fun k => k <| k_vfs := exec vfs_init (k_vfs k) |>) ;;;
  st_mod (fun k => k <| k_fd_table_id := foldl (fun m ti => <[ti := -1]> m) (k_fd_table_id k) (seqZ 0 MAX_TASKS) |>) ;;;
  st_mod (fun k => k <| k_fd_table_refs := foldl (fun m t => <[t := 0]> m) (k_fd_table_refs k) (seqZ 0 MAX_FD_TABLES) |>) ;;;
  st_mod (fun k => k <| k_fd_tables := ∅ |>) ;;;
  st_mod (set_table_id 0 0) ;;;
  st_mod (set_table_refs 0 1) ;;;
  st_mod (fun k => k <| k_open_descs := ∅ |>) ;;;
  open_stream 0 DEV_TTY ;;;
  open_stream 1 DEV_CONSOLE ;;;
  open_stream 2 DEV_CONSOLE.

(** ** Endpoints *)

Definition epoll_state_for_file (f : file_desc) : option Z :=
  if f_type f =? FD_EPOLL then match f_private f with PEpoll i => Some i | _ => None end else None.

Definition epoll_retain_file (t fd : Z) : ST kernel unit :=
  let! k := st_get in
  match epoll_state_for_file (fdesc k t fd) with
  | Some i =>
      if ep_used (epoll k i) && (ep_refs (epoll k i) <? UINT32_MAX)
      then st_mod (set_epoll i ((epoll k i) <| ep_refs := ep_refs (epoll k i) + 1 |>))
      else st_ret tt
  | None => st_ret tt
  end.

Definition epoll_release_file (t fd : Z) : ST kernel unit :=
  let! k := st_get in
  match epoll_state_for_file (fdesc k t fd) with
  | None => st_ret tt
  | Some i =>
      let e := epoll k i in
      if negb (ep_used e) then st_ret tt
      else if 1 <? ep_refs e then st_mod (set_epoll i (e <| ep_refs := ep_refs e - 1 |>))
      else
        st_mod (set_epoll i (e <| ep_refs := 0 |> <| ep_used := false |>
          <| ep_w := foldl (fun w j => <[j := (cell blank_epoll_watch_k w j) <| ew_used := false |>]> w) (ep_w e)
                       (seqZ 0 YABRO_EPOLL_WATCH_MAX) |>))
  end.

Definition socket_state (f : file_desc) : option Z := match f_private f with PSock i _ => Some i | _ => None end.
Definition socket_side (f : file_desc) : Z := match f_private f with PSock _ s => s | _ => 0 end.

Definition socket_fd_drop_ref (t fd : Z) : ST kernel unit :=
  let! k := st_get in
  let f := fdesc k t fd in
  if negb (f_type f =? FD_SOCKET) then st_ret tt
  else
    match socket_state f with
    | None => st_ret tt
    | Some i =>
        let side := socket_side f in
        let s := sock k i in
        let s :=
          if (0 <=? side) && (side <? 2) && negb (arr (sk_side_refs s) side =? 0) then
            let s := s <| sk_side_refs := <[side := arr (sk_side_refs s) side - 1]> (sk_side_refs s) |> in
            if arr (sk_side_refs s) side =? 0 then s <| sk_closed := <[side := 1]> (sk_closed s) |> else s
          else s in
        let s := if negb (sk_refs s =? 0) then s <| sk_refs := sk_refs s - 1 |> else s in
        let s := if sk_refs s =? 0 then s <| sk_listener := false |> <| sk_pending_count := 0 |> else s in
        st_mod (set_sock i s)
    end.

(** ** Closing *)

Definition fd_mark_closed (t fd : Z) : ST kernel unit :=
  let! k := st_get in
  input_state_release (f_input_state (fdesc k t fd)) ;;;
  st_mod (set_fdesc t fd blank_file_desc).

Definition task_fd_release (t fd : Z) : ST kernel unit :=
  let! k := st_get in
  let f := fdesc k t fd in
  if negb (f_in_use f) then st_ret tt
  else
    (if f_type f =? FD_EPOLL then epoll_release_file t fd else st_ret tt) ;;;
    release_open_offset (f_shared_offset f) ;;;
    fd_mark_closed t fd.

Definition drop_master (p : pty_state) : pty_state :=
  let p := if negb (py_master_refs p =? 0) then p <| py_master_refs := py_master_refs p - 1 |> else p in
  if py_master_refs p =? 0 then p <| py_master_open := false |> else p.
Definition drop_slave (p : pty_state) : pty_state :=
  let p := if negb (py_slave_refs p =? 0) then p <| py_slave_refs := py_slave_refs p - 1 |> else p in
  if py_slave_refs p =? 0 then p <| py_slave_open := false |> else p.
Definition drop_reader (p : pipe_state) : pipe_state :=
  if negb (pi_readers p =? 0) then p <| pi_readers := pi_readers p - 1 |> else p.
Definition drop_writer (p : pipe_state) : pipe_state :=
  if negb (pi_writers p =? 0) then p <| pi_writers := pi_writers p - 1 |> else p.

(** The reference a descriptor holds on its pipe, terminal or socket. *)
Definition drop_endpoint (t fd : Z) : ST kernel unit :=
  let! k := st_get in
  let f := fdesc k t fd in
  if (f_type f =? FD_PIPE_R) || (f_type f =? FD_PIPE_W) then
    match f_private f with
    | PPipe i =>
        (if f_type f =? FD_PIPE_R then st_mod (upd_pipe i drop_reader) else st_ret tt) ;;;
        (if f_type f =? FD_PIPE_W then st_mod (upd_pipe i drop_writer) else st_ret tt)
    | _ => st_ret tt
    end
  else if (f_type f =? FD_PTY_MASTER) || (f_type f =? FD_PTY_SLAVE) then
    match f_private f with
    | PPty i => if f_type f =? FD_PTY_MASTER then st_mod (upd_pty i drop_master) else st_mod (upd_pty i drop_slave)
    | _ => st_ret tt
    end
  else if f_type f =? FD_SOCKET then socket_fd_drop_ref t fd
  else st_ret tt.

(** The loop over the descriptors of a table nobody uses any more. *)
Definition close_table (table : Z) : ST kernel unit := fun k =>
  (tt, foldl (fun k fd => if negb (f_in_use (fdesc k table fd)) then k
                          else snd ((drop_endpoint table fd ;;; task_fd_release table fd) k)) k (seqZ 0 MAX_FILES)).

Definition task_fd_table_release (ti : Z) : ST kernel unit :=
  if negb (task_ok ti) then st_ret tt
  else
    let! k := st_get in
    let table := table_id k ti in
    st_mod (set_table_id ti (-1)) ;;;
    if (table <? 0) || (MAX_FD_TABLES <=? table) then st_ret tt
    else if table_refs k table =? 0 then st_ret tt
    else
      st_mod (set_table_refs table (table_refs k table - 1)) ;;;
      let! k := st_get in
      if negb (table_refs k table =? 0) then
        if ti =? 0 then st_mod (set_table_id 0 0) ;;; st_mod (fun k => set_table_refs 0 (u16 (table_refs k 0 + 1)) k)
        else st_ret tt
      else
        close_table table ;;;
        if table =? 0 then st_mod (set_table_id 0 0) ;;; st_mod (set_table_refs 0 1) else st_ret tt.

(** ** Copying *)

Definition fd_retain_endpoint_ref (t fd : Z) : ST kernel unit :=
  let! k := st_get in
  let f := fdesc k t fd in
  if negb (f_in_use f) then st_ret tt
  else if f_type f =? FD_PIPE_R then
    match f_private f with PPipe i => st_mod (upd_pipe i (fun p => p <| pi_readers := u32 (pi_readers p + 1) |>)) | _ => st_ret tt end
  else if f_type f =? FD_PIPE_W then
    match f_private f with PPipe i => st_mod (upd_pipe i (fun p => p <| pi_writers := u32 (pi_writers p + 1) |>)) | _ => st_ret tt end
  else if (f_type f =? FD_PTY_MASTER) || (f_type f =? FD_PTY_SLAVE) then
    match f_private f with
    | PPty i =>
        if f_type f =? FD_PTY_MASTER
        then st_mod (upd_pty i (fun p => p <| py_master_refs := u32 (py_master_refs p + 1) |> <| py_master_open := true |>))
        else st_mod (upd_pty i (fun p => p <| py_slave_refs := u32 (py_slave_refs p + 1) |> <| py_slave_open := true |>))
    | _ => st_ret tt
    end
  else if f_type f =? FD_SOCKET then
    match socket_state f with
    | Some i =>
        let side := socket_side f in
        let s := sock k i in
        let s := s <| sk_refs := u32 (sk_refs s + 1) |> in
        st_mod (set_sock i (if (0 <=? side) && (side <? 2)
                            then s <| sk_side_refs := <[side := u32 (arr (sk_side_refs s) side + 1)]> (sk_side_refs s) |> else s))
    | None => st_ret tt
    end
  else st_ret tt.

(** One descriptor of the loop of task_fd_table_clone.  The endpoint counts
    go up as in fd_retain_endpoint_ref. *)
Definition clone_fd (source destination fd : Z) : ST kernel unit :=
  let! k := st_get in
  let src := fdesc k source fd in
  st_mod (set_fdesc destination fd src) ;;;
  if negb (f_in_use src) then st_ret tt
  else
    input_state_retain (f_input_state src) ;;;
    (if f_type src =? FD_EPOLL then epoll_retain_file destination fd else st_ret tt) ;;;
    retain_open_offset (f_shared_offset src) ;;;
    fd_retain_endpoint_ref destination fd.

Definition task_fd_table_clone (pi ci : Z) (share_files : bool) : ST kernel Z :=
  if negb (task_ok pi) || negb (task_ok ci) then st_ret (-1)
  else
    let! k := st_get in
    let source := table_id k pi in
    if (source <? 0) || (MAX_FD_TABLES <=? source) || (table_refs k source =? 0) then st_ret (-1)
    else if share_files then
      st_mod (set_table_id ci source) ;;;
      st_mod (fun k => set_table_refs source (u16 (table_refs k source + 1)) k) ;;;
      st_ret 0
    else
      match find (fun i => negb (i =? 0) && (table_refs k i =? 0)) (seqZ 0 MAX_FD_TABLES) with
      | None => st_ret (-1)
      | Some destination =>
          st_mod (set_table_id ci destination) ;;;
          st_mod (set_table_refs destination 1) ;;;
          (fun k => (tt, foldl (fun k fd => snd (clone_fd source destination fd k)) k (seqZ 0 MAX_FILES))) ;;;
          st_ret 0
      end.

Definition fd_copy_scalar (t dst src : Z) : ST kernel unit :=
  let! k := st_get in
  let f := fdesc k t src in
  st_mod (set_fdesc t dst f) ;;;
  retain_open_offset (f_shared_offset f) ;;;
  input_state_retain (f_input_state f) ;;;
  if f_in_use f && (f_type f =? FD_EPOLL) then epoll_retain_file t dst else st_ret tt.

Definition fd_drop_resources (t fd : Z) : ST kernel unit :=
  let! k := st_get in
  match f_shared_offset (fdesc k t fd) with
  | Some i => release_open_offset (Some i) ;;; st_mod (upd_fdesc t fd (fun f => f <| f_shared_offset := None |>))
  | None => st_ret tt
  end.

(** [minfd] is the third argument of fcntl, an int. *)
Definition sys_dup_internal (oldfd minfd : Z) (cloexec : bool) : ST kernel Z :=
  let! k := st_get in
  if negb (fd_ok oldfd) || negb (f_in_use (file k oldfd)) then st_ret (- EBADF)
  else
    match find (fun i => negb (f_in_use (file k i))) (seqZ minfd (MAX_FILES - minfd)) with
    | None => st_ret (- EMFILE)
    | Some n =>
        fd_copy_scalar (current_files k) n oldfd ;;;
        upd_file n (fun f => f <| f_flags := Z.ldiff (f_flags f) O_CLOEXEC |>) ;;;
        (if cloexec then upd_file n (fun f => f <| f_flags := Z.lor (f_flags f) O_CLOEXEC |>) else st_ret tt) ;;;
        fd_retain_endpoint_ref (current_files k) n ;;;
        st_ret n
    end.

Definition sys_dup (oldfd : Z) : ST kernel Z := sys_dup_internal oldfd 0 false.
