(* ===== verification/Sched.v ===== *)
(** * Tasks and the scheduler

    Signals queued on tasks, the choice of the next task, sleeping in a system
    call and waking up ([src/kernel/main.c]).  A pointer to a task is its
    index.  Timer and device interrupts taken while the kernel halts in
    [kernel_wait_tick] are a parameter. *)

From S2P Require Import Prelude Words Pmm Vmm CStr Vfs Kernel Tty Fd.
Local Open Scope Z_scope.
Local Open Scope st_scope.

Definition USER_HEAP_BASE : Z := 0x0000000000500000.
Definition USER_MMAP_MIN : Z := 0x0000000010000000.
Definition SIGINT : Z := 2.
Definition SIGQUIT : Z := 3.
Definition SIGCHLD : Z := 17.
Definition SIGTSTP : Z := 20.
Definition SIGWINCH : Z := 28.
Definition SIG_DFL : Z := 0.
Definition SIG_IGN : Z := 1.

(** The loop [for (i = 0; i < MAX_TASKS; i++)]. *)
Definition all_tasks : list Z := seqZ 0 MAX_TASKS.

Definition task_init_root : ST kernel unit :=
  let! k := st_get in
  if t_used (task k 0) then st_ret tt
  else
    st_mod (upd_task 0 (fun t =>
      t <| t_used := true |> <| t_state := TASK_RUNNING |> <| t_pid := 1 |> <| t_ppid := 0 |> <| t_tgid := 1 |>
        <| t_pgrp := 1 |> <| t_session := 1 |> <| t_controlling_tty := -1 |> <| t_cwd := v_root (k_vfs k) |>
        <| t_pipe_wait_fd := -1 |> <| t_pipe_wait_buf := 0 |> <| t_pipe_wait_count := 0 |>
        <| t_wait4_active := false |> <| t_wait4_pid := -1 |> <| t_wait4_status_ptr := 0 |> <| t_wait4_reap_pid := -1 |>
        <| t_io_wait_kind := 0 |> <| t_io_wait_valid := false |> <| t_io_wait_nr := 0 |> <| t_io_wait_deadline_ns := 0 |>
        <| t_io_resume_valid := false |> <| t_io_resume_nr := 0 |> <| t_io_resume_rip := 0 |>
        <| t_io_resume_start_ns := 0 |> <| t_io_resume_deadline_ns := 0 |>
        <| t_heap_base := USER_HEAP_BASE |> <| t_heap_end := USER_HEAP_BASE |> <| t_mmap_next := USER_MMAP_MIN |>
        <| t_fb_map_count := 0 |> <| t_nice := 0 |> <| t_switches := 0 |> <| t_cpu_ticks := 0 |>)).

(** ** Choosing a task *)

(** The task the loop of task_pick_next prefers so far, its nice value and
    its switches. *)
Definition pick_step (k : kernel) (best : Z * Z * Z) (n : Z) : Z * Z * Z :=
  let '(b, best_nice, best_switches) := best in
  let i := (k_current k + n) mod MAX_TASKS in
  let t := task k i in
  if negb (t_used t) || negb (t_state t =? TASK_RUNNABLE) then best
  else if (t_nice t <? best_nice) || ((t_nice t =? best_nice) && (t_switches t <? best_switches))
  then (i, t_nice t, t_switches t) else best.

Definition task_pick_next (k : kernel) : Z :=
  let '(b, _, _) := foldl (pick_step k) (-1, 1000000, UINT64_MAX) (seqZ 1 MAX_TASKS) in b.

Definition task_account_switch (next : Z) : ST kernel unit :=
  let! k := st_get in
  if negb (task_ok next) || negb (t_used (task k next)) then st_ret tt
  else st_mod (upd_task next (fun t => t <| t_switches := u64 (t_switches t + 1) |>)).

Definition task_set_nice (pid nice : Z) : ST kernel Z :=
  let nice := if nice <? -20 then -20 else nice in
  let nice := if 19 <? nice then 19 else nice in
  let! k := st_get in
  match find (fun i => t_used (task k i) && (t_pid (task k i) =? pid)) all_tasks with
  | Some i => st_mod (upd_task i (fun t => t <| t_nice := nice |>)) ;;; st_ret 0
  | None => st_ret (-3)
  end.

(** Making [next] the running task and returning to it. *)
Definition switch_to (next : Z) : ST kernel unit :=
  st_mod (upd_task next (fun t => t <| t_state := TASK_RUNNING |>)) ;;;
  st_mod (fun k => k <| k_current := next |>) ;;;
  task_account_switch next ;;;
  let! k := st_get in
  let! _ := on_vm (vmm_user_activate (t_ctx (task k next) CR3)) in
  st_mod (fun k => k <| k_task_switch_target := next |>).

Definition switch_from_syscall (next : Z) : ST kernel unit :=
  switch_to next ;;;
  st_mod (fun k => k <| k_task_switch_pending := true |> <| k_task_return_ctx := Some next |>).

(** ** What a sleeping task waits for *)

Definition task_pty_read_ready (k : kernel) (ti : Z) : bool :=
  let t := task k ti in
  if negb (t_used t) then false
  else
    let fd := s32 (t_ctx t RDI) in
    if negb (fd_ok fd) then true
    else
      match task_files_for_task k ti with
      | None => true
      | Some table =>
          let f := fdesc k table fd in
          if negb (f_in_use f) then true
          else if negb (f_type f =? FD_PTY_MASTER) && negb (f_type f =? FD_PTY_SLAVE) then true
          else
            match f_private f with
            | PPty i => if f_type f =? FD_PTY_MASTER then pty_master_read_ready (pty k i) else pty_slave_read_ready (pty k i)
            | _ => true
            end
      end.

Definition task_pty_drain_ready (k : kernel) (ti : Z) : bool :=
  let t := task k ti in
  if negb (t_used t) then false
  else
    let fd := s32 (t_ctx t RDI) in
    if negb (fd_ok fd) then true
    else
      match task_files_for_task k ti with
      | None => true
      | Some table =>
          let f := fdesc k table fd in
          if negb (f_in_use f) then true
          else if negb (f_type f =? FD_PTY_MASTER) && negb (f_type f =? FD_PTY_SLAVE) then true
          else
            match f_private f with
            | PPty i => (py_s2m_count (pty k i) =? 0) || negb (py_master_open (pty k i))
            | _ => true
            end
      end.

Definition task_socket_wait_ready (k : kernel) (ti : Z) : bool :=
  let t := task k ti in
  if negb (t_used t) then false
  else
    let fd := s32 (t_ctx t RDI) in
    if negb (fd_ok fd) then false
    else
      match task_files_for_task k ti with
      | None => false
      | Some table =>
          let f := fdesc k table fd in
          if negb (f_in_use f) || negb (f_type f =? FD_SOCKET) then false
          else
            match socket_state f with
            | None => false
            | Some i =>
                let s := sock k i in
                let side := socket_side f in
                if (side <? 0) || (1 <? side) then false
                else if t_io_wait_kind t =? IO_WAIT_SOCKET_READ then
                  negb (arr (sk_count s) side =? 0) || negb (arr (sk_closed s) (Z.lxor side 1) =? 0)
                else if t_io_wait_kind t =? IO_WAIT_SOCKET_WRITE then
                  negb (arr (sk_closed s) (Z.lxor side 1) =? 0) || (arr (sk_count s) (Z.lxor side 1) <? SOCK_CAP)
                else if t_io_wait_kind t =? IO_WAIT_SOCKET_ACCEPT then sk_listener s && negb (sk_pending_count s =? 0)
                else true
            end
      end.

(** The guards of the loop of task_wake_io_waiters. *)
Definition io_waits (t : task_t) : bool :=
  t_used t && (t_state t =? TASK_BLOCKED) && negb (t_io_wait_kind t =? IO_WAIT_NONE).

Definition io_wake_ready (k : kernel) (i : Z) : bool :=
  let t := task k i in
  let kind := t_io_wait_kind t in
  negb (kind =? IO_WAIT_NANOSLEEP) &&
  negb (((kind =? IO_WAIT_SOCKET_READ) || (kind =? IO_WAIT_SOCKET_WRITE) || (kind =? IO_WAIT_SOCKET_ACCEPT)) &&
        negb (task_socket_wait_ready k i)) &&
  negb ((kind =? IO_WAIT_PTY_READ) && negb (task_pty_read_ready k i)) &&
  negb ((kind =? IO_WAIT_PTY_DRAIN) && negb (task_pty_drain_ready k i)) &&
  negb ((kind =? IO_WAIT_TTY) &&
        ((in_key_head (k_input k) =? in_key_tail (k_input k)) ||
         ((0 <? k_console_fg_pgrp k) && negb (t_pgrp t =? k_console_fg_pgrp k)))).

Definition clear_io_wait (t : task_t) : task_t :=
  t <| t_io_wait_kind := IO_WAIT_NONE |> <| t_io_wait_valid := false |> <| t_io_wait_nr := 0 |> <| t_io_wait_deadline_ns := 0 |>.

(** A woken task retries its system call: RAX holds the number again. *)
Definition wake_task (t : task_t) : task_t :=
  if negb (t_io_wait_valid t) then clear_io_wait (t <| t_state := TASK_RUNNABLE |>)
  else (clear_io_wait (t <| t_ctx := set_reg (t_ctx t) RAX (t_io_wait_nr t) |>)) <| t_state := TASK_RUNNABLE |>.

(** One round of the loop; the first component is woke_socket_read. *)
Definition wake_step (st : Z * kernel) (i : Z) : Z * kernel :=
  let '(woke, k) := st in
  let t := task k i in
  if negb (io_waits t) || negb (io_wake_ready k i) then (woke, k)
  else
    (if t_io_wait_valid t && (t_io_wait_kind t =? IO_WAIT_SOCKET_READ) && (woke <? 0) then i else woke,
     set_task i (wake_task t) k).

Definition task_wake_io_waiters : ST kernel Z := fun k => foldl wake_step (-1, k) all_tasks.

Definition wake_timed_step (now : Z) (k : kernel) (i : Z) : kernel :=
  let t := task k i in
  if negb (t_used t) || negb (t_state t =? TASK_BLOCKED) then k
  else if negb (t_futex_addr t =? 0) && negb (t_futex_deadline_ns t =? 0) && (t_futex_deadline_ns t <=? now) then
    set_task i (t <| t_futex_addr := 0 |> <| t_futex_cr3 := 0 |> <| t_futex_deadline_ns := 0 |>
                  <| t_ctx := set_reg (t_ctx t) RAX (neg_errno ETIMEDOUT) |> <| t_state := TASK_RUNNABLE |>) k
  else if t_io_wait_kind t =? IO_WAIT_NONE then k
  else if (t_io_wait_deadline_ns t =? 0) || (now <? t_io_wait_deadline_ns t) then k
  else set_task i ((clear_io_wait (t <| t_ctx := set_reg (t_ctx t) RAX (t_io_wait_nr t) |>)) <| t_state := TASK_RUNNABLE |>) k.

Definition task_wake_timed_io_waiters : ST kernel unit :=
  st_mod (fun k => foldl (wake_timed_step (k_now k)) k all_tasks).

(** ** Signals *)

Definition sig_valid (s : Z) : bool := (0 <? s) && (s <=? 64).
Definition sig_bit (s : Z) : Z := Z.shiftl 1 (Z.land (s - 1) 63).
Definition sig_word (s : Z) : Z := Z.shiftr (s - 1) 6.

Definition sig_pending_set (s : Z) (t : task_t) : Z * task_t :=
  if negb (sig_valid s) then (- EINVAL, t)
  else (0, t <| t_sig_pending := <[sig_word s := Z.lor (arr (t_sig_pending t) (sig_word s)) (sig_bit s)]> (t_sig_pending t) |>).
Definition sig_is_pending (t : task_t) (s : Z) : bool := has (arr (t_sig_pending t) (sig_word s)) (sig_bit s).
Definition sig_is_blocked (t : task_t) (s : Z) : bool := has (arr (t_sig_blocked t) (sig_word s)) (sig_bit s).
Definition sig_clear_pending (s : Z) (t : task_t) : task_t :=
  t <| t_sig_pending := <[sig_word s := Z.land (arr (t_sig_pending t) (sig_word s)) (not64 (sig_bit s))]> (t_sig_pending t) |>.
Definition sig_next_deliverable (t : task_t) : Z :=
  default 0 (find (fun s => sig_is_pending t s && negb (sig_is_blocked t s)) (seqZ 1 64)).

Definition sig_action (t : task_t) (s : Z) : sigaction_t := cell blank_sigaction_t (t_sig_actions t) s.

(** Signals whose default is to do nothing. *)
Definition ignored_by (t : task_t) (s : Z) : bool :=
  let handler := sa_handler (sig_action t s) in
  (handler =? SIG_IGN) || ((handler =? SIG_DFL) && ((s =? SIGCHLD) || (s =? SIGWINCH))).

Definition EINTR : Z := 4.

Definition tty_queue_signal (sig : Z) (t : task_t) : task_t :=
  if (sig <=? 0) || (64 <? sig) then t
  else if ignored_by t sig then sig_clear_pending sig t
  else
    let t := snd (sig_pending_set sig t) in
    if sig_is_blocked t sig then t
    else if (t_state t =? TASK_BLOCKED) && negb (t_io_wait_kind t =? IO_WAIT_NONE) && t_io_wait_valid t then
      let c := t_ctx t in
      let c := if c RIP <=? UINT64_MAX - 2 then set_reg c RIP (c RIP + 2) else c in
      (clear_io_wait (t <| t_ctx := set_reg c RAX (neg_errno EINTR) |>))
        <| t_io_resume_valid := false |> <| t_io_resume_nr := 0 |> <| t_state := TASK_RUNNABLE |>
    else if (t_state t =? TASK_BLOCKED) && t_wait4_active t then
      t <| t_wait4_active := false |> <| t_wait4_pid := -1 |> <| t_wait4_status_ptr := 0 |>
        <| t_ctx := set_reg (t_ctx t) RAX (neg_errno EINTR) |> <| t_state := TASK_RUNNABLE |>
    else if (t_state t =? TASK_BLOCKED) && (0 <=? t_pipe_wait_fd t) then
      t <| t_pipe_wait_fd := -1 |> <| t_pipe_wait_buf := 0 |> <| t_pipe_wait_count := 0 |>
        <| t_ctx := set_reg (t_ctx t) RAX (neg_errno EINTR) |> <| t_state := TASK_RUNNABLE |>
    else if (t_state t =? TASK_BLOCKED) && negb (t_futex_addr t =? 0) then
      t <| t_futex_addr := 0 |> <| t_futex_cr3 := 0 |> <| t_futex_deadline_ns := 0 |>
        <| t_ctx := set_reg (t_ctx t) RAX (neg_errno EINTR) |> <| t_state := TASK_RUNNABLE |>
    else t.

(** Signalling the tasks [who] selects; 0 when there is one, -ESRCH otherwise. *)
Definition signal_tasks (who : task_t -> bool) (sig : Z) : ST kernel Z := fun k =>
  let '(sent, k) := foldl (fun st i => let '(sent, k) := st in
                             if who (task k i) then (sent + 1, upd_task i (tty_queue_signal sig) k) else (sent, k)) (0, k) all_tasks in
  (if sent =? 0 then - ESRCH else 0, k).

Definition tty_pgrp_signal (p : pty_state) (sig : Z) : ST kernel Z :=
  let pg := py_fg_pgrp p in
  if pg =? 0 then st_ret (- ESRCH)
  else signal_tasks (fun t => t_used t && (t_pgrp t =? pg) && negb ((0 <? py_session p) && negb (t_session t =? py_session p))) sig.

Definition console_tty_pgrp_signal (sig : Z) : ST kernel Z :=
  let! k := st_get in
  let cur := task k (k_current k) in
  let pg := if k_console_fg_pgrp k <=? 0 then t_pgrp cur else k_console_fg_pgrp k in
  if pg <=? 0 then st_ret (- ESRCH)
  else signal_tasks (fun t => t_used t && (t_pgrp t =? pg) && (t_session t =? t_session cur)) sig.

(** ** Sleeping in a system call *)

(** The registers of the frame; the segment bases come from the MSRs. *)
Definition saved_regs (k : kernel) (f : regs) : regs := fun r =>
  match r with FS_BASE => k_msr_fs k | GS_BASE => k_msr_gs k | r => f r end.

Definition task_save_from_frame (ti : Z) (f : regs) : ST kernel unit :=
  st_mod (fun k => upd_task ti (fun t => t <| t_ctx := saved_regs k f |>) k).

Definition task_commit_deferred_switch (ni : Z) : ST kernel unit :=
  let! k := st_get in
  if negb (task_ok (k_current k)) then st_ret tt
  else if negb (task_ok ni) || negb (t_used (task k ni)) || (ni =? k_current k) then st_ret tt
  else
    (if t_state (task k (k_current k)) =? TASK_RUNNING
     then st_mod (upd_task (k_current k) (fun t => t <| t_state := TASK_RUNNABLE |>)) else st_ret tt) ;;;
    st_mod (upd_task ni (fun t => t <| t_state := TASK_RUNNING |>)) ;;;
    st_mod (fun k => k <| k_current := ni |>) ;;;
    task_account_switch ni.

Section Irq.
(** kernel_wait_tick: the interrupts taken during one [sti; hlt; cli]. *)
Variable kernel_wait_tick : kernel -> kernel.

(** The loop of task_block_io_until when no other task can run; [None] when
    the task is still blocked after [fuel] interrupts. *)
Fixpoint idle_loop (fuel : nat) (ti : Z) (k : kernel) : option kernel :=
  if negb (t_state (task k ti) =? TASK_BLOCKED) then
    let alt := task_pick_next k in
    if 0 <=? alt then Some (snd (switch_from_syscall alt k))
    else
      Some ((upd_task ti (fun t => t <| t_state := TASK_RUNNING |>) k)
              <| k_current := ti |> <| k_task_switch_target := ti |> <| k_task_switch_pending := true |>
              <| k_task_return_ctx := Some ti |>)
  else
    match fuel with
    | O => None
    | S fuel => idle_loop fuel ti (kernel_wait_tick k)
    end.

(** The state in which the task sleeps: its registers are saved so that it
    repeats the system call (the instruction has two bytes). *)
Definition sleep_task (f : regs) (kind nr deadline_ns : Z) : ST kernel unit :=
  let! k := st_get in
  let ti := k_current k in
  task_save_from_frame ti f ;;;
  st_mod (upd_task ti (fun t =>
    let c := set_reg (t_ctx t) RAX nr in
    t <| t_io_wait_kind := kind |> <| t_io_wait_valid := true |> <| t_io_wait_nr := nr |>
      <| t_io_wait_deadline_ns := deadline_ns |>
      <| t_ctx := if 2 <=? c RIP then set_reg c RIP (c RIP - 2) else c |> <| t_state := TASK_BLOCKED |>)).

Definition task_block_io_until (fuel : nat) (f : regs) (kind nr deadline_ns : Z) (k : kernel) : option (Z * kernel) :=
  if negb (task_ok (k_current k)) then Some (- EINVAL, k)
  else
    let ti := k_current k in
    let k := snd (sleep_task f kind nr deadline_ns k) in
    let next := task_pick_next k in
    if next <? 0 then option_map (fun k => (0, k)) (idle_loop fuel ti k)
    else Some (0, snd (switch_from_syscall next k)).

Definition task_block_io (fuel : nat) (f : regs) (kind nr : Z) (k : kernel) : option (Z * kernel) :=
  task_block_io_until fuel f kind nr 0 k.
End Irq.

Definition task_io_resume_matches (k : kernel) (f : regs) (nr : Z) : bool :=
  let t := task k (k_current k) in
  task_ok (k_current k) && t_io_resume_valid t && (t_io_resume_nr t =? nr) && (t_io_resume_rip t =? f RIP).

Definition task_io_resume_store (f : regs) (nr start_ns deadline_ns : Z) : ST kernel unit :=
  let! k := st_get in
  if negb (task_ok (k_current k)) then st_ret tt
  else st_mod (upd_task (k_current k) (fun t =>
         t <| t_io_resume_valid := true |> <| t_io_resume_nr := nr |> <| t_io_resume_rip := f RIP |>
           <| t_io_resume_start_ns := start_ns |> <| t_io_resume_deadline_ns := deadline_ns |>)).

Definition task_io_resume_clear (f : regs) (nr : Z) : ST kernel unit :=
  let! k := st_get in
  if negb (task_io_resume_matches k f nr) then st_ret tt
  else st_mod (upd_task (k_current k) (fun t =>
         t <| t_io_resume_valid := false |> <| t_io_resume_nr := 0 |> <| t_io_resume_rip := 0 |>
           <| t_io_resume_start_ns := 0 |> <| t_io_resume_deadline_ns := 0 |>)).

Definition monotonic_deadline_after_ms (start_ns timeout_ms : Z) : Z :=
  if timeout_ms <? 0 then 0
  else
    let span := u64 (timeout_ms * 1000000) in
    if UINT64_MAX - start_ns <? span then UINT64_MAX else start_ns + span.

Definition kernel_uptime_ns (k : kernel) : Z :=
  if UINT64_MAX / 10000000 <? k_timer_ticks k then UINT64_MAX else k_timer_ticks k * 10000000.
