(* ===== verification/SchedFacts.v ===== *)
(** * The scheduler: what choosing and waking do *)

From S2P Require Import Prelude Words Pmm CStr Vfs Kernel Tty Fd Sched.
Local Open Scope Z_scope.

(** ** Frames *)

(** Only tasks changed. *)
Definition only_tasks (k k' : kernel) : Prop := exists ts, k' = k <| k_tasks := ts |>.

Lemma only_tasks_refl k : only_tasks k k.
Proof. exists (k_tasks k). by destruct k. Qed.
Lemma only_tasks_trans k1 k2 k3 : only_tasks k1 k2 -> only_tasks k2 k3 -> only_tasks k1 k3.
Proof. intros (a & ->) (b & ->). by exists b. Qed.
Lemma only_tasks_set k i t : only_tasks k (set_task i t k).
Proof. by eexists. Qed.
Lemma only_tasks_pty k k' i : only_tasks k k' -> pty k' i = pty k i.
Proof. by intros (ts & ->). Qed.

Lemma wake_step_frame st i : only_tasks (snd st) (snd (wake_step st i)).
Proof.
  destruct st as [w k]. unfold wake_step. cbn [snd]. destruct (_ || _); cbn [snd]; [apply only_tasks_refl | apply only_tasks_set].
Qed.

Lemma wake_frame k : only_tasks k (snd (task_wake_io_waiters k)).
Proof.
  unfold task_wake_io_waiters. apply (foldl_inv (fun st => only_tasks k (snd st))); [|apply only_tasks_refl].
  intros st i _ H. by eapply only_tasks_trans; [|apply wake_step_frame].
Qed.

Lemma signal_tasks_frame who sig k : only_tasks k (snd (signal_tasks who sig k)).
Proof.
  unfold signal_tasks. rewrite (surjective_pairing (foldl _ (0, k) all_tasks)). cbn [snd].
  apply (foldl_inv (fun st => only_tasks k (snd st))); [|apply only_tasks_refl].
  intros [n k1] i _ H. cbn [snd] in *. destruct (who (task k1 i)); cbn [snd]; [|done].
  eapply only_tasks_trans; [exact H | apply only_tasks_set].
Qed.

Lemma pgrp_signal_frame p sig k : only_tasks k (snd (tty_pgrp_signal p sig k)).
Proof. unfold tty_pgrp_signal. destruct (_ =? 0); [apply only_tasks_refl | apply signal_tasks_frame]. Qed.

(** ** Access after an update *)

Lemma task_set i t k j : task (set_task i t k) j = if i =? j then t else task k j.
Proof. apply cell_insert. Qed.
Lemma task_set_eq i t k : task (set_task i t k) i = t.
Proof. apply cell_insert_eq. Qed.
Lemma task_set_ne i t k j : i <> j -> task (set_task i t k) j = task k j.
Proof. apply cell_insert_ne. Qed.
Lemma task_upd i f k j : task (upd_task i f k) j = if i =? j then f (task k i) else task k j.
Proof. apply task_set. Qed.

(** ** Choosing *)

Definition runnable (k : kernel) (i : Z) : Prop := t_used (task k i) = true /\ t_state (task k i) = TASK_RUNNABLE.

(** The place of task [i] in the round that starts after the current task. *)
Definition turn (k : kernel) (i : Z) : Z := (i - k_current k - 1) mod MAX_TASKS.

(** [i] goes before [j]: a smaller nice value, then fewer switches, then an
    earlier turn. *)
Definition before (k : kernel) (i j : Z) : Prop :=
  t_nice (task k i) < t_nice (task k j) \/
  (t_nice (task k i) = t_nice (task k j) /\
   (t_switches (task k i) < t_switches (task k j) \/
    (t_switches (task k i) = t_switches (task k j) /\ turn k i < turn k j))).

(** The limits the search starts from are above every task. *)
Definition sched_bounds (k : kernel) : Prop :=
  0 <= k_current k < MAX_TASKS /\ forall i, runnable k i -> t_nice (task k i) < 1000000.

Lemma turn_offset k n : 1 <= n <= MAX_TASKS -> turn k ((k_current k + n) mod MAX_TASKS) = n - 1.
Proof.
  intros Hn. unfold turn. rewrite <- Z.sub_add_distr, Zminus_mod_idemp_l.
  replace (k_current k + n - (k_current k + 1)) with (n - 1) by lia. apply Z.mod_small. lia.
Qed.

Lemma offset_turn k i : 0 <= i < MAX_TASKS -> (k_current k + (turn k i + 1)) mod MAX_TASKS = i.
Proof.
  intros Hi. unfold turn. rewrite Z.add_comm, <- Z.add_assoc, Zplus_mod_idemp_l.
  replace (i - k_current k - 1 + (1 + k_current k)) with i by lia. by apply Z.mod_small.
Qed.

Lemma turn_range k i : 0 <= turn k i < MAX_TASKS.
Proof. apply Z.mod_pos_bound. done. Qed.

(** The loop after [m] rounds. *)
Definition picked (k : kernel) (m : Z) (st : Z * Z * Z) : Prop :=
  let '(b, bn, bs) := st in
  (b = -1 /\ bn = 1000000 /\ bs = UINT64_MAX /\ forall j, 0 <= j < MAX_TASKS -> turn k j < m -> ~ runnable k j) \/
  (0 <= b < MAX_TASKS /\ runnable k b /\ turn k b < m /\ bn = t_nice (task k b) /\ bs = t_switches (task k b) /\
   forall j, 0 <= j < MAX_TASKS -> turn k j < m -> runnable k j -> j <> b -> before k b j).

Lemma turn_inj k i j : 0 <= i < MAX_TASKS -> 0 <= j < MAX_TASKS -> turn k i = turn k j -> i = j.
Proof. intros Hi Hj E. by rewrite <- (offset_turn k i Hi), <- (offset_turn k j Hj), E. Qed.

Lemma picked_step k m st : sched_bounds k -> 0 <= m < MAX_TASKS -> picked k m st -> picked k (m + 1) (pick_step k st (m + 1)).
Proof.
  intros [Hc Hb] Hm. destruct st as [[b bn] bs]. unfold pick_step. set (i := (k_current k + (m + 1)) mod MAX_TASKS).
  assert (Hi : 0 <= i < MAX_TASKS) by (apply Z.mod_pos_bound; done).
  assert (Ht : turn k i = m) by (unfold i; rewrite turn_offset by lia; lia).
  assert (Hj : forall j, 0 <= j < MAX_TASKS -> turn k j < m + 1 -> j = i \/ turn k j < m).
  { intros j Hj Hlt. destruct (Z.eq_dec (turn k j) m) as [E|]; [left; apply (turn_inj k); [done | done | congruence] | right; lia]. }
  assert (Hr : negb (t_used (task k i)) || negb (t_state (task k i) =? TASK_RUNNABLE) = true <-> ~ runnable k i).
  { unfold runnable. destruct (t_used (task k i)), (Z.eqb_spec (t_state (task k i)) TASK_RUNNABLE); cbn [negb orb]; naive_solver. }
  destruct (negb (t_used (task k i)) || _) eqn:Eu.
  - pose proof (proj1 Hr eq_refl) as Hn. intros [(-> & -> & -> & H)|(H1 & H2 & H3 & H4 & H5 & H)].
    + left. split_and!; try done. intros j Hj' Hlt. destruct (Hj j Hj' Hlt) as [->|?]; [done | by apply H].
    + right. split; [done|]. split; [done|]. split; [lia|]. split; [done|]. split; [done|]. intros j Hj' Hlt Hrj Hne. destruct (Hj j Hj' Hlt) as [->|?]; [done | by apply H].
  - assert (Hri : runnable k i) by (unfold runnable; destruct (t_used (task k i)), (Z.eqb_spec (t_state (task k i)) TASK_RUNNABLE); done).
    clear Hr Eu. intros [(-> & -> & -> & H)|(H1 & H2 & H3 & H4 & H5 & H)].
    + rewrite (proj2 (Z.ltb_lt _ _)) by (by apply Hb). cbn [orb]. right. split; [done|]. split; [done|]. split; [lia|]. split; [done|]. split; [done|].
      intros j Hj' Hlt Hrj Hne. destruct (Hj j Hj' Hlt) as [->|?]; [done | by apply H in Hrj].
    + subst bn bs. destruct (_ || _) eqn:Eb; right.
      * assert (Hbi : before k i b).
        { unfold before. apply orb_prop in Eb as [E%Z.ltb_lt|[E1%Z.eqb_eq E2%Z.ltb_lt]%andb_prop]; [by left | right; split; [done | by left]]. }
        split; [done|]. split; [done|]. split; [lia|]. split; [done|]. split; [done|]. intros j Hj' Hlt Hrj Hne. destruct (Hj j Hj' Hlt) as [->|Hlt']; [done|].
        destruct (Z.eq_dec j b) as [->|Hnb]; [done|]. specialize (H j Hj' Hlt' Hrj Hnb). unfold before in *. lia.
      * assert (Hbi : before k b i).
        { unfold before. apply orb_false_elim in Eb as [E1%Z.ltb_ge E2].
          destruct (Z.eq_dec (t_nice (task k i)) (t_nice (task k b))) as [En|]; [|left; lia]. right. split; [done|].
          rewrite (proj2 (Z.eqb_eq _ _) En) in E2. cbn [andb] in E2. apply Z.ltb_ge in E2. lia. }
        split; [done|]. split; [done|]. split; [lia|]. split; [done|]. split; [done|]. intros j Hj' Hlt Hrj Hne. destruct (Hj j Hj' Hlt) as [->|Hlt']; [done | by apply H].
Qed.

Lemma pick_all k : sched_bounds k -> forall m, 0 <= m -> m <= MAX_TASKS ->
  picked k m (foldl (pick_step k) (-1, 1000000, UINT64_MAX) (seqZ 1 m)).
Proof.
  intros Hb. refine (natlike_ind _ _ _).
  - intros _. left. split_and!; try done. intros j _ Hlt. pose proof (turn_range k j). lia.
  - intros m Hm IH Hle. unfold Z.succ. rewrite seqZ_app by lia. change (seqZ (1 + m) 1) with [1 + m]. rewrite foldl_app. cbn [foldl].
    rewrite (Z.add_comm 1 m). apply picked_step; [done | lia | apply IH; lia].
Qed.

(** ** Waking *)

(** Whether a task is woken looks at that task and at nothing that waking
    changes. *)
Lemma ready_frame k k' i : only_tasks k k' -> task k' i = task k i -> io_wake_ready k' i = io_wake_ready k i.
Proof.
  intros (ts & ->) E. unfold io_wake_ready, task_socket_wait_ready, task_pty_read_ready, task_pty_drain_ready. by rewrite E.
Qed.

Definition woken (k : kernel) (i : Z) : bool := io_waits (task k i) && io_wake_ready k i.

Lemma wake_step_spec st i : let '(w, k) := st in let '(w', k') := wake_step st i in
  (forall j, task k' j = if (i =? j) && woken k i then wake_task (task k i) else task k j) /\
  w' = if woken k i && t_io_wait_valid (task k i) && (t_io_wait_kind (task k i) =? IO_WAIT_SOCKET_READ) && (w <? 0) then i else w.
Proof.
  destruct st as [w k]. unfold wake_step, woken. cbn zeta. destruct (io_waits (task k i)), (io_wake_ready k i); cbn [negb orb andb];
    try (split; [intros j; by rewrite andb_false_r | done]).
  split; [|done]. intros j. rewrite task_set. by rewrite andb_true_r.
Qed.

Lemma wake_loop w k l : NoDup l -> let '(w', k') := foldl wake_step (w, k) l in
  only_tasks k k' /\ forall j, task k' j = if bool_decide (j ∈ l) && woken k j then wake_task (task k j) else task k j.
Proof.
  induction l as [|i l IH] using rev_ind; intros Hnd.
  { cbn. split; [apply only_tasks_refl|]. intros j. by rewrite bool_decide_false by set_solver. }
  apply NoDup_app in Hnd as (Hl & Hi & _). rewrite foldl_app. cbn [foldl]. specialize (IH Hl).
  destruct (foldl wake_step (w, k) l) as [w1 k1]. destruct IH as [F1 T1].
  pose proof (wake_step_spec (w1, k1) i) as Hs. pose proof (wake_step_frame (w1, k1) i) as F2.
  destruct (wake_step (w1, k1) i) as [w2 k2]. destruct Hs as [T2 _]. cbn [snd] in F2.
  split; [by eapply only_tasks_trans|]. intros j. rewrite T2, !T1.
  assert (Hni : i ∉ l) by (intros Hin; apply (Hi i Hin); by left).
  assert (Ei : task k1 i = task k i) by (rewrite T1, bool_decide_false by done; done).
  assert (Ew : woken k1 i = woken k i) by (unfold woken; by rewrite Ei, (ready_frame k k1)).
  rewrite Ew. rewrite (bool_decide_false (i ∈ l)) by done. cbn [andb].
  destruct (Z.eqb_spec i j) as [<-|Hne]; cbn [andb].
  - rewrite (bool_decide_true (i ∈ l ++ [i])) by set_solver. rewrite (bool_decide_false (i ∈ l)) by done. done.
  - by rewrite (bool_decide_ext (j ∈ l ++ [i]) (j ∈ l)) by set_solver.
Qed.

(** ** Switching *)

(** How many switches the tasks no more important than [j] may still get
    before [j]: each is chosen only while it has no more switches than [j]. *)
Definition debt (k : kernel) (j i : Z) : Z := Z.max 0 (t_switches (task k j) + 1 - t_switches (task k i)).
Definition backlog (k : kernel) (j : Z) : Z := sumZ (debt k j) (List.filter (fun i => negb (i =? j)) all_tasks).

Lemma backlog_nonneg k j : 0 <= backlog k j.
Proof. apply sumZ_nonneg. intros i _. unfold debt. lia. Qed.

Lemma account_switch_eq i k : task_ok i = true -> t_used (task k i) = true ->
  task_account_switch i k = (tt, upd_task i (fun t => t <| t_switches := u64 (t_switches t + 1) |>) k).
Proof. intros H1 H2. unfold task_account_switch, st_bind, st_get. by rewrite H1, H2. Qed.

Lemma switch_to_tasks i k j : 0 <= i < MAX_TASKS -> runnable k i ->
  let k' := snd (switch_to i k) in
  t_switches (task k' j) = (if i =? j then u64 (t_switches (task k j) + 1) else t_switches (task k j)) /\
  t_nice (task k' j) = t_nice (task k j) /\
  t_state (task k' j) = (if i =? j then TASK_RUNNING else t_state (task k j)) /\ k_current k' = i.
Proof.
  intros Hi [Hu Hst]. cbn zeta. unfold switch_to, st_bind, st_mod, st_get, on_vm.
  set (k1 := upd_task i (fun t => t <| t_state := TASK_RUNNING |>) k).
  assert (E1 : task k1 i = (task k i) <| t_state := TASK_RUNNING |>) by apply task_set_eq.
  rewrite (account_switch_eq i (k1 <| k_current := i |>)); [|unfold task_ok; lia |].
  2: { change (t_used (task k1 i) = true). by rewrite E1. }
  set (k2 := upd_task i (fun t => t <| t_switches := u64 (t_switches t + 1) |>) (k1 <| k_current := i |>)).
  destruct (Vmm.vmm_user_activate _ (k_vm k2)) as [r m]. cbn [snd].
  change (task ((k2 <| k_vm := m |>) <| k_task_switch_target := i |>) j) with (task k2 j).
  assert (E2 : task k2 j = if i =? j then (task k1 i) <| t_switches := u64 (t_switches (task k1 i) + 1) |> else task k1 j)
    by (unfold k2; by rewrite task_upd).
  rewrite E2, E1. destruct (Z.eqb_spec i j) as [->|Hne]; [done|]. unfold k1. rewrite task_upd, (proj2 (Z.eqb_neq i j)) by done. done.
Qed.
