(* ===== verification/SchedThms.v ===== *)
(** * Properties of the scheduler *)

From S2P Require Import Prelude Words Pmm CStr Vfs Kernel Tty Fd Sched SchedFacts.
Local Open Scope Z_scope.

(** task_pick_next gives -1 exactly when no task is runnable, and
    otherwise the runnable task with the smallest nice value, among those one
    with the fewest switches, among those the first in the round that starts
    after the current task. *)
Theorem task_pick_next_best k : sched_bounds k ->
  let b := task_pick_next k in
  (b = -1 /\ forall j, 0 <= j < MAX_TASKS -> ~ runnable k j) \/
  (0 <= b < MAX_TASKS /\ runnable k b /\ forall j, 0 <= j < MAX_TASKS -> runnable k j -> j <> b -> before k b j).
Proof.
  intros Hb. cbn zeta. unfold task_pick_next. pose proof (pick_all k Hb MAX_TASKS ltac:(done) ltac:(done)) as H.
  destruct (foldl _ _ _) as [[b bn] bs]. destruct H as [(-> & _ & _ & H)|(H1 & H2 & _ & _ & _ & H)].
  - left. split; [done|]. intros j Hj. apply H; [done | apply turn_range].
  - right. split; [done|]. split; [done|]. intros j Hj Hr Hne. apply H; (done || apply turn_range).
Qed.

(** task_wake_io_waiters wakes exactly the tasks that sleep for input or
    output and are ready, each of which then repeats its system call, and
    changes nothing else of the kernel. *)
Theorem task_wake_io_waiters_exact k : let k' := snd (task_wake_io_waiters k) in
  only_tasks k k' /\
  forall i, task k' i = if task_ok i && woken k i then wake_task (task k i) else task k i.
Proof.
  unfold task_wake_io_waiters. pose proof (wake_loop (-1) k all_tasks (NoDup_seqZ _ _)) as H.
  destruct (foldl wake_step (-1, k) all_tasks) as [w k']. destruct H as [H1 H2]. split; [done|]. intros i. rewrite H2. f_equal. f_equal.
  unfold task_ok. destruct (Z.leb_spec 0 i), (Z.ltb_spec i MAX_TASKS); cbn [andb]; unfold all_tasks;
    [rewrite bool_decide_true | rewrite bool_decide_false..]; rewrite ?elem_of_seqZ; (done || lia).
Qed.

(** A runnable task that is not chosen comes after the one that is. *)
Lemma pick_before k j : sched_bounds k -> 0 <= j < MAX_TASKS -> runnable k j -> task_pick_next k <> j ->
  let i := task_pick_next k in 0 <= i < MAX_TASKS /\ runnable k i /\ before k i j.
Proof.
  intros Hb Hj Hr. cbn zeta. unfold task_pick_next. pose proof (pick_all k Hb MAX_TASKS ltac:(done) ltac:(done)) as H.
  destruct (foldl _ _ _) as [[b bn] bs]. intros Hne. destruct H as [(-> & _ & _ & H)|(H1 & H2 & _ & _ & _ & H)].
  - exfalso. exact (H j Hj (proj2 (turn_range k j)) Hr).
  - split; [done|]. split; [done|]. apply H; [done | apply turn_range | done | congruence].
Qed.

(** [n] rounds of the scheduler during which task [j] stays runnable and is
    not chosen: each picks a task and switches to it; what then happens until
    the next round is arbitrary, except that task [j] keeps its nice value and
    switch count, that no task more important than [j] is runnable, and that
    switch counts do not go down (which only the creation of a task does). *)
Inductive passed_over (j : Z) : nat -> kernel -> Prop :=
  | po_none k : passed_over j 0 k
  | po_round n k k' : sched_bounds k -> runnable k j ->
      (forall i, 0 <= i < MAX_TASKS -> runnable k i -> t_nice (task k j) <= t_nice (task k i)) ->
      task_pick_next k <> j ->
      (forall i, t_switches (task (snd (switch_to (task_pick_next k) k)) i) <= t_switches (task k' i)) ->
      t_switches (task k' j) = t_switches (task k j) ->
      passed_over j n k' -> passed_over j (S n) k.

(** C11.  No starvation among equals: a runnable task no other runnable task
    is more important than is passed over at most [backlog] times, the sum
    over the other tasks of the switches they are behind it, plus one each. *)
Theorem task_pick_next_fair j n k : 0 <= j < MAX_TASKS -> t_switches (task k j) < UINT64_MAX ->
  (forall i, 0 <= t_switches (task k i)) -> passed_over j n k -> Z.of_nat n <= backlog k j.
Proof.
  intros Hj Hmax Hpos Hp. revert Hmax Hpos. induction Hp as [k|n k k' Hb Hr Hlow Hne Hmono Hkeep Hp IH]; intros Hmax Hpos.
  { apply backlog_nonneg. }
  pose proof (pick_before k j Hb Hj Hr Hne) as Hi. generalize dependent (task_pick_next k). intros i Hne Hmono (Hi & Hri & Hbef). specialize (Hlow i Hi Hri).
  assert (Hsw : t_switches (task k i) <= t_switches (task k j)) by (unfold before in Hbef; lia).
  assert (Hinc : t_switches (task k i) + 1 <= t_switches (task k' i)).
  { specialize (Hmono i). destruct (switch_to_tasks i k i Hi Hri) as (E & _). rewrite E, Z.eqb_refl in Hmono.
    rewrite u64_small in Hmono; [done|]. specialize (Hpos i). unfold UINT64_MAX in *. lia. }
  assert (Hge : forall x, t_switches (task k x) <= t_switches (task k' x)).
  { intros x. destruct (Z.eq_dec x i) as [->|Hx]; [lia|]. specialize (Hmono x).
    destruct (switch_to_tasks i k x Hi Hri) as (E & _). rewrite E, (proj2 (Z.eqb_neq i x)) in Hmono by congruence. done. }
  assert (Hlt : backlog k' j < backlog k j).
  { apply sumZ_lt with i.
    - apply list_elem_of_In, List.filter_In. split; [|by rewrite (proj2 (Z.eqb_neq i j))].
      apply list_elem_of_In. unfold all_tasks. apply elem_of_seqZ. lia.
    - intros x _. unfold debt. rewrite Hkeep. specialize (Hge x). lia.
    - unfold debt. rewrite Hkeep. lia. }
  specialize (IH ltac:(rewrite Hkeep; done) ltac:(intros x; specialize (Hge x); specialize (Hpos x); lia)). lia.
Qed.

(** ** Three tasks *)

Definition task_ready (nice switches : Z) : task_t :=
  blank_task_t <| t_used := true |> <| t_state := TASK_RUNNABLE |> <| t_nice := nice |> <| t_switches := switches |>.

(** The current task sleeps on an empty terminal; three others can run. *)
Definition three_tasks : kernel :=
  set_task 1 (task_ready 0 5) (set_task 2 (task_ready 0 4) (set_task 3 (task_ready 5 0) blank_kernel)).

Lemma three_runnable i : runnable three_tasks i -> i = 1 \/ i = 2 \/ i = 3.
Proof.
  unfold runnable, three_tasks. rewrite !task_set. destruct (Z.eqb_spec 1 i), (Z.eqb_spec 2 i), (Z.eqb_spec 3 i); try lia.
  unfold task. intros [H _]. cbn in H. discriminate H.
Qed.

Lemma three_can i : 1 <= i <= 3 -> runnable three_tasks i.
Proof.
  intros Hi. unfold runnable, three_tasks. rewrite !task_set. destruct (Z.eqb_spec 1 i), (Z.eqb_spec 2 i), (Z.eqb_spec 3 i); try lia; split; reflexivity.
Qed.

Lemma three_bounds : sched_bounds three_tasks.
Proof.
  split; [vm_compute; split; congruence|]. intros i Hi. by destruct (three_runnable i Hi) as [-> |[-> | ->]].
Qed.

Lemma task_pick_next_best_witness : runnable three_tasks 2 /\ before three_tasks 2 1 /\ before three_tasks 2 3.
Proof.
  pose proof (task_pick_next_best three_tasks three_bounds) as H. assert (E : task_pick_next three_tasks = 2) by (vm_compute; reflexivity).
  cbv zeta in H. rewrite E in H. destruct H as [[H _]|(_ & Hr & H)]; [discriminate H|].
  split; [exact Hr|]. clear E. split; (apply H; [by split | by apply three_can | discriminate]).
Defined.

(** A round in which nothing but the switch happens. *)
Lemma one_round k i j : sched_bounds k -> runnable k j -> runnable k i -> 0 <= i < MAX_TASKS -> task_pick_next k = i -> i <> j ->
  (forall x, 0 <= x < MAX_TASKS -> runnable k x -> t_nice (task k j) <= t_nice (task k x)) -> passed_over j 1 k.
Proof.
  intros Hb Hj Hr Hi E Hne Hlow. destruct (switch_to_tasks i k j Hi Hr) as (Hs & _). rewrite (proj2 (Z.eqb_neq i j) Hne) in Hs.
  refine (po_round j 0 k (snd (switch_to i k)) Hb Hj Hlow _ _ Hs (po_none _ _)); rewrite E; [exact Hne | intros x; apply Z.le_refl].
Qed.

(** Task 1 waits while task 2 runs. *)
Lemma three_passed : passed_over 1 1 three_tasks.
Proof.
  refine (one_round three_tasks 2 1 three_bounds (three_can 1 ltac:(lia)) (three_can 2 ltac:(lia)) ltac:(done) _ ltac:(done) _).
  - vm_compute. reflexivity.
  - intros i _ Hi. unfold three_tasks. rewrite !task_set. destruct (three_runnable i Hi) as [-> |[-> | ->]]; discriminate.
Qed.

Lemma task_pick_next_fair_witness : 1 <= backlog three_tasks 1.
Proof.
  apply (task_pick_next_fair 1 1 three_tasks); [split; [discriminate | reflexivity] | vm_compute; reflexivity | | exact three_passed].
  intros i. unfold three_tasks. rewrite !task_set. destruct (1 =? i), (2 =? i), (3 =? i); vm_compute; discriminate.
Defined.
