(* ===== verification/LineDisc.v ===== *)
(** * The terminal line discipline

    [pty_canon_feed] of [src/kernel/main.c]: what the master side writes goes
    through input mapping, flow control, signal characters and line editing. *)

From S2P Require Import Prelude Words Pmm CStr Vfs Kernel Tty Fd Sched.
Local Open Scope Z_scope.
Local Open Scope st_scope.

(** Input mapping of one byte; [None] when it is dropped. *)
Definition map_input (iflag c : Z) : option Z :=
  if c =? CH_CR then if has iflag IGNCR then None else Some (if has iflag ICRNL then CH_NL else c)
  else if (c =? CH_NL) && has iflag INLCR then Some CH_CR
  else Some c.

(** The signal a byte stands for, 0 for none. *)
Definition signal_char (t : gmap Z Z) (c : Z) : Z :=
  if tty_cc_match t VINTR c then SIGINT
  else if tty_cc_match t VQUIT c then SIGQUIT
  else if tty_cc_match t VSUSP c then SIGTSTP
  else 0.

(** What becomes of one byte. *)
Inductive fed := Taken | Full.

(** Flow control; [true] when the byte is consumed by it. *)
Definition feed_flow (i iflag c : Z) : ST kernel bool :=
  let! k := st_get in
  let t := py_termios (pty k i) in
  if negb (has iflag IXON) then st_ret false
  else if tty_cc_match t VSTOP c then st_mod (upd_pty i (fun p => p <| py_output_stopped := true |>)) ;;; st_ret true
  else if tty_cc_match t VSTART c then
    st_mod (upd_pty i (fun p => p <| py_output_stopped := false |>)) ;;;
    let! _ := task_wake_io_waiters in
    st_ret true
  else if py_output_stopped (pty k i) && has iflag IXANY then
    st_mod (upd_pty i (fun p => p <| py_output_stopped := false |>)) ;;;
    let! _ := task_wake_io_waiters in
    st_ret false
  else st_ret false.

Definition feed_signal (i lflag c sig : Z) : ST kernel unit :=
  (if negb (has lflag NOFLSH)
   then st_mod (upd_pty i (fun p => (pty_flush_output (pty_flush_input p)) <| py_output_stopped := false |>)) else st_ret tt) ;;;
  st_mod (upd_pty i (pty_echo_char c lflag)) ;;;
  let! k := st_get in
  let! _ := tty_pgrp_signal (pty k i) sig in
  if has lflag ECHO && has lflag ECHOCTL then st_mod (upd_pty i (pty_out [CH_NL])) else st_ret tt.

(** Storing a byte at the end of the line buffer. *)
Definition canon_push (c : Z) (p : pty_state) : pty_state :=
  p <| py_canon := <[py_canon_count p := c]> (py_canon p) |> <| py_canon_count := py_canon_count p + 1 |>.

(** Line editing of one byte in canonical mode. *)
Definition canon_edit (c lflag : Z) (p : pty_state) : fed * pty_state :=
  let t := py_termios p in
  if tty_cc_match t VERASE c then
    (Taken,
     if negb (py_canon_count p =? 0) then
       let p := p <| py_canon_count := py_canon_count p - 1 |> in
       if has lflag ECHO then if has lflag ECHOE then pty_out [8; 32; 8] p else pty_echo_char c lflag p else p
     else if has lflag ECHO then pty_echo_char c lflag p else p)
  else if tty_cc_match t VKILL c then
    let p := p <| py_canon_count := 0 |> in
    (Taken, if has lflag ECHOK then pty_out [CH_NL] p else if has lflag ECHO then pty_echo_char c lflag p else p)
  else if tty_cc_match t VEOF c then
    if PTY_CAP <=? py_canon_count p then (Full, p) else (Taken, canon_push c p)
  else if PTY_CAP <=? py_canon_count p then (Full, p)
  else (Taken, pty_echo_char c lflag (canon_push c p)).

(** A byte in non-canonical mode. *)
Definition raw_input (c lflag : Z) (p : pty_state) : fed * pty_state :=
  if PTY_CAP <=? py_m2s_count p then (Full, p)
  else (Taken, pty_echo_char c lflag (snd (m2s_write [c] p))).

(** One round of the loop. *)
Definition feed_byte (i iflag lflag c : Z) : ST kernel fed :=
  match map_input iflag c with
  | None => st_ret Taken
  | Some c =>
      let! eaten := feed_flow i iflag c in
      if eaten then st_ret Taken
      else
        let! k := st_get in
        let sig := if has lflag ISIG then signal_char (py_termios (pty k i)) c else 0 in
        if negb (sig =? 0) then feed_signal i lflag c sig ;;; st_ret Taken
        else
          let '(r, p) := if has lflag ICANON then canon_edit c lflag (pty k i) else raw_input c lflag (pty k i) in
          st_mod (set_pty i p) ;;; st_ret r
  end.

Fixpoint feed_loop (i iflag lflag : Z) (src : list Z) : ST kernel Z :=
  match src with
  | [] => st_ret 0
  | c :: src =>
      let! r := feed_byte i iflag lflag c in
      match r with
      | Full => st_ret 0
      | Taken => let! done := feed_loop i iflag lflag src in st_ret (done + 1)
      end
  end.

(** The number of bytes consumed. *)
Definition pty_canon_feed (i : Z) (src : list Z) : ST kernel Z :=
  let! k := st_get in
  let t := py_termios (pty k i) in
  feed_loop i (tty_iflag t) (tty_lflag t) src.
