(* ===== verification/UserCopy.v ===== *)
(** * Copies between the kernel and a user address space

    [user_copy_from_cr3], [user_copy_to_cr3] and their callers
    ([src/kernel/main.c]).  The loops go page by page; their fuel is the
    number of bytes, of which every round copies at least one. *)

From S2P Require Import Prelude Words Pmm Vmm CStr Vfs Kernel.
Local Open Scope Z_scope.
Local Open Scope st_scope.

(** The bytes of one page: its offset and how many of [len] it holds. *)
Definition page_part (va len : Z) : Z := let n := PAGE_SIZE - Z.land va (PAGE_SIZE - 1) in if len <? n then len else n.

(** [for (i = 0; i < n; i++) dst[i] = sp[off + i];] from physical address [p]. *)
Definition read_bytes (mem : gmap Z Z) (p n : Z) : list Z := map (fun i => ld8 mem (p + i)) (seqZ 0 n).

(** [for (i = 0; i < n; i++) dp[off + i] = src[i];] *)
Fixpoint write_bytes (mem : gmap Z Z) (p : Z) (src : list Z) : gmap Z Z :=
  match src with
  | [] => mem
  | b :: src => write_bytes (st8 mem p b) (p + 1) src
  end.

(** A user page as the copies see it: its frame and entry. *)
Definition user_page (m : machine) (cr3 page : Z) : option (Z * Z) :=
  match vmm_user_translate_cr3 m cr3 page with
  | Some (phys, pte) => if has pte PTE_U then Some (phys, pte) else None
  | None => None
  end.

Fixpoint copy_from_loop (fuel : nat) (m : machine) (cr3 src len : Z) : option (list Z) :=
  if len =? 0 then Some []
  else
    match fuel with
    | O => Some []
    | S fuel =>
        let n := page_part src len in
        match user_page m cr3 (Z.land src PAGE_MASK) with
        | None => None
        | Some (phys, _) =>
            match pmm_phys_to_virt (m_pmm m) phys with
            | None => None
            | Some _ =>
                match copy_from_loop fuel m cr3 (u64 (src + n)) (len - n) with
                | None => None
                | Some rest => Some (read_bytes (m_mem m) (phys + Z.land src (PAGE_SIZE - 1)) n ++ rest)
                end
            end
        end
    end.

(** [None] is -EFAULT, [Some l] the bytes stored in [dst]. *)
Definition user_copy_from_cr3 (m : machine) (cr3 src len : Z) : option (list Z) :=
  if cr3 =? 0 then None else copy_from_loop (Z.to_nat len) m cr3 src len.

(** The frame a write to [page] goes to; a copy-on-write page is resolved first. *)
Definition writable_page (cr3 page : Z) : ST machine (option Z) :=
  let! m := st_get in
  match user_page m cr3 page with
  | None => st_ret None
  | Some (phys, pte) =>
      if has pte PTE_W then st_ret (Some phys)
      else if negb (has pte PTE_COW) then st_ret None
      else
        let! r := vmm_user_cow_fault cr3 page in
        if negb (r =? 0) then st_ret None
        else
          let! m := st_get in
          match user_page m cr3 page with
          | Some (phys, pte) => if has pte PTE_W then st_ret (Some phys) else st_ret None
          | None => st_ret None
          end
  end.

Fixpoint copy_to_loop (fuel : nat) (cr3 dst : Z) (src : list Z) : ST machine Z :=
  match src with
  | [] => st_ret 0
  | _ :: _ =>
      match fuel with
      | O => st_ret 0
      | S fuel =>
          let n := page_part dst (Z.of_nat (length src)) in
          let! fr := writable_page cr3 (Z.land dst PAGE_MASK) in
          let! m := st_get in
          match fr with
          | None => st_ret (- EFAULT)
          | Some phys =>
              match pmm_phys_to_virt (m_pmm m) phys with
              | None => st_ret (- EFAULT)
              | Some _ =>
                  st_mod (fun m => set_mem (write_bytes (m_mem m) (phys + Z.land dst (PAGE_SIZE - 1)) (take (Z.to_nat n) src)) m) ;;;
                  copy_to_loop fuel cr3 (u64 (dst + n)) (drop (Z.to_nat n) src)
              end
          end
      end
  end.

Definition user_copy_to_cr3 (cr3 dst : Z) (src : list Z) : ST machine Z :=
  if cr3 =? 0 then st_ret (- EFAULT) else copy_to_loop (length src) cr3 dst src.

(** The copies into the active user space: [frame_of] gives the frame a page
    may be written through. *)
Fixpoint store_loop (fuel : nat) (frame_of : machine -> Z -> option Z) (dst : Z) (src : list Z) : ST machine Z :=
  match src with
  | [] => st_ret 0
  | _ :: _ =>
      match fuel with
      | O => st_ret 0
      | S fuel =>
          let n := page_part dst (Z.of_nat (length src)) in
          let! m := st_get in
          match frame_of m (Z.land dst PAGE_MASK) with
          | None => st_ret (- EFAULT)
          | Some phys =>
              match pmm_phys_to_virt (m_pmm m) phys with
              | None => st_ret (- EFAULT)
              | Some _ =>
                  st_mod (fun m => set_mem (write_bytes (m_mem m) (phys + Z.land dst (PAGE_SIZE - 1)) (take (Z.to_nat n) src)) m) ;;;
                  store_loop fuel frame_of (u64 (dst + n)) (drop (Z.to_nat n) src)
              end
          end
      end
  end.

(** Pages copy_to_user writes: user pages that are writable. *)
Definition user_writable (m : machine) (page : Z) : option Z :=
  match vmm_user_translate m page with
  | Some (phys, pte) => if negb (has pte PTE_U) || negb (has pte PTE_W) then None else Some phys
  | None => None
  end.

(** Pages the program loader writes: user pages, writable or not. *)
Definition user_present (m : machine) (page : Z) : option Z :=
  match vmm_user_translate m page with
  | Some (phys, pte) => if negb (has pte PTE_U) || negb (has pte PTE_P) then None else Some phys
  | None => None
  end.

Definition copy_to_user (cr3 dst_va : Z) (src : list Z) : ST machine Z :=
  let! m := st_get in
  if (cr3 =? 0) || negb (cr3 =? vmm_user_cr3 m) then st_ret (- EFAULT)
  else store_loop (length src) user_writable dst_va src.

Definition graphics_copy_to_user (dst_va : Z) (src : list Z) : ST kernel Z :=
  let! k := st_get in
  if k_syscall_user_cr3 k =? 0 then st_ret (- EFAULT) else on_vm (copy_to_user (k_syscall_user_cr3 k) dst_va src).

Definition copy_to_user_loader (cr3 dst_va : Z) (src : list Z) : ST machine Z :=
  let! m := st_get in
  if (cr3 =? 0) || negb (cr3 =? vmm_user_cr3 m) then st_ret (- EFAULT)
  else store_loop (length src) user_present dst_va src.

Definition zero_user_loader (cr3 dst_va len : Z) : ST machine Z :=
  let! m := st_get in
  if (cr3 =? 0) || negb (cr3 =? vmm_user_cr3 m) then st_ret (- EFAULT)
  else store_loop (Z.to_nat len) user_present dst_va (replicate (Z.to_nat len) 0).

(** The address space of the system call. *)
Definition syscall_cr3 (k : kernel) : Z :=
  if k_syscall_user_cr3 k =? 0 then vmm_user_cr3 (k_vm k) else k_syscall_user_cr3 k.

Definition user_range_ok (k : kernel) (va len : Z) (write : bool) : bool := vmm_user_range_ok (k_vm k) va len write.

Definition user_copy_from (k : kernel) (src len : Z) : option (list Z) :=
  user_copy_from_cr3 (k_vm k) (syscall_cr3 k) src len.

Definition user_copy_to (dst : Z) (src : list Z) : ST kernel Z :=
  let! k := st_get in
  on_vm (user_copy_to_cr3 (syscall_cr3 k) dst src).

(** The loop of user_copy_cstr over [todo] bytes; a byte 0 ends the string. *)
Inductive cstr_copy := CFault | CString (s : cstr) | CTooLong.

Fixpoint copy_cstr_loop (todo : nat) (k : kernel) (src : Z) : cstr_copy :=
  match todo with
  | O => CTooLong
  | S todo =>
      match user_copy_from k src 1 with
      | Some [b] =>
          if b =? 0 then CString []
          else match copy_cstr_loop todo k (u64 (src + 1)) with CString s => CString (b :: s) | r => r end
      | _ => CFault
      end
  end.

(** The result, and the string copied when it is 0. *)
Definition user_copy_cstr (k : kernel) (src cap : Z) : Z * cstr :=
  if cap =? 0 then (- EINVAL, [])
  else
    match copy_cstr_loop (Z.to_nat (cap - 1)) k src with
    | CFault => (- EFAULT, [])
    | CString s => (0, s)
    | CTooLong => (- ENAMETOOLONG, [])
    end.
