(* ===== verification/UserMem.v ===== *)
(** * What user memory holds

    [ubyte] is the byte an address of an address space holds.  Copies from
    user space read it byte by byte; copies to user space change it exactly
    in the range written, through copy-on-write faults. *)

From S2P Require Import Prelude Words Pmm PmmFacts PageAlloc Vmm VmmFacts VmmMap CStr Vfs Kernel UserCopy.
Local Open Scope Z_scope.

Definition ubyte (m : machine) (cr3 a : Z) : option Z :=
  match user_page m cr3 (Z.land a PAGE_MASK) with
  | Some (phys, _) =>
      match pmm_phys_to_virt (m_pmm m) phys with
      | Some _ => Some (ld8 (m_mem m) (phys + Z.land a (PAGE_SIZE - 1)))
      | None => None
      end
  | None => None
  end.

(** ** Lists of results *)

Lemma mapM_app {A B} (f : A -> option B) l1 l2 :
  mapM f (l1 ++ l2) = match mapM f l1 with Some r1 => match mapM f l2 with Some r2 => Some (r1 ++ r2) | None => None end | None => None end.
Proof.
  induction l1 as [|x l1 IH]; cbn [app mapM]; [by destruct (mapM f l2)|].
  cbn. destruct (f x); cbn; [|done]. change (mapM f (l1 ++ l2)) with (mapM f (l1 ++ l2)). rewrite IH.
  destruct (mapM f l1); cbn; [|done]. by destruct (mapM f l2).
Qed.

Lemma mapM_all {A B} (f : A -> option B) g l : (forall x, x ∈ l -> f x = Some (g x)) -> mapM f l = Some (map g l).
Proof.
  induction l as [|x l IH]; intros H; [done|]. cbn. rewrite (H x) by left. cbn.
  rewrite IH by (intros; apply H; by right). done.
Qed.

Lemma mapM_shift {B} (f : Z -> option B) n m : mapM f (seqZ n m) = mapM (fun i => f (n + i)) (seqZ 0 m).
Proof.
  rewrite <- (Z.add_0_r n) at 1. rewrite <- fmap_add_seqZ. generalize (seqZ 0 m). intros l.
  induction l as [|x l IH]; [done|]. cbn. destruct (f (n + x)); cbn; [|done]. by rewrite IH.
Qed.

(** ** Copies from user space *)

Lemma page_part_bounds src len : 0 < len -> 0 < page_part src len <= len /\ src mod PAGE_SIZE + page_part src len <= PAGE_SIZE.
Proof.
  intros Hl. unfold page_part. rewrite land_low12. unfold PAGE_SIZE. pose proof (Z.mod_pos_bound src 0x1000).
  destruct (Z.ltb_spec len (0x1000 - src mod 0x1000)); lia.
Qed.

(** The bytes of a part lie in one page. *)
Lemma same_page src i : is_u64 src -> 0 <= i -> src mod PAGE_SIZE + i < PAGE_SIZE ->
  is_u64 (src + i) /\ Z.land (src + i) PAGE_MASK = Z.land src PAGE_MASK /\
  Z.land (src + i) (PAGE_SIZE - 1) = Z.land src (PAGE_SIZE - 1) + i.
Proof.
  intros Hs Hi Hp. assert (Hw : is_u64 (src + i)) by (unfold is_u64, PAGE_SIZE in *; dlia). split; [done|].
  rewrite !land_PAGE_MASK, !land_low12 by done. unfold PAGE_SIZE in *. dlia.
Qed.

Lemma copy_from_loop_eq fuel m cr3 : forall src len, is_u64 src -> 0 <= len <= Z.of_nat fuel ->
  copy_from_loop fuel m cr3 src len = mapM (fun i => ubyte m cr3 (u64 (src + i))) (seqZ 0 len).
Proof.
  induction fuel as [|fuel IH]; intros src len Hs Hl.
  { assert (len = 0) as -> by lia. done. }
  cbn [copy_from_loop]. destruct (Z.eqb_spec len 0) as [->|Hne]; [done|].
  destruct (page_part_bounds src len ltac:(lia)) as [Hn Hp]. set (n := page_part src len) in *.
  assert (Hin : forall i, 0 <= i < n -> ubyte m cr3 (u64 (src + i)) =
    match user_page m cr3 (Z.land src PAGE_MASK) with
    | Some (phys, _) => match pmm_phys_to_virt (m_pmm m) phys with
        | Some _ => Some (ld8 (m_mem m) (phys + Z.land src (PAGE_SIZE - 1) + i)) | None => None end
    | None => None
    end).
  { intros i Hi. destruct (same_page src i) as (Hu & E1 & E2); [done | lia | lia|].
    rewrite u64_small by done. unfold ubyte. rewrite E1, E2.
    destruct (user_page _ _ _) as [[phys ?]|]; [|done]. destruct (pmm_phys_to_virt _ _); [|done]. f_equal. f_equal. lia. }
  assert (Es : seqZ 0 len = seqZ 0 n ++ seqZ n (len - n)) by (rewrite <- (Z.add_0_l n) at 2; rewrite <- seqZ_app by lia; f_equal; lia).
  rewrite Es, mapM_app.
  assert (Hhd : ubyte m cr3 (u64 (src + 0)) = None -> mapM (fun i => ubyte m cr3 (u64 (src + i))) (seqZ 0 n) = None).
  { intros E. rewrite seqZ_cons by lia. cbn. by rewrite E. }
  destruct (user_page m cr3 (Z.land src PAGE_MASK)) as [[phys pte]|] eqn:Hpg; [|by rewrite Hhd by (apply Hin; lia)].
  destruct (pmm_phys_to_virt (m_pmm m) phys) eqn:Hv; [|by rewrite Hhd by (apply Hin; lia)].
  rewrite (mapM_all _ (fun i => ld8 (m_mem m) (phys + Z.land src (PAGE_SIZE - 1) + i)))
    by (intros i Hi%elem_of_seqZ; apply Hin; lia).
  rewrite IH by (apply u64_range || lia). rewrite (mapM_shift _ n).
  assert (Ex : mapM (fun i => ubyte m cr3 (u64 (u64 (src + n) + i))) (seqZ 0 (len - n)) =
    mapM (fun i => ubyte m cr3 (u64 (src + (n + i)))) (seqZ 0 (len - n))).
  { apply mapM_ext. intros i. f_equal. unfold u64. rewrite Zplus_mod_idemp_l. f_equal. lia. }
  rewrite Ex. by destruct (mapM _ (seqZ 0 (len - n))).
Qed.

(** A copy that is split in two. *)
Lemma copy_from_app m cr3 src n1 n2 : is_u64 src -> 0 <= n1 -> 0 <= n2 ->
  user_copy_from_cr3 m cr3 src (n1 + n2) =
    match user_copy_from_cr3 m cr3 src n1 with
    | Some l1 => match user_copy_from_cr3 m cr3 (u64 (src + n1)) n2 with Some l2 => Some (l1 ++ l2) | None => None end
    | None => None
    end.
Proof.
  intros Hs H1 H2. unfold user_copy_from_cr3. destruct (cr3 =? 0); [done|].
  rewrite !copy_from_loop_eq by (done || apply u64_range || lia). rewrite seqZ_app by lia. rewrite mapM_app, Z.add_0_l, (mapM_shift _ n1).
  assert (Ex : mapM (fun i => ubyte m cr3 (u64 (u64 (src + n1) + i))) (seqZ 0 n2) =
    mapM (fun i => ubyte m cr3 (u64 (src + (n1 + i)))) (seqZ 0 n2)).
  { apply mapM_ext. intros i. f_equal. unfold u64. rewrite Zplus_mod_idemp_l. f_equal. lia. }
  by rewrite Ex.
Qed.

(** ** Writing bytes of memory *)

Lemma write_bytes_off mem q l a : (forall i, 0 <= i < Z.of_nat (length l) -> a <> (q + i) - (q + i) mod 8) ->
  arr (write_bytes mem q l) a = arr mem a.
Proof.
  revert mem q. induction l as [|b l IH]; intros mem q Ha; cbn [write_bytes]; [done|]. rewrite IH.
  - unfold st8. rewrite arr_insert, (proj2 (Z.eqb_neq _ _)); [done|]. apply not_eq_sym. specialize (Ha 0).
    rewrite Z.add_0_r in Ha. apply Ha. cbn [length]. lia.
  - intros i Hi. specialize (Ha (i + 1)). replace (q + 1 + i) with (q + (i + 1)) by lia. apply Ha. cbn [length]. lia.
Qed.

Lemma write_bytes_spec mem q l x : Forall (fun b => 0 <= b < 256) l ->
  ld8 (write_bytes mem q l) x = if (q <=? x) && (x <? q + Z.of_nat (length l)) then nth (Z.to_nat (x - q)) l 0 else ld8 mem x.
Proof.
  revert mem q. induction l as [|b l IH]; intros mem q Hb; cbn [write_bytes length].
  { destruct (Z.leb_spec q x), (Z.ltb_spec x (q + Z.of_nat 0)); cbn [andb]; (lia || done). }
  apply Forall_cons in Hb as [Hb Hl]. rewrite IH by done. rewrite ld8_st8 by done.
  destruct (Z.leb_spec (q + 1) x), (Z.ltb_spec x (q + 1 + Z.of_nat (length l))), (Z.leb_spec q x),
    (Z.ltb_spec x (q + Z.of_nat (S (length l)))), (Z.eqb_spec q x); cbn [andb]; try lia; try done.
  - replace (Z.to_nat (x - q)) with (S (Z.to_nat (x - (q + 1)))) by lia. done.
  - subst x. by rewrite Z.sub_diag.
Qed.

Section Space.
Context {HB : HhdmBase} {inv : pmm -> Prop} {held : pmm -> Z -> Prop} `{PA : !PageAllocator inv held}.

Local Abbreviation user_ok := (user_ok (inv := inv) (held := held)).
Local Abbreviation data_page := (data_page (held := held)).

(** The leaf entry of an address of the active space. *)
Definition upte (m : machine) (va : Z) : Z := pte_of (m_mem m) (m_user_pml4 m) va.
Definition upresent (m : machine) (va : Z) : bool := has (upte m va) PTE_P && has (upte m va) PTE_U.

(** A process whose pages are its own: every user page is a data page held
    from the allocator and no frame is mapped twice. *)
Record space_ok (m : machine) : Prop := {
  so_user : user_ok m;
  so_word : forall va, user_va va -> upresent m va = true -> is_u64 (upte m va);
  so_page : forall va, user_va va -> upresent m va = true -> data_page m (addr_of (upte m va));
  so_private : forall va va', user_va va -> user_va va' -> upresent m va = true -> upresent m va' = true ->
    addr_of (upte m va) = addr_of (upte m va') -> va / PAGE_SIZE = va' / PAGE_SIZE
}.

Lemma upte_page m va va' : user_va va -> user_va va' -> va / PAGE_SIZE = va' / PAGE_SIZE -> upte m va = upte m va'.
Proof. intros Hv Hv' He. unfold upte, pte_of. destruct (va_path_page va va') as [-> ->]; [apply Hv | apply Hv' | done | done]. Qed.

Lemma user_page_eq m va : user_ok m -> user_va va ->
  user_page m (m_user_pml4 m) (Z.land va PAGE_MASK) = if upresent m va then Some (addr_of (upte m va), upte m va) else None.
Proof.
  intros Ho Hv. destruct (page_mask_user va Hv) as (Hv' & Ha & Hd).
  unfold user_page, vmm_user_translate_cr3, vmm_cr3_translate_direct. rewrite page_root by done.
  destruct (table_page_facts m (m_user_pml4 m) [] (m_user_pml4 m) (uo_inv _ Ho) (uo_tree _ Ho) upath_nil eq_refl) as [Hp Hr].
  rewrite (proj2 (Z.eqb_neq _ 0)) by lia. rewrite has_low12, Hp. rewrite (proj2 (canonical_user_iff _)) by apply Hv'.
  cbn [negb Z.eqb orb]. rewrite user_root by done. rewrite translate_from_eq by apply Ho. cbn zeta.
  fold (upte m (Z.land va PAGE_MASK)). rewrite (upte_page m _ va) by done. unfold upresent.
  destruct (has (upte m va) PTE_P); [|done]. cbn [andb]. destruct (has (upte m va) PTE_U); [|done].
  change 0xfff with (PAGE_SIZE - 1). by rewrite land_low12, Ha, Z.lor_0_r.
Qed.

Lemma data_page_reach m p : user_ok m -> data_page m p ->
  p mod PAGE_SIZE = 0 /\ 0 < p < PMM_TRACK_LIMIT /\ is_some (pmm_phys_to_virt (m_pmm m) p) = true.
Proof.
  intros Ho [Hh _]. destruct (pa_page _ p (vi_pmm _ (uo_inv _ Ho)) Hh) as [Ha Hr].
  split; [done|]. split; [done|]. by rewrite phys_to_virt_ok by (apply Ho || done).
Qed.

(** The byte of a user address. *)
Lemma ubyte_eq m va : space_ok m -> user_va va ->
  ubyte m (m_user_pml4 m) va = if upresent m va then Some (ld8 (m_mem m) (addr_of (upte m va) + va mod PAGE_SIZE)) else None.
Proof.
  intros Hs Hv. unfold ubyte. rewrite user_page_eq by (apply Hs || done).
  destruct (upresent m va) eqn:Hp; [|done].
  destruct (data_page_reach m _ (so_user _ Hs) (so_page _ Hs va Hv Hp)) as (_ & _ & Hr).
  destruct (pmm_phys_to_virt _ _); [|done]. by rewrite land_low12.
Qed.

(** ** Writing to one page *)

(** Memory that changes only inside a data page. *)
Lemma page_write m mem p : user_ok m -> data_page m p -> (forall a, page_base a <> p -> arr mem a = arr (m_mem m) a) ->
  let m' := set_mem mem m in
  user_ok m' /\ (forall va, user_va va -> upte m' va = upte m va) /\ (forall q, data_page m q -> data_page m' q).
Proof.
  intros Ho [Hh Hn] Hmem m'.
  assert (Htw : forall p1 t i, upath p1 -> tab_at (m_mem m) (m_user_pml4 m) p1 = Some t -> 0 <= i < 512 ->
    arr mem (t + 8 * i) = arr (m_mem m) (t + 8 * i)).
  { intros p1 t i Hp1 Ht Hi. apply Hmem. rewrite slot_page; [|by apply (table_page_facts m _ p1 t (uo_inv _ Ho) (uo_tree _ Ho))|done].
    intros ->. by apply (Hn p1). }
  assert (Htab : forall q, upath q -> tab_at mem (m_user_pml4 m) q = tab_at (m_mem m) (m_user_pml4 m) q).
  { intros q Hq. apply tab_at_agree. intros p1 i t [k ->] Ht. assert (Hp1 : upath (p1 ++ [i])) by (by eapply upath_prefix).
    apply (Htw p1); [by eapply upath_prefix | done | by apply (upath_index p1)]. }
  split; [|split].
  - split; [split; apply Ho | apply Ho|]. split; cbn [set_mem m_mem m_pmm m_user_pml4].
    + intros q t Hq. rewrite Htab by done. apply (tw_held _ _ (uo_tree _ Ho) q t Hq).
    + intros p1 p2 t Hp1 Hp2. rewrite !Htab by done. by apply (tw_inj _ _ (uo_tree _ Ho)).
  - intros va Hv. unfold upte, pte_of. cbn [m' set_mem m_mem m_user_pml4]. rewrite Htab by (by apply upath_va).
    destruct (tab_at (m_mem m) _ (va_path va)) as [pt|] eqn:Hpt; [|done].
    apply (Htw (va_path va)); [by apply upath_va | done | apply idx_range].
  - intros q [Hq Hqn]. split; [done|]. intros r Hr. cbn [m' set_mem m_mem m_user_pml4]. rewrite Htab by done. by apply Hqn.
Qed.

Lemma space_kept m m' : space_ok m -> user_ok m' -> (forall va, user_va va -> upte m' va = upte m va) ->
  (forall q, data_page m q -> data_page m' q) -> space_ok m'.
Proof.
  intros Hs Ho He Hd. assert (Hp : forall va, user_va va -> upresent m' va = upresent m va) by (intros va Hv; unfold upresent; by rewrite He).
  split; [done | | |].
  - intros va Hv. rewrite Hp, He by done. by apply Hs.
  - intros va Hv. rewrite Hp, He by done. intros Hpr. by apply Hd, Hs.
  - intros va va' Hv Hv'. rewrite !Hp, !He by done. by apply (so_private _ Hs).
Qed.

(** Bytes stored in the page of [va], from the offset [off]. *)
Lemma store_page m va off l : space_ok m -> user_va va -> upresent m va = true -> Forall (fun b => 0 <= b < 256) l ->
  0 <= off -> off + Z.of_nat (length l) <= PAGE_SIZE ->
  let m' := set_mem (write_bytes (m_mem m) (addr_of (upte m va) + off) l) m in
  space_ok m' /\ (forall a, user_va a -> upte m' a = upte m a) /\ forall a, user_va a -> ubyte m' (m_user_pml4 m) a =
    if (a / PAGE_SIZE =? va / PAGE_SIZE) && (off <=? a mod PAGE_SIZE) && (a mod PAGE_SIZE <? off + Z.of_nat (length l))
    then Some (nth (Z.to_nat (a mod PAGE_SIZE - off)) l 0) else ubyte m (m_user_pml4 m) a.
Proof.
  intros Hs Hv Hp Hb Ho Hl m'. pose proof (so_page _ Hs va Hv Hp) as Hd. set (p := addr_of (upte m va)) in *.
  destruct (data_page_reach m p (so_user _ Hs) Hd) as (Ha & Hr & _).
  destruct (page_write m (write_bytes (m_mem m) (p + off) l) p (so_user _ Hs) Hd) as (Hu & He & Hk).
  { intros a Hne. apply write_bytes_off. intros i Hi ->. apply Hne.
    replace (p + off + i) with (p + (off + i)) by lia. apply byte_word; [done | lia]. }
  fold m' in Hu, He, Hk. assert (Hs' : space_ok m') by (by apply (space_kept m)). split; [done|]. split; [done|].
  intros a Hav. change (m_user_pml4 m) with (m_user_pml4 m') at 1. rewrite (ubyte_eq m' a Hs' Hav), (ubyte_eq m a Hs Hav).
  unfold upresent at 1. rewrite He by done. fold (upresent m a).
  destruct (Z.eqb_spec (a / PAGE_SIZE) (va / PAGE_SIZE)) as [E|E]; cbn [andb].
  - rewrite (upte_page m a va) by done. fold p. unfold upresent. rewrite (upte_page m a va) by done. fold (upresent m va). rewrite Hp.
    cbn [m' set_mem m_mem]. rewrite write_bytes_spec by done.
    replace (p + off <=? p + a mod PAGE_SIZE) with (off <=? a mod PAGE_SIZE) by lia.
    replace (p + a mod PAGE_SIZE <? p + off + Z.of_nat (length l)) with (a mod PAGE_SIZE <? off + Z.of_nat (length l)) by lia.
    destruct (_ && _); [|done]. replace (p + a mod PAGE_SIZE - (p + off)) with (a mod PAGE_SIZE - off) by lia. done.
  - destruct (upresent m a) eqn:Hpa; [|done]. f_equal.
    destruct (data_page_reach m _ (so_user _ Hs) (so_page _ Hs a Hav Hpa)) as (Haa & _ & _).
    assert (Hne : addr_of (upte m a) <> p) by (intros Eq; by apply E, (so_private _ Hs)).
    cbn [m' set_mem m_mem]. rewrite write_bytes_spec by done.
    assert (Hm : 0 <= a mod PAGE_SIZE < PAGE_SIZE) by (apply Z.mod_pos_bound; done).
    destruct (Z.leb_spec (p + off) (addr_of (upte m a) + a mod PAGE_SIZE)),
      (Z.ltb_spec (addr_of (upte m a) + a mod PAGE_SIZE) (p + off + Z.of_nat (length l))); cbn [andb]; try done.
    exfalso. apply Hne. unfold PAGE_SIZE in *. dlia.
Qed.

(** ** Copy on write *)

Lemma upresent_cow m va : cow_pte (upte m va) = true -> upresent m va = true.
Proof. unfold cow_pte, upresent. by destruct (has (upte m va) PTE_P), (has (upte m va) PTE_U). Qed.

Lemma space_cow_sound m va : space_ok m -> user_va va -> cow_sound (held := held) (m_user_pml4 m) va m.
Proof.
  intros Hs Hv Hc. pose proof (upresent_cow m va Hc) as Hp. split; [by apply (so_word _ Hs) | by apply (so_page _ Hs)].
Qed.

(** A leaf that changes to a page of its own. *)
Section Leaf.
Variables (m m' : machine) (va w : Z).
Hypothesis (Hs : space_ok m) (Hv : user_va va).
Hypothesis Hl : leaf_step (inv := inv) (held := held) (m_user_pml4 m) va w m m'.

Lemma leaf_upte a : user_va a -> upte m' a = if a / PAGE_SIZE =? va / PAGE_SIZE then w else upte m a.
Proof. intros Ha. unfold upte. destruct (ls_user _ _ _ _ _ Hl) as [-> _]. by apply (ls_view _ _ _ _ _ Hl). Qed.

Lemma leaf_upresent a : user_va a -> a / PAGE_SIZE <> va / PAGE_SIZE -> upte m' a = upte m a /\ upresent m' a = upresent m a.
Proof. intros Ha Hne. unfold upresent. rewrite leaf_upte, (proj2 (Z.eqb_neq _ _)) by done. done. Qed.

Lemma leaf_data_page p : p mod PAGE_SIZE = 0 -> data_page m p -> data_page m' p.
Proof.
  intros Ha Hp. unfold data_page. destruct (ls_user _ _ _ _ _ Hl) as [-> _]. by apply (leaf_keeps_page _ _ _ _ _ _ Hl Ha).
Qed.

Lemma leaf_space : (has w PTE_P && has w PTE_U = true -> is_u64 w /\ data_page m' (addr_of w) /\
    forall a, user_va a -> upresent m a = true -> a / PAGE_SIZE <> va / PAGE_SIZE -> addr_of (upte m a) <> addr_of w) ->
  space_ok m'.
Proof.
  intros Hw. pose proof (leaf_upte va Hv) as Ew. rewrite Z.eqb_refl in Ew.
  assert (Hwa : forall a, user_va a -> a / PAGE_SIZE = va / PAGE_SIZE -> upte m' a = w)
    by (intros a Ha E; rewrite leaf_upte by done; by rewrite E, Z.eqb_refl).
  split; [exact (leaf_user_ok va w m m' (so_user _ Hs) Hl) | | |].
  - intros a Ha Hp. destruct (Z.eq_dec (a / PAGE_SIZE) (va / PAGE_SIZE)) as [E|E].
    + unfold upresent in Hp. rewrite Hwa in * by done. by apply Hw.
    + destruct (leaf_upresent a Ha E) as [E1 E2]. rewrite E1. rewrite E2 in Hp. by apply (so_word _ Hs).
  - intros a Ha Hp. destruct (Z.eq_dec (a / PAGE_SIZE) (va / PAGE_SIZE)) as [E|E].
    + unfold upresent in Hp. rewrite Hwa in * by done. by apply Hw.
    + destruct (leaf_upresent a Ha E) as [E1 E2]. rewrite E1. rewrite E2 in Hp.
      apply leaf_data_page; [apply addr_of_aligned | by apply (so_page _ Hs)].
  - assert (Hx : forall a b, user_va a -> user_va b -> upresent m' a = true -> upresent m' b = true ->
      a / PAGE_SIZE = va / PAGE_SIZE -> b / PAGE_SIZE <> va / PAGE_SIZE -> addr_of (upte m' b) <> addr_of (upte m' a)).
    { intros a b Ha Hb Hpa Hpb E Ne. destruct (leaf_upresent b Hb Ne) as [E1 E2]. rewrite E2 in Hpb.
      unfold upresent in Hpa. rewrite (Hwa a) in * by done. rewrite E1. by apply Hw. }
    intros a b Ha Hb Hpa Hpb Eq.
    destruct (Z.eq_dec (a / PAGE_SIZE) (va / PAGE_SIZE)) as [E|E], (Z.eq_dec (b / PAGE_SIZE) (va / PAGE_SIZE)) as [F|F].
    + congruence.
    + exfalso. by apply (Hx a b).
    + exfalso. by apply (Hx b a).
    + destruct (leaf_upresent a Ha E) as [Ea Ea']. destruct (leaf_upresent b Hb F) as [Eb Eb'].
      rewrite Ea' in Hpa. rewrite Eb' in Hpb. rewrite Ea, Eb in Eq. by apply (so_private _ Hs).
Qed.

(** The bytes of the other pages stay. *)
Lemma leaf_ubyte a : space_ok m' -> user_va a -> a / PAGE_SIZE <> va / PAGE_SIZE ->
  ubyte m' (m_user_pml4 m) a = ubyte m (m_user_pml4 m) a.
Proof.
  intros Hs' Ha E. destruct (ls_user _ _ _ _ _ Hl) as [Er _]. rewrite <- Er at 1.
  rewrite (ubyte_eq m' a Hs' Ha), (ubyte_eq m a Hs Ha). destruct (leaf_upresent a Ha E) as [-> ->].
  destruct (upresent m a) eqn:Hpa; [|done]. f_equal.
  assert (Hm : 0 <= a mod PAGE_SIZE < PAGE_SIZE) by (apply Z.mod_pos_bound; done).
  destruct (so_page _ Hs a Ha Hpa) as [Hh Hn]. apply ld8_agree.
  apply (ls_data _ _ _ _ _ Hl); rewrite byte_word by (apply addr_of_aligned || done); done.
Qed.
End Leaf.

(** A fault that succeeds keeps every byte of the space. *)
Lemma cow_space m m' va w : space_ok m -> user_va va -> cow_pte (upte m va) = true ->
  cow_done (inv := inv) (held := held) (m_user_pml4 m) va w m m' ->
  space_ok m' /\ upte m' va = w /\ forall a, user_va a -> ubyte m' (m_user_pml4 m) a = ubyte m (m_user_pml4 m) a.
Proof.
  intros Hs Hv Hc Hd. pose proof (cd_step _ _ _ _ _ Hd) as Hl. destruct (ls_user _ _ _ _ _ Hl) as [Er _].
  destruct (cd_flags _ _ _ _ _ Hd) as (FP & FU & _). pose proof (upresent_cow m va Hc) as Hpv.
  assert (Hs' : space_ok m').
  { apply (leaf_space m m' va w Hs Hv Hl). intros _. split; [apply Hd|].
    split; [unfold data_page; rewrite Er; apply Hd|]. intros a Ha Hpa Hne Eq.
    destruct (cd_frame _ _ _ _ _ Hd) as [Ef|Ef].
    - apply Hne. apply (so_private _ Hs); try done. by rewrite Eq.
    - apply Ef. rewrite <- Eq. by apply (so_page _ Hs a Ha Hpa). }
  pose proof (leaf_upte m m' va w Hl va Hv) as Ew. rewrite Z.eqb_refl in Ew. split; [done|]. split; [done|].
  intros a Ha. destruct (Z.eq_dec (a / PAGE_SIZE) (va / PAGE_SIZE)) as [E|E]; [|by apply (leaf_ubyte m m' va w)].
  rewrite <- Er at 1. rewrite (ubyte_eq m' a Hs' Ha), (ubyte_eq m a Hs Ha).
  unfold upresent. rewrite !(upte_page _ a va) by done. fold (upresent m va). rewrite Ew, FP, FU, Hpv. cbn [andb]. f_equal.
  apply (cd_bytes _ _ _ _ _ Hd). apply Z.mod_pos_bound. done.
Qed.

(** Only the allocator's bookkeeping changed. *)
Lemma same_space m m' : space_ok m -> same_vm (inv := inv) (held := held) m m' ->
  space_ok m' /\ forall a, user_va a -> ubyte m' (m_user_pml4 m) a = ubyte m (m_user_pml4 m) a.
Proof.
  intros Hs Hv. destruct (sv_user _ _ Hv) as (Er & _).
  assert (He : forall a, upte m' a = upte m a) by (intros a; unfold upte; by rewrite Er, (sv_mem _ _ Hv)).
  assert (Hs' : space_ok m').
  { apply (space_kept m m' Hs).
    - apply (step_user_ok m); [apply Hs | by apply same_vm_step; [apply Hs|]].
    - intros a _. apply He.
    - intros q [Hq Hn]. split; [by apply (sv_held _ _ Hv)|]. unfold not_table. by rewrite Er, (sv_mem _ _ Hv). }
  split; [done|]. intros a Ha. rewrite <- Er at 1. rewrite (ubyte_eq m' a Hs' Ha), (ubyte_eq m a Hs Ha).
  unfold upresent. by rewrite He, (sv_mem _ _ Hv).
Qed.

(** Address [a] can be written: a user page that is writable, or shared
    until it is written. *)
Definition uwritable (m : machine) (a : Z) : bool := upresent m a && (has (upte m a) PTE_W || has (upte m a) PTE_COW).

Lemma uwritable_page m a b : user_va a -> user_va b -> a / PAGE_SIZE = b / PAGE_SIZE -> uwritable m a = uwritable m b.
Proof. intros Ha Hb E. unfold uwritable, upresent. by rewrite (upte_page m a b). Qed.

Lemma writable_page_spec m va fr m' : space_ok m -> user_va va ->
  writable_page (m_user_pml4 m) (Z.land va PAGE_MASK) m = (fr, m') ->
  space_ok m' /\ m_user_pml4 m' = m_user_pml4 m /\
  (forall a, user_va a -> ubyte m' (m_user_pml4 m) a = ubyte m (m_user_pml4 m) a) /\
  (forall a, user_va a -> uwritable m' a = uwritable m a) /\
  pmm_free_count (m_pmm m) - 1 <= pmm_free_count (m_pmm m') /\
  match fr with
  | Some phys => uwritable m va = true /\ upresent m' va = true /\ phys = addr_of (upte m' va)
  | None => uwritable m va = false \/ pmm_free_count (m_pmm m) = 0
  end.
Proof.
  intros Hs Hv. pose proof (so_user _ Hs) as Ho. unfold writable_page, st_bind at 1, st_get at 1. rewrite user_page_eq by done.
  unfold uwritable at 3 4. destruct (upresent m va) eqn:Hp; [|intros [= <- <-]; split_and!; (done || lia || by left)].
  destruct (has (upte m va) PTE_W) eqn:HW; [intros [= <- <-]; split_and!; (done || lia)|].
  destruct (has (upte m va) PTE_COW) eqn:HC; cbn [negb]; [|intros [= <- <-]; split_and!; (done || lia || by left)].
  destruct (page_mask_user va Hv) as (Hv' & Ha & Hd).
  assert (Hc : cow_pte (upte m va) = true).
  { unfold upresent in Hp. unfold cow_pte. rewrite HW, HC. by destruct (has (upte m va) PTE_P), (has (upte m va) PTE_U). }
  assert (Ev : forall m1, upte m1 (Z.land va PAGE_MASK) = upte m1 va) by (intros; by apply upte_page).
  unfold st_bind at 1. destruct (vmm_user_cow_fault _ _ m) as [r m1] eqn:Hf.
  apply cow_fault_spec in Hf; rewrite ?page_root by done; [|apply Ho | apply Ho | done | by apply space_cow_sound].
  rewrite page_root in Hf by done. cbn zeta in Hf. fold (upte m (Z.land va PAGE_MASK)) in Hf. rewrite Ev, Hc in Hf.
  destruct Hf as [(-> & _ & w & Hcd)|[(_ & ? & _)|(-> & _ & Hsv)]]; [|done|].
  - assert (Hcm : cow_pte (upte m (Z.land va PAGE_MASK)) = true) by (by rewrite Ev).
    destruct (cow_space m m1 _ w Hs Hv' Hcm Hcd) as (Hs1 & Ew & Hb). rewrite Ev in Ew.
    destruct (ls_user _ _ _ _ _ (cd_step _ _ _ _ _ Hcd)) as [Er _]. destruct (cd_flags _ _ _ _ _ Hcd) as (FP & FU & FW & _).
    cbn [Z.eqb negb]. unfold st_bind, st_get. rewrite <- Er, user_page_eq by (apply Hs1 || done).
    assert (Hp1 : upresent m1 va = true) by (unfold upresent; by rewrite Ew, FP, FU). rewrite Hp1, Ew, FW.
    intros [= <- <-]. rewrite Er. split_and!; try done; [|exact (cd_supply _ _ _ _ _ Hcd) | by rewrite Ew].
    intros a Hav. destruct (Z.eq_dec (a / PAGE_SIZE) (va / PAGE_SIZE)) as [E|E].
    + rewrite !(uwritable_page _ a va) by done. unfold uwritable. by rewrite Hp1, Ew, FW, Hp, HC, orb_true_r.
    + unfold uwritable. destruct (leaf_upresent m m1 _ w (cd_step _ _ _ _ _ Hcd) a Hav) as [-> ->]; [by rewrite Hd | done].
  - cbn. intros [= <- <-]. destruct (same_space m m1 Hs Hsv) as [Hs1 Hb]. split; [done|]. split; [apply Hsv|]. split; [done|].
    split; [|split; [apply Hsv | right; apply Hsv]].
    intros a _. unfold uwritable, upresent, upte. destruct (sv_user _ _ Hsv) as (-> & _). by rewrite (sv_mem _ _ Hsv).
Qed.

(** ** The copy to user space *)

(** The pages a range of [len] bytes touches. *)
Definition pages_spanned (a len : Z) : Z := (a + len - 1) / PAGE_SIZE - a / PAGE_SIZE + 1.

(** The space [m] with the bytes [l] stored from [dst] on. *)
Definition stored (m m' : machine) (dst : Z) (l : list Z) : Prop :=
  forall a, user_va a -> ubyte m' (m_user_pml4 m) a =
    if (dst <=? a) && (a <? dst + Z.of_nat (length l)) then Some (nth (Z.to_nat (a - dst)) l 0) else ubyte m (m_user_pml4 m) a.

Lemma stored_app m m1 m2 dst l1 l2 : m_user_pml4 m1 = m_user_pml4 m ->
  stored m m1 dst l1 -> stored m1 m2 (dst + Z.of_nat (length l1)) l2 -> stored m m2 dst (l1 ++ l2).
Proof.
  intros Er H1 H2 a Ha. rewrite <- Er, H2, Er, H1 by done. rewrite length_app.
  destruct (Z.leb_spec (dst + Z.of_nat (length l1)) a), (Z.ltb_spec a (dst + Z.of_nat (length l1) + Z.of_nat (length l2))),
    (Z.leb_spec dst a), (Z.ltb_spec a (dst + Z.of_nat (length l1))), (Z.ltb_spec a (dst + Z.of_nat (length l1 + length l2)));
    cbn [andb]; try lia; try done.
  - rewrite app_nth2 by lia. do 2 f_equal. lia.
  - by rewrite app_nth1 by lia.
Qed.

(** One round of the loop. *)
Lemma store_part m dst l n : space_ok m -> user_va dst -> upresent m dst = true -> Forall (fun b => 0 <= b < 256) l ->
  0 < n <= Z.of_nat (length l) -> dst mod PAGE_SIZE + n <= PAGE_SIZE -> dst + n <= USER_TOP ->
  let m' := set_mem (write_bytes (m_mem m) (addr_of (upte m dst) + Z.land dst (PAGE_SIZE - 1)) (take (Z.to_nat n) l)) m in
  space_ok m' /\ (forall a, user_va a -> upte m' a = upte m a) /\ stored m m' dst (take (Z.to_nat n) l).
Proof.
  intros Hs Hv Hp Hb Hn Hpg Htop. rewrite land_low12.
  assert (Hlen : Z.of_nat (length (take (Z.to_nat n) l)) = n) by (rewrite length_take; lia).
  destruct (store_page m dst (dst mod PAGE_SIZE) (take (Z.to_nat n) l) Hs Hv Hp) as (Hs' & He & Hst);
    [by apply Forall_take | apply Z.mod_pos_bound; done | lia|].
  split; [done|]. split; [done|]. intros a Ha. rewrite Hst, Hlen by done. clear Hst He Hs'. unfold user_va in *.
  destruct (Z.leb_spec dst a), (Z.ltb_spec a (dst + n)); cbn [andb].
  - assert (E : a / PAGE_SIZE = dst / PAGE_SIZE /\ a mod PAGE_SIZE = dst mod PAGE_SIZE + (a - dst)) by (unfold PAGE_SIZE in *; dlia).
    destruct E as [-> ->]. rewrite Z.eqb_refl, (proj2 (Z.leb_le _ _)), (proj2 (Z.ltb_lt _ _)) by lia. cbn [andb]. do 2 f_equal. lia.
  - destruct (Z.eqb_spec (a / PAGE_SIZE) (dst / PAGE_SIZE)); cbn [andb]; [|done].
    rewrite (proj2 (Z.ltb_ge (a mod PAGE_SIZE) _)); [by rewrite andb_false_r | unfold PAGE_SIZE in *; dlia].
  - destruct (Z.eqb_spec (a / PAGE_SIZE) (dst / PAGE_SIZE)); cbn [andb]; [|done].
    rewrite (proj2 (Z.leb_gt (dst mod PAGE_SIZE) _)); [done | unfold PAGE_SIZE in *; dlia].
  - lia.
Qed.

Lemma stored_nil m m' dst : (forall a, user_va a -> ubyte m' (m_user_pml4 m) a = ubyte m (m_user_pml4 m) a) -> stored m m' dst [].
Proof.
  intros H a Ha. rewrite H by done. cbn [length]. destruct (Z.leb_spec dst a), (Z.ltb_spec a (dst + Z.of_nat 0)); cbn [andb]; (lia || done).
Qed.

Lemma pages_spanned_pos a len : 0 < len -> 1 <= pages_spanned a len.
Proof. intros H. unfold pages_spanned, PAGE_SIZE. dlia. Qed.

Lemma pages_spanned_part a len : 0 < len -> page_part a len < len ->
  pages_spanned a len = pages_spanned (a + page_part a len) (len - page_part a len) + 1.
Proof.
  intros Hl. unfold page_part, pages_spanned. rewrite land_low12. unfold PAGE_SIZE.
  destruct (Z.ltb_spec len (0x1000 - a mod 0x1000)); [lia|]. intros _. dlia.
Qed.

(** A range of a page is writable as its first byte is. *)
Lemma part_writable m a len x : user_va a -> a + len <= USER_TOP -> 0 < len -> a <= x < a + page_part a len -> uwritable m x = uwritable m a.
Proof.
  intros Ha Ht Hl Hx. destruct (page_part_bounds a len Hl) as [Hn Hp]. unfold user_va in *.
  apply uwritable_page; [unfold user_va; lia | done|]. unfold PAGE_SIZE in *. dlia.
Qed.

(** How a copy ends: all bytes stored in writable pages, or a proper prefix
    up to a page that is not writable or for which no frame was left. *)
Definition copied_to (m m' : machine) (dst : Z) (src : list Z) (r : Z) : Prop :=
  (r = 0 /\ stored m m' dst src /\ forall a, dst <= a < dst + Z.of_nat (length src) -> uwritable m a = true) \/
  (r = - EFAULT /\ exists n, (n < length src)%nat /\ stored m m' dst (take n src) /\
     (uwritable m (dst + Z.of_nat n) = false \/ pmm_free_count (m_pmm m) < pages_spanned dst (Z.of_nat (length src)))).

(** One round, then the rest. *)
Lemma copied_to_app m m1 m' dst (n : nat) l r : let len := Z.of_nat (length l) in
  user_va dst -> dst + len <= USER_TOP -> Z.of_nat n = page_part dst len -> 0 < len ->
  m_user_pml4 m1 = m_user_pml4 m -> stored m m1 dst (take n l) -> uwritable m dst = true ->
  (forall a, user_va a -> uwritable m1 a = uwritable m a) -> pmm_free_count (m_pmm m) - 1 <= pmm_free_count (m_pmm m1) ->
  copied_to m1 m' (dst + Z.of_nat n) (drop n l) r -> copied_to m m' dst l r.
Proof.
  intros len Hv Ht En Hl Er H1 Hw Hws Hf H2. destruct (page_part_bounds dst len Hl) as [Hn _]. unfold len in *.
  assert (Htk : Z.of_nat (length (take n l)) = Z.of_nat n) by (rewrite length_take; lia).
  assert (Hdr : Z.of_nat (length (drop n l)) = Z.of_nat (length l) - Z.of_nat n) by (rewrite length_drop; lia).
  destruct H2 as [(-> & H2 & H3)|(-> & k & Hk & H2 & H3)]; [left | right]; (split; [done|]).
  - split.
    + rewrite <- (take_drop n l). apply (stored_app m m1); [done | done|]. by rewrite Htk.
    + intros a Ha. destruct (Z.lt_ge_cases a (dst + Z.of_nat n)) as [Hlt|Hge].
      * rewrite (part_writable m dst (Z.of_nat (length l))); (done || lia).
      * rewrite <- Hws by (unfold user_va in *; lia). apply H3. lia.
  - rewrite length_drop in Hk. exists (n + k)%nat. split; [lia|]. split.
    + replace (take (n + k) l) with (take n l ++ take k (drop n l)) by (by rewrite take_take_drop).
      apply (stored_app m m1); [done | done|]. by rewrite Htk.
    + rewrite Nat2Z.inj_add, Z.add_assoc. destruct H3 as [H3|H3]; [left; rewrite <- Hws; [done | unfold user_va in *; lia] | right].
      rewrite Hdr, En in H3. rewrite pages_spanned_part by lia. lia.
Qed.

Lemma copy_to_loop_spec fuel : forall m dst src r m', space_ok m -> 0 <= dst -> dst + Z.of_nat (length src) <= USER_TOP ->
  (length src <= fuel)%nat -> Forall (fun b => 0 <= b < 256) src -> copy_to_loop fuel (m_user_pml4 m) dst src m = (r, m') ->
  space_ok m' /\ m_user_pml4 m' = m_user_pml4 m /\ copied_to m m' dst src r.
Proof.
  induction fuel as [|fuel IH]; intros m dst src r m' Hs Hd Htop Hf Hb.
  { destruct src; [|cbn in Hf; lia]. cbn. intros [= <- <-]. split_and!; try done. left. split_and!; [done | by apply stored_nil | cbn; lia]. }
  destruct src as [|b0 src0]; [cbn; intros [= <- <-]; split_and!; try done; left; split_and!; [done | by apply stored_nil | cbn; lia]|].
  cbn [copy_to_loop]. set (l := b0 :: src0) in *. assert (Hl0 : 0 < Z.of_nat (length l)) by (cbn [length l]; lia).
  destruct (page_part_bounds dst _ Hl0) as [Hn Hp]. set (n := page_part dst (Z.of_nat (length l))) in *.
  assert (Hv : user_va dst) by (unfold user_va; lia).
  unfold st_bind at 1. destruct (writable_page (m_user_pml4 m) (Z.land dst PAGE_MASK) m) as [fr m1] eqn:Hw.
  destruct (writable_page_spec m dst fr m1 Hs Hv Hw) as (Hs1 & Er & Hb1 & Hws & Hfc & Hfr). unfold st_bind at 1, st_get at 1.
  destruct fr as [phys|].
  - destruct Hfr as (Hwd & Hp1 & ->).
    destruct (data_page_reach m1 _ (so_user _ Hs1) (so_page _ Hs1 dst Hv Hp1)) as (_ & _ & Hr).
    destruct (pmm_phys_to_virt _ _); [|done]. unfold st_bind at 1, st_mod.
    destruct (store_part m1 dst l n Hs1 Hv Hp1 Hb ltac:(lia) Hp ltac:(lia)) as (Hs2 & He2 & Hst).
    set (m2 := set_mem _ m1) in *. rewrite u64_small by (unfold USER_TOP in *; lia).
    assert (Er2 : m_user_pml4 m2 = m_user_pml4 m) by done. rewrite <- Er2.
    assert (Hld : Z.of_nat (length (drop (Z.to_nat n) l)) = Z.of_nat (length l) - n) by (rewrite length_drop; lia).
    intros Hloop. destruct (IH m2 (dst + n) (drop (Z.to_nat n) l) r m') as (Hs' & Er' & Hres); try done;
      [lia | rewrite Hld; lia | rewrite length_drop; lia | by apply Forall_drop|].
    split; [done|]. split; [by rewrite Er', Er2|].
    apply (copied_to_app m m2 m' dst (Z.to_nat n) l r); rewrite ?Z2Nat.id by lia; try done.
    + intros a Ha. by rewrite <- Er, Hst, Er, Hb1.
    + intros a Ha. rewrite <- Hws by done. unfold uwritable, upresent. by rewrite He2.
  - intros [= <- <-]. split; [done|]. split; [done|]. right. split; [done|]. exists 0%nat. split; [lia|]. split; [by apply stored_nil|].
    rewrite Z.add_0_r. destruct Hfr as [H|H]; [by left | right]. pose proof (pages_spanned_pos dst _ Hl0). lia.
Qed.

End Space.
