(* ===== verification/UserMemThms.v ===== *)
(** * Properties of the copies between kernel and user space *)

From S2P Require Import Prelude Words Pmm PmmFacts PmmInit PmmThms PageAlloc.
From S2P Require Import Vmm VmmFacts VmmMap VmmSpace VmmThms CStr Vfs Kernel UserCopy UserMem.
Local Open Scope Z_scope.

(**  user_copy_from_cr3 reads user memory byte by byte: it gives the
    bytes of the range in order, and fails exactly when one of them is not in
    a mapped user page.  Splitting the range at page boundaries is invisible,
    and the loop ends for every length. *)
Theorem user_copy_from_reads m cr3 src len : is_u64 src -> 0 <= len ->
  user_copy_from_cr3 m cr3 src len =
    if cr3 =? 0 then None else mapM (fun i => ubyte m cr3 (u64 (src + i))) (seqZ 0 len).
Proof.
  intros Hs Hl. unfold user_copy_from_cr3. destruct (cr3 =? 0); [done|]. apply copy_from_loop_eq; [done | lia].
Qed.

Section Claims.
Context {HB : HhdmBase} {inv : pmm -> Prop} {held : pmm -> Z -> Prop} `{PA : !PageAllocator inv held}.

Local Abbreviation user_ok := (user_ok (inv := inv) (held := held)).
Local Abbreviation space_ok := (space_ok (inv := inv) (held := held)).
Local Abbreviation data_page := (data_page (held := held)).

Lemma space_root m : space_ok m -> (m_user_pml4 m =? 0) = false.
Proof.
  intros Hs. destruct (so_user _ Hs) as [Hi _ Ht].
  destruct (table_page_facts m (m_user_pml4 m) [] (m_user_pml4 m) Hi Ht upath_nil eq_refl). apply Z.eqb_neq. lia.
Qed.

(** C8.  user_copy_to_cr3 changes user memory exactly in the range it
    writes: afterwards every user address reads as before, or as the byte
    stored there, although copy-on-write pages of the range moved to new
    frames.  It succeeds only when every page of the range is writable or
    shared until written; otherwise a proper prefix was stored, and the first
    byte that was not is not writable, or the allocator had fewer frames than
    the range has pages.  The pages of the process stay its own. *)
Theorem user_copy_to_correct m dst src r m' : space_ok m -> 0 <= dst -> dst + Z.of_nat (length src) <= USER_TOP ->
  Forall (fun b => 0 <= b < 256) src -> user_copy_to_cr3 (m_user_pml4 m) dst src m = (r, m') ->
  space_ok m' /\ copied_to m m' dst src r.
Proof.
  intros Hs Hd Ht Hb. unfold user_copy_to_cr3. rewrite space_root by done. intros He.
  destruct (copy_to_loop_spec (length src) m dst src r m' Hs Hd Ht (le_n _) Hb He) as (H1 & _ & H2). done.
Qed.

Lemma stored_reads m m' dst l : m_user_pml4 m' = m_user_pml4 m -> (m_user_pml4 m =? 0) = false -> stored m m' dst l ->
  0 <= dst -> dst + Z.of_nat (length l) <= USER_TOP ->
  user_copy_from_cr3 m' (m_user_pml4 m) dst (Z.of_nat (length l)) = Some l.
Proof.
  intros Er Hr Hst Hd Ht. rewrite user_copy_from_reads, Hr by (unfold is_u64, USER_TOP in *; lia).
  rewrite (mapM_all _ (fun i => nth (Z.to_nat i) l 0)).
  - f_equal. apply list_eq. intros j. rewrite list_lookup_fmap. destruct (decide (Z.of_nat j < Z.of_nat (length l))).
    + rewrite lookup_seqZ_lt by lia. cbn [fmap option_fmap option_map]. rewrite Z.add_0_l, Nat2Z.id. destruct (lookup_lt_is_Some_2 l j) as [x Hx]; [lia|].
      rewrite Hx. f_equal. by apply nth_lookup_Some with (d := 0).
    + rewrite lookup_seqZ_ge by lia. cbn. symmetry. apply lookup_ge_None. lia.
  - intros i Hi%elem_of_seqZ. rewrite u64_small by (unfold USER_TOP in *; lia).
    rewrite Hst by (unfold user_va; lia). rewrite (proj2 (Z.leb_le _ _)), (proj2 (Z.ltb_lt _ _)) by lia. cbn [andb].
    do 2 f_equal. lia.
Qed.

(** What was copied to user space is read back: a copy to a buffer that
    succeeds, followed by a copy from the same buffer, gives the same bytes. *)
Theorem user_copy_roundtrip m dst src m' : space_ok m -> 0 <= dst -> dst + Z.of_nat (length src) <= USER_TOP ->
  Forall (fun b => 0 <= b < 256) src -> user_copy_to_cr3 (m_user_pml4 m) dst src m = (0, m') ->
  user_copy_from_cr3 m' (m_user_pml4 m) dst (Z.of_nat (length src)) = Some src.
Proof.
  intros Hs Hd Ht Hb. unfold user_copy_to_cr3. rewrite space_root by done. intros He.
  destruct (copy_to_loop_spec (length src) m dst src 0 m' Hs Hd Ht (le_n _) Hb He) as (H1 & Er & [(_ & Hst & _)|[? _]]); [|done].
  apply stored_reads; try done. by apply space_root.
Qed.

(** ** Building an address space *)

Lemma empty_space m : user_ok m -> (forall va, user_va va -> vmm_user_translate m va = None) -> space_ok m.
Proof.
  intros Ho He. assert (Hn : forall va, user_va va -> upresent m va = false).
  { intros va Hv. specialize (He va Hv). rewrite user_translate_eq in He by done. cbn zeta in He. fold (upte m va) in He.
    unfold upresent. by destruct (has (upte m va) PTE_P). }
  split; [done | | |]; intros va; [intros Hv | intros Hv | intros va' Hv _]; by rewrite Hn.
Qed.

Lemma alloc_space m p m' : space_ok m -> alloc_page m = (p, m') -> p <> 0 ->
  space_ok m' /\ data_page m' p /\ forall a, user_va a -> upresent m' a = true -> addr_of (upte m' a) <> p.
Proof.
  intros Hs He Hp. pose proof (alloc_data (inv := inv) m (so_user _ Hs)) as Hd. rewrite He in Hd. cbn [fst snd] in Hd.
  unfold alloc_page in He. destruct (pmm_alloc_page (m_pmm m)) as [q s] eqn:Ha. injection He as -> <-. cbn [fst] in Hd.
  destruct (Hd Hp) as [Ho Hdp]. destruct (pa_alloc _ _ _ (vi_pmm _ (uo_inv _ (so_user _ Hs))) Ha Hp) as [Hf Hq].
  split; [|split; [exact Hdp|]].
  - apply (space_kept m); [done | exact Ho | done|]. intros q [Hh Hn]. split; [apply Hq; by left | exact Hn].
  - intros a Hav Hpr Eq. apply Hf. rewrite <- Eq. by apply (so_page _ Hs).
Qed.

Lemma map_space m va p flags : space_ok m -> page_va va -> frame_addr p -> data_page m p ->
  (forall a, user_va a -> upresent m a = true -> a / PAGE_SIZE <> va / PAGE_SIZE -> addr_of (upte m a) <> p) -> is_u64 flags ->
  fst (vmm_user_map va p flags m) = 0 ->
  let m' := snd (vmm_user_map va p flags m) in space_ok m' /\ upresent m' va = true /\ has (upte m' va) PTE_W = has flags PTE_W.
Proof.
  intros Hs Hva Hp Hd Hne Hfl. destruct (vmm_user_map va p flags m) as [r m'] eqn:E. cbn [fst snd]. intros ->.
  destruct (vmm_user_map_spec m va p flags 0 m' (so_user _ Hs) Hva Hp E) as [[_ Hl]|[? _]]; [|done].
  destruct (leaf_pte_spec p flags) as (Ea & EP & EU & EC & EW & EN); [apply Hp..|].
  pose proof (leaf_upte m m' va _ Hl va (proj1 Hva)) as Ew. rewrite Z.eqb_refl in Ew.
  split; [|unfold upresent; by rewrite Ew, EP, EU, EW].
  apply (leaf_space m m' va _ Hs (proj1 Hva) Hl). intros _. rewrite Ea. split; [|split; [|done]].
  - pose proof (addr_of_range p) as Hr. unfold addr_of in Hr. unfold leaf_pte, is_u64.
    apply lor_range; [lia | apply lor_range; [lia | apply lor_range; [lia | lia |] |] | apply (land_range _ _ 64); [lia|]];
      vm_compute; split; congruence.
  - apply (leaf_data_page m m' va _ Hl); [apply Hp | done].
Qed.
End Claims.

#[local] Existing Instance demo_hhdm.
(** The demonstration machine, with one writable page at 0x400000. *)
Local Abbreviation pmm_space_ok := (space_ok (inv := pmm_wf) (held := pool_held)).

Lemma demo_user_space : pmm_space_ok demo_user.
Proof. apply empty_space; [exact demo_user_ok | exact (cr_empty _ _ demo_created)]. Qed.

Lemma demo_alloc_page : fst (alloc_page demo_user) = 0x1003000.
Proof. vm_compute. reflexivity. Qed.

Lemma demo_data_space : pmm_space_ok demo_data /\ data_page (held := pool_held) demo_data 0x1003000 /\
  forall a, user_va a -> upresent demo_data a = true -> addr_of (upte demo_data a) <> 0x1003000.
Proof.
  apply (alloc_space (inv := pmm_wf) (held := pool_held) demo_user); [exact demo_user_space | | discriminate].
  exact (run_eq _ _ demo_alloc_page).
Qed.

Lemma demo_mapped_space : pmm_space_ok demo_mapped /\ upresent demo_mapped 0x400000 = true /\ has (upte demo_mapped 0x400000) PTE_W = has PTE_W PTE_W.
Proof.
  destruct demo_data_space as (Hs & Hd & Hf).
  refine (map_space (inv := pmm_wf) (held := pool_held) demo_data 0x400000 0x1003000 PTE_W Hs demo_page_va demo_frame Hd _ _ demo_map_ok).
  - intros a Ha Hp _. exact (Hf a Ha Hp).
  - vm_compute. split; congruence.
Qed.

Lemma user_copy_from_reads_witness :
  user_copy_from_cr3 demo_mapped (m_user_pml4 demo_mapped) 0x400010 2 =
    mapM (fun i => ubyte demo_mapped (m_user_pml4 demo_mapped) (u64 (0x400010 + i))) (seqZ 0 2).
Proof.
  rewrite (user_copy_from_reads demo_mapped (m_user_pml4 demo_mapped) 0x400010 2); [|unfold is_u64; lia | lia].
  vm_compute. reflexivity.
Defined.

Definition demo_copied : machine := snd (user_copy_to_cr3 (m_user_pml4 demo_mapped) 0x400010 [104; 105] demo_mapped).

Lemma demo_copied_ok : fst (user_copy_to_cr3 (m_user_pml4 demo_mapped) 0x400010 [104; 105] demo_mapped) = 0.
Proof. vm_compute. reflexivity. Qed.

Lemma demo_copied_eq : user_copy_to_cr3 (m_user_pml4 demo_mapped) 0x400010 [104; 105] demo_mapped = (0, demo_copied).
Proof. unfold demo_copied. apply run_eq, demo_copied_ok. Qed.

Lemma demo_bytes : Forall (fun b => 0 <= b < 256) [104; 105].
Proof. repeat constructor; lia. Qed.

Lemma user_copy_to_correct_witness : stored demo_mapped demo_copied 0x400010 [104; 105] /\ uwritable demo_mapped 0x400011 = true.
Proof.
  destruct (user_copy_to_correct demo_mapped 0x400010 [104; 105] 0 demo_copied
    (proj1 demo_mapped_space) ltac:(lia) ltac:(unfold USER_TOP; cbn [length]; lia) demo_bytes demo_copied_eq) as (_ & [(_ & H & Hw)|[H _]]);
    [split; [exact H | apply Hw; cbn [length]; lia] | discriminate H].
Defined.

Lemma user_copy_roundtrip_witness : user_copy_from_cr3 demo_copied (m_user_pml4 demo_mapped) 0x400010 2 = Some [104; 105].
Proof.
  exact (user_copy_roundtrip demo_mapped 0x400010 [104; 105] demo_copied (proj1 demo_mapped_space) ltac:(lia)
    ltac:(unfold USER_TOP; cbn [length]; lia) demo_bytes demo_copied_eq).
Defined.
