(* ===== verification/Pipe.v ===== *)
(** * Pipes

    Creating, reading and writing pipes, waking blocked readers, and the
    system calls that close and duplicate descriptors
    ([src/kernel/main.c]). *)

From S2P Require Import Prelude Words Pmm Vmm CStr Vfs Kernel Tty Fd Sched UserCopy.
Local Open Scope Z_scope.
Local Open Scope st_scope.

(** The size of the bounce buffer. *)
Definition TMP_SIZE : Z := 256.
Definition O_NONBLOCK : Z := 0x800.

(** ** Rings *)

(** [tmp[i]=p->data[p->rpos]; p->rpos=(p->rpos+1)%PIPE_CAP; p->count--;] [n] times *)
Fixpoint pipe_take (n : nat) (p : pipe_state) : list Z * pipe_state :=
  match n with
  | O => ([], p)
  | S n =>
      let b := arr (pi_data p) (pi_rpos p) in
      let '(l, p) := pipe_take n (p <| pi_rpos := (pi_rpos p + 1) mod PIPE_CAP |> <| pi_count := pi_count p - 1 |>) in
      (b :: l, p)
  end.

(** [p->data[p->wpos]=tmp[i]; p->wpos=(p->wpos+1)%PIPE_CAP; p->count++;] *)
Definition pipe_put (p : pipe_state) (b : Z) : pipe_state :=
  p <| pi_data := <[pi_wpos p := b]> (pi_data p) |> <| pi_wpos := (pi_wpos p + 1) mod PIPE_CAP |> <| pi_count := pi_count p + 1 |>.

(** ** Readers *)

Definition clear_pipe_wait (t : task_t) : task_t :=
  t <| t_pipe_wait_fd := -1 |> <| t_pipe_wait_buf := 0 |> <| t_pipe_wait_count := 0 |>.

(** The copy loop of pipe_read_into_task: [done] bytes are copied; the result
    is the number of bytes, or [None] when a copy failed after [done] bytes. *)
Fixpoint pipe_fill (fuel : nat) (pi cr3 buf count done : Z) : ST kernel (option Z * Z) :=
  let! k := st_get in
  let p := pipe k pi in
  if (count <=? done) || (pi_count p =? 0) then st_ret (Some done, done)
  else
    match fuel with
    | O => st_ret (Some done, done)
    | S fuel =>
        let n := Z.min (Z.min (count - done) TMP_SIZE) (pi_count p) in
        let '(tmp, p) := pipe_take (Z.to_nat n) p in
        st_mod (set_pipe pi p) ;;;
        let! r := on_vm (user_copy_to_cr3 cr3 (u64 (buf + done)) tmp) in
        if negb (r =? 0) then st_ret (None, done) else pipe_fill fuel pi cr3 buf count (done + n)
    end.

Definition pipe_read_into_task (ti pi : Z) : ST kernel Z :=
  let! k := st_get in
  let t := task k ti in
  if (t_pipe_wait_fd t <? 0) || (t_pipe_wait_buf t =? 0) || (t_pipe_wait_count t =? 0) then st_ret 0
  else
    let! r := pipe_fill (Z.to_nat (pi_count (pipe k pi))) pi (t_ctx t CR3) (t_pipe_wait_buf t) (t_pipe_wait_count t) 0 in
    match r with
    | (None, done) =>
        st_mod (upd_task ti (fun t => clear_pipe_wait
          (t <| t_ctx := set_reg (t_ctx t) RAX (if negb (done =? 0) then done else neg_errno EFAULT) |>))) ;;;
        st_ret (-1)
    | (Some done, _) =>
        st_mod (upd_task ti (fun t =>
          (clear_pipe_wait (t <| t_ctx := set_reg (t_ctx t) RAX done |>))
            <| t_io_wait_kind := IO_WAIT_NONE |> <| t_io_wait_valid := false |> <| t_io_wait_nr := 0 |>
            <| t_state := TASK_RUNNABLE |>)) ;;;
        st_ret done
    end.

(** Task [i] sleeps in a read of pipe [pi]. *)
Definition waits_on_pipe (k : kernel) (pi i : Z) : bool :=
  let t := task k i in
  t_used t && (t_state t =? TASK_BLOCKED) && (0 <=? t_pipe_wait_fd t) && (t_pipe_wait_fd t <? MAX_FILES) &&
  match task_files_for_task k i with
  | None => false
  | Some table =>
      f_in_use (fdesc k table (t_pipe_wait_fd t)) && bool_decide (f_private (fdesc k table (t_pipe_wait_fd t)) = PPipe pi)
  end.

Definition pipe_wake_readers (pi : Z) : ST kernel unit := fun k =>
  (tt, foldl (fun k i => if waits_on_pipe k pi i then snd (pipe_read_into_task i pi k) else k) k all_tasks).

(** ** Live ends *)

Definition all_slots : list (Z * Z) := list_prod (seqZ 0 MAX_FD_TABLES) (seqZ 0 MAX_FILES).

(** A descriptor of a table in use that is open. *)
Definition open_slot (k : kernel) (s : Z * Z) : bool := negb (table_refs k (fst s) =? 0) && f_in_use (fdesc k (fst s) (snd s)).

Definition pipe_live (k : kernel) (pi type : Z) : Z :=
  Z.of_nat (length (List.filter (fun s => open_slot k s &&
    (bool_decide (f_private (fdesc k (fst s) (snd s)) = PPipe pi) && (f_type (fdesc k (fst s) (snd s)) =? type))) all_slots)).
Definition pipe_live_readers (k : kernel) (pi : Z) : Z := pipe_live k pi FD_PIPE_R.
Definition pipe_live_writers (k : kernel) (pi : Z) : Z := pipe_live k pi FD_PIPE_W.
Definition pipe_has_readers (k : kernel) (pi : Z) : bool := negb (pipe_live_readers k pi =? 0).
Definition pipe_has_writers (k : kernel) (pi : Z) : bool := negb (pipe_live_writers k pi =? 0).

(** ** read and write *)

(** The FD_PIPE_R branch of sys_read, [count] bytes to [buf]. *)
Definition pipe_read (pi buf count : Z) : ST kernel Z :=
  let! k := st_get in
  let p := pipe k pi in
  if count =? 0 then st_ret 0
  else if pi_count p =? 0 then if pi_writers p =? 0 then st_ret 0 else st_ret (- EAGAIN)
  else
    let! r := pipe_fill (Z.to_nat (pi_count p)) pi (syscall_cr3 k) buf count 0 in
    match r with
    | (None, done) => st_ret (if negb (done =? 0) then done else - EFAULT)
    | (Some done, _) => st_ret done
    end.

(** sys_read on the read end of pipe [pi]: the checks before the branches, then
    the branch. *)
Definition sys_read_pipe (pi buf count : Z) : ST kernel Z :=
  let! k := st_get in
  if (buf =? 0) && negb (count =? 0) then st_ret (- EINVAL)
  else if negb (count =? 0) && negb (user_range_ok k buf count true) then st_ret (- EFAULT)
  else pipe_read pi buf count.

(** sys_pipe_read_dispatch on the read end [fd] of pipe [pi]: an empty pipe
    with writers puts the task to sleep. *)
Definition sys_pipe_read_dispatch (f : regs) (fd pi flags buf count : Z) : ST kernel Z :=
  if count =? 0 then st_ret 0
  else
    let! k := st_get in
    if negb (pi_count (pipe k pi) =? 0) then sys_read_pipe pi buf count
    else if pi_writers (pipe k pi) =? 0 then st_ret 0
    else if has flags O_NONBLOCK then st_ret (- EAGAIN)
    else
      let ti := k_current k in
      task_save_from_frame ti f ;;;
      st_mod (upd_task ti (fun t => t <| t_pipe_wait_fd := fd |> <| t_pipe_wait_buf := buf |> <| t_pipe_wait_count := count |>
                                      <| t_state := TASK_BLOCKED |>)) ;;;
      let! k := st_get in
      let next := task_pick_next k in
      if next <? 0 then
        st_mod (upd_task ti (fun t => clear_pipe_wait (t <| t_state := TASK_RUNNING |>))) ;;; st_ret (- EAGAIN)
      else switch_from_syscall next ;;; st_ret 0.

(** The loop of the FD_PIPE_W branch of sys_write; [flags] of the descriptor. *)
Fixpoint pipe_write_loop (fuel : nat) (pi flags buf count done : Z) : ST kernel Z :=
  let! k := st_get in
  let p := pipe k pi in
  if count <=? done then st_ret done
  else
    match fuel with
    | O => st_ret done
    | S fuel =>
        if pi_count p =? PIPE_CAP then
          st_ret (if has flags O_NONBLOCK then if negb (done =? 0) then done else - EAGAIN else done)
        else
          let n := Z.min (Z.min (count - done) TMP_SIZE) (PIPE_CAP - pi_count p) in
          match user_copy_from k (u64 (buf + done)) n with
          | None => st_ret (if negb (done =? 0) then done else - EFAULT)
          | Some tmp =>
              st_mod (set_pipe pi (foldl pipe_put p tmp)) ;;;
              pipe_wake_readers pi ;;;
              let! k := st_get in
              if (done + n <? count) && (pi_count (pipe k pi) =? PIPE_CAP) then st_ret (done + n)
              else pipe_write_loop fuel pi flags buf count (done + n)
          end
    end.

(** The FD_PIPE_W branch of sys_write. *)
Definition pipe_write (pi flags buf count : Z) : ST kernel Z :=
  st_mod (fun k => upd_pipe pi (fun p => p <| pi_readers := pipe_live_readers k pi |>) k) ;;;
  let! k := st_get in
  if negb (pipe_has_readers k pi) then st_ret (- EPIPE)
  else if count =? 0 then st_ret 0
  else pipe_write_loop (Z.to_nat count) pi flags buf count 0.

(** sys_write on the write end of pipe [pi]. *)
Definition sys_write_pipe (pi flags buf count : Z) : ST kernel Z :=
  let! k := st_get in
  if (0x100000 <? count) || ((buf =? 0) && negb (count =? 0)) then st_ret (- EINVAL)
  else if count =? 0 then st_ret 0
  else if negb (user_range_ok k buf count false) then st_ret (- EFAULT)
  else pipe_write pi flags buf count.

(** ** Creating *)

(** [(uint8_t* )&a] of an int, little endian. *)
Definition int_bytes (v : Z) : list Z := map (fun i => Z.land (Z.shiftr (u32 v) (8 * i)) 0xFF) (seqZ 0 4).

Definition open_end (ty pi : Z) (f : file_desc) : file_desc :=
  f <| f_in_use := true |> <| f_type := ty |> <| f_flags := 0 |> <| f_offset := 0 |> <| f_private := PPipe pi |>.

Definition sys_pipe (ufds : Z) : ST kernel Z :=
  if ufds =? 0 then st_ret (- EFAULT)
  else
    let! k := st_get in
    let a := find_free_fd k in
    if a <? 0 then st_ret (- EMFILE)
    else
      match find (fun i => negb (f_in_use (file k i))) (seqZ (a + 1) (MAX_FILES - (a + 1))) with
      | None => st_ret (- EMFILE)
      | Some b =>
          match find (fun i => (pi_readers (pipe k i) =? 0) && (pi_writers (pipe k i) =? 0) && (pi_count (pipe k i) =? 0)) (seqZ 0 8) with
          | None => st_ret (- EMFILE)
          | Some pi =>
              st_mod (upd_pipe pi (fun p => p <| pi_rpos := 0 |> <| pi_wpos := 0 |> <| pi_count := 0 |>
                                              <| pi_readers := 1 |> <| pi_writers := 1 |>)) ;;;
              upd_file a (open_end FD_PIPE_R pi) ;;;
              upd_file b (open_end FD_PIPE_W pi) ;;;
              let! r := user_copy_to ufds (int_bytes a) in
              let! r := if negb (r =? 0) then st_ret r else user_copy_to (u64 (ufds + 4)) (int_bytes b) in
              if negb (r =? 0) then
                upd_file a (fun f => f <| f_in_use := false |>) ;;;
                upd_file b (fun f => f <| f_in_use := false |>) ;;;
                upd_file a (fun f => f <| f_private := PNull |>) ;;;
                upd_file b (fun f => f <| f_private := PNull |>) ;;;
                st_mod (upd_pipe pi (fun p => p <| pi_readers := 0 |> <| pi_writers := 0 |> <| pi_count := 0 |>)) ;;;
                st_ret (- EFAULT)
              else st_ret 0
          end
      end.

(** ** Closing *)

(** The tasks sys_close ends the read of when a read end is closed. *)
Definition eof_waiters (fd : Z) (k : kernel) : kernel :=
  foldl (fun k i =>
    let t := task k i in
    if t_used t && (t_state t =? TASK_BLOCKED) && (t_pipe_wait_fd t =? fd)
    then set_task i ((clear_pipe_wait (t <| t_ctx := set_reg (t_ctx t) RAX 0 |>)) <| t_state := TASK_RUNNABLE |>) k
    else k) k all_tasks.

Definition sys_close (fd : Z) : ST kernel Z :=
  let! k := st_get in
  if negb (fd_ok fd) || negb (f_in_use (file k fd)) then st_ret (- EBADF)
  else
    let t := current_files k in
    let f := file k fd in
    if f_type f =? FD_EPOLL then task_fd_release t fd ;;; st_ret 0
    else if (f_type f =? FD_PTY_MASTER) || (f_type f =? FD_PTY_SLAVE) then
      (match f_private f with
       | PPty i =>
           if f_type f =? FD_PTY_MASTER then st_mod (upd_pty i drop_master)
           else st_mod (upd_pty i (fun p => let p := drop_slave p in
                                    if py_slave_refs p =? 0 then p <| py_output_stopped := false |> else p))
       | _ => st_ret tt
       end) ;;;
      fd_drop_resources t fd ;;; fd_mark_closed t fd ;;;
      let! _ := task_wake_io_waiters in
      st_ret 0
    else if f_type f =? FD_PIPE_R then
      match f_private f with
      | PPipe pi =>
          st_mod (upd_pipe pi drop_reader) ;;;
          fd_drop_resources t fd ;;; fd_mark_closed t fd ;;;
          st_mod (fun k => upd_pipe pi (fun p => p <| pi_readers := pipe_live_readers k pi |>) k) ;;;
          st_mod (eof_waiters fd) ;;;
          st_ret 0
      | _ => st_ret 0
      end
    else if f_type f =? FD_PIPE_W then
      match f_private f with
      | PPipe pi =>
          st_mod (upd_pipe pi drop_writer) ;;;
          fd_drop_resources t fd ;;; fd_mark_closed t fd ;;;
          st_mod (fun k => upd_pipe pi (fun p => p <| pi_writers := pipe_live_writers k pi |>) k) ;;;
          pipe_wake_readers pi ;;;
          st_ret 0
      | _ => st_ret 0
      end
    else if f_type f =? FD_SOCKET then
      socket_fd_drop_ref t fd ;;;
      let! _ := task_wake_io_waiters in
      fd_drop_resources t fd ;;; fd_mark_closed t fd ;;; st_ret 0
    else fd_drop_resources t fd ;;; fd_mark_closed t fd ;;; st_ret 0.

(** ** Duplicating *)

(** The common part of dup2 and dup3. *)
Definition dup_onto (oldfd newfd extra : Z) : ST kernel Z :=
  let! k := st_get in
  (if f_in_use (file k newfd) then let! _ := sys_close newfd in st_ret tt else st_ret tt) ;;;
  let! k := st_get in
  fd_copy_scalar (current_files k) newfd oldfd ;;;
  upd_file newfd (fun f => f <| f_flags := Z.lor (Z.ldiff (f_flags f) O_CLOEXEC) extra |>) ;;;
  let! k := st_get in
  fd_retain_endpoint_ref (current_files k) newfd ;;;
  st_ret newfd.

Definition sys_dup2 (oldfd newfd : Z) : ST kernel Z :=
  let! k := st_get in
  if negb (fd_ok oldfd) || negb (f_in_use (file k oldfd)) || negb (fd_ok newfd) then st_ret (- EBADF)
  else if oldfd =? newfd then st_ret newfd
  else dup_onto oldfd newfd 0.

Definition sys_dup3 (oldfd newfd flags : Z) : ST kernel Z :=
  let! k := st_get in
  if negb (Z.ldiff flags O_CLOEXEC =? 0) then st_ret (- EINVAL)
  else if negb (fd_ok oldfd) || negb (f_in_use (file k oldfd)) || negb (fd_ok newfd) then st_ret (- EBADF)
  else if oldfd =? newfd then st_ret (- EINVAL)
  else dup_onto oldfd newfd (Z.land flags O_CLOEXEC).

Definition sys_fcntl (fd cmd arg : Z) : ST kernel Z :=
  let! k := st_get in
  if negb (fd_ok fd) || negb (f_in_use (file k fd)) then st_ret (- EBADF)
  else if cmd =? 0 then sys_dup_internal fd (s32 arg) false
  else if cmd =? 1 then st_ret (if has (f_flags (file k fd)) O_CLOEXEC then 1 else 0)
  else if cmd =? 2 then
    upd_file fd (fun f => f <| f_flags := Z.lor (Z.ldiff (f_flags f) O_CLOEXEC) (if has arg 1 then O_CLOEXEC else 0) |>) ;;; st_ret 0
  else if cmd =? 3 then st_ret (f_flags (file k fd))
  else if cmd =? 4 then
    upd_file fd (fun f => f <| f_flags := Z.lor (Z.land (f_flags f) O_CLOEXEC) (Z.ldiff (s32 arg) O_CLOEXEC) |>) ;;; st_ret 0
  else if cmd =? 1030 then sys_dup_internal fd (s32 arg) true
  else st_ret (- ENOSYS).
