(* ===== verification/PipeFacts.v ===== *)
(** * Pipes as queues

    The rings of pipes as lists of bytes, and what the copy loops of a pipe
    read do to the queue and to user memory. *)

From S2P Require Import Prelude Words Pmm PmmFacts PageAlloc Vmm VmmFacts VmmMap CStr Vfs Ring.
From S2P Require Import Kernel Tty Fd Sched UserCopy UserMem UserMemThms Pipe.
Local Open Scope Z_scope.

Lemma pipe_cap_pos : 0 < PIPE_CAP. Proof. done. Qed.
#[local] Hint Resolve pipe_cap_pos : core.

(** The bytes in a pipe, oldest first. *)
Definition pipe_list (p : pipe_state) : list Z := ring_list PIPE_CAP (pi_data p) (pi_rpos p) (pi_count p).

Record pipe_ok (p : pipe_state) : Prop := {
  pk_ring : ring_ok PIPE_CAP (pi_rpos p) (pi_wpos p) (pi_count p);
  pk_bytes : Forall (fun b => 0 <= b < 256) (pipe_list p)
}.

Lemma pipe_length p : pipe_ok p -> Z.of_nat (length (pipe_list p)) = pi_count p.
Proof. intros [(_ & Hc & _) _]. apply ring_length. lia. Qed.

Lemma pipe_nil p : pipe_ok p -> pipe_list p = [] <-> pi_count p = 0.
Proof. intros Ho. rewrite <- (pipe_length p Ho). destruct (pipe_list p); cbn [length]; split; intros; (done || lia). Qed.

(** The ends of a pipe. *)
Definition same_ends (p p' : pipe_state) : Prop := pi_readers p' = pi_readers p /\ pi_writers p' = pi_writers p.

Lemma pipe_take_spec n : forall p, pipe_ok p -> (n <= length (pipe_list p))%nat ->
  let '(l, p') := pipe_take n p in
  pipe_ok p' /\ same_ends p p' /\ l = take n (pipe_list p) /\ pipe_list p' = drop n (pipe_list p).
Proof.
  induction n as [|n IH]; intros p Ho Hn; cbn [pipe_take]; [done|].
  pose proof (pipe_length p Ho) as Hlen. destruct Ho as [Hr Hb].
  assert (Hc : 0 < pi_count p) by lia.
  pose proof (ring_pop_ok PIPE_CAP pipe_cap_pos _ _ _ Hr Hc) as Hr'. pose proof (ring_pop PIPE_CAP (pi_data p) _ _ _ Hr Hc) as Hl.
  fold (pipe_list p) in Hl. set (p1 := (p <| pi_rpos := _ |>) <| pi_count := _ |>).
  assert (Hl1 : pipe_list p = arr (pi_data p) (pi_rpos p) :: pipe_list p1) by (rewrite Hl; done).
  assert (Ho1 : pipe_ok p1) by (split; [exact Hr' | rewrite Hl1 in Hb; by apply Forall_cons in Hb as [_ Hb]]).
  assert (Hn1 : (n <= length (pipe_list p1))%nat) by (rewrite Hl1 in Hn; cbn in Hn; lia).
  specialize (IH p1 Ho1 Hn1). destruct (pipe_take n p1) as [l p']. destruct IH as (H1 & [H2 H3] & -> & H4).
  split; [done|]. split; [by split; [rewrite H2 | rewrite H3]|]. rewrite Hl1. cbn [take drop]. done.
Qed.

Lemma pipe_put_ok p b : pipe_ok p -> pi_count p < PIPE_CAP -> 0 <= b < 256 ->
  pipe_ok (pipe_put p b) /\ same_ends p (pipe_put p b) /\ pipe_list (pipe_put p b) = pipe_list p ++ [b].
Proof.
  intros [Hr Hb] Hc Hbyte. assert (Hl : pipe_list (pipe_put p b) = pipe_list p ++ [b])
    by exact (ring_push PIPE_CAP pipe_cap_pos (pi_data p) _ _ _ b Hr Hc).
  split; [|done]. split; [exact (ring_push_ok PIPE_CAP _ _ _ Hr Hc) | rewrite Hl; apply Forall_app; split; [done | by constructor]].
Qed.

Lemma pipe_put_spec l : forall p, pipe_ok p -> pi_count p + Z.of_nat (length l) <= PIPE_CAP -> Forall (fun b => 0 <= b < 256) l ->
  pipe_ok (foldl pipe_put p l) /\ same_ends p (foldl pipe_put p l) /\ pipe_list (foldl pipe_put p l) = pipe_list p ++ l.
Proof.
  induction l as [|b l IH]; intros p Ho Hc Hb; cbn [foldl]; [by rewrite app_nil_r|]. cbn [length] in Hc.
  apply Forall_cons in Hb as [Hb Hl]. destruct (pipe_put_ok p b Ho ltac:(lia) Hb) as (H1 & [H2 H3] & H4).
  destruct (IH (pipe_put p b) H1) as (G1 & [G2 G3] & G4); [cbn; lia | done|].
  split; [done|]. split; [by split; congruence|]. by rewrite G4, H4, <- app_assoc.
Qed.

Lemma pipe_set i p k : pipe (set_pipe i p k) i = p.
Proof. apply cell_insert_eq. Qed.
Lemma pipe_set_ne i j p k : i <> j -> pipe (set_pipe i p k) j = pipe k j.
Proof. apply cell_insert_ne. Qed.

(** Only pipe [pi] and the memory of the machine changed. *)
Definition pipe_frame (pi : Z) (k k' : kernel) : Prop :=
  exists ps m, k' = (k <| k_pipes := ps |>) <| k_vm := m |> /\ (forall j, j <> pi -> pipe k' j = pipe k j) /\
    same_ends (pipe k pi) (pipe k' pi).

Lemma pipe_frame_refl pi k : pipe_frame pi k k.
Proof. exists (k_pipes k), (k_vm k). by destruct k. Qed.

Lemma pipe_frame_trans pi k1 k2 k3 : pipe_frame pi k1 k2 -> pipe_frame pi k2 k3 -> pipe_frame pi k1 k3.
Proof.
  intros (ps & m & -> & H1 & [A1 B1]) (ps' & m' & -> & H2 & [A2 B2]). exists ps', m'. split; [done|].
  split; [intros j Hj; by rewrite H2, H1 | split; congruence].
Qed.

Lemma pipe_frame_set pi p k m : same_ends (pipe k pi) p -> pipe_frame pi k ((set_pipe pi p k) <| k_vm := m |>).
Proof.
  intros Hs. exists (<[pi := p]> (k_pipes k)), m. split; [done|]. split.
  - intros j Hj. by apply (pipe_set_ne pi j p k).
  - change (same_ends (pipe k pi) (pipe (set_pipe pi p k) pi)). by rewrite pipe_set.
Qed.

Section Read.
Context {HB : HhdmBase} {inv : pmm -> Prop} {held : pmm -> Z -> Prop} `{PA : !PageAllocator inv held}.
Local Abbreviation space_ok := (space_ok (inv := inv) (held := held)).

(** The copy loop of a read into the active space: [done] of [count] bytes
    are copied.  A chunk that fails to be copied is lost. *)
Lemma pipe_fill_spec fuel pi buf count : forall done k res k', pipe_ok (pipe k pi) -> (length (pipe_list (pipe k pi)) <= fuel)%nat ->
  0 <= done <= count -> space_ok (k_vm k) -> 0 <= buf -> buf + count <= USER_TOP ->
  pipe_fill fuel pi (m_user_pml4 (k_vm k)) buf count done k = (res, k') ->
  let q := pipe_list (pipe k pi) in
  pipe_ok (pipe k' pi) /\ pipe_frame pi k k' /\ space_ok (k_vm k') /\ m_user_pml4 (k_vm k') = m_user_pml4 (k_vm k) /\
  match res with
  | (Some d, _) => let n := Z.to_nat (d - done) in
      d = done + Z.min (count - done) (Z.of_nat (length q)) /\ pipe_list (pipe k' pi) = drop n q /\
      stored (k_vm k) (k_vm k') (buf + done) (take n q)
  | (None, d) => exists n lost : nat, done <= d <= done + Z.of_nat n /\ (0 < lost)%nat /\
      done + Z.of_nat (n + lost) <= count /\ (n + lost <= length q)%nat /\
      pipe_list (pipe k' pi) = drop (n + lost) q /\ stored (k_vm k) (k_vm k') (buf + done) (take n q)
  end.
Proof.
  induction fuel as [|fuel IH]; intros done k res k' Ho Hf Hd Hs Hb Htop; cbn [pipe_fill]; unfold st_bind at 1, st_get at 1;
    pose proof (pipe_length _ Ho) as Hlen; cbn zeta; set (q := pipe_list (pipe k pi)) in *.
  all: destruct (Z.leb_spec count done) as [Hc|Hc]; cbn [orb];
    [intros [= <- <-]; split; [done|]; split; [apply pipe_frame_refl|]; split; [done|]; split; [done|];
     rewrite Z.sub_diag; split; [lia|]; split; [done|]; by apply stored_nil|].
  all: destruct (Z.eqb_spec (pi_count (pipe k pi)) 0) as [Hz|Hz]; cbn [orb];
    [intros [= <- <-]; split; [done|]; split; [apply pipe_frame_refl|]; split; [done|]; split; [done|];
     rewrite Z.sub_diag; split; [lia|]; split; [done|]; by apply stored_nil|].
  { lia. }
  set (n := Z.min (Z.min (count - done) TMP_SIZE) (pi_count (pipe k pi))). assert (Hn : 0 < n <= pi_count (pipe k pi)) by (unfold n, TMP_SIZE; lia).
  pose proof (pipe_take_spec (Z.to_nat n) (pipe k pi) Ho ltac:(fold q; lia)) as Ht.
  destruct (pipe_take (Z.to_nat n) (pipe k pi)) as [tmp p] eqn:Et. destruct Ht as (Hp & He & Htmp & Hrest). fold q in Htmp, Hrest.
  assert (Hlt : Z.of_nat (length tmp) = n) by (rewrite Htmp, length_take; lia).
  assert (Hbt : Forall (fun b => 0 <= b < 256) tmp) by (rewrite Htmp; apply Forall_take, Ho).
  unfold st_bind at 1, st_mod at 1. rewrite u64_small by (unfold USER_TOP in *; lia).
  unfold st_bind at 1, on_vm. cbn [set_pipe upd_field k_vm].
  destruct (user_copy_to_cr3 _ _ tmp (k_vm k)) as [r m] eqn:Ecp.
  unfold user_copy_to_cr3 in Ecp. rewrite space_root in Ecp by done.
  destruct (copy_to_loop_spec (length tmp) (k_vm k) (buf + done) tmp r m Hs ltac:(lia) ltac:(lia) (le_n _) Hbt Ecp) as (Hs1 & Er & Hres).
  set (k1 := (set_pipe pi p k) <| k_vm := m |>). change (upd_field k_vm (fun _ => m) (set_pipe pi p k)) with k1.
  assert (Hk1 : pipe k1 pi = p) by exact (pipe_set pi p k).
  assert (Hfr : pipe_frame pi k k1) by (by apply pipe_frame_set).
  destruct Hres as [(-> & Hst & _)|(-> & j & Hj & Hst & _)]; cbn [Z.eqb negb].
  - intros Hrec. change (m_user_pml4 (k_vm k)) with (m_user_pml4 (k_vm k)) in Hrec. rewrite <- Er in Hrec. change m with (k_vm k1) in Hrec, Hs1, Hst.
    destruct (IH (done + n) k1 res k') as (G1 & G2 & G3 & G4 & G5); try done; [by rewrite Hk1 | rewrite Hk1, Hrest, length_drop; lia | lia|].
    rewrite Hk1, Hrest in G5. rewrite length_drop in G5.
    split; [done|]. split; [by eapply pipe_frame_trans|]. split; [done|]. split; [by rewrite G4|].
    assert (Happ : forall i, stored (k_vm k1) (k_vm k') (buf + (done + n)) (take i (drop (Z.to_nat n) q)) ->
      stored (k_vm k) (k_vm k') (buf + done) (take (Z.to_nat n + i) q)).
    { intros i Hi. rewrite <- take_take_drop. apply (stored_app (k_vm k) (k_vm k1)); [done | by rewrite <- Htmp|].
      rewrite <- Htmp, Hlt. by replace (buf + done + n) with (buf + (done + n)) by lia. }
    destruct res as [[d|] d'].
    + destruct G5 as (E1 & E2 & E3). replace (Z.to_nat (d - done)) with (Z.to_nat n + Z.to_nat (d - (done + n)))%nat by lia.
      split; [lia|]. split; [by rewrite E2, drop_drop | by apply Happ].
    + destruct G5 as (i & lost & E1 & E2 & E3 & E4 & E5 & E6). exists (Z.to_nat n + i)%nat, lost. split_and!; try lia.
      * rewrite E5, drop_drop. f_equal. lia.
      * by apply Happ.
  - assert (Hef : (- EFAULT =? 0) = false) by done. rewrite ?Hef. cbn [negb]. intros [= <- <-]. split; [by rewrite Hk1|]. split; [done|]. split; [done|]. split; [done|].
    exists j, (Z.to_nat n - j)%nat. replace (j + (Z.to_nat n - j))%nat with (Z.to_nat n) by lia. split_and!; try lia.
    + by rewrite Hk1.
    + rewrite Htmp, take_take in Hst. by replace (j `min` Z.to_nat n)%nat with j in Hst by lia.
Qed.
End Read.

(** ** Writing

    A write wakes the readers that sleep, which take bytes from the front of
    the queue. *)

(** Only pipe [pi], the memory and the tasks changed; [n] bytes were taken. *)
Definition drained (pi : Z) (n : nat) (k k' : kernel) : Prop :=
  exists ps m ts, k' = ((k <| k_pipes := ps |>) <| k_vm := m |>) <| k_tasks := ts |> /\
    (forall j, j <> pi -> pipe k' j = pipe k j) /\ same_ends (pipe k pi) (pipe k' pi) /\
    pipe_ok (pipe k' pi) /\ (n <= length (pipe_list (pipe k pi)))%nat /\ pipe_list (pipe k' pi) = drop n (pipe_list (pipe k pi)).

Lemma drained_refl pi k : pipe_ok (pipe k pi) -> drained pi 0 k k.
Proof. intros Ho. exists (k_pipes k), (k_vm k), (k_tasks k). split; [by destruct k|]. split_and!; try done. lia. Qed.

Lemma drained_trans pi a b k1 k2 k3 : drained pi a k1 k2 -> drained pi b k2 k3 -> drained pi (a + b) k1 k3.
Proof.
  intros (p1 & m1 & t1 & -> & H1 & [A1 B1] & O1 & L1 & Q1) (p2 & m2 & t2 & -> & H2 & [A2 B2] & O2 & L2 & Q2).
  exists p2, m2, t2. split; [done|]. split; [intros j Hj; by rewrite H2, H1|]. split; [split; congruence|]. split; [done|].
  rewrite Q1, length_drop in L2. split; [lia|]. by rewrite Q2, Q1, drop_drop.
Qed.

Lemma drained_task pi i t k : pipe_ok (pipe k pi) -> drained pi 0 k (set_task i t k).
Proof. intros Ho. exists (k_pipes k), (k_vm k), (<[i := t]> (k_tasks k)). split; [by destruct k|]. split_and!; try done. cbn. lia. Qed.

Lemma drained_take pi n k : pipe_ok (pipe k pi) -> (n <= length (pipe_list (pipe k pi)))%nat ->
  drained pi n k (set_pipe pi (snd (pipe_take n (pipe k pi))) k).
Proof.
  intros Ho Hn. pose proof (pipe_take_spec n _ Ho Hn) as H. destruct (pipe_take n (pipe k pi)) as [l p]. destruct H as (H1 & H2 & H3 & H4).
  exists (<[pi := p]> (k_pipes k)), (k_vm k), (k_tasks k). cbn [snd]. split; [by destruct k|].
  rewrite pipe_set. split_and!; try done. intros j Hj. by apply pipe_set_ne.
Qed.

Lemma drained_vm pi n k k' m : drained pi n k k' -> drained pi n k (k' <| k_vm := m |>).
Proof. intros (ps & m' & ts & -> & H). by exists ps, m, ts. Qed.

Lemma pipe_fill_drained fuel pi cr3 buf count : forall done k, pipe_ok (pipe k pi) ->
  exists n, drained pi n k (snd (pipe_fill fuel pi cr3 buf count done k)).
Proof.
  induction fuel as [|fuel IH]; intros done k Ho; cbn [pipe_fill]; unfold st_bind at 1, st_get at 1; pose proof (pipe_length _ Ho) as Hlen;
    destruct (_ || _) eqn:Hc; try (exists 0%nat; by apply drained_refl).
  set (n := Z.min (Z.min (count - done) TMP_SIZE) (pi_count (pipe k pi))).
  pose proof (drained_take pi (Z.to_nat n) k Ho ltac:(unfold n; lia)) as Hd.
  destruct (pipe_take (Z.to_nat n) (pipe k pi)) as [tmp p]. cbn [snd] in Hd.
  unfold st_bind at 1, st_mod at 1, st_bind at 1, on_vm. destruct (user_copy_to_cr3 _ _ tmp _) as [r m].
  pose proof (drained_vm pi _ _ _ m Hd) as Hd1. set (k1 := _ <| k_vm := m |>) in *.
  destruct (negb (r =? 0)); [by exists (Z.to_nat n)|].
  destruct (IH (done + n) k1) as [n' Hn']; [by destruct Hd1 as (? & ? & ? & _ & _ & _ & Ho1 & _)|].
  exists (Z.to_nat n + n')%nat. by eapply drained_trans.
Qed.

Lemma drained_upd_task pi n i f k k' : drained pi n k k' -> drained pi n k (upd_task i f k').
Proof.
  intros Hd. rewrite <- (Nat.add_0_r n). eapply drained_trans; [exact Hd|]. apply drained_task.
  by destruct Hd as (? & ? & ? & _ & _ & _ & Ho & _).
Qed.

Lemma read_into_drained ti pi k : pipe_ok (pipe k pi) -> exists n, drained pi n k (snd (pipe_read_into_task ti pi k)).
Proof.
  intros Ho. unfold pipe_read_into_task, st_bind at 1, st_get at 1. cbn zeta.
  destruct (_ || _); [exists 0%nat; by apply drained_refl|]. unfold st_bind at 1.
  destruct (pipe_fill_drained (Z.to_nat (pi_count (pipe k pi))) pi (t_ctx (task k ti) CR3) (t_pipe_wait_buf (task k ti))
    (t_pipe_wait_count (task k ti)) 0 k Ho) as [n Hn].
  destruct (pipe_fill _ _ _ _ _ _ k) as [[[d|] d'] k1]; exists n; cbn [snd] in *; by apply drained_upd_task.
Qed.

(** No task sleeps in a read of the pipe. *)
Definition no_waiters (pi : Z) (k : kernel) : Prop := forall i, i ∈ all_tasks -> waits_on_pipe k pi i = false.

Lemma wake_readers_drained pi k : pipe_ok (pipe k pi) -> exists n, drained pi n k (snd (pipe_wake_readers pi k)).
Proof.
  intros Ho. unfold pipe_wake_readers. cbn [snd].
  apply (foldl_inv (fun k' => exists n, drained pi n k k')); [|exists 0%nat; by apply drained_refl].
  intros k' i _ [n Hn]. destruct (waits_on_pipe k' pi i); [|by exists n].
  destruct (read_into_drained i pi k') as [n' Hn']; [by destruct Hn as (? & ? & ? & _ & _ & _ & Ho' & _)|].
  exists (n + n')%nat. by eapply drained_trans.
Qed.

Lemma wake_readers_none pi k : no_waiters pi k -> snd (pipe_wake_readers pi k) = k.
Proof.
  intros Hn. unfold pipe_wake_readers. cbn [snd]. unfold no_waiters in Hn. revert Hn. generalize all_tasks. intros l.
  induction l as [|i l IH]; intros Hn; [done|]. cbn [foldl]. rewrite Hn by left. apply IH. intros j Hj. apply Hn. by right.
Qed.

(** What a write of pipe [pi] did: [l] was appended, [taken] went to readers. *)
Definition wrote (pi : Z) (l : list Z) (k k' : kernel) : Prop :=
  (exists ps m ts, k' = ((k <| k_pipes := ps |>) <| k_vm := m |>) <| k_tasks := ts |>) /\
  (forall j, j <> pi -> pipe k' j = pipe k j) /\ same_ends (pipe k pi) (pipe k' pi) /\ pipe_ok (pipe k' pi) /\
  (exists taken, pipe_list (pipe k pi) ++ l = taken ++ pipe_list (pipe k' pi) /\ (no_waiters pi k -> taken = [])) /\
  (no_waiters pi k -> no_waiters pi k' /\ k_vm k' = k_vm k).

Lemma wrote_nil pi k : pipe_ok (pipe k pi) -> wrote pi [] k k.
Proof.
  intros Ho. split; [exists (k_pipes k), (k_vm k), (k_tasks k); by destruct k|]. split_and!; try done.
  exists []. by rewrite app_nil_r.
Qed.

Lemma wrote_trans pi l1 l2 k1 k2 k3 : wrote pi l1 k1 k2 -> wrote pi l2 k2 k3 -> wrote pi (l1 ++ l2) k1 k3.
Proof.
  intros ((p1 & m1 & t1 & E1) & H1 & [A1 B1] & O1 & (c1 & Q1 & N1) & W1) ((p2 & m2 & t2 & E2) & H2 & [A2 B2] & O2 & (c2 & Q2 & N2) & W2).
  split; [exists p2, m2, t2; by rewrite E2, E1|]. split; [intros j Hj; by rewrite H2, H1|]. split; [split; congruence|].
  split; [done|]. split.
  - exists (c1 ++ c2). split; [by rewrite app_assoc, Q1, <- app_assoc, Q2, app_assoc|]. intros Hn.
    destruct (W1 Hn) as [Hn' _]. by rewrite (N1 Hn), (N2 Hn').
  - intros Hn. destruct (W1 Hn) as [Hn' Hv]. destruct (W2 Hn') as [Hn'' Hv']. split; [done | congruence].
Qed.

Lemma wrote_chunk pi tmp k : pipe_ok (pipe k pi) -> pi_count (pipe k pi) + Z.of_nat (length tmp) <= PIPE_CAP ->
  Forall (fun b => 0 <= b < 256) tmp -> wrote pi tmp k (snd (pipe_wake_readers pi (set_pipe pi (foldl pipe_put (pipe k pi) tmp) k))).
Proof.
  intros Ho Hc Hb. destruct (pipe_put_spec tmp _ Ho Hc Hb) as (O1 & [A1 B1] & Q1). set (k1 := set_pipe pi _ k).
  assert (Ek : pipe k1 pi = foldl pipe_put (pipe k pi) tmp) by apply pipe_set.
  destruct (wake_readers_drained pi k1) as [n (ps & m & ts & E & Hj & [A2 B2] & O2 & Hn & Q2)]; [by rewrite Ek|].
  rewrite Ek in A2, B2, Hn, Q2. set (k2 := snd _) in *. split; [exists ps, m, ts; by rewrite E|].
  split; [intros j Hne; rewrite Hj by done; by apply pipe_set_ne|]. split; [split; congruence|]. split; [done|].
  assert (Hnw : no_waiters pi k -> k2 = k1) by (intros Hn'; by apply wake_readers_none).
  split.
  - exists (take n (pipe_list (foldl pipe_put (pipe k pi) tmp))). rewrite Q2, take_drop, Q1. split; [done|].
    intros Hn'. rewrite (Hnw Hn'), Ek in Q2.
    assert (El : length (pipe_list (foldl pipe_put (pipe k pi) tmp)) = length (drop n (pipe_list (foldl pipe_put (pipe k pi) tmp)))) by (by rewrite <- Q2).
    rewrite length_drop in El. rewrite <- Q1. destruct n; [done|]. assert (length (pipe_list (foldl pipe_put (pipe k pi) tmp)) = 0%nat) by lia.
    by destruct (pipe_list _).
  - intros Hn'. rewrite (Hnw Hn'). done.
Qed.

Lemma read_bytes_range mem p n : Forall (fun b => 0 <= b < 256) (read_bytes mem p n).
Proof. apply Forall_forall. intros b Hb. unfold read_bytes in Hb. apply list_elem_of_fmap in Hb as (i & -> & _). apply ld8_range. Qed.

Lemma copy_from_range fuel m cr3 : forall src len l, copy_from_loop fuel m cr3 src len = Some l -> Forall (fun b => 0 <= b < 256) l.
Proof.
  induction fuel as [|fuel IH]; intros src len l; cbn [copy_from_loop]; destruct (len =? 0); try (by intros [= <-]).
  destruct (user_page _ _ _) as [[phys ?]|]; [|done]. destruct (pmm_phys_to_virt _ _); [|done].
  destruct (copy_from_loop fuel _ _ _ _) as [rest|] eqn:E; [|done]. intros [= <-]. apply Forall_app. split; [apply read_bytes_range | by eapply IH].
Qed.

Lemma copy_from_length m cr3 src len l : is_u64 src -> 0 <= len -> user_copy_from_cr3 m cr3 src len = Some l ->
  Z.of_nat (length l) = len /\ Forall (fun b => 0 <= b < 256) l.
Proof.
  intros Hs Hl. unfold user_copy_from_cr3. destruct (cr3 =? 0); [done|]. intros E. split; [|by eapply copy_from_range].
  rewrite copy_from_loop_eq in E by (done || lia). apply length_mapM in E. rewrite length_seqZ in E. lia.
Qed.

Lemma wrote_copy_from pi l k k' src n : wrote pi l k k' -> no_waiters pi k -> user_copy_from k' src n = user_copy_from k src n.
Proof.
  intros ((ps & m & ts & E) & _ & _ & _ & _ & W) Hn. destruct (W Hn) as [_ Hv]. unfold user_copy_from, syscall_cr3. rewrite Hv.
  by rewrite E.
Qed.

(** Without readers that sleep, a write that stops early stops at a full pipe
    or at a byte of the buffer that cannot be read. *)
Definition stops (pi buf r : Z) (k k' : kernel) : Prop :=
  pi_count (pipe k' pi) = PIPE_CAP \/ exists n, 0 < n /\ user_copy_from k (u64 (buf + r)) n = None.

Lemma copy_from_more k buf done l1 l2 : is_u64 buf ->
  user_copy_from k (u64 (buf + done)) (Z.of_nat (length l1)) = Some l1 ->
  l2 = [] \/ user_copy_from k (u64 (buf + (done + Z.of_nat (length l1)))) (Z.of_nat (length l2)) = Some l2 ->
  user_copy_from k (u64 (buf + done)) (Z.of_nat (length (l1 ++ l2))) = Some (l1 ++ l2).
Proof.
  intros Hb H1 [->|H2]; [by rewrite app_nil_r|]. unfold user_copy_from in *. rewrite length_app, Nat2Z.inj_add.
  rewrite copy_from_app by (apply u64_range || lia). rewrite H1.
  replace (u64 (u64 (buf + done) + Z.of_nat (length l1))) with (u64 (buf + (done + Z.of_nat (length l1)))); [by rewrite H2|].
  unfold u64. rewrite Zplus_mod_idemp_l. f_equal. lia.
Qed.

Lemma pipe_write_loop_spec fuel pi flags buf count : is_u64 buf -> forall done k r k', pipe_ok (pipe k pi) ->
  0 <= done -> count - done <= Z.of_nat fuel -> pipe_write_loop fuel pi flags buf count done k = (r, k') ->
  exists l, wrote pi l k k' /\ (r = done + Z.of_nat (length l) \/ (done = 0 /\ l = [] /\ (r = - EAGAIN \/ r = - EFAULT))) /\
    done + Z.of_nat (length l) <= Z.max done count /\
    (no_waiters pi k -> (l = [] \/ user_copy_from k (u64 (buf + done)) (Z.of_nat (length l)) = Some l) /\
                        (r < count -> stops pi buf (done + Z.of_nat (length l)) k k')).
Proof.
  intros Hb. induction fuel as [|fuel IH]; intros done k r k' Ho Hd Hf; cbn [pipe_write_loop]; unfold st_bind at 1, st_get at 1.
  { rewrite (proj2 (Z.leb_le count done)) by lia. intros [= <- <-]. exists []. cbn [length]. rewrite Z.add_0_r.
    split; [by apply wrote_nil|]. split; [by left|]. split; [lia|]. intros _. split; [by left | lia]. }
  destruct (Z.leb_spec count done) as [Hc|Hc].
  { intros [= <- <-]. exists []. cbn [length]. rewrite Z.add_0_r. split; [by apply wrote_nil|]. split; [by left|]. split; [lia|].
    intros _. split; [by left | lia]. }
  assert (Hstop : forall r', r' = done \/ (done = 0 /\ (r' = - EAGAIN \/ r' = - EFAULT)) -> stops pi buf done k k -> (r', k) = (r, k') ->
    exists l, wrote pi l k k' /\ (r = done + Z.of_nat (length l) \/ (done = 0 /\ l = [] /\ (r = - EAGAIN \/ r = - EFAULT))) /\
    done + Z.of_nat (length l) <= Z.max done count /\
    (no_waiters pi k -> (l = [] \/ user_copy_from k (u64 (buf + done)) (Z.of_nat (length l)) = Some l) /\
                        (r < count -> stops pi buf (done + Z.of_nat (length l)) k k'))).
  { intros r' Hr' Hst [= <- <-]. exists []. cbn [length]. rewrite Z.add_0_r. split; [by apply wrote_nil|].
    split; [destruct Hr' as [|[? ?]]; [by left | by right]|]. split; [lia|]. intros _. split; [by left | done]. }
  destruct (Z.eqb_spec (pi_count (pipe k pi)) PIPE_CAP) as [Hfull|Hfull].
  { apply Hstop; [|by left]. destruct (has flags O_NONBLOCK), (Z.eqb_spec done 0); cbn [negb]; auto. }
  set (n := Z.min (Z.min (count - done) TMP_SIZE) (PIPE_CAP - pi_count (pipe k pi))).
  pose proof (pk_ring _ Ho) as (_ & Hcnt & _). assert (Hn : 0 < n <= count - done) by (unfold n, TMP_SIZE; lia).
  assert (Hnc : pi_count (pipe k pi) + n <= PIPE_CAP) by (unfold n; lia).
  destruct (user_copy_from k (u64 (buf + done)) n) as [tmp|] eqn:Ecp.
  2: { apply Hstop; [|right; by exists n; split; [lia|]]. destruct (Z.eqb_spec done 0); cbn [negb]; auto. }
  destruct (copy_from_length (k_vm k) (syscall_cr3 k) (u64 (buf + done)) n tmp (u64_range _) ltac:(lia) Ecp) as [Hl Hby].
  unfold st_bind at 1, st_mod. unfold st_bind at 1.
  pose proof (wrote_chunk pi tmp k Ho ltac:(lia) Hby) as Hw.
  destruct (pipe_wake_readers pi _) as [u k1]. cbn [snd] in Hw. unfold st_bind at 1, st_get at 1.
  pose proof (proj1 (proj2 (proj2 (proj2 Hw)))) as Ho1.
  destruct ((done + n <? count) && (pi_count (pipe k1 pi) =? PIPE_CAP)) eqn:Estop.
  - apply andb_prop in Estop as [Hlt%Z.ltb_lt Hfull1%Z.eqb_eq]. intros [= <- <-]. exists tmp. split; [done|]. rewrite Hl.
    split; [by left|]. split; [lia|]. intros _. split; [by right | intros _; by left].
  - intros Hrec. destruct (IH (done + n) k1 r k' Ho1 ltac:(lia) ltac:(lia) Hrec) as (l2 & W2 & R2 & L2 & S2).
    exists (tmp ++ l2). split; [by eapply wrote_trans|]. rewrite length_app, Nat2Z.inj_add, Hl.
    split; [left; destruct R2 as [->|(? & _)]; lia|]. split; [lia|]. intros Hnw.
    pose proof Hw as (_ & _ & _ & _ & _ & W1). destruct (W1 Hnw) as [Hnw1 Hvm]. destruct (S2 Hnw1) as [S2a S2b].
    assert (Hcf : forall src m, user_copy_from k1 src m = user_copy_from k src m)
      by (intros src m; apply (wrote_copy_from pi tmp); done).
    split.
    + right. rewrite <- Hl. rewrite <- Nat2Z.inj_add, <- length_app. apply copy_from_more; [done | by rewrite Hl|].
      rewrite Hl. destruct S2a as [->|S2a]; [by left | right; by rewrite <- Hcf].
    + intros Hlt. replace (done + (n + Z.of_nat (length l2))) with (done + n + Z.of_nat (length l2)) by lia.
      destruct (S2b Hlt) as [?|(m & Hm & S)]; [by left | right; exists m; split; [done|]; by rewrite <- Hcf].
Qed.

(** The open ends do not depend on the pipes. *)
Lemma has_readers_set i p k pi : pipe_has_readers (set_pipe i p k) pi = pipe_has_readers k pi.
Proof.
  unfold pipe_has_readers, pipe_live_readers, pipe_live. generalize all_slots. intros l.
  assert (E : forall s, open_slot (set_pipe i p k) s = open_slot k s) by done.
  erewrite List.filter_ext; [reflexivity|]. intros s. by rewrite E.
Qed.
