(* ===== verification/PipeThms.v ===== *)
(** * Properties of pipes *)

From S2P Require Import Prelude Words Pmm PmmFacts PmmInit PmmThms PageAlloc.
From S2P Require Import Vmm VmmFacts VmmMap VmmSpace VmmThms CStr Vfs Ring.
From S2P Require Import Kernel Tty Fd Sched UserCopy UserMem UserMemThms Pipe PipeFacts.
Local Open Scope Z_scope.

Section Claims.
Context {HB : HhdmBase} {inv : pmm -> Prop} {held : pmm -> Z -> Prop} `{PA : !PageAllocator inv held}.
Local Abbreviation space_ok := (space_ok (inv := inv) (held := held)).

End Claims.


(** ** A pipe in a process *)

#[local] Existing Instance demo_hhdm.

(** Pipe 0 with its ends at descriptors 3 and 4 of the running process. *)
Definition pipe_kernel : kernel :=
  set_pipe 0 (blank_pipe_state <| pi_readers := 1 |> <| pi_writers := 1 |>)
    (set_fdesc 0 3 (blank_file_desc <| f_in_use := true |> <| f_type := FD_PIPE_R |> <| f_private := PPipe 0 |>)
    (set_fdesc 0 4 (blank_file_desc <| f_in_use := true |> <| f_type := FD_PIPE_W |> <| f_private := PPipe 0 |>)
    (set_table_refs 0 1 (blank_kernel <| k_vm := demo_copied |>)))).

Lemma pipe_kernel_ok : pipe_ok (pipe pipe_kernel 0).
Proof. unfold pipe_kernel. rewrite pipe_set. split; [vm_compute; split_and!; done | constructor]. Qed.

Definition pipe_written : kernel := snd (sys_write_pipe 0 0 0x400010 2 pipe_kernel).

Lemma pipe_written_ok : fst (sys_write_pipe 0 0 0x400010 2 pipe_kernel) = 2.
Proof. vm_compute. reflexivity. Qed.

Lemma pipe_written_eq : sys_write_pipe 0 0 0x400010 2 pipe_kernel = (2, pipe_written).
Proof. unfold pipe_written. apply run_eq, pipe_written_ok. Qed.

Lemma pipe_no_waiters : no_waiters 0 pipe_kernel.
Proof. intros i Hi. unfold waits_on_pipe. by replace (t_used (task pipe_kernel i)) with false. Qed.

Lemma pipe_kernel_nil : pipe_list (pipe pipe_kernel 0) = [].
Proof. unfold pipe_kernel. by rewrite pipe_set. Qed.


(** A pipe that holds "hi", read into the mapped page. *)
Definition full_pipe : pipe_state := foldl pipe_put (blank_pipe_state <| pi_readers := 1 |> <| pi_writers := 1 |>) [104; 105].
Definition full_kernel : kernel := set_pipe 0 full_pipe (blank_kernel <| k_vm := demo_mapped |>).
Definition read_kernel : kernel := snd (sys_read_pipe 0 0x400100 16 full_kernel).

Lemma full_pipe_ok : pipe_ok (pipe full_kernel 0) /\ pipe_list (pipe full_kernel 0) = [104; 105].
Proof.
  unfold full_kernel. rewrite pipe_set.
  assert (Ho : pipe_ok (blank_pipe_state <| pi_readers := 1 |> <| pi_writers := 1 |>))
    by (split; [vm_compute; split_and!; done | constructor]).
  destruct (pipe_put_spec [104; 105] _ Ho) as (H1 & _ & H2); [vm_compute; congruence | exact demo_bytes|]. split; [exact H1 | exact H2].
Qed.

Lemma read_kernel_ok : fst (sys_read_pipe 0 0x400100 16 full_kernel) = 2.
Proof. vm_compute. reflexivity. Qed.

Lemma read_kernel_eq : sys_read_pipe 0 0x400100 16 full_kernel = (2, read_kernel).
Proof. unfold read_kernel. apply run_eq, read_kernel_ok. Qed.

Lemma full_cr3 : syscall_cr3 full_kernel = m_user_pml4 (k_vm full_kernel).
Proof. vm_compute. reflexivity. Qed.

Lemma full_range : (0 <? 16) && ((0x400100 =? 0) || negb (user_range_ok full_kernel 0x400100 16 true)) = false.
Proof. vm_compute. reflexivity. Qed.

