(* ===== verification/FdFacts.v ===== *)
(** * What descriptors hold

    Every open descriptor holds references: on an end of a pipe or terminal,
    on its shared offset, on its epoll set and on its input position.
    [counter] is the count the kernel keeps, [tally] the number of open
    descriptors that hold the resource. *)

From S2P Require Import Prelude Words Pmm Vmm CStr Vfs Kernel Tty Fd Sched SchedFacts UserCopy Pipe.
Local Open Scope Z_scope.
Local Open Scope st_scope.

Inductive resource :=
  | PipeReaders (i : Z) | PipeWriters (i : Z) | PtyMasters (i : Z) | PtySlaves (i : Z)
  | Offset (i : Z) | EpollRefs (i : Z) | InputRefs (i : Z).

Definition uses (f : file_desc) (r : resource) : bool :=
  match r with
  | PipeReaders i => (f_type f =? FD_PIPE_R) && bool_decide (f_private f = PPipe i)
  | PipeWriters i => (f_type f =? FD_PIPE_W) && bool_decide (f_private f = PPipe i)
  | PtyMasters i => (f_type f =? FD_PTY_MASTER) && bool_decide (f_private f = PPty i)
  | PtySlaves i => (f_type f =? FD_PTY_SLAVE) && bool_decide (f_private f = PPty i)
  | Offset i => bool_decide (f_shared_offset f = Some i)
  | EpollRefs i => bool_decide (epoll_state_for_file f = Some i)
  | InputRefs i => bool_decide (f_input_state f = Some i)
  end.

Definition counter (k : kernel) (r : resource) : Z :=
  match r with
  | PipeReaders i => pi_readers (pipe k i)
  | PipeWriters i => pi_writers (pipe k i)
  | PtyMasters i => py_master_refs (pty k i)
  | PtySlaves i => py_slave_refs (pty k i)
  | Offset i => od_refs (open_desc k i)
  | EpollRefs i => ep_refs (epoll k i)
  | InputRefs i => is_refs (in_state k i)
  end.

(** The flag kept beside the count. *)
Definition alive (k : kernel) (r : resource) : bool :=
  match r with
  | PipeReaders i => negb (pi_readers (pipe k i) =? 0)
  | PipeWriters i => negb (pi_writers (pipe k i) =? 0)
  | PtyMasters i => py_master_open (pty k i)
  | PtySlaves i => py_slave_open (pty k i)
  | Offset i => od_used (open_desc k i)
  | EpollRefs i => ep_used (epoll k i)
  | InputRefs i => is_used (in_state k i)
  end.

Definition weight (f : file_desc) (r : resource) : Z := if f_in_use f then Z.b2z (uses f r) else 0.
Definition tally (k : kernel) (r : resource) : Z := sumZ (fun s => weight (fdesc k (fst s) (snd s)) r) all_slots.

Definition alive_ok (k : kernel) : Prop := forall r, alive k r = negb (counter k r =? 0).

(** The counts are right. *)
Definition refs_ok (k : kernel) : Prop := alive_ok k /\ forall r, counter k r = tally k r.

Lemma weight_range f r : 0 <= weight f r <= 1.
Proof. unfold weight. destruct (f_in_use f), (uses f r); cbn; lia. Qed.

(** ** Slots *)

Definition in_slots (t fd : Z) : Prop := 0 <= t < MAX_FD_TABLES /\ 0 <= fd < MAX_FILES.

Lemma all_slots_elem t fd : (t, fd) ∈ all_slots <-> in_slots t fd.
Proof. unfold all_slots, in_slots. rewrite list_elem_of_In, in_prod_iff, <- !list_elem_of_In, !elem_of_seqZ. lia. Qed.

Lemma all_slots_nodup : NoDup all_slots.
Proof.
  unfold all_slots. generalize (NoDup_seqZ 0 MAX_FD_TABLES). generalize (seqZ 0 MAX_FD_TABLES). intros l.
  induction l as [|t l IH]; intros Hl; [apply NoDup_nil_2|]. apply NoDup_cons in Hl as [Ht Hl]. cbn [list_prod].
  apply NoDup_app. split; [|split; [|by apply IH]].
  - apply NoDup_fmap_2; [intros x y [= ?]; done | apply NoDup_seqZ].
  - intros [t' x] Hx%list_elem_of_fmap Hin. destruct Hx as (y & [= -> ->] & _).
    apply list_elem_of_In, in_prod_iff in Hin as [Hin _]. by apply Ht, list_elem_of_In.
Qed.

Definition SLOTS : Z := MAX_FD_TABLES * MAX_FILES.

Lemma all_slots_length : Z.of_nat (length all_slots) = SLOTS.
Proof. unfold all_slots, SLOTS. rewrite length_prod, !length_seqZ, Nat2Z.inj_mul, !Z2Nat.id by done. reflexivity. Qed.

Lemma tally_range k r : 0 <= tally k r <= SLOTS.
Proof.
  unfold tally. split.
  - apply sumZ_nonneg. intros. apply weight_range.
  - rewrite <- all_slots_length. apply sumZ_bound. intros. apply weight_range.
Qed.

Lemma tally_elem k t fd r : in_slots t fd -> weight (fdesc k t fd) r <= tally k r.
Proof.
  intros H. apply (sumZ_elem (fun s => weight (fdesc k (fst s) (snd s)) r) _ (t, fd)); [by apply all_slots_elem|].
  intros y _. apply weight_range.
Qed.

Lemma fdesc_insert k k' t fd f t' fd' : k_fd_tables k' = <[(t, fd) := f]> (k_fd_tables k) ->
  fdesc k' t' fd' = if (t =? t') && (fd =? fd') then f else fdesc k t' fd'.
Proof.
  intros E. unfold fdesc. rewrite E, lookup_insert. destruct (Z.eqb_spec t t') as [->|Ht], (Z.eqb_spec fd fd') as [->|Hf]; cbn [andb];
    [by rewrite decide_True | by rewrite decide_False by congruence..].
Qed.

Lemma fdesc_insert_eq k k' t fd f : k_fd_tables k' = <[(t, fd) := f]> (k_fd_tables k) -> fdesc k' t fd = f.
Proof. intros E. by rewrite (fdesc_insert k k' t fd f) , !Z.eqb_refl by done. Qed.

Lemma tally_insert k k' t fd f r : in_slots t fd -> k_fd_tables k' = <[(t, fd) := f]> (k_fd_tables k) ->
  tally k' r = tally k r - weight (fdesc k t fd) r + weight f r.
Proof.
  intros Hin E. unfold tally.
  rewrite (sumZ_update (fun s => weight (fdesc k (fst s) (snd s)) r) _ _ (t, fd)); [|apply all_slots_nodup | by apply all_slots_elem|].
  - cbn [fst snd]. by rewrite (fdesc_insert_eq k k' t fd f).
  - intros [t' fd'] _ Hne. cbn [fst snd]. rewrite (fdesc_insert k k' t fd f) by done.
    destruct (Z.eqb_spec t t') as [->|], (Z.eqb_spec fd fd') as [->|]; cbn [andb]; done.
Qed.

(** A descriptor that is open keeps its resources alive. *)
Definition held_by (k : kernel) (f : file_desc) : Prop := forall r, uses f r = true -> 1 <= counter k r < UINT32_MAX.

Lemma slot_held k t fd : refs_ok k -> in_slots t fd -> f_in_use (fdesc k t fd) = true -> held_by k (fdesc k t fd).
Proof.
  intros [_ Hc] Hin Hu r Hr. rewrite Hc. pose proof (tally_elem k t fd r Hin) as H. pose proof (tally_range k r).
  unfold weight in H. rewrite Hu, Hr in H. cbn in H. unfold SLOTS, MAX_FD_TABLES, MAX_FILES, UINT32_MAX in *. lia.
Qed.

(** ** Changes of counts *)

Definition same_tabs (k k' : kernel) : Prop :=
  k_fd_tables k' = k_fd_tables k /\ k_fd_table_id k' = k_fd_table_id k /\ k_fd_table_refs k' = k_fd_table_refs k /\
  k_current k' = k_current k.

(** The same, but the descriptor in slot [(t, fd)] is [f]. *)
Definition set_slot (t fd : Z) (f : file_desc) (k k' : kernel) : Prop :=
  k_fd_tables k' = <[(t, fd) := f]> (k_fd_tables k) /\ k_fd_table_id k' = k_fd_table_id k /\
  k_fd_table_refs k' = k_fd_table_refs k /\ k_current k' = k_current k.

Lemma same_tabs_refl k : same_tabs k k.
Proof. done. Qed.
Lemma same_tabs_trans k1 k2 k3 : same_tabs k1 k2 -> same_tabs k2 k3 -> same_tabs k1 k3.
Proof. intros (A1 & A2 & A3 & A4) (B1 & B2 & B3 & B4). repeat split; congruence. Qed.
Lemma set_slot_same t fd f k1 k2 k3 : set_slot t fd f k1 k2 -> same_tabs k2 k3 -> set_slot t fd f k1 k3.
Proof. intros (A1 & A2 & A3 & A4) (B1 & B2 & B3 & B4). repeat split; congruence. Qed.
Lemma same_set_slot t fd f k1 k2 k3 : same_tabs k1 k2 -> set_slot t fd f k2 k3 -> set_slot t fd f k1 k3.
Proof. intros (A1 & A2 & A3 & A4) (B1 & B2 & B3 & B4). repeat split; congruence. Qed.
Lemma set_slot_set t fd f g k1 k2 k3 : set_slot t fd f k1 k2 -> set_slot t fd g k2 k3 -> set_slot t fd g k1 k3.
Proof. intros (A1 & A2 & A3 & A4) (B1 & B2 & B3 & B4). repeat split; [by rewrite B1, A1, insert_insert_eq | congruence..]. Qed.
Lemma set_slot_fdesc t fd f k : set_slot t fd f k (set_fdesc t fd f k).
Proof. done. Qed.
Lemma same_fdesc k k' t fd : same_tabs k k' -> fdesc k' t fd = fdesc k t fd.
Proof. intros (E & _). unfold fdesc. by rewrite E. Qed.
Lemma same_table_id k k' ti : same_tabs k k' -> table_id k' ti = table_id k ti.
Proof. intros (_ & E & _). unfold table_id. by rewrite E. Qed.
Lemma slot_table_id t fd f k k' ti : set_slot t fd f k k' -> table_id k' ti = table_id k ti.
Proof. intros (_ & E & _). unfold table_id. by rewrite E. Qed.

(** The counts move by [d], and the flags keep saying which are 0. *)
Definition shift (d : resource -> Z) (k k' : kernel) : Prop :=
  alive_ok k' /\ forall r, counter k' r = counter k r + d r.

Lemma shift_trans d1 d2 k1 k2 k3 : shift d1 k1 k2 -> shift d2 k2 k3 -> shift (fun r => d1 r + d2 r) k1 k3.
Proof. intros [_ A] [B C]. split; [done|]. intros r. rewrite C, A. lia. Qed.
Lemma shift_ext d d' k k' : (forall r, d r = d' r) -> shift d k k' -> shift d' k k'.
Proof. intros E [A B]. split; [done|]. intros r. by rewrite B, E. Qed.

(** Same counts and same flags. *)
Definition same_counts (k k' : kernel) : Prop := forall r, counter k' r = counter k r /\ alive k' r = alive k r.
Lemma same_counts_shift k k' : alive_ok k -> same_counts k k' -> shift (fun _ => 0) k k'.
Proof. intros Ha H. split; [|intros r; destruct (H r) as [-> _]; lia]. intros r. destruct (H r) as [-> ->]. apply Ha. Qed.
Lemma shift_same d k1 k2 k3 : shift d k1 k2 -> same_counts k2 k3 -> shift d k1 k3.
Proof. intros H1 H2. refine (shift_ext _ _ _ _ _ (shift_trans _ _ _ _ _ H1 (same_counts_shift _ _ (proj1 H1) H2))). intros r. lia. Qed.
Lemma same_shift d k1 k2 k3 : same_counts k1 k2 -> shift d k2 k3 -> shift d k1 k3.
Proof. intros H1 [A B]. split; [done|]. intros r. rewrite B. by destruct (H1 r) as [-> _]. Qed.
Lemma same_counts_refl k : same_counts k k.
Proof. done. Qed.
Lemma same_counts_trans k1 k2 k3 : same_counts k1 k2 -> same_counts k2 k3 -> same_counts k1 k3.
Proof. intros A B r. destruct (A r) as [E1 E2], (B r) as [-> ->]. done. Qed.
Lemma same_counts_fdesc t fd f k : same_counts k (set_fdesc t fd f k).
Proof. by intros []. Qed.

(** ** Retaining and releasing one reference *)

(** Case analysis on which resource is looked at. *)
Ltac counts := intros []; cbn [counter alive];
  unfold set_in_state, in_state, set_open_desc, open_desc, set_epoll, epoll, upd_pipe, set_pipe, pipe, upd_pty, set_pty, pty,
    set_sock in *;
  cbn [upd_field k_input_states k_open_descs k_epolls k_pipes k_ptys] in *; rewrite ?cell_insert.

Definition d_off (p : option Z) (r : resource) : Z := match r with Offset i => Z.b2z (bool_decide (p = Some i)) | _ => 0 end.
Definition d_in (p : option Z) (r : resource) : Z := match r with InputRefs i => Z.b2z (bool_decide (p = Some i)) | _ => 0 end.
Definition d_ep (p : option Z) (r : resource) : Z := match r with EpollRefs i => Z.b2z (bool_decide (p = Some i)) | _ => 0 end.
Definition d_end (f : file_desc) (r : resource) : Z :=
  match r with PipeReaders _ | PipeWriters _ | PtyMasters _ | PtySlaves _ => Z.b2z (uses f r) | _ => 0 end.

Lemma uses_split f r : Z.b2z (uses f r) = d_off (f_shared_offset f) r + d_in (f_input_state f) r + d_ep (epoll_state_for_file f) r + d_end f r.
Proof. destruct r; cbn [uses d_off d_in d_ep d_end]; lia. Qed.

(** One counter changes to [c], and its flag accordingly. *)
Definition set_count (r0 : resource) (c : Z) (k k' : kernel) : Prop :=
  counter k' r0 = c /\ alive k' r0 = negb (c =? 0) /\ (forall r, r <> r0 -> counter k' r = counter k r /\ alive k' r = alive k r).

Lemma set_count_shift r0 c k k' d : alive_ok k -> set_count r0 c k k' -> d r0 = c - counter k r0 -> (forall r, r <> r0 -> d r = 0) -> shift d k k'.
Proof.
  intros Ha (H1 & H2 & H3) Hd Hn.
  assert (Hdec : forall r, r = r0 \/ r <> r0).
  { intros r. destruct r, r0; try (right; discriminate); (destruct (Z.eq_dec i i0) as [->|]; [by left | right; congruence]). }
  split; intros r; destruct (Hdec r) as [->|Hne].
  - by rewrite H2, H1.
  - destruct (H3 r Hne) as [-> ->]. apply Ha.
  - rewrite H1, Hd. lia.
  - destruct (H3 r Hne) as [-> _]. rewrite (Hn r Hne). lia.
Qed.

Ltac one_count := unfold set_count; split; [|split]; [| |counts; intros Hne; try done;
  match goal with |- context [?i =? ?j] => destruct (Z.eqb_spec i j) as [->|]; [by destruct Hne | done] end].

Lemma set_offset i d k : od_used d = negb (od_refs d =? 0) -> set_count (Offset i) (od_refs d) k (set_open_desc i d k).
Proof. intros H. one_count; cbn; unfold open_desc; cbn; by rewrite cell_insert_eq. Qed.
Lemma set_input i d k : is_used d = negb (is_refs d =? 0) -> set_count (InputRefs i) (is_refs d) k (set_in_state i d k).
Proof. intros H. one_count; cbn; unfold in_state; cbn; by rewrite cell_insert_eq. Qed.
Lemma set_epoll_count i d k : ep_used d = negb (ep_refs d =? 0) -> set_count (EpollRefs i) (ep_refs d) k (set_epoll i d k).
Proof. intros H. one_count; cbn; unfold epoll; cbn; by rewrite cell_insert_eq. Qed.
Ltac end_count := unfold set_count; cbn [counter alive]; unfold pipe, set_pipe, pty, set_pty; cbn; rewrite cell_insert_eq;
  split; [done|]; split; [done|]; counts; intros Hne; try done;
  match goal with |- context [if ?i =? ?j then _ else _] => destruct (Z.eqb_spec i j) as [->|]; [|done] end; try by destruct Hne.

Lemma set_readers i p k : pi_writers p = pi_writers (pipe k i) -> set_count (PipeReaders i) (pi_readers p) k (set_pipe i p k).
Proof. intros H. unfold pipe in H. end_count; by rewrite H. Qed.
Lemma set_writers i p k : pi_readers p = pi_readers (pipe k i) -> set_count (PipeWriters i) (pi_writers p) k (set_pipe i p k).
Proof. intros H. unfold pipe in H. end_count; by rewrite H. Qed.
Lemma set_masters i p k : py_master_open p = negb (py_master_refs p =? 0) ->
  py_slave_refs p = py_slave_refs (pty k i) -> py_slave_open p = py_slave_open (pty k i) ->
  set_count (PtyMasters i) (py_master_refs p) k (set_pty i p k).
Proof. intros H1 H2 H3. unfold pty in *. end_count; by rewrite H2, H3. Qed.
Lemma set_slaves i p k : py_slave_open p = negb (py_slave_refs p =? 0) ->
  py_master_refs p = py_master_refs (pty k i) -> py_master_open p = py_master_open (pty k i) ->
  set_count (PtySlaves i) (py_slave_refs p) k (set_pty i p k).
Proof. intros H1 H2 H3. unfold pty in *. end_count; by rewrite H2, H3. Qed.

(** ** The operations on references *)

(** A move of one resource's count by what [d] says. *)
Ltac other_zero := intros [] Hne; cbn; try done; rewrite bool_decide_false; [done | congruence].
Ltac no_change := split; [|done]; eapply shift_ext; [|by apply same_counts_shift]; by intros [].

Lemma retain_offset_spec p k : alive_ok k -> (forall i, p = Some i -> 1 <= od_refs (open_desc k i) < UINT32_MAX) ->
  shift (d_off p) k (exec (retain_open_offset p) k) /\ same_tabs k (exec (retain_open_offset p) k).
Proof.
  intros Ha Hp. unfold retain_open_offset, exec, st_bind, st_get. destruct p as [i|]; cbn [snd st_ret]; [|no_change].
  specialize (Hp i eq_refl). split; [|done]. pose proof (Ha (Offset i)) as Hi. cbn in Hi.
  set (d := _ <| od_refs := _ |>). assert (Ed : od_refs d = od_refs (open_desc k i) + 1) by (cbn; apply u32_small; unfold UINT32_MAX in *; lia).
  eapply set_count_shift; [done | apply set_offset | | other_zero].
  - rewrite Ed. cbn. rewrite Hi. lia.
  - cbn [d_off counter]. rewrite bool_decide_true by done. rewrite Ed. cbn. lia.
Qed.

Lemma release_offset_spec p k : alive_ok k -> (forall i, p = Some i -> 1 <= od_refs (open_desc k i)) ->
  shift (fun r => - d_off p r) k (exec (release_open_offset p) k) /\ same_tabs k (exec (release_open_offset p) k).
Proof.
  intros Ha Hp. unfold release_open_offset, exec, st_bind, st_get. destruct p as [i|]; cbn [snd st_ret]; [|no_change].
  specialize (Hp i eq_refl). pose proof (Ha (Offset i)) as Hi. cbn in Hi. rewrite (proj2 (Z.eqb_neq _ 0)) in * by lia. cbn [negb] in Hi.
  cbn zeta. split; [|done]. eapply set_count_shift; [done | apply set_offset | | other_zero].
  - destruct (Z.eqb_spec (od_refs ((open_desc k i) <| od_refs := od_refs (open_desc k i) - 1 |>)) 0) as [E|E]; cbn in E |- *;
      [by rewrite E | rewrite Hi; by rewrite (proj2 (Z.eqb_neq _ _))].
  - cbn [d_off counter]. rewrite bool_decide_true by done. destruct (_ =? 0); cbn; lia.
Qed.

Lemma retain_input_spec p k : alive_ok k -> (forall i, p = Some i -> 1 <= is_refs (in_state k i) < UINT32_MAX) ->
  shift (d_in p) k (exec (input_state_retain p) k) /\ same_tabs k (exec (input_state_retain p) k).
Proof.
  intros Ha Hp. unfold input_state_retain, exec, st_bind, st_get. destruct p as [i|]; cbn [snd st_ret]; [|no_change].
  specialize (Hp i eq_refl). pose proof (Ha (InputRefs i)) as Hi. cbn in Hi. rewrite (proj2 (Z.eqb_neq _ 0)) in Hi by lia.
  rewrite Hi, (proj2 (Z.ltb_lt _ _)) by lia. cbn [negb andb]. split; [|done].
  eapply set_count_shift; [done | apply set_input | | other_zero].
  - cbn. rewrite Hi. lia.
  - cbn [d_in counter]. rewrite bool_decide_true by done. cbn. lia.
Qed.

Lemma release_input_spec p k : alive_ok k -> (forall i, p = Some i -> 1 <= is_refs (in_state k i)) ->
  shift (fun r => - d_in p r) k (exec (input_state_release p) k) /\ same_tabs k (exec (input_state_release p) k).
Proof.
  intros Ha Hp. unfold input_state_release, exec, st_bind, st_get. destruct p as [i|]; cbn [snd st_ret]; [|no_change].
  specialize (Hp i eq_refl). pose proof (Ha (InputRefs i)) as Hi. cbn in Hi. rewrite (proj2 (Z.eqb_neq _ 0)) in Hi by lia.
  cbn [negb] in Hi. rewrite Hi. cbn [negb].
  destruct (Z.ltb_spec 1 (is_refs (in_state k i))); (split; [|done]); (eapply set_count_shift; [done | apply set_input | | other_zero]);
    cbn [d_in counter]; rewrite ?bool_decide_true by done; cbn; rewrite ?Hi; lia.
Qed.

Lemma retain_epoll_spec t fd k : alive_ok k ->
  (forall i, epoll_state_for_file (fdesc k t fd) = Some i -> 1 <= ep_refs (epoll k i) < UINT32_MAX) ->
  shift (d_ep (epoll_state_for_file (fdesc k t fd))) k (exec (epoll_retain_file t fd) k) /\ same_tabs k (exec (epoll_retain_file t fd) k).
Proof.
  intros Ha Hp. unfold epoll_retain_file, exec, st_bind, st_get. destruct (epoll_state_for_file _) as [i|]; cbn [snd st_ret]; [|no_change].
  specialize (Hp i eq_refl). pose proof (Ha (EpollRefs i)) as Hi. cbn in Hi. rewrite (proj2 (Z.eqb_neq _ 0)) in Hi by lia.
  rewrite Hi, (proj2 (Z.ltb_lt _ _)) by lia. cbn [negb andb]. split; [|done].
  eapply set_count_shift; [done | apply set_epoll_count | | other_zero].
  - cbn. rewrite Hi. lia.
  - cbn [d_ep counter]. rewrite bool_decide_true by done. cbn. lia.
Qed.

Lemma release_epoll_spec t fd k : alive_ok k ->
  (forall i, epoll_state_for_file (fdesc k t fd) = Some i -> 1 <= ep_refs (epoll k i)) ->
  shift (fun r => - d_ep (epoll_state_for_file (fdesc k t fd)) r) k (exec (epoll_release_file t fd) k) /\
  same_tabs k (exec (epoll_release_file t fd) k).
Proof.
  intros Ha Hp. unfold epoll_release_file, exec, st_bind, st_get. destruct (epoll_state_for_file _) as [i|]; cbn [snd st_ret]; [|no_change].
  specialize (Hp i eq_refl). pose proof (Ha (EpollRefs i)) as Hi. cbn in Hi. rewrite (proj2 (Z.eqb_neq _ 0)) in Hi by lia.
  cbn [negb] in Hi. rewrite Hi. cbn [negb].
  destruct (Z.ltb_spec 1 (ep_refs (epoll k i))); (split; [|done]); (eapply set_count_shift; [done | apply set_epoll_count | | other_zero]);
    cbn [d_ep counter]; rewrite ?bool_decide_true by done; cbn; rewrite ?Hi; lia.
Qed.

(** The end of a pipe or terminal a descriptor holds. *)
Definition endpoint_of (f : file_desc) : option resource :=
  match f_private f with
  | PPipe i => if f_type f =? FD_PIPE_R then Some (PipeReaders i) else if f_type f =? FD_PIPE_W then Some (PipeWriters i) else None
  | PPty i => if f_type f =? FD_PTY_MASTER then Some (PtyMasters i) else if f_type f =? FD_PTY_SLAVE then Some (PtySlaves i) else None
  | _ => None
  end.

Definition is_endpoint (f : file_desc) : bool :=
  (f_type f =? FD_PIPE_R) || (f_type f =? FD_PIPE_W) || (f_type f =? FD_PTY_MASTER) || (f_type f =? FD_PTY_SLAVE).

(** A descriptor whose type says what its pointer is; a closed one holds nothing. *)
Definition fd_typed (f : file_desc) : Prop :=
  if f_in_use f then is_endpoint f = true -> is_Some (endpoint_of f) else f_shared_offset f = None /\ f_input_state f = None.

#[global] Instance resource_eq_dec : EqDecision resource.
Proof. solve_decision. Defined.

Lemma d_end_eq f r : d_end f r = Z.b2z (bool_decide (endpoint_of f = Some r)).
Proof.
  unfold endpoint_of. destruct r; cbn [d_end uses];
    try (rewrite bool_decide_false; [done|]; destruct (f_private f); repeat case_match; congruence).
  all: f_equal; destruct (f_private f) as [| |j|j| | | |]; rewrite ?andb_false_r; cbn; rewrite ?andb_false_r; try done;
    destruct (Z.eqb_spec (f_type f) FD_PIPE_R), (Z.eqb_spec (f_type f) FD_PIPE_W),
      (Z.eqb_spec (f_type f) FD_PTY_MASTER), (Z.eqb_spec (f_type f) FD_PTY_SLAVE); cbn [andb];
    try (exfalso; unfold FD_PIPE_R, FD_PIPE_W, FD_PTY_MASTER, FD_PTY_SLAVE in *; lia);
    first [apply bool_decide_ext; split; congruence | rewrite bool_decide_false; congruence].
Qed.

Lemma end_shift f r c n k k' : alive_ok k -> endpoint_of f = Some r -> set_count r c k k' -> c = counter k r + n ->
  shift (fun x => n * d_end f x) k k'.
Proof.
  intros Ha He Hs Hc. eapply set_count_shift; [done | exact Hs | |]; cbn beta.
  - rewrite d_end_eq, bool_decide_true by done. cbn. lia.
  - intros x Hx. rewrite d_end_eq, bool_decide_false by congruence. cbn. lia.
Qed.

Lemma endpoint_none f k k' n : alive_ok k -> same_counts k k' -> endpoint_of f = None -> shift (fun x => n * d_end f x) k k'.
Proof.
  intros Ha Hs He. eapply shift_ext; [|by apply same_counts_shift]. intros r. cbn beta. rewrite d_end_eq, bool_decide_false by congruence. cbn. lia.
Qed.

(** The counts of the four kinds of ends when one goes. *)
Definition dropped (r : resource) (k k' : kernel) : Prop := set_count r (counter k r - 1) k k'.

Lemma drop_reader_count i k : 1 <= pi_readers (pipe k i) -> dropped (PipeReaders i) k (upd_pipe i drop_reader k).
Proof.
  intros H. unfold dropped, upd_pipe. cbn [counter]. assert (E : drop_reader (pipe k i) = (pipe k i) <| pi_readers := pi_readers (pipe k i) - 1 |>)
    by (unfold drop_reader; by rewrite (proj2 (Z.eqb_neq _ _)) by lia).
  rewrite E. by apply set_readers.
Qed.
Lemma drop_writer_count i k : 1 <= pi_writers (pipe k i) -> dropped (PipeWriters i) k (upd_pipe i drop_writer k).
Proof.
  intros H. unfold dropped, upd_pipe. cbn [counter]. assert (E : drop_writer (pipe k i) = (pipe k i) <| pi_writers := pi_writers (pipe k i) - 1 |>)
    by (unfold drop_writer; by rewrite (proj2 (Z.eqb_neq _ _)) by lia).
  rewrite E. by apply set_writers.
Qed.
Lemma drop_master_eq p : 1 <= py_master_refs p -> py_master_open p = true -> let p' := drop_master p in
  py_master_refs p' = py_master_refs p - 1 /\ py_master_open p' = negb (py_master_refs p - 1 =? 0) /\
  py_slave_refs p' = py_slave_refs p /\ py_slave_open p' = py_slave_open p.
Proof.
  intros H Ho. unfold drop_master. rewrite (proj2 (Z.eqb_neq (py_master_refs p) 0)) by lia. cbn [negb].
  change (py_master_refs (p <| py_master_refs := py_master_refs p - 1 |>)) with (py_master_refs p - 1).
  destruct (py_master_refs p - 1 =? 0); cbn; done.
Qed.
Lemma drop_slave_eq p : 1 <= py_slave_refs p -> py_slave_open p = true -> let p' := drop_slave p in
  py_slave_refs p' = py_slave_refs p - 1 /\ py_slave_open p' = negb (py_slave_refs p - 1 =? 0) /\
  py_master_refs p' = py_master_refs p /\ py_master_open p' = py_master_open p.
Proof.
  intros H Ho. unfold drop_slave. rewrite (proj2 (Z.eqb_neq (py_slave_refs p) 0)) by lia. cbn [negb].
  change (py_slave_refs (p <| py_slave_refs := py_slave_refs p - 1 |>)) with (py_slave_refs p - 1).
  destruct (py_slave_refs p - 1 =? 0); cbn; done.
Qed.

Lemma alive_open k r : alive_ok k -> 1 <= counter k r -> alive k r = true.
Proof. intros Ha H. rewrite Ha, (proj2 (Z.eqb_neq _ _)) by lia. done. Qed.

Lemma drop_master_count i k : alive_ok k -> 1 <= py_master_refs (pty k i) -> dropped (PtyMasters i) k (upd_pty i drop_master k).
Proof.
  intros Ha H. destruct (drop_master_eq (pty k i) H (alive_open k (PtyMasters i) Ha H)) as (E1 & E2 & E3 & E4).
  unfold dropped, upd_pty. cbn [counter]. rewrite <- E1. apply set_masters; [by rewrite E1 | done | done].
Qed.
Lemma drop_slave_count i k : alive_ok k -> 1 <= py_slave_refs (pty k i) -> dropped (PtySlaves i) k (upd_pty i drop_slave k).
Proof.
  intros Ha H. destruct (drop_slave_eq (pty k i) H (alive_open k (PtySlaves i) Ha H)) as (E1 & E2 & E3 & E4).
  unfold dropped, upd_pty. cbn [counter]. rewrite <- E1. apply set_slaves; [by rewrite E1 | done | done].
Qed.

(** The types are different numbers. *)
Ltac fd_types := unfold endpoint_of, FD_PIPE_R, FD_PIPE_W, FD_PTY_MASTER, FD_PTY_SLAVE, FD_SOCKET, FD_EPOLL in *.

Lemma set_sock_counts i s k : same_counts k (set_sock i s k).
Proof. by intros []. Qed.

Lemma drop_ref_socket t fd k : same_counts k (exec (socket_fd_drop_ref t fd) k) /\ same_tabs k (exec (socket_fd_drop_ref t fd) k).
Proof.
  unfold socket_fd_drop_ref, exec, st_bind, st_get. destruct (negb _); [done|]. destruct (socket_state _) as [i|]; [|done].
  cbn zeta. split; [apply set_sock_counts | done].
Qed.

Lemma drop_endpoint_spec t fd k : alive_ok k -> (forall r, endpoint_of (fdesc k t fd) = Some r -> 1 <= counter k r) ->
  shift (fun r => -1 * d_end (fdesc k t fd) r) k (exec (drop_endpoint t fd) k) /\ same_tabs k (exec (drop_endpoint t fd) k).
Proof.
  intros Ha Hr. set (f := fdesc k t fd) in *.
  assert (Hone : forall r k', endpoint_of f = Some r -> dropped r k k' -> shift (fun r => -1 * d_end f r) k k').
  { intros r k' He Hd. by apply (end_shift f r (counter k r - 1)). }
  assert (Hnone : endpoint_of f = None -> shift (fun r => -1 * d_end f r) k k) by (intros He; by apply endpoint_none).
  unfold drop_endpoint, exec, st_bind, st_get, st_mod, st_ret. cbv beta iota zeta. fold f.
  destruct (Z.eqb_spec (f_type f) FD_PIPE_R) as [Et|N1]; cbn [orb].
  { destruct (f_private f) as [| |i|i| | | |] eqn:Ep; try (split; [|done]; apply Hnone; unfold endpoint_of; by rewrite Ep, ?Et).
    assert (He : endpoint_of f = Some (PipeReaders i)) by (unfold endpoint_of; by rewrite Ep, Et).
    rewrite Et. split; [|done]. apply (Hone _ _ He). apply (drop_reader_count i k). exact (Hr _ He). }
  destruct (Z.eqb_spec (f_type f) FD_PIPE_W) as [Et|N2]; cbn [orb].
  { destruct (f_private f) as [| |i|i| | | |] eqn:Ep; try (split; [|done]; apply Hnone; unfold endpoint_of; by rewrite Ep, ?Et).
    assert (He : endpoint_of f = Some (PipeWriters i)) by (unfold endpoint_of; by rewrite Ep, Et).
    split; [|done]. apply (Hone _ _ He). apply (drop_writer_count i k). exact (Hr _ He). }
  destruct (Z.eqb_spec (f_type f) FD_PTY_MASTER) as [Et|N3]; cbn [orb].
  { destruct (f_private f) as [| |i|i| | | |] eqn:Ep; try (split; [|done]; apply Hnone; unfold endpoint_of; by rewrite Ep, ?Et).
    assert (He : endpoint_of f = Some (PtyMasters i)) by (unfold endpoint_of; by rewrite Ep, Et).
    split; [|done]. apply (Hone _ _ He). apply (drop_master_count i k Ha). exact (Hr _ He). }
  destruct (Z.eqb_spec (f_type f) FD_PTY_SLAVE) as [Et|N4]; cbn [orb].
  { destruct (f_private f) as [| |i|i| | | |] eqn:Ep; try (split; [|done]; apply Hnone; unfold endpoint_of; by rewrite Ep, ?Et).
    assert (He : endpoint_of f = Some (PtySlaves i)) by (unfold endpoint_of; by rewrite Ep, Et).
    split; [|done]. apply (Hone _ _ He). apply (drop_slave_count i k Ha). exact (Hr _ He). }
  assert (He : endpoint_of f = None).
  { unfold endpoint_of. rewrite !(proj2 (Z.eqb_neq _ _)) by done. by destruct (f_private f). }
  destruct (f_type f =? FD_SOCKET); [|split; [by apply Hnone | done]].
  destruct (drop_ref_socket t fd k) as [H1 H2]. split; [by apply endpoint_none | done].
Qed.

Lemma retain_endpoint_spec t fd k : alive_ok k -> f_in_use (fdesc k t fd) = true ->
  (forall r, endpoint_of (fdesc k t fd) = Some r -> 0 <= counter k r < UINT32_MAX) ->
  shift (fun r => 1 * d_end (fdesc k t fd) r) k (exec (fd_retain_endpoint_ref t fd) k) /\ same_tabs k (exec (fd_retain_endpoint_ref t fd) k).
Proof.
  intros Ha Hu Hr. set (f := fdesc k t fd) in *.
  assert (Hone : forall r k', endpoint_of f = Some r -> set_count r (u32 (counter k r + 1)) k k' -> shift (fun r => 1 * d_end f r) k k').
  { intros r k' He Hd. apply (end_shift f r (u32 (counter k r + 1))); try done. apply u32_small. specialize (Hr r He). unfold UINT32_MAX in Hr. lia. }
  assert (Hpos : forall r, endpoint_of f = Some r -> true = negb (u32 (counter k r + 1) =? 0)).
  { intros r He. specialize (Hr r He). unfold UINT32_MAX in Hr. rewrite u32_small, (proj2 (Z.eqb_neq _ _)) by lia. done. }
  assert (Hnone : endpoint_of f = None -> shift (fun r => 1 * d_end f r) k k) by (intros He; by apply endpoint_none).
  unfold fd_retain_endpoint_ref, exec, st_bind, st_get, st_mod, st_ret. cbv beta iota zeta. fold f. rewrite Hu. cbn [negb].
  destruct (Z.eqb_spec (f_type f) FD_PIPE_R) as [Et|N1]; cbn [orb].
  { destruct (f_private f) as [| |i|i| | | |] eqn:Ep; try (split; [|done]; apply Hnone; unfold endpoint_of; by rewrite Ep, ?Et).
    assert (He : endpoint_of f = Some (PipeReaders i)) by (unfold endpoint_of; by rewrite Ep, Et).
    split; [|done]. apply (Hone _ _ He). unfold upd_pipe. by apply (set_readers i). }
  destruct (Z.eqb_spec (f_type f) FD_PIPE_W) as [Et|N2]; cbn [orb].
  { destruct (f_private f) as [| |i|i| | | |] eqn:Ep; try (split; [|done]; apply Hnone; unfold endpoint_of; by rewrite Ep, ?Et).
    assert (He : endpoint_of f = Some (PipeWriters i)) by (unfold endpoint_of; by rewrite Ep, Et).
    split; [|done]. apply (Hone _ _ He). unfold upd_pipe. by apply (set_writers i). }
  destruct (Z.eqb_spec (f_type f) FD_PTY_MASTER) as [Et|N3]; cbn [orb].
  { destruct (f_private f) as [| |i|i| | | |] eqn:Ep; try (split; [|done]; apply Hnone; unfold endpoint_of; by rewrite Ep, ?Et).
    assert (He : endpoint_of f = Some (PtyMasters i)) by (unfold endpoint_of; by rewrite Ep, Et).
    split; [|done]. apply (Hone _ _ He). unfold upd_pty. apply (set_masters i); try done. exact (Hpos _ He). }
  destruct (Z.eqb_spec (f_type f) FD_PTY_SLAVE) as [Et|N4]; cbn [orb].
  { destruct (f_private f) as [| |i|i| | | |] eqn:Ep; try (split; [|done]; apply Hnone; unfold endpoint_of; by rewrite Ep, ?Et).
    assert (He : endpoint_of f = Some (PtySlaves i)) by (unfold endpoint_of; by rewrite Ep, Et).
    split; [|done]. apply (Hone _ _ He). unfold upd_pty. apply (set_slaves i); try done. exact (Hpos _ He). }
  assert (He : endpoint_of f = None).
  { unfold endpoint_of. rewrite !(proj2 (Z.eqb_neq _ _)) by done. by destruct (f_private f). }
  destruct (f_type f =? FD_SOCKET); [|split; [by apply Hnone | done]].
  destruct (socket_state f); [|split; [by apply Hnone | done]]. cbn zeta. split; [|done]. by apply endpoint_none.
Qed.

(** ** Steps that leave the descriptors and their counts alone *)

Definition quiet (k k' : kernel) : Prop := same_tabs k k' /\ same_counts k k'.

Lemma quiet_refl k : quiet k k.
Proof. done. Qed.
Lemma quiet_trans k1 k2 k3 : quiet k1 k2 -> quiet k2 k3 -> quiet k1 k3.
Proof. intros [A B] [C D]. split; [by eapply same_tabs_trans | by eapply same_counts_trans]. Qed.

Lemma quiet_tasks k k' : only_tasks k k' -> quiet k k'.
Proof. intros (ts & ->). split; [done | by intros []]. Qed.

Lemma quiet_vm {A} (c : ST machine A) k : quiet k (exec (on_vm c) k).
Proof. unfold on_vm, exec. destruct (c (k_vm k)) as [a m]. split; [done | by intros []]. Qed.

(** A pipe whose ends stay. *)
Lemma quiet_pipe i p k : pi_readers p = pi_readers (pipe k i) -> pi_writers p = pi_writers (pipe k i) -> quiet k (set_pipe i p k).
Proof.
  unfold pipe. intros H1 H2. split; [done|]. counts; try done; destruct (Z.eqb_spec i i0) as [->|]; by rewrite ?H1, ?H2.
Qed.

Lemma quiet_pty i p k : py_master_refs p = py_master_refs (pty k i) -> py_slave_refs p = py_slave_refs (pty k i) ->
  py_master_open p = py_master_open (pty k i) -> py_slave_open p = py_slave_open (pty k i) -> quiet k (set_pty i p k).
Proof.
  unfold pty. intros H1 H2 H3 H4. split; [done|]. counts; try done; destruct (Z.eqb_spec i i0) as [->|]; by rewrite ?H1, ?H2, ?H3, ?H4.
Qed.

Lemma pipe_take_ends n p : let p' := snd (pipe_take n p) in pi_readers p' = pi_readers p /\ pi_writers p' = pi_writers p.
Proof.
  revert p. induction n as [|n IH]; intros p; [done|]. cbn [pipe_take]. cbn zeta.
  set (p1 := p <| pi_rpos := _ |> <| pi_count := _ |>). specialize (IH p1). destruct (pipe_take n p1) as [l p2]. cbn [snd] in *. exact IH.
Qed.

Lemma quiet_fill fuel pi cr3 buf count : forall done k, quiet k (exec (pipe_fill fuel pi cr3 buf count done) k).
Proof.
  induction fuel as [|fuel IH]; intros done k; cbn [pipe_fill]; unfold exec, st_bind at 1, st_get at 1; cbn zeta;
    destruct (_ || _); try apply quiet_refl.
  pose proof (pipe_take_ends (Z.to_nat (Z.min (Z.min (count - done) TMP_SIZE) (pi_count (pipe k pi)))) (pipe k pi)) as He.
  destruct (pipe_take _ (pipe k pi)) as [tmp p]. cbn [snd] in He. unfold st_bind at 1, st_mod.
  pose proof (quiet_pipe pi p k (proj1 He) (proj2 He)) as Q1.
  pose proof (quiet_vm (user_copy_to_cr3 cr3 (u64 (buf + done)) tmp) (set_pipe pi p k)) as Q2.
  unfold exec in Q2. unfold st_bind at 1. destruct (on_vm _ _) as [r k2]. cbn [snd] in Q2.
  assert (Q : quiet k k2) by (by eapply quiet_trans). destruct (negb (r =? 0)); [done|]. eapply quiet_trans; [exact Q | apply IH].
Qed.

Lemma quiet_read ti pi k : quiet k (exec (pipe_read_into_task ti pi) k).
Proof.
  unfold pipe_read_into_task, exec, st_bind at 1, st_get at 1. cbn zeta. destruct (_ || _); [apply quiet_refl|].
  unfold st_bind at 1.
  match goal with |- context [pipe_fill ?n pi ?c ?b ?m 0 k] => pose proof (quiet_fill n pi c b m 0 k) as Q end.
  unfold exec in Q. destruct (pipe_fill _ _ _ _ _ _ _) as [[r d] k1]. cbn [snd] in Q.
  destruct r as [n|]; (eapply quiet_trans; [exact Q | apply quiet_tasks, only_tasks_set]).
Qed.

Lemma quiet_wake_readers pi k : quiet k (exec (pipe_wake_readers pi) k).
Proof.
  unfold pipe_wake_readers, exec. cbn [snd]. apply (foldl_inv (quiet k)); [|apply quiet_refl].
  intros k1 i _ H. destruct (waits_on_pipe k1 pi i); [|done]. eapply quiet_trans; [exact H | apply quiet_read].
Qed.

Lemma quiet_eof fd k : quiet k (eof_waiters fd k).
Proof.
  unfold eof_waiters. apply (foldl_inv (quiet k)); [|apply quiet_refl]. intros k1 i _ H. destruct (_ && _); [|done].
  eapply quiet_trans; [exact H | apply quiet_tasks, only_tasks_set].
Qed.

Lemma quiet_wake k : quiet k (exec task_wake_io_waiters k).
Proof. apply quiet_tasks, wake_frame. Qed.

Create HintDb quiet.
#[export] Hint Resolve quiet_refl quiet_wake quiet_eof quiet_wake_readers quiet_vm : quiet.

Lemma shift_quiet d k1 k2 k3 : shift d k1 k2 -> quiet k2 k3 -> shift d k1 k3.
Proof. intros H [_ Q]. by eapply shift_same. Qed.
Lemma slot_quiet t fd f k1 k2 k3 : set_slot t fd f k1 k2 -> quiet k2 k3 -> set_slot t fd f k1 k3.
Proof. intros H [Q _]. by eapply set_slot_same. Qed.
