(* ===== verification/FdInv.v ===== *)
(** * The invariant of the descriptor tables

    Counts, types of open descriptors and owners of tables, and that every
    operation on descriptors keeps them, the copy and the release of whole
    tables included. *)

From S2P Require Import Prelude Words Pmm Vmm CStr Vfs Kernel Tty Fd Sched SchedFacts UserCopy Pipe FdFacts.
Local Open Scope Z_scope.
Local Open Scope st_scope.

(** The tasks that use table [t]. *)
Definition owners (k : kernel) (t : Z) : Z := sumZ (fun ti => Z.b2z (table_id k ti =? t)) all_tasks.

(** Types of open descriptors, and who uses which table. *)
Record fd_shape (k : kernel) : Prop := {
  fs_typed : forall t fd, in_slots t fd -> fd_typed (fdesc k t fd);
  fs_dead : forall t fd, in_slots t fd -> table_refs k t = 0 -> f_in_use (fdesc k t fd) = false;
  fs_ids : forall t, 0 <= t < MAX_FD_TABLES -> table_refs k t = owners k t;
  fs_root : table_id k 0 = 0
}.

Record fd_inv (k : kernel) : Prop := { fi_shape : fd_shape k; fi_refs : refs_ok k }.

Section Fields.
Variable k : kernel.
Hypothesis Hi : fd_inv k.
Lemma fi_typed t fd : in_slots t fd -> fd_typed (fdesc k t fd).
Proof. apply (fs_typed k (fi_shape k Hi)). Qed.
Lemma fi_dead t fd : in_slots t fd -> table_refs k t = 0 -> f_in_use (fdesc k t fd) = false.
Proof. apply (fs_dead k (fi_shape k Hi)). Qed.
Lemma fi_ids t : 0 <= t < MAX_FD_TABLES -> table_refs k t = owners k t.
Proof. apply (fs_ids k (fi_shape k Hi)). Qed.
Lemma fi_root : table_id k 0 = 0.
Proof. apply (fs_root k (fi_shape k Hi)). Qed.
End Fields.

Lemma owners_elem k t ti : 0 <= ti < MAX_TASKS -> table_id k ti = t -> 1 <= owners k t <= MAX_TASKS.
Proof.
  intros Hi He. unfold owners. split.
  - pose proof (sumZ_elem (fun ti => Z.b2z (table_id k ti =? t)) all_tasks ti) as H. cbv beta in H. rewrite He, Z.eqb_refl in H. apply H.
    + by apply elem_of_seqZ.
    + intros y _. destruct (_ =? _); cbn; lia.
  - change MAX_TASKS with (Z.of_nat (length all_tasks)). apply sumZ_bound. intros y _. destruct (_ =? _); cbn; lia.
Qed.

(** The table of the running task is in use. *)
Lemma current_live k : fd_inv k -> 0 <= current_files k < MAX_FD_TABLES /\ table_refs k (current_files k) <> 0.
Proof.
  intros Hi. assert (H0 : 0 <= 0 < MAX_FD_TABLES /\ table_refs k 0 <> 0).
  { split; [done|]. rewrite (fi_ids k Hi) by done. pose proof (owners_elem k 0 0 ltac:(done) (fi_root k Hi)). lia. }
  unfold current_files, task_files_for_task. destruct (task_ok (k_current k)) eqn:Ho; cbn [negb default]; [|done].
  destruct (Z.ltb_spec (table_id k (k_current k)) 0), (Z.leb_spec MAX_FD_TABLES (table_id k (k_current k))); cbn [orb default]; try done.
  split; [unfold id; cbn; lia|]. cbn. rewrite (fi_ids k Hi) by lia.
  unfold task_ok in Ho. pose proof (owners_elem k (table_id k (k_current k)) (k_current k) ltac:(lia) eq_refl). lia.
Qed.

Lemma same_current k k' : same_tabs k k' -> current_files k' = current_files k.
Proof. intros (_ & E1 & _ & E2). unfold current_files, task_files_for_task, table_id. by rewrite E1, E2. Qed.
Lemma slot_current t fd f k k' : set_slot t fd f k k' -> current_files k' = current_files k.
Proof. intros (_ & E1 & _ & E2). unfold current_files, task_files_for_task, table_id. by rewrite E1, E2. Qed.

Lemma same_tally k k' r : same_tabs k k' -> tally k' r = tally k r.
Proof. intros (E & _). unfold tally, fdesc. by rewrite E. Qed.

(** One slot of a table in use changes, and the counts with it. *)
Lemma fd_shape_slot k k' t fd f : fd_shape k -> set_slot t fd f k k' -> fd_typed f -> table_refs k t <> 0 -> fd_shape k'.
Proof.
  intros Hi (E1 & E2 & E3 & _) Hty Hl. assert (Er : forall x, table_refs k' x = table_refs k x) by (intros; unfold table_refs; by rewrite E3).
  assert (Eid : forall x, table_id k' x = table_id k x) by (intros; unfold table_id; by rewrite E2).
  split.
  - intros t' fd' Hin'. rewrite (fdesc_insert k k' t fd f) by done. destruct (_ && _); [done | by apply (fs_typed k Hi)].
  - intros t' fd' Hin'. rewrite Er, (fdesc_insert k k' t fd f) by done. destruct (Z.eqb_spec t t') as [->|]; cbn [andb]; [done|]. by apply (fs_dead k Hi).
  - intros t' Ht'. rewrite Er, (fs_ids k Hi) by done. unfold owners. apply sumZ_ext. intros ti _. by rewrite Eid.
  - rewrite Eid. apply (fs_root k Hi).
Qed.

Lemma refs_slot k k' t fd f d : refs_ok k -> in_slots t fd -> set_slot t fd f k k' -> shift d k k' ->
  (forall r, d r = weight f r - weight (fdesc k t fd) r) -> refs_ok k'.
Proof.
  intros [_ Hr] Hin (E1 & _) [Ha Hc] Hd. split; [done|]. intros r. rewrite (tally_insert k k' t fd f r), Hc, Hd by done. rewrite Hr. lia.
Qed.

Lemma fd_inv_slot k k' t fd f d : fd_inv k -> in_slots t fd -> set_slot t fd f k k' -> shift d k k' ->
  (forall r, d r = weight f r - weight (fdesc k t fd) r) -> fd_typed f -> table_refs k t <> 0 -> fd_inv k'.
Proof. intros [Hs Hr] Hin Hset Hd Hw Hty Hl. split; [by eapply fd_shape_slot | by eapply refs_slot]. Qed.

Lemma fd_shape_same k k' : fd_shape k -> same_tabs k k' -> fd_shape k'.
Proof.
  intros Hi (E1 & E2 & E3 & E4). assert (Ef : forall t fd, fdesc k' t fd = fdesc k t fd) by (intros; unfold fdesc; by rewrite E1).
  split.
  - intros t fd Hin. rewrite Ef. by apply (fs_typed k Hi).
  - intros t fd Hin. unfold table_refs. rewrite E3, Ef. by apply (fs_dead k Hi).
  - intros t Ht. unfold table_refs, owners, table_id. rewrite E3, E2. by apply (fs_ids k Hi).
  - unfold table_id. rewrite E2. apply (fs_root k Hi).
Qed.

Lemma fd_inv_quiet k k' : fd_inv k -> quiet k k' -> fd_inv k'.
Proof.
  intros [Hs [Ha Hr]] [HT Hc]. split; [by eapply fd_shape_same|].
  split; [intros r; destruct (Hc r) as [-> ->]; apply Ha|]. intros r. rewrite (same_tally k) by done.
  destruct (Hc r) as [-> _]. apply Hr.
Qed.

(** ** Updating the descriptor in place *)

(** [g] holds what [f] holds. *)
Definition same_hold (f g : file_desc) : Prop :=
  f_in_use g = f_in_use f /\ f_type g = f_type f /\ f_private g = f_private f /\
  f_shared_offset g = f_shared_offset f /\ f_input_state g = f_input_state f.

Lemma same_hold_uses f g r : same_hold f g -> uses g r = uses f r.
Proof.
  intros (_ & E1 & E2 & E3 & E4). destruct r; cbn [uses]; unfold epoll_state_for_file; by rewrite ?E1, ?E2, ?E3, ?E4.
Qed.
Lemma same_hold_weight f g r : same_hold f g -> weight g r = weight f r.
Proof. intros H. unfold weight. rewrite (same_hold_uses f g r H). by destruct H as [-> _]. Qed.
Lemma same_hold_typed f g : same_hold f g -> fd_typed f -> fd_typed g.
Proof. intros (E0 & E1 & E2 & E3 & E4). unfold fd_typed, is_endpoint, endpoint_of. by rewrite E0, E1, E2, E3, E4. Qed.

Lemma upd_file_spec n F k : let t := current_files k in
  set_slot t n (F (fdesc k t n)) k (exec (upd_file n F) k) /\ same_counts k (exec (upd_file n F) k).
Proof. split; [done | by intros []]. Qed.

(** ** Copying a descriptor *)

Lemma held_offset k f : held_by k f -> forall i, f_shared_offset f = Some i -> 1 <= od_refs (open_desc k i) < UINT32_MAX.
Proof. intros H i E. apply (H (Offset i)). cbn. by apply bool_decide_eq_true. Qed.
Lemma held_input k f : held_by k f -> forall i, f_input_state f = Some i -> 1 <= is_refs (in_state k i) < UINT32_MAX.
Proof. intros H i E. apply (H (InputRefs i)). cbn. by apply bool_decide_eq_true. Qed.
Lemma held_epoll k f : held_by k f -> forall i, epoll_state_for_file f = Some i -> 1 <= ep_refs (epoll k i) < UINT32_MAX.
Proof. intros H i E. apply (H (EpollRefs i)). cbn. by apply bool_decide_eq_true. Qed.
Lemma held_endpoint k f : held_by k f -> forall r, endpoint_of f = Some r -> 1 <= counter k r < UINT32_MAX.
Proof.
  intros H r E. apply H. pose proof (d_end_eq f r) as D. rewrite bool_decide_true in D by done. cbn in D.
  destruct r; cbn [d_end] in D; (discriminate || by destruct (uses f _)).
Qed.

(** A count that [d] does not move. *)
Lemma shift_keeps d k k' r : shift d k k' -> d r = 0 -> counter k' r = counter k r.
Proof. intros [_ ->] ->. lia. Qed.

Lemma copy_scalar_spec t dst src k : alive_ok k -> held_by k (fdesc k t src) -> f_in_use (fdesc k t src) = true ->
  let f := fdesc k t src in let k' := exec (fd_copy_scalar t dst src) k in
  set_slot t dst f k k' /\ shift (fun r => d_off (f_shared_offset f) r + d_in (f_input_state f) r + d_ep (epoll_state_for_file f) r) k k'.
Proof.
  intros Ha Hh Hu f k'. subst k'. unfold fd_copy_scalar. run_exec. fold f.
  set (k1 := set_fdesc t dst f k). assert (C1 : same_counts k k1) by apply same_counts_fdesc.
  assert (A1 : alive_ok k1) by (intros r; destruct (C1 r) as [-> ->]; apply Ha).
  destruct (retain_offset_spec (f_shared_offset f) k1 A1) as [S2 T2].
  { intros i E. destruct (held_offset k f Hh i E). done. }
  set (k2 := exec (retain_open_offset _) k1) in *.
  destruct (retain_input_spec (f_input_state f) k2 (proj1 S2)) as [S3 T3].
  { intros i E. change (is_refs (in_state k2 i)) with (counter k2 (InputRefs i)). rewrite (shift_keeps _ _ _ _ S2) by done. by apply (held_input k f Hh). }
  set (k3 := exec (input_state_retain _) k2) in *.
  assert (S13 := shift_trans _ _ _ _ _ S2 S3). assert (T13 := same_tabs_trans _ _ _ T2 T3).
  assert (Es : set_slot t dst f k k3) by (by apply (set_slot_same t dst f k k1)).
  assert (Ef : fdesc k3 t dst = f) by (apply (fdesc_insert_eq k), Es).
  change (f_in_use f = true) in Hu. rewrite Hu. cbn [andb]. destruct (Z.eqb_spec (f_type f) FD_EPOLL) as [Et|Et].
  - destruct (retain_epoll_spec t dst k3 (proj1 S13)) as [S4 T4]; rewrite Ef in *.
    { intros i E. change (ep_refs (epoll k3 i)) with (counter k3 (EpollRefs i)). rewrite (shift_keeps _ _ _ _ S13) by done. by apply (held_epoll k f Hh). }
    split; [by eapply set_slot_same|]. eapply same_shift; [exact C1|]. eapply shift_ext; [|exact (shift_trans _ _ _ _ _ S13 S4)]. done.
  - split; [done|]. eapply same_shift; [exact C1|]. eapply shift_ext; [|exact S13]. intros r.
    unfold epoll_state_for_file. rewrite (proj2 (Z.eqb_neq _ _)) by done. by destruct r; cbn; rewrite ?Z.add_0_r.
Qed.

Lemma fd_ok_range fd : fd_ok fd = true <-> 0 <= fd < MAX_FILES.
Proof. unfold fd_ok. lia. Qed.

Lemma current_slot k fd : fd_inv k -> fd_ok fd = true -> in_slots (current_files k) fd.
Proof. intros Hi Hf. split; [by apply current_live | by apply fd_ok_range]. Qed.

Lemma endpoint_zero f r p q e : endpoint_of f = Some r -> d_off p r + d_in q r + d_ep e r = 0.
Proof. unfold endpoint_of. intros H. by repeat case_match; simplify_eq. Qed.

(** The copy is in its slot, with the references of a file; the endpoint's
    count is the last. *)
Lemma copy_finish k k2 n f g : fd_inv k -> fd_ok n = true -> let t := current_files k in
  f_in_use (fdesc k t n) = false -> held_by k f -> f_in_use f = true -> fd_typed f -> same_hold f g ->
  set_slot t n g k k2 ->
  shift (fun r => d_off (f_shared_offset f) r + d_in (f_input_state f) r + d_ep (epoll_state_for_file f) r) k k2 ->
  let k3 := exec (fd_retain_endpoint_ref t n) k2 in fd_inv k3 /\ set_slot t n g k k3.
Proof.
  intros Hi Hn t Hfree Hh Hu Hty Hg Hs Hd k3. destruct (current_live k Hi) as [Ht Hl].
  assert (Eg : fdesc k2 t n = g) by (apply (fdesc_insert_eq k), Hs).
  assert (Ee : endpoint_of g = endpoint_of f) by (unfold endpoint_of; destruct Hg as (_ & -> & -> & _); done).
  destruct (retain_endpoint_spec t n k2 (proj1 Hd)) as [S3 T3]; rewrite Eg in *.
  { destruct Hg as [-> _]. done. }
  { intros r Hr. rewrite Ee in Hr. rewrite (shift_keeps _ _ _ r Hd) by (by apply (endpoint_zero f)).
    pose proof (held_endpoint k f Hh r Hr). lia. }
  fold k3 in S3, T3. assert (Hs3 : set_slot t n g k k3) by (by eapply set_slot_same). split; [|done].
  eapply (fd_inv_slot k k3 t n g); [done | by apply current_slot | done | exact (shift_trans _ _ _ _ _ Hd S3) | | by eapply same_hold_typed | done].
  intros r. cbv beta. rewrite (same_hold_weight f g r Hg). unfold weight. rewrite Hfree, Hu, uses_split, !d_end_eq, Ee. lia.
Qed.

(** ** Duplicating *)

Lemma slot_then t n f F k k2 : set_slot t n f k k2 -> t = current_files k ->
  set_slot t n (F f) k (exec (upd_file n F) k2) /\ same_counts k2 (exec (upd_file n F) k2).
Proof.
  intros Hs ->. pose proof (slot_current _ _ _ _ _ Hs) as Ec. destruct (upd_file_spec n F k2) as [H1 H2]. cbv zeta in H1.
  rewrite Ec, (fdesc_insert_eq k k2 _ _ f) in H1 by apply Hs. split; [by eapply set_slot_set | done].
Qed.

(** What is copied into a free slot of the current table. *)
Lemma copy_inv n src F k : fd_inv k -> fd_ok n = true -> fd_ok src = true -> f_in_use (file k n) = false -> f_in_use (file k src) = true ->
  (forall f, same_hold f (F f)) -> let t := current_files k in
  let k' := exec (fd_retain_endpoint_ref t n) (exec (upd_file n F) (exec (fd_copy_scalar t n src) k)) in
  fd_inv k' /\ set_slot t n (F (file k src)) k k'.
Proof.
  intros Hi Hn Hsrc Hfree Hu HF t k'. pose proof (current_slot k src Hi Hsrc) as Hin.
  pose proof (slot_held k _ _ (fi_refs k Hi) Hin Hu) as Hh.
  destruct (copy_scalar_spec t n src k (proj1 (fi_refs k Hi)) Hh Hu) as [Hs Hd].
  destruct (slot_then t n _ F k _ Hs eq_refl) as [Hs2 Hc2].
  apply (copy_finish k _ n (file k src)); first [done | by eapply shift_same | exact (fi_typed k Hi _ _ Hin)].
Qed.

Lemma upd_file_twice n F G k : exec (upd_file n G) (exec (upd_file n F) k) = exec (upd_file n (fun f => G (F f))) k.
Proof.
  unfold upd_file, exec, st_mod. cbn [snd]. unfold upd_fdesc. set (t := current_files k).
  change (current_files (set_fdesc t n (F (fdesc k t n)) k)) with t. rewrite (fdesc_insert_eq k _ t n (F (fdesc k t n))) by done.
  unfold set_fdesc. cbn. by rewrite insert_insert_eq.
Qed.

Lemma same_hold_flags g f : same_hold f (f <| f_flags := g |>).
Proof. by repeat split. Qed.

Lemma find_file P l n : List.find P l = Some n -> (forall x, x ∈ l -> 0 <= x < MAX_FILES) -> fd_ok n = true /\ P n = true.
Proof.
  intros Hf Hl. apply find_some in Hf as [Hin HP]. split; [|done]. apply fd_ok_range, Hl, list_elem_of_In, Hin.
Qed.

Lemma dup_internal_inv oldfd minfd c k : 0 <= minfd -> fd_inv k -> fd_inv (exec (sys_dup_internal oldfd minfd c) k).
Proof.
  intros Hm Hi. unfold sys_dup_internal. run_exec.
  destruct (fd_ok oldfd) eqn:Ho; [|done]. destruct (f_in_use (file k oldfd)) eqn:Hu; [|done]. cbn [negb orb].
  destruct (List.find _ _) as [n|] eqn:Hf; [|done].
  apply find_file in Hf as [Hn Hfree%negb_true_iff]; [|intros x Hx%elem_of_seqZ; lia]. run_exec.
  destruct c; cbv iota; run_exec; [rewrite upd_file_twice|]; (apply copy_inv; try done; intros f; apply same_hold_flags).
Qed.

(** ** Closing *)

Lemma mark_closed_spec t fd k : alive_ok k -> (forall i, f_input_state (fdesc k t fd) = Some i -> 1 <= is_refs (in_state k i)) ->
  let k' := exec (fd_mark_closed t fd) k in
  set_slot t fd blank_file_desc k k' /\ shift (fun r => - d_in (f_input_state (fdesc k t fd)) r) k k'.
Proof.
  intros Ha Hp k'. subst k'. unfold fd_mark_closed. run_exec. destruct (release_input_spec _ k Ha Hp) as [S T].
  set (k1 := exec (input_state_release _) k) in *. unfold exec, st_mod. cbn [snd]. split.
  - eapply same_set_slot; [exact T | apply set_slot_fdesc].
  - eapply shift_same; [exact S | apply same_counts_fdesc].
Qed.

Lemma d_off_none r : d_off None r = 0.
Proof. by destruct r. Qed.
Lemma d_ep_none r : d_ep None r = 0.
Proof. by destruct r. Qed.

(** The offset and the input position go, and the slot is cleared. *)
Lemma close_tail_spec t fd k : alive_ok k -> (forall i, f_shared_offset (fdesc k t fd) = Some i -> 1 <= od_refs (open_desc k i)) ->
  (forall i, f_input_state (fdesc k t fd) = Some i -> 1 <= is_refs (in_state k i)) ->
  let f := fdesc k t fd in let k' := exec (fd_mark_closed t fd) (exec (fd_drop_resources t fd) k) in
  set_slot t fd blank_file_desc k k' /\ shift (fun r => - d_off (f_shared_offset f) r - d_in (f_input_state f) r) k k'.
Proof.
  intros Ha Ho Hp f k'. subst k'. unfold fd_drop_resources. run_exec. fold f.
  destruct (f_shared_offset f) as [i|] eqn:Es.
  - run_exec. destruct (release_offset_spec (Some i) k Ha) as [S1 T1]; [intros j [= <-]; by apply Ho|].
    set (k1 := exec (release_open_offset _) k) in *. unfold exec at 2 4, st_mod. cbn [snd].
    set (k2 := upd_fdesc t fd _ k1). assert (C2 : same_counts k1 k2) by by intros [].
    assert (E2 : set_slot t fd (f <| f_shared_offset := None |>) k k2).
    { eapply same_set_slot; [exact T1|]. unfold k2, upd_fdesc. rewrite (same_fdesc _ _ _ _ T1). apply set_slot_fdesc. }
    assert (Ef : fdesc k2 t fd = f <| f_shared_offset := None |>) by (apply (fdesc_insert_eq k), E2).
    assert (S2 := shift_same _ _ _ _ S1 C2).
    destruct (mark_closed_spec t fd k2 (proj1 S2)) as [E3 S3]; rewrite Ef in *; cbn [upd_field f_input_state] in *.
    { intros j Hj. change (is_refs (in_state k2 j)) with (counter k2 (InputRefs j)). rewrite (shift_keeps _ _ _ _ S2) by done. by apply Hp. }
    split; [by eapply set_slot_set|]. eapply shift_ext; [|exact (shift_trans _ _ _ _ _ S2 S3)]. intros r. cbv beta. lia.
  - run_exec. destruct (mark_closed_spec t fd k Ha Hp) as [E3 S3]. split; [done|]. eapply shift_ext; [|exact S3].
    intros r. cbv beta. fold f. rewrite d_off_none. lia.
Qed.

(** The slot of an open descriptor is cleared and all it held is released. *)
Lemma close_inv k k' t fd : fd_inv k -> in_slots t fd -> table_refs k t <> 0 -> f_in_use (fdesc k t fd) = true ->
  set_slot t fd blank_file_desc k k' ->
  shift (fun r => - d_off (f_shared_offset (fdesc k t fd)) r - d_in (f_input_state (fdesc k t fd)) r
                  - d_ep (epoll_state_for_file (fdesc k t fd)) r - d_end (fdesc k t fd) r) k k' -> fd_inv k'.
Proof.
  intros Hi Hin Hl Hu Hs Hd. eapply fd_inv_slot; try done. intros r. cbv beta. change (weight blank_file_desc r) with 0. unfold weight. rewrite Hu, uses_split. lia.
Qed.

(** First the endpoint goes ([k1]), then the rest. *)
Lemma close_end k k1 t fd : fd_inv k -> in_slots t fd -> table_refs k t <> 0 -> f_in_use (fdesc k t fd) = true ->
  epoll_state_for_file (fdesc k t fd) = None ->
  same_tabs k k1 -> shift (fun r => -1 * d_end (fdesc k t fd) r) k k1 ->
  let k2 := exec (fd_mark_closed t fd) (exec (fd_drop_resources t fd) k1) in fd_inv k2 /\ set_slot t fd blank_file_desc k k2.
Proof.
  intros Hi Hin Hl Hu He HT HS k2. set (f := fdesc k t fd) in *. assert (Ef : fdesc k1 t fd = f) by (by apply same_fdesc).
  pose proof (slot_held k t fd (fi_refs k Hi) Hin Hu) as Hh.
  destruct (close_tail_spec t fd k1 (proj1 HS)) as [E2 S2]; rewrite ?Ef in *.
  { intros i Ei. change (od_refs (open_desc k1 i)) with (counter k1 (Offset i)). rewrite (shift_keeps _ _ _ _ HS) by done.
    apply (held_offset k f Hh i Ei). }
  { intros i Ei. change (is_refs (in_state k1 i)) with (counter k1 (InputRefs i)). rewrite (shift_keeps _ _ _ _ HS) by done.
    apply (held_input k f Hh i Ei). }
  fold k2 in E2, S2. assert (Es : set_slot t fd blank_file_desc k k2) by (by eapply same_set_slot). split; [|done].
  eapply close_inv; try done. eapply shift_ext; [|exact (shift_trans _ _ _ _ _ HS S2)]. intros r. cbv beta. fold f. rewrite He, d_ep_none. lia.
Qed.

Lemma not_epoll f : f_type f <> FD_EPOLL -> epoll_state_for_file f = None.
Proof. intros H. unfold epoll_state_for_file. by rewrite (proj2 (Z.eqb_neq _ _)). Qed.

(** The recount of sys_close finds the count there is. *)
Lemma live_tally k pi ty r : fd_inv k -> (forall f, uses f r = (f_type f =? ty) && bool_decide (f_private f = PPipe pi)) ->
  pipe_live k pi ty = tally k r.
Proof.
  intros Hi Hr. unfold pipe_live, tally. rewrite count_sumZ. apply sumZ_ext. intros [t fd] Hin%all_slots_elem. cbn [fst snd].
  unfold open_slot, weight. cbn [fst snd]. rewrite Hr, (andb_comm (bool_decide _)).
  destruct (Z.eqb_spec (table_refs k t) 0) as [E|E]; cbn [negb andb].
  - by rewrite (fi_dead k Hi t fd Hin E).
  - by destruct (f_in_use (fdesc k t fd)).
Qed.

Lemma release_spec t fd k : alive_ok k -> let f := fdesc k t fd in f_in_use f = true ->
  (forall i, f_shared_offset f = Some i -> 1 <= od_refs (open_desc k i)) ->
  (forall i, f_input_state f = Some i -> 1 <= is_refs (in_state k i)) ->
  (forall i, epoll_state_for_file f = Some i -> 1 <= ep_refs (epoll k i)) ->
  let k' := exec (task_fd_release t fd) k in
  set_slot t fd blank_file_desc k k' /\
  shift (fun r => - d_ep (epoll_state_for_file f) r + - d_off (f_shared_offset f) r + - d_in (f_input_state f) r) k k'.
Proof.
  intros Ha f Hu Ho Hp He k'. subst k'. unfold task_fd_release. run_exec. fold f. rewrite Hu. cbn [negb]. run_exec. rewrite exec_if.
  set (k1 := if f_type f =? FD_EPOLL then _ else _).
  assert (H1 : shift (fun r => - d_ep (epoll_state_for_file f) r) k k1 /\ same_tabs k k1).
  { unfold k1. destruct (Z.eqb_spec (f_type f) FD_EPOLL) as [Et|Et]; [by apply release_epoll_spec|]. split; [|done].
    rewrite not_epoll by done. eapply shift_ext; [|by apply same_counts_shift]. intros r. by rewrite d_ep_none. }
  destruct H1 as [S1 T1]. destruct (release_offset_spec (f_shared_offset f) k1 (proj1 S1)) as [S2 T2].
  { intros i Ei. change (od_refs (open_desc k1 i)) with (counter k1 (Offset i)). rewrite (shift_keeps _ _ _ _ S1) by done. by apply Ho. }
  set (k2 := exec (release_open_offset _) k1) in *. assert (S12 := shift_trans _ _ _ _ _ S1 S2).
  assert (T12 := same_tabs_trans _ _ _ T1 T2). pose proof (same_fdesc _ _ t fd T12) as Ef. fold f in Ef.
  destruct (mark_closed_spec t fd k2 (proj1 S12)) as [E3 S3]; rewrite Ef in *.
  { intros i Ei. change (is_refs (in_state k2 i)) with (counter k2 (InputRefs i)). rewrite (shift_keeps _ _ _ _ S12) by done. by apply Hp. }
  split; [by eapply same_set_slot | exact (shift_trans _ _ _ _ _ S12 S3)].
Qed.

(** The last statements of sys_close change no count. *)
Lemma inv_slot_quiet t fd k k1 k2 : fd_inv k1 /\ set_slot t fd blank_file_desc k k1 -> quiet k1 k2 ->
  fd_inv k2 /\ set_slot t fd blank_file_desc k k2.
Proof. intros [A B] Q. split; [by eapply fd_inv_quiet | by eapply slot_quiet]. Qed.

Lemma endpoint_typed f r : endpoint_of f = Some r -> f_type f <> FD_EPOLL.
Proof. unfold endpoint_of. intros H E. rewrite E in H. destruct (f_private f); discriminate. Qed.

Lemma quiet_recount_readers k pi : fd_inv k -> quiet k (upd_pipe pi (fun p => p <| pi_readers := pipe_live_readers k pi |>) k).
Proof.
  intros Hi. apply quiet_pipe; [|done]. cbn. unfold pipe_live_readers. rewrite (live_tally k pi _ (PipeReaders pi)) by done.
  symmetry. apply (proj2 (fi_refs k Hi) (PipeReaders pi)).
Qed.
Lemma quiet_recount_writers k pi : fd_inv k -> quiet k (upd_pipe pi (fun p => p <| pi_writers := pipe_live_writers k pi |>) k).
Proof.
  intros Hi. apply quiet_pipe; [done|]. cbn. unfold pipe_live_writers. rewrite (live_tally k pi _ (PipeWriters pi)) by done.
  symmetry. apply (proj2 (fi_refs k Hi) (PipeWriters pi)).
Qed.

Section Close.
Variables (k : kernel) (fd : Z).
Hypotheses (Hi : fd_inv k) (Hfd : fd_ok fd = true) (Hu : f_in_use (file k fd) = true).

Local Abbreviation t := (current_files k).
Local Abbreviation f := (file k fd).
Local Abbreviation closed k' := (fd_inv k' /\ set_slot t fd blank_file_desc k k').

Lemma close_held : held_by k f.
Proof. apply slot_held; [apply Hi | by apply current_slot | done]. Qed.

(** The endpoint goes by [k1], then the rest. *)
Lemma close_one r k1 : endpoint_of f = Some r -> dropped r k k1 -> same_tabs k k1 ->
  closed (exec (fd_mark_closed t fd) (exec (fd_drop_resources t fd) k1)).
Proof.
  intros He Hd HT. destruct (current_live k Hi) as [_ Hl]. apply close_end; try done; [by apply current_slot | |].
  - apply not_epoll. by eapply endpoint_typed.
  - by apply (end_shift (fdesc k t fd) r (counter k r - 1)); [apply Hi | | |].
Qed.

Lemma close_plain k1 : endpoint_of f = None -> f_type f <> FD_EPOLL -> quiet k k1 ->
  closed (exec (fd_mark_closed t fd) (exec (fd_drop_resources t fd) k1)).
Proof.
  intros He Ht [HT HC]. destruct (current_live k Hi) as [_ Hl]. apply close_end; try done; [by apply current_slot | by apply not_epoll|].
  apply endpoint_none; [apply Hi | done | done].
Qed.

Lemma not_endpoint : f_type f <> FD_PIPE_R -> f_type f <> FD_PIPE_W -> f_type f <> FD_PTY_MASTER -> f_type f <> FD_PTY_SLAVE -> endpoint_of f = None.
Proof. intros. unfold endpoint_of. rewrite !(proj2 (Z.eqb_neq _ _)) by done. by destruct (f_private f). Qed.

Lemma close_ge r : endpoint_of f = Some r -> 1 <= counter k r.
Proof. intros He. pose proof (held_endpoint k f close_held r He). lia. Qed.

Lemma open_endpoint : is_endpoint f = true -> is_Some (endpoint_of f).
Proof. pose proof (fi_typed k Hi t fd (current_slot k fd Hi Hfd)) as H. unfold fd_typed in H. fold f in H. by rewrite Hu in H. Qed.

Lemma close_spec : closed (exec (sys_close fd) k).
Proof.
  unfold sys_close. run_exec. rewrite Hfd, Hu. cbn [negb orb].
  destruct (Z.eqb_spec (f_type f) FD_EPOLL) as [Et|Ne].
  { run_exec. destruct (release_spec t fd k (proj1 (fi_refs k Hi)) Hu) as [E S].
    - intros i Ei. apply (held_offset k f close_held i Ei).
    - intros i Ei. apply (held_input k f close_held i Ei).
    - intros i Ei. apply (held_epoll k f close_held i Ei).
    - split; [|done]. destruct (current_live k Hi) as [_ Hl]. apply (close_inv k _ t fd Hi (current_slot k fd Hi Hfd) Hl Hu E).
      eapply shift_ext; [|exact S]. intros r. cbv beta. rewrite d_end_eq, bool_decide_false; [fold f; cbn; lia|].
      intros E'. by apply (endpoint_typed f r) in E'. }
  assert (Hpriv : is_endpoint f = true -> is_Some (endpoint_of f)) by apply open_endpoint. unfold is_endpoint in Hpriv.
  destruct (Z.eqb_spec (f_type f) FD_PTY_MASTER) as [Em|Nm]; cbn [orb].
  { destruct Hpriv as [r Hr]; [by rewrite Em|]. unfold endpoint_of in Hr. rewrite Em in Hr. destruct (f_private f) as [| |i|i| | | |] eqn:Ep; try discriminate Hr.
    run_exec. eapply inv_slot_quiet; [|apply quiet_wake].
    assert (He : endpoint_of f = Some (PtyMasters i)) by (unfold endpoint_of; by rewrite Ep, Em).
    apply (close_one _ _ He); [|done]. apply drop_master_count; [apply Hi | exact (close_ge _ He)]. }
  destruct (Z.eqb_spec (f_type f) FD_PTY_SLAVE) as [Es|Ns]; cbn [orb].
  { destruct Hpriv as [r Hr]; [by rewrite Es|]. unfold endpoint_of in Hr. rewrite Es in Hr. destruct (f_private f) as [| |i|i| | | |] eqn:Ep; try discriminate Hr.
    run_exec. eapply inv_slot_quiet; [|apply quiet_wake].
    assert (He : endpoint_of f = Some (PtySlaves i)) by (unfold endpoint_of; by rewrite Ep, Es).
    apply (close_one _ _ He); [|done]. pose proof (close_ge _ He) as Hge. cbn in Hge.
    destruct (drop_slave_eq (pty k i) Hge (alive_open k (PtySlaves i) (proj1 (fi_refs k Hi)) Hge)) as (E1 & E2 & E3 & E4).
    unfold dropped, upd_pty, exec, st_mod. cbn [counter snd]. rewrite <- E1. unfold upd_pty. set (p := drop_slave (pty k i)) in *. cbn zeta.
    set (q := if py_slave_refs p =? 0 then _ else p).
    assert (Eq : py_slave_refs q = py_slave_refs p /\ py_slave_open q = py_slave_open p /\ py_master_refs q = py_master_refs p /\ py_master_open q = py_master_open p)
      by (unfold q; destruct (py_slave_refs p =? 0); repeat split; reflexivity).
    destruct Eq as (Q1 & Q2 & Q3 & Q4). rewrite <- Q1. apply set_slaves; congruence. }
  destruct (Z.eqb_spec (f_type f) FD_PIPE_R) as [Er|Nr].
  { destruct Hpriv as [r Hr]; [by rewrite Er|]. unfold endpoint_of in Hr. rewrite Er in Hr. destruct (f_private f) as [| |i|i| | | |] eqn:Ep; try discriminate Hr.
    run_exec. assert (He : endpoint_of f = Some (PipeReaders i)) by (unfold endpoint_of; by rewrite Ep, Er).
    pose proof (close_one _ (upd_pipe i drop_reader k) He (drop_reader_count i k (close_ge _ He)) ltac:(done)) as Hc.
    eapply inv_slot_quiet; [|apply quiet_eof]. eapply inv_slot_quiet; [exact Hc | by apply quiet_recount_readers, Hc]. }
  destruct (Z.eqb_spec (f_type f) FD_PIPE_W) as [Ew|Nw].
  { destruct Hpriv as [r Hr]; [done|]. unfold endpoint_of in Hr. rewrite Ew in Hr. destruct (f_private f) as [| |i|i| | | |] eqn:Ep; try discriminate Hr.
    run_exec. assert (He : endpoint_of f = Some (PipeWriters i)) by (unfold endpoint_of; by rewrite Ep, Ew).
    pose proof (close_one _ (upd_pipe i drop_writer k) He (drop_writer_count i k (close_ge _ He)) ltac:(done)) as Hc.
    eapply inv_slot_quiet; [|apply quiet_wake_readers]. eapply inv_slot_quiet; [exact Hc | by apply quiet_recount_writers, Hc]. }
  pose proof (not_endpoint Nr Nw Nm Ns) as Hn. destruct (f_type f =? FD_SOCKET); run_exec; [|by apply close_plain].
  apply close_plain; try done. destruct (drop_ref_socket t fd k) as [H1 H2]. eapply quiet_trans; [exact (conj H2 H1) | apply quiet_wake].
Qed.
End Close.

Lemma sys_close_inv fd k : fd_inv k -> fd_inv (exec (sys_close fd) k).
Proof.
  intros Hi. destruct (fd_ok fd) eqn:Hf; [destruct (f_in_use (file k fd)) eqn:Hu; [by apply close_spec|]|];
    unfold sys_close; run_exec; rewrite ?Hf, ?Hu; done.
Qed.

Lemma dup_onto_inv oldfd newfd extra k : fd_inv k -> fd_ok oldfd = true -> fd_ok newfd = true -> oldfd <> newfd ->
  f_in_use (file k oldfd) = true -> fd_inv (exec (dup_onto oldfd newfd extra) k).
Proof.
  intros Hi Ho Hn Hne Hu. unfold dup_onto. run_exec. rewrite exec_if.
  set (k1 := if f_in_use (file k newfd) then _ else _).
  assert (H1 : fd_inv k1 /\ file k1 oldfd = file k oldfd /\ f_in_use (file k1 newfd) = false).
  { unfold k1. destruct (f_in_use (file k newfd)) eqn:En; [|done]. run_exec. destruct (close_spec k newfd Hi Hn En) as [H1 H2]. split; [done|].
    unfold file. rewrite (slot_current _ _ _ _ _ H2). split; [|by rewrite (fdesc_insert_eq k _ _ _ blank_file_desc) by apply H2].
    rewrite (fdesc_insert k _ (current_files k) newfd blank_file_desc) by apply H2. rewrite (proj2 (Z.eqb_neq newfd oldfd)) by congruence.
    by rewrite andb_false_r. }
  destruct H1 as (H1 & H2 & H3). rewrite <- H2 in Hu.
  destruct (copy_inv newfd oldfd (fun f => f <| f_flags := Z.lor (Z.ldiff (f_flags f) O_CLOEXEC) extra |>) k1 H1 Hn Ho H3 Hu) as [R1 R2];
    [intros f; apply same_hold_flags|]. cbv zeta in R1.
  match goal with |- fd_inv (exec (fd_retain_endpoint_ref ?t newfd) ?k2) => replace t with (current_files k1); [exact R1|] end.
  pose proof (current_slot k1 oldfd H1 Ho) as Hin. pose proof (slot_held k1 _ _ (fi_refs k1 H1) Hin Hu) as Hh.
  destruct (copy_scalar_spec (current_files k1) newfd oldfd k1 (proj1 (fi_refs k1 H1)) Hh Hu) as [Hs _].
  symmetry. exact (slot_current _ _ _ _ _ Hs).
Qed.

Lemma sys_dup2_inv oldfd newfd k : fd_inv k -> fd_inv (exec (sys_dup2 oldfd newfd) k).
Proof.
  intros Hi. unfold sys_dup2. run_exec. destruct (fd_ok oldfd) eqn:Ho, (f_in_use (file k oldfd)) eqn:Hu, (fd_ok newfd) eqn:Hn; cbn [negb orb]; try done.
  destruct (Z.eqb_spec oldfd newfd); [done | by apply dup_onto_inv].
Qed.

Lemma sys_dup3_inv oldfd newfd flags k : fd_inv k -> fd_inv (exec (sys_dup3 oldfd newfd flags) k).
Proof.
  intros Hi. unfold sys_dup3. run_exec. destruct (negb _); [done|].
  destruct (fd_ok oldfd) eqn:Ho, (f_in_use (file k oldfd)) eqn:Hu, (fd_ok newfd) eqn:Hn; cbn [negb orb]; try done.
  destruct (Z.eqb_spec oldfd newfd); [done | by apply dup_onto_inv].
Qed.

(** Only the flags of a descriptor change. *)
Lemma set_flags_inv fd g k : fd_inv k -> fd_ok fd = true -> fd_inv (exec (upd_file fd (fun f => f <| f_flags := g f |>)) k).
Proof.
  intros Hi Hf. destruct (upd_file_spec fd (fun f => f <| f_flags := g f |>) k) as [H1 H2]. pose proof (current_slot k fd Hi Hf) as Hin.
  pose proof (same_hold_flags (g (file k fd)) (file k fd)) as Hh.
  eapply fd_inv_slot; [exact Hi | exact Hin | exact H1 | apply same_counts_shift; [apply Hi | exact H2] | | | by apply current_live].
  - intros r. cbv beta. rewrite (same_hold_weight (file k fd)) by done. unfold file. lia.
  - by apply (same_hold_typed (file k fd)), fi_typed.
Qed.

Lemma sys_fcntl_inv fd cmd arg k : (cmd = 0 \/ cmd = 1030 -> 0 <= s32 arg) -> fd_inv k -> fd_inv (exec (sys_fcntl fd cmd arg) k).
Proof.
  intros Harg Hi. unfold sys_fcntl. run_exec. destruct (fd_ok fd) eqn:Hf; [|done]. destruct (f_in_use (file k fd)); [|done]. cbn [negb orb].
  destruct (Z.eqb_spec cmd 0); [apply dup_internal_inv; auto|].
  destruct (cmd =? 1); [done|]. destruct (cmd =? 2); [run_exec; by apply set_flags_inv|]. destruct (cmd =? 3); [done|].
  destruct (cmd =? 4); [run_exec; by apply set_flags_inv|]. destruct (Z.eqb_spec cmd 1030); [apply dup_internal_inv; auto | done].
Qed.

(** ** Making a pipe *)

(** A pipe without counted ends has no open end. *)
Lemma no_ends k pi : fd_inv k -> pi_readers (pipe k pi) = 0 -> pi_writers (pipe k pi) = 0 ->
  tally k (PipeReaders pi) = 0 /\ tally k (PipeWriters pi) = 0.
Proof. intros Hi H1 H2. rewrite <- !(proj2 (fi_refs k Hi)). done. Qed.

Lemma open_end_uses ty pi f r : f_shared_offset f = None -> f_input_state f = None -> ty = FD_PIPE_R \/ ty = FD_PIPE_W ->
  weight (open_end ty pi f) r = Z.b2z (bool_decide (r = if ty =? FD_PIPE_R then PipeReaders pi else PipeWriters pi)).
Proof.
  intros H1 H2 Hty. unfold weight. cbn [open_end upd_field f_in_use]. change (f_in_use (open_end ty pi f)) with true. cbv iota.
  rewrite uses_split. change (f_shared_offset (open_end ty pi f)) with (f_shared_offset f). change (f_input_state (open_end ty pi f)) with (f_input_state f).
  rewrite H1, H2, d_off_none. assert (E : epoll_state_for_file (open_end ty pi f) = None) by (destruct Hty as [-> | ->]; done).
  rewrite E, d_ep_none, d_end_eq.
  assert (Ee : endpoint_of (open_end ty pi f) = Some (if ty =? FD_PIPE_R then PipeReaders pi else PipeWriters pi)) by (destruct Hty as [-> | ->]; done).
  rewrite Ee. assert (Ed : d_in None r = 0) by (by destruct r). rewrite Ed, !Z.add_0_l. f_equal. apply bool_decide_ext. split; congruence.
Qed.

(** Two free slots of the current table are filled. *)
Definition two_slots (t a b : Z) (fa fb : file_desc) (k k' : kernel) : Prop :=
  (forall t' fd, fdesc k' t' fd = if (t =? t') && (fd =? a) then fa else if (t =? t') && (fd =? b) then fb else fdesc k t' fd) /\
  k_fd_table_id k' = k_fd_table_id k /\ k_fd_table_refs k' = k_fd_table_refs k /\ k_current k' = k_current k.

Lemma two_slots_inv a b fa fb d k k' : fd_inv k -> let t := current_files k in fd_ok a = true -> fd_ok b = true -> a <> b ->
  f_in_use (file k a) = false -> f_in_use (file k b) = false -> two_slots t a b fa fb k k' ->
  fd_typed fa -> fd_typed fb -> shift d k k' -> (forall r, d r = weight fa r + weight fb r) -> fd_inv k'.
Proof.
  intros Hi t Ha Hb Hne Fa Fb (E1 & E2 & E3 & _) Ta Tb [Hal Hc] Hd. destruct (current_live k Hi) as [Ht Hl]. fold t in Ht, Hl.
  pose proof (current_slot k a Hi Ha) as Ia. pose proof (current_slot k b Hi Hb) as Ib. fold t in Ia, Ib.
  set (k1 := set_fdesc t b fb k). set (k2 := set_fdesc t a fa k1).
  assert (S1 : set_slot t b fb k k1) by done. assert (S2 : set_slot t a fa k1 k2) by done.
  assert (Hf : forall t' fd, fdesc k' t' fd = fdesc k2 t' fd).
  { intros t' fd. rewrite E1. rewrite (fdesc_insert k1 k2 t a fa), (fdesc_insert k k1 t b fb) by done. by rewrite (Z.eqb_sym fd a), (Z.eqb_sym fd b). }
  assert (Hs2 : fd_shape k2) by (eapply fd_shape_slot; [|exact S2 | done | done]; eapply fd_shape_slot; [apply Hi | exact S1 | done | done]).
  split.
  - split.
    + intros t' fd Hin. rewrite Hf. by apply (fs_typed k2 Hs2).
    + intros t' fd Hin. unfold table_refs. rewrite Hf, E3. by apply (fs_dead k2 Hs2).
    + intros t' Ht'. unfold table_refs, owners, table_id. rewrite E2, E3. by apply (fi_ids k Hi).
    + unfold table_id. rewrite E2. apply (fi_root k Hi).
  - split; [done|]. intros r. rewrite Hc, (proj2 (fi_refs k Hi)), Hd.
    assert (Et : tally k' r = tally k2 r) by (unfold tally; apply sumZ_ext; intros s _; by rewrite Hf).
    rewrite Et, (tally_insert k1 k2 t a fa r), (tally_insert k k1 t b fb r) by done.
    assert (Wa : weight (fdesc k1 t a) r = 0).
    { rewrite (fdesc_insert k k1 t b fb) by done. rewrite (proj2 (Z.eqb_neq b a)) by congruence. rewrite andb_false_r.
      unfold weight. unfold file in Fa. fold t in Fa. by rewrite Fa. }
    assert (Wb : weight (fdesc k t b) r = 0) by (unfold weight; unfold file in Fb; fold t in Fb; by rewrite Fb).
    rewrite Wa, Wb. lia.
Qed.

Lemma two_slots_refl a b k : let t := current_files k in two_slots t a b (file k a) (file k b) k k.
Proof.
  split; [|done]. intros t' fd. unfold file. destruct (Z.eqb_spec (current_files k) t') as [<-|]; cbn [andb]; [|done].
  destruct (Z.eqb_spec fd a) as [->|]; [done|]. by destruct (Z.eqb_spec fd b) as [->|].
Qed.

Lemma two_slots_same t a b fa fb k k1 k2 : two_slots t a b fa fb k k1 -> same_tabs k1 k2 -> two_slots t a b fa fb k k2.
Proof.
  intros (H1 & H2 & H3 & H4) HT. pose proof HT as (_ & T2 & T3 & T4). split; [|repeat split; congruence].
  intros t' fd. by rewrite (same_fdesc k1 k2), H1.
Qed.

Lemma two_slots_current t a b fa fb k k1 : two_slots t a b fa fb k k1 -> current_files k1 = current_files k.
Proof. intros (_ & E1 & _ & E2). unfold current_files, task_files_for_task, table_id. by rewrite E1, E2. Qed.

Lemma two_slots_fst a b fa fb F k k1 : let t := current_files k in two_slots t a b fa fb k k1 -> a <> b ->
  two_slots t a b (F fa) fb k (exec (upd_file a F) k1).
Proof.
  intros t H Hne. pose proof (two_slots_current _ _ _ _ _ _ _ H) as Ec. destruct H as (H1 & H2).
  destruct (upd_file_spec a F k1) as [(S & S') _]. rewrite Ec in S. fold t in S. rewrite (H1 t a), !Z.eqb_refl in S. cbn [andb] in S.
  split; [|destruct H2 as (? & ? & ?), S' as (? & ? & ?); repeat split; congruence].
  intros t' fd. rewrite (fdesc_insert _ _ _ _ _ _ _ S), H1, (Z.eqb_sym fd a), (Z.eqb_sym fd b).
  destruct (Z.eqb_spec t t') as [->|], (Z.eqb_spec a fd) as [->|]; cbn [andb]; done.
Qed.

Lemma two_slots_swap t a b fa fb k k1 : a <> b -> two_slots t a b fa fb k k1 -> two_slots t b a fb fa k k1.
Proof.
  intros Hne (H1 & H2). split; [|done]. intros t' fd. rewrite H1. destruct (t =? t'); cbn [andb]; [|done].
  destruct (Z.eqb_spec fd a) as [->|]; [by rewrite (proj2 (Z.eqb_neq a b))|]. done.
Qed.

Lemma two_slots_snd a b fa fb F k k1 : let t := current_files k in two_slots t a b fa fb k k1 -> a <> b ->
  two_slots t a b fa (F fb) k (exec (upd_file b F) k1).
Proof. intros t H Hne. apply two_slots_swap; [done|]. apply two_slots_fst; [by apply two_slots_swap | done]. Qed.

(** The ends of a pipe that had none are counted. *)
Definition d_pipe (pi nr nw : Z) (r : resource) : Z :=
  match r with PipeReaders i => if pi =? i then nr else 0 | PipeWriters i => if pi =? i then nw else 0 | _ => 0 end.

Lemma set_ends pi p k : alive_ok k -> shift (d_pipe pi (pi_readers p - pi_readers (pipe k pi)) (pi_writers p - pi_writers (pipe k pi))) k (set_pipe pi p k).
Proof.
  intros Ha. assert (Hc : forall r, counter (set_pipe pi p k) r = counter k r + d_pipe pi (pi_readers p - pi_readers (pipe k pi)) (pi_writers p - pi_writers (pipe k pi)) r).
  { counts; cbn [d_pipe]; unfold pipe, set_pipe; cbn; rewrite ?cell_insert; try lia; destruct (Z.eqb_spec pi i) as [->|]; lia. }
  split; [|done]. intros [i|i|i|i|i|i|i];
    [reflexivity | reflexivity | exact (Ha (PtyMasters i)) | exact (Ha (PtySlaves i)) | exact (Ha (Offset i)) | exact (Ha (EpollRefs i)) | exact (Ha (InputRefs i))].
Qed.

Lemma quiet_copy_to dst src k : quiet k (exec (user_copy_to dst src) k).
Proof. unfold user_copy_to, exec, st_bind, st_get. apply quiet_vm. Qed.

Lemma closed_weight f r : f_in_use f = false -> weight f r = 0.
Proof. intros H. unfold weight. by rewrite H. Qed.

Lemma find_free_ok k : 0 <= find_free_fd k -> fd_ok (find_free_fd k) = true /\ f_in_use (file k (find_free_fd k)) = false.
Proof.
  unfold find_free_fd. destruct (List.find _ _) as [a|] eqn:E; cbn [default]; [|cbn; lia]. intros _.
  apply find_file in E as [H1 H2%negb_true_iff]; [done|]. intros x Hx%elem_of_seqZ. lia.
Qed.

Section Pipe.
Variables (k : kernel) (a b pi : Z).
Hypotheses (Hi : fd_inv k) (Ha : fd_ok a = true) (Hb : fd_ok b = true) (Hne : a <> b).
Hypotheses (Fa : f_in_use (file k a) = false) (Fb : f_in_use (file k b) = false).
Hypotheses (Hr : pi_readers (pipe k pi) = 0) (Hw : pi_writers (pipe k pi) = 0).

Local Abbreviation t := (current_files k).

Lemma free_holds n : fd_ok n = true -> f_in_use (file k n) = false -> f_shared_offset (file k n) = None /\ f_input_state (file k n) = None.
Proof.
  intros Hn Hf. pose proof (fi_typed k Hi t n (current_slot k n Hi Hn)) as H. unfold fd_typed in H. unfold file in *. by rewrite Hf in H.
Qed.

(** The two ends are open. *)
Lemma pipe_opened k1 p : pi_readers p = 1 -> pi_writers p = 1 ->
  two_slots t a b (open_end FD_PIPE_R pi (file k a)) (open_end FD_PIPE_W pi (file k b)) k k1 ->
  same_counts (set_pipe pi p k) k1 -> fd_inv k1.
Proof.
  intros P1 P2 H2 Hc. destruct (free_holds a Ha Fa) as [A1 A2]. destruct (free_holds b Hb Fb) as [B1 B2].
  refine (two_slots_inv a b _ _ _ k k1 Hi Ha Hb Hne Fa Fb H2 _ _ (shift_same _ _ _ _ (set_ends pi p k (proj1 (fi_refs k Hi))) Hc) _).
  - intros _. by eexists.
  - intros _. by eexists.
  - intros r. rewrite P1, P2, Hr, Hw, !open_end_uses by auto.
    change (FD_PIPE_R =? FD_PIPE_R) with true. change (FD_PIPE_W =? FD_PIPE_R) with false. cbv iota.
    destruct r; cbn [d_pipe]; try (rewrite !bool_decide_false by congruence; done).
    + rewrite (bool_decide_false (_ = PipeWriters _)) by congruence. destruct (Z.eqb_spec pi i) as [->|]; [by rewrite bool_decide_true | by rewrite bool_decide_false by congruence].
    + rewrite (bool_decide_false (_ = PipeReaders _)) by congruence. destruct (Z.eqb_spec pi i) as [->|]; [by rewrite bool_decide_true | by rewrite bool_decide_false by congruence].
Qed.

(** Neither end is: the counts are 0 again. *)
Lemma pipe_undone k1 fa fb : f_in_use fa = false -> f_in_use fb = false -> fd_typed fa -> fd_typed fb ->
  two_slots t a b fa fb k k1 -> same_counts k k1 -> fd_inv k1.
Proof.
  intros U1 U2 T1 T2 H2 Hc. eapply (two_slots_inv a b fa fb (fun _ => 0)); try done.
  - apply same_counts_shift; [apply Hi | done].
  - intros r. rewrite !closed_weight by done. done.
Qed.
End Pipe.

(** The counts of a pipe that go back to 0. *)
Lemma undo_ends pi p q k k1 : pi_readers (pipe k pi) = 0 -> pi_writers (pipe k pi) = 0 -> same_counts (set_pipe pi p k) k1 ->
  pi_readers q = 0 -> pi_writers q = 0 -> same_counts k (set_pipe pi q k1).
Proof.
  intros R W H Q1 Q2 r. specialize (H r). revert R W H. destruct r; cbn [counter alive];
    unfold set_pipe, pipe; cbn; rewrite ?cell_insert; try done;
    destruct (Z.eqb_spec pi i) as [->|]; intros R W H; rewrite ?Q1, ?Q2, ?R, ?W; done.
Qed.

Lemma sys_pipe_inv ufds k : fd_inv k -> fd_inv (exec (sys_pipe ufds) k).
Proof.
  intros Hi. unfold sys_pipe. destruct (ufds =? 0); [done|]. run_exec.
  destruct (Z.ltb_spec (find_free_fd k) 0) as [|Hge]; [done|]. destruct (find_free_ok k Hge) as [Ha Fa]. set (a := find_free_fd k) in *.
  destruct (List.find _ (seqZ (a + 1) _)) as [b|] eqn:Hb; [|done].
  assert (Hb' : fd_ok b = true /\ f_in_use (file k b) = false /\ a <> b).
  { apply find_some in Hb as [Hin%list_elem_of_In%elem_of_seqZ HP%negb_true_iff]. apply fd_ok_range in Ha. split; [apply fd_ok_range; lia|]. split; [done | lia]. }
  destruct Hb' as (Hb' & Fb & Hne). destruct (List.find _ (seqZ 0 8)) as [pi|] eqn:Hp; [|done].
  apply find_some in Hp as [_ [[Hr%Z.eqb_eq Hw%Z.eqb_eq]%andb_prop _]%andb_prop]. run_exec.
  set (k1 := upd_pipe pi _ k). set (k3 := exec (upd_file b _) _).
  assert (H3 : two_slots (current_files k) a b (open_end FD_PIPE_R pi (file k a)) (open_end FD_PIPE_W pi (file k b)) k k3).
  { unfold k3. apply two_slots_snd, Hne. apply two_slots_fst, Hne. eapply two_slots_same; [apply two_slots_refl | done]. }
  assert (C3 : same_counts k1 k3) by (unfold k3; by intros []).
  rewrite exec_bind. pose proof (quiet_copy_to ufds (int_bytes a) k3) as Q1. set (k4 := exec (user_copy_to ufds _) k3) in *.
  destruct (user_copy_to ufds (int_bytes a) k3) as [r1 k4'] eqn:E1. cbn [fst]. rewrite exec_bind.
  set (k5 := exec (if negb (r1 =? 0) then _ else _) k4).
  assert (Q2 : quiet k4 k5) by (unfold k5; rewrite exec_if; destruct (negb _); [apply quiet_refl | apply quiet_copy_to]).
  pose proof (quiet_trans _ _ _ Q1 Q2) as [T5 C5]. pose proof (two_slots_same _ _ _ _ _ _ _ _ H3 T5) as H5.
  destruct (negb (fst _ =? 0)); run_exec.
  - set (k6 := exec (upd_file b _) (exec (upd_file a _) (exec (upd_file b _) (exec (upd_file a _) k5)))).
    set (fa := (open_end FD_PIPE_R pi (file k a)) <| f_in_use := false |> <| f_private := PNull |>).
    set (fb := (open_end FD_PIPE_W pi (file k b)) <| f_in_use := false |> <| f_private := PNull |>).
    assert (H6 : two_slots (current_files k) a b fa fb k k6).
    { unfold k6. apply two_slots_snd, Hne. apply two_slots_fst, Hne. apply two_slots_snd, Hne. apply two_slots_fst, Hne. exact H5. }
    assert (C6 : same_counts k1 k6) by (eapply same_counts_trans; [exact C3|]; eapply same_counts_trans; [exact C5|]; unfold k6; by intros []).
    refine (pipe_undone k a b Hi Ha Hb' Hne Fa Fb _ fa fb eq_refl eq_refl (free_holds k Hi a Ha Fa) (free_holds k Hi b Hb' Fb)
      (two_slots_same _ _ _ _ _ _ _ _ H6 _) _); [done|].
    exact (undo_ends pi _ ((pipe k6 pi) <| pi_readers := 0 |> <| pi_writers := 0 |> <| pi_count := 0 |>) k k6 Hr Hw C6 eq_refl eq_refl).
  - eapply (pipe_opened k a b pi Hi Ha Hb' Hne Fa Fb Hr Hw k5); [| |exact H5 | eapply same_counts_trans; [exact C3 | exact C5]]; done.
Qed.

(** ** Sharing, copying and dropping whole descriptor tables

    fork and exit: the loops over a table keep the invariant of [FdInv]. *)

(** ** Owners *)

Lemma table_id_set ti id k x : table_id (set_table_id ti id k) x = if ti =? x then id else table_id k x.
Proof. apply cell_insert. Qed.
Lemma table_refs_set t n k x : table_refs (set_table_refs t n k) x = if t =? x then n else table_refs k x.
Proof. apply cell_insert. Qed.

Lemma all_tasks_elem ti : ti ∈ all_tasks <-> 0 <= ti < MAX_TASKS.
Proof. unfold all_tasks. rewrite elem_of_seqZ. lia. Qed.

(** Task [ti] moves to table [id]. *)
Lemma owners_moved k k' ti id t : 0 <= ti < MAX_TASKS -> (forall x, table_id k' x = if ti =? x then id else table_id k x) ->
  owners k' t = owners k t - Z.b2z (table_id k ti =? t) + Z.b2z (id =? t).
Proof.
  intros Hti H. unfold owners. rewrite (sumZ_update (fun ti => Z.b2z (table_id k ti =? t)) _ _ ti); [|apply NoDup_seqZ | by apply all_tasks_elem|].
  - by rewrite (H ti), Z.eqb_refl.
  - intros y _ Hy. by rewrite H, (proj2 (Z.eqb_neq ti y)) by congruence.
Qed.

(** Only the owners of tables changed. *)
Lemma refs_books k k' : refs_ok k -> same_counts k k' -> k_fd_tables k' = k_fd_tables k -> refs_ok k'.
Proof.
  intros [A B] Hc E. split; [intros r; destruct (Hc r) as [-> ->]; apply A|]. intros r. destruct (Hc r) as [-> _]. rewrite B.
  unfold tally, fdesc. by rewrite E.
Qed.

Lemma same_counts_books ti id t n k : same_counts k (set_table_refs t n (set_table_id ti id k)).
Proof. by intros []. Qed.
Lemma same_counts_id ti id k : same_counts k (set_table_id ti id k).
Proof. by intros []. Qed.

(** ** Closing every descriptor of a table *)

Lemma close_slot t fd k : refs_ok k -> in_slots t fd -> f_in_use (fdesc k t fd) = true ->
  let k' := exec (task_fd_release t fd) (exec (drop_endpoint t fd) k) in refs_ok k' /\ set_slot t fd blank_file_desc k k'.
Proof.
  intros Hr Hin Hu k'. pose proof (slot_held k t fd Hr Hin Hu) as Hh. set (f := fdesc k t fd) in *.
  destruct (drop_endpoint_spec t fd k (proj1 Hr)) as [S1 T1].
  { intros r He. pose proof (held_endpoint k f Hh r He). lia. }
  fold f in S1. set (k1 := exec (drop_endpoint t fd) k) in *. pose proof (same_fdesc _ _ t fd T1) as Ef. fold f in Ef.
  destruct (release_spec t fd k1 (proj1 S1)) as [E2 S2]; rewrite ?Ef in *; try done.
  { intros i Ei. change (od_refs (open_desc k1 i)) with (counter k1 (Offset i)). rewrite (shift_keeps _ _ _ _ S1) by done. apply (held_offset k f Hh i Ei). }
  { intros i Ei. change (is_refs (in_state k1 i)) with (counter k1 (InputRefs i)). rewrite (shift_keeps _ _ _ _ S1) by done. apply (held_input k f Hh i Ei). }
  { intros i Ei. change (ep_refs (epoll k1 i)) with (counter k1 (EpollRefs i)). rewrite (shift_keeps _ _ _ _ S1) by done. apply (held_epoll k f Hh i Ei). }
  fold k' in E2, S2. assert (Es : set_slot t fd blank_file_desc k k') by (by eapply same_set_slot). split; [|done].
  eapply (refs_slot k k' t fd); [done | done | exact Es | exact (shift_trans _ _ _ _ _ S1 S2)|].
  intros r. cbv beta. fold f. change (weight blank_file_desc r) with 0. unfold weight. rewrite Hu, uses_split. lia.
Qed.

(** The other tables stay, as do the owners. *)
Definition other_tables (t : Z) (k k' : kernel) : Prop :=
  (forall t' fd, t' <> t -> fdesc k' t' fd = fdesc k t' fd) /\
  k_fd_table_id k' = k_fd_table_id k /\ k_fd_table_refs k' = k_fd_table_refs k /\ k_current k' = k_current k.

Lemma other_tables_refl t k : other_tables t k k.
Proof. done. Qed.
Lemma other_tables_trans t k1 k2 k3 : other_tables t k1 k2 -> other_tables t k2 k3 -> other_tables t k1 k3.
Proof. intros (A1 & A2 & A3 & A4) (B1 & B2 & B3 & B4). split; [intros t' fd H; by rewrite B1, A1 | repeat split; congruence]. Qed.
Lemma other_tables_slot t fd f k k' : set_slot t fd f k k' -> other_tables t k k'.
Proof.
  intros (E & R). split; [|done]. intros t' fd' Hne. rewrite (fdesc_insert k k' t fd f) by done. by rewrite (proj2 (Z.eqb_neq t t')) by congruence.
Qed.

Lemma close_table_spec t k : 0 <= t < MAX_FD_TABLES -> refs_ok k -> let k' := exec (close_table t) k in
  refs_ok k' /\ other_tables t k k' /\ forall fd, 0 <= fd < MAX_FILES -> fdesc k' t fd = blank_file_desc \/ (fdesc k' t fd = fdesc k t fd /\ f_in_use (fdesc k t fd) = false).
Proof.
  intros Ht Hr. cbn zeta. unfold close_table, exec. cbn [snd].
  assert (H : forall n, 0 <= n -> n <= MAX_FILES -> let k' := foldl (fun k fd => if negb (f_in_use (fdesc k t fd)) then k
      else snd ((drop_endpoint t fd ;;; task_fd_release t fd) k)) k (seqZ 0 n) in
    refs_ok k' /\ other_tables t k k' /\ (forall fd, n <= fd -> fdesc k' t fd = fdesc k t fd) /\
    forall fd, 0 <= fd < n -> fdesc k' t fd = blank_file_desc \/ (fdesc k' t fd = fdesc k t fd /\ f_in_use (fdesc k t fd) = false)).
  { refine (natlike_ind _ _ _).
    - intros _. split; [done|]. split; [apply other_tables_refl|]. split; [done | lia].
    - intros n Hn IH Hle. destruct (IH ltac:(lia)) as (I1 & I2 & I3 & I4). clear IH. unfold Z.succ. rewrite seqZ_app by lia.
      change (seqZ (0 + n) 1) with [n]. rewrite foldl_app. cbn [foldl]. set (kn := foldl _ k (seqZ 0 n)) in *.
      destruct (f_in_use (fdesc kn t n)) eqn:Eu; cbn [negb].
      + destruct (close_slot t n kn I1) as [C1 C2]; [split; lia | done|]. rewrite <- exec_seq in C1, C2. unfold exec in C1, C2.
        split; [done|]. split; [eapply other_tables_trans; [exact I2 | by eapply other_tables_slot]|].
        split; intros fd Hfd; rewrite (fdesc_insert kn _ t n blank_file_desc) by apply C2; rewrite Z.eqb_refl; cbn [andb].
        * rewrite (proj2 (Z.eqb_neq n fd)) by lia. apply I3. lia.
        * destruct (Z.eqb_spec n fd) as [->|]; [by left | apply I4; lia].
      + split; [done|]. split; [done|]. split; intros fd Hfd; [apply I3; lia|].
        destruct (Z.eq_dec fd n) as [->|]; [right; rewrite <- (I3 n) by lia; done | apply I4; lia]. }
  destruct (H MAX_FILES) as (H1 & H2 & _ & H4); done.
Qed.

(** ** Copying a table *)

Lemma clone_fd_spec s d fd k : refs_ok k -> in_slots s fd -> in_slots d fd -> fd_typed (fdesc k s fd) -> f_in_use (fdesc k d fd) = false ->
  let k' := exec (clone_fd s d fd) k in refs_ok k' /\ set_slot d fd (fdesc k s fd) k k'.
Proof.
  intros Hr Hs Hd Hty Hfree k'. subst k'. unfold clone_fd. run_exec. set (f := fdesc k s fd) in *.
  set (k1 := set_fdesc d fd f k). assert (C1 : same_counts k k1) by apply same_counts_fdesc.
  assert (S1 : shift (fun _ => 0) k k1) by (by apply same_counts_shift; [apply Hr|]).
  assert (E1 : set_slot d fd f k k1) by apply set_slot_fdesc.
  assert (Hw : forall r, weight (fdesc k d fd) r = 0) by (intros r; by apply closed_weight).
  destruct (f_in_use f) eqn:Hu; cbn [negb]; run_exec.
  2: { split; [|done]. eapply (refs_slot k k1 d fd); [done | done | exact E1 | exact S1|]. intros r. rewrite Hw, closed_weight by done. done. }
  pose proof (slot_held k s fd Hr Hs Hu) as Hh. fold f in Hh.
  destruct (retain_input_spec (f_input_state f) k1 (proj1 S1)) as [S2 T2].
  { intros i Ei. apply (held_input k f Hh i Ei). }
  set (k2 := exec (input_state_retain _) k1) in *. rewrite exec_if.
  assert (Ef : fdesc k2 d fd = f) by (rewrite (same_fdesc _ _ _ _ T2); by apply (fdesc_insert_eq k)).
  set (k3 := if f_type f =? FD_EPOLL then _ else _).
  assert (H3 : shift (fun r => d_ep (epoll_state_for_file f) r) k2 k3 /\ same_tabs k2 k3).
  { unfold k3. destruct (Z.eqb_spec (f_type f) FD_EPOLL) as [Et|Et].
    - destruct (retain_epoll_spec d fd k2 (proj1 S2)) as [A B]; rewrite Ef in *; [|done].
      intros i Ei. change (ep_refs (epoll k2 i)) with (counter k2 (EpollRefs i)). rewrite (shift_keeps _ _ _ _ S2) by done. apply (held_epoll k f Hh i Ei).
    - split; [|done]. rewrite not_epoll by done. eapply shift_ext; [|apply same_counts_shift; [apply S2 | done]]. intros r. by rewrite d_ep_none. }
  destruct H3 as [S3 T3]. assert (S23 := shift_trans _ _ _ _ _ S2 S3).
  destruct (retain_offset_spec (f_shared_offset f) k3 (proj1 S3)) as [S4 T4].
  { intros i Ei. change (od_refs (open_desc k3 i)) with (counter k3 (Offset i)). rewrite (shift_keeps _ _ _ _ S23) by done. apply (held_offset k f Hh i Ei). }
  set (k4 := exec (retain_open_offset _) k3) in *. assert (S24 := shift_trans _ _ _ _ _ S23 S4).
  assert (T24 := same_tabs_trans _ _ _ (same_tabs_trans _ _ _ T2 T3) T4).
  assert (Ef4 : fdesc k4 d fd = f) by (rewrite (same_fdesc _ _ _ _ T24); by apply (fdesc_insert_eq k)).
  destruct (retain_endpoint_spec d fd k4 (proj1 S4)) as [S5 T5]; rewrite ?Ef4 in *; [done | |].
  { intros r He. rewrite (shift_keeps _ _ _ r S24).
    - pose proof (held_endpoint k f Hh r He). change (counter k1 r) with (counter k1 r). destruct (C1 r) as [-> _]. lia.
    - pose proof (endpoint_zero f r (f_shared_offset f) (f_input_state f) (epoll_state_for_file f) He). lia. }
  set (k5 := exec (fd_retain_endpoint_ref d fd) k4) in *.
  assert (Es : set_slot d fd f k k5) by (eapply set_slot_same; [exact E1 | by eapply same_tabs_trans]).
  split; [|done]. eapply (refs_slot k k5 d fd); [done | done | exact Es | exact (same_shift _ _ _ _ C1 (shift_trans _ _ _ _ _ S24 S5))|].
  intros r. cbv beta. rewrite Hw. unfold weight. rewrite Hu, uses_split. lia.
Qed.

(** ** The invariant *)

(** The shape of a state given table by table. *)
Lemma shape_of k k' : fd_shape k ->
  (forall t fd, in_slots t fd -> fd_typed (fdesc k' t fd)) ->
  (forall t fd, in_slots t fd -> table_refs k' t = 0 -> f_in_use (fdesc k' t fd) = false) ->
  (forall t, 0 <= t < MAX_FD_TABLES -> table_refs k' t - table_refs k t = owners k' t - owners k t) ->
  table_id k' 0 = 0 -> fd_shape k'.
Proof. intros Hs H1 H2 H3 H4. split; [done | done | | done]. intros t Ht. pose proof (fs_ids k Hs t Ht). specialize (H3 t Ht). lia. Qed.

Lemma owners_range k t : 0 <= owners k t <= MAX_TASKS.
Proof.
  unfold owners. split; [apply sumZ_nonneg; intros y _; destruct (_ =? _); cbn; lia|].
  change MAX_TASKS with (Z.of_nat (length all_tasks)). apply sumZ_bound. intros y _. destruct (_ =? _); cbn; lia.
Qed.

(** A task gives its table up; [k1] has the books of the result. *)
Lemma release_books ti k k' n : fd_inv k -> 0 <= ti < MAX_TASKS -> ti <> 0 ->
  (forall x, table_id k' x = if ti =? x then -1 else table_id k x) ->
  (forall x, table_refs k' x = if table_id k ti =? x then n else table_refs k x) -> n = table_refs k (table_id k ti) - 1 ->
  (forall t, 0 <= t < MAX_FD_TABLES -> table_refs k' t - table_refs k t = owners k' t - owners k t) /\ table_id k' 0 = 0.
Proof.
  intros Hi Hti Hne Hid Hrf ->. split.
  - intros t Ht. rewrite (owners_moved k k' ti (-1) t Hti Hid), Hrf. rewrite (proj2 (Z.eqb_neq (-1) t)) by lia.
    destruct (Z.eqb_spec (table_id k ti) t) as [->|]; cbn; lia.
  - rewrite Hid, (proj2 (Z.eqb_neq ti 0)) by done. apply (fi_root k Hi).
Qed.

(** A table the root task shares with another has two owners. *)
Lemma owners_two k ti : fd_inv k -> 0 <= ti < MAX_TASKS -> ti <> 0 -> table_id k ti = 0 -> 2 <= owners k 0.
Proof.
  intros Hi Hti Hne He. set (k' := set_table_id ti (-1) k).
  pose proof (owners_moved k k' ti (-1) 0 Hti (table_id_set ti (-1) k)) as H. rewrite He in H. cbn in H.
  assert (H0 : table_id k' 0 = 0) by (unfold k'; rewrite table_id_set, (proj2 (Z.eqb_neq ti 0)) by done; apply (fi_root k Hi)).
  pose proof (owners_elem k' 0 0 ltac:(done) H0). lia.
Qed.

Lemma blank_typed : fd_typed blank_file_desc.
Proof. done. Qed.

Lemma task_fd_table_release_inv ti k : fd_inv k -> fd_inv (exec (task_fd_table_release ti) k).
Proof.
  intros Hi. unfold task_fd_table_release. destruct (task_ok ti) eqn:Hok; [|done]. cbn [negb]. run_exec.
  assert (Hti : 0 <= ti < MAX_TASKS) by (unfold task_ok in Hok; lia). set (table := table_id k ti).
  destruct (Z.ltb_spec table 0) as [Hneg|Hnn]; cbn [orb]; [|destruct (Z.leb_spec MAX_FD_TABLES table) as [Hbig|Hlt]; cbn [orb]].
  1,2: rewrite ?exec_ret; assert (Hne : ti <> 0) by (intros ->; unfold table in *; rewrite (fi_root k Hi) in *; unfold MAX_FD_TABLES in *; lia);
    split; [|exact (refs_books k _ (fi_refs k Hi) (same_counts_id ti (-1) k) eq_refl)];
    apply (shape_of k); [apply Hi | apply (fi_typed k Hi) | apply (fi_dead k Hi) | |
      rewrite table_id_set, (proj2 (Z.eqb_neq ti 0)) by done; apply (fi_root k Hi)];
    intros t Ht; change (table_refs (set_table_id ti (-1) k) t) with (table_refs k t);
    rewrite (owners_moved k _ ti (-1) t Hti (table_id_set ti (-1) k)); fold table;
    rewrite (proj2 (Z.eqb_neq table t)), (proj2 (Z.eqb_neq (-1) t)) by lia; cbn; lia.
  destruct (Z.eqb_spec (table_refs k table) 0) as [E0|E0].
  { pose proof (owners_elem k table ti Hti eq_refl). pose proof (fi_ids k Hi table ltac:(lia)). lia. }
  run_exec. set (k1 := set_table_refs table _ (set_table_id ti (-1) k)).
  assert (R1 : forall x, table_refs k1 x = if table =? x then table_refs k table - 1 else table_refs k x) by (intros x; exact (table_refs_set table _ (set_table_id ti (-1) k) x)).
  assert (I1 : forall x, table_id k1 x = if ti =? x then -1 else table_id k x) by (intros x; exact (table_id_set ti (-1) k x)).
  assert (Q1 : refs_ok k1) by exact (refs_books k _ (fi_refs k Hi) (same_counts_books ti (-1) table _ k) eq_refl).
  assert (F1 : forall t fd, fdesc k1 t fd = fdesc k t fd) by done.
  rewrite (R1 table), Z.eqb_refl. revert R1 I1 Q1 F1. generalize k1. clear k1. intros k1 R1 I1 Q1 F1.
  destruct (Z.eqb_spec ti 0) as [Et|Et].
  - (* the root task takes the table back *)
    subst ti. assert (Htab : table = 0) by apply (fi_root k Hi).
    pose proof (owners_range k 0) as Hor. pose proof (fi_ids k Hi 0 ltac:(done)) as Hid0.
    destruct (Z.eqb_spec (table_refs k table - 1) 0) as [E1|E1]; cbn [negb]; rewrite ?Htab in *.
    + run_exec. pose proof (close_table_spec 0 k1 ltac:(done) Q1) as C. cbv zeta in C. revert C. generalize (exec (close_table 0) k1). intros k2 (C1 & C2 & C3).
      change (0 =? 0) with true. cbv iota. run_exec. unfold exec, st_mod. cbn [snd]. set (k3 := set_table_refs 0 1 (set_table_id 0 0 k2)).
      destruct C2 as (D1 & D2 & D3 & _).
      assert (R2 : forall x, table_refs k2 x = table_refs k1 x) by (intros x; unfold table_refs; by rewrite D3).
      assert (I2 : forall x, table_id k2 x = table_id k1 x) by (intros x; unfold table_id; by rewrite D2).
      assert (R3 : forall x, table_refs k3 x = table_refs k x).
      { intros x. unfold k3. rewrite table_refs_set. change (table_refs (set_table_id 0 0 k2) x) with (table_refs k2 x).
        rewrite R2, R1. destruct (Z.eqb_spec 0 x) as [<-|]; lia. }
      assert (I3 : forall x, table_id k3 x = table_id k x).
      { intros x. unfold k3. change (table_id (set_table_refs 0 1 (set_table_id 0 0 k2)) x) with (table_id (set_table_id 0 0 k2) x).
        rewrite table_id_set, I2, I1. destruct (Z.eqb_spec 0 x) as [<-|]; [by rewrite (fi_root k Hi) | done]. }
      assert (F3 : forall t fd, in_slots t fd -> fdesc k3 t fd = blank_file_desc \/ fdesc k3 t fd = fdesc k t fd).
      { intros t fd [Ht Hfd]. destruct (Z.eq_dec t 0) as [->|Hne]; [|right; by rewrite <- F1, <- (D1 t fd Hne)]. destruct (C3 fd Hfd) as [H|[H _]]; [by left | right; by rewrite <- F1, <- H]. }
      split; [|exact (refs_books k2 _ C1 (same_counts_books 0 0 0 1 k2) eq_refl)].
      apply (shape_of k); [apply Hi | | | |].
      * intros t fd Hin. destruct (F3 t fd Hin) as [-> | ->]; [done | by apply (fi_typed k Hi)].
      * intros t fd Hin. rewrite R3. destruct (F3 t fd Hin) as [-> | ->]; [done | by apply (fi_dead k Hi)].
      * intros t Ht. rewrite R3. assert (E : owners k3 t = owners k t) by (apply sumZ_ext; intros x _; by rewrite I3). lia.
      * rewrite I3. apply (fi_root k Hi).
    + change (0 =? 0) with true. cbv iota. run_exec. unfold exec, st_mod. cbn [snd]. set (k3 := set_table_refs 0 _ _).
      assert (R3 : forall x, table_refs k3 x = table_refs k x).
      { intros x. unfold k3. rewrite table_refs_set. change (table_refs (set_table_id 0 0 k1) x) with (table_refs k1 x).
        change (table_refs (set_table_id 0 0 k1) 0) with (table_refs k1 0). rewrite !R1. change (0 =? 0) with true. cbv iota.
        destruct (Z.eqb_spec 0 x) as [<-|]; [|done]. unfold MAX_TASKS in *. rewrite u16_small; lia. }
      assert (I3 : forall x, table_id k3 x = table_id k x).
      { intros x. change (table_id k3 x) with (table_id (set_table_id 0 0 k1) x). rewrite table_id_set, I1.
        destruct (Z.eqb_spec 0 x) as [<-|]; [by rewrite (fi_root k Hi) | done]. }
      split; [|exact (refs_books k1 _ Q1 (same_counts_books 0 0 0 _ k1) eq_refl)]. assert (F3 : forall t fd, fdesc k3 t fd = fdesc k t fd) by exact F1.
      apply (shape_of k); [apply Hi | | | |].
      * intros t fd Hin. rewrite F3. by apply (fi_typed k Hi).
      * intros t fd Hin. rewrite R3, F3. by apply (fi_dead k Hi).
      * intros t Ht. rewrite R3. assert (E : owners k3 t = owners k t) by (apply sumZ_ext; intros x _; by rewrite I3). lia.
      * rewrite I3. apply (fi_root k Hi).
  - destruct (release_books ti k k1 _ Hi Hti Et I1 R1 eq_refl) as [B1 B2].
    destruct (Z.eqb_spec (table_refs k table - 1) 0) as [E1|E1]; cbn [negb].
    + run_exec. pose proof (close_table_spec table k1 ltac:(lia) Q1) as C. cbv zeta in C. revert C. generalize (exec (close_table table) k1). intros k2 (C1 & C2 & C3).
      assert (Hn0 : table <> 0).
      { intros E. pose proof (fi_ids k Hi 0 ltac:(done)) as H0. rewrite E in E1. unfold owners in H0.
        pose proof (owners_two k ti Hi Hti Et E). unfold owners in *. lia. }
      rewrite (proj2 (Z.eqb_neq table 0)) by done. run_exec. destruct C2 as (D1 & D2 & D3 & _).
      assert (F2 : forall t fd, in_slots t fd -> fdesc k2 t fd = blank_file_desc \/ fdesc k2 t fd = fdesc k t fd /\ (t = table -> f_in_use (fdesc k t fd) = false)).
      { intros t fd [Ht Hfd]. destruct (Z.eq_dec t table) as [->|Hne]; [|right; split; [by rewrite <- F1, <- (D1 t fd Hne) | done]].
        destruct (C3 fd Hfd) as [H|[H1 H2]]; [by left | right; split; [by rewrite <- F1, <- H1 | by rewrite <- F1]]. }
      assert (R2 : forall x, table_refs k2 x = table_refs k1 x) by (intros x; unfold table_refs; by rewrite D3).
      assert (I2 : forall x, table_id k2 x = table_id k1 x) by (intros x; unfold table_id; by rewrite D2).
      split; [|done]. apply (shape_of k); [apply Hi | | | |].
      * intros t fd Hin. destruct (F2 t fd Hin) as [-> |[-> _]]; [done | by apply (fi_typed k Hi)].
      * intros t fd Hin. rewrite R2, R1. destruct (F2 t fd Hin) as [-> |[-> H]]; [done|].
        destruct (Z.eqb_spec table t) as [->|]; [intros _; by apply H | by apply (fi_dead k Hi)].
      * intros t Ht. rewrite R2. assert (E : owners k2 t = owners k1 t) by (apply sumZ_ext; intros x _; by rewrite I2). rewrite E. by apply B1.
      * by rewrite I2.
    + run_exec. split; [|done]. apply (shape_of k); [apply Hi | | | exact B1 | exact B2].
      { intros t fd Hin. rewrite F1. by apply (fi_typed k Hi). }
      intros t fd Hin. rewrite R1, F1. destruct (Z.eqb_spec table t) as [->|]; [lia | by apply (fi_dead k Hi)].
Qed.

Lemma clone_table_spec s d k : 0 <= s < MAX_FD_TABLES -> 0 <= d < MAX_FD_TABLES -> s <> d -> refs_ok k ->
  (forall fd, 0 <= fd < MAX_FILES -> fd_typed (fdesc k s fd)) -> (forall fd, 0 <= fd < MAX_FILES -> f_in_use (fdesc k d fd) = false) ->
  let k' := foldl (fun k fd => snd (clone_fd s d fd k)) k (seqZ 0 MAX_FILES) in
  refs_ok k' /\ other_tables d k k' /\ forall fd, 0 <= fd < MAX_FILES -> fdesc k' d fd = fdesc k s fd.
Proof.
  intros Hs Hd Hne Hr Hty Hfree. cbn zeta.
  assert (H : forall n, 0 <= n -> n <= MAX_FILES -> let k' := foldl (fun k fd => snd (clone_fd s d fd k)) k (seqZ 0 n) in
    refs_ok k' /\ other_tables d k k' /\ (forall fd, n <= fd -> fdesc k' d fd = fdesc k d fd) /\
    forall fd, 0 <= fd < n -> fdesc k' d fd = fdesc k s fd).
  { refine (natlike_ind _ _ _).
    - intros _. split; [done|]. split; [apply other_tables_refl|]. split; [done | lia].
    - intros n Hn IH Hle. destruct (IH ltac:(lia)) as (I1 & I2 & I3 & I4). clear IH. unfold Z.succ. rewrite seqZ_app by lia.
      change (seqZ (0 + n) 1) with [n]. rewrite foldl_app. cbn [foldl]. revert I1 I2 I3 I4. generalize (foldl (fun k fd => snd (clone_fd s d fd k)) k (seqZ 0 n)).
      intros kn I1 I2 I3 I4. assert (Es : fdesc kn s n = fdesc k s n) by (apply I2; done).
      destruct (clone_fd_spec s d n kn I1) as [C1 C2]; [split; lia | split; lia | rewrite Es; apply Hty; lia | rewrite I3 by lia; apply Hfree; lia|].
      unfold exec in C1, C2. rewrite Es in C2. split; [done|]. split; [eapply other_tables_trans; [exact I2 | by eapply other_tables_slot]|].
      split; intros fd Hfd; rewrite (fdesc_insert kn _ d n (fdesc k s n)) by apply C2; rewrite Z.eqb_refl; cbn [andb].
      + rewrite (proj2 (Z.eqb_neq n fd)) by lia. apply I3. lia.
      + destruct (Z.eqb_spec n fd) as [->|]; [done | apply I4; lia]. }
  destruct (H MAX_FILES) as (H1 & H2 & _ & H4); done.
Qed.

Lemma task_fd_table_clone_inv pi ci share k : ~ 0 <= table_id k ci < MAX_FD_TABLES -> fd_inv k -> fd_inv (exec (task_fd_table_clone pi ci share) k).
Proof.
  intros Hci Hi. unfold task_fd_table_clone. destruct (task_ok pi) eqn:Hp, (task_ok ci) eqn:Hc; cbn [negb orb]; try done.
  assert (Hti : 0 <= ci < MAX_TASKS) by (unfold task_ok in Hc; lia). run_exec. set (s := table_id k pi).
  assert (Hc0 : ci <> 0) by (intros ->; rewrite (fi_root k Hi) in Hci; unfold MAX_FD_TABLES in *; lia).
  destruct (Z.ltb_spec s 0); cbn [orb]; [done|]. destruct (Z.leb_spec MAX_FD_TABLES s); cbn [orb]; [done|].
  destruct (Z.eqb_spec (table_refs k s) 0) as [|Hs0]; [done|].
  assert (Hown : forall k' id t, (forall x, table_id k' x = if ci =? x then id else table_id k x) -> 0 <= t < MAX_FD_TABLES ->
    owners k' t = owners k t + Z.b2z (id =? t)).
  { intros k' id t H' Ht. rewrite (owners_moved k k' ci id t Hti H'), (proj2 (Z.eqb_neq (table_id k ci) t)) by lia. cbn. lia. }
  pose proof (owners_range k s) as Hrg. pose proof (fi_ids k Hi s ltac:(lia)) as Hid. destruct share.
  - run_exec. set (k1 := set_table_refs s _ _).
    assert (R1 : forall x, table_refs k1 x = if s =? x then table_refs k s + 1 else table_refs k x).
    { intros x. unfold k1. rewrite table_refs_set. destruct (s =? x); [|done]. change (table_refs (set_table_id ci s k) s) with (table_refs k s).
      unfold MAX_TASKS in *. rewrite u16_small; lia. }
    assert (I1 : forall x, table_id k1 x = if ci =? x then s else table_id k x) by (intros x; exact (table_id_set ci s k x)).
    split; [|exact (refs_books k _ (fi_refs k Hi) (same_counts_books ci s s _ k) eq_refl)].
    apply (shape_of k); [apply Hi | apply (fi_typed k Hi) | | |].
    + intros t fd Hin. rewrite R1. destruct (Z.eqb_spec s t) as [->|]; [lia | by apply (fi_dead k Hi)].
    + intros t Ht. rewrite R1, (Hown k1 s t I1 Ht). destruct (Z.eqb_spec s t) as [->|]; cbn; lia.
    + rewrite I1, (proj2 (Z.eqb_neq ci 0)) by done. apply (fi_root k Hi).
  - destruct (List.find _ _) as [d|] eqn:Hf; [|done]. apply find_some in Hf as [Hd%list_elem_of_In%elem_of_seqZ [Hd0%negb_true_iff%Z.eqb_neq Hdr%Z.eqb_eq]%andb_prop].
    run_exec. set (k1 := set_table_refs d 1 (set_table_id ci d k)).
    assert (R1 : forall x, table_refs k1 x = if d =? x then 1 else table_refs k x) by (intros x; exact (table_refs_set d 1 (set_table_id ci d k) x)).
    assert (I1 : forall x, table_id k1 x = if ci =? x then d else table_id k x) by (intros x; exact (table_id_set ci d k x)).
    assert (F1 : forall t fd, fdesc k1 t fd = fdesc k t fd) by done.
    pose proof (refs_books k k1 (fi_refs k Hi) (same_counts_books ci d d 1 k) eq_refl) as Q1. unfold exec. cbn [snd].
    revert R1 I1 F1 Q1. generalize k1. clear k1. intros k1 R1 I1 F1 Q1.
    assert (Hne : s <> d) by (intros ->; congruence).
    pose proof (clone_table_spec s d k1 ltac:(lia) ltac:(lia) Hne Q1) as C. cbv zeta in C.
    revert C. generalize (foldl (fun k fd => snd (clone_fd s d fd k)) k1 (seqZ 0 MAX_FILES)). intros k2 C.
    destruct C as (C1 & (D1 & D2 & D3 & _) & C3).
    { intros fd Hfd. rewrite F1. apply (fi_typed k Hi). split; [lia | done]. }
    { intros fd Hfd. rewrite F1. apply (fi_dead k Hi); [split; [lia | done] | done]. }
    assert (R2 : forall x, table_refs k2 x = table_refs k1 x) by (intros x; unfold table_refs; by rewrite D3).
    assert (I2 : forall x, table_id k2 x = if ci =? x then d else table_id k x) by (intros x; rewrite <- I1; unfold table_id; by rewrite D2).
    split; [|done]. apply (shape_of k); [apply Hi | | | |].
    + intros t fd [Ht Hfd]. destruct (Z.eq_dec t d) as [->|Hnt]; [rewrite C3, F1 by done; apply (fi_typed k Hi); split; [lia | done]|].
      rewrite D1, F1 by done. by apply (fi_typed k Hi).
    + intros t fd [Ht Hfd]. rewrite R2, R1. destruct (Z.eqb_spec d t) as [->|Hnt]; [lia|]. rewrite D1, F1 by congruence. by apply (fi_dead k Hi).
    + intros t Ht. rewrite R2, R1, (Hown k2 d t I2 Ht). destruct (Z.eqb_spec d t) as [->|]; cbn; lia.
    + rewrite I2, (proj2 (Z.eqb_neq ci 0)) by done. apply (fi_root k Hi).
Qed.
