(* ===== verification/FdThms.v ===== *)
(** * Properties of descriptor tables *)

From S2P Require Import Prelude Words Pmm Vmm CStr Vfs Kernel Tty Fd Sched SchedFacts UserCopy Pipe FdFacts FdInv.
Local Open Scope Z_scope.
Local Open Scope st_scope.

(** ** Start of day *)

(** Nothing is referenced yet: the tables the loader zeroed. *)
Definition unreferenced (k : kernel) : Prop := forall r, counter k r = 0 /\ alive k r = false.

Lemma fill_cells (v : Z) (l : list Z) m x : x ∈ l -> cell 0 (foldl (fun m i => <[i := v]> m) m l) x = v.
Proof.
  revert m. induction l as [|i l IH] using rev_ind; intros m H; [by apply not_elem_of_nil in H|].
  rewrite foldl_app. cbn [foldl]. rewrite cell_insert. destruct (Z.eqb_spec i x) as [->|Hne]; [done|]. apply IH. set_solver.
Qed.

Definition stream_fd (dev : Z) : file_desc := blank_file_desc <| f_in_use := true |> <| f_type := FD_PSEUDO |> <| f_private := PDev dev |>.

Lemma stream_weight dev r : weight (stream_fd dev) r = 0.
Proof. destruct r; reflexivity. Qed.

(** What opening a standard stream does to a free slot of table 0. *)
Lemma open_stream_inv fd dev k : fd_inv k -> fd_ok fd = true -> file k fd = blank_file_desc ->
  let k' := exec (open_stream fd dev) k in
  fd_inv k' /\ current_files k' = current_files k /\ forall x, file k' x = if fd =? x then stream_fd dev else file k x.
Proof.
  intros Hi Hf Hb k'. destruct (upd_file_spec fd (fun f => f <| f_in_use := true |> <| f_type := FD_PSEUDO |> <| f_private := PDev dev |>) k) as [S C].
  cbv zeta in S. fold (file k fd) in S. rewrite Hb in S. change (set_slot (current_files k) fd (stream_fd dev) k k') in S.
  pose proof (slot_current _ _ _ _ _ S) as Ec. split; [|split; [done|]].
  - apply (fd_inv_slot k k' (current_files k) fd (stream_fd dev) (fun _ => 0)); try done.
    + by apply current_slot.
    + apply same_counts_shift; [apply Hi | exact C].
    + intros r. fold (file k fd). rewrite Hb, stream_weight. done.
    + by apply current_live.
  - intros x. unfold file. by rewrite Ec, (fdesc_insert k k' _ _ _ _ _ (proj1 S)), Z.eqb_refl.
Qed.

Lemma blank_tally k r : k_fd_tables k = ∅ -> tally k r = 0.
Proof.
  intros E. unfold tally. rewrite (sumZ_ext _ (fun _ => 0)).
  - induction all_slots as [|x l IH]; [done | exact IH].
  - intros s _. unfold fdesc. rewrite E, lookup_empty. done.
Qed.

Lemma sumZ_zero {A} (f : A -> Z) l : (forall x, x ∈ l -> f x = 0) -> sumZ f l = 0.
Proof.
  intros H. rewrite (sumZ_ext f (fun _ => 0)) by done. clear H. induction l as [|x l IH]; [done | exact IH].
Qed.

(** The tables before the streams are opened. *)
Lemma cleared_inv k ids rfs : unreferenced k -> (forall ti, 0 <= ti < MAX_TASKS -> cell 0 ids ti = -1) ->
  (forall t, 0 <= t < MAX_FD_TABLES -> cell 0 rfs t = 0) ->
  k_fd_tables k = ∅ -> k_fd_table_id k = ids -> k_fd_table_refs k = rfs ->
  fd_inv (set_table_refs 0 1 (set_table_id 0 0 k)).
Proof.
  intros Hz Hids Hrfs Et Ei Er. set (k' := set_table_refs 0 1 (set_table_id 0 0 k)).
  assert (Hf : forall t fd, fdesc k' t fd = blank_file_desc) by (intros t fd; change (fdesc k t fd = blank_file_desc); unfold fdesc; by rewrite Et, lookup_empty).
  assert (Hr : forall t, table_refs k' t = if 0 =? t then 1 else table_refs k t) by (intros t; exact (table_refs_set 0 1 (set_table_id 0 0 k) t)).
  assert (Hi : forall x, table_id k' x = if 0 =? x then 0 else table_id k x) by (intros x; exact (table_id_set 0 0 k x)).
  split; [split|split].
  - intros t fd _. by rewrite Hf.
  - intros t fd _ _. by rewrite Hf.
  - intros t Ht. rewrite (owners_moved k k' 0 0 t) by done. unfold table_id at 1. rewrite Ei, Hids by done.
    rewrite (proj2 (Z.eqb_neq (-1) t)) by lia. assert (E0 : owners k t = 0).
    { apply sumZ_zero. intros ti Hti%all_tasks_elem. unfold table_id. rewrite Ei, Hids by done. by rewrite (proj2 (Z.eqb_neq (-1) t)) by lia. }
    rewrite E0, Hr. destruct (Z.eqb_spec 0 t); [done|]. unfold table_refs. rewrite Er, Hrfs by done. done.
  - by rewrite Hi.
  - intros r. destruct (Hz r) as [E1 E2]. pose proof (same_counts_books 0 0 0 1 k r) as [F1 F2]. fold k' in F1, F2. by rewrite F1, F2, E1, E2.
  - intros r. destruct (Hz r) as [E1 _]. pose proof (same_counts_books 0 0 0 1 k r) as [F1 _]. fold k' in F1. rewrite F1, E1. symmetry. by apply blank_tally.
Qed.

(** The standard streams are open, nothing else. *)
Definition streams (fd : Z) : file_desc :=
  if 2 =? fd then stream_fd DEV_CONSOLE else if 1 =? fd then stream_fd DEV_CONSOLE else if 0 =? fd then stream_fd DEV_TTY else blank_file_desc.

Lemma init_files_spec k : unreferenced k -> let k' := exec init_files k in
  fd_inv k' /\ (0 <= k_current k < MAX_TASKS -> current_files k' = 0) /\ forall fd, file k' fd = streams fd.
Proof.
  intros Hz. cbn zeta. unfold init_files. run_exec. set (ids := foldl _ (k_fd_table_id _) _). set (rfs := foldl _ (k_fd_table_refs _) _).
  match goal with |- context [set_table_refs 0 1 (set_table_id 0 0 ?x)] => set (k4 := x) end.
  assert (Hids : forall ti, 0 <= ti < MAX_TASKS -> table_id k4 ti = -1) by (intros ti Hti; apply (fill_cells (-1)), elem_of_seqZ; lia).
  assert (H4 : fd_inv (set_table_refs 0 1 (set_table_id 0 0 k4))).
  { apply (cleared_inv k4 ids rfs); try done. intros t Ht. apply fill_cells, elem_of_seqZ. lia. }
  assert (Hz4 : unreferenced k4) by (intros r; destruct (Hz r) as [E1 E2]; by destruct r).
  assert (Ef : k_fd_tables k4 = ∅) by done. assert (Ecur : k_current k4 = k_current k) by done.
  revert H4 Hz4 Ef Ecur Hids. generalize k4. clear. intros k4 H4 Hz4 Ef Ecur Hids.
  set (k5 := set_table_refs 0 1 (set_table_id 0 0 k4)) in *. set (k6 := k5 <| k_open_descs := ∅ |>) in *.
  set (k' := exec (open_stream 2 DEV_CONSOLE) _). change k' with (exec (open_stream 2 DEV_CONSOLE) (exec (open_stream 1 DEV_CONSOLE) (exec (open_stream 0 DEV_TTY) k6))).
  clear k'. assert (Q : quiet k5 k6).
  { split; [done|]. intros r. pose proof (same_counts_books 0 0 0 1 k4 r) as [F1 F2]. fold k5 in F1, F2. destruct (Hz4 r) as [E1 E2].
    rewrite F1, F2, E1, E2. rewrite <- F1 in E1. rewrite <- F2 in E2. by destruct r. }
  pose proof (fd_inv_quiet _ _ H4 Q) as H6. assert (Hb : forall fd, file k6 fd = blank_file_desc).
  { intros fd. assert (E : k_fd_tables k6 = ∅) by exact Ef. unfold file, fdesc. by rewrite E, lookup_empty. }
  assert (Hc6 : 0 <= k_current k < MAX_TASKS -> current_files k6 = 0).
  { rewrite <- Ecur. intros Hc. unfold current_files, task_files_for_task. destruct (negb _); [done|]. change (k_current k6) with (k_current k4).
    change (table_id k6) with (table_id (set_table_id 0 0 k4)). rewrite table_id_set. destruct (0 =? k_current k4); [done|]. by rewrite Hids. }
  revert H6 Hb Hc6. generalize k6. clear. intros k6 H6 Hb Hc6.
  destruct (open_stream_inv 0 DEV_TTY k6 H6 eq_refl (Hb 0)) as (H7 & C7 & O7). set (k7 := exec (open_stream 0 DEV_TTY) k6) in *.
  destruct (open_stream_inv 1 DEV_CONSOLE k7 H7 eq_refl) as (H8 & C8 & O8); [rewrite O7; apply Hb|]. set (k8 := exec (open_stream 1 DEV_CONSOLE) k7) in *.
  destruct (open_stream_inv 2 DEV_CONSOLE k8 H8 eq_refl) as (H9 & C9 & O9); [rewrite O8, O7; apply Hb|].
  split; [exact H9|]. split; [intros Hc; rewrite C9, C8, C7; by apply Hc6|].
  intros fd. rewrite O9, O8, O7, Hb. done.
Qed.

(** ** Runs *)

(** The calls on descriptors that are modelled. *)
Inductive fd_call :=
  | CDup (oldfd : Z) | CDup2 (oldfd newfd : Z) | CDup3 (oldfd newfd flags : Z) | CFcntl (fd cmd arg : Z)
  | CClose (fd : Z) | CPipe (ufds : Z)
  | CFork (parent child : Z) (share_files : bool) | CExit (ti : Z).

Definition fd_exec (c : fd_call) : kernel -> kernel :=
  match c with
  | CDup oldfd => exec (sys_dup oldfd)
  | CDup2 oldfd newfd => exec (sys_dup2 oldfd newfd)
  | CDup3 oldfd newfd flags => exec (sys_dup3 oldfd newfd flags)
  | CFcntl fd cmd arg => exec (sys_fcntl fd cmd arg)
  | CClose fd => exec (sys_close fd)
  | CPipe ufds => exec (sys_pipe ufds)
  | CFork parent child share_files => exec (task_fd_table_clone parent child share_files)
  | CExit ti => exec (task_fd_table_release ti)
  end.

(** The child of a fork has no table yet, and a descriptor is not duplicated
    to a negative number. *)
Definition fd_pre (c : fd_call) (k : kernel) : Prop :=
  match c with
  | CFork _ child _ => ~ 0 <= table_id k child < MAX_FD_TABLES
  | CFcntl _ cmd arg => cmd = 0 \/ cmd = 1030 -> 0 <= s32 arg
  | _ => True
  end.

(** What the rest of the kernel does between the calls: descriptors and
    counts stay, the running task may change. *)
Definition elsewhere (k k' : kernel) : Prop := quiet k (k' <| k_current := k_current k |>).

Inductive fd_run : kernel -> kernel -> Prop :=
  | run_done k : fd_run k k
  | run_call c k k' : fd_pre c k -> fd_run (fd_exec c k) k' -> fd_run k k'
  | run_elsewhere k k1 k' : elsewhere k k1 -> fd_run k1 k' -> fd_run k k'.

Lemma fd_inv_current k i : fd_inv (k <| k_current := i |>) -> fd_inv k.
Proof.
  intros [Hs Hr]. split; [|].
  - destruct Hs as [A B C D]. by split.
  - apply (refs_books (k <| k_current := i |>)); [done | by intros [] | done].
Qed.

Lemma fd_exec_inv c k : fd_pre c k -> fd_inv k -> fd_inv (fd_exec c k).
Proof.
  intros Hp Hi. destruct c; cbn [fd_exec].
  - by apply dup_internal_inv.
  - by apply sys_dup2_inv.
  - by apply sys_dup3_inv.
  - by apply sys_fcntl_inv.
  - by apply sys_close_inv.
  - by apply sys_pipe_inv.
  - by apply task_fd_table_clone_inv.
  - by apply task_fd_table_release_inv.
Qed.

Lemma fd_run_inv k k' : fd_run k k' -> fd_inv k -> fd_inv k'.
Proof.
  induction 1 as [k|c k k' Hp _ IH|k k1 k' He _ IH]; intros Hi; [done | by apply IH, fd_exec_inv|].
  apply IH, (fd_inv_current _ (k_current k)), (fd_inv_quiet k); done.
Qed.

(** ** Properties *)


(** All descriptors but [fd] of table [t] stay. *)
Definition others_same (t fd : Z) (k k' : kernel) : Prop := forall t' fd', (t', fd') <> (t, fd) -> fdesc k' t' fd' = fdesc k t' fd'.

Lemma slot_others t fd f k k' : set_slot t fd f k k' -> others_same t fd k k'.
Proof.
  intros (E & _) t' fd' Hne. rewrite (fdesc_insert k k' t fd f) by done.
  destruct (Z.eqb_spec t t') as [->|], (Z.eqb_spec fd fd') as [->|]; cbn [andb]; done.
Qed.

(** The counts follow the descriptor that changed. *)
Lemma slot_counts t fd f k k' r : fd_inv k -> fd_inv k' -> in_slots t fd -> set_slot t fd f k k' ->
  counter k' r = counter k r - weight (fdesc k t fd) r + weight f r.
Proof. intros Hi Hi' Hin (E & _). rewrite (proj2 (fi_refs k' Hi')), (proj2 (fi_refs k Hi)). by apply tally_insert. Qed.

(** dup and fcntl(F_DUPFD): -EBADF exactly for a descriptor that is not
    open; -EMFILE exactly when no number from [minfd] on is free; otherwise
    the lowest free number now names the same open file, close-on-exec as
    asked, all other descriptors of all tables stay, and every resource the
    file holds is counted once more. *)
Theorem sys_dup_internal_correct oldfd minfd cloexec k : fd_inv k -> 0 <= minfd ->
  let t := current_files k in let r := fst (sys_dup_internal oldfd minfd cloexec k) in
  let k' := exec (sys_dup_internal oldfd minfd cloexec) k in
  if negb (fd_ok oldfd && f_in_use (file k oldfd)) then r = - EBADF /\ k' = k
  else (r = - EMFILE /\ k' = k /\ forall n, minfd <= n < MAX_FILES -> f_in_use (file k n) = true) \/
    (minfd <= r < MAX_FILES /\ f_in_use (file k r) = false /\ (forall n, minfd <= n < r -> f_in_use (file k n) = true) /\
     (let f := file k oldfd in
      fdesc k' t r = f <| f_flags := if cloexec then Z.lor (Z.ldiff (f_flags f) O_CLOEXEC) O_CLOEXEC else Z.ldiff (f_flags f) O_CLOEXEC |>) /\
     others_same t r k k' /\ forall x, counter k' x = counter k x + Z.b2z (uses (file k oldfd) x)).
Proof.
  intros Hi Hm t r k'. destruct (fd_ok oldfd) eqn:Ho; [destruct (f_in_use (file k oldfd)) eqn:Hu|]; cbn [andb negb].
  2,3: subst r k'; unfold sys_dup_internal; run_exec; unfold st_bind at 1, st_get at 1; rewrite Ho, ?Hu; done.
  destruct (List.find (fun i => negb (f_in_use (file k i))) (seqZ minfd (MAX_FILES - minfd))) as [n|] eqn:Hf; [right | left].
  - assert (Er : r = n) by (subst r; unfold sys_dup_internal, st_bind at 1, st_get at 1; rewrite Ho, Hu; cbn [negb orb]; rewrite Hf; by rewrite !bind_fst).
    subst k'. unfold sys_dup_internal. run_exec. rewrite Ho, Hu. cbn [negb orb]. rewrite Hf. run_exec. clearbody r. subst r.
    apply find_seqZ in Hf as (Hn & Hfree%negb_true_iff & Hlow). assert (Hfd : fd_ok n = true) by (apply fd_ok_range; lia).
    split; [lia|]. split; [done|]. split.
    { intros x Hx. by apply negb_false_iff, Hlow. }
    set (F := fun f => f <| f_flags := if cloexec then Z.lor (Z.ldiff (f_flags f) O_CLOEXEC) O_CLOEXEC else Z.ldiff (f_flags f) O_CLOEXEC |>).
    destruct (copy_inv n oldfd F k Hi Hfd Ho Hfree Hu) as [Hi' Hs]; [intros f; apply same_hold_flags|].
    match goal with |- context [exec (fd_retain_endpoint_ref _ n) ?x] => set (k2 := x) end.
    assert (E2 : k2 = exec (upd_file n F) (exec (fd_copy_scalar (current_files k) n oldfd) k)).
    { unfold k2, F. destruct cloexec; cbv iota; run_exec; [by rewrite upd_file_twice | done]. }
    rewrite E2. split; [by apply (fdesc_insert_eq k), Hs|]. split; [by eapply slot_others|]. intros x.
    rewrite (slot_counts _ _ _ k _ x Hi Hi' (current_slot k n Hi Hfd) Hs). rewrite (same_hold_weight (file k oldfd) (F (file k oldfd))) by apply same_hold_flags.
    rewrite closed_weight by done. unfold weight. rewrite Hu. lia.
  - subst r k'. unfold sys_dup_internal. run_exec. unfold st_bind at 1, st_get at 1. rewrite Ho, Hu. cbn [negb orb]. rewrite Hf.
    split; [done|]. split; [done|]. intros n Hn. apply negb_false_iff, (find_seqZ_none _ _ _ Hf). lia.
Qed.


(** ** The machine at start of day *)

Definition boot_kernel : kernel := exec init_files blank_kernel.

Lemma blank_unreferenced : unreferenced blank_kernel.
Proof. by intros []. Qed.

Lemma boot_inv : fd_inv boot_kernel.
Proof. apply (init_files_spec blank_kernel blank_unreferenced). Qed.

(** Task 1 gets a copy of the table. *)
Definition forked_kernel : kernel := fd_exec (CFork 0 1 false) boot_kernel.

Lemma forked_run : fd_run boot_kernel forked_kernel.
Proof.
  apply (run_call (CFork 0 1 false)); [|apply run_done].
  cbn [fd_pre]. assert (E : table_id boot_kernel 1 = -1) by (lazy; reflexivity). rewrite E. unfold MAX_FD_TABLES. lia.
Qed.


Lemma boot_open n : f_in_use (file boot_kernel n) = (2 =? n) || (1 =? n) || (0 =? n).
Proof.
  destruct (init_files_spec blank_kernel blank_unreferenced) as (_ & _ & H). change (exec init_files blank_kernel) with boot_kernel in H.
  rewrite H. unfold streams. by destruct (2 =? n), (1 =? n), (0 =? n).
Qed.

Lemma boot_table : current_files boot_kernel = 0.
Proof. apply (init_files_spec blank_kernel blank_unreferenced). done. Qed.

(** The lowest free number is 3. *)
Lemma sys_dup_internal_correct_witness : others_same 0 3 boot_kernel (exec (sys_dup_internal 0 0 false) boot_kernel).
Proof.
  pose proof (sys_dup_internal_correct 0 0 false boot_kernel boot_inv (Z.le_refl 0)) as H. cbv zeta in H.
  rewrite boot_open in H. cbn [fd_ok andb Z.leb Z.ltb Z.compare negb] in H. rewrite boot_table in H.
  destruct H as [(_ & _ & H)|(H1 & H2 & H3 & _ & H & _)].
  - specialize (H 3 ltac:(unfold MAX_FILES; lia)). rewrite boot_open in H. discriminate H.
  - revert H1 H2 H3 H. generalize (fst (sys_dup_internal 0 0 false boot_kernel)). intros r H1 H2 H3 H.
    assert (Hr : r = 3).
    { destruct (Z.lt_total r 3) as [Hlt|[E|Hgt]]; [|done|].
      - rewrite boot_open in H2. lia.
      - specialize (H3 3 ltac:(lia)). rewrite boot_open in H3. discriminate H3. }
    rewrite Hr in H. exact H.
Defined.

