(* ===== verification/PtyIo.v ===== *)
(** * read and write on pseudo terminals

    The FD_PTY_MASTER and FD_PTY_SLAVE branches of sys_read and sys_write
    ([src/kernel/main.c]).  Blocking runs until the task is woken; [None] when
    [fuel] interrupts were not enough. *)

From S2P Require Import Prelude Words Pmm Vmm CStr Vfs Kernel Tty Fd Sched LineDisc UserCopy Pipe.
Local Open Scope Z_scope.
Local Open Scope st_scope.

(** ** Canonical reads *)

(** The bytes delivered and how many are consumed, at most [n] delivered:
    a line ends after its newline or before its end-of-file character. *)
Fixpoint canon_take (veof veol veol2 : Z) (n : nat) (l : list Z) : list Z * Z :=
  match n, l with
  | S n, c :: l =>
      if negb (veof =? 0) && (c =? veof) then ([], 1)
      else if (c =? CH_NL) || (negb (veol =? 0) && (c =? veol)) || (negb (veol2 =? 0) && (c =? veol2)) then ([c], 1)
      else let '(d, m) := canon_take veof veol veol2 n l in (c :: d, m + 1)
  | _, _ => ([], 0)
  end.

(** [for (i = consume; i < canon_count; i++) canon[i - consume] = canon[i];] *)
Definition canon_shift (consume : Z) (p : pty_state) : pty_state :=
  p <| py_canon := foldl (fun m i => <[i - consume := arr m i]> m) (py_canon p) (seqZ consume (py_canon_count p - consume)) |>
    <| py_canon_count := py_canon_count p - consume |>.

Definition canon_read (n : nat) (p : pty_state) : list Z * pty_state :=
  let t := py_termios p in
  let '(d, consume) := canon_take (tty_cc t VEOF) (tty_cc t VEOL) (tty_cc t VEOL2) n (canon_bytes p) in
  (d, canon_shift consume p).

Definition s2m_read (n : nat) (p : pty_state) : list Z * pty_state :=
  let '(l, (r, count)) := pty_ring_read (py_s2m p) (py_s2m_r p) (py_s2m_count p) n in
  (l, p <| py_s2m_r := r |> <| py_s2m_count := count |>).
Definition m2s_read (n : nat) (p : pty_state) : list Z * pty_state :=
  let '(l, (r, count)) := pty_ring_read (py_m2s p) (py_m2s_r p) (py_m2s_count p) n in
  (l, p <| py_m2s_r := r |> <| py_m2s_count := count |>).

(** What a read of terminal [p] does: fail, sleep, or give bytes. *)
Inductive pty_outcome := PtyErr (e : Z) | PtyWait | PtyData (l : list Z) (p : pty_state).

Definition pty_read_step (master : bool) (n : nat) (p : pty_state) : pty_outcome :=
  if master then
    if negb (py_slave_open p) && (py_s2m_count p =? 0) then PtyErr (- EPIPE)
    else if (py_s2m_count p =? 0) || py_output_stopped p then PtyWait
    else let '(l, p) := s2m_read n p in PtyData l p
  else if negb (py_master_open p) && (py_m2s_count p =? 0) && (py_canon_count p =? 0) then PtyErr (- EPIPE)
  else if has (tty_lflag (py_termios p)) ICANON then
    if negb (pty_canon_available p) && py_master_open p then PtyWait
    else let '(l, p) := canon_read n p in PtyData l p
  else if py_m2s_count p =? 0 then if negb (py_master_open p) then PtyErr (- EPIPE) else PtyWait
  else let '(l, p) := m2s_read n p in PtyData l p.

Section Irq.
Variable kernel_wait_tick : kernel -> kernel.

(** [flags] of the descriptor, [count] bytes at [buf]. *)
Definition sys_read_pty (fuel : nat) (f : regs) (i flags : Z) (master : bool) (buf count : Z) (k : kernel) : option (Z * kernel) :=
  if count =? 0 then Some (0, k)
  else
    match pty_read_step master (Z.to_nat (Z.min count TMP_SIZE)) (pty k i) with
    | PtyErr e => Some (e, k)
    | PtyWait =>
        if has flags O_NONBLOCK then Some (- EAGAIN, k)
        else
          match task_block_io kernel_wait_tick fuel f IO_WAIT_PTY_READ 0 k with
          | None => None
          | Some (r, k) => Some (if r =? 0 then 0 else - EAGAIN, k)
          end
    | PtyData l p =>
        let k := set_pty i p k in
        if negb (is_nil l) then
          let '(r, k) := user_copy_to buf l k in
          if negb (r =? 0) then Some (- EFAULT, k)
          else let '(_, k) := task_wake_io_waiters k in Some (Z.of_nat (length l), k)
        else Some (0, k)
    end.
End Irq.

(** ** Writes *)

(** The loop over chunks of the bounce buffer: [inl] when a copy from the user
    fails, which returns at once, [inr] when the loop ends. *)
Fixpoint pty_write_loop (fuel : nat) (i : Z) (master : bool) (buf count done : Z) : ST kernel (Z + Z) :=
  if count <=? done then st_ret (inr done)
  else
    match fuel with
    | O => st_ret (inr done)
    | S fuel =>
        let n := Z.min (count - done) TMP_SIZE in
        let! k := st_get in
        match user_copy_from k (u64 (buf + done)) n with
        | None => st_ret (inl (if negb (done =? 0) then done else - EFAULT))
        | Some tmp =>
            let! w := if master then pty_canon_feed i tmp
                      else fun k => let '(w, p) := pty_output_write tmp (pty k i) in (w, set_pty i p k) in
            if w <? n then st_ret (inr (done + w)) else pty_write_loop fuel i master buf count (done + w)
        end
    end.

Definition sys_write_pty (i : Z) (master : bool) (buf count : Z) : ST kernel Z :=
  let! k := st_get in
  if master && negb (py_slave_open (pty k i)) then st_ret (- EPIPE)
  else if negb master && negb (py_master_open (pty k i)) then st_ret (- EPIPE)
  else
    let! r := pty_write_loop (Z.to_nat count) i master buf count 0 in
    match r with
    | inl e => st_ret e
    | inr done =>
        (if negb (done =? 0) then let! _ := task_wake_io_waiters in st_ret tt else st_ret tt) ;;;
        st_ret done
    end.
