(* ===== verification/LineDiscThms.v ===== *)
(** * Properties of the terminals: line editing, output, reading

    The queues of a terminal as lists, the facts of a step of the line
    discipline, and its theorem. *)

From S2P Require Import Prelude Words Pmm Vmm CStr Vfs Ring Kernel Tty Fd Sched SchedFacts LineDisc UserCopy Pipe PtyIo.
Local Open Scope Z_scope.

(** ** Properties of one terminal *)

Lemma pty_cap_pos : 0 < PTY_CAP. Proof. done. Qed.
#[local] Hint Resolve pty_cap_pos : core.

(** The queues a terminal holds. *)
Definition m2s_list (p : pty_state) : list Z := ring_list PTY_CAP (py_m2s p) (py_m2s_r p) (py_m2s_count p).
Definition s2m_list (p : pty_state) : list Z := ring_list PTY_CAP (py_s2m p) (py_s2m_r p) (py_s2m_count p).

Record pty_ok (p : pty_state) : Prop := {
  po_m2s : ring_ok PTY_CAP (py_m2s_r p) (py_m2s_w p) (py_m2s_count p);
  po_s2m : ring_ok PTY_CAP (py_s2m_r p) (py_s2m_w p) (py_s2m_count p);
  po_canon : 0 <= py_canon_count p <= PTY_CAP
}.

(** ** Rings *)

Lemma ring_write_spec src : forall buf r w count, ring_ok PTY_CAP r w count ->
  exists buf' w',
    let done := Z.min (Z.of_nat (length src)) (PTY_CAP - count) in
    pty_ring_write buf w count src = (done, (buf', w', count + done)) /\
    ring_ok PTY_CAP r w' (count + done) /\
    ring_list PTY_CAP buf' r (count + done) = ring_list PTY_CAP buf r count ++ take (Z.to_nat done) src.
Proof.
  induction src as [|c src IH]; intros buf r w count Hok; cbn [pty_ring_write length].
  { exists buf, w. pose proof (proj1 (proj2 Hok)). rewrite Z.min_l, Z.add_0_r by lia. by rewrite take_nil, app_nil_r. }
  destruct (Z.ltb_spec count PTY_CAP) as [Hlt|Hge].
  - pose proof (ring_push_ok PTY_CAP _ _ _ Hok Hlt) as Hok'.
    destruct (IH (<[w := c]> buf) r _ _ Hok') as (buf' & w' & E & Hr & Hl). cbn zeta in *. rewrite E.
    exists buf', w'. set (d := Z.min (Z.of_nat (length src)) (PTY_CAP - (count + 1))) in *.
    assert (0 <= d) by (unfold d; lia).
    replace (Z.min (Z.of_nat (S (length src))) (PTY_CAP - count)) with (d + 1) by (unfold d; lia).
    replace (count + (d + 1)) with (count + 1 + d) by lia. split; [done|]. split; [done|].
    rewrite Hl, (ring_push PTY_CAP pty_cap_pos buf r w count c Hok Hlt), <- app_assoc.
    replace (Z.to_nat (d + 1)) with (S (Z.to_nat d)) by lia. done.
  - exists buf, w. destruct Hok as (? & ? & ?). rewrite Z.min_r by lia. replace (PTY_CAP - count) with 0 by lia.
    rewrite Z.add_0_r, app_nil_r. split; [done|]. by split.
Qed.

Lemma ring_read_spec n : forall buf r w count, ring_ok PTY_CAP r w count ->
  exists r', let l := take n (ring_list PTY_CAP buf r count) in
    pty_ring_read buf r count n = (l, (r', count - Z.of_nat (length l))) /\
    ring_ok PTY_CAP r' w (count - Z.of_nat (length l)) /\
    ring_list PTY_CAP buf r' (count - Z.of_nat (length l)) = drop n (ring_list PTY_CAP buf r count).
Proof.
  induction n as [|n IH]; intros buf r w count Hok; cbn [pty_ring_read].
  { exists r. cbn [take length drop]. rewrite Z.sub_0_r. done. }
  destruct (Z.ltb_spec 0 count) as [Hlt|Hge].
  - pose proof (ring_pop_ok PTY_CAP pty_cap_pos _ _ _ Hok Hlt) as Hok'.
    rewrite (ring_pop PTY_CAP buf r w count Hok Hlt).
    destruct (IH buf _ _ _ Hok') as (r' & E & Hr & Hl). cbn zeta in *. rewrite E. exists r'. cbn [take length drop].
    replace (count - Z.of_nat (S _)) with
      (count - 1 - Z.of_nat (length (take n (ring_list PTY_CAP buf ((r + 1) mod PTY_CAP) (count - 1))))) by lia. done.
  - exists r. destruct Hok as (? & ? & ?). assert (count = 0) as -> by lia. rewrite ring_empty. done.
Qed.

(** ** Output *)

(** The bytes output processing makes of one byte. *)
Definition post (p : pty_state) (c : Z) : list Z :=
  let oflag := tty_oflag (py_termios p) in
  if has oflag OPOST && has oflag ONLCR && (c =? CH_NL) then [CH_CR; CH_NL] else [c].

(** Nothing but the output ring changed. *)
Definition only_output (p p' : pty_state) : Prop :=
  exists buf w c, p' = p <| py_s2m := buf |> <| py_s2m_w := w |> <| py_s2m_count := c |>.

Lemma only_output_refl p : only_output p p.
Proof. exists (py_s2m p), (py_s2m_w p), (py_s2m_count p). by destruct p. Qed.
Lemma only_output_trans p q r : only_output p q -> only_output q r -> only_output p r.
Proof. intros (b & w & c & ->) (b' & w' & c' & ->). by exists b', w', c'. Qed.

Lemma only_output_fields p p' : only_output p p' ->
  py_termios p' = py_termios p /\ py_canon p' = py_canon p /\ py_canon_count p' = py_canon_count p /\
  py_m2s p' = py_m2s p /\ py_m2s_r p' = py_m2s_r p /\ py_m2s_w p' = py_m2s_w p /\ py_m2s_count p' = py_m2s_count p /\
  py_s2m_r p' = py_s2m_r p /\ py_master_open p' = py_master_open p /\ py_slave_open p' = py_slave_open p /\
  py_output_stopped p' = py_output_stopped p /\ py_fg_pgrp p' = py_fg_pgrp p.
Proof. intros (b & w & c & ->). done. Qed.

Lemma s2m_write_spec src p : pty_ok p ->
  let done := Z.min (Z.of_nat (length src)) (PTY_CAP - py_s2m_count p) in
  exists p', s2m_write src p = (done, p') /\ pty_ok p' /\ only_output p p' /\ py_s2m_count p' = py_s2m_count p + done /\
    s2m_list p' = s2m_list p ++ take (Z.to_nat done) src.
Proof.
  intros Ho. cbn zeta. destruct (ring_write_spec src (py_s2m p) _ _ _ (po_s2m _ Ho)) as (buf & w & E & Hr & Hl).
  cbn zeta in *. unfold s2m_write. rewrite E. eexists. split; [done|]. split; [|split; [by do 3 eexists|done]].
  split; [apply Ho | exact Hr | apply Ho].
Qed.

Lemma post_length p c : (length (post p c) = 1 \/ length (post p c) = 2)%nat.
Proof. unfold post. destruct (_ && _); auto. Qed.

Lemma output_write_spec src : forall p, pty_ok p -> exists done p', pty_output_write src p = (done, p') /\
  0 <= done <= Z.of_nat (length src) /\ pty_ok p' /\ only_output p p' /\
  s2m_list p' = s2m_list p ++ flat_map (post p) (take (Z.to_nat done) src) /\
  (forall c, src !! Z.to_nat done = Some c -> PTY_CAP < py_s2m_count p' + Z.of_nat (length (post p c))).
Proof.
  induction src as [|c src IH]; intros p Ho; cbn [pty_output_write].
  { exists 0, p. split; [done|]. split; [done|]. split; [done|]. split; [apply only_output_refl|].
    cbn [take flat_map Z.to_nat]. rewrite app_nil_r. by split. }
  pose proof (proj1 (proj2 (po_s2m _ Ho))) as Hc.
  assert (Hstop : PTY_CAP < py_s2m_count p + Z.of_nat (length (post p c)) ->
    exists done p', (0, p) = (done, p') /\ 0 <= done <= Z.of_nat (length (c :: src)) /\ pty_ok p' /\ only_output p p' /\
      s2m_list p' = s2m_list p ++ flat_map (post p) (take (Z.to_nat done) (c :: src)) /\
      (forall c0, (c :: src) !! Z.to_nat done = Some c0 -> PTY_CAP < py_s2m_count p' + Z.of_nat (length (post p c0)))).
  { intros Hfull. exists 0, p. split; [done|]. split; [lia|]. split; [done|]. split; [apply only_output_refl|].
    cbn [take flat_map Z.to_nat]. rewrite app_nil_r. split; [done|]. by intros c0 [= <-]. }
  assert (Hgo : py_s2m_count p + Z.of_nat (length (post p c)) <= PTY_CAP ->
    exists p1 done p', s2m_write (post p c) p = (Z.of_nat (length (post p c)), p1) /\ pty_output_write src p1 = (done, p') /\
      0 <= done + 1 <= Z.of_nat (length (c :: src)) /\ pty_ok p' /\ only_output p p' /\
      s2m_list p' = s2m_list p ++ flat_map (post p) (take (Z.to_nat (done + 1)) (c :: src)) /\
      (forall c0, (c :: src) !! Z.to_nat (done + 1) = Some c0 -> PTY_CAP < py_s2m_count p' + Z.of_nat (length (post p c0)))).
  { intros Hroom. destruct (s2m_write_spec (post p c) p Ho) as (p1 & E1 & Ho1 & Hs1 & Hc1 & Hl1). cbn zeta in *.
    rewrite Z.min_l in E1, Hc1, Hl1 by lia. rewrite Nat2Z.id, firstn_all in Hl1.
    destruct (IH p1 Ho1) as (done & p' & E & Hd & Ho' & Hs' & Hl' & Hfull).
    assert (Hpost : forall x, post p1 x = post p x) by (intros x; unfold post; by rewrite (proj1 (only_output_fields _ _ Hs1))).
    exists p1, done, p'. split; [done|]. split; [done|]. split; [cbn [length]; lia|]. split; [done|].
    split; [by apply only_output_trans with p1|]. replace (Z.to_nat (done + 1)) with (S (Z.to_nat done)) by lia. split.
    - rewrite Hl', Hl1, <- app_assoc. cbn [take flat_map]. by rewrite (flat_map_ext _ _ Hpost).
    - intros c0 Hc0. rewrite <- Hpost. by apply Hfull. }
  assert (Hp : post p c = if has (tty_oflag (py_termios p)) OPOST && has (tty_oflag (py_termios p)) ONLCR && (c =? CH_NL)
    then [CH_CR; CH_NL] else [c]) by done.
  destruct (has (tty_oflag (py_termios p)) OPOST && has (tty_oflag (py_termios p)) ONLCR && (c =? CH_NL)); rewrite Hp in Hstop, Hgo.
  - destruct (Z.ltb_spec (PTY_CAP - py_s2m_count p) 2); [apply Hstop; cbn [length]; lia|].
    destruct (Hgo ltac:(cbn [length]; lia)) as (p1 & done & p' & E1 & E2 & H3). cbn [length] in E1.
    change (Z.of_nat 2) with 2 in E1. rewrite E1. cbn [Z.eqb Pos.eqb negb]. rewrite E2. by exists (done + 1), p'.
  - destruct (Z.leb_spec PTY_CAP (py_s2m_count p)); [apply Hstop; cbn [length]; lia|].
    destruct (Hgo ltac:(cbn [length]; lia)) as (p1 & done & p' & E1 & E2 & H3). cbn [length] in E1.
    change (Z.of_nat 1) with 1 in E1. rewrite E1. cbn [Z.eqb Pos.eqb negb]. rewrite E2. by exists (done + 1), p'.
Qed.

#[local] Opaque task_wake_io_waiters tty_pgrp_signal.

(** ** Echo *)

Lemma pty_out_spec src p : pty_ok p -> pty_ok (pty_out src p) /\ only_output p (pty_out src p).
Proof.
  intros Ho. unfold pty_out. destruct (output_write_spec src p Ho) as (d & p' & -> & _ & Ho' & Hs & _). done.
Qed.

Lemma echo_spec c lflag p : pty_ok p -> pty_ok (pty_echo_char c lflag p) /\ only_output p (pty_echo_char c lflag p).
Proof.
  intros Ho. unfold pty_echo_char. repeat case_match; try (by apply pty_out_spec); split; done || apply only_output_refl.
Qed.

(** ** The line buffer *)

Lemma canon_bytes_output p p' : only_output p p' -> canon_bytes p' = canon_bytes p.
Proof. intros H. unfold canon_bytes. by destruct (only_output_fields _ _ H) as (_ & -> & -> & _). Qed.

Lemma canon_length p : 0 <= py_canon_count p -> Z.of_nat (length (canon_bytes p)) = py_canon_count p.
Proof. intros. unfold canon_bytes. rewrite length_map, length_seqZ. lia. Qed.

Lemma canon_bytes_push c p : 0 <= py_canon_count p -> canon_bytes (canon_push c p) = canon_bytes p ++ [c].
Proof.
  intros Hc. unfold canon_bytes, canon_push. cbn [upd_field py_canon py_canon_count].
  rewrite seqZ_app by lia. rewrite map_app. f_equal.
  - apply map_ext_in. intros i Hi%list_elem_of_In%elem_of_seqZ. unfold arr. by rewrite lookup_insert_ne by lia.
  - change (seqZ (0 + py_canon_count p) 1) with [0 + py_canon_count p]. cbn [map]. unfold arr. by rewrite Z.add_0_l, lookup_insert_eq.
Qed.

Lemma canon_bytes_pop p : 0 < py_canon_count p ->
  canon_bytes (p <| py_canon_count := py_canon_count p - 1 |>) = removelast (canon_bytes p).
Proof.
  intros Hc. unfold canon_bytes. cbn [upd_field py_canon py_canon_count].
  replace (py_canon_count p) with (py_canon_count p - 1 + 1) at 2 by lia. rewrite (seqZ_app 0 _ 1) by lia.
  rewrite map_app. change (seqZ (0 + ?c) 1) with [0 + c]. cbn [map]. by rewrite removelast_last.
Qed.

Lemma canon_edit_spec c lflag p : pty_ok p -> let '(r, p') := canon_edit c lflag p in
  pty_ok p' /\ py_termios p' = py_termios p /\
  match r with
  | Full => py_canon_count p = PTY_CAP /\ p' = p
  | Taken => canon_bytes p' = if tty_cc_match (py_termios p) VERASE c then removelast (canon_bytes p)
                              else if tty_cc_match (py_termios p) VKILL c then [] else canon_bytes p ++ [c]
  end.
Proof.
  intros Ho. pose proof (po_canon _ Ho) as Hc. unfold canon_edit.
  assert (Hout : forall q q', pty_ok q -> pty_ok q' /\ only_output q q' -> py_termios q = py_termios p ->
    pty_ok q' /\ py_termios q' = py_termios p /\ canon_bytes q' = canon_bytes q).
  { intros q q' _ [H1 H2] E. split; [done|]. split; [by rewrite (proj1 (only_output_fields _ _ H2))|]. by apply canon_bytes_output. }
  assert (Hcount : forall n, 0 <= n <= PTY_CAP -> pty_ok (p <| py_canon_count := n |>)) by (intros n Hn; split; [apply Ho | apply Ho | done]).
  destruct (tty_cc_match (py_termios p) VERASE c).
  { destruct (Z.eqb_spec (py_canon_count p) 0) as [E0|E0]; cbn [negb].
    - assert (En : canon_bytes p = []) by (unfold canon_bytes; by rewrite E0). rewrite En. cbn [removelast].
      destruct (has lflag ECHO); [|by rewrite En]. rewrite <- En. apply Hout; [done | by apply echo_spec | done].
    - pose proof (canon_bytes_pop p ltac:(lia)) as Hpop. specialize (Hcount (py_canon_count p - 1) ltac:(lia)).
      set (q := p <| py_canon_count := py_canon_count p - 1 |>) in *. rewrite <- Hpop.
      destruct (has lflag ECHO); [|done]. destruct (has lflag ECHOE); (apply Hout; [done | by apply pty_out_spec || by apply echo_spec | done]). }
  destruct (tty_cc_match (py_termios p) VKILL c).
  { specialize (Hcount 0 ltac:(lia)). set (q := p <| py_canon_count := 0 |>) in *. change [] with (canon_bytes q).
    destruct (has lflag ECHOK); [|destruct (has lflag ECHO); [|done]]; (apply Hout; [done | by apply pty_out_spec || by apply echo_spec | done]). }
  assert (Hpush : py_canon_count p < PTY_CAP -> pty_ok (canon_push c p))
    by (intros; split; [apply Ho | apply Ho | cbn [canon_push upd_field py_canon_count]; lia]).
  pose proof (canon_bytes_push c p ltac:(lia)) as Hb.
  destruct (tty_cc_match (py_termios p) VEOF c).
  { destruct (Z.leb_spec PTY_CAP (py_canon_count p)); [split; [done|]; split; [done|]; split; [lia | done]|]. by split; [apply Hpush|]. }
  destruct (Z.leb_spec PTY_CAP (py_canon_count p)); [split; [done|]; split; [done|]; split; [lia | done]|].
  rewrite <- Hb. apply Hout; [by apply Hpush | by apply echo_spec, Hpush | done].
Qed.

Lemma raw_input_spec c lflag p : pty_ok p -> let '(r, p') := raw_input c lflag p in
  pty_ok p' /\ py_termios p' = py_termios p /\
  match r with
  | Full => py_m2s_count p = PTY_CAP /\ p' = p
  | Taken => m2s_list p' = m2s_list p ++ [c]
  end.
Proof.
  intros Ho. unfold raw_input. destruct (Z.leb_spec PTY_CAP (py_m2s_count p)).
  { pose proof (proj1 (proj2 (po_m2s _ Ho))). split; [done|]. split; [done|]. split; [lia | done]. }
  destruct (ring_write_spec [c] (py_m2s p) _ _ _ (po_m2s _ Ho)) as (buf & w & E & Hr & Hl). cbn zeta in *.
  change (Z.of_nat (length [c])) with 1 in *. rewrite Z.min_l in * by lia. unfold m2s_write. rewrite E. cbn [snd].
  set (q := p <| py_m2s := buf |> <| py_m2s_w := w |> <| py_m2s_count := py_m2s_count p + 1 |>).
  assert (Hq : pty_ok q) by (split; [exact Hr | apply Ho | apply Ho]).
  destruct (echo_spec c lflag q Hq) as [H1 H2]. split; [done|].
  destruct (only_output_fields _ _ H2) as (-> & _ & _ & E1 & E2 & _ & E3 & _). split; [done|].
  unfold m2s_list at 1. rewrite E1, E2, E3. exact Hl.
Qed.

(** ** Feeding *)

(** The terminal [i] stays well formed and keeps its settings; other
    terminals, the descriptors and the queues of pipes and sockets stay. *)
Definition fed_frame (i : Z) (k k' : kernel) : Prop :=
  pty_ok (pty k' i) /\ py_termios (pty k' i) = py_termios (pty k i) /\
  exists ts ps, k' = k <| k_tasks := ts |> <| k_ptys := ps |> /\ forall j, j <> i -> pty k' j = pty k j.

Lemma fed_frame_refl i k : pty_ok (pty k i) -> fed_frame i k k.
Proof. intros Ho. split; [done|]. split; [done|]. exists (k_tasks k), (k_ptys k). split; [by destruct k | done]. Qed.

Lemma fed_frame_trans i k1 k2 k3 : fed_frame i k1 k2 -> fed_frame i k2 k3 -> fed_frame i k1 k3.
Proof.
  intros (_ & E1 & ts & ps & Ek & Hj) (Ho & E2 & ts' & ps' & Ek' & Hj'). split; [done|]. split; [congruence|].
  exists ts', ps'. split; [rewrite Ek', Ek; by destruct k1|]. intros j Hne. rewrite Hj' by done. by apply Hj.
Qed.

Lemma fed_frame_tasks i k k' : pty_ok (pty k i) -> only_tasks k k' -> fed_frame i k k'.
Proof.
  intros Ho (ts & ->). split; [done|]. split; [done|]. exists ts, (k_ptys k). split; [by destruct k | done].
Qed.

Lemma pty_set i p k j : pty (set_pty i p k) j = if i =? j then p else pty k j.
Proof. apply cell_insert. Qed.
Lemma pty_set_eq i p k : pty (set_pty i p k) i = p.
Proof. by rewrite pty_set, Z.eqb_refl. Qed.

Lemma fed_frame_set i p k : pty_ok p -> py_termios p = py_termios (pty k i) -> fed_frame i k (set_pty i p k).
Proof.
  intros Ho E. split; [by rewrite pty_set_eq|]. split; [by rewrite pty_set_eq|].
  exists (k_tasks k), (<[i := p]> (k_ptys k)). split; [by destruct k|].
  intros j Hne. by rewrite pty_set, (proj2 (Z.eqb_neq i j)) by congruence.
Qed.

Lemma stopped_ok p b : pty_ok p -> pty_ok (p <| py_output_stopped := b |>).
Proof. intros []. by split. Qed.

Lemma feed_flow_spec i iflag c k : pty_ok (pty k i) -> let '(eaten, k') := feed_flow i iflag c k in
  fed_frame i k k' /\ (exists b, pty k' i = (pty k i) <| py_output_stopped := b |>) /\
  eaten = has iflag IXON && (tty_cc_match (py_termios (pty k i)) VSTOP c || tty_cc_match (py_termios (pty k i)) VSTART c).
Proof.
  intros Ho. unfold feed_flow, st_bind, st_get, st_mod, st_ret.
  assert (Hsame : fed_frame i k k /\ exists b, pty k i = (pty k i) <| py_output_stopped := b |>).
  { split; [by apply fed_frame_refl|]. exists (py_output_stopped (pty k i)). by destruct (pty k i). }
  destruct (has iflag IXON); cbn [negb andb]; [|split; [apply Hsame | split; [apply Hsame | done]]].
  assert (Hset : forall b, fed_frame i k (upd_pty i (fun p => p <| py_output_stopped := b |>) k) /\
    pty (upd_pty i (fun p => p <| py_output_stopped := b |>) k) i = (pty k i) <| py_output_stopped := b |>).
  { intros b. unfold upd_pty. split; [apply fed_frame_set; [by apply stopped_ok | done] | by rewrite pty_set_eq]. }
  assert (Hwake : forall k1, fed_frame i k k1 -> fed_frame i k (snd (task_wake_io_waiters k1)) /\
    pty (snd (task_wake_io_waiters k1)) i = pty k1 i).
  { intros k1 H1. pose proof (wake_frame k1) as Hf. split; [|by apply only_tasks_pty].
    eapply fed_frame_trans; [exact H1 | apply fed_frame_tasks; [apply H1 | done]]. }
  destruct (tty_cc_match (py_termios (pty k i)) VSTOP c); cbn [orb].
  { destruct (Hset true) as [H1 H2]. split; [done|]. split; [by exists true | done]. }
  specialize (Hset false) as [H1 H2]. destruct (Hwake _ H1) as [H3 H4].
  set (k1 := upd_pty i (fun p => p <| py_output_stopped := false |>) k) in *. rewrite H2 in H4.
  destruct (tty_cc_match (py_termios (pty k i)) VSTART c).
  { fold k1. destruct (task_wake_io_waiters k1) as [w k2]. split; [done|]. split; [by exists false | done]. }
  destruct (py_output_stopped (pty k i) && has iflag IXANY); [|split; [apply Hsame | split; [apply Hsame | done]]].
  fold k1. destruct (task_wake_io_waiters k1) as [w k2]. split; [done|]. split; [by exists false | done].
Qed.

Lemma flush_ok p : pty_ok p -> pty_ok ((pty_flush_output (pty_flush_input p)) <| py_output_stopped := false |>).
Proof. intros Ho. split; cbn; unfold ring_ok, PTY_CAP; rewrite ?Zmod_0_l; lia. Qed.

(** The queue a slave reads from: the line buffer, or the ring. *)
Definition input_queue (canonical : bool) (p : pty_state) : list Z := if canonical then canon_bytes p else m2s_list p.

Lemma input_queue_output b p p' : only_output p p' -> input_queue b p' = input_queue b p.
Proof.
  intros H. unfold input_queue, m2s_list. destruct b; [by apply canon_bytes_output|].
  by destruct (only_output_fields _ _ H) as (_ & _ & _ & -> & -> & _ & -> & _).
Qed.

Lemma feed_signal_spec b i lflag c sig k : pty_ok (pty k i) -> let k' := snd (feed_signal i lflag c sig k) in
  fed_frame i k k' /\ input_queue b (pty k' i) = if has lflag NOFLSH then input_queue b (pty k i) else [].
Proof.
  intros Ho. cbn zeta. destruct (feed_signal i lflag c sig k) as [u k'] eqn:E. cbn [snd]. revert E.
  unfold feed_signal. unfold st_bind at 1.
  set (k0 := if negb (has lflag NOFLSH) then upd_pty i (fun p => (pty_flush_output (pty_flush_input p)) <| py_output_stopped := false |>) k else k).
  assert (H0 : fed_frame i k k0 /\ input_queue b (pty k0 i) = if has lflag NOFLSH then input_queue b (pty k i) else []).
  { unfold k0. destruct (has lflag NOFLSH); cbn [negb]; [split; [by apply fed_frame_refl | done]|]. unfold upd_pty. split.
    - apply fed_frame_set; [by apply flush_ok | done].
    - rewrite pty_set_eq. by destruct b. }
  replace ((if negb (has lflag NOFLSH) then _ else _) k) with (tt, k0) by (unfold k0; by destruct (has lflag NOFLSH)).
  destruct H0 as [F0 Q0]. unfold st_bind, st_get, st_mod, st_ret. rewrite <- Q0.
  assert (Hup : forall k1 f, fed_frame i k k1 -> (forall p, pty_ok p -> pty_ok (f p) /\ only_output p (f p)) ->
    fed_frame i k (upd_pty i f k1) /\ input_queue b (pty (upd_pty i f k1) i) = input_queue b (pty k1 i)).
  { intros k1 f F Hf. destruct (Hf _ (proj1 F)) as [H1 H2]. unfold upd_pty. rewrite pty_set_eq. split.
    - eapply fed_frame_trans; [exact F|]. apply fed_frame_set; [done | apply (only_output_fields _ _ H2)].
    - by apply input_queue_output. }
  destruct (Hup k0 (pty_echo_char c lflag) F0 (echo_spec c lflag)) as [F1 Q1]. rewrite <- Q1.
  set (k1 := upd_pty i (pty_echo_char c lflag) k0) in *. clearbody k1. clear F0 Q0 Q1 k0.
  pose proof (pgrp_signal_frame (pty k1 i) sig k1) as F2.
  destruct (tty_pgrp_signal (pty k1 i) sig k1) as [r k2]. cbn [snd] in F2. rewrite <- (only_tasks_pty _ _ i F2).
  assert (F3 : fed_frame i k k2) by (eapply fed_frame_trans; [exact F1 | apply fed_frame_tasks; [apply F1 | done]]).
  destruct (has lflag ECHO && has lflag ECHOCTL); intros [= _ <-]; [|done]. apply (Hup k2 _ F3). apply pty_out_spec.
Qed.

(** What one byte does to the queue of the slave: in canonical mode the erase
    and kill characters edit it. *)
Definition input_step (canonical : bool) (t : gmap Z Z) (iflag lflag : Z) (l : list Z) (c : Z) : list Z :=
  match map_input iflag c with
  | None => l
  | Some c =>
      if has iflag IXON && (tty_cc_match t VSTOP c || tty_cc_match t VSTART c) then l
      else if has lflag ISIG && negb (signal_char t c =? 0) then if has lflag NOFLSH then l else []
      else if canonical && tty_cc_match t VERASE c then removelast l
      else if canonical && tty_cc_match t VKILL c then []
      else l ++ [c]
  end.

Lemma feed_byte_spec i iflag lflag c k : pty_ok (pty k i) -> let '(r, k') := feed_byte i iflag lflag c k in
  let b := has lflag ICANON in
  fed_frame i k k' /\
  match r with
  | Taken => input_queue b (pty k' i) = input_step b (py_termios (pty k i)) iflag lflag (input_queue b (pty k i)) c
  | Full => input_queue b (pty k' i) = input_queue b (pty k i) /\
            (if b then py_canon_count (pty k' i) else py_m2s_count (pty k' i)) = PTY_CAP
  end.
Proof.
  intros Ho. unfold feed_byte, input_step. destruct (map_input iflag c) as [c'|]; [|split; [by apply fed_frame_refl | done]].
  unfold st_bind at 1. pose proof (feed_flow_spec i iflag c' k Ho) as Hf. destruct (feed_flow i iflag c' k) as [eaten k1].
  destruct Hf as (F1 & (b0 & E1) & ->). set (t := py_termios (pty k i)) in *.
  assert (Q1 : forall b, input_queue b (pty k1 i) = input_queue b (pty k i)) by (intros b; rewrite E1; by destruct b).
  assert (T1 : py_termios (pty k1 i) = t) by apply F1.
  destruct (has iflag IXON && _); [by split|]. unfold st_bind at 1, st_get. rewrite T1.
  destruct (has lflag ISIG); cbn [andb]; [destruct (Z.eqb_spec (signal_char t c') 0); cbn [negb]|];
    rewrite ?Z.eqb_refl; cbn [negb].
  2: { unfold st_bind, st_ret. pose proof (feed_signal_spec (has lflag ICANON) i lflag c' (signal_char t c') k1 (proj1 F1)) as [F2 Q2].
       destruct (feed_signal i lflag c' (signal_char t c') k1) as [u k2]. cbn [snd] in *.
       split; [by apply fed_frame_trans with k1 | by rewrite Q2, Q1]. }
  all: destruct (has lflag ICANON); cbn [andb input_queue] in *.
  1, 3: pose proof (canon_edit_spec c' lflag (pty k1 i) (proj1 F1)) as Hc; destruct (canon_edit c' lflag (pty k1 i)) as [r p'];
    destruct Hc as (Hp & Ht & Hr); unfold st_bind, st_mod, st_ret; rewrite pty_set_eq;
    (split; [apply fed_frame_trans with k1; [done | apply fed_frame_set; done]|]); rewrite T1 in Hr; specialize (Q1 true); cbn in Q1;
    (destruct r; [by rewrite Hr, Q1 | destruct Hr as [Hr ->]; by rewrite Q1]).
  all: pose proof (raw_input_spec c' lflag (pty k1 i) (proj1 F1)) as Hc; destruct (raw_input c' lflag (pty k1 i)) as [r p'];
    destruct Hc as (Hp & Ht & Hr); unfold st_bind, st_mod, st_ret; rewrite pty_set_eq;
    (split; [apply fed_frame_trans with k1; [done | apply fed_frame_set; done]|]); specialize (Q1 false); cbn in Q1;
    (destruct r; [by rewrite Hr, Q1 | destruct Hr as [Hr ->]; by rewrite Q1]).
Qed.

(** C7.  What the master writes is edited as the terminal settings say: the
    queue the slave reads from is the old one with the bytes consumed applied
    in order (mapped or dropped by the input flags, taken by flow control,
    flushed by a signal character unless NOFLSH, edited by erase and kill in
    canonical mode, appended otherwise); a byte is refused only when the queue
    is full.  The terminal stays well formed, and no other terminal, no
    descriptor and no file changes. *)
Theorem pty_canon_feed_correct i src k n k' : pty_ok (pty k i) -> pty_canon_feed i src k = (n, k') ->
  let t := py_termios (pty k i) in
  let canonical := has (tty_lflag t) ICANON in
  0 <= n <= Z.of_nat (length src) /\ fed_frame i k k' /\
  input_queue canonical (pty k' i) =
    foldl (input_step canonical t (tty_iflag t) (tty_lflag t)) (input_queue canonical (pty k i)) (take (Z.to_nat n) src) /\
  (n < Z.of_nat (length src) -> Z.of_nat (length (input_queue canonical (pty k' i))) = PTY_CAP).
Proof.
  intros Ho. unfold pty_canon_feed, st_bind at 1, st_get. cbn zeta. set (t := py_termios (pty k i)).
  assert (Ht : py_termios (pty k i) = t) by done. clearbody t. revert k n k' Ho Ht.
  induction src as [|c src IH]; intros k n k' Ho Ht; cbn [feed_loop].
  { intros [= <- <-]. cbn. split; [done|]. split; [by apply fed_frame_refl|]. by split. }
  unfold st_bind at 1. pose proof (feed_byte_spec i (tty_iflag t) (tty_lflag t) c k Ho) as Hb.
  destruct (feed_byte i (tty_iflag t) (tty_lflag t) c k) as [r k1]. destruct Hb as [F1 Q1]. rewrite Ht in Q1. destruct r.
  - unfold st_bind. destruct (feed_loop i (tty_iflag t) (tty_lflag t) src k1) as [m k2] eqn:E. intros [= <- <-].
    destruct (IH k1 m k2 (proj1 F1) ltac:(rewrite (proj1 (proj2 F1)); done) E) as (Hm & F2 & Q2 & Hfull).
    split; [cbn [length]; lia|]. split; [by apply fed_frame_trans with k1|].
    replace (Z.to_nat (m + 1)) with (S (Z.to_nat m)) by lia. cbn [take foldl]. rewrite <- Q1. split; [done|].
    cbn [length]. intros Hlt. apply Hfull. lia.
  - intros [= <- <-]. cbn [take foldl Z.to_nat]. destruct Q1 as [Q1 Hc]. split; [cbn [length]; lia|]. split; [done|]. split; [done|].
    intros _. unfold input_queue, m2s_list. destruct (has (tty_lflag t) ICANON).
    + by rewrite canon_length by (apply (po_canon _ (proj1 F1))).
    + rewrite ring_length; [done|]. apply (po_m2s _ (proj1 F1)).
Qed.

(** ** Reading *)

(** Copying the rest of the line buffer to its front, element by element. *)
Lemma shift_loop m c n : 0 < c -> 0 <= n -> forall j,
  arr (foldl (fun m i => <[i - c := arr m i]> m) m (seqZ c n)) j = if (0 <=? j) && (j <? n) then arr m (j + c) else arr m j.
Proof.
  intros Hc. revert n. refine (natlike_ind _ _ _).
  { intros j. change (seqZ c 0) with (@nil Z). cbn [foldl]. destruct (Z.leb_spec 0 j), (Z.ltb_spec j 0); try lia; done. }
  intros n Hn IH j. unfold Z.succ. rewrite (seqZ_app c n 1) by lia. change (seqZ (c + n) 1) with [c + n].
  rewrite foldl_app. cbn [foldl]. set (m' := foldl _ m (seqZ c n)) in *.
  replace (c + n - c) with n by lia. unfold arr at 1. destruct (Z.eq_dec j n) as [->|Hne].
  - rewrite lookup_insert_eq. cbn [default from_option id]. rewrite IH.
    rewrite (proj2 (Z.ltb_ge (c + n) n)), andb_false_r by lia.
    rewrite (proj2 (Z.leb_le 0 n)), (proj2 (Z.ltb_lt n (n + 1))) by lia. cbn [andb]. f_equal. lia.
  - rewrite lookup_insert_ne by lia. fold (arr m' j). rewrite IH.
    destruct (Z.leb_spec 0 j), (Z.ltb_spec j n), (Z.ltb_spec j (n + 1)); cbn [andb]; try lia; done.
Qed.

Lemma canon_shift_spec c p : pty_ok p -> 0 <= c <= py_canon_count p ->
  pty_ok (canon_shift c p) /\ canon_bytes (canon_shift c p) = drop (Z.to_nat c) (canon_bytes p).
Proof.
  intros Ho Hc. pose proof (po_canon _ Ho). split; [split; [apply Ho | apply Ho | cbn; lia]|].
  unfold canon_bytes, canon_shift. cbn [upd_field py_canon py_canon_count].
  apply list_eq. intros j. rewrite lookup_drop, !list_lookup_fmap.
  destruct (decide (Z.of_nat j < py_canon_count p - c)).
  - rewrite !lookup_seqZ_lt by lia. cbn [fmap option_fmap option_map]. f_equal. destruct (Z.eq_dec c 0) as [->|].
    + rewrite Z.sub_0_r.
      assert (E : forall (l : list Z) (m : gmap Z Z), arr (foldl (fun m i => <[i - 0 := arr m i]> m) m l) (Z.of_nat j) = arr m (Z.of_nat j)).
      { intros q. induction q as [|x q IH]; intros m; cbn [foldl]; [done|]. rewrite IH. unfold arr at 1. rewrite Z.sub_0_r.
        destruct (Z.eq_dec x (Z.of_nat j)) as [->|]; [by rewrite lookup_insert_eq | by rewrite lookup_insert_ne]. }
      rewrite !Z.add_0_l, E. reflexivity.
    + rewrite Z.add_0_l, shift_loop by lia. rewrite (proj2 (Z.leb_le 0 (Z.of_nat j))), (proj2 (Z.ltb_lt _ (py_canon_count p - c))) by lia.
      cbn [andb]. f_equal. lia.
  - by rewrite !lookup_seqZ_ge by lia.
Qed.

Lemma canon_take_spec ve v1 v2 l : forall n, let '(d, m) := canon_take ve v1 v2 n l in
  0 <= m <= Z.of_nat (length l) /\ (length d <= n)%nat /\
  (take (Z.to_nat m) l = d \/ (ve <> 0 /\ take (Z.to_nat m) l = d ++ [ve])).
Proof.
  induction l as [|c l IH]; intros [|n]; cbn [canon_take]; try (by split_and!; [lia | lia | cbn; lia | left]).
  destruct (negb (ve =? 0) && (c =? ve)) eqn:Ev.
  { apply andb_prop in Ev as [?%negb_true_iff%Z.eqb_neq ->%Z.eqb_eq]. split; [cbn [length]; lia|]. split; [cbn; lia|]. by right. }
  destruct (_ || _); [split; [cbn [length]; lia|]; split; [cbn; lia|]; by left|].
  specialize (IH n). destruct (canon_take ve v1 v2 n l) as [d m]. destruct IH as (Hm & Hl & Ht).
  split; [cbn [length]; lia|]. split; [cbn [length]; lia|]. replace (Z.to_nat (m + 1)) with (S (Z.to_nat m)) by lia.
  cbn [take app]. destruct Ht as [->|[? ->]]; [by left | by right].
Qed.

(** A read on a terminal takes bytes from the front of its queue and
    leaves the rest: from the output ring on the master side, from the input
    ring or the line buffer on the slave side (where an end-of-file character
    that ends a line is dropped).  The terminal stays well formed and at most
    the bytes asked for are delivered. *)
Theorem pty_read_correct (master : bool) n p l p' : pty_ok p -> pty_read_step master n p = PtyData l p' ->
  let canonical := has (tty_lflag (py_termios p)) ICANON in
  let queue (q : pty_state) := if master then s2m_list q else input_queue canonical q in
  pty_ok p' /\ (length l <= n)%nat /\
  exists taken, queue p = taken ++ queue p' /\
    (taken = l \/ (master = false /\ canonical = true /\ taken = l ++ [tty_cc (py_termios p) VEOF])).
Proof.
  intros Ho. unfold pty_read_step. cbn zeta.
  assert (Hring : forall buf r w c, ring_ok PTY_CAP r w c -> forall l0 r' c', pty_ring_read buf r c n = (l0, (r', c')) ->
    ring_ok PTY_CAP r' w c' /\ (length l0 <= n)%nat /\ ring_list PTY_CAP buf r c = l0 ++ ring_list PTY_CAP buf r' c').
  { intros buf r w c Hr l0 r' c' E. destruct (ring_read_spec n buf r w c Hr) as (r1 & E1 & H1 & H2). cbn zeta in *.
    rewrite E in E1. injection E1 as -> -> ->. split; [done|]. split; [rewrite length_take; lia|]. by rewrite H2, take_drop. }
  destruct master.
  - repeat (case_match; [done|]). unfold s2m_read. destruct (pty_ring_read _ _ _ n) as [l0 [r' c']] eqn:E. intros [= <- <-].
    destruct (Hring _ _ _ _ (po_s2m _ Ho) _ _ _ E) as (H1 & H2 & H3). split; [by split; try apply Ho|]. split; [done|].
    exists l0. split; [exact H3 | by left].
  - case_match; [done|]. destruct (has (tty_lflag (py_termios p)) ICANON).
    + case_match; [done|]. unfold canon_read. pose proof (canon_take_spec (tty_cc (py_termios p) VEOF) (tty_cc (py_termios p) VEOL)
        (tty_cc (py_termios p) VEOL2) (canon_bytes p) n) as Hs.
      destruct (canon_take _ _ _ n (canon_bytes p)) as [d m]. destruct Hs as (Hm & Hl & Ht). intros [= <- <-].
      rewrite canon_length in Hm by apply (po_canon _ Ho). destruct (canon_shift_spec m p Ho Hm) as [H1 H2]. split; [done|]. split; [done|].
      exists (take (Z.to_nat m) (canon_bytes p)). cbn [input_queue]. rewrite H2, take_drop. split; [done|].
      destruct Ht as [->|[_ ->]]; [by left | by right].
    + case_match; [by case_match|]. unfold m2s_read. destruct (pty_ring_read _ _ _ n) as [l0 [r' c']] eqn:E. intros [= <- <-].
      destruct (Hring _ _ _ _ (po_m2s _ Ho) _ _ _ E) as (H1 & H2 & H3). split; [by split; try apply Ho|]. split; [done|].
      exists l0. split; [exact H3 | by left].
Qed.

(**  No wake-up is lost: a read that does not sleep finds the readiness
    test of the scheduler true, and one that sleeps finds it false, except a
    master whose slave has gone while output was stopped with bytes pending. *)
Theorem pty_read_wakeup (master : bool) n p : pty_ok p ->
  let ready := if master then pty_master_read_ready p else pty_slave_read_ready p in
  (pty_read_step master n p <> PtyWait -> ready = true) /\
  (pty_read_step master n p = PtyWait ->
     ready = false \/ (master = true /\ py_slave_open p = false /\ py_output_stopped p = true /\ py_s2m_count p <> 0)).
Proof.
  intros Ho. cbn zeta. unfold pty_read_step, pty_master_read_ready, pty_slave_read_ready. destruct master.
  - destruct (py_slave_open p), (Z.eqb_spec (py_s2m_count p) 0), (py_output_stopped p); cbn [negb andb orb];
      try (destruct (s2m_read n p)); split; intros; (done || (by left) || (by right) || idtac).
  - assert (Hav : py_canon_count p = 0 -> pty_canon_available p = false).
    { intros E. unfold pty_canon_available, canon_bytes. by rewrite E. }
    destruct (py_master_open p), (Z.eqb_spec (py_m2s_count p) 0), (Z.eqb_spec (py_canon_count p) 0),
      (has (tty_lflag (py_termios p)) ICANON), (pty_canon_available p); cbn [negb andb orb];
      try (destruct (canon_read n p)); try (destruct (m2s_read n p)); split; intros; (done || (by left) || idtac).
Qed.

(** The exception: such a reader is woken at every wake-up and sleeps again. *)
Example stopped_master_spins :
  let p := (pty_fresh 0) <| py_output_stopped := true |> <| py_s2m_w := 1 |> <| py_s2m_count := 1 |> in
  pty_read_step true 16 p = PtyWait /\ pty_master_read_ready p = true.
Proof. by vm_compute. Qed.

(** ** A session on a fresh terminal *)

Definition open_pty : pty_state := (pty_fresh 0) <| py_master_open := true |> <| py_slave_open := true |>.
Definition pty_kernel : kernel := set_pty 0 open_pty blank_kernel.

Lemma open_pty_ok : pty_ok open_pty.
Proof. split; vm_compute; (split_and!; done) || done. Qed.

(** "a", an erased "b", and a carriage return that becomes a newline. *)
Lemma pty_canon_feed_witness : pty_ok (pty pty_kernel 0) /\
  fst (pty_canon_feed 0 [97; 98; 0x7f; 13] pty_kernel) = 4 /\
  canon_bytes (pty (snd (pty_canon_feed 0 [97; 98; 0x7f; 13] pty_kernel)) 0) = [97; 10].
Proof.
  assert (Ho : pty_ok (pty pty_kernel 0)) by (unfold pty_kernel; rewrite pty_set_eq; exact open_pty_ok).
  split; [exact Ho|].
  destruct (pty_canon_feed 0 [97; 98; 0x7f; 13] pty_kernel) as [n k'] eqn:E.
  destruct (pty_canon_feed_correct 0 [97; 98; 0x7f; 13] pty_kernel n k' Ho E) as (_ & _ & HQ & _).
  assert (Hn : n = 4) by (transitivity (fst (n, k')); [done | rewrite <- E; vm_compute; done]).
  split; [exact Hn|]. rewrite Hn in HQ. revert HQ. vm_compute. intros HQ. exact HQ.
Defined.

(** The line "hi", its newline and the start of the next, read as a line. *)
Definition line_pty : pty_state := foldl (fun p c => canon_push c p) open_pty [104; 105; 10; 120].

Lemma line_pty_ok : pty_ok line_pty.
Proof. split; vm_compute; (split_and!; done) || done. Qed.

Lemma pty_read_witness : exists p', pty_read_step false 16 line_pty = PtyData [104; 105; 10] p' /\ pty_ok p' /\ canon_bytes p' = [120].
Proof.
  destruct (pty_read_step false 16 line_pty) as [e| |l p'] eqn:E; [vm_compute in E; discriminate E | vm_compute in E; discriminate E|].
  assert (Hl : l = [104; 105; 10]) by (vm_compute in E; by injection E as <- <-). subst l.
  assert (H : pty_ok p' /\ (length [104; 105; 10] <= 16)%nat /\ exists taken, canon_bytes line_pty = taken ++ canon_bytes p' /\
    (taken = [104; 105; 10] \/ (false = false /\ true = true /\ taken = [104; 105; 10] ++ [tty_cc (py_termios line_pty) VEOF])))
    by exact (pty_read_correct false 16 line_pty [104; 105; 10] p' line_pty_ok E).
  destruct H as (Ho & _ & taken & HQ & Ht). exists p'. split; [reflexivity|]. split; [exact Ho|].
  assert (Hc : canon_bytes line_pty = [104; 105; 10; 120]) by (vm_compute; reflexivity). rewrite Hc in HQ. destruct Ht as [->|(_ & _ & ->)]; [by injection HQ|].
  vm_compute in HQ. discriminate HQ.
Defined.

Lemma pty_read_wakeup_witness : pty_ok open_pty /\ pty_read_step false 16 open_pty = PtyWait /\ pty_slave_read_ready open_pty = false.
Proof.
  assert (Hw : pty_read_step false 16 open_pty = PtyWait) by (vm_compute; reflexivity).
  destruct (pty_read_wakeup false 16 open_pty open_pty_ok) as [_ H].
  split; [exact open_pty_ok|]. split; [exact Hw|]. destruct (H Hw) as [Hr|[Hf _]]; [exact Hr | discriminate Hf].
Defined.
