(* ===== verification/LazyMmap.v ===== *)
(** * Areas that are mapped on first use

    [lazy_mmaps] of a task and the page faults that fill them
    ([task_lazy_mmap_transform] to [task_lazy_page_fault] in
    [src/kernel/main.c]). *)

From S2P Require Import Prelude Words Pmm Vmm CStr Vfs Kernel Tty Fd Sched UserCopy.
Local Open Scope Z_scope.
Local Open Scope st_scope.

Inductive lazy_op := LAZY_MMAP_REMOVE | LAZY_MMAP_SET_PROT | LAZY_MMAP_REPLACE.
#[global] Instance lazy_op_eq_dec : EqDecision lazy_op.
Proof. solve_decision. Defined.

(** [if (count >= MAX_LAZY_USER_MMAPS) return -12; out[count++]=m;] *)
Definition put_area (m : lazy_user_mmap_t) (out : list lazy_user_mmap_t) : option (list lazy_user_mmap_t) :=
  if MAX_LAZY_USER_MMAPS <=? Z.of_nat (length out) then None else Some (out ++ [m]).

(** One round of the loop of task_lazy_mmap_transform. *)
Definition transform_step (start end_ : Z) (operation : lazy_op) (prot : Z)
    (out : option (list lazy_user_mmap_t)) (m : lazy_user_mmap_t) : option (list lazy_user_mmap_t) :=
  match out with
  | None => None
  | Some out =>
      if negb (lm_used m) || (lm_end m <=? lm_start m) then Some out
      else if (lm_end m <=? start) || (end_ <=? lm_start m) then put_area m out
      else
        match (if lm_start m <? start then put_area (LazyMmap (lm_start m) start (lm_prot m) true) out else Some out) with
        | None => None
        | Some out =>
            let os := if start <? lm_start m then lm_start m else start in
            let oe := if lm_end m <? end_ then lm_end m else end_ in
            match (if bool_decide (operation = LAZY_MMAP_SET_PROT) && (os <? oe)
                   then put_area (LazyMmap os oe prot true) out else Some out) with
            | None => None
            | Some out =>
                if end_ <? lm_end m then put_area (LazyMmap end_ (lm_end m) (lm_prot m) true) out else Some out
            end
        end
  end.

(** [t->lazy_mmaps[i] = (i<count) ? out[i] : {0,0,0,0}] for every [i]. *)
Definition store_areas (out : list lazy_user_mmap_t) : list lazy_user_mmap_t :=
  map (fun i => nth (Z.to_nat i) out blank_lazy_user_mmap_t) (seqZ 0 MAX_LAZY_USER_MMAPS).

Definition task_lazy_mmap_transform (start end_ : Z) (operation : lazy_op) (prot : Z) (t : task_t) : Z * task_t :=
  if end_ <=? start then (-22, t)
  else
    let out := foldl (transform_step start end_ operation prot) (Some []) (t_lazy_mmaps t) in
    let out := match out with
               | Some out => if bool_decide (operation = LAZY_MMAP_REPLACE) then put_area (LazyMmap start end_ prot true) out else Some out
               | None => None
               end in
    match out with
    | None => (-12, t)
    | Some out => (0, t <| t_lazy_mmaps := store_areas out |>)
    end.

(** The loop over the tasks of the address space; it stops at an error. *)
Fixpoint transform_tasks (ti cr3 start end_ : Z) (operation : lazy_op) (prot : Z) (todo : list Z) : ST kernel Z :=
  match todo with
  | [] => st_ret 0
  | i :: todo =>
      let! k := st_get in
      if negb (t_used (task k i)) then transform_tasks ti cr3 start end_ operation prot todo
      else if negb (i =? ti) && ((cr3 =? 0) || negb (Z.land (t_ctx (task k i) CR3) PAGE_MASK =? cr3))
      then transform_tasks ti cr3 start end_ operation prot todo
      else
        let '(rc, t) := task_lazy_mmap_transform start end_ operation prot (task k i) in
        st_mod (set_task i t) ;;;
        if rc <? 0 then st_ret rc else transform_tasks ti cr3 start end_ operation prot todo
  end.

Definition task_lazy_mmap_transform_shared (ti start end_ : Z) (operation : lazy_op) (prot : Z) : ST kernel Z :=
  let! k := st_get in
  transform_tasks ti (Z.land (t_ctx (task k ti) CR3) PAGE_MASK) start end_ operation prot all_tasks.

(** [None] is the result 0, [Some prot] the result 1. *)
Definition task_lazy_mmap_protection (t : task_t) (addr : Z) : option Z :=
  option_map lm_prot (find (fun m => lm_used m && (lm_start m <=? addr) && (addr <? lm_end m)) (t_lazy_mmaps t)).

(** The inner loop of task_lazy_mmap_range_covered. *)
Definition cover_step (cursor end_ next : Z) (m : lazy_user_mmap_t) : Z :=
  if lm_used m && (lm_start m <=? cursor) && (next <? lm_end m) then (if lm_end m <? end_ then lm_end m else end_) else next.

(** Every round ends at the end of an area that no later round ends at. *)
Fixpoint cover_loop (fuel : nat) (l : list lazy_user_mmap_t) (cursor end_ : Z) : bool :=
  if negb (cursor <? end_) then true
  else
    let next := foldl (cover_step cursor end_) cursor l in
    if next =? cursor then false
    else match fuel with O => false | S fuel => cover_loop fuel l next end_ end.

Definition task_lazy_mmap_range_covered (t : task_t) (start end_ : Z) : bool :=
  if end_ <=? start then false else cover_loop (length (t_lazy_mmaps t)) (t_lazy_mmaps t) start end_.

(** The access of a page fault, from its error code, is one the area allows. *)
Definition fault_allowed (error_code prot : Z) : bool :=
  negb (prot =? 0)
  && negb (has error_code 0x2 && negb (has prot 0x2))
  && negb (has error_code 0x10 && negb (has prot 0x4))
  && negb (negb (has error_code (Z.lor 0x2 0x10)) && negb (has prot (Z.lor 0x1 0x2))).

(** [for (i = 0; i < PAGE_SIZE; i++) p[i] = 0;] *)
Definition zero_page (phys : Z) : ST machine unit :=
  st_mod (fun m => set_mem (write_bytes (m_mem m) phys (replicate (Z.to_nat PAGE_SIZE) 0)) m).

(** A new page of zeroes at [va]: its frame, or 0 when there is none or it
    cannot be mapped, and then it is given back. *)
Definition map_zero_page (va flags : Z) : ST machine Z :=
  let! phys := alloc_page in
  if phys =? 0 then st_ret 0
  else
    let! m := st_get in
    match pmm_phys_to_virt (m_pmm m) phys with
    | None => free_page phys ;;; st_ret 0
    | Some _ =>
        zero_page phys ;;;
        let! r := vmm_user_map va phys flags in
        if negb (r =? 0) then free_page phys ;;; st_ret 0 else st_ret phys
    end.

(** The part of task_lazy_page_fault that fills the page. *)
Definition fill_page (page prot : Z) : ST machine Z :=
  let flags := Z.lor (if has prot 0x2 then PTE_W else 0) (if has prot 0x4 then 0 else PTE_NX) in
  let! phys := map_zero_page page flags in
  if phys =? 0 then st_ret 0 else vmm_user_flush_tlb ;;; st_ret 1.

Definition task_lazy_page_fault (cr3 addr error_code : Z) : ST kernel Z :=
  let! k := st_get in
  if negb (task_ok (k_current k)) then st_ret 0
  else
    let t := task k (k_current k) in
    if negb (t_used t) || (t_ctx t CR3 =? 0) || negb (Z.land (t_ctx t CR3) PAGE_MASK =? Z.land cr3 PAGE_MASK) then st_ret 0
    else
      let! a := on_vm (vmm_user_activate cr3) in
      if negb (a =? 0) then st_ret 0
      else
        match task_lazy_mmap_protection t addr with
        | None => st_ret 0
        | Some prot =>
            if negb (fault_allowed error_code prot) then st_ret 0
            else
              let! k := st_get in
              match vmm_user_translate_cr3 (k_vm k) cr3 (Z.land addr PAGE_MASK) with
              | Some _ => st_ret 0
              | None => on_vm (fill_page (Z.land addr PAGE_MASK) prot)
              end
        end.
