(* ===== verification/LazyFacts.v ===== *)
(** * The lazily mapped areas as a map from addresses to protections

    [cover l a] are the protections of the areas of [l] that hold the address
    [a]; the operations on the areas are operations on this list, whatever
    pieces they cut the areas into.  The last part treats the filling of one
    page at a fault. *)

From S2P Require Import Prelude Words Pmm PmmFacts PmmInit PmmThms PageAlloc Vmm VmmFacts VmmMap VmmSpace VmmThms CStr Vfs Kernel.
From S2P Require Import Tty Fd Sched UserCopy UserMem UserMemThms LazyMmap.
Local Open Scope Z_scope.
Local Open Scope st_scope.

Definition holds (a : Z) (m : lazy_user_mmap_t) : bool := lm_used m && (lm_start m <=? a) && (a <? lm_end m).

Definition cover (l : list lazy_user_mmap_t) (a : Z) : list Z := map lm_prot (List.filter (holds a) l).

(** Areas as the kernel keeps them: none is empty and no two overlap. *)
Record areas_ok (l : list lazy_user_mmap_t) : Prop := {
  ao_length : Z.of_nat (length l) = MAX_LAZY_USER_MMAPS;
  ao_full : Forall (fun m => lm_used m = true -> lm_start m < lm_end m) l;
  ao_disjoint : forall a, (length (cover l a) <= 1)%nat
}.

Lemma cover_app l1 l2 a : cover (l1 ++ l2) a = cover l1 a ++ cover l2 a.
Proof. unfold cover. by rewrite List.filter_app, map_app. Qed.

Lemma cover_one m a : cover [m] a = if holds a m then [lm_prot m] else [].
Proof. unfold cover. cbn. by destruct (holds a m). Qed.

Lemma cover_cons m l a : cover (m :: l) a = cover [m] a ++ cover l a.
Proof. apply (cover_app [m]). Qed.

(** The result of the search is the first protection. *)
Lemma protection_cover t a : task_lazy_mmap_protection t a = head (cover (t_lazy_mmaps t) a).
Proof.
  unfold task_lazy_mmap_protection, cover. change (fun m => _) with (holds a). induction (t_lazy_mmaps t) as [|m l IH]; [done|].
  cbn [find List.filter]. by destruct (holds a m).
Qed.

Lemma cover_nonempty l a : cover l a <> [] <-> exists m, m ∈ l /\ holds a m = true.
Proof.
  induction l as [|m l IH]; [split; [done | by intros (? & H & _); inversion H]|].
  rewrite cover_cons, cover_one. destruct (holds a m) eqn:Hm.
  - split; [intros _; exists m; split; [by left | done] | done].
  - cbn [app]. rewrite IH. split; intros (x & Hx & Hh).
    + exists x. split; [by right | done].
    + inversion Hx; subst; [congruence|]. by exists x.
Qed.

(** ** The pieces of one area *)

(** What remains of [m] after an operation on the addresses from [start] to [end_]. *)
Definition pieces (start end_ : Z) (operation : lazy_op) (prot : Z) (m : lazy_user_mmap_t) : list lazy_user_mmap_t :=
  if negb (lm_used m) || (lm_end m <=? lm_start m) then []
  else if (lm_end m <=? start) || (end_ <=? lm_start m) then [m]
  else
    (if lm_start m <? start then [LazyMmap (lm_start m) start (lm_prot m) true] else [])
    ++ (if bool_decide (operation = LAZY_MMAP_SET_PROT) then [LazyMmap (Z.max start (lm_start m)) (Z.min end_ (lm_end m)) prot true] else [])
    ++ (if end_ <? lm_end m then [LazyMmap end_ (lm_end m) (lm_prot m) true] else []).

Definition all_pieces (start end_ : Z) (operation : lazy_op) (prot : Z) (l : list lazy_user_mmap_t) : list lazy_user_mmap_t :=
  flat_map (pieces start end_ operation prot) l
  ++ (if bool_decide (operation = LAZY_MMAP_REPLACE) then [LazyMmap start end_ prot true] else []).

Definition put_all (ps out : list lazy_user_mmap_t) : option (list lazy_user_mmap_t) :=
  if MAX_LAZY_USER_MMAPS <? Z.of_nat (length (out ++ ps)) then None else Some (out ++ ps).

Lemma put_all_nil out : Z.of_nat (length out) <= MAX_LAZY_USER_MMAPS -> put_all [] out = Some out.
Proof. intros H. unfold put_all. rewrite app_nil_r. by rewrite (proj2 (Z.ltb_ge _ _)). Qed.

Lemma put_all_cons m ps out : put_all (m :: ps) out = match put_area m out with None => None | Some out => put_all ps out end.
Proof.
  unfold put_all, put_area. destruct (Z.leb_spec MAX_LAZY_USER_MMAPS (Z.of_nat (length out))).
  - rewrite (proj2 (Z.ltb_lt _ _)); [done|]. rewrite length_app. cbn [length]. lia.
  - rewrite <- app_assoc. done.
Qed.

Lemma put_area_all m out : put_area m out = put_all [m] out.
Proof.
  unfold put_all, put_area. rewrite length_app. cbn [length].
  destruct (Z.leb_spec MAX_LAZY_USER_MMAPS (Z.of_nat (length out))), (Z.ltb_spec MAX_LAZY_USER_MMAPS (Z.of_nat (length out + 1))); (done || lia).
Qed.

Lemma put_all_app ps qs out : put_all (ps ++ qs) out = match put_all ps out with None => None | Some out => put_all qs out end.
Proof.
  unfold put_all. rewrite app_assoc. destruct (Z.ltb_spec MAX_LAZY_USER_MMAPS (Z.of_nat (length (out ++ ps)))); [|done].
  rewrite (proj2 (Z.ltb_lt _ _)); [done|]. rewrite (length_app (out ++ ps) qs). lia.
Qed.

Lemma put_all_bound ps out out' : put_all ps out = Some out' -> Z.of_nat (length out') <= MAX_LAZY_USER_MMAPS.
Proof. unfold put_all. destruct (Z.ltb_spec MAX_LAZY_USER_MMAPS (Z.of_nat (length (out ++ ps)))); [done | by intros [= <-]]. Qed.

Lemma put_opt (b : bool) m out : Z.of_nat (length out) <= MAX_LAZY_USER_MMAPS ->
  (if b then put_area m out else Some out) = put_all (if b then [m] else []) out.
Proof. intros Hb. destruct b; [apply put_area_all | by rewrite put_all_nil]. Qed.

Section Range.
Context (start end_ : Z) (operation : lazy_op) (prot : Z) (Hse : start < end_).
Local Abbreviation pieces := (pieces start end_ operation prot).
Local Abbreviation step := (transform_step start end_ operation prot).
Local Abbreviation in_range a := ((start <=? a) && (a <? end_)).

Lemma transform_step_pieces out m : Z.of_nat (length out) <= MAX_LAZY_USER_MMAPS -> step (Some out) m = put_all (pieces m) out.
Proof.
  intros Hb. unfold transform_step, LazyFacts.pieces.
  destruct (lm_used m); cbn [negb orb]; [|by rewrite put_all_nil].
  destruct (Z.leb_spec (lm_end m) (lm_start m)); [by rewrite put_all_nil|].
  destruct (Z.leb_spec (lm_end m) start); [by rewrite put_area_all|].
  destruct (Z.leb_spec end_ (lm_start m)); [by rewrite put_area_all|]. cbn [orb].
  replace (if start <? lm_start m then lm_start m else start) with (Z.max start (lm_start m)) by (destruct (Z.ltb_spec start (lm_start m)); lia).
  replace (if lm_end m <? end_ then lm_end m else end_) with (Z.min end_ (lm_end m)) by (destruct (Z.ltb_spec (lm_end m) end_); lia).
  rewrite (proj2 (Z.ltb_lt (Z.max start (lm_start m)) (Z.min end_ (lm_end m)))), andb_true_r by lia.
  rewrite put_opt, put_all_app by done. destruct (put_all (if lm_start m <? start then _ else _) out) as [o1|] eqn:E1; [|done].
  apply put_all_bound in E1. rewrite put_opt, put_all_app by done. destruct (put_all (if bool_decide _ then _ else _) o1) as [o2|] eqn:E2; [|done].
  apply put_all_bound in E2. by rewrite put_opt.
Qed.

Lemma transform_fold l : forall out, Z.of_nat (length out) <= MAX_LAZY_USER_MMAPS ->
  foldl step (Some out) l = put_all (flat_map pieces l) out.
Proof.
  induction l as [|m l IH]; intros out Hb; [symmetry; by apply put_all_nil|]. cbn [foldl flat_map].
  rewrite transform_step_pieces, put_all_app by done. destruct (put_all (pieces m) out) as [o|] eqn:E.
  - apply IH. by eapply put_all_bound.
  - clear. induction l; [done|]. cbn [foldl]. done.
Qed.

(** ** What the pieces cover *)

Lemma cover_pieces m a : cover (pieces m) a =
  if in_range a then (if bool_decide (operation = LAZY_MMAP_SET_PROT) then map (fun _ => prot) (cover [m] a) else []) else cover [m] a.
Proof.
  unfold LazyFacts.pieces. rewrite cover_one. unfold holds at 1 2.
  destruct (lm_used m) eqn:Hu; cbn [negb orb andb]; [|by destruct (in_range a), (bool_decide (operation = LAZY_MMAP_SET_PROT))].
  destruct (Z.leb_spec (lm_end m) (lm_start m)).
  { replace ((lm_start m <=? a) && (a <? lm_end m)) with false by lia. by destruct (in_range a), (bool_decide (operation = LAZY_MMAP_SET_PROT)). }
  destruct (Z.leb_spec (lm_end m) start); cbn [orb].
  { rewrite cover_one. unfold holds. rewrite Hu. cbn [andb]. destruct (in_range a) eqn:Ha; [|done].
    replace ((lm_start m <=? a) && (a <? lm_end m)) with false by lia. by destruct (bool_decide (operation = LAZY_MMAP_SET_PROT)). }
  destruct (Z.leb_spec end_ (lm_start m)).
  { rewrite cover_one. unfold holds. rewrite Hu. cbn [andb]. destruct (in_range a) eqn:Ha; [|done].
    replace ((lm_start m <=? a) && (a <? lm_end m)) with false by lia. by destruct (bool_decide (operation = LAZY_MMAP_SET_PROT)). }
  rewrite !cover_app.
  assert (E1 : cover (if lm_start m <? start then [LazyMmap (lm_start m) start (lm_prot m) true] else []) a =
               if (lm_start m <=? a) && (a <? start) then [lm_prot m] else []).
  { destruct (Z.ltb_spec (lm_start m) start).
    - rewrite cover_one. done.
    - replace ((lm_start m <=? a) && (a <? start)) with false by lia. done. }
  assert (E3 : cover (if end_ <? lm_end m then [LazyMmap end_ (lm_end m) (lm_prot m) true] else []) a =
               if (end_ <=? a) && (a <? lm_end m) then [lm_prot m] else []).
  { destruct (Z.ltb_spec end_ (lm_end m)).
    - rewrite cover_one. done.
    - replace ((end_ <=? a) && (a <? lm_end m)) with false by lia. done. }
  rewrite E1, E3. destruct (bool_decide (operation = LAZY_MMAP_SET_PROT)).
  - rewrite cover_one. unfold holds. cbn [lm_used lm_start lm_end lm_prot andb].
    destruct (Z.leb_spec start a), (Z.ltb_spec a end_), (Z.leb_spec (lm_start m) a), (Z.ltb_spec a (lm_end m)),
      (Z.ltb_spec a start), (Z.leb_spec end_ a), (Z.leb_spec (Z.max start (lm_start m)) a), (Z.ltb_spec a (Z.min end_ (lm_end m)));
      cbn [andb app map]; (done || lia).
  - change (cover [] a) with (@nil Z). cbn [app].
    destruct (Z.leb_spec start a), (Z.ltb_spec a end_), (Z.leb_spec (lm_start m) a), (Z.ltb_spec a (lm_end m)),
      (Z.ltb_spec a start), (Z.leb_spec end_ a); cbn [andb app map]; (done || lia).
Qed.

(** The protections after the operation. *)
Definition covered (l : list lazy_user_mmap_t) (a : Z) : list Z :=
  if in_range a then
    match operation with
    | LAZY_MMAP_REMOVE => []
    | LAZY_MMAP_SET_PROT => map (fun _ => prot) (cover l a)
    | LAZY_MMAP_REPLACE => [prot]
    end
  else cover l a.

Lemma cover_flat l a : cover (flat_map pieces l) a =
  if in_range a then (if bool_decide (operation = LAZY_MMAP_SET_PROT) then map (fun _ => prot) (cover l a) else []) else cover l a.
Proof.
  induction l as [|m l IH]; [by destruct (in_range a), (bool_decide (operation = LAZY_MMAP_SET_PROT))|]. cbn [flat_map].
  rewrite cover_app, cover_pieces, IH, (cover_cons m l). destruct (in_range a); [|done].
  destruct (bool_decide (operation = LAZY_MMAP_SET_PROT)); [by rewrite map_app | done].
Qed.

Lemma cover_all_pieces l a : cover (all_pieces start end_ operation prot l) a = covered l a.
Proof.
  unfold all_pieces, covered. rewrite cover_app, cover_flat. destruct operation; cbn [bool_decide decide lazy_op_eq_dec].
  - rewrite !bool_decide_eq_false_2 by done. by rewrite app_nil_r.
  - rewrite bool_decide_eq_true_2, bool_decide_eq_false_2 by done. by rewrite app_nil_r.
  - rewrite bool_decide_eq_false_2, bool_decide_eq_true_2 by done. rewrite cover_one. unfold holds. cbn [lm_used lm_start lm_end lm_prot andb].
    destruct (in_range a); [done | by rewrite app_nil_r].
Qed.

Lemma pieces_full m : Forall (fun m => lm_used m = true -> lm_start m < lm_end m) (pieces m).
Proof.
  unfold LazyFacts.pieces. destruct (lm_used m) eqn:Hu; cbn [negb orb]; [|constructor].
  destruct (Z.leb_spec (lm_end m) (lm_start m)); [constructor|].
  destruct (Z.leb_spec (lm_end m) start), (Z.leb_spec end_ (lm_start m)); cbn [orb]; try (by repeat constructor).
  rewrite !Forall_app. split_and!.
  - destruct (Z.ltb_spec (lm_start m) start); repeat constructor. cbn. lia.
  - destruct (bool_decide (operation = LAZY_MMAP_SET_PROT)); repeat constructor. cbn. lia.
  - destruct (Z.ltb_spec end_ (lm_end m)); repeat constructor. cbn. lia.
Qed.
End Range.

(** ** The table *)

Lemma store_areas_eq out : Z.of_nat (length out) <= MAX_LAZY_USER_MMAPS ->
  store_areas out = out ++ replicate (Z.to_nat MAX_LAZY_USER_MMAPS - length out) blank_lazy_user_mmap_t.
Proof.
  intros Hb. unfold store_areas, MAX_LAZY_USER_MMAPS in *. apply list_eq. intros j. rewrite list_lookup_fmap.
  destruct (decide (j < 128)%nat).
  - rewrite lookup_seqZ_lt by lia. cbn [fmap option_fmap option_map]. rewrite Z.add_0_l, Nat2Z.id.
    destruct (decide (j < length out)%nat).
    + rewrite lookup_app_l by done. destruct (lookup_lt_is_Some_2 out j) as [x Hx]; [done|]. rewrite Hx. f_equal. by apply nth_lookup_Some.
    + rewrite lookup_app_r by lia. rewrite lookup_replicate_2 by lia. f_equal. apply nth_overflow. lia.
  - rewrite lookup_seqZ_ge by lia. cbn. symmetry. apply lookup_ge_None. rewrite length_app, length_replicate. lia.
Qed.

Lemma store_areas_length out : Z.of_nat (length (store_areas out)) = MAX_LAZY_USER_MMAPS.
Proof. unfold store_areas. rewrite length_map, length_seqZ. done. Qed.

Lemma cover_blank n a : cover (replicate n blank_lazy_user_mmap_t) a = [].
Proof. induction n as [|n IH]; [done|]. cbn [replicate]. by rewrite cover_cons, IH. Qed.

Lemma cover_store out a : Z.of_nat (length out) <= MAX_LAZY_USER_MMAPS -> cover (store_areas out) a = cover out a.
Proof. intros Hb. by rewrite store_areas_eq, cover_app, cover_blank, app_nil_r. Qed.

(** ** The search for gaps *)

Lemma cover_step_ge c end_ n m : n <= end_ -> n <= cover_step c end_ n m <= end_.
Proof. unfold cover_step. intros. destruct (lm_used m), (lm_start m <=? c), (Z.ltb_spec n (lm_end m)), (Z.ltb_spec (lm_end m) end_); cbn [andb]; lia. Qed.

Lemma cover_fold_ge c end_ l : forall n, n <= end_ -> n <= foldl (cover_step c end_) n l <= end_.
Proof.
  induction l as [|m l IH]; intros n Hn; cbn [foldl]; [lia|].
  pose proof (cover_step_ge c end_ n m Hn). specialize (IH (cover_step c end_ n m)). lia.
Qed.

(** The round reaches the end of some area at the cursor, and no area at the cursor ends later. *)
Lemma cover_fold_spec c end_ l : forall n, c <= n <= end_ -> let r := foldl (cover_step c end_) n l in
  (r = n \/ exists m, m ∈ l /\ lm_used m = true /\ lm_start m <= c /\ n < lm_end m /\ r = Z.min end_ (lm_end m)) /\
  forall m, m ∈ l -> lm_used m = true -> lm_start m <= c -> Z.min end_ (lm_end m) <= r.
Proof.
  induction l as [|m l IH]; intros n Hn; cbn [foldl]; cbn zeta.
  { split; [by left | intros m H; inversion H]. }
  pose proof (cover_step_ge c end_ n m (proj2 Hn)) as Hg. specialize (IH (cover_step c end_ n m) ltac:(lia)). cbn zeta in IH.
  set (r := foldl _ _ l) in *. destruct IH as [H1 H2].
  pose proof (cover_fold_ge c end_ l (cover_step c end_ n m) ltac:(lia)) as Hr. fold r in Hr. split.
  - destruct H1 as [E|(x & Hx & Hu & Hs & He & E)].
    + destruct (decide (cover_step c end_ n m = n)) as [En|En]; [left; congruence|]. right. exists m.
      unfold cover_step in E, En. destruct (lm_used m), (Z.leb_spec (lm_start m) c), (Z.ltb_spec n (lm_end m)); cbn [andb] in E, En; try done.
      split_and!; [by left | done | done | done|]. destruct (Z.ltb_spec (lm_end m) end_); lia.
    + right. exists x. split_and!; [by right | done | done | lia | done].
  - intros x Hx Hu Hs. apply elem_of_cons in Hx as [->|Hx]; [|by apply H2]. unfold cover_step in Hr. rewrite Hu, (proj2 (Z.leb_le _ _)) in Hr by done.
    cbn [andb] in Hr. destruct (Z.ltb_spec n (lm_end m)), (Z.ltb_spec (lm_end m) end_); lia.
Qed.

(** The areas that end after the cursor: one fewer in every round. *)
Definition ahead (c : Z) (l : list lazy_user_mmap_t) : nat := length (List.filter (fun m => c <? lm_end m) l).

Lemma ahead_less c c' l m : m ∈ l -> c < lm_end m <= c' -> (ahead c' l < ahead c l)%nat.
Proof.
  intros Hm Hc. assert (Hle : forall l, (ahead c' l <= ahead c l)%nat).
  { intros l'. induction l' as [|x l' IH]; unfold ahead in *; cbn [List.filter length]; [lia|].
    destruct (Z.ltb_spec c' (lm_end x)), (Z.ltb_spec c (lm_end x)); cbn [length]; lia. }
  induction l as [|x l IH]; [inversion Hm|]. specialize (Hle l). unfold ahead in *. cbn [List.filter].
  inversion Hm as [|? ? ? Hm']; subst.
  - rewrite (proj2 (Z.ltb_ge c' (lm_end x))), (proj2 (Z.ltb_lt c (lm_end x))) by lia. cbn [length]. lia.
  - specialize (IH Hm'). destruct (Z.ltb_spec c' (lm_end x)), (Z.ltb_spec c (lm_end x)); cbn [length]; lia.
Qed.

Lemma cover_loop_spec end_ l : forall fuel c, (ahead c l <= fuel)%nat ->
  cover_loop fuel l c end_ = true <-> forall a, c <= a < end_ -> cover l a <> [].
Proof.
  induction fuel as [fuel IH] using lt_wf_ind. intros c Hf.
  assert (E : cover_loop fuel l c end_ = if negb (c <? end_) then true else
    let next := foldl (cover_step c end_) c l in if next =? c then false else match fuel with O => false | S fuel => cover_loop fuel l next end_ end)
    by (by destruct fuel).
  rewrite E. clear E. destruct (Z.ltb_spec c end_) as [Hc|Hc]; cbn [negb]; [|split; [lia | done]].
  cbn zeta. destruct (cover_fold_spec c end_ l c ltac:(lia)) as [H1 H2]. cbn zeta in H1, H2. set (next := foldl _ c l) in *.
  destruct (Z.eqb_spec next c) as [En|En].
  { split; [done|]. intros Ha. exfalso. destruct (proj1 (cover_nonempty l c)) as (m & Hm & Hh); [apply Ha; lia|].
    unfold holds in Hh. apply andb_prop in Hh as [[Hu Hs]%andb_prop He]. specialize (H2 m Hm Hu ltac:(lia)). lia. }
  destruct H1 as [|(m & Hm & Hu & Hs & He & Er)]; [done|].
  assert (Hco : forall a, c <= a < next -> cover l a <> []).
  { intros a Ha. apply cover_nonempty. exists m. split; [done|]. unfold holds. rewrite Hu. cbn [andb]. lia. }
  destruct (Z.le_gt_cases end_ (lm_end m)) as [Hl|Hl].
  { replace next with end_ in * by lia. assert (Ht : match fuel with O => false | S fuel => cover_loop fuel l end_ end_ end = true).
    { destruct fuel as [|fuel]; [|destruct fuel; cbn; by rewrite Z.ltb_irrefl]. exfalso.
      pose proof (ahead_less c (lm_end m) l m Hm ltac:(lia)). lia. }
    rewrite Ht. split; [intros _; exact Hco | done]. }
  assert (Ha : (ahead next l < ahead c l)%nat) by (apply (ahead_less _ _ _ m); [done | lia]).
  destruct fuel as [|fuel]; [lia|]. rewrite (IH fuel) by lia. split.
  - intros Hn a Hr. destruct (Z.lt_ge_cases a next); [apply Hco; lia | apply Hn; lia].
  - intros Hn a Hr. apply Hn. unfold next in *. lia.
Qed.

(** ** Filling a page on first use

    What the steps of [fill_page] do to the pages of a process: a step that
    touches none of its pages keeps what it sees ([same_view]). *)

Section View.
Context {HB : HhdmBase} {inv : pmm -> Prop} {held : pmm -> Z -> Prop} `{PA : !PageAllocator inv held}.
Local Abbreviation space_ok := (space_ok (inv := inv) (held := held)).
Local Abbreviation user_ok := (user_ok (inv := inv) (held := held)).
Local Abbreviation data_page := (data_page (held := held)).
Local Abbreviation vm_step := (vm_step (inv := inv) (held := held)).

(** The process sees the same memory, through the same entries. *)
Definition same_view (m m' : machine) : Prop :=
  m_user_pml4 m' = m_user_pml4 m /\
  forall a, user_va a -> upte m' a = upte m a /\ ubyte m' (m_user_pml4 m) a = ubyte m (m_user_pml4 m) a.

Lemma same_view_refl m : same_view m m.
Proof. done. Qed.

Lemma same_view_trans m1 m2 m3 : same_view m1 m2 -> same_view m2 m3 -> same_view m1 m3.
Proof.
  intros [E1 H1] [E2 H2]. split; [congruence|]. intros a Ha. destruct (H1 a Ha) as [U1 B1], (H2 a Ha) as [U2 B2].
  rewrite E1 in B2. split; congruence.
Qed.

(** No page of the process is the frame [p]. *)
Definition unmapped_frame (m : machine) (p : Z) : Prop := forall a, user_va a -> upresent m a = true -> addr_of (upte m a) <> p.

Lemma view_frame m m' p : same_view m m' -> unmapped_frame m p -> unmapped_frame m' p.
Proof. intros [_ Hv] Hn a Ha. unfold upresent. rewrite (proj1 (Hv a Ha)). by apply Hn. Qed.

(** Entries and the words of the pages of the process decide what it sees. *)
Lemma view_kept m m' : space_ok m -> user_ok m' -> m_user_pml4 m' = m_user_pml4 m ->
  (forall va, user_va va -> upte m' va = upte m va) -> (forall va, user_va va -> upresent m va = true -> data_page m' (addr_of (upte m va))) ->
  (forall va a, user_va va -> upresent m va = true -> page_base a = addr_of (upte m va) -> arr (m_mem m') a = arr (m_mem m) a) ->
  space_ok m' /\ same_view m m'.
Proof.
  intros Hs Ho Er He Hd Hm. assert (Hp : forall va, user_va va -> upresent m' va = upresent m va) by (intros va Hv; unfold upresent; by rewrite He).
  assert (Hs' : space_ok m').
  { split; [done | | |].
    - intros va Hv. rewrite Hp, He by done. by apply Hs.
    - intros va Hv. rewrite Hp, He by done. by apply Hd.
    - intros va va' Hv Hv'. rewrite !Hp, !He by done. by apply (so_private _ Hs). }
  split; [done|]. split; [done|]. intros a Ha. split; [by apply He|]. rewrite <- Er at 1.
  rewrite (ubyte_eq m' a Hs' Ha), (ubyte_eq m a Hs Ha), Hp, He by done. destruct (upresent m a) eqn:Hpa; [|done]. f_equal.
  destruct (data_page_reach m _ (so_user _ Hs) (so_page _ Hs a Ha Hpa)) as [Hal _].
  assert (Hoff : 0 <= a mod PAGE_SIZE < PAGE_SIZE) by (apply Z.mod_pos_bound; done).
  unfold ld8. rewrite (Hm a); [done | done | done |]. by apply byte_word.
Qed.

Lemma step_data_page m m' p : user_ok m -> vm_step (m_user_pml4 m) m m' -> data_page m p -> data_page m' p.
Proof.
  intros Ho Hs Hd. destruct (data_page_reach m p Ho Hd) as [Ha _]. destruct Hd as [Hh Hn].
  assert (Hb : page_base p = p) by (unfold page_base, PAGE_SIZE in *; dlia).
  split; [by apply (vs_held _ _ _ Hs)|]. destruct (vs_user _ _ _ Hs) as (-> & _).
  destruct (vs_data _ _ _ Hs p) as [_ H]; by rewrite Hb in *.
Qed.

Lemma step_space m m' : space_ok m -> vm_step (m_user_pml4 m) m m' -> space_ok m' /\ same_view m m'.
Proof.
  intros Hs Hv. apply view_kept; try done.
  - apply (step_user_ok m m'); [apply Hs | done].
  - apply Hv.
  - intros va Ha. unfold upte. destruct (vs_user _ _ _ Hv) as (-> & _). by apply (vs_view _ _ _ Hv).
  - intros va Ha Hp. apply (step_data_page m m'); [apply Hs | done | by apply (so_page _ Hs)].
  - intros va a Ha Hp E. destruct (so_page _ Hs va Ha Hp) as [Hh Hn]. apply (vs_data _ _ _ Hv); by rewrite E.
Qed.

(** Giving back a page the process does not use. *)
Lemma free_space m p : space_ok m -> data_page m p -> unmapped_frame m p ->
  space_ok (set_pmm (pmm_free_page p (m_pmm m)) m) /\ same_view m (set_pmm (pmm_free_page p (m_pmm m)) m).
Proof.
  intros Hs Hd Hf. pose proof (so_user _ Hs) as Ho. pose proof (uo_inv _ Ho) as Hi.
  destruct (data_page_reach m p Ho Hd) as (Ha & Hr & _). unfold PMM_TRACK_LIMIT in Hr.
  assert (Hp : is_u64 p) by (unfold is_u64; lia).
  assert (Epo : page_of p = p) by (unfold page_of; by apply land_PAGE_MASK_aligned).
  destruct (pa_free _ p (vi_pmm _ Hi) Hp) as (Hinv & Hh & _ & Hk). rewrite Epo in Hk.
  assert (Hkeep : forall q, held (m_pmm m) q -> q <> p -> held (pmm_free_page p (m_pmm m)) q) by (intros q Hq Hne; by apply Hk).
  apply view_kept; try done.
  - split; [split; [done | cbn [set_pmm m_pmm]; rewrite Hh; apply Hi] | apply Ho |]. destruct (uo_tree _ Ho) as [T1 T2]. split.
    + intros q t Hq Ht. cbn [set_pmm m_pmm m_mem m_user_pml4] in *. apply Hkeep; [by apply (T1 q)|]. intros ->. by apply (proj2 Hd q).
    + exact T2.
  - intros va Hv Hpr. destruct (so_page _ Hs va Hv Hpr) as [H1 H2]. split; [|exact H2]. apply Hkeep; [done | by apply Hf].
Qed.

(** Only the translation caches change. *)
Lemma flush_space m : space_ok m -> space_ok (exec vmm_user_flush_tlb m) /\ same_view m (exec vmm_user_flush_tlb m).
Proof.
  intros Hs. assert (E : exists c l, exec vmm_user_flush_tlb m = Machine (m_pmm m) (m_mem m) c l (m_kernel_cr3 m) (m_fb_phys m) (m_fb_size m) (m_user_pml4 m) (m_user_valid m)
     \/ exec vmm_user_flush_tlb m = m).
  { unfold exec, vmm_user_flush_tlb, st_bind, st_get. destruct (_ || _); [exists 0, []; by right|].
    destruct (_ =? _); do 2 eexists; left; reflexivity. }
  destruct E as (c & l & [-> | ->]); [|done]. apply view_kept; try done.
  - destruct (so_user _ Hs) as [[H1 H2] H3 [H4 H5]]. by split; [split | | split].
  - intros va Hv Hp. apply (so_page _ Hs va Hv Hp).
Qed.

(** An allocation touches no page of the process; what it returns is none of them. *)
Lemma alloc_same_view m p m' : space_ok m -> alloc_page m = (p, m') ->
  space_ok m' /\ same_view m m' /\ (p = 0 -> pmm_free_count (m_pmm m) = 0) /\ pmm_free_count (m_pmm m) - 1 <= pmm_free_count (m_pmm m') /\
  (p <> 0 -> data_page m' p /\ unmapped_frame m' p).
Proof.
  intros Hs. pose proof (so_user _ Hs) as Ho. pose proof (uo_inv _ Ho) as Hi. pose proof (alloc_data (inv := inv) m Ho) as Had.
  destruct (alloc_page m) as [q m1] eqn:He. cbn [fst snd] in Had. intros [= -> ->].
  pose proof He as Hal. unfold alloc_page in Hal. destruct (pmm_alloc_page (m_pmm m)) as [q s] eqn:Ha. injection Hal as -> <-.
  destruct (pa_supply _ _ _ (vi_pmm _ Hi) Ha) as [Hz Hc]. destruct (pa_alloc_inv _ _ _ (vi_pmm _ Hi) Ha) as (Hinv & Hh & _).
  assert (Hheld : forall x, held (m_pmm m) x -> held s x).
  { intros x Hx. destruct (Z.eq_dec p 0) as [->|Hp]; [by apply (pa_alloc_fail _ _ (vi_pmm _ Hi) Ha)|].
    apply (pa_alloc _ _ _ (vi_pmm _ Hi) Ha Hp). by left. }
  destruct (view_kept m (set_pmm s m)) as [Hs' Hv]; try done.
  - split; [split; [done | cbn [set_pmm m_pmm]; rewrite Hh; apply Hi] | apply Ho |]. destruct (uo_tree _ Ho) as [T1 T2].
    split; [|exact T2]. intros x t Hx Ht. by apply Hheld, (T1 x).
  - intros va Hva Hpr. destruct (so_page _ Hs va Hva Hpr) as [H1 H2]. split; [by apply Hheld | exact H2].
  - split; [done|]. split; [done|]. split; [done|]. split; [done|]. intros Hp. split; [apply Had; done|].
    exact (proj2 (proj2 (alloc_space m p (set_pmm s m) Hs He Hp))).
Qed.

(** Writing to a page the process does not use. *)
Lemma store_view m mem p : space_ok m -> data_page m p -> unmapped_frame m p ->
  (forall a, page_base a <> p -> arr mem a = arr (m_mem m) a) ->
  let m' := set_mem mem m in space_ok m' /\ same_view m m' /\ data_page m' p /\ unmapped_frame m' p.
Proof.
  intros Hs Hd Hf Hoff m'. destruct (page_write m mem p (so_user _ Hs) Hd Hoff) as (Ho' & He & Hk).
  destruct (view_kept m m') as [Hs' Hv]; try done.
  - intros va Hva Hpr. by apply Hk, (so_page _ Hs).
  - intros va a Hva Hpr E. apply Hoff. rewrite E. by apply Hf.
  - split; [done|]. split; [done|]. split; [by apply Hk | by apply (view_frame m)].
Qed.

Lemma nth_zeroes n j : nth j (replicate n 0) 0 = 0.
Proof. revert j. induction n as [|n IH]; intros [|j]; cbn; done. Qed.

(** The page of zeroes. *)
Lemma zero_page_bytes mem p mem' : p mod PAGE_SIZE = 0 -> mem' = write_bytes mem p (replicate (Z.to_nat PAGE_SIZE) 0) ->
  (forall a, page_base a <> p -> arr mem' a = arr mem a) /\ forall j, 0 <= j < PAGE_SIZE -> ld8 mem' (p + j) = 0.
Proof.
  intros Ha ->. assert (Hlen : forall n, 0 <= n -> Z.of_nat (length (replicate (Z.to_nat n) 0)) = n) by (intros; rewrite length_replicate; lia).
  specialize (Hlen PAGE_SIZE ltac:(unfold PAGE_SIZE; lia)).
  assert (Hb : Forall (fun b => 0 <= b < 256) (replicate (Z.to_nat PAGE_SIZE) 0)) by (apply Forall_replicate; lia).
  assert (Hn : forall j, nth j (replicate (Z.to_nat PAGE_SIZE) 0) 0 = 0) by (intros; apply nth_zeroes).
  revert Hlen Hb Hn. generalize (replicate (Z.to_nat PAGE_SIZE) 0). intros l Hlen Hb Hn. split.
  - intros a Hne. apply write_bytes_off. rewrite Hlen. intros i Hi ->. apply Hne. by apply byte_word.
  - intros j Hj. rewrite write_bytes_spec, Hlen by done. replace ((p <=? p + j) && (p + j <? p + PAGE_SIZE)) with true by lia. apply Hn.
Qed.

Definition lazy_flags (prot : Z) : Z := Z.lor (if has prot 0x2 then PTE_W else 0) (if has prot 0x4 then 0 else PTE_NX).

(** The page at [page] is new and zero, with the rights of [prot]; everything else is as before. *)
Definition filled (m m' : machine) (page prot : Z) : Prop :=
  m_user_pml4 m' = m_user_pml4 m /\
  forall a, user_va a ->
    if a / PAGE_SIZE =? page / PAGE_SIZE
    then ubyte m' (m_user_pml4 m) a = Some 0 /\ uwritable m' a = has prot 0x2 /\ has (upte m' a) PTE_COW = false /\ has (upte m' a) PTE_NX = negb (has prot 0x4)
    else upte m' a = upte m a /\ ubyte m' (m_user_pml4 m) a = ubyte m (m_user_pml4 m) a.

Lemma map_zeroed m page p prot m' : space_ok m -> page_va page -> data_page m p -> unmapped_frame m p ->
  (forall j, 0 <= j < PAGE_SIZE -> ld8 (m_mem m) (p + j) = 0) ->
  leaf_step (inv := inv) (held := held) (m_user_pml4 m) page (leaf_pte p (lazy_flags prot)) m m' ->
  space_ok m' /\ filled m m' page prot.
Proof.
  intros Hs [Hva Hal] Hd Hf Hz Hl. destruct (data_page_reach m p (so_user _ Hs) Hd) as (Ha & Hr & _). unfold PMM_TRACK_LIMIT in Hr.
  destruct (leaf_pte_spec p (lazy_flags prot) Ha) as (Ea & EP & EU & EC & EW & EN); [lia|].
  assert (Hw : is_u64 (leaf_pte p (lazy_flags prot))).
  { pose proof (addr_of_range p) as Hx. unfold addr_of in Hx. unfold leaf_pte, is_u64.
    apply lor_range; [lia | apply lor_range; [lia | apply lor_range; [lia | lia |] |] | apply (land_range _ _ 64); [lia|]];
      vm_compute; split; congruence. }
  assert (Hs' : space_ok m').
  { apply (leaf_space m m' page _ Hs Hva Hl). intros _. rewrite Ea. split; [done|]. split; [by apply (leaf_data_page m m' page _ Hl)|].
    intros a Hav Hp _. by apply Hf. }
  split; [done|]. destruct (ls_user _ _ _ _ _ Hl) as [Er _]. split; [done|]. intros a Hav.
  pose proof (leaf_upte m m' page _ Hl a Hav) as Ew. destruct (Z.eqb_spec (a / PAGE_SIZE) (page / PAGE_SIZE)) as [E|E].
  - assert (Hp : upresent m' a = true) by (unfold upresent; by rewrite Ew, EP, EU).
    split_and!.
    + rewrite <- Er. rewrite ubyte_eq, Hp, Ew, Ea by done. f_equal.
      assert (Hj : 0 <= a mod PAGE_SIZE < PAGE_SIZE) by (apply Z.mod_pos_bound; done).
      rewrite <- (Hz _ Hj). apply ld8_agree. destruct Hd as [Hh Hn]. apply (ls_data _ _ _ _ _ Hl); by rewrite byte_word.
    + unfold uwritable. rewrite Hp, Ew, EW, EC. cbn [andb]. rewrite orb_false_r. unfold lazy_flags.
      destruct (has prot 2), (has prot 4); vm_compute; reflexivity.
    + by rewrite Ew, EC.
    + rewrite Ew, EN. unfold lazy_flags. destruct (has prot 2), (has prot 4); vm_compute; reflexivity.
  - split; [done | by apply (leaf_ubyte m m' page _ Hs Hl)].
Qed.

Lemma filled_view m m1 m2 page prot : same_view m m1 -> filled m1 m2 page prot -> filled m m2 page prot.
Proof.
  intros [Er Hv] [Er2 H]. split; [congruence|]. intros a Ha. specialize (H a Ha). destruct (Hv a Ha) as [U B].
  rewrite Er in H. destruct (_ =? _); [done|]. destruct H. split; congruence.
Qed.

Lemma view_filled m m1 m2 page prot : filled m m1 page prot -> same_view m1 m2 -> filled m m2 page prot.
Proof.
  intros [Er H] [Er2 Hv]. split; [congruence|]. intros a Ha. specialize (H a Ha). destruct (Hv a Ha) as [U B]. rewrite Er in B.
  unfold uwritable, upresent in *. rewrite U, B. done.
Qed.

Lemma map_zero_spec m page prot r m' : space_ok m -> page_va page -> map_zero_page page (lazy_flags prot) m = (r, m') ->
  space_ok m' /\ ((r <> 0 /\ filled m m' page prot) \/ (r = 0 /\ same_view m m' /\ pmm_free_count (m_pmm m) < 4)).
Proof.
  intros Hs Hva. unfold map_zero_page, st_bind at 1. destruct (alloc_page m) as [p m1] eqn:Ea.
  destruct (alloc_same_view m p m1 Hs Ea) as (Hs1 & Hv1 & Hz & Hc & Hp). destruct (Z.eqb_spec p 0) as [->|Hp0].
  { intros [= <- <-]. split; [done|]. right. rewrite Hz by done. done. }
  destruct (Hp Hp0) as [Hd1 Hf1]. destruct (data_page_reach m1 p (so_user _ Hs1) Hd1) as (Hal & Hr & Hreach).
  unfold st_bind at 1, st_get. destruct (pmm_phys_to_virt (m_pmm m1) p) as [v|]; [clear Hreach | done].
  unfold st_bind at 1, zero_page, st_mod at 1.
  pose proof (zero_page_bytes (m_mem m1) p (write_bytes (m_mem m1) p (replicate (Z.to_nat PAGE_SIZE) 0)) Hal eq_refl) as [Hoff Hzero].
  revert Hoff Hzero. generalize (write_bytes (m_mem m1) p (replicate (Z.to_nat PAGE_SIZE) 0)). intros mem Hoff Hzero.
  destruct (store_view m1 mem p Hs1 Hd1 Hf1 Hoff) as (Hs2 & Hv2 & Hd2 & Hf2). set (m2 := set_mem mem m1) in *.
  unfold st_bind at 1. destruct (vmm_user_map page p (lazy_flags prot) m2) as [rm m3] eqn:Em.
  destruct (vmm_user_map_spec m2 page p (lazy_flags prot) rm m3 (so_user _ Hs2) Hva) as [[-> Hl]|(-> & Hst & Hcnt)]; [split; [done | unfold PMM_TRACK_LIMIT in *; lia] | done | |].
  - cbn [negb Z.eqb]. destruct (map_zeroed m2 page p prot m3 Hs2 Hva Hd2 Hf2) as [Hs3 Hfl].
    + exact Hzero.
    + exact Hl.
    + intros [= <- <-]. split; [done|]. left. split; [done|]. by apply (filled_view m m1), (filled_view m1 m2).
  - cbn [negb Z.eqb]. destruct (step_space m2 m3 Hs2 Hst) as [Hs3 Hv3].
    assert (Hd3 : data_page m3 p) by (by apply (step_data_page m2 m3); [apply Hs2| |]).
    destruct (free_space m3 p Hs3 Hd3) as [Hs4 Hv4]; [by apply (view_frame m2)|].
    intros [= <- <-]. split; [done|]. right. split; [done|]. split.
    + apply (same_view_trans _ m1), (same_view_trans _ m2), (same_view_trans _ m3); done.
    + cbn [m2 set_mem m_pmm] in Hcnt. lia.
Qed.

Lemma fill_page_spec m page prot r m' : space_ok m -> page_va page -> fill_page page prot m = (r, m') ->
  space_ok m' /\ ((r = 1 /\ filled m m' page prot) \/ (r = 0 /\ same_view m m' /\ pmm_free_count (m_pmm m) < 4)).
Proof.
  intros Hs Hva. unfold fill_page. cbv zeta. fold (lazy_flags prot). unfold st_bind at 1.
  destruct (map_zero_page page (lazy_flags prot) m) as [p m1] eqn:Em. destruct (map_zero_spec m page prot p m1 Hs Hva Em) as [Hs1 [[Hp Hf]|(-> & Hv & Hc)]].
  - rewrite (proj2 (Z.eqb_neq p 0)) by done. destruct (flush_space m1 Hs1) as [Hs2 Hv2]. unfold st_bind. unfold exec in Hs2, Hv2.
    destruct (vmm_user_flush_tlb m1) as [u m2]. intros [= <- <-]. split; [done|]. left. split; [done|]. by apply (view_filled _ m1).
  - intros [= <- <-]. split; [done|]. by right.
Qed.
End View.
