(* ===== verification/LazyThms.v ===== *)
(** * Properties of areas that are mapped on first use *)

From S2P Require Import Prelude Words Pmm PmmFacts PmmInit PmmThms PageAlloc.
From S2P Require Import Vmm VmmFacts VmmMap VmmSpace VmmThms CStr Vfs Kernel Tty Fd Sched UserCopy UserMem UserMemThms.
From S2P Require Import LazyMmap LazyFacts.
Local Open Scope Z_scope.
Local Open Scope st_scope.

(** The protection of [a] after an operation on the addresses from [start] to [end_]. *)
Definition new_protection (start end_ : Z) (operation : lazy_op) (prot : Z) (old : option Z) (a : Z) : option Z :=
  if (start <=? a) && (a <? end_) then
    match operation with
    | LAZY_MMAP_REMOVE => None
    | LAZY_MMAP_SET_PROT => option_map (fun _ => prot) old
    | LAZY_MMAP_REPLACE => Some prot
    end
  else old.

Section Transform.
Variables (start end_ : Z) (operation : lazy_op) (prot : Z) (t : task_t).
Local Abbreviation ps := (all_pieces start end_ operation prot (t_lazy_mmaps t)).

(** task_lazy_mmap_transform as a function of the pieces. *)
Lemma transform_eq : task_lazy_mmap_transform start end_ operation prot t =
  if end_ <=? start then (-22, t)
  else if MAX_LAZY_USER_MMAPS <? Z.of_nat (length ps) then (-12, t)
  else (0, t <| t_lazy_mmaps := store_areas ps |>).
Proof.
  unfold task_lazy_mmap_transform. destruct (Z.leb_spec end_ start); [done|]. rewrite transform_fold by (done || lia).
  assert (E : match put_all (flat_map (pieces start end_ operation prot) (t_lazy_mmaps t)) [] with
              | Some out => if bool_decide (operation = LAZY_MMAP_REPLACE) then put_area (LazyMmap start end_ prot true) out else Some out
              | None => None end = put_all ps []).
  { unfold all_pieces. rewrite put_all_app. destruct (put_all (flat_map _ _) []) as [o|] eqn:Eo; [|done]. apply put_all_bound in Eo. by apply put_opt. }
  rewrite E. unfold put_all. cbn [app]. by destruct (MAX_LAZY_USER_MMAPS <? _).
Qed.

Lemma pieces_ok : start < end_ -> areas_ok (t_lazy_mmaps t) -> Z.of_nat (length ps) <= MAX_LAZY_USER_MMAPS -> areas_ok (store_areas ps).
Proof.
  intros Hse [Hl Hf Hd] Hb. split; [apply store_areas_length | |].
  - rewrite store_areas_eq by done. apply Forall_app. split; [|by apply Forall_replicate].
    unfold all_pieces. apply Forall_app. split.
    + clear - Hse. induction (t_lazy_mmaps t) as [|m l IH]; [constructor|]. cbn [flat_map]. apply Forall_app. split; [by apply pieces_full | done].
    + destruct (bool_decide _); by repeat constructor.
  - intros a. rewrite cover_store, cover_all_pieces by done. unfold covered. specialize (Hd a).
    destruct (_ && _); [|done]. destruct operation; cbn; [lia | by rewrite length_map | lia].
Qed.
End Transform.

(** C14.  task_lazy_mmap_transform splits and joins areas as the map from
    addresses to protections prescribes: inside the range the protection
    becomes that of the operation, outside every address keeps its own.  It
    fails only on an empty range (-22) or when the areas that remain do not
    fit in the table (-12), and then changes nothing.  No areas overlap or are
    empty afterwards when none did before. *)
Theorem task_lazy_mmap_transform_correct start end_ operation prot t :
  let '(r, t') := task_lazy_mmap_transform start end_ operation prot t in
  (areas_ok (t_lazy_mmaps t) -> areas_ok (t_lazy_mmaps t')) /\
  if end_ <=? start then r = -22 /\ t' = t
  else if MAX_LAZY_USER_MMAPS <? Z.of_nat (length (all_pieces start end_ operation prot (t_lazy_mmaps t))) then r = -12 /\ t' = t
  else r = 0 /\ t' = t <| t_lazy_mmaps := t_lazy_mmaps t' |> /\
    forall a, task_lazy_mmap_protection t' a = new_protection start end_ operation prot (task_lazy_mmap_protection t a) a.
Proof.
  rewrite transform_eq. destruct (Z.leb_spec end_ start); [done|].
  destruct (Z.ltb_spec MAX_LAZY_USER_MMAPS (Z.of_nat (length (all_pieces start end_ operation prot (t_lazy_mmaps t))))); [done|].
  split; [intros Ho; by apply pieces_ok|]. split; [done|]. split; [done|]. intros a. rewrite !protection_cover.
  cbn [t_lazy_mmaps]. change (t_lazy_mmaps (t <| t_lazy_mmaps := ?l |>)) with l. rewrite cover_store, cover_all_pieces by done.
  unfold covered, new_protection. destruct (_ && _); [|done]. destruct operation; [done | by destruct (cover _ a) | done].
Qed.

(** task_lazy_mmap_range_covered ends, and holds exactly when the range
    is not empty and each of its addresses lies in an area. *)
Theorem task_lazy_mmap_range_covered_iff t start end_ :
  task_lazy_mmap_range_covered t start end_ = true <->
  start < end_ /\ forall a, start <= a < end_ -> task_lazy_mmap_protection t a <> None.
Proof.
  assert (Hp : forall a, task_lazy_mmap_protection t a <> None <-> cover (t_lazy_mmaps t) a <> [])
    by (intros a; rewrite protection_cover; by destruct (cover _ a)).
  unfold task_lazy_mmap_range_covered. destruct (Z.leb_spec end_ start); [split; [done | lia]|].
  rewrite cover_loop_spec by (unfold ahead; apply List.filter_length_le). setoid_rewrite Hp. by split; [|intros [_ H1]].
Qed.

(** ** Threads of one address space *)

(** Tasks that run in the same address space agree on its areas. *)
Definition threads_agree (k : kernel) : Prop := forall i j, task_ok i = true -> task_ok j = true ->
  t_used (task k i) = true -> t_used (task k j) = true ->
  Z.land (t_ctx (task k i) CR3) PAGE_MASK = Z.land (t_ctx (task k j) CR3) PAGE_MASK ->
  Z.land (t_ctx (task k i) CR3) PAGE_MASK <> 0 -> t_lazy_mmaps (task k i) = t_lazy_mmaps (task k j).

(** The tasks whose areas are the ones of [ti]. *)
Definition shares (k : kernel) (ti i : Z) : bool :=
  t_used (task k i) && ((i =? ti) ||
    (negb (Z.land (t_ctx (task k ti) CR3) PAGE_MASK =? 0) && (Z.land (t_ctx (task k i) CR3) PAGE_MASK =? Z.land (t_ctx (task k ti) CR3) PAGE_MASK))).

Lemma transform_fields start end_ operation prot t :
  snd (task_lazy_mmap_transform start end_ operation prot t) =
    t <| t_lazy_mmaps := t_lazy_mmaps (snd (task_lazy_mmap_transform start end_ operation prot t)) |>.
Proof. rewrite transform_eq. destruct (end_ <=? start); [by destruct t|]. destruct (_ <? _); by destruct t. Qed.

Lemma transform_areas start end_ operation prot t u : t_lazy_mmaps t = t_lazy_mmaps u ->
  fst (task_lazy_mmap_transform start end_ operation prot t) = fst (task_lazy_mmap_transform start end_ operation prot u) /\
  t_lazy_mmaps (snd (task_lazy_mmap_transform start end_ operation prot t)) = t_lazy_mmaps (snd (task_lazy_mmap_transform start end_ operation prot u)).
Proof. intros E. rewrite !transform_eq, E. destruct (end_ <=? start); [done|]. by destruct (_ <? _). Qed.

Lemma transform_fails start end_ operation prot t :
  (fst (task_lazy_mmap_transform start end_ operation prot t) <? 0) = negb (fst (task_lazy_mmap_transform start end_ operation prot t) =? 0) /\
  (fst (task_lazy_mmap_transform start end_ operation prot t) <> 0 -> snd (task_lazy_mmap_transform start end_ operation prot t) = t).
Proof. rewrite transform_eq. destruct (end_ <=? start); [by split|]. destruct (MAX_LAZY_USER_MMAPS <? _); cbn [fst snd]; (split; [reflexivity|]); [reflexivity | intros H; by destruct H]. Qed.

Section Shared.
Variables (ti start end_ : Z) (operation : lazy_op) (prot : Z) (k0 : kernel).
Local Abbreviation tr := (task_lazy_mmap_transform start end_ operation prot).
Local Abbreviation cr3 := (Z.land (t_ctx (task k0 ti) CR3) PAGE_MASK).

Lemma transform_tasks_spec todo : forall k r k', NoDup todo ->
  (forall i, i ∈ todo -> task k i = task k0 i) ->
  (forall i, i ∈ todo -> shares k0 ti i = true -> t_lazy_mmaps (task k0 i) = t_lazy_mmaps (task k0 ti)) ->
  transform_tasks ti cr3 start end_ operation prot todo k = (r, k') ->
  r = (if existsb (shares k0 ti) todo then fst (tr (task k0 ti)) else 0) /\
  forall i, task k' i = if bool_decide (i ∈ todo) && shares k0 ti i then snd (tr (task k0 i)) else task k i.
Proof.
  induction todo as [|j todo IH]; intros k r k' Hnd Hk Ha.
  { intros [= <- <-]. split; [done|]. intros i. by rewrite bool_decide_eq_false_2 by apply not_elem_of_nil. }
  apply NoDup_cons in Hnd as [Hj Hnd]. cbn [transform_tasks]. unfold st_bind at 1, st_get. rewrite (Hk j) by (by left).
  assert (Hsk : forall k1, (forall i, task k1 i = task k i) -> shares k0 ti j = false ->
    transform_tasks ti cr3 start end_ operation prot todo k1 = (r, k') ->
    r = (if existsb (shares k0 ti) (j :: todo) then fst (tr (task k0 ti)) else 0) /\
    forall i, task k' i = if bool_decide (i ∈ j :: todo) && shares k0 ti i then snd (tr (task k0 i)) else task k i).
  { intros k1 E1 Hs E. destruct (IH k1 r k' Hnd) as [Er Et]; [intros i Hi; rewrite E1; apply Hk; by right | intros i Hi; apply Ha; by right | done|].
    cbn [existsb]. rewrite Hs. split; [done|]. intros i. rewrite Et, E1. destruct (Z.eq_dec i j) as [->|Hne].
    - by rewrite Hs, !andb_false_r.
    - by rewrite (bool_decide_ext (i ∈ j :: todo) (i ∈ todo)) by (rewrite elem_of_cons; naive_solver). }
  destruct (t_used (task k0 j)) eqn:Hu; cbn [negb]; [|apply Hsk; [done | unfold shares; by rewrite Hu]].
  destruct (negb (j =? ti) && ((cr3 =? 0) || negb (Z.land (t_ctx (task k0 j) CR3) PAGE_MASK =? cr3))) eqn:Hsel.
  { apply Hsk; [done|]. unfold shares. rewrite Hu. destruct (j =? ti), (cr3 =? 0), (Z.land (t_ctx (task k0 j) CR3) PAGE_MASK =? cr3); done. }
  assert (Hs : shares k0 ti j = true).
  { unfold shares. rewrite Hu. destruct (j =? ti), (cr3 =? 0), (Z.land (t_ctx (task k0 j) CR3) PAGE_MASK =? cr3); done. }
  destruct (transform_areas start end_ operation prot _ _ (Ha j ltac:(by left) Hs)) as [Er Ea].
  destruct (transform_fails start end_ operation prot (task k0 j)) as [Hf Hn]. revert Er Ea Hf Hn.
  destruct (tr (task k0 j)) as [rc t] eqn:Etr. cbn [fst snd]. intros Er Ea Hf Hn.
  unfold st_bind, st_mod. cbn [existsb]. rewrite Hs, Hf. cbn [orb].
  assert (Hset : forall i, task (set_task j t k) i = if i =? j then t else task k i)
    by (intros i; unfold task, set_task; rewrite Z.eqb_sym; apply cell_insert).
  assert (Helem : forall i, i <> j -> bool_decide (i ∈ j :: todo) = bool_decide (i ∈ todo))
    by (intros i Hne; apply bool_decide_ext; rewrite elem_of_cons; naive_solver).
  destruct (Z.eqb_spec rc 0) as [E0|E0]; cbn [negb].
  - intros E. destruct (IH (set_task j t k) r k' Hnd) as [Er' Et]; [|intros i Hi; apply Ha; by right | done|].
    { intros i Hi. rewrite Hset. destruct (Z.eqb_spec i j) as [->|_]; [done | apply Hk; by right]. }
    split.
    + rewrite Er'. destruct (existsb _ todo); lia.
    + intros i. rewrite Et, Hset. destruct (Z.eqb_spec i j) as [->|Hne].
      * rewrite bool_decide_eq_false_2, bool_decide_eq_true_2, Hs, Etr by (by try left). done.
      * by rewrite Helem.
  - intros [= <- <-]. split; [done|]. intros i. rewrite Hset. specialize (Hn E0). destruct (Z.eqb_spec i j) as [->|Hne].
    + rewrite bool_decide_eq_true_2, Hs, Etr by (by left). done.
    + destruct (bool_decide_reflect (i ∈ j :: todo)) as [Hi|]; [|done]. destruct (shares k0 ti i) eqn:Hsi; [|done]. cbn [andb].
      destruct (transform_areas start end_ operation prot _ _ (Ha i Hi Hsi)) as [Eri _].
      rewrite (proj2 (transform_fails start end_ operation prot (task k0 i))) by congruence. by apply Hk.
Qed.
End Shared.

Lemma all_tasks_ok i : i ∈ all_tasks <-> task_ok i = true.
Proof. unfold all_tasks. rewrite elem_of_seqZ. unfold task_ok, MAX_TASKS. lia. Qed.

Lemma all_tasks_nodup : NoDup all_tasks.
Proof. apply NoDup_seqZ. Qed.

Lemma shared_eq ti start end_ operation prot k : task_lazy_mmap_transform_shared ti start end_ operation prot k =
  transform_tasks ti (Z.land (t_ctx (task k ti) CR3) PAGE_MASK) start end_ operation prot all_tasks k.
Proof. reflexivity. Qed.

(** The result, and the tasks afterwards. *)
Lemma shared_spec ti start end_ operation prot k r k' : threads_agree k -> task_ok ti = true -> t_used (task k ti) = true ->
  task_lazy_mmap_transform_shared ti start end_ operation prot k = (r, k') ->
  r = fst (task_lazy_mmap_transform start end_ operation prot (task k ti)) /\
  forall i, task_ok i = true -> task k' i =
    if shares k ti i then snd (task_lazy_mmap_transform start end_ operation prot (task k i)) else task k i.
Proof.
  intros Hag Hti Hu He. rewrite shared_eq in He. pose proof all_tasks_ok as Hall. pose proof all_tasks_nodup as Hnd. revert Hall Hnd He. generalize all_tasks. intros all Hall Hnd He.
  assert (Hsame : forall i, i ∈ all -> shares k ti i = true -> t_lazy_mmaps (task k i) = t_lazy_mmaps (task k ti)).
  { intros i Hi%Hall Hs. unfold shares in Hs. apply andb_prop in Hs as [Hui [->%Z.eqb_eq|[Hz%negb_true_iff%Z.eqb_neq Hc%Z.eqb_eq]%andb_prop]%orb_prop]; [done|].
    apply Hag; (done || congruence). }
  assert (Hst : shares k ti ti = true) by (unfold shares; by rewrite Hu, Z.eqb_refl).
  destruct (transform_tasks_spec ti start end_ operation prot k all k r k') as [Er Et];
    [exact Hnd | done | exact Hsame | exact He |].
  split.
  - rewrite Er. assert (Hx : existsb (shares k ti) all = true); [|by rewrite Hx].
    apply existsb_exists. exists ti. split; [apply list_elem_of_In; by apply Hall | done].
  - intros i Hi. rewrite Et, bool_decide_eq_true_2 by (by apply Hall). done.
Qed.

(** task_lazy_mmap_transform_shared treats the threads of an address
    space alike: when they agree on its areas before, the operation takes
    effect on all of them or, when it fails, on none, on no other task, and
    they still agree. *)
Theorem lazy_mmaps_shared ti start end_ operation prot k r k' : threads_agree k -> task_ok ti = true -> t_used (task k ti) = true ->
  task_lazy_mmap_transform_shared ti start end_ operation prot k = (r, k') ->
  threads_agree k' /\
  r = fst (task_lazy_mmap_transform start end_ operation prot (task k ti)) /\
  forall i, task_ok i = true -> task k' i =
    if shares k ti i then snd (task_lazy_mmap_transform start end_ operation prot (task k i)) else task k i.
Proof.
  intros Hag Hti Hu He. destruct (shared_spec ti start end_ operation prot k r k' Hag Hti Hu He) as [Er Ht]. split; [|split; [exact Er | exact Ht]]. clear Er He.
  assert (Hf : forall i, task_ok i = true -> t_used (task k' i) = t_used (task k i) /\ t_ctx (task k' i) = t_ctx (task k i)).
  { intros i Hi. rewrite Ht by done. destruct (shares k ti i); [by rewrite transform_fields | done]. }
  intros i j Hi Hj. destruct (Hf i Hi) as [-> ->], (Hf j Hj) as [-> ->]. intros Hui Huj Hc Hz.
  rewrite !Ht by done. assert (Es : shares k ti i = shares k ti j).
  { unfold shares. rewrite Hui, Huj, Hc. cbn [andb]. destruct (Z.eqb_spec i ti) as [->|], (Z.eqb_spec j ti) as [->|]; cbn [orb]; try done.
    - rewrite Hc, Z.eqb_refl, (proj2 (Z.eqb_neq _ 0)) by congruence. done.
    - rewrite <- Hc, Z.eqb_refl, (proj2 (Z.eqb_neq _ 0)) by congruence. done. }
  rewrite Es. destruct (shares k ti j); [apply transform_areas|]; by apply Hag.
Qed.

(** ** Page faults *)

Section Fault.
Context {HB : HhdmBase} {inv : pmm -> Prop} {held : pmm -> Z -> Prop} `{PA : !PageAllocator inv held}.
Local Abbreviation space_ok := (space_ok (inv := inv) (held := held)).

Lemma activate_root m : space_ok m -> vmm_user_activate (m_user_pml4 m) m = (0, m).
Proof.
  intros Hs. pose proof (so_user _ Hs) as Ho. unfold vmm_user_activate. rewrite page_root by done. unfold st_bind, st_get.
  rewrite (space_root m) by done. rewrite user_root by done. unfold st_mod, st_ret, set_user. rewrite <- (uo_valid _ Ho). by destruct m.
Qed.

Lemma translate_root m va : space_ok m -> page_va va ->
  is_some (vmm_user_translate_cr3 m (m_user_pml4 m) va) = has (upte m va) PTE_P.
Proof.
  intros Hs [Hv Ha]. pose proof (so_user _ Hs) as Ho. unfold vmm_user_translate_cr3, vmm_cr3_translate_direct. rewrite page_root by done.
  rewrite (space_root m) by done.
  destruct (table_page_facts m (m_user_pml4 m) [] (m_user_pml4 m) (uo_inv _ Ho) (uo_tree _ Ho) upath_nil eq_refl) as [Hp Hr].
  rewrite has_low12, Hp, (proj2 (canonical_user_iff _)) by apply Hv. cbn [negb Z.eqb orb]. rewrite user_root by done.
  rewrite translate_from_eq by apply Ho. cbn zeta. fold (upte m va). by destruct (has (upte m va) PTE_P).
Qed.

(** The access of a fault (bit 1 of the error code: write, bit 4: instruction
    fetch) is one the protection allows: PROT_READ is bit 0, PROT_WRITE 1,
    PROT_EXEC 2; write permission includes reading. *)
Definition access_allowed (error_code prot : Z) : Prop :=
  let write := Z.testbit error_code 1 = true in
  let fetch := Z.testbit error_code 4 = true in
  prot <> 0 /\ (write -> Z.testbit prot 1 = true) /\ (fetch -> Z.testbit prot 2 = true) /\
  (~ write -> ~ fetch -> Z.testbit prot 0 = true \/ Z.testbit prot 1 = true).

Lemma has_or x a b : has x (Z.lor a b) = has x a || has x b.
Proof.
  unfold has. rewrite Z.land_lor_distr_r. destruct (Z.eqb_spec (Z.land x a) 0) as [E|E]; [by rewrite E, Z.lor_0_l|]. cbn [negb orb].
  apply negb_true_iff, Z.eqb_neq. intros [H _]%Z.lor_eq_0_iff. done.
Qed.

Lemma fault_allowed_iff error_code prot : fault_allowed error_code prot = true <-> access_allowed error_code prot.
Proof.
  unfold fault_allowed, access_allowed. rewrite !has_or.
  pose proof (fun x => has_pow2 x 0 ltac:(lia)) as H0. pose proof (fun x => has_pow2 x 1 ltac:(lia)) as H1.
  pose proof (fun x => has_pow2 x 2 ltac:(lia)) as H2. pose proof (fun x => has_pow2 x 4 ltac:(lia)) as H4.
  change (2 ^ 0) with 0x1 in H0. change (2 ^ 1) with 0x2 in H1. change (2 ^ 2) with 0x4 in H2. change (2 ^ 4) with 0x10 in H4.
  rewrite !H0, !H1, !H2, !H4.
  destruct (Z.eqb_spec prot 0), (Z.testbit error_code 1), (Z.testbit error_code 4), (Z.testbit prot 0), (Z.testbit prot 1), (Z.testbit prot 2);
    cbn; intuition congruence.
Qed.

(** C15.  task_lazy_page_fault fills a page on its first use and only then:
    when the address lies in an area whose protection allows the access and
    nothing is mapped there, the process gets a page of zeroes with the
    rights of the area, and every other page stays; it fails only when fewer
    than four frames are free.  In all other cases the process sees no change
    and the fault is not handled. *)
Theorem task_lazy_page_fault_correct addr error_code k r k' : let m := k_vm k in let t := task k (k_current k) in
  space_ok m -> task_ok (k_current k) = true -> t_used t = true -> Z.land (t_ctx t CR3) PAGE_MASK = m_user_pml4 m -> user_va addr ->
  task_lazy_page_fault (m_user_pml4 m) addr error_code k = (r, k') ->
  k' = k <| k_vm := k_vm k' |> /\ space_ok (k_vm k') /\
  match task_lazy_mmap_protection t addr with
  | Some prot =>
      (access_allowed error_code prot -> has (upte m addr) PTE_P = false ->
        (r = 1 /\ filled m (k_vm k') (Z.land addr PAGE_MASK) prot) \/
        (r = 0 /\ same_view m (k_vm k') /\ pmm_free_count (m_pmm m) < 4)) /\
      (~ access_allowed error_code prot \/ has (upte m addr) PTE_P = true -> r = 0 /\ same_view m (k_vm k'))
  | None => r = 0 /\ same_view m (k_vm k')
  end.
Proof.
  intros m t Hs Hc Hu Hcr Hv. pose proof (so_user _ Hs) as Ho. unfold task_lazy_page_fault, st_bind at 1, st_get at 1. fold m t. rewrite Hc, Hu, Hcr, page_root, Z.eqb_refl by done. cbn [negb orb].
  assert (Hn : (t_ctx t CR3 =? 0) = false).
  { apply Z.eqb_neq. intros E. rewrite E, Z.land_0_l in Hcr. pose proof (space_root m Hs) as Hr. by rewrite <- Hcr in Hr. }
  rewrite Hn. cbn [orb]. unfold st_bind at 1, on_vm at 1. fold m. rewrite activate_root by done. cbn [negb Z.eqb].
  assert (Ek : k <| k_vm := m |> = k) by (by destruct k). rewrite Ek.
  assert (Hid : (0, k) = (r, k') -> k' = k <| k_vm := k_vm k' |> /\ space_ok (k_vm k') /\ r = 0 /\ same_view m (k_vm k'))
    by (intros [= <- <-]; split; [done | split; [exact Hs | split; [done | apply same_view_refl]]]).
  destruct (task_lazy_mmap_protection t addr) as [prot|]; [|exact Hid].
  rewrite <- fault_allowed_iff. destruct (fault_allowed error_code prot); cbn [negb];
    [|intros E; destruct (Hid E) as (? & ? & ?); split_and!; [done.. | intros [=] | done]].
  destruct (page_mask_user addr Hv) as (Hv' & Ha & Hd). unfold st_bind, st_get. fold m.
  pose proof (translate_root m (Z.land addr PAGE_MASK) Hs (conj Hv' Ha)) as Htr. rewrite (upte_page m _ addr) in Htr by done. rewrite <- Htr.
  destruct (vmm_user_translate_cr3 m (m_user_pml4 m) (Z.land addr PAGE_MASK)); cbn [is_some];
    [intros E; destruct (Hid E) as (? & ? & ?); by split_and!|].
  unfold on_vm. fold m. destruct (fill_page (Z.land addr PAGE_MASK) prot m) as [rf m'] eqn:Ef. intros [= <- <-].
  destruct (fill_page_spec m (Z.land addr PAGE_MASK) prot rf m' Hs (conj Hv' Ha) Ef) as [Hs' Hr]. split; [done|]. split; [exact Hs'|].
  split; [done | by intros [H|H]].
Qed.
End Fault.

(** ** Examples *)

#[local] Existing Instance demo_hhdm.
Definition demo_areas : list lazy_user_mmap_t := store_areas [LazyMmap 0x401000 0x405000 3 true].
Definition demo_thread : task_t :=
  blank_task_t <| t_used := true |> <| t_lazy_mmaps := demo_areas |> <| t_ctx := set_reg blank_regs CR3 (m_user_pml4 demo_mapped) |>.
Definition lazy_kernel : kernel := set_task 1 demo_thread (set_task 0 demo_thread (blank_kernel <| k_vm := demo_mapped |>)).

Lemma lazy_task i : task lazy_kernel i = if 1 =? i then demo_thread else if 0 =? i then demo_thread else blank_task_t.
Proof. unfold task, lazy_kernel, set_task. cbn [upd_field k_tasks]. rewrite !cell_insert. done. Qed.

Lemma lazy_agree : threads_agree lazy_kernel.
Proof.
  assert (H : forall i, t_used (task lazy_kernel i) = true -> t_lazy_mmaps (task lazy_kernel i) = demo_areas)
    by (intros i; rewrite lazy_task; destruct (1 =? i); [done|]; by destruct (0 =? i)).
  intros i j _ _ Hi Hj _ _. by rewrite !H.
Qed.

(** Unmapping the second page of the area, in both threads. *)
Definition lazy_cut : kernel := snd (task_lazy_mmap_transform_shared 0 0x402000 0x403000 LAZY_MMAP_REMOVE 0 lazy_kernel).

Lemma lazy_cut_ok : fst (task_lazy_mmap_transform_shared 0 0x402000 0x403000 LAZY_MMAP_REMOVE 0 lazy_kernel) = 0.
Proof. vm_compute. reflexivity. Qed.

Lemma lazy_mmaps_shared_witness : threads_agree lazy_cut.
Proof.
  refine (proj1 (lazy_mmaps_shared 0 0x402000 0x403000 LAZY_MMAP_REMOVE 0 lazy_kernel 0 lazy_cut lazy_agree eq_refl _ (run_eq _ _ lazy_cut_ok))).
  by rewrite lazy_task.
Defined.

Definition lazy_filled : kernel := snd (task_lazy_page_fault (m_user_pml4 (k_vm lazy_kernel)) 0x401010 2 lazy_kernel).

Lemma lazy_filled_ok : fst (task_lazy_page_fault (m_user_pml4 (k_vm lazy_kernel)) 0x401010 2 lazy_kernel) = 1.
Proof. vm_compute. reflexivity. Qed.

Lemma lazy_root : Z.land (t_ctx (task lazy_kernel (k_current lazy_kernel)) CR3) PAGE_MASK = m_user_pml4 (k_vm lazy_kernel).
Proof. vm_compute. reflexivity. Qed.

Lemma lazy_protection : task_lazy_mmap_protection (task lazy_kernel (k_current lazy_kernel)) 0x401010 = Some 3.
Proof. vm_compute. reflexivity. Qed.

Lemma lazy_access : access_allowed 2 3.
Proof. by apply fault_allowed_iff. Qed.

Lemma lazy_unmapped : has (upte (k_vm lazy_kernel) 0x401010) PTE_P = false.
Proof. vm_compute. reflexivity. Qed.

Lemma task_lazy_page_fault_witness : filled (k_vm lazy_kernel) (k_vm lazy_filled) (Z.land 0x401010 PAGE_MASK) 3.
Proof.
  pose proof (task_lazy_page_fault_correct (inv := pmm_wf) (held := pool_held) 0x401010 2 lazy_kernel 1 lazy_filled
    (proj1 demo_mapped_space) eq_refl eq_refl lazy_root ltac:(unfold user_va, USER_TOP; lia) (run_eq _ _ lazy_filled_ok)) as (_ & _ & H).
  rewrite lazy_protection in H. destruct H as [H _].
  destruct (H lazy_access lazy_unmapped) as [[_ Hf]|[E _]]; [exact Hf | discriminate E].
Defined.
