(* ===== verification/Signals.v ===== *)
(** * Signals

    The signal calls, the delivery of a signal to a handler and the return
    from it, and the end of [syscall_dispatch] where signals are delivered
    ([src/kernel/main.c]).  The frame a system call works on, [f] in the
    source, is passed and returned. *)

From S2P Require Import Prelude Words Pmm Vmm CStr Vfs Kernel Tty Fd Sched UserCopy.
Local Open Scope Z_scope.
Local Open Scope st_scope.

Definition SIG_BLOCK : Z := 0.
Definition SIG_UNBLOCK : Z := 1.
Definition SIGKILL : Z := 9.
Definition USER_LIMIT : Z := 0x0000800000000000.

(** The bytes of a 64-bit word in memory, and the word of eight bytes. *)
Definition word_bytes (v : Z) : list Z := map (fun i => Z.land (Z.shiftr v (8 * i)) 0xFF) (seqZ 0 8).
Definition bytes_word (l : list Z) : Z := foldr (fun b w => b + 256 * w) 0 l.

(** A sigaction_t in memory: four words. *)
Definition sigaction_bytes (a : sigaction_t) : list Z :=
  word_bytes (sa_handler a) ++ word_bytes (sa_flags a) ++ word_bytes (sa_restorer a) ++ word_bytes (sa_mask a).
Definition bytes_sigaction (l : list Z) : sigaction_t :=
  SigAction (bytes_word (take 8 l)) (bytes_word (take 8 (drop 8 l))) (bytes_word (take 8 (drop 16 l))) (bytes_word (take 8 (drop 24 l))).

(** [if (ptr) { if (!user_range_ok(..)) return -EFAULT; if (user_copy_to(..)) return -EFAULT; }] *)
Definition copy_out (ptr : Z) (l : list Z) : ST kernel bool :=
  let! k := st_get in
  if ptr =? 0 then st_ret true
  else if negb (user_range_ok k ptr (Z.of_nat (length l)) true) then st_ret false
  else
    let! r := user_copy_to ptr l in
    st_ret (r =? 0).

(** The bytes read, [None] where the call returns -EFAULT. *)
Definition copy_in (k : kernel) (ptr len : Z) : option (list Z) :=
  if negb (user_range_ok k ptr len false) then None else user_copy_from k ptr len.

Definition sys_rt_sigaction (sig act oldact sz : Z) : ST kernel Z :=
  task_init_root ;;;
  if negb (sig_valid sig) || (sig =? 9) || negb (sz =? 8) then st_ret (- EINVAL)
  else
    let! k := st_get in
    let! ok := copy_out oldact (sigaction_bytes (sig_action (task k (k_current k)) sig)) in
    if negb ok then st_ret (- EFAULT)
    else if act =? 0 then st_ret 0
    else
      let! k := st_get in
      match copy_in k act 32 with
      | None => st_ret (- EFAULT)
      | Some l =>
          st_mod (upd_task (k_current k) (fun t => t <| t_sig_actions := <[sig := bytes_sigaction l]> (t_sig_actions t) |>)) ;;;
          st_ret 0
      end.

(** The mask of blocked signals after [how] with the set [w]. *)
Definition new_mask (how old w : Z) : Z :=
  if how =? SIG_BLOCK then Z.lor old w
  else if how =? SIG_UNBLOCK then Z.land old (not64 w)
  else w.

Definition sys_rt_sigprocmask (how set oldset sz : Z) : ST kernel Z :=
  task_init_root ;;;
  if negb (sz =? 8) || (how <? 0) || (2 <? how) then st_ret (- EINVAL)
  else
    let! k := st_get in
    let! ok := copy_out oldset (word_bytes (arr (t_sig_blocked (task k (k_current k))) 0)) in
    if negb ok then st_ret (- EFAULT)
    else if set =? 0 then st_ret 0
    else
      let! k := st_get in
      match copy_in k set 8 with
      | None => st_ret (- EFAULT)
      | Some l =>
          st_mod (upd_task (k_current k) (fun t =>
            t <| t_sig_blocked := <[0 := new_mask how (arr (t_sig_blocked t) 0) (bytes_word l)]> (t_sig_blocked t) |>)) ;;;
          st_ret 0
      end.

Definition sys_rt_sigpending (set sz : Z) : ST kernel Z :=
  task_init_root ;;;
  let! k := st_get in
  if (set =? 0) || negb (sz =? 8) || negb (user_range_ok k set 8 true) then st_ret (- EFAULT)
  else
    let! r := user_copy_to set (word_bytes (arr (t_sig_pending (task k (k_current k))) 0)) in
    st_ret (if negb (r =? 0) then - EFAULT else 0).

(** There is no alternate stack: the call reports an empty one. *)
Definition sys_sigaltstack (ss old : Z) : ST kernel Z :=
  let! k := st_get in
  if negb (ss =? 0) && negb (user_range_ok k ss 24 false) then st_ret (- EFAULT)
  else
    let! ok := copy_out old (replicate 24 0) in
    st_ret (if ok then 0 else - EFAULT).

Definition sys_madvise (addr len advice : Z) : Z := 0.

(** Queueing [sig] for the first task that [who] selects. *)
Definition signal_first (who : task_t -> bool) (sig : Z) : ST kernel Z :=
  if negb (sig_valid sig) && negb (sig =? 0) then st_ret (- EINVAL)
  else
    let! k := st_get in
    match find (fun i => t_used (task k i) && who (task k i)) all_tasks with
    | None => st_ret (- ESRCH)
    | Some i =>
        if sig =? 0 then st_ret 0
        else
          let '(r, t) := sig_pending_set sig (task k i) in
          st_mod (set_task i t) ;;; st_ret r
    end.

Definition kill_target (k : kernel) (pid : Z) (t : task_t) : bool :=
  ((0 <? pid) && ((t_pid t =? pid) || (t_tgid t =? pid))) || ((pid =? 0) && (t_tgid t =? t_tgid (task k (k_current k)))).

Definition sys_kill (pid sig : Z) : ST kernel Z :=
  task_init_root ;;;
  let! k := st_get in
  signal_first (kill_target k pid) sig.

Definition sys_tgkill (tgid tid sig : Z) : ST kernel Z :=
  task_init_root ;;;
  signal_first (fun t => (t_tgid t =? tgid) && (t_pid t =? tid)) sig.

(** ** Delivery *)

(** The frame in which the handler of [sig] starts. *)
Definition handler_frame (f : regs) (sig handler : Z) : regs :=
  set_reg (set_reg (set_reg (set_reg f RSP (f RSP - 8)) RIP handler) RDI sig) RAX 0.

Definition deliver_pending_signal_to_task (ti : Z) (f : regs) : ST kernel regs :=
  let! k := st_get in
  let t := task k ti in
  if t_sig_active t then st_ret f
  else
    let sig := sig_next_deliverable t in
    if sig =? 0 then st_ret f
    else
      let h := sa_handler (sig_action t sig) in
      if h =? SIG_IGN then st_mod (upd_task ti (sig_clear_pending sig)) ;;; st_ret f
      else if (h =? SIG_DFL) && ((sig =? SIGCHLD) || (sig =? SIGWINCH)) then st_mod (upd_task ti (sig_clear_pending sig)) ;;; st_ret f
      else if (h =? SIG_DFL) || (USER_LIMIT <=? h) then
        (if negb (sig =? SIGINT) then st_mod (upd_task ti (sig_clear_pending sig)) else st_ret tt) ;;;
        st_mod (upd_task ti (fun t => t <| t_exit_status := 128 + sig |> <| t_state := TASK_ZOMBIE |>)) ;;;
        st_ret f
      else
        let rest := sa_restorer (sig_action t sig) in
        if rest =? 0 then st_ret f
        else
          let rsp := f RSP in
          if (rsp <? 8) || negb (user_range_ok k (rsp - 8) 8 true) then st_ret f
          else
            st_mod (upd_task ti (fun t => t <| t_sig_saved_frame := f |> <| t_sig_saved_valid := true |> <| t_sig_active := true |>)) ;;;
            let! r := user_copy_to (rsp - 8) (word_bytes rest) in
            if negb (r =? 0) then
              st_mod (upd_task ti (fun t => t <| t_sig_saved_valid := false |> <| t_sig_active := false |>)) ;;; st_ret f
            else
              st_mod (upd_task ti (sig_clear_pending sig)) ;;;
              st_ret (handler_frame f sig h).

Definition deliver_pending_signal (f : regs) : ST kernel regs :=
  let! k := st_get in
  deliver_pending_signal_to_task (k_current k) f.

(** The result and the frame. *)
Definition sys_rt_sigreturn (f : regs) : ST kernel (Z * regs) :=
  task_init_root ;;;
  let! k := st_get in
  let t := task k (k_current k) in
  if negb (t_sig_active t) || negb (t_sig_saved_valid t) then st_ret (- EINVAL, f)
  else
    st_mod (upd_task (k_current k) (fun t => t <| t_sig_saved_valid := false |> <| t_sig_active := false |>)) ;;;
    st_ret (0, t_sig_saved_frame t).

(** ** The end of syscall_dispatch

    The frame the processor returns to user mode with; [nr] is the number of
    the call and [ret] its result. *)
Definition syscall_finish (nr ret : Z) (f : regs) : ST kernel regs :=
  let f := set_reg f RAX (u64 ret) in
  let! k := st_get in
  let! f :=
    (if k_user_exec_pending k then st_ret f
     else
       let! f := (if negb (nr =? 15) then deliver_pending_signal f else st_ret f) in
       st_mod (fun k => k <| k_syscall_user_rip := f RIP |> <| k_syscall_user_rsp := f RSP |>
                          <| k_syscall_user_rflags := f RFLAGS |> <| k_syscall_user_cr3 := f CR3 |>) ;;;
       st_ret f) in
  st_mod (fun k => k <| k_syscall_saved_rax := f RAX |>) ;;;
  st_ret f.

(** The call 15 of the dispatcher. *)
Definition sigreturn_dispatch (f : regs) : ST kernel regs :=
  let! r := sys_rt_sigreturn f in
  let '(ret, f) := r in
  syscall_finish 15 ret f.
