(* ===== verification/SignalFacts.v ===== *)
(** * Facts about signal sets, delivery and memory words *)

From S2P Require Import Prelude Words Pmm PmmFacts PmmInit PmmThms PageAlloc.
From S2P Require Import Vmm VmmFacts VmmMap VmmSpace VmmThms CStr Vfs Kernel Tty Fd Sched SchedFacts UserCopy UserMem UserMemThms.
From S2P Require Import Signals.
Local Open Scope Z_scope.
Local Open Scope st_scope.

Definition is_byte (b : Z) : Prop := 0 <= b < 256.

(** ** Words in memory *)

Lemma word_bytes_length v : length (word_bytes v) = 8%nat.
Proof. done. Qed.

Lemma word_bytes_range v : Forall is_byte (word_bytes v).
Proof. unfold word_bytes. apply Forall_map, Forall_forall. intros i _. unfold is_byte. change 256 with (2 ^ 8). apply land_range; lia. Qed.

Lemma bytes_word_range l : Forall is_byte l -> 0 <= bytes_word l < 2 ^ (8 * Z.of_nat (length l)).
Proof.
  induction 1 as [|b l Hb _ IH]; [done|]. cbn [bytes_word foldr length]. fold (bytes_word l). unfold is_byte in Hb.
  replace (8 * Z.of_nat (S (length l))) with (8 + 8 * Z.of_nat (length l)) by lia. rewrite Z.pow_add_r by lia. change (2 ^ 8) with 256. nia.
Qed.

Lemma bytes_word_u64 l : Forall is_byte l -> (length l <= 8)%nat -> is_u64 (bytes_word l).
Proof.
  intros Hb Hl. pose proof (bytes_word_range l Hb) as H. unfold is_u64. split; [lia|].
  apply Z.lt_le_trans with (1 := proj2 H). apply Z.pow_le_mono_r; lia.
Qed.

Lemma copy_from_loop_bytes fuel m cr3 : forall src len l, 0 <= len -> copy_from_loop fuel m cr3 src len = Some l ->
  Forall is_byte l /\ Z.of_nat (length l) <= len.
Proof.
  induction fuel as [|fuel IH]; intros src len l Hl; cbn [copy_from_loop]; destruct (Z.eqb_spec len 0) as [->|Hn].
  1-3: by intros [= <-].
  destruct (user_page _ _ _) as [[phys e]|]; [|done]. destruct (pmm_phys_to_virt _ _); [|done].
  destruct (page_part_bounds src len ltac:(lia)) as [Hp _].
  destruct (copy_from_loop fuel m cr3 (u64 (src + page_part src len)) (len - page_part src len)) as [rest|] eqn:Er; [|done]. intros [= <-].
  destruct (IH _ (len - page_part src len) _ ltac:(lia) Er) as [Hb Hr]. unfold read_bytes. split.
  - apply Forall_app. split; [|done]. apply Forall_map, Forall_forall. intros i _. apply ld8_range.
  - rewrite length_app, length_map, length_seqZ. lia.
Qed.

Lemma copy_in_bytes k ptr len l : 0 <= len -> copy_in k ptr len = Some l -> Forall is_byte l /\ Z.of_nat (length l) <= len.
Proof.
  intros Hl. unfold copy_in, user_copy_from, user_copy_from_cr3. destruct (negb _); [done|]. destruct (_ =? 0); [done|]. by apply copy_from_loop_bytes.
Qed.

(** ** Signal sets *)

Definition signal_no (s : Z) : Prop := 1 <= s <= 64.

Lemma sig_valid_iff s : sig_valid s = true <-> signal_no s.
Proof. unfold sig_valid, signal_no. lia. Qed.

Lemma signal_bit s : signal_no s -> sig_word s = 0 /\ sig_bit s = 2 ^ (s - 1).
Proof.
  intros Hs. unfold signal_no in Hs. unfold sig_word, sig_bit. rewrite Z.shiftr_div_pow2 by lia. split; [apply Z.div_small; lia|].
  change 63 with (Z.ones 6). rewrite Z.land_ones, Z.mod_small, Z.shiftl_1_l by lia. done.
Qed.

Lemma pending_bit t s : signal_no s -> sig_is_pending t s = Z.testbit (arr (t_sig_pending t) 0) (s - 1).
Proof. intros Hs. unfold sig_is_pending. destruct (signal_bit s Hs) as [-> ->]. apply has_pow2. unfold signal_no in Hs. lia. Qed.

Lemma blocked_bit t s : signal_no s -> sig_is_blocked t s = Z.testbit (arr (t_sig_blocked t) 0) (s - 1).
Proof. intros Hs. unfold sig_is_blocked. destruct (signal_bit s Hs) as [-> ->]. apply has_pow2. unfold signal_no in Hs. lia. Qed.

Lemma sig_bit_u64 s : is_u64 (sig_bit s).
Proof.
  unfold sig_bit, is_u64. pose proof (land_63_range (s - 1)). rewrite Z.shiftl_1_l. split; [apply Z.pow_nonneg; lia | apply Z.pow_lt_mono_r; lia].
Qed.

(** A signal the task can get now. *)
Definition deliverable (t : task_t) (s : Z) : Prop := signal_no s /\ sig_is_pending t s = true /\ sig_is_blocked t s = false.

Lemma next_deliverable_spec t : let s := sig_next_deliverable t in
  (s = 0 /\ forall s', ~ deliverable t s') \/ (deliverable t s /\ forall s', s' < s -> ~ deliverable t s').
Proof.
  cbn zeta. unfold sig_next_deliverable. destruct (find _ _) as [s|] eqn:E; cbn.
  - right. apply find_seqZ in E as (Hr & [Hp Hb%negb_true_iff]%andb_prop & Hl). split; [split; [unfold signal_no; lia | done]|].
    intros s' Hlt (Hs & Hp' & Hb'). unfold signal_no in Hs. specialize (Hl s' ltac:(lia)). by rewrite Hp', Hb' in Hl.
  - left. split; [done|]. intros s' (Hs & Hp & Hb). unfold signal_no in Hs. pose proof (find_seqZ_none _ _ _ E s' ltac:(lia)) as H.
    cbn beta in H. by rewrite Hp, Hb in H.
Qed.

(** ** The state a task keeps for signals *)

(** Words are 64 bits wide and only the first of each set is used, actions
    are set for signals other than SIGKILL, and a handler runs exactly while
    the frame to return to is saved. *)
Record sig_ok (t : task_t) : Prop := {
  sg_pending : is_u64 (arr (t_sig_pending t) 0) /\ forall w, w <> 0 -> arr (t_sig_pending t) w = 0;
  sg_blocked : is_u64 (arr (t_sig_blocked t) 0) /\ forall w, w <> 0 -> arr (t_sig_blocked t) w = 0;
  sg_actions : forall s, is_u64 (sa_handler (sig_action t s)) /\ is_u64 (sa_restorer (sig_action t s));
  sg_default : forall s, ~ signal_no s \/ s = SIGKILL -> sig_action t s = blank_sigaction_t;
  sg_saved : t_sig_active t = t_sig_saved_valid t
}.

Definition sigs_of (t : task_t) := (t_sig_pending t, t_sig_blocked t, t_sig_actions t, t_sig_active t, t_sig_saved_valid t).

Lemma sig_ok_same t t' : sigs_of t' = sigs_of t -> sig_ok t -> sig_ok t'.
Proof.
  intros [= E1 E2 E3 E4 E5] [H1 H2 H3 H4 H5]. split; rewrite ?E1, ?E2, ?E4, ?E5; try done; unfold sig_action in *; by rewrite E3.
Qed.

Lemma sig_ok_set s t : sig_ok t -> sig_ok (snd (sig_pending_set s t)).
Proof.
  intros Ho. unfold sig_pending_set. destruct (sig_valid s) eqn:Hv; cbn [negb snd]; [|done]. apply sig_valid_iff in Hv.
  destruct Ho as [[H1 H1'] H2 H3 H4 H5]. destruct (signal_bit s Hv) as [Ew _]. rewrite Ew. split; try done. split.
  - change (t_sig_pending (t <| t_sig_pending := ?p |>)) with p. rewrite arr_insert, Z.eqb_refl. unfold is_u64 in *.
    apply lor_range; [lia | done | apply sig_bit_u64].
  - intros w Hw. change (t_sig_pending (t <| t_sig_pending := ?p |>)) with p. rewrite arr_insert, (proj2 (Z.eqb_neq 0 w)) by lia. by apply H1'.
Qed.

Lemma sig_ok_clear s t : signal_no s -> sig_ok t -> sig_ok (sig_clear_pending s t).
Proof.
  intros Hv [[H1 H1'] H2 H3 H4 H5]. unfold sig_clear_pending. destruct (signal_bit s Hv) as [Ew _]. rewrite Ew. split; try done. split.
  - change (t_sig_pending (t <| t_sig_pending := ?p |>)) with p. rewrite arr_insert, Z.eqb_refl. unfold is_u64 in *.
    apply land_range; [lia | apply not64_range, sig_bit_u64].
  - intros w Hw. change (t_sig_pending (t <| t_sig_pending := ?p |>)) with p. rewrite arr_insert, (proj2 (Z.eqb_neq 0 w)) by lia. by apply H1'.
Qed.

Lemma sig_ok_tty s t : sig_ok t -> sig_ok (tty_queue_signal s t).
Proof.
  intros Ho. unfold tty_queue_signal. destruct (Z.leb_spec s 0), (Z.ltb_spec 64 s); cbn [orb]; try done.
  destruct (ignored_by t s); [apply sig_ok_clear; [unfold signal_no; lia | done]|]. pose proof (sig_ok_set s t Ho) as Hs.
  destruct (sig_is_blocked _ s); [done|].
  repeat match goal with |- sig_ok (if ?b then _ else _) => destruct b end; (eapply sig_ok_same; [|exact Hs]); done.
Qed.

(** ** Copies out of the kernel *)

Section Copy.
Context {HB : HhdmBase} {inv : pmm -> Prop} {held : pmm -> Z -> Prop} `{PA : !PageAllocator inv held}.
Local Abbreviation space_ok := (space_ok (inv := inv) (held := held)).

Lemma user_copy_to_spec k dst l r k' : space_ok (k_vm k) -> syscall_cr3 k = m_user_pml4 (k_vm k) -> 0 <= dst -> dst + Z.of_nat (length l) <= USER_TOP ->
  Forall is_byte l -> user_copy_to dst l k = (r, k') ->
  k' = k <| k_vm := k_vm k' |> /\ space_ok (k_vm k') /\ copied_to (k_vm k) (k_vm k') dst l r.
Proof.
  intros Hs Hcr Hd Ht Hb. unfold user_copy_to, st_bind, st_get, on_vm, user_copy_to_cr3. rewrite Hcr, space_root by done.
  destruct (copy_to_loop _ _ _ _ (k_vm k)) as [r0 m'] eqn:E. intros [= <- <-].
  destruct (copy_to_loop_spec _ _ _ _ _ _ Hs Hd Ht (le_n _) Hb E) as (H1 & _ & H2). done.
Qed.

Lemma user_copy_to_root k dst l r k' : space_ok (k_vm k) -> syscall_cr3 k = m_user_pml4 (k_vm k) -> 0 <= dst -> dst + Z.of_nat (length l) <= USER_TOP ->
  Forall is_byte l -> user_copy_to dst l k = (r, k') -> m_user_pml4 (k_vm k') = m_user_pml4 (k_vm k).
Proof.
  intros Hs Hcr Hd Ht Hb. unfold user_copy_to, st_bind, st_get, on_vm, user_copy_to_cr3. rewrite Hcr, space_root by done.
  destruct (copy_to_loop _ _ _ _ (k_vm k)) as [r0 m'] eqn:E. intros [= <- <-].
  by destruct (copy_to_loop_spec _ _ _ _ _ _ Hs Hd Ht (le_n _) Hb E) as (_ & H2 & _).
Qed.

Lemma range_ok_bounds k va len w : space_ok (k_vm k) -> 0 <= va -> 0 <= len -> user_range_ok k va len w = true -> va + len <= USER_TOP.
Proof.
  intros Hs Hv Hl H. pose proof (so_user _ Hs) as Ho. apply range_ok_spec in H; [lia | apply Ho | apply Ho | done | done].
Qed.
End Copy.

(** Copies to user space change nothing but the machine. *)
Lemma user_copy_to_vm dst l k : exec (user_copy_to dst l) k = k <| k_vm := k_vm (exec (user_copy_to dst l) k) |>.
Proof. unfold exec, user_copy_to, st_bind, st_get, on_vm. by destruct (user_copy_to_cr3 _ _ _ _). Qed.

Lemma copy_out_vm ptr l k : exec (copy_out ptr l) k = k <| k_vm := k_vm (exec (copy_out ptr l) k) |>.
Proof.
  unfold copy_out. rewrite exec_get. destruct (ptr =? 0); [by destruct k|]. destruct (negb _); [by destruct k|].
  rewrite exec_bind. unfold exec at 1 3. cbn [st_ret snd]. apply user_copy_to_vm.
Qed.

Lemma vm_task k m i : task (k <| k_vm := m |>) i = task k i.
Proof. done. Qed.
