(* ===== verification/SignalThms.v ===== *)
(** * Properties of signals *)

From S2P Require Import Prelude Words Pmm PmmFacts PmmInit PmmThms PageAlloc.
From S2P Require Import Vmm VmmFacts VmmMap VmmSpace VmmThms CStr Vfs Kernel Tty Fd Sched SchedFacts UserCopy UserMem UserMemThms.
From S2P Require Import Signals SignalFacts.
Local Open Scope Z_scope.
Local Open Scope st_scope.

(** The stack of the frame has room for a return address. *)
Definition stack_ready (k : kernel) (f : regs) : bool := negb (f RSP <? 8) && user_range_ok k (f RSP - 8) 8 true.

Definition saved (t : task_t) (f : regs) : task_t :=
  t <| t_sig_saved_frame := f |> <| t_sig_saved_valid := true |> <| t_sig_active := true |>.

(** [f'] is [f] with a call of [handler] on top, with the argument [sig]. *)
Definition enters_handler (f : regs) (sig handler : Z) (f' : regs) : Prop :=
  f' RIP = handler /\ f' RDI = sig /\ f' RAX = 0 /\ f' RSP = f RSP - 8 /\
  forall r, r <> RIP -> r <> RDI -> r <> RAX -> r <> RSP -> f' r = f r.

Lemma handler_frame_enters f sig handler : enters_handler f sig handler (handler_frame f sig handler).
Proof.
  unfold handler_frame, set_reg. split_and!; try done. intros r ????. by rewrite !decide_False.
Qed.

Section Delivery.
Context {HB : HhdmBase} {inv : pmm -> Prop} {held : pmm -> Z -> Prop} `{PA : !PageAllocator inv held}.
Local Abbreviation space_ok := (space_ok (inv := inv) (held := held)).

Lemma set_task_vm i t k m : set_task i t (k <| k_vm := m |>) = (set_task i t k) <| k_vm := m |>.
Proof. done. Qed.

Lemma set_set_task i t u k : set_task i t (set_task i u k) = set_task i t k.
Proof. unfold set_task. destruct k. cbn. by rewrite insert_insert_eq. Qed.

(** C16.  deliver_pending_signal_to_task delivers the lowest signal that is
    pending and not blocked, unless a handler runs: an ignored signal is
    dropped, one that is fatal makes the task a zombie with status 128 plus
    the signal, and a handler gets the frame of a call with the signal number
    as its argument, whose return address is the restorer, with the
    interrupted frame saved.  Without room on the stack, or without a
    restorer, the signal stays pending; if the write to the stack fails the
    task goes on with its own frame. *)
Theorem deliver_signal_correct ti f k f' k' : let t := task k ti in
  space_ok (k_vm k) -> syscall_cr3 k = m_user_pml4 (k_vm k) ->
  deliver_pending_signal_to_task ti f k = (f', k') ->
  (t_sig_active t = true \/ (forall s, ~ deliverable t s) -> f' = f /\ k' = k) /\
  forall s, t_sig_active t = false -> deliverable t s -> (forall s', s' < s -> ~ deliverable t s') ->
    let h := sa_handler (sig_action t s) in
    let rest := sa_restorer (sig_action t s) in
    if ignored_by t s then f' = f /\ k' = set_task ti (sig_clear_pending s t) k
    else if (h =? 0) || (USER_LIMIT <=? h) then
      f' = f /\ k' = set_task ti ((if s =? SIGINT then t else sig_clear_pending s t) <| t_exit_status := 128 + s |> <| t_state := TASK_ZOMBIE |>) k
    else if negb (rest =? 0) && stack_ready k f then
      space_ok (k_vm k') /\ exists r, copied_to (k_vm k) (k_vm k') (f RSP - 8) (word_bytes rest) r /\
        if r =? 0 then enters_handler f s h f' /\ k' = set_task ti (sig_clear_pending s (saved t f)) (k <| k_vm := k_vm k' |>)
        else f' = f /\ k' = set_task ti ((saved t f) <| t_sig_saved_valid := false |> <| t_sig_active := false |>) (k <| k_vm := k_vm k' |>)
    else f' = f /\ k' = k.
Proof.
  cbn zeta. set (t := task k ti). intros Hs Hcr. unfold deliver_pending_signal_to_task, st_bind at 1, st_get. fold t.
  pose proof (next_deliverable_spec t) as Hn. cbn zeta in Hn.
  destruct (t_sig_active t); [intros [= <- <-]; split; [done | intros ? [=]]|].
  destruct (Z.eqb_spec (sig_next_deliverable t) 0) as [E0|E0].
  { intros [= <- <-]. split; [done|]. intros s _ Hd _. exfalso. destruct Hn as [[_ Hn]|[(Hn & _) _]]; [by apply (Hn s)|].
    unfold signal_no in Hn. lia. }
  destruct Hn as [[? _]|[Hd Hl]]; [done|]. set (s := sig_next_deliverable t) in *. intros He.
  split; [intros [[=]|Hno]; exfalso; by apply (Hno s)|]. intros s' _ Hd' Hl'.
  assert (s' = s) as -> by (destruct (Z.lt_trichotomy s s') as [Hlt|[Heq|Hlt]]; [exfalso; by apply (Hl' s) | done | exfalso; by apply (Hl s')]).
  clear Hl Hl' Hd'. unfold ignored_by. set (h := sa_handler (sig_action t s)) in *. change SIG_IGN with 1 in *. change SIG_DFL with 0 in *.
  destruct (h =? 1); cbn [orb]; [by injection He as <- <-|].
  destruct ((h =? 0) && _); [by injection He as <- <-|].
  destruct ((h =? 0) || (USER_LIMIT <=? h)).
  { unfold st_bind, st_mod in He. destruct (s =? SIGINT); cbn [negb] in He; injection He as <- <-; (split; [done|]).
    - done.
    - unfold upd_task. rewrite task_set_eq, set_set_task. done. }
  destruct (Z.eqb_spec (sa_restorer (sig_action t s)) 0); cbn [negb andb]; [by injection He as <- <-|].
  unfold stack_ready. destruct (Z.ltb_spec (f RSP) 8) as [|Hrsp]; cbn [orb negb andb] in *; [by injection He as <- <-|].
  destruct (user_range_ok k (f RSP - 8) 8 true) eqn:Hro; cbn [negb] in *; [|by injection He as <- <-].
  pose proof (range_ok_bounds k (f RSP - 8) 8 true Hs ltac:(lia) ltac:(lia) Hro) as Htop.
  unfold st_bind at 1, st_mod at 1 in He.
  unfold st_bind at 1 in He. set (k1 := set_task ti (saved t f) k) in *.
  change (upd_task ti _ k) with k1 in He.
  destruct (user_copy_to (f RSP - 8) (word_bytes (sa_restorer (sig_action t s))) k1) as [r k2] eqn:Ec.
  destruct (user_copy_to_spec k1 (f RSP - 8) (word_bytes (sa_restorer (sig_action t s))) r k2 Hs Hcr) as (Ek & Hs2 & Hcp);
    [lia | by rewrite word_bytes_length | apply word_bytes_range | exact Ec|].
  change (k_vm k1) with (k_vm k) in Hcp. assert (Et : task k2 ti = saved t f) by (rewrite Ek; exact (task_set_eq ti (saved t f) k)).
  assert (Eset : forall u, set_task ti u k2 = set_task ti u (k <| k_vm := k_vm k2 |>)).
  { intros u. rewrite Ek at 1. unfold k1. rewrite <- set_task_vm, set_set_task. done. }
  destruct (Z.eqb_spec r 0) as [->|Hr]; cbn [negb] in He.
  - unfold st_bind, st_mod, upd_task, st_ret in He. rewrite Et, Eset in He. injection He as <- <-. split; [done|]. exists 0.
    split; [exact Hcp|]. split; [apply handler_frame_enters | done].
  - unfold st_bind, st_mod, upd_task, st_ret in He. rewrite Et, Eset in He. injection He as <- <-. split; [done|]. exists r.
    rewrite (proj2 (Z.eqb_neq r 0)) by done. done.
Qed.
End Delivery.

(** ** Returning from a handler *)

(** What a task keeps while its handler runs. *)
Definition same_saved (t t' : task_t) : Prop :=
  t_sig_active t' = t_sig_active t /\ t_sig_saved_valid t' = t_sig_saved_valid t /\ t_sig_saved_frame t' = t_sig_saved_frame t.

Lemma init_root_saved k i : same_saved (task k i) (task (exec task_init_root k) i) /\ k_current (exec task_init_root k) = k_current k /\
  k_user_exec_pending (exec task_init_root k) = k_user_exec_pending k.
Proof.
  unfold task_init_root. rewrite exec_get. destruct (t_used (task k 0)); [done|]. unfold exec, st_mod. cbn [snd]. rewrite task_upd.
  destruct (Z.eqb_spec 0 i) as [<-|]; done.
Qed.

Lemma deliver_active ti f k f' k' : deliver_pending_signal_to_task ti f k = (f', k') ->
  t_sig_active (task k ti) = false -> t_sig_active (task k' ti) = true ->
  t_sig_saved_valid (task k' ti) = true /\ t_sig_saved_frame (task k' ti) = f.
Proof.
  unfold deliver_pending_signal_to_task, st_bind at 1, st_get. intros He Ha. rewrite Ha in He.
  assert (Hid : forall (k1 : kernel), (f, k1) = (f', k') -> t_sig_active (task k1 ti) = false -> t_sig_active (task k' ti) = true ->
     t_sig_saved_valid (task k' ti) = true /\ t_sig_saved_frame (task k' ti) = f) by (intros k1 [= _ <-]; congruence).
  destruct (_ =? 0); [by apply (Hid k)|]. set (s := sig_next_deliverable _) in *. set (h := sa_handler _) in *.
  destruct (h =? SIG_IGN); [apply (Hid (upd_task ti (sig_clear_pending s) k)); [done | by rewrite task_upd, Z.eqb_refl]|].
  destruct (_ && _); [apply (Hid (upd_task ti (sig_clear_pending s) k)); [done | by rewrite task_upd, Z.eqb_refl]|].
  destruct (_ || _).
  { unfold st_bind, st_mod in He. destruct (negb _); injection He as <- <-; rewrite !task_upd, !Z.eqb_refl; cbn; intros E; exfalso;
      change (t_sig_active (task k ti) = true) in E; congruence. }
  destruct (_ =? 0); [by apply (Hid k)|]. destruct (_ || _); [by apply (Hid k)|].
  unfold st_bind at 1, st_mod at 1 in He. unfold st_bind at 1 in He.
  set (k1 := upd_task _ _ k) in He. pose proof (user_copy_to_vm (f RSP - 8) (word_bytes (sa_restorer (sig_action (task k ti) s))) k1) as Ek.
  unfold exec in Ek. destruct (user_copy_to _ _ k1) as [r k2]. cbn [snd] in Ek.
  assert (Et : task k2 ti = saved (task k ti) f) by (rewrite Ek; unfold k1; rewrite vm_task, task_upd, Z.eqb_refl; done).
  unfold st_bind, st_mod in He. destruct (negb (r =? 0)); injection He as <- <-; rewrite task_upd, Z.eqb_refl, Et; done.
Qed.

(** C17.  When a handler was started by delivery and later returns by
    rt_sigreturn, whatever it did in between, the task goes on with the frame
    it was interrupted in, register for register, and can receive signals
    again.  Only RAX differs: the dispatcher overwrites it with the result 0
    of rt_sigreturn, so the result of the interrupted call is lost. *)
Theorem sigreturn_restores_frame ti f k f1 k1 g k2 : deliver_pending_signal_to_task ti f k = (f1, k1) ->
  t_sig_active (task k ti) = false -> t_sig_active (task k1 ti) = true ->
  k_current k2 = ti -> k_user_exec_pending k2 = false -> same_saved (task k1 ti) (task k2 ti) ->
  let '(f3, k3) := sigreturn_dispatch g k2 in
  (forall r, f3 r = if decide (r = RAX) then 0 else f r) /\ t_sig_active (task k3 ti) = false /\
  (k_syscall_user_rip k3, k_syscall_user_rsp k3, k_syscall_user_rflags k3, k_syscall_user_cr3 k3) = (f RIP, f RSP, f RFLAGS, f CR3).
Proof.
  intros He Ha1 Ha2 Hc Hp (S1 & S2 & S3). destruct (deliver_active ti f k f1 k1 He Ha1 Ha2) as [V F].
  unfold sigreturn_dispatch, sys_rt_sigreturn, st_bind at 1. unfold st_bind at 1.
  destruct (init_root_saved k2 ti) as ((I1 & I2 & I3) & Ic & Ip). unfold exec in *. destruct (task_init_root k2) as [u k2']. cbn [snd] in *.
  unfold st_bind at 1, st_get. rewrite Ic, Hc, I1, I2, S1, S2, Ha2, V. cbn [negb orb].
  unfold st_bind at 1, st_mod at 1. unfold st_ret at 1. rewrite I3, S3, F.
  unfold syscall_finish, st_bind at 1, st_get at 1. set (k4 := upd_task ti _ k2').
  assert (E4 : k_user_exec_pending k4 = false) by (change (k_user_exec_pending k2' = false); congruence). rewrite E4. cbn [negb Z.eqb Pos.eqb].
  unfold st_bind, st_ret, st_mod. split; [|split].
  - intros r. unfold set_reg. by destruct (decide (r = RAX)).
  - change (t_sig_active (task k4 ti) = false). unfold k4. by rewrite task_upd, Z.eqb_refl.
  - done.
Qed.

(** ** Well-typed signal state *)

(** The calls that change the signal state of tasks, delivery and return, the
    signals of a terminal, and everything else, which leaves it alone. *)
Inductive signal_step (k : kernel) : kernel -> Prop :=
  | ss_action sig act old sz : signal_step k (exec (sys_rt_sigaction sig act old sz) k)
  | ss_mask how set old sz : signal_step k (exec (sys_rt_sigprocmask how set old sz) k)
  | ss_pending set sz : signal_step k (exec (sys_rt_sigpending set sz) k)
  | ss_kill pid sig : signal_step k (exec (sys_kill pid sig) k)
  | ss_tgkill tgid tid sig : signal_step k (exec (sys_tgkill tgid tid sig) k)
  | ss_return f : signal_step k (exec (sigreturn_dispatch f) k)
  | ss_finish nr ret f : signal_step k (exec (syscall_finish nr ret f) k)
  | ss_tty who sig : signal_step k (exec (signal_tasks who sig) k)
  | ss_other k' : (forall i, sigs_of (task k' i) = sigs_of (task k i)) -> signal_step k k'.

Definition all_ok (k : kernel) : Prop := forall i, sig_ok (task k i).

Lemma all_ok_same k k' : all_ok k -> (forall i, sigs_of (task k' i) = sigs_of (task k i)) -> all_ok k'.
Proof. intros Ho He i. by eapply sig_ok_same; [apply He|]. Qed.

Lemma all_ok_set k i t : all_ok k -> sig_ok t -> all_ok (set_task i t k).
Proof. intros Ho Ht j. rewrite task_set. by destruct (i =? j). Qed.

Lemma all_ok_upd k i f : all_ok k -> (sig_ok (task k i) -> sig_ok (f (task k i))) -> all_ok (upd_task i f k).
Proof. intros Ho Hf. apply all_ok_set; [done | by apply Hf]. Qed.

Lemma all_ok_vm k k' : all_ok k -> k' = k <| k_vm := k_vm k' |> -> all_ok k'.
Proof. intros Ho -> i. apply Ho. Qed.

Lemma all_ok_root k : all_ok k -> all_ok (exec task_init_root k).
Proof.
  intros Ho. unfold task_init_root. rewrite exec_get. destruct (t_used (task k 0)); [done|]. unfold exec, st_mod. cbn [snd].
  apply all_ok_upd; [done|]. by apply sig_ok_same.
Qed.

Lemma bytes_part n m l : Forall is_byte l -> (n <= 8)%nat -> is_u64 (bytes_word (take n (drop m l))).
Proof.
  intros Hb Hn. apply bytes_word_u64; [by apply Forall_take, Forall_drop|]. rewrite length_take. lia.
Qed.

Lemma all_ok_action k sig act old sz : all_ok k -> all_ok (exec (sys_rt_sigaction sig act old sz) k).
Proof.
  intros Ho. unfold sys_rt_sigaction. rewrite exec_seq. pose proof (all_ok_root k Ho) as Hr. revert Hr. generalize (exec task_init_root k). clear k Ho.
  intros k Ho. destruct (sig_valid sig) eqn:Hv; cbn [negb orb]; [|done]. destruct (Z.eqb_spec sig 9) as [|H9]; cbn [orb]; [done|].
  destruct (negb (sz =? 8)); [done|]. rewrite exec_get, exec_bind. set (l := sigaction_bytes _).
  assert (Hc : all_ok (exec (copy_out old l) k)) by (by apply (all_ok_vm k); [|apply copy_out_vm]). revert Hc.
  generalize (exec (copy_out old l) k). intros k1 Ho1. destruct (negb (fst _)); [done|]. destruct (act =? 0); [done|]. rewrite exec_get.
  destruct (copy_in k1 act 32) as [b|] eqn:Eb; [|done]. apply copy_in_bytes in Eb as [Hb _]; [|lia]. rewrite exec_mod.
  apply (all_ok_upd k1); [done|]. intros [H1 H2 H3 H4 H5]. split; try done.
  - intros s. unfold sig_action. change (t_sig_actions (?t <| t_sig_actions := ?a |>)) with a. rewrite cell_insert.
    destruct (sig =? s); [|by apply H3]. cbn [bytes_sigaction sa_handler sa_restorer]. split; [apply (bytes_part 8 0) | apply (bytes_part 8 16)]; (done || lia).
  - intros s Hs. unfold sig_action. change (t_sig_actions (?t <| t_sig_actions := ?a |>)) with a. rewrite cell_insert.
    destruct (Z.eqb_spec sig s) as [->|]; [|by apply H4]. apply sig_valid_iff in Hv. unfold SIGKILL in Hs. destruct Hs; [done | lia].
Qed.

Lemma new_mask_u64 how old w : is_u64 old -> is_u64 w -> is_u64 (new_mask how old w).
Proof.
  intros Ho Hw. unfold new_mask. destruct (how =? SIG_BLOCK); [unfold is_u64 in *; by apply lor_range|].
  destruct (how =? SIG_UNBLOCK); [|done]. unfold is_u64. apply land_range; [lia | by apply not64_range].
Qed.

Lemma all_ok_mask k how set old sz : all_ok k -> all_ok (exec (sys_rt_sigprocmask how set old sz) k).
Proof.
  intros Ho. unfold sys_rt_sigprocmask. rewrite exec_seq. pose proof (all_ok_root k Ho) as Hr. revert Hr. generalize (exec task_init_root k). clear k Ho.
  intros k Ho. destruct (_ || _); [done|]. rewrite exec_get, exec_bind. set (l := word_bytes _).
  assert (Hc : all_ok (exec (copy_out old l) k)) by (by apply (all_ok_vm k); [|apply copy_out_vm]). revert Hc.
  generalize (exec (copy_out old l) k). intros k1 Ho1. destruct (negb (fst _)); [done|]. destruct (set =? 0); [done|]. rewrite exec_get.
  destruct (copy_in k1 set 8) as [b|] eqn:Eb; [|done]. apply copy_in_bytes in Eb as [Hb Hlen]; [|lia]. rewrite exec_mod.
  apply (all_ok_upd k1); [done|]. intros [H1 [H2 H2'] H3 H4 H5]. split; try done. split.
  - change (t_sig_blocked (?t <| t_sig_blocked := ?a |>)) with a. rewrite arr_insert, Z.eqb_refl. apply new_mask_u64; [done|]. apply bytes_word_u64; [done | lia].
  - intros w Hw. change (t_sig_blocked (?t <| t_sig_blocked := ?a |>)) with a. rewrite arr_insert, (proj2 (Z.eqb_neq 0 w)) by lia. by apply H2'.
Qed.

Lemma all_ok_first k who sig : all_ok k -> all_ok (exec (signal_first who sig) k).
Proof.
  intros Ho. unfold signal_first. destruct (_ && _); [done|]. rewrite exec_get. destruct (find _ _) as [i|]; [|done]. destruct (sig =? 0); [done|].
  pose proof (sig_ok_set sig (task k i) (Ho i)) as Ht. destruct (sig_pending_set sig (task k i)) as [r t]. rewrite exec_mod. by apply all_ok_set.
Qed.

Lemma all_ok_deliver k ti f : all_ok k -> all_ok (exec (deliver_pending_signal_to_task ti f) k).
Proof.
  intros Ho. unfold deliver_pending_signal_to_task. rewrite exec_get. destruct (t_sig_active (task k ti)); [done|].
  destruct (Z.eqb_spec (sig_next_deliverable (task k ti)) 0) as [|Hn]; [done|].
  assert (Hv : signal_no (sig_next_deliverable (task k ti))) by (destruct (next_deliverable_spec (task k ti)) as [[? _]|[(? & _) _]]; done).
  revert Hv. generalize (sig_next_deliverable (task k ti)). intros s Hv.
  assert (Hclear : forall k, all_ok k -> all_ok (upd_task ti (sig_clear_pending s) k)) by (intros k1 H1; apply all_ok_upd; [done|]; by apply sig_ok_clear).
  destruct (_ =? SIG_IGN); [rewrite exec_mod; by apply Hclear|]. destruct (_ && _); [rewrite exec_mod; by apply Hclear|].
  destruct (_ || _).
  { rewrite exec_seq, exec_mod. apply all_ok_upd; [destruct (negb _); [by apply Hclear | done]|]. by apply sig_ok_same. }
  destruct (_ =? 0); [done|]. destruct (_ || _); [done|]. rewrite exec_mod, exec_bind. set (l := word_bytes _). set (k1 := upd_task ti _ k).
  assert (Et : exec (user_copy_to (f RSP - 8) l) k1 = k1 <| k_vm := k_vm (exec (user_copy_to (f RSP - 8) l) k1) |>) by apply user_copy_to_vm.
  revert Et. generalize (exec (user_copy_to (f RSP - 8) l) k1). intros k2 Ek.
  assert (Hst : forall j, task k2 j = if ti =? j then saved (task k ti) f else task k j) by (intros j; rewrite Ek, vm_task; unfold k1; apply task_upd).
  destruct (negb _); rewrite exec_mod; intros j; rewrite ?task_upd; unfold exec; cbn [snd st_ret]; rewrite task_upd, !Hst, Z.eqb_refl.
  - destruct (ti =? j); [|apply Ho]. destruct (Ho ti) as [H1 H2 H3 H4 H5]. by split.
  - destruct (ti =? j); [|apply Ho]. apply sig_ok_clear; [done|]. destruct (Ho ti) as [H1 H2 H3 H4 H5]. by split.
Qed.

Lemma all_ok_finish k nr ret f : all_ok k -> all_ok (exec (syscall_finish nr ret f) k).
Proof.
  intros Ho. unfold syscall_finish. rewrite exec_get, exec_bind, exec_mod. unfold exec at 1. cbn [st_ret snd].
  apply (all_ok_same (exec (if k_user_exec_pending k then st_ret (set_reg f RAX (u64 ret)) else
     let! f := (if negb (nr =? 15) then deliver_pending_signal (set_reg f RAX (u64 ret)) else st_ret (set_reg f RAX (u64 ret))) in
       st_mod (fun k => k <| k_syscall_user_rip := f RIP |> <| k_syscall_user_rsp := f RSP |>
                          <| k_syscall_user_rflags := f RFLAGS |> <| k_syscall_user_cr3 := f CR3 |>) ;;; st_ret f) k)); [|done].
  destruct (k_user_exec_pending k); [done|]. rewrite exec_bind, exec_mod. unfold exec at 1. cbn [st_ret snd].
  destruct (negb (nr =? 15)); [|done]. unfold deliver_pending_signal.
  apply (all_ok_same (exec (let! k := st_get in deliver_pending_signal_to_task (k_current k) (set_reg f RAX (u64 ret))) k)); [|done].
  rewrite exec_get. by apply all_ok_deliver.
Qed.

Lemma all_ok_return k f : all_ok k -> all_ok (exec (sigreturn_dispatch f) k).
Proof.
  intros Ho. unfold sigreturn_dispatch. rewrite exec_bind. destruct (fst (sys_rt_sigreturn f k)) as [ret f']. apply all_ok_finish.
  unfold sys_rt_sigreturn. rewrite exec_seq. pose proof (all_ok_root k Ho) as Hr. revert Hr. generalize (exec task_init_root k). intros k1 Ho1.
  rewrite exec_get. destruct (_ || _); [done|]. rewrite exec_mod. apply all_ok_upd; [done|]. intros [H1 H2 H3 H4 H5]. by split.
Qed.

Lemma all_ok_tty k who sig : all_ok k -> all_ok (exec (signal_tasks who sig) k).
Proof.
  intros Ho. unfold exec, signal_tasks.
  set (step := fun (st : Z * kernel) i => let '(sent, k) := st in if who (task k i) then (sent + 1, upd_task i (tty_queue_signal sig) k) else (sent, k)).
  assert (H : forall l n k, all_ok k -> all_ok (snd (foldl step (n, k) l))).
  { induction l as [|i l IH]; intros n k1 H1; [done|]. cbn [foldl step]. destruct (who (task k1 i)); apply IH; [|done].
    apply all_ok_upd; [done|]. apply sig_ok_tty. }
  specialize (H all_tasks 0 k Ho). destruct (foldl step (0, k) all_tasks) as [n k1]. done.
Qed.

(** C18.  The signal state of every task stays well typed whatever calls are
    made: the sets of pending and blocked signals are 64-bit words, handlers
    are kept only for signals that can be caught, so SIGKILL always has its
    default action, and a task is in a handler exactly while it has a frame
    to return to. *)
Theorem signal_state_typed k k' : all_ok k -> rtc signal_step k k' ->
  all_ok k' /\ forall i, sa_handler (sig_action (task k' i) SIGKILL) = SIG_DFL.
Proof.
  intros Ho Hr. assert (Ho' : all_ok k').
  { induction Hr as [|k k1 k2 Hs _ IH]; [done|]. apply IH. destruct Hs as [| | | | | | | |k1 He].
    - by apply all_ok_action.
    - by apply all_ok_mask.
    - unfold sys_rt_sigpending. rewrite exec_seq, exec_get. pose proof (all_ok_root k Ho) as H1. destruct (_ || _); [done|].
      rewrite exec_bind. unfold exec at 1. cbn [st_ret snd]. by apply (all_ok_vm (exec task_init_root k)); [|apply user_copy_to_vm].
    - unfold sys_kill. rewrite exec_seq, exec_get. by apply all_ok_first, all_ok_root.
    - unfold sys_tgkill. rewrite exec_seq. by apply all_ok_first, all_ok_root.
    - by apply all_ok_return.
    - by apply all_ok_finish.
    - by apply all_ok_tty.
    - by eapply all_ok_same. }
  split; [done|]. intros i. rewrite (sg_default _ (Ho' i)); [done | by right].
Qed.

(** ** Examples *)

#[local] Existing Instance demo_hhdm.
(** SIGUSR1 is pending and has a handler; the stack is the writable page. *)
Definition sig_task : task_t :=
  blank_task_t <| t_used := true |> <| t_pid := 1 |> <| t_sig_pending := {[0 := 512]} |>
    <| t_sig_actions := {[10 := SigAction 0x400500 0 0x400600 0]} |>.
Definition sig_kernel : kernel := set_task 0 sig_task (blank_kernel <| k_vm := demo_mapped |>).
Definition sig_frame : regs := set_reg (set_reg (fun _ => 7) RSP 0x400ff0) RIP 0x400123.
Definition sig_delivered : kernel := exec (deliver_pending_signal_to_task 0 sig_frame) sig_kernel.
Definition sig_handler_frame : regs := fst (deliver_pending_signal_to_task 0 sig_frame sig_kernel).

Lemma sig_delivered_eq : deliver_pending_signal_to_task 0 sig_frame sig_kernel = (sig_handler_frame, sig_delivered).
Proof. unfold sig_handler_frame, sig_delivered, exec. apply surjective_pairing. Qed.

Lemma sig_task_eq : task sig_kernel 0 = sig_task.
Proof. apply task_set_eq. Qed.

Lemma sig_deliverable : deliverable sig_task 10 /\ forall s, s < 10 -> ~ deliverable sig_task s.
Proof.
  destruct (next_deliverable_spec sig_task) as [[E _]|H]; [by vm_compute in E|].
  assert (E : sig_next_deliverable sig_task = 10) by (vm_compute; reflexivity). cbv zeta in H. by rewrite E in H.
Qed.

Lemma sig_guards : ignored_by sig_task 10 = false /\
  (sa_handler (sig_action sig_task 10) =? 0) || (USER_LIMIT <=? sa_handler (sig_action sig_task 10)) = false /\
  negb (sa_restorer (sig_action sig_task 10) =? 0) && stack_ready sig_kernel sig_frame = true.
Proof. vm_compute. done. Qed.

Lemma sig_cr3 : syscall_cr3 sig_kernel = m_user_pml4 (k_vm sig_kernel).
Proof. vm_compute. reflexivity. Qed.

Lemma deliver_signal_witness : exists r, copied_to (k_vm sig_kernel) (k_vm sig_delivered) (sig_frame RSP - 8) (word_bytes 0x400600) r.
Proof.
  pose proof (proj2 (deliver_signal_correct (inv := pmm_wf) (held := pool_held) 0 sig_frame sig_kernel sig_handler_frame sig_delivered
    (proj1 demo_mapped_space) sig_cr3 sig_delivered_eq)) as H.
  rewrite sig_task_eq in H. specialize (H 10 eq_refl (proj1 sig_deliverable) (proj2 sig_deliverable)). cbv zeta in H.
  destruct sig_guards as (E1 & E2 & E3). rewrite E1, E2, E3 in H. destruct H as (_ & r & Hc & _). exists r. exact Hc.
Defined.

Lemma sig_inactive : t_sig_active (task sig_kernel 0) = false.
Proof. by rewrite sig_task_eq. Qed.

Lemma sig_active_bit : t_sig_active (task sig_delivered 0) = true.
Proof. vm_compute. reflexivity. Qed.

Lemma sig_current : k_current sig_delivered = 0.
Proof. vm_compute. reflexivity. Qed.

Lemma sig_no_exec : k_user_exec_pending sig_delivered = false.
Proof. vm_compute. reflexivity. Qed.

Lemma sigreturn_restores_frame_witness : fst (sigreturn_dispatch sig_handler_frame sig_delivered) RIP = 0x400123.
Proof.
  pose proof (sigreturn_restores_frame 0 sig_frame sig_kernel sig_handler_frame sig_delivered sig_handler_frame sig_delivered
    sig_delivered_eq sig_inactive sig_active_bit sig_current sig_no_exec (conj eq_refl (conj eq_refl eq_refl))) as H.
  destruct (sigreturn_dispatch sig_handler_frame sig_delivered) as [f3 k3]. destruct H as [H _]. exact (H RIP).
Defined.

Lemma blank_ok : all_ok blank_kernel.
Proof. intros i. split; done. Qed.

Lemma signal_state_typed_witness : sa_handler (sig_action (task (exec (sys_kill 1 9) blank_kernel) 0) SIGKILL) = SIG_DFL.
Proof.
  exact (proj2 (signal_state_typed blank_kernel (exec (sys_kill 1 9) blank_kernel) blank_ok
    (rtc_once _ _ (ss_kill blank_kernel 1 9))) 0).
Defined.
