(* ===== verification/Process.v ===== *)
(** * Processes

    Creation, exit and collection of tasks, futexes, sleeping, yielding and
    preemption by the timer ([src/kernel/main.c]).  A pointer to a task is its
    index; the frame of the system call is [f]. *)

From S2P Require Import Prelude Words Pmm Vmm CStr Vfs Kernel Tty Fd Sched UserCopy Pipe LazyMmap Signals.
Local Open Scope Z_scope.
Local Open Scope st_scope.

Definition CLONE_VM : Z := 0x00000100.
Definition CLONE_FS : Z := 0x00000200.
Definition CLONE_FILES : Z := 0x00000400.
Definition CLONE_SIGHAND : Z := 0x00000800.
Definition CLONE_VFORK : Z := 0x00004000.
Definition CLONE_THREAD : Z := 0x00010000.
Definition CLONE_SYSVSEM : Z := 0x00040000.
Definition CLONE_SETTLS : Z := 0x00080000.
Definition CLONE_PARENT_SETTID : Z := 0x00100000.
Definition CLONE_CHILD_CLEARTID : Z := 0x00200000.
Definition CLONE_DETACHED : Z := 0x00400000.
Definition CLONE_SIGNAL_MASK : Z := 0x000000ff.
Definition FUTEX_WAIT : Z := 0.
Definition FUTEX_WAKE : Z := 1.
Definition FUTEX_CMD_MASK : Z := 127.

(** ** Leaving a task *)

(** The switch of sys_wait4 and of the futexes, which does not count it. *)
Definition switch_uncounted (next : Z) : ST kernel unit :=
  st_mod (upd_task next (fun t => t <| t_state := TASK_RUNNING |>)) ;;;
  st_mod (fun k => k <| k_current := next |>) ;;;
  let! k := st_get in
  let! _ := on_vm (vmm_user_activate (t_ctx (task k next) CR3)) in
  st_mod (fun k => k <| k_task_switch_target := next |> <| k_task_switch_pending := true |> <| k_task_return_ctx := Some next |>).

(** The result is whether there was another task to run. *)
Definition task_switch_from_current_blocked : ST kernel bool :=
  let! k := st_get in
  let next := task_pick_next k in
  if next <? 0 then st_ret false
  else
    st_mod (upd_task (k_current k) (fun t => t <| t_state := TASK_BLOCKED |>)) ;;;
    switch_uncounted next ;;;
    st_ret true.

Definition task_cr3_is_shared (k : kernel) (ti : Z) : bool :=
  negb (t_ctx (task k ti) CR3 =? 0)
  && existsb (fun i => negb (i =? ti) && t_used (task k i)
                       && (Z.land (t_ctx (task k i) CR3) PAGE_MASK =? Z.land (t_ctx (task k ti) CR3) PAGE_MASK)) all_tasks.

Definition task_reap_resources (ti : Z) : ST kernel unit :=
  let! k := st_get in
  if negb (t_used (task k ti)) then st_ret tt
  else
    task_fd_table_release ti ;;;
    let! k := st_get in
    let cr3 := t_ctx (task k ti) CR3 in
    (if negb (cr3 =? 0) && negb (cr3 =? t_ctx (task k 0) CR3) then
       if task_cr3_is_shared k ti then st_ret tt
       else let! _ := on_vm (vmm_user_space_destroy cr3) in st_ret tt
     else st_ret tt) ;;;
    st_mod (upd_task ti (fun t => t <| t_ctx := set_reg (t_ctx t) CR3 0 |>)).

(** [t->used=0; t->state=TASK_UNUSED] *)
Definition free_slot (t : task_t) : task_t := t <| t_used := false |> <| t_state := TASK_UNUSED |>.

(** The mappings of the framebuffer a task gives up. *)
Definition drop_framebuffer (ti : Z) : ST kernel unit :=
  let! k := st_get in
  let n := t_fb_map_count (task k ti) in
  if 0 <? n then
    st_mod (fun k => k <| k_framebuffer_users := if n <=? k_framebuffer_users k then k_framebuffer_users k - n else 0 |>) ;;;
    st_mod (upd_task ti (fun t => t <| t_fb_map_count := 0 |>))
  else st_ret tt.

(** A task that waits on a futex goes on with result 0. *)
Definition wake_futex (t : task_t) : task_t :=
  t <| t_futex_addr := 0 |> <| t_futex_cr3 := 0 |> <| t_futex_deadline_ns := 0 |>
    <| t_ctx := set_reg (t_ctx t) RAX 0 |> <| t_state := TASK_RUNNABLE |>.

Definition waits_on_futex (t : task_t) (addr cr3 : Z) : bool :=
  t_used t && (t_state t =? TASK_BLOCKED) && (t_futex_addr t =? addr) && (Z.land (t_futex_cr3 t) PAGE_MASK =? cr3).

Definition task_clear_child_tid (ti : Z) : ST kernel unit :=
  let! k := st_get in
  let addr := t_tid_address (task k ti) in
  if addr =? 0 then st_ret tt
  else
    let! _ := user_copy_to addr (int_bytes 0) in
    st_mod (fun k => foldl (fun k i =>
      if waits_on_futex (task k i) addr (Z.land (t_ctx (task k ti) CR3) PAGE_MASK) then upd_task i wake_futex k else k) k all_tasks) ;;;
    st_mod (upd_task ti (fun t => t <| t_tid_address := 0 |>)).

(** The status word of wait4. *)
Definition wait_status (status : Z) : Z := Z.shiftl (Z.land status 0xff) 8.

(** wait4 of the parent returns the child [pid]. *)
Definition finish_wait4 (pid : Z) (t : task_t) : task_t :=
  t <| t_ctx := set_reg (t_ctx t) RAX (u64 pid) |> <| t_wait4_active := false |> <| t_wait4_pid := -1 |>
    <| t_wait4_status_ptr := 0 |> <| t_wait4_reap_pid := pid |> <| t_state := TASK_RUNNABLE |>.

(** The parent [p] sleeps in a wait4 that accepts the child [c]. *)
Definition waits_for (p c : task_t) : bool :=
  t_used p && (t_pid p =? t_ppid c) && (t_state p =? TASK_BLOCKED) && t_wait4_active p
  && negb ((0 <? t_wait4_pid p) && negb (t_wait4_pid p =? t_pid c)).

(** The second loop of sys_exit: the first waiting parent whose status word can be written goes on. *)
Fixpoint wake_parent (ti : Z) (todo : list Z) : ST kernel unit :=
  match todo with
  | [] => st_ret tt
  | i :: todo =>
      let! k := st_get in
      let c := task k ti in
      if negb (waits_for (task k i) c) then wake_parent ti todo
      else
        let! a := on_vm (vmm_user_activate (t_ctx (task k i) CR3)) in
        if negb (a =? 0) then wake_parent ti todo
        else
          let! r := (if t_wait4_status_ptr (task k i) =? 0 then st_ret 0
                     else user_copy_to (t_wait4_status_ptr (task k i)) (int_bytes (wait_status (t_exit_status c)))) in
          if negb (r =? 0) then wake_parent ti todo
          else st_mod (upd_task i (finish_wait4 (t_pid c)))
  end.

Definition parent_slot (k : kernel) (ppid : Z) : option Z :=
  find (fun i => t_used (task k i) && (t_pid (task k i) =? ppid)) all_tasks.

(** The task that runs after an exit: the parent when it can, else the scheduler's choice, else the root. *)
Definition exit_next (k : kernel) (ppid : Z) : Z :=
  let next := if 0 <? ppid
              then default (-1) (find (fun i => t_used (task k i) && (t_pid (task k i) =? ppid) && (t_state (task k i) =? TASK_RUNNABLE)) all_tasks)
              else -1 in
  let next := if next <? 0 then task_pick_next k else next in
  if next <? 0 then 0 else next.

Definition sys_exit (status : Z) : ST kernel Z :=
  task_init_root ;;;
  let! k := st_get in
  let ti := k_current k in
  if ti =? 0 then
    task_fd_table_release 0 ;;;
    st_mod (fun k => k <| k_user_exit_status := status |> <| k_user_exit_pending := true |>) ;;;
    st_ret 0
  else
    drop_framebuffer ti ;;;
    task_clear_child_tid ti ;;;
    task_fd_table_release ti ;;;
    st_mod (upd_task ti (fun t => t <| t_exit_status := status |> <| t_state := TASK_ZOMBIE |>)) ;;;
    let! k := st_get in
    let ppid := t_ppid (task k ti) in
    (if 0 <? ppid then
       match parent_slot k ppid with
       | Some p => st_mod (upd_task p (fun t => snd (sig_pending_set SIGCHLD t)))
       | None => st_ret tt
       end
     else st_ret tt) ;;;
    (if 0 <? ppid then wake_parent ti all_tasks else st_ret tt) ;;;
    let! k := st_get in
    switch_from_syscall (exit_next k ppid) ;;;
    st_ret 0.

Definition sys_exit_group (status : Z) : ST kernel Z :=
  task_init_root ;;;
  let! k := st_get in
  if negb (k_current k =? 0) then sys_exit status
  else st_mod (fun k => k <| k_user_exit_status := status |> <| k_user_exit_pending := true |>) ;;; st_ret 0.

Definition exception_signal_for_vector (vector : Z) : Z :=
  if vector =? 0 then 8
  else if (vector =? 1) || (vector =? 3) || (vector =? 4) then 5
  else if vector =? 6 then 4
  else if vector =? 7 then 8
  else if (vector =? 11) || (vector =? 17) || (vector =? 18) then 7
  else if (vector =? 16) || (vector =? 19) then 8
  else 11.

Definition exception_terminate_user_process (num : Z) : ST kernel unit :=
  st_mod (fun k => if task_ok (k_current k) then k else k <| k_current := 0 |>) ;;;
  task_init_root ;;;
  st_mod (fun k => if t_used (task k (k_current k)) then k else k <| k_current := 0 |>) ;;;
  let! _ := sys_exit (128 + exception_signal_for_vector num) in
  st_ret tt.

(** ** Collecting children *)

(** A zombie child of [cur] that wait4 with [pid] accepts. *)
Definition zombie_child (cur : task_t) (pid : Z) (t : task_t) : bool :=
  t_used t && (t_ppid t =? t_pid cur) && negb ((0 <? pid) && negb (t_pid t =? pid)) && (t_state t =? TASK_ZOMBIE).

Definition sys_wait4 (f : regs) (pid status options : Z) : ST kernel Z :=
  task_init_root ;;;
  let! k := st_get in
  let cur := k_current k in
  if negb (status =? 0) && negb (user_range_ok k status 4 true) then st_ret (- EFAULT)
  else if negb (Z.land options (-2) =? 0) then st_ret (- EINVAL)
  else
    match find (fun i => zombie_child (task k cur) pid (task k i)) all_tasks with
    | Some i =>
        let got := t_pid (task k i) in
        let! r := (if status =? 0 then st_ret 0 else user_copy_to status (int_bytes (wait_status (t_exit_status (task k i))))) in
        if negb (r =? 0) then st_ret (- EFAULT)
        else
          task_reap_resources i ;;;
          st_mod (upd_task i free_slot) ;;;
          st_mod (upd_task cur (fun t => snd (sig_pending_set SIGCHLD t))) ;;;
          st_ret got
    | None =>
        if has options 1 then st_ret 0
        else
          st_mod (upd_task cur (fun t => t <| t_wait4_active := true |> <| t_wait4_pid := pid |> <| t_wait4_status_ptr := status |>)) ;;;
          task_save_from_frame cur f ;;;
          st_mod (upd_task cur (fun t => t <| t_state := TASK_BLOCKED |>)) ;;;
          let! k := st_get in
          let next := task_pick_next k in
          if next <? 0 then
            st_mod (upd_task cur (fun t => t <| t_wait4_active := false |> <| t_wait4_pid := -1 |> <| t_wait4_status_ptr := 0 |>
                                             <| t_state := TASK_RUNNING |>)) ;;;
            st_ret (- EAGAIN)
          else switch_uncounted next ;;; st_ret 0
    end.

(** The start of syscall_dispatch: the address space of the caller, and the
    child that a wait4 of the caller has returned. *)
Definition syscall_enter (f : regs) : ST kernel unit :=
  let! k := st_get in
  let d := k_current k in
  (if negb (f CR3 =? 0) then
     let! _ := on_vm (vmm_user_activate (f CR3)) in
     if task_ok d && t_used (task k d) then st_mod (upd_task d (fun t => t <| t_ctx := set_reg (t_ctx t) CR3 (f CR3) |>)) else st_ret tt
   else st_ret tt) ;;;
  let! k := st_get in
  let reap := t_wait4_reap_pid (task k d) in
  if 0 <? reap then
    (match find (fun i => t_used (task k i) && (t_pid (task k i) =? reap) && (t_ppid (task k i) =? t_pid (task k d))
                          && (t_state (task k i) =? TASK_ZOMBIE)) all_tasks with
     | Some i => task_reap_resources i ;;; st_mod (upd_task i free_slot)
     | None => st_ret tt
     end) ;;;
    st_mod (upd_task d (fun t => t <| t_wait4_reap_pid := -1 |>))
  else st_ret tt.

(** ** Futexes *)

(** A struct timespec: the seconds and the nanoseconds, signed. *)
Definition timespec_of (l : list Z) : Z * Z := (s64 (bytes_word (take 8 l)), s64 (bytes_word (take 8 (drop 8 l)))).

(** The deadline of FUTEX_WAIT, or the error of the call. *)
Definition futex_deadline (k : kernel) (timeout : Z) : Z + Z :=
  if timeout =? 0 then inr 0
  else
    match copy_in k timeout 16 with
    | None => inl (- EFAULT)
    | Some l =>
        let '(sec, nsec) := timespec_of l in
        if (sec <? 0) || (nsec <? 0) || (1000000000 <=? nsec) then inl (- EINVAL)
        else if (sec =? 0) && (nsec =? 0) then inl (- ETIMEDOUT)
        else if (UINT64_MAX - nsec) / 1000000000 <? sec then inl (- EINVAL)
        else
          let duration := sec * 1000000000 + nsec in
          if UINT64_MAX - k_now k <? duration then inl (- EINVAL) else inr (k_now k + duration)
    end.

(** The loop of FUTEX_WAKE: at most [val] waiters go on. *)
Definition futex_wake_step (uaddr cr3 val : Z) (st : Z * kernel) (i : Z) : Z * kernel :=
  let '(woke, k) := st in
  let t := task k i in
  if negb (woke <? val) then st
  else if negb (t_used t) || negb (t_state t =? TASK_BLOCKED) || negb (t_futex_addr t =? uaddr) || negb (t_futex_cr3 t =? cr3) then st
  else (woke + 1, upd_task i wake_futex k).

Definition sys_futex (f : regs) (uaddr op val timeout : Z) : ST kernel Z :=
  task_init_root ;;;
  let! k := st_get in
  if (uaddr =? 0) || has uaddr 3 then st_ret (- EINVAL)
  else
    let cmd := Z.land op FUTEX_CMD_MASK in
    if cmd =? FUTEX_WAIT then
      match user_copy_from k uaddr 4 with
      | None => st_ret (- EFAULT)
      | Some l =>
          if negb (bytes_word l =? val) then st_ret (- EAGAIN)
          else
            match futex_deadline k timeout with
            | inl e => st_ret e
            | inr deadline =>
                let ti := k_current k in
                task_save_from_frame ti f ;;;
                st_mod (upd_task ti (fun t =>
                  t <| t_futex_addr := uaddr |> <| t_futex_cr3 := Z.land (t_ctx t CR3) PAGE_MASK |> <| t_futex_deadline_ns := deadline |>
                    <| t_ctx := set_reg (t_ctx t) RAX 0 |>)) ;;;
                let! ok := task_switch_from_current_blocked in
                if ok then st_ret 0
                else
                  st_mod (upd_task ti (fun t => t <| t_futex_addr := 0 |> <| t_futex_cr3 := 0 |> <| t_futex_deadline_ns := 0 |>
                                                  <| t_state := TASK_RUNNING |>)) ;;;
                  st_ret (- EAGAIN)
            end
      end
    else if cmd =? FUTEX_WAKE then
      if negb (user_range_ok k uaddr 4 false) then st_ret (- EFAULT)
      else
        let cr3 := Z.land (t_ctx (task k (k_current k)) CR3) PAGE_MASK in
        fun k => foldl (futex_wake_step uaddr cr3 val) (0, k) all_tasks
    else st_ret (- ENOSYS).

(** ** Priorities *)

Definition sys_getpriority (which who : Z) : ST kernel Z :=
  task_init_root ;;;
  let! k := st_get in
  if negb (which =? 0) then st_ret (- EINVAL)
  else
    let who := if who =? 0 then t_pid (task k (k_current k)) else who in
    match find (fun i => t_used (task k i) && (t_pid (task k i) =? who)) all_tasks with
    | Some i => st_ret (t_nice (task k i) + 20)
    | None => st_ret (-3)
    end.

Definition sys_setpriority (which who prio : Z) : ST kernel Z :=
  task_init_root ;;;
  let! k := st_get in
  if negb (which =? 0) then st_ret (- EINVAL)
  else task_set_nice (if who =? 0 then t_pid (task k (k_current k)) else who) (prio - 20).

Section Irq.
(** The interrupts taken during one [sti; hlt; cli]. *)
Variable kernel_wait_tick : kernel -> kernel.

Definition sys_sched_yield (f : regs) : ST kernel Z :=
  task_init_root ;;;
  let! k := st_get in
  let cur := k_current k in
  task_save_from_frame cur f ;;;
  st_mod (upd_task cur (fun t => t <| t_ctx := set_reg (t_ctx t) RAX 0 |>)) ;;;
  let! k := st_get in
  let next := task_pick_next k in
  if next <? 0 then st_mod kernel_wait_tick ;;; st_ret 0
  else
    st_mod (upd_task cur (fun t => t <| t_state := TASK_RUNNABLE |>)) ;;;
    switch_from_syscall next ;;;
    st_ret 0.

(** The call after its deadline is known; [None] when the task is still asleep after [fuel] interrupts. *)
Definition nanosleep_until (fuel : nat) (f : regs) (rem start_ns deadline_ns : Z) (k : kernel) : option (Z * kernel) :=
  if deadline_ns <=? k_now k then
    Some ((task_io_resume_clear f 35 ;;;
           if rem =? 0 then st_ret 0
           else let! r := user_copy_to rem (replicate 16 0) in st_ret (if negb (r =? 0) then - EFAULT else 0)) k)
  else
    match task_block_io_until kernel_wait_tick fuel f IO_WAIT_NANOSLEEP 35 deadline_ns (snd (task_io_resume_store f 35 start_ns deadline_ns k)) with
    | None => None
    | Some (r, k) =>
        if r =? 0 then Some (0, k) else Some ((task_io_resume_clear f 35 ;;; st_ret (- EAGAIN)) k)
    end.

Definition sys_nanosleep (fuel : nat) (f : regs) (req rem : Z) (k : kernel) : option (Z * kernel) :=
  match (if req =? 0 then None else user_copy_from k req 16) with
  | None => Some (- EFAULT, k)
  | Some l =>
      let '(sec, nsec) := timespec_of l in
      if (sec <? 0) || (nsec <? 0) || (1000000000 <=? nsec) then Some (- EINVAL, k)
      else if (sec =? 0) && (nsec =? 0) then Some (0, k)
      else if (UINT64_MAX - nsec) / 1000000000 <? sec then Some (- EINVAL, k)
      else
        let duration_ns := sec * 1000000000 + nsec in
        let t := task k (k_current k) in
        if task_io_resume_matches k f 35 then
          nanosleep_until fuel f rem (t_io_resume_start_ns t) (t_io_resume_deadline_ns t) k
        else if UINT64_MAX - k_now k <? duration_ns then Some (- EINVAL, k)
        else nanosleep_until fuel f rem (k_now k) (k_now k + duration_ns) k
  end.
End Irq.

(** ** Creating tasks *)

Definition task_clone_stack_top_writable (k : kernel) (ti stack_top : Z) : bool :=
  if (stack_top =? 0) || (USER_LIMIT <=? stack_top) then false
  else
    let last_byte := stack_top - 1 in
    user_range_ok k last_byte 1 true
    || match task_lazy_mmap_protection (task k ti) last_byte with Some prot => has prot 2 | None => false end.

Definition allowed_clone_flags : Z :=
  Z.lor CLONE_VM (Z.lor CLONE_FS (Z.lor CLONE_FILES (Z.lor CLONE_SIGHAND (Z.lor CLONE_THREAD (Z.lor CLONE_SETTLS
    (Z.lor CLONE_PARENT_SETTID (Z.lor CLONE_CHILD_CLEARTID (Z.lor CLONE_VFORK (Z.lor CLONE_SYSVSEM (Z.lor CLONE_DETACHED CLONE_SIGNAL_MASK)))))))))).

(** The record of the new task in its slot, [child] before; the copies of
    [sig_actions] leave its entry 0. *)
Definition child_task (parent child : task_t) (pid flags ctid : Z) : task_t :=
  child <| t_used := true |> <| t_state := TASK_RUNNABLE |> <| t_pid := pid |> <| t_ppid := t_pid parent |>
    <| t_tgid := if has flags CLONE_THREAD then t_tgid parent else pid |>
    <| t_pgrp := t_pgrp parent |> <| t_session := t_session parent |> <| t_controlling_tty := t_controlling_tty parent |>
    <| t_exit_status := 0 |> <| t_tid_address := if has flags CLONE_CHILD_CLEARTID then ctid else 0 |>
    <| t_futex_addr := 0 |> <| t_futex_cr3 := 0 |> <| t_futex_deadline_ns := 0 |>
    <| t_pipe_wait_fd := -1 |> <| t_pipe_wait_buf := 0 |> <| t_pipe_wait_count := 0 |>
    <| t_io_wait_kind := IO_WAIT_NONE |> <| t_io_wait_valid := false |> <| t_io_wait_nr := 0 |> <| t_io_wait_deadline_ns := 0 |>
    <| t_io_resume_valid := false |> <| t_io_resume_nr := 0 |> <| t_io_resume_rip := 0 |> <| t_io_resume_start_ns := 0 |> <| t_io_resume_deadline_ns := 0 |>
    <| t_wait4_active := false |> <| t_wait4_pid := -1 |> <| t_wait4_status_ptr := 0 |> <| t_wait4_reap_pid := -1 |>
    <| t_heap_base := t_heap_base parent |> <| t_heap_end := t_heap_end parent |> <| t_mmap_next := t_mmap_next parent |> <| t_fb_map_count := 0 |>
    <| t_lazy_mmaps := t_lazy_mmaps parent |>
    <| t_nice := t_nice parent |> <| t_switches := 0 |> <| t_cpu_ticks := 0 |>
    <| t_ctx := set_reg (t_ctx parent) RAX 0 |>
    <| t_sig_pending := <[1 := 0]> (<[0 := 0]> (t_sig_pending child)) |>
    <| t_sig_blocked := <[1 := arr (t_sig_blocked parent) 1]> (<[0 := arr (t_sig_blocked parent) 0]> (t_sig_blocked child)) |>
    <| t_sig_actions := foldl (fun m s => <[s := sig_action parent s]> m) (t_sig_actions child) (seqZ 1 64) |>
    <| t_sig_saved_valid := false |> <| t_sig_active := false |> <| t_cwd := t_cwd parent |>.

(** Writing the child's pid to user memory, if asked to; the task is given up when this fails. *)
Definition clone_set_tid (asked : bool) (slot ptr pid : Z) : ST kernel bool :=
  if negb asked || (ptr =? 0) then st_ret true
  else
    let! r := user_copy_to ptr (int_bytes pid) in
    if r =? 0 then st_ret true
    else
      task_fd_table_release slot ;;;
      st_mod (upd_task slot (fun t => t <| t_used := false |>)) ;;;
      st_ret false.

(** The part of sys_clone after the record of the new task is filled in. *)
Definition clone_rest (pi slot flags child_stack ptid ctid tls pid : Z) : ST kernel Z :=
  let! r := task_fd_table_clone pi slot (has flags CLONE_FILES) in
  if r <? 0 then
    st_mod (upd_task slot (fun t => t <| t_used := false |>)) ;;; st_ret (- EMFILE)
  else
    (if has flags CLONE_SETTLS then st_mod (upd_task slot (fun t => t <| t_ctx := set_reg (t_ctx t) FS_BASE tls |>)) else st_ret tt) ;;;
    (if negb (child_stack =? 0)
     then st_mod (upd_task slot (fun t => t <| t_ctx := set_reg (set_reg (t_ctx t) RSP child_stack) RBP 0 |>)) else st_ret tt) ;;;
    let! ok := clone_set_tid (has flags CLONE_PARENT_SETTID) slot ptid pid in
    if negb ok then st_ret (- EFAULT)
    else
      let! ok := clone_set_tid (has flags CLONE_CHILD_CLEARTID) slot ctid pid in
      if negb ok then st_ret (- EFAULT)
      else
        st_mod (upd_task pi (fun t => t <| t_ctx := set_reg (t_ctx t) RAX pid |>)) ;;;
        let! k := st_get in
        (if has flags CLONE_THREAD then st_mod (upd_task slot (fun t => t <| t_tgid := t_tgid (task k pi) |>)) else st_ret tt) ;;;
        st_ret pid.

(** The part of sys_clone after its checks, in the free [slot]. *)
Definition clone_into (slot : Z) (f : regs) (flags child_stack ptid ctid tls : Z) : ST kernel Z :=
  let! k := st_get in
  let pi := k_current k in
  task_save_from_frame pi f ;;;
  let! k := st_get in
  let pid := k_next_pid k in
  st_mod (fun k => k <| k_next_pid := pid + 1 |>) ;;;
  st_mod (fun k => set_task slot (child_task (task k pi) (task k slot) pid flags ctid) k) ;;;
  clone_rest pi slot flags child_stack ptid ctid tls pid.

Definition sys_clone (f : regs) (flags child_stack ptid ctid tls : Z) : ST kernel Z :=
  task_init_root ;;;
  let! k := st_get in
  if has flags CLONE_SETTLS && (USER_LIMIT <=? tls) then st_ret (- EFAULT)
  else if negb (Z.land flags (not64 allowed_clone_flags) =? 0) then st_ret (- EINVAL)
  else if negb (has flags CLONE_VM) then st_ret (- ENOSYS)
  else if negb (child_stack =? 0) && negb (task_clone_stack_top_writable k (k_current k) child_stack) then st_ret (- EFAULT)
  else if has flags CLONE_PARENT_SETTID && ((ptid =? 0) || negb (user_range_ok k ptid 4 true)) then st_ret (- EFAULT)
  else if has flags CLONE_CHILD_CLEARTID && ((ctid =? 0) || negb (user_range_ok k ctid 4 true)) then st_ret (- EFAULT)
  else
    match find (fun i => negb (t_used (task k i))) all_tasks with
    | None => st_ret (- ENOMEM)
    | Some slot => clone_into slot f flags child_stack ptid ctid tls
    end.

Definition sys_fork (f : regs) : ST kernel Z :=
  let! pid := sys_clone f (Z.lor CLONE_VM (Z.lor CLONE_FS CLONE_SIGHAND)) 0 0 0 0 in
  if pid <? 0 then st_ret pid
  else
    let! k := st_get in
    match find (fun i => t_used (task k i) && (t_pid (task k i) =? pid)) all_tasks with
    | None => st_ret (-3)
    | Some child =>
        st_mod (upd_task child (fun t => t <| t_state := TASK_BLOCKED |>)) ;;;
        let! r := on_vm (vmm_user_space_clone (t_ctx (task k (k_current k)) CR3)) in
        let '(rc, child_cr3) := r in
        if negb (rc =? 0) then
          task_reap_resources child ;;;
          st_mod (upd_task child free_slot) ;;;
          st_ret (- ENOMEM)
        else
          st_mod (upd_task child (fun t => t <| t_ctx := set_reg (t_ctx t) CR3 child_cr3 |> <| t_state := TASK_RUNNABLE |>)) ;;;
          on_vm vmm_user_flush_tlb ;;;
          st_ret pid
    end.

(** ** Preemption *)

(** The default action of SIGINT, which the timer takes itself: the task
    becomes a zombie and its parent is told. *)
Definition timer_kill (c : Z) : ST kernel unit :=
  st_mod (upd_task c (sig_clear_pending SIGINT)) ;;;
  st_mod (upd_task c (fun t => t <| t_exit_status := 130 |> <| t_state := TASK_ZOMBIE |>)) ;;;
  drop_framebuffer c ;;;
  task_fd_table_release c ;;;
  let! k := st_get in
  let cur := task k c in
  match parent_slot k (t_ppid cur) with
  | None => st_ret tt
  | Some p =>
      st_mod (upd_task p (fun t => t <| t_sig_pending := <[0 := Z.lor (arr (t_sig_pending t) 0) (Z.shiftl 1 16)]> (t_sig_pending t) |>)) ;;;
      let! k := st_get in
      if waits_for (task k p) cur then
        let! r := (if t_wait4_status_ptr (task k p) =? 0 then st_ret 0
                   else on_vm (user_copy_to_cr3 (t_ctx (task k p) CR3) (t_wait4_status_ptr (task k p)) (int_bytes (wait_status (t_exit_status cur))))) in
        if r =? 0 then st_mod (upd_task p (finish_wait4 (t_pid cur))) else st_ret tt
      else st_ret tt
  end.

(** timer_preempt_from_user for an interrupt taken with code segment [cs] and
    registers [f], after the devices were polled; the task to load, if any. *)
Definition timer_preempt (cs : Z) (f : regs) : ST kernel (option Z) :=
  let! k := st_get in
  let c := k_current k in
  if negb (Z.land cs 3 =? 3) then st_ret None
  else if negb (task_ok c) || negb (t_used (task k c)) then st_ret None
  else
    st_mod (fun k => upd_task c (fun t => t <| t_ctx := set_reg (saved_regs k f) CR3 (m_cr3 (k_vm k)) |>
                                           <| t_cpu_ticks := u64 (t_cpu_ticks t + 1) |>) k) ;;;
    let! k := st_get in
    let cur := task k c in
    (if has (arr (t_sig_pending cur) 0) 2 && negb (has (arr (t_sig_blocked cur) 0) 2) then
       let handler := sa_handler (sig_action cur 2) in
       if handler =? 1 then st_mod (upd_task c (sig_clear_pending SIGINT))
       else if (handler =? 0) && (1 <? t_pid cur) then timer_kill c
       else st_ret tt
     else st_ret tt) ;;;
    st_mod (fun k => if t_state (task k c) =? TASK_ZOMBIE then k else upd_task c (fun t => t <| t_state := TASK_RUNNABLE |>) k) ;;;
    let! k := st_get in
    let next := task_pick_next k in
    let next := if (next <? 0) && (t_state (task k c) =? TASK_ZOMBIE) && t_used (task k 0) && negb (t_state (task k 0) =? TASK_ZOMBIE)
                then 0 else next in
    if next <? 0 then
      st_mod (upd_task c (fun t => t <| t_state := TASK_RUNNING |>)) ;;; st_ret None
    else
      switch_to next ;;; st_ret (Some next).
