(* ===== verification/Frames.v ===== *)
(** * What the operations on descriptors leave alone

    The calls on descriptor tables, pipes and terminals and the copies to user
    space change no task; [keeps] goes through their programs. *)

From S2P Require Import Prelude Words Pmm Vmm CStr Vfs Kernel Tty Fd Sched SchedFacts UserCopy Pipe.
Local Open Scope Z_scope.
Local Open Scope st_scope.

(** The tasks, the running one and the next process number. *)
Definition same_tasks : relation kernel := fun k k' =>
  k_tasks k' = k_tasks k /\ k_current k' = k_current k /\ k_next_pid k' = k_next_pid k.

#[global] Instance same_tasks_preorder : PreOrder same_tasks.
Proof. split; [done|]. intros k1 k2 k3 (A & B & C) (D & E & F). repeat split; congruence. Qed.

Lemma same_task k k' i : same_tasks k k' -> task k' i = task k i.
Proof. intros (E & _). unfold task. by rewrite E. Qed.

#[export] Hint Extern 1 (same_tasks _ _) => done : keeps.

(** The memory as well. *)
Definition same_core : relation kernel := fun k k' => same_tasks k k' /\ k_vm k' = k_vm k.

#[global] Instance same_core_preorder : PreOrder same_core.
Proof. split; [done|]. intros k1 k2 k3 [A B] [C D]. split; [by transitivity k2 | congruence]. Qed.

#[export] Hint Extern 1 (same_core _ _) => done : keeps.

Lemma core_tasks {A} (m : ST kernel A) : keeps same_core m -> keeps same_tasks m.
Proof. apply keeps_weaken. by intros ? ? []. Qed.

Lemma keeps_on_vm {A} (c : ST machine A) : keeps same_tasks (on_vm c).
Proof. intros k. unfold exec, on_vm. by destruct (c (k_vm k)). Qed.
#[export] Hint Resolve keeps_on_vm : keeps.

Lemma keeps_user_copy_to dst l : keeps same_tasks (user_copy_to dst l).
Proof. unfold user_copy_to. keeps. Qed.
#[export] Hint Resolve keeps_user_copy_to : keeps.

Lemma keeps_set_table_id ti id : keeps same_core (st_mod (set_table_id ti id)).
Proof. by intros k. Qed.
Lemma keeps_input_release p : keeps same_core (input_state_release p).
Proof. unfold input_state_release. keeps. Qed.
Lemma keeps_input_retain p : keeps same_core (input_state_retain p).
Proof. unfold input_state_retain. keeps. Qed.
Lemma keeps_offset_release p : keeps same_core (release_open_offset p).
Proof. unfold release_open_offset. keeps. Qed.
Lemma keeps_offset_retain p : keeps same_core (retain_open_offset p).
Proof. unfold retain_open_offset. keeps. Qed.
Lemma keeps_epoll_retain t fd : keeps same_core (epoll_retain_file t fd).
Proof. unfold epoll_retain_file. keeps. Qed.
Lemma keeps_epoll_release t fd : keeps same_core (epoll_release_file t fd).
Proof. unfold epoll_release_file. keeps. Qed.
Lemma keeps_socket_drop t fd : keeps same_core (socket_fd_drop_ref t fd).
Proof. unfold socket_fd_drop_ref. keeps. Qed.
#[export] Hint Resolve keeps_set_table_id keeps_input_release keeps_input_retain keeps_offset_release keeps_offset_retain keeps_epoll_retain
  keeps_epoll_release keeps_socket_drop : keeps.

Lemma keeps_drop_endpoint t fd : keeps same_core (drop_endpoint t fd).
Proof. unfold drop_endpoint. keeps. Qed.
Lemma keeps_fd_release t fd : keeps same_core (task_fd_release t fd).
Proof. unfold task_fd_release, fd_mark_closed. keeps. Qed.
Lemma keeps_retain_endpoint t fd : keeps same_core (fd_retain_endpoint_ref t fd).
Proof. unfold fd_retain_endpoint_ref. keeps. Qed.
#[export] Hint Resolve keeps_drop_endpoint keeps_fd_release keeps_retain_endpoint : keeps.

Lemma keeps_close_table t : keeps same_core (close_table t).
Proof.
  intros k. unfold close_table, exec. cbn [snd]. apply keeps_fold; [exact _|]. intros k1 fd. destruct (negb _); [done|].
  apply (keeps_bind same_core (drop_endpoint t fd) (fun _ => task_fd_release t fd)); auto with keeps.
Qed.
#[export] Hint Resolve keeps_close_table : keeps.

Lemma keeps_table_release ti : keeps same_core (task_fd_table_release ti).
Proof. unfold task_fd_table_release. keeps. Qed.

Lemma keeps_clone_fd s d fd : keeps same_core (clone_fd s d fd).
Proof. unfold clone_fd. keeps. Qed.

Lemma keeps_clone_loop s d : keeps same_core (fun k => (tt, foldl (fun k fd => snd (clone_fd s d fd k)) k (seqZ 0 MAX_FILES))).
Proof. intros k. unfold exec. cbn [snd]. apply keeps_fold; [exact _|]. intros k1 fd. apply keeps_clone_fd. Qed.
#[export] Hint Resolve keeps_table_release keeps_clone_loop : keeps.

Lemma keeps_table_clone pi ci share : keeps same_core (task_fd_table_clone pi ci share).
Proof. unfold task_fd_table_clone. keeps. Qed.
#[export] Hint Resolve keeps_table_clone : keeps.

#[export] Hint Extern 1 (keeps same_tasks (task_fd_table_release _)) => (apply core_tasks; auto with keeps nocore) : keeps.
#[export] Hint Extern 1 (keeps same_tasks (task_fd_table_clone _ _ _)) => (apply core_tasks; auto with keeps nocore) : keeps.

(** ** What changes tasks only *)

Definition tasks_only : relation kernel := fun k k' => k' = k <| k_tasks := k_tasks k' |>.

#[global] Instance tasks_only_preorder : PreOrder tasks_only.
Proof. split; [by intros []|]. intros k1 k2 k3 A B. unfold tasks_only in *. rewrite B, A at 1. by destruct k1. Qed.

Lemma keeps_wake_tasks : keeps tasks_only task_wake_io_waiters.
Proof.
  intros k. unfold task_wake_io_waiters, exec. assert (H : forall (l : list Z) (st : Z * kernel), tasks_only k (snd st) -> tasks_only k (snd (foldl wake_step st l))).
  { induction l as [|i l IH]; intros [w k1] Hs; [done|]. cbn [foldl]. apply IH. unfold wake_step. destruct (_ || _); [done|]. cbn [snd] in *.
    refine (PreOrder_Transitive _ _ _ Hs _). by destruct k1. }
  apply H. reflexivity.
Qed.

Lemma keeps_signal_tasks who sig : keeps tasks_only (signal_tasks who sig).
Proof.
  intros k. unfold signal_tasks, exec. set (g := fun _ _ => _).
  assert (H : forall (l : list Z) (st : Z * kernel), tasks_only k (snd st) -> tasks_only k (snd (foldl g st l))).
  { induction l as [|i l IH]; intros [n k1] Hs; [done|]. cbn [foldl]. apply IH. unfold g. destruct (who (task k1 i)); [|done]. cbn [snd] in *.
    refine (PreOrder_Transitive _ _ _ Hs _). by destruct k1. }
  specialize (H all_tasks (0, k)). destruct (foldl g (0, k) all_tasks) as [n k1]. apply H. reflexivity.
Qed.
