(* ===== verification/ProcFacts.v ===== *)
(** * The process table

    The invariant of the table of tasks and the two kinds of steps that keep
    it: [shrinks], which starts no task and creates none, and the switches; that
    every call, clone and fork included, is made of such steps; and what an
    exit does to the process and its parent. *)

From S2P Require Import Prelude Words Pmm Vmm CStr Vfs Kernel Tty Fd Sched SchedFacts UserCopy Pipe LazyMmap Signals SignalFacts.
From S2P Require Import Process Frames.
Local Open Scope Z_scope.
Local Open Scope st_scope.

(** The running task is the only one in state RUNNING, the root is never
    given up, process numbers are distinct and below the next one, and a
    child has a higher number than its parent. *)
Record proc_ok (k : kernel) : Prop := {
  po_current : task_ok (k_current k) = true /\ t_used (task k (k_current k)) = true;
  po_root : t_used (task k 0) = true /\ t_ppid (task k 0) = 0;
  po_pids : forall i, t_used (task k i) = true -> 0 <= t_ppid (task k i) < t_pid (task k i) /\ t_pid (task k i) < k_next_pid k;
  po_unique : forall i j, t_used (task k i) = true -> t_used (task k j) = true -> t_pid (task k i) = t_pid (task k j) -> i = j;
  po_running : forall i, t_used (task k i) = true -> t_state (task k i) = TASK_RUNNING -> i = k_current k
}.

Definition none_running (k : kernel) : Prop := forall i, t_used (task k i) = true -> t_state (task k i) <> TASK_RUNNING.

(** What the step may do to one task; [keep] tells a task that must stay in use. *)
Definition task_shrinks (keep : bool) (t t' : task_t) : Prop :=
  (t_used t' = true -> t_used t = true /\ t_pid t' = t_pid t /\ t_ppid t' = t_ppid t /\ (t_state t' = TASK_RUNNING -> t_state t = TASK_RUNNING)) /\
  (keep = true -> t_used t = true -> t_used t' = true).

Definition shrinks : relation kernel := fun k k' =>
  k_current k' = k_current k /\ k_next_pid k' = k_next_pid k /\
  forall i, task_shrinks ((i =? 0) || (i =? k_current k)) (task k i) (task k' i).

Lemma task_shrinks_refl b t : task_shrinks b t t.
Proof. done. Qed.

#[global] Instance shrinks_preorder : PreOrder shrinks.
Proof.
  split; [done|]. intros k1 k2 k3 (A & B & C) (D & E & F). split; [congruence|]. split; [congruence|]. intros i.
  destruct (C i) as [C1 C2]. specialize (F i). rewrite A in F. destruct F as [F1 F2]. split; [|tauto].
  intros H. destruct (F1 H) as (U & P & Q & R). destruct (C1 U) as (U' & P' & Q' & R'). split; [done|]. split; [congruence|]. split; [congruence|]. tauto.
Qed.

Lemma same_tasks_shrinks k k' : same_tasks k k' -> shrinks k k'.
Proof. intros (A & B & C). split; [done|]. split; [done|]. intros i. rewrite (same_task k k') by done. apply task_shrinks_refl. Qed.

Lemma keeps_shrinks {A} (m : ST kernel A) : keeps same_tasks m -> keeps shrinks m.
Proof. apply keeps_weaken, same_tasks_shrinks. Qed.

Lemma shrinks_ok k k' : proc_ok k -> shrinks k k' -> proc_ok k'.
Proof.
  intros [[C1 C2] [R1 R2] P U R] (A & B & H).
  assert (Hu : forall i, t_used (task k' i) = true -> t_used (task k i) = true /\ t_pid (task k' i) = t_pid (task k i) /\
    t_ppid (task k' i) = t_ppid (task k i) /\ (t_state (task k' i) = TASK_RUNNING -> t_state (task k i) = TASK_RUNNING)) by (intros i; apply (H i)).
  assert (R0 : t_used (task k' 0) = true) by (by apply (H 0)). split.
  - rewrite A. split; [done|]. apply (H (k_current k)); [by rewrite Z.eqb_refl, orb_true_r | done].
  - split; [done|]. destruct (Hu 0 R0) as (_ & _ & -> & _). done.
  - intros i Hi. destruct (Hu i Hi) as (Ui & -> & -> & _). rewrite B. by apply P.
  - intros i j Hi Hj. destruct (Hu i Hi) as (Ui & -> & _), (Hu j Hj) as (Uj & -> & _). by apply U.
  - intros i Hi Hs. destruct (Hu i Hi) as (Ui & _ & _ & Si). rewrite A. apply R; [done | by apply Si].
Qed.

Lemma shrinks_none k k' : none_running k -> shrinks k k' -> none_running k'.
Proof. intros N (_ & _ & H) i Hi Hs. destruct (proj1 (H i) Hi) as (U & _ & _ & R). by apply (N i U), R. Qed.

(** An update of one task. *)
Definition tame (f : task_t -> task_t) : Prop :=
  forall t, t_used (f t) = t_used t /\ t_pid (f t) = t_pid t /\ t_ppid (f t) = t_ppid t /\ (t_state (f t) = TASK_RUNNING -> t_state t = TASK_RUNNING).

Lemma tame_upd i f k : tame f -> shrinks k (upd_task i f k).
Proof.
  intros Hf. split; [done|]. split; [done|]. intros j. rewrite task_upd. destruct (Z.eqb_spec i j) as [<-|]; [|apply task_shrinks_refl].
  destruct (Hf (task k i)) as (E1 & E2 & E3 & E4). split; rewrite E1; [done | done].
Qed.

Lemma tame_set i t k : (forall b, task_shrinks b (task k i) t) -> shrinks k (set_task i t k).
Proof. intros Ht. split; [done|]. split; [done|]. intros j. rewrite task_set. destruct (Z.eqb_spec i j) as [<-|]; [apply Ht | apply task_shrinks_refl]. Qed.

(** Updates of the fields of a task: the state they set, if any, is not
    RUNNING. *)
Ltac tame := intros ?; cbn; repeat split; first [reflexivity | discriminate | (intros; assumption) | idtac].

Lemma tame_pending s : tame (fun t => snd (sig_pending_set s t)).
Proof. intros t. unfold sig_pending_set. by destruct (negb (sig_valid s)). Qed.

#[export] Hint Extern 2 (shrinks _ (upd_task _ _ _)) => (apply tame_upd; solve [apply tame_pending | tame]) : keeps.
#[export] Hint Extern 2 (shrinks _ (_ <| k_user_exit_pending := _ |>)) => done : keeps.
#[export] Hint Extern 2 (shrinks _ (_ <| k_framebuffer_users := _ |>)) => done : keeps.
#[export] Hint Extern 1 (keeps shrinks (on_vm _)) => (apply keeps_shrinks; auto with keeps nocore) : keeps.
#[export] Hint Extern 1 (keeps shrinks (user_copy_to _ _)) => (apply keeps_shrinks; auto with keeps nocore) : keeps.
#[export] Hint Extern 1 (keeps shrinks (task_fd_table_release _)) => (apply keeps_shrinks; auto with keeps nocore) : keeps.

Lemma shrinks_save ti f : keeps shrinks (task_save_from_frame ti f).
Proof. intros k. unfold task_save_from_frame, exec. cbn [st_mod snd]. apply tame_upd. tame. Qed.

Lemma shrinks_framebuffer ti : keeps shrinks (drop_framebuffer ti).
Proof. unfold drop_framebuffer. keeps. Qed.

Lemma shrinks_root k : proc_ok k -> task_init_root k = (tt, k).
Proof. intros Ho. unfold task_init_root, st_bind, st_get. by rewrite (proj1 (po_root _ Ho)). Qed.
#[export] Hint Resolve shrinks_save shrinks_framebuffer : keeps.

Lemma wake_futex_tame : tame wake_futex.
Proof. tame. Qed.

Lemma shrinks_clear_tid ti : keeps shrinks (task_clear_child_tid ti).
Proof.
  unfold task_clear_child_tid. keeps. apply keeps_fold; [exact _|]. intros k i. destruct (waits_on_futex _ _ _); [|reflexivity].
  apply tame_upd, wake_futex_tame.
Qed.

Lemma shrinks_reap ti : keeps shrinks (task_reap_resources ti).
Proof. unfold task_reap_resources. keeps. Qed.
#[export] Hint Resolve shrinks_clear_tid shrinks_reap : keeps.

(** Giving a slot back, which is neither the root's nor the running task's. *)
Lemma shrinks_free i k : i <> 0 -> i <> k_current k -> shrinks k (upd_task i free_slot k).
Proof.
  intros H0 Hc. split; [done|]. split; [done|]. intros j. rewrite task_upd. destruct (Z.eqb_spec i j) as [<-|]; [|apply task_shrinks_refl].
  rewrite (proj2 (Z.eqb_neq i 0)), (proj2 (Z.eqb_neq i (k_current k))) by done. done.
Qed.

Lemma shrinks_wake_parent ti l : keeps shrinks (wake_parent ti l).
Proof.
  induction l as [|i l IH]; [apply keeps_ret; exact _|]. cbn [wake_parent]. apply keeps_get. intros k. cbv zeta.
  destruct (negb (waits_for _ _)); [done|]. apply keeps_bind; [exact _ | auto with keeps nocore | intros a].
  destruct (negb (a =? 0)); [done|]. apply keeps_bind; [exact _ | destruct (_ =? 0); auto with keeps nocore; apply keeps_ret; exact _ | intros r].
  destruct (negb (r =? 0)); [done|]. apply keeps_mod. intros k1. apply tame_upd. tame.
Qed.
#[export] Hint Resolve shrinks_wake_parent : keeps.

(** ** Switching *)

Lemma account_switch_tame i : keeps shrinks (task_account_switch i).
Proof. unfold task_account_switch. keeps. Qed.

Definition switched (next : Z) (k k' : kernel) : Prop :=
  k_current k' = next /\ k_next_pid k' = k_next_pid k /\
  forall i, t_used (task k' i) = t_used (task k i) /\ t_pid (task k' i) = t_pid (task k i) /\ t_ppid (task k' i) = t_ppid (task k i) /\
    t_state (task k' i) = if i =? next then TASK_RUNNING else t_state (task k i).

(** The first two steps of every switch. *)
Lemma switched_first next k :
  switched next k (exec (st_mod (upd_task next (fun t => t <| t_state := TASK_RUNNING |>)) ;;; st_mod (fun k => k <| k_current := next |>)) k).
Proof.
  unfold exec, st_bind, st_mod. cbn [snd]. split; [done|]. split; [done|]. intros i. change (task (?k <| k_current := ?c |>) i) with (task k i).
  rewrite task_upd. rewrite (Z.eqb_sym i next). destruct (Z.eqb_spec next i) as [<-|]; done.
Qed.

Lemma switched_same next k k1 k2 : switched next k k1 -> same_tasks k1 k2 -> switched next k k2.
Proof.
  intros (A & B & C) Hs. pose proof (fun i => same_task k1 k2 i Hs) as Ht. destruct Hs as (_ & E & F). split; [congruence|]. split; [congruence|].
  intros i. rewrite Ht. apply C.
Qed.

Lemma switched_upd next k k1 i f : switched next k k1 ->
  (forall t, t_used (f t) = t_used t /\ t_pid (f t) = t_pid t /\ t_ppid (f t) = t_ppid t /\ t_state (f t) = t_state t) -> switched next k (upd_task i f k1).
Proof.
  intros (A & B & C) Hf. split; [done|]. split; [done|]. intros j. rewrite task_upd. destruct (Z.eqb_spec i j) as [<-|]; [|apply C].
  destruct (Hf (task k1 i)) as (-> & -> & -> & ->). apply C.
Qed.

Lemma switch_to_switched next k : switched next k (exec (switch_to next) k).
Proof.
  assert (Hk : keeps same_tasks (let! k := st_get in let! _ := on_vm (vmm_user_activate (t_ctx (task k next) CR3)) in
                                 st_mod (fun k => k <| k_task_switch_target := next |>))) by keeps.
  unfold switch_to. rewrite !exec_seq. refine (switched_same next k _ _ _ (Hk _)). unfold task_account_switch. rewrite exec_get.
  pose proof (switched_first next k) as H1. rewrite exec_seq in H1. revert H1. generalize (exec (st_mod (fun k => k <| k_current := next |>)) (exec (st_mod (upd_task next (fun t => t <| t_state := TASK_RUNNING |>))) k)). intros k1 H1.
  destruct (_ || _); [exact H1|]. by apply switched_upd.
Qed.

Lemma switch_from_switched next k : switched next k (exec (switch_from_syscall next) k).
Proof. unfold switch_from_syscall. rewrite exec_seq. by apply (switched_same next k _ _ (switch_to_switched next k)). Qed.

Lemma switch_uncounted_switched next k : switched next k (exec (switch_uncounted next) k).
Proof.
  assert (Hk : keeps same_tasks (let! k := st_get in let! _ := on_vm (vmm_user_activate (t_ctx (task k next) CR3)) in
     st_mod (fun k => k <| k_task_switch_target := next |> <| k_task_switch_pending := true |> <| k_task_return_ctx := Some next |>))) by keeps.
  unfold switch_uncounted. rewrite !exec_seq. refine (switched_same next k _ _ _ (Hk _)).
  pose proof (switched_first next k) as H1. by rewrite exec_seq in H1.
Qed.

(** The switch from a task that has left its state RUNNING. *)
Lemma switched_ok next k k' : proc_ok k -> none_running k -> task_ok next = true -> t_used (task k next) = true -> switched next k k' -> proc_ok k'.
Proof.
  intros [C R P U _] N Hn Hu (A & B & H). split.
  - rewrite A. destruct (H next) as (-> & _). done.
  - destruct (H 0) as (-> & _ & -> & _). done.
  - intros i. destruct (H i) as (-> & -> & -> & _). rewrite B. apply P.
  - intros i j. destruct (H i) as (-> & -> & _), (H j) as (-> & -> & _). apply U.
  - intros i. destruct (H i) as (-> & _ & _ & ->). rewrite A. intros Hi. destruct (Z.eqb_spec i next); [done|]. intros Hs. by destruct (N i Hi).
Qed.

(** The scheduler's choice. *)
Lemma pick_runnable k : task_pick_next k = -1 \/ (task_ok (task_pick_next k) = true /\ t_used (task k (task_pick_next k)) = true /\
  t_state (task k (task_pick_next k)) = TASK_RUNNABLE).
Proof.
  unfold task_pick_next.
  assert (H : forall l st, (fst (fst st) = -1 \/ (task_ok (fst (fst st)) = true /\ t_used (task k (fst (fst st))) = true /\ t_state (task k (fst (fst st))) = TASK_RUNNABLE)) ->
    let b := fst (fst (foldl (pick_step k) st l)) in b = -1 \/ (task_ok b = true /\ t_used (task k b) = true /\ t_state (task k b) = TASK_RUNNABLE)).
  { induction l as [|n l IH]; intros st Hst; [done|]. cbn [foldl]. apply IH. destruct st as [[b bn] bs]. cbn [fst] in Hst. unfold pick_step.
    destruct (t_used (task k ((k_current k + n) mod MAX_TASKS))) eqn:Eu; cbn [negb orb]; [|done]. destruct (Z.eqb_spec (t_state (task k ((k_current k + n) mod MAX_TASKS))) TASK_RUNNABLE); cbn [negb]; [|done].
    destruct (_ || _); [|done]. cbn [fst]. right. split; [|done]. unfold task_ok. pose proof (Z.mod_pos_bound (k_current k + n) MAX_TASKS). unfold MAX_TASKS in *. lia. }
  specialize (H (seqZ 1 MAX_TASKS) (-1, 1000000, UINT64_MAX) (or_introl eq_refl)). cbn zeta in H.
  destruct (foldl _ _ _) as [[b bn] bs]. exact H.
Qed.

Lemma pick_used k : 0 <= task_pick_next k -> task_ok (task_pick_next k) = true /\ t_used (task k (task_pick_next k)) = true.
Proof. intros H. destruct (pick_runnable k) as [E|(A & B & _)]; [lia | done]. Qed.

Lemma task_ok_elem i : i ∈ all_tasks -> task_ok i = true.
Proof. unfold all_tasks, task_ok. rewrite elem_of_seqZ. lia. Qed.

Lemma find_task (P : Z -> bool) i : find P all_tasks = Some i -> task_ok i = true /\ P i = true.
Proof. intros H. destruct (find_some _ _ H) as [Hi Hp]. split; [by apply task_ok_elem, list_elem_of_In | done]. Qed.

Lemma exit_next_used k ppid : t_used (task k 0) = true -> task_ok (exit_next k ppid) = true /\ t_used (task k (exit_next k ppid)) = true.
Proof.
  intros H0. unfold exit_next. set (a := if 0 <? ppid then _ else -1).
  assert (Ha : a = -1 \/ (task_ok a = true /\ t_used (task k a) = true)).
  { unfold a. destruct (0 <? ppid); [|by left]. destruct (find _ all_tasks) as [i|] eqn:E; [|by left]. right.
    apply find_task in E as [Hi [[Hu _]%andb_prop _]%andb_prop]. done. }
  destruct (Z.ltb_spec a 0) as [Hlt|Hge].
  - destruct (Z.ltb_spec (task_pick_next k) 0); [done|]. by apply pick_used.
  - rewrite (proj2 (Z.ltb_ge a 0)) by done. destruct Ha as [->|Ha]; [lia | done].
Qed.

(** The current task leaves the state RUNNING. *)
Lemma stop_current k f : proc_ok k -> (forall t, t_used (f t) = t_used t /\ t_state (f t) <> TASK_RUNNING) -> none_running (upd_task (k_current k) f k).
Proof.
  intros Ho Hf i. rewrite task_upd. destruct (Z.eqb_spec (k_current k) i) as [<-|Hne].
  - intros _. apply Hf.
  - intros Hu Hs. by apply Hne, eq_sym, (po_running _ Ho).
Qed.

(** ** Every call keeps the process table well formed *)

(** Between two tasks: the one that ran has left its state. *)
Definition stopped (k : kernel) : Prop := proc_ok k /\ none_running k.

Lemma stopped_shrinks k k' : stopped k -> shrinks k k' -> stopped k'.
Proof. intros [H N] Hs. split; [by apply (shrinks_ok k) | by apply (shrinks_none k)]. Qed.

Lemma stop_ok k f : proc_ok k -> tame f -> (forall t, t_state (f t) <> TASK_RUNNING) -> stopped (upd_task (k_current k) f k).
Proof.
  intros Ho Hf Hs. split; [apply (shrinks_ok k); [done | by apply tame_upd]|]. apply stop_current; [done|]. intros t. split; [apply Hf | apply Hs].
Qed.

Lemma switched_stopped next k k' : stopped k -> task_ok next = true /\ t_used (task k next) = true -> switched next k k' -> proc_ok k'.
Proof. intros [Ho N] [H1 H2]. by apply switched_ok. Qed.

Lemma switch_from_ok next k : stopped k -> task_ok next = true /\ t_used (task k next) = true -> proc_ok (snd (switch_from_syscall next k)).
Proof. intros Hst Hn. exact (switched_stopped next k _ Hst Hn (switch_from_switched next k)). Qed.

(** Equality of results, stated so that the states are never evaluated. *)
Lemma some_state {A B} (a b : A) (x y : B) : Some (a, x) = Some (b, y) -> x = y.
Proof. congruence. Qed.

Lemma some_exec {A} (m : ST kernel A) k r k' : Some (m k) = Some (r, k') -> exec m k = k'.
Proof. unfold exec. by intros [= ->]. Qed.

(** The running task goes on. *)
Lemma restart_ok k f : proc_ok k -> (forall t, t_used (f t) = t_used t /\ t_pid (f t) = t_pid t /\ t_ppid (f t) = t_ppid t) -> proc_ok (upd_task (k_current k) f k).
Proof.
  intros [C R P U S] Hf. assert (H : forall i, t_used (task (upd_task (k_current k) f k) i) = t_used (task k i) /\
    t_pid (task (upd_task (k_current k) f k) i) = t_pid (task k i) /\ t_ppid (task (upd_task (k_current k) f k) i) = t_ppid (task k i)).
  { intros i. rewrite task_upd. destruct (Z.eqb_spec (k_current k) i) as [<-|]; [apply Hf | done]. }
  split.
  - destruct (H (k_current k)) as (E & _). change (k_current (upd_task _ f k)) with (k_current k). by rewrite E.
  - destruct (H 0) as (-> & _ & ->). done.
  - intros i. destruct (H i) as (-> & -> & ->). apply P.
  - intros i j. destruct (H i) as (-> & -> & _), (H j) as (-> & -> & _). apply U.
  - intros i. destruct (H i) as (-> & _). intros Hi. rewrite task_upd. change (k_current (upd_task _ f k)) with (k_current k).
    destruct (Z.eqb_spec (k_current k) i) as [<-|]; [done | by apply S].
Qed.

(** A program that starts no task keeps the table. *)
Lemma keeps_ok {A} (m : ST kernel A) k : keeps shrinks m -> proc_ok k -> proc_ok (exec m k).
Proof. intros Hm Ho. by apply (shrinks_ok k), Hm. Qed.

(** ** Exit *)

Lemma exit_ok status k : proc_ok k -> proc_ok (exec (sys_exit status) k).
Proof.
  intros Ho. unfold sys_exit. rewrite exec_seq. unfold exec at 2. rewrite (shrinks_root k Ho). cbn [snd]. rewrite exec_get. cbv zeta.
  destruct (Z.eqb_spec (k_current k) 0) as [E|E].
  { apply keeps_ok; [|done]. keeps. }
  set (ti := k_current k). rewrite !exec_seq. set (k1 := exec (task_fd_table_release ti) _).
  assert (H1 : shrinks k k1).
  { unfold k1. refine (PreOrder_Transitive _ _ _ (shrinks_framebuffer ti k) _). refine (PreOrder_Transitive _ _ _ (shrinks_clear_tid ti _) _).
    apply (keeps_shrinks _ (core_tasks _ (keeps_table_release ti))). }
  pose proof (shrinks_ok _ _ Ho H1) as Ho1. assert (E1 : k_current k1 = ti) by apply H1. clearbody k1.
  set (k2 := exec (st_mod _) k1).
  assert (Hst : stopped k2) by (unfold k2, exec; cbn [st_mod snd]; rewrite <- E1; apply stop_ok; [done | tame | done]). clearbody k2.
  rewrite exec_get. cbv zeta. set (ppid := t_ppid (task k2 ti)). rewrite !exec_seq, exec_get, exec_seq, exec_ret.
  set (k3 := exec (if 0 <? ppid then wake_parent ti all_tasks else st_ret tt) _).
  assert (H3 : shrinks k2 k3).
  { unfold k3. refine (PreOrder_Transitive _ (exec (if 0 <? ppid then match parent_slot k2 ppid with
      | Some p => st_mod (upd_task p (fun t => snd (sig_pending_set SIGCHLD t))) | None => st_ret tt end else st_ret tt) k2) _ _ _).
    - destruct (0 <? ppid); [|reflexivity]. destruct (parent_slot k2 ppid); [|reflexivity]. apply tame_upd, tame_pending.
    - destruct (0 <? ppid); [apply shrinks_wake_parent | reflexivity]. }
  pose proof (stopped_shrinks _ _ Hst H3) as Hst3. clearbody k3.
  apply (switched_stopped (exit_next k3 ppid) k3); [done | | apply switch_from_switched].
  apply exit_next_used. apply (po_root _ (proj1 Hst3)).
Qed.

Lemma exit_group_ok status k : proc_ok k -> proc_ok (exec (sys_exit_group status) k).
Proof.
  intros Ho. unfold sys_exit_group. rewrite exec_seq. unfold exec at 2. rewrite (shrinks_root k Ho). cbn [snd]. rewrite exec_get.
  destruct (negb _); [by apply exit_ok|]. apply keeps_ok; [|done]. keeps.
Qed.

Lemma exception_ok num k : proc_ok k -> proc_ok (exec (exception_terminate_user_process num) k).
Proof.
  intros Ho. unfold exception_terminate_user_process. rewrite exec_mod, (proj1 (po_current _ Ho)), exec_seq.
  unfold exec at 2. rewrite (shrinks_root k Ho). cbn [snd]. rewrite exec_mod, (proj2 (po_current _ Ho)), exec_bind, exec_ret. by apply exit_ok.
Qed.

(** ** Collecting children *)

(** A child of the running task is neither the root nor that task. *)
Lemma child_slot k i : proc_ok k -> t_used (task k i) = true -> t_ppid (task k i) = t_pid (task k (k_current k)) -> i <> 0 /\ i <> k_current k.
Proof.
  intros Ho Hu Hp. destruct (po_current _ Ho) as [_ Hc]. pose proof (po_pids _ Ho _ Hc) as Hcp. split.
  - intros ->. pose proof (proj2 (po_root _ Ho)). lia.
  - intros ->. lia.
Qed.

Lemma reap_child k i : proc_ok k -> i <> 0 -> i <> k_current k -> shrinks k (exec (task_reap_resources i ;;; st_mod (upd_task i free_slot)) k).
Proof.
  intros Ho H0 Hc. rewrite exec_seq. pose proof (shrinks_reap i k) as Hr. refine (PreOrder_Transitive _ _ _ Hr _).
  apply shrinks_free; [done|]. by rewrite (proj1 Hr).
Qed.

Lemma wait4_ok f pid status options k : proc_ok k -> proc_ok (exec (sys_wait4 f pid status options) k).
Proof.
  intros Ho. unfold sys_wait4. rewrite exec_seq. unfold exec at 2. rewrite (shrinks_root k Ho). cbn [snd]. rewrite exec_get. cbv zeta.
  destruct (_ && _); [done|]. destruct (negb _); [done|]. set (cur := k_current k).
  destruct (find _ all_tasks) as [i|] eqn:Ef.
  - apply find_task in Ef as [_ [[[Hu Hp%Z.eqb_eq]%andb_prop _]%andb_prop _]%andb_prop]. destruct (child_slot k i Ho Hu Hp) as [H0 Hc].
    rewrite exec_bind. set (c := if status =? 0 then _ else _). assert (H1 : keeps shrinks c) by (unfold c; keeps). pose proof (H1 k) as Hs1.
    destruct (negb (fst (c k) =? 0)); [by apply (shrinks_ok k)|]. rewrite <- exec_seq.
    assert (Ho1 : proc_ok (exec c k)) by (by apply (shrinks_ok k)). rewrite !exec_seq. rewrite <- (exec_seq (task_reap_resources i)).
    assert (Hr : shrinks (exec c k) (exec (task_reap_resources i ;;; st_mod (upd_task i free_slot)) (exec c k)))
      by (apply reap_child; [done | done | by rewrite (proj1 Hs1)]).
    apply (shrinks_ok _ _ Ho1). refine (PreOrder_Transitive _ _ _ Hr _). apply tame_upd, tame_pending.
  - destruct (has options 1); [done|]. rewrite !exec_seq, exec_get. cbv zeta. set (k1 := exec (st_mod (upd_task cur (fun t => t <| t_state := TASK_BLOCKED |>))) _).
    assert (Hst : stopped k1).
    { unfold k1. set (k0 := exec (task_save_from_frame cur f) _). assert (H0 : shrinks k k0).
      { unfold k0. refine (PreOrder_Transitive _ _ _ _ (shrinks_save cur f _)). apply tame_upd. tame. }
      assert (E0 : k_current k0 = cur) by apply H0. unfold exec. cbn [st_mod snd]. rewrite <- E0. apply stop_ok; [by apply (shrinks_ok k) | tame | done]. }
    assert (E1 : k_current k1 = cur) by done. destruct (Z.ltb_spec (task_pick_next k1) 0).
    + rewrite exec_mod, exec_ret, <- E1. apply restart_ok; [apply Hst | done].
    + rewrite exec_seq, exec_ret. apply (switched_stopped (task_pick_next k1) k1); [done | by apply pick_used | apply switch_uncounted_switched].
Qed.

Lemma enter_ok f k : proc_ok k -> proc_ok (exec (syscall_enter f) k).
Proof.
  intros Ho. unfold syscall_enter. rewrite exec_get. cbv zeta. set (d := k_current k). rewrite exec_seq, exec_get. cbv zeta.
  set (c := if negb (f CR3 =? 0) then _ else _). assert (Hc : keeps shrinks c) by (unfold c; keeps). pose proof (Hc k) as H1.
  pose proof (shrinks_ok _ _ Ho H1) as Ho1. assert (E1 : k_current (exec c k) = d) by apply H1. revert Ho1 E1. generalize (exec c k). intros k1 Ho1 E1.
  destruct (0 <? _); [|done]. rewrite exec_seq. apply (shrinks_ok k1); [done|].
  refine (PreOrder_Transitive _ _ _ _ _).
  - instantiate (1 := exec (match find (fun i => t_used (task k1 i) && (t_pid (task k1 i) =? t_wait4_reap_pid (task k1 d)) && (t_ppid (task k1 i) =? t_pid (task k1 d))
                          && (t_state (task k1 i) =? TASK_ZOMBIE)) all_tasks with
     | Some i => task_reap_resources i ;;; st_mod (upd_task i free_slot) | None => st_ret tt end) k1).
    destruct (find _ all_tasks) as [i|] eqn:Ef; [|reflexivity].
    apply find_task in Ef as [_ [[[Hu _]%andb_prop Hp%Z.eqb_eq]%andb_prop _]%andb_prop]. rewrite <- E1 in Hp. destruct (child_slot k1 i Ho1 Hu Hp). by apply reap_child.
  - apply tame_upd. tame.
Qed.

(** ** Futexes, yielding and sleeping *)

Lemma switch_blocked_ok k : proc_ok k -> proc_ok (exec task_switch_from_current_blocked k) /\
  (fst (task_switch_from_current_blocked k) = false -> exec task_switch_from_current_blocked k = k).
Proof.
  intros Ho. unfold task_switch_from_current_blocked. rewrite exec_get. rewrite bind_fst. change (exec st_get k) with k. change (fst (st_get k)) with k. cbv zeta.
  destruct (Z.ltb_spec (task_pick_next k) 0) as [Hlt|Hge]; [done|]. split; [|by rewrite !bind_fst].
  rewrite !exec_seq, exec_ret. set (k1 := exec (st_mod _) k).
  assert (Hst : stopped k1) by (unfold k1, exec; cbn [st_mod snd]; apply stop_ok; [done | tame | done]).
  apply (switched_stopped (task_pick_next k) k1); [done | | apply switch_uncounted_switched].
  destruct (pick_used k Hge) as [A B]. split; [done|]. unfold k1, exec. cbn [st_mod snd]. rewrite task_upd.
  destruct (Z.eqb_spec (k_current k) (task_pick_next k)) as [E|]; [rewrite E|]; exact B.
Qed.

Lemma futex_ok f uaddr op val timeout k : proc_ok k -> proc_ok (exec (sys_futex f uaddr op val timeout) k).
Proof.
  intros Ho. unfold sys_futex. rewrite exec_seq. unfold exec at 2. rewrite (shrinks_root k Ho). cbn [snd]. rewrite exec_get. cbv zeta.
  destruct (_ || _); [done|]. destruct (_ =? FUTEX_WAIT).
  - destruct (user_copy_from k uaddr 4) as [l|]; [|done]. destruct (negb _); [done|]. destruct (futex_deadline k timeout) as [e|dl]; [done|].
    set (ti := k_current k). rewrite !exec_seq, exec_bind. set (k1 := exec (st_mod _) _).
    assert (H1 : shrinks k k1).
    { unfold k1. refine (PreOrder_Transitive _ _ _ (shrinks_save ti f k) _). apply tame_upd. tame. }
    pose proof (shrinks_ok _ _ Ho H1) as Ho1. assert (E1 : k_current k1 = ti) by apply H1. clearbody k1.
    destruct (switch_blocked_ok k1 Ho1) as [A B]. destruct (fst (task_switch_from_current_blocked k1)); [rewrite exec_ret; exact A|].
    rewrite (B eq_refl), exec_seq, exec_ret. unfold exec. cbn [st_mod snd]. rewrite <- E1. by apply restart_ok.
  - destruct (_ =? FUTEX_WAKE); [|done]. destruct (negb _); [done|]. unfold exec. set (cr3 := Z.land _ _).
    assert (H : forall l st, shrinks k (snd st) -> shrinks k (snd (foldl (futex_wake_step uaddr cr3 val) st l))).
    { induction l as [|i l IH]; intros [w k1] Hs; [done|]. cbn [foldl]. apply IH. unfold futex_wake_step. destruct (negb _); [done|].
      destruct (_ || _); [done|]. cbn [snd] in *. refine (PreOrder_Transitive _ _ _ Hs _). apply tame_upd, wake_futex_tame. }
    by apply (shrinks_ok k), (H all_tasks (0, k)).
Qed.

Section Irq.
(** Interrupts taken while the kernel halts wake tasks and start none. *)
Variable tick : kernel -> kernel.
Hypothesis tick_shrinks : forall k, shrinks k (tick k).

Lemma yield_ok f k : proc_ok k -> proc_ok (exec (sys_sched_yield tick f) k).
Proof.
  intros Ho. unfold sys_sched_yield. rewrite exec_seq. unfold exec at 2. rewrite (shrinks_root k Ho). cbn [snd]. rewrite exec_get. cbv zeta.
  set (cur := k_current k). rewrite !exec_seq, exec_get. cbv zeta. set (k1 := exec (st_mod _) _).
  assert (H1 : shrinks k k1) by (unfold k1; refine (PreOrder_Transitive _ _ _ (shrinks_save cur f k) _); apply tame_upd; tame).
  pose proof (shrinks_ok _ _ Ho H1) as Ho1. assert (E1 : k_current k1 = cur) by apply H1. clearbody k1.
  destruct (Z.ltb_spec (task_pick_next k1) 0) as [Hlt|Hge].
  - rewrite exec_mod, exec_ret. by apply (shrinks_ok k1).
  - rewrite exec_mod, exec_seq, exec_ret, <- E1. set (k2 := upd_task _ _ k1).
    assert (Hst : stopped k2) by (apply stop_ok; [done | tame | done]).
    apply (switched_stopped (task_pick_next k1) k2); [done | | apply switch_from_switched].
    destruct (pick_used k1 Hge) as [A B]. split; [done|]. unfold k2. rewrite task_upd.
    destruct (Z.eqb_spec (k_current k1) (task_pick_next k1)) as [E|]; [rewrite E|]; exact B.
Qed.

Lemma idle_ok fuel ti : forall k k', stopped k -> k_current k = ti -> idle_loop tick fuel ti k = Some k' -> proc_ok k'.
Proof.
  assert (Hend : forall k k', stopped k -> k_current k = ti ->
    (let alt := task_pick_next k in if 0 <=? alt then Some (snd (switch_from_syscall alt k))
     else Some ((upd_task ti (fun t => t <| t_state := TASK_RUNNING |>) k) <| k_current := ti |> <| k_task_switch_target := ti |> <| k_task_switch_pending := true |>
              <| k_task_return_ctx := Some ti |>)) = Some k' -> proc_ok k').
  { intros k k' Hst Ec. cbv zeta. destruct (Z.leb_spec 0 (task_pick_next k)) as [Hge|]; intros E%(inj Some); rewrite <- E; clear E.
    - refine (switch_from_ok _ k Hst _). exact (pick_used k Hge).
    - apply (shrinks_ok (upd_task ti (fun t => t <| t_state := TASK_RUNNING |>) k)); [|].
      + rewrite <- Ec. apply restart_ok; [apply Hst | done].
      + rewrite <- Ec. split; [reflexivity|]. split; [reflexivity|]. intros i. apply task_shrinks_refl. }
  induction fuel as [|fuel IH]; intros k k' Hst Ec; cbn [idle_loop].
  - destruct (negb _); [exact (Hend k k' Hst Ec) | discriminate].
  - destruct (negb _); [exact (Hend k k' Hst Ec)|]. apply IH; [by apply (stopped_shrinks k)|]. rewrite (proj1 (tick_shrinks k)). done.
Qed.

Lemma shrinks_sleep f kind nr dl k : shrinks k (exec (sleep_task f kind nr dl) k).
Proof.
  unfold sleep_task. rewrite exec_get. cbv zeta. rewrite exec_seq. refine (PreOrder_Transitive _ _ _ (shrinks_save _ f k) _). apply tame_upd. tame.
Qed.

Lemma sleep_stopped f kind nr dl k : proc_ok k -> stopped (exec (sleep_task f kind nr dl) k) /\ k_current (exec (sleep_task f kind nr dl) k) = k_current k.
Proof.
  intros Ho. split; [|apply (shrinks_sleep f kind nr dl k)]. unfold sleep_task. rewrite exec_get. cbv zeta. rewrite exec_seq.
  pose proof (shrinks_save (k_current k) f k) as H1. rewrite <- (proj1 H1) at 1. unfold exec at 1. cbn [st_mod snd]. apply stop_ok; [by apply (shrinks_ok k) | tame | done].
Qed.

Lemma block_ok fuel f kind nr dl k r k' : proc_ok k -> task_block_io_until tick fuel f kind nr dl k = Some (r, k') -> proc_ok k'.
Proof.
  intros Ho. unfold task_block_io_until. rewrite (proj1 (po_current _ Ho)). cbn [negb]. cbv zeta. fold (exec (sleep_task f kind nr dl) k).
  destruct (sleep_stopped f kind nr dl k Ho) as [Hst Ec]. revert Hst Ec. generalize (exec (sleep_task f kind nr dl) k). intros k1 Hst Ec.
  destruct (Z.ltb_spec (task_pick_next k1) 0) as [Hlt|Hge].
  - destruct (idle_loop tick fuel (k_current k) k1) as [k2|] eqn:E; [|done]. intros E'%some_state. rewrite <- E'. exact (idle_ok fuel (k_current k) k1 k2 Hst Ec E).
  - intros E%some_state. rewrite <- E. refine (switch_from_ok _ k1 Hst _). exact (pick_used k1 Hge).
Qed.

Lemma resume_store_shrinks f nr a b : keeps shrinks (task_io_resume_store f nr a b).
Proof. unfold task_io_resume_store. keeps. Qed.
Lemma resume_clear_shrinks f nr : keeps shrinks (task_io_resume_clear f nr).
Proof. unfold task_io_resume_clear. keeps. Qed.
#[local] Hint Resolve resume_store_shrinks resume_clear_shrinks : keeps.

Lemma nanosleep_ok fuel f req rem k r k' : proc_ok k -> sys_nanosleep tick fuel f req rem k = Some (r, k') -> proc_ok k'.
Proof.
  intros Ho. assert (Hu : forall s d k', nanosleep_until tick fuel f rem s d k = Some (r, k') -> proc_ok k').
  { intros s d k1. unfold nanosleep_until. destruct (d <=? k_now k).
    - intros E%some_exec. rewrite <- E. apply keeps_ok; [|done]. keeps.
    - destruct (task_block_io_until _ _ _ _ _ _ _) as [[r1 k2]|] eqn:Eb; [|done].
      assert (Ho2 : proc_ok k2) by (eapply block_ok; [|exact Eb]; by apply (keeps_ok _ _ (resume_store_shrinks f 35 s d))).
      destruct (r1 =? 0); [by intros <-%some_state|]. intros E%some_exec. rewrite <- E. apply keeps_ok; [|done]. keeps. }
  unfold sys_nanosleep. destruct (if req =? 0 then None else user_copy_from k req 16) as [l|]; [|by intros <-%some_state].
  destruct (timespec_of l) as [sec nsec]. destruct (_ || _); [by intros <-%some_state|]. destruct (_ && _); [by intros <-%some_state|].
  destruct (_ <? sec); [by intros <-%some_state|]. cbv zeta. destruct (task_io_resume_matches k f 35); [apply Hu|].
  destruct (_ <? _); [by intros <-%some_state | apply Hu].
Qed.
End Irq.

(** ** Creation of tasks and preemption keep the process table well formed *)

(** A new task in a free slot. *)
Lemma create_ok k slot c : proc_ok k -> t_used (task k slot) = false -> t_pid c = k_next_pid k -> t_ppid c = t_pid (task k (k_current k)) ->
  t_state c <> TASK_RUNNING -> proc_ok (set_task slot c (k <| k_next_pid := k_next_pid k + 1 |>)) /\ slot <> 0 /\ slot <> k_current k.
Proof.
  intros [[C1 C2] [R1 R2] P U R] Hf Hp Hpp Hs. assert (H0 : slot <> 0) by (intros ->; congruence). assert (Hc : slot <> k_current k) by (intros ->; congruence).
  split; [|done]. set (k' := set_task slot c _).
  assert (Hn : forall i, i <> slot -> task k' i = task k i) by (intros i Hi; unfold k'; rewrite task_set; destruct (Z.eqb_spec slot i); [by subst | done]).
  assert (Hsl : task k' slot = c) by (unfold k'; by rewrite task_set, Z.eqb_refl).
  pose proof (P _ C2) as Pc. split.
  - change (k_current k') with (k_current k). by rewrite Hn.
  - by rewrite Hn.
  - intros i. change (k_next_pid k') with (k_next_pid k + 1). destruct (decide (i = slot)) as [->|Hi]; [rewrite Hsl; intros _; lia|].
    rewrite Hn by done. intros Hu. pose proof (P i Hu). lia.
  - intros i j. destruct (decide (i = slot)) as [->|Hi], (decide (j = slot)) as [->|Hj]; [done | | |]; rewrite ?Hsl, ?Hn by done.
    + intros _ Hu. pose proof (P j Hu). lia.
    + intros Hu _. pose proof (P i Hu). lia.
    + apply U.
  - change (k_current k') with (k_current k). intros i. destruct (decide (i = slot)) as [->|Hi]; [by rewrite Hsl|]. rewrite Hn by done. apply R.
Qed.

(** The steps of a call of task [c]. *)
Definition shrinks_from (c : Z) : relation kernel := fun k k' => k_current k = c -> shrinks k k'.

#[global] Instance shrinks_from_preorder c : PreOrder (shrinks_from c).
Proof. split; [done|]. intros k1 k2 k3 A B E. pose proof (A E) as H. transitivity k2; [done|]. apply B. by rewrite (proj1 H). Qed.

Lemma keeps_from {A} c (m : ST kernel A) : keeps shrinks m -> keeps (shrinks_from c) m.
Proof. apply keeps_weaken. by intros s s' H _. Qed.

(** Giving up the slot of a task that is being created. *)
Lemma shrinks_drop c slot k : slot <> 0 -> slot <> c -> shrinks_from c k (upd_task slot (fun t => t <| t_used := false |>) k).
Proof.
  intros H0 Hc E. split; [done|]. split; [done|]. intros j. rewrite task_upd. destruct (Z.eqb_spec slot j) as [<-|]; [|apply task_shrinks_refl].
  rewrite E, (proj2 (Z.eqb_neq slot 0)), (proj2 (Z.eqb_neq slot c)) by done. done.
Qed.

Section Slot.
Context (c slot : Z) (H0 : slot <> 0) (Hc : slot <> c).

Lemma set_tid_keeps asked ptr pid : keeps (shrinks_from c) (clone_set_tid asked slot ptr pid).
Proof.
  unfold clone_set_tid. destruct (_ || _); [apply keeps_ret; exact _|]. apply keeps_bind; [exact _ | apply keeps_from; auto with keeps | intros r].
  destruct (r =? 0); [apply keeps_ret; exact _|]. apply keeps_bind; [exact _ | apply keeps_from; auto with keeps | intros _].
  apply keeps_bind; [exact _ | | intros _; apply keeps_ret; exact _]. apply keeps_mod. intros k. by apply shrinks_drop.
Qed.

Lemma drop_keeps (r : Z) : keeps (shrinks_from c) (st_mod (upd_task slot (fun t => t <| t_used := false |>)) ;;; st_ret r).
Proof. apply keeps_bind; [exact _ | apply keeps_mod; intros k; by apply shrinks_drop | intros _; apply keeps_ret; exact _]. Qed.

Lemma clone_rest_keeps pi flags child_stack ptid ctid tls pid : keeps (shrinks_from c) (clone_rest pi slot flags child_stack ptid ctid tls pid).
Proof.
  unfold clone_rest. apply keeps_bind; [exact _ | apply keeps_from, keeps_shrinks; auto with keeps | intros r]. destruct (r <? 0); [apply drop_keeps|].
  apply keeps_bind; [exact _ | apply keeps_from; keeps | intros _]. apply keeps_bind; [exact _ | apply keeps_from; keeps | intros _].
  apply keeps_bind; [exact _ | apply set_tid_keeps | intros ok1]. destruct (negb ok1); [apply keeps_ret; exact _|].
  apply keeps_bind; [exact _ | apply set_tid_keeps | intros ok2]. destruct (negb ok2); [apply keeps_ret; exact _|]. apply keeps_from. keeps.
Qed.
End Slot.

Lemma clone_rest_result pi slot flags child_stack ptid ctid tls pid k :
  fst (clone_rest pi slot flags child_stack ptid ctid tls pid k) < 0 \/ fst (clone_rest pi slot flags child_stack ptid ctid tls pid k) = pid.
Proof.
  unfold clone_rest. rewrite bind_fst. destruct (_ <? 0); [by left|]. rewrite !bind_fst. destruct (negb _); [by left|].
  rewrite bind_fst. destruct (negb _); [by left|]. rewrite !bind_fst. by right.
Qed.

(** The process that sys_clone creates has the next number, and no other has it. *)
Definition clone_made (k k' : kernel) (r : Z) : Prop :=
  proc_ok k' /\ k_current k' = k_current k /\
  (0 <= r -> r = k_next_pid k /\ forall i, t_used (task k' i) = true -> t_pid (task k' i) = r -> i <> 0 /\ i <> k_current k).

Lemma clone_into_eq slot f flags child_stack ptid ctid tls k :
  clone_into slot f flags child_stack ptid ctid tls k =
  (let k1 := exec (task_save_from_frame (k_current k) f) k in
   clone_rest (k_current k) slot flags child_stack ptid ctid tls (k_next_pid k1)
     (set_task slot (child_task (task k1 (k_current k)) (task k1 slot) (k_next_pid k1) flags ctid) (k1 <| k_next_pid := k_next_pid k1 + 1 |>))).
Proof. unfold clone_into, task_save_from_frame, st_bind, st_get, st_mod, exec. cbn [snd]. cbv zeta. reflexivity. Qed.

Lemma clone_into_ok slot f flags child_stack ptid ctid tls k : proc_ok k -> t_used (task k slot) = false ->
  clone_made k (exec (clone_into slot f flags child_stack ptid ctid tls) k) (fst (clone_into slot f flags child_stack ptid ctid tls k)).
Proof.
  intros Ho Hf. unfold exec. rewrite clone_into_eq. cbv zeta.
  pose proof (shrinks_save (k_current k) f k) as Hs. set (k1 := exec (task_save_from_frame _ f) k) in *.
  pose proof (shrinks_ok _ _ Ho Hs) as Ho1. pose proof (proj1 Hs) as Ec. assert (En : k_next_pid k1 = k_next_pid k) by apply Hs.
  assert (Hf1 : t_used (task k1 slot) = false).
  { destruct (t_used (task k1 slot)) eqn:E; [|done]. destruct Hs as (_ & _ & H). destruct (proj1 (H slot) E) as [Hu _]. congruence. }
  clearbody k1. unfold clone_made. rewrite <- Ec, <- En. set (c := child_task _ _ _ _ _).
  destruct (create_ok k1 slot c Ho1 Hf1 eq_refl eq_refl ltac:(done)) as (Ho2 & H0 & Hc). set (k2 := set_task slot c _) in *.
  assert (Hp : forall i, i = 0 \/ i = k_current k1 -> t_pid (task k2 i) < k_next_pid k1).
  { intros i Hi. unfold k2. rewrite task_set. destruct (Z.eqb_spec slot i) as [<-|]; [destruct Hi; done|]. apply (po_pids _ Ho1).
    destruct Hi as [->| ->]; [apply (po_root _ Ho1) | apply (po_current _ Ho1)]. }
  assert (E2 : k_current k2 = k_current k1) by done. clearbody k2.
  pose proof (clone_rest_keeps (k_current k1) slot H0 Hc (k_current k1) flags child_stack ptid ctid tls (k_next_pid k1) k2 E2) as H3.
  unfold exec in H3. split; [exact (shrinks_ok _ _ Ho2 H3)|]. split; [rewrite (proj1 H3); exact E2|]. intros Hr.
  destruct (clone_rest_result (k_current k1) slot flags child_stack ptid ctid tls (k_next_pid k1) k2) as [Hlt|E]; [lia|]. split; [exact E|].
  intros i Hu Hpi. rewrite E in Hpi. destruct H3 as (_ & _ & H3). destruct (proj1 (H3 i) Hu) as (_ & Epid & _).
  split; intros Ei; specialize (Hp i); subst i; lia.
Qed.

Lemma clone_ok f flags child_stack ptid ctid tls k : proc_ok k ->
  clone_made k (exec (sys_clone f flags child_stack ptid ctid tls) k) (fst (sys_clone f flags child_stack ptid ctid tls k)).
Proof.
  intros Ho. assert (Herr : forall r, r < 0 -> clone_made k k r) by (intros r Hr; split; [done|]; split; [done | lia]).
  unfold sys_clone. rewrite exec_seq, bind_fst. assert (Er : exec task_init_root k = k) by (unfold exec; by rewrite (shrinks_root k Ho)). rewrite Er, exec_get, bind_fst.
  change (fst (st_get k)) with k. change (exec st_get k) with k.
  destruct (_ && _); [by apply Herr|]. destruct (negb _); [by apply Herr|]. destruct (negb _); [by apply Herr|].
  destruct (_ && _); [by apply Herr|]. destruct (_ && _); [by apply Herr|]. destruct (_ && _); [by apply Herr|].
  destruct (find _ all_tasks) as [slot|] eqn:Ef; [|by apply Herr]. apply find_task in Ef as [_ Hf%negb_true_iff]. by apply clone_into_ok.
Qed.

Lemma fork_ok f k : proc_ok k -> proc_ok (exec (sys_fork f) k).
Proof.
  intros Ho. unfold sys_fork. rewrite exec_bind. destruct (clone_ok f (Z.lor CLONE_VM (Z.lor CLONE_FS CLONE_SIGHAND)) 0 0 0 0 k Ho) as (Ho1 & Ec & Hnew).
  set (m := sys_clone _ _ _ _ _ _) in *. destruct (Z.ltb_spec (fst (m k)) 0) as [Hlt|Hge]; [exact Ho1|]. destruct (Hnew Hge) as [_ Hslot]. clear Hnew.
  revert Ho1 Ec Hslot. generalize (exec m k), (fst (m k)). intros k1 pid Ho1 Ec Hslot. rewrite exec_get.
  destruct (find _ all_tasks) as [i|] eqn:Ef; [|done]. apply find_task in Ef as [_ [Hu Hp%Z.eqb_eq]%andb_prop]. destruct (Hslot i Hu Hp) as [H0 Hc].
  rewrite exec_mod, exec_bind. set (k2 := upd_task i _ k1). assert (Ho2 : proc_ok k2) by (apply (shrinks_ok k1); [done | apply tame_upd; tame]).
  assert (E2 : k_current k2 = k_current k) by exact Ec. clearbody k2. set (sp := vmm_user_space_clone _).
  pose proof (keeps_shrinks _ (keeps_on_vm sp) k2) as H3. pose proof (shrinks_ok _ _ Ho2 H3) as Ho3. pose proof (proj1 H3) as E3.
  destruct (fst (on_vm sp k2)) as [rc cr3]. generalize dependent (exec (on_vm sp) k2). intros k3 _ Ho3 E3.
  destruct (negb (rc =? 0)).
  - rewrite !exec_seq. rewrite <- (exec_seq (task_reap_resources i)). rewrite exec_ret. apply (shrinks_ok k3); [done|]. apply reap_child; [done | done|]. congruence.
  - apply keeps_ok; [|done]. keeps.
Qed.

(** ** The timer *)

Lemma tame_clear s : tame (sig_clear_pending s).
Proof. intros t. unfold sig_clear_pending. by destruct (negb (sig_valid s)). Qed.
#[local] Hint Extern 1 (shrinks _ (upd_task _ (sig_clear_pending _) _)) => (apply tame_upd, tame_clear) : keeps.

Lemma finish_wait4_tame pid : tame (finish_wait4 pid).
Proof. tame. Qed.
#[local] Hint Extern 1 (shrinks _ (upd_task _ (finish_wait4 _) _)) => (apply tame_upd, finish_wait4_tame) : keeps.

Lemma timer_kill_keeps c : keeps shrinks (timer_kill c).
Proof. unfold timer_kill. keeps. Qed.
#[local] Hint Resolve timer_kill_keeps : keeps.

Lemma switch_to_ok next k : stopped k -> task_ok next = true /\ t_used (task k next) = true -> proc_ok (exec (switch_to next) k).
Proof. intros Hst Hn. exact (switched_stopped next k _ Hst Hn (switch_to_switched next k)). Qed.

Lemma preempt_next k c : t_used (task k 0) = true ->
  let p := task_pick_next k in
  let next := if (p <? 0) && (t_state (task k c) =? TASK_ZOMBIE) && t_used (task k 0) && negb (t_state (task k 0) =? TASK_ZOMBIE) then 0 else p in
  next < 0 \/ (task_ok next = true /\ t_used (task k next) = true).
Proof.
  intros H0. cbv zeta. pose proof (pick_used k) as Hp. revert Hp. generalize (task_pick_next k). intros p Hp.
  destruct (_ && _); [by right|]. destruct (Z.ltb_spec p 0); [by left | right; by apply Hp].
Qed.

Lemma timer_ok cs f k : proc_ok k -> proc_ok (exec (timer_preempt cs f) k).
Proof.
  intros Ho. unfold timer_preempt. rewrite exec_get. cbv zeta. set (c := k_current k). destruct (negb _); [done|]. destruct (_ || _); [done|].
  rewrite exec_mod, exec_get. set (k1 := upd_task c _ k). assert (H1 : shrinks k k1) by (apply tame_upd; tame).
  pose proof (shrinks_ok _ _ Ho H1) as Ho1. assert (E1 : k_current k1 = c) by done. clearbody k1. rewrite exec_seq.
  set (m := if _ && _ then _ else _). assert (Hm : keeps shrinks m) by (unfold m; keeps). pose proof (Hm k1) as H2.
  pose proof (shrinks_ok _ _ Ho1 H2) as Ho2. pose proof (proj1 H2) as E2. rewrite E1 in E2. revert Ho2 E2. generalize (exec m k1). clear H2 Hm m.
  intros k2 Ho2 E2. rewrite exec_mod, exec_get. set (k3 := if (_ =? TASK_ZOMBIE) then k2 else _).
  assert (Hst : stopped k3).
  { unfold k3. destruct (Z.eqb_spec (t_state (task k2 c)) TASK_ZOMBIE) as [Ez|].
    - split; [done|]. intros i Hu Hs. pose proof (po_running _ Ho2 i Hu Hs) as ->. rewrite E2 in Hs. by rewrite Ez in Hs.
    - rewrite <- E2. apply stop_ok; [done | tame | done]. }
  assert (E3 : k_current k3 = c) by (unfold k3; by destruct (_ =? _)). clearbody k3.
  pose proof (preempt_next k3 c (proj1 (po_root _ (proj1 Hst)))) as Hn. cbv zeta in Hn. revert Hn. set (next := if _ && _ then _ else _). clearbody next. intros Hn.
  destruct (Z.ltb_spec next 0) as [Hlt|Hge].
  - rewrite exec_mod, exec_ret, <- E3. apply restart_ok; [apply Hst | done].
  - rewrite exec_seq, exec_ret. apply switch_to_ok; [done|]. destruct Hn; [lia | done].
Qed.

(** ** Wake-ups and signals *)

Lemma wake_io_keeps : keeps shrinks task_wake_io_waiters.
Proof.
  intros k. unfold task_wake_io_waiters, exec. assert (H : forall (l : list Z) (st : Z * kernel), shrinks k (snd st) -> shrinks k (snd (foldl wake_step st l))).
  { induction l as [|i l IH]; intros [w k1] Hs; [done|]. cbn [foldl]. apply IH. unfold wake_step. destruct (_ || _); [done|]. cbn [snd] in *.
    refine (PreOrder_Transitive _ _ _ Hs _). apply tame_set. intros b. unfold wake_task. by destruct (negb _). }
  by apply H.
Qed.

Lemma wake_timed_keeps : keeps shrinks task_wake_timed_io_waiters.
Proof.
  intros k. unfold task_wake_timed_io_waiters, exec. cbn [st_mod snd]. apply keeps_fold; [exact _|]. intros k1 i. unfold wake_timed_step.
  repeat case_match; try reflexivity; apply tame_set; intros b; done.
Qed.

Lemma tty_signal_tame sig : tame (tty_queue_signal sig).
Proof.
  intros t. unfold tty_queue_signal. destruct (_ || _); [done|]. destruct (ignored_by t sig); [apply tame_clear|].
  pose proof (tame_pending sig t) as H. cbn beta in H. revert H. generalize (snd (sig_pending_set sig t)). intros u H.
  repeat (match goal with |- context [if ?b then _ else _] => destruct b end; [done || (destruct H as (? & ? & ? & ?); repeat split; try done) |]); done.
Qed.

Lemma signal_tasks_keeps who sig : keeps shrinks (signal_tasks who sig).
Proof.
  intros k. unfold signal_tasks, exec. set (g := fun _ _ => _).
  assert (H : forall (l : list Z) (st : Z * kernel), shrinks k (snd st) -> shrinks k (snd (foldl g st l))).
  { induction l as [|i l IH]; intros [n k1] Hs; [done|]. cbn [foldl]. apply IH. unfold g. destruct (who (task k1 i)); [|done]. cbn [snd] in *.
    refine (PreOrder_Transitive _ _ _ Hs _). apply tame_upd, tty_signal_tame. }
  specialize (H all_tasks (0, k)). destruct (foldl g (0, k) all_tasks) as [n k1]. apply H. reflexivity.
Qed.

Lemma signal_first_keeps who sig : keeps shrinks (signal_first who sig).
Proof.
  intros k. unfold signal_first. destruct (_ && _); [done|]. rewrite exec_get. destruct (find _ all_tasks) as [i|]; [|done]. destruct (sig =? 0); [done|].
  pose proof (tame_pending sig (task k i)) as H. cbn beta in H. destruct (sig_pending_set sig (task k i)) as [r t]. rewrite exec_mod, exec_ret.
  apply tame_set. intros b. cbn [snd] in H. destruct H as (H1 & H2 & H3 & H4). unfold task_shrinks. rewrite H1, H2, H3. tauto.
Qed.

Lemma deliver_keeps f : keeps shrinks (deliver_pending_signal f).
Proof. unfold deliver_pending_signal, deliver_pending_signal_to_task. keeps. Qed.
#[local] Hint Resolve deliver_keeps : keeps.

#[local] Hint Extern 2 (shrinks _ (_ <| k_syscall_user_cr3 := _ |>)) => done : keeps.
#[local] Hint Extern 2 (shrinks _ (_ <| k_syscall_saved_rax := _ |>)) => done : keeps.

Lemma finish_keeps nr ret f : keeps shrinks (syscall_finish nr ret f).
Proof. unfold syscall_finish. keeps. Qed.

(** ** What exit and the collection of a child do to the table of tasks *)

Lemma exec_last {S} (f : S -> S) (s : S) : exec (st_mod f) s = f s.
Proof. done. Qed.

(** Steps that change no task but [c]. *)
Definition only (c : Z) : relation kernel := fun k k' => k_current k' = k_current k /\ forall i, i <> c -> task k' i = task k i.

#[global] Instance only_preorder c : PreOrder (only c).
Proof. split; [done|]. intros k1 k2 k3 [A B] [C D]. split; [congruence|]. intros i Hi. by rewrite D, B. Qed.

Lemma same_tasks_only c k k' : same_tasks k k' -> only c k k'.
Proof. intros Hs. split; [apply Hs|]. intros i _. by apply same_task. Qed.

Lemma keeps_only {A} c (m : ST kernel A) : keeps same_tasks m -> keeps (only c) m.
Proof. apply keeps_weaken, same_tasks_only. Qed.

Lemma only_upd c f k : only c k (upd_task c f k).
Proof. split; [done|]. intros i Hi. rewrite task_upd. destruct (Z.eqb_spec c i); [by subst | done]. Qed.

#[export] Hint Resolve only_upd : keeps.
#[export] Hint Extern 1 (keeps (only _) (on_vm _)) => (apply keeps_only; auto with keeps nocore) : keeps.
#[export] Hint Extern 1 (keeps (only _) (user_copy_to _ _)) => (apply keeps_only; auto with keeps nocore) : keeps.
#[export] Hint Extern 1 (keeps (only _) (task_fd_table_release _)) => (apply keeps_only; auto with keeps nocore) : keeps.
#[export] Hint Extern 2 (only _ _ (_ <| k_framebuffer_users := _ |>)) => done : keeps.

Lemma only_framebuffer c : keeps (only c) (drop_framebuffer c).
Proof. unfold drop_framebuffer. keeps. Qed.
Lemma only_reap c : keeps (only c) (task_reap_resources c).
Proof. unfold task_reap_resources. keeps. Qed.
#[export] Hint Resolve only_framebuffer only_reap : keeps.

Lemma reap_slot c k : only c k (exec (task_reap_resources c ;;; st_mod (upd_task c free_slot)) k) /\
  t_used (task (exec (task_reap_resources c ;;; st_mod (upd_task c free_slot)) k) c) = false.
Proof. rewrite exec_seq. split; [transitivity (exec (task_reap_resources c) k); [apply only_reap | apply only_upd]|]. unfold exec at 1. cbn [st_mod snd]. by rewrite task_upd, Z.eqb_refl. Qed.

(** ** Searching the table *)

Lemma find_only (P : Z -> bool) l x : x ∈ l -> P x = true -> (forall y, y ∈ l -> P y = true -> y = x) -> find P l = Some x.
Proof.
  induction l as [|y l IH]; [by intros ?%elem_of_nil|]. intros Hx Hp Hu. cbn [find]. destruct (P y) eqn:E.
  - f_equal. apply Hu; [left | done].
  - apply IH; [|done | intros z Hz; apply Hu; by right]. apply elem_of_cons in Hx as [->|Hx]; [congruence | done].
Qed.

Lemma slot_in_table i : task_ok i = true -> i ∈ all_tasks.
Proof. unfold all_tasks, task_ok. rewrite elem_of_seqZ. lia. Qed.

(** ** Waking the parent *)

(** The parent's address space can be activated. *)
Definition space_loads (k : kernel) (p : Z) : Prop := fst (vmm_user_activate (t_ctx (task k p) CR3) (k_vm k)) = 0.

Lemma wake_parent_runs c p l k : p ∈ l -> (forall i, i ∈ l -> waits_for (task k i) (task k c) = true -> i = p) ->
  waits_for (task k p) (task k c) = true -> t_wait4_status_ptr (task k p) = 0 -> space_loads k p ->
  exec (wake_parent c l) k = upd_task p (finish_wait4 (t_pid (task k c))) (exec (on_vm (vmm_user_activate (t_ctx (task k p) CR3))) k).
Proof.
  intros Hp Hu Hw H0 Ha. induction l as [|i l IH]; [by apply elem_of_nil in Hp|]. cbn [wake_parent]. rewrite exec_get. cbv zeta.
  destruct (waits_for (task k i) (task k c)) eqn:Ei; cbn [negb].
  - assert (i = p) as -> by (apply Hu; [left | done]). rewrite exec_bind.
    assert (Ef : fst (on_vm (vmm_user_activate (t_ctx (task k p) CR3)) k) = 0).
    { unfold on_vm. unfold space_loads in Ha. by destruct (vmm_user_activate _ (k_vm k)). }
    rewrite Ef, H0. cbn [negb Z.eqb]. rewrite exec_bind. cbn [st_ret fst Z.eqb negb]. by unfold exec at 1.
  - apply IH; [|intros j Hj; apply Hu; by right]. apply elem_of_cons in Hp as [->|Hp]; [congruence | done].
Qed.

(** The switch marks the chosen task as running and counts the switch. *)
Lemma switch_from_tasks p k i : task_ok p = true -> t_used (task k p) = true ->
  task (exec (switch_from_syscall p) k) i =
    if p =? i then (task k p) <| t_state := TASK_RUNNING |> <| t_switches := u64 (t_switches (task k p) + 1) |> else task k i.
Proof.
  intros Hp Hu. unfold switch_from_syscall. rewrite exec_seq. unfold exec at 1. cbn [st_mod snd]. change (task (?k <| k_task_switch_pending := _ |> <| k_task_return_ctx := _ |>) i) with (task k i).
  unfold switch_to. rewrite !exec_mod, exec_seq, exec_get. set (k1 := (upd_task p (fun t => t <| t_state := TASK_RUNNING |>) k) <| k_current := p |>).
  assert (E1 : task k1 p = (task k p) <| t_state := TASK_RUNNING |>) by (change (task k1 p) with (task (upd_task p (fun t => t <| t_state := TASK_RUNNING |>) k) p); by rewrite task_upd, Z.eqb_refl).
  unfold exec at 2 3. rewrite (account_switch_eq p k1) by (rewrite ?E1; done). cbn [snd]. set (k2 := upd_task p (fun t => t <| t_switches := u64 (t_switches t + 1) |>) k1). rewrite exec_seq. unfold exec at 1. cbn [st_mod snd].
  change (task (?k <| k_task_switch_target := _ |>) i) with (task k i). rewrite (same_task k2) by apply keeps_on_vm. unfold k2. rewrite task_upd, E1.
  destruct (Z.eqb_spec p i) as [->|Hne]; [done|]. change (task k1 i) with (task (upd_task p (fun t => t <| t_state := TASK_RUNNING |>) k) i).
  by rewrite task_upd, (proj2 (Z.eqb_neq p i)).
Qed.

(** ** The stages of an exit *)

(** The descriptors, the framebuffer and the thread's id word. *)
Definition exit_release (c : Z) (k : kernel) : kernel :=
  exec (task_fd_table_release c) (exec (task_clear_child_tid c) (exec (drop_framebuffer c) k)).

(** The zombie, and the signal to the parent. *)
Definition exit_told (c p status : Z) (k : kernel) : kernel :=
  upd_task p (fun t => snd (sig_pending_set SIGCHLD t)) (upd_task c (fun t => t <| t_exit_status := status |> <| t_state := TASK_ZOMBIE |>) k).

Lemma vm_framebuffer c k : k_vm (exec (drop_framebuffer c) k) = k_vm k.
Proof. unfold drop_framebuffer. rewrite exec_get. cbv zeta. by destruct (0 <? _). Qed.

Lemma exit_release_same c k : c = k_current k -> t_tid_address (task k c) = 0 ->
  only c k (exit_release c k) /\ k_vm (exit_release c k) = k_vm k.
Proof.
  intros -> H0. unfold exit_release. set (c := k_current k). pose proof (only_framebuffer c k) as H1. set (k1 := exec (drop_framebuffer c) k) in *.
  assert (E1 : k_vm k1 = k_vm k) by apply vm_framebuffer.
  assert (Et : t_tid_address (task k1 c) = 0).
  { unfold k1, drop_framebuffer. rewrite exec_get. cbv zeta. destruct (0 <? _); [|done]. rewrite exec_mod. unfold exec. cbn [st_mod snd]. by rewrite task_upd, Z.eqb_refl. }
  clearbody k1. assert (E2 : exec (task_clear_child_tid c) k1 = k1) by (unfold task_clear_child_tid; rewrite exec_get, Et; done). rewrite E2.
  destruct (keeps_table_release c k1) as [H3 H4]. split; [|congruence]. transitivity k1; [done|]. by apply same_tasks_only.
Qed.

Section Exit.
Context (k : kernel) (p status : Z) (Ho : proc_ok k) (Hc : k_current k <> 0) (Htid : t_tid_address (task k (k_current k)) = 0).
Context (Hp : task_ok p = true) (Hw : waits_for (task k p) (task k (k_current k)) = true) (Hst : t_wait4_status_ptr (task k p) = 0) (Hl : space_loads k p).
Local Abbreviation c := (k_current k).

Definition exit_zombie : kernel := exit_told c p status (exit_release c k).

Lemma exit_parent : t_used (task k p) = true /\ t_pid (task k p) = t_ppid (task k c) /\ t_state (task k p) = TASK_BLOCKED /\ p <> c /\ 0 < t_ppid (task k c).
Proof.
  apply andb_prop in Hw as [[[[Hu Hpp%Z.eqb_eq]%andb_prop Hs%Z.eqb_eq]%andb_prop _]%andb_prop _]. pose proof (po_pids _ Ho p Hu) as H1.
  pose proof (po_pids _ Ho c (proj2 (po_current _ Ho))) as H2. repeat split; try done; [|lia]. intros ->. lia.
Qed.

Lemma exit_zombie_tasks : k_current exit_zombie = c /\ k_vm exit_zombie = k_vm k /\
  task exit_zombie p = snd (sig_pending_set SIGCHLD (task k p)) /\
  (t_used (task exit_zombie c) = true /\ t_pid (task exit_zombie c) = t_pid (task k c) /\ t_ppid (task exit_zombie c) = t_ppid (task k c) /\
   t_state (task exit_zombie c) = TASK_ZOMBIE /\ t_exit_status (task exit_zombie c) = status) /\
  forall i, i <> c -> i <> p -> task exit_zombie i = task k i.
Proof.
  destruct exit_parent as (_ & _ & _ & Hpc & _). destruct (exit_release_same c k eq_refl Htid) as [[Ec Hr] Ev].
  assert (Hs : shrinks k (exit_release c k)).
  { unfold exit_release. refine (PreOrder_Transitive _ _ _ (shrinks_framebuffer c k) _). refine (PreOrder_Transitive _ _ _ (shrinks_clear_tid c _) _).
    apply (keeps_shrinks _ (core_tasks _ (keeps_table_release c))). }
  assert (Hcc : t_used (task (exit_release c k) c) = true) by (apply (proj2 (proj2 Hs) c); [by rewrite Z.eqb_refl, orb_true_r | apply (po_current _ Ho)]).
  destruct (proj1 (proj2 (proj2 Hs) c) Hcc) as (_ & E1 & E2 & _). unfold exit_zombie, exit_told. revert Ec Hr Ev Hcc E1 E2. generalize (exit_release c k). clear Hs. intros k1 Ec Hr Ev Hu E1 E2.
  split; [done|]. split; [done|]. split; [|split].
  - rewrite !task_upd, Z.eqb_refl, (proj2 (Z.eqb_neq c p)) by congruence. by rewrite Hr.
  - rewrite !task_upd, (proj2 (Z.eqb_neq p c)), Z.eqb_refl by done. done.
  - intros i H1 H2. rewrite !task_upd, (proj2 (Z.eqb_neq p i)), (proj2 (Z.eqb_neq c i)) by congruence. by apply Hr.
Qed.

Lemma pid_unique i : t_used (task k i) = true -> t_pid (task k i) = t_ppid (task k c) -> i = p.
Proof. destruct exit_parent as (Hu & Hpp & _). intros Hi Hpi. apply (po_unique _ Ho); congruence. Qed.

(** The fields that tell a parent that waits. *)
Lemma pending_fields s t : t_used (snd (sig_pending_set s t)) = t_used t /\ t_pid (snd (sig_pending_set s t)) = t_pid t /\
  t_state (snd (sig_pending_set s t)) = t_state t /\ t_wait4_active (snd (sig_pending_set s t)) = t_wait4_active t /\
  t_wait4_pid (snd (sig_pending_set s t)) = t_wait4_pid t /\ t_wait4_status_ptr (snd (sig_pending_set s t)) = t_wait4_status_ptr t /\
  t_ctx (snd (sig_pending_set s t)) = t_ctx t.
Proof. unfold sig_pending_set. by destruct (negb _). Qed.

Definition exit_woken : kernel :=
  upd_task p (finish_wait4 (t_pid (task k c))) (exec (on_vm (vmm_user_activate (t_ctx (task k p) CR3))) exit_zombie).

Lemma exit_wakes : exec (wake_parent c all_tasks) exit_zombie = exit_woken.
Proof.
  destruct exit_parent as (Hu & Hpp & Hs & Hpc & _). destruct exit_zombie_tasks as (Ec & Ev & Ep & (Ecu & Ecp & Ecpp & _) & Ei).
  pose proof (pending_fields SIGCHLD (task k p)) as (F1 & F2 & F3 & F4 & F5 & F6 & F7). rewrite <- Ep in F1, F2, F3, F4, F5, F6, F7.
  unfold exit_woken. rewrite <- F7, <- Ecp. apply wake_parent_runs.
  - by apply slot_in_table.
  - intros i _ Hwi. apply andb_prop in Hwi as [[[[Hui Hpi%Z.eqb_eq]%andb_prop Hsi]%andb_prop _]%andb_prop _]. destruct (Z.eq_dec i p) as [|Hne]; [done|].
    destruct (Z.eq_dec i c) as [->|Hnc].
    + destruct exit_zombie_tasks as (_ & _ & _ & (_ & _ & _ & Ez & _) & _). by rewrite Ez in Hsi.
    + rewrite Ei in Hui, Hpi by done. apply pid_unique; congruence.
  - unfold waits_for in *. by rewrite F1, F2, F3, F4, F5, Ecp, Ecpp.
  - congruence.
  - unfold space_loads in *. by rewrite F7, Ev.
Qed.

Lemma exit_woken_task i : task exit_woken i = if p =? i then finish_wait4 (t_pid (task k c)) (task exit_zombie p) else task exit_zombie i.
Proof.
  unfold exit_woken. rewrite task_upd. pose proof (fun j => same_task exit_zombie _ j (keeps_on_vm (vmm_user_activate (t_ctx (task k p) CR3)) exit_zombie)) as H.
  by rewrite !H.
Qed.

Lemma exit_picks_parent : exit_next exit_woken (t_ppid (task k c)) = p.
Proof.
  destruct exit_parent as (Hu & Hpp & Hs & Hpc & Hpos). destruct exit_zombie_tasks as (Ec & Ev & Ep & (Ecu & Ecp & Ecpp & Ezs & _) & Ei).
  pose proof (pending_fields SIGCHLD (task k p)) as (F1 & F2 & _). rewrite <- Ep in F1, F2.
  unfold exit_next. rewrite (find_only _ _ p).
  - rewrite (proj2 (Z.ltb_lt 0 _)) by done. change (default (-1) (Some p)) with p. assert (0 <= p) by (unfold task_ok in Hp; lia).
    rewrite (proj2 (Z.ltb_ge p 0)) by done. by rewrite (proj2 (Z.ltb_ge p 0)).
  - by apply slot_in_table.
  - rewrite exit_woken_task, Z.eqb_refl. change (t_used (task exit_zombie p) && (t_pid (task exit_zombie p) =? t_ppid (task k c)) && true = true).
    by rewrite F1, F2, Hu, Hpp, Z.eqb_refl.
  - intros i _. rewrite exit_woken_task. destruct (Z.eqb_spec p i) as [->|Hne]; [done|]. intros [[Hui Hpi%Z.eqb_eq]%andb_prop Hsi%Z.eqb_eq]%andb_prop.
    destruct (Z.eq_dec i c) as [->|Hnc]; [by rewrite Ezs in Hsi|]. rewrite Ei in Hui, Hpi by congruence. by apply pid_unique.
Qed.

Lemma exit_runs : exec (sys_exit status) k = exec (switch_from_syscall p) exit_woken.
Proof.
  destruct exit_parent as (Hu & Hpp & Hs & Hpc & Hpos). unfold sys_exit. rewrite exec_seq. unfold exec at 2. rewrite (shrinks_root k Ho). cbn [snd]. rewrite exec_get. cbv zeta.
  rewrite (proj2 (Z.eqb_neq c 0)) by done. rewrite !exec_seq. fold (exit_release c k). rewrite exec_last, exec_get. cbv zeta.
  set (k2 := upd_task c _ (exit_release c k)).
  assert (Hz : exit_zombie = upd_task p (fun t => snd (sig_pending_set SIGCHLD t)) k2) by done.
  destruct exit_zombie_tasks as (Ec & Ev & Ep & (Ecu & Ecp & Ecpp & Ezs & _) & Ei).
  assert (Hk2 : forall i, i <> p -> task k2 i = task exit_zombie i) by (intros i Hi; rewrite Hz, task_upd; by destruct (Z.eqb_spec p i); [subst|]).
  assert (Hk2p : task k2 p = task k p).
  { unfold k2. rewrite task_upd, (proj2 (Z.eqb_neq c p)) by congruence. destruct (exit_release_same c k eq_refl Htid) as [[_ Hr] _]. by apply Hr. }
  rewrite (Hk2 c) by congruence. rewrite Ecpp, (proj2 (Z.ltb_lt 0 _)) by done.
  assert (Hps : parent_slot k2 (t_ppid (task k c)) = Some p).
  { apply find_only; [by apply slot_in_table | by rewrite Hk2p, Hu, Hpp, Z.eqb_refl|]. intros i _ [Hui Hpi%Z.eqb_eq]%andb_prop. destruct (Z.eq_dec i p) as [|Hne]; [done|].
    rewrite (Hk2 i Hne) in Hui, Hpi. destruct (Z.eq_dec i c) as [->|Hnc]; [rewrite Ecp in Hpi|rewrite Ei in Hui, Hpi by done; by apply pid_unique].
    pose proof (po_pids _ Ho c (proj2 (po_current _ Ho))). lia. }
  rewrite Hps, !exec_seq, exec_last, <- Hz. clearbody k2. rewrite exit_wakes, exec_get, exec_seq, exec_ret. by rewrite exit_picks_parent.
Qed.
End Exit.

(** ** Collecting the child at the parent's next system call *)

(** The address space of the caller. *)
Definition enter_space (f : regs) (d : Z) : ST kernel unit :=
  if negb (f CR3 =? 0) then
    let! _ := on_vm (vmm_user_activate (f CR3)) in
    let! k := st_get in
    if task_ok d && t_used (task k d) then st_mod (upd_task d (fun t => t <| t_ctx := set_reg (t_ctx t) CR3 (f CR3) |>)) else st_ret tt
  else st_ret tt.

Lemma enter_reaps f c k : let d := k_current k in let k' := exec (syscall_enter f) k in
  proc_ok k -> task_ok c = true -> t_used (task k c) = true -> t_ppid (task k c) = t_pid (task k d) -> t_state (task k c) = TASK_ZOMBIE ->
  t_wait4_reap_pid (task k d) = t_pid (task k c) ->
  t_used (task k' c) = false /\ t_wait4_reap_pid (task k' d) = -1 /\ k_current k' = d /\ forall i, i <> c -> i <> d -> task k' i = task k i.
Proof.
  intros d. cbv zeta. intros Ho Hok Hu Hpp Hz Hr. destruct (po_current _ Ho) as [Hd1 Hd2]. fold d in Hd1, Hd2.
  assert (Hcd : c <> d) by (intros ->; pose proof (po_pids _ Ho d Hd2); lia). pose proof (po_pids _ Ho c Hu) as Hc.
  unfold syscall_enter. rewrite exec_get. fold d. rewrite exec_seq, exec_get. set (m := if negb (f CR3 =? 0) then _ else _).
  assert (Hm : keeps (only d) m) by (unfold m; keeps). assert (Hms : keeps shrinks m) by (unfold m; keeps). assert (Hreap : t_wait4_reap_pid (task (exec m k) d) = t_wait4_reap_pid (task k d)).
  { unfold m. destruct (negb _); [|done]. rewrite exec_seq. destruct (_ && _).
    - rewrite exec_last, task_upd, Z.eqb_refl. cbn. by rewrite (same_task k) by apply keeps_on_vm.
    - rewrite exec_ret. by rewrite (same_task k) by apply keeps_on_vm. }
  pose proof (Hm k) as [Ec Ht]. pose proof (shrinks_ok _ _ Ho (Hms k)) as Ho1. pose proof (proj2 (proj2 (Hms k)) d) as Hsd. clearbody m. revert Ec Ht Ho1 Hreap Hsd. generalize (exec m k). clear Hm Hms m.
  intros k1 Ec Ht Ho1 Hreap Hsd. change (k_current k) with d in Ec. assert (Hpd : t_pid (task k1 d) = t_pid (task k d)).
  { apply Hsd. pose proof (po_current _ Ho1) as [_ H]. by rewrite Ec in H. }
  rewrite Hreap, Hr, (proj2 (Z.ltb_lt 0 _)) by lia. rewrite (find_only _ _ c).
  - destruct (reap_slot c k1) as [[E1 R1] R2]. rewrite exec_seq, exec_last. revert E1 R1 R2. generalize (exec (task_reap_resources c;;; st_mod (upd_task c free_slot)) k1).
    intros k2 E1 R1 R2. rewrite !task_upd, Z.eqb_refl, (proj2 (Z.eqb_neq d c)) by congruence. split; [done|]. split; [done|]. split; [change (k_current k2 = d); congruence|].
    intros i H1 H2. rewrite task_upd, (proj2 (Z.eqb_neq d i)) by congruence. rewrite R1, Ht by done. done.
  - by apply slot_in_table.
  - rewrite Ht by done. by rewrite Hu, Hz, Hpp, Hpd, !Z.eqb_refl.
  - intros i _ [[[Hui Hpi%Z.eqb_eq]%andb_prop _]%andb_prop _]%andb_prop. apply (po_unique _ Ho1); [done | by rewrite (Ht c) | rewrite (Ht c) by done; congruence].
Qed.
