(* ===== verification/ProcThms.v ===== *)
(** * Properties of processes *)

From S2P Require Import Prelude Words Pmm Vmm CStr Vfs Kernel Tty Fd Sched SchedFacts UserCopy Pipe LazyMmap Signals SignalFacts Process Frames ProcFacts.
From stdpp Require Import relations.
Local Open Scope Z_scope.
Local Open Scope st_scope.

(** The largest int. *)
Definition INT_MAX : Z := 0x7fffffff.

(** ** The process table *)

(** One event: the start or the end of a system call, a call that concerns
    processes with any arguments, a call that sleeps for input or output, a
    timer interrupt, an exception of a user program, a wake-up, or a signal
    of a terminal.  [tick] stands for the interrupts taken while the kernel
    halts; the counter of process numbers is an int. *)
Inductive proc_step (tick : kernel -> kernel) (k : kernel) : kernel -> Prop :=
  | step_enter f : proc_step tick k (exec (syscall_enter f) k)
  | step_finish nr ret f : proc_step tick k (exec (syscall_finish nr ret f) k)
  | step_clone f flags child_stack ptid ctid tls : k_next_pid k < INT_MAX -> proc_step tick k (exec (sys_clone f flags child_stack ptid ctid tls) k)
  | step_fork f : k_next_pid k < INT_MAX -> proc_step tick k (exec (sys_fork f) k)
  | step_exit status : proc_step tick k (exec (sys_exit status) k)
  | step_exit_group status : proc_step tick k (exec (sys_exit_group status) k)
  | step_wait4 f pid status options : proc_step tick k (exec (sys_wait4 f pid status options) k)
  | step_futex f uaddr op val timeout : proc_step tick k (exec (sys_futex f uaddr op val timeout) k)
  | step_yield f : proc_step tick k (exec (sys_sched_yield tick f) k)
  | step_nanosleep fuel f req rem r k' : sys_nanosleep tick fuel f req rem k = Some (r, k') -> proc_step tick k k'
  | step_sleep fuel f kind nr dl r k' : task_block_io_until tick fuel f kind nr dl k = Some (r, k') -> proc_step tick k k'
  | step_kill pid sig : proc_step tick k (exec (sys_kill pid sig) k)
  | step_tgkill tgid tid sig : proc_step tick k (exec (sys_tgkill tgid tid sig) k)
  | step_tty_signal who sig : proc_step tick k (exec (signal_tasks who sig) k)
  | step_setpriority which who prio : proc_step tick k (exec (sys_setpriority which who prio) k)
  | step_timer cs f : proc_step tick k (exec (timer_preempt cs f) k)
  | step_exception num : proc_step tick k (exec (exception_terminate_user_process num) k)
  | step_wake : proc_step tick k (exec task_wake_io_waiters k)
  | step_wake_timed : proc_step tick k (exec task_wake_timed_io_waiters k).

(** The state before the first task: no slot is in use. *)
Definition at_boot (k : kernel) : Prop := (forall i, t_used (task k i) = false) /\ k_current k = 0 /\ k_next_pid k = 100.

Lemma boot_ok k : at_boot k -> proc_ok (exec task_init_root k).
Proof.
  intros (Hu & Hc & Hn). unfold task_init_root. rewrite exec_get, Hu. unfold exec. cbn [st_mod snd]. set (g := fun t : task_t => _).
  assert (Ht : forall i, t_used (task (upd_task 0 g k) i) = true -> i = 0).
  { intros i. rewrite task_upd. destruct (Z.eqb_spec 0 i) as [<-|]; [done|]. by rewrite Hu. }
  split.
  - change (k_current (upd_task 0 g k)) with (k_current k). rewrite Hc, task_upd. done.
  - by rewrite task_upd.
  - intros i Hi. rewrite (Ht i Hi), task_upd. change (k_next_pid (upd_task 0 g k)) with (k_next_pid k). rewrite Hn. done.
  - intros i j Hi Hj _. by rewrite (Ht i Hi), (Ht j Hj).
  - intros i Hi _. by rewrite (Ht i Hi).
Qed.

Lemma set_nice_keeps pid nice : keeps shrinks (task_set_nice pid nice).
Proof. unfold task_set_nice. keeps. Qed.
#[local] Hint Resolve set_nice_keeps signal_first_keeps : keeps.

Lemma rooted_keeps {A} (m : ST kernel A) k : keeps shrinks m -> proc_ok k -> proc_ok (exec (task_init_root ;;; m) k).
Proof.
  intros Hm Ho. rewrite exec_seq. assert (E : exec task_init_root k = k) by (unfold exec; by rewrite (shrinks_root k Ho)). rewrite E. by apply keeps_ok.
Qed.

Lemma proc_step_ok tick k k' : (forall k, shrinks k (tick k)) -> proc_step tick k k' -> proc_ok k -> proc_ok k'.
Proof.
  intros Ht Hs Ho. destruct Hs.
  - by apply enter_ok.
  - apply keeps_ok; [apply finish_keeps | done].
  - by apply clone_ok.
  - by apply fork_ok.
  - by apply exit_ok.
  - by apply exit_group_ok.
  - by apply wait4_ok.
  - by apply futex_ok.
  - by apply yield_ok.
  - by eapply nanosleep_ok.
  - by eapply block_ok.
  - apply rooted_keeps; [keeps | done].
  - apply rooted_keeps; [keeps | done].
  - apply keeps_ok; [apply signal_tasks_keeps | done].
  - apply rooted_keeps; [keeps | done].
  - by apply timer_ok.
  - by apply exception_ok.
  - apply keeps_ok; [apply wake_io_keeps | done].
  - apply keeps_ok; [apply wake_timed_keeps | done].
Qed.

(** C19.  From boot on, after any sequence of process calls, sleeps, timer
    interrupts, exceptions, wake-ups and signals: the current task is in use,
    and no other task in use is in state RUNNING; the root's slot is never
    given up; no two tasks share a process number; and every task has a
    higher number than its parent, all below the next to be given. *)
Theorem process_table_invariant tick k0 k : (forall k, shrinks k (tick k)) -> at_boot k0 ->
  rtc (proc_step tick) (exec task_init_root k0) k -> proc_ok k.
Proof.
  intros Ht Hb. pose proof (boot_ok k0 Hb) as Ho. induction 1 as [|k1 k2 k3 Hs _ IH]; [done|]. apply IH. by apply (proc_step_ok tick k1).
Qed.

(** ** Exit *)

(** The parent [p] after its child, the process number [pid], has exited. *)
Definition resumed (pid : Z) (p : task_t) : task_t :=
  let t := finish_wait4 pid (snd (sig_pending_set SIGCHLD p)) in
  t <| t_state := TASK_RUNNING |> <| t_switches := u64 (t_switches t + 1) |>.


(** ** Witnesses *)

(** The kernel after boot; an interrupt that wakes what is due. *)
Definition proc_boot : kernel := blank_kernel <| k_next_pid := 100 |>.
Definition proc_tick (k : kernel) : kernel := exec task_wake_timed_io_waiters k.

Lemma proc_boot_blank : at_boot proc_boot.
Proof. done. Qed.

Lemma process_table_invariant_witness : proc_ok (exec (sys_exit 3) (exec (sys_fork (fun _ => 0)) (exec task_init_root proc_boot))).
Proof.
  apply (process_table_invariant proc_tick proc_boot _ wake_timed_keeps proc_boot_blank).
  apply rtc_l with (exec (sys_fork (fun _ => 0)) (exec task_init_root proc_boot)); [apply step_fork; vm_compute; reflexivity|].
  apply rtc_once. apply step_exit.
Defined.

(** The root waits for its child, which runs in slot 1. *)
Definition waiting_root : task_t :=
  blank_task_t <| t_used := true |> <| t_pid := 1 |> <| t_state := TASK_BLOCKED |> <| t_wait4_active := true |> <| t_wait4_pid := -1 |>
    <| t_ctx := set_reg (t_ctx blank_task_t) CR3 0x1000 |>.
Definition running_child : task_t := blank_task_t <| t_used := true |> <| t_pid := 100 |> <| t_ppid := 1 |> <| t_state := TASK_RUNNING |>.
Definition waited_kernel : kernel :=
  set_task 1 running_child (set_task 0 waiting_root
    (blank_kernel <| k_vm := Machine (Pmm [] [] ∅ 0 0xFFFF800000000000 0 0 0 0 ∅ ∅ ∅ true) ∅ 0 [] 0 0 0 0 false |>
       <| k_current := 1 |> <| k_next_pid := 101 |>)).

Lemma waited_task i : task waited_kernel i = if 1 =? i then running_child else if 0 =? i then waiting_root else blank_task_t.
Proof. unfold waited_kernel. rewrite !task_set. by destruct (1 =? i), (0 =? i). Qed.

Lemma waited_ok : proc_ok waited_kernel.
Proof.
  split.
  - by rewrite waited_task.
  - by rewrite waited_task.
  - intros i. rewrite waited_task. destruct (1 =? i), (0 =? i); cbn; (done || lia).
  - intros i j. rewrite !waited_task. destruct (Z.eqb_spec 1 i), (Z.eqb_spec 0 i), (Z.eqb_spec 1 j), (Z.eqb_spec 0 j); cbn; (done || lia).
  - intros i. rewrite waited_task. destruct (Z.eqb_spec 1 i) as [<-|]; [done|]. by destruct (0 =? i).
Qed.

