(* ===== verification/Mmap.v ===== *)
(** * Memory maps of a process

    mmap, munmap, mprotect, mremap and brk with their helpers
    ([src/kernel/main.c]) and the mapping of the framebuffer
    ([src/kernel/main.rs]).  Addresses are 64-bit words; the loops over the
    pages of a range are structural in the number of pages, the searches of
    the address space have a bound of one round per page of it. *)

From Stdlib Require Import String.
From S2P Require Import Prelude Words Pmm Vmm CStr Vfs Kernel Tty Fd Sched UserCopy LazyMmap Signals.
Local Open Scope Z_scope.
Local Open Scope st_scope.

Definition PROT_READ : Z := 1.
Definition PROT_WRITE : Z := 2.
Definition PROT_EXEC : Z := 4.
Definition MAP_SHARED : Z := 0x1.
Definition MAP_FIXED : Z := 0x10.
Definition MAP_ANON : Z := 0x20.
Definition MAP_PRIVATE : Z := 0x2.
Definition MREMAP_MAYMOVE : Z := 1.
Definition MREMAP_FIXED : Z := 2.
Definition MREMAP_DONTUNMAP : Z := 4.
Definition EACCES_K : Z := 13.
Definition DEV_FB : Z := 7.
Definition USER_HEAP_MAX : Z := 0x000000000F000000.

(** [(x + PAGE_SIZE - 1) & PAGE_MASK] *)
Definition page_up (x : Z) : Z := Z.land (u64 (x + PAGE_SIZE - 1)) PAGE_MASK.

(** ** Ranges *)

Definition user_mmap_range_ok (addr len : Z) : bool :=
  if (len =? 0) || (addr <? USER_MMAP_MIN) || (USER_LIMIT <=? addr) then false else len <=? USER_LIMIT - addr.
Definition user_any_mapping_range_ok (addr len : Z) : bool :=
  if (len =? 0) || (USER_LIMIT <=? addr) then false else len <=? USER_LIMIT - addr.
Definition user_addr_range_ok (addr len : Z) : bool :=
  if (len =? 0) || (USER_LIMIT <=? addr) then false else negb (USER_LIMIT - addr <? len).
Definition user_prot_wx (prot : Z) : bool := has prot 2 && has prot 4.
Definition prot_to_pte (prot : Z) : Z := Z.lor (if has prot PROT_WRITE then PTE_W else 0) (if has prot PROT_EXEC then 0 else PTE_NX).

(** One round per page below USER_LIMIT. *)
Definition USER_ROUNDS : positive := 34359738370.

Definition mapped_at (m : machine) (va : Z) : bool := is_some (vmm_user_translate m va).

(** The loop that looks for a mapped page from [first] to [last]. *)
Definition free_step (m : machine) (last va : Z) : Z + bool :=
  if mapped_at m va then inr false
  else if va =? last then inr true
  else if USER_LIMIT - PAGE_SIZE <? va then inr false
  else inl (va + PAGE_SIZE).

Definition range_free_loop (m : machine) (addr len : Z) : bool :=
  match loop USER_ROUNDS (free_step m (Z.land (addr + len - 1) PAGE_MASK)) (Z.land addr PAGE_MASK) with
  | inr b => b
  | inl _ => false
  end.

Definition user_mmap_range_free (m : machine) (addr len : Z) : bool :=
  if negb (user_mmap_range_ok addr len) then false else range_free_loop m addr len.

(** The inner loop of user_mmap_find_gap: the first mapped page, or the last page. *)
Definition probe_step (m : machine) (last probe : Z) : Z + Z :=
  if mapped_at m probe then inr probe else if probe =? last then inr probe else inl (probe + PAGE_SIZE).

Definition HEAP_LOW : Z := 0x0000000000500000.

(** A round of the outer loop; [inr None] is the result 0. *)
Definition gap_step (m : machine) (size heap_end base : Z) : Z + option Z :=
  let base := if base <? USER_MMAP_MIN then USER_MMAP_MIN else base in
  if negb (user_mmap_range_ok base size) then inr None
  else
    let hp := page_up heap_end in
    if (HEAP_LOW <? heap_end) && (base <? hp) && (HEAP_LOW <? base + size) then inl hp
    else if user_mmap_range_free m base size then inr (Some base)
    else
      match loop USER_ROUNDS (probe_step m (Z.land (base + size - 1) PAGE_MASK)) base with
      | inl _ => inr None
      | inr probe => if USER_LIMIT - PAGE_SIZE <? probe then inr None else inl (probe + PAGE_SIZE)
      end.

Definition user_mmap_find_gap (m : machine) (start size heap_end : Z) : option Z :=
  if size =? 0 then None
  else match loop USER_ROUNDS (gap_step m size heap_end) (page_up start) with inr r => r | inl _ => None end.

(** ** Pages *)

(** [if (vmm_user_unmap(va, &p) == 0 && p) pmm_free_page(p);] *)
Definition unmap_free (va : Z) : ST machine unit :=
  let! r := vmm_user_unmap va in
  match r with
  | Some phys => if phys =? 0 then st_ret tt else free_page phys
  | None => st_ret tt
  end.

(** [for (va = va; n pages; va += PAGE_SIZE)] *)
Fixpoint unmap_pages (n : nat) (va : Z) : ST machine unit :=
  match n with
  | O => st_ret tt
  | S n => unmap_free va ;;; unmap_pages n (va + PAGE_SIZE)
  end.

Definition pages_of (size : Z) : nat := Z.to_nat (size / PAGE_SIZE).

(** The loop of sys_mmap over [n] pages from [va] on; [fill] gives the bytes
    of the file for an offset in the mapping, and whether they were all read. *)
Fixpoint mmap_pages (n : nat) (fixed : bool) (fill : Z -> list Z * bool) (flags base va : Z) : ST machine Z :=
  match n with
  | O => st_ret 0
  | S n =>
      let undo := unmap_pages (pages_of (va - base)) base in
      let! phys := alloc_page in
      if phys =? 0 then undo ;;; st_ret (- ENOMEM)
      else
        let! m := st_get in
        match pmm_phys_to_virt (m_pmm m) phys with
        | None => free_page phys ;;; undo ;;; st_ret (- ENOMEM)
        | Some _ =>
            (if fixed then unmap_free va else st_ret tt) ;;;
            zero_page phys ;;;
            let '(bytes, ok) := fill (va - base) in
            st_mod (fun m => set_mem (write_bytes (m_mem m) phys bytes) m) ;;;
            if negb ok then free_page phys ;;; undo ;;; st_ret (- EIO)
            else
              let! r := vmm_user_map va phys flags in
              if negb (r =? 0) then free_page phys ;;; undo ;;; st_ret (- ENOMEM)
              else mmap_pages n fixed fill flags base (va + PAGE_SIZE)
        end
  end.

(** The loop of sys_mremap that grows a mapping in place. *)
Fixpoint grow_pages (n : nat) (flags base va : Z) : ST machine Z :=
  match n with
  | O => st_ret 0
  | S n =>
      let! phys := map_zero_page va flags in
      if phys =? 0 then unmap_pages (pages_of (va - base)) base ;;; st_ret (- ENOMEM)
      else grow_pages n flags base (va + PAGE_SIZE)
  end.

(** The loop of sys_mprotect; [lazy] tells the pages of an area. *)
Fixpoint protect_pages (n : nat) (lazy : Z -> bool) (prot va : Z) : ST machine Z :=
  match n with
  | O => st_ret 0
  | S n =>
      let! m := st_get in
      if negb (mapped_at m va) then
        if negb (lazy va) then st_ret (- EFAULT)
        else if prot =? 0 then protect_pages n lazy prot (va + PAGE_SIZE)
        else
          let! phys := map_zero_page va (prot_to_pte prot) in
          if phys =? 0 then st_ret (- ENOMEM) else protect_pages n lazy prot (va + PAGE_SIZE)
      else if prot =? 0 then unmap_free va ;;; protect_pages n lazy prot (va + PAGE_SIZE)
      else
        let! r := vmm_user_protect va (prot_to_pte prot) in
        if negb (r =? 0) then st_ret (- EFAULT) else protect_pages n lazy prot (va + PAGE_SIZE)
  end.

(** The mapping is a user page that can be written. *)
Definition heap_audit (m : machine) (va : Z) : bool :=
  match vmm_user_translate m va with
  | Some (_, pte) => Z.land pte (Z.lor PTE_P (Z.lor PTE_U PTE_W)) =? Z.lor PTE_P (Z.lor PTE_U PTE_W)
  | None => false
  end.

(** The loop of sys_brk that grows the heap; on failure what it mapped is undone. *)
Fixpoint heap_pages (n : nat) (base va : Z) : ST machine bool :=
  match n with
  | O => st_ret true
  | S n =>
      let rollback := unmap_pages (pages_of (va - base)) base ;;; st_ret false in
      let! m := st_get in
      if mapped_at m va then rollback
      else
        let! phys := map_zero_page va (Z.lor PTE_W PTE_NX) in
        if phys =? 0 then rollback
        else
          let! m := st_get in
          if negb (heap_audit m va) then
            let! u := vmm_user_unmap va in
            match u with
            | Some p => if p =? 0 then free_page phys else free_page p
            | None => free_page phys
            end ;;;
            rollback
          else heap_pages n base (va + PAGE_SIZE)
  end.

(** ** The framebuffer

    A framebuffer is present when its size is not 0. *)

Definition fb_flags : Z := Z.lor (Z.shiftl 1 1) (Z.lor (Z.shiftl 1 3) (Z.lor (Z.shiftl 1 4) (Z.shiftl 1 63))).

(** [unmap]s of the first [n] pages, which stay with the device. *)
Fixpoint fb_undo (n : nat) (virt : Z) : ST machine unit :=
  match n with
  | O => st_ret tt
  | S n => let! _ := vmm_user_unmap virt in fb_undo n (virt + PAGE_SIZE)
  end.

Fixpoint fb_map_loop (n : nat) (base virt phys : Z) : ST machine bool :=
  match n with
  | O => st_ret true
  | S n =>
      let! r := vmm_user_map virt phys fb_flags in
      if negb (r =? 0) then fb_undo (pages_of (virt - base)) base ;;; st_ret false
      else fb_map_loop n base (virt + PAGE_SIZE) (phys + PAGE_SIZE)
  end.

(** [checked_add] *)
Definition checked_add (a b : Z) : option Z := if UINT64_MAX - b <? a then None else Some (a + b).
Definition saturating_add (a b : Z) : Z := if UINT64_MAX - b <? a then UINT64_MAX else a + b.

Definition graphics_fb_map (virt off len : Z) : ST machine Z :=
  let! m := st_get in
  let fbsize := m_fb_size m in
  if (fbsize =? 0) || (virt =? 0) || has virt (PAGE_SIZE - 1) || has off (PAGE_SIZE - 1) || (len =? 0) || (fbsize <=? off)
  then st_ret (-22)
  else
    let phys := saturating_add (Z.land (m_fb_phys m) PAGE_MASK) off in
    match checked_add len (PAGE_SIZE - 1), checked_add (Z.land (m_fb_phys m) (PAGE_SIZE - 1)) (fbsize - off) with
    | Some v, Some remaining =>
        match checked_add remaining (PAGE_SIZE - 1) with
        | None => st_ret (-22)
        | Some w =>
            let size := Z.land v PAGE_MASK in
            if (size =? 0) || (Z.land w PAGE_MASK <? size) then st_ret (-22)
            else if (USER_LIMIT <=? virt) || (USER_LIMIT - virt <? size) then st_ret (-22)
            else
              let! ok := fb_map_loop (pages_of size) virt virt phys in
              vmm_user_flush_tlb ;;;
              st_ret (if ok then size else -12)
        end
    | _, _ => st_ret (-22)
    end.

Fixpoint fb_unmap_loop (n : nat) (virt : Z) : ST machine bool :=
  match n with
  | O => st_ret true
  | S n => let! r := vmm_user_unmap virt in if is_some r then fb_unmap_loop n (virt + PAGE_SIZE) else st_ret false
  end.

Definition graphics_fb_unmap (virt size : Z) : ST machine Z :=
  let! m := st_get in
  if (virt =? 0) || has virt (PAGE_SIZE - 1) || (size =? 0) then st_ret (-22)
  else
    let fb_pages := Z.land (m_fb_size m + Z.land (m_fb_phys m) (PAGE_SIZE - 1) + PAGE_SIZE - 1) PAGE_MASK in
    let requested := Z.land (size + PAGE_SIZE - 1) PAGE_MASK in
    if (requested =? 0) || (fb_pages <? requested) then st_ret (-22)
    else
      let! ok := fb_unmap_loop (pages_of requested) virt in
      if ok then vmm_user_flush_tlb ;;; st_ret 0 else st_ret (-14).

(** ** Threads of one address space *)

(** The task [i] is [ti] or shares its address space. *)
Definition same_space (k : kernel) (ti i : Z) : bool :=
  let cr3 := Z.land (t_ctx (task k ti) CR3) PAGE_MASK in
  t_used (task k i) && ((i =? ti) || (negb (cr3 =? 0) && (Z.land (t_ctx (task k i) CR3) PAGE_MASK =? cr3))).

(** [for (i = 0; i < MAX_TASKS; i++) if (..) tasks[i] = f(tasks[i]);] *)
Definition upd_space (ti : Z) (f : task_t -> task_t) : ST kernel unit :=
  st_mod (fun k => foldl (fun k' i => if same_space k ti i then upd_task i f k' else k') k all_tasks).

Definition task_shared_mmap_cursor (ti : Z) : ST kernel Z :=
  let! k := st_get in
  let high := foldl (fun h i => if same_space k ti i && (h <? t_mmap_next (task k i)) then t_mmap_next (task k i) else h) USER_MMAP_MIN all_tasks in
  upd_space ti (fun t => t <| t_mmap_next := high |>) ;;;
  st_ret high.

Definition task_shared_mmap_cursor_advance (ti next : Z) : ST kernel unit :=
  let! high := task_shared_mmap_cursor ti in
  let high := if high <? next then next else high in
  upd_space ti (fun t => t <| t_mmap_next := high |>).

Definition task_shared_heap_sync (ti base end_ : Z) : ST kernel unit :=
  upd_space ti (fun t => t <| t_heap_base := base |> <| t_heap_end := end_ |>).

(** [!t->ctx.cr3 || vmm_user_activate(t->ctx.cr3) != 0] *)
Definition no_space (ti : Z) : ST kernel bool :=
  let! k := st_get in
  let cr3 := t_ctx (task k ti) CR3 in
  if cr3 =? 0 then st_ret true
  else let! a := on_vm (vmm_user_activate cr3) in st_ret (negb (a =? 0)).

(** ** Files *)

Definition fd_bootfs_path (k : kernel) (f : file_desc) : option cstr :=
  let own := if is_nil (f_boot_path f) then None else Some (f_boot_path f) in
  match f_vnode f with
  | Some v => if vfs_is_boot_file (k_vfs k) v && negb (is_nil (vfs_boot_path (k_vfs k) v)) then Some (vfs_boot_path (k_vfs k) v) else own
  | None => own
  end.

(** [n] bytes of a file's data from [off] on. *)
Definition data_bytes (k : kernel) (d : option Z) (off n : Z) : list Z :=
  match d with
  | Some d => map (fun i => data_at (k_vfs k) d (off + i)) (seqZ 0 n)
  | None => []
  end.

(** The text of /sys/kernel/osrelease. *)
Definition osrelease : list Z := cs "0.0.1-alpha-yabroos-32"%string ++ [10].

(** [n] bytes from [p + off] on. *)
Definition ptr_bytes (k : kernel) (p : data_ptr) (off n : Z) : list Z :=
  match p with
  | DSlot d => data_bytes k (Some d) off n
  | DPseudoBuf b => map (fun i => nth (Z.to_nat (off + i)) (cell [] (k_pseudo_buf k) b) 0) (seqZ 0 n)
  | DOsrelease => map (fun i => nth (Z.to_nat (off + i)) osrelease 0) (seqZ 0 n)
  end.

Section Files.
(** bootfs_read_root_file(path, off, dst, len): the bytes it stores, which
    come from the boot medium. *)
Variable bootfs_read_root_file : cstr -> Z -> Z -> list Z.

(** The error, or the bytes read. *)
Definition kernel_file_read_at (k : kernel) (fd off len : Z) : Z + list Z :=
  let f := file k fd in
  if (fd <? 0) || (MAX_FILES <=? fd) || negb (f_in_use f) then inl (- EBADF)
  else if negb (f_type f =? FD_FILE) then inl (- EBADF)
  else if (f_size f <=? off) || (len =? 0) then inr []
  else
    let want := if f_size f - off <? len then f_size f - off else len in
    if fd_uses_bootfs k (current_files k) fd then
      match fd_bootfs_path k f with
      | None => inl (- EIO)
      | Some bp => inr (bootfs_read_root_file bp off want)
      end
    else
      match (match f_vnode f with Some v => if vfs_file_is_regular (k_vfs k) v then Some v else None | None => None end) with
      | Some v =>
          let size := vfs_file_size (k_vfs k) v in
          if size <=? off then inr []
          else inr (data_bytes k (vfs_file_data (k_vfs k) v) off (if size - off <? want then size - off else want))
      | None =>
          match f_data f with
          | Some p => inr (ptr_bytes k p off want)
          | None => inl (- EIO)
          end
      end.

(** The bytes of one page of a file mapping, and whether they are complete. *)
Definition file_fill (k : kernel) (fd off delta : Z) : list Z * bool :=
  let file_off := u64 (off + delta) in
  let size := f_size (file k fd) in
  let page_bytes := if size <=? file_off then 0 else if size - file_off <? PAGE_SIZE then size - file_off else PAGE_SIZE in
  if page_bytes =? 0 then ([], true)
  else
    match kernel_file_read_at k fd file_off page_bytes with
    | inl _ => ([], false)
    | inr l => (l, Z.of_nat (length l) =? page_bytes)
    end.

(** ** mmap *)

Definition fd_is_fb (f : file_desc) : bool := (f_type f =? FD_PSEUDO) && bool_decide (f_private f = PDev DEV_FB).

(** The branch of sys_mmap for the framebuffer. *)
Definition mmap_framebuffer (ti cursor addr len prot flags off : Z) : ST kernel Z :=
  let! k := st_get in
  let fbsize := m_fb_size (k_vm k) in
  let maplen := page_up len in
  let fb_remaining := if off <? fbsize then u64 (Z.land (m_fb_phys (k_vm k)) (PAGE_SIZE - 1) + fbsize - off) else 0 in
  if has off (PAGE_SIZE - 1) || has prot PROT_EXEC || negb (has flags (Z.lor MAP_SHARED MAP_PRIVATE)) || (fbsize =? 0) || (fbsize <=? off)
     || (maplen =? 0) || (page_up fb_remaining <? maplen)
  then st_ret (- EINVAL)
  else
    let base := if negb (addr =? 0) then page_up addr else page_up cursor in
    if negb (user_mmap_range_ok base maplen) then st_ret (- ENOMEM)
    else
      let! mr := on_vm (graphics_fb_map base off len) in
      if mr <? 0 then st_ret (- EIO)
      else
        st_mod (fun k => upd_task ti (fun t => t <| t_fb_map_count := t_fb_map_count t + 1 |>)
                           (k <| k_framebuffer_users := k_framebuffer_users k + 1 |> <| k_framebuffer_console_active := false |>)) ;;;
        (if cursor <? base + maplen then task_shared_mmap_cursor_advance ti (base + maplen) else st_ret tt) ;;;
        st_ret base.

(** The part of sys_mmap that maps [size] bytes at [base]. *)
Definition mmap_at (ti cursor base size prot flags fd off : Z) : ST kernel Z :=
  let fixed := has flags MAP_FIXED in
  let advance := if cursor <? base + size then task_shared_mmap_cursor_advance ti (base + size) else st_ret tt in
  if has flags MAP_ANON && (prot =? 0) then
    (if fixed then on_vm (unmap_pages (pages_of size) base) else st_ret tt) ;;;
    let! lrc := task_lazy_mmap_transform_shared ti base (base + size) LAZY_MMAP_REPLACE prot in
    if lrc <? 0 then st_ret lrc
    else advance ;;; on_vm vmm_user_flush_tlb ;;; st_ret base
  else
    let! lrc := (if fixed then task_lazy_mmap_transform_shared ti base (base + size) LAZY_MMAP_REMOVE 0 else st_ret 0) in
    if lrc <? 0 then st_ret (- ENOMEM)
    else
      let! k := st_get in
      let fill := if negb (has flags MAP_ANON) && (0 <=? fd) then file_fill k fd off else fun _ => ([], true) in
      let! r := on_vm (mmap_pages (pages_of size) fixed fill (prot_to_pte prot) base base) in
      if negb (r =? 0) then st_ret r
      else advance ;;; on_vm vmm_user_flush_tlb ;;; st_ret base.

(** A descriptor of 512 or more is not refused with a file mapping, and the
    source then reads past the table; the model reads an empty entry there. *)
Definition sys_mmap (addr len prot flags fd off : Z) : ST kernel Z :=
  task_init_root ;;;
  let! k := st_get in
  let ti := k_current k in
  let! bad := no_space ti in
  if bad then st_ret (- EFAULT)
  else
    let! cursor := task_shared_mmap_cursor ti in
    let cursor := if cursor <? USER_MMAP_MIN then USER_MMAP_MIN else cursor in
    let! k := st_get in
    let f := file k fd in
    let anon := has flags MAP_ANON in
    let in_table := (0 <=? fd) && (fd <? MAX_FILES) in
    if (len =? 0) || (Z.shiftl 1 30 <? len) then st_ret (- EINVAL)
    else if has off (PAGE_SIZE - 1) then st_ret (- EINVAL)
    else if user_prot_wx prot then st_ret (- EACCES_K)
    else if negb anon && (fd <? 0) then st_ret (- EBADF)
    else if has flags MAP_FIXED && has addr (PAGE_SIZE - 1) then st_ret (- EINVAL)
    else if negb anon && in_table && (negb (f_in_use f) || (negb (f_type f =? FD_FILE) && negb (fd_is_fb f))) then st_ret (- EBADF)
    else if negb anon && in_table && f_in_use f && fd_is_fb f then mmap_framebuffer ti cursor addr len prot flags off
    else
      let size := page_up len in
      if (size =? 0) || (USER_LIMIT - USER_MMAP_MIN <? size) then st_ret (- ENOMEM)
      else if has flags MAP_FIXED then
        if negb (user_any_mapping_range_ok addr size) then st_ret (- EINVAL)
        else mmap_at ti cursor addr size prot flags fd off
      else if UINT64_MAX - (PAGE_SIZE - 1) <? cursor then st_ret (- ENOMEM)
      else
        match user_mmap_find_gap (k_vm k) cursor size (t_heap_end (task k ti)) with
        | None => st_ret (- ENOMEM)
        | Some base => mmap_at ti cursor base size prot flags fd off
        end.

(** ** munmap and mprotect *)

(** The first page of the range is a page of the framebuffer. *)
Definition is_fb_mapping (m : machine) (addr : Z) : bool :=
  let fbphys := Z.land (m_fb_phys m) PAGE_MASK in
  let fb_end := fbphys + Z.land (m_fb_size m + Z.land (m_fb_phys m) (PAGE_SIZE - 1) + PAGE_SIZE - 1) PAGE_MASK in
  negb (m_fb_size m =? 0)
  && match vmm_user_translate m addr with
     | Some (phys, _) => (fbphys <=? phys) && (phys <? fb_end)
     | None => false
     end.

Definition sys_munmap (addr len : Z) : ST kernel Z :=
  task_init_root ;;;
  let! k := st_get in
  let ti := k_current k in
  let! bad := no_space ti in
  if bad then st_ret (- EFAULT)
  else if has addr (PAGE_SIZE - 1) || (len =? 0) then st_ret (- EINVAL)
  else
    let! k := st_get in
    let size := page_up len in
    let inside b := negb (b =? 0) && (addr <=? b) && (b - addr <? size) in
    if inside (k_msr_fs k) || inside (k_msr_gs k) then st_ret (- EINVAL)
    else if (size =? 0) || negb (user_addr_range_ok addr size) then st_ret (- EINVAL)
    else if negb (user_any_mapping_range_ok addr size) then st_ret (- EINVAL)
    else if is_fb_mapping (k_vm k) addr then
      let! ur := on_vm (graphics_fb_unmap addr size) in
      (if (ur =? 0) && (0 <? t_fb_map_count (task k ti)) then
         st_mod (fun k => upd_task ti (fun t => t <| t_fb_map_count := t_fb_map_count t - 1 |>)
                            (k <| k_framebuffer_users := if 0 <? k_framebuffer_users k then k_framebuffer_users k - 1 else k_framebuffer_users k |>))
       else st_ret tt) ;;;
      st_ret ur
    else
      let! lrc := task_lazy_mmap_transform_shared ti addr (addr + size) LAZY_MMAP_REMOVE 0 in
      if lrc <? 0 then st_ret (- ENOMEM)
      else
        on_vm (unmap_pages (pages_of size) addr) ;;;
        on_vm vmm_user_flush_tlb ;;;
        st_ret 0.

Definition sys_mprotect (addr len prot : Z) : ST kernel Z :=
  task_init_root ;;;
  let! k := st_get in
  let ti := k_current k in
  let! bad := no_space ti in
  if bad then st_ret (- EFAULT)
  else if has addr (PAGE_SIZE - 1) || (len =? 0) then st_ret (- EINVAL)
  else if user_prot_wx prot then st_ret (- EACCES_K)
  else
    let size := page_up len in
    if (size =? 0) || negb (user_addr_range_ok addr size) then st_ret (- EINVAL)
    else if negb (user_any_mapping_range_ok addr size) then st_ret (- EINVAL)
    else
      let! lrc := task_lazy_mmap_transform_shared ti addr (addr + size) LAZY_MMAP_SET_PROT prot in
      if lrc <? 0 then st_ret (- ENOMEM)
      else
        let! k := st_get in
        let! r := on_vm (protect_pages (pages_of size) (fun va => is_some (task_lazy_mmap_protection (task k ti) va)) prot addr) in
        if negb (r =? 0) then st_ret r
        else on_vm vmm_user_flush_tlb ;;; st_ret 0.

(** ** mremap *)

Definition user_mapping_range_free_any (m : machine) (addr len : Z) : bool :=
  if (len =? 0) || (USER_LIMIT <=? addr) || (USER_LIMIT - addr <? len) then false else range_free_loop m addr len.

Definition mremap_pte_to_prot (pte : Z) : Z :=
  Z.lor PROT_READ (Z.lor (if has pte PTE_W then PROT_WRITE else 0) (if has pte PTE_NX then 0 else PROT_EXEC)).

(** The pages of the old mapping are all mapped. *)
Fixpoint all_mapped (n : nat) (m : machine) (va : Z) : bool :=
  match n with
  | O => true
  | S n => mapped_at m va && all_mapped n m (va + PAGE_SIZE)
  end.

(** The copy in chunks of 256 bytes; the result is whether it succeeded. *)
Fixpoint move_chunks (n : nat) (from to_ copy o : Z) : ST kernel bool :=
  match n with
  | O => st_ret true
  | S n =>
      if negb (o <? copy) then st_ret true
      else
        let q := if 256 <? copy - o then 256 else copy - o in
        let! k := st_get in
        match user_copy_from k (from + o) q with
        | None => st_ret false
        | Some l =>
            let! r := user_copy_to (to_ + o) l in
            if negb (r =? 0) then st_ret false else move_chunks n from to_ copy (o + 256)
        end
  end.

(** The end of sys_mremap, once there is a new place. *)
Definition mremap_move (old_addr old_size old_map_size new_size new_map_size target prot : Z) : ST kernel Z :=
  let copy := if old_size <? new_size then old_size else new_size in
  let! ok := move_chunks (S (Z.to_nat (copy / 256))) old_addr target copy 0 in
  if negb ok then let! _ := sys_munmap target new_map_size in st_ret (- EFAULT)
  else
    let! p := (if negb (Z.land prot (Z.lor PROT_WRITE PROT_EXEC) =? Z.lor PROT_WRITE PROT_EXEC)
               then sys_mprotect target new_map_size prot else st_ret 0) in
    if p <? 0 then let! _ := sys_munmap target new_map_size in st_ret (- EFAULT)
    else
      let! u := sys_munmap old_addr old_map_size in
      if u <? 0 then let! _ := sys_munmap target new_map_size in st_ret (- EFAULT)
      else st_ret target.

Definition sys_mremap (old_addr old_size new_size flags new_addr : Z) : ST kernel Z :=
  task_init_root ;;;
  let! k := st_get in
  let ti := k_current k in
  let! bad := no_space ti in
  if bad then st_ret (- EFAULT)
  else if (old_size =? 0) || (new_size =? 0) then st_ret (- EINVAL)
  else if has old_addr (PAGE_SIZE - 1) then st_ret (- EINVAL)
  else if (USER_LIMIT <? old_size) || (USER_LIMIT <? new_size) then st_ret (- EINVAL)
  else if negb (Z.land flags (not64 (Z.lor MREMAP_MAYMOVE (Z.lor MREMAP_FIXED MREMAP_DONTUNMAP))) =? 0) then st_ret (- EINVAL)
  else if has flags MREMAP_FIXED && negb (has flags MREMAP_MAYMOVE) then st_ret (- EINVAL)
  else if has flags MREMAP_DONTUNMAP then st_ret (- EINVAL)
  else
    let old_map_size := page_up old_size in
    let new_map_size := page_up new_size in
    if negb (user_any_mapping_range_ok old_addr old_map_size) then st_ret (- EINVAL)
    else
      let! k := st_get in
      let m := k_vm k in
      if negb (all_mapped (pages_of old_map_size) m old_addr) then st_ret (- EFAULT)
      else
        let prot := mremap_pte_to_prot (match vmm_user_translate m old_addr with Some (_, pte) => pte | None => 0 end) in
        if old_map_size =? new_map_size then st_ret old_addr
        else if new_map_size <? old_map_size then
          let! u := sys_munmap (old_addr + new_map_size) (old_map_size - new_map_size) in
          st_ret (if u <? 0 then - EFAULT else old_addr)
        else if negb (has flags MREMAP_MAYMOVE) then
          let grow_addr := old_addr + old_map_size in
          let grow_len := new_map_size - old_map_size in
          if negb (user_mapping_range_free_any m grow_addr grow_len) then st_ret (- ENOMEM)
          else
            let! r := on_vm (grow_pages (pages_of grow_len) (prot_to_pte prot) grow_addr grow_addr) in
            if negb (r =? 0) then st_ret r
            else on_vm vmm_user_flush_tlb ;;; st_ret old_addr
        else if has flags MREMAP_FIXED then
          if has new_addr (PAGE_SIZE - 1) || negb (user_any_mapping_range_ok new_addr new_map_size) then st_ret (- EINVAL)
          else if new_addr =? old_addr then st_ret (- EINVAL)
          else if (new_addr <? old_addr + old_map_size) && (old_addr <? new_addr + new_map_size) then st_ret (- EINVAL)
          else
            on_vm (unmap_pages (pages_of new_map_size) new_addr) ;;;
            mremap_move old_addr old_size old_map_size new_size new_map_size new_addr prot
        else
          let! n := sys_mmap 0 new_map_size (Z.lor PROT_READ PROT_WRITE) (Z.lor MAP_PRIVATE MAP_ANON) (-1) 0 in
          if n <? 0 then st_ret n
          else mremap_move old_addr old_size old_map_size new_size new_map_size n prot.
End Files.

(** ** brk *)

(** The base and the end of the heap that the threads agree on. *)
Definition heap_of (k : kernel) (ti : Z) : Z * Z :=
  let t := task k ti in
  let base := if negb (t_heap_base t =? 0) then t_heap_base t else USER_HEAP_BASE in
  let old := if negb (t_heap_end t =? 0) then t_heap_end t else base in
  let '(base, old) := foldl (fun st i =>
    let '(base, old) := st in
    if same_space k ti i then
      (if negb (t_heap_base (task k i) =? 0) then t_heap_base (task k i) else base,
       if old <? t_heap_end (task k i) then t_heap_end (task k i) else old)
    else st) (base, old) all_tasks in
  (base, if old <? base then base else old).

Definition sys_brk (addr : Z) : ST kernel Z :=
  task_init_root ;;;
  let! k := st_get in
  let ti := k_current k in
  let! bad := no_space ti in
  if bad then st_ret (- EFAULT)
  else
    let! k := st_get in
    let '(base, old) := heap_of k ti in
    task_shared_heap_sync ti base old ;;;
    if addr =? 0 then st_ret old
    else if (addr <? base) || (USER_HEAP_MAX <=? addr) then st_ret old
    else if old <? addr then
      let a := page_up old in
      let b := page_up addr in
      if (a <? b) && negb (user_addr_range_ok a (b - a)) then st_ret old
      else
        let! ok := on_vm (heap_pages (pages_of (b - a)) a a) in
        if ok then task_shared_heap_sync ti base addr ;;; st_ret addr
        else st_ret old
    else
      (if addr <? old then
         let a := page_up addr in
         on_vm (unmap_pages (pages_of (page_up old - a)) a)
       else st_ret tt) ;;;
      task_shared_heap_sync ti base addr ;;;
      st_ret addr.
