(* ===== verification/MmapFacts.v ===== *)
(** * Searching the address space

    The search for a free place, and the loops over the pages of a range. *)

From S2P Require Import Prelude Words Pmm PmmFacts PmmInit PmmThms PageAlloc Vmm VmmFacts VmmMap VmmSpace VmmThms CStr Vfs Kernel.
From S2P Require Import Tty Fd Sched UserCopy UserMem UserMemThms LazyMmap LazyFacts LazyThms Signals Mmap.
Local Open Scope Z_scope.
Local Open Scope st_scope.

Definition aligned (x : Z) : Prop := x mod PAGE_SIZE = 0.

Lemma page_up_spec x : 0 <= x <= UINT64_MAX - (PAGE_SIZE - 1) -> aligned (page_up x) /\ x <= page_up x < x + PAGE_SIZE.
Proof.
  intros Hx. unfold page_up, aligned, PAGE_SIZE, UINT64_MAX in *. rewrite u64_small by lia. rewrite land_PAGE_MASK by lia. unfold PAGE_SIZE. dlia.
Qed.

(** No page of [lo, hi) is mapped. *)
Definition unmapped (m : machine) (lo hi : Z) : Prop := forall va, aligned va -> lo <= va < hi -> mapped_at m va = false.

Lemma unmapped_next m lo va : aligned va -> unmapped m lo va -> mapped_at m va = false -> unmapped m lo (va + PAGE_SIZE).
Proof.
  intros Ha Hu Hm x Hx Hr. destruct (Z.eq_dec x va) as [->|Hne]; [done|]. apply Hu; [done|]. unfold aligned, PAGE_SIZE in *. dlia.
Qed.

Section Search.
Context (m : machine) (first last : Z) (Hf : aligned first) (Hl : aligned last) (Hle : 0 <= first <= last) (Htop : last <= USER_LIMIT - PAGE_SIZE).

(** The pages before [va] have been looked at. *)
Definition looked (va : Z) : Prop := aligned va /\ first <= va <= last /\ unmapped m first va.

Lemma looked_first : looked first.
Proof. split; [done|]. split; [lia|]. intros x _ Hx. lia. Qed.

Lemma looked_next va : looked va -> mapped_at m va = false -> va <> last -> looked (va + PAGE_SIZE).
Proof.
  intros (Ha & Hr & Hu) Hm Hne. split; [|split; [|by apply unmapped_next]]; unfold aligned, PAGE_SIZE in *; dlia.
Qed.

Definition left_to (va : Z) : Z := (last - va) / PAGE_SIZE.

Lemma left_next va : left_to (va + PAGE_SIZE) < left_to va.
Proof. unfold left_to, PAGE_SIZE. dlia. Qed.

Lemma left_fuel va : looked va -> 0 <= left_to va < Zpos USER_ROUNDS.
Proof. intros (_ & Hr & _). unfold left_to, USER_ROUNDS, PAGE_SIZE, USER_LIMIT in *. dlia. Qed.

Lemma free_loop_spec : exists b, loop USER_ROUNDS (free_step m last) first = inr b /\
  if b then unmapped m first (last + PAGE_SIZE) else ~ unmapped m first (last + PAGE_SIZE).
Proof.
  refine (loop_ends (free_step m last) looked _ left_to _ _ USER_ROUNDS first looked_first _ _).
  - intros a b Ha. unfold free_step. destruct (mapped_at m a) eqn:Em; [done|]. destruct (Z.eqb_spec a last); [done|].
    destruct (_ <? a); [done|]. intros [= <-]. split; [by apply looked_next | apply left_next].
  - intros a r (Ha & Hr & Hu). unfold free_step. destruct (mapped_at m a) eqn:Em.
    + intros [= <-] H. rewrite H in Em; [done | done |]. unfold PAGE_SIZE. lia.
    + destruct (Z.eqb_spec a last) as [->|]; [intros [= <-]; by apply unmapped_next|]. destruct (Z.ltb_spec (USER_LIMIT - PAGE_SIZE) a); [lia | done].
  - intros b Hb. by apply left_fuel.
  - apply left_fuel, looked_first.
Qed.

Lemma probe_loop_spec : ~ unmapped m first (last + PAGE_SIZE) ->
  exists p, loop USER_ROUNDS (probe_step m last) first = inr p /\ aligned p /\ first <= p <= last /\ mapped_at m p = true.
Proof.
  intros Hn. refine (loop_ends (probe_step m last) looked _ left_to _ _ USER_ROUNDS first looked_first _ _).
  - intros a b Ha. unfold probe_step. destruct (mapped_at m a) eqn:Em; [done|]. destruct (Z.eqb_spec a last); [done|].
    intros [= <-]. split; [by apply looked_next | apply left_next].
  - intros a r (Ha & Hr & Hu). unfold probe_step. destruct (mapped_at m a) eqn:Em; [by intros [= <-]|].
    destruct (Z.eqb_spec a last) as [->|]; [|done]. exfalso. by apply Hn, unmapped_next.
  - intros b Hb. by apply left_fuel.
  - apply left_fuel, looked_first.
Qed.
End Search.

(** ** Gaps *)

(** A place for a mapping: page aligned, inside the bounds of mmap, clear of
    the heap, no page mapped. *)
Definition gap (m : machine) (size heap_end b : Z) : Prop :=
  aligned b /\ USER_MMAP_MIN <= b /\ b + size <= USER_LIMIT /\
  (HEAP_LOW < heap_end -> page_up heap_end <= b \/ b + size <= HEAP_LOW) /\ unmapped m b (b + size).

Section Gap.
Context (m : machine) (start size heap_end : Z) (Hsize : aligned size) (Hpos : 0 < size) (Hheap : 0 <= heap_end <= USER_LIMIT).

Definition not_before (base : Z) : Prop := aligned base /\ 0 <= start <= base /\ forall b, start <= b -> gap m size heap_end b -> base <= b.

Definition gap_left (base : Z) : Z := Z.max 0 ((USER_LIMIT + PAGE_SIZE - base) / PAGE_SIZE).

Lemma range_free_spec base : aligned base -> user_mmap_range_ok base size = true ->
  if user_mmap_range_free m base size then unmapped m base (base + size)
  else exists p, loop USER_ROUNDS (probe_step m (Z.land (base + size - 1) PAGE_MASK)) base = inr p /\ aligned p /\ base <= p < base + size /\ mapped_at m p = true.
Proof.
  intros Hb Hr. unfold user_mmap_range_free. rewrite Hr. cbn [negb]. unfold user_mmap_range_ok in Hr. unfold range_free_loop.
  assert (H : USER_MMAP_MIN <= base /\ base + size <= USER_LIMIT) by (destruct (_ || _) eqn:E in Hr; [done | lia]). clear Hr. destruct H as [H1 H2].
  assert (El : Z.land (base + size - 1) PAGE_MASK = base + size - PAGE_SIZE).
  { rewrite land_PAGE_MASK by (unfold USER_MMAP_MIN, USER_LIMIT in *; lia). unfold aligned, PAGE_SIZE in *. dlia. }
  assert (Ef : Z.land base PAGE_MASK = base) by (rewrite land_PAGE_MASK by (unfold USER_MMAP_MIN, USER_LIMIT in *; lia); unfold aligned, PAGE_SIZE in *; dlia).
  rewrite El, Ef. assert (Hl : aligned (base + size - PAGE_SIZE)) by (unfold aligned, PAGE_SIZE in *; dlia).
  assert (Hle : 0 <= base <= base + size - PAGE_SIZE) by (unfold aligned, PAGE_SIZE, USER_MMAP_MIN in *; dlia).
  assert (Ht : base + size - PAGE_SIZE <= USER_LIMIT - PAGE_SIZE) by lia.
  pose proof (free_loop_spec m base (base + size - PAGE_SIZE) Hb Hl Hle Ht) as (b & -> & Hs). rewrite Z.sub_add in Hs.
  destruct b; [done|]. pose proof (probe_loop_spec m base (base + size - PAGE_SIZE) Hb Hl Hle Ht) as Hp. rewrite Z.sub_add in Hp.
  destruct (Hp Hs) as (p & E & Hpa & Hpr & Hm). exists p. split; [done|]. split; [done|]. split; [unfold PAGE_SIZE in *; lia | done].
Qed.

Lemma mmap_range_iff base : user_mmap_range_ok base size = true <-> USER_MMAP_MIN <= base /\ base + size <= USER_LIMIT.
Proof.
  unfold user_mmap_range_ok. destruct (_ || _) eqn:E; lia.
Qed.

Lemma gap_left_next b b' : b + PAGE_SIZE <= b' <= USER_LIMIT -> gap_left b' < gap_left b.
Proof. unfold gap_left, PAGE_SIZE, USER_LIMIT. dlia. Qed.

(** What a round makes of a base no gap is below. *)
Lemma gap_step_spec base : not_before base ->
  match gap_step m size heap_end base with
  | inl b => not_before b /\ gap_left b < gap_left base
  | inr (Some b) => start <= b /\ gap m size heap_end b /\ forall b', start <= b' -> gap m size heap_end b' -> b <= b'
  | inr None => forall b', start <= b' -> ~ gap m size heap_end b'
  end.
Proof.
  intros (Ha & H0 & Hb). unfold gap_step. set (base0 := if base <? USER_MMAP_MIN then USER_MMAP_MIN else base).
  assert (Hb0 : aligned base0 /\ base <= base0 /\ USER_MMAP_MIN <= base0 /\ forall b, start <= b -> gap m size heap_end b -> base0 <= b).
  { unfold base0. destruct (Z.ltb_spec base USER_MMAP_MIN); [|done]. split; [done|]. split; [lia|]. split; [done|]. intros b _ (_ & Hg & _). exact Hg. }
  destruct Hb0 as (Ha0 & Hle & Hmin & Hg0). clearbody base0. pose proof (mmap_range_iff base0) as Hri.
  destruct (user_mmap_range_ok base0 size) eqn:Er; cbn [negb].
  2: { intros b' Hs Hg. pose proof (Hg0 b' Hs Hg). destruct Hg as (_ & _ & Ht & _). assert (false = true) by (apply Hri; lia). done. }
  destruct (proj1 Hri eq_refl) as [_ Ht]. destruct (page_up_spec heap_end) as [Hhp1 Hhp2]; [unfold USER_LIMIT, UINT64_MAX, PAGE_SIZE in *; lia|].
  destruct (_ && _) eqn:Eh.
  - assert (HEAP_LOW < heap_end /\ base0 < page_up heap_end /\ HEAP_LOW < base0 + size) as (Hh1 & Hh2 & Hh3) by lia. split.
    + split; [done|]. split; [lia|]. intros b Hs Hg. pose proof (Hg0 b Hs Hg). destruct Hg as (_ & _ & _ & Hg & _). destruct (Hg Hh1); lia.
    + apply gap_left_next. unfold aligned, PAGE_SIZE, USER_LIMIT in *. dlia.
  - pose proof (range_free_spec base0 Ha0 Er) as Hf. destruct (user_mmap_range_free m base0 size).
    + split; [lia|]. split; [|exact Hg0]. split; [done|]. split; [done|]. split; [done|]. split; [lia | done].
    + destruct Hf as (p & -> & Hpa & Hpr & Hm). destruct (Z.ltb_spec (USER_LIMIT - PAGE_SIZE) p); [unfold aligned, PAGE_SIZE, USER_LIMIT in *; dlia|]. split.
      * split; [unfold aligned, PAGE_SIZE in *; dlia|]. split; [unfold PAGE_SIZE; lia|]. intros b Hs Hg. pose proof (Hg0 b Hs Hg).
        destruct Hg as (Hba & _ & _ & _ & Hu). destruct (Z.le_gt_cases b p) as [Hbp|Hbp]; [|unfold aligned, PAGE_SIZE in *; dlia].
        rewrite (Hu p Hpa) in Hm by lia. done.
      * apply gap_left_next. unfold PAGE_SIZE in *. lia.
Qed.

Lemma find_gap_spec : 0 <= start <= UINT64_MAX - (PAGE_SIZE - 1) ->
  match user_mmap_find_gap m start size heap_end with
  | Some b => start <= b /\ gap m size heap_end b /\ forall b', start <= b' -> gap m size heap_end b' -> b <= b'
  | None => forall b', start <= b' -> ~ gap m size heap_end b'
  end.
Proof.
  intros Hs. unfold user_mmap_find_gap. rewrite (proj2 (Z.eqb_neq size 0)) by lia. destruct (page_up_spec start Hs) as [Hp1 Hp2].
  assert (Hi : not_before (page_up start)).
  { split; [done|]. split; [lia|]. intros b Hb (Hba & _). unfold aligned, PAGE_SIZE in *. dlia. }
  destruct (loop_ends (gap_step m size heap_end) not_before (fun r => match r with
    | Some b => start <= b /\ gap m size heap_end b /\ forall b', start <= b' -> gap m size heap_end b' -> b <= b'
    | None => forall b', start <= b' -> ~ gap m size heap_end b' end) gap_left) with (fuel := USER_ROUNDS) (a := page_up start) as (r & -> & H).
  - intros a b Ha E. pose proof (gap_step_spec a Ha) as H. by rewrite E in H.
  - intros a r Ha E. pose proof (gap_step_spec a Ha) as H. rewrite E in H. by destruct r.
  - done.
  - intros b _. unfold gap_left. lia.
  - destruct Hi as (_ & Hi & _). unfold gap_left, USER_ROUNDS, PAGE_SIZE, USER_LIMIT in *. dlia.
  - done.
Qed.
End Gap.

(** ** Unmapping and mapping the pages of a range

    What the loops of munmap, mmap and brk do to the memory a process sees. *)

Section Pages.
Context {HB : HhdmBase} {inv : pmm -> Prop} {held : pmm -> Z -> Prop} `{PA : !PageAllocator inv held}.
Local Abbreviation space_ok := (space_ok (inv := inv) (held := held)).
Local Abbreviation data_page := (data_page (held := held)).

(** What is mapped at [a] is mapped for the user. *)
Definition user_leaf (m : machine) (a : Z) : Prop := has (upte m a) PTE_P = true -> has (upte m a) PTE_U = true.

(** Nothing is mapped from [lo] to [hi], everything else is as before. *)
Definition cleared (lo hi : Z) (m m' : machine) : Prop :=
  m_user_pml4 m' = m_user_pml4 m /\
  forall a, user_va a ->
    if (lo <=? a) && (a <? hi) then has (upte m' a) PTE_P = false
    else upte m' a = upte m a /\ ubyte m' (m_user_pml4 m) a = ubyte m (m_user_pml4 m) a.

Lemma cleared_view lo hi m m1 m2 : cleared lo hi m m1 -> same_view m1 m2 -> cleared lo hi m m2.
Proof.
  intros [E1 H1] [E2 H2]. split; [congruence|]. intros a Ha. specialize (H1 a Ha). destruct (H2 a Ha) as [U B]. rewrite E1 in B.
  destruct (_ && _); [congruence|]. destruct H1. split; congruence.
Qed.

Lemma view_cleared lo hi m m' : same_view m m' -> (forall a, user_va a -> lo <= a < hi -> has (upte m a) PTE_P = false) -> cleared lo hi m m'.
Proof.
  intros [E H] Hn. split; [done|]. intros a Ha. destruct (H a Ha) as [U B]. destruct (_ && _) eqn:Er; [|done]. rewrite U. apply Hn; [done | lia].
Qed.

Lemma cleared_join lo mid hi m m1 m2 : lo <= mid <= hi -> cleared lo mid m m1 -> cleared mid hi m1 m2 -> cleared lo hi m m2.
Proof.
  intros Hm [E1 H1] [E2 H2]. split; [congruence|]. intros a Ha. specialize (H1 a Ha). specialize (H2 a Ha). rewrite E1 in H2.
  destruct ((lo <=? a) && (a <? mid)) eqn:Ea, ((mid <=? a) && (a <? hi)) eqn:Eb.
  - lia.
  - rewrite (proj2 (andb_true_iff _ _)) by lia. destruct H2 as [-> _]. done.
  - rewrite (proj2 (andb_true_iff _ _)) by lia. done.
  - rewrite (proj2 (andb_false_iff _ _)) by lia. destruct H1, H2. split; congruence.
Qed.

Lemma same_page_range va a : aligned va -> a / PAGE_SIZE = va / PAGE_SIZE <-> va <= a < va + PAGE_SIZE.
Proof. unfold aligned, PAGE_SIZE. intros H. dlia. Qed.

Lemma unmap_free_spec m va : space_ok m -> page_va va -> user_leaf m va ->
  let m' := exec (unmap_free va) m in space_ok m' /\ cleared va (va + PAGE_SIZE) m m'.
Proof.
  intros Hs Hva Hu. cbv zeta. pose proof (vmm_user_unmap_spec m va (so_user _ Hs) Hva) as H. cbv zeta in H. unfold unmap_free. rewrite exec_bind.
  destruct (vmm_user_unmap va m) as [r m1] eqn:Em. assert (E1 : exec (vmm_user_unmap va) m = m1) by (unfold exec; by rewrite Em). rewrite E1. cbn [fst]. fold (upte m va) in H.
  pose proof (proj2 Hva : aligned va) as Hal.
  assert (Hpg : forall a, user_va a -> (a / PAGE_SIZE =? va / PAGE_SIZE) = (va <=? a) && (a <? va + PAGE_SIZE)).
  { intros a _. pose proof (same_page_range va a Hal). destruct (Z.eqb_spec (a / PAGE_SIZE) (va / PAGE_SIZE)); lia. }
  destruct (has (upte m va) PTE_P) eqn:HP.
  - destruct H as [-> Hl]. assert (Hp : upresent m va = true) by (unfold upresent; by rewrite HP, Hu).
    pose proof (so_page _ Hs va (proj1 Hva) Hp) as Hd. destruct (data_page_reach m _ (so_user _ Hs) Hd) as (Ha & Hr & _).
    rewrite (proj2 (Z.eqb_neq _ 0)) by lia.
    assert (Hs1 : space_ok m1) by (by apply (leaf_space m m1 va 0 Hs (proj1 Hva) Hl)).
    assert (Hc1 : cleared va (va + PAGE_SIZE) m m1).
    { split; [apply (ls_user _ _ _ _ _ Hl)|]. intros a Hav. rewrite (leaf_upte m m1 va 0 Hl a Hav), Hpg by done. destruct (_ && _) eqn:E; [done|].
      split; [done|]. apply (leaf_ubyte m m1 va 0 Hs Hl); try done. rewrite <- Z.eqb_neq, Hpg; done. }
    assert (Hd1 : data_page m1 (addr_of (upte m va))) by (by apply (leaf_data_page m m1 va 0 Hl)).
    destruct (free_space m1 _ Hs1 Hd1) as [Hs2 Hv2].
    { intros a Hav Hpa E. unfold upresent in Hpa. rewrite (leaf_upte m m1 va 0 Hl a Hav) in Hpa, E. destruct (Z.eqb_spec (a / PAGE_SIZE) (va / PAGE_SIZE)) as [|Hne]; [done|].
      apply Hne, (so_private _ Hs); try done. apply Hva. }
    split; [exact Hs2 | exact (cleared_view _ _ _ _ _ Hc1 Hv2)].
  - destruct H as [-> ->]. split; [exact Hs|]. apply view_cleared; [apply same_view_refl|]. intros a Hav Hr. rewrite (upte_page m a va); [done | done | apply Hva|].
    by apply same_page_range.
Qed.

(** The loop over [n] pages. *)
Lemma unmap_pages_spec n : forall m va, space_ok m -> aligned va -> 0 <= va -> va + Z.of_nat n * PAGE_SIZE <= USER_TOP ->
  (forall a, user_va a -> va <= a < va + Z.of_nat n * PAGE_SIZE -> user_leaf m a) ->
  let m' := exec (unmap_pages n va) m in space_ok m' /\ cleared va (va + Z.of_nat n * PAGE_SIZE) m m'.
Proof.
  induction n as [|n IH]; intros m va Hs Hal H0 Htop Hu; cbv zeta; cbn [unmap_pages].
  - split; [exact Hs|]. apply view_cleared; [apply same_view_refl|]. intros a _ Hr. lia.
  - rewrite exec_seq. assert (Hva : page_va va) by (split; [unfold user_va, PAGE_SIZE in *; lia | exact Hal]).
    destruct (unmap_free_spec m va Hs Hva) as [Hs1 Hc1]; [apply Hu; [apply Hva | unfold PAGE_SIZE; lia]|].
    revert Hs1 Hc1. generalize (exec (unmap_free va) m). intros m1 Hs1 Hc1. destruct (IH m1 (va + PAGE_SIZE) Hs1) as [Hs2 Hc2].
    + unfold aligned, PAGE_SIZE in *. dlia.
    + unfold PAGE_SIZE. lia.
    + unfold PAGE_SIZE in *. lia.
    + intros a Ha Hr. unfold user_leaf. destruct Hc1 as [_ Hc1]. specialize (Hc1 a Ha). destruct ((va <=? a) && (a <? va + PAGE_SIZE)) eqn:E.
      * by rewrite Hc1.
      * destruct Hc1 as [-> _]. apply Hu; [done|]. unfold PAGE_SIZE in *. lia.
    + split; [exact Hs2|]. replace (va + Z.of_nat (S n) * PAGE_SIZE) with (va + PAGE_SIZE + Z.of_nat n * PAGE_SIZE) by lia.
      refine (cleared_join _ (va + PAGE_SIZE) _ _ _ _ _ Hc1 Hc2). unfold PAGE_SIZE. lia.
Qed.

(** ** Growing the heap *)

Lemma mapped_present m a : space_ok m -> user_va a -> mapped_at m a = has (upte m a) PTE_P.
Proof. intros Hs Ha. unfold mapped_at. rewrite user_translate_eq by (apply Hs || done). cbv zeta. fold (upte m a). by destruct (has (upte m a) PTE_P). Qed.

(** From [lo] to [hi] there are zeroes the process may write but not execute;
    everything else is as before. *)
Definition zeroed (lo hi : Z) (m m' : machine) : Prop :=
  m_user_pml4 m' = m_user_pml4 m /\
  forall a, user_va a ->
    if (lo <=? a) && (a <? hi)
    then ubyte m' (m_user_pml4 m) a = Some 0 /\ uwritable m' a = true /\ has (upte m' a) PTE_COW = false /\ has (upte m' a) PTE_NX = true
    else upte m' a = upte m a /\ ubyte m' (m_user_pml4 m) a = ubyte m (m_user_pml4 m) a.

(** Every mapping and its bytes are as before. *)
Definition same_mappings (m m' : machine) : Prop :=
  m_user_pml4 m' = m_user_pml4 m /\
  forall a, user_va a -> has (upte m' a) PTE_P = has (upte m a) PTE_P /\
    (has (upte m a) PTE_P = true -> upte m' a = upte m a /\ ubyte m' (m_user_pml4 m) a = ubyte m (m_user_pml4 m) a).

(** No page from [lo] to [hi] is mapped. *)
Definition vacant (lo hi : Z) (m : machine) : Prop := forall a, user_va a -> lo <= a < hi -> has (upte m a) PTE_P = false.

Lemma zeroed_next lo va m m1 m2 : lo <= va -> aligned va -> user_va va -> zeroed lo va m m1 -> filled m1 m2 va 2 -> zeroed lo (va + PAGE_SIZE) m m2.
Proof.
  intros Hlo Hal Hv [E1 H1] [E2 H2]. split; [congruence|]. intros a Ha. specialize (H1 a Ha). specialize (H2 a Ha). rewrite E1 in H2.
  pose proof (same_page_range va a Hal) as Hp. destruct (Z.eqb_spec (a / PAGE_SIZE) (va / PAGE_SIZE)) as [E|E].
  - rewrite (proj2 (andb_true_iff _ _)) by lia. destruct H2 as (B & W & C & N). done.
  - destruct H2 as [U B]. assert (Er : (lo <=? a) && (a <? va + PAGE_SIZE) = (lo <=? a) && (a <? va)) by (unfold PAGE_SIZE in *; lia). rewrite Er.
    destruct (_ && _); [|destruct H1; split; congruence]. unfold uwritable, upresent in *. by rewrite U, B.
Qed.

Lemma zeroed_cleared lo hi m m1 m2 : vacant lo hi m -> zeroed lo hi m m1 -> cleared lo hi m1 m2 -> same_mappings m m2.
Proof.
  intros Hn [E1 H1] [E2 H2]. split; [congruence|]. intros a Ha. specialize (H1 a Ha). specialize (H2 a Ha). rewrite E1 in H2.
  destruct ((lo <=? a) && (a <? hi)) eqn:Er.
  - rewrite H2, (Hn a Ha) by lia. done.
  - destruct H1 as [U1 B1], H2 as [-> ->]. rewrite U1, B1. done.
Qed.

Lemma audit_zeroed m va : space_ok m -> user_va va -> uwritable m va = true -> has (upte m va) PTE_COW = false -> heap_audit m va = true.
Proof.
  intros Hs Hv Hw Hc. unfold heap_audit. rewrite user_translate_eq by (apply Hs || done). cbv zeta. fold (upte m va). unfold uwritable, upresent in Hw. rewrite Hc, orb_false_r in Hw.
  apply andb_prop in Hw as [[HP HU]%andb_prop HW]. rewrite HP. apply Z.eqb_eq. rewrite has_P in HP. rewrite has_U in HU. rewrite has_W in HW.
  change (Z.lor PTE_P (Z.lor PTE_U PTE_W)) with 7. apply Z.bits_inj'. intros i Hi. rewrite Z.land_spec.
  destruct (Z.eq_dec i 0) as [->|]; [by rewrite HP|]. destruct (Z.eq_dec i 1) as [->|]; [by rewrite HW|]. destruct (Z.eq_dec i 2) as [->|]; [by rewrite HU|].
  rewrite (Z.bits_above_log2 7 i) by (cbn; lia). by rewrite andb_false_r.
Qed.

Lemma fill_zeroed m0 base va m p m1 : space_ok m -> aligned va -> user_va va -> base <= va -> zeroed base va m0 m ->
  map_zero_page va (Z.lor PTE_W PTE_NX) m = (p, m1) ->
  space_ok m1 /\ ((p <> 0 /\ zeroed base (va + PAGE_SIZE) m0 m1 /\ heap_audit m1 va = true) \/ (p = 0 /\ same_view m m1)).
Proof.
  intros Hs Hal Hv Hb Hz E. destruct (map_zero_spec m va 2 p m1 Hs (conj Hv Hal) E) as [Hs1 [[Hp Hf]|(Hp & Hw & _)]]; (split; [done|]); [left|by right].
  split; [done|]. split; [by apply (zeroed_next base va m0 m)|]. destruct Hf as [_ Hf]. specialize (Hf va Hv). rewrite Z.eqb_refl in Hf.
  destruct Hf as (_ & W & C & _). by apply audit_zeroed.
Qed.

Lemma zeroed_view lo hi m m1 m2 : zeroed lo hi m m1 -> same_view m1 m2 -> zeroed lo hi m m2.
Proof.
  intros [E1 H1] [E2 H2]. split; [congruence|]. intros a Ha. specialize (H1 a Ha). destruct (H2 a Ha) as [U B]. rewrite E1 in B. unfold uwritable, upresent in *. rewrite U, B. done.
Qed.

(** Undoing what was mapped. *)
Lemma rollback_spec m0 base va m : space_ok m -> aligned base -> aligned va -> 0 <= base <= va -> va <= USER_TOP -> vacant base va m0 -> zeroed base va m0 m ->
  let m' := exec (unmap_pages (pages_of (va - base)) base) m in space_ok m' /\ same_mappings m0 m'.
Proof.
  intros Hs Ha Hv Hb Ht Hn Hz. cbv zeta. assert (Hps : Z.of_nat (pages_of (va - base)) * PAGE_SIZE = va - base) by (unfold pages_of, aligned, PAGE_SIZE in *; dlia).
  destruct (unmap_pages_spec (pages_of (va - base)) m base Hs Ha) as [Hs1 Hc]; rewrite ?Hps; [lia | lia | |].
  - intros a Hav Hr Hp. destruct Hz as [_ Hz]. specialize (Hz a Hav). rewrite (proj2 (andb_true_iff _ _)) in Hz by lia. destruct Hz as (_ & Hw & _).
    unfold uwritable, upresent in Hw. by apply andb_prop in Hw as [[_ ?]%andb_prop _].
  - split; [exact Hs1|]. rewrite Hps in Hc. replace (base + (va - base)) with va in Hc by lia. exact (zeroed_cleared _ _ _ _ _ Hn Hz Hc).
Qed.

Lemma vacant_here lo va m0 m : lo <= va -> aligned va -> user_va va -> zeroed lo va m0 m -> mapped_at m va = false -> space_ok m -> vacant lo va m0 -> vacant lo (va + PAGE_SIZE) m0.
Proof.
  intros Hlo Hal Hv [_ Hz] Hm Hs Hn a Ha Hr. destruct (Z.lt_ge_cases a va); [apply Hn; [done | lia]|].
  rewrite mapped_present in Hm by done. specialize (Hz va Hv). rewrite (proj2 (andb_false_iff _ _)) in Hz by lia. destruct Hz as [Hz _].
  rewrite (upte_page m0 a va), <- Hz; [done | done | done|]. apply same_page_range; [done | lia].
Qed.

Lemma heap_pages_spec m0 base n : forall va m ok m', space_ok m -> aligned base -> aligned va -> 0 <= base <= va -> va + Z.of_nat n * PAGE_SIZE <= USER_TOP ->
  vacant base va m0 -> zeroed base va m0 m -> heap_pages n base va m = (ok, m') ->
  space_ok m' /\ if ok then vacant base (va + Z.of_nat n * PAGE_SIZE) m0 /\ zeroed base (va + Z.of_nat n * PAGE_SIZE) m0 m' else same_mappings m0 m'.
Proof.
  induction n as [|n IH]; intros va m ok m' Hs Hab Hal Hb Htop Hn Hz; cbn [heap_pages].
  { intros [= <- <-]. replace (va + Z.of_nat 0 * PAGE_SIZE) with va by lia. done. }
  assert (Hv : user_va va) by (unfold user_va, PAGE_SIZE in *; lia).
  assert (Hroll : forall m1, space_ok m1 -> zeroed base va m0 m1 -> (unmap_pages (pages_of (va - base)) base ;;; st_ret false) m1 = (ok, m') ->
    space_ok m' /\ if ok then vacant base (va + Z.of_nat (S n) * PAGE_SIZE) m0 /\ zeroed base (va + Z.of_nat (S n) * PAGE_SIZE) m0 m' else same_mappings m0 m').
  { intros m1 Hs1 Hz1 E. destruct (rollback_spec m0 base va m1 Hs1 Hab Hal Hb) as [Hs2 Hm2]; [unfold PAGE_SIZE in *; lia | done | done|].
    unfold st_bind, exec in *. destruct (unmap_pages _ _ m1) as [u m2]. injection E as <- <-. done. }
  unfold st_bind at 1, st_get at 1. destruct (mapped_at m va) eqn:Em; [by apply Hroll|].
  unfold st_bind at 1. destruct (map_zero_page va (Z.lor PTE_W PTE_NX) m) as [p m1] eqn:E1.
  destruct (fill_zeroed m0 base va m p m1 Hs Hal Hv ltac:(lia) Hz E1) as [Hs1 [(Hp & Hz1 & Haud)|[-> Hv1]]].
  - rewrite (proj2 (Z.eqb_neq p 0)) by done. unfold st_bind at 1, st_get at 1. rewrite Haud. cbn [negb]. intros E.
    replace (va + Z.of_nat (S n) * PAGE_SIZE) with (va + PAGE_SIZE + Z.of_nat n * PAGE_SIZE) in * by lia.
    apply (IH (va + PAGE_SIZE) m1 ok m'); try done; [unfold aligned, PAGE_SIZE in *; dlia | unfold PAGE_SIZE; lia|]. by apply (vacant_here base va m0 m); [lia|..].
  - cbn [Z.eqb]. apply Hroll; [done|]. exact (zeroed_view _ _ _ _ _ Hz Hv1).
Qed.
End Pages.
