(* ===== verification/MmapThms.v ===== *)
(** * Properties of the memory maps of a process *)

From S2P Require Import Prelude Words Pmm PmmFacts PmmInit PmmThms PageAlloc.
From S2P Require Import Vmm VmmFacts VmmMap VmmSpace VmmThms CStr Vfs Kernel Tty Fd Sched SchedFacts UserCopy UserMem UserMemThms.
From S2P Require Import LazyMmap LazyFacts LazyThms Signals Frames Mmap MmapFacts.
Local Open Scope Z_scope.
Local Open Scope st_scope.

(** C21.  user_mmap_find_gap ends, and finds the lowest page-aligned place for
    [size] bytes from [start] on that lies in the area of mmap, is clear of
    the heap and has no mapped page; it answers 0 only when there is none. *)
Theorem user_mmap_find_gap_lowest m start size heap_end : aligned size -> 0 < size -> 0 <= heap_end <= USER_LIMIT ->
  0 <= start <= UINT64_MAX - (PAGE_SIZE - 1) ->
  match user_mmap_find_gap m start size heap_end with
  | Some b => start <= b /\ gap m size heap_end b /\ forall b', start <= b' -> gap m size heap_end b' -> b <= b'
  | None => forall b', start <= b' -> ~ gap m size heap_end b'
  end.
Proof. intros Ha Hp Hh Hs. by apply find_gap_spec. Qed.

(** ** munmap *)

(** Only the tasks change. *)
Lemma transform_tasks_only ti cr3 start end_ op prot todo : keeps tasks_only (transform_tasks ti cr3 start end_ op prot todo).
Proof.
  induction todo as [|i todo IH]; [apply keeps_ret; exact _|]. cbn [transform_tasks]. apply keeps_get. intros k. destruct (negb _); [exact IH|].
  destruct (_ && _); [exact IH|]. destruct (task_lazy_mmap_transform _ _ _ _ _) as [rc t]. apply keeps_bind; [exact _ | apply keeps_mod; by intros [] | intros _].
  destruct (rc <? 0); [apply keeps_ret; exact _ | exact IH].
Qed.

Section Maps.
Context {HB : HhdmBase} {inv : pmm -> Prop} {held : pmm -> Z -> Prop} `{PA : !PageAllocator inv held}.
Local Abbreviation space_ok := (space_ok (inv := inv) (held := held)).

(** The current task runs in the active address space, whose threads agree on
    its areas. *)
Record in_space (k : kernel) : Prop := {
  is_root : t_used (task k 0) = true;
  is_slot : task_ok (k_current k) = true;
  is_used : t_used (task k (k_current k)) = true;
  is_cr3 : t_ctx (task k (k_current k)) CR3 = m_user_pml4 (k_vm k);
  is_space : space_ok (k_vm k);
  is_threads : threads_agree k
}.

Lemma root_init k : t_used (task k 0) = true -> task_init_root k = (tt, k).
Proof. intros H. unfold task_init_root, st_bind, st_get. by rewrite H. Qed.

Lemma space_active k : in_space k -> no_space (k_current k) k = (false, k).
Proof.
  intros [_ _ _ Hc Hs _]. unfold no_space, st_bind, st_get. rewrite Hc. assert (Hn : (m_user_pml4 (k_vm k) =? 0) = false).
  { apply Z.eqb_neq. intros E. pose proof (space_root _ Hs) as Hr. by rewrite E in Hr. }
  rewrite Hn. unfold on_vm. rewrite activate_root by done. by destruct k.
Qed.

(** A segment base of the processor lies in the range. *)
Definition holds_base (k : kernel) (addr size : Z) : bool :=
  let inside b := negb (b =? 0) && (addr <=? b) && (b - addr <? size) in inside (k_msr_fs k) || inside (k_msr_gs k).

(** The arguments munmap refuses. *)
Definition munmap_refused (k : kernel) (addr len : Z) : bool :=
  has addr (PAGE_SIZE - 1) || (len =? 0) || holds_base k addr (page_up len) || (page_up len =? 0) || (USER_LIMIT <? addr + page_up len).

Lemma munmap_start addr len k : in_space k -> 0 <= page_up len -> is_fb_mapping (k_vm k) addr = false ->
  sys_munmap addr len k =
  if munmap_refused k addr len then (- EINVAL, k)
  else (let! lrc := task_lazy_mmap_transform_shared (k_current k) addr (addr + page_up len) LAZY_MMAP_REMOVE 0 in
        if lrc <? 0 then st_ret (- ENOMEM)
        else on_vm (unmap_pages (pages_of (page_up len)) addr) ;;; on_vm vmm_user_flush_tlb ;;; st_ret 0) k.
Proof.
  intros Hi Hsz Hfb. unfold sys_munmap. unfold st_bind at 1. rewrite (root_init k (is_root _ Hi)). unfold st_bind at 1 2, st_get.
  rewrite (space_active k Hi). unfold munmap_refused. destruct (has addr _); [done|]. cbn [orb]. destruct (len =? 0); [done|]. cbn [orb].
  unfold st_bind at 1. fold (holds_base k addr (page_up len)). destruct (holds_base k addr (page_up len)); [done|]. cbn [orb].
  destruct (page_up len =? 0) eqn:E0; [done|]. cbn [orb]. unfold user_addr_range_ok, user_any_mapping_range_ok. rewrite E0, Hfb. cbn [orb].
  destruct (Z.leb_spec USER_LIMIT addr) as [H1|H1]; cbn [negb].
  - rewrite (proj2 (Z.ltb_lt _ _)) by lia. done.
  - destruct (Z.ltb_spec (USER_LIMIT - addr) (page_up len)); cbn [negb]; [rewrite (proj2 (Z.ltb_lt _ _)) by lia; done|].
    rewrite (proj2 (Z.leb_le _ _)), (proj2 (Z.ltb_ge _ _)) by lia. done.
Qed.

Lemma pages_size size : aligned size -> 0 <= size -> Z.of_nat (pages_of size) * PAGE_SIZE = size.
Proof. unfold pages_of, aligned, PAGE_SIZE. intros Ha Hs. dlia. Qed.

(** What the threads of the current address space have left of their areas. *)
Definition areas_after (op : lazy_op) (prot lo hi : Z) (k k' : kernel) : Prop :=
  forall i, task_ok i = true -> task k' i = (task k i) <| t_lazy_mmaps := t_lazy_mmaps (task k' i) |> /\
    if shares k (k_current k) i
    then forall a, task_lazy_mmap_protection (task k' i) a = new_protection lo hi op prot (task_lazy_mmap_protection (task k i) a) a
    else t_lazy_mmaps (task k' i) = t_lazy_mmaps (task k i).

Lemma transform_protection lo hi op prot t : fst (task_lazy_mmap_transform lo hi op prot t) = 0 ->
  forall a, task_lazy_mmap_protection (snd (task_lazy_mmap_transform lo hi op prot t)) a = new_protection lo hi op prot (task_lazy_mmap_protection t a) a.
Proof.
  rewrite transform_eq. destruct (Z.leb_spec hi lo); [done|]. destruct (MAX_LAZY_USER_MMAPS <? _) eqn:Eb; [done|]. intros _ a. rewrite !protection_cover.
  cbn [snd]. change (t_lazy_mmaps (t <| t_lazy_mmaps := ?l |>)) with l. rewrite cover_store, cover_all_pieces by lia.
  unfold covered, new_protection. destruct (_ && _); [|done]. destruct op; [done | by destruct (cover _ a) | done].
Qed.

Lemma shared_only lo hi op prot ti k r k1 : task_lazy_mmap_transform_shared ti lo hi op prot k = (r, k1) -> k_vm k1 = k_vm k.
Proof.
  rewrite shared_eq. generalize all_tasks. intros all E. pose proof (transform_tasks_only ti (Z.land (t_ctx (task k ti) CR3) PAGE_MASK) lo hi op prot all k) as Hk.
  unfold exec in Hk. rewrite E in Hk. unfold tasks_only in Hk. cbn [snd] in Hk. by rewrite Hk.
Qed.

Lemma thread_areas k i : in_space k -> task_ok i = true -> shares k (k_current k) i = true -> t_lazy_mmaps (task k i) = t_lazy_mmaps (task k (k_current k)).
Proof.
  intros Hi Hoi Hs. unfold shares in Hs. apply andb_prop in Hs as [Hui [->%Z.eqb_eq|[Hz%negb_true_iff%Z.eqb_neq Hc%Z.eqb_eq]%andb_prop]%orb_prop]; [done|].
  apply (is_threads _ Hi); try done; [apply Hi | apply Hi | congruence].
Qed.

Lemma shared_areas lo hi op prot k r k1 : in_space k -> task_lazy_mmap_transform_shared (k_current k) lo hi op prot k = (r, k1) ->
  r = fst (task_lazy_mmap_transform lo hi op prot (task k (k_current k))) /\
  if r =? 0 then areas_after op prot lo hi k k1 else forall i, task_ok i = true -> task k1 i = task k i.
Proof.
  intros Hi E. destruct (shared_spec _ lo hi op prot k r k1 (is_threads _ Hi) (is_slot _ Hi) (is_used _ Hi) E) as [Er Ht]. clear E. split; [done|].
  destruct (Z.eqb_spec r 0) as [E0|E0]; intros i Hoi; rewrite Ht by done; destruct (shares k (k_current k) i) eqn:Es.
  - split; [apply transform_fields|]. apply transform_protection. rewrite <- E0, Er. by apply transform_areas, thread_areas.
  - by destruct (task k i).
  - apply (transform_fails lo hi op prot (task k i)). destruct (transform_areas lo hi op prot _ _ (thread_areas k i Hi Hoi Es)) as [-> _]. congruence.
  - done.
Qed.

Lemma on_vm_two {A B R} (c : ST machine A) (d : ST machine B) (r : R) k :
  (on_vm c ;;; on_vm d ;;; st_ret r) k = (r, k <| k_vm := exec d (exec c (k_vm k)) |>).
Proof.
  unfold st_bind, on_vm, exec, st_ret. destruct (c (k_vm k)) as [a m1]. cbn [snd].
  change (k_vm (k <| k_vm := m1 |>)) with m1. destruct (d m1). by destruct k.
Qed.

(** The end of the range may lie beyond the last address. *)
Lemma page_up_wrap x : UINT64_MAX - (PAGE_SIZE - 1) < x <= UINT64_MAX -> page_up x = 0.
Proof.
  unfold page_up, UINT64_MAX, PAGE_SIZE. intros Hx. replace (u64 (x + 4096 - 1)) with (x + 4096 - 1 - 2 ^ 64); [|unfold u64; dlia].
  rewrite land_PAGE_MASK by lia. unfold PAGE_SIZE. dlia.
Qed.


(** ** brk *)

Lemma upd_space_loop ti f k0 l : forall k, NoDup l -> let k' := foldl (fun k' i => if same_space k0 ti i then upd_task i f k' else k') k l in
  tasks_only k k' /\ forall i, task k' i = if bool_decide (i ∈ l) && same_space k0 ti i then f (task k i) else task k i.
Proof.
  induction l as [|j l IH]; intros k Hnd; cbv zeta; cbn [foldl].
  { split; [reflexivity|]. intros i. by rewrite bool_decide_eq_false_2 by apply not_elem_of_nil. }
  apply NoDup_cons in Hnd as [Hj Hnd]. destruct (IH (if same_space k0 ti j then upd_task j f k else k) Hnd) as [Ho Ht]. split.
  - refine (PreOrder_Transitive _ _ _ _ Ho). destruct (same_space k0 ti j); [by destruct k | reflexivity].
  - intros i. rewrite Ht. destruct (Z.eq_dec i j) as [->|Hne].
    + rewrite (bool_decide_eq_false_2 (j ∈ l)), (bool_decide_eq_true_2 (j ∈ j :: l)) by (by try left). cbn [andb]. destruct (same_space k0 ti j); [|done].
      rewrite task_upd. by rewrite Z.eqb_refl.
    + rewrite (bool_decide_ext (i ∈ j :: l) (i ∈ l)) by (rewrite elem_of_cons; naive_solver).
      assert (E : task (if same_space k0 ti j then upd_task j f k else k) i = task k i); [|by rewrite E].
      destruct (same_space k0 ti j); [|done]. rewrite task_upd, (proj2 (Z.eqb_neq j i)) by congruence. done.
Qed.

Lemma upd_space_spec ti f k : tasks_only k (exec (upd_space ti f) k) /\
  forall i, task_ok i = true -> task (exec (upd_space ti f) k) i = if shares k ti i then f (task k i) else task k i.
Proof.
  unfold upd_space, exec. cbn [st_mod snd]. pose proof all_tasks_ok as Hall. pose proof all_tasks_nodup as Hnd. revert Hall Hnd. generalize all_tasks. intros all Hall Hnd.
  destruct (upd_space_loop ti f k all k Hnd) as [Ho Ht]. split; [exact Ho|]. intros i Hi. rewrite Ht, bool_decide_eq_true_2 by (by apply Hall). done.
Qed.

(** The heap of the threads of the current address space. *)
Definition heap_set (base end_ : Z) (k k' : kernel) : Prop := forall i, task_ok i = true ->
  task k' i = if shares k (k_current k) i then (task k i) <| t_heap_base := base |> <| t_heap_end := end_ |> else task k i.

Lemma heap_sync base end_ k : heap_set base end_ k (exec (task_shared_heap_sync (k_current k) base end_) k) /\
  tasks_only k (exec (task_shared_heap_sync (k_current k) base end_) k).
Proof. unfold task_shared_heap_sync. destruct (upd_space_spec (k_current k) (fun t => t <| t_heap_base := base |> <| t_heap_end := end_ |>) k) as [H1 H2]. split; [exact H2 | exact H1]. Qed.

Lemma heap_sync_again base end1 end2 k k1 m : task_ok (k_current k) = true -> heap_set base end1 k k1 ->
  heap_set base end2 k (exec (task_shared_heap_sync (k_current k) base end2) (k1 <| k_vm := m |>)).
Proof.
  intros Hc H1. unfold task_shared_heap_sync. destruct (upd_space_spec (k_current k) (fun t => t <| t_heap_base := base |> <| t_heap_end := end2 |>) (k1 <| k_vm := m |>)) as [_ H2].
  intros i Hi. rewrite H2 by done. change (task (k1 <| k_vm := m |>)) with (task k1). change (shares (k1 <| k_vm := m |>)) with (shares k1).
  assert (Hf : forall j, task_ok j = true -> t_used (task k1 j) = t_used (task k j) /\ t_ctx (task k1 j) = t_ctx (task k j)).
  { intros j Hj. rewrite H1 by done. by destruct (shares k (k_current k) j). }
  assert (Es : shares k1 (k_current k) i = shares k (k_current k) i).
  { unfold shares. destruct (Hf i Hi) as [-> ->], (Hf _ Hc) as [_ ->]. done. }
  rewrite Es, H1 by done. destruct (shares k (k_current k) i); [|done]. by destruct (task k i).
Qed.

(** The steps of brk before it looks at the address. *)
Lemma brk_start addr k : in_space k ->
  sys_brk addr k = (let '(base, old) := heap_of k (k_current k) in
    (task_shared_heap_sync (k_current k) base old ;;;
     if addr =? 0 then st_ret old
     else if (addr <? base) || (USER_HEAP_MAX <=? addr) then st_ret old
     else if old <? addr then
       if (page_up old <? page_up addr) && negb (user_addr_range_ok (page_up old) (page_up addr - page_up old)) then st_ret old
       else
         let! ok := on_vm (heap_pages (pages_of (page_up addr - page_up old)) (page_up old) (page_up old)) in
         if ok then task_shared_heap_sync (k_current k) base addr ;;; st_ret addr else st_ret old
     else
       (if addr <? old then on_vm (unmap_pages (pages_of (page_up old - page_up addr)) (page_up addr)) else st_ret tt) ;;;
       task_shared_heap_sync (k_current k) base addr ;;;
       st_ret addr) k).
Proof.
  intros Hi. unfold sys_brk. unfold st_bind at 1. rewrite (root_init k (is_root _ Hi)). unfold st_bind at 1 2, st_get. rewrite (space_active k Hi).
  unfold st_bind at 1. destruct (heap_of k (k_current k)) as [base old]. reflexivity.
Qed.

Lemma sync_result {A} (r : A) ti base end_ k r' k' : (task_shared_heap_sync ti base end_ ;;; st_ret r) k = (r', k') ->
  r' = r /\ k' = exec (task_shared_heap_sync ti base end_) k.
Proof. unfold st_bind, exec, st_ret. destruct (task_shared_heap_sync ti base end_ k) as [u k1]. by intros [= <- <-]. Qed.

Lemma exec_of {S A} (c : ST S A) s a s' : c s = (a, s') -> exec c s = s'.
Proof. unfold exec. by intros ->. Qed.

Section Brk.
Context (k k1 : kernel) (base old addr : Z).
Hypothesis (Hi : in_space k) (Hv : k_vm k1 = k_vm k) (Hh : heap_set base old k k1) (Hb : 0 <= base <= old) (Ho : old <= USER_HEAP_MAX) (Ha : base <= addr < USER_HEAP_MAX).

Lemma heap_ends : aligned (page_up old) /\ aligned (page_up addr) /\ 0 <= page_up old <= USER_HEAP_MAX /\ 0 <= page_up addr <= USER_HEAP_MAX /\
  (old < addr -> page_up old <= page_up addr) /\ (addr <= old -> page_up addr <= page_up old).
Proof.
  destruct (page_up_spec old) as [A1 A2]; [unfold UINT64_MAX, PAGE_SIZE, USER_HEAP_MAX in *; lia|].
  destruct (page_up_spec addr) as [B1 B2]; [unfold UINT64_MAX, PAGE_SIZE, USER_HEAP_MAX in *; lia|].
  unfold aligned, PAGE_SIZE, USER_HEAP_MAX in *. split_and!; try done; try lia; dlia.
Qed.

Lemma brk_grow r k' : old < addr ->
  (let! ok := on_vm (heap_pages (pages_of (page_up addr - page_up old)) (page_up old) (page_up old)) in
   if ok then task_shared_heap_sync (k_current k) base addr ;;; st_ret addr else st_ret old) k1 = (r, k') ->
  space_ok (k_vm k') /\
  ((r = addr /\ vacant (page_up old) (page_up addr) (k_vm k) /\ zeroed (page_up old) (page_up addr) (k_vm k) (k_vm k') /\ heap_set base addr k k') \/
   (r = old /\ same_mappings (k_vm k) (k_vm k') /\ heap_set base old k k')).
Proof.
  intros Hlt. destruct heap_ends as (A & B & Ra & Rb & Hab & _). specialize (Hab Hlt). revert A B Ra Rb Hab. generalize (page_up old), (page_up addr). intros a b A B Ra Rb Hab.
  unfold st_bind at 1, on_vm at 1. rewrite Hv. destruct (heap_pages (pages_of (b - a)) a a (k_vm k)) as [ok m] eqn:E.
  assert (Hps : a + Z.of_nat (pages_of (b - a)) * PAGE_SIZE = b) by (unfold pages_of, aligned, PAGE_SIZE in *; dlia).
  destruct (heap_pages_spec (k_vm k) a (pages_of (b - a)) a (k_vm k) ok m (is_space _ Hi) A A) as [Hs Hm]; rewrite ?Hps in *; try done.
  - lia.
  - unfold USER_HEAP_MAX, USER_TOP in *. lia.
  - intros x _ Hx. lia.
  - split; [done|]. intros x _. rewrite (proj2 (andb_false_iff _ _)) by lia. done.
  - destruct ok.
    + intros [-> ->]%sync_result. destruct (heap_sync base addr k) as [_ _]. pose proof (heap_sync_again base old addr k k1 m (is_slot _ Hi) Hh) as Hset.
      destruct (upd_space_spec (k_current k) (fun t => t <| t_heap_base := base |> <| t_heap_end := addr |>) (k1 <| k_vm := m |>)) as [Hot _].
      assert (Ev : k_vm (exec (task_shared_heap_sync (k_current k) base addr) (k1 <| k_vm := m |>)) = m) by (unfold task_shared_heap_sync; rewrite Hot; done).
      rewrite Ev. split; [exact Hs|]. left. split; [done|]. split; [apply Hm|]. split; [apply Hm | exact Hset].
    + intros [= <- <-]. split; [exact Hs|]. right. done.
Qed.

Lemma brk_shrink r k' : addr <= old -> (forall a, user_va a -> page_up addr <= a < page_up old -> user_leaf (k_vm k) a) ->
  ((if addr <? old then on_vm (unmap_pages (pages_of (page_up old - page_up addr)) (page_up addr)) else st_ret tt) ;;;
   task_shared_heap_sync (k_current k) base addr ;;; st_ret addr) k1 = (r, k') ->
  space_ok (k_vm k') /\ r = addr /\ cleared (page_up addr) (page_up old) (k_vm k) (k_vm k') /\ heap_set base addr k k'.
Proof.
  intros Hle Hu. destruct heap_ends as (A & B & Ra & Rb & _ & Hab). specialize (Hab Hle). revert A B Ra Rb Hab Hu.
  assert (Heq : addr = old -> page_up addr = page_up old) by congruence. revert Heq. generalize (page_up old), (page_up addr). intros b a Heq A B Ra Rb Hab Hu.
  assert (Hps : Z.of_nat (pages_of (b - a)) * PAGE_SIZE = b - a) by (unfold pages_of, aligned, PAGE_SIZE in *; dlia).
  destruct (unmap_pages_spec (pages_of (b - a)) (k_vm k) a (is_space _ Hi) B) as [Hs Hc]; rewrite ?Hps in *; [lia | unfold USER_HEAP_MAX, USER_TOP in *; lia | intros x Hx Hr; apply Hu; [done | lia] |].
  replace (a + (b - a)) with b in Hc by lia.
  set (c := if addr <? old then on_vm (unmap_pages (pages_of (b - a)) a) else st_ret tt).
  assert (Hst : exists m, exec c k1 = k1 <| k_vm := m |> /\ space_ok m /\ cleared a b (k_vm k) m).
  { unfold c. destruct (Z.ltb_spec addr old).
    - exists (exec (unmap_pages (pages_of (b - a)) a) (k_vm k)). split; [|done]. unfold exec, on_vm. rewrite Hv. by destruct (unmap_pages _ _ _).
    - exists (k_vm k). split; [unfold exec; cbn [st_ret snd]; rewrite <- Hv; by destruct k1|]. split; [exact (is_space _ Hi)|].
      apply view_cleared; [apply same_view_refl|]. intros x _ Hx. lia. }
  destruct Hst as (m & Em & Hsm & Hcm). unfold st_bind at 1. unfold exec in Em. destruct (c k1) as [u k2]. cbn [snd] in Em. subst k2.
  intros [-> ->]%sync_result. pose proof (heap_sync_again base old addr k k1 m (is_slot _ Hi) Hh) as Hset.
  destruct (upd_space_spec (k_current k) (fun t => t <| t_heap_base := base |> <| t_heap_end := addr |>) (k1 <| k_vm := m |>)) as [Hot _].
  assert (Ev : k_vm (exec (task_shared_heap_sync (k_current k) base addr) (k1 <| k_vm := m |>)) = m) by (unfold task_shared_heap_sync; rewrite Hot; done).
  rewrite Ev. done.
Qed.
End Brk.

End Maps.

(** ** Witnesses *)

#[local] Existing Instance demo_hhdm.

Lemma gap_found : user_mmap_find_gap demo_mapped 0x400000 0x2000 0x600000 = Some USER_MMAP_MIN.
Proof. vm_compute. reflexivity. Qed.

Lemma user_mmap_find_gap_witness : gap demo_mapped 0x2000 0x600000 USER_MMAP_MIN.
Proof.
  pose proof (user_mmap_find_gap_lowest demo_mapped 0x400000 0x2000 0x600000) as H. rewrite gap_found in H.
  destruct H as (_ & H & _); [reflexivity | lia | unfold USER_LIMIT; lia | unfold UINT64_MAX, PAGE_SIZE; lia | exact H].
Defined.

Lemma lazy_in_space : in_space (inv := pmm_wf) (held := pool_held) lazy_kernel.
Proof.
  split.
  - by rewrite lazy_task.
  - done.
  - by rewrite lazy_task.
  - rewrite lazy_task. vm_compute. reflexivity.
  - exact (proj1 demo_mapped_space).
  - exact lazy_agree.
Qed.

(** The mapped page and the first page of the area. *)
Definition unmapped_kernel : kernel := snd (sys_munmap 0x400000 0x1800 lazy_kernel).

Lemma unmapped_ok : fst (sys_munmap 0x400000 0x1800 lazy_kernel) = 0.
Proof. vm_compute. reflexivity. Qed.

Lemma unmapped_leaves a : user_va a -> 0x400000 <= a < 0x400000 + page_up 0x1800 -> user_leaf (k_vm lazy_kernel) a.
Proof.
  intros Ha Hr. change (page_up 0x1800) with 0x2000 in Hr. assert (Hp : forall p, user_va p -> p / PAGE_SIZE = a / PAGE_SIZE -> user_leaf (k_vm lazy_kernel) p -> user_leaf (k_vm lazy_kernel) a).
  { intros p Hp E. unfold user_leaf. by rewrite (upte_page _ p a). }
  destruct (Z.lt_ge_cases a 0x401000).
  - apply (Hp 0x400000); [unfold user_va, USER_TOP; lia | unfold PAGE_SIZE; dlia | vm_compute; reflexivity].
  - apply (Hp 0x401000); [unfold user_va, USER_TOP; lia | unfold PAGE_SIZE; dlia | vm_compute; discriminate].
Qed.

Lemma munmap_taken : munmap_refused lazy_kernel 0x400000 0x1800 = false.
Proof. vm_compute. reflexivity. Qed.
Lemma munmap_areas : (fst (task_lazy_mmap_transform 0x400000 (0x400000 + page_up 0x1800) LAZY_MMAP_REMOVE 0 (task lazy_kernel (k_current lazy_kernel))) =? 0) = true.
Proof. vm_compute. reflexivity. Qed.
Lemma munmap_no_fb : is_fb_mapping (k_vm lazy_kernel) 0x400000 = false.
Proof. vm_compute. reflexivity. Qed.


(** The heap of the two threads grows by a page. *)
Definition grown_kernel : kernel := snd (sys_brk 0x500010 lazy_kernel).

Lemma grown_ok : fst (sys_brk 0x500010 lazy_kernel) = 0x500010.
Proof. vm_compute. reflexivity. Qed.
Lemma grown_heap : heap_of lazy_kernel (k_current lazy_kernel) = (0x500000, 0x500000).
Proof. vm_compute. reflexivity. Qed.

