(* ===== verification/Socket.v ===== *)
(** * Unix sockets

    Creation, naming, connection and the two byte streams of a socket
    ([src/kernel/main.c]).  A socket state has two sides; the descriptor's
    pointer carries the side.  [data[s]] is what side [s] has to read. *)

From S2P Require Import Prelude Words Pmm Vmm CStr Vfs Kernel Tty Fd Sched UserCopy Signals Pipe.
Local Open Scope Z_scope.
Local Open Scope st_scope.

Definition UNIX_SOCKETS_MAX : Z := 32.
Definition SOCK_STREAM : Z := 1.
Definition SOCK_NONBLOCK : Z := 0x800.
Definition SOL_SOCKET : Z := 1.
Definition SO_REUSEADDR : Z := 2.
Definition SO_TYPE : Z := 3.
Definition SO_ERROR : Z := 4.
Definition SO_SNDBUF : Z := 7.
Definition SO_RCVBUF : Z := 8.
Definition SO_KEEPALIVE : Z := 9.
Definition MSG_DONTWAIT : Z := 0x40.
Definition EAFNOSUPPORT : Z := 97.
Definition EADDRINUSE : Z := 98.
Definition ENOPROTOOPT : Z := 92.
Definition ENOTCONN : Z := 107.
Definition ECONNREFUSED : Z := 111.

(** sizeof(sockaddr_un_t), sizeof(sockaddr_nl_t) *)
Definition SUN_SIZE : Z := 110.
Definition SUN_PATH : Z := 108.
Definition SNL_SIZE : Z := 12.

Definition upd_sock (i : Z) (f : unix_socket_state -> unix_socket_state) (k : kernel) : kernel := set_sock i (f (sock k i)) k.

(** ** Endpoints *)

(** The fields every new endpoint gets. *)
Definition socket_file (i side : Z) (f : file_desc) : file_desc :=
  f <| f_in_use := true |> <| f_type := FD_SOCKET |> <| f_flags := 0 |> <| f_offset := 0 |> <| f_size := 0 |> <| f_data := None |>
    <| f_name := None |> <| f_boot_path := [] |> <| f_vnode := None |> <| f_shared_offset := None |> <| f_private := PSock i side |>.

Definition socket_alloc_endpoint (i side : Z) : ST kernel Z :=
  let! k := st_get in
  let fd := find_free_fd k in
  if fd <? 0 then st_ret (- EMFILE)
  else
    upd_file fd (socket_file i (Z.land side 1)) ;;;
    st_mod (upd_sock i (fun s => s <| sk_refs := u32 (sk_refs s + 1) |>
      <| sk_side_refs := <[Z.land side 1 := u32 (arr (sk_side_refs s) (Z.land side 1) + 1)]> (sk_side_refs s) |>)) ;;;
    st_ret fd.

(** The search for a socket nobody refers to, from the cursor on; [skip] is excluded. *)
Definition free_socket (k : kernel) (cursor : Z) (skip : option Z) : option Z :=
  find (fun j => negb (bool_decide (skip = Some j)) && (sk_refs (sock k j) =? 0))
    (map (fun n => (cursor + n) mod UNIX_SOCKETS_MAX) (seqZ 0 UNIX_SOCKETS_MAX)).

Definition sys_socket (domain type protocol : Z) : ST kernel Z :=
  let! k := st_get in
  let base_type := Z.land type 0xf in
  if (domain =? 1) && (base_type =? SOCK_STREAM) then
    match free_socket k (k_socket_si k) None with
    | None => st_ret (- EMFILE)
    | Some j =>
        st_mod (fun k => k <| k_socket_si := (j + 1) mod UNIX_SOCKETS_MAX |>) ;;;
        st_mod (set_sock j (blank_unix_socket_state <| sk_domain := 1 |>)) ;;;
        let! fd := socket_alloc_endpoint j 0 in
        (if (0 <=? fd) && has type SOCK_NONBLOCK then upd_file fd (fun f => f <| f_flags := Z.lor (f_flags f) SOCK_NONBLOCK |>) else st_ret tt) ;;;
        st_ret fd
    end
  else if (domain =? 16) && (base_type =? 2) && (protocol =? 15) then
    match free_socket k (k_socket_ni k) None with
    | None => st_ret (- EMFILE)
    | Some j =>
        st_mod (fun k => k <| k_socket_ni := (j + 1) mod UNIX_SOCKETS_MAX |>) ;;;
        st_mod (set_sock j (blank_unix_socket_state <| sk_domain := 16 |> <| sk_protocol := 15 |>)) ;;;
        socket_alloc_endpoint j 0
    end
  else st_ret (- EAFNOSUPPORT).

(** [si++] of the static int; it is never negative here. *)
Definition sys_socketpair (domain type sv : Z) : ST kernel Z :=
  let! k := st_get in
  if negb (domain =? 1) || negb (Z.land type 0xf =? 1) then st_ret (- EAFNOSUPPORT)
  else if sv =? 0 then st_ret (- EFAULT)
  else
    let j := k_socketpair_si k mod UNIX_SOCKETS_MAX in
    st_mod (fun k => k <| k_socketpair_si := k_socketpair_si k + 1 |>) ;;;
    if negb (sk_refs (sock k j) =? 0) then st_ret (- EMFILE)
    else
      st_mod (set_sock j blank_unix_socket_state) ;;;
      let! a := socket_alloc_endpoint j 0 in
      if a <? 0 then st_ret a
      else
        let! b := socket_alloc_endpoint j 1 in
        if b <? 0 then
          upd_file a (fun f => f <| f_in_use := false |> <| f_private := PNull |>) ;;;
          st_mod (upd_sock j (fun s => s <| sk_refs := 0 |> <| sk_side_refs := <[0 := 0]> (sk_side_refs s) |>)) ;;;
          st_ret b
        else
          let! r := user_copy_to sv (int_bytes a) in
          let! r := if negb (r =? 0) then st_ret r else user_copy_to (u64 (sv + 4)) (int_bytes b) in
          if negb (r =? 0) then
            upd_file a (fun f => f <| f_in_use := false |>) ;;;
            upd_file b (fun f => f <| f_in_use := false |>) ;;;
            st_mod (upd_sock j (fun s => s <| sk_refs := 0 |>)) ;;;
            st_ret (- EFAULT)
          else st_ret 0.

Definition socket_valid_fd (k : kernel) (fd : Z) : bool := fd_ok fd && f_in_use (file k fd) && (f_type (file k fd) =? FD_SOCKET).

(** ** Names *)

(** The bytes before the first 0. *)
Fixpoint until_nul (l : list Z) : cstr :=
  match l with
  | [] => []
  | b :: l => if b =? 0 then [] else b :: until_nul l
  end.

Definition AT_SIGN : Z := 64.

(** The error, or the name. *)
Definition socket_un_copy_path (k : kernel) (addr addrlen cap : Z) : Z + cstr :=
  if addr =? 0 then inl (- EFAULT)
  else if (addrlen <? 3) || (SUN_SIZE <? addrlen) then inl (- EINVAL)
  else
    match user_copy_from k addr SUN_SIZE with
    | None => inl (- EFAULT)
    | Some u =>
        if negb (bytes_word (take 2 u) =? 1) then inl (- EAFNOSUPPORT)
        else
          let path := drop 2 u in
          if hd 0 path =? 0 then
            let rest := until_nul (tl path) in
            let n := 1 + Z.of_nat (length rest) in
            if (n <=? 1) || (cap <=? n + 1) then inl (- EINVAL) else inr (AT_SIGN :: rest)
          else
            let s := until_nul path in
            let n := Z.of_nat (length s) in
            if (n =? 0) || (cap <=? n) then inl (- EINVAL) else inr s
    end.

Definition all_socks : list Z := seqZ 0 UNIX_SOCKETS_MAX.

Definition is_bound_to (k : kernel) (path : cstr) (i : Z) : bool :=
  negb (sk_refs (sock k i) =? 0) && sk_bound (sock k i) && eq (sk_path (sock k i)) path.

Definition socket_find_listener (k : kernel) (path : cstr) : Z :=
  default (-1) (find (fun i => sk_listener (sock k i) && is_bound_to k path i) all_socks).

Definition is_netlink (s : unix_socket_state) : bool := (sk_domain s =? 16) && (sk_protocol s =? 15).

(** The vnode of a name in the file system, or the error. *)
Definition bind_vnode (path : cstr) : ST kernel (Z + option Z) :=
  if hd 0 path =? AT_SIGN then st_ret (inr None)
  else
    let! vn := on_vfs (vfs_lookup path) in
    let! k := st_get in
    match vn with
    | Some n => st_ret (if negb (vfs_type (k_vfs k) (Some n) =? VFS_NODE_SOCKET) then inl (- EADDRINUSE) else inr (Some n))
    | None =>
        let! vn := on_vfs (vfs_create_socket path 0x1FF) in
        st_ret (if is_some vn then inr vn else inl (- EIO))
    end.

Definition sys_bind (sockfd addr addrlen : Z) : ST kernel Z :=
  let! k := st_get in
  if negb (socket_valid_fd k sockfd) then st_ret (- EBADF)
  else
    match socket_state (file k sockfd) with
    | None => st_ret (- ENOTCONN)
    | Some i =>
        let s := sock k i in
        if sk_bound s || sk_connected s then st_ret (- EINVAL)
        else if is_netlink s then
          if (addr =? 0) || (addrlen <? SNL_SIZE) then st_ret (- EINVAL)
          else
            match user_copy_from k addr SNL_SIZE with
            | None => st_ret (- EFAULT)
            | Some nl =>
                if negb (bytes_word (take 2 nl) =? 16) then st_ret (- EAFNOSUPPORT)
                else
                  st_mod (upd_sock i (fun s => s <| sk_netlink_pid := bytes_word (take 4 (drop 4 nl)) |>
                                                 <| sk_netlink_groups := bytes_word (take 4 (drop 8 nl)) |> <| sk_bound := true |>)) ;;;
                  st_ret 0
            end
        else
          match socket_un_copy_path k addr addrlen SUN_PATH with
          | inl e => st_ret e
          | inr path =>
              if existsb (is_bound_to k path) all_socks then st_ret (- EADDRINUSE)
              else
                let! vn := bind_vnode path in
                match vn with
                | inl e => st_ret e
                | inr vn =>
                    upd_file sockfd (fun f => f <| f_vnode := vn |>) ;;;
                    st_mod (upd_sock i (fun s => s <| sk_path := take (Z.to_nat (SUN_PATH - 1)) path |> <| sk_bound := true |>)) ;;;
                    st_ret 0
                end
          end
    end.

Definition half_bytes (v : Z) : list Z := [Z.land v 0xFF; Z.land (Z.shiftr v 8) 0xFF].

(** A sockaddr_un_t with the name [path], cut to what fits with its 0. *)
Definition un_bytes (path : cstr) : list Z :=
  let p := take (Z.to_nat (SUN_PATH - 1)) path in half_bytes 1 ++ p ++ replicate (Z.to_nat SUN_PATH - length p) 0.

(** Two copies; the result of the call. *)
Definition copy_name (addr : Z) (bytes : list Z) (addrlen n : Z) : ST kernel Z :=
  let! r := user_copy_to addr bytes in
  if negb (r =? 0) then st_ret (- EFAULT)
  else
    let! r := user_copy_to addrlen (int_bytes n) in
    st_ret (if negb (r =? 0) then - EFAULT else 0).

(** An int read from user memory. *)
Definition copy_int (k : kernel) (src : Z) : option Z := option_map (fun l => s32 (bytes_word l)) (user_copy_from k src 4).

Definition sys_getsockname (sockfd addr addrlen : Z) : ST kernel Z :=
  let! k := st_get in
  if negb (socket_valid_fd k sockfd) then st_ret (- EBADF)
  else if addrlen =? 0 then st_ret (- EFAULT)
  else
    match socket_state (file k sockfd) with
    | None => st_ret (- ENOTCONN)
    | Some i =>
        let s := sock k i in
        match copy_int k addrlen with
        | None => st_ret (- EFAULT)
        | Some cap =>
            if cap <? 0 then st_ret (- EINVAL)
            else if is_netlink s then
              if (cap <? SNL_SIZE) || (addr =? 0) then st_ret (- EINVAL)
              else copy_name addr (half_bytes 16 ++ half_bytes 0 ++ int_bytes (sk_netlink_pid s) ++ int_bytes (sk_netlink_groups s)) addrlen SNL_SIZE
            else if sk_domain s =? 1 then
              let n := if is_nil (sk_path s) then 0 else 2 + Z.of_nat (length (sk_path s)) + 1 in
              if (addr =? 0) || (cap <? n) then st_ret (- EINVAL)
              else copy_name addr (take (Z.to_nat (if n =? 0 then 2 else n)) (un_bytes (sk_path s))) addrlen n
            else st_ret (- EAFNOSUPPORT)
        end
    end.

Definition sys_getpeername (sockfd addr addrlen : Z) : ST kernel Z :=
  let! k := st_get in
  if negb (socket_valid_fd k sockfd) then st_ret (- EBADF)
  else if addrlen =? 0 then st_ret (- EFAULT)
  else
    match socket_state (file k sockfd) with
    | None => st_ret (- ENOTCONN)
    | Some i =>
        let s := sock k i in
        if negb (sk_connected s) then st_ret (- ENOTCONN)
        else
          match copy_int k addrlen with
          | None => st_ret (- EFAULT)
          | Some cap =>
              if (addr =? 0) || (cap <? 3) then st_ret (- EINVAL)
              else
                let n := Z.min (2 + Z.min (Z.of_nat (length (sk_path s))) (SUN_PATH - 1) + 1) SUN_SIZE in
                if cap <? n then st_ret (- EINVAL)
                else copy_name addr (take (Z.to_nat n) (un_bytes (sk_path s))) addrlen n
          end
    end.

(** ** Connections *)

Definition sys_listen (sockfd backlog : Z) : ST kernel Z :=
  let! k := st_get in
  if negb (socket_valid_fd k sockfd) then st_ret (- EBADF)
  else if backlog <? 0 then st_ret (- EINVAL)
  else
    match socket_state (file k sockfd) with
    | None => st_ret (- ENOTCONN)
    | Some i =>
        let s := sock k i in
        if sk_connected s then st_ret (- EINVAL)
        else if negb (sk_bound s) then st_ret (- EINVAL)
        else
          st_mod (upd_sock i (fun s => s <| sk_listener := true |> <| sk_pending_count := 0 |>
            <| sk_pending_fd := foldl (fun m j => <[j := -1]> m) (sk_pending_fd s) (seqZ 0 4) |>)) ;;;
          st_ret 0
    end.

(** The state of a new connection: one reference on each side. *)
Definition open_connection (s : unix_socket_state) : unix_socket_state :=
  s <| sk_refs := 2 |> <| sk_side_refs := <[1 := 1]> (<[0 := 1]> (sk_side_refs s)) |> <| sk_connected := true |>.

(** [pending_fd[pending_count++] = ni] *)
Definition push_pending (ni : Z) (s : unix_socket_state) : unix_socket_state :=
  s <| sk_pending_fd := <[sk_pending_count s := ni]> (sk_pending_fd s) |> <| sk_pending_count := sk_pending_count s + 1 |>.

Definition sys_connect (sockfd addr addrlen : Z) : ST kernel Z :=
  let! k := st_get in
  if negb (socket_valid_fd k sockfd) then st_ret (- EBADF)
  else if negb (is_some (socket_state (file k sockfd))) then st_ret (- ENOTCONN)
  else
    match socket_un_copy_path k addr addrlen SUN_PATH with
    | inl e => st_ret e
    | inr path =>
        let li := socket_find_listener k path in
        if li <? 0 then st_ret (- ECONNREFUSED)
        else if 4 <=? sk_pending_count (sock k li) then st_ret (- EAGAIN)
        else
          match free_socket k (k_connect_si k) (Some li) with
          | None => st_ret (- EMFILE)
          | Some ni =>
              st_mod (fun k => k <| k_connect_si := (ni + 1) mod UNIX_SOCKETS_MAX |>) ;;;
              st_mod (set_sock ni blank_unix_socket_state) ;;;
              socket_fd_drop_ref (current_files k) sockfd ;;;
              upd_file sockfd (socket_file ni 0) ;;;
              st_mod (upd_sock ni open_connection) ;;;
              st_mod (upd_sock li (push_pending ni)) ;;;
              let! _ := task_wake_io_waiters in
              st_ret 0
          end
    end.

(** The first pending connection is taken off the list. *)
Definition pop_pending (s : unix_socket_state) : unix_socket_state :=
  s <| sk_pending_fd := foldl (fun m j => <[j - 1 := arr m j]> m) (sk_pending_fd s) (seqZ 1 (sk_pending_count s - 1)) |>
    <| sk_pending_count := sk_pending_count s - 1 |>.

(** The part of sys_accept when a connection is pending. *)
Definition accept_pending (li addr addrlen : Z) : ST kernel Z :=
  let! k := st_get in
  let si := arr (sk_pending_fd (sock k li)) 0 in
  if (si <? 0) || (UNIX_SOCKETS_MAX <=? si) || (sk_refs (sock k si) =? 0) then st_ret (- EINVAL)
  else
    let fd := find_free_fd k in
    if fd <? 0 then st_ret (- EMFILE)
    else
      upd_file fd (socket_file si 1) ;;;
      let! r := (if negb (addr =? 0) && negb (addrlen =? 0) then user_copy_to addrlen (int_bytes 0) else st_ret 0) in
      if negb (r =? 0) then st_ret (- EFAULT)
      else
        st_mod (upd_sock li pop_pending) ;;;
        st_mod (upd_sock si (fun s => s <| sk_connected := true |>)) ;;;
        st_ret fd.

(** ** Streams *)

(** [s->data[side][s->wpos[side]] = b; wpos = (wpos + 1) % SOCK_CAP; count++;] *)
Definition sock_put (side : Z) (s : unix_socket_state) (b : Z) : unix_socket_state :=
  s <| sk_data := <[side := <[arr (sk_wpos s) side := b]> (cell ∅ (sk_data s) side)]> (sk_data s) |>
    <| sk_wpos := <[side := (arr (sk_wpos s) side + 1) mod SOCK_CAP]> (sk_wpos s) |>
    <| sk_count := <[side := u32 (arr (sk_count s) side + 1)]> (sk_count s) |>.

(** [tmp[i] = s->data[side][s->rpos[side]]; rpos = (rpos + 1) % SOCK_CAP; count--;] [n] times *)
Fixpoint sock_take (n : nat) (side : Z) (s : unix_socket_state) : list Z * unix_socket_state :=
  match n with
  | O => ([], s)
  | S n =>
      let b := arr (cell ∅ (sk_data s) side) (arr (sk_rpos s) side) in
      let '(l, s) := sock_take n side
        (s <| sk_rpos := <[side := (arr (sk_rpos s) side + 1) mod SOCK_CAP]> (sk_rpos s) |>
           <| sk_count := <[side := u32 (arr (sk_count s) side - 1)]> (sk_count s) |>) in
      (b :: l, s)
  end.

(** The copy loop of sys_sendto: [inl done] when a copy fails. *)
Fixpoint send_loop (fuel : nat) (i peer buf n done : Z) : ST kernel (Z + Z) :=
  if n <=? done then st_ret (inr done)
  else
    match fuel with
    | O => st_ret (inr done)
    | S fuel =>
        let c := Z.min (n - done) TMP_SIZE in
        let! k := st_get in
        match user_copy_from k (u64 (buf + done)) c with
        | None => st_ret (inl done)
        | Some tmp =>
            st_mod (upd_sock i (fun s => foldl (sock_put peer) s tmp)) ;;;
            send_loop fuel i peer buf n (done + c)
        end
    end.

(** The copy loop of sys_recvfrom. *)
Fixpoint recv_loop (fuel : nat) (i side buf n done : Z) : ST kernel (Z + Z) :=
  if n <=? done then st_ret (inr done)
  else
    match fuel with
    | O => st_ret (inr done)
    | S fuel =>
        let c := Z.min (n - done) TMP_SIZE in
        let! k := st_get in
        let '(tmp, s) := sock_take (Z.to_nat c) side (sock k i) in
        st_mod (set_sock i s) ;;;
        let! r := user_copy_to (u64 (buf + done)) tmp in
        if negb (r =? 0) then st_ret (inl done) else recv_loop fuel i side buf n (done + c)
    end.

(** [done ? done : -EFAULT] with [done] of type uint32_t: the error is
    converted to an unsigned number. *)
Definition count_or_fault (done : Z) : Z := if done =? 0 then u32 (- EFAULT) else done.

(** A reader that was woken is switched to when the call returns. *)
Definition defer_switch (f : regs) (done : Z) : ST kernel unit :=
  let! woke := task_wake_io_waiters in
  let! k := st_get in
  if (0 <=? woke) && negb (woke =? k_current k) then
    task_save_from_frame (k_current k) (set_reg f RAX done) ;;;
    st_mod (fun k => k <| k_task_return_ctx := Some woke |> <| k_task_switch_target := woke |>
                       <| k_task_switch_deferred := true |> <| k_task_switch_pending := true |>)
  else st_ret tt.

(** ** Messages *)

(** yabro_msghdr_k is 56 bytes; the fields the calls use. *)
Definition MSG_SIZE : Z := 56.
Definition msg_iov (l : list Z) : Z := bytes_word (take 8 (drop 16 l)).
Definition msg_iovlen (l : list Z) : Z := bytes_word (take 8 (drop 24 l)).
Definition msg_control (l : list Z) : Z := bytes_word (take 8 (drop 32 l)).
Definition msg_controllen (l : list Z) : Z := bytes_word (take 8 (drop 40 l)).

(** The [n] entries (iov_base, iov_len) of an array. *)
Fixpoint iov_entries (n : nat) (l : list Z) : list (Z * Z) :=
  match n with
  | O => []
  | S n => (bytes_word (take 8 l), bytes_word (take 8 (drop 8 l))) :: iov_entries n (drop 16 l)
  end.

Definition socket_msg_copy_in (k : kernel) (mh : list Z) : Z + list (Z * Z) :=
  if 64 <? msg_iovlen mh then inl (- EINVAL)
  else if msg_iovlen mh =? 0 then inr []
  else if msg_iov mh =? 0 then inl (- EFAULT)
  else
    match user_copy_from k (msg_iov mh) (msg_iovlen mh * 16) with
    | None => inl (- EFAULT)
    | Some l =>
        let iov := iov_entries (Z.to_nat (msg_iovlen mh)) l in
        if existsb (fun v => (Z.shiftl 1 20 <? snd v) || (USER_LIMIT <=? fst v)) iov then inl (- EFAULT) else inr iov
    end.

(** The sum of the lengths, or [None] when it is too large. *)
Definition iov_total (iov : list (Z * Z)) : option Z :=
  foldl (fun t v => match t with Some t => if Z.shiftl 1 24 - snd v <? t then None else Some (t + snd v) | None => None end) (Some 0) iov.

(** One entry of recvmsg from its offset [off] on, [done] bytes received in
    all; [inl] when a copy fails. *)
Fixpoint recv_entry (fuel : nat) (i side base len off done : Z) : ST kernel (Z + Z) :=
  let! k := st_get in
  let count := arr (sk_count (sock k i)) side in
  if (len <=? off) || (count =? 0) then st_ret (inr done)
  else
    match fuel with
    | O => st_ret (inr done)
    | S fuel =>
        let n := Z.min (Z.min (len - off) count) TMP_SIZE in
        let '(tmp, s) := sock_take (Z.to_nat n) side (sock k i) in
        st_mod (set_sock i s) ;;;
        let! r := user_copy_to (u64 (base + off)) tmp in
        if negb (r =? 0) then st_ret (inl done) else recv_entry fuel i side base len (off + n) (done + n)
    end.

Fixpoint recv_entries (iov : list (Z * Z)) (i side total done : Z) : ST kernel (Z + Z) :=
  match iov with
  | [] => st_ret (inr done)
  | (base, len) :: iov =>
      if total <=? done then st_ret (inr done)
      else
        let! r := recv_entry (Z.to_nat len) i side base len 0 done in
        match r with
        | inl d => st_ret (inl d)
        | inr d => recv_entries iov i side total d
        end
  end.

Fixpoint send_entry (fuel : nat) (i peer base len off sent : Z) : ST kernel (Z + Z) :=
  if len <=? off then st_ret (inr sent)
  else
    match fuel with
    | O => st_ret (inr sent)
    | S fuel =>
        let n := Z.min (len - off) TMP_SIZE in
        let! k := st_get in
        match user_copy_from k (u64 (base + off)) n with
        | None => st_ret (inl sent)
        | Some tmp =>
            st_mod (upd_sock i (fun s => foldl (sock_put peer) s tmp)) ;;;
            send_entry fuel i peer base len (off + n) (sent + n)
        end
    end.

Fixpoint send_entries (iov : list (Z * Z)) (i peer sent : Z) : ST kernel (Z + Z) :=
  match iov with
  | [] => st_ret (inr sent)
  | (base, len) :: iov =>
      let! r := send_entry (Z.to_nat len) i peer base len 0 sent in
      match r with
      | inl d => st_ret (inl d)
      | inr d => send_entries iov i peer d
      end
  end.

(** The header recvmsg writes back. *)
Definition msg_returned (mh : list Z) : list Z :=
  let controllen := if negb (msg_control mh =? 0) && negb (msg_controllen mh =? 0) then 0 else msg_controllen mh in
  take 40 mh ++ word_bytes controllen ++ int_bytes 0 ++ drop 52 mh.

Section Irq.
(** The interrupts taken during one [sti; hlt; cli]. *)
Variable kernel_wait_tick : kernel -> kernel.

(** [if (task_block_io(..) == 0) return 0; return -EAGAIN;] *)
Definition block_or_again (fuel : nat) (f : regs) (kind nr : Z) (k : kernel) : option (Z * kernel) :=
  match task_block_io kernel_wait_tick fuel f kind nr k with
  | None => None
  | Some (r, k) => Some (if r =? 0 then 0 else - EAGAIN, k)
  end.

Definition sys_accept (fuel : nat) (f : regs) (sockfd addr addrlen : Z) (k : kernel) : option (Z * kernel) :=
  if negb (socket_valid_fd k sockfd) then Some (- EBADF, k)
  else
    match socket_state (file k sockfd) with
    | None => Some (- EINVAL, k)
    | Some li =>
        if negb (sk_listener (sock k li)) then Some (- EINVAL, k)
        else if sk_pending_count (sock k li) =? 0 then
          if has (f_flags (file k sockfd)) 0x800 then Some (- EAGAIN, k)
          else block_or_again fuel f IO_WAIT_SOCKET_ACCEPT 43 k
        else Some (accept_pending li addr addrlen k)
    end.

Definition sys_accept4 (fuel : nat) (f : regs) (sockfd addr addrlen flags : Z) (k : kernel) : option (Z * kernel) :=
  sys_accept fuel f sockfd addr addrlen k.

(** [len] is an int; [wait_nr] is the number of the call that is repeated. *)
Definition sys_sendto (fuel : nat) (f : regs) (sockfd buf len wait_nr : Z) (k : kernel) : option (Z * kernel) :=
  if negb (socket_valid_fd k sockfd) then Some (- EBADF, k)
  else if len <? 0 then Some (- EINVAL, k)
  else
    match socket_state (file k sockfd) with
    | None => Some (- ENOTCONN, k)
    | Some i =>
        let s := sock k i in
        let peer := Z.lxor (socket_side (file k sockfd)) 1 in
        if sk_refs s <? 2 then Some (- ENOTCONN, k)
        else if negb (arr (sk_closed s) peer =? 0) then Some (- EPIPE, k)
        else if len =? 0 then Some (0, k)
        else
          let room := u32 (SOCK_CAP - arr (sk_count s) peer) in
          if room =? 0 then
            if has (f_flags (file k sockfd)) 0x800 then Some (- EAGAIN, k)
            else block_or_again fuel f IO_WAIT_SOCKET_WRITE wait_nr k
          else
            let n := if len <? room then len else room in
            match send_loop (Z.to_nat n) i peer buf n 0 k with
            | (inl done, k) => Some (count_or_fault done, k)
            | (inr done, k) => Some ((defer_switch f done ;;; st_ret done) k)
            end
    end.

Definition sys_recvfrom (fuel : nat) (f : regs) (sockfd buf len wait_nr : Z) (k : kernel) : option (Z * kernel) :=
  if negb (socket_valid_fd k sockfd) then Some (- EBADF, k)
  else if len <? 0 then Some (- EINVAL, k)
  else
    match socket_state (file k sockfd) with
    | None => Some (- ENOTCONN, k)
    | Some i =>
        let s := sock k i in
        let side := socket_side (file k sockfd) in
        if len =? 0 then Some (0, k)
        else if arr (sk_count s) side =? 0 then
          if negb (arr (sk_closed s) (Z.lxor side 1) =? 0) then Some (0, k)
          else if has (f_flags (file k sockfd)) 0x800 then Some (- EAGAIN, k)
          else block_or_again fuel f IO_WAIT_SOCKET_READ wait_nr k
        else
          let n := if len <? arr (sk_count s) side then len else arr (sk_count s) side in
          match recv_loop (Z.to_nat n) i side buf n 0 k with
          | (inl done, k) => Some (count_or_fault done, k)
          | (inr done, k) => Some ((let! _ := task_wake_io_waiters in st_ret done) k)
          end
    end.

Definition sys_recvmsg (fuel : nat) (f : regs) (sockfd umsg flags : Z) (k : kernel) : option (Z * kernel) :=
  if negb (socket_valid_fd k sockfd) then Some (- EBADF, k)
  else
    match socket_state (file k sockfd) with
    | None => Some (- ENOTCONN, k)
    | Some i =>
        let s := sock k i in
        let side := socket_side (file k sockfd) in
        match (if umsg =? 0 then None else user_copy_from k umsg MSG_SIZE) with
        | None => Some (- EFAULT, k)
        | Some mh =>
            match socket_msg_copy_in k mh with
            | inl e => Some (e, k)
            | inr iov =>
                match iov_total iov with
                | None => Some (- EINVAL, k)
                | Some total =>
                    if total =? 0 then Some (0, k)
                    else if arr (sk_count s) side =? 0 then
                      if negb (arr (sk_closed s) (Z.lxor side 1) =? 0) then Some (0, k)
                      else if has (f_flags (file k sockfd)) SOCK_NONBLOCK || has flags MSG_DONTWAIT then Some (- EAGAIN, k)
                      else block_or_again fuel f IO_WAIT_SOCKET_READ 47 k
                    else
                      match recv_entries iov i side total 0 k with
                      | (inl done, k) => Some (if done =? 0 then - EFAULT else done, k)
                      | (inr done, k) =>
                          Some ((let! r := user_copy_to umsg (msg_returned mh) in
                                 if negb (r =? 0) then st_ret (- EFAULT)
                                 else let! _ := task_wake_io_waiters in st_ret done) k)
                      end
                end
            end
        end
    end.

Definition sys_sendmsg (fuel : nat) (f : regs) (sockfd umsg flags : Z) (k : kernel) : option (Z * kernel) :=
  if negb (socket_valid_fd k sockfd) then Some (- EBADF, k)
  else
    match socket_state (file k sockfd) with
    | None => Some (- ENOTCONN, k)
    | Some i =>
        let s := sock k i in
        let peer := Z.lxor (socket_side (file k sockfd)) 1 in
        if sk_refs s <? 2 then Some (- ENOTCONN, k)
        else
          match (if umsg =? 0 then None else user_copy_from k umsg MSG_SIZE) with
          | None => Some (- EFAULT, k)
          | Some mh =>
              match socket_msg_copy_in k mh with
              | inl e => Some (e, k)
              | inr iov =>
                  match iov_total iov with
                  | None => Some (- EINVAL, k)
                  | Some total =>
                      if total =? 0 then Some (0, k)
                      else if negb (arr (sk_closed s) peer =? 0) then Some (- EPIPE, k)
                      else if u32 (SOCK_CAP - arr (sk_count s) peer) <? total then
                        if has (f_flags (file k sockfd)) SOCK_NONBLOCK || has flags MSG_DONTWAIT then Some (- EAGAIN, k)
                        else block_or_again fuel f IO_WAIT_SOCKET_WRITE 46 k
                      else
                        match send_entries iov i peer 0 k with
                        | (inl sent, k) => Some (if sent =? 0 then - EFAULT else sent, k)
                        | (inr sent, k) => Some ((defer_switch f sent ;;; st_ret sent) k)
                        end
                  end
              end
          end
    end.
End Irq.

(** ** Shutdown and options *)

Definition sys_shutdown (sockfd how : Z) : ST kernel Z :=
  let! k := st_get in
  if negb (socket_valid_fd k sockfd) then st_ret (- EBADF)
  else if (how <? 0) || (2 <? how) then st_ret (- EINVAL)
  else
    match socket_state (file k sockfd) with
    | None => st_ret (- ENOTCONN)
    | Some i =>
        (if (how =? 1) || (how =? 2)
         then st_mod (upd_sock i (fun s => s <| sk_closed := <[socket_side (file k sockfd) := 1]> (sk_closed s) |>)) else st_ret tt) ;;;
        let! _ := task_wake_io_waiters in
        st_ret 0
    end.

Definition sys_setsockopt (sockfd level optname optlen : Z) : ST kernel Z :=
  let! k := st_get in
  st_ret
    (if negb (socket_valid_fd k sockfd) then - EBADF
     else if negb (level =? SOL_SOCKET) then - ENOPROTOOPT
     else if optlen <? 0 then - EINVAL
     else if existsb (Z.eqb optname) [SO_REUSEADDR; SO_KEEPALIVE; SO_SNDBUF; SO_RCVBUF] then 0
     else - ENOPROTOOPT).

Definition sockopt_value (optname : Z) : option Z :=
  if optname =? SO_ERROR then Some 0
  else if optname =? SO_TYPE then Some SOCK_STREAM
  else if (optname =? SO_SNDBUF) || (optname =? SO_RCVBUF) then Some SOCK_CAP
  else if optname =? SO_KEEPALIVE then Some 0
  else None.

Definition sys_getsockopt (sockfd level optname optval optlen : Z) : ST kernel Z :=
  let! k := st_get in
  if negb (socket_valid_fd k sockfd) then st_ret (- EBADF)
  else if negb (level =? SOL_SOCKET) then st_ret (- ENOPROTOOPT)
  else if optlen =? 0 then st_ret (- EFAULT)
  else
    match copy_int k optlen with
    | None => st_ret (- EFAULT)
    | Some olen =>
        if olen <? 0 then st_ret (- EINVAL)
        else
          match sockopt_value optname with
          | None => st_ret (- ENOPROTOOPT)
          | Some value =>
              let n := if 0 <? olen then Z.min olen 4 else 4 in
              let! r := (if 0 <? olen then if optval =? 0 then st_ret (- EFAULT) else user_copy_to optval (take (Z.to_nat n) (int_bytes value))
                         else st_ret 0) in
              if negb (r =? 0) then st_ret (- EFAULT)
              else
                let! r := user_copy_to optlen (int_bytes n) in
                st_ret (if negb (r =? 0) then - EFAULT else 0)
          end
    end.
