(* ===== verification/SocketFacts.v ===== *)
(** * Sockets as pairs of queues

    The rings of a socket as lists of bytes, and what the copy loops of its
    calls do to these queues and to user memory. *)

From S2P Require Import Prelude Words Pmm PmmFacts PageAlloc Vmm VmmFacts VmmMap CStr Vfs Ring.
From S2P Require Import Kernel Tty Fd Sched UserCopy UserMem UserMemThms Pipe PipeFacts Signals SignalFacts Socket.
Local Open Scope Z_scope.
Local Open Scope st_scope.

Lemma sock_cap_pos : 0 < SOCK_CAP. Proof. done. Qed.
#[local] Hint Resolve sock_cap_pos : core.

(** The bytes side [side] has to read, oldest first. *)
Definition sock_list (side : Z) (s : unix_socket_state) : list Z :=
  ring_list SOCK_CAP (cell ∅ (sk_data s) side) (arr (sk_rpos s) side) (arr (sk_count s) side).

Record side_ok (side : Z) (s : unix_socket_state) : Prop := {
  so_ring : ring_ok SOCK_CAP (arr (sk_rpos s) side) (arr (sk_wpos s) side) (arr (sk_count s) side);
  so_bytes : Forall is_byte (sock_list side s)
}.

Lemma sock_length side s : side_ok side s -> Z.of_nat (length (sock_list side s)) = arr (sk_count s) side.
Proof. intros [(_ & Hc & _) _]. apply ring_length. lia. Qed.

Lemma sock_room side s : side_ok side s -> u32 (SOCK_CAP - arr (sk_count s) side) = SOCK_CAP - Z.of_nat (length (sock_list side s)).
Proof. intros Ho. rewrite (sock_length side s Ho). destruct Ho as [(_ & Hc & _) _]. unfold u32, SOCK_CAP in *. rewrite Z.mod_small; lia. Qed.

(** Only the stream of [side] changed. *)
Definition only_stream (side : Z) (s s' : unix_socket_state) : Prop :=
  (exists d r w c, s' = s <| sk_data := d |> <| sk_rpos := r |> <| sk_wpos := w |> <| sk_count := c |>) /\
  forall o, o <> side -> cell ∅ (sk_data s') o = cell ∅ (sk_data s) o /\ arr (sk_rpos s') o = arr (sk_rpos s) o /\
    arr (sk_wpos s') o = arr (sk_wpos s) o /\ arr (sk_count s') o = arr (sk_count s) o.

Lemma only_stream_refl side s : only_stream side s s.
Proof. split; [|done]. exists (sk_data s), (sk_rpos s), (sk_wpos s), (sk_count s). by destruct s. Qed.

Lemma only_stream_trans side s1 s2 s3 : only_stream side s1 s2 -> only_stream side s2 s3 -> only_stream side s1 s3.
Proof.
  intros [(d & r & w & c & ->) H1] [(d' & r' & w' & c' & ->) H2]. split; [by exists d', r', w', c'|].
  intros o Ho. destruct (H1 o Ho) as (? & ? & ? & ?), (H2 o Ho) as (? & ? & ? & ?). split_and!; congruence.
Qed.

(** The other side's queue. *)
Lemma only_stream_other side s s' o : only_stream side s s' -> o <> side ->
  sock_list o s' = sock_list o s /\ (side_ok o s -> side_ok o s').
Proof.
  intros [_ H] Ho. destruct (H o Ho) as (E1 & E2 & E3 & E4). assert (El : sock_list o s' = sock_list o s) by (unfold sock_list; by rewrite E1, E2, E4).
  split; [done|]. intros [Hr Hb]. split; [by rewrite E2, E3, E4 | by rewrite El].
Qed.

Lemma arr_set (m : gmap Z Z) i v : arr (<[i := v]> m) i = v.
Proof. unfold arr. by rewrite lookup_insert_eq. Qed.
Lemma arr_set_ne (m : gmap Z Z) i j v : i <> j -> arr (<[i := v]> m) j = arr m j.
Proof. intros. unfold arr. by rewrite lookup_insert_ne. Qed.

Lemma sock_take_spec n side : forall s, side_ok side s -> (n <= length (sock_list side s))%nat ->
  let '(l, s') := sock_take n side s in
  side_ok side s' /\ only_stream side s s' /\ l = take n (sock_list side s) /\ sock_list side s' = drop n (sock_list side s).
Proof.
  induction n as [|n IH]; intros s Ho Hn; cbn [sock_take]; [split; [done|]; split; [apply only_stream_refl | done]|].
  pose proof (sock_length side s Ho) as Hlen. destruct Ho as [Hr Hb].
  assert (Hc : 0 < arr (sk_count s) side) by lia. assert (Hu : u32 (arr (sk_count s) side - 1) = arr (sk_count s) side - 1).
  { destruct Hr as (_ & Hc' & _). unfold u32, SOCK_CAP in *. apply Z.mod_small. lia. }
  pose proof (ring_pop_ok SOCK_CAP sock_cap_pos _ _ _ Hr Hc) as Hr'.
  pose proof (ring_pop SOCK_CAP (cell ∅ (sk_data s) side) _ _ _ Hr Hc) as Hl. fold (sock_list side s) in Hl.
  set (s1 := (s <| sk_rpos := _ |>) <| sk_count := _ |>).
  assert (Hl1 : sock_list side s = arr (cell ∅ (sk_data s) side) (arr (sk_rpos s) side) :: sock_list side s1).
  { rewrite Hl. f_equal. unfold sock_list, s1. cbn. by rewrite !arr_set, Hu. }
  assert (Ho1 : side_ok side s1).
  { split; [unfold s1; cbn; rewrite !arr_set, Hu; exact Hr' | rewrite Hl1 in Hb; by apply Forall_cons in Hb as [_ Hb]]. }
  assert (Hs1 : only_stream side s s1).
  { split; [|intros o Ho; unfold s1; cbn; by rewrite !arr_set_ne].
    exists (sk_data s), (<[side := (arr (sk_rpos s) side + 1) mod SOCK_CAP]> (sk_rpos s)), (sk_wpos s),
      (<[side := u32 (arr (sk_count s) side - 1)]> (sk_count s)). unfold s1. by destruct s. }
  specialize (IH s1 Ho1 ltac:(rewrite Hl1 in Hn; cbn [length] in Hn; lia)). destruct (sock_take n side s1) as [l s'].
  destruct IH as (H1 & H2 & -> & H4). split; [done|]. split; [by eapply only_stream_trans|]. rewrite Hl1. by cbn [take drop].
Qed.

Lemma sock_put_ok side s b : side_ok side s -> arr (sk_count s) side < SOCK_CAP -> is_byte b ->
  side_ok side (sock_put side s b) /\ only_stream side s (sock_put side s b) /\ sock_list side (sock_put side s b) = sock_list side s ++ [b].
Proof.
  intros [Hr Hb] Hc Hbyte. assert (Hu : u32 (arr (sk_count s) side + 1) = arr (sk_count s) side + 1).
  { destruct Hr as (_ & Hc' & _). unfold u32, SOCK_CAP in *. apply Z.mod_small. lia. }
  assert (Hl : sock_list side (sock_put side s b) = sock_list side s ++ [b]).
  { unfold sock_list, sock_put. cbn. rewrite !arr_set, Hu, cell_insert_eq.
    exact (ring_push SOCK_CAP sock_cap_pos (cell ∅ (sk_data s) side) _ _ _ b Hr Hc). }
  split; [split|]; [| |split; [|done]].
  - unfold sock_put. cbn. rewrite !arr_set, Hu. exact (ring_push_ok SOCK_CAP _ _ _ Hr Hc).
  - rewrite Hl. apply Forall_app. split; [done | by constructor].
  - split; [exists (sk_data (sock_put side s b)), (sk_rpos s), (sk_wpos (sock_put side s b)), (sk_count (sock_put side s b)); by destruct s|]. intros o Ho. unfold sock_put. cbn.
    by rewrite !arr_set_ne, cell_insert_ne.
Qed.

Lemma sock_put_spec side l : forall s, side_ok side s -> arr (sk_count s) side + Z.of_nat (length l) <= SOCK_CAP -> Forall is_byte l ->
  side_ok side (foldl (sock_put side) s l) /\ only_stream side s (foldl (sock_put side) s l) /\
  sock_list side (foldl (sock_put side) s l) = sock_list side s ++ l.
Proof.
  induction l as [|b l IH]; intros s Ho Hc Hb; cbn [foldl]; [split; [done|]; split; [apply only_stream_refl | by rewrite app_nil_r]|].
  cbn [length] in Hc. apply Forall_cons in Hb as [Hb Hl]. destruct (sock_put_ok side s b Ho ltac:(lia) Hb) as (H1 & H2 & H3).
  destruct (IH (sock_put side s b) H1) as (G1 & G2 & G3); [|done|].
  { rewrite <- (sock_length side _ H1), H3, length_app. cbn [length]. rewrite Nat2Z.inj_add, (sock_length side s Ho). lia. }
  split; [done|]. split; [by eapply only_stream_trans|]. by rewrite G3, H3, <- app_assoc.
Qed.

(** ** The kernel around a socket *)

Lemma sock_set i s k : sock (set_sock i s k) i = s.
Proof. apply cell_insert_eq. Qed.
Lemma sock_set_ne i j s k : i <> j -> sock (set_sock i s k) j = sock k j.
Proof. apply cell_insert_ne. Qed.

(** Only the stream of one side of socket [i] and the memory changed. *)
Definition sock_frame (i side : Z) (k k' : kernel) : Prop :=
  (exists ss m, k' = (k <| k_socks := ss |>) <| k_vm := m |>) /\ (forall j, j <> i -> sock k' j = sock k j) /\
  only_stream side (sock k i) (sock k' i).

Lemma sock_frame_refl i side k : sock_frame i side k k.
Proof. split; [exists (k_socks k), (k_vm k); by destruct k | split; [done | apply only_stream_refl]]. Qed.

Lemma sock_frame_trans i side k1 k2 k3 : sock_frame i side k1 k2 -> sock_frame i side k2 k3 -> sock_frame i side k1 k3.
Proof.
  intros ((s1 & m1 & ->) & H1 & O1) ((s2 & m2 & ->) & H2 & O2). split; [by exists s2, m2|].
  split; [intros j Hj; by rewrite H2, H1 | by eapply only_stream_trans].
Qed.

Lemma sock_frame_set i side s k m : only_stream side (sock k i) s -> sock_frame i side k ((set_sock i s k) <| k_vm := m |>).
Proof.
  intros Hs. split; [by exists (<[i := s]> (k_socks k)), m|]. split.
  - intros j Hj. by apply (sock_set_ne i j s k).
  - change (only_stream side (sock k i) (sock (set_sock i s k) i)). by rewrite sock_set.
Qed.

Lemma user_copy_from_sock i s k src n : user_copy_from (set_sock i s k) src n = user_copy_from k src n.
Proof. done. Qed.

Lemma copy_from_bytes k src len l : is_u64 src -> 0 <= len -> user_copy_from k src len = Some l ->
  Z.of_nat (length l) = len /\ Forall is_byte l.
Proof. apply copy_from_length. Qed.

(** ** Sending *)

(** What a copy loop appended to the queue of [side], and where it stopped:
    [Some] of the next address it could not read, or the end. *)
Definition appended (i side : Z) (k k' : kernel) (l : list Z) : Prop :=
  side_ok side (sock k' i) /\ sock_frame i side k k' /\ k_vm k' = k_vm k /\
  sock_list side (sock k' i) = sock_list side (sock k i) ++ l.

Lemma appended_nil i side k : side_ok side (sock k i) -> appended i side k k [].
Proof. intros Ho. split; [done|]. split; [apply sock_frame_refl|]. by rewrite app_nil_r. Qed.

Lemma appended_put i side k l k' l' : side_ok side (sock k i) -> arr (sk_count (sock k i)) side + Z.of_nat (length l) <= SOCK_CAP -> Forall is_byte l ->
  appended i side (upd_sock i (fun s => foldl (sock_put side) s l) k) k' l' -> appended i side k k' (l ++ l').
Proof.
  intros Ho Hc Hb (H1 & H2 & H3 & H4). destruct (sock_put_spec side l _ Ho Hc Hb) as (G1 & G2 & G3). unfold upd_sock in *.
  split; [done|]. rewrite sock_set, G3 in H4. split_and!; [|done | by rewrite H4, <- app_assoc].
  eapply sock_frame_trans; [|exact H2]. set (s := foldl _ _ _) in *. pose proof (sock_frame_set i side s k (k_vm k) G2) as Hf.
  by replace ((set_sock i s k) <| k_vm := k_vm k |>) with (set_sock i s k) in Hf by (by destruct k).
Qed.

Lemma send_loop_spec fuel i peer buf n : is_u64 buf -> forall done k res k', side_ok peer (sock k i) -> 0 <= done <= n ->
  n - done <= Z.of_nat fuel -> arr (sk_count (sock k i)) peer + (n - done) <= SOCK_CAP ->
  send_loop fuel i peer buf n done k = (res, k') ->
  exists l, appended i peer k k' l /\ (l = [] \/ user_copy_from k (u64 (buf + done)) (Z.of_nat (length l)) = Some l) /\
    match res with
    | inr d => d = n /\ Z.of_nat (length l) = n - done
    | inl d => d = done + Z.of_nat (length l) /\ d < n /\ user_copy_from k (u64 (buf + d)) (Z.min (n - d) TMP_SIZE) = None
    end.
Proof.
  intros Hb. induction fuel as [|fuel IH]; intros done k res k' Ho Hd Hf Hroom; cbn [send_loop]; destruct (Z.leb_spec n done) as [Hn|Hn];
    try (intros [= <- <-]; exists []; split; [by apply appended_nil|]; split; [by left|]; split; [lia | cbn [length]; lia]).
  set (c := Z.min (n - done) TMP_SIZE). unfold st_bind at 1, st_get at 1. destruct (user_copy_from k (u64 (buf + done)) c) as [tmp|] eqn:Et.
  2: { intros [= <- <-]. exists []. split; [by apply appended_nil|]. split; [by left|]. cbn [length]. split; [lia|]. split; [lia | exact Et]. }
  assert (Hc0 : 0 < c <= n - done) by (unfold c, TMP_SIZE; lia).
  destruct (copy_from_bytes k _ c tmp (u64_range _) ltac:(lia) Et) as [Hlt Hbt].
  unfold st_bind at 1, st_mod at 1. set (k1 := upd_sock i _ k). intros Hrec.
  destruct (sock_put_spec peer tmp (sock k i) Ho ltac:(lia) Hbt) as (G1 & G2 & G3).
  assert (E1 : sock k1 i = foldl (sock_put peer) (sock k i) tmp) by apply sock_set.
  assert (Ec : arr (sk_count (sock k1 i)) peer = arr (sk_count (sock k i)) peer + c).
  { rewrite <- (sock_length peer (sock k1 i)), E1, G3, length_app by (by rewrite E1). rewrite Nat2Z.inj_add, (sock_length peer _ Ho). lia. }
  destruct (IH (done + c) k1 res k') as (l & A & C & R); [by rewrite E1 | lia | lia | lia | exact Hrec|].
  exists (tmp ++ l). split; [apply (appended_put i peer k tmp k' l Ho ltac:(lia) Hbt A)|]. split.
  - right. apply copy_from_more; [done | by rewrite Hlt | rewrite Hlt]. exact C.
  - rewrite length_app, Nat2Z.inj_add, Hlt. destruct res as [d|d]; [|lia]. destruct R as (-> & R2 & R3). split; [lia|]. split; [lia|]. exact R3.
Qed.

(** ** Receiving *)

Section Receive.
Context {HB : HhdmBase} {inv : pmm -> Prop} {held : pmm -> Z -> Prop} `{PA : !PageAllocator inv held}.
Local Abbreviation space_ok := (space_ok (inv := inv) (held := held)).

Lemma syscall_cr3_same k k' : syscall_cr3 k = m_user_pml4 (k_vm k) -> k_syscall_user_cr3 k' = k_syscall_user_cr3 k ->
  m_user_pml4 (k_vm k') = m_user_pml4 (k_vm k) -> space_ok (k_vm k') -> syscall_cr3 k' = m_user_pml4 (k_vm k').
Proof.
  unfold syscall_cr3, vmm_user_cr3. intros H -> E Hs. rewrite (uo_valid _ (so_user _ Hs)). destruct (_ =? 0); congruence.
Qed.

(** A chunk whose copy fails is lost. *)
Lemma recv_loop_spec fuel i side buf n : forall done k res k', side_ok side (sock k i) -> 0 <= done <= n -> n - done <= Z.of_nat fuel ->
  n - done <= arr (sk_count (sock k i)) side -> space_ok (k_vm k) -> syscall_cr3 k = m_user_pml4 (k_vm k) -> 0 <= buf -> buf + n <= USER_TOP ->
  recv_loop fuel i side buf n done k = (res, k') ->
  let q := sock_list side (sock k i) in
  side_ok side (sock k' i) /\ sock_frame i side k k' /\ space_ok (k_vm k') /\ m_user_pml4 (k_vm k') = m_user_pml4 (k_vm k) /\
  match res with
  | inr d => d = n /\ sock_list side (sock k' i) = drop (Z.to_nat (n - done)) q /\ stored (k_vm k) (k_vm k') (buf + done) (take (Z.to_nat (n - done)) q)
  | inl d => exists j lost : nat, done <= d <= done + Z.of_nat j /\ (0 < lost)%nat /\ done + Z.of_nat (j + lost) <= n /\
      sock_list side (sock k' i) = drop (j + lost) q /\ stored (k_vm k) (k_vm k') (buf + done) (take j q)
  end.
Proof.
  induction fuel as [|fuel IH]; intros done k res k' Ho Hd Hf Hq Hs Hcr Hb Htop; cbn [recv_loop]; pose proof (sock_length _ _ Ho) as Hlen;
    cbn zeta; set (q := sock_list side (sock k i)) in *; destruct (Z.leb_spec n done) as [Hn|Hn]; try lia.
  1,2: intros [= <- <-]; replace (Z.to_nat (n - done)) with 0%nat by lia; split_and!; try done; try lia;
    [apply sock_frame_refl | by apply stored_nil].
  set (c := Z.min (n - done) TMP_SIZE). assert (Hc : 0 < c <= n - done) by (unfold c, TMP_SIZE; lia).
  unfold st_bind at 1, st_get at 1. pose proof (sock_take_spec (Z.to_nat c) side (sock k i) Ho ltac:(fold q; lia)) as Ht.
  destruct (sock_take (Z.to_nat c) side (sock k i)) as [tmp s]. destruct Ht as (Hs1 & Hos & Htmp & Hrest). fold q in Htmp, Hrest.
  assert (Hlt : Z.of_nat (length tmp) = c) by (rewrite Htmp, length_take; lia).
  assert (Hbt : Forall is_byte tmp) by (rewrite Htmp; apply Forall_take, Ho).
  unfold st_bind at 1, st_mod at 1. rewrite u64_small by (unfold USER_TOP in *; lia). unfold st_bind at 1.
  destruct (user_copy_to (buf + done) tmp (set_sock i s k)) as [r k1] eqn:Ec.
  destruct (user_copy_to_spec (set_sock i s k) (buf + done) tmp r k1 Hs Hcr ltac:(lia) ltac:(lia) Hbt Ec) as (Ek & Hsp & Hres).
  assert (Hk1 : sock k1 i = s) by (rewrite Ek; exact (sock_set i s k)).
  assert (Hfr : sock_frame i side k k1) by (rewrite Ek; by apply sock_frame_set).
  assert (Er : m_user_pml4 (k_vm k1) = m_user_pml4 (k_vm k))
    by (apply (user_copy_to_root (set_sock i s k) (buf + done) tmp r k1); (done || lia)).
  destruct Hres as [(-> & Hst & _)|(-> & j & Hj & Hst & _)]; cbn [Z.eqb negb].
  - intros Hrec. destruct (IH (done + c) k1 res k') as (G1 & G2 & G3 & G4 & G5); try done;
      [by rewrite Hk1 | lia | lia | rewrite Hk1, <- (sock_length side s Hs1), Hrest, length_drop; lia | apply (syscall_cr3_same k); [done | by rewrite Ek | done | done]|].
    rewrite Hk1, Hrest in G5. split; [done|]. split; [by eapply sock_frame_trans|]. split; [done|]. split; [congruence|].
    assert (Happ : forall x, stored (k_vm k1) (k_vm k') (buf + (done + c)) (take x (drop (Z.to_nat c) q)) ->
      stored (k_vm k) (k_vm k') (buf + done) (take (Z.to_nat c + x) q)).
    { intros x Hx. rewrite <- take_take_drop. apply (stored_app (k_vm k) (k_vm k1)); [done | by rewrite <- Htmp|].
      rewrite <- Htmp, Hlt. by replace (buf + done + c) with (buf + (done + c)) by lia. }
    destruct res as [d|d].
    + destruct G5 as (x & lost & E1 & E2 & E3 & E4 & E5). exists (Z.to_nat c + x)%nat, lost. split_and!; try lia.
      * rewrite E4, drop_drop. f_equal. lia.
      * by apply Happ.
    + destruct G5 as (E1 & E2 & E3). split; [done|]. replace (Z.to_nat (n - done)) with (Z.to_nat c + Z.to_nat (n - (done + c)))%nat by lia.
      split; [by rewrite E2, drop_drop | by apply Happ].
  - change (- EFAULT =? 0) with false. cbn [negb]. intros [= <- <-]. split; [by rewrite Hk1|]. split; [done|]. split; [done|]. split; [done|].
    exists j, (Z.to_nat c - j)%nat. replace (j + (Z.to_nat c - j))%nat with (Z.to_nat c) by lia. split_and!; try lia.
    + by rewrite Hk1.
    + rewrite Htmp, take_take in Hst. by replace (j `min` Z.to_nat c)%nat with j in Hst by lia.
Qed.
End Receive.

(** ** Listeners and free sockets *)

(** The connections that wait to be accepted, oldest first. *)
Definition pending_list (s : unix_socket_state) : list Z := map (arr (sk_pending_fd s)) (seqZ 0 (sk_pending_count s)).

Lemma push_pending_list ni s : 0 <= sk_pending_count s -> pending_list (push_pending ni s) = pending_list s ++ [ni].
Proof.
  intros Hc. unfold pending_list, push_pending. cbn [upd_field sk_pending_count sk_pending_fd]. rewrite (seqZ_app 0 (sk_pending_count s) 1) by lia.
  rewrite map_app. f_equal; [|change (seqZ (0 + sk_pending_count s) 1) with [0 + sk_pending_count s]; cbn [map]; by rewrite Z.add_0_l, arr_set].
  apply map_ext_in. intros x Hx%list_elem_of_In%elem_of_seqZ. apply arr_set_ne. lia.
Qed.

Lemma shift_down m c x : 0 <= x -> arr (foldl (fun m j => <[j - 1 := arr m j]> m) m (seqZ 1 c)) x = arr m (if x <? c then x + 1 else x).
Proof.
  intros Hx. destruct (Z.ltb_spec c 0) as [Hc|Hc].
  { rewrite (proj2 (Z.ltb_ge x c)) by lia. by rewrite seqZ_nil by lia. }
  revert c Hc. refine (natlike_ind _ _ _); [by rewrite (proj2 (Z.ltb_ge x 0))|]. intros c Hc IH.
  unfold Z.succ. rewrite (seqZ_app 1 c 1) by lia. change (seqZ (1 + c) 1) with [1 + c]. rewrite foldl_app. cbn [foldl].
  assert (Hlast : arr (foldl (fun m j => <[j - 1 := arr m j]> m) m (seqZ 1 c)) (1 + c) = arr m (1 + c)).
  { clear IH. apply (foldl_inv (fun m' => arr m' (1 + c) = arr m (1 + c))); [|done]. intros m' j Hj%elem_of_seqZ E. rewrite arr_set_ne by lia. exact E. }
  rewrite Hlast. replace (1 + c - 1) with c by lia. destruct (Z.eq_dec x c) as [->|Hne].
  - rewrite arr_set, (proj2 (Z.ltb_lt c (c + 1))) by lia. f_equal. lia.
  - rewrite arr_set_ne, IH by lia. destruct (Z.ltb_spec x c), (Z.ltb_spec x (c + 1)); (done || lia).
Qed.

Lemma pop_pending_list s x l : pending_list s = x :: l -> arr (sk_pending_fd s) 0 = x /\ pending_list (pop_pending s) = l.
Proof.
  unfold pending_list, pop_pending. cbn [upd_field sk_pending_count sk_pending_fd]. intros E.
  assert (Hc : 0 < sk_pending_count s) by (destruct (Z.ltb_spec 0 (sk_pending_count s)); [done | by rewrite seqZ_nil in E by lia]).
  rewrite (seqZ_cons 0) in E by lia. cbn [map] in E. injection E as <- <-. split; [done|]. apply list_eq. intros j. rewrite !list_lookup_fmap.
  destruct (decide (Z.of_nat j < sk_pending_count s - 1)) as [Hj|Hj].
  - rewrite !lookup_seqZ_lt by lia. cbn [fmap option_fmap option_map]. f_equal. rewrite shift_down by lia.
    rewrite (proj2 (Z.ltb_lt _ _)) by lia. f_equal. lia.
  - by rewrite !lookup_seqZ_ge by lia.
Qed.

Lemma all_socks_in i : 0 <= i < UNIX_SOCKETS_MAX <-> In i all_socks.
Proof. unfold all_socks. rewrite <- list_elem_of_In, elem_of_seqZ. lia. Qed.

Lemma find_listener_spec k path : let li := socket_find_listener k path in
  (li = -1 /\ forall i, 0 <= i < UNIX_SOCKETS_MAX -> sk_listener (sock k i) = true -> is_bound_to k path i = false) \/
  (0 <= li < UNIX_SOCKETS_MAX /\ sk_listener (sock k li) = true /\ is_bound_to k path li = true).
Proof.
  cbn zeta. unfold socket_find_listener. destruct (List.find _ all_socks) as [i|] eqn:E; cbn [default].
  - right. apply find_some in E as [Hi H]. apply andb_prop in H as [H1 H2]. split; [by apply all_socks_in | done].
  - left. split; [done|]. intros i Hi Hl. pose proof (find_none _ _ E i (proj1 (all_socks_in i) Hi)) as H.
    cbn beta in H. by rewrite Hl in H.
Qed.

(** The search from the cursor on finds a free socket whenever there is one. *)
Lemma free_socket_spec k cursor skip :
  match free_socket k cursor skip with
  | Some j => 0 <= j < UNIX_SOCKETS_MAX /\ sk_refs (sock k j) = 0 /\ skip <> Some j
  | None => forall j, 0 <= j < UNIX_SOCKETS_MAX -> skip <> Some j -> sk_refs (sock k j) <> 0
  end.
Proof.
  unfold free_socket. destruct (List.find _ _) as [j|] eqn:E.
  - apply find_some in E as [Hj H]. apply andb_prop in H as [H1 H2]. apply negb_true_iff, bool_decide_eq_false in H1. apply Z.eqb_eq in H2.
    split; [|done]. apply in_map_iff in Hj as (n & <- & _). apply Z.mod_pos_bound. done.
  - intros j Hj Hs H. assert (Hin : In j (map (fun n => (cursor + n) mod UNIX_SOCKETS_MAX) (seqZ 0 UNIX_SOCKETS_MAX))).
    { apply in_map_iff. exists ((j - cursor) mod UNIX_SOCKETS_MAX). split.
      - rewrite Zplus_mod_idemp_r. replace (cursor + (j - cursor)) with j by lia. apply Z.mod_small. lia.
      - apply list_elem_of_In, elem_of_seqZ. pose proof (Z.mod_pos_bound (j - cursor) UNIX_SOCKETS_MAX ltac:(done)). lia. }
    pose proof (find_none _ _ E j Hin) as Hf. cbn beta in Hf. rewrite H, bool_decide_false in Hf by done. discriminate Hf.
Qed.

Lemma upd_sock_eq i f k : sock (upd_sock i f k) i = f (sock k i).
Proof. apply sock_set. Qed.
Lemma upd_sock_ne i j f k : i <> j -> sock (upd_sock i f k) j = sock k j.
Proof. apply sock_set_ne. Qed.

(** Dropping a descriptor's reference touches its own socket only. *)
Lemma drop_ref_frame t fd i side k : f_private (fdesc k t fd) = PSock i side ->
  exists s, exec (socket_fd_drop_ref t fd) k = set_sock i s k \/ exec (socket_fd_drop_ref t fd) k = k.
Proof.
  intros Hp. unfold socket_fd_drop_ref. rewrite exec_get. destruct (negb _); [by exists blank_unix_socket_state; right|].
  unfold socket_state. rewrite Hp. cbn zeta. eexists. left. unfold exec, st_mod. cbn [snd]. reflexivity.
Qed.
