(* ===== verification/SocketThms.v ===== *)
(** * Properties of sockets *)

From S2P Require Import Prelude Words Pmm PmmFacts PmmInit PmmThms PageAlloc.
From S2P Require Import Vmm VmmFacts VmmMap VmmSpace VmmThms CStr Vfs Ring Kernel Tty Fd Sched SchedFacts.
From S2P Require Import UserCopy UserMem UserMemThms Pipe PipeFacts Signals SignalFacts Socket SocketFacts.
Local Open Scope Z_scope.
Local Open Scope st_scope.

(** Descriptor [fd] of the running process is side [side] of socket [i]. *)
Definition on_socket (k : kernel) (fd i side : Z) : Prop :=
  socket_valid_fd k fd = true /\ f_private (file k fd) = PSock i side /\ (side = 0 \/ side = 1).

Lemma on_socket_state k fd i side : on_socket k fd i side ->
  socket_valid_fd k fd = true /\ socket_state (file k fd) = Some i /\ socket_side (file k fd) = side.
Proof. unfold socket_state, socket_side. by intros (H & -> & _). Qed.

(** Task [ti] sleeps for [kind] in a call on a descriptor of side [side] of socket [i]. *)
Definition sleeps_on (kind : Z) (k : kernel) (ti i side : Z) : Prop :=
  let t := task k ti in
  let fd := s32 (t_ctx t RDI) in
  io_waits t = true /\ t_io_wait_kind t = kind /\ fd_ok fd = true /\
  exists table, task_files_for_task k ti = Some table /\
    f_in_use (fdesc k table fd) = true /\ f_type (fdesc k table fd) = FD_SOCKET /\ f_private (fdesc k table fd) = PSock i side.

(** Whether such a task would be woken. *)
Lemma sleeps_ready kind k ti i side : sleeps_on kind k ti i side -> (side = 0 \/ side = 1) ->
  kind = IO_WAIT_SOCKET_READ \/ kind = IO_WAIT_SOCKET_WRITE \/ kind = IO_WAIT_SOCKET_ACCEPT ->
  woken k ti =
    let s := sock k i in
    if kind =? IO_WAIT_SOCKET_READ then negb (arr (sk_count s) side =? 0) || negb (arr (sk_closed s) (1 - side) =? 0)
    else if kind =? IO_WAIT_SOCKET_WRITE then negb (arr (sk_closed s) (1 - side) =? 0) || (arr (sk_count s) (1 - side) <? SOCK_CAP)
    else sk_listener s && negb (sk_pending_count s =? 0).
Proof.
  intros (Hw & Hk & Hfd & table & Ht & Hu & Hty & Hp) Hside Hkind. unfold woken. rewrite Hw. cbn [andb].
  unfold io_wake_ready. rewrite Hk. unfold task_socket_wait_ready. rewrite Hk, Hfd, Ht, Hu, Hty. unfold socket_state, socket_side. rewrite Hp.
  unfold io_waits in Hw. apply andb_prop in Hw as [Hw _]. apply andb_prop in Hw as [Hw _]. rewrite Hw.
  assert (Hx : Z.lxor side 1 = 1 - side) by (by destruct Hside as [-> | ->]). rewrite Hx.
  assert (Hr : (side <? 0) || (1 <? side) = false) by (by destruct Hside as [-> | ->]).
  destruct Hkind as [->|[->| ->]]; cbn -[arr]; rewrite Hr; cbn -[arr]; by rewrite ?negb_involutive, ?andb_true_r.
Qed.

Lemma wake_task_state t : t_state (wake_task t) = TASK_RUNNABLE.
Proof. unfold wake_task. by destruct (negb _). Qed.

(** Only tasks and the scheduler's variables changed. *)
Definition rescheduled (k k' : kernel) : Prop :=
  exists ts p tg rc d, k' = k <| k_tasks := ts |> <| k_task_return_ctx := rc |> <| k_task_switch_target := tg |>
                              <| k_task_switch_deferred := d |> <| k_task_switch_pending := p |>.

Lemma rescheduled_tasks k ts : rescheduled k (k <| k_tasks := ts |>).
Proof.
  exists ts, (k_task_switch_pending k), (k_task_switch_target k), (k_task_return_ctx k), (k_task_switch_deferred k). by destruct k.
Qed.

Lemma rescheduled_refl k : rescheduled k k.
Proof. pose proof (rescheduled_tasks k (k_tasks k)) as H. by replace (k <| k_tasks := k_tasks k |>) with k in H by (by destruct k). Qed.

Lemma rescheduled_trans k1 k2 k3 : rescheduled k1 k2 -> rescheduled k2 k3 -> rescheduled k1 k3.
Proof. intros (ts & p & tg & rc & d & ->) (ts' & p' & tg' & rc' & d' & ->). by exists ts', p', tg', rc', d'. Qed.

Lemma wake_rescheduled k : rescheduled k (exec task_wake_io_waiters k) /\
  forall ti, task_ok ti = true -> woken k ti = true -> t_state (task (exec task_wake_io_waiters k) ti) = TASK_RUNNABLE.
Proof.
  unfold exec, task_wake_io_waiters. pose proof (wake_loop (-1) k all_tasks (NoDup_seqZ _ _)) as H.
  destruct (foldl wake_step (-1, k) all_tasks) as [w k']. destruct H as [[ts ->] H]. cbn [snd]. split; [apply rescheduled_tasks|].
  intros ti Hti Hw. rewrite H, Hw. unfold task_ok in Hti. rewrite bool_decide_true by (unfold all_tasks; apply elem_of_seqZ; lia).
  cbn [andb]. apply wake_task_state.
Qed.

Lemma defer_rescheduled f d k : rescheduled k (exec (defer_switch f d) k) /\
  forall ti, task_ok ti = true -> woken k ti = true -> t_state (task (exec (defer_switch f d) k) ti) = TASK_RUNNABLE.
Proof.
  destruct (wake_rescheduled k) as [Hr Hw]. unfold defer_switch. rewrite exec_bind.
  set (k1 := exec task_wake_io_waiters k) in *. set (woke := fst _). rewrite exec_get. destruct (_ && _); [|done].
  rewrite exec_seq. set (k2 := exec (task_save_from_frame _ _) k1). unfold exec, st_mod. cbn [snd]. split.
  - eapply rescheduled_trans; [exact Hr|]. eapply rescheduled_trans; [exact (rescheduled_tasks k1 (k_tasks k2))|].
    exists (k_tasks k2), true, woke, (Some woke), true. unfold k2, exec, task_save_from_frame, st_mod. cbn [snd]. by destruct k1.
  - intros ti Hti Hwk. change (t_state (task k2 ti) = TASK_RUNNABLE).
    unfold k2, exec, task_save_from_frame, st_mod. cbn [snd]. rewrite task_upd. destruct (Z.eqb_spec (k_current k1) ti) as [->|]; by apply Hw.
Qed.

(** The bytes [l] were appended to what side [side] of socket [i] has to read;
    besides that only tasks and the scheduler's variables changed. *)
Definition queued (i side : Z) (k k' : kernel) (l : list Z) : Prop :=
  side_ok side (sock k' i) /\ sock_list side (sock k' i) = sock_list side (sock k i) ++ l /\ only_stream side (sock k i) (sock k' i) /\
  (forall j, j <> i -> sock k' j = sock k j) /\ exists ss, rescheduled (k <| k_socks := ss |>) k'.

Lemma queued_appended i side k k1 k' l : appended i side k k1 l -> rescheduled k1 k' -> queued i side k k' l.
Proof.
  intros (H1 & ((ss & m & E) & H2 & H3) & Hv & H4) (ts & p & tg & rc & d & E'). rewrite E in Hv. cbn in Hv. rewrite Hv in E.
  rewrite E' . split_and!; try done. exists ss, ts, p, tg, rc, d. rewrite E. by destruct k.
Qed.

Section Irq.
Variable tick : kernel -> kernel.

(** C24.  sendto appends to what the other side has to read, in order, as many
    bytes of the buffer as there is room for, and every reader that sleeps on
    the other side can run again.  A buffer that cannot be read stops it: the
    bytes before the fault stay sent, and when there are none the result is
    4294967282, the error EFAULT converted to uint32_t, which the caller takes
    for a count.  The errors come before and change nothing; without room the
    call sleeps, or answers EAGAIN when the descriptor does not block. *)
Theorem sys_sendto_correct fuel f fd i side buf len nr k r k' : let s := sock k i in let peer := 1 - side in
  on_socket k fd i side -> side_ok peer s -> is_u64 buf -> sys_sendto tick fuel f fd buf len nr k = Some (r, k') ->
  let room := SOCK_CAP - Z.of_nat (length (sock_list peer s)) in
  if len <? 0 then r = - EINVAL /\ k' = k
  else if sk_refs s <? 2 then r = - ENOTCONN /\ k' = k
  else if negb (arr (sk_closed s) peer =? 0) then r = - EPIPE /\ k' = k
  else if len =? 0 then r = 0 /\ k' = k
  else if room =? 0 then
    if has (f_flags (file k fd)) 0x800 then r = - EAGAIN /\ k' = k
    else block_or_again tick fuel f IO_WAIT_SOCKET_WRITE nr k = Some (r, k')
  else exists l, queued i peer k k' l /\ (l = [] \/ user_copy_from k buf (Z.of_nat (length l)) = Some l) /\
    let n := Z.of_nat (length l) in
    (r = n /\ n = Z.min len room /\ forall ti, task_ok ti = true -> sleeps_on IO_WAIT_SOCKET_READ k ti i peer -> t_state (task k' ti) = TASK_RUNNABLE) \/
    (r = (if n =? 0 then 4294967282 else n) /\ n < Z.min len room /\ user_copy_from k (u64 (buf + n)) (Z.min (Z.min len room - n) TMP_SIZE) = None).
Proof.
  cbn zeta. intros Hon Ho Hb. destruct (on_socket_state k fd i side Hon) as (Hv & Hst & Hsd). destruct Hon as (_ & _ & Hside).
  unfold sys_sendto. rewrite Hv, Hst, Hsd. cbn [negb]. assert (Hx : Z.lxor side 1 = 1 - side) by (by destruct Hside as [-> | ->]). rewrite Hx.
  set (peer := 1 - side) in *. assert (Hpeer : peer = 0 \/ peer = 1) by lia.
  destruct (Z.ltb_spec len 0) as [|Hl]; [by intros [= <- <-]|]. destruct (sk_refs (sock k i) <? 2); [by intros [= <- <-]|].
  destruct (negb (arr (sk_closed (sock k i)) peer =? 0)); [by intros [= <- <-]|]. destruct (Z.eqb_spec len 0) as [|Hl0]; [by intros [= <- <-]|].
  rewrite (sock_room peer _ Ho). set (room := SOCK_CAP - _). pose proof (sock_length peer _ Ho) as Hq.
  assert (Hroom : 0 <= room) by (destruct Ho as [(_ & Hc & _) _]; unfold room; lia).
  destruct (Z.eqb_spec room 0) as [|Hr0]; [destruct (has _ 0x800); [by intros [= <- <-] | done]|].
  replace (if len <? room then len else room) with (Z.min len room) by (destruct (Z.ltb_spec len room); lia). set (n := Z.min len room).
  destruct (send_loop (Z.to_nat n) i peer buf n 0 k) as [res k1] eqn:El.
  destruct (send_loop_spec (Z.to_nat n) i peer buf n Hb 0 k res k1 Ho) as (l & A & C & R); [unfold n; lia | lia | unfold n, room; lia | done|].
  rewrite Z.add_0_r, u64_small in C by done. destruct res as [d|d].
  - intros [= <- <-]. destruct R as (Ed & Hd & Hf). rewrite Z.add_0_l in Ed. subst d. exists l. split.
    + apply (queued_appended i peer k k1 k1 l A). apply rescheduled_refl.
    + split; [done|]. right. split; [|done]. unfold count_or_fault. by destruct (_ =? 0).
  - destruct R as [-> Hlen]. rewrite Z.sub_0_r in Hlen. intros E.
    assert (Er : (r, k') = (n, exec (defer_switch f n) k1)) by (unfold exec; unfold st_bind in E; destruct (defer_switch f n k1); by injection E as <- <-).
    injection Er as -> ->. destruct (defer_rescheduled f n k1) as [D W]. exists l. split; [by eapply queued_appended|]. split; [done|]. left.
    split; [done|]. split; [done|]. intros ti Hti Hsl. apply W; [done|]. destruct A as (A1 & ((ss & m & A2) & A3 & A4) & Av & A5).
    assert (Hsl' : sleeps_on IO_WAIT_SOCKET_READ k1 ti i peer) by (rewrite A2; exact Hsl).
    rewrite (sleeps_ready _ k1 ti i peer Hsl' Hpeer) by (by left). cbn -[arr]. rewrite <- (sock_length peer _ A1), A5, length_app, Nat2Z.inj_add.
    apply orb_true_iff. left. apply negb_true_iff, Z.eqb_neq. unfold n in Hlen. lia.
Qed.
Section Receive.
Context {HB : HhdmBase} {inv : pmm -> Prop} {held : pmm -> Z -> Prop} `{PA : !PageAllocator inv held}.
Local Abbreviation space_ok := (space_ok (inv := inv) (held := held)).

(** Besides the stream of side [side] of socket [i] only memory, tasks and the
    scheduler's variables changed. *)
Definition received (i side : Z) (k k' : kernel) : Prop :=
  side_ok side (sock k' i) /\ only_stream side (sock k i) (sock k' i) /\ (forall j, j <> i -> sock k' j = sock k j) /\
  space_ok (k_vm k') /\ exists ss m, rescheduled ((k <| k_socks := ss |>) <| k_vm := m |>) k'.

Lemma received_frame i side k k1 k' : side_ok side (sock k1 i) -> sock_frame i side k k1 -> space_ok (k_vm k1) -> rescheduled k1 k' ->
  received i side k k'.
Proof.
  intros H1 ((ss & m & E) & H2 & H3) H4 (ts & p & tg & rc & d & E'). rewrite E'. split_and!; try done. exists ss, m, ts, p, tg, rc, d. by rewrite E.
Qed.

(** recvfrom delivers the oldest bytes that side has to read, as many as
    there are and fit, to the buffer, changes no other byte of user memory, and
    lets every writer of the other side that sleeps run again.  On an empty
    queue it is end of file when the other side is closed and sleeps, or
    answers EAGAIN, otherwise.  When a copy fails (a copy-on-write page and no
    memory left), a prefix is delivered and the rest of its chunk is lost. *)
Theorem sys_recvfrom_correct fuel f fd i side buf len nr k r k' : let s := sock k i in let q := sock_list side s in
  on_socket k fd i side -> side_ok side s -> space_ok (k_vm k) -> syscall_cr3 k = m_user_pml4 (k_vm k) -> 0 <= buf -> buf + len <= USER_TOP ->
  sys_recvfrom tick fuel f fd buf len nr k = Some (r, k') ->
  if len <? 0 then r = - EINVAL /\ k' = k
  else if len =? 0 then r = 0 /\ k' = k
  else if is_nil q then
    if negb (arr (sk_closed s) (1 - side) =? 0) then r = 0 /\ k' = k
    else if has (f_flags (file k fd)) 0x800 then r = - EAGAIN /\ k' = k
    else block_or_again tick fuel f IO_WAIT_SOCKET_READ nr k = Some (r, k')
  else received i side k k' /\ let n := Z.min len (Z.of_nat (length q)) in
    (r = n /\ sock_list side (sock k' i) = drop (Z.to_nat n) q /\ stored (k_vm k) (k_vm k') buf (take (Z.to_nat n) q) /\
     forall ti, task_ok ti = true -> sleeps_on IO_WAIT_SOCKET_WRITE k ti i (1 - side) -> t_state (task k' ti) = TASK_RUNNABLE) \/
    (exists j lost : nat, (r = 4294967282 \/ 0 < r <= Z.of_nat j) /\ (0 < lost)%nat /\ Z.of_nat (j + lost) <= n /\
     sock_list side (sock k' i) = drop (j + lost) q /\ stored (k_vm k) (k_vm k') buf (take j q)).
Proof.
  cbn zeta. intros Hon Ho Hs Hcr Hb Htop. destruct (on_socket_state k fd i side Hon) as (Hv & Hst & Hsd). destruct Hon as (_ & _ & Hside).
  unfold sys_recvfrom. rewrite Hv, Hst, Hsd. cbn [negb]. assert (Hx : Z.lxor side 1 = 1 - side) by (by destruct Hside as [-> | ->]). rewrite Hx.
  set (q := sock_list side (sock k i)). pose proof (sock_length side _ Ho) as Hq. fold q in Hq.
  destruct (Z.ltb_spec len 0) as [|Hl]; [by intros [= <- <-]|]. destruct (Z.eqb_spec len 0) as [|Hl0]; [by intros [= <- <-]|].
  assert (Hnil : is_nil q = (arr (sk_count (sock k i)) side =? 0)) by (rewrite <- Hq; by destruct q).
  rewrite Hnil. destruct (Z.eqb_spec (arr (sk_count (sock k i)) side) 0) as [|Hc0].
  { destruct (negb _); [by intros [= <- <-]|]. destruct (has _ 0x800); [by intros [= <- <-] | done]. }
  rewrite <- Hq. replace (if len <? Z.of_nat (length q) then len else Z.of_nat (length q)) with (Z.min len (Z.of_nat (length q)))
    by (destruct (Z.ltb_spec len (Z.of_nat (length q))); lia).
  set (n := Z.min len (Z.of_nat (length q))). destruct (recv_loop (Z.to_nat n) i side buf n 0 k) as [res k1] eqn:El.
  destruct (recv_loop_spec (Z.to_nat n) i side buf n 0 k res k1 Ho) as (G1 & G2 & G3 & _ & G5); try done; [unfold n; lia..|].
  fold q in G5. rewrite Z.add_0_r, Z.sub_0_r in G5. destruct res as [d|d].
  - intros [= <- <-]. split; [apply (received_frame i side k k1 k1 G1 G2 G3 (rescheduled_refl k1))|]. right.
    destruct G5 as (j & lost & H1 & H2 & H3 & H4 & H5). exists j, lost. split; [|split_and!; try done; lia].
    unfold count_or_fault. destruct (Z.eqb_spec d 0); [by left | right; lia].
  - destruct G5 as (-> & H2 & H3). intros E.
    assert (Er : (r, k') = (n, exec task_wake_io_waiters k1)) by (unfold exec; unfold st_bind in E; destruct (task_wake_io_waiters k1); by injection E as <- <-).
    injection Er as -> ->. destruct (wake_rescheduled k1) as [D W]. split; [by apply (received_frame i side k k1)|]. left.
    destruct D as (ts & p & tg & rc & df & D). split; [done|]. split; [rewrite D; exact H2|]. split; [rewrite D; exact H3|].
    intros ti Hti Hsl. apply W; [done|]. destruct G2 as ((ss & m & A2) & A3 & A4).
    assert (Hsl' : sleeps_on IO_WAIT_SOCKET_WRITE k1 ti i (1 - side)) by (rewrite A2; exact Hsl).
    rewrite (sleeps_ready _ k1 ti i (1 - side) Hsl') by (lia || (right; by left)). cbn -[arr]. replace (1 - (1 - side)) with side by lia.
    apply orb_true_iff. right. apply Z.ltb_lt. rewrite <- (sock_length side _ G1), H2, length_drop.
    destruct Ho as [(_ & Hc & _) _]. unfold n. lia.
Qed.
End Receive.
End Irq.

(** ** Connections *)

Lemma wake_then (r : Z) k : (st_bind task_wake_io_waiters (fun _ => st_ret r)) k = (r, exec task_wake_io_waiters k).
Proof. by rewrite bind_eq. Qed.

Lemma file_upd fd g k : file (exec (upd_file fd g) k) fd = g (file k fd).
Proof.
  unfold upd_file, exec, st_mod. cbn [snd]. change (current_files (upd_fdesc (current_files k) fd g k)) with (current_files k).
  unfold file at 1. change (current_files (upd_fdesc (current_files k) fd g k)) with (current_files k).
  unfold upd_fdesc, fdesc, set_fdesc. cbn [upd_field k_fd_tables]. by rewrite lookup_insert_eq.
Qed.

Lemma fdesc_upd_ne fd g k t fd' : (t, fd') <> (current_files k, fd) -> fdesc (exec (upd_file fd g) k) t fd' = fdesc k t fd'.
Proof.
  intros Hne. unfold upd_file, exec, st_mod. cbn [snd]. unfold upd_fdesc, fdesc, set_fdesc. cbn [upd_field k_fd_tables].
  by rewrite lookup_insert_ne by congruence.
Qed.

(** A connection nobody has used: both sides are open and hold one reference. *)
Record new_connection (s : unix_socket_state) : Prop := {
  nc_connected : sk_connected s = true;
  nc_refs : sk_refs s = 2 /\ arr (sk_side_refs s) 0 = 1 /\ arr (sk_side_refs s) 1 = 1;
  nc_open : arr (sk_closed s) 0 = 0 /\ arr (sk_closed s) 1 = 0;
  nc_sides : side_ok 0 s /\ side_ok 1 s;
  nc_empty : sock_list 0 s = [] /\ sock_list 1 s = [];
  nc_quiet : sk_listener s = false /\ sk_bound s = false /\ pending_list s = []
}.

Lemma open_connection_new : new_connection (open_connection blank_unix_socket_state).
Proof. split; repeat split; try done; vm_compute; constructor. Qed.

(** The descriptor [fd] of the running process became side [side] of socket
    [i]; all other descriptors stay. *)
Definition socket_opened (fd i side : Z) (k k' : kernel) : Prop :=
  file k' fd = socket_file i side (file k fd) /\ current_files k' = current_files k /\
  forall t fd', (t, fd') <> (current_files k, fd) -> fdesc k' t fd' = fdesc k t fd'.

Lemma opened_upd fd i side k k1 : k_fd_tables k1 = k_fd_tables k -> current_files k1 = current_files k ->
  socket_opened fd i side k (exec (upd_file fd (socket_file i side)) k1).
Proof.
  intros E1 E2. assert (Ef : forall t x, fdesc k1 t x = fdesc k t x) by (intros t x; unfold fdesc; by rewrite E1). split; [|split].
  - rewrite file_upd. unfold file. by rewrite E2, Ef.
  - exact E2.
  - intros t fd' Hne. rewrite fdesc_upd_ne by (by rewrite E2). apply Ef.
Qed.

(** connect finds the listener with the name given and puts a new
    connection, both of whose sides are open and empty, at the end of its
    queue; the descriptor becomes side 0 of the connection and a task that
    sleeps in accept on the listener can run again.  Without a listener it is
    refused, with four connections waiting it answers EAGAIN, and EMFILE only
    when every socket is in use; these change nothing. *)
Theorem sys_connect_correct fd addr addrlen k i side r k' : on_socket k fd i side -> sk_refs (sock k i) <> 0 ->
  sys_connect fd addr addrlen k = (r, k') ->
  match socket_un_copy_path k addr addrlen SUN_PATH with
  | inl e => r = e /\ k' = k
  | inr path =>
      let li := socket_find_listener k path in
      let pending := pending_list (sock k li) in
      if li <? 0 then r = - ECONNREFUSED /\ k' = k
      else if 4 <=? sk_pending_count (sock k li) then r = - EAGAIN /\ k' = k
      else (r = - EMFILE /\ k' = k /\ forall j, 0 <= j < UNIX_SOCKETS_MAX -> j <> li -> sk_refs (sock k j) <> 0) \/
        (r = 0 /\ (li <> i -> 0 <= sk_pending_count (sock k li) ->
          exists ni, 0 <= ni < UNIX_SOCKETS_MAX /\ sk_refs (sock k ni) = 0 /\ ni <> li /\ new_connection (sock k' ni) /\
            pending_list (sock k' li) = pending ++ [ni] /\ socket_opened fd ni 0 k k' /\ k_vm k' = k_vm k /\
            (forall j, j <> ni -> j <> li -> j <> i -> sock k' j = sock k j) /\
            forall ti s, task_ok ti = true -> s = 0 \/ s = 1 -> sleeps_on IO_WAIT_SOCKET_ACCEPT k ti li s -> t_state (task k' ti) = TASK_RUNNABLE))
  end.
Proof.
  intros Hon Hri. destruct (on_socket_state k fd i side Hon) as (Hv & Hst & Hsd). unfold sys_connect, st_bind at 1, st_get at 1.
  rewrite Hv, Hst. cbn [negb is_some]. destruct (socket_un_copy_path k addr addrlen SUN_PATH) as [e|path]; [by intros [= <- <-]|]. cbn zeta.
  pose proof (find_listener_spec k path) as Hli. cbn zeta in Hli. set (li := socket_find_listener k path) in *.
  destruct (Z.ltb_spec li 0) as [|Hl0]; [by intros [= <- <-]|]. destruct Hli as [[Hli _]|(Hlr & Hll & Hlb)]; [lia|].
  destruct (Z.leb_spec 4 (sk_pending_count (sock k li))) as [|Hp]; [by intros [= <- <-]|].
  pose proof (free_socket_spec k (k_connect_si k) (Some li)) as Hfree. destruct (free_socket k (k_connect_si k) (Some li)) as [ni|].
  2: { intros [= <- <-]. left. split; [done|]. split; [done|]. intros j Hj Hne. apply Hfree; congruence. }
  destruct Hfree as (Hn & Hnr & Hne). assert (Hnl : ni <> li) by congruence. assert (Hni : ni <> i) by congruence. intros E. right.
  set (k1 := set_sock ni blank_unix_socket_state (k <| k_connect_si := (ni + 1) mod UNIX_SOCKETS_MAX |>)) in *.
  assert (Hpf : f_private (fdesc k1 (current_files k) fd) = PSock i side) by apply Hon.
  destruct (drop_ref_frame (current_files k) fd i side k1 Hpf) as [s Hdrop]. set (k2 := exec (socket_fd_drop_ref (current_files k) fd) k1) in *.
  set (k3 := exec (upd_file fd (socket_file ni 0)) k2). set (k4 := upd_sock li (push_pending ni) (upd_sock ni open_connection k3)).
  assert (Er : (r, k') = (0, exec task_wake_io_waiters k4)).
  { rewrite <- E. unfold k4, k3, k2, k1. generalize task_wake_io_waiters. intros wake. by rewrite !bind_eq. }
  clear E. injection Er as -> ->. split; [done|]. intros Hil Hpc. destruct (wake_rescheduled k4) as [(ts & p & tg & rc & d & D) W].
  assert (K2 : (forall j, j <> i -> sock k2 j = sock k1 j) /\ k_fd_tables k2 = k_fd_tables k /\ current_files k2 = current_files k /\ k_vm k2 = k_vm k /\
    (forall ti, task k2 ti = task k ti /\ task_files_for_task k2 ti = task_files_for_task k ti)).
  { destruct Hdrop as [-> | ->]; [|done]. split_and!; try done. intros j Hj. apply sock_set_ne. congruence. }
  destruct K2 as (S2 & F2 & C2 & V2 & T2).
  assert (Sk3 : forall j, sock k3 j = sock k2 j) by done.
  assert (Sli : sock k4 li = push_pending ni (sock k li)).
  { unfold k4. rewrite upd_sock_eq, upd_sock_ne, Sk3, S2 by congruence. unfold k1. by rewrite sock_set_ne by congruence. }
  assert (Sni : sock k4 ni = open_connection blank_unix_socket_state).
  { unfold k4. rewrite upd_sock_ne, upd_sock_eq, Sk3, S2 by congruence. unfold k1. by rewrite sock_set. }
  exists ni. split; [done|]. split; [done|]. split; [done|].
  assert (Sk' : forall j, sock (exec task_wake_io_waiters k4) j = sock k4 j) by (intros j; by rewrite D).
  rewrite !Sk', Sni, Sli. split; [apply open_connection_new|]. split; [by apply push_pending_list|].
  pose proof (opened_upd fd ni 0 k k2 F2 C2) as (O1 & O2 & O3). split; [rewrite D; by split_and!|]. split; [rewrite D; exact V2|]. split.
  - intros j H1 H2 H3. rewrite Sk'. unfold k4. rewrite !upd_sock_ne, Sk3, S2 by congruence. unfold k1. by rewrite sock_set_ne by congruence.
  - intros ti sd Hti Hsd' (W1 & W2 & W3 & table & W4 & W5 & W6 & W7). apply W; [done|].
    assert (Hsl : sleeps_on IO_WAIT_SOCKET_ACCEPT k4 ti li sd).
    { unfold sleeps_on. cbv zeta. change (task k4 ti) with (task k2 ti). change (task_files_for_task k4 ti) with (task_files_for_task k2 ti).
      destruct (T2 ti) as [-> ->]. split_and!; try done. exists table. split; [done|].
      change (fdesc k4) with (fdesc k3). unfold k3. rewrite O3; [by split_and!|]. intros [= -> E2]. rewrite E2 in W7. unfold on_socket, file in Hon.
      destruct Hon as (_ & Hon & _). congruence. }
    rewrite (sleeps_ready _ k4 ti li sd Hsl Hsd') by (right; by right). cbn. rewrite Sli. cbn. rewrite Hll. cbn [andb].
    apply negb_true_iff, Z.eqb_neq. lia.
Qed.

Lemma find_free_lowest k : 0 <= find_free_fd k ->
  f_in_use (file k (find_free_fd k)) = false /\ forall b, 0 <= b < find_free_fd k -> f_in_use (file k b) = true.
Proof.
  unfold find_free_fd. destruct (List.find _ _) as [a|] eqn:E; cbn [default]; [|lia]. intros _.
  apply find_seqZ in E as (_ & H%negb_true_iff & Hlow). split; [done|]. intros b Hb. by apply negb_false_iff, Hlow.
Qed.

Section Accept.
Variable tick : kernel -> kernel.

End Accept.

(** ** Examples *)

#[local] Existing Instance demo_hhdm.

(** The state a call leaves. *)
Definition after (o : option (Z * kernel)) : kernel := match o with Some (_, k) => k | None => blank_kernel end.

Lemma after_eq o r : option_map fst o = Some r -> o = Some (r, after o).
Proof. destruct o as [[r' k]|]; [|done]. by intros [= ->]. Qed.

Lemma after_inv o r k : o = Some (r, k) -> after o = k /\ option_map fst o = Some r.
Proof. by intros ->. Qed.

Definition idle_tick : kernel -> kernel := fun k => k.

(** Descriptors 3 and 4 are the sides of socket 0, 5 is a listener, socket 1,
    and 6 a socket that is not connected, socket 2. *)
Definition listening : unix_socket_state :=
  blank_unix_socket_state <| sk_domain := 1 |> <| sk_refs := 1 |> <| sk_side_refs := <[0 := 1]> ∅ |> <| sk_bound := true |> <| sk_listener := true |> <| sk_path := [AT_SIGN; 120] |>.
Definition idle_socket : unix_socket_state := blank_unix_socket_state <| sk_domain := 1 |> <| sk_refs := 1 |> <| sk_side_refs := <[0 := 1]> ∅ |>.
Definition sock_kernel (m : machine) (s0 s1 : unix_socket_state) : kernel :=
  set_sock 0 s0 (set_sock 1 s1 (set_sock 2 idle_socket
    (set_fdesc 0 3 (socket_file 0 0 blank_file_desc) (set_fdesc 0 4 (socket_file 0 1 blank_file_desc)
    (set_fdesc 0 5 (socket_file 1 0 blank_file_desc) (set_fdesc 0 6 (socket_file 2 0 blank_file_desc)
    (set_table_refs 0 1 (blank_kernel <| k_vm := m |>)))))))).

Lemma sock_kernel_0 m s0 s1 : sock (sock_kernel m s0 s1) 0 = s0.
Proof. apply sock_set. Qed.

Definition fresh_connection : unix_socket_state := open_connection blank_unix_socket_state.
Lemma fresh_sides : side_ok 0 fresh_connection /\ side_ok 1 fresh_connection.
Proof. apply (nc_sides _ open_connection_new). Qed.

Definition send_kernel : kernel := sock_kernel demo_copied fresh_connection listening.
Definition send_run : option (Z * kernel) := sys_sendto idle_tick 0 blank_regs 3 0x400010 2 44 send_kernel.

Lemma send_run_ok : option_map fst send_run = Some 2.
Proof. vm_compute. reflexivity. Qed.

Lemma send_on : on_socket send_kernel 3 0 0.
Proof. split; [vm_compute; reflexivity|]. split; [reflexivity | by left]. Qed.

Lemma send_bytes : user_copy_from send_kernel 0x400010 2 = Some [104; 105].
Proof. vm_compute. reflexivity. Qed.

Lemma send_queue : sock_list 1 (sock send_kernel 0) = [].
Proof. vm_compute. reflexivity. Qed.

Lemma send_refs : sk_refs (sock send_kernel 0) = 2 /\ arr (sk_closed (sock send_kernel 0)) 1 = 0.
Proof. vm_compute. done. Qed.

Lemma send_side : side_ok 1 (sock send_kernel 0).
Proof. unfold send_kernel. rewrite sock_kernel_0. apply fresh_sides. Qed.

Lemma sys_sendto_witness : sock_list 1 (sock (after send_run) 0) = [104; 105].
Proof.
  pose proof (sys_sendto_correct idle_tick 0 blank_regs 3 0 0 0x400010 2 44 send_kernel 2 (after send_run) send_on send_side
    ltac:(unfold is_u64; lia) (after_eq _ _ send_run_ok)) as H.
  cbv zeta in H. change (1 - 0) with 1 in H. rewrite send_queue, (proj1 send_refs), (proj2 send_refs) in H.
  destruct H as (l & (_ & Hq & _) & Hc & [(Hr & _)|(Hr & Hlt & _)]).
  - rewrite <- Hr in Hc. rewrite Hq, send_queue. destruct Hc as [->|Hc]; [discriminate Hr|]. rewrite send_bytes in Hc. by injection Hc as <-.
  - exfalso. revert Hr Hlt. change (Z.min 2 (SOCK_CAP - Z.of_nat (length (@nil Z)))) with 2. destruct (Z.eqb_spec (Z.of_nat (length l)) 0); lia.
Defined.

(** A connection whose side 1 has "hi" to read. *)
Definition filled_connection : unix_socket_state := foldl (sock_put 1) fresh_connection [104; 105].
Definition recv_kernel : kernel := sock_kernel demo_mapped filled_connection listening.
Definition recv_run : option (Z * kernel) := sys_recvfrom idle_tick 0 blank_regs 4 0x400100 16 45 recv_kernel.

Lemma recv_run_ok : option_map fst recv_run = Some 2.
Proof. vm_compute. reflexivity. Qed.

Lemma recv_on : on_socket recv_kernel 4 0 1.
Proof. split; [vm_compute; reflexivity|]. split; [reflexivity | by right]. Qed.

Lemma recv_side : side_ok 1 (sock recv_kernel 0).
Proof.
  unfold recv_kernel. rewrite sock_kernel_0.
  apply (sock_put_spec 1 [104; 105] fresh_connection (proj2 fresh_sides)); [vm_compute; congruence | exact demo_bytes].
Qed.

Lemma recv_queue : sock_list 1 (sock recv_kernel 0) = [104; 105].
Proof. vm_compute. reflexivity. Qed.

Lemma recv_cr3 : syscall_cr3 recv_kernel = m_user_pml4 (k_vm recv_kernel).
Proof. vm_compute. reflexivity. Qed.

Lemma sys_recvfrom_witness : stored (k_vm recv_kernel) (k_vm (after recv_run)) 0x400100 [104; 105].
Proof.
  pose proof (sys_recvfrom_correct (inv := pmm_wf) (held := pool_held) idle_tick 0 blank_regs 4 0 1 0x400100 16 45 recv_kernel 2 (after recv_run) recv_on
    recv_side (proj1 demo_mapped_space) recv_cr3 ltac:(lia) ltac:(unfold USER_TOP; lia) (after_eq _ _ recv_run_ok)) as H.
  cbv zeta in H. rewrite recv_queue in H. destruct H as (_ & [(_ & _ & H & _)|(j & lost & Hr & Hl & Hj & _)]); [exact H|].
  exfalso. clear - Hr Hl Hj. change (Z.of_nat (j + lost) <= 2) in Hj. lia.
Defined.

(** Descriptor 6 connects to the listener, whose name lies at 0x400200. *)
Definition name_machine : machine := snd (user_copy_to_cr3 (m_user_pml4 demo_mapped) 0x400200 [1; 0; 0; 120] demo_mapped).
Definition connect_kernel : kernel := sock_kernel name_machine fresh_connection listening.
Definition connect_run : Z * kernel := sys_connect 6 0x400200 4 connect_kernel.

Lemma connect_run_ok : fst connect_run = 0.
Proof. vm_compute. reflexivity. Qed.

Lemma connect_on : on_socket connect_kernel 6 2 0 /\ sk_refs (sock connect_kernel 2) <> 0.
Proof. split; [|vm_compute; discriminate]. split; [vm_compute; reflexivity|]. split; [reflexivity | by left]. Qed.

Lemma connect_name : socket_un_copy_path connect_kernel 0x400200 4 SUN_PATH = inr [AT_SIGN; 120] /\
  socket_find_listener connect_kernel [AT_SIGN; 120] = 1.
Proof. vm_compute. done. Qed.

Lemma connect_pending : sk_pending_count (sock connect_kernel 1) = 0 /\ pending_list (sock connect_kernel 1) = [].
Proof. vm_compute. done. Qed.

Lemma sys_connect_witness : exists ni, pending_list (sock (snd connect_run) 1) = [ni] /\ new_connection (sock (snd connect_run) ni).
Proof.
  pose proof (sys_connect_correct 6 0x400200 4 connect_kernel 2 0 0 (snd connect_run) (proj1 connect_on) (proj2 connect_on) (run_eq _ _ connect_run_ok)) as H.
  rewrite (proj1 connect_name) in H. cbv zeta in H. rewrite (proj2 connect_name), (proj1 connect_pending), (proj2 connect_pending) in H.
  destruct H as [(H & _)|(_ & H)]; [discriminate H|]. destruct (H ltac:(discriminate) ltac:(lia)) as (ni & _ & _ & _ & Hn & Hp & _).
  exists ni. split; [exact Hp | exact Hn].
Defined.

(** A connection waits at the listener. *)
Definition accept_kernel : kernel := sock_kernel demo_mapped fresh_connection (push_pending 0 listening).
Definition accept_run : option (Z * kernel) := sys_accept idle_tick 0 blank_regs 5 0 0 accept_kernel.

Lemma accept_run_ok : option_map fst accept_run = Some 0.
Proof. vm_compute. reflexivity. Qed.

Lemma accept_on : on_socket accept_kernel 5 1 0.
Proof. split; [vm_compute; reflexivity|]. split; [reflexivity | by left]. Qed.

Lemma accept_guards : sk_listener (sock accept_kernel 1) = true /\ pending_list (sock accept_kernel 1) = [0] /\
  ((0 <? 0) || (UNIX_SOCKETS_MAX <=? 0) || (sk_refs (sock accept_kernel 0) =? 0)) = false /\ find_free_fd accept_kernel = 0.
Proof. vm_compute. done. Qed.

