(* ===== verification/Events.v ===== *)
(** * Event counters and timers as files

    eventfd and timerfd ([src/kernel/main.c]): creation, arming, reading and
    writing.  The clock is [k_now] for CLOCK_MONOTONIC and what the RTC shows
    otherwise; the RTC is a parameter. *)

From S2P Require Import Prelude Words Pmm Vmm CStr Vfs Kernel Tty Fd Sched UserCopy Signals Pipe.
Local Open Scope Z_scope.
Local Open Scope st_scope.

Definition NSEC_PER_SEC : Z := 1000000000.

Definition eventfd (k : kernel) (i : Z) : eventfd_state_k := cell blank_eventfd_state_k (k_eventfds k) i.
Definition set_eventfd (i : Z) (e : eventfd_state_k) (k : kernel) : kernel := k <| k_eventfds := <[i := e]> (k_eventfds k) |>.
Definition timerfd (k : kernel) (i : Z) : timerfd_state_k := cell blank_timerfd_state_k (k_timerfds k) i.
Definition set_timerfd (i : Z) (t : timerfd_state_k) (k : kernel) : kernel := k <| k_timerfds := <[i := t]> (k_timerfds k) |>.

(** The entry of a new file without an offset. *)
Definition event_file (type flags : Z) (p : ptr) (f : file_desc) : file_desc :=
  f <| f_in_use := true |> <| f_type := type |> <| f_flags := flags |> <| f_private := p |>.

(** ** eventfd *)

(** [(uint32_t)(flags | 1u)] *)
Definition sys_eventfd2 (initval flags : Z) : ST kernel Z :=
  let! k := st_get in
  let fd := find_free_fd k in
  if fd <? 0 then st_ret (- EMFILE)
  else
    match find (fun i => (ev_flags (eventfd k i) =? 0) && (ev_value (eventfd k i) =? 0)) (seqZ 0 8) with
    | None => st_ret (- EMFILE)
    | Some i =>
        st_mod (set_eventfd i (EventfdState initval (u32 (Z.lor flags 1)))) ;;;
        upd_file fd (event_file FD_EVENTFD flags (PEventfd i)) ;;;
        st_ret fd
    end.

(** The FD_EVENTFD branch of sys_read. *)
Definition eventfd_read (i buf count : Z) : ST kernel Z :=
  let! k := st_get in
  if negb (count =? 8) then st_ret (- EINVAL)
  else
    let v := ev_value (eventfd k i) in
    if v =? 0 then st_ret (- EAGAIN)
    else
      st_mod (set_eventfd i ((eventfd k i) <| ev_value := 0 |>)) ;;;
      let! r := user_copy_to buf (word_bytes v) in
      st_ret (if negb (r =? 0) then - EFAULT else 8).

(** The FD_EVENTFD branch of sys_write. *)
Definition eventfd_write (i buf count : Z) : ST kernel Z :=
  let! k := st_get in
  if negb (count =? 8) then st_ret (- EINVAL)
  else
    match user_copy_from k buf 8 with
    | None => st_ret (- EFAULT)
    | Some l =>
        let v := bytes_word l in
        let e := eventfd k i in
        if v =? UINT64_MAX then st_ret (- EINVAL)
        else if UINT64_MAX - ev_value e <? v then st_ret (- EAGAIN)
        else
          st_mod (set_eventfd i (e <| ev_value := ev_value e + v |>)) ;;;
          st_ret 8
    end.

(** ** timerfd *)

Definition sys_timerfd_create (clockid flags : Z) : ST kernel Z :=
  if negb (clockid =? 0) && negb (clockid =? 1) then st_ret (- EINVAL)
  else
    let! k := st_get in
    let fd := find_free_fd k in
    if fd <? 0 then st_ret (- EMFILE)
    else
      match find (fun i => let t := timerfd k i in (tm_flags t =? 0) && (tm_next_ns t =? 0) && (tm_expirations t =? 0)) (seqZ 0 8) with
      | None => st_ret (- EMFILE)
      | Some i =>
          st_mod (set_timerfd i (TimerfdState clockid 1 0 0 0)) ;;;
          upd_file fd (event_file FD_TIMERFD flags (PTimerfd i)) ;;;
          st_ret fd
      end.

(** The number of periods from [next] that are over at [now]. *)
Definition missed_periods (now next interval : Z) : Z := u64 ((now - next) / interval + 1).

(** The two lines that bring a timer up to date, in 64-bit arithmetic. *)
Definition timerfd_expire (now : Z) (t : timerfd_state_k) : timerfd_state_k :=
  if negb (tm_next_ns t =? 0) && (tm_next_ns t <=? now) then
    if negb (tm_interval_ns t =? 0) then
      let missed := missed_periods now (tm_next_ns t) (tm_interval_ns t) in
      t <| tm_expirations := u64 (tm_expirations t + missed) |> <| tm_next_ns := u64 (tm_next_ns t + u64 (missed * tm_interval_ns t)) |>
    else t <| tm_expirations := 1 |> <| tm_next_ns := 0 |>
  else t.

(** sizeof(struct itimerspec_k) and its four fields *)
Definition ITIMERSPEC_SIZE : Z := 32.
Definition spec_field (l : list Z) (n : nat) : Z := s64 (bytes_word (take 8 (drop (8 * n) l))).
Definition itimerspec_bytes (interval_sec interval_nsec value_sec value_nsec : Z) : list Z :=
  word_bytes interval_sec ++ word_bytes interval_nsec ++ word_bytes value_sec ++ word_bytes value_nsec.

(** A pair of seconds and nanoseconds the timer calls accept. *)
Definition bad_timespec (sec nsec : Z) : bool := (sec <? 0) || (nsec <? 0) || (NSEC_PER_SEC <=? nsec).

Section Clock.
(** The seconds and nanoseconds rtc_now reads from the real-time clock. *)
Variable rtc_now : Z * Z.

Definition clock_now_ns_simple (k : kernel) (clockid : Z) : Z :=
  if (clockid =? 1) || (clockid =? 4) then k_now k
  else u64 (fst rtc_now * NSEC_PER_SEC + snd rtc_now).

(** The setting sys_timerfd_settime returns. *)
Definition timerfd_setting (k : kernel) (t : timerfd_state_k) : list Z :=
  let now := clock_now_ns_simple k (tm_clockid t) in
  let rem := if tm_next_ns t =? 0 then 0 else if now <? tm_next_ns t then tm_next_ns t - now else 0 in
  itimerspec_bytes (tm_interval_ns t / NSEC_PER_SEC) (tm_interval_ns t mod NSEC_PER_SEC) (rem / NSEC_PER_SEC) (rem mod NSEC_PER_SEC).

(** Arming the timer: the new value is counted from now. *)
Definition arm_timer (k : kernel) (i value interval : Z) : timerfd_state_k :=
  let t := timerfd k i in
  t <| tm_interval_ns := interval |> <| tm_expirations := 0 |>
    <| tm_next_ns := if value =? 0 then 0 else u64 (clock_now_ns_simple k (tm_clockid t) + value) |>.

Definition sys_timerfd_settime (fd new_value old_value : Z) : ST kernel Z :=
  let! k := st_get in
  if negb (fd_ok fd) || negb (f_in_use (file k fd)) || negb (f_type (file k fd) =? FD_TIMERFD) then st_ret (- EBADF)
  else if new_value =? 0 then st_ret (- EFAULT)
  else
    match user_copy_from k new_value ITIMERSPEC_SIZE, f_private (file k fd) with
    | None, _ => st_ret (- EFAULT)
    | Some n, PTimerfd i =>
        let! r := if old_value =? 0 then st_ret 0 else user_copy_to old_value (timerfd_setting k (timerfd k i)) in
        if negb (r =? 0) then st_ret (- EFAULT)
        else if bad_timespec (spec_field n 2) (spec_field n 3) || bad_timespec (spec_field n 0) (spec_field n 1) then st_ret (- EINVAL)
        else
          let value := u64 (spec_field n 2 * NSEC_PER_SEC + spec_field n 3) in
          let interval := u64 (spec_field n 0 * NSEC_PER_SEC + spec_field n 1) in
          st_mod (fun k => set_timerfd i (arm_timer k i value interval) k) ;;;
          st_ret 0
    | Some _, _ => st_ret (- EBADF)
    end.

(** The FD_TIMERFD branch of sys_read. *)
Definition timerfd_read (i buf count : Z) : ST kernel Z :=
  let! k := st_get in
  if negb (count =? 8) then st_ret (- EINVAL)
  else
    let t := timerfd_expire (clock_now_ns_simple k (tm_clockid (timerfd k i))) (timerfd k i) in
    st_mod (set_timerfd i t) ;;;
    if tm_expirations t =? 0 then st_ret (- EAGAIN)
    else
      st_mod (set_timerfd i (t <| tm_expirations := 0 |>)) ;;;
      let! r := user_copy_to buf (word_bytes (tm_expirations t)) in
      st_ret (if negb (r =? 0) then - EFAULT else 8).

(** The monotonic time at which a timer expires, 0 when it is not armed. *)
Definition timerfd_monotonic_deadline (k : kernel) (fd mono_now : Z) : Z :=
  if negb (fd_ok fd) || negb (f_in_use (file k fd)) || negb (f_type (file k fd) =? FD_TIMERFD) then 0
  else
    match f_private (file k fd) with
    | PTimerfd i =>
        let t := timerfd k i in
        if (tm_next_ns t =? 0) || negb (tm_expirations t =? 0) then 0
        else
          let clock_now := clock_now_ns_simple k (tm_clockid t) in
          let delta := if clock_now <? tm_next_ns t then tm_next_ns t - clock_now else 0 in
          if UINT64_MAX - mono_now <? delta then UINT64_MAX else mono_now + delta
    | _ => 0
    end.

(** A timer a read would find expired. *)
Definition timerfd_ready (k : kernel) (i : Z) : bool :=
  let t := timerfd k i in
  negb (tm_expirations t =? 0) || (negb (tm_next_ns t =? 0) && (tm_next_ns t <=? clock_now_ns_simple k (tm_clockid t))).
End Clock.

(** sys_read and sys_write on one of these files: the checks before the
    branches, then the branch. *)
Definition sys_read_event (read : Z -> Z -> Z -> ST kernel Z) (i buf count : Z) : ST kernel Z :=
  let! k := st_get in
  if (buf =? 0) && negb (count =? 0) then st_ret (- EINVAL)
  else if negb (count =? 0) && negb (user_range_ok k buf count true) then st_ret (- EFAULT)
  else read i buf count.

Definition sys_write_eventfd (i buf count : Z) : ST kernel Z :=
  let! k := st_get in
  if (0x100000 <? count) || ((buf =? 0) && negb (count =? 0)) then st_ret (- EINVAL)
  else if count =? 0 then st_ret 0
  else if negb (user_range_ok k buf count false) then st_ret (- EFAULT)
  else eventfd_write i buf count.
