(* ===== verification/Poll.v ===== *)
(** * Waiting for descriptors

    poll, select and epoll ([src/kernel/main.c]): what makes a descriptor
    ready, the three calls and the table of an epoll file.  A call that finds
    nothing ready sleeps and is repeated when it is woken, so each of the loops
    [for (;;)] runs its body once. *)

From S2P Require Import Prelude Words Pmm Vmm CStr Vfs Kernel Tty Fd Sched UserCopy Signals Pipe Events.
Local Open Scope Z_scope.
Local Open Scope st_scope.

Definition POLLIN : Z := 1.
Definition POLLOUT : Z := 4.
Definition POLLERR : Z := 8.
Definition POLLHUP : Z := 16.
Definition POLLNVAL : Z := 32.
Definition IO_WAIT_POLL : Z := 1.
Definition IO_WAIT_SELECT : Z := 2.
Definition IO_WAIT_EPOLL : Z := 3.
Definition DEV_NULL : Z := 1.
Definition DEV_ZERO : Z := 2.
Definition DEV_RANDOM : Z := 5.
Definition DEV_URANDOM : Z := 6.

(** [if (b) r |= m;] *)
Definition flag (b : bool) (m : Z) : Z := if b then m else 0.
Notation "a '.|' b" := (Z.lor a b) (at level 50, left associativity).

(** ** Devices *)

Definition console_tty_read_ready_for (k : kernel) (pid pgrp : Z) : bool :=
  let i := k_input k in
  ((in_pending_pos i <? in_pending_len i) && (in_pending_pid i =? pid)) ||
  (negb (in_key_head i =? in_key_tail i) && ((k_console_fg_pgrp k <=? 0) || (pgrp =? k_console_fg_pgrp k))).

(** Whether a read of the console by the current task returns. *)
Definition console_ready (k : kernel) : bool :=
  let t := task k (k_current k) in console_tty_read_ready_for k (t_pid t) (t_pgrp t).

Definition keyboard_event_oldest_seq (k : kernel) : Z :=
  let n := in_event_seq (k_input k) in if INPUT_EVENT_CAP <? n then n - INPUT_EVENT_CAP else 0.
Definition mouse_event_oldest_seq (k : kernel) : Z :=
  let n := in_mouse_seq (k_input k) in if MOUSE_EVENT_CAP <? n then n - MOUSE_EVENT_CAP else 0.

(** The descriptor [fd] of table [t] is the device [dev]. *)
Definition is_device (k : kernel) (t fd dev : Z) : bool :=
  (f_type (fdesc k t fd) =? FD_PSEUDO) && bool_decide (f_private (fdesc k t fd) = PDev dev).

(** keyboard_fd_sync and mouse_fd_sync: events that were overwritten are skipped. *)
Definition input_fd_sync (t fd dev oldest : Z) : ST kernel unit :=
  let! k := st_get in
  if negb (is_device k t fd dev) then st_ret tt
  else if input_fd_seq k t fd <? oldest then input_fd_seq_set t fd oldest else st_ret tt.

Definition keyboard_fd_sync (t fd : Z) : ST kernel unit :=
  let! k := st_get in input_fd_sync t fd DEV_INPUT (keyboard_event_oldest_seq k).
Definition mouse_fd_sync (t fd : Z) : ST kernel unit :=
  let! k := st_get in input_fd_sync t fd DEV_INPUT_MOUSE (mouse_event_oldest_seq k).

Definition keyboard_fd_ready (t fd : Z) : ST kernel bool :=
  let! k := st_get in
  if negb (is_device k t fd DEV_INPUT) then st_ret false
  else keyboard_fd_sync t fd ;;; let! k := st_get in st_ret (input_fd_seq k t fd <? in_event_seq (k_input k)).
Definition mouse_fd_ready (t fd : Z) : ST kernel bool :=
  let! k := st_get in
  if negb (is_device k t fd DEV_INPUT_MOUSE) then st_ret false
  else mouse_fd_sync t fd ;;; let! k := st_get in st_ret (input_fd_seq k t fd <? in_mouse_seq (k_input k)).

(** The test of the evdev files, which the three calls share. *)
Definition evdev_ready (t fd : Z) : ST kernel bool :=
  let! a := keyboard_fd_ready t fd in if a then st_ret true else mouse_fd_ready t fd.

Section Clock.
(** What the real-time clock shows. *)
Variable rtc_now : Z * Z.

(** ** poll *)

(** The events of an open descriptor that is not an evdev file. *)
Definition poll_events (k : kernel) (f : file_desc) (events : Z) : Z :=
  let rd b := flag (has events POLLIN && b) POLLIN in
  let wr b := flag (has events POLLOUT && b) POLLOUT in
  if f_type f =? FD_FILE then rd true .| wr (has (f_flags f) 3)
  else if f_type f =? FD_EVENTFD then
    match f_private f with
    | PEventfd i => rd (negb (ev_value (eventfd k i) =? 0)) .| wr (ev_value (eventfd k i) <? UINT64_MAX - 1)
    | _ => 0
    end
  else if f_type f =? FD_TIMERFD then
    match f_private f with PTimerfd i => rd (timerfd_ready rtc_now k i) | _ => 0 end
  else if f_type f =? FD_PSEUDO then rd (bool_decide (f_private f = PDev DEV_TTY) && console_ready k)
  else if f_type f =? FD_SOCKET then
    match socket_state f with
    | None => 0
    | Some i =>
        let s := sock k i in
        let side := socket_side f in
        let peer := Z.lxor side 1 in
        let closed := negb (arr (sk_closed s) peer =? 0) in
        if sk_listener s then rd (negb (sk_pending_count s =? 0))
        else if negb (sk_refs s =? 0) then
          rd (negb (arr (sk_count s) side =? 0)) .| wr (negb closed && (arr (sk_count s) peer <? SOCK_CAP))
            .| flag closed POLLHUP .| flag (closed && has events POLLERR) POLLERR
        else 0
    end
  else if f_type f =? FD_PIPE_R then
    match f_private f with
    | PPipe i => rd (negb (pi_count (pipe k i) =? 0)) .| flag (negb (pipe_has_writers k i)) POLLHUP
    | _ => 0
    end
  else if f_type f =? FD_PIPE_W then
    match f_private f with
    | PPipe i => if negb (pipe_has_readers k i) then POLLERR else wr (pi_count (pipe k i) <? PIPE_CAP)
    | _ => 0
    end
  else if f_type f =? FD_PTY_MASTER then
    match f_private f with
    | PPty i => rd (pty_master_read_ready (pty k i)) .| wr (py_slave_open (pty k i) && (py_m2s_count (pty k i) <? PTY_CAP))
                  .| flag (negb (py_slave_open (pty k i))) POLLHUP
    | _ => 0
    end
  else if f_type f =? FD_PTY_SLAVE then
    match f_private f with
    | PPty i => rd (pty_slave_read_ready (pty k i)) .| wr (py_master_open (pty k i) && (py_s2m_count (pty k i) <? PTY_CAP))
                  .| flag (negb (py_master_open (pty k i))) POLLHUP
    | _ => 0
    end
  else 0.

(** The revents of one entry of the array. *)
Definition poll_revents (fd events : Z) : ST kernel Z :=
  let! k := st_get in
  if ((fd =? 1) || (fd =? 2)) && fd_is_console_stream k fd then st_ret (flag (has events POLLOUT) POLLOUT)
  else if fd_ok fd && f_in_use (file k fd) then
    if (f_type (file k fd) =? FD_PSEUDO) && has events POLLIN then
      let! r := evdev_ready (current_files k) fd in
      st_ret (poll_events k (file k fd) events .| flag r POLLIN)
    else st_ret (poll_events k (file k fd) events)
  else st_ret (flag (0 <=? fd) POLLNVAL).

(** The earlier of two deadlines, where 0 is none. *)
Definition earlier (d td : Z) : Z := if negb (td =? 0) && ((d =? 0) || (td <? d)) then td else d.

(** The expiry of a timer that is waited for and not ready. *)
Definition poll_timer (k : kernel) (fd events : Z) : Z :=
  if fd_ok fd && f_in_use (file k fd) && (f_type (file k fd) =? FD_TIMERFD) && has events POLLIN &&
     negb (((fd =? 1) || (fd =? 2)) && fd_is_console_stream k fd) then
    match f_private (file k fd) with
    | PTimerfd i => if timerfd_ready rtc_now k i then 0 else timerfd_monotonic_deadline rtc_now k fd (k_now k)
    | _ => 0
    end
  else 0.

(** sizeof(struct pollfd_k) and its fields *)
Definition POLLFD_SIZE : Z := 8.
Definition pollfd_fd (l : list Z) : Z := s32 (bytes_word (take 4 l)).
Definition pollfd_events (l : list Z) : Z := bytes_word (take 2 (drop 4 l)).
Definition short_bytes (v : Z) : list Z := [Z.land v 0xFF; Z.land (Z.shiftr v 8) 0xFF].
Definition pollfd_answer (l : list Z) (revents : Z) : list Z := take 6 l ++ short_bytes revents.

(** The pass over the array, [n] entries from [p] on: the number of entries
    with events and the first expiry of a timer, [None] for -EFAULT. *)
Fixpoint poll_pass (n : nat) (p ready next : Z) : ST kernel (option (Z * Z)) :=
  match n with
  | O => st_ret (Some (ready, next))
  | S n =>
      let! k := st_get in
      match user_copy_from k p POLLFD_SIZE with
      | None => st_ret None
      | Some l =>
          let next := earlier next (poll_timer k (pollfd_fd l) (pollfd_events l)) in
          let! rev := poll_revents (pollfd_fd l) (pollfd_events l) in
          let! r := user_copy_to p (pollfd_answer l rev) in
          if negb (r =? 0) then st_ret None
          else poll_pass n (u64 (p + POLLFD_SIZE)) (if rev =? 0 then ready else ready + 1) next
      end
  end.

(** ** select *)

(** What select_fd_state stores in [*rr] and [*ww], or its error.  [*xx] stays 0. *)
Definition select_ready (k : kernel) (f : file_desc) (want_r want_w : bool) : option (bool * bool) :=
  if f_type f =? FD_FILE then Some (want_r, want_w)
  else if f_type f =? FD_PSEUDO then
    match f_private f with
    | PDev d =>
        let stream := existsb (Z.eqb d) [DEV_NULL; DEV_ZERO; DEV_RANDOM; DEV_URANDOM] in
        Some (want_r && (stream || ((d =? DEV_TTY) && console_ready k)), want_w && (stream || (d =? DEV_CONSOLE) || (d =? DEV_TTY)))
    | _ => Some (false, false)
    end
  else if f_type f =? FD_SOCKET then
    match socket_state f with
    | None => None
    | Some i =>
        let s := sock k i in
        let side := socket_side f in
        let peer := Z.lxor side 1 in
        let closed := negb (arr (sk_closed s) peer =? 0) in
        if sk_listener s then Some (want_r && negb (sk_pending_count s =? 0), false)
        else if negb (sk_refs s =? 0) then
          Some (want_r && (negb (arr (sk_count s) side =? 0) || closed), want_w && negb closed && (arr (sk_count s) peer <? SOCK_CAP))
        else Some (false, false)
    end
  else if f_type f =? FD_PIPE_R then
    match f_private f with
    | PPipe i => Some (want_r && (negb (pi_count (pipe k i) =? 0) || negb (pipe_has_writers k i)), false)
    | _ => None
    end
  else if f_type f =? FD_PIPE_W then
    match f_private f with
    | PPipe i => Some (false, want_w && pipe_has_readers k i && (pi_count (pipe k i) <? PIPE_CAP))
    | _ => None
    end
  else if f_type f =? FD_EVENTFD then
    match f_private f with
    | PEventfd i => Some (want_r && negb (ev_value (eventfd k i) =? 0), want_w && (ev_value (eventfd k i) <? UINT64_MAX - 1))
    | _ => None
    end
  else if f_type f =? FD_TIMERFD then
    match f_private f with PTimerfd i => Some (want_r && timerfd_ready rtc_now k i, false) | _ => None end
  else if f_type f =? FD_PTY_MASTER then
    match f_private f with
    | PPty i => Some (want_r && pty_master_read_ready (pty k i), want_w && py_slave_open (pty k i) && (py_m2s_count (pty k i) <? PTY_CAP))
    | _ => None
    end
  else if f_type f =? FD_PTY_SLAVE then
    match f_private f with
    | PPty i => Some (want_r && pty_slave_read_ready (pty k i), want_w && py_master_open (pty k i) && (py_s2m_count (pty k i) <? PTY_CAP))
    | _ => None
    end
  else Some (false, false).

(** ** epoll: readiness *)

(** The events of a watched descriptor that is open and not an evdev file. *)
Definition epoll_events (k : kernel) (f : file_desc) (events : Z) : Z :=
  let rd b := flag (b && has events POLLIN) POLLIN in
  let wr b := flag (b && has events POLLOUT) POLLOUT in
  if f_type f =? FD_FILE then rd true .| wr (has (f_flags f) 3)
  else if f_type f =? FD_PIPE_R then
    match f_private f with
    | PPipe i => rd (negb (pi_count (pipe k i) =? 0) || negb (pipe_has_writers k i)) .| flag (negb (pipe_has_writers k i)) POLLHUP
    | _ => 0
    end
  else if f_type f =? FD_PIPE_W then
    match f_private f with
    | PPipe i => if negb (pipe_has_readers k i) then POLLERR else wr (pi_count (pipe k i) <? PIPE_CAP)
    | _ => 0
    end
  else if f_type f =? FD_PSEUDO then rd (bool_decide (f_private f = PDev DEV_TTY) && console_ready k)
  else if f_type f =? FD_PTY_MASTER then
    match f_private f with PPty i => rd (pty_master_read_ready (pty k i)) | _ => 0 end
  else if f_type f =? FD_PTY_SLAVE then
    match f_private f with PPty i => rd (pty_slave_read_ready (pty k i)) | _ => 0 end
  else if f_type f =? FD_EVENTFD then
    match f_private f with
    | PEventfd i => rd (negb (ev_value (eventfd k i) =? 0)) .| wr (ev_value (eventfd k i) <? UINT64_MAX - 1)
    | _ => 0
    end
  else if f_type f =? FD_TIMERFD then
    match f_private f with
    | PTimerfd i =>
        let t := timerfd k i in
        rd (negb (tm_next_ns t =? 0) && (tm_next_ns t <=? clock_now_ns_simple rtc_now k (tm_clockid t)))
    | _ => 0
    end
  else if f_type f =? FD_SOCKET then
    match socket_state f with
    | None => 0
    | Some i =>
        let s := sock k i in
        let side := socket_side f in
        let peer := Z.lxor side 1 in
        let closed := negb (arr (sk_closed s) peer =? 0) in
        if sk_listener s then rd (negb (sk_pending_count s =? 0))
        else if negb (sk_refs s =? 0) then
          rd (negb (arr (sk_count s) side =? 0)) .| wr (negb closed && (arr (sk_count s) peer <? SOCK_CAP))
            .| flag closed POLLHUP .| flag (closed && has events POLLERR) POLLERR
        else 0
    end
  else 0.

(** [*revents]; epoll_is_ready returns whether it is not 0. *)
Definition epoll_is_ready (fd events : Z) : ST kernel Z :=
  let! k := st_get in
  if (fd =? 1) || (fd =? 2) then st_ret (flag (has events POLLOUT) POLLOUT)
  else if negb (fd_ok fd && f_in_use (file k fd)) then st_ret 0
  else if f_type (file k fd) =? FD_PSEUDO then
    let! r := evdev_ready (current_files k) fd in
    st_ret (epoll_events k (file k fd) events .| flag (r && has events POLLIN) POLLIN)
  else st_ret (epoll_events k (file k fd) events).

Definition watches (e : epoll_state_k) : list epoll_watch_k :=
  List.filter ew_used (map (cell blank_epoll_watch_k (ep_w e)) (seqZ 0 YABRO_EPOLL_WATCH_MAX)).

Fixpoint any_ready (l : list epoll_watch_k) : ST kernel bool :=
  match l with
  | [] => st_ret false
  | w :: l => let! rev := epoll_is_ready (ew_fd w) (ew_events w) in if negb (rev =? 0) then st_ret true else any_ready l
  end.

(** The epoll file [fd] names. *)
Definition epoll_of (k : kernel) (fd : Z) : option Z :=
  if fd_ok fd && f_in_use (file k fd) then epoll_state_for_file (file k fd) else None.

Definition epoll_fd_ready (fd : Z) : ST kernel bool :=
  let! k := st_get in
  match epoll_of k fd with
  | Some i => if ep_used (epoll k i) then any_ready (watches (epoll k i)) else st_ret false
  | None => st_ret false
  end.

(** ** select: one descriptor and the sets *)

(** [None] is -EBADF. *)
Definition select_fd_state (fd : Z) (want_r want_w : bool) : ST kernel (option (bool * bool)) :=
  let! k := st_get in
  if negb (fd_ok fd && f_in_use (file k fd)) then st_ret None
  else if ((fd =? 1) || (fd =? 2)) && fd_is_console_stream k fd then st_ret (Some (false, want_w))
  else if (f_type (file k fd) =? FD_EPOLL) && want_r then
    let! r := epoll_fd_ready fd in st_ret (Some (r, false))
  else if (f_type (file k fd) =? FD_PSEUDO) && want_r then
    let! r := evdev_ready (current_files k) fd in
    st_ret (option_map (fun s => (fst s || r, snd s)) (select_ready k (file k fd) want_r want_w))
  else st_ret (select_ready k (file k fd) want_r want_w).

(** [in[fd/8] & (1u << (fd%8))] and [out[fd/8] |= 1u << (fd%8)] *)
Definition fd_isset (l : list Z) (fd : Z) : bool := has (nth (Z.to_nat (fd / 8)) l 0) (Z.shiftl 1 (fd mod 8)).
Definition fd_set (fd : Z) (l : list Z) : list Z := alter (fun b => Z.lor b (Z.shiftl 1 (fd mod 8))) (Z.to_nat (fd / 8)) l.

(** The three sets of the caller; the sets of results are [rout] and [wout], [eout] stays empty. *)
Definition fd_sets : Type := list Z * list Z * list Z.

Fixpoint select_pass (fds : list Z) (sets : fd_sets) (rout wout : list Z) (ready : Z) : ST kernel (option (list Z * list Z * Z)) :=
  match fds with
  | [] => st_ret (Some (rout, wout, ready))
  | fd :: fds =>
      let '(rin, win, ein) := sets in
      if negb (fd_isset rin fd) && negb (fd_isset win fd) && negb (fd_isset ein fd) then select_pass fds sets rout wout ready
      else
        let! s := select_fd_state fd (fd_isset rin fd) (fd_isset win fd) in
        match s with
        | None => st_ret None
        | Some (rr, ww) =>
            select_pass fds sets (if rr then fd_set fd rout else rout) (if ww then fd_set fd wout else wout)
              (ready + Z.b2z rr + Z.b2z ww)
        end
  end.

Definition SET_BYTES : Z := 128.
Definition empty_set : list Z := replicate (Z.to_nat SET_BYTES) 0.

(** [if (u && bytes && user_copy_from(in, u, bytes))]: a set that is not given is empty. *)
Definition select_set (k : kernel) (u bytes : Z) : option (list Z) :=
  if (u =? 0) || (bytes =? 0) then Some empty_set else user_copy_from k u bytes.

Definition copy_set (u bytes : Z) (l : list Z) : ST kernel Z :=
  if (u =? 0) || (bytes =? 0) then st_ret 0 else user_copy_to u (take (Z.to_nat bytes) l).

Definition select_copy_sets (ur uw ue bytes : Z) (rout wout : list Z) : ST kernel Z :=
  let! a := copy_set ur bytes rout in
  if negb (a =? 0) then st_ret (- EFAULT)
  else
    let! b := copy_set uw bytes wout in
    if negb (b =? 0) then st_ret (- EFAULT)
    else let! c := copy_set ue bytes empty_set in st_ret (if negb (c =? 0) then - EFAULT else 0).

(** The duration of the timeout, or the error: of a timespec for pselect6, of
    a timeval for select. *)
Definition select_timeout_to_ns (k : kernel) (utv : Z) (pselect : bool) : Z + Z :=
  match user_copy_from k utv 16 with
  | None => inl (- EFAULT)
  | Some l =>
      let sec := spec_field l 0 in
      let sub := spec_field l 1 in
      if (sec <? 0) || (sub <? 0) || ((if pselect then NSEC_PER_SEC else 1000000) <=? sub) then inl (- EINVAL)
      else
        let ns := if pselect then sub else sub * 1000 in
        if UINT64_MAX / NSEC_PER_SEC <? sec then inr UINT64_MAX
        else
          let dur := sec * NSEC_PER_SEC in
          inr (if UINT64_MAX - dur <? ns then UINT64_MAX else dur + ns)
  end.

Definition select_update_timeval (utv deadline_ns : Z) : ST kernel Z :=
  let! k := st_get in
  let rem := if k_now k <? deadline_ns then deadline_ns - k_now k else 0 in
  let! r := user_copy_to utv (word_bytes (rem / NSEC_PER_SEC) ++ word_bytes (rem mod NSEC_PER_SEC / 1000)) in
  st_ret (if negb (r =? 0) then - EFAULT else 0).

(** The copies back; [update] for a select with a timeout. *)
Definition select_return (ur uw ue utv bytes deadline_ns : Z) (update : bool) (rout wout : list Z) (ready : Z) : ST kernel Z :=
  let! rc := select_copy_sets ur uw ue bytes rout wout in
  let! tr := if update then select_update_timeval utv deadline_ns else st_ret 0 in
  let rc := if rc =? 0 then tr else rc in
  st_ret (if rc <? 0 then rc else ready).

(** ** epoll: the table of watches *)

Definition EEXIST : Z := 17.
Definition ENOENT : Z := 2.
Definition ENOSPC : Z := 28.
Definition EPOLL_CTL_ADD : Z := 1.
Definition EPOLL_CTL_DEL : Z := 2.
Definition EPOLL_CTL_MOD : Z := 3.
Definition YABRO_EPOLL_INSTANCES : Z := 4.
Definition EPOLL_EVENT_SIZE : Z := 12.
Definition YABRO_EPOLL_MAX_EVENTS : Z := 256.

Definition watch (e : epoll_state_k) (j : Z) : epoll_watch_k := cell blank_epoll_watch_k (ep_w e) j.
Definition set_watch (j : Z) (w : epoll_watch_k) (e : epoll_state_k) : epoll_state_k := e <| ep_w := <[j := w]> (ep_w e) |>.
Definition all_watches : list Z := seqZ 0 YABRO_EPOLL_WATCH_MAX.

Definition sys_epoll_create1 (flags : Z) : ST kernel Z :=
  if negb (Z.ldiff flags O_CLOEXEC =? 0) then st_ret (- EINVAL)
  else
    let! k := st_get in
    let fd := find_free_fd k in
    if fd <? 0 then st_ret (- EMFILE)
    else
      match find (fun i => negb (ep_used (epoll k i))) (seqZ 0 YABRO_EPOLL_INSTANCES) with
      | None => st_ret (- EMFILE)
      | Some i =>
          st_mod (set_epoll i (EpollState true 1
            (foldl (fun w j => <[j := (cell blank_epoll_watch_k w j) <| ew_used := false |>]> w) (ep_w (epoll k i)) all_watches))) ;;;
          upd_file fd (event_file FD_EPOLL flags (PEpoll i)) ;;;
          st_ret fd
      end.

Definition watch_slot (e : epoll_state_k) (fd : Z) : option Z := find (fun j => ew_used (watch e j) && (ew_fd (watch e j) =? fd)) all_watches.
Definition free_slot (e : epoll_state_k) : option Z := find (fun j => negb (ew_used (watch e j))) all_watches.

(** The three operations on the table; [events] and [data] are those of the user's structure. *)
Definition epoll_update (op fd events data : Z) (e : epoll_state_k) : Z * epoll_state_k :=
  if op =? EPOLL_CTL_DEL then
    match watch_slot e fd with
    | None => (- ENOENT, e)
    | Some j => (0, set_watch j ((watch e j) <| ew_used := false |>) e)
    end
  else if op =? EPOLL_CTL_ADD then
    match watch_slot e fd with
    | Some _ => (- EEXIST, e)
    | None =>
        match free_slot e with
        | None => (- ENOSPC, e)
        | Some j => (0, set_watch j (EpollWatch true fd events data) e)
        end
    end
  else if op =? EPOLL_CTL_MOD then
    match watch_slot e fd with
    | None => (- ENOENT, e)
    | Some j => (0, set_watch j ((watch e j) <| ew_events := events |> <| ew_data := data |>) e)
    end
  else (- EINVAL, e).

Definition sys_epoll_ctl (epfd op fd uevent : Z) : ST kernel Z :=
  let! k := st_get in
  match epoll_of k epfd with
  | None => st_ret (- EBADF)
  | Some i =>
      if (fd <? 0) || (MAX_FILES + 3 <=? fd) then st_ret (- EBADF)
      else if negb (ep_used (epoll k i)) then st_ret (- EBADF)
      else
        match (if op =? EPOLL_CTL_DEL then Some [] else user_copy_from k uevent EPOLL_EVENT_SIZE) with
        | None => st_ret (- EFAULT)
        | Some l =>
            let '(r, e) := epoll_update op fd (bytes_word (take 4 l)) (bytes_word (take 8 (drop 4 l))) (epoll k i) in
            st_mod (set_epoll i e) ;;; st_ret r
        end
  end.

(** The pass of epoll_wait over the watches: at most [room] events, each with
    its data, and the first expiry of a watched timer. *)
Fixpoint epoll_pass (l : list epoll_watch_k) (room : nat) (next : Z) : ST kernel (list (Z * Z) * Z) :=
  match l, room with
  | [], _ | _, O => st_ret ([], next)
  | w :: l, S room' =>
      let! k := st_get in
      let fd := ew_fd w in
      let next :=
        if fd_ok fd && f_in_use (file k fd) && (f_type (file k fd) =? FD_TIMERFD) && has (ew_events w) POLLIN
        then earlier next (timerfd_monotonic_deadline rtc_now k fd (k_now k)) else next in
      let! rev := epoll_is_ready fd (ew_events w) in
      if rev =? 0 then epoll_pass l room next
      else
        let! r := epoll_pass l room' next in
        st_ret ((rev, ew_data w) :: fst r, snd r)
  end.

Definition epoll_event_bytes (ev : Z * Z) : list Z := int_bytes (fst ev) ++ word_bytes (snd ev).
End Clock.

(** ** The calls *)

Section Irq.
(** What the real-time clock shows, and the interrupts taken during one [sti; hlt; cli]. *)
Variable rtc_now : Z * Z.
Variable kernel_wait_tick : kernel -> kernel.

(** The start and the deadline of the call, those of the first attempt when it is repeated. *)
Definition wait_times (k : kernel) (f : regs) (nr : Z) (fresh : Z -> Z) : Z * Z :=
  let t := task k (k_current k) in
  if task_io_resume_matches k f nr then (t_io_resume_start_ns t, t_io_resume_deadline_ns t) else (k_now k, fresh (k_now k)).

(** [task_io_resume_clear(sf, nr); return r;] *)
Definition finish_wait (f : regs) (nr r : Z) : ST kernel Z := task_io_resume_clear f nr ;;; st_ret r.

(** Going to sleep until [wait_deadline]. *)
Definition sleep_and_retry (fuel : nat) (f : regs) (kind nr start_ns deadline_ns wait_deadline : Z) (k : kernel) : option (Z * kernel) :=
  let k := exec (task_io_resume_store f nr start_ns deadline_ns) k in
  match task_block_io_until kernel_wait_tick fuel f kind nr wait_deadline k with
  | None => None
  | Some (r, k) => Some (if r =? 0 then (0, k) else finish_wait f nr (- EAGAIN) k)
  end.

(** The end of poll and epoll_wait when nothing is ready. *)
Definition nothing_ready (fuel : nat) (f : regs) (kind nr timeout : Z) (times : Z * Z) (next : Z) (k : kernel) : option (Z * kernel) :=
  let '(start_ns, deadline_ns) := times in
  if timeout =? 0 then Some (finish_wait f nr 0 k)
  else if negb (deadline_ns =? 0) && (deadline_ns <=? k_now k) then Some (finish_wait f nr 0 k)
  else sleep_and_retry fuel f kind nr start_ns deadline_ns (earlier deadline_ns next) k.

Definition sys_poll (fuel : nat) (f : regs) (ufds nfds timeout : Z) (k : kernel) : option (Z * kernel) :=
  if MAX_FILES <? nfds then Some (- EINVAL, k)
  else
    let nr := if f RAX =? 271 then 271 else 7 in
    let times := wait_times k f nr (fun start => monotonic_deadline_after_ms start timeout) in
    match poll_pass rtc_now (Z.to_nat nfds) ufds 0 0 k with
    | (None, k) => Some (- EFAULT, k)
    | (Some (ready, next), k) =>
        if negb (ready =? 0) then Some (finish_wait f nr ready k) else nothing_ready fuel f IO_WAIT_POLL nr timeout times next k
    end.

(** The milliseconds of a timespec, rounded up. *)
Definition ppoll_timeout (sec nsec : Z) : Z :=
  let ms := u64 (u64 (sec * 1000) + (nsec + 999999) / 1000000) in if 0x7fffffff <? ms then 0x7fffffff else ms.

Definition sys_ppoll (fuel : nat) (f : regs) (ufds nfds timeout_ts : Z) (k : kernel) : option (Z * kernel) :=
  if timeout_ts =? 0 then sys_poll fuel f ufds nfds (-1) k
  else
    match user_copy_from k timeout_ts 16 with
    | None => Some (- EFAULT, k)
    | Some l =>
        if bad_timespec (spec_field l 0) (spec_field l 1) then Some (- EINVAL, k)
        else sys_poll fuel f ufds nfds (ppoll_timeout (spec_field l 0) (spec_field l 1)) k
    end.

(** The body of the loop of sys_select, the times being known. *)
Definition select_body (fuel : nat) (f : regs) (nr nfds ur uw ue utv : Z) (times : Z * Z) (k : kernel) : option (Z * kernel) :=
  let bytes := (nfds + 7) / 8 in
  let update := negb (nr =? 270) && negb (utv =? 0) in
  match select_set k ur bytes, select_set k uw bytes, select_set k ue bytes with
  | Some rin, Some win, Some ein =>
      match select_pass rtc_now (seqZ 0 nfds) (rin, win, ein) empty_set empty_set 0 k with
      | (None, k) => Some (finish_wait f nr (- EBADF) k)
      | (Some (rout, wout, ready), k) =>
          if negb (ready =? 0) || (negb (utv =? 0) && (snd times <=? k_now k)) then
            let '(r, k) := select_return ur uw ue utv bytes (snd times) update rout wout ready k in
            Some (finish_wait f nr r k)
          else sleep_and_retry fuel f IO_WAIT_SELECT nr (fst times) (snd times) (snd times) k
      end
  | _, _, _ => Some (finish_wait f nr (- EFAULT) k)
  end.

Definition sys_select (fuel : nat) (f : regs) (nfds ur uw ue utv : Z) (k : kernel) : option (Z * kernel) :=
  if (nfds <? 0) || (1024 <? nfds) then Some (- EINVAL, k)
  else
    let nr := if f RAX =? 270 then 270 else 23 in
    if task_io_resume_matches k f nr || (utv =? 0) then
      select_body fuel f nr nfds ur uw ue utv (wait_times k f nr (fun _ => 0)) k
    else
      match select_timeout_to_ns k utv (nr =? 270) with
      | inl e => Some (e, k)
      | inr dur => select_body fuel f nr nfds ur uw ue utv (k_now k, if UINT64_MAX - k_now k <? dur then UINT64_MAX else k_now k + dur) k
      end.

Definition sys_pselect6 (fuel : nat) (f : regs) (nfds ur uw ue uts : Z) (k : kernel) : option (Z * kernel) :=
  sys_select fuel f nfds ur uw ue uts k.

Definition sys_epoll_wait (fuel : nat) (f : regs) (epfd uevents maxevents timeout : Z) (k : kernel) : option (Z * kernel) :=
  match epoll_of k epfd with
  | None => Some (- EBADF, k)
  | Some i =>
      if (maxevents <=? 0) || (YABRO_EPOLL_MAX_EVENTS <? maxevents) then Some (- EINVAL, k)
      else if negb (ep_used (epoll k i)) then Some (- EBADF, k)
      else
        let nr := if f RAX =? 281 then 281 else 232 in
        let times := wait_times k f nr (fun start => monotonic_deadline_after_ms start timeout) in
        let '((out, next), k) := epoll_pass rtc_now (watches (epoll k i)) (Z.to_nat maxevents) 0 k in
        if negb (is_nil out) then
          Some ((task_io_resume_clear f nr ;;;
                 let! r := user_copy_to uevents (concat (map epoll_event_bytes out)) in
                 st_ret (if negb (r =? 0) then - EFAULT else Z.of_nat (length out))) k)
        else nothing_ready fuel f IO_WAIT_EPOLL nr timeout times next k
  end.

Definition sys_epoll_pwait (fuel : nat) (f : regs) (epfd uevents maxevents timeout : Z) (k : kernel) : option (Z * kernel) :=
  sys_epoll_wait fuel f epfd uevents maxevents timeout k.
End Irq.
