(* ===== verification/PollFacts.v ===== *)
(** * What poll, select and epoll see

    Testing an evdev file moves its read position past the events that were
    overwritten.  Nothing the three calls look at depends on it, so that the
    readiness of every descriptor is a function of the state before the call.
    Then the table of watches as a finite map, and the passes of the three
    calls over their descriptors. *)

From S2P Require Import Prelude Words Pmm PmmFacts PageAlloc Vmm VmmFacts VmmMap CStr Vfs Kernel Tty Fd Sched UserCopy UserMem.
From S2P Require Import UserMemThms Pipe PipeFacts Signals SignalFacts SocketFacts Events Poll.
Local Open Scope Z_scope.
Local Open Scope st_scope.

(** ** Devices with an event queue *)

(** An event queue: its device, its next number and the oldest number it still holds. *)
Definition queue_next (k : kernel) (dev : Z) : Z := if dev =? DEV_INPUT then in_event_seq (k_input k) else in_mouse_seq (k_input k).
Definition queue_oldest (k : kernel) (dev : Z) : Z := if dev =? DEV_INPUT then keyboard_event_oldest_seq k else mouse_event_oldest_seq k.

(** A descriptor of [dev] has an event to read. *)
Definition has_event (k : kernel) (t fd dev : Z) : bool :=
  is_device k t fd dev && (Z.max (input_fd_seq k t fd) (queue_oldest k dev) <? queue_next k dev).
Definition evdev_pending (k : kernel) (t fd : Z) : bool := has_event k t fd DEV_INPUT || has_event k t fd DEV_INPUT_MOUSE.

(** Descriptors that share a read position are open on the same device. *)
Definition input_ok (k : kernel) : Prop := forall t fd t' fd' i,
  f_input_state (fdesc k t fd) = Some i -> f_input_state (fdesc k t' fd') = Some i ->
  f_type (fdesc k t fd) = f_type (fdesc k t' fd') /\ f_private (fdesc k t fd) = f_private (fdesc k t' fd').

(** Only memory and the read positions of evdev files changed, and no queue
    gained or lost an event for any descriptor. *)
Record synced (k k' : kernel) : Prop := {
  sy_frame : exists tabs ins m, k' = k <| k_fd_tables := tabs |> <| k_input_states := ins |> <| k_vm := m |>;
  sy_file : forall t fd, exists q, fdesc k' t fd = (fdesc k t fd) <| f_input_seq := q |>;
  sy_event : forall t fd dev, has_event k' t fd dev = has_event k t fd dev
}.

#[export] Instance synced_preorder : PreOrder synced.
Proof.
  split.
  - intros k. split; [exists (k_fd_tables k), (k_input_states k), (k_vm k); by destruct k | | done].
    intros t fd. exists (f_input_seq (fdesc k t fd)). by destruct (fdesc k t fd).
  - intros k1 k2 k3 [(t1 & i1 & m1 & E1) F1 V1] [(t2 & i2 & m2 & E2) F2 V2]. split.
    + exists t2, i2, m2. by rewrite E2, E1.
    + intros t fd. destruct (F1 t fd) as [q1 H1], (F2 t fd) as [q2 H2]. exists q2. by rewrite H2, H1.
    + intros t fd dev. by rewrite V2, V1.
Qed.

Lemma synced_input_ok k k' : synced k k' -> input_ok k -> input_ok k'.
Proof.
  intros [_ F _] H t fd t' fd' i. destruct (F t fd) as [q ->], (F t' fd') as [q' ->]. cbn. apply H.
Qed.

Lemma fdesc_upd t fd g k t' fd' : fdesc (upd_fdesc t fd g k) t' fd' = if decide ((t, fd) = (t', fd')) then g (fdesc k t fd) else fdesc k t' fd'.
Proof.
  unfold upd_fdesc, set_fdesc, fdesc. cbn. destruct (decide _) as [<-|Hne]; [by rewrite lookup_insert_eq | by rewrite lookup_insert_ne].
Qed.

(** Setting a position: it is seen through every descriptor that shares it. *)
Lemma seq_set_frame t fd seq k : let k' := exec (input_fd_seq_set t fd seq) k in
  (exists tabs ins, k' = k <| k_fd_tables := tabs |> <| k_input_states := ins |>) /\
  (forall t' fd', exists q, fdesc k' t' fd' = (fdesc k t' fd') <| f_input_seq := q |>) /\
  input_fd_seq k' t fd = seq /\
  (forall t' fd', input_fd_seq k' t' fd' = input_fd_seq k t' fd' \/
     (input_fd_seq k' t' fd' = seq /\ input_fd_seq k t' fd' = input_fd_seq k t fd /\
      ((t', fd') = (t, fd) \/ exists i, f_input_state (fdesc k t fd) = Some i /\ f_input_state (fdesc k t' fd') = Some i))).
Proof.
  unfold input_fd_seq_set. run_exec. set (k1 := upd_fdesc t fd _ k). cbv zeta.
  assert (F1 : forall t' fd', fdesc k1 t' fd' = if decide ((t, fd) = (t', fd')) then (fdesc k t fd) <| f_input_seq := seq |> else fdesc k t' fd')
    by (intros; apply fdesc_upd).
  assert (S1 : f_input_state (fdesc k1 t fd) = f_input_state (fdesc k t fd)) by (rewrite F1, decide_True by done; done).
  assert (Q1 : forall t' fd', exists q, fdesc k1 t' fd' = (fdesc k t' fd') <| f_input_seq := q |>).
  { intros t' fd'. rewrite F1. destruct (decide _) as [E|_]; [injection E as <- <-; by exists seq|].
    exists (f_input_seq (fdesc k t' fd')). by destruct (fdesc k t' fd'). }
  assert (I1 : forall i, in_state k1 i = in_state k i) by done. rewrite S1.
  assert (Hno : forall (H : match f_input_state (fdesc k t fd) with Some i => is_used (in_state k i) = false | None => True end),
    input_fd_seq k1 t fd = seq /\ forall t' fd', input_fd_seq k1 t' fd' = input_fd_seq k t' fd' \/
      (input_fd_seq k1 t' fd' = seq /\ input_fd_seq k t' fd' = input_fd_seq k t fd /\ ((t', fd') = (t, fd) \/
        exists i, f_input_state (fdesc k t fd) = Some i /\ f_input_state (fdesc k t' fd') = Some i))).
  { intros H. assert (E : input_fd_seq k1 t fd = seq).
    { unfold input_fd_seq. rewrite S1. destruct (f_input_state (fdesc k t fd)) as [i|]; rewrite ?I1, ?H, F1, decide_True by done; done. }
    split; [done|]. intros t' fd'. destruct (decide ((t, fd) = (t', fd'))) as [Eq|Hne]; [injection Eq as <- <-; right; auto|].
    left. unfold input_fd_seq. rewrite F1, decide_False by done. destruct (f_input_state (fdesc k t' fd')); [|done]. by rewrite I1. }
  destruct (f_input_state (fdesc k t fd)) as [i|] eqn:Ei.
  - rewrite I1. destruct (is_used (in_state k i)) eqn:Eu; cbn [exec].
    + set (k2 := exec _ k1). assert (S2 : forall j, in_state k2 j = if i =? j then (in_state k i) <| is_seq := seq |> else in_state k j).
      { intros j. unfold k2, exec, st_mod, in_state, set_in_state. cbn. rewrite cell_insert. destruct (i =? j); [|done].
        reflexivity. }
      assert (F2 : forall t' fd', fdesc k2 t' fd' = fdesc k1 t' fd') by done.
      split; [exists (k_fd_tables k2), (k_input_states k2); by destruct k|]. split; [intros; rewrite F2; apply Q1|].
      split; [unfold input_fd_seq; rewrite F2, S1, S2, Z.eqb_refl; cbn; by rewrite Eu|].
      assert (T2 : input_fd_seq k2 t fd = seq) by (unfold input_fd_seq; rewrite F2, S1, S2, Z.eqb_refl; cbn; by rewrite Eu).
      intros t' fd'. destruct (decide ((t, fd) = (t', fd'))) as [E|Hne]; [injection E as <- <-; right; auto|].
      unfold input_fd_seq. rewrite F2, F1, decide_False by done. destruct (f_input_state (fdesc k t' fd')) as [j|] eqn:Ej; [|by left].
      rewrite S2. destruct (Z.eqb_spec i j) as [<-|Hij]; [|by left]. right. rewrite Ei. cbn. rewrite Eu. split; [done|]. split; [done|]. right. by exists i.
    + destruct (Hno eq_refl) as [N1 N2]. cbn [st_ret snd]. split; [exists (k_fd_tables k1), (k_input_states k); by destruct k|]. by split_and!.
  - destruct (Hno I) as [N1 N2]. split; [exists (k_fd_tables k1), (k_input_states k); by destruct k|]. by split_and!.
Qed.

Lemma is_device_file k k' t fd dev : (exists q, fdesc k' t fd = (fdesc k t fd) <| f_input_seq := q |>) -> is_device k' t fd dev = is_device k t fd dev.
Proof. intros [q E]. unfold is_device. by rewrite E. Qed.

Lemma is_device_unique k t fd dev dev' : is_device k t fd dev = true -> is_device k t fd dev' = true -> dev = dev'.
Proof. unfold is_device. intros [_ H1%bool_decide_eq_true]%andb_prop [_ H2%bool_decide_eq_true]%andb_prop. congruence. Qed.

(** A device test of a descriptor of [dev] tells whether an event is there. *)
Lemma sync_spec t fd dev k : input_ok k -> is_device k t fd dev = true ->
  let k' := exec (input_fd_sync t fd dev (queue_oldest k dev)) k in
  synced k k' /\ k_vm k' = k_vm k /\ input_fd_seq k' t fd = Z.max (input_fd_seq k t fd) (queue_oldest k dev).
Proof.
  intros Hok Hd. unfold input_fd_sync. rewrite exec_get, Hd. cbn [negb]. destruct (Z.ltb_spec (input_fd_seq k t fd) (queue_oldest k dev)) as [Hlt|Hge].
  2: { split; [exact (PreOrder_Reflexive k) | split; [done | cbn; lia]]. }
  destruct (seq_set_frame t fd (queue_oldest k dev) k) as (Hf & Hq & Hs & Ho). set (k' := exec _ k) in *. cbv zeta.
  split; [|split; [by destruct Hf as (? & ? & ->) | rewrite Hs; lia]].
  split; [destruct Hf as (tabs & ins & ->); exists tabs, ins, (k_vm k); by destruct k | done|]. intros t' fd' dev'. unfold has_event. rewrite (is_device_file k k') by done.
  assert (Eq : queue_oldest k' dev' = queue_oldest k dev' /\ queue_next k' dev' = queue_next k dev') by (destruct Hf as (? & ? & ->); done).
  destruct Eq as [-> ->]. destruct (is_device k t' fd' dev') eqn:Hd'; [|done]. cbn [andb].
  destruct (Ho t' fd') as [->|(-> & -> & Hsh)]; [done|].
  assert (Hdd : dev' = dev); [|subst dev'; f_equal; lia].
  destruct Hsh as [[= -> ->]|(i & E1 & E2)]; [by apply (is_device_unique k t fd)|].
  destruct (Hok _ _ _ _ _ E1 E2) as [Ht Hp]. apply (is_device_unique k t fd); [|done]. unfold is_device in *. by rewrite Ht, Hp.
Qed.

Lemma device_ready_spec t fd dev k : input_ok k -> exists k',
  (let! k := st_get in
   if negb (is_device k t fd dev) then st_ret false
   else (let! k := st_get in input_fd_sync t fd dev (queue_oldest k dev)) ;;;
        let! k := st_get in st_ret (input_fd_seq k t fd <? queue_next k dev)) k = (has_event k t fd dev, k') /\ synced k k' /\ k_vm k' = k_vm k.
Proof.
  intros Hok. unfold st_bind at 1, st_get at 1, has_event. destruct (is_device k t fd dev) eqn:Hd; cbn [negb andb];
    [|exists k; split; [done | split; [exact (PreOrder_Reflexive k) | done]]].
  destruct (sync_spec t fd dev k Hok Hd) as (Hs & Hm & Hq). set (k' := exec _ k) in *. exists k'. split; [|done].
  rewrite bind_eq. change (exec _ k) with k'. unfold st_bind, st_get, st_ret. rewrite Hq.
  assert (En : queue_next k' dev = queue_next k dev) by (destruct (sy_frame _ _ Hs) as (? & ? & ? & ->); done). by rewrite En.
Qed.

Lemma evdev_ready_spec t fd k : input_ok k -> exists k', evdev_ready t fd k = (evdev_pending k t fd, k') /\ synced k k' /\ k_vm k' = k_vm k.
Proof.
  intros Hok. unfold evdev_ready, evdev_pending. destruct (device_ready_spec t fd DEV_INPUT k Hok) as (k1 & E1 & S1 & M1).
  change (keyboard_fd_ready t fd k = (has_event k t fd DEV_INPUT, k1)) in E1. unfold st_bind. rewrite E1.
  destruct (has_event k t fd DEV_INPUT); [by exists k1|].
  destruct (device_ready_spec t fd DEV_INPUT_MOUSE k1 (synced_input_ok _ _ S1 Hok)) as (k2 & E2 & S2 & M2).
  change (mouse_fd_ready t fd k1 = (has_event k1 t fd DEV_INPUT_MOUSE, k2)) in E2. rewrite (sy_event _ _ S1) in E2.
  exists k2. split; [exact E2|]. split; [by transitivity k1 | congruence].
Qed.

(** ** Nothing else depends on the read positions *)

Lemma pipe_live_synced k k' i type : synced k k' -> pipe_live k' i type = pipe_live k i type.
Proof.
  intros [(tabs & ins & m & Ek) F _]. unfold pipe_live. do 2 f_equal. apply filter_ext. intros [t fd]. unfold open_slot. cbn [fst snd].
  assert (Er : table_refs k' t = table_refs k t) by (by rewrite Ek). rewrite Er. by destruct (F t fd) as [q ->].
Qed.

Lemma pipe_ends_synced k k' i : synced k k' -> pipe_has_writers k' i = pipe_has_writers k i /\ pipe_has_readers k' i = pipe_has_readers k i.
Proof. intros Hs. unfold pipe_has_writers, pipe_has_readers, pipe_live_writers, pipe_live_readers. by rewrite !(pipe_live_synced k k'). Qed.

(** What the tests of a descriptor look at. *)
Record same_view (k k' : kernel) : Prop := {
  sv_task : task k' (k_current k') = task k (k_current k);
  sv_input : k_input k' = k_input k;
  sv_fg : k_console_fg_pgrp k' = k_console_fg_pgrp k;
  sv_now : k_now k' = k_now k;
  sv_sock : forall i, sock k' i = sock k i;
  sv_pipe : forall i, pipe k' i = pipe k i;
  sv_ends : forall i, pipe_has_writers k' i = pipe_has_writers k i /\ pipe_has_readers k' i = pipe_has_readers k i;
  sv_pty : forall i, pty k' i = pty k i;
  sv_eventfd : forall i, eventfd k' i = eventfd k i;
  sv_timerfd : forall i, timerfd k' i = timerfd k i;
  sv_epoll : forall i, epoll k' i = epoll k i;
  sv_files : current_files k' = current_files k;
  sv_file : forall fd, exists q, file k' fd = (file k fd) <| f_input_seq := q |>;
  sv_event : forall t fd dev, has_event k' t fd dev = has_event k t fd dev
}.

Lemma synced_view k k' : synced k k' -> same_view k k'.
Proof.
  intros Hs. pose proof Hs as [(tabs & ins & m & Ek) F V]. assert (Ef : current_files k' = current_files k) by (by rewrite Ek).
  assert (Ee : forall i, pipe_has_writers k' i = pipe_has_writers k i /\ pipe_has_readers k' i = pipe_has_readers k i)
    by (intros i; by apply pipe_ends_synced).
  assert (Eq : forall fd, exists q, file k' fd = (file k fd) <| f_input_seq := q |>) by (intros fd; unfold file; rewrite Ef; apply F).
  clear F Hs. subst k'. split; try assumption; reflexivity.
Qed.

Lemma file_view k k' fd : same_view k k' -> f_in_use (file k' fd) = f_in_use (file k fd) /\ f_type (file k' fd) = f_type (file k fd) /\
  f_private (file k' fd) = f_private (file k fd) /\ f_flags (file k' fd) = f_flags (file k fd).
Proof. intros Hv. by destruct (sv_file _ _ Hv fd) as [q ->]. Qed.

Lemma stream_view k k' fd : same_view k k' -> fd_is_console_stream k' fd = fd_is_console_stream k fd.
Proof. intros Hv. unfold fd_is_console_stream. by destruct (file_view k k' fd Hv) as (-> & -> & -> & _). Qed.

Lemma console_view k k' : same_view k k' -> console_ready k' = console_ready k.
Proof. intros Hv. unfold console_ready, console_tty_read_ready_for. by rewrite (sv_task _ _ Hv), (sv_input _ _ Hv), (sv_fg _ _ Hv). Qed.

Lemma pending_view k k' t fd : same_view k k' -> evdev_pending k' t fd = evdev_pending k t fd.
Proof. intros Hv. unfold evdev_pending. by rewrite !(sv_event _ _ Hv). Qed.

Section Clock.
Variable rtc_now : Z * Z.
Local Abbreviation poll_events := (poll_events rtc_now).
Local Abbreviation epoll_events := (epoll_events rtc_now).
Local Abbreviation select_ready := (select_ready rtc_now).

Lemma clock_view k k' c : same_view k k' -> clock_now_ns_simple rtc_now k' c = clock_now_ns_simple rtc_now k c.
Proof. intros Hv. unfold clock_now_ns_simple. by rewrite (sv_now _ _ Hv). Qed.

Lemma timer_view k k' i : same_view k k' -> timerfd_ready rtc_now k' i = timerfd_ready rtc_now k i.
Proof. intros Hv. unfold timerfd_ready. by rewrite (sv_timerfd _ _ Hv), (clock_view k k'). Qed.

(** Rewrites the tests of the later state to those of the earlier one. *)
Ltac view k k' Hv :=
  repeat match goal with
  | |- context [console_ready k'] => rewrite (console_view k k' Hv)
  | |- context [eventfd k' _] => rewrite (sv_eventfd k k' Hv)
  | |- context [timerfd_ready _ k' _] => rewrite (timer_view k k' _ Hv)
  | |- context [timerfd k' _] => rewrite (sv_timerfd k k' Hv)
  | |- context [clock_now_ns_simple _ k' _] => rewrite (clock_view k k' _ Hv)
  | |- context [sock k' _] => rewrite (sv_sock k k' Hv)
  | |- context [pipe k' _] => rewrite (sv_pipe k k' Hv)
  | |- context [pipe_has_writers k' ?i] => rewrite (proj1 (sv_ends k k' Hv i))
  | |- context [pipe_has_readers k' ?i] => rewrite (proj2 (sv_ends k k' Hv i))
  | |- context [pty k' _] => rewrite (sv_pty k k' Hv)
  end.

Lemma poll_events_view k k' fd events : same_view k k' -> poll_events k' (file k' fd) events = poll_events k (file k fd) events.
Proof.
  intros Hv. unfold Poll.poll_events, socket_state, socket_side. destruct (file_view k k' fd Hv) as (_ & -> & -> & ->).
  destruct (f_private (file k fd)); by view k k' Hv.
Qed.

Lemma epoll_events_view k k' fd events : same_view k k' -> epoll_events k' (file k' fd) events = epoll_events k (file k fd) events.
Proof.
  intros Hv. unfold Poll.epoll_events, socket_state, socket_side. destruct (file_view k k' fd Hv) as (_ & -> & -> & ->).
  destruct (f_private (file k fd)); by view k k' Hv.
Qed.

Lemma select_ready_view k k' fd r w : same_view k k' -> select_ready k' (file k' fd) r w = select_ready k (file k fd) r w.
Proof.
  intros Hv. unfold Poll.select_ready, socket_state, socket_side. destruct (file_view k k' fd Hv) as (_ & -> & -> & _).
  destruct (f_private (file k fd)); by view k k' Hv.
Qed.

(** ** The readiness of a descriptor, as a function of the state *)

(** What poll answers for a descriptor. *)
Definition poll_mask (k : kernel) (fd events : Z) : Z :=
  if ((fd =? 1) || (fd =? 2)) && fd_is_console_stream k fd then flag (has events POLLOUT) POLLOUT
  else if fd_ok fd && f_in_use (file k fd) then
    poll_events k (file k fd) events .|
      flag ((f_type (file k fd) =? FD_PSEUDO) && has events POLLIN && evdev_pending k (current_files k) fd) POLLIN
  else flag (0 <=? fd) POLLNVAL.

(** What epoll answers for a watched descriptor. *)
Definition epoll_mask (k : kernel) (fd events : Z) : Z :=
  if (fd =? 1) || (fd =? 2) then flag (has events POLLOUT) POLLOUT
  else if fd_ok fd && f_in_use (file k fd) then
    epoll_events k (file k fd) events .|
      flag ((f_type (file k fd) =? FD_PSEUDO) && has events POLLIN && evdev_pending k (current_files k) fd) POLLIN
  else 0.

Lemma poll_revents_spec k fd events : input_ok k -> exists k', poll_revents rtc_now fd events k = (poll_mask k fd events, k') /\ synced k k' /\ k_vm k' = k_vm k.
Proof.
  intros Hok. unfold poll_revents, poll_mask, st_bind at 1, st_get at 1.
  destruct (_ && fd_is_console_stream k fd); [by exists k|]. destruct (fd_ok fd && f_in_use (file k fd)); [|by exists k].
  destruct ((f_type (file k fd) =? FD_PSEUDO) && has events POLLIN) eqn:E; cbn [andb flag]; [|exists k; by rewrite Z.lor_0_r].
  destruct (evdev_ready_spec (current_files k) fd k Hok) as (k' & E' & Hs & Hm). exists k'. unfold st_bind. rewrite E'. done.
Qed.

Lemma poll_mask_view k k' fd events : same_view k k' -> poll_mask k' fd events = poll_mask k fd events.
Proof.
  intros Hv. unfold poll_mask. rewrite (stream_view k k'), (poll_events_view k k'), (sv_files _ _ Hv), (pending_view k k') by done.
  by destruct (file_view k k' fd Hv) as (-> & -> & _ & _).
Qed.

Lemma epoll_is_ready_spec k fd events : input_ok k -> exists k', epoll_is_ready rtc_now fd events k = (epoll_mask k fd events, k') /\ synced k k' /\ k_vm k' = k_vm k.
Proof.
  intros Hok. unfold epoll_is_ready, epoll_mask, st_bind at 1, st_get at 1.
  destruct (_ || _); [by exists k|]. destruct (fd_ok fd && f_in_use (file k fd)); cbn [negb]; [|by exists k].
  destruct (f_type (file k fd) =? FD_PSEUDO) eqn:E; cbn [andb flag]; [|exists k; by rewrite Z.lor_0_r].
  destruct (evdev_ready_spec (current_files k) fd k Hok) as (k' & E' & Hs & Hm). exists k'. unfold st_bind. rewrite E'.
  by rewrite andb_comm.
Qed.

Lemma epoll_mask_view k k' fd events : same_view k k' -> epoll_mask k' fd events = epoll_mask k fd events.
Proof.
  intros Hv. unfold epoll_mask. rewrite (epoll_events_view k k'), (sv_files _ _ Hv), (pending_view k k') by done.
  by destruct (file_view k k' fd Hv) as (-> & -> & _ & _).
Qed.
End Clock.

(** ** The watches of an epoll file as a map

    The array of watches stands for a finite map from descriptors to events
    and data, the interest list.  [epoll_ctl] implements insertion, update and
    deletion of that map. *)

(** No descriptor has two watches. *)
Definition watches_ok (e : epoll_state_k) : Prop := forall i j, i ∈ all_watches -> j ∈ all_watches ->
  ew_used (watch e i) = true -> ew_used (watch e j) = true -> ew_fd (watch e i) = ew_fd (watch e j) -> i = j.

(** The positions of the array that are in use. *)
Definition slots (e : epoll_state_k) : list Z := List.filter (fun j => ew_used (watch e j)) all_watches.
Definition entry (w : epoll_watch_k) : Z * (Z * Z) := (ew_fd w, (ew_events w, ew_data w)).
Definition interest (e : epoll_state_k) : gmap Z (Z * Z) := list_to_map (entry <$> watches e).

(** The specification: what each operation does to the interest list. *)
Definition interest_op (op fd events data : Z) (m : gmap Z (Z * Z)) : Z * gmap Z (Z * Z) :=
  if op =? EPOLL_CTL_DEL then if decide (m !! fd = None) then (- ENOENT, m) else (0, delete fd m)
  else if op =? EPOLL_CTL_ADD then
    if decide (m !! fd = None) then
      if Z.of_nat (size m) =? YABRO_EPOLL_WATCH_MAX then (- ENOSPC, m) else (0, <[fd := (events, data)]> m)
    else (- EEXIST, m)
  else if op =? EPOLL_CTL_MOD then if decide (m !! fd = None) then (- ENOENT, m) else (0, <[fd := (events, data)]> m)
  else (- EINVAL, m).

Lemma elem_all_watches j : j ∈ all_watches <-> 0 <= j < YABRO_EPOLL_WATCH_MAX.
Proof. unfold all_watches. rewrite elem_of_seqZ. lia. Qed.

Lemma elem_slots e j : j ∈ slots e <-> j ∈ all_watches /\ ew_used (watch e j) = true.
Proof. unfold slots. rewrite !list_elem_of_In, filter_In. done. Qed.

Lemma slots_nodup e : NoDup (slots e).
Proof. apply NoDup_ListNoDup, List.NoDup_filter, NoDup_ListNoDup, NoDup_seqZ. Qed.

Lemma watches_slots e : watches e = watch e <$> slots e.
Proof.
  unfold watches, slots. fold all_watches. change (cell blank_epoll_watch_k (ep_w e)) with (watch e).
  generalize all_watches. intros l. induction l as [|j l IH]; [done|]. cbn. destruct (ew_used (watch e j)); cbn; by rewrite IH.
Qed.

Lemma entries_nodup e : watches_ok e -> NoDup (entry <$> watches e).*1.
Proof.
  intros Hok. rewrite watches_slots. rewrite <- !list_fmap_compose. apply NoDup_fmap_2_strong; [|apply slots_nodup].
  intros i j [Hi Ui]%elem_slots [Hj Uj]%elem_slots He. by apply Hok.
Qed.

Lemma interest_some e fd x : watches_ok e ->
  interest e !! fd = Some x <-> exists j, j ∈ all_watches /\ watch e j = EpollWatch true fd (fst x) (snd x).
Proof.
  intros Hok. unfold interest. rewrite <- elem_of_list_to_map by (by apply entries_nodup). rewrite watches_slots. split.
  - intros Hin. apply list_elem_of_fmap in Hin as (w & Hw & Hin). apply list_elem_of_fmap in Hin as (j & -> & [Hj Hu]%elem_slots).
    exists j. split; [done|]. unfold entry in Hw. destruct (watch e j). injection Hw as -> ->. cbn in *. by subst.
  - intros (j & Hj & Hw). apply list_elem_of_fmap. exists (watch e j). split; [rewrite Hw; by destruct x|]. apply list_elem_of_fmap. exists j. split; [done|].
    apply elem_slots. by rewrite Hw.
Qed.

Lemma interest_size e : watches_ok e -> size (interest e) = length (slots e).
Proof.
  intros Hok. unfold interest. rewrite map_size_list_to_map by (by apply entries_nodup).
  by rewrite watches_slots, !length_fmap.
Qed.

Lemma slot_some e fd j : watch_slot e fd = Some j -> j ∈ all_watches /\ ew_used (watch e j) = true /\ ew_fd (watch e j) = fd.
Proof.
  intros H%find_some. destruct H as [H1%list_elem_of_In [H2 H3%Z.eqb_eq]%andb_prop]. done.
Qed.

Lemma slot_none e fd : watches_ok e -> watch_slot e fd = None <-> interest e !! fd = None.
Proof.
  intros Hok. split.
  - intros H. apply eq_None_not_Some. intros [x (j & Hj & Hw)%interest_some]; [|done].
    pose proof (find_none _ _ H j ltac:(by apply list_elem_of_In)) as Hn. cbn in Hn. by rewrite Hw, Z.eqb_refl in Hn.
  - intros Hm. destruct (watch_slot e fd) as [j|] eqn:E; [|done]. destruct (slot_some _ _ _ E) as (Hj & Hu & Hf).
    assert (H : interest e !! fd = Some (ew_events (watch e j), ew_data (watch e j))); [|congruence].
    apply interest_some; [done|]. exists j. split; [done|]. destruct (watch e j). cbn in *. by subst.
Qed.

Lemma free_none e : free_slot e = None <-> Z.of_nat (length (slots e)) = YABRO_EPOLL_WATCH_MAX.
Proof.
  assert (Hl : length all_watches = 128%nat) by (apply length_seqZ). split.
  - intros H. assert (E : slots e = all_watches); [|by rewrite E, Hl]. unfold slots.
    pose proof (find_none _ _ H) as Hn. clear H Hl. revert Hn. generalize all_watches. intros l0 Hn. induction l0 as [|j l IH]; [done|]. cbn. specialize (Hn j ltac:(by left)) as Hj.
    apply negb_false_iff in Hj. rewrite Hj. f_equal. apply IH. intros x Hx. apply Hn. by right.
  - intros H. destruct (free_slot e) as [j|] eqn:E; [|done]. exfalso. apply find_some in E as [Hin%list_elem_of_In Hu%negb_true_iff].
    assert (Hs : slots e ⊆+ all_watches).
    { apply NoDup_submseteq; [apply slots_nodup | by intros x [Hx _]%elem_slots]. }
    assert (Hp : slots e ≡ₚ all_watches) by (apply submseteq_length_Permutation; [done | rewrite Hl; unfold YABRO_EPOLL_WATCH_MAX in *; lia]).
    rewrite <- Hp in Hin. apply elem_slots in Hin as [_ Hin]. congruence.
Qed.

Lemma watch_set e j w i : watch (set_watch j w e) i = if j =? i then w else watch e i.
Proof. apply cell_insert. Qed.

(** Replacing the watch at one position. *)
Lemma watches_ok_set e j w : watches_ok e -> j ∈ all_watches ->
  (ew_used w = true -> forall i, i ∈ all_watches -> ew_used (watch e i) = true -> ew_fd (watch e i) = ew_fd w -> i = j) ->
  watches_ok (set_watch j w e).
Proof.
  intros Hok Hj Hw i i' Hi Hi'. rewrite !watch_set. destruct (Z.eqb_spec j i) as [<-|H1], (Z.eqb_spec j i') as [<-|H2]; intros U1 U2 Hf.
  - done.
  - symmetry. by apply Hw.
  - by apply Hw.
  - by apply Hok.
Qed.

Lemma interest_set e j w fd x : watches_ok e -> watches_ok (set_watch j w e) -> j ∈ all_watches ->
  interest (set_watch j w e) !! fd = Some x <->
    w = EpollWatch true fd (fst x) (snd x) \/ exists i, i <> j /\ i ∈ all_watches /\ watch e i = EpollWatch true fd (fst x) (snd x).
Proof.
  intros Hok Hok' Hj. rewrite interest_some by done. split.
  - intros (i & Hi & Hw). rewrite watch_set in Hw. destruct (Z.eqb_spec j i) as [<-|Hne]; [by left | right; exists i; split_and!; congruence || done].
  - intros [->|(i & Hne & Hi & Hw)]; [exists j | exists i]; (split; [done|]); rewrite watch_set; [by rewrite Z.eqb_refl|].
    by rewrite (proj2 (Z.eqb_neq _ _)) by congruence.
Qed.

(** Storing a watch of [fd] at a position no other descriptor uses. *)
Lemma interest_put e j fd events data : watches_ok e -> j ∈ all_watches ->
  (ew_used (watch e j) = true -> ew_fd (watch e j) = fd) ->
  (forall i, i ∈ all_watches -> ew_used (watch e i) = true -> ew_fd (watch e i) = fd -> i = j) ->
  let e' := set_watch j (EpollWatch true fd events data) e in
  watches_ok e' /\ interest e' = <[fd := (events, data)]> (interest e).
Proof.
  intros Hok Hj Hfree Hu e'. assert (Hok' : watches_ok e') by (apply watches_ok_set; try done; intros _ i Hi Ui Fi; by apply Hu).
  split; [done|]. apply map_eq. intros fd'. apply option_eq. intros x. unfold e'. rewrite interest_set, lookup_insert_Some, interest_some by done. split.
  - intros [Hw|(i & Hne & Hi & Hw)]; [left; injection Hw as -> -> ->; by destruct x|]. right. split; [|by exists i].
    intros <-. apply Hne, Hu; [done | by rewrite Hw..].
  - intros [[-> <-]|[Hne (i & Hi & Hw)]]; [by left|]. right. exists i. split_and!; try done. intros ->. rewrite Hw in Hfree. by specialize (Hfree eq_refl).
Qed.

(** Freeing the position of [fd]. *)
Lemma interest_drop e j fd : watches_ok e -> watch_slot e fd = Some j ->
  let e' := set_watch j ((watch e j) <| ew_used := false |>) e in
  watches_ok e' /\ interest e' = delete fd (interest e).
Proof.
  intros Hok Es e'. destruct (slot_some _ _ _ Es) as (Hj & Huj & Hf). assert (Hok' : watches_ok e') by (apply watches_ok_set; done).
  split; [done|]. apply map_eq. intros fd'. apply option_eq. intros x. unfold e'. rewrite interest_set, lookup_delete_Some, interest_some by done. split.
  - intros [Hw|(i & Hne & Hi & Hw)]; [discriminate Hw|]. split; [|by exists i]. intros <-. apply Hne, (Hok i j); try done; by rewrite Hw.
  - intros [Hne (i & Hi & Hw)]. right. exists i. split_and!; try done. intros ->. by rewrite Hw in Hf.
Qed.

(** The array implements the map. *)
Lemma epoll_update_refines op fd events data e : watches_ok e ->
  let '(r, e') := epoll_update op fd events data e in
  (r, interest e') = interest_op op fd events data (interest e) /\ watches_ok e' /\ ep_used e' = ep_used e /\ ep_refs e' = ep_refs e.
Proof.
  intros Hok. unfold epoll_update, interest_op.
  assert (Hno : forall i, watch_slot e fd = None -> i ∈ all_watches -> ew_used (watch e i) = true -> ew_fd (watch e i) <> fd).
  { intros i Es Hi Hu Hf. pose proof (find_none _ _ Es i ltac:(by apply list_elem_of_In)) as Hn. cbn in Hn. by rewrite Hu, Hf, Z.eqb_refl in Hn. }
  assert (Hone : forall i j, watch_slot e fd = Some j -> i ∈ all_watches -> ew_used (watch e i) = true -> ew_fd (watch e i) = fd -> i = j).
  { intros i j Es Hi Ui Fi. destruct (slot_some _ _ _ Es) as (Hj & Uj & Fj). apply Hok; congruence. }
  pose proof (slot_none e fd Hok) as Hs.
  destruct (op =? EPOLL_CTL_DEL); [|destruct (op =? EPOLL_CTL_ADD); [|destruct (op =? EPOLL_CTL_MOD); [|done]]];
    destruct (watch_slot e fd) as [j|] eqn:Es; (rewrite decide_True by (by apply Hs)) || (rewrite decide_False by (intros H%Hs; done)); try done.
  - destruct (interest_drop e j fd Hok Es) as [H1 H2]. by rewrite H2.
  - rewrite interest_size by done. destruct (free_slot e) as [j|] eqn:Ef; [|apply free_none in Ef; rewrite Ef; done].
    rewrite (proj2 (Z.eqb_neq _ _)) by (intros H%free_none; congruence).
    apply find_some in Ef as [Hj%list_elem_of_In Hfree%negb_true_iff].
    destruct (interest_put e j fd events data Hok Hj) as [H1 H2]; [by rewrite Hfree | intros i Hi Hu Hf; by apply Hno in Hf | by rewrite H2].
  - destruct (slot_some _ _ _ Es) as (Hj & Hu & Hf).
    assert (Ew : ((watch e j) <| ew_events := events |>) <| ew_data := data |> = EpollWatch true fd events data) by (destruct (watch e j); cbn in *; by subst).
    rewrite Ew. destruct (interest_put e j fd events data Hok Hj) as [H1 H2]; [done | intros; by apply Hone | by rewrite H2].
Qed.

(** ** The passes over the descriptors

    What one pass of poll, select and epoll_wait finds and stores, in terms of
    the readiness of the descriptors before the call. *)

(** ** Deadlines *)

(** The first of several deadlines, where 0 is none. *)
Lemma first_deadline l : Forall (fun d => 0 <= d) l -> forall d, 0 <= d ->
  let f := foldl earlier d l in
  (f = 0 <-> d = 0 /\ Forall (fun x => x = 0) l) /\ (forall x, x ∈ d :: l -> x <> 0 -> 0 < f <= x) /\ f ∈ d :: l.
Proof.
  induction 1 as [|x l Hx Hl IH]; intros d Hd; cbn [foldl].
  { split; [by split; [intros ->|intros [-> _]]|]. split; [intros y Hy%list_elem_of_singleton; subst; lia | left]. }
  destruct (IH (earlier d x) ltac:(unfold earlier; by destruct (_ && _))) as (H1 & H2 & H3). cbn zeta in *. set (f := foldl _ _ l) in *.
  assert (He : earlier d x = 0 <-> d = 0 /\ x = 0).
  { unfold earlier. destruct (Z.eqb_spec x 0), (Z.eqb_spec d 0), (Z.ltb_spec x d); cbn; lia. }
  assert (Hle : forall y, y = d \/ y = x -> y <> 0 -> 0 < earlier d x <= y).
  { unfold earlier. intros y Hy Hy0. destruct (Z.eqb_spec x 0), (Z.eqb_spec d 0), (Z.ltb_spec x d); cbn; lia. }
  split; [|split].
  - rewrite H1, He. split; [intros [[-> ->] ?]; split; [done | by constructor] | intros [-> H]; inversion H; by subst].
  - intros y Hy Hy0. apply elem_of_cons in Hy as [->|Hy]; [|apply elem_of_cons in Hy as [->|Hy]].
    + pose proof (Hle d ltac:(by left) Hy0). specialize (H2 (earlier d x) ltac:(left)). lia.
    + pose proof (Hle x ltac:(by right) Hy0). specialize (H2 (earlier d x) ltac:(left)). lia.
    + apply H2; [by right | done].
  - apply elem_of_cons in H3 as [->|H3]; [|right; by right]. unfold earlier. destruct (_ && _); [right; left | left].
Qed.

(** ** epoll *)

Section Clock.
Variable rtc_now : Z * Z.
Local Abbreviation epoll_mask := (epoll_mask rtc_now).
Local Abbreviation poll_mask := (poll_mask rtc_now).

Lemma deadline_view k k' fd now : same_view k k' ->
  timerfd_monotonic_deadline rtc_now k' fd now = timerfd_monotonic_deadline rtc_now k fd now.
Proof.
  intros Hv. unfold timerfd_monotonic_deadline. destruct (file_view k k' fd Hv) as (-> & -> & -> & _).
  destruct (f_private (file k fd)); try done. by rewrite (sv_timerfd _ _ Hv), (clock_view rtc_now k k').
Qed.

(** The events of the watches, in the order of the array. *)
Definition ready_list (k : kernel) (l : list epoll_watch_k) : list (Z * Z) :=
  omap (fun w => let m := epoll_mask k (ew_fd w) (ew_events w) in if m =? 0 then None else Some (m, ew_data w)) l.

(** When a watched timer expires, 0 for other watches. *)
Definition watch_timer (k : kernel) (w : epoll_watch_k) : Z :=
  let fd := ew_fd w in
  if fd_ok fd && f_in_use (file k fd) && (f_type (file k fd) =? FD_TIMERFD) && has (ew_events w) POLLIN
  then timerfd_monotonic_deadline rtc_now k fd (k_now k) else 0.

Lemma watch_timer_view k k' w : same_view k k' -> watch_timer k' w = watch_timer k w.
Proof.
  intros Hv. unfold watch_timer. destruct (file_view k k' (ew_fd w) Hv) as (-> & -> & _). by rewrite (deadline_view k k'), (sv_now _ _ Hv).
Qed.

Lemma epoll_pass_spec k0 l : forall room next k, synced k0 k -> input_ok k -> exists nx k',
  epoll_pass rtc_now l room next k = ((take room (ready_list k0 l), nx), k') /\ synced k k' /\ k_vm k' = k_vm k /\
  (ready_list k0 l = [] -> (0 < room)%nat -> nx = foldl earlier next (map (watch_timer k0) l)).
Proof.
  induction l as [|w l IH]; intros room next k Hs Hok.
  { exists next, k. destruct room; done. }
  destruct room as [|room]; [exists next, k; split_and!; (done || lia)|].
  cbn [epoll_pass]. unfold st_bind at 1, st_get at 1. cbv zeta. match goal with |- context [if ?b then earlier next ?d else next] => set (next1 := if b then earlier next d else next) end.
  assert (En : next1 = earlier next (watch_timer k0 w)).
  { rewrite <- (watch_timer_view k0 k) by (by apply synced_view). unfold next1, watch_timer. by destruct (_ && has _ _). }
  destruct (epoll_is_ready_spec rtc_now k (ew_fd w) (ew_events w) Hok) as (k1 & E1 & S1 & M1). unfold st_bind at 1. rewrite E1.
  rewrite (epoll_mask_view rtc_now k0 k) in * by (by apply synced_view). unfold ready_list at 1 2. cbn [omap list_omap].
  fold (ready_list k0 l). assert (Hs1 : synced k0 k1) by (by transitivity k). assert (Hok1 : input_ok k1) by (by apply (synced_input_ok k)).
  destruct (epoll_mask k0 (ew_fd w) (ew_events w) =? 0).
  - destruct (IH (S room) next1 k1 Hs1 Hok1) as (nx & k2 & E2 & S2 & M2 & H2). exists nx, k2. split; [exact E2|].
    split; [by transitivity k1|]. split; [congruence|]. intros H0 _. cbn [map foldl]. rewrite <- En. apply H2; [done | lia].
  - destruct (IH room next1 k1 Hs1 Hok1) as (nx & k2 & E2 & S2 & M2 & H2). exists nx, k2. unfold st_bind. rewrite E2.
    split; [done|]. split; [by transitivity k1|]. split; [congruence|]. done.
Qed.

(** ** select *)

(** An epoll file is readable when one of its watches is ready. *)
Definition epoll_readable (k : kernel) (fd : Z) : bool :=
  match epoll_of k fd with Some i => ep_used (epoll k i) && negb (is_nil (ready_list k (watches (epoll k i)))) | None => false end.

(** What select finds out about a descriptor, [None] for EBADF. *)
Definition select_mask (k : kernel) (fd : Z) (r w : bool) : option (bool * bool) :=
  if negb (fd_ok fd && f_in_use (file k fd)) then None
  else if ((fd =? 1) || (fd =? 2)) && fd_is_console_stream k fd then Some (false, w)
  else if (f_type (file k fd) =? FD_EPOLL) && r then Some (epoll_readable k fd, false)
  else option_map (fun s => (fst s || ((f_type (file k fd) =? FD_PSEUDO) && r && evdev_pending k (current_files k) fd), snd s))
         (select_ready rtc_now k (file k fd) r w).

Lemma any_ready_spec k0 l : forall k, synced k0 k -> input_ok k ->
  exists k', any_ready rtc_now l k = (negb (is_nil (ready_list k0 l)), k') /\ synced k k' /\ k_vm k' = k_vm k.
Proof.
  induction l as [|w l IH]; intros k Hs Hok; [by exists k|]. cbn [any_ready].
  destruct (epoll_is_ready_spec rtc_now k (ew_fd w) (ew_events w) Hok) as (k1 & E1 & S1 & M1). unfold st_bind at 1. rewrite E1.
  rewrite (epoll_mask_view rtc_now k0 k) in * by (by apply synced_view). unfold ready_list. cbn [omap list_omap]. fold (ready_list k0 l).
  destruct (epoll_mask k0 (ew_fd w) (ew_events w) =? 0); cbn [negb]; [|by exists k1].
  destruct (IH k1 ltac:(by transitivity k) (synced_input_ok _ _ S1 Hok)) as (k2 & E2 & S2 & M2). exists k2. split; [done|].
  split; [by transitivity k1 | congruence].
Qed.

Lemma select_fd_state_spec k fd r w : input_ok k ->
  exists k', select_fd_state rtc_now fd r w k = (select_mask k fd r w, k') /\ synced k k' /\ k_vm k' = k_vm k.
Proof.
  intros Hok. unfold select_fd_state, select_mask. rewrite bind_get. destruct (negb _); [by exists k|].
  destruct (_ && fd_is_console_stream k fd); [by exists k|]. destruct ((f_type (file k fd) =? FD_EPOLL) && r).
  { unfold epoll_fd_ready, epoll_readable, st_bind at 1. rewrite bind_get. destruct (epoll_of k fd) as [i|]; [|by exists k].
    destruct (ep_used (epoll k i)); cbn [andb]; [|by exists k].
    destruct (any_ready_spec k (watches (epoll k i)) k ltac:(reflexivity) Hok) as (k' & E & H). rewrite E. by exists k'. }
  destruct ((f_type (file k fd) =? FD_PSEUDO) && r); cbn [andb].
  - destruct (evdev_ready_spec (current_files k) fd k Hok) as (k' & E & H). unfold st_bind. rewrite E. by exists k'.
  - exists k. split; [|done]. unfold st_ret. f_equal. destruct (select_ready _ _ _ _ _) as [[a b]|]; [|done]. cbn. by rewrite orb_false_r.
Qed.

Lemma ready_list_view k k' l : same_view k k' -> ready_list k' l = ready_list k l.
Proof. intros Hv. unfold ready_list. induction l as [|w l IH]; [done|]. cbn [omap list_omap]. by rewrite (epoll_mask_view rtc_now k k'), IH. Qed.

Lemma select_mask_view k k' fd r w : same_view k k' -> select_mask k' fd r w = select_mask k fd r w.
Proof.
  intros Hv. assert (Eo : epoll_of k' fd = epoll_of k fd).
  { unfold epoll_of, epoll_state_for_file. by destruct (file_view k k' fd Hv) as (-> & -> & -> & _). }
  unfold select_mask, epoll_readable. rewrite Eo, (stream_view k k'), (select_ready_view rtc_now k k'), (sv_files _ _ Hv), (pending_view k k') by done.
  destruct (file_view k k' fd Hv) as (-> & -> & _ & _). destruct (epoll_of k fd); [|done]. by rewrite (sv_epoll _ _ Hv), (ready_list_view k k').
Qed.

(** *** Sets of descriptors *)

Lemma has_bit x n : 0 <= n -> has x (Z.shiftl 1 n) = Z.testbit x n.
Proof.
  intros Hn. unfold has. rewrite Z.shiftl_1_l. destruct (Z.testbit x n) eqn:E.
  - apply negb_true_iff, Z.eqb_neq. intros H. apply (f_equal (fun y => Z.testbit y n)) in H. rewrite Z.land_spec, Z.pow2_bits_true, E, Z.bits_0 in H by done. done.
  - apply negb_false_iff, Z.eqb_eq. apply Z.bits_inj'. intros m Hm. rewrite Z.land_spec, Z.bits_0. destruct (Z.eq_dec m n) as [->|Hne]; [by rewrite E|].
    by rewrite Z.pow2_bits_false, andb_false_r by done.
Qed.

Lemma isset_set l fd fd' : 0 <= fd < 8 * Z.of_nat (length l) -> 0 <= fd' -> fd_isset (fd_set fd l) fd' = (fd =? fd') || fd_isset l fd'.
Proof.
  intros Hfd Hfd'. unfold fd_isset, fd_set. rewrite !has_bit by (apply Z.mod_pos_bound; lia).
  destruct (lookup_lt_is_Some_2 l (Z.to_nat (fd / 8))) as [b Hb]; [dlia|].
  destruct (Nat.eq_dec (Z.to_nat (fd / 8)) (Z.to_nat (fd' / 8))) as [E|E].
  - rewrite <- E. rewrite (nth_lookup_Some _ _ 0 (Z.lor b (Z.shiftl 1 (fd mod 8)))) by (by rewrite list_lookup_alter_eq, Hb).
    rewrite (nth_lookup_Some _ _ 0 b) by done. rewrite Z.lor_spec, Z.shiftl_1_l, orb_comm. f_equal.
    rewrite Z.pow2_bits_eqb by (apply Z.mod_pos_bound; lia). destruct (Z.eqb_spec fd fd') as [->|Hne]; [apply Z.eqb_refl|].
    apply Z.eqb_neq. intros H. apply Hne. assert (fd / 8 = fd' / 8) by (apply Z2Nat.inj; (done || dlia)). dlia.
  - rewrite (proj2 (Z.eqb_neq fd fd')) by (by intros ->). cbn [orb]. f_equal. rewrite !nth_lookup. by rewrite list_lookup_alter_ne.
Qed.

Lemma fd_set_bytes fd l : 0 <= fd -> Forall is_byte l -> Forall is_byte (fd_set fd l).
Proof.
  intros Hfd Hl. unfold fd_set. apply Forall_alter; [done|]. intros b _ Hb. unfold is_byte in *. rewrite Z.shiftl_1_l. change 256 with (2 ^ 8) in *.
  assert (H2 : 0 < 2 ^ (fd mod 8) < 2 ^ 8) by (pose proof (Z.mod_pos_bound fd 8 ltac:(lia)); split; [lia | apply Z.pow_lt_mono_r; lia]).
  apply lor_range; lia.
Qed.

Lemma fd_set_length fd l : length (fd_set fd l) = length l.
Proof. apply length_alter. Qed.

(** The descriptors asked for in one of the sets, and what select answers. *)
Definition wanted (sets : fd_sets) (fd : Z) : bool := let '(rin, win, ein) := sets in fd_isset rin fd || fd_isset win fd || fd_isset ein fd.
Definition answer (k : kernel) (sets : fd_sets) (fd : Z) : option (bool * bool) :=
  let '(rin, win, _) := sets in if wanted sets fd then select_mask k fd (fd_isset rin fd) (fd_isset win fd) else Some (false, false).
Definition rbit (k : kernel) (sets : fd_sets) (fd : Z) : bool := match answer k sets fd with Some (r, _) => r | None => false end.
Definition wbit (k : kernel) (sets : fd_sets) (fd : Z) : bool := match answer k sets fd with Some (_, w) => w | None => false end.

Lemma select_pass_spec k0 sets fds : forall rout wout ready k res k', synced k0 k -> input_ok k -> NoDup fds ->
  (forall fd, fd ∈ fds -> 0 <= fd < 1024) -> length rout = 128%nat -> length wout = 128%nat ->
  select_pass rtc_now fds sets rout wout ready k = (res, k') ->
  synced k k' /\ k_vm k' = k_vm k /\
  match res with
  | None => exists fd, fd ∈ fds /\ answer k0 sets fd = None
  | Some (rout', wout', ready') => (forall fd, fd ∈ fds -> answer k0 sets fd <> None) /\ length rout' = 128%nat /\ length wout' = 128%nat /\
      (forall fd, 0 <= fd -> fd_isset rout' fd = (bool_decide (fd ∈ fds) && rbit k0 sets fd) || fd_isset rout fd) /\
      (forall fd, 0 <= fd -> fd_isset wout' fd = (bool_decide (fd ∈ fds) && wbit k0 sets fd) || fd_isset wout fd) /\
      ready' = ready + sumZ (fun fd => Z.b2z (rbit k0 sets fd) + Z.b2z (wbit k0 sets fd)) fds
  end.
Proof.
  induction fds as [|fd fds IH]; intros rout wout ready k res k' Hs Hok Hnd Hin Hr Hw; cbn [select_pass].
  { intros [= <- <-]. split; [done|]. split; [done|]. split_and!; (done || (intros; by rewrite bool_decide_false by apply not_elem_of_nil) || (cbn; lia) || idtac).
    intros fd H. by apply not_elem_of_nil in H. }
  apply NoDup_cons in Hnd as [Hfd Hnd]. pose proof (Hin fd ltac:(left)) as Hrg. assert (Hin' : forall x, x ∈ fds -> 0 <= x < 1024) by (intros; apply Hin; by right).
  assert (Hstep : exists k1 a, (a = answer k0 sets fd) /\ synced k k1 /\ k_vm k1 = k_vm k /\
    select_pass rtc_now (fd :: fds) sets rout wout ready k =
      match a with None => (None, k1) | Some (rr, ww) =>
        select_pass rtc_now fds sets (if rr then fd_set fd rout else rout) (if ww then fd_set fd wout else wout) (ready + Z.b2z rr + Z.b2z ww) k1 end).
  { destruct sets as [[rin win] ein]. unfold answer, wanted. cbn [select_pass].
    rewrite <- !negb_orb. destruct (fd_isset rin fd || fd_isset win fd || fd_isset ein fd); cbn [negb].
    - destruct (select_fd_state_spec k fd (fd_isset rin fd) (fd_isset win fd) Hok) as (k1 & E1 & S1 & M1).
      rewrite (select_mask_view k0 k) in E1 by (by apply synced_view). exists k1, (select_mask k0 fd (fd_isset rin fd) (fd_isset win fd)).
      split; [done|]. split; [done|]. split; [done|]. unfold st_bind at 1. rewrite E1.
      by destruct (select_mask k0 _ _ _) as [[? ?]|].
    - exists k, (Some (false, false)). split; [done|]. split; [reflexivity|]. split; [done|]. cbn [Z.b2z]. by rewrite !Z.add_0_r. }
  destruct Hstep as (k1 & a & Ea & S1 & M1 & E1). cbn [select_pass] in E1. rewrite E1. clear E1.
  destruct a as [[rr ww]|]; [|intros [= <- <-]; split; [done|]; split; [done|]; exists fd; split; [left | done]].
  intros Hrec. assert (Lr : length (if rr then fd_set fd rout else rout) = 128%nat) by (destruct rr; rewrite ?fd_set_length; done).
  assert (Lw : length (if ww then fd_set fd wout else wout) = 128%nat) by (destruct ww; rewrite ?fd_set_length; done).
  destruct (IH _ _ _ k1 res k' ltac:(by transitivity k) (synced_input_ok _ _ S1 Hok) Hnd Hin' Lr Lw Hrec) as (S2 & M2 & R).
  split; [by transitivity k1|]. split; [congruence|]. destruct res as [[[rout' wout'] ready']|].
  2: { destruct R as (x & Hx & Hn). exists x. split; [by right | done]. }
  destruct R as (R1 & R2 & R3 & R4 & R5 & ->). assert (Er : rbit k0 sets fd = rr /\ wbit k0 sets fd = ww) by (unfold rbit, wbit; by rewrite <- Ea).
  destruct Er as [Er Ew]. split; [intros x [->|Hx]%elem_of_cons; [by rewrite <- Ea | by apply R1]|]. split; [done|]. split; [done|].
  assert (Hbit : forall (b : bool) l x, length l = 128%nat -> 0 <= x -> fd_isset (if b then fd_set fd l else l) x = ((fd =? x) && b) || fd_isset l x).
  { intros b l x Hl Hx. destruct b; [rewrite isset_set by lia; by rewrite andb_true_r | by rewrite andb_false_r]. }
  assert (Hcons : forall x (g : Z -> bool), g fd = true \/ g fd = false -> bool_decide (x ∈ fd :: fds) && g x = ((fd =? x) && g fd) || (bool_decide (x ∈ fds) && g x)).
  { intros x g _. destruct (Z.eqb_spec fd x) as [->|Hne]; cbn [andb].
    - rewrite bool_decide_true by left. rewrite bool_decide_false by done. cbn [andb]. by rewrite orb_false_r.
    - cbn [orb]. f_equal. apply bool_decide_ext. rewrite elem_of_cons. split; [intros [?|?]; [congruence | done] | by right]. }
  split; [|split].
  - intros x Hx. rewrite R4, Hbit, Hcons, Er by (done || by destruct (rbit k0 sets fd); auto). by destruct ((fd =? x) && rr), (bool_decide (x ∈ fds) && rbit k0 sets x).
  - intros x Hx. rewrite R5, Hbit, Hcons, Ew by (done || by destruct (wbit k0 sets fd); auto). by destruct ((fd =? x) && ww), (bool_decide (x ∈ fds) && wbit k0 sets x).
  - cbn [sumZ foldr]. fold (sumZ (fun fd => Z.b2z (rbit k0 sets fd) + Z.b2z (wbit k0 sets fd)) fds). rewrite Er, Ew. lia.
Qed.

Lemma select_pass_bytes sets fds : (forall fd, fd ∈ fds -> 0 <= fd) -> forall rout wout ready k, Forall is_byte rout -> Forall is_byte wout ->
  match fst (select_pass rtc_now fds sets rout wout ready k) with Some (r, w, _) => Forall is_byte r /\ Forall is_byte w | None => True end.
Proof.
  induction fds as [|fd fds IH]; intros Hin rout wout ready k Hr Hw; [done|]. assert (Hin' : forall x, x ∈ fds -> 0 <= x) by (intros; apply Hin; by right).
  pose proof (Hin fd ltac:(left)). cbn [select_pass]. destruct sets as [[rin win] ein]. destruct (_ && _); [by apply IH|]. rewrite bind_eq.
  destruct (fst (select_fd_state _ _ _ _ _)) as [[rr ww]|]; [|done]. apply IH; [done | destruct rr | destruct ww]; auto using fd_set_bytes.
Qed.

(** ** poll *)

(** An entry of the array with the answer filled in. *)
Definition poll_answer (k : kernel) (l : list Z) : list Z := pollfd_answer l (poll_mask k (pollfd_fd l) (pollfd_events l)).
Definition poll_hit (k : kernel) (l : list Z) : bool := negb (poll_mask k (pollfd_fd l) (pollfd_events l) =? 0).
Definition entry_timer (k : kernel) (l : list Z) : Z := poll_timer rtc_now k (pollfd_fd l) (pollfd_events l).

Lemma entry_timer_view k k' l : same_view k k' -> entry_timer k' l = entry_timer k l.
Proof.
  intros Hv. unfold entry_timer, poll_timer. destruct (file_view k k' (pollfd_fd l) Hv) as (-> & -> & -> & _).
  rewrite (stream_view k k') by done. destruct (_ && _); [|done]. destruct (f_private (file k (pollfd_fd l))); try done.
  by rewrite (timer_view rtc_now k k'), (deadline_view k k'), (sv_now _ _ Hv).
Qed.

Lemma answer_bytes l rev : Forall is_byte l -> length l = 8%nat -> Forall is_byte (pollfd_answer l rev) /\ length (pollfd_answer l rev) = 8%nat.
Proof.
  intros Hb Hl. unfold pollfd_answer. split; [|rewrite length_app, length_take, Hl; done].
  apply Forall_app. split; [by apply Forall_take|]. unfold short_bytes, is_byte. change 256 with (2 ^ 8).
  apply Forall_cons; split; [|apply Forall_cons; split; [|by apply Forall_nil]]; apply land_range; lia.
Qed.

Lemma mapM_ext_in {A B} (f g : A -> option B) l : (forall x, x ∈ l -> f x = g x) -> mapM f l = mapM g l.
Proof.
  induction l as [|x l IH]; intros H; [done|]. cbn. rewrite (H x) by left. destruct (g x); cbn; [|done].
  by rewrite IH by (intros; apply H; by right).
Qed.

(** Bytes outside the range that was stored read as before. *)
Lemma copy_from_elsewhere m m' dst l src len : m_user_pml4 m' = m_user_pml4 m -> stored m m' dst l ->
  0 <= src -> 0 <= len -> src + len <= USER_TOP -> (src + len <= dst \/ dst + Z.of_nat (length l) <= src) ->
  user_copy_from_cr3 m' (m_user_pml4 m) src len = user_copy_from_cr3 m (m_user_pml4 m) src len.
Proof.
  intros Er Hst Hs Hl Ht Hd. unfold user_copy_from_cr3. destruct (_ =? 0); [done|].
  rewrite !copy_from_loop_eq by (unfold is_u64, USER_TOP in *; lia). apply mapM_ext_in. intros i Hi%elem_of_seqZ.
  rewrite u64_small by (unfold USER_TOP in *; lia). rewrite Hst by (unfold user_va; lia).
  destruct (Z.leb_spec dst (src + i)), (Z.ltb_spec (src + i) (dst + Z.of_nat (length l))); cbn [andb]; (lia || done).
Qed.

Section Memory.
Context {HB : HhdmBase} {inv : pmm -> Prop} {held : pmm -> Z -> Prop} `{PA : !PageAllocator inv held}.
Local Abbreviation space_ok := (space_ok (inv := inv) (held := held)).

(** A system call that copies from and to the space of the running process. *)
Record call_space (k : kernel) : Prop := { cs_space : space_ok (k_vm k); cs_root : syscall_cr3 k = m_user_pml4 (k_vm k) }.

Lemma call_space_synced k k' : synced k k' -> k_vm k' = k_vm k -> call_space k -> call_space k'.
Proof.
  intros Hs Em [H1 H2]. split; [by rewrite Em|]. destruct (sy_frame _ _ Hs) as (? & ? & ? & Ek).
  unfold syscall_cr3 in *. rewrite Em. assert (E : k_syscall_user_cr3 k' = k_syscall_user_cr3 k) by (by rewrite Ek). by rewrite E.
Qed.

Lemma copy_synced k m : synced k (k <| k_vm := m |>).
Proof.
  split; [exists (k_fd_tables k), (k_input_states k), m; by destruct k | | intros; reflexivity].
  intros t fd. exists (f_input_seq (fdesc k t fd)). change (fdesc (k <| k_vm := m |>) t fd) with (fdesc k t fd). by destruct (fdesc k t fd).
Qed.

(** One copy to user space inside a call. *)
Lemma copy_to_call k dst l r k' : call_space k -> 0 <= dst -> dst + Z.of_nat (length l) <= USER_TOP -> Forall is_byte l ->
  user_copy_to dst l k = (r, k') ->
  synced k k' /\ call_space k' /\ m_user_pml4 (k_vm k') = m_user_pml4 (k_vm k) /\ copied_to (k_vm k) (k_vm k') dst l r.
Proof.
  intros [Hs Hcr] Hd Ht Hb Ec. destruct (user_copy_to_spec k dst l r k' Hs Hcr Hd Ht Hb Ec) as (Ek & Hs' & Hc).
  pose proof (user_copy_to_root k dst l r k' Hs Hcr Hd Ht Hb Ec) as Er. split; [rewrite Ek; apply copy_synced|].
  split; [|by split]. split; [done|]. apply (syscall_cr3_same (inv := inv) (held := held) k); try done. by rewrite Ek.
Qed.

(** The entries a pass has read and answered: [ls] are what the array held. *)
Definition answered (k0 k k' : kernel) (p : Z) (ls : list (list Z)) (rest : list Z) : Prop :=
  user_copy_from k p (8 * Z.of_nat (length ls)) = Some (concat ls) /\ Forall (fun l => length l = 8%nat) ls /\
  stored (k_vm k) (k_vm k') p (concat (map (poll_answer k0) ls) ++ rest).

Lemma answered_nil k0 k k' p rest : call_space k -> stored (k_vm k) (k_vm k') p rest -> answered k0 k k' p [] rest.
Proof.
  intros Hc Hst. split_and!; [|done|exact Hst]. unfold user_copy_from, user_copy_from_cr3.
  rewrite (cs_root _ Hc), space_root by apply Hc. done.
Qed.

Lemma concat_length (ls : list (list Z)) : Forall (fun l => length l = 8%nat) ls -> Z.of_nat (length (concat ls)) = 8 * Z.of_nat (length ls).
Proof. induction 1 as [|l ls Hl _ IH]; [done|]. cbn [concat length]. rewrite length_app, Hl. lia. Qed.

(** One entry, then the others. *)
Lemma answered_cons k0 k k1 k' p l ls rest : call_space k -> 0 <= p -> p + 8 * (1 + Z.of_nat (length ls)) <= USER_TOP -> length l = 8%nat ->
  user_copy_from k p 8 = Some l -> length (poll_answer k0 l) = 8%nat ->
  m_user_pml4 (k_vm k1) = m_user_pml4 (k_vm k) -> syscall_cr3 k1 = m_user_pml4 (k_vm k1) ->
  stored (k_vm k) (k_vm k1) p (poll_answer k0 l) -> answered k0 k1 k' (p + 8) ls rest -> answered k0 k k' p (l :: ls) rest.
Proof.
  intros Hc Hp Ht Hl E0 Ha Er Hcr Hst (E1 & Hls & Hst1). split_and!; [|by constructor|].
  - assert (E2 : user_copy_from k (p + 8) (8 * Z.of_nat (length ls)) = Some (concat ls)).
    { rewrite <- E1. unfold user_copy_from. rewrite Hcr, (cs_root _ Hc), Er. symmetry.
      apply (copy_from_elsewhere _ _ p (poll_answer k0 l)); try done; try lia; rewrite ?Ha; lia. }
    unfold user_copy_from in *. rewrite (cs_root _ Hc) in *. replace (8 * Z.of_nat (length (l :: ls))) with (8 + 8 * Z.of_nat (length ls)) by (cbn [length]; lia).
    rewrite copy_from_app by (unfold is_u64, USER_TOP in *; lia). rewrite u64_small by (unfold USER_TOP in *; lia). by rewrite E0, E2.
  - cbn [map concat]. rewrite <- app_assoc. apply (stored_app (k_vm k) (k_vm k1)); [done | done|]. by rewrite Ha.
Qed.

(** A pass that ends early stopped at an entry it could not read or write. *)
Lemma poll_pass_spec k0 n : forall p ready next k res k', synced k0 k -> input_ok k -> call_space k -> 0 <= p -> p + 8 * Z.of_nat n <= USER_TOP ->
  poll_pass rtc_now n p ready next k = (res, k') ->
  synced k k' /\ call_space k' /\ exists ls rest, answered k0 k k' p ls rest /\
    match res with
    | Some (r, nx) => length ls = n /\ rest = [] /\ r = ready + Z.of_nat (length (List.filter (poll_hit k0) ls)) /\
        nx = foldl earlier next (map (entry_timer k0) ls)
    | None => (length ls < n)%nat /\ (length rest < 8)%nat
    end.
Proof.
  induction n as [|n IH]; intros p ready next k res k' Hs Hok Hc Hp Ht; cbn [poll_pass].
  { intros [= <- <-]. split; [done|]. split; [done|]. exists [], []. split; [by apply answered_nil, stored_nil|]. split_and!; (done || cbn; lia). }
  unfold st_bind at 1, st_get at 1. destruct (user_copy_from k p POLLFD_SIZE) as [l|] eqn:E0.
  2: { intros [= <- <-]. split; [done|]. split; [done|]. exists [], []. split; [by apply answered_nil, stored_nil|]. cbn. lia. }
  destruct (copy_from_bytes k p 8 l ltac:(unfold is_u64, USER_TOP in *; lia) ltac:(lia) E0) as [Hl Hb]. assert (Hl8 : length l = 8%nat) by lia.
  cbv zeta. change (poll_timer rtc_now k (pollfd_fd l) (pollfd_events l)) with (entry_timer k l).
  pose proof (synced_view _ _ Hs) as Hv. rewrite (entry_timer_view k0 k) by done.
  destruct (poll_revents_spec rtc_now k (pollfd_fd l) (pollfd_events l) Hok) as (k1 & E1 & S1 & M1). unfold st_bind at 1. rewrite E1.
  rewrite (poll_mask_view rtc_now k0 k) by done. set (mask := poll_mask k0 (pollfd_fd l) (pollfd_events l)).
  unfold st_bind at 1. destruct (user_copy_to p (pollfd_answer l mask) k1) as [r k2] eqn:E2.
  destruct (answer_bytes l mask Hb Hl8) as [Hab Hal]. pose proof (call_space_synced k k1 S1 M1 Hc) as Hc1.
  destruct (copy_to_call k1 p _ r k2 Hc1 Hp ltac:(rewrite Hal; lia) Hab E2) as (S2 & Hc2 & Er & Hres). rewrite M1 in Er, Hres.
  assert (S02 : synced k k2) by (by transitivity k1). destruct Hres as [(-> & Hst & _)|(-> & j & Hj & Hst & _)]; cbn [Z.eqb negb].
  - rewrite u64_small by (unfold USER_TOP, POLLFD_SIZE in *; lia). change POLLFD_SIZE with 8. intros Hrec.
    destruct (IH (p + 8) _ _ k2 res k' ltac:(by transitivity k) (synced_input_ok _ _ S02 Hok) Hc2 ltac:(lia) ltac:(lia) Hrec)
      as (S3 & Hc3 & ls & rest & A & R).
    assert (Hlen : (length ls <= n)%nat) by (destruct res as [[? ?]|]; lia).
    split; [by transitivity k2|]. split; [done|]. exists (l :: ls), rest. split.
    { apply (answered_cons k0 k k2 k'); try done; [lia | apply Hc2]. }
    destruct res as [[r' nx]|]; [|cbn [length]; lia]. destruct R as (R1 & -> & -> & ->). cbn [length map foldl List.filter].
    split; [by rewrite R1|]. split; [done|]. split; [|done]. unfold poll_hit at 2. fold mask. destruct (mask =? 0); cbn [negb length]; lia.
  - change (- EFAULT =? 0) with false. cbn [negb]. intros [= <- <-]. split; [done|]. split; [done|].
    exists [], (take j (pollfd_answer l mask)). split; [by apply answered_nil|]. rewrite length_take. cbn [length]. lia.
Qed.
End Memory.
End Clock.
