(* ===== verification/PollThms.v ===== *)
(** * Properties of poll, select, epoll and the files they wait for *)

From S2P Require Import Prelude Words Pmm PmmFacts PmmInit PmmThms PageAlloc.
From S2P Require Import Vmm VmmFacts VmmMap VmmSpace VmmThms CStr Vfs Kernel Tty Fd FdFacts FdInv Sched SchedFacts SchedThms.
From S2P Require Import UserCopy UserMem UserMemThms Pipe PipeFacts Signals SignalFacts Socket SocketFacts SocketThms.
From S2P Require Import Events Poll PollFacts.
Local Open Scope Z_scope.
Local Open Scope st_scope.

(** ** The interest list *)

Lemma epoll_set i e k : epoll (set_epoll i e k) i = e.
Proof. apply cell_insert_eq. Qed.

(** C26. epoll_ctl maintains a finite map.  The 128 watches of an epoll file stand
    for a map from descriptors to events and data; ADD, MOD and DEL are
    insertion, update and deletion of that map, EEXIST, ENOENT and ENOSPC say
    that the key is there, is missing, or that the map has 128 entries, and no
    descriptor ever has two watches.  Nothing else in the kernel changes. *)
Theorem epoll_ctl_refines epfd op fd uevent k i : epoll_of k epfd = Some i -> watches_ok (epoll k i) ->
  let call := sys_epoll_ctl epfd op fd uevent k in
  if (fd <? 0) || (MAX_FILES + 3 <=? fd) || negb (ep_used (epoll k i)) then call = (- EBADF, k)
  else
    match (if op =? EPOLL_CTL_DEL then Some [] else user_copy_from k uevent EPOLL_EVENT_SIZE) with
    | None => call = (- EFAULT, k)
    | Some l => exists e, call = (fst (interest_op op fd (bytes_word (take 4 l)) (bytes_word (take 8 (drop 4 l))) (interest (epoll k i))), set_epoll i e k) /\
        interest e = snd (interest_op op fd (bytes_word (take 4 l)) (bytes_word (take 8 (drop 4 l))) (interest (epoll k i))) /\
        watches_ok e /\ ep_used e = ep_used (epoll k i) /\ ep_refs e = ep_refs (epoll k i)
    end.
Proof.
  intros He Hok. cbv zeta. unfold sys_epoll_ctl. rewrite bind_get, He.
  destruct (_ || (MAX_FILES + 3 <=? fd)); [done|]. cbn [orb]. destruct (ep_used (epoll k i)) eqn:Eu; cbn [negb]; [|done].
  destruct (if op =? EPOLL_CTL_DEL then _ else _) as [l|]; [|done]. set (ev := bytes_word (take 4 l)). set (data := bytes_word _).
  pose proof (epoll_update_refines op fd ev data (epoll k i) Hok) as H. destruct (epoll_update op fd ev data (epoll k i)) as [r e].
  destruct H as (E & Hw & Hu & Hr). rewrite <- E. cbn [fst snd]. exists e. split; [reflexivity|]. split; [reflexivity|]. split; [exact Hw|]. split; [congruence | exact Hr].
Qed.

(** An epoll file starts with an empty interest list. *)
Lemma epoll_create_empty k : let '(fd, k') := sys_epoll_create1 0 k in 0 <= fd ->
  exists i, epoll_of k' fd = Some i /\ ep_used (epoll k' i) = true /\ interest (epoll k' i) = ∅ /\ watches_ok (epoll k' i).
Proof.
  unfold sys_epoll_create1. cbn [Z.ldiff Z.eqb negb]. rewrite bind_get.
  destruct (Z.ltb_spec (find_free_fd k) 0) as [|Hfd]; [cbn; unfold EMFILE; lia|].
  destruct (find _ _) as [i|]; [|cbn; unfold EMFILE; lia]. rewrite bind_eq, bind_eq. cbn [fst st_ret st_mod]. intros _. exists i.
  set (fd := find_free_fd k) in *. set (w := foldl _ _ _). set (k1 := exec (st_mod _) k).
  assert (Hw : forall j, j ∈ all_watches -> ew_used (cell blank_epoll_watch_k w j) = false).
  { intros j Hj. unfold w. assert (H : forall l m, ew_used (cell blank_epoll_watch_k (foldl (fun w j => <[j := (cell blank_epoll_watch_k w j) <| ew_used := false |>]> w) m l) j) =
      if bool_decide (j ∈ l) then false else ew_used (cell blank_epoll_watch_k m j)).
    { induction l as [|x l IH]; intros m; [done|]. cbn [foldl]. rewrite IH, cell_insert.
      destruct (bool_decide_reflect (j ∈ l)) as [Hin|Hin]; [by rewrite bool_decide_true by (by right)|].
      destruct (Z.eqb_spec x j) as [->|Hne]; [by rewrite bool_decide_true by left|].
      rewrite bool_decide_false; [done|]. intros [->|?]%elem_of_cons; done. }
    by rewrite H, bool_decide_true. }
  unfold exec, upd_file, st_mod at 1. cbn [snd].
  assert (Hok : fd_ok fd = true).
  { revert Hfd. unfold fd, find_free_fd. destruct (find _ _) as [a|] eqn:E; [apply find_seqZ in E as [E _]; intros _ | by intros H]. unfold fd_ok. cbn. apply andb_true_iff. lia. }
  assert (Ef : forall g k0, file (upd_fdesc (current_files k0) fd g k0) fd = g (file k0 fd)).
  { intros g k0. unfold file. change (current_files (upd_fdesc (current_files k0) fd g k0)) with (current_files k0). rewrite fdesc_upd. by rewrite decide_True. }
  split; [unfold epoll_of; rewrite Hok, Ef; done|].
  match goal with |- ep_used (epoll ?x i) = _ /\ _ => assert (Ee : epoll x i = EpollState true 1 w) end.
  { transitivity (epoll (set_epoll i (EpollState true 1 w) k) i); [reflexivity | apply epoll_set]. }
  rewrite Ee. split; [done|].
  assert (Hno : forall j, j ∈ all_watches -> ew_used (watch (EpollState true 1 w) j) = false) by (intros; by apply Hw).
  split; [|intros a b Ha _ Hu; by rewrite Hno in Hu]. unfold interest. rewrite watches_slots.
  assert (Es : slots (EpollState true 1 w) = []); [|by rewrite Es]. unfold slots. revert Hno. generalize all_watches. intros l Hl.
  induction l as [|j l IH]; [done|]. cbn. rewrite Hl by left. apply IH. intros; apply Hl. by right.
Qed.

(** ** Waiting *)

(** A time to wake up: the first of the deadline of the call and the expiries
    of the timers it watches, 0 when there is none of them. *)
Definition wakes_at (deadline : Z) (timers : list Z) (w : Z) : Prop :=
  (w = 0 <-> deadline = 0 /\ Forall (fun x => x = 0) timers) /\
  (forall x, x ∈ deadline :: timers -> x <> 0 -> 0 < w <= x) /\ w ∈ 0 :: deadline :: timers.

Lemma wakes_at_earlier d l : 0 <= d -> Forall (fun x => 0 <= x) l -> wakes_at d l (earlier d (foldl earlier 0 l)).
Proof.
  intros Hd Hl. destruct (first_deadline l Hl 0 ltac:(lia)) as (H1 & H2 & H3). set (f := foldl earlier 0 l) in *.
  assert (Hf : 0 <= f). { apply elem_of_cons in H3 as [->|H3]; [lia|]. rewrite Forall_forall in Hl. by apply Hl. }
  destruct (first_deadline [f] ltac:(by constructor) d Hd) as (G1 & G2 & G3). cbn [foldl] in *. split; [|split].
  - rewrite G1. rewrite (Forall_singleton (fun x => x = 0)), H1. tauto.
  - intros x Hx Hx0. apply elem_of_cons in Hx as [->|Hx]; [apply G2; [left | done]|].
    specialize (H2 x ltac:(by right) Hx0). specialize (G2 f ltac:(right; left) ltac:(lia)). lia.
  - apply elem_of_cons in G3 as [->|G3]; [right; left|]. apply list_elem_of_singleton in G3. rewrite G3.
    apply elem_of_cons in H3 as [->|H3]; [left | by right; right].
Qed.

Section Irq.
Variable rtc_now : Z * Z.
Variable tick : kernel -> kernel.

Lemma deadline_nonneg k fd now : 0 <= now -> 0 <= timerfd_monotonic_deadline rtc_now k fd now.
Proof.
  intros Hn. unfold timerfd_monotonic_deadline. destruct (_ || _); [lia|]. destruct (f_private (file k fd)); try lia.
  destruct (_ || _); [lia|]. destruct (Z.ltb_spec (clock_now_ns_simple rtc_now k (tm_clockid (timerfd k i))) (tm_next_ns (timerfd k i)));
    destruct (UINT64_MAX - now <? _); unfold UINT64_MAX; lia.
Qed.

Lemma watch_timer_nonneg k l : 0 <= k_now k -> Forall (fun x => 0 <= x) (map (watch_timer rtc_now k) l).
Proof. intros Hn. apply Forall_map, Forall_forall. intros w _. unfold compose, watch_timer. destruct (_ && _); [by apply deadline_nonneg | lia]. Qed.

Lemma entry_timer_nonneg k ls : 0 <= k_now k -> Forall (fun x => 0 <= x) (map (entry_timer rtc_now k) ls).
Proof.
  intros Hn. apply Forall_map, Forall_forall. intros l _. unfold compose, entry_timer, poll_timer. destruct (_ && _); [|lia].
  destruct (f_private _); try lia. destruct (timerfd_ready _ _ _); [lia | by apply deadline_nonneg].
Qed.

(** A call that found nothing: it returns 0 when it may not wait or its time is
    over, otherwise it sleeps until the first of its deadlines. *)
Definition waited (fuel : nat) (f : regs) (kind nr timeout : Z) (times : Z * Z) (timers : list Z) (k1 : kernel) (res : option (Z * kernel)) : Prop :=
  if (timeout =? 0) || (negb (snd times =? 0) && (snd times <=? k_now k1)) then res = Some (0, exec (task_io_resume_clear f nr) k1)
  else exists w, wakes_at (snd times) timers w /\ res = sleep_and_retry tick fuel f kind nr (fst times) (snd times) w k1.

Lemma nothing_ready_waited fuel f kind nr timeout times timers next k1 : 0 <= snd times -> Forall (fun x => 0 <= x) timers ->
  next = foldl earlier 0 timers -> waited fuel f kind nr timeout times timers k1 (nothing_ready tick fuel f kind nr timeout times next k1).
Proof.
  intros Hd Ht ->. unfold waited, nothing_ready. destruct times as [start deadline]. cbn [fst snd] in *.
  assert (Hf : finish_wait f nr 0 k1 = (0, exec (task_io_resume_clear f nr) k1)) by (unfold finish_wait; by rewrite bind_eq).
  destruct (timeout =? 0); cbn [orb]; [by rewrite Hf|]. destruct (negb (deadline =? 0) && _); [by rewrite Hf|].
  exists (earlier deadline (foldl earlier 0 timers)). split; [by apply wakes_at_earlier | done].
Qed.

Section Memory.
Context {HB : HhdmBase} {inv : pmm -> Prop} {held : pmm -> Z -> Prop} `{PA : !PageAllocator inv held}.
Local Abbreviation call_space := (call_space (inv := inv) (held := held)).

Lemma clear_vm f nr k : exists ts, exec (task_io_resume_clear f nr) k = k <| k_tasks := ts |>.
Proof.
  unfold task_io_resume_clear. rewrite exec_get. destruct (negb _); [exists (k_tasks k); by destruct k|].
  unfold exec, st_mod, upd_task, set_task. cbn [snd]. by eexists.
Qed.

Lemma call_space_tasks k ts : call_space k -> call_space (k <| k_tasks := ts |>).
Proof. by intros [H1 H2]. Qed.

Lemma event_bytes_range l : Forall is_byte (concat (map epoll_event_bytes l)) /\ length (concat (map epoll_event_bytes l)) = (12 * length l)%nat.
Proof.
  induction l as [|ev l [IH1 IH2]]; [done|]. cbn [map concat length]. split.
  - apply Forall_app. split; [|done]. apply Forall_app. split; [|apply word_bytes_range].
    unfold int_bytes. apply Forall_map, Forall_forall. intros i _. unfold compose, is_byte. change 256 with (2 ^ 8). apply land_range; lia.
  - rewrite length_app, IH2. unfold epoll_event_bytes. rewrite length_app, word_bytes_length. change (length (int_bytes ev.1)) with 4%nat. lia.
Qed.

(** C27. epoll_wait reports exactly the watched descriptors that are ready, in the
    order of the table and with the data registered for each, at most as many
    as asked for, and stores them as an array of 12-byte structures.  When none
    is ready it returns 0 if the timeout is 0 or over, and otherwise sleeps
    until the first of its deadline and the expiries of the watched timers.
    Apart from the array it changes the read positions of evdev files only. *)
Theorem epoll_wait_correct fuel f epfd uevents maxevents timeout k i : input_ok k -> call_space k -> 0 <= k_now k ->
  epoll_of k epfd = Some i -> ep_used (epoll k i) = true ->
  0 <= uevents -> uevents + 12 * maxevents <= USER_TOP ->
  let nr := if f RAX =? 281 then 281 else 232 in
  let times := wait_times k f nr (fun start => monotonic_deadline_after_ms start timeout) in
  let ready := ready_list rtc_now k (watches (epoll k i)) in
  let out := take (Z.to_nat maxevents) ready in
  let call := sys_epoll_wait rtc_now tick fuel f epfd uevents maxevents timeout k in
  0 <= snd times ->
  if (maxevents <=? 0) || (YABRO_EPOLL_MAX_EVENTS <? maxevents) then call = Some (- EINVAL, k)
  else exists k1, synced k k1 /\ k_vm k1 = k_vm k /\
    if is_nil ready then waited fuel f IO_WAIT_EPOLL nr timeout times (map (watch_timer rtc_now k) (watches (epoll k i))) k1 call
    else exists rc k', call = Some (if rc =? 0 then Z.of_nat (length out) else rc, k') /\
      synced (exec (task_io_resume_clear f nr) k1) k' /\
      copied_to (k_vm k) (k_vm k') uevents (concat (map epoll_event_bytes out)) rc.
Proof.
  intros Hok Hc Hn He Hu Hb Ht nr times ready out call Hd. unfold call, sys_epoll_wait. rewrite He.
  destruct (_ || _) eqn:Hm; [done|]. apply orb_false_iff in Hm as [Hm1%Z.leb_gt Hm2]. rewrite Hu. cbn [negb].
  change (if f RAX =? 281 then 281 else 232) with nr. fold times.
  destruct (epoll_pass_spec rtc_now k (watches (epoll k i)) (Z.to_nat maxevents) 0 k ltac:(reflexivity) Hok) as (nx & k1 & E1 & S1 & M1 & Hnx).
  rewrite E1. fold ready. fold out. fold ready in Hnx. exists k1. split; [done|]. split; [done|].
  assert (Ho : is_nil out = is_nil ready) by (unfold out; destruct (Z.to_nat maxevents) eqn:E; [lia | by destruct ready]).
  rewrite Ho. destruct (is_nil ready) eqn:Er; cbn [negb].
  { apply nothing_ready_waited; [done | by apply watch_timer_nonneg | apply Hnx; [by destruct ready | lia]]. }
  rewrite bind_eq. set (k2 := exec (task_io_resume_clear f nr) k1). unfold st_bind. destruct (user_copy_to uevents _ k2) as [rc k'] eqn:E2.
  destruct (clear_vm f nr k1) as [ts Ek2]. fold k2 in Ek2. destruct (event_bytes_range out) as [Hbytes Hlen].
  assert (Hlo : Z.of_nat (length out) <= maxevents) by (unfold out; rewrite length_take; lia).
  assert (Hc2 : call_space k2) by (rewrite Ek2; apply call_space_tasks; by apply (call_space_synced k k1)).
  destruct (copy_to_call k2 uevents _ rc k' Hc2 Hb ltac:(rewrite Hlen; lia) Hbytes E2) as (S2 & _ & _ & Hres).
  assert (Em : k_vm k2 = k_vm k) by (rewrite Ek2; exact M1). rewrite Em in Hres. exists rc, k'. split; [|done].
  destruct Hres as [(-> & _)|(-> & _)]; reflexivity.
Qed.


(** *** select *)

(** Copies to user space one after the other, up to the first that fails. *)
Fixpoint copies (l : list (Z * list Z)) (m m' : machine) (rc : Z) : Prop :=
  match l with
  | [] => m' = m /\ rc = 0
  | (u, b) :: l => exists m1 a, copied_to m m1 u b a /\ (if a =? 0 then copies l m1 m' rc else m' = m1 /\ rc = - EFAULT)
  end.

(** The sets that are given, with the bytes stored in them. *)
Definition given (bytes : Z) (l : list (Z * list Z)) : list (Z * list Z) :=
  if bytes =? 0 then [] else List.filter (fun x => negb (fst x =? 0)) (prod_map id (take (Z.to_nat bytes)) <$> l).

(** The time that is left, as a timeval. *)
Definition time_left (now deadline : Z) : list Z :=
  let left := Z.max 0 (deadline - now) in word_bytes (left / NSEC_PER_SEC) ++ word_bytes (left mod NSEC_PER_SEC / 1000).

Definition set_ok (u : Z) (l : list Z) : Prop := 0 <= u /\ u + 128 <= USER_TOP /\ length l = 128%nat /\ Forall is_byte l.

Lemma copy_set_spec u bytes l k rc k' : call_space k -> set_ok u l -> copy_set u bytes l k = (rc, k') ->
  synced k k' /\ call_space k' /\
  if (u =? 0) || (bytes =? 0) then rc = 0 /\ k_vm k' = k_vm k else copied_to (k_vm k) (k_vm k') u (take (Z.to_nat bytes) l) rc.
Proof.
  intros Hc (Hu & Ht & Hl & Hb). unfold copy_set. destruct (_ || _); [by intros [= <- <-]|]. intros E.
  destruct (copy_to_call k u (take (Z.to_nat bytes) l) rc k' Hc Hu ltac:(rewrite length_take; lia) ltac:(by apply Forall_take) E) as (S1 & C1 & _ & H). done.
Qed.

Lemma copies_given bytes u l rest m m' rc : copies (given bytes ((u, l) :: rest)) m m' rc <->
  if (u =? 0) || (bytes =? 0) then copies (given bytes rest) m m' rc
  else exists m1 a, copied_to m m1 u (take (Z.to_nat bytes) l) a /\ (if a =? 0 then copies (given bytes rest) m1 m' rc else m' = m1 /\ rc = - EFAULT).
Proof. unfold given. destruct (bytes =? 0); [by rewrite orb_true_r|]. rewrite orb_false_r. cbn. by destruct (u =? 0). Qed.

Lemma copy_sets_spec ur uw ue bytes rout wout k rc k' : call_space k -> set_ok ur rout -> set_ok uw wout -> set_ok ue empty_set ->
  select_copy_sets ur uw ue bytes rout wout k = (rc, k') ->
  synced k k' /\ call_space k' /\ copies (given bytes [(ur, rout); (uw, wout); (ue, empty_set)]) (k_vm k) (k_vm k') rc.
Proof.
  intros Hc Hr Hw He. unfold select_copy_sets, st_bind at 1. destruct (copy_set ur bytes rout k) as [a k1] eqn:E1.
  destruct (copy_set_spec _ _ _ _ _ _ Hc Hr E1) as (S1 & C1 & R1). rewrite copies_given.
  assert (Hone : forall (b : bool) m m1 (P : machine -> Prop) x u l, (if b then x = 0 /\ m1 = m else copied_to m m1 u (take (Z.to_nat bytes) l) x) ->
    (x =? 0 = true -> P m1) -> (x =? 0 = false -> k_vm k' = m1 /\ rc = - EFAULT) ->
    if b then P m else exists m1 a, copied_to m m1 u (take (Z.to_nat bytes) l) a /\ (if a =? 0 then P m1 else k_vm k' = m1 /\ rc = - EFAULT)).
  { intros b m m1 P x u l H H0 H1. destruct b; [destruct H as [-> ->]; by apply H0|]. exists m1, x. split; [done|]. destruct (x =? 0); auto. }
  destruct (a =? 0) eqn:Ea; cbn [negb].
  2: { intros [= <- <-]. split; [done|]. split; [done|]. apply (Hone _ (k_vm k) (k_vm k1) (fun m => copies _ m _ _) a); (done || congruence). }
  unfold st_bind at 1. destruct (copy_set uw bytes wout k1) as [b k2] eqn:E2. destruct (copy_set_spec _ _ _ _ _ _ C1 Hw E2) as (S2 & C2 & R2).
  assert (S02 : synced k k2) by (by transitivity k1). destruct (b =? 0) eqn:Eb; cbn [negb].
  2: { intros [= <- <-]. split; [done|]. split; [done|]. apply (Hone _ (k_vm k) (k_vm k1) (fun m => copies _ m _ _) a); try (done || congruence).
       intros _. rewrite copies_given. apply (Hone _ (k_vm k1) (k_vm k2) (fun m => copies _ m _ _) b); (done || congruence). }
  unfold st_bind at 1. destruct (copy_set ue bytes empty_set k2) as [c k3] eqn:E3. destruct (copy_set_spec _ _ _ _ _ _ C2 He E3) as (S3 & C3 & R3).
  intros [= <- <-]. split; [by transitivity k2|]. split; [done|].
  apply (Hone _ (k_vm k) (k_vm k1) (fun m => copies _ m _ _) a); try (done || congruence). intros _. rewrite copies_given.
  apply (Hone _ (k_vm k1) (k_vm k2) (fun m => copies _ m _ _) b); try (done || congruence). intros _. rewrite copies_given.
  apply (Hone _ (k_vm k2) (k_vm k3) (fun m => copies _ m _ _) c); try done; intros ->; cbn [negb]; [|done].
  unfold given. by destruct (bytes =? 0).
Qed.

(** What select has to return: the copies of the sets, and of the time that is left. *)
Lemma return_spec ur uw ue utv bytes deadline (update : bool) rout wout n k r k' : call_space k -> 0 <= n ->
  set_ok ur rout -> set_ok uw wout -> set_ok ue empty_set -> (update = true -> 0 <= utv /\ utv + 16 <= USER_TOP) ->
  select_return ur uw ue utv bytes deadline update rout wout n k = (r, k') ->
  synced k k' /\ exists m rc d, copies (given bytes [(ur, rout); (uw, wout); (ue, empty_set)]) (k_vm k) m rc /\
    (if update then copied_to m (k_vm k') utv (time_left (k_now k) deadline) d else k_vm k' = m /\ d = 0) /\
    r = if (rc =? 0) && (d =? 0) then n else - EFAULT.
Proof.
  intros Hc Hn Hr Hw He Hut. unfold select_return, st_bind at 1. destruct (select_copy_sets ur uw ue bytes rout wout k) as [rc k1] eqn:E1.
  destruct (copy_sets_spec _ _ _ _ _ _ _ _ _ Hc Hr Hw He E1) as (S1 & C1 & R1).
  assert (Hrc : rc = 0 \/ rc = - EFAULT).
  { revert R1. generalize (k_vm k). generalize (given bytes [(ur, rout); (uw, wout); (ue, empty_set)]). intros l. induction l as [|[u b] l IH]; intros m; cbn [copies].
    - intros [_ ->]. by left.
    - intros (m1 & a & _ & H). destruct (a =? 0); [by apply (IH m1) | right; tauto]. }
  destruct update.
  - destruct (Hut eq_refl) as [Hu Ht]. unfold select_update_timeval. unfold st_bind at 1 2, st_get at 1. cbv beta iota zeta. unfold st_bind at 1.
    set (tv := word_bytes _ ++ word_bytes _). destruct (user_copy_to utv tv k1) as [d k2] eqn:E2.
    assert (Etv : tv = time_left (k_now k) deadline).
    { unfold tv, time_left. rewrite (sv_now _ _ (synced_view _ _ S1)). destruct (Z.ltb_spec (k_now k) deadline); [rewrite Z.max_r by lia | rewrite Z.max_l by lia]; done. }
    assert (Hl : Z.of_nat (length tv) = 16) by (unfold tv; rewrite length_app, !word_bytes_length; done).
    assert (Hb : Forall is_byte tv) by (apply Forall_app; split; apply word_bytes_range).
    destruct (copy_to_call k1 utv tv d k2 C1 Hu ltac:(lia) Hb E2) as (S2 & _ & _ & R2). intros [= <- <-]. split; [by transitivity k1|].
    exists (k_vm k1), rc, d. rewrite <- Etv. split; [exact R1|]. split; [exact R2|].
    destruct R2 as [(-> & _)|(-> & _)], Hrc as [-> | ->]; cbn; by rewrite ?(proj2 (Z.ltb_ge n 0)) by lia.
  - intros [= <- <-]. split; [done|]. exists (k_vm k1), rc, 0. split; [exact R1|]. split; [done|]. destruct Hrc as [-> | ->]; done.
Qed.

(** The start and the deadline of the call. *)
Definition select_times (k : kernel) (f : regs) (nr utv : Z) : Z + (Z * Z) :=
  if task_io_resume_matches k f nr || (utv =? 0) then inr (wait_times k f nr (fun _ => 0))
  else match select_timeout_to_ns k utv (nr =? 270) with
       | inl e => inl e
       | inr dur => inr (k_now k, Z.min UINT64_MAX (k_now k + dur))
       end.

(** A set of 1024 descriptors that has the members [p]. *)
Definition is_set (l : list Z) (p : Z -> bool) : Prop := length l = 128%nat /\ Forall is_byte l /\ forall fd, 0 <= fd < 1024 -> fd_isset l fd = p fd.

Lemma isset_empty fd : fd_isset empty_set fd = false.
Proof. unfold fd_isset. assert (E : nth (Z.to_nat (fd / 8)) empty_set 0 = 0) by (unfold empty_set; rewrite nth_lookup; by destruct (replicate _ _ !! _) eqn:H; [apply lookup_replicate in H as [-> _]|]). by rewrite E. Qed.

Lemma select_pass_total k sets nfds res k1 : input_ok k -> 0 <= nfds <= 1024 ->
  select_pass rtc_now (seqZ 0 nfds) sets empty_set empty_set 0 k = (res, k1) ->
  synced k k1 /\ k_vm k1 = k_vm k /\
  match res with
  | None => existsb (fun fd => bool_decide (answer rtc_now k sets fd = None)) (seqZ 0 nfds) = true
  | Some (rout, wout, n) => existsb (fun fd => bool_decide (answer rtc_now k sets fd = None)) (seqZ 0 nfds) = false /\
      is_set rout (fun fd => (fd <? nfds) && rbit rtc_now k sets fd) /\ is_set wout (fun fd => (fd <? nfds) && wbit rtc_now k sets fd) /\
      n = sumZ (fun fd => Z.b2z (rbit rtc_now k sets fd) + Z.b2z (wbit rtc_now k sets fd)) (seqZ 0 nfds)
  end.
Proof.
  intros Hok Hn E. assert (Hin : forall fd, fd ∈ seqZ 0 nfds -> 0 <= fd < 1024) by (intros fd H%elem_of_seqZ; lia).
  destruct (select_pass_spec rtc_now k sets (seqZ 0 nfds) empty_set empty_set 0 k res k1 ltac:(reflexivity) Hok (NoDup_seqZ _ _) Hin eq_refl eq_refl E) as (S1 & M1 & R).
  pose proof (select_pass_bytes rtc_now sets (seqZ 0 nfds) ltac:(intros x Hx; apply Hin in Hx; lia) empty_set empty_set 0 k
    ltac:(by apply Forall_replicate) ltac:(by apply Forall_replicate)) as Hb. rewrite E in Hb. cbn [fst] in Hb.
  split; [done|]. split; [done|]. destruct res as [[[rout wout] n]|].
  - destruct R as (R1 & R2 & R3 & R4 & R5 & ->), Hb as [Hb1 Hb2]. split; [|split; [|split; [|lia]]].
    + apply not_true_iff_false. intros (fd & Hfd%list_elem_of_In & H%bool_decide_eq_true)%existsb_exists. by apply (R1 fd).
    + split; [done|]. split; [done|]. intros fd Hfd. rewrite R4, isset_empty, orb_false_r by lia. f_equal.
      apply eq_bool_prop_intro. rewrite Is_true_true, Is_true_true, bool_decide_eq_true, elem_of_seqZ, Z.ltb_lt. lia.
    + split; [done|]. split; [done|]. intros fd Hfd. rewrite R5, isset_empty, orb_false_r by lia. f_equal.
      apply eq_bool_prop_intro. rewrite Is_true_true, Is_true_true, bool_decide_eq_true, elem_of_seqZ, Z.ltb_lt. lia.
  - destruct R as (fd & H1 & H2). apply existsb_exists. exists fd. split; [by apply list_elem_of_In | by apply bool_decide_eq_true].
Qed.

Lemma select_start fuel f nfds ur uw ue utv k : (nfds <? 0) || (1024 <? nfds) = false ->
  let nr := if f RAX =? 270 then 270 else 23 in
  sys_select rtc_now tick fuel f nfds ur uw ue utv k =
    match select_times k f nr utv with inl e => Some (e, k) | inr times => select_body rtc_now tick fuel f nr nfds ur uw ue utv times k end.
Proof.
  intros Hf nr. unfold select_times, sys_select. rewrite Hf. fold nr. destruct (_ || (utv =? 0)); [done|].
  destruct (select_timeout_to_ns k utv (nr =? 270)) as [|dur]; [done|].
  assert (E : (if UINT64_MAX - k_now k <? dur then UINT64_MAX else k_now k + dur) = Z.min UINT64_MAX (k_now k + dur))
    by (destruct (Z.ltb_spec (UINT64_MAX - k_now k) dur); lia).
  by rewrite E.
Qed.

(** select answers for exactly the descriptors of its sets.  It fails with
    EBADF when one of them is not open; otherwise the sets it stores have the
    readable and the writable ones among those asked for, the result counts
    them, and a timeval gets the time that is left.  When none is ready and the
    time is not over it sleeps until its deadline, which a call that is made
    again keeps.  The third set comes back empty. *)
Theorem select_correct fuel f nfds ur uw ue utv k : input_ok k -> call_space k -> 0 <= k_now k ->
  Forall (fun u => 0 <= u /\ u + 128 <= USER_TOP) [ur; uw; ue] -> 0 <= utv -> utv + 16 <= USER_TOP ->
  let nr := if f RAX =? 270 then 270 else 23 in
  let bytes := (nfds + 7) / 8 in
  let call := sys_select rtc_now tick fuel f nfds ur uw ue utv k in
  if (nfds <? 0) || (1024 <? nfds) then call = Some (- EINVAL, k)
  else
    match select_times k f nr utv, select_set k ur bytes, select_set k uw bytes, select_set k ue bytes with
    | inl e, _, _, _ => call = Some (e, k)
    | inr (start, deadline), Some rin, Some win, Some ein =>
        let sets := (rin, win, ein) in
        let readable := rbit rtc_now k sets in
        let writable := wbit rtc_now k sets in
        exists k1, synced k k1 /\ k_vm k1 = k_vm k /\
        if existsb (fun fd => bool_decide (answer rtc_now k sets fd = None)) (seqZ 0 nfds) then call = Some (- EBADF, exec (task_io_resume_clear f nr) k1)
        else
          let n := sumZ (fun fd => Z.b2z (readable fd) + Z.b2z (writable fd)) (seqZ 0 nfds) in
          if negb (n =? 0) || (negb (utv =? 0) && (deadline <=? k_now k)) then
            exists rout wout m rc d r k2, call = Some (r, exec (task_io_resume_clear f nr) k2) /\ synced k1 k2 /\
              is_set rout (fun fd => (fd <? nfds) && readable fd) /\ is_set wout (fun fd => (fd <? nfds) && writable fd) /\
              copies (given bytes [(ur, rout); (uw, wout); (ue, empty_set)]) (k_vm k) m rc /\
              (if negb (nr =? 270) && negb (utv =? 0) then copied_to m (k_vm k2) utv (time_left (k_now k) deadline) d else k_vm k2 = m /\ d = 0) /\
              r = if (rc =? 0) && (d =? 0) then n else - EFAULT
          else call = sleep_and_retry tick fuel f IO_WAIT_SELECT nr start deadline deadline k1
    | _, _, _, _ => call = Some (- EFAULT, exec (task_io_resume_clear f nr) k)
    end.
Proof.
  intros Hok Hc Hn Hu Hut Hutt nr bytes call. unfold call. clear call. destruct (_ || (1024 <? nfds)) eqn:Hf; [unfold sys_select; by rewrite Hf|].
  rewrite (select_start fuel f nfds ur uw ue utv k Hf). apply orb_false_iff in Hf as [Hf1%Z.ltb_ge Hf2%Z.ltb_ge]. fold nr.
  destruct (select_times k f nr utv) as [e|[start deadline]]; [done|]. unfold select_body, finish_wait. fold bytes. rewrite !bind_eq.
  destruct (select_set k ur bytes) as [rin|], (select_set k uw bytes) as [win|], (select_set k ue bytes) as [ein|]; try done. cbv zeta.
  destruct (select_pass rtc_now (seqZ 0 nfds) (rin, win, ein) empty_set empty_set 0 k) as [res k1] eqn:E.
  destruct (select_pass_total k (rin, win, ein) nfds res k1 Hok ltac:(lia) E) as (S1 & M1 & R). exists k1. split; [done|]. split; [done|].
  destruct res as [[[rout wout] n]|]; [|by rewrite R, bind_eq].
  destruct R as (-> & Hr & Hw & ->). set (n := sumZ _ _).
  cbn [fst snd]. rewrite (sv_now _ _ (synced_view _ _ S1)). destruct (_ || (_ && (deadline <=? k_now k))); [|done].
  destruct (select_return ur uw ue utv bytes deadline _ rout wout n k1) as [r k2] eqn:E2.
  apply Forall_cons in Hu as [Hur Hu]. apply Forall_cons in Hu as [Huw Hu]. apply Forall_cons in Hu as [Hue _].
  assert (Hset : forall u l p, 0 <= u /\ u + 128 <= USER_TOP -> is_set l p -> set_ok u l) by (intros u l p [? ?] (? & ? & _); by split_and!).
  assert (He : is_set empty_set (fun _ => false)) by (split; [done|]; split; [by apply Forall_replicate | intros; apply isset_empty]).
  assert (Hn0 : 0 <= n) by (apply sumZ_nonneg; intros; destruct (rbit _ _ _ _), (wbit _ _ _ _); cbn; lia).
  destruct (return_spec ur uw ue utv bytes deadline _ rout wout n k1 r k2 ltac:(by apply (call_space_synced k)) Hn0
    (Hset _ _ _ Hur Hr) (Hset _ _ _ Huw Hw) (Hset _ _ _ Hue He) ltac:(done) E2) as (S2 & m & rc & d & C & D & ->).
  rewrite M1, (sv_now _ _ (synced_view _ _ S1)) in *. exists rout, wout, m, rc, d, (if (rc =? 0) && (d =? 0) then n else - EFAULT), k2.
  rewrite bind_eq. split_and!; done.
Qed.
End Memory.

(** ** Sleeping and trying again *)

(** A switch to task [i] leaves the other tasks alone. *)
Lemma switch_other i k j : i <> j -> task (snd (switch_from_syscall i k)) j = task k j.
Proof.
  intros Hne. change (task (exec (switch_from_syscall i) k) j = task k j). unfold switch_from_syscall, switch_to. run_exec.
  set (k1 := _ <| k_current := i |>). assert (E1 : task k1 j = task k j) by (by apply (task_set_ne i _ k j)).
  set (k2 := exec (task_account_switch i) k1). assert (E2 : task k2 j = task k j).
  { rewrite <- E1. unfold k2, task_account_switch. rewrite exec_get. destruct (_ || _); [done | by apply (task_set_ne i _ k1 j)]. }
  rewrite <- E2. generalize (vmm_user_activate (t_ctx (task k2 i) CR3)). intros c. unfold exec, st_mod, on_vm. cbn [snd]. by destruct (c (k_vm k2)).
Qed.

Lemma switch_current i k : 0 <= i < MAX_TASKS -> runnable k i -> k_current (snd (switch_from_syscall i k)) = i.
Proof.
  intros Hi Hr. destruct (switch_to_tasks i k 0 Hi Hr) as (_ & _ & _ & E). unfold switch_from_syscall. rewrite bind_eq.
  change (exec (switch_to i) k) with (snd (switch_to i k)). revert E. generalize (snd (switch_to i k)). by intros.
Qed.

Lemma wake_timed_frame now l k : forall i, i ∉ l -> task (foldl (wake_timed_step now) k l) i = task k i.
Proof.
  revert k. induction l as [|x l IH]; intros k i Hi; [done|]. apply not_elem_of_cons in Hi as [Hx Hi]. cbn [foldl]. rewrite IH by done.
  unfold wake_timed_step. repeat match goal with |- context [if ?b then _ else _] => destruct b end; try done; by apply task_set_ne.
Qed.

(** What the timer interrupt does to a task depends on that task alone. *)
Lemma wake_timed_task k i : task_ok i = true -> task (exec task_wake_timed_io_waiters k) i = task (wake_timed_step (k_now k) k i) i.
Proof.
  intros Hi. unfold task_wake_timed_io_waiters, exec, st_mod. cbn [snd]. generalize (k_now k). intros now.
  assert (Hin : i ∈ all_tasks) by (unfold all_tasks, task_ok in *; apply elem_of_seqZ; lia).
  pose proof (NoDup_seqZ 0 MAX_TASKS) as Hnd. fold all_tasks in Hnd. revert k Hin Hnd. generalize all_tasks. intros l.
  induction l as [|x l IH]; intros k Hin Hnd; [by apply not_elem_of_nil in Hin|]. apply NoDup_cons in Hnd as [Hx Hnd]. cbn [foldl].
  destruct (decide (i = x)) as [->|Hne]; [by apply wake_timed_frame|]. apply elem_of_cons in Hin as [?|Hin]; [done|]. rewrite IH by done.
  assert (E : task (wake_timed_step now k x) i = task k i).
  { unfold wake_timed_step. repeat match goal with |- context [if ?b then _ else _] => destruct b end; try done; by apply task_set_ne. }
  unfold wake_timed_step at 1 3. rewrite E. repeat match goal with |- context [if ?b then _ else _] => destruct b end; rewrite ?task_set_eq; done.
Qed.

(** The record of the interrupted call. *)
Definition resume_of (t : task_t) : bool * Z * Z * Z * Z :=
  (t_io_resume_valid t, t_io_resume_nr t, t_io_resume_rip t, t_io_resume_start_ns t, t_io_resume_deadline_ns t).

(** The registers with which the call is made again: the number in RAX and the
    address of the two-byte instruction. *)
Definition retry_regs (k : kernel) (f : regs) (nr : Z) : regs := fun r =>
  match r with RAX => nr | RIP => f RIP - 2 | r => saved_regs k f r end.

(** The task while it sleeps. *)
Definition asleep (k : kernel) (f : regs) (kind nr start deadline w : Z) (t : task_t) : Prop :=
  t_used t = t_used (task k (k_current k)) /\ t_futex_addr t = t_futex_addr (task k (k_current k)) /\
  t_state t = TASK_BLOCKED /\ t_io_wait_kind t = kind /\ t_io_wait_nr t = nr /\ t_io_wait_deadline_ns t = w /\
  resume_of t = (true, nr, f RIP, start, deadline) /\ forall r, t_ctx t r = retry_regs k f nr r.

Lemma task_current k g : task (upd_task (k_current k) g k) (k_current k) = g (task k (k_current k)).
Proof. apply task_set_eq. Qed.

Lemma sleep_asleep k f kind nr start deadline w : task_ok (k_current k) = true -> 2 <= f RIP ->
  let k1 := exec (sleep_task f kind nr w) (exec (task_io_resume_store f nr start deadline) k) in
  asleep k f kind nr start deadline w (task k1 (k_current k)) /\ k_current k1 = k_current k /\
  forall j, j <> k_current k -> task k1 j = task k j.
Proof.
  intros Hok Hrip. unfold task_io_resume_store. rewrite exec_get, Hok. cbn [negb]. set (k0 := exec _ k).
  assert (E0 : task k0 (k_current k) = (task k (k_current k)) <| t_io_resume_valid := true |> <| t_io_resume_nr := nr |> <| t_io_resume_rip := f RIP |>
    <| t_io_resume_start_ns := start |> <| t_io_resume_deadline_ns := deadline |>) by apply task_set_eq.
  assert (N0 : forall j, j <> k_current k -> task k0 j = task k j) by (intros j Hj; by apply task_set_ne).
  assert (C0 : k_current k0 = k_current k) by done. assert (M0 : saved_regs k0 f = saved_regs k f) by done.
  unfold sleep_task. rewrite exec_get, C0, exec_seq. set (k2 := exec (task_save_from_frame (k_current k) f) k0).
  assert (E2 : task k2 (k_current k) = (task k0 (k_current k)) <| t_ctx := saved_regs k0 f |>) by apply task_set_eq.
  assert (N2 : forall j, j <> k_current k -> task k2 j = task k j) by (intros j Hj; rewrite <- N0 by done; by apply task_set_ne).
  unfold exec at 1 2 3, st_mod at 1 2 3. cbn [snd]. cbv zeta. rewrite task_upd, Z.eqb_refl, E2, E0, M0. split; [|split].
  - unfold asleep, resume_of. cbn. split_and!; try done. intros r.
    assert (Hs : saved_regs k f RIP = f RIP) by done. unfold set_reg. rewrite (decide_False (P := RIP = RAX)) by done. rewrite Hs, (proj2 (Z.leb_le 2 _)) by done.
    unfold retry_regs. destruct (decide (r = RIP)) as [->|Hr]; [done|]. destruct (decide (r = RAX)) as [->|Ha]; [done|]. by destruct r.
  - done.
  - intros j Hj. rewrite task_upd, (proj2 (Z.eqb_neq _ _)) by congruence. by apply N2.
Qed.

(** The times of the call that is made again. *)
Lemma resumed_times k f nr start deadline fresh : task_ok (k_current k) = true ->
  resume_of (task k (k_current k)) = (true, nr, f RIP, start, deadline) -> wait_times k f nr fresh = (start, deadline).
Proof.
  intros Hok E. unfold wait_times, task_io_resume_matches. injection E as -> -> -> -> ->. by rewrite Hok, !Z.eqb_refl.
Qed.

Lemma woken_asleep k f kind nr start deadline w k2 : let ti := k_current k in
  task_ok ti = true -> t_used (task k ti) = true -> t_futex_addr (task k ti) = 0 -> kind <> IO_WAIT_NONE ->
  asleep k f kind nr start deadline w (task k2 ti) ->
  let t := task (exec task_wake_timed_io_waiters k2) ti in
  if negb (w =? 0) && (w <=? k_now k2)
  then t_state t = TASK_RUNNABLE /\ resume_of t = (true, nr, f RIP, start, deadline) /\ forall r, t_ctx t r = retry_regs k f nr r
  else t = task k2 ti.
Proof.
  intros ti Hok Hu Hfx Hk (A1 & A2 & A3 & A4 & A5 & A6 & A7 & A8). cbv zeta. rewrite wake_timed_task by done. unfold wake_timed_step.
  rewrite A1, A2, A3, A4, A5, A6. fold ti. rewrite Hu, Hfx, (proj2 (Z.eqb_neq kind _)) by done. rewrite (Z.eqb_refl TASK_BLOCKED). change (0 =? 0) with true. cbn [negb orb andb].
  destruct (Z.eqb_spec w 0) as [->|Hw]; cbn [negb orb andb]; [done|]. rewrite Z.leb_antisym. destruct (k_now k2 <? w); cbn [negb]; [done|].
  rewrite task_set_eq. split; [done|]. split; [exact A7|]. intros r. cbn. unfold set_reg. rewrite A8.
  destruct (decide (r = RAX)) as [->|]; done.
Qed.

(** C29. A wait that sleeps ends in time and keeps its deadline.  When another task
    can run, a call that has to wait leaves its task asleep; the timer
    interrupt makes it runnable exactly when the wake-up time has come, with
    the registers of a second attempt at the same call; and that attempt goes
    on with the start and the deadline of the first, whatever its arguments. *)
Theorem wait_restarts fuel f kind nr start deadline w k r k1 j : let ti := k_current k in
  task_ok ti = true -> t_used (task k ti) = true -> t_futex_addr (task k ti) = 0 -> kind <> IO_WAIT_NONE -> 2 <= f RIP ->
  sched_bounds k -> 0 <= j < MAX_TASKS -> j <> ti -> runnable k j ->
  sleep_and_retry tick fuel f kind nr start deadline w k = Some (r, k1) ->
  r = 0 /\ k_current k1 <> ti /\ t_state (task k1 ti) = TASK_BLOCKED /\
  forall k2, task k2 ti = task k1 ti ->
    let t := task (exec task_wake_timed_io_waiters k2) ti in
    if negb (w =? 0) && (w <=? k_now k2) then
      t_state t = TASK_RUNNABLE /\ (forall r, t_ctx t r = retry_regs k f nr r) /\
      forall k3 f' fresh, k_current k3 = ti -> resume_of (task k3 ti) = resume_of t -> f' RIP = t_ctx t RIP + 2 ->
        wait_times k3 f' nr fresh = (start, deadline)
    else t = task k1 ti.
Proof.
  intros ti Hok Hu Hfx Hk Hrip Hb Hj Hne Hr. unfold sleep_and_retry, task_block_io_until.
  set (k0 := exec (task_io_resume_store f nr start deadline) k).
  assert (C0 : k_current k0 = ti) by (unfold k0, task_io_resume_store; rewrite exec_get, (Hok : task_ok (k_current k) = true); done). rewrite C0, Hok. cbn [negb].
  change (snd (sleep_task f kind nr w k0)) with (exec (sleep_task f kind nr w) k0). destruct (sleep_asleep k f kind nr start deadline w Hok Hrip) as (A & C & N).
  fold k0 ti in A, C, N. set (ks := exec (sleep_task f kind nr w) k0) in *.
  assert (Hrun : forall i, runnable ks i -> i <> ti /\ runnable k i).
  { intros i [R1 R2]. destruct (Z.eq_dec i ti) as [->|Hi]; [destruct A as (_ & _ & A & _); by rewrite A in R2|]. split; [done|]. unfold runnable in *. by rewrite <- N. }
  assert (Hbs : sched_bounds ks).
  { split; [rewrite C; apply Hb|]. intros i Hi. destruct (Hrun i Hi) as [Hi1 Hi2]. rewrite N by done. by apply Hb. }
  assert (Hjs : runnable ks j) by (unfold runnable; by rewrite N).
  assert (Hp : 0 <= task_pick_next ks < MAX_TASKS /\ runnable ks (task_pick_next ks)).
  { unfold task_pick_next. pose proof (pick_all ks Hbs MAX_TASKS ltac:(done) ltac:(done)) as H. destruct (foldl _ _ _) as [[b bn] bs].
    destruct H as [(-> & _ & _ & H)|(H1 & H2 & _)]; [|done]. exfalso. exact (H j Hj (proj2 (turn_range ks j)) Hjs). }
  destruct Hp as [Hp1 Hp2]. destruct (Hrun _ Hp2) as [Hnt _]. destruct (Z.ltb_spec (task_pick_next ks) 0); [lia|].
  pose proof (switch_other _ ks ti Hnt) as Ht.
  assert (Hc : k_current (snd (switch_from_syscall (task_pick_next ks) ks)) = task_pick_next ks).
  { by apply switch_current. }
  revert Ht Hc. generalize (snd (switch_from_syscall (task_pick_next ks) ks)). intros kw Ht Hc. cbn [Z.eqb]. intros [= <- <-].
  split; [done|]. rewrite Ht, Hc. split; [done|].
  split; [apply A|]. intros k2 E2. pose proof (woken_asleep k f kind nr start deadline w k2 Hok Hu Hfx Hk) as W. fold ti in W.
  rewrite E2 in W. specialize (W A). cbv zeta in *. destruct (negb (w =? 0) && _); [|exact W]. destruct W as (W1 & W2 & W3).
  split; [done|]. split; [done|]. intros k3 f' fresh C3 R3 Hf. rewrite W2 in R3. rewrite W3 in Hf. cbn in Hf.
  assert (Hf' : f' RIP = f RIP) by lia. apply resumed_times; rewrite C3; [done|]. by rewrite R3, Hf'.
Qed.
End Irq.

(** ** The theorems at concrete inputs *)

#[local] Existing Instance demo_hhdm.
Local Abbreviation pmm_space_ok := (space_ok (inv := pmm_wf) (held := pool_held)).
Local Abbreviation no_rtc := (0, 0).

(** Descriptor 3 is an epoll file that watches descriptor 4, an event counter
    with 5 events; descriptor 5 is a timer that expires at 50 and then every
    100.  At 0x400200 there is an epoll_event, at 0x400300 an array for poll,
    at 0x400400 a set with descriptor 4. *)
Definition stored_at (a : Z) (l : list Z) (m : machine) : machine := snd (user_copy_to_cr3 (m_user_pml4 m) a l m).
Definition event_machine : machine :=
  stored_at 0x400200 [1; 0; 0; 0; 9; 0; 0; 0; 0; 0; 0; 0] (stored_at 0x400300 [4; 0; 0; 0; 1; 0; 0; 0] (stored_at 0x400400 [16] demo_mapped)).
Definition event_kernel : kernel :=
  set_epoll 0 (EpollState true 1 {[0 := EpollWatch true 4 POLLIN 7]}) (set_eventfd 0 (EventfdState 5 1) (set_timerfd 0 (TimerfdState 1 1 100 50 0)
    (set_fdesc 0 3 (event_file FD_EPOLL 0 (PEpoll 0) blank_file_desc) (set_fdesc 0 4 (event_file FD_EVENTFD 0 (PEventfd 0) blank_file_desc)
    (set_fdesc 0 5 (event_file FD_TIMERFD 0 (PTimerfd 0) blank_file_desc) (set_table_refs 0 1 (blank_kernel <| k_vm := event_machine |>))))))).

Lemma event_fdesc t fd : f_input_state (fdesc event_kernel t fd) = None.
Proof.
  unfold event_kernel, set_epoll, set_eventfd, set_timerfd, fdesc, set_fdesc. cbn. unfold cell, default.
  repeat (rewrite lookup_insert; case_decide; [done|]). by rewrite lookup_empty.
Qed.
Lemma event_input : input_ok event_kernel.
Proof. intros t fd t' fd' i H. by rewrite event_fdesc in H. Qed.

Lemma stored_space a l m : pmm_space_ok m -> 0 <= a -> a + Z.of_nat (length l) <= USER_TOP -> Forall is_byte l -> pmm_space_ok (stored_at a l m).
Proof.
  intros Hs Ha Ht Hb. unfold stored_at, user_copy_to_cr3. rewrite space_root by done. destruct (copy_to_loop _ _ _ _ m) as [r m'] eqn:E.
  by destruct (copy_to_loop_spec (inv := pmm_wf) (held := pool_held) _ _ _ _ _ _ Hs Ha Ht (le_n _) Hb E).
Qed.
Lemma event_vm : k_vm event_kernel = event_machine.
Proof. unfold event_kernel. by generalize event_machine. Qed.
Lemma event_space : call_space (inv := pmm_wf) (held := pool_held) event_kernel.
Proof.
  split; [|vm_compute; reflexivity]. rewrite event_vm. unfold event_machine.
  apply stored_space; [apply stored_space; [apply stored_space; [apply demo_mapped_space | ..]|..]|..]; unfold USER_TOP; try (cbn [length]; lia);
    repeat constructor; unfold is_byte; lia.
Qed.

Lemma event_watches : watches_ok (epoll event_kernel 0).
Proof.
  assert (H : forall i, ew_used (watch (epoll event_kernel 0) i) = true -> i = 0).
  { intros i. unfold event_kernel. rewrite epoll_set. unfold watch, cell, default. cbn. rewrite lookup_singleton. by case_decide. }
  intros i j _ _ Hi%H Hj%H _. congruence.
Qed.

(** Watching the timer: descriptor 5 joins the interest list. *)
Lemma epoll_ctl_witness : interest (epoll (snd (sys_epoll_ctl 3 EPOLL_CTL_ADD 5 0x400200 event_kernel)) 0) !! 5 = Some (1, 9).
Proof.
  pose proof (epoll_ctl_refines 3 EPOLL_CTL_ADD 5 0x400200 event_kernel 0 ltac:(vm_compute; reflexivity) event_watches) as H. cbv zeta in H.
  assert (E : ((5 <? 0) || (MAX_FILES + 3 <=? 5) || negb (ep_used (epoll event_kernel 0))) = false) by (vm_compute; reflexivity). rewrite E in H.
  assert (E2 : (if EPOLL_CTL_ADD =? EPOLL_CTL_DEL then Some [] else user_copy_from event_kernel 0x400200 EPOLL_EVENT_SIZE)
    = Some [1; 0; 0; 0; 9; 0; 0; 0; 0; 0; 0; 0]) by (vm_compute; reflexivity). rewrite E2 in H.
  destruct H as (e & Hc & Hi & _). rewrite Hc. cbn [snd]. rewrite epoll_set, Hi. vm_compute. reflexivity.
Defined.

Definition wait_run : option (Z * kernel) := sys_epoll_wait no_rtc idle_tick 0 blank_regs 3 0x400500 8 0 event_kernel.
Lemma wait_run_ok : option_map fst wait_run = Some 1.
Proof. vm_compute. reflexivity. Qed.
Lemma event_ready : ready_list no_rtc event_kernel (watches (epoll event_kernel 0)) = [(POLLIN, 7)].
Proof. vm_compute. reflexivity. Qed.

Lemma epoll_wait_witness : stored event_machine (k_vm (after wait_run)) 0x400500 (epoll_event_bytes (POLLIN, 7)).
Proof.
  pose proof (epoll_wait_correct (inv := pmm_wf) (held := pool_held) no_rtc idle_tick 0 blank_regs 3 0x400500 8 0 event_kernel 0 event_input event_space
    (Z.le_refl 0) ltac:(vm_compute; reflexivity) ltac:(vm_compute; reflexivity) ltac:(lia) ltac:(unfold USER_TOP; lia)) as H.
  cbv zeta in H. rewrite event_ready in H. change (concat (map epoll_event_bytes (take (Z.to_nat 8) [(POLLIN, 7)]))) with (epoll_event_bytes (POLLIN, 7)) in H. specialize (H ltac:(vm_compute; discriminate)). destruct H as (k1 & _ & _ & rc & k' & E & _ & Hc).
  destruct (after_inv _ _ _ E) as [Ek Hr]. fold wait_run in Ek, Hr. rewrite wait_run_ok in Hr. rewrite Ek.
  destruct Hc as [(_ & Hst & _)|(Hrc & _)]; [rewrite event_vm in Hst; exact Hst | rewrite Hrc in Hr; discriminate Hr].
Defined.

Lemma poll_run_ok : option_map fst (sys_poll no_rtc idle_tick 0 blank_regs 0x400300 1 0 event_kernel) = Some 1.
Proof. vm_compute. reflexivity. Qed.
Lemma poll_array : user_copy_from event_kernel 0x400300 8 = Some [4; 0; 0; 0; 1; 0; 0; 0].
Proof. vm_compute. reflexivity. Qed.


Lemma select_sets : select_set event_kernel 0x400400 1 = Some [16] /\ select_times event_kernel blank_regs 23 0 = inr (0, 0).
Proof. vm_compute. done. Qed.
Lemma select_answers : existsb (fun fd => bool_decide (answer no_rtc event_kernel ([16], empty_set, empty_set) fd = None)) (seqZ 0 6) = false /\
  sumZ (fun fd => Z.b2z (rbit no_rtc event_kernel ([16], empty_set, empty_set) fd) + Z.b2z (wbit no_rtc event_kernel ([16], empty_set, empty_set) fd)) (seqZ 0 6) = 1 /\
  rbit no_rtc event_kernel ([16], empty_set, empty_set) 4 = true.
Proof. vm_compute. done. Qed.

Lemma select_witness : exists rout, length rout = 128%nat /\ fd_isset rout 4 = true.
Proof.
  pose proof (select_correct (inv := pmm_wf) (held := pool_held) no_rtc idle_tick 0 blank_regs 6 0x400400 0 0 0 event_kernel event_input event_space
    (Z.le_refl 0) ltac:(repeat constructor; unfold USER_TOP; lia) (Z.le_refl 0) ltac:(unfold USER_TOP; lia)) as H.
  cbv zeta in H. change ((6 + 7) / 8) with 1 in H. change (if blank_regs RAX =? 270 then 270 else 23) with 23 in H.
  rewrite (proj1 select_sets), (proj2 select_sets) in H. destruct select_answers as (E1 & E2 & E3).
  destruct H as (k1 & _ & _ & H). rewrite E1, E2 in H. destruct H as (rout & wout & m & rc & d & r & k2 & _ & _ & (Hl & _ & Hr) & _).
  exists rout. split; [exact Hl|]. rewrite (Hr 4) by lia. exact E3.
Defined.

(** Task 0 waits until time 9, and task 2 runs. *)
Definition sleepy_kernel : kernel := set_task 0 (blank_task_t <| t_used := true |>) three_tasks.
Definition sleepy_regs : regs := set_reg blank_regs RIP 0x400100.
Definition sleepy_run : option (Z * kernel) := sleep_and_retry idle_tick 0 sleepy_regs IO_WAIT_POLL 7 1 9 9 sleepy_kernel.

Lemma sleepy_task i : task sleepy_kernel i = if 0 =? i then blank_task_t <| t_used := true |> else task three_tasks i.
Proof. unfold sleepy_kernel. by rewrite task_set. Qed.

Lemma sleepy_bounds : sched_bounds sleepy_kernel.
Proof.
  split; [vm_compute; split; congruence|]. intros i Hi. rewrite sleepy_task. unfold runnable in Hi. rewrite sleepy_task in Hi.
  destruct (0 =? i); [vm_compute; repeat split; congruence | by apply three_bounds].
Qed.

Lemma sleepy_run_ok : sleep_and_retry idle_tick 0 sleepy_regs IO_WAIT_POLL 7 1 9 9 sleepy_kernel = Some (0, after sleepy_run).
Proof. unfold sleepy_run. apply after_eq. vm_compute. reflexivity. Qed.

Lemma at_time k n : task (k <| k_now := n |>) 0 = task k 0 /\ k_now (k <| k_now := n |>) = n.
Proof. done. Qed.
Definition woken_kernel : kernel := (after sleepy_run) <| k_now := 9 |>.

Lemma wait_restarts_witness : t_state (task (exec task_wake_timed_io_waiters woken_kernel) 0) = TASK_RUNNABLE.
Proof.
  destruct (wait_restarts idle_tick 0 sleepy_regs IO_WAIT_POLL 7 1 9 9 sleepy_kernel 0 (after sleepy_run) 2 ltac:(vm_compute; reflexivity)
    ltac:(vm_compute; reflexivity) ltac:(vm_compute; reflexivity) ltac:(discriminate) ltac:(vm_compute; discriminate) sleepy_bounds ltac:(done) ltac:(vm_compute; discriminate)
    ltac:(vm_compute; done) sleepy_run_ok) as (_ & _ & _ & H).
  destruct (at_time (after sleepy_run) 9) as [E Hn]. fold woken_kernel in E, Hn. specialize (H woken_kernel E). cbv zeta in H. rewrite Hn in H.
  destruct H as [H _]. exact H.
Defined.
