(* ===== verification/ReadyThms.v ===== *)
(** * Timers, and what makes a descriptor ready to read *)

From S2P Require Import Prelude Words Pmm PmmFacts PmmInit PmmThms PageAlloc.
From S2P Require Import Vmm VmmFacts VmmMap VmmSpace VmmThms CStr Vfs Kernel Tty Fd FdFacts FdInv FdThms Sched SchedFacts.
From S2P Require Import UserCopy UserMem UserMemThms Pipe PipeFacts Signals SignalFacts Socket SocketFacts SocketThms.
From S2P Require Import Events Poll PollFacts PollThms.
Local Open Scope Z_scope.
Local Open Scope st_scope.

Section Irq.
Variable rtc_now : Z * Z.
Variable tick : kernel -> kernel.

(** ** Timers *)

Record timer_ok (now : Z) (t : timerfd_state_k) : Prop := {
  to_now : 0 <= now < 2 ^ 64;
  to_next : 0 <= tm_next_ns t;
  to_interval : 0 <= tm_interval_ns t;
  to_fits : now + tm_interval_ns t < 2 ^ 64;
  to_idle : tm_expirations t = 0
}.

(** [n] expiries of the timer are over at [now], the next one is at [next]. *)
Definition expired (now : Z) (t : timerfd_state_k) (n next : Z) : Prop :=
  (n = 0 /\ next = tm_next_ns t /\ (next = 0 \/ now < next)) \/
  (0 < tm_next_ns t <= now /\ tm_interval_ns t = 0 /\ n = 1 /\ next = 0) \/
  (0 < tm_next_ns t <= now /\ 0 < tm_interval_ns t /\ next = tm_next_ns t + n * tm_interval_ns t /\ next - tm_interval_ns t <= now < next).

Lemma expire_spec now t : timer_ok now t -> exists n next,
  timerfd_expire now t = t <| tm_expirations := n |> <| tm_next_ns := next |> /\ expired now t n next /\ 0 <= n < 2 ^ 64.
Proof.
  intros [Hn Hx Hi Hf H0]. unfold timerfd_expire. destruct (Z.eqb_spec (tm_next_ns t) 0) as [Ez|Ez]; cbn [negb andb].
  { exists 0, (tm_next_ns t). split; [by destruct t; cbn in *; subst|]. split; [left; auto | lia]. }
  destruct (Z.leb_spec (tm_next_ns t) now); [|exists 0, (tm_next_ns t); split; [by destruct t; cbn in *; subst | split; [left; auto | lia]]].
  destruct (Z.eqb_spec (tm_interval_ns t) 0) as [Ei|Ei]; cbn [negb].
  { exists 1, 0. split; [done|]. split; [right; left; split_and!; (done || lia) | lia]. }
  set (q := (now - tm_next_ns t) / tm_interval_ns t). assert (Hq : 0 <= q <= now - tm_next_ns t) by (unfold q; split; [apply Z.div_pos; lia | apply Z.div_le_upper_bound; nia]).
  assert (Hm : q * tm_interval_ns t <= now - tm_next_ns t < q * tm_interval_ns t + tm_interval_ns t).
  { unfold q. pose proof (Z.div_mod (now - tm_next_ns t) (tm_interval_ns t) ltac:(lia)). pose proof (Z.mod_pos_bound (now - tm_next_ns t) (tm_interval_ns t) ltac:(lia)). nia. }
  assert (E1 : missed_periods now (tm_next_ns t) (tm_interval_ns t) = q + 1) by (unfold missed_periods; fold q; apply u64_small; lia).
  rewrite E1, H0, Z.add_0_l. rewrite (u64_small (q + 1)) by lia. rewrite (u64_small ((q + 1) * _)) by nia. rewrite u64_small by nia.
  exists (q + 1), (tm_next_ns t + (q + 1) * tm_interval_ns t). split; [done|]. split; [right; right; split_and!; nia | lia].
Qed.

Lemma timerfd_set i t k j : timerfd (set_timerfd i t k) j = if i =? j then t else timerfd k j.
Proof. apply cell_insert. Qed.

Section TimerRead.
Context {HB : HhdmBase} {inv : pmm -> Prop} {held : pmm -> Z -> Prop} `{PA : !PageAllocator inv held}.
Local Abbreviation call_space := (call_space (inv := inv) (held := held)).

(** A read of a timer delivers the number of expiries since the last read:
    those of a periodic timer are the multiples of the interval counted from
    the first expiry, a timer without interval expires once, and the timer is
    left at its first expiry that lies in the future, so that none is lost or
    counted twice.  Without an expiry the read answers EAGAIN, on blocking
    descriptors too. *)
Theorem timerfd_read_correct i buf k r k' : let now := clock_now_ns_simple rtc_now k (tm_clockid (timerfd k i)) in
  call_space k -> timer_ok now (timerfd k i) -> 0 <= buf -> buf + 8 <= USER_TOP -> timerfd_read rtc_now i buf 8 k = (r, k') ->
  exists n next, expired now (timerfd k i) n next /\
    timerfd k' i = (timerfd k i) <| tm_next_ns := next |> /\ (forall j, j <> i -> timerfd k' j = timerfd k j) /\
    (exists ts m, k' = k <| k_timerfds := ts |> <| k_vm := m |>) /\
    if n =? 0 then r = - EAGAIN /\ k_vm k' = k_vm k
    else exists rc, copied_to (k_vm k) (k_vm k') buf (word_bytes n) rc /\ r = if rc =? 0 then 8 else - EFAULT.
Proof.
  intros now Hc Ht Hb Htop. unfold timerfd_read. rewrite bind_get. change (negb (8 =? 8)) with false. cbv iota zeta. fold now.
  destruct (expire_spec now (timerfd k i) Ht) as (n & next & E & Hx & Hn). rewrite E. set (t := timerfd k i) in *.
  assert (Hidle : forall x, (t <| tm_expirations := x |> <| tm_next_ns := next |>) <| tm_expirations := 0 |> = t <| tm_next_ns := next |>).
  { intros x. pose proof (to_idle _ _ Ht) as H0. destruct t. cbn in *. by subst. }
  rewrite bind_eq. cbn [fst st_mod]. change (tm_expirations (t <| tm_expirations := n |> <| tm_next_ns := next |>)) with n.
  set (k1 := exec _ k). assert (T1 : forall j, timerfd k1 j = if i =? j then t <| tm_expirations := n |> <| tm_next_ns := next |> else timerfd k j)
    by (intros j; apply timerfd_set).
  destruct (Z.eqb_spec n 0) as [Hn0|Hn0].
  { intros [= <- <-]. exists 0, next. subst n. split; [done|]. rewrite T1, Z.eqb_refl. split; [rewrite <- (Hidle 0); by destruct t|].
    split; [intros j Hj; by rewrite T1, (proj2 (Z.eqb_neq _ _)) by congruence|]. split; [|done].
    exists (k_timerfds k1), (k_vm k). unfold k1. by destruct k. }
  rewrite bind_eq. cbn [fst st_mod]. set (k2 := exec _ k1). rewrite bind_eq.
  destruct (user_copy_to buf (word_bytes n) k2) as [rc k3] eqn:E3. cbn [fst].
  assert (Hc2 : call_space k2) by (destruct Hc; by split).
  destruct (copy_to_call k2 buf _ rc k3 Hc2 Hb ltac:(rewrite word_bytes_length; lia) (word_bytes_range n) E3) as (_ & _ & _ & Hres).
  assert (Ex : exec (user_copy_to buf (word_bytes n)) k2 = k3) by (unfold exec; by rewrite E3).
  pose proof (user_copy_to_vm buf (word_bytes n) k2) as Ek. rewrite Ex in *. intros [= <- <-].
  exists n, next. split; [done|]. assert (T3 : forall j, timerfd k3 j = if i =? j then t <| tm_next_ns := next |> else timerfd k j).
  { intros j. rewrite Ek. change (timerfd (k2 <| k_vm := k_vm k3 |>) j) with (timerfd k2 j). unfold k2, exec, st_mod. cbn [snd].
    rewrite timerfd_set, T1, Hidle. by destruct (i =? j). }
  rewrite T3, Z.eqb_refl. split; [done|]. split; [intros j Hj; by rewrite T3, (proj2 (Z.eqb_neq _ _)) by congruence|]. split.
  { exists (k_timerfds k2), (k_vm k3). rewrite Ek. unfold k2, k1. by destruct k. }
  rewrite (proj2 (Z.eqb_neq n 0)) by done. exists rc. split; [exact Hres | by destruct (rc =? 0)].
Qed.
End TimerRead.

(** ** Readiness and reading *)

(** [b] says whether a file has data, or no more data will come: a connected
    socket, the read end of a pipe, an event counter, a timer. *)
Inductive data_ready (k : kernel) (fd : Z) : bool -> Prop :=
  | dr_socket i side : on_socket k fd i side -> sk_listener (sock k i) = false -> sk_refs (sock k i) <> 0 ->
      data_ready k fd (negb (arr (sk_count (sock k i)) side =? 0) || negb (arr (sk_closed (sock k i)) (Z.lxor side 1) =? 0))
  | dr_pipe pi : f_type (file k fd) = FD_PIPE_R -> f_private (file k fd) = PPipe pi ->
      data_ready k fd (negb (pi_count (pipe k pi) =? 0) || (pi_writers (pipe k pi) =? 0))
  | dr_eventfd i : f_type (file k fd) = FD_EVENTFD -> f_private (file k fd) = PEventfd i ->
      data_ready k fd (negb (ev_value (eventfd k i) =? 0))
  | dr_timerfd i : f_type (file k fd) = FD_TIMERFD -> f_private (file k fd) = PTimerfd i ->
      timer_ok (clock_now_ns_simple rtc_now k (tm_clockid (timerfd k i))) (timerfd k i) ->
      data_ready k fd (negb (tm_next_ns (timerfd k i) =? 0) && (tm_next_ns (timerfd k i) <=? clock_now_ns_simple rtc_now k (tm_clockid (timerfd k i)))).

(** The branches of sys_read for these files. *)
Definition read_branch (fuel : nat) (f : regs) (fd buf count : Z) (k : kernel) : option (Z * kernel) :=
  match f_private (file k fd) with
  | PSock _ _ => sys_recvfrom tick fuel f fd buf (s32 count) 0 k
  | PPipe pi => Some (sys_pipe_read_dispatch f fd pi (f_flags (file k fd)) buf count k)
  | PEventfd i => Some (sys_read_event eventfd_read i buf count k)
  | PTimerfd i => Some (sys_read_event (timerfd_read rtc_now) i buf count k)
  | _ => None
  end.

(** The copy loops count up. *)
Lemma recv_loop_ge fuel i side buf n : forall done k, match fst (recv_loop fuel i side buf n done k) with inl d | inr d => done <= d end.
Proof.
  induction fuel as [|fuel IH]; intros done k; cbn [recv_loop]; destruct (Z.leb_spec n done); try (cbn; lia).
  rewrite bind_get. destruct (sock_take _ _ _) as [tmp s]. rewrite bind_eq, bind_eq. destruct (negb _); [cbn; lia|].
  specialize (IH (done + Z.min (n - done) TMP_SIZE)). match goal with |- context [recv_loop fuel i side buf n ?d ?k] => specialize (IH k) end.
  unfold TMP_SIZE in *. destruct (fst _); lia.
Qed.

Lemma pipe_take_count n : forall p, pi_count (snd (pipe_take n p)) = pi_count p - Z.of_nat n.
Proof.
  induction n as [|n IH]; intros p; [cbn; lia|]. cbn [pipe_take]. specialize (IH (p <| pi_rpos := (pi_rpos p + 1) mod PIPE_CAP |> <| pi_count := pi_count p - 1 |>)).
  destruct (pipe_take n _) as [l p']. cbn [snd] in *. rewrite IH. cbn. lia.
Qed.

Lemma pipe_fill_ge fuel pi cr3 buf count : forall done k, 0 <= pi_count (pipe k pi) ->
  match fst (pipe_fill fuel pi cr3 buf count done k) with (Some d, _) | (None, d) => done <= d end.
Proof.
  induction fuel as [|fuel IH]; intros done k Hc; cbn [pipe_fill]; rewrite bind_get;
    destruct (Z.leb_spec count done), (Z.eqb_spec (pi_count (pipe k pi)) 0) as [Hz|Hz]; cbn [orb]; try (cbn; lia).
  cbv zeta. set (n := Z.min (Z.min (count - done) TMP_SIZE) (pi_count (pipe k pi))). assert (Hn : 0 < n <= pi_count (pipe k pi)) by (unfold n, TMP_SIZE; lia).
  pose proof (pipe_take_count (Z.to_nat n) (pipe k pi)) as Ht. destruct (pipe_take _ _) as [tmp p]. cbn [snd] in Ht.
  rewrite bind_eq. set (k1 := exec (st_mod (set_pipe pi p)) k). assert (E1 : pipe k1 pi = p) by apply cell_insert_eq.
  rewrite bind_eq. set (k2 := exec _ k1). assert (E2 : pipe k2 pi = p).
  { rewrite <- E1. unfold k2, exec, on_vm. by destruct (user_copy_to_cr3 _ _ _ _). }
  destruct (negb _); [cbn; lia|]. specialize (IH (done + n) k2 ltac:(rewrite E2; lia)).
  destruct (fst (pipe_fill fuel pi cr3 buf count (done + n) k2)) as [[d|] d']; lia.
Qed.

(** A read of a ready file gives an answer of its own. *)
Definition EAGAIN_only (o : option (Z * kernel)) : Prop := option_map fst o = Some (- EAGAIN).

Lemma read_socket fuel f fd buf k i side : on_socket k fd i side -> has (f_flags (file k fd)) 0x800 = true ->
  EAGAIN_only (sys_recvfrom tick fuel f fd buf 8 0 k) <->
  negb (arr (sk_count (sock k i)) side =? 0) || negb (arr (sk_closed (sock k i)) (Z.lxor side 1) =? 0) = false.
Proof.
  intros Hon Hnb. destruct (on_socket_state k fd i side Hon) as (Hv & Hst & Hsd). unfold EAGAIN_only, sys_recvfrom. rewrite Hv, Hst, Hsd, Hnb. cbn [negb Z.ltb Z.eqb].
  change (8 <? 0) with false. change (8 =? 0) with false. cbv iota. destruct (Z.eqb_spec (arr (sk_count (sock k i)) side) 0) as [Hc|Hc]; cbn [negb orb].
  - by destruct (arr (sk_closed (sock k i)) (Z.lxor side 1) =? 0).
  - split; [|done]. pose proof (recv_loop_ge (Z.to_nat (if 8 <? arr (sk_count (sock k i)) side then 8 else arr (sk_count (sock k i)) side)) i side buf
      (if 8 <? arr (sk_count (sock k i)) side then 8 else arr (sk_count (sock k i)) side) 0 k) as H.
    destruct (recv_loop _ _ _ _ _ _ k) as [[d|d] k']; cbn [fst option_map] in *; rewrite ?wake_then; cbn [fst]; intros [= Hd]; exfalso; revert Hd.
    + unfold count_or_fault, EAGAIN. destruct (d =? 0); [done | lia].
    + unfold EAGAIN. lia.
Qed.

Lemma read_pipe fuel f fd buf k pi : 0 <= pi_count (pipe k pi) -> has (f_flags (file k fd)) 0x800 = true -> buf <> 0 -> user_range_ok k buf 8 true = true ->
  f_private (file k fd) = PPipe pi ->
  EAGAIN_only (read_branch fuel f fd buf 8 k) <-> negb (pi_count (pipe k pi) =? 0) || (pi_writers (pipe k pi) =? 0) = false.
Proof.
  intros Hpc Hnb Hbuf Hrg Hp. unfold EAGAIN_only, read_branch. rewrite Hp. unfold sys_pipe_read_dispatch. change (8 =? 0) with false. cbv iota. rewrite bind_get, (Hnb : has (f_flags (file k fd)) O_NONBLOCK = true).
  destruct (Z.eqb_spec (pi_count (pipe k pi)) 0) as [Hc|Hc]; cbn [negb orb]; [by destruct (pi_writers (pipe k pi) =? 0)|]. split; [|done].
  unfold sys_read_pipe. rewrite bind_get, (proj2 (Z.eqb_neq buf 0)), Hrg by done. change (8 =? 0) with false. cbn [andb negb]. unfold pipe_read. rewrite bind_get. change (8 =? 0) with false. cbv iota.
  rewrite (proj2 (Z.eqb_neq (pi_count (pipe k pi)) 0)) by done. rewrite bind_eq.
  pose proof (pipe_fill_ge (Z.to_nat (pi_count (pipe k pi))) pi (syscall_cr3 k) buf 8 0 k Hpc) as H. destruct (fst (pipe_fill _ _ _ _ _ _ k)) as [[d|] d'];
    cbn [option_map fst st_ret]; intros [= Hd]; exfalso; revert Hd; unfold EAGAIN; [lia|]. destruct (Z.eqb_spec d' 0); cbn [negb]; unfold EFAULT; lia.
Qed.

Lemma read_event fuel f fd buf k g i : f_private (file k fd) = g i -> (g = PEventfd \/ g = PTimerfd) -> buf <> 0 -> user_range_ok k buf 8 true = true ->
  read_branch fuel f fd buf 8 k = Some ((if decide (f_private (file k fd) = PEventfd i) then eventfd_read i buf 8 else timerfd_read rtc_now i buf 8) k).
Proof.
  intros Hp Hg Hbuf Hrg. unfold read_branch. destruct Hg as [-> | ->]; rewrite Hp; [rewrite decide_True by done | rewrite decide_False by done];
    unfold sys_read_event; rewrite bind_get, (proj2 (Z.eqb_neq buf 0)), Hrg by done; done.
Qed.

Lemma read_eventfd buf k i : fst (eventfd_read i buf 8 k) = - EAGAIN <-> negb (ev_value (eventfd k i) =? 0) = false.
Proof.
  unfold eventfd_read. rewrite bind_get. change (negb (8 =? 8)) with false. cbv iota zeta. destruct (ev_value (eventfd k i) =? 0); cbn [negb]; [done|].
  split; [|done]. rewrite bind_eq, bind_eq. cbn [fst st_ret]. by destruct (negb _).
Qed.

Lemma timer_ready_expired now t n next : expired now t n next ->
  negb (tm_next_ns t =? 0) && (tm_next_ns t <=? now) = negb (n =? 0).
Proof.
  intros [(-> & -> & [->|H])|[(H & _ & -> & _)|(H & Hi & -> & Hn)]]; destruct (Z.eqb_spec (tm_next_ns t) 0), (Z.leb_spec (tm_next_ns t) now); cbn; try lia; try done.
Qed.

Lemma read_timerfd buf k i : let now := clock_now_ns_simple rtc_now k (tm_clockid (timerfd k i)) in timer_ok now (timerfd k i) ->
  fst (timerfd_read rtc_now i buf 8 k) = - EAGAIN <-> negb (tm_next_ns (timerfd k i) =? 0) && (tm_next_ns (timerfd k i) <=? now) = false.
Proof.
  intros now Ht. destruct (expire_spec now (timerfd k i) Ht) as (n & next & E & Hx & _). rewrite (timer_ready_expired _ _ _ _ Hx).
  unfold timerfd_read. rewrite bind_get. change (negb (8 =? 8)) with false. cbv iota zeta. fold now. rewrite E, bind_eq.
  change (tm_expirations ((timerfd k i) <| tm_expirations := n |> <| tm_next_ns := next |>)) with n. destruct (n =? 0); cbn [negb]; [done|].
  split; [|done]. rewrite !bind_eq. cbn [fst st_ret]. by destruct (negb _).
Qed.

(** What the three calls say about such a file, asked for input. *)
Lemma masks_agree k fd b : fd_inv k -> fd_ok fd = true -> f_in_use (file k fd) = true -> data_ready k fd b ->
  negb (poll_mask rtc_now k fd POLLIN =? 0) = b /\ fst (select_fd_state rtc_now fd true false k) = Some (b, false) /\
  (fd <> 1 -> fd <> 2 -> negb (epoll_mask rtc_now k fd POLLIN =? 0) = b).
Proof.
  intros Hi Hfd Hu Hr. pose proof (eq_refl : has POLLIN POLLIN = true) as Ein. pose proof (eq_refl : has POLLIN POLLOUT = false) as Eout.
  pose proof (eq_refl : has POLLIN POLLERR = false) as Eerr.
  assert (Hps : f_type (file k fd) <> FD_PSEUDO -> f_type (file k fd) <> FD_EPOLL ->
    poll_mask rtc_now k fd POLLIN = poll_events rtc_now k (file k fd) POLLIN /\
    select_fd_state rtc_now fd true false k = (select_ready rtc_now k (file k fd) true false, k) /\
    (fd <> 1 -> fd <> 2 -> epoll_mask rtc_now k fd POLLIN = epoll_events rtc_now k (file k fd) POLLIN)).
  { intros Ht Hte. assert (Hcs : fd_is_console_stream k fd = false) by (unfold fd_is_console_stream; by rewrite Hfd, Hu, (proj2 (Z.eqb_neq _ _) Ht)).
    unfold poll_mask, epoll_mask, select_fd_state. rewrite bind_get, Hcs, Hfd, Hu, (proj2 (Z.eqb_neq _ _) Ht), (proj2 (Z.eqb_neq _ _) Hte), andb_false_r.
    cbn [andb negb flag]. rewrite !Z.lor_0_r. split; [done|]. split; [done|]. intros H1 H2. by rewrite (proj2 (Z.eqb_neq fd 1)), (proj2 (Z.eqb_neq fd 2)). }
  destruct Hr as [i side Hon Hl Hrf|pi Ht Hp|i Ht Hp|i Ht Hp Htm].
  - destruct (on_socket_state k fd i side Hon) as (Hv & Hst & Hsd). unfold socket_valid_fd in Hv. rewrite Hfd, Hu in Hv. apply Z.eqb_eq in Hv.
    rewrite Hv in Hps. destruct (Hps ltac:(done) ltac:(done)) as (-> & -> & He). split; [|split; [|intros H1 H2; rewrite He by done]];
      unfold poll_events, select_ready, epoll_events; rewrite Hv, Hst, Hsd, Hl, (proj2 (Z.eqb_neq _ 0) Hrf); rewrite ?Ein, ?Eout, ?Eerr, ?andb_false_r;
      destruct (arr (sk_count (sock k i)) side =? 0), (arr (sk_closed (sock k i)) (Z.lxor side 1) =? 0); done.
  - rewrite Ht in Hps. destruct (Hps ltac:(done) ltac:(done)) as (-> & -> & He).
    assert (Hw : pipe_has_writers k pi = negb (pi_writers (pipe k pi) =? 0)).
    { unfold pipe_has_writers, pipe_live_writers. rewrite (live_tally k pi FD_PIPE_W (PipeWriters pi)) by done.
      by rewrite <- (proj2 (fi_refs k Hi)). }
    split; [|split; [|intros H1 H2; rewrite He by done]];
      unfold poll_events, select_ready, epoll_events; rewrite Ht, Hp, Hw; rewrite ?Ein; destruct (pi_count (pipe k pi) =? 0), (pi_writers (pipe k pi) =? 0); done.
  - rewrite Ht in Hps. destruct (Hps ltac:(done) ltac:(done)) as (-> & -> & He). split; [|split; [|intros H1 H2; rewrite He by done]];
      unfold poll_events, select_ready, epoll_events; rewrite Ht, Hp; rewrite ?Ein, ?Eout, ?andb_false_r; destruct (ev_value (eventfd k i) =? 0); done.
  - rewrite Ht in Hps. destruct (Hps ltac:(done) ltac:(done)) as (-> & -> & He). split; [|split; [|intros H1 H2; rewrite He by done]];
      unfold poll_events, select_ready, epoll_events, timerfd_ready; rewrite Ht, Hp, ?(to_idle _ _ Htm); rewrite ?Ein;
      destruct (tm_next_ns (timerfd k i) =? 0), (tm_next_ns (timerfd k i) <=? clock_now_ns_simple rtc_now k (tm_clockid (timerfd k i))); done.
Qed.

(** C30. poll, select, epoll and read agree.  For a connected socket, the read end
    of a pipe, an event counter and a timer, in a state whose reference counts
    are right, poll reports an event when asked for input exactly when select
    marks the descriptor readable, exactly when epoll reports an event (on
    descriptors other than 1 and 2, for which epoll never looks), and exactly
    when a non-blocking read of the descriptor does not answer EAGAIN. *)
Theorem readiness_agrees fuel f fd buf k b : fd_inv k -> fd_ok fd = true -> f_in_use (file k fd) = true ->
  data_ready k fd b -> (forall i, f_private (file k fd) = PPipe i -> 0 <= pi_count (pipe k i)) ->
  negb (poll_mask rtc_now k fd POLLIN =? 0) = b /\
  fst (select_fd_state rtc_now fd true false k) = Some (b, false) /\
  (fd <> 1 -> fd <> 2 -> negb (epoll_mask rtc_now k fd POLLIN =? 0) = b) /\
  (has (f_flags (file k fd)) 0x800 = true -> buf <> 0 -> user_range_ok k buf 8 true = true ->
   EAGAIN_only (read_branch fuel f fd buf 8 k) <-> b = false).
Proof.
  intros Hi Hfd Hu Hr Hpc. destruct (masks_agree k fd b Hi Hfd Hu Hr) as (H1 & H2 & H3). split; [done|]. split; [done|]. split; [done|].
  intros Hnb Hbuf Hrg. destruct Hr as [i side Hon Hl Hrf|pi Ht Hp|i Ht Hp|i Ht Hp Htm].
  - unfold read_branch. destruct Hon as (Hv & Hps & Hsd). rewrite Hps. change (s32 8) with 8. by apply read_socket.
  - apply read_pipe; auto.
  - rewrite (read_event fuel f fd buf k PEventfd i) by auto. rewrite decide_True by done. unfold EAGAIN_only. cbn [option_map].
    rewrite <- (read_eventfd buf k i). split; [by intros [= ->] | by intros ->].
  - rewrite (read_event fuel f fd buf k PTimerfd i) by auto. rewrite decide_False by (rewrite Hp; done). unfold EAGAIN_only. cbn [option_map].
    rewrite <- (read_timerfd buf k i Htm). split; [by intros [= ->] | by intros ->].
Qed.
End Irq.

(** ** The theorems at concrete inputs *)

#[local] Existing Instance demo_hhdm.
Local Abbreviation no_rtc := (0, 0).

(** At time 275 the timer that expires at 50 and then every 100 has expired three times. *)
Definition late_kernel : kernel := event_kernel <| k_now := 275 |>.
Definition late_run : Z * kernel := timerfd_read no_rtc 0 0x400500 8 late_kernel.
Lemma late_run_ok : fst late_run = 8.
Proof. vm_compute. reflexivity. Qed.
Lemma late_timer : timerfd late_kernel 0 = TimerfdState 1 1 100 50 0 /\ clock_now_ns_simple no_rtc late_kernel 1 = 275.
Proof. vm_compute. done. Qed.
Lemma call_space_now k n : call_space (inv := pmm_wf) (held := pool_held) k -> call_space (inv := pmm_wf) (held := pool_held) (k <| k_now := n |>).
Proof. intros [H1 H2]. by split. Qed.
Lemma late_space : call_space (inv := pmm_wf) (held := pool_held) late_kernel.
Proof. apply call_space_now, event_space. Qed.

Lemma timerfd_read_witness : timerfd (snd late_run) 0 = TimerfdState 1 1 100 350 0.
Proof.
  pose proof (timerfd_read_correct (inv := pmm_wf) (held := pool_held) no_rtc 0 0x400500 late_kernel 8 (snd late_run)) as H.
  rewrite (proj1 late_timer) in H. cbv zeta in H. change (tm_clockid (TimerfdState 1 1 100 50 0)) with 1 in H. rewrite (proj2 late_timer) in H.
  destruct (H late_space ltac:(split; cbn; lia) ltac:(lia) ltac:(unfold USER_TOP; lia) (run_eq _ _ late_run_ok)) as (n & next & Hx & Ht & _).
  rewrite Ht. cbn. destruct Hx as [(_ & -> & H1)|[(_ & H1 & _)|(_ & _ & -> & H1)]]; cbn in *; [lia | lia |].
  assert (n = 3) as -> by lia. reflexivity.
Defined.

(** After start-up, an event counter with 5 events as descriptor 3. *)
Definition ready_kernel : kernel := set_eventfd 0 (EventfdState 5 1) (set_fdesc 0 3 (event_file FD_EVENTFD O_NONBLOCK (PEventfd 0) blank_file_desc) boot_kernel).
Lemma event_inv k e : fd_inv k -> f_in_use (fdesc k 0 3) = false -> table_refs k 0 <> 0 ->
  fd_inv (set_eventfd 0 e (set_fdesc 0 3 (event_file FD_EVENTFD O_NONBLOCK (PEventfd 0) blank_file_desc) k)).
Proof.
  intros Hk Hf Hl. set (f := event_file _ _ _ _). apply (fd_inv_quiet (set_fdesc 0 3 f k)); [|split; [done | by intros []]].
  apply (fd_inv_slot k _ 0 3 f (fun _ => 0) Hk); try done.
  - split; [intros r; pose proof (proj1 (fi_refs k Hk) r) as H; by destruct r | intros r; rewrite Z.add_0_r; by destruct r].
  - intros r. unfold weight. rewrite Hf. by destruct r.
Qed.
Lemma boot_refs : table_refs boot_kernel 0 = 1.
Proof. vm_compute. reflexivity. Qed.
Lemma file_slot k fd : file k fd = fdesc k (current_files k) fd.
Proof. reflexivity. Qed.
Lemma boot_slot : f_in_use (fdesc boot_kernel 0 3) = false.
Proof. assert (E := boot_open 3). rewrite file_slot, boot_table in E. rewrite E. reflexivity. Qed.
Lemma ready_inv : fd_inv ready_kernel.
Proof. unfold ready_kernel. apply event_inv; [exact boot_inv | exact boot_slot | rewrite boot_refs; discriminate]. Qed.

Lemma ready_file : current_files ready_kernel = 0 /\ file ready_kernel 3 = event_file FD_EVENTFD O_NONBLOCK (PEventfd 0) blank_file_desc.
Proof. vm_compute. done. Qed.

Lemma readiness_witness : fst (select_fd_state no_rtc 3 true false ready_kernel) = Some (true, false).
Proof.
  destruct ready_file as [_ Hf].
  destruct (readiness_agrees no_rtc idle_tick 0 blank_regs 3 0x400500 ready_kernel true ready_inv) as (_ & H & _);
    [reflexivity | rewrite Hf; reflexivity | | rewrite Hf; discriminate | exact H].
  apply (dr_eventfd no_rtc ready_kernel 3 0); rewrite Hf; reflexivity.
Defined.
