(* ===== verification/Input.v ===== *)
(** * Keyboard, mouse and the evdev files

    The decoders of the PS/2 bytes, the rings of input events, the key queue
    of the console and the reads of /dev/input and /dev/tty
    ([src/kernel/main.c]).  What the ports of the controller give is a list of
    status and data bytes; counters and marks of debug output are left out. *)

From S2P Require Import Prelude Words Pmm Vmm CStr Vfs Kernel Tty Fd Sched UserCopy Signals Pipe Events Poll.
Local Open Scope Z_scope.
Local Open Scope st_scope.

Definition EV_SYN : Z := 0.
Definition EV_KEY : Z := 1.
Definition EV_REL : Z := 2.
Definition SYN_REPORT : Z := 0.
Definition REL_X : Z := 0.
Definition REL_Y : Z := 1.
Definition BTN_LEFT : Z := 0x110.
Definition INPUT_EVENT_READ_MAX : Z := 64.

Definition upd_input (f : input_state -> input_state) : ST kernel unit := st_mod (fun k => k <| k_input := f (k_input k) |>).

(** ** Events *)

(** sizeof(keyboard_key_state) * 8 *)
Definition KEY_BITS : Z := 1024.

Definition keyboard_key_is_down (i : input_state) (code : Z) : bool :=
  (code <? KEY_BITS) && has (arr (in_key_state i) (Z.shiftr code 3)) (Z.shiftl 1 (Z.land code 7)).

(** [input_event_stamp]: the event with the time it is queued at. *)
Definition input_event_stamp (ns type code value : Z) : input_event_k :=
  InputEvent (ns / 1000000000) (ns mod 1000000000 / 1000) type code value.

Definition key_state_set (type code value : Z) (i : input_state) : input_state :=
  if (type =? EV_KEY) && (code <? KEY_BITS) then
    let mask := Z.shiftl 1 (Z.land code 7) in
    let old := arr (in_key_state i) (Z.shiftr code 3) in
    i <| in_key_state := <[Z.shiftr code 3 := if value =? 0 then Z.land old (Z.land (Z.lnot mask) 0xFF) else Z.lor old mask]> (in_key_state i) |>
  else i.

(** The event goes to the next place of the ring of the keyboard. *)
Definition event_push (ns type code value : Z) (i : input_state) : input_state :=
  i <| in_event_queue := <[in_event_seq i mod INPUT_EVENT_CAP := input_event_stamp ns type code value]> (in_event_queue i) |>
    <| in_event_seq := u64 (in_event_seq i + 1) |>.

Definition input_push_event (type code value : Z) : ST kernel unit :=
  let! k := st_get in
  upd_input (key_state_set type code value) ;;;
  upd_input (event_push (k_now k) type code value) ;;;
  task_wake_io_waiters ;;;
  st_ret tt.

Definition mouse_event_push (ns type code value : Z) (i : input_state) : input_state :=
  i <| in_mouse_queue := <[in_mouse_seq i mod MOUSE_EVENT_CAP := input_event_stamp ns type code value]> (in_mouse_queue i) |>
    <| in_mouse_seq := u64 (in_mouse_seq i + 1) |>.

Definition mouse_push_event (type code value : Z) : ST kernel unit :=
  let! k := st_get in upd_input (mouse_event_push (k_now k) type code value).

(** 0 for a release, 1 for a press, 2 while the key is held. *)
Definition keyboard_emit_key (code : Z) (down : bool) : ST kernel unit :=
  let! k := st_get in
  let value := if down then if keyboard_key_is_down (k_input k) code then 2 else 1 else 0 in
  input_push_event EV_KEY code value ;;;
  input_push_event EV_SYN SYN_REPORT 0.

(** ** The key queue of the console *)

Definition key_enqueue (key : Z) : ST kernel unit :=
  let! k := st_get in
  let i := k_input k in
  let next := (in_key_tail i + 1) mod KEY_QUEUE_CAP in
  if next =? in_key_head i then st_ret tt
  else
    upd_input (fun i => i <| in_key_queue := <[in_key_tail i := key]> (in_key_queue i) |> <| in_key_tail := next |>) ;;;
    task_wake_io_waiters ;;;
    st_ret tt.

Definition get_key : ST kernel Z :=
  let! k := st_get in
  let i := k_input k in
  if in_key_head i =? in_key_tail i then st_ret 0
  else
    upd_input (fun i => i <| in_key_head := (in_key_head i + 1) mod KEY_QUEUE_CAP |>) ;;;
    st_ret (arr (in_key_queue i) (in_key_head i)).

(** ** The keyboard decoder *)

(** The tables of the two switches on an extended scancode, and of the letters. *)
Definition assoc (l : list (Z * Z)) (x : Z) : option Z := option_map snd (find (fun p => fst p =? x) l).
Definition e0_codes : list (Z * Z) :=
  [(0x1C, 96); (0x1D, 97); (0x35, 98); (0x38, 100); (0x47, 102); (0x48, 103); (0x49, 104); (0x4B, 105); (0x4D, 106);
   (0x4F, 107); (0x50, 108); (0x51, 109); (0x52, 110); (0x53, 111); (0x5B, 125); (0x5C, 126); (0x5D, 127)].
Definition tty_keys : list (Z * Z) :=
  [(0x48, 0x80); (0x50, 0x81); (0x4B, 0x82); (0x4D, 0x83); (0x47, 0x85); (0x4F, 0x86); (0x53, 0x87); (0x49, 0x88); (0x51, 0x89); (0x52, 0x8A)].
Definition letters : list (Z * Z) :=
  [(0x10, 113); (0x11, 119); (0x12, 101); (0x13, 114); (0x14, 116); (0x15, 121); (0x16, 117); (0x17, 105); (0x18, 111); (0x19, 112);
   (0x1E, 97); (0x1F, 115); (0x20, 100); (0x21, 102); (0x22, 103); (0x23, 104); (0x24, 106); (0x25, 107); (0x26, 108); (0x2C, 122);
   (0x2D, 120); (0x2E, 99); (0x2F, 118); (0x30, 98); (0x31, 110); (0x32, 109)].

(** [fg > 0 && console_shell_pgrp > 0 && fg != console_shell_pgrp] *)
Definition foreground_job (k : kernel) : bool :=
  (0 <? k_console_fg_pgrp k) && (0 <? k_console_shell_pgrp k) && negb (k_console_fg_pgrp k =? k_console_shell_pgrp k).

(** The second byte of an extended scancode. *)
Definition extended_scancode (scancode : Z) : ST kernel unit :=
  let rel := has scancode 0x80 in
  let b := Z.land scancode 0x7f in
  upd_input (fun i => i <| in_e0_prefix := false |>) ;;;
  (if b =? 0x1D then upd_input (fun i => i <| in_ctrl_right := negb rel |>) else st_ret tt) ;;;
  match assoc e0_codes b with
  | None => st_ret tt
  | Some kc =>
      keyboard_emit_key kc (negb rel) ;;;
      match (if rel then None else assoc tty_keys b) with
      | Some key => key_enqueue key
      | None => st_ret tt
      end
  end.

(** The key a pressed scancode puts into the queue of the console, [None] for none. *)
Definition console_key (scancode : Z) : ST kernel (option Z) :=
  let! k := st_get in
  let ctrl := in_ctrl_left (k_input k) || in_ctrl_right (k_input k) in
  if ctrl && (scancode =? 0x2E) then
    if negb (k_framebuffer_console_active k) then st_ret None
    else if foreground_job k then console_tty_pgrp_signal SIGINT ;;; st_ret None
    else st_ret (Some 0x84)
  else if ctrl && k_framebuffer_console_active k then
    match (if foreground_job k then assoc letters scancode else None) with
    | Some letter => st_ret (Some (0xA0 + letter - 97))
    | None => st_ret (Some scancode)
    end
  else st_ret (Some scancode).

Definition keyboard_process_scancode (scancode : Z) : ST kernel unit :=
  let! k := st_get in
  let i := k_input k in
  if scancode =? 0xE0 then upd_input (fun i => i <| in_e0_prefix := true |>)
  else if in_e0_prefix i then extended_scancode scancode
  else if scancode =? 0x1D then upd_input (fun i => i <| in_ctrl_left := true |>) ;;; keyboard_emit_key 29 true
  else if scancode =? 0x9D then upd_input (fun i => i <| in_ctrl_left := false |>) ;;; keyboard_emit_key 29 false
  else if scancode =? 0x2A then
    keyboard_emit_key 42 true ;;; upd_input (fun i => i <| in_shift_left := true |> <| in_shift := true |>)
  else if scancode =? 0x36 then
    keyboard_emit_key 54 true ;;; upd_input (fun i => i <| in_shift_right := true |> <| in_shift := true |>)
  else if scancode =? 0xAA then
    keyboard_emit_key 42 false ;;; upd_input (fun i => i <| in_shift_left := false |> <| in_shift := in_shift_right i |>)
  else if scancode =? 0xB6 then
    keyboard_emit_key 54 false ;;; upd_input (fun i => i <| in_shift_right := false |> <| in_shift := in_shift_left i |>)
  else if scancode =? 0x3A then
    (if negb (keyboard_key_is_down i 58) then upd_input (fun i => i <| in_caps_lock := negb (in_caps_lock i) |>) else st_ret tt) ;;;
    keyboard_emit_key 58 true
  else if has scancode 0x80 then
    let base := Z.land scancode 0x7f in
    if negb (base =? 0x2A) && negb (base =? 0x36) then keyboard_emit_key base false else st_ret tt
  else if scancode =? 0 then st_ret tt
  else
    keyboard_emit_key scancode true ;;;
    let! key := console_key scancode in
    match key with Some key => key_enqueue key | None => st_ret tt end.

(** ** The mouse decoder *)

Definition s8 (v : Z) : Z := if v <? 128 then v else v - 256.

(** The events of the buttons that changed. *)
Definition button_events (buttons old : Z) : list (Z * Z * Z) :=
  omap (fun bit => if Z.testbit (Z.lxor buttons old) bit then Some (EV_KEY, BTN_LEFT + bit, Z.b2z (Z.testbit buttons bit)) else None) [0; 1; 2].

(** The events of a packet without overflow. *)
Definition motion_events (flags x y old : Z) : list (Z * Z * Z) :=
  let dx := s8 x in
  let dy := - s8 y in
  (if dx =? 0 then [] else [(EV_REL, REL_X, dx)]) ++ (if dy =? 0 then [] else [(EV_REL, REL_Y, dy)]) ++
  button_events (Z.land flags 7) old ++ [(EV_SYN, SYN_REPORT, 0)].

Fixpoint mouse_push_all (l : list (Z * Z * Z)) : ST kernel unit :=
  match l with
  | [] => st_ret tt
  | (type, code, value) :: l => mouse_push_event type code value ;;; mouse_push_all l
  end.

Definition mouse_process_byte (b : Z) : ST kernel unit :=
  let! k := st_get in
  let i := k_input k in
  if (in_mouse_pos i =? 0) && negb (has b 0x08) then st_ret tt
  else
    upd_input (fun i => i <| in_mouse_packet := <[in_mouse_pos i := b]> (in_mouse_packet i) |> <| in_mouse_pos := in_mouse_pos i + 1 |>) ;;;
    let! k := st_get in
    let i := k_input k in
    if in_mouse_pos i <? 3 then st_ret tt
    else
      upd_input (fun i => i <| in_mouse_pos := 0 |>) ;;;
      let flags := arr (in_mouse_packet i) 0 in
      (if has flags 0xC0 then mouse_push_event EV_SYN SYN_REPORT 0
       else
         mouse_push_all (motion_events flags (arr (in_mouse_packet i) 1) (arr (in_mouse_packet i) 2) (in_mouse_buttons i)) ;;;
         upd_input (fun i => i <| in_mouse_buttons := Z.land flags 7 |>)) ;;;
      task_wake_io_waiters ;;;
      st_ret tt.

(** ** The interrupt handlers *)

(** The loops that drain the controller: status and data of each round.  A
    byte is the mouse's when bit 5 of the status is set. *)
Fixpoint drain (rounds : nat) (mouse : bool) (process : Z -> ST kernel unit) (ports : list (Z * Z)) : ST kernel unit :=
  match rounds, ports with
  | S rounds, (st, b) :: ports =>
      if negb (has st 0x01) || negb (eqb (has st 0x20) mouse) then st_ret tt
      else process b ;;; drain rounds mouse process ports
  | _, _ => st_ret tt
  end.

Definition keyboard_handler (port : Z * Z) : ST kernel unit := drain 1 false keyboard_process_scancode [port].
Definition ps2_keyboard_poll (ports : list (Z * Z)) : ST kernel unit := drain 16 false keyboard_process_scancode ports.
Definition mouse_handler (ports : list (Z * Z)) : ST kernel unit := drain 8 true mouse_process_byte ports.

(** ** Reads of /dev/input *)

(** The event at the read position of the descriptor, which moves on. *)
Definition keyboard_pop_event_fd (t fd : Z) : ST kernel (option input_event_k) :=
  let! r := keyboard_fd_ready t fd in
  if negb r then st_ret None
  else
    let! k := st_get in
    let seq := input_fd_seq k t fd in
    input_fd_seq_set t fd (u64 (seq + 1)) ;;;
    st_ret (Some (cell blank_input_event_k (in_event_queue (k_input k)) (seq mod INPUT_EVENT_CAP))).

Definition mouse_pop_event_fd (t fd : Z) : ST kernel (option input_event_k) :=
  let! r := mouse_fd_ready t fd in
  if negb r then st_ret None
  else
    let! k := st_get in
    let seq := input_fd_seq k t fd in
    input_fd_seq_set t fd (u64 (seq + 1)) ;;;
    st_ret (Some (cell blank_input_event_k (in_mouse_queue (k_input k)) (seq mod MOUSE_EVENT_CAP))).

Fixpoint pop_events (max : nat) (mouse : bool) (t fd : Z) : ST kernel (list input_event_k) :=
  match max with
  | O => st_ret []
  | S max =>
      let! e := if mouse then mouse_pop_event_fd t fd else keyboard_pop_event_fd t fd in
      match e with
      | None => st_ret []
      | Some e => let! l := pop_events max mouse t fd in st_ret (e :: l)
      end
  end.

Definition EVENT_SIZE : Z := 24.
Definition event_bytes (e : input_event_k) : list Z :=
  word_bytes (ie_sec e) ++ word_bytes (ie_usec e) ++ short_bytes (ie_type e) ++ short_bytes (ie_code e) ++ int_bytes (ie_value e).

Section Irq.
(** The interrupts taken during one [sti; hlt; cli]. *)
Variable kernel_wait_tick : kernel -> kernel.

(** The branch of sys_read for a descriptor of /dev/input. *)
Definition evdev_read (fuel : nat) (f : regs) (fd : Z) (mouse : bool) (buf count : Z) (k : kernel) : option (Z * kernel) :=
  if count =? 0 then Some (0, k)
  else if count <? EVENT_SIZE then Some (- EINVAL, k)
  else
    let t := current_files k in
    let max := if INPUT_EVENT_READ_MAX <? count / EVENT_SIZE then INPUT_EVENT_READ_MAX else count / EVENT_SIZE in
    let '(events, k) := pop_events (Z.to_nat max) mouse t fd k in
    if is_nil events then
      if has (f_flags (fdesc k t fd)) O_NONBLOCK then Some (- EAGAIN, k)
      else
        match task_block_io kernel_wait_tick fuel f IO_WAIT_POLL 0 k with
        | None => None
        | Some (r, k) => Some (if r =? 0 then 0 else - EAGAIN, k)
        end
    else
      let '(r, k) := user_copy_to buf (concat (map event_bytes events)) k in
      Some (if negb (r =? 0) then - EFAULT else Z.of_nat (length events) * EVENT_SIZE, k).

(** [for (;;)] of sys_input_wait_key: [None] when no key came within [fuel] interrupts. *)
Fixpoint sys_input_wait_key (fuel : nat) (k : kernel) : option (Z * kernel) :=
  let '(key, k) := get_key k in
  if negb (key =? 0) then Some (key, k)
  else match fuel with O => None | S fuel => sys_input_wait_key fuel (kernel_wait_tick k) end.
End Irq.
