(* ===== verification/InputFacts.v ===== *)
(** * The keyboard, the mouse and their event queues as seen by a program

    A keyboard is the set of keys held down; a scancode is one key going up or
    down.  A queue of events is the list of all events so far, of which the
    ring keeps the last 256. *)

From S2P Require Import Prelude Words Pmm Vmm CStr Vfs Kernel Tty Fd Sched UserCopy Signals SignalFacts Pipe Events Frames Poll PollFacts Input.
Local Open Scope Z_scope.
Local Open Scope st_scope.

(** ** Rings of events *)

(** The ring [q] whose next number is [seq] after the events [log]. *)
Definition ring_holds (q : gmap Z input_event_k) (seq : Z) (log : list input_event_k) : Prop :=
  seq = Z.of_nat (length log) /\ seq < 2 ^ 64 /\
  forall j e, log !! j = Some e -> seq - INPUT_EVENT_CAP <= Z.of_nat j -> cell blank_input_event_k q (Z.of_nat j mod INPUT_EVENT_CAP) = e.

Lemma mod_window a b m : 0 < m -> a mod m = b mod m -> a <= b < a + m -> a = b.
Proof. intros Hm E H. assert (D : (b - a) mod m = 0) by (rewrite Zminus_mod, E, Z.sub_diag; by apply Z.mod_0_l; lia). rewrite Z.mod_small in D; lia. Qed.

Lemma log_push q seq log e : ring_holds q seq log -> seq + 1 < 2 ^ 64 ->
  ring_holds (<[seq mod INPUT_EVENT_CAP := e]> q) (u64 (seq + 1)) (log ++ [e]).
Proof.
  intros (-> & Hlt & Hq) Hn. rewrite u64_small by lia. split; [rewrite length_app; cbn; lia|]. split; [done|]. intros j e' Hj Hw. rewrite cell_insert.
  destruct (Z.eqb_spec (Z.of_nat (length log) mod INPUT_EVENT_CAP) (Z.of_nat j mod INPUT_EVENT_CAP)) as [E|Hne].
  - assert (Hjl : (j < length (log ++ [e]))%nat) by (by eapply lookup_lt_Some). rewrite length_app in Hjl. cbn in Hjl.
    assert (j = length log) as ->. { symmetry in E. apply mod_window in E; [lia | done | unfold INPUT_EVENT_CAP in *; lia]. }
    rewrite lookup_app_r, Nat.sub_diag in Hj by lia. by injection Hj.
  - apply Hq; [|lia]. apply lookup_app_Some in Hj as [|[Hl Hj]]; [done|]. exfalso. apply list_lookup_singleton_Some in Hj as [Hj _]. apply Hne. do 2 f_equal. lia.
Qed.

(** The events of the queue of a device: all of [log] so far. *)
Definition dev_queue (k : kernel) (dev : Z) : gmap Z input_event_k :=
  if dev =? DEV_INPUT then in_event_queue (k_input k) else in_mouse_queue (k_input k).
Definition dev_log (k : kernel) (dev : Z) (log : list input_event_k) : Prop := ring_holds (dev_queue k dev) (queue_next k dev) log.

(** The event [(type, code, value)] at the time [ns]. *)
Definition stamp (ns : Z) (e : Z * Z * Z) : input_event_k := let '(type, code, value) := e in input_event_stamp ns type code value.

(** ** What the handlers change *)

(** Only the state of the input devices and the tasks. *)
Definition input_only : relation kernel := fun k k' => k' = k <| k_input := k_input k' |> <| k_tasks := k_tasks k' |>.

#[global] Instance input_only_preorder : PreOrder input_only.
Proof. split; [by intros []|]. intros k1 k2 k3 A B. unfold input_only in *. rewrite B, A at 1. by destruct k1. Qed.

Lemma keeps_upd_input f : keeps input_only (upd_input f).
Proof. by intros []. Qed.
Lemma keeps_input_tasks {A} (m : ST kernel A) : keeps tasks_only m -> keeps input_only m.
Proof. apply keeps_weaken. intros k k' H. unfold input_only, tasks_only in *. by rewrite H; destruct k. Qed.
#[export] Hint Resolve keeps_upd_input : keeps.
#[export] Hint Extern 1 (keeps input_only task_wake_io_waiters) => apply keeps_input_tasks, keeps_wake_tasks : keeps.

Lemma keeps_push type code value : keeps input_only (input_push_event type code value).
Proof. unfold input_push_event. keeps. Qed.
Lemma keeps_enqueue key : keeps input_only (key_enqueue key).
Proof. unfold key_enqueue. keeps. Qed.
Lemma keeps_mouse_push type code value : keeps input_only (mouse_push_event type code value).
Proof. unfold mouse_push_event. keeps. Qed.
#[export] Hint Resolve keeps_push keeps_enqueue keeps_mouse_push : keeps.
Lemma keeps_emit code down : keeps input_only (keyboard_emit_key code down).
Proof. unfold keyboard_emit_key. keeps. Qed.
Lemma keeps_console_key scancode : keeps input_only (console_key scancode).
Proof. unfold console_key. keeps. apply keeps_input_tasks. unfold console_tty_pgrp_signal. keeps. apply keeps_signal_tasks. Qed.
#[export] Hint Resolve keeps_emit keeps_console_key : keeps.
Lemma keeps_scancode scancode : keeps input_only (keyboard_process_scancode scancode).
Proof. unfold keyboard_process_scancode, extended_scancode. keeps. Qed.
Lemma keeps_push_all l : keeps input_only (mouse_push_all l).
Proof. induction l as [|[[type code] value] l IH]; cbn [mouse_push_all]; keeps. Qed.
#[export] Hint Resolve keeps_scancode keeps_push_all : keeps.
Lemma keeps_mouse_byte b : keeps input_only (mouse_process_byte b).
Proof. unfold mouse_process_byte. keeps. Qed.

Lemma exec_upd_input {A} f (m : ST kernel A) k : exec (upd_input f ;;; m) k = exec m (k <| k_input := f (k_input k) |>).
Proof. done. Qed.

Lemma input_only_now k k' : input_only k k' -> k_now k' = k_now k.
Proof. intros ->. done. Qed.
Lemma wake_input k : k_input (exec task_wake_io_waiters k) = k_input k.
Proof. by rewrite (keeps_wake_tasks k). Qed.
Lemma wake_now k : k_now (exec task_wake_io_waiters k) = k_now k.
Proof. by rewrite (keeps_wake_tasks k). Qed.

(** ** The keyboard *)

(** A keyboard: the keys held, by their codes, the caps lock, whether the
    first byte of an extended scancode was seen and whether the control key on
    the right is down. *)
Record keyboard := Keyboard { kb_e0 : bool; kb_held : gset Z; kb_caps : bool; kb_ctrl_right : bool }.

(** The key a byte tells of, and whether it goes down. *)
Definition scancode_key (e0 : bool) (scancode : Z) : option (Z * bool) :=
  let down := negb (has scancode 0x80) in
  if e0 then option_map (fun code => (code, down)) (assoc e0_codes (Z.land scancode 0x7f))
  else if scancode =? 0 then None else Some (Z.land scancode 0x7f, down).

(** Its events: 1 for a key going down, 2 when it was down already, 0 when it goes up. *)
Definition key_events (held : gset Z) (code : Z) (down : bool) : list (Z * Z * Z) :=
  [(EV_KEY, code, if down then if decide (code ∈ held) then 2 else 1 else 0); (EV_SYN, SYN_REPORT, 0)].

Definition press (held : gset Z) (code : Z) (down : bool) : gset Z := if down then {[code]} ∪ held else held ∖ {[code]}.

Definition kb_step (s : keyboard) (scancode : Z) : keyboard * list (Z * Z * Z) :=
  if scancode =? 0xE0 then (Keyboard true (kb_held s) (kb_caps s) (kb_ctrl_right s), [])
  else
    let right := if kb_e0 s && (Z.land scancode 0x7f =? 0x1D) then negb (has scancode 0x80) else kb_ctrl_right s in
    match scancode_key (kb_e0 s) scancode with
    | None => (Keyboard false (kb_held s) (kb_caps s) right, [])
    | Some (code, down) =>
        (Keyboard false (press (kb_held s) code down)
           (if (code =? 58) && down && bool_decide (58 ∉ kb_held s) then negb (kb_caps s) else kb_caps s) right,
         key_events (kb_held s) code down)
    end.

Fixpoint kb_run (s : keyboard) (l : list Z) : keyboard * list (Z * Z * Z) :=
  match l with
  | [] => (s, [])
  | b :: l => let '(s, es) := kb_step s b in let '(s, es') := kb_run s l in (s, es ++ es')
  end.

(** The variables of the driver describe the keyboard [s]. *)
Record kb_rel (s : keyboard) (i : input_state) : Prop := {
  kr_e0 : in_e0_prefix i = kb_e0 s;
  kr_held : forall c, 0 <= c < KEY_BITS -> keyboard_key_is_down i c = bool_decide (c ∈ kb_held s);
  kr_caps : in_caps_lock i = kb_caps s;
  kr_left : in_shift_left i = bool_decide (42 ∈ kb_held s);
  kr_right : in_shift_right i = bool_decide (54 ∈ kb_held s);
  kr_shift : in_shift i = bool_decide (42 ∈ kb_held s) || bool_decide (54 ∈ kb_held s);
  kr_ctrl : in_ctrl_left i = bool_decide (29 ∈ kb_held s);
  kr_ctrl_right : in_ctrl_right i = kb_ctrl_right s
}.

Lemma key_index_inj c c' : Z.shiftr c 3 = Z.shiftr c' 3 -> Z.land c 7 = Z.land c' 7 -> c = c'.
Proof. rewrite !Z.shiftr_div_pow2 by lia. change 7 with (Z.ones 3). rewrite !Z.land_ones by lia. intros. rewrite (Z.div_mod c (2 ^ 3)), (Z.div_mod c' (2 ^ 3)) by lia. congruence. Qed.

Lemma land_7_range c : 0 <= Z.land c 7 < 8.
Proof. change 7 with (Z.ones 3). rewrite Z.land_ones by lia. by apply Z.mod_pos_bound. Qed.

(** Setting a key changes the key alone. *)
Lemma key_set_down i code value c : 0 <= code < KEY_BITS -> 0 <= c < KEY_BITS ->
  keyboard_key_is_down (key_state_set EV_KEY code value i) c = if c =? code then negb (value =? 0) else keyboard_key_is_down i c.
Proof.
  intros Hcode Hc. unfold keyboard_key_is_down, key_state_set. rewrite Z.eqb_refl. rewrite (proj2 (Z.ltb_lt code KEY_BITS)) by lia.
  rewrite (proj2 (Z.ltb_lt c KEY_BITS)) by lia. cbn [andb]. cbn [in_key_state]. pose proof (land_7_range c). pose proof (land_7_range code).
  unfold upd_field. cbn [in_key_state]. unfold arr. rewrite !Z.shiftl_1_l, !has_pow2 by lia.
  destruct (decide (Z.shiftr code 3 = Z.shiftr c 3)) as [E|Hne].
  2: { rewrite lookup_insert_ne by done. destruct (Z.eqb_spec c code); [by subst | done]. }
  rewrite E, lookup_insert_eq. cbn [default]. fold (arr (in_key_state i) (Z.shiftr c 3)). generalize (arr (in_key_state i) (Z.shiftr c 3)). intros w. cbn.
  assert (Hcode' : (Z.land code 7 =? Z.land c 7) = (c =? code)).
  { destruct (Z.eqb_spec c code) as [->|Hn]; [by rewrite Z.eqb_refl|]. apply Z.eqb_neq. intros E'. by apply Hn, key_index_inj. }
  destruct (Z.eqb_spec value 0) as [->|Hv]; cbn [negb].
  - rewrite !Z.land_spec, Z.lnot_spec, testbit_pow2, Hcode' by lia. assert (Z.testbit 255 (Z.land c 7) = true) as ->.
    { change 255 with (Z.ones 8). rewrite Z.ones_spec_low; [done | lia]. }
    destruct (c =? code); cbn; [by rewrite andb_false_r | by rewrite andb_true_r].
  - rewrite Z.lor_spec, testbit_pow2, Hcode' by lia. destruct (c =? code); [by rewrite orb_true_r | by rewrite orb_false_r].
Qed.

Lemma emit_input (code : Z) (down : bool) (k : kernel) :
  let value := if down then if keyboard_key_is_down (k_input k) code then 2 else 1 else 0 in
  k_input (exec (keyboard_emit_key code down) k) =
  event_push (k_now k) EV_SYN SYN_REPORT 0 (event_push (k_now k) EV_KEY code value (key_state_set EV_KEY code value (k_input k))).
Proof.
  intros value. unfold keyboard_emit_key, input_push_event, upd_input. run_exec. rewrite !wake_input. cbn [k_input k_now]. unfold upd_field. cbn [k_input k_now].
  by rewrite ?wake_input, ?wake_now.
Qed.

(** A key event: what is held and the queue change, nothing else of the driver. *)
Lemma emit_spec held log (code : Z) (down : bool) (k : kernel) : 0 <= code < KEY_BITS ->
  keyboard_key_is_down (k_input k) code = bool_decide (code ∈ held) -> ring_holds (in_event_queue (k_input k)) (in_event_seq (k_input k)) log ->
  Z.of_nat (length log) + 2 < 2 ^ 64 ->
  exists K Q n, k_input (exec (keyboard_emit_key code down) k) = (k_input k) <| in_key_state := K |> <| in_event_queue := Q |> <| in_event_seq := n |> /\
    (forall i c, in_key_state i = K -> 0 <= c < KEY_BITS -> keyboard_key_is_down i c = if c =? code then down else keyboard_key_is_down (k_input k) c) /\
    ring_holds Q n (log ++ map (stamp (k_now k)) (key_events held code down)).
Proof.
  intros Hcode Hh Hr Hl. rewrite emit_input. set (value := if down then _ else _).
  assert (Hv : value = if down then if decide (code ∈ held) then 2 else 1 else 0).
  { unfold value. rewrite Hh. destruct down; [|done]. destruct (decide (code ∈ held)); [by rewrite bool_decide_eq_true_2 | by rewrite bool_decide_eq_false_2]. }
  assert (Hz : negb (value =? 0) = down) by (rewrite Hv; destruct down; [by destruct (decide (code ∈ held)) | done]).
  set (i1 := key_state_set EV_KEY code value (k_input k)).
  assert (E1 : i1 = (k_input k) <| in_key_state := in_key_state i1 |>).
  { unfold i1, key_state_set. destruct (_ && _); [done|]. by destruct (k_input k). }
  exists (in_key_state i1). unfold event_push. do 2 eexists. split; [rewrite E1 at 1; reflexivity|]. split.
  - intros i c Hi Hc. pose proof (key_set_down (k_input k) code value c Hcode Hc) as Hd. rewrite Hz in Hd. rewrite <- Hd. unfold keyboard_key_is_down. by rewrite Hi.
  - assert (Er : in_event_seq i1 = in_event_seq (k_input k) /\ in_event_queue i1 = in_event_queue (k_input k)) by (rewrite E1; done). destruct Er as [En Eq].
    unfold key_events. rewrite <- Hv. change (map _ _) with ([stamp (k_now k) (EV_KEY, code, value)] ++ [stamp (k_now k) (EV_SYN, SYN_REPORT, 0)]). rewrite app_assoc.
    destruct Hr as (Hn & Hr). apply log_push; [|cbn; rewrite En, u64_small; lia]. cbn. rewrite En, Eq. apply log_push; [by split | lia].
Qed.

Lemma enqueue_spec key k : exists q t, k_input (exec (key_enqueue key) k) = (k_input k) <| in_key_queue := q |> <| in_key_tail := t |>.
Proof.
  unfold key_enqueue. rewrite exec_get. cbv zeta. destruct (_ =? _); [exists (in_key_queue (k_input k)), (in_key_tail (k_input k)); cbn; by destruct (k_input k)|].
  unfold upd_input. run_exec. rewrite wake_input. eexists _, _. reflexivity.
Qed.

Lemma enqueue_some_spec o k : exists q t,
  k_input (exec (match o with Some key => key_enqueue key | None => st_ret tt end) k) = (k_input k) <| in_key_queue := q |> <| in_key_tail := t |>.
Proof. destruct o; [apply enqueue_spec|]. exists (in_key_queue (k_input k)), (in_key_tail (k_input k)). cbn. by destruct (k_input k). Qed.

Lemma signal_input who sig k : k_input (exec (signal_tasks who sig) k) = k_input k.
Proof. by rewrite (keeps_signal_tasks who sig k). Qed.

Lemma console_key_input scancode k : k_input (exec (console_key scancode) k) = k_input k.
Proof.
  unfold console_key. rewrite exec_get. cbv zeta. repeat case_match; try done. rewrite exec_seq, exec_ret. unfold console_tty_pgrp_signal. rewrite exec_get. cbv zeta.
  repeat case_match; try done; apply signal_input.
Qed.

(** The keys with an extended scancode are no modifiers but the control key on the right. *)
Lemma e0_code b code : assoc e0_codes b = Some code -> 96 <= code < KEY_BITS.
Proof.
  unfold assoc. destruct (find _ e0_codes) as [[b' code']|] eqn:E; [|done]. intros [= ->]. apply find_some in E as [Hin _]. revert Hin.
  unfold e0_codes. cbn [In]. intuition (simplify_eq; done).
Qed.

Lemma held_press held code down c : bool_decide (c ∈ press held code down) = if c =? code then down else bool_decide (c ∈ held).
Proof. destruct (Z.eqb_spec c code) as [->|Hne], down; [apply bool_decide_eq_true_2 | apply bool_decide_eq_false_2 | apply bool_decide_ext | apply bool_decide_ext]; cbn; set_solver. Qed.

(** The code and the release bit of a byte. *)
Lemma byte_code b : 0 <= b < 256 -> Z.land b 0x7f = (if 128 <=? b then b - 128 else b) /\ has b 0x80 = (128 <=? b).
Proof.
  intros Hb. change 0x7f with (Z.ones 7). change 0x80 with (2 ^ 7). rewrite has_pow2, Z.land_ones, Z.testbit_eqb by lia. change (2 ^ 7) with 128.
  destruct (Z.leb_spec 128 b); (split; [dlia | (apply Z.eqb_eq || apply Z.eqb_neq); dlia]).
Qed.

(** The variables after a key event, from those before. *)
Lemma kb_after s i i' code down caps right : kb_rel s i -> in_e0_prefix i' = false -> in_caps_lock i' = caps -> in_ctrl_right i' = right ->
  (forall c, 0 <= c < KEY_BITS -> keyboard_key_is_down i' c = if c =? code then down else keyboard_key_is_down i c) ->
  in_shift_left i' = (if 42 =? code then down else in_shift_left i) -> in_shift_right i' = (if 54 =? code then down else in_shift_right i) ->
  in_shift i' = in_shift_left i' || in_shift_right i' -> in_ctrl_left i' = (if 29 =? code then down else in_ctrl_left i) ->
  kb_rel (Keyboard false (press (kb_held s) code down) caps right) i'.
Proof.
  intros [] ? ? ? Hd Hl Hr Hs Hc. split; cbn; try done.
  - intros c Hc'. rewrite Hd, held_press by done. destruct (c =? code); [done | auto].
  - rewrite Hl, held_press. by destruct (42 =? code).
  - rewrite Hr, held_press. by destruct (54 =? code).
  - rewrite Hs, Hl, Hr, !held_press. by destruct (42 =? code), (54 =? code); congruence.
  - rewrite Hc, held_press. by destruct (29 =? code).
Qed.

Lemma kr_shift_eq s i : kb_rel s i -> in_shift i = in_shift_left i || in_shift_right i.
Proof. intros []. congruence. Qed.

(** One scancode, from any state that agrees with [i] on what the keyboard needs. *)
Section Scancode.
Context (s : keyboard) (log : list input_event_k) (k : kernel).
Context (Hrel : kb_rel s (k_input k)) (Hring : ring_holds (in_event_queue (k_input k)) (in_event_seq (k_input k)) log).
Context (Hroom : Z.of_nat (length log) + 2 < 2 ^ 64).

(** What a scancode leads to: a keyboard and the events of its key. *)
Definition reaches (s' : keyboard) (es : list (Z * Z * Z)) (k' : kernel) : Prop :=
  kb_rel s' (k_input k') /\ ring_holds (in_event_queue (k_input k')) (in_event_seq (k_input k')) (log ++ map (stamp (k_now k)) es).

(** The key [code], after [before] and followed by [after]. *)
Lemma emit_reaches before after code down caps right k' : 0 <= code < KEY_BITS ->
  (forall i, in_key_state (before i) = in_key_state i /\ in_event_queue (before i) = in_event_queue i /\ in_event_seq (before i) = in_event_seq i) ->
  (forall i, in_key_state (after i) = in_key_state i /\ in_event_queue (after i) = in_event_queue i /\ in_event_seq (after i) = in_event_seq i) ->
  k_input k' = after (k_input (exec (keyboard_emit_key code down) (k <| k_input := before (k_input k) |>))) ->
  (forall K Q n i', let i := k_input k in
     i' = after ((before i) <| in_key_state := K |> <| in_event_queue := Q |> <| in_event_seq := n |>) ->
     in_e0_prefix i' = false /\ in_caps_lock i' = caps /\ in_ctrl_right i' = right /\
     in_shift_left i' = (if 42 =? code then down else in_shift_left i) /\ in_shift_right i' = (if 54 =? code then down else in_shift_right i) /\
     in_shift i' = in_shift_left i' || in_shift_right i' /\ in_ctrl_left i' = (if 29 =? code then down else in_ctrl_left i)) ->
  reaches (Keyboard false (press (kb_held s) code down) caps right) (key_events (kb_held s) code down) k'.
Proof.
  intros Hcode Hb Ha E Hf. set (k0 := k <| k_input := before (k_input k) |>) in *. assert (E0 : k_input k0 = before (k_input k)) by done.
  assert (Hd0 : forall c, keyboard_key_is_down (k_input k0) c = keyboard_key_is_down (k_input k) c).
  { intros c. rewrite E0. unfold keyboard_key_is_down. by rewrite (proj1 (Hb _)). }
  destruct (emit_spec (kb_held s) log code down k0) as (K & Q & n & Ee & Hd & Hq); [done | | | done |].
  { rewrite Hd0. by apply Hrel. }
  { rewrite E0. destruct (Hb (k_input k)) as (_ & -> & ->). done. }
  rewrite Ee in E. destruct (Hf K Q n (k_input k') E) as (F1 & F2 & F3 & F4 & F5 & F6 & F7).
  destruct (Ha ((before (k_input k)) <| in_key_state := K |> <| in_event_queue := Q |> <| in_event_seq := n |>)) as (A1 & A2 & A3).
  assert (B : in_key_state (k_input k') = K /\ in_event_queue (k_input k') = Q /\ in_event_seq (k_input k') = n) by (rewrite E; split_and!; done).
  destruct B as (B1 & B2 & B3). split.
  - apply (kb_after s (k_input k)); try done. intros c Hc. rewrite <- Hd0. by apply Hd.
  - rewrite B2, B3. exact Hq.
Qed.

(** The facts [emit_reaches] asks for, where the variables are those of [k]. *)
Ltac emitted before after :=
  eapply (emit_reaches before after);
  [ | intros ?; try subst before; cbv beta zeta; repeat case_match; split_and!; reflexivity | intros ?; split_and!; reflexivity | | intros K Q n i' i ->; try subst before].

Lemma extended_reaches scancode : scancode <> 0xE0 -> in_e0_prefix (k_input k) = true ->
  reaches (fst (kb_step s scancode)) (snd (kb_step s scancode)) (exec (extended_scancode scancode) k).
Proof.
  intros Hne He. assert (Hs : kb_e0 s = true) by (rewrite <- He; symmetry; apply Hrel). unfold kb_step, scancode_key, extended_scancode.
  rewrite (proj2 (Z.eqb_neq _ _) Hne), Hs. cbn [andb]. set (b := Z.land scancode 0x7f). set (rel := has scancode 0x80).
  set (before := fun i => let i := i <| in_e0_prefix := false |> in if b =? 0x1D then i <| in_ctrl_right := negb rel |> else i).
  assert (Eb : forall m : ST kernel unit, exec (upd_input (fun i => i <| in_e0_prefix := false |>) ;;;
      (if b =? 0x1D then upd_input (fun i => i <| in_ctrl_right := negb rel |>) else st_ret tt) ;;; m) k = exec m (k <| k_input := before (k_input k) |>)).
  { intros m. unfold upd_input, before. rewrite exec_mod, exec_seq, exec_if. by destruct (b =? 29). }
  cbv zeta. rewrite Eb. clearbody b rel.
  assert (Hsh := kr_shift_eq s _ Hrel). destruct (assoc e0_codes b) as [kc|] eqn:Ek; cbn [option_map fst snd].
  2: { unfold before. destruct (b =? 29); (split; [destruct Hrel; by split | cbn [map]; by rewrite app_nil_r]). }
  pose proof (e0_code _ _ Ek) as Hkc. rewrite exec_seq. set (k1 := exec (keyboard_emit_key kc (negb rel)) _).
  destruct (enqueue_some_spec (if rel then None else assoc tty_keys b) k1) as (q & t & Eq).
  assert (Hnc : (58 =? kc) = false /\ (42 =? kc) = false /\ (54 =? kc) = false /\ (29 =? kc) = false) by (split_and!; apply Z.eqb_neq; lia).
  destruct Hnc as (N58 & N42 & N54 & N29). rewrite (Z.eqb_sym kc 58), N58. cbn [andb].
  emitted before (fun i => i <| in_key_queue := q |> <| in_key_tail := t |>); [lia | exact Eq |].
  subst i. cbv beta zeta. rewrite N42, N54, N29. destruct (b =? 29); cbn; split_and!; try done; by apply Hrel.
Qed.
Lemma scancode_reaches scancode : 0 <= scancode < 256 ->
  reaches (fst (kb_step s scancode)) (snd (kb_step s scancode)) (exec (keyboard_process_scancode scancode) k).
Proof.
  intros Hsc. unfold keyboard_process_scancode. rewrite exec_get. cbv zeta. destruct (Z.eqb_spec scancode 0xE0) as [->|Hne].
  { split; [destruct Hrel; by split | by rewrite app_nil_r]. }
  destruct (in_e0_prefix (k_input k)) eqn:He; [by apply extended_reaches|].
  assert (Hs : kb_e0 s = false) by (rewrite <- He; symmetry; apply Hrel).
  pose proof (kr_shift_eq s _ Hrel) as Hsh. unfold kb_step, scancode_key. rewrite (proj2 (Z.eqb_neq _ _) Hne), Hs. cbn [andb]. unfold upd_input.
  destruct (Z.eqb_spec scancode 0x1D) as [->|H1D].
  { emitted (fun i => i <| in_ctrl_left := true |>) (fun i : input_state => i); [done | by rewrite exec_mod |]. cbn. split_and!; try done; by apply Hrel. }
  destruct (Z.eqb_spec scancode 0x9D) as [->|H9D].
  { emitted (fun i => i <| in_ctrl_left := false |>) (fun i : input_state => i); [done | by rewrite exec_mod |]. cbn. split_and!; try done; by apply Hrel. }
  assert (Ek : k <| k_input := k_input k |> = k) by (by destruct k).
  destruct (Z.eqb_spec scancode 0x2A) as [->|H2A].
  { emitted (fun i : input_state => i) (fun i => i <| in_shift_left := true |> <| in_shift := true |>); [done | rewrite Ek; by rewrite exec_seq |].
    cbn. split_and!; try done; by apply Hrel. }
  destruct (Z.eqb_spec scancode 0x36) as [->|H36].
  { emitted (fun i : input_state => i) (fun i => i <| in_shift_right := true |> <| in_shift := true |>); [done | rewrite Ek; by rewrite exec_seq |].
    cbn. split_and!; try done; try (by apply Hrel). by rewrite orb_true_r. }
  destruct (Z.eqb_spec scancode 0xAA) as [->|HAA].
  { emitted (fun i : input_state => i) (fun j => j <| in_shift_left := false |> <| in_shift := in_shift_right j |>); [done | rewrite Ek, exec_seq; reflexivity |].
    cbn. split_and!; try done; try (by apply Hrel). }
  destruct (Z.eqb_spec scancode 0xB6) as [->|HB6].
  { emitted (fun i : input_state => i) (fun j => j <| in_shift_right := false |> <| in_shift := in_shift_left j |>); [done | rewrite Ek; by rewrite exec_seq |].
    cbn. split_and!; try done; try (by apply Hrel). by rewrite orb_false_r. }
  destruct (Z.eqb_spec scancode 0x3A) as [->|H3A].
  { pose proof (kr_held _ _ Hrel 58 ltac:(done)) as H58. rewrite H58.
    emitted (fun i => if bool_decide (58 ∉ kb_held s) then i <| in_caps_lock := negb (in_caps_lock i) |> else i) (fun i : input_state => i); [done | |].
    - rewrite exec_seq, exec_if, bool_decide_not. destruct (bool_decide (58 ∈ kb_held s)); cbn [negb]; [by rewrite Ek | done].
    - cbn. destruct (bool_decide (58 ∉ kb_held s)); cbn; split_and!; try done; try (by apply Hrel). f_equal. apply Hrel. }
  destruct (byte_code _ Hsc) as [Ec Eh]. rewrite !Ec, !Eh. destruct (Z.leb_spec 128 scancode) as [Hge|Hlt]; cbn [negb].
  - rewrite (proj2 (Z.eqb_neq scancode 0)) by lia. rewrite (proj2 (Z.eqb_neq (scancode - 128) 0x2A)), (proj2 (Z.eqb_neq (scancode - 128) 0x36)) by lia. cbn [negb andb fst snd].
    rewrite andb_false_r. emitted (fun i : input_state => i) (fun i : input_state => i); [unfold KEY_BITS; lia | by rewrite Ek |].
    rewrite (proj2 (Z.eqb_neq 42 _)), (proj2 (Z.eqb_neq 54 _)), (proj2 (Z.eqb_neq 29 _)) by lia. cbn. split_and!; try done; by apply Hrel.
  - destruct (Z.eqb_spec scancode 0) as [->|H0]; cbn [fst snd]; [split; [destruct Hrel; by split | by rewrite app_nil_r]|].
    set (k1 := exec (keyboard_emit_key scancode true) k).
    rewrite (proj2 (Z.eqb_neq scancode 58)) by lia. cbn [andb].
    rewrite exec_seq, exec_bind. fold k1.
    destruct (enqueue_some_spec (fst (console_key scancode k1)) (exec (console_key scancode) k1)) as (q & t & Eq). rewrite console_key_input in Eq.
    emitted (fun i : input_state => i) (fun i => i <| in_key_queue := q |> <| in_key_tail := t |>); [unfold KEY_BITS; lia | by rewrite Ek |].
    rewrite (proj2 (Z.eqb_neq 42 _)), (proj2 (Z.eqb_neq 54 _)), (proj2 (Z.eqb_neq 29 _)) by lia. cbn. split_and!; try done; by apply Hrel.
Qed.
End Scancode.

(** ** The mouse *)

(** A mouse: the bytes of the packet that has begun and the buttons held. *)
Record mouse := Mouse { ms_part : list Z; ms_buttons : gset Z }.

Definition BUTTONS : list Z := [BTN_LEFT; BTN_LEFT + 1; BTN_LEFT + 2].

(** The buttons the first byte of a packet tells of. *)
Definition packet_buttons (flags : Z) : gset Z := list_to_set (List.filter (fun b => Z.testbit flags (b - BTN_LEFT)) BUTTONS).

(** The buttons that went down or up. *)
Definition button_changes (old new : gset Z) : list (Z * Z * Z) :=
  map (fun b => (EV_KEY, b, Z.b2z (bool_decide (b ∈ new)))) (List.filter (fun b => xorb (bool_decide (b ∈ new)) (bool_decide (b ∈ old))) BUTTONS).

(** A packet moves the pointer and sets the buttons; one that overflowed tells nothing. *)
Definition ms_packet (s : mouse) (flags x y : Z) : mouse * list (Z * Z * Z) :=
  if has flags 0xC0 then (Mouse [] (ms_buttons s), [(EV_SYN, SYN_REPORT, 0)])
  else (Mouse [] (packet_buttons flags),
        List.filter (fun e => negb (snd e =? 0)) [(EV_REL, REL_X, s8 x); (EV_REL, REL_Y, - s8 y)] ++
        button_changes (ms_buttons s) (packet_buttons flags) ++ [(EV_SYN, SYN_REPORT, 0)]).

Definition ms_step (s : mouse) (b : Z) : mouse * list (Z * Z * Z) :=
  match ms_part s with
  | [] => if has b 0x08 then (Mouse [b] (ms_buttons s), []) else (s, [])
  | [flags] => (Mouse [flags; b] (ms_buttons s), [])
  | flags :: x :: _ => ms_packet s flags x b
  end.

Fixpoint ms_run (s : mouse) (l : list Z) : mouse * list (Z * Z * Z) :=
  match l with
  | [] => (s, [])
  | b :: l => let '(s, es) := ms_step s b in let '(s, es') := ms_run s l in (s, es ++ es')
  end.

(** The variables of the driver describe the mouse [s]. *)
Record ms_rel (s : mouse) (i : input_state) : Prop := {
  mr_pos : in_mouse_pos i = Z.of_nat (length (ms_part s));
  mr_short : (length (ms_part s) < 3)%nat;
  mr_part : forall j b, ms_part s !! j = Some b -> arr (in_mouse_packet i) (Z.of_nat j) = b;
  mr_buttons : forall b, b ∈ BUTTONS -> Z.testbit (in_mouse_buttons i) (b - BTN_LEFT) = bool_decide (b ∈ ms_buttons s)
}.

Lemma packet_buttons_spec flags b : b ∈ BUTTONS -> bool_decide (b ∈ packet_buttons flags) = Z.testbit flags (b - BTN_LEFT).
Proof.
  intros Hb. unfold packet_buttons. destruct (Z.testbit flags (b - BTN_LEFT)) eqn:E; [apply bool_decide_eq_true_2 | apply bool_decide_eq_false_2];
    rewrite elem_of_list_to_set, list_elem_of_In, filter_In, <- list_elem_of_In; [done|]. intros [_ H]. congruence.
Qed.

Lemma button_events_eq flags old held : (forall b, b ∈ BUTTONS -> Z.testbit old (b - BTN_LEFT) = bool_decide (b ∈ held)) ->
  button_events (Z.land flags 7) old = button_changes held (packet_buttons flags).
Proof.
  intros Hold. unfold button_events, button_changes.
  assert (H : forall j, In j [0; 1; 2] -> Z.testbit (Z.land flags 7) j = bool_decide (BTN_LEFT + j ∈ packet_buttons flags) /\ Z.testbit old j = bool_decide (BTN_LEFT + j ∈ held)).
  { intros j Hj. assert (Hb : BTN_LEFT + j ∈ BUTTONS) by (apply list_elem_of_In; revert Hj; cbn; intuition (subst; auto)).
    rewrite packet_buttons_spec, <- Hold by done. replace (BTN_LEFT + j - BTN_LEFT) with j by lia. split; [|done].
    rewrite Z.land_spec. change 7 with (Z.ones 3). rewrite Z.ones_spec_low; [apply andb_true_r|]. cbn in Hj. lia. }
  destruct (H 0) as [A0 B0]; [cbn; tauto|]. destruct (H 1) as [A1 B1]; [cbn; tauto|]. destruct (H 2) as [A2 B2]; [cbn; tauto|].
  unfold BUTTONS. change (BTN_LEFT + 0) with BTN_LEFT in *. cbn [omap list_omap List.filter]. rewrite !Z.lxor_spec, A0, A1, A2, B0, B1, B2.
  repeat (match goal with |- context [xorb (bool_decide ?P) (bool_decide ?Q)] => destruct (bool_decide P) eqn:?, (bool_decide Q) eqn:? end; cbn [xorb]);
    cbn [map]; rewrite ?A0, ?A1, ?A2, ?B0, ?B1, ?B2; repeat (match goal with H : bool_decide _ = _ |- _ => rewrite H end); done.
Qed.

Lemma push_all_spec l : forall log k, ring_holds (in_mouse_queue (k_input k)) (in_mouse_seq (k_input k)) log -> Z.of_nat (length log + length l) < 2 ^ 64 ->
  exists Q n, k_input (exec (mouse_push_all l) k) = (k_input k) <| in_mouse_queue := Q |> <| in_mouse_seq := n |> /\ ring_holds Q n (log ++ map (stamp (k_now k)) l).
Proof.
  induction l as [|[[type code] value] l IH]; intros log k Hr Hn; cbn [mouse_push_all length map] in *.
  { exists (in_mouse_queue (k_input k)), (in_mouse_seq (k_input k)). rewrite app_nil_r. split; [cbn; by destruct (k_input k) | done]. }
  unfold mouse_push_event, upd_input. run_exec. set (k1 := k <| k_input := mouse_event_push (k_now k) type code value (k_input k) |>). change (exec _ _) with (exec (mouse_push_all l) k1). destruct (IH (log ++ [stamp (k_now k) (type, code, value)]) k1) as (Q & n & E & H).
  - destruct Hr as (Hs & Hr). apply log_push; [by split | lia].
  - rewrite length_app. cbn. lia.
  - exists Q, n. split; [rewrite E; reflexivity|]. by rewrite <- app_assoc in H.
Qed.

Lemma button_changes_short old new : (length (button_changes old new) <= 3)%nat.
Proof. unfold button_changes. rewrite length_map. etransitivity; [apply filter_length_le | done]. Qed.

Lemma motion_eq flags x y old held : (forall b, b ∈ BUTTONS -> Z.testbit old (b - BTN_LEFT) = bool_decide (b ∈ held)) ->
  motion_events flags x y old =
  List.filter (fun e => negb (snd e =? 0)) [(EV_REL, REL_X, s8 x); (EV_REL, REL_Y, - s8 y)] ++ button_changes held (packet_buttons flags) ++ [(EV_SYN, SYN_REPORT, 0)].
Proof.
  intros Hold. unfold motion_events. rewrite (button_events_eq flags old held Hold). cbn [List.filter snd]. by destruct (s8 x =? 0), (- s8 y =? 0).
Qed.

Lemma mouse_byte_reaches s log k b : ms_rel s (k_input k) -> ring_holds (in_mouse_queue (k_input k)) (in_mouse_seq (k_input k)) log ->
  Z.of_nat (length log) + 6 < 2 ^ 64 ->
  let k' := exec (mouse_process_byte b) k in
  ms_rel (fst (ms_step s b)) (k_input k') /\
  ring_holds (in_mouse_queue (k_input k')) (in_mouse_seq (k_input k')) (log ++ map (stamp (k_now k)) (snd (ms_step s b))).
Proof.
  intros [Hp Hs Hpart Hb] Hr Hn. cbv zeta. unfold mouse_process_byte. rewrite exec_get. cbv zeta. rewrite Hp. unfold ms_step.
  destruct s as [part buttons]. cbn [ms_part ms_buttons] in *. set (i1 := (k_input k) <| in_mouse_packet := <[Z.of_nat (length part) := b]> (in_mouse_packet (k_input k)) |> <| in_mouse_pos := Z.of_nat (length part) + 1 |>).
  assert (Hpart1 : forall j b', (part ++ [b]) !! j = Some b' -> arr (in_mouse_packet i1) (Z.of_nat j) = b').
  { intros j b' Hj. unfold i1, arr. cbn. apply lookup_app_Some in Hj as [Hj|[Hl Hj]].
    - rewrite lookup_insert_ne by (apply lookup_lt_Some in Hj; lia). by apply Hpart.
    - apply list_lookup_singleton_Some in Hj as [Hj <-]. replace j with (length part) by lia. by rewrite lookup_insert_eq. }
  rewrite exec_if, exec_upd_input, exec_get. cbv beta zeta. rewrite Hp. fold i1.
  destruct part as [|flags [|x [|? part]]]; cbn [length Z.of_nat] in *; [| | | lia].
  - destruct (has b 8) eqn:E8; cbn [andb negb fst snd map Z.eqb].
    + cbn. rewrite app_nil_r. split; [split; cbn; try done; lia | done].
    + cbn. rewrite app_nil_r. by split.
  - cbn. rewrite app_nil_r. split; [split; cbn; try done; lia | done].
  - change (Z.of_nat 2 =? 0) with false. cbn [andb]. assert (A0 : arr (in_mouse_packet i1) 0 = flags) by (by apply (Hpart1 0%nat)).
    assert (A1 : arr (in_mouse_packet i1) 1 = x) by (by apply (Hpart1 1%nat)). assert (A2 : arr (in_mouse_packet i1) 2 = b) by (by apply (Hpart1 2%nat)).
    change (exec _ _) with (exec ((if has (arr (in_mouse_packet i1) 0) 0xC0 then mouse_push_event EV_SYN SYN_REPORT 0 else
      mouse_push_all (motion_events (arr (in_mouse_packet i1) 0) (arr (in_mouse_packet i1) 1) (arr (in_mouse_packet i1) 2) (in_mouse_buttons i1)) ;;;
      upd_input (fun i => i <| in_mouse_buttons := Z.land (arr (in_mouse_packet i1) 0) 7 |>)) ;;; task_wake_io_waiters ;;; st_ret tt) (k <| k_input := i1 <| in_mouse_pos := 0 |> |>)).
    set (k2 := k <| k_input := i1 <| in_mouse_pos := 0 |> |>). rewrite A0, A1, A2, !exec_seq, exec_ret, wake_input, exec_if. unfold ms_packet. cbn [ms_buttons].
    destruct (has flags 0xC0); cbn [fst snd map].
    + unfold mouse_push_event, upd_input. run_exec. split; [by split; cbn; try lia|]. destruct Hr as [Hs' Hr]. apply log_push; [by split | cbn; lia].
    + rewrite (motion_eq flags x b (in_mouse_buttons i1) buttons) by exact Hb. set (l := _ ++ _ ++ _).
      assert (Hl : (length l <= 6)%nat).
      { unfold l. rewrite !length_app. pose proof (button_changes_short buttons (packet_buttons flags)). cbn [length].
        pose proof (filter_length_le (fun e => negb (snd e =? 0)) [(EV_REL, REL_X, s8 x); (EV_REL, REL_Y, - s8 b)]). cbn [length] in *. lia. }
      destruct (push_all_spec l log k2 Hr ltac:(lia)) as (Q & n & E & H). rewrite exec_seq. unfold upd_input, exec at 1 3 5, st_mod. cbn [snd k_input].
      unfold exec in E |- *. set (i2 := k_input (snd (mouse_push_all l k2))) in *.
      assert (Eb : forall j, 0 <= j < 3 -> Z.testbit (Z.land flags 7) j = Z.testbit flags j).
      { intros j Hj. rewrite Z.land_spec. change 7 with (Z.ones 3). rewrite Z.ones_spec_low by done. apply andb_true_r. }
      split; [|cbn; rewrite E; exact H]. split; cbn; [by rewrite E | lia | done|]. intros b' Hb'.
      change (Z.testbit (Z.land flags 7) (b' - BTN_LEFT) = bool_decide (b' ∈ packet_buttons flags)). rewrite packet_buttons_spec by done. apply Eb.
      revert Hb'. unfold BUTTONS. rewrite !elem_of_cons, elem_of_nil. unfold BTN_LEFT. lia.
Qed.

(** ** Reading events *)

(** Only read positions of evdev files changed. *)
Definition moved (k k' : kernel) : Prop :=
  (exists tabs ins, k' = k <| k_fd_tables := tabs |> <| k_input_states := ins |>) /\
  forall t fd, exists q, fdesc k' t fd = (fdesc k t fd) <| f_input_seq := q |>.

#[export] Instance moved_preorder : PreOrder moved.
Proof.
  split.
  - intros k. split; [exists (k_fd_tables k), (k_input_states k); by destruct k|]. intros t fd. exists (f_input_seq (fdesc k t fd)). by destruct (fdesc k t fd).
  - intros k1 k2 k3 [(t1 & i1 & E1) F1] [(t2 & i2 & E2) F2]. split; [exists t2, i2; by rewrite E2, E1|].
    intros t fd. destruct (F1 t fd) as [q1 H1], (F2 t fd) as [q2 H2]. exists q2. by rewrite H2, H1.
Qed.

Lemma synced_moved k k' : synced k k' -> k_vm k' = k_vm k -> moved k k'.
Proof. intros [(tabs & ins & m & ->) F _] Em. split; [|done]. cbn in Em. subst m. exists tabs, ins. by destruct k. Qed.

Section Moved.
Context (k k' : kernel) (H : moved k k').

Lemma moved_device t fd dev : is_device k' t fd dev = is_device k t fd dev.
Proof. apply is_device_file, H. Qed.
Lemma moved_input_ok : input_ok k -> input_ok k'.
Proof. intros Hok t fd t' fd' i. destruct H as [_ F]. destruct (F t fd) as [q ->], (F t' fd') as [q' ->]. cbn. apply Hok. Qed.
Lemma moved_log dev log : dev_log k dev log -> dev_log k' dev log.
Proof. destruct H as [(tabs & ins & ->) _]. done. Qed.
Lemma moved_oldest dev : queue_oldest k' dev = queue_oldest k dev.
Proof. destruct H as [(tabs & ins & ->) _]. done. Qed.
Lemma moved_flags t fd : f_flags (fdesc k' t fd) = f_flags (fdesc k t fd).
Proof. destruct (proj2 H t fd) as [q ->]. done. Qed.
End Moved.

(** The number of the next event of a descriptor: the events that were
    overwritten are lost. *)
Definition next_event (k : kernel) (t fd dev : Z) : Z := Z.max (input_fd_seq k t fd) (queue_oldest k dev).

Definition pop_event (mouse : bool) (t fd : Z) : ST kernel (option input_event_k) :=
  if mouse then mouse_pop_event_fd t fd else keyboard_pop_event_fd t fd.
Definition event_device (mouse : bool) : Z := if mouse then DEV_INPUT_MOUSE else DEV_INPUT.

Lemma oldest_eq k dev log : dev_log k dev log -> queue_oldest k dev = Z.max 0 (Z.of_nat (length log) - INPUT_EVENT_CAP).
Proof.
  intros (E & _). unfold queue_oldest, keyboard_event_oldest_seq, mouse_event_oldest_seq, queue_next in *. cbv zeta. unfold INPUT_EVENT_CAP, MOUSE_EVENT_CAP.
  destruct (dev =? DEV_INPUT); rewrite E; destruct (Z.ltb_spec 256 (Z.of_nat (length log))); lia.
Qed.

Section Device.
Context (k : kernel) (mouse : bool) (t fd : Z) (log : list input_event_k).
Local Abbreviation dev := (event_device mouse).
Context (Hok : input_ok k) (Hd : is_device k t fd dev = true) (Hlog : dev_log k dev log) (Hseq : 0 <= input_fd_seq k t fd).

(** Taking an event: the next one of the log, if there is one. *)
Lemma pop_event_spec : exists k', pop_event mouse t fd k = (log !! Z.to_nat (next_event k t fd dev), k') /\ moved k k' /\
  input_fd_seq k' t fd = (if is_Some_dec (log !! Z.to_nat (next_event k t fd dev)) then next_event k t fd dev + 1 else next_event k t fd dev).
Proof.
  destruct (sync_spec t fd dev k Hok Hd) as (Hs & Hm & Hq). set (k1 := exec _ k) in *. pose proof (synced_moved _ _ Hs Hm) as Hmv.
  assert (Hready : (if mouse then mouse_fd_ready t fd else keyboard_fd_ready t fd) k = (next_event k t fd dev <? queue_next k1 dev, k1)).
  { assert (Hx : forall c : bool, (if mouse then mouse_fd_ready t fd else keyboard_fd_ready t fd) = 
      (let! k := st_get in if negb (is_device k t fd dev) then st_ret false
       else (let! k := st_get in input_fd_sync t fd dev (queue_oldest k dev)) ;;; let! k := st_get in st_ret (input_fd_seq k t fd <? queue_next k dev))) by (by destruct mouse).
    rewrite (Hx true), bind_get, Hd. cbn [negb]. rewrite bind_eq, bind_get. change (exec _ k) with k1. unfold st_ret. by rewrite Hq. }
  destruct Hlog as (En & Hlt & Hring). assert (En1 : queue_next k1 dev = queue_next k dev) by (destruct Hmv as [(? & ? & ->) _]; done).
  assert (Hp : pop_event mouse t fd k = (if negb (next_event k t fd dev <? queue_next k1 dev) then (None, k1) else
    (Some (cell blank_input_event_k (dev_queue k1 dev) (next_event k t fd dev mod INPUT_EVENT_CAP)), exec (input_fd_seq_set t fd (u64 (next_event k t fd dev + 1))) k1))).
  { unfold pop_event, mouse_pop_event_fd, keyboard_pop_event_fd. destruct mouse; rewrite bind_eq; unfold exec at 1; rewrite Hready; cbn [fst snd];
      (destruct (_ <? _); cbn [negb]; [|done]); rewrite bind_get, bind_eq, Hq; done. }
  rewrite Hp, En1, En. pose proof (oldest_eq k dev log Hlog) as Ho. unfold next_event in *. set (n := Z.max _ _) in *.
  destruct (Z.ltb_spec n (Z.of_nat (length log))) as [Hn|Hn]; cbn [negb].
  - destruct (lookup_lt_is_Some_2 log (Z.to_nat n)) as [e He]; [lia|]. rewrite He.
    assert (Eq : dev_queue k1 dev = dev_queue k dev) by (destruct Hmv as [(? & ? & ->) _]; done).
    rewrite Eq. pose proof (Hring _ _ He ltac:(unfold INPUT_EVENT_CAP in *; lia)) as Hc. rewrite Z2Nat.id in Hc by lia. rewrite Hc.
    destruct (seq_set_frame t fd (u64 (n + 1)) k1) as (Hf & Hfd & Hs1 & _). eexists. split; [reflexivity|]. split; [refine (PreOrder_Transitive _ _ _ Hmv _); by split|].
    rewrite Hs1. destruct (is_Some_dec _) as [|Hno]; [by rewrite u64_small by lia | by destruct Hno].
  - rewrite lookup_ge_None_2 by lia. exists k1. split; [done|]. split; [done|]. destruct (is_Some_dec _) as [[? [=]]|]. exact Hq.
Qed.
End Device.

(** Taking several: the next ones of the log, each once and in order. *)
Lemma pop_events_spec mouse t fd log n : forall k, input_ok k -> is_device k t fd (event_device mouse) = true ->
  dev_log k (event_device mouse) log -> 0 <= input_fd_seq k t fd ->
  let events := take n (drop (Z.to_nat (next_event k t fd (event_device mouse))) log) in
  exists k', pop_events n mouse t fd k = (events, k') /\ moved k k' /\
    next_event k' t fd (event_device mouse) = next_event k t fd (event_device mouse) + Z.of_nat (length events).
Proof.
  induction n as [|n IH]; intros k Hok Hd Hlog Hseq; cbv zeta; cbn [pop_events firstn length].
  { exists k. split; [done|]. split; [reflexivity|]. by rewrite Z.add_0_r. }
  destruct (pop_event_spec k mouse t fd log Hok Hd Hlog Hseq) as (k1 & E1 & M1 & S1). change (if mouse then _ else _) with (pop_event mouse t fd).
  unfold st_bind at 1. rewrite E1. set (p := next_event k t fd (event_device mouse)) in *. assert (Hp : 0 <= p) by (unfold p, next_event; lia).
  assert (Ho : queue_oldest k (event_device mouse) <= p) by (unfold p, next_event; lia). pose proof (moved_oldest _ _ M1 (event_device mouse)) as Eo.
  destruct (log !! Z.to_nat p) as [e|] eqn:He.
  - destruct (is_Some_dec (Some e)) as [_|Hno]; [|by destruct Hno].
    assert (Hn : next_event k1 t fd (event_device mouse) = p + 1) by (unfold next_event; rewrite S1, Eo; lia).
    destruct (IH k1) as (k2 & E2 & M2 & S2); [by apply (moved_input_ok k) | by rewrite (moved_device k) | by apply (moved_log k) | lia|].
    rewrite Hn in E2, S2. replace (Z.to_nat (p + 1)) with (S (Z.to_nat p)) in E2, S2 by lia. unfold st_bind. rewrite E2.
    rewrite (drop_S log e (Z.to_nat p) He). cbn [firstn length]. exists k2. split; [done|]. split; [by transitivity k1|]. rewrite S2. lia.
  - destruct (is_Some_dec None) as [[? [=]]|_]. apply lookup_ge_None in He. rewrite drop_ge by done. cbn. exists k1. split; [done|]. split; [done|].
    unfold next_event. rewrite S1, Eo. lia.
Qed.

Lemma event_length e : length (event_bytes e) = 24%nat.
Proof. done. Qed.

Lemma event_bytes_ok l : Forall is_byte (concat (map event_bytes l)) /\ Z.of_nat (length (concat (map event_bytes l))) = EVENT_SIZE * Z.of_nat (length l).
Proof.
  induction l as [|e l [IH1 IH2]]; [done|]. cbn [map concat]. split.
  - apply Forall_app. split; [|done]. assert (Hb : forall w, is_byte (Z.land w 0xFF)) by (intros w; unfold is_byte; change 256 with (2 ^ 8); apply land_range; lia).
    unfold event_bytes, short_bytes, int_bytes. rewrite !Forall_app. split_and!; [apply word_bytes_range | apply word_bytes_range | by repeat apply Forall_cons_2; auto | by repeat apply Forall_cons_2; auto |].
    apply Forall_map, Forall_forall. intros i _. apply Hb.
  - rewrite length_app, event_length. cbn [length]. unfold EVENT_SIZE in *. lia.
Qed.

(** ** Several bytes *)

(** The bytes a loop on the controller takes. *)
Fixpoint drained (rounds : nat) (mouse : bool) (ports : list (Z * Z)) : list Z :=
  match rounds, ports with
  | S rounds, (st, b) :: ports => if negb (has st 0x01) || negb (eqb (has st 0x20) mouse) then [] else b :: drained rounds mouse ports
  | _, _ => []
  end.

Lemma drained_spec process mouse rounds : forall ports k,
  exec (drain rounds mouse process ports) k = foldl (fun k b => exec (process b) k) k (drained rounds mouse ports).
Proof.
  induction rounds as [|rounds IH]; intros ports k; [done|]. destruct ports as [|[st b] ports]; [done|]. cbn [drain drained].
  destruct (_ || _); [done|]. rewrite exec_seq. cbn [foldl]. apply IH.
Qed.

Lemma drained_part rounds mouse : forall ports, exists n, drained rounds mouse ports = take n (map snd ports).
Proof.
  induction rounds as [|rounds IH]; intros ports; [by exists 0%nat|]. destruct ports as [|[st b] ports]; [by exists 0%nat|]. cbn [drained].
  destruct (_ || _); [by exists 0%nat|]. destruct (IH ports) as [n ->]. by exists (S n).
Qed.

Lemma kb_step_short s b : (length (snd (kb_step s b)) <= 2)%nat.
Proof. unfold kb_step. destruct (b =? 224); [cbn; auto|]. cbv zeta. by destruct (scancode_key _ _) as [[code down]|]; cbn; auto. Qed.

Lemma ms_step_short s b : (length (snd (ms_step s b)) <= 6)%nat.
Proof.
  unfold ms_step, ms_packet. destruct (ms_part s) as [|flags [|x ?]]; [destruct (has b 8); apply Nat.le_0_l | apply Nat.le_0_l |]. destruct (has flags 192); [cbn; auto with arith|].
  cbn [snd]. rewrite !length_app. pose proof (button_changes_short (ms_buttons s) (packet_buttons flags)). cbn [length].
  pose proof (filter_length_le (fun e => negb (snd e =? 0)) [(EV_REL, REL_X, s8 x); (EV_REL, REL_Y, - s8 b)]). cbn [length] in *. lia.
Qed.

Lemma kb_run_spec l : forall s log k, kb_rel s (k_input k) -> dev_log k DEV_INPUT log -> Forall is_byte l ->
  Z.of_nat (length log + 2 * length l) < 2 ^ 64 ->
  let k' := foldl (fun k b => exec (keyboard_process_scancode b) k) k l in
  input_only k k' /\ kb_rel (fst (kb_run s l)) (k_input k') /\ dev_log k' DEV_INPUT (log ++ map (stamp (k_now k)) (snd (kb_run s l))).
Proof.
  induction l as [|b l IH]; intros s log k Hs Hl Hb Hn; cbn [foldl kb_run length] in *; [cbn; rewrite app_nil_r; done|].
  apply Forall_cons in Hb as [Hb Hbs]. destruct (scancode_reaches s log k Hs Hl ltac:(lia) b Hb) as [Hs1 Hl1]. pose proof (kb_step_short s b) as Hsh.
  pose proof (keeps_scancode b k) as Ho. set (k1 := exec _ k) in *. destruct (kb_step s b) as [s1 es]. cbn [fst snd] in *.
  destruct (IH s1 (log ++ map (stamp (k_now k)) es) k1 Hs1 Hl1 Hbs) as (Ho2 & Hs2 & Hl2); [rewrite length_app, length_map; lia|].
  rewrite (input_only_now _ _ Ho) in Hl2. destruct (kb_run s1 l) as [s2 es']. cbn [fst snd] in *. split; [by transitivity k1|]. split; [done|].
  by rewrite map_app, app_assoc.
Qed.

Lemma ms_run_spec l : forall s log k, ms_rel s (k_input k) -> dev_log k DEV_INPUT_MOUSE log -> Z.of_nat (length log + 6 * length l) < 2 ^ 64 ->
  let k' := foldl (fun k b => exec (mouse_process_byte b) k) k l in
  input_only k k' /\ ms_rel (fst (ms_run s l)) (k_input k') /\ dev_log k' DEV_INPUT_MOUSE (log ++ map (stamp (k_now k)) (snd (ms_run s l))).
Proof.
  induction l as [|b l IH]; intros s log k Hs Hl Hn; cbn [foldl ms_run length] in *; [cbn; rewrite app_nil_r; done|].
  destruct (mouse_byte_reaches s log k b Hs Hl ltac:(lia)) as [Hs1 Hl1]. pose proof (ms_step_short s b) as Hsh.
  pose proof (keeps_mouse_byte b k) as Ho. set (k1 := exec _ k) in *. destruct (ms_step s b) as [s1 es]. cbn [fst snd] in *.
  destruct (IH s1 (log ++ map (stamp (k_now k)) es) k1 Hs1 Hl1) as (Ho2 & Hs2 & Hl2); [rewrite length_app, length_map; lia|].
  rewrite (input_only_now _ _ Ho) in Hl2. destruct (ms_run s1 l) as [s2 es']. cbn [fst snd] in *. split; [by transitivity k1|]. split; [done|].
  by rewrite map_app, app_assoc.
Qed.
