(* ===== verification/InputThms.v ===== *)
(** * Properties of the keyboard, the mouse and the evdev files

    The interrupt handlers decode what the devices send, and a read of an
    evdev file delivers what they decoded. *)

From S2P Require Import Prelude Words Pmm PmmFacts PmmInit PmmThms PageAlloc.
From S2P Require Import Vmm VmmFacts VmmMap VmmSpace VmmThms CStr Vfs Kernel Tty Fd FdFacts FdInv Sched SchedFacts SchedThms.
From S2P Require Import UserCopy UserMem UserMemThms Pipe PipeFacts Signals SignalFacts Socket SocketFacts SocketThms.
From S2P Require Import Events Frames Poll PollFacts PollThms Input InputFacts.
Local Open Scope Z_scope.
Local Open Scope st_scope.


(** The mouse handler decodes packets of three bytes: bytes before one that
    can begin a packet are skipped, a packet that overflowed is only reported,
    and any other one moves the pointer by its signed counts, up being negative,
    and gives one event for each button that changed. *)
Theorem mouse_refines rounds ports s log k : ms_rel s (k_input k) -> dev_log k DEV_INPUT_MOUSE log ->
  Z.of_nat (length log + 6 * length ports) < 2 ^ 64 ->
  let bytes := drained rounds true ports in
  let k' := exec (drain rounds true mouse_process_byte ports) k in
  input_only k k' /\ ms_rel (fst (ms_run s bytes)) (k_input k') /\ dev_log k' DEV_INPUT_MOUSE (log ++ map (stamp (k_now k)) (snd (ms_run s bytes))).
Proof.
  intros Hs Hl Hn bytes k'. destruct (drained_part rounds true ports) as [n Hp]. unfold k'. rewrite drained_spec.
  apply ms_run_spec; [done | done |]. fold bytes in Hp |- *. rewrite Hp, length_take, length_map. lia.
Qed.

Section Read.
Context {HB : HhdmBase} {inv : pmm -> Prop} {held : pmm -> Z -> Prop} `{PA : !PageAllocator inv held}.
Local Abbreviation call_space := (call_space (inv := inv) (held := held)).
Variable kernel_wait_tick : kernel -> kernel.

Lemma call_space_moved k k' : moved k k' -> call_space k -> call_space k'.
Proof. intros [(tabs & ins & ->) _] [H1 H2]. by split. Qed.

(** C34. A read of an evdev file delivers the events that came after the last one
    it delivered, in order, whole, and each once: at most as many as fit in the
    buffer and 64, from the oldest one the ring still holds.  The position of the
    descriptor moves past them.  When there is none the call fails with
    EAGAIN on a descriptor that may not wait and sleeps on any other, and it
    fails with EINVAL when the buffer is too short for an event. *)
Theorem evdev_read_correct fuel f fd (mouse : bool) buf count log k :
  let dev := event_device mouse in let t := current_files k in
  input_ok k -> call_space k -> is_device k t fd dev = true -> dev_log k dev log -> 0 <= input_fd_seq k t fd ->
  0 <= buf -> 0 <= count -> buf + count <= USER_TOP ->
  let from := next_event k t fd dev in
  let events := take (Z.to_nat (Z.min INPUT_EVENT_READ_MAX (count / EVENT_SIZE))) (drop (Z.to_nat from) log) in
  let call := evdev_read kernel_wait_tick fuel f fd mouse buf count k in
  if count =? 0 then call = Some (0, k)
  else if count <? EVENT_SIZE then call = Some (- EINVAL, k)
  else exists k1, moved k k1 /\ next_event k1 t fd dev = from + Z.of_nat (length events) /\
    if is_nil events then
      if has (f_flags (fdesc k t fd)) O_NONBLOCK then call = Some (- EAGAIN, k1)
      else call = option_map (prod_map (fun r => if r =? 0 then 0 else - EAGAIN) id) (task_block_io kernel_wait_tick fuel f IO_WAIT_POLL 0 k1)
    else exists rc m, call = Some (if rc =? 0 then EVENT_SIZE * Z.of_nat (length events) else - EFAULT, k1 <| k_vm := m |>) /\
      copied_to (k_vm k) m buf (concat (map event_bytes events)) rc.
Proof.
  intros dev t Hok Hc Hd Hlog Hseq Hb Hcount Ht from events call. unfold call, evdev_read. destruct (Z.eqb_spec count 0) as [|Hne]; [done|].
  destruct (Z.ltb_spec count EVENT_SIZE) as [|Hge]; [done|]. fold t.
  assert (Em : (if INPUT_EVENT_READ_MAX <? count / EVENT_SIZE then INPUT_EVENT_READ_MAX else count / EVENT_SIZE) = Z.min INPUT_EVENT_READ_MAX (count / EVENT_SIZE))
    by (destruct (Z.ltb_spec INPUT_EVENT_READ_MAX (count / EVENT_SIZE)); lia).
  rewrite Em. destruct (pop_events_spec mouse t fd log (Z.to_nat (Z.min INPUT_EVENT_READ_MAX (count / EVENT_SIZE))) k Hok Hd Hlog Hseq) as (k1 & E1 & M1 & S1).
  fold dev from events in E1, S1. rewrite E1. exists k1. split; [done|]. split; [done|]. destruct (is_nil events) eqn:En.
  - rewrite (moved_flags _ _ M1). destruct (has _ O_NONBLOCK); [done|]. by destruct (task_block_io _ _ _ _ _ k1) as [[r k2]|].
  - destruct (user_copy_to buf _ k1) as [rc k2] eqn:E2. destruct (event_bytes_ok events) as [Hby Hlen].
    assert (Hl : EVENT_SIZE * Z.of_nat (length events) <= count).
    { unfold events. rewrite length_take. unfold EVENT_SIZE in *. dlia. }
    destruct (copy_to_call k1 buf (concat (map event_bytes events)) rc k2 (call_space_moved _ _ M1 Hc) Hb ltac:(lia) Hby E2) as (_ & _ & _ & Hres).
    assert (Ev : k_vm k1 = k_vm k) by (destruct M1 as [(? & ? & ->) _]; done). rewrite Ev in Hres. exists rc, (k_vm k2). split; [|done].
    pose proof (user_copy_to_vm buf (concat (map event_bytes events)) k1) as Ek. unfold exec in Ek. rewrite E2 in Ek. cbn [snd] in Ek. rewrite Ek at 1.
    assert (Hneg : (if negb (rc =? 0) then - EFAULT else Z.of_nat (length events) * EVENT_SIZE) = (if rc =? 0 then EVENT_SIZE * Z.of_nat (length events) else - EFAULT)).
    { destruct (rc =? 0); cbn [negb]; lia. }
    by rewrite Hneg.
Qed.
End Read.

(** ** The theorems at concrete inputs *)

#[local] Existing Instance demo_hhdm.

(** The keyboard is open as descriptor 3. *)
Definition evdev_kernel : kernel :=
  set_fdesc 0 3 (blank_file_desc <| f_in_use := true |> <| f_type := FD_PSEUDO |> <| f_flags := O_NONBLOCK |> <| f_private := PDev DEV_INPUT |>)
    (set_table_refs 0 1 (blank_kernel <| k_vm := event_machine |>)).

Definition idle_keyboard : keyboard := Keyboard false ∅ false false.
Lemma idle_keyboard_rel : kb_rel idle_keyboard (k_input evdev_kernel).
Proof. split; cbn; try done. intros c _. unfold keyboard_key_is_down, arr. cbn. rewrite lookup_empty. cbn. unfold has. rewrite Z.land_0_l. by rewrite andb_false_r. Qed.
Lemma no_events dev : dev_log evdev_kernel dev [].
Proof. unfold dev_log, queue_next. destruct (dev =? DEV_INPUT); (split; [done | split; [done | by intros j e Hj]]). Qed.

(** Shift goes down, then A, which repeats and goes up, then the up arrow goes down. *)
Definition typed : list (Z * Z) := map (pair 1) [0x2A; 0x1E; 0x1E; 0x9E; 0xE0; 0x48].
Definition typed_events : list (Z * Z * Z) :=
  [(EV_KEY, 42, 1); (EV_SYN, 0, 0); (EV_KEY, 30, 1); (EV_SYN, 0, 0); (EV_KEY, 30, 2); (EV_SYN, 0, 0); (EV_KEY, 30, 0); (EV_SYN, 0, 0);
   (EV_KEY, 103, 1); (EV_SYN, 0, 0)].
Lemma typed_run : snd (kb_run idle_keyboard (drained 16 false typed)) = typed_events /\
  bool_decide (42 ∈ kb_held (fst (kb_run idle_keyboard (drained 16 false typed)))) = true.
Proof. vm_compute. done. Qed.
Lemma typed_bytes : Forall (fun p => is_byte (snd p)) typed.
Proof. repeat (apply Forall_cons_2; [unfold is_byte; cbn; lia|]). by apply Forall_nil_2. Qed.
Definition typed_kernel : kernel := exec (drain 16 false keyboard_process_scancode typed) evdev_kernel.


Lemma idle_mouse_rel : ms_rel (Mouse [] ∅) (k_input evdev_kernel).
Proof. split; cbn; try done; try lia. intros b _. by rewrite Z.bits_0. Qed.

(** A byte that begins no packet, then one with the left button down that moves 5 to the right and 2 down. *)
Definition moves : list (Z * Z) := map (pair 0x21) [0x00; 0x09; 5; 0xFE].
Definition moves_events : list (Z * Z * Z) := [(EV_REL, REL_X, 5); (EV_REL, REL_Y, 2); (EV_KEY, BTN_LEFT, 1); (EV_SYN, 0, 0)].
Lemma moves_run : snd (ms_run (Mouse [] ∅) (drained 8 true moves)) = moves_events.
Proof. vm_compute. done. Qed.

Lemma mouse_witness : dev_log (exec (drain 8 true mouse_process_byte moves) evdev_kernel) DEV_INPUT_MOUSE (map (stamp 0) moves_events).
Proof.
  destruct (mouse_refines 8 moves (Mouse [] ∅) [] evdev_kernel idle_mouse_rel (no_events DEV_INPUT_MOUSE) ltac:(cbn; lia)) as (_ & _ & Hl).
  rewrite moves_run in Hl. exact Hl.
Defined.

(** The events of the keys that were typed, read into a buffer for five. *)
Lemma typed_log : dev_log typed_kernel DEV_INPUT (map (stamp 0) typed_events) /\ input_only evdev_kernel typed_kernel.
Proof.
  destruct (kb_run_spec (drained 16 false typed) idle_keyboard [] evdev_kernel idle_keyboard_rel (no_events DEV_INPUT)) as (Ho & _ & Hl); [| vm_compute; done |].
  - change (drained 16 false typed) with (map snd typed). apply Forall_map. exact typed_bytes.
  - unfold typed_kernel. rewrite drained_spec. split; [|exact Ho]. destruct typed_run as [Ev _]. rewrite Ev in Hl. exact Hl.
Qed.

Lemma evdev_fdesc t fd : f_input_state (fdesc evdev_kernel t fd) = None.
Proof. unfold evdev_kernel, fdesc, set_fdesc. cbn. unfold cell, default. rewrite lookup_insert. case_decide; [done|]. by rewrite lookup_empty. Qed.
Lemma evdev_ok : input_ok evdev_kernel.
Proof. intros t fd t' fd' i H. by rewrite evdev_fdesc in H. Qed.
Lemma evdev_space : call_space (inv := pmm_wf) (held := pool_held) evdev_kernel.
Proof.
  split; [|vm_compute; reflexivity]. unfold evdev_kernel. assert (H := event_space). destruct H as [H _]. rewrite event_vm in H. revert H. by generalize event_machine.
Qed.

Lemma input_only_same k k' : input_only k k' -> (input_ok k -> input_ok k') /\ (call_space (inv := pmm_wf) (held := pool_held) k -> call_space (inv := pmm_wf) (held := pool_held) k') /\
  k_vm k' = k_vm k /\ current_files k' = current_files k /\ (forall t fd dev, is_device k' t fd dev = is_device k t fd dev) /\
  (forall t fd, input_fd_seq k' t fd = input_fd_seq k t fd).
Proof. intros ->. split_and!; try done. intros [H1 H2]. by split. Qed.
Lemma evdev_start : current_files evdev_kernel = 0 /\ is_device evdev_kernel 0 3 DEV_INPUT = true /\ input_fd_seq evdev_kernel 0 3 = 0.
Proof. vm_compute. done. Qed.
Lemma evdev_vm : k_vm evdev_kernel = event_machine.
Proof. unfold evdev_kernel. by generalize event_machine. Qed.

Lemma typed_start : input_ok typed_kernel /\ call_space (inv := pmm_wf) (held := pool_held) typed_kernel /\ k_vm typed_kernel = event_machine /\
  current_files typed_kernel = 0 /\ is_device typed_kernel 0 3 DEV_INPUT = true /\ input_fd_seq typed_kernel 0 3 = 0 /\ next_event typed_kernel 0 3 DEV_INPUT = 0.
Proof.
  destruct typed_log as [Hl Ho]. unfold next_event. rewrite (oldest_eq _ _ _ Hl). destruct (input_only_same _ _ Ho) as (H1 & H2 & H3 & H4 & H5 & H6).
  rewrite H3, H4, H5, H6. destruct evdev_start as (-> & -> & ->). split; [exact (H1 evdev_ok)|]. split; [exact (H2 evdev_space)|]. split; [exact evdev_vm|]. split; [|split; [|split]]; reflexivity.
Qed.

Definition evdev_run : option (Z * kernel) := evdev_read (fun k => k) 0 blank_regs 3 false 0x400500 120 typed_kernel.
Lemma evdev_run_ok : option_map fst evdev_run = Some 120.
Proof. vm_compute. reflexivity. Qed.

Lemma evdev_read_witness : stored event_machine (k_vm (after evdev_run)) 0x400500 (concat (map event_bytes (map (stamp 0) (take 5 typed_events)))).
Proof.
  destruct typed_start as (Hi & Hc & Ev & Et & Hd & Hq & Hn).
  pose proof (evdev_read_correct (inv := pmm_wf) (held := pool_held) (fun k => k) 0 blank_regs 3 false 0x400500 120 (map (stamp 0) typed_events) typed_kernel) as H.
  cbv zeta in H. rewrite Et in H. change (event_device false) with DEV_INPUT in H. rewrite Hq, Hn, Ev in H.
  destruct (H Hi Hc Hd (proj1 typed_log) (Z.le_refl 0) ltac:(lia) ltac:(lia) ltac:(unfold USER_TOP; lia)) as (k1 & _ & _ & R).
  destruct R as (rc & m & E & Hcp). destruct (after_inv _ _ _ E) as [Ek Hr]. change (evdev_read _ _ _ _ _ _ _ _) with evdev_run in Ek, Hr. rewrite evdev_run_ok in Hr.
  rewrite Ek. destruct Hcp as [(_ & Hst & _)|(Hrc & _)]; [exact Hst | rewrite Hrc in Hr; discriminate Hr].
Defined.
