(* ===== verification/Ident.v ===== *)
(** * Process identity and small calls

    Process numbers, groups and sessions, user and group identities, segment
    bases, limits, names and the calls that only answer a constant
    ([src/kernel/main.c]). *)

From Stdlib Require Import String.
From S2P Require Import Prelude Words Pmm Vmm CStr Vfs Kernel Tty Fd Sched UserCopy Pipe Signals.
Local Open Scope Z_scope.
Local Open Scope st_scope.

(** The task that makes the call, after the root task was set up. *)
Definition own_task : ST kernel task_t := task_init_root ;;; let! k := st_get in st_ret (task k (k_current k)).

(** ** Process numbers *)

Definition sys_getpid : ST kernel Z := let! t := own_task in st_ret (if negb (t_tgid t =? 0) then t_tgid t else t_pid t).
Definition sys_getppid : ST kernel Z := let! t := own_task in st_ret (t_ppid t).
Definition sys_gettid : ST kernel Z := let! t := own_task in st_ret (t_pid t).
Definition sys_getpgrp : ST kernel Z := let! t := own_task in st_ret (t_pgrp t).

(** The task with this number. *)
Definition task_with_pid (k : kernel) (pid : Z) : option Z := find (fun i => t_used (task k i) && (t_pid (task k i) =? pid)) all_tasks.

Definition sys_getpgid (pid : Z) : ST kernel Z :=
  let! t := own_task in
  let! k := st_get in
  st_ret (match task_with_pid k (if pid =? 0 then t_pid t else pid) with Some i => t_pgrp (task k i) | None => - ESRCH end).

Definition sys_setpgid (pid pgid : Z) : ST kernel Z :=
  let! t := own_task in
  let! k := st_get in
  let pid := if pid =? 0 then t_pid t else pid in
  let pgid := if pgid =? 0 then pid else pgid in
  match task_with_pid k pid with
  | None => st_ret (- ESRCH)
  | Some i =>
      if negb (t_session (task k i) =? t_session t) then st_ret (- EPERM)
      else st_mod (upd_task i (fun x => x <| t_pgrp := pgid |>)) ;;; st_ret 0
  end.

Definition sys_setsid : ST kernel Z :=
  let! t := own_task in
  let! k := st_get in
  if t_pgrp t =? t_pid t then st_ret (- EPERM)
  else
    st_mod (upd_task (k_current k) (fun x => x <| t_session := t_pid x |> <| t_pgrp := t_pid x |> <| t_controlling_tty := -1 |>)) ;;;
    st_ret (t_pid t).

Definition sys_set_tid_address (p : Z) : ST kernel Z :=
  let! t := own_task in
  let! k := st_get in
  if (p =? 0) || negb (user_range_ok k p 4 true) then st_ret (- EFAULT)
  else st_mod (upd_task (k_current k) (fun x => x <| t_tid_address := p |>)) ;;; st_ret (t_pid t).

(** ** Users and groups: there is only the root *)

Definition YABRO_ID_UNCHANGED : Z := UINT32_MAX.

Definition sys_getuid : Z := 0.
Definition sys_geteuid : Z := 0.
Definition sys_getgid : Z := 0.
Definition sys_getegid : Z := 0.
Definition sys_setuid (uid : Z) : Z := if uid =? 0 then 0 else - EPERM.
Definition sys_setgid (gid : Z) : Z := if gid =? 0 then 0 else - EPERM.

Definition identity_request_supported (a b c : Z) : bool :=
  let ok x := (x =? 0) || (x =? YABRO_ID_UNCHANGED) in ok a && ok b && ok c.
Definition sys_setresuid (ruid euid suid : Z) : Z := if identity_request_supported ruid euid suid then 0 else - EPERM.
Definition sys_setresgid (rgid egid sgid : Z) : Z := if identity_request_supported rgid egid sgid then 0 else - EPERM.
Definition sys_setreuid (ruid euid : Z) : Z := if identity_request_supported ruid euid YABRO_ID_UNCHANGED then 0 else - EPERM.
Definition sys_setregid (rgid egid : Z) : Z := if identity_request_supported rgid egid YABRO_ID_UNCHANGED then 0 else - EPERM.

(** ** Segment bases *)

Definition ARCH_SET_GS : Z := 0x1001.
Definition ARCH_SET_FS : Z := 0x1002.
Definition ARCH_GET_FS : Z := 0x1003.
Definition ARCH_GET_GS : Z := 0x1004.

(** [user_copy_to]: 0 or -EFAULT. *)
Definition copy_answer (dst : Z) (l : list Z) : ST kernel Z := let! r := user_copy_to dst l in st_ret (if negb (r =? 0) then - EFAULT else 0).

(** An address for a segment: null, or mapped in user space. *)
Definition base_ok (k : kernel) (addr : Z) : bool :=
  (addr <? USER_LIMIT) && ((addr =? 0) || is_some (vmm_user_translate (k_vm k) addr)).

Definition sys_arch_prctl (code addr : Z) : ST kernel Z :=
  task_init_root ;;;
  let! k := st_get in
  let i := k_current k in
  if code =? ARCH_SET_FS then
    if negb (base_ok k addr) then st_ret (- EFAULT)
    else
      st_mod (upd_task i (fun t => t <| t_ctx := set_reg (t_ctx t) FS_BASE addr |>)) ;;;
      st_mod (fun k => k <| k_msr_fs := addr |>) ;;; st_ret 0
  else if code =? ARCH_SET_GS then
    if negb (base_ok k addr) then st_ret (- EFAULT)
    else
      st_mod (upd_task i (fun t => t <| t_ctx := set_reg (t_ctx t) GS_BASE addr |>)) ;;;
      st_mod (fun k => k <| k_msr_gs := addr |>) ;;; st_ret 0
  else if code =? ARCH_GET_FS then
    if (addr =? 0) || negb (user_range_ok k addr 8 true) then st_ret (- EFAULT)
    else
      (if task_ok i && t_used (task k i) then st_mod (upd_task i (fun t => t <| t_ctx := set_reg (t_ctx t) FS_BASE (k_msr_fs k) |>)) else st_ret tt) ;;;
      copy_answer addr (word_bytes (k_msr_fs k))
  else if code =? ARCH_GET_GS then
    if (addr =? 0) || negb (user_range_ok k addr 8 true) then st_ret (- EFAULT)
    else copy_answer addr (word_bytes (t_ctx (task k i) GS_BASE))
  else st_ret (- EINVAL).

(** ** Limits, masks and names *)

Definition RLIM_INFINITY : Z := UINT64_MAX.
Definition RLIMIT_NOFILE : Z := 7.
Definition RLIMIT_STACK : Z := 3.
Definition PR_SET_NAME : Z := 15.
Definition PR_GET_NAME : Z := 16.

Definition sys_getrlimit (resource rlim : Z) : ST kernel Z :=
  let v := if resource =? RLIMIT_NOFILE then MAX_FILES else if resource =? RLIMIT_STACK then 0x40000 else RLIM_INFINITY in
  copy_answer rlim (word_bytes v ++ word_bytes v).

(** [pid] is compared with current_pid, which is 1 for ever. *)
Definition sys_prlimit64 (pid resource new_lim old_lim : Z) : ST kernel Z :=
  if negb (pid =? 0) && negb (pid =? 1) then st_ret (-3)
  else if negb (new_lim =? 0) then st_ret (- ENOSYS)
  else if negb (old_lim =? 0) then sys_getrlimit resource old_lim
  else st_ret 0.

Definition sys_umask (mask : Z) : ST kernel Z :=
  let! k := st_get in st_mod (fun k => k <| k_umask := Z.land mask 0x1FF |>) ;;; st_ret (k_umask k).

(** The loop over the bytes of a new name: [None] for -EFAULT, otherwise the
    bytes before the first zero. *)
Fixpoint name_bytes (n : nat) (k : kernel) (src : Z) : option (list Z) :=
  match n with
  | O => Some []
  | S n =>
      match user_copy_from k src 1 with
      | Some [c] => if c =? 0 then Some [] else option_map (cons c) (name_bytes n k (u64 (src + 1)))
      | _ => None
      end
  end.

(** The name has 16 bytes, the rest is zero. *)
Definition sys_prctl (option_ a2 : Z) : ST kernel Z :=
  let! k := st_get in
  if option_ =? PR_SET_NAME then
    match name_bytes 15 k a2 with
    | None => st_ret (- EFAULT)
    | Some l => st_mod (fun k => k <| k_process_name := take 16 (l ++ repeat 0 16) |>) ;;; st_ret 0
    end
  else if option_ =? PR_GET_NAME then copy_answer a2 (k_process_name k)
  else st_ret (- EINVAL).

(** ** Processors *)

Definition sys_sched_setaffinity (cpusetsize mask : Z) : ST kernel Z :=
  let! k := st_get in
  st_ret (if (mask =? 0) || (cpusetsize =? 0) || (128 <? cpusetsize) then - EINVAL
          else match user_copy_from k mask cpusetsize with Some _ => 0 | None => - EFAULT end).

Definition sys_sched_getaffinity (cpusetsize mask : Z) : ST kernel Z :=
  if (mask =? 0) || (cpusetsize =? 0) || (128 <? cpusetsize) then st_ret (- EINVAL)
  else let! r := copy_answer mask (take (Z.to_nat cpusetsize) (1 :: repeat 0 127)) in st_ret (if r =? 0 then cpusetsize else r).

Definition sys_getcpu (cpu node : Z) : ST kernel Z :=
  let put p := if p =? 0 then st_ret 0 else copy_answer p (repeat 0 4) in
  let! r := put cpu in
  if negb (r =? 0) then st_ret r else put node.

Definition sys_set_robust_list (head len : Z) : ST kernel Z :=
  let! k := st_get in
  if negb (len =? 24) || (head =? 0) || negb (user_range_ok k head len false) then st_ret (- EINVAL)
  else st_mod (fun k => k <| k_robust_head := head |> <| k_robust_len := len |>) ;;; st_ret 0.

Definition sys_get_robust_list (pid head_ptr len_ptr : Z) : ST kernel Z :=
  let! own := if (pid =? 0) || (pid =? 1) then st_ret pid else sys_getpid in
  let! k := st_get in
  if negb (pid =? own) then st_ret (-3)
  else if (head_ptr =? 0) || (len_ptr =? 0) then st_ret (- EFAULT)
  else
    let! r := copy_answer head_ptr (word_bytes (k_robust_head k)) in
    if negb (r =? 0) then st_ret r else copy_answer len_ptr (word_bytes (k_robust_len k)).

(** ** The system *)

(** Five fields of 65 bytes of the 390. *)
Definition uname_text : list Z :=
  let field s := take 65 (cs s ++ repeat 0 65) in
  field "YabroOS-32"%string ++ field "yabroos-32"%string ++ field "0.1"%string ++ field "x86_64"%string ++ field "localdomain"%string ++ repeat 0 65.

Definition sys_uname (buf : Z) : ST kernel Z :=
  let! k := st_get in
  if (buf =? 0) || negb (user_range_ok k buf 390 true) then st_ret (- EFAULT) else copy_answer buf uname_text.

(** uptime, loads, totalram, freeram, four sizes that are 0, mem_unit, padding. *)
Definition sysinfo_bytes (k : kernel) : list Z :=
  word_bytes (kernel_uptime_ns k / 1000000000) ++ repeat 0 24 ++ word_bytes (u64 (pmm_total_count (m_pmm (k_vm k)) * 4096)) ++
  word_bytes (u64 (pmm_free_count (m_pmm (k_vm k)) * 4096)) ++ repeat 0 32 ++ take 4 (word_bytes 1) ++ repeat 0 12.

Definition sys_sysinfo (ui : Z) : ST kernel Z := let! k := st_get in copy_answer ui (sysinfo_bytes k).
