(* ===== verification/Clock.v ===== *)
(** * Clocks

    The monotonic clock, made of timer ticks and the time stamp counter, and
    the real-time clock of the CMOS ([src/kernel/main.c]).  Instructions and
    ports are arguments: a value of the time stamp counter for each time it is
    read, the registers of the CMOS as a function. *)

From Stdlib Require Import String.
From S2P Require Import Prelude Words Pmm Vmm CStr Vfs Kernel Tty Fd Sched UserCopy Signals Events Ident.
Local Open Scope Z_scope.
Local Open Scope st_scope.

(** ** The monotonic clock *)

Definition YABRO_PIT_TICK_NS : Z := 10000000.

Record clock_state := Clock {
  timer_ticks_global : Z;
  timer_tick_tsc : Z;
  monotonic_boot_tsc : Z;
  monotonic_tsc_hz : Z;
  monotonic_ready : bool
}.

Definition clock_boot : clock_state := Clock 0 0 0 1000000000 false.

Section Cpuid.
(** (eax, ebx, ecx, edx) of a leaf. *)
Variable cpuid : Z -> Z -> Z * Z * Z * Z.

Definition hz_ok (hz : Z) : bool := (100000000 <=? hz) && (hz <=? 10000000000).

(** The frequency of leaf 0x15, where the leaf gives one in range. *)
Definition crystal_hz : option Z :=
  let '(a, b, c, _) := cpuid 0x15 0 in
  if (a =? 0) || (b =? 0) || (c =? 0) then None else let hz := c * b / a in if hz_ok hz then Some hz else None.

Definition base_hz : option Z :=
  let '(a, _, _, _) := cpuid 0x16 0 in
  if a =? 0 then None else let hz := a * 1000000 in if hz_ok hz then Some hz else None.

Definition cpuid_tsc_hz : Z :=
  let '(maxleaf, _, _, _) := cpuid 0 0 in
  match (if 0x15 <=? maxleaf then crystal_hz else None) with
  | Some hz => hz
  | None => default 1000000000 (if 0x16 <=? maxleaf then base_hz else None)
  end.

Definition monotonic_init (tsc : Z) (c : clock_state) : clock_state :=
  Clock (timer_ticks_global c) (timer_tick_tsc c) tsc cpuid_tsc_hz true.

(** The tick of the timer interrupt. *)
Definition clock_tick (tsc : Z) (c : clock_state) : clock_state :=
  Clock (u64 (timer_ticks_global c + 1)) tsc (monotonic_boot_tsc c) (monotonic_tsc_hz c) (monotonic_ready c).

(** The part of a tick that has passed, below one tick. *)
Definition tick_fraction (base_tsc now_tsc hz : Z) : Z :=
  if (base_tsc =? 0) || (now_tsc <? base_tsc) then 0
  else
    let estimate := (now_tsc - base_tsc) * 1000000000 / (if hz =? 0 then 1000000000 else hz) in
    if YABRO_PIT_TICK_NS <=? estimate then YABRO_PIT_TICK_NS - 1 else estimate.

(** [init_tsc] is read if the clock was not set up, [now_tsc] after that.  No tick
    comes while it runs, so its loop has one round. *)
Definition kernel_monotonic_ns (init_tsc now_tsc : Z) (c : clock_state) : Z * clock_state :=
  let c := if monotonic_ready c then c else monotonic_init init_tsc c in
  let ticks := timer_ticks_global c in
  let base_tsc := if ticks =? 0 then monotonic_boot_tsc c else timer_tick_tsc c in
  (if UINT64_MAX / YABRO_PIT_TICK_NS <? ticks then UINT64_MAX
   else
     let base_ns := ticks * YABRO_PIT_TICK_NS in
     let fraction_ns := tick_fraction base_tsc now_tsc (monotonic_tsc_hz c) in
     if UINT64_MAX - base_ns <? fraction_ns then UINT64_MAX else base_ns + fraction_ns, c).
End Cpuid.

(** ** The real-time clock *)

Definition bcd (x : Z) : Z := Z.land x 15 + Z.shiftr x 4 * 10.

(** Hours of a clock of 12 hours; bit 7 means afternoon. *)
Definition hour24 (hour : Z) : Z := if has hour 0x80 then (Z.land hour 0x7f + 12) mod 24 else if hour =? 12 then 0 else hour.

Definition leap_year (y : Z) : bool := ((y mod 4 =? 0) && negb (y mod 100 =? 0)) || (y mod 400 =? 0).

Definition month_days : list Z := [31; 28; 31; 30; 31; 30; 31; 31; 30; 31; 30; 31].

(** The days of the years from [y] on. *)
Fixpoint years_days (n : nat) (y : Z) : Z :=
  match n with O => 0 | S n => (if leap_year y then 366 else 365) + years_days n (y + 1) end.

(** The days of the months before [mon] of the year [y]. *)
Definition months_days (y mon : Z) : Z :=
  foldl (fun days m => days + nth (Z.to_nat (m - 1)) month_days 0 + Z.b2z ((m =? 2) && leap_year y)) 0 (seqZ 1 (mon - 1)).

Definition rtc_days (y mon day : Z) : Z := u64 (years_days (Z.to_nat (y - 1970)) 1970 + months_days y mon + (day - 1)).

Section Cmos.
(** What the registers of the CMOS hold. *)
Variable cmos : Z -> Z.

(** A register; [binary] is bit 2 of register B. *)
Definition rtc_field (binary : bool) (reg : Z) : Z := if binary then cmos reg else bcd (cmos reg).

(** Seconds since 1970 and nanoseconds. *)
Definition rtc_now : Z * Z :=
  let b := cmos 0x0B in
  let field := rtc_field (has b 4) in
  let hour := if has b 2 then field 0x04 else hour24 (field 0x04) in
  (u64 (rtc_days (2000 + field 0x09) (field 0x08) (field 0x07) * 86400 + hour * 3600 + field 0x02 * 60 + field 0x00), 0).

Definition two_digits (x : Z) : list Z := [48 + x / 10; 48 + x mod 10].

(** hh:mm:ss with its terminator; a small buffer is left alone. *)
Definition get_rtc_time (bufsize : Z) : option (list Z) :=
  let b := cmos 0x0B in
  let field := rtc_field (has b 4) in
  let hour := if has b 4 then cmos 0x04
              else Z.lor (Z.land (cmos 0x04) 15 + Z.shiftr (Z.land (cmos 0x04) 0x70) 4 * 10) (Z.land (cmos 0x04) 0x80) in
  let hour := if has b 2 then hour else hour24 hour in
  if 9 <=? bufsize then Some (two_digits hour ++ [58] ++ two_digits (field 0x02) ++ [58] ++ two_digits (field 0x00) ++ [0]) else None.

(** ** System calls *)

Definition sys_time : Z := fst rtc_now.

Definition sys_gettimeofday (tv : Z) : ST kernel Z :=
  let '(s, n) := rtc_now in
  if tv =? 0 then st_ret 0 else copy_answer tv (word_bytes s ++ word_bytes (n / 1000)).

Definition sys_clock_gettime (id tp : Z) : ST kernel Z :=
  if negb (id =? 0) && negb (id =? 1) && negb (id =? 4) then st_ret (- EINVAL)
  else
    let! k := st_get in
    let ns := clock_now_ns_simple rtc_now k id in
    copy_answer tp (word_bytes (ns / 1000000000) ++ word_bytes (ns mod 1000000000)).
End Cmos.

Definition sys_clock_getres (id tp : Z) : ST kernel Z :=
  if negb (id =? 0) && negb (id =? 1) && negb (id =? 4) then st_ret (- EINVAL) else copy_answer tp (word_bytes 1 ++ word_bytes 0).
