(* ===== verification/ClockThms.v ===== *)
(** * Properties of the clocks

    The monotonic clock does not go back, and the real-time clock is read as
    the seconds since 1970 of the Gregorian calendar. *)

From Stdlib Require Import String.
From S2P Require Import Prelude Words Pmm Vmm CStr Vfs Kernel Tty Fd Sched UserCopy Signals Events Ident Clock.
Local Open Scope Z_scope.
Local Open Scope st_scope.

(** ** The monotonic clock *)

Inductive clock_event := Tick (tsc : Z) | Read (init_tsc now_tsc : Z).

Section Monotonic.
Variable cpuid : Z -> Z -> Z * Z * Z * Z.

Definition clock_step (c : clock_state) (e : clock_event) : clock_state :=
  match e with Tick tsc => clock_tick tsc c | Read i n => snd (kernel_monotonic_ns cpuid i n c) end.

(** The clock after these events from boot, and what is read then. *)
Definition clock_after (tr : list clock_event) : clock_state := foldl clock_step clock_boot tr.
Definition read_at (tr : list clock_event) (i n : Z) : Z := fst (kernel_monotonic_ns cpuid i n (clock_after tr)).

Definition is_tick (e : clock_event) : bool := match e with Tick _ => true | Read _ _ => false end.
Definition ticks_in (tr : list clock_event) : Z := Z.of_nat (length (List.filter is_tick tr)).

Lemma ticks_app a b : ticks_in (a ++ b) = ticks_in a + ticks_in b.
Proof. unfold ticks_in. rewrite List.filter_app, length_app. lia. Qed.
Lemma ticks_le tr : 0 <= ticks_in tr <= Z.of_nat (length tr).
Proof. unfold ticks_in. induction tr as [|[t|i n] tr IH]; cbn [List.filter is_tick length] in *; lia. Qed.

Lemma crystal_positive hz : crystal_hz cpuid = Some hz -> 0 < hz.
Proof.
  unfold crystal_hz. destruct (cpuid 0x15 0) as [[[a b] c] d]. destruct (_ || _); [done|]. destruct (hz_ok _) eqn:E; [|done]. intros [= <-]. unfold hz_ok in E. lia.
Qed.

Lemma base_positive hz : base_hz cpuid = Some hz -> 0 < hz.
Proof. unfold base_hz. destruct (cpuid 0x16 0) as [[[a b] c] d]. destruct (_ =? _); [done|]. destruct (hz_ok _) eqn:E; [|done]. intros [= <-]. unfold hz_ok in E. lia. Qed.

Lemma hz_positive : 0 < cpuid_tsc_hz cpuid.
Proof.
  unfold cpuid_tsc_hz. destruct (cpuid 0 0) as [[[maxleaf b] c] d]. pose proof crystal_positive as H1. pose proof base_positive as H2.
  destruct (0x15 <=? maxleaf), (0x16 <=? maxleaf), (crystal_hz cpuid) as [hz|], (base_hz cpuid) as [hz'|]; cbn [default]; try lia; (by apply H1) || (by apply H2).
Qed.

(** What a clock that was set up has. *)
Definition set_up (c : clock_state) : Prop := monotonic_ready c = true -> 0 < monotonic_tsc_hz c.

Lemma clock_after_state tr : Z.of_nat (length tr) < 2 ^ 64 -> set_up (clock_after tr) /\ timer_ticks_global (clock_after tr) = ticks_in tr.
Proof.
  unfold clock_after. induction tr as [|e tr IH] using rev_ind; intros Hl; [done|]. rewrite length_app in Hl. cbn [length] in Hl. destruct IH as [Hs Ht]; [lia|].
  rewrite foldl_app, ticks_app. cbn [foldl]. set (c := foldl clock_step clock_boot tr) in *. destruct e as [t|i n]; cbn [clock_step].
  - split; [exact Hs|]. cbn [clock_tick timer_ticks_global]. rewrite Ht. pose proof (ticks_le tr). unfold u64. rewrite Z.mod_small; [done | lia].
  - unfold kernel_monotonic_ns. cbn [snd]. destruct (monotonic_ready c) eqn:E; [split; [exact Hs | by rewrite Ht, Z.add_0_r]|].
    split; [intros _; apply hz_positive | cbn [monotonic_init timer_ticks_global]; by rewrite Ht, Z.add_0_r].
Qed.

Definition clamp (x : Z) : Z := Z.min x UINT64_MAX.

Lemma fraction_bounds base now hz : 0 < hz -> 0 <= tick_fraction base now hz < YABRO_PIT_TICK_NS.
Proof.
  intros Hh. unfold tick_fraction. destruct (Z.eqb_spec base 0), (Z.ltb_spec now base); cbn [orb]; try (unfold YABRO_PIT_TICK_NS; lia).
  rewrite (proj2 (Z.eqb_neq hz 0)) by lia. assert (0 <= (now - base) * 1000000000 / hz) by (apply Z.div_pos; lia).
  destruct (Z.leb_spec YABRO_PIT_TICK_NS ((now - base) * 1000000000 / hz)); unfold YABRO_PIT_TICK_NS in *; lia.
Qed.

Lemma fraction_mono base n1 n2 hz : 0 < hz -> n1 <= n2 -> tick_fraction base n1 hz <= tick_fraction base n2 hz.
Proof.
  intros Hh Hn. destruct (Z.ltb_spec n1 base) as [Hb|Hb].
  { unfold tick_fraction at 1. rewrite (proj2 (Z.ltb_lt n1 base) Hb), orb_true_r. apply fraction_bounds. exact Hh. }
  unfold tick_fraction. rewrite !(proj2 (Z.ltb_ge _ base)) by lia. destruct (base =? 0); cbn [orb]; [lia|]. rewrite (proj2 (Z.eqb_neq hz 0)) by lia.
  assert ((n1 - base) * 1000000000 / hz <= (n2 - base) * 1000000000 / hz) by (apply Z.div_le_mono; lia).
  destruct (Z.leb_spec YABRO_PIT_TICK_NS ((n1 - base) * 1000000000 / hz)), (Z.leb_spec YABRO_PIT_TICK_NS ((n2 - base) * 1000000000 / hz)); lia.
Qed.

(** A value read is the ticks and the fraction, up to the greatest word. *)
Lemma read_value i n c : let c' := snd (kernel_monotonic_ns cpuid i n c) in set_up c -> 0 <= timer_ticks_global c ->
  monotonic_ready c' = true /\ set_up c' /\ timer_ticks_global c' = timer_ticks_global c /\
  fst (kernel_monotonic_ns cpuid i n c) = clamp (timer_ticks_global c * YABRO_PIT_TICK_NS +
    tick_fraction (if timer_ticks_global c =? 0 then monotonic_boot_tsc c' else timer_tick_tsc c') n (monotonic_tsc_hz c')).
Proof.
  cbv zeta. intros Hs Ht. unfold kernel_monotonic_ns. cbn [fst snd]. set (c' := if monotonic_ready c then c else _).
  assert (Hc : monotonic_ready c' = true /\ set_up c' /\ timer_ticks_global c' = timer_ticks_global c).
  { unfold c'. destruct (monotonic_ready c) eqn:E; [done|]. split_and!; [done | intros _; apply hz_positive | done]. }
  destruct Hc as (H1 & H2 & H3). split; [done|]. split; [done|]. split; [done|]. rewrite H3. pose proof (fraction_bounds
    (if timer_ticks_global c =? 0 then monotonic_boot_tsc c' else timer_tick_tsc c') n _ (H2 H1)) as Hf. revert Hf. set (fr := tick_fraction _ _ _). clearbody fr. intros Hf.
  unfold clamp, UINT64_MAX, YABRO_PIT_TICK_NS in *. replace (18446744073709551615 / 10000000) with 1844674407370 by reflexivity. destruct (Z.ltb_spec 1844674407370 (timer_ticks_global c)) as [Hb|Hb].
  - lia.
  - destruct (Z.ltb_spec (18446744073709551615 - timer_ticks_global c * 10000000) fr); lia.
Qed.

Lemma reads_keep b : forall c, monotonic_ready c = true -> ticks_in b = 0 -> foldl clock_step c b = c.
Proof.
  induction b as [|e b IH]; intros c Hc Hb; [done|]. cbn [foldl]. destruct e as [t|i n]; [unfold ticks_in in Hb; cbn in Hb; lia|].
  assert (E : clock_step c (Read i n) = c) by (cbn [clock_step]; unfold kernel_monotonic_ns; by rewrite Hc). rewrite E. by apply IH.
Qed.

(** C39. The monotonic clock does not go back: of two reads of it, with any
    timer ticks and other reads between them, the later one gives no smaller time
    if the time stamp counter did not go back between them, whatever its
    frequency; and every read after [k] ticks lies in the [k]-th period of
    10 milliseconds, up to the greatest 64-bit number. *)
Theorem monotonic_never_back a i1 n1 b i2 n2 : Z.of_nat (length a + length b) < 2 ^ 64 - 1 -> n1 <= n2 ->
  let v1 := read_at a i1 n1 in let v2 := read_at (a ++ Read i1 n1 :: b) i2 n2 in let k := ticks_in a in
  v1 <= v2 /\ clamp (k * YABRO_PIT_TICK_NS) <= v1 <= clamp (k * YABRO_PIT_TICK_NS + YABRO_PIT_TICK_NS - 1).
Proof.
  intros Hl Hn v1 v2 k. destruct (clock_after_state a) as [Hs1 Ht1]; [lia|]. destruct (clock_after_state (a ++ Read i1 n1 :: b)) as [Hs2 Ht2]; [rewrite length_app; cbn [length]; lia|].
  pose proof (ticks_le a) as Hka. pose proof (ticks_le b) as Hkb. destruct (read_value i1 n1 (clock_after a) Hs1) as (Hr1 & Hu1 & Hg1 & E1); [lia|].
  fold (read_at a i1 n1) in E1. fold v1 in E1. rewrite Ht1 in E1, Hg1. pose proof (fraction_bounds
    (if ticks_in a =? 0 then monotonic_boot_tsc (snd (kernel_monotonic_ns cpuid i1 n1 (clock_after a))) else timer_tick_tsc (snd (kernel_monotonic_ns cpuid i1 n1 (clock_after a)))) n1 _ (Hu1 Hr1)) as Hf1.
  assert (Ht : ticks_in (a ++ Read i1 n1 :: b) = ticks_in a + ticks_in b) by (rewrite ticks_app; unfold ticks_in; reflexivity).
  destruct (read_value i2 n2 (clock_after (a ++ Read i1 n1 :: b)) Hs2) as (Hr2 & Hu2 & _ & E2); [lia|]. fold (read_at (a ++ Read i1 n1 :: b) i2 n2) in E2. fold v2 in E2. rewrite Ht2, Ht in E2.
  assert (Hb1 : clamp (k * YABRO_PIT_TICK_NS) <= v1 <= clamp (k * YABRO_PIT_TICK_NS + YABRO_PIT_TICK_NS - 1)) by (unfold k; rewrite E1; unfold clamp; lia).
  split; [|exact Hb1]. destruct (Z.eqb_spec (ticks_in b) 0) as [Hb|Hb].
  - assert (Ec : clock_after (a ++ Read i1 n1 :: b) = snd (kernel_monotonic_ns cpuid i1 n1 (clock_after a))).
    { unfold clock_after. rewrite foldl_app. cbn [foldl]. apply reads_keep; [exact Hr1 | exact Hb]. }
    rewrite Ec in E2. set (c1 := snd (kernel_monotonic_ns cpuid i1 n1 (clock_after a))) in *.
    assert (Ek : snd (kernel_monotonic_ns cpuid i2 n2 c1) = c1) by (unfold kernel_monotonic_ns; by rewrite Hr1). rewrite Ek, Hb, Z.add_0_r in E2. rewrite E1, E2.
    pose proof (fraction_mono (if ticks_in a =? 0 then monotonic_boot_tsc c1 else timer_tick_tsc c1) n1 n2 _ (Hu1 Hr1) Hn). unfold clamp. lia.
  - pose proof (fraction_bounds (if ticks_in a + ticks_in b =? 0 then monotonic_boot_tsc (snd (kernel_monotonic_ns cpuid i2 n2 (clock_after (a ++ Read i1 n1 :: b))))
      else timer_tick_tsc (snd (kernel_monotonic_ns cpuid i2 n2 (clock_after (a ++ Read i1 n1 :: b))))) n2 _ (Hu2 Hr2)). rewrite E1, E2. unfold clamp, YABRO_PIT_TICK_NS in *. lia.
Qed.
End Monotonic.

(** Half of a period at 2 GHz, then the next tick. *)
Lemma monotonic_witness : read_at (fun _ _ => (0, 0, 0, 0)) [Tick 1000] 0 5001000 <= read_at (fun _ _ => (0, 0, 0, 0)) [Tick 1000; Read 0 5001000; Tick 6000000] 0 6000001.
Proof. refine (proj1 (monotonic_never_back (fun _ _ => (0, 0, 0, 0)) [Tick 1000] 0 5001000 [Tick 6000000] 0 6000001 _ _)); cbn; lia. Defined.

(** ** The real-time clock *)

(** The Gregorian calendar: a day is (year, month, day of the month). *)
Definition gregorian_leap (y : Z) : bool := (y mod 400 =? 0) || ((y mod 4 =? 0) && negb (y mod 100 =? 0)).

Definition month_length (y m : Z) : Z :=
  if m =? 2 then (if gregorian_leap y then 29 else 28)
  else if (m =? 4) || (m =? 6) || (m =? 9) || (m =? 11) then 30 else 31.

Definition next_day (d : Z * Z * Z) : Z * Z * Z :=
  let '(y, m, d) := d in
  if d <? month_length y m then (y, m, d + 1) else if m <? 12 then (y, m + 1, 1) else (y + 1, 1, 1).

(** The [n]-th day after 1 January 1970. *)
Definition calendar (n : nat) : Z * Z * Z := Nat.iter n next_day (1970, 1, 1).

Lemma leap_same y : leap_year y = gregorian_leap y.
Proof. unfold leap_year, gregorian_leap. apply orb_comm. Qed.

Lemma years_snoc n : forall y, years_days (S n) y = years_days n y + (if leap_year (y + Z.of_nat n) then 366 else 365).
Proof.
  induction n as [|n IH]; intros y; [cbn [years_days]; replace (y + Z.of_nat 0) with y by lia; lia|].
  cbn [years_days] in IH |- *. rewrite IH. replace (y + 1 + Z.of_nat n) with (y + Z.of_nat (S n)) by lia. lia.
Qed.

Lemma years_bound n y : 0 <= years_days n y <= 366 * Z.of_nat n.
Proof. revert y. induction n as [|n IH]; intros y; cbn [years_days]; [lia|]. pose proof (IH (y + 1)). destruct (leap_year y); lia. Qed.

Lemma months_first y : months_days y 1 = 0.
Proof. done. Qed.

Lemma months_step y m : 1 <= m < 12 -> months_days y (m + 1) = months_days y m + month_length y m.
Proof.
  intros Hm. assert (Hin : m ∈ seqZ 1 11) by (apply elem_of_seqZ; lia). unfold month_length. rewrite <- leap_same. unfold months_days. destruct (leap_year y);
  cbn in Hin; repeat (apply elem_of_cons in Hin as [ -> |Hin]; [reflexivity|]); by apply elem_of_nil in Hin.
Qed.

Lemma months_last y : months_days y 12 + month_length y 12 = if leap_year y then 366 else 365.
Proof. unfold months_days. by destruct (leap_year y). Qed.

Lemma months_bound y m : 1 <= m <= 12 -> months_days y m + month_length y m <= 366.
Proof.
  intros Hm. assert (Hin : m ∈ seqZ 1 12) by (apply elem_of_seqZ; lia). unfold month_length. rewrite <- leap_same. unfold months_days. destruct (leap_year y);
  cbn in Hin; repeat (apply elem_of_cons in Hin as [ -> |Hin]; [vm_compute; discriminate|]); by apply elem_of_nil in Hin.
Qed.

Definition day_count (d : Z * Z * Z) : Z := let '(y, m, d) := d in years_days (Z.to_nat (y - 1970)) 1970 + months_days y m + (d - 1).
Definition valid_day (d : Z * Z * Z) : Prop := let '(y, m, d) := d in 1970 <= y /\ 1 <= m <= 12 /\ 1 <= d <= month_length y m.

Lemma month_positive y m : 28 <= month_length y m <= 31.
Proof. unfold month_length. destruct (m =? 2); [destruct (gregorian_leap y); lia|]. destruct (_ || _); lia. Qed.

Lemma next_valid d : valid_day d -> valid_day (next_day d) /\ day_count (next_day d) = day_count d + 1.
Proof.
  destruct d as [[y m] d]. intros (Hy & Hm & Hd). unfold next_day. pose proof (month_positive y m). pose proof (month_positive y (m + 1)). pose proof (month_positive (y + 1) 1).
  destruct (Z.ltb_spec d (month_length y m)) as [Ha|Ha]; [unfold valid_day, day_count; lia|].
  destruct (Z.ltb_spec m 12) as [Hb|Hb].
  - unfold valid_day, day_count. rewrite months_step by lia. lia.
  - assert (m = 12) as -> by lia. unfold valid_day, day_count. replace (Z.to_nat (y + 1 - 1970)) with (S (Z.to_nat (y - 1970))) by lia.
    rewrite years_snoc, months_first. replace (1970 + Z.of_nat (Z.to_nat (y - 1970))) with y by lia. rewrite <- months_last. lia.
Qed.

Lemma calendar_count n : valid_day (calendar n) /\ day_count (calendar n) = Z.of_nat n.
Proof.
  unfold calendar. induction n as [|n [IHv IHc]]; [by split_and!|]. cbn [Nat.iter nat_rect]. destruct (next_valid _ IHv) as [Hv Hc]. split; [exact Hv|].
  change (nat_rect _ _ _ n) with (Nat.iter n next_day (1970, 1, 1)) in *. rewrite Hc, IHc. lia.
Qed.

(** ** What the registers show *)

Definition encode (binary : bool) (x : Z) : Z := if binary then x else Z.lor (Z.shiftl (x / 10) 4) (x mod 10).

(** The hour, in 12 or 24. *)
Definition encode_hour (binary h24 : bool) (h : Z) : Z :=
  if h24 then encode binary h
  else Z.lor (encode binary (if h mod 12 =? 0 then 12 else h mod 12)) (if h <? 12 then 0 else 0x80).

(** A CMOS that shows this time, in the format of its register B. *)
Record shows (binary h24 : bool) (y m d hh mm ss : Z) (cmos : Z -> Z) : Prop := {
  sw_binary : has (cmos 0x0B) 4 = binary;
  sw_h24 : has (cmos 0x0B) 2 = h24;
  sw_second : cmos 0x00 = encode binary ss;
  sw_minute : cmos 0x02 = encode binary mm;
  sw_hour : cmos 0x04 = encode_hour binary h24 hh;
  sw_day : cmos 0x07 = encode binary d;
  sw_month : cmos 0x08 = encode binary m;
  sw_year : cmos 0x09 = encode binary (y - 2000)
}.

Lemma decode_field binary x : 0 <= x < 100 -> (if binary : bool then encode binary x else bcd (encode binary x)) = x.
Proof.
  intros Hx. destruct binary; [done|]. assert (H : forallb (fun x => bcd (encode false x) =? x) (seqZ 0 100) = true) by (vm_compute; reflexivity).
  rewrite forallb_forall in H. apply Z.eqb_eq, H, list_elem_of_In, elem_of_seqZ. lia.
Qed.

(** The hour rtc_now takes for [h], and the one get_rtc_time takes. *)
Definition hour_seen (binary h24 : bool) (h : Z) : Z :=
  let r := if binary then encode_hour binary h24 h else bcd (encode_hour binary h24 h) in if h24 then r else hour24 r.
Definition hour_shown (h24 : bool) (h : Z) : Z := if negb h24 && (h =? 12) then 0 else h.

Lemma hours_seen binary h24 h : 0 <= h < 24 -> hour_seen binary h24 h = h <-> h24 = true \/ h < 12 \/ (binary = true /\ h <> 12).
Proof.
  intros Hh. assert (H : forallb (fun h => eqb (hour_seen binary h24 h =? h) (h24 || (h <? 12) || (binary && negb (h =? 12)))) (seqZ 0 24) = true)
    by (destruct binary, h24; vm_compute; reflexivity).
  rewrite forallb_forall in H. specialize (H h ltac:(apply list_elem_of_In, elem_of_seqZ; lia)). apply eqb_prop in H. rewrite <- Z.eqb_eq, H.
  destruct h24, binary; cbn [orb andb]; rewrite ?orb_true_iff, ?Z.ltb_lt, ?negb_true_iff, ?Z.eqb_neq; naive_solver lia.
Qed.

Lemma hours_range binary h24 h : 0 <= h < 24 -> 0 <= hour_seen binary h24 h < 200.
Proof.
  intros Hh. assert (H : forallb (fun h => (0 <=? hour_seen binary h24 h) && (hour_seen binary h24 h <? 200)) (seqZ 0 24) = true) by (destruct binary, h24; vm_compute; reflexivity).
  rewrite forallb_forall in H. specialize (H h ltac:(apply list_elem_of_In, elem_of_seqZ; lia)). lia.
Qed.

(** C40. The real-time clock counts the days of the Gregorian calendar: when its
    registers show a time of the [n]-th day after 1 January 1970, in binary or in
    BCD, rtc_now gives 86400 [n] seconds and those of the hour, minute and
    second, through all leap years, for every year the registers can show.  The
    hour is the one shown in the format of 24 hours and in the morning; in the
    format of 12 hours noon is taken for midnight, and every hour of
    the afternoon is wrong when it is in BCD. *)
Theorem rtc_now_correct binary h24 n y m d hh mm ss cmos : calendar n = (y, m, d) -> shows binary h24 y m d hh mm ss cmos ->
  2000 <= y < 2000 + (if binary then 256 else 100) -> 0 <= hh < 24 -> 0 <= mm < 60 -> 0 <= ss < 60 ->
  rtc_now cmos = (86400 * Z.of_nat n + 3600 * hour_seen binary h24 hh + 60 * mm + ss, 0) /\
  (hour_seen binary h24 hh = hh <-> h24 = true \/ hh < 12 \/ (binary = true /\ hh <> 12)).
Proof.
  intros Hn [Hb H24 Hs Hm Hh Hd Hmo Hyr] Hy Rh Rm Rs. split; [|by apply hours_seen]. destruct (calendar_count n) as [Hv Hc]. rewrite Hn in Hv, Hc. destruct Hv as (_ & Vm & Vd).
  pose proof (month_positive y m) as Ml. pose proof (years_bound (Z.to_nat (y - 1970)) 1970). pose proof (hours_range binary h24 hh Rh).
  assert (Hf : forall reg x, cmos reg = encode binary x -> 0 <= x < 100 -> rtc_field cmos binary reg = x).
  { intros reg x E Hx. unfold rtc_field. rewrite E. by apply decode_field. }
  assert (Ey : rtc_field cmos binary 0x09 = y - 2000).
  { destruct binary; [unfold rtc_field; rewrite Hyr; reflexivity | apply Hf; [exact Hyr | lia]]. }
  assert (Eh : (if h24 then rtc_field cmos binary 4 else hour24 (rtc_field cmos binary 4)) = hour_seen binary h24 hh) by (unfold rtc_field, hour_seen; rewrite Hh; by destruct h24, binary).
  unfold rtc_now. cbv zeta. rewrite Hb, H24, Ey, Eh, (Hf 0x08 m Hmo), (Hf 0x07 d Hd), (Hf 0x02 mm Hm), (Hf 0x00 ss Hs) by lia. replace (2000 + (y - 2000)) with y by lia.
  unfold rtc_days. unfold day_count in Hc. rewrite Hc. pose proof (months_bound y m Vm).
  assert (Hn0 : Z.of_nat n <= 366 * 400) by (destruct binary; lia). f_equal. unfold u64. rewrite (Z.mod_small (Z.of_nat n)) by lia. rewrite Z.mod_small by lia. lia.
Qed.

(** 29 February 2024, a quarter past three in the afternoon, BCD and 24 hours. *)
Definition leap_cmos (reg : Z) : Z :=
  if reg =? 0x00 then 0x30 else if reg =? 0x02 then 0x15 else if reg =? 0x04 then 0x15 else if reg =? 0x07 then 0x29
  else if reg =? 0x08 then 0x02 else if reg =? 0x09 then 0x24 else if reg =? 0x0B then 0x02 else 0.

Lemma rtc_now_witness : rtc_now leap_cmos = (86400 * 19782 + 3600 * hour_seen false true 15 + 60 * 15 + 30, 0) /\ hour_seen false true 15 = 15.
Proof.
  destruct (rtc_now_correct false true (Z.to_nat 19782) 2024 2 29 15 15 30 leap_cmos) as [H1 H2]; try lia; [vm_compute; reflexivity | by constructor | ].
  split; [exact H1 | apply H2; by left].
Defined.
