(* ===== verification/Ioctl.v ===== *)
(** * ioctl: control of sockets, pipes, terminals, the framebuffer and evdev files

    sys_ioctl of [src/kernel/main.c].  The framebuffer and the size of the
    console (graphics_fb_info_kernel, graphics_fb_phys and console_fb_get_size,
    main.rs) are parameters; traces are left out. *)

From Stdlib Require Import String.
From S2P Require Import Prelude Words Pmm Vmm CStr Vfs Kernel Tty Fd Sched LineDisc UserCopy Pipe Signals Mmap Socket Events Poll.
From S2P Require Import Input Ident.
Local Open Scope Z_scope.
Local Open Scope st_scope.

Definition ENOTTY : Z := 25.

Definition FIONREAD : Z := 0x541B.
Definition FIONBIO : Z := 0x5421.
Definition TIOCGWINSZ : Z := 0x5413.
Definition TIOCSWINSZ : Z := 0x5414.
Definition TCGETS : Z := 0x5401.
Definition TCSETS : Z := 0x5402.
Definition TCSETSW : Z := 0x5403.
Definition TCSETSF : Z := 0x5404.
Definition TCFLSH : Z := 0x540B.
Definition TCXONC : Z := 0x540A.
Definition TCOOFF : Z := 0.
Definition TCOON : Z := 1.
Definition TCIOFF : Z := 2.
Definition TCION : Z := 3.
Definition TCIFLUSH : Z := 0.
Definition TCOFLUSH : Z := 1.
Definition TCIOFLUSH : Z := 2.
Definition TIOCSCTTY : Z := 0x540E.
Definition TIOCGPGRP : Z := 0x540F.
Definition TIOCSPGRP : Z := 0x5410.
Definition TIOCGPTN : Z := 0x80045430.
Definition TIOCSPTLCK : Z := 0x40045431.

(** [(uint32_t)] of the four bytes of [l] from [i] on. *)
Definition int_at (l : list Z) (i : nat) : Z := bytes_word (take 4 (drop i l)).
Definition short_at (l : list Z) (i : nat) : Z := bytes_word (take 2 (drop i l)).

Definition on_pty (i : Z) (f : pty_state -> pty_state) : ST kernel unit := st_mod (upd_pty i f).
Definition wake_all : ST kernel unit := let! _ := task_wake_io_waiters in st_ret tt.

(** ** Sockets, pipes and terminals alike *)

(** How much there is to read, or an error. *)
Definition ioctl_avail (k : kernel) (f : file_desc) : Z + Z :=
  if f_type f =? FD_SOCKET then
    match socket_state f with
    | None => inl (- ENOTCONN)
    | Some i => inr (arr (sk_count (sock k i)) (socket_side f))
    end
  else if f_type f =? FD_PIPE_R then inr (match f_private f with PPipe i => pi_count (pipe k i) | _ => 0 end)
  else if (f_type f =? FD_PTY_MASTER) || (f_type f =? FD_PTY_SLAVE) then
    match f_private f with
    | PPty i =>
        let p := pty k i in
        inr (if f_type f =? FD_PTY_MASTER then if py_output_stopped p then 0 else py_s2m_count p
             else if has (tty_lflag (py_termios p)) ICANON then pty_canon_ready_bytes p else py_m2s_count p)
    | _ => inl (- EIO)
    end
  else inl (- ENOTTY).

Definition fionread (fd arg : Z) : ST kernel Z :=
  let! k := st_get in
  match ioctl_avail k (file k fd) with
  | inl e => st_ret e
  | inr avail => if arg =? 0 then st_ret (- EFAULT) else copy_answer arg (int_bytes avail)
  end.

Definition stream_type (t : Z) : bool :=
  (t =? FD_SOCKET) || (t =? FD_PIPE_R) || (t =? FD_PIPE_W) || (t =? FD_PTY_MASTER) || (t =? FD_PTY_SLAVE).

Definition fionbio (fd arg : Z) : ST kernel Z :=
  let! k := st_get in
  match (if arg =? 0 then None else user_copy_from k arg 4) with
  | None => st_ret (- EFAULT)
  | Some l =>
      if stream_type (f_type (file k fd)) then
        upd_file fd (fun f => f <| f_flags := if negb (int_at l 0 =? 0) then Z.lor (f_flags f) SOCK_NONBLOCK
                                             else Z.land (f_flags f) (not64 SOCK_NONBLOCK) |>) ;;; st_ret 0
      else st_ret (- ENOTTY)
  end.

(** ** The framebuffer *)

Definition FBIOGET_VSCREENINFO : Z := 0x4600.
Definition FBIOPUT_VSCREENINFO : Z := 0x4601.
Definition FBIOGET_FSCREENINFO : Z := 0x4602.
Definition FBIOGETCMAP : Z := 0x4604.
Definition FBIOPUTCMAP : Z := 0x4605.
Definition FBIOPAN_DISPLAY : Z := 0x4606.
Definition FBIOBLANK : Z := 0x4611.
Definition FBIOGET_VBLANK : Z := 0x4612.
Definition FBIO_WAITFORVSYNC : Z := 0x4620.
Definition FBIOGET_INFO : Z := 0x46f0.

(** sizeof(struct fb_var_screeninfo_k), sizeof(struct fb_cmap_k) *)
Definition VAR_SIZE : Z := 160.
Definition CMAP_SIZE : Z := 40.

Definition ints (l : list Z) : list Z := concat (map int_bytes l).

(** The fields up to bits_per_pixel. *)
Definition screen_mode (w h bpp : Z) : list Z := ints [w; h; w; h; 0; 0; bpp].

(** offset, length and msb_right of red, green, blue and transp. *)
Definition pixel_fields (bpp : Z) : list Z :=
  if bpp =? 32 then [16; 8; 0; 8; 8; 0; 0; 8; 0; 24; 8; 0]
  else if bpp =? 24 then [16; 8; 0; 8; 8; 0; 0; 8; 0; 0; 0; 0]
  else if bpp =? 16 then [11; 5; 0; 5; 6; 0; 0; 5; 0; 0; 0; 0]
  else replicate 12 0.

Definition var_screeninfo (w h bpp : Z) : list Z := screen_mode w h bpp ++ ints (0 :: pixel_fields bpp ++ replicate 20 0).

Definition fix_screeninfo (phys size pitch bpp : Z) : list Z :=
  take 16 (cs "YabroOS-fb0"%string ++ replicate 16 0) ++ word_bytes phys ++ int_bytes size ++ int_bytes 0 ++ int_bytes 0
  ++ int_bytes (if bpp =? 1 then 1 else 2) ++ replicate 8 0 ++ int_bytes pitch ++ replicate 28 0.

Section Screen.
(** The six words of graphics_fb_info_kernel, [None] when it fails. *)
Variable graphics_fb_info_kernel : option (list Z).
Variable graphics_fb_phys : Z.

(** FBIOPUT_VSCREENINFO and FBIOPAN_DISPLAY: the mode cannot be changed. *)
Definition put_screeninfo (w h bpp arg : Z) : ST kernel Z :=
  let! k := st_get in
  match user_copy_from k arg VAR_SIZE with
  | None => st_ret 0
  | Some l => let! _ := user_copy_to arg (screen_mode w h bpp ++ drop 28 l) in st_ret 0
  end.

Definition fb_ioctl (req arg : Z) : ST kernel Z :=
  match graphics_fb_info_kernel with
  | None => st_ret (- EIO)
  | Some vals =>
      let v i := nth i vals 0 in
      let w := u32 (v 0%nat) in let h := u32 (v 1%nat) in let pitch := u32 (v 2%nat) in let bpp := u32 (v 3%nat) in
      let! k := st_get in
      if req =? FBIOGET_VSCREENINFO then copy_answer arg (var_screeninfo w h bpp)
      else if req =? FBIOGET_FSCREENINFO then copy_answer arg (fix_screeninfo graphics_fb_phys (u32 (v 4%nat)) pitch bpp)
      else if (req =? FBIOPUT_VSCREENINFO) || (req =? FBIOPAN_DISPLAY) then put_screeninfo w h bpp arg
      else if req =? FBIOBLANK then
        match user_copy_from k arg 4 with
        | None => st_ret (- EFAULT)
        | Some l => st_ret (if 4 <? int_at l 0 then - EINVAL else 0)
        end
      else if req =? FBIOGETCMAP then
        match user_copy_from k arg CMAP_SIZE with
        | None => st_ret (- EFAULT)
        | Some l => copy_answer arg (int_bytes 0 ++ drop 4 l)
        end
      else if req =? FBIOPUTCMAP then st_ret 0
      else if req =? FBIOGET_VBLANK then copy_answer arg (int_bytes 0)
      else if req =? FBIO_WAITFORVSYNC then st_ret 0
      else if req =? FBIOGET_INFO then copy_answer arg (concat (map word_bytes vals))
      else st_ret (- ENOTTY)
  end.
End Screen.

(** ** evdev files *)

Definition EV_REP : Z := 0x14.
Definition BTN_RIGHT : Z := 0x111.
Definition BTN_MIDDLE : Z := 0x112.
Definition BUS_I8042 : Z := 0x11.
Definition EVIOCGVERSION : Z := 0x80044501.
Definition EVIOCGID : Z := 0x80084502.
Definition EVIOCGREP : Z := 0x80084503.
Definition EVIOCSREP : Z := 0x40084503.
Definition EVIOCGRAB : Z := 0x40044590.
Definition EVIOCSCLOCKID : Z := 0x400445a0.

(** [bits[c >> 3] |= 1 << (c & 7)] for the codes of a list, in 128 bytes. *)
Definition set_bit (m : gmap Z Z) (c : Z) : gmap Z Z := <[Z.shiftr c 3 := Z.lor (arr m (Z.shiftr c 3)) (Z.shiftl 1 (Z.land c 7))]> m.
Definition bit_bytes (l : list Z) : list Z := map (arr (foldl set_bit ∅ l)) (seqZ 0 128).

Definition extra_keys : list Z := [96; 97; 98; 100; 102; 103; 104; 105; 106; 107; 108; 109; 110; 111; 125; 126; 127].

(** The codes of event type [ev] that the device can send. *)
Definition evdev_codes (mouse : bool) (ev : Z) : list Z :=
  if ev =? 0 then [EV_SYN; EV_KEY; if mouse then EV_REL else EV_REP]
  else if ev =? EV_KEY then if mouse then [BTN_LEFT; BTN_RIGHT; BTN_MIDDLE] else seqZ 1 88 ++ extra_keys
  else if (ev =? EV_REL) && mouse then [REL_X; REL_Y]
  else if (ev =? EV_REP) && negb mouse then [0; 1]
  else [].

(** The keys and buttons that are down. *)
Definition evdev_down (mouse : bool) (i : input_state) : list Z :=
  if mouse then
    bit_bytes (List.filter (fun c => has (Z.shiftr (in_mouse_buttons i) (c - BTN_LEFT)) 1) [BTN_LEFT; BTN_RIGHT; BTN_MIDDLE])
  else map (arr (in_key_state i)) (seqZ 0 128).

Definition evdev_name (mouse : bool) : list Z := if mouse then cs "YabroOS PS/2 Mouse"%string else cs "YabroOS PS/2 Keyboard"%string.
Definition evdev_phys (mouse : bool) : list Z := if mouse then cs "i8042/serio0/input0"%string else cs "i8042/serio0/input1"%string.

(** At most [size] bytes of [l]; their number. *)
Definition copy_sized (size arg : Z) (l : list Z) : ST kernel Z :=
  let copy := Z.min size (Z.of_nat (length l)) in
  if copy =? 0 then st_ret 0
  else let! r := user_copy_to arg (take (Z.to_nat copy) l) in st_ret (if negb (r =? 0) then - EFAULT else copy).

(** EVIOCGNAME *)
Definition evdev_get_name (mouse : bool) (n arg : Z) : ST kernel Z :=
  if n =? 0 then st_ret 0
  else
    let m := Z.min (Z.of_nat (length (evdev_name mouse))) (n - 1) in
    let! r := (if m =? 0 then st_ret 0 else user_copy_to arg (take (Z.to_nat m) (evdev_name mouse))) in
    if negb (r =? 0) then st_ret (- EFAULT)
    else let! r := user_copy_to (u64 (arg + m)) [0] in st_ret (if negb (r =? 0) then - EFAULT else m).

(** EVIOCGPHYS *)
Definition evdev_get_phys (mouse : bool) (size arg : Z) : ST kernel Z :=
  let! r := copy_sized size arg (evdev_phys mouse ++ [0]) in
  st_ret (if r <? 0 then r else if r =? 0 then 0 else r - 1).

Definition evdev_set_repeat (arg : Z) : ST kernel Z :=
  let! k := st_get in
  match user_copy_from k arg 8 with
  | None => st_ret (- EFAULT)
  | Some l =>
      let or0 x d := if negb (x =? 0) then x else d in
      st_mod (fun k => k <| k_repeat_delay_ms := or0 (int_at l 0) 250 |> <| k_repeat_period_ms := or0 (int_at l 4) 33 |>) ;;; st_ret 0
  end.

Definition evdev_ioctl (mouse : bool) (req arg : Z) : ST kernel Z :=
  let nr := u8 req in
  let size := Z.land (Z.shiftr req 16) 0x3fff in
  let! k := st_get in
  if req =? EVIOCGVERSION then copy_answer arg (int_bytes 0x00010001)
  else if req =? EVIOCGID then copy_answer arg (short_bytes BUS_I8042 ++ short_bytes 0x0002 ++ short_bytes 0x0001 ++ short_bytes 0x0000)
  else if nr =? 0x06 then evdev_get_name mouse size arg
  else if nr =? 0x07 then evdev_get_phys mouse size arg
  else if nr =? 0x08 then st_ret (- ENOENT)
  else if nr =? 0x09 then copy_sized size arg ((if mouse then 1 else 0) :: replicate 7 0)
  else if (0x20 <=? nr) && (nr <=? 0x3f) then copy_sized size arg (bit_bytes (evdev_codes mouse (nr - 0x20)))
  else if (0x18 <=? nr) && (nr <=? 0x1b) then
    copy_sized size arg (if nr =? 0x18 then evdev_down mouse (k_input k) else replicate 128 0)
  else if (0x40 <=? nr) && (nr <=? 0x7f) then st_ret (- EINVAL)
  else if (req =? EVIOCGRAB) || (req =? EVIOCSCLOCKID) then st_ret 0
  else if req =? EVIOCGREP then copy_answer arg (int_bytes (k_repeat_delay_ms k) ++ int_bytes (k_repeat_period_ms k))
  else if req =? EVIOCSREP then if mouse then st_ret (- EINVAL) else evdev_set_repeat arg
  else st_ret (- ENOTTY).

(** ** Pseudo terminals *)

(** TIOCSPTLCK *)
Definition pty_set_lock (i arg : Z) : ST kernel Z :=
  let! k := st_get in
  match user_copy_from k arg 4 with
  | None => st_ret (- EFAULT)
  | Some l => on_pty i (fun p => p <| py_unlocked := int_at l 0 =? 0 |>) ;;; st_ret 0
  end.

Definition pty_winsize (p : pty_state) : list Z := [py_rows p; py_cols p; py_xpixel p; py_ypixel p].
Definition winsize_bytes (w : list Z) : list Z := concat (map short_bytes w).

(** TIOCSWINSZ: the foreground group hears of a new size. *)
Definition pty_set_winsize (i arg : Z) : ST kernel Z :=
  let! k := st_get in
  match user_copy_from k arg 8 with
  | None => st_ret (- EFAULT)
  | Some l =>
      let changed := negb (bool_decide (pty_winsize (pty k i) = [short_at l 0; short_at l 2; short_at l 4; short_at l 6])) in
      on_pty i (fun p => p <| py_rows := short_at l 0 |> <| py_cols := short_at l 2 |> <| py_xpixel := short_at l 4 |> <| py_ypixel := short_at l 6 |>) ;;;
      let! k := st_get in
      (if changed && (0 <? py_fg_pgrp (pty k i)) then let! _ := tty_pgrp_signal (pty k i) SIGWINCH in st_ret tt else st_ret tt) ;;;
      st_ret 0
  end.

(** TCSETS, TCSETSW and TCSETSF, once output has drained. *)
Definition pty_set_termios (i req arg : Z) : ST kernel Z :=
  let! k := st_get in
  match user_copy_from k arg TERMIOS_K_SIZE with
  | None => st_ret (- EFAULT)
  | Some nt =>
      on_pty i (fun p => p <| py_termios := foldl (fun m j => <[j := default 0 (nt !! Z.to_nat j)]> m) (py_termios p) (seqZ 0 TERMIOS_K_SIZE) |>) ;;;
      (if req =? TCSETSF then on_pty i pty_flush_input else st_ret tt) ;;; st_ret 0
  end.

(** TCFLSH *)
Definition pty_flush (i arg : Z) : ST kernel Z :=
  let which := s32 arg in
  if (which <? TCIFLUSH) || (TCIOFLUSH <? which) then st_ret (- EINVAL)
  else
    (if (which =? TCIFLUSH) || (which =? TCIOFLUSH) then on_pty i pty_flush_input else st_ret tt) ;;;
    (if (which =? TCOFLUSH) || (which =? TCIOFLUSH) then on_pty i pty_flush_output else st_ret tt) ;;;
    wake_all ;;; st_ret 0.

(** TCXONC *)
Definition pty_flow (i arg : Z) : ST kernel Z :=
  let action := s32 arg in
  let! k := st_get in
  if action =? TCOOFF then on_pty i (fun p => p <| py_output_stopped := true |>) ;;; st_ret 0
  else if action =? TCOON then on_pty i (fun p => p <| py_output_stopped := false |>) ;;; wake_all ;;; st_ret 0
  else if (action =? TCIOFF) || (action =? TCION) then
    let c := tty_cc (py_termios (pty k i)) (if action =? TCIOFF then VSTOP else VSTART) in
    if c =? 0 then st_ret 0
    else
      let! n := (fun k => let '(n, p) := pty_output_write [c] (pty k i) in (n, set_pty i p k)) in
      if negb (n =? 1) then st_ret (- EAGAIN) else wake_all ;;; st_ret 0
  else st_ret (- EINVAL).

(** TIOCSCTTY *)
Definition pty_set_controlling (slave : bool) (i : Z) : ST kernel Z :=
  let! k := st_get in
  let t := task k (k_current k) in
  if negb slave then st_ret (- ENOTTY)
  else if negb (t_session t =? t_pid t) then st_ret (- EPERM)
  else if negb (t_controlling_tty t =? -1) && negb (t_controlling_tty t =? 0) then st_ret (- EPERM)
  else
    st_mod (upd_task (k_current k) (fun t => t <| t_controlling_tty := 0 |>)) ;;;
    on_pty i (fun p => p <| py_fg_pgrp := t_pgrp t |> <| py_shell_pgrp := if py_shell_pgrp p <=? 0 then t_pgrp t else py_shell_pgrp p |>
                          <| py_session := if py_session p <=? 0 then t_session t else py_session p |>) ;;; st_ret 0.

(** Some task of the session of the caller is in the group. *)
Definition group_in_session (k : kernel) (pg : Z) : bool :=
  existsb (fun i => t_used (task k i) && (t_pgrp (task k i) =? pg) && (t_session (task k i) =? t_session (task k (k_current k)))) all_tasks.

(** The group that is read from the user, or an error. *)
Definition group_arg (k : kernel) (arg : Z) : Z + Z :=
  match user_copy_from k arg 4 with
  | None => inl (- EFAULT)
  | Some l => let pg := s32 (int_at l 0) in if pg <=? 0 then inl (- EINVAL) else if negb (group_in_session k pg) then inl (- EPERM) else inr pg
  end.

(** [shell_pgrp] when it was not set: the group of the caller, else [pg]. *)
Definition shell_group (k : kernel) (pg old : Z) : Z :=
  let t := task k (k_current k) in if old <=? 0 then if 0 <? t_pgrp t then t_pgrp t else pg else old.

(** TIOCSPGRP *)
Definition pty_set_group (slave : bool) (i arg : Z) : ST kernel Z :=
  let! k := st_get in
  if negb slave then st_ret (- ENOTTY)
  else
    match group_arg k arg with
    | inl e => st_ret e
    | inr pg =>
        on_pty i (fun p => p <| py_shell_pgrp := shell_group k pg (py_shell_pgrp p) |>
                             <| py_session := if py_session p <=? 0 then t_session (task k (k_current k)) else py_session p |>
                             <| py_fg_pgrp := pg |>) ;;; st_ret 0
    end.

(** TCSETSW and TCSETSF wait until the master has read what was written. *)
Definition must_drain (req : Z) (p : pty_state) : bool :=
  ((req =? TCSETSW) || (req =? TCSETSF)) && negb (py_s2m_count p =? 0) && py_master_open p.

(** The requests of a terminal that do not wait. *)
Definition pty_request (slave : bool) (i req arg : Z) : ST kernel Z :=
  let! k := st_get in
  let p := pty k i in
  if req =? TIOCGPTN then copy_answer arg (int_bytes (py_index p))
  else if req =? TIOCSPTLCK then pty_set_lock i arg
  else if req =? TIOCGWINSZ then copy_answer arg (winsize_bytes (pty_winsize p))
  else if req =? TIOCSWINSZ then pty_set_winsize i arg
  else if req =? TCGETS then copy_answer arg (map (arr (py_termios p)) (seqZ 0 TERMIOS_K_SIZE))
  else if (req =? TCSETS) || (req =? TCSETSW) || (req =? TCSETSF) then pty_set_termios i req arg
  else if req =? TCFLSH then pty_flush i arg
  else if req =? TCXONC then pty_flow i arg
  else if req =? TIOCSCTTY then pty_set_controlling slave i
  else if req =? TIOCGPGRP then copy_answer arg (int_bytes (py_fg_pgrp p))
  else if req =? TIOCSPGRP then pty_set_group slave i arg
  else st_ret (- ENOTTY).

(** ** The console *)

Definition console_get_group (arg : Z) : ST kernel Z :=
  task_init_root ;;;
  let! k := st_get in
  copy_answer arg (int_bytes (if 0 <? k_console_fg_pgrp k then k_console_fg_pgrp k else t_pgrp (task k (k_current k)))).

Definition console_set_group (arg : Z) : ST kernel Z :=
  task_init_root ;;;
  let! k := st_get in
  match group_arg k arg with
  | inl e => st_ret e
  | inr pg =>
      st_mod (fun k => k <| k_console_shell_pgrp := shell_group k pg (k_console_shell_pgrp k) |> <| k_console_fg_pgrp := pg |>) ;;; st_ret 0
  end.

(** The bytes of a failed copy that lie on the first page are stored all the same. *)
Definition console_set_termios (arg : Z) : ST kernel Z :=
  let! k := st_get in
  let store l := st_mod (fun k => k <| k_console_termios := foldl (fun m '(j, b) => <[j := b]> m) (k_console_termios k) (zip (seqZ 0 TERMIOS_K_SIZE) l) |>) in
  match user_copy_from k arg TERMIOS_K_SIZE with
  | Some l => store l ;;; st_ret 0
  | None =>
      match user_copy_from k arg (Z.min TERMIOS_K_SIZE (PAGE_SIZE - Z.land arg (PAGE_SIZE - 1))) with
      | Some l => store l ;;; st_ret (- EFAULT)
      | None => st_ret (- EFAULT)
      end
  end.

Definition fd_is_terminal (k : kernel) (fd : Z) : bool :=
  let f := file k fd in
  (fd_ok fd && f_in_use f && (f_type f =? FD_PSEUDO) && (bool_decide (f_private f = PDev DEV_CONSOLE) || bool_decide (f_private f = PDev DEV_TTY)))
  || (f_type f =? FD_PTY_MASTER) || (f_type f =? FD_PTY_SLAVE).

Section Console.
(** rows, cols, xpixel and ypixel of console_fb_get_size, [None] when it fails. *)
Variable console_fb_get_size : option (list Z).

Definition console_ioctl (fd req arg : Z) : ST kernel Z :=
  let! k := st_get in
  let tty := fd_is_terminal k fd in
  if (req =? TIOCGWINSZ) && ((fd =? 1) || (fd =? 2) || tty) then
    copy_answer arg (winsize_bytes (default [30; 80; 640; 480] console_fb_get_size))
  else if negb tty then st_ret (- ENOTTY)
  else if req =? TIOCGPGRP then console_get_group arg
  else if req =? TIOCSPGRP then console_set_group arg
  else if req =? TCGETS then copy_answer arg (map (arr (k_console_termios k)) (seqZ 0 TERMIOS_K_SIZE))
  else if req =? TCSETS then console_set_termios arg
  else st_ret (- ENOTTY).
End Console.

(** ** The call *)

Section Call.
Variable kernel_wait_tick : kernel -> kernel.
Variable graphics_fb_info_kernel : option (list Z).
Variable graphics_fb_phys : Z.
Variable console_fb_get_size : option (list Z).

Definition pty_ioctl (fuel : nat) (f : regs) (slave : bool) (i req arg : Z) (k : kernel) : option (Z * kernel) :=
  if must_drain req (pty k i) then
    option_map (fun '(r, k) => (if r =? 0 then 0 else - EAGAIN, k)) (task_block_io kernel_wait_tick fuel f IO_WAIT_PTY_DRAIN 16 k)
  else Some (pty_request slave i req arg k).

Definition is_dev (f : file_desc) (kind : Z) : bool := (f_type f =? FD_PSEUDO) && bool_decide (f_private f = PDev kind).

Definition sys_ioctl (fuel : nat) (sf : regs) (fd req arg : Z) (k : kernel) : option (Z * kernel) :=
  let req := u32 req in
  if negb (fd_ok fd && f_in_use (file k fd)) then Some (- EBADF, k)
  else
    let f := file k fd in
    if req =? FIONREAD then Some (fionread fd arg k)
    else if req =? FIONBIO then Some (fionbio fd arg k)
    else if (req =? TIOCGWINSZ) && (f_type f =? FD_FILE) then Some (- ENOTTY, k)
    else if is_dev f DEV_FB then Some (fb_ioctl graphics_fb_info_kernel graphics_fb_phys req arg k)
    else if is_dev f DEV_INPUT || is_dev f DEV_INPUT_MOUSE then Some (evdev_ioctl (is_dev f DEV_INPUT_MOUSE) req arg k)
    else if (f_type f =? FD_PTY_MASTER) || (f_type f =? FD_PTY_SLAVE) then
      match f_private f with
      | PPty i => pty_ioctl fuel sf (f_type f =? FD_PTY_SLAVE) i req arg k
      | _ => Some (- EIO, k)
      end
    else Some (console_ioctl console_fb_get_size fd req arg k).
End Call.
