(* ===== verification/IoctlThms.v ===== *)
(** * Properties of the ioctls

    The foreground group of a terminal, its size, and the number of bytes
    FIONREAD promises. *)

From S2P Require Import Prelude Words Pmm Vmm CStr Vfs Kernel Tty Fd Sched SchedFacts LineDisc UserCopy Pipe PtyIo LineDiscThms Signals SignalFacts.
From S2P Require Import Mmap Socket Events Poll Input Ident Ioctl.
Local Open Scope Z_scope.
Local Open Scope st_scope.

(** ** The foreground group *)

Section Signal.
Variables (who : task_t -> bool) (sig : Z).

Let step (st : Z * kernel) (i : Z) : Z * kernel :=
  let '(sent, k) := st in if who (task k i) then (sent + 1, upd_task i (tty_queue_signal sig) k) else (sent, k).

Lemma signal_count l : forall sent k, sent <= fst (foldl step (sent, k) l).
Proof.
  induction l as [|j l IH]; intros sent k; cbn [foldl]; [cbn; lia|]. unfold step at 2.
  destruct (who (task k j)); [|apply IH]. etrans; [|apply IH]. lia.
Qed.

Lemma signal_reaches l i : i ∈ l -> forall sent k, who (task k i) = true -> sent < fst (foldl step (sent, k) l).
Proof.
  induction l as [|j l IH]; intros Hi sent k Hw; [by apply elem_of_nil in Hi|]. cbn [foldl]. unfold step at 2.
  destruct (who (task k j)) eqn:E.
  - pose proof (signal_count l (sent + 1) (upd_task j (tty_queue_signal sig) k)). lia.
  - apply elem_of_cons in Hi as [-> | Hi]; [congruence|]. by apply IH.
Qed.

Lemma signal_tasks_reaches k i : i ∈ all_tasks -> who (task k i) = true -> fst (signal_tasks who sig k) = 0.
Proof.
  intros Hi Hw. pose proof (signal_reaches all_tasks i Hi 0 k Hw) as H. unfold step in H. unfold signal_tasks.
  destruct (foldl _ (0, k) all_tasks) as [sent k']. cbn in H |- *. by destruct (Z.eqb_spec sent 0); [lia|].
Qed.
End Signal.

(** A signal to the foreground group reaches a task of the group and the session of the terminal. *)
Lemma group_signalled p sig k j : j ∈ all_tasks -> t_used (task k j) = true -> t_pgrp (task k j) = py_fg_pgrp p -> 0 < py_fg_pgrp p ->
  py_session p <= 0 \/ t_session (task k j) = py_session p -> fst (tty_pgrp_signal p sig k) = 0.
Proof.
  intros Hj Hu Hg Hp Hs. unfold tty_pgrp_signal. destruct (Z.eqb_spec (py_fg_pgrp p) 0); [lia|]. apply (signal_tasks_reaches _ _ _ j Hj).
  rewrite Hu, Hg, Z.eqb_refl. cbn [andb]. destruct (Z.ltb_spec 0 (py_session p)); [|done]. destruct Hs as [Hs | ->]; [lia|]. by rewrite Z.eqb_refl.
Qed.

(** The caller and the tasks of the group [pg] that share its session. *)
Definition caller (k : kernel) : task_t := task k (k_current k).
Definition session_member (k : kernel) (pg i : Z) : Prop :=
  i ∈ all_tasks /\ t_used (task k i) = true /\ t_pgrp (task k i) = pg /\ t_session (task k i) = t_session (caller k).

Lemma group_in_session_iff k pg : group_in_session k pg = true <-> exists i, session_member k pg i.
Proof.
  unfold group_in_session, session_member, caller. rewrite existsb_exists. split.
  - intros (i & Hi & H). exists i. rewrite !andb_true_iff, !Z.eqb_eq in H. rewrite list_elem_of_In. tauto.
  - intros (i & Hi & H). exists i. rewrite !andb_true_iff, !Z.eqb_eq. rewrite list_elem_of_In in Hi. tauto.
Qed.

(** The group in the four bytes at [arg] is one the terminal may be given. *)
Definition group_allowed (k : kernel) (arg pg : Z) : Prop :=
  exists l, user_copy_from k arg 4 = Some l /\ pg = s32 (int_at l 0) /\ 0 < pg /\ exists i, session_member k pg i.

Lemma group_arg_iff k arg pg : group_arg k arg = inr pg <-> group_allowed k arg pg.
Proof.
  unfold group_arg, group_allowed. destruct (user_copy_from k arg 4) as [l|]; [|split; [done | by intros (? & ? & _)]].
  destruct (Z.leb_spec (s32 (int_at l 0)) 0) as [Hle|Hle].
  - split; [done|]. intros (l' & [= <-] & -> & Hp & _). lia.
  - destruct (group_in_session k (s32 (int_at l 0))) eqn:E; cbn [negb].
    + split.
      * intros [= <-]. exists l. split_and!; [done..|]. by apply group_in_session_iff.
      * by intros (l' & [= <-] & -> & _).
    + split; [done|]. intros (l' & [= <-] & -> & _ & H). apply group_in_session_iff in H. congruence.
Qed.

(** TIOCSPGRP on the slave side gives the terminal the group the caller names
    exactly when the number is positive and some task of the caller's session is
    in that group.  It changes nothing else of the kernel than that terminal, and
    if the terminal is free or belongs to the caller's session, a key that
    interrupts it reaches a task from then on. *)
Theorem set_group_correct k i arg :
  let '(r, k') := pty_request true i TIOCSPGRP arg k in
  (r = 0 <-> exists pg, group_allowed k arg pg) /\ (r <> 0 -> k' = k) /\
  (forall pg, group_allowed k arg pg ->
    py_fg_pgrp (pty k' i) = pg /\ k' = set_pty i (pty k' i) k /\
    (py_session (pty k i) <= 0 \/ py_session (pty k i) = t_session (caller k) ->
     forall sig, fst (tty_pgrp_signal (pty k' i) sig k') = 0)).
Proof.
  change (pty_request true i TIOCSPGRP arg k) with (pty_set_group true i arg k). unfold pty_set_group. rewrite bind_get. cbn [negb].
  destruct (group_arg k arg) as [e|pg] eqn:E.
  - cbn. assert (He : e <> 0) by (revert E; unfold group_arg; repeat case_match; try discriminate; by intros [= <-]).
    assert (Hn : forall pg, ~ group_allowed k arg pg) by (intros pg H; apply group_arg_iff in H; congruence). split_and!.
    + split; [done | by intros [pg H]; destruct (Hn pg)].
    + done.
    + intros pg H. by destruct (Hn pg).
  - apply group_arg_iff in E. unfold on_pty, st_bind, st_mod, st_ret. split_and!; [split; [by exists pg | done] | done|].
    intros pg' H. assert (pg' = pg) as -> by (apply group_arg_iff in H, E; congruence).
    unfold upd_pty. rewrite !pty_set_eq. split_and!; [done..|].
    intros Hs sig. destruct E as (l & _ & _ & Hpos & j & Hj & Hu & Hg & Hss).
    match goal with |- fst (tty_pgrp_signal ?p _ ?k1) = 0 => apply (group_signalled p sig k1 j Hj); [exact Hu | exact Hg | exact Hpos | right] end.
    change (t_session (task k j) = (if py_session (pty k i) <=? 0 then t_session (caller k) else py_session (pty k i))). rewrite Hss.
    destruct (Z.leb_spec (py_session (pty k i)) 0); [done|]. destruct Hs as [Hs | Hs]; [lia | done].
Qed.

(** ** The bytes that can be read *)

(** The first line of [l] is among the bytes the loop counts. *)
Lemma ready_loop_mono veof v1 v2 l : forall n ready, ready <= n -> ready <= ready_loop veof v1 v2 n ready l.
Proof.
  induction l as [|c l IH]; intros n ready H; cbn [ready_loop]; [done|]. case_match; [done|].
  destruct ((c =? CH_NL) || _ || _); (etrans; [|apply IH]; lia).
Qed.

Lemma ready_first_line veof v1 v2 l : forall n ready, ready <= n ->
  existsb (fun c => (negb (veof =? 0) && (c =? veof)) || (c =? CH_NL) || (negb (v1 =? 0) && (c =? v1)) || (negb (v2 =? 0) && (c =? v2))) l = true ->
  n + Z.of_nat (length (fst (canon_take veof v1 v2 (length l) l))) <= ready_loop veof v1 v2 n ready l.
Proof.
  induction l as [|c l IH]; intros n ready Hr He; [done|]. cbn [existsb length canon_take ready_loop] in *.
  destruct (negb (veof =? 0) && (c =? veof)) eqn:E0; [cbn; lia|]. rewrite ?E0 in He. cbn [orb] in He. destruct ((c =? CH_NL) || _ || _) eqn:E.
  - cbn [fst length]. apply (ready_loop_mono veof v1 v2 l (n + 1) (n + 1)). lia.
  - rewrite ?E in He. cbn [orb] in He. specialize (IH (n + 1) ready ltac:(lia) He). destruct (canon_take _ _ _ (length l) l) as [d m].
    cbn [fst length] in *. lia.
Qed.

Lemma ready_nothing veof v1 v2 l : forall n ready,
  existsb (fun c => (negb (veof =? 0) && (c =? veof)) || (c =? CH_NL) || (negb (v1 =? 0) && (c =? v1)) || (negb (v2 =? 0) && (c =? v2))) l = false ->
  ready_loop veof v1 v2 n ready l = ready.
Proof.
  induction l as [|c l IH]; intros n ready He; [done|]. cbn [existsb ready_loop] in *. rewrite !orb_false_iff in He.
  destruct He as [[[[-> H1] H2] H3] Hl]. rewrite H1, H2, H3. cbn [orb]. by apply IH.
Qed.

(** The characters that end a line are those the readiness of a terminal looks for. *)
Lemma canon_available_ends p : pty_canon_available p =
  existsb (fun c => (negb (tty_cc (py_termios p) VEOF =? 0) && (c =? tty_cc (py_termios p) VEOF)) || (c =? CH_NL)
                    || (negb (tty_cc (py_termios p) VEOL =? 0) && (c =? tty_cc (py_termios p) VEOL))
                    || (negb (tty_cc (py_termios p) VEOL2 =? 0) && (c =? tty_cc (py_termios p) VEOL2))) (canon_bytes p).
Proof.
  unfold pty_canon_available. induction (canon_bytes p) as [|c l IH]; [done|]. cbn [existsb]. rewrite IH. unfold tty_cc_match.
  by rewrite (orb_comm (c =? CH_NL)).
Qed.

(** A line that does not begin with its end has a byte. *)
Lemma ready_some veof v1 v2 l n : 0 < ready_loop veof v1 v2 0 0 l -> (0 < n)%nat -> fst (canon_take veof v1 v2 n l) <> [].
Proof.
  destruct l as [|c l], n as [|n]; cbn [ready_loop canon_take]; intros H Hn; [lia..|].
  destruct (negb (veof =? 0) && (c =? veof)); [lia|]. destruct ((c =? CH_NL) || _ || _); [done|]. by destruct (canon_take _ _ _ n l).
Qed.

(** FIONREAD on the slave of a terminal in canonical mode: a positive answer
    means that a read does not wait and gives at least one byte and, for a buffer
    that holds the whole line buffer, the first line, which is no longer than
    the answer. *)
Theorem fionread_canonical p : has (tty_lflag (py_termios p)) ICANON = true -> 0 < pty_canon_ready_bytes p ->
  exists d p', pty_read_step false (length (canon_bytes p)) p = PtyData d p' /\ 0 < Z.of_nat (length d) <= pty_canon_ready_bytes p.
Proof.
  intros Hc Hr. assert (Ha : pty_canon_available p = true).
  { rewrite canon_available_ends. destruct (existsb _ _) eqn:E; [done|]. unfold pty_canon_ready_bytes in Hr. rewrite ready_nothing in Hr by done. lia. }
  assert (Hn : canon_bytes p <> []) by (intros E; unfold pty_canon_ready_bytes in Hr; rewrite E in Hr; cbn in Hr; lia).
  assert (Hp : 0 < py_canon_count p).
  { unfold canon_bytes in Hn. destruct (Z.ltb_spec 0 (py_canon_count p)); [done|]. rewrite seqZ_nil in Hn by lia. done. }
  unfold pty_read_step. rewrite Hc, Ha. destruct (Z.eqb_spec (py_canon_count p) 0); [lia|]. rewrite andb_false_r. cbn [negb andb].
  unfold canon_read. pose proof (ready_first_line (tty_cc (py_termios p) VEOF) (tty_cc (py_termios p) VEOL) (tty_cc (py_termios p) VEOL2)
    (canon_bytes p) 0 0 ltac:(lia)) as H. rewrite <- canon_available_ends in H. specialize (H Ha). fold (pty_canon_ready_bytes p) in H.
  pose proof (ready_some _ _ _ _ (length (canon_bytes p)) Hr) as Hd.
  destruct (canon_take _ _ _ _ _) as [d m]. eexists _, _. split; [done|]. cbn [fst] in H, Hd.
  assert (d <> []) by (apply Hd; destruct (canon_bytes p); [done | cbn; lia]). destruct d; [done|]. cbn [length] in *. lia.
Qed.

(** ** The size of a terminal *)

Lemma short_bytes_word a b : is_byte a -> is_byte b -> short_bytes (bytes_word [a; b]) = [a; b].
Proof.
  intros Ha Hb. unfold is_byte, short_bytes, bytes_word in *. cbn [foldr]. rewrite Z.shiftr_div_pow2 by lia.
  change 0xFF with (Z.ones 8). rewrite !Z.land_ones by lia. change (2 ^ 8) with 256. f_equal; [|f_equal].
  - symmetry. apply Z.mod_unique with b; lia.
  - replace ((a + 256 * (b + 256 * 0)) / 256) with b by (apply Z.div_unique with a; lia). apply Z.mod_small. lia.
Qed.

(** TIOCGWINSZ gives back the eight bytes TIOCSWINSZ stored. *)
Theorem winsize_roundtrip k i arg l : length l = 8%nat -> Forall is_byte l -> user_copy_from k arg 8 = Some l ->
  let '(r, k') := pty_set_winsize i arg k in r = 0 /\ winsize_bytes (pty_winsize (pty k' i)) = l.
Proof.
  intros Hl Hb E. unfold pty_set_winsize. rewrite bind_get, E. unfold on_pty.
  assert (Hw : forall k, winsize_bytes (pty_winsize (pty (upd_pty i (fun p => p <| py_rows := short_at l 0 |> <| py_cols := short_at l 2 |>
    <| py_xpixel := short_at l 4 |> <| py_ypixel := short_at l 6 |>) k) i)) = l).
  { intros k'. unfold upd_pty. rewrite pty_set_eq. change (pty_winsize _) with [short_at l 0; short_at l 2; short_at l 4; short_at l 6].
    do 9 (destruct l as [|? l]; try discriminate Hl). repeat match goal with H : Forall _ (_ :: _) |- _ => apply Forall_cons in H as [? H] end.
    unfold winsize_bytes, short_at. cbn [drop take map]. rewrite !short_bytes_word by done. done. }
  change (st_bind (st_mod _) _ k) with
    ((let! k0 := st_get in
      (if negb (bool_decide (pty_winsize (pty k i) = [short_at l 0; short_at l 2; short_at l 4; short_at l 6])) && (0 <? py_fg_pgrp (pty k0 i))
       then let! _ := tty_pgrp_signal (pty k0 i) SIGWINCH in st_ret tt else st_ret tt) ;;; st_ret 0)
     (upd_pty i (fun p => p <| py_rows := short_at l 0 |> <| py_cols := short_at l 2 |> <| py_xpixel := short_at l 4 |> <| py_ypixel := short_at l 6 |>) k)).
  specialize (Hw k). set (k1 := upd_pty i _ k) in *. rewrite bind_get. destruct (_ && _); [|by split]. rewrite bind_eq. split; [done|].
  rewrite exec_bind, exec_ret. destruct (pgrp_signal_frame (pty k1 i) SIGWINCH k1) as [ts E']. unfold exec. rewrite E'. exact Hw.
Qed.
