(* ===== verification/Pseudo.v ===== *)
(** * Files without a node of the file system: /proc, /dev and terminals

    The text of the files of /proc, the paths that lead to a device and the
    descriptors opened on them ([src/kernel/main.c]).  The CPUID instruction and
    the size of the framebuffer (graphics_fb_size, main.rs) are parameters. *)

From Stdlib Require Import String.
From S2P Require Import Prelude Words Pmm Vmm CStr Vfs VfsText Kernel Tty Fd Sched UserCopy Poll Mmap Ident.
Local Open Scope Z_scope.
Local Open Scope st_scope.

Definition PSEUDO_PROC_FILE : Z := 100.
Definition PSEUDO_DEV_DIR : Z := 102.
Definition PSEUDO_SYS_DIR : Z := 103.
Definition PSEUDO_PROC_ROOT : Z := 104.
Definition PSEUDO_PROC_SELF : Z := 105.
Definition PSEUDO_SYS_FILE : Z := 107.
Definition PSEUDO_PROC_FD : Z := 108.
Definition PSEUDO_PTMX : Z := 110.
Definition PSEUDO_PTS_DIR : Z := 111.
Definition PSEUDO_PTS_SLAVE : Z := 112.
Definition ENXIO : Z := 6.
Definition EACCES : Z := EACCES_K.

(** ** Text *)

Definition pseudo_append (cap : Z) (out : list Z) (s : cstr) : list Z := out_str cap out s.
Definition pseudo_append_u64 (cap : Z) (out : list Z) (v : Z) : list Z :=
  if v =? 0 then out_ch cap out 48 else out_str cap out (rev (digits 24 v)).

Definition line_end (s : string) : cstr := cs s ++ [10].

Section Cpuid.
(** (eax, ebx, ecx, edx) of a leaf. *)
Variable cpuid : Z -> Z -> Z * Z * Z * Z.

(** Trailing blanks of the 48 bytes are cut. *)
Definition cpu_brand_string : cstr :=
  let '(max_extended, _, _, _) := cpuid 0x80000000 0 in
  if max_extended <? 0x80000004 then cs "Unknown x86 CPU"%string
  else before_nul (rev (skip_spaces (rev (brand_regs cpuid 0 ++ brand_regs cpuid 1 ++ brand_regs cpuid 2)))).

Definition cpu_vendor_string : cstr :=
  let '(_, b, c, d) := cpuid 0 0 in before_nul (reg_bytes b ++ reg_bytes d ++ reg_bytes c).

Definition append_flag (cap reg : Z) (out : list Z) (f : Z * string) : list Z :=
  if has reg (Z.shiftl 1 (fst f)) then pseudo_append cap (pseudo_append cap out (cs (snd f))) (cs " "%string) else out.

Definition edx_names : list (Z * string) := [(4, "tsc"); (23, "mmx"); (25, "sse"); (26, "sse2")]%string.
Definition ecx_names : list (Z * string) := [(0, "sse3"); (9, "ssse3"); (19, "sse4_1"); (20, "sse4_2"); (28, "avx"); (30, "rdrand")]%string.

Definition cpu_append_flags (cap : Z) (out : list Z) : list Z :=
  let '(maxleaf, _, _, _) := cpuid 0 0 in
  if maxleaf <? 1 then out
  else
    let '(_, _, ecx, edx) := cpuid 1 0 in
    foldl (append_flag cap ecx) (foldl (append_flag cap edx) out edx_names) ecx_names.

Definition cpuinfo_text (cap : Z) : list Z :=
  let '(eax, ebx, _, _) := cpuid 1 0 in
  let base_family := Z.land (Z.shiftr eax 8) 0xf in
  let family := if base_family =? 0xf then base_family + Z.land (Z.shiftr eax 20) 0xff else base_family in
  let model := Z.lor (Z.land (Z.shiftr eax 4) 0xf) (Z.shiftl (Z.land (Z.shiftr eax 16) 0xf) 4) in
  let logical := Z.land (Z.shiftr ebx 16) 0xff in
  let logical := if logical =? 0 then 1 else logical in
  let put s out := pseudo_append cap out s in
  let num v out := pseudo_append_u64 cap out v in
  let out := num 0 (put (cs "processor"%string ++ TAB ++ cs ": "%string) []) in
  let out := put cpu_vendor_string (put (NL ++ cs "vendor_id"%string ++ TAB ++ cs ": "%string) out) in
  let out := num family (put (NL ++ cs "cpu family"%string ++ TAB ++ cs ": "%string) out) in
  let out := num model (put (NL ++ cs "model"%string ++ TAB ++ TAB ++ cs ": "%string) out) in
  let out := put cpu_brand_string (put (NL ++ cs "model name"%string ++ TAB ++ cs ": "%string) out) in
  let out := num (Z.land eax 0xf) (put (NL ++ cs "stepping"%string ++ TAB ++ cs ": "%string) out) in
  let out := num logical (put (NL ++ cs "cpu count"%string ++ TAB ++ cs ": "%string) out) in
  let out := cpu_append_flags cap (put (NL ++ cs "flags"%string ++ TAB ++ TAB ++ cs ": "%string) out) in
  put (NL ++ NL) out.

Definition meminfo_text (cap : Z) (p : pmm) : list Z :=
  let total := u64 (pmm_total_count p * 4096) in
  let freeb := u64 (pmm_free_count p * 4096) in
  let out := pseudo_append_u64 cap (pseudo_append cap [] (cs "MemTotal:       "%string)) (total / 1024) in
  let out := pseudo_append_u64 cap (pseudo_append cap out (line_end " kB"%string ++ cs "MemFree:        "%string)) (freeb / 1024) in
  let out := pseudo_append_u64 cap (pseudo_append cap out (line_end " kB"%string ++ cs "MemAvailable:   "%string)) (freeb / 1024) in
  pseudo_append cap out (line_end " kB"%string ++ line_end "Buffers:        0 kB"%string ++ line_end "Cached:         0 kB"%string).

Definition proc_uptime_text (cap ns : Z) : list Z :=
  let out := pseudo_append_u64 cap [] (ns / 1000000000) in
  let frac := ns mod 1000000000 / 10000000 in
  let out := if Z.of_nat (length out) + 3 <? cap then out ++ [46; 48 + frac / 10; 48 + frac mod 10] else out in
  pseudo_append cap out (line_end " 0.00"%string).

Definition status_text (cap pid ppid : Z) : list Z :=
  let out := pseudo_append cap [] (cs "Name:"%string ++ TAB ++ line_end "YabroOS-32"%string ++ cs "State:"%string ++ TAB ++ line_end "R (running)"%string ++ cs "Pid:"%string ++ TAB) in
  let out := pseudo_append cap (pseudo_append_u64 cap out pid) (NL ++ cs "PPid:"%string ++ TAB) in
  let out := pseudo_append cap (pseudo_append_u64 cap out ppid) (NL ++ cs "Tgid:"%string ++ TAB) in
  pseudo_append cap (pseudo_append_u64 cap out pid)
    (NL ++ cs "Uid:"%string ++ TAB ++ cs "0"%string ++ TAB ++ cs "0"%string ++ TAB ++ cs "0"%string ++ TAB ++ line_end "0"%string ++
     cs "Gid:"%string ++ TAB ++ cs "0"%string ++ TAB ++ cs "0"%string ++ TAB ++ cs "0"%string ++ TAB ++ line_end "0"%string ++
     cs "Threads:"%string ++ TAB ++ line_end "1"%string).

(** The part of [p] after its last slash. *)
Definition base_name (p : cstr) : cstr := rev (fst (span_part (rev p))).

(** [path] is the file [name] of the process directory. *)
Definition of_self (path : cstr) (name : string) : bool := eq path (cs "/proc/self/"%string ++ cs name) || eq path (cs "/proc/1/"%string ++ cs name).

(** The bytes stored before the terminator, [] for a path without a text. *)
Definition pseudo_make_proc (cap : Z) (path : cstr) : ST kernel (list Z) :=
  let! k := st_get in
  if cap =? 0 then st_ret []
  else if eq path (cs "/proc/cpuinfo"%string) then st_ret (cpuinfo_text cap)
  else if eq path (cs "/proc/meminfo"%string) then st_ret (meminfo_text cap (m_pmm (k_vm k)))
  else if eq path (cs "/proc/uptime"%string) then st_ret (proc_uptime_text cap (kernel_uptime_ns k))
  else if eq path (cs "/proc/version"%string) then st_ret (pseudo_append cap [] (line_end "YabroOS-32 version 0.1 (x86_64) #1 PREEMPT"%string))
  else if of_self path "status" then
    let! pid := sys_getpid in
    let! ppid := sys_getppid in
    st_ret (status_text cap pid ppid)
  else if of_self path "cmdline" then st_ret (out_ch cap (pseudo_append cap [] (base_name (k_current_exe k))) 0)
  else if of_self path "maps" then
    let out := pseudo_append cap [] (cs "00400000-00401000 r-xp 00000000 00:00 1"%string ++ TAB) in
    st_ret (pseudo_append cap (pseudo_append cap out (k_current_exe k)) (NL ++ line_end "007ff000-00800000 rw-p 00000000 00:00 0	[stack]"%string))
  else st_ret [].

(** The buffer of descriptor [fd] of any table, after a text was stored in it.
    A terminator follows the text, but for /proc/self/cmdline, which counts it. *)
Definition pseudo_store (fd : Z) (path : cstr) (text : list Z) (k : kernel) : kernel :=
  let text := if of_self path "cmdline" then text else text ++ [0] in
  k <| k_pseudo_buf := <[fd := text ++ drop (length text) (cell [] (k_pseudo_buf k) fd)]> (k_pseudo_buf k) |>.

(** ** Paths of devices *)

(** The kind of the file of a node, where it is one of these. *)
Definition node_kind (p : cstr) (type : Z) : option Z :=
  if type =? VFS_NODE_DIR then
    if eq p (cs "/proc"%string) then Some PSEUDO_PROC_ROOT
    else if eq p (cs "/proc/self"%string) || eq p (cs "/proc/1"%string) then Some PSEUDO_PROC_SELF
    else if eq p (cs "/proc/self/fd"%string) || eq p (cs "/proc/1/fd"%string) then Some PSEUDO_PROC_FD
    else if eq p (cs "/dev"%string) then Some PSEUDO_DEV_DIR
    else None
  else if type =? VFS_NODE_PROC_FILE then Some PSEUDO_PROC_FILE
  else if type =? VFS_NODE_DEV_NULL then Some DEV_NULL
  else if type =? VFS_NODE_DEV_ZERO then Some DEV_ZERO
  else if type =? VFS_NODE_DEV_CONSOLE then Some DEV_CONSOLE
  else if type =? VFS_NODE_DEV_TTY then Some DEV_TTY
  else if type =? VFS_NODE_DEV_RANDOM then Some DEV_RANDOM
  else if type =? VFS_NODE_DEV_URANDOM then Some DEV_URANDOM
  else if type =? VFS_NODE_DEV_FB then Some DEV_FB
  else if type =? VFS_NODE_DEV_INPUT then Some DEV_INPUT
  else if type =? VFS_NODE_DEV_INPUT_MOUSE then Some DEV_INPUT_MOUSE
  else if type =? VFS_NODE_SYMLINK then
    if eq p (cs "/proc/self/exe"%string) || eq p (cs "/proc/1/exe"%string) then Some PSEUDO_PROC_FILE
    else if eq p (cs "/dev/stdin"%string) then Some DEV_TTY
    else if eq p (cs "/dev/stdout"%string) || eq p (cs "/dev/stderr"%string) then Some DEV_CONSOLE
    else None
  else None.

(** The type and the kind of the file [p] names, [None] for 0. *)
Definition pseudo_lookup (p : cstr) : ST kernel (option (Z * Z)) :=
  let! n := on_vfs (vfs_lookup p) in
  let! k := st_get in
  if eq p (cs "/dev/ptmx"%string) then st_ret (Some (FD_PTY_MASTER, PSEUDO_PTMX))
  else if eq p (cs "/dev/pts"%string) then st_ret (Some (FD_PSEUDO, PSEUDO_PTS_DIR))
  else if 0 <=? pty_index_from_path (Some p) then st_ret (Some (FD_PTY_SLAVE, PSEUDO_PTS_SLAVE))
  else
    match n with
    | Some n => st_ret (option_map (pair FD_PSEUDO) (node_kind p (vfs_type (k_vfs k) (Some n))))
    | None =>
        if eq p (cs "/sys"%string) then st_ret (Some (FD_PSEUDO, PSEUDO_SYS_DIR))
        else if eq p (cs "/sys/kernel/osrelease"%string) then st_ret (Some (FD_PSEUDO, PSEUDO_SYS_FILE))
        else st_ret None
    end.

Definition pseudo_is_dir_kind (k : Z) : bool :=
  (k =? PSEUDO_PROC_ROOT) || (k =? PSEUDO_PROC_SELF) || (k =? PSEUDO_PROC_FD) || (k =? PSEUDO_DEV_DIR) || (k =? PSEUDO_SYS_DIR) || (k =? PSEUDO_PTS_DIR).

(** ** Opening *)

(** graphics_fb_size() *)
Variable graphics_fb_size : Z.

(** A terminal neither side of which is open. *)
Definition pty_unused (p : pty_state) : bool :=
  negb (py_master_open p) && negb (py_slave_open p) && (py_master_refs p =? 0) && (py_slave_refs p =? 0).

Definition open_master (p : pty_state) : pty_state :=
  pty_reset_termios (p <| py_master_open := true |> <| py_slave_open := false |> <| py_unlocked := false |>
    <| py_master_refs := 1 |> <| py_slave_refs := 0 |>
    <| py_m2s_r := 0 |> <| py_m2s_w := 0 |> <| py_m2s_count := 0 |> <| py_s2m_r := 0 |> <| py_s2m_w := 0 |> <| py_s2m_count := 0 |>
    <| py_canon_count := 0 |> <| py_output_stopped := false |> <| py_fg_pgrp := 0 |> <| py_shell_pgrp := 0 |> <| py_session := 0 |>
    <| py_rows := 30 |> <| py_cols := 80 |> <| py_xpixel := 640 |> <| py_ypixel := 480 |>).

(** The kinds without a node. *)
Definition without_node (kind : Z) : bool :=
  (kind =? DEV_FB) || (kind =? DEV_INPUT) || (kind =? DEV_INPUT_MOUSE) || (kind =? DEV_NULL) || (kind =? DEV_ZERO) || (kind =? DEV_CONSOLE) ||
  (kind =? DEV_TTY) || (kind =? DEV_RANDOM) || (kind =? DEV_URANDOM) || (kind =? PSEUDO_PTMX) || (kind =? PSEUDO_PTS_SLAVE).

(** [f] is the descriptor [fd] of the current table. *)
Definition pseudo_fill (fd : Z) (path : cstr) (kind : Z) : ST kernel Z :=
  upd_file fd (fun f => f <| f_type := FD_PSEUDO |> <| f_private := PDev kind |> <| f_vnode := None |> <| f_offset := 0 |> <| f_size := 0 |> <| f_data := None |>) ;;;
  (if without_node kind then st_ret tt
   else let! n := on_vfs (vfs_lookup path) in upd_file fd (fun f => f <| f_vnode := n |>)) ;;;
  let! k := st_get in
  if kind =? PSEUDO_PTMX then
    pty_init_once ;;;
    let! k := st_get in
    match find (fun i => pty_unused (pty k i)) (seqZ 0 PTY_COUNT) with
    | None => st_ret (- EMFILE)
    | Some i =>
        st_mod (upd_pty i open_master) ;;;
        upd_file fd (fun f => f <| f_type := FD_PTY_MASTER |> <| f_private := PPty i |> <| f_vnode := None |>) ;;;
        st_ret 0
    end
  else if kind =? PSEUDO_PTS_SLAVE then
    pty_init_once ;;;
    let! k := st_get in
    let i := pty_index_from_path (Some path) in
    if (i <? 0) || (PTY_COUNT <=? i) then st_ret (- ENXIO)
    else
      let p := pty k i in
      if negb (py_master_open p) then st_ret (- ENXIO)
      else if negb (py_unlocked p) then st_ret (- EACCES)
      else if py_slave_refs p =? UINT32_MAX then st_ret (- EMFILE)
      else
        st_mod (set_pty i (p <| py_slave_open := true |> <| py_slave_refs := py_slave_refs p + 1 |>)) ;;;
        upd_file fd (fun f => f <| f_type := FD_PTY_SLAVE |> <| f_private := PPty i |> <| f_vnode := None |>) ;;;
        st_ret 0
  else if kind =? PSEUDO_PROC_FILE then
    let! text := pseudo_make_proc 4096 path in
    st_mod (pseudo_store fd path text) ;;;
    upd_file fd (fun f => f <| f_data := Some (DPseudoBuf fd) |> <| f_size := Z.of_nat (length text) |>) ;;;
    st_ret 0
  else if kind =? PSEUDO_SYS_FILE then
    upd_file fd (fun f => f <| f_data := Some DOsrelease |> <| f_size := Z.of_nat (length osrelease) |>) ;;; st_ret 0
  else if kind =? DEV_FB then upd_file fd (fun f => f <| f_size := graphics_fb_size |>) ;;; st_ret 0
  else if (kind =? DEV_INPUT) || (kind =? DEV_INPUT_MOUSE) then
    let initial_seq := if kind =? DEV_INPUT_MOUSE then in_mouse_seq (k_input k) else in_event_seq (k_input k) in
    let! p := input_state_alloc kind initial_seq in
    upd_file fd (fun f => f <| f_size := 0 |> <| f_input_state := p |>) ;;;
    match p with
    | None => st_ret (- EMFILE)
    | Some _ => upd_file fd (fun f => f <| f_input_seq := initial_seq |>) ;;; st_ret 0
    end
  else st_ret 0.
End Cpuid.
