(* ===== verification/Paths.v ===== *)
(** * Paths of a process and opening them

    The working directory, the normal form of a path and the open system call
    ([src/kernel/main.c]).  What the boot medium holds (bootfs_file_size and
    bootfs_path_is_dir, main.rs) is a parameter; traces are left out. *)

From Stdlib Require Import String.
From S2P Require Import Prelude Words Pmm Vmm CStr Vfs Kernel Tty Fd Sched UserCopy Poll Mmap Pseudo.
Local Open Scope Z_scope.
Local Open Scope st_scope.

Definition ENOTDIR : Z := 20.
Definition ERANGE : Z := 34.
Definition EROFS : Z := 30.
Definition O_APPEND : Z := 0x400.

(** The size of the path buffers of the system calls. *)
Definition PATH_CAP : Z := 128.

(** ** The working directory *)

Definition is_root (s : vfs) (n : Z) : bool := bool_decide (v_root s = Some n).

(** The names from [cur] up to the root, the first one the innermost; the root
    of a mount goes by the name of its mount point. *)
Fixpoint cwd_names (depth : nat) (s : vfs) (cur : option Z) : list cstr :=
  match depth, cur with
  | S depth, Some cur =>
      if is_root s cur then []
      else
        let cur :=
          match n_parent (nd s cur) with
          | Some p =>
              match n_mounted (nd s p) with
              | Some m => if bool_decide (mt_root (mt s m) = Some cur) then p else cur
              | None => cur
              end
          | None => cur
          end in
        take VFS_NAME_MAX (n_name (nd s cur)) :: cwd_names depth s (n_parent (nd s cur))
  | _, _ => []
  end.

(** Each name with a slash before it, as long as it fits in [cap] bytes. *)
Fixpoint join_names (cap : Z) (out : cstr) (names : list cstr) : option cstr :=
  match names with
  | [] => Some out
  | n :: names =>
      if cap <=? Z.of_nat (length out) + Z.of_nat (length n) + 1 then None else join_names cap (out ++ SLASH :: n) names
  end.

(** The error, or the path. *)
Definition task_cwd_path (k : kernel) (cap : Z) : Z + cstr :=
  if cap <? 2 then inl (- ERANGE)
  else
    let s := k_vfs k in
    let cwd := t_cwd (task k (k_current k)) in
    let cur := match cwd with Some _ => cwd | None => v_root s end in
    match cwd_names 32 s cur with
    | [] => inr [SLASH]
    | names => match join_names cap [] (rev names) with Some out => inr out | None => inl (- ERANGE) end
    end.

(** ** Normal paths *)

Definition DOT : cstr := [46].
Definition DOTDOT : cstr := [46; 46].

(** The loop over the parts of [p]; [parts] holds those kept, the last one first. *)
Fixpoint normal_parts (fuel : nat) (parts : list cstr) (p : cstr) : Z + list cstr :=
  match fuel with
  | O => inr parts
  | S fuel =>
      match skip_slashes p with
      | [] => inr parts
      | p =>
          let '(part, rest) := span_part p in
          if (VFS_NAME_MAX <? length part)%nat then inl (- ENAMETOOLONG)
          else if eq part DOT then normal_parts fuel parts rest
          else if eq part DOTDOT then normal_parts fuel (tail parts) rest
          else if (32 <=? length parts)%nat then inl (- ENAMETOOLONG)
          else normal_parts fuel (part :: parts) rest
      end
  end.

(** The parts behind one another; a slash comes before all but the first. *)
Fixpoint put_parts (cap : Z) (out : cstr) (parts : list cstr) : option cstr :=
  match parts with
  | [] => Some out
  | part :: parts =>
      let n := Z.of_nat (length out) in
      if (1 <? n) && (cap <=? n + 1) then None
      else
        let out := if 1 <? n then out ++ [SLASH] else out in
        if cap <=? Z.of_nat (length out) + Z.of_nat (length part) then None else put_parts cap (out ++ part) parts
  end.

Definition normalize_abs_path (p : cstr) (cap : Z) : Z + cstr :=
  match p with
  | c :: rest =>
      if (cap <? 2) || negb (c =? SLASH) then inl (- EINVAL)
      else
        match normal_parts (length p) [] rest with
        | inl e => inl e
        | inr parts => match put_parts cap [SLASH] (rev parts) with Some out => inr out | None => inl (- ENAMETOOLONG) end
        end
  | [] => inl (- EINVAL)
  end.

Definition resolve_process_path (k : kernel) (p : cstr) (cap : Z) : Z + cstr :=
  if cap <? 2 then inl (- EINVAL)
  else if hd 0 p =? SLASH then
    if PATH_CAP <=? Z.of_nat (length p) then inl (- ENAMETOOLONG) else normalize_abs_path p cap
  else
    match task_cwd_path k PATH_CAP with
    | inl e => inl e
    | inr base =>
        let n := Z.of_nat (length base) in
        if (1 <? n) && (PATH_CAP <=? n + 1) then inl (- ENAMETOOLONG)
        else
          let raw := if 1 <? n then base ++ [SLASH] else if n =? 0 then [SLASH] else base in
          if PATH_CAP <=? Z.of_nat (length raw + length p) then inl (- ENAMETOOLONG) else normalize_abs_path (raw ++ p) cap
    end.

(** The path a system call is given, resolved. *)
Definition user_path (k : kernel) (path : Z) : Z + cstr :=
  match user_copy_cstr k path PATH_CAP with
  | (0, raw) => match resolve_process_path k raw PATH_CAP with inl _ => inl (- ENAMETOOLONG) | inr p => inr p end
  | _ => inl (- EFAULT)
  end.

Definition sys_getcwd (buf size : Z) : ST kernel Z :=
  task_init_root ;;;
  if (buf =? 0) || (size <? 2) then st_ret (- ERANGE)
  else
    let! k := st_get in
    match task_cwd_path k PATH_CAP with
    | inl _ => st_ret (- ERANGE)
    | inr out =>
        let n := Z.of_nat (length out) in
        if size <=? n then st_ret (- ERANGE)
        else let! r := user_copy_to buf (out ++ [0]) in st_ret (if negb (r =? 0) then - EFAULT else n + 1)
    end.

Section Bootfs.
(** The size of a file of the boot medium, 0 for none, and whether the path is a directory there. *)
Variable bootfs_file_size : cstr -> Z.
Variable bootfs_path_is_dir : cstr -> Z.

(** The path sys_chdir looks up, which is not normalized. *)
Definition chdir_path (k : kernel) (p : cstr) : Z + cstr :=
  if hd 0 p =? SLASH then inr p
  else
    match task_cwd_path k PATH_CAP with
    | inl _ => inl (- ERANGE)
    | inr base =>
        let n := Z.of_nat (length base) in
        if (1 <? n) && (PATH_CAP <=? n + 1) then inl (- ENAMETOOLONG)
        else
          let raw := if 1 <? n then base ++ [SLASH] else base in
          if negb (is_nil p) && (PATH_CAP <=? Z.of_nat (length raw + length p)) then inl (- ENAMETOOLONG) else inr (raw ++ p)
    end.

Definition sys_chdir (path : Z) : ST kernel Z :=
  task_init_root ;;;
  let! k := st_get in
  match user_copy_cstr k path PATH_CAP with
  | (0, p) =>
      match chdir_path k p with
      | inl e => st_ret e
      | inr abs =>
          let! n := on_vfs (vfs_lookup abs) in
          let! n :=
            if negb (is_some n) && (0 <? bootfs_path_is_dir abs) then
              let! r := on_vfs (vfs_ensure_dir abs) in
              if r <? 0 then st_ret None else on_vfs (vfs_lookup abs)
            else st_ret n in
          let! k := st_get in
          match n with
          | None => st_ret (- ENOENT)
          | Some n =>
              if negb (vfs_is_dir (k_vfs k) n) then st_ret (- ENOTDIR)
              else st_mod (upd_task (k_current k) (fun t => t <| t_cwd := Some n |>)) ;;; st_ret 0
          end
      end
  | _ => st_ret (- EFAULT)
  end.

(** ** open *)

Variable cpuid : Z -> Z -> Z * Z * Z * Z.
Variable graphics_fb_size : Z.

(** A device, a terminal or a file of /proc. *)
Definition open_pseudo (fd : Z) (pth : cstr) (flags kind : Z) : ST kernel Z :=
  upd_file fd (fun f => f <| f_in_use := true |> <| f_flags := flags |> <| f_name := None |>) ;;;
  let! pr := pseudo_fill cpuid graphics_fb_size fd pth kind in
  let! k := st_get in
  if pr <? 0 then fd_mark_closed (current_files k) fd ;;; st_ret pr
  else
    fd_set_boot_path (current_files k) fd (Some pth) ;;;
    upd_file fd (fun f => f <| f_size := if pseudo_is_dir_kind kind then 0 else f_size f |>) ;;;
    st_ret fd.

(** [in_use = 1; type = FD_FILE; offset = 0; shared_offset = alloc_open_offset();]
    and the rest; without an offset the descriptor is closed by [close]. *)
Definition open_file (fd flags offset : Z) (close : ST kernel unit) (rest : file_desc -> file_desc) : ST kernel Z :=
  upd_file fd (fun f => f <| f_in_use := true |> <| f_type := FD_FILE |> <| f_flags := flags |> <| f_offset := offset |>) ;;;
  let! p := alloc_open_offset in
  upd_file fd (fun f => f <| f_shared_offset := p |>) ;;;
  match p with
  | None => close ;;; st_ret (- EMFILE)
  | Some _ => upd_file fd rest ;;; st_ret fd
  end.

Definition unuse (fd : Z) : ST kernel unit := upd_file fd (fun f => f <| f_in_use := false |>).

Definition boot_path_of (p : cstr) : cstr := take (VFS_PATH_MAX - 1) p.

(** A file that only the boot medium knows. *)
Definition open_bootfs (fd : Z) (pth : cstr) (flags size : Z) : ST kernel Z :=
  open_file fd flags 0 (unuse fd) (fun f => f <| f_data := None |> <| f_size := size |> <| f_name := None |> <| f_vnode := None |>
    <| f_boot_path := boot_path_of pth |>).

Definition open_node (fd : Z) (pth : cstr) (flags vn : Z) : ST kernel Z :=
  let! k := st_get in
  let s := k_vfs k in
  let name := Some (vfs_node_name s vn) in
  if vfs_is_dir s vn then
    upd_file fd (fun f => f <| f_in_use := true |> <| f_type := FD_PSEUDO |> <| f_flags := flags |> <| f_private := PDev PSEUDO_DEV_DIR |>
      <| f_vnode := Some vn |> <| f_offset := 0 |> <| f_size := 0 |> <| f_data := None |> <| f_name := name |> <| f_boot_path := boot_path_of pth |>) ;;;
    st_ret fd
  else if vfs_is_boot_file s vn then
    if has flags 3 then st_ret (- EROFS)
    else
      open_file fd flags 0 (unuse fd) (fun f => f <| f_data := None |> <| f_size := vfs_file_size s vn |> <| f_name := name |> <| f_vnode := Some vn |>
        <| f_boot_path := boot_path_of (vfs_boot_path s vn) |>)
  else if vfs_file_is_regular s vn then
    let! r := if has flags 0x200 then on_vfs (vfs_file_truncate vn 0) else st_ret 0 in
    if r <? 0 then st_ret (- EIO)
    else
      let! k := st_get in
      let x := nd (k_vfs k) vn in
      let offset := if has flags O_APPEND then n_size x else 0 in
      let! r := open_file fd flags offset (fd_mark_closed (current_files k) fd)
                  (fun f => f <| f_data := option_map DSlot (n_data x) |> <| f_size := n_size x |> <| f_name := name |> <| f_vnode := Some vn |>) in
      let! k := st_get in
      match (if r <? 0 then None else f_shared_offset (file k fd)) with
      | Some i => st_mod (set_open_desc i ((open_desc k i) <| od_offset := offset |>)) ;;; st_ret r
      | None => st_ret r
      end
  else st_ret (- ENOENT).

Definition sys_open_resolved (pth : cstr) (flags : Z) : ST kernel Z :=
  let! k := st_get in
  let fd := find_free_fd k in
  if (fd <? 0) || (MAX_FILES <=? fd) then st_ret (- EMFILE)
  else
    let! pl := pseudo_lookup pth in
    match pl with
    | Some (_, kind) => open_pseudo fd pth flags kind
    | None =>
        let! vn := on_vfs (vfs_lookup pth) in
        let! vn := if negb (is_some vn) && has flags 0x40 then on_vfs (vfs_create_file pth (has flags 0x200)) else st_ret vn in
        match vn with
        | Some vn => open_node fd pth flags vn
        | None =>
            if negb (has flags 0x40) && negb (has flags 3) && (0 <? bootfs_file_size pth) then open_bootfs fd pth flags (bootfs_file_size pth)
            else st_ret (- ENOENT)
        end
    end.

Definition sys_open (path flags : Z) : ST kernel Z :=
  let! k := st_get in
  match user_path k path with
  | inl e => st_ret e
  | inr p => sys_open_resolved p flags
  end.
End Bootfs.
