(* ===== verification/PathCalls.v ===== *)
(** * System calls on paths

    stat, access, getdents64, readlink, mkdir, link, unlink, rmdir, rename, the
    calls relative to a directory and those that set modes and owners
    ([src/kernel/main.c]). *)

From Stdlib Require Import String.
From S2P Require Import Prelude Words Pmm Vmm CStr Vfs Kernel Tty Fd Sched UserCopy Signals Pipe Socket Poll Mmap Pseudo Paths.
Local Open Scope Z_scope.
Local Open Scope st_scope.

Definition EISDIR : Z := 21.
Definition ENOTEMPTY : Z := 39.

Section Bootfs.
Variable bootfs_file_size : cstr -> Z.
Variable cpuid : Z -> Z -> Z * Z * Z * Z.
Variable graphics_fb_size : Z.

(** Runs a call on its resolved path. *)
Definition on_path (path : Z) (call : cstr -> ST kernel Z) : ST kernel Z :=
  let! k := st_get in
  match user_path k path with inl e => st_ret e | inr p => call p end.

(** ** stat *)

Record linux_stat := LinuxStat { st_ino : Z; st_nlink : Z; st_mode : Z; st_rdev : Z; st_size : Z; st_blocks : Z }.
#[global] Instance eta_linux_stat : Eta linux_stat := fun r => LinuxStat (st_ino r) (st_nlink r) (st_mode r) (st_rdev r) (st_size r) (st_blocks r).

Definition fill_stat (ino nlink size mode : Z) : linux_stat :=
  LinuxStat (if ino =? 0 then 1 else ino) (if nlink =? 0 then 1 else nlink) mode 0 size (u64 (size + 511) / 512).

(** The structure: the device is 1 and the block size 4096, the owners and times are 0. *)
Definition stat_bytes (st : linux_stat) : list Z :=
  word_bytes 1 ++ word_bytes (st_ino st) ++ word_bytes (st_nlink st) ++ int_bytes (st_mode st) ++ repeat 0 12 ++ word_bytes (st_rdev st) ++
  word_bytes (st_size st) ++ word_bytes 4096 ++ word_bytes (st_blocks st) ++ repeat 0 72.

Definition copy_stat (ust : Z) (st : linux_stat) : ST kernel Z :=
  let! r := user_copy_to ust (stat_bytes st) in st_ret (if negb (r =? 0) then - EFAULT else 0).

Definition input_dev_rdev (kind : Z) : Z := 13 * 256 + (if kind =? DEV_INPUT_MOUSE then 65 else 64).
Definition is_input (kind : Z) : bool := (kind =? DEV_INPUT) || (kind =? DEV_INPUT_MOUSE).

(** 040755, 020666, 0100444 and 0100644 *)
Definition pseudo_mode (kind : Z) : Z :=
  if pseudo_is_dir_kind kind then 0x41ED
  else if (DEV_NULL <=? kind) && (kind <=? DEV_URANDOM) then 0x21B6
  else if (kind =? DEV_FB) || is_input kind then 0x21B6
  else 0x8124.

Definition pseudo_stat (p : cstr) (kind : Z) : ST kernel linux_stat :=
  let st := (fill_stat 100 1 0 (pseudo_mode kind)) <| st_ino := 100 |> in
  let st := if kind =? DEV_FB then st <| st_size := graphics_fb_size |> <| st_rdev := 7 * 256 |> else st in
  let st := if is_input kind then st <| st_rdev := input_dev_rdev kind |> else st in
  if negb (pseudo_is_dir_kind kind) && (kind =? PSEUDO_PROC_FILE) then
    let! text := pseudo_make_proc cpuid 4096 p in st_ret (st <| st_size := Z.of_nat (length text) |>)
  else st_ret st.

(** The size of a node that has one. *)
Definition node_size (s : vfs) (vn : Z) : Z := if vfs_file_is_regular s vn || vfs_is_boot_file s vn then vfs_file_size s vn else 0.

Definition node_stat (s : vfs) (vn : Z) : linux_stat :=
  let nlink := n_nlink (nd s vn) in
  fill_stat (vfs_ino s (Some vn)) (if nlink =? 0 then 1 else nlink) (node_size s vn) (vfs_mode s (Some vn)).

Definition sys_stat_resolved (p : cstr) (ust : Z) : ST kernel Z :=
  let! pl := pseudo_lookup p in
  match pl with
  | Some (_, kind) => let! st := pseudo_stat p kind in copy_stat ust st
  | None =>
      let! vn := on_vfs (vfs_lookup p) in
      let! k := st_get in
      match vn with
      | Some vn => copy_stat ust ((node_stat (k_vfs k) vn) <| st_ino := vfs_ino (k_vfs k) (Some vn) |>)
      | None =>
          if 0 <? bootfs_file_size p then copy_stat ust (fill_stat 1 1 (bootfs_file_size p) 0x8124) else st_ret (- ENOENT)
      end
  end.

Definition sys_stat (path ust : Z) : ST kernel Z := on_path path (fun p => sys_stat_resolved p ust).
Definition sys_lstat : Z -> Z -> ST kernel Z := sys_stat.

(** The device of a descriptor of /dev, 0 for any other. *)
Definition dev_of (f : file_desc) : Z := if f_type f =? FD_PSEUDO then match f_private f with PDev kind => kind | _ => 0 end else 0.

Definition fstat_of (k : kernel) (f : file_desc) : linux_stat :=
  let kind := dev_of f in
  if kind =? DEV_FB then (fill_stat 100 1 graphics_fb_size 0x21B6) <| st_rdev := 7 * 256 |>
  else if is_input kind then (fill_stat 100 1 (f_size f) 0x21B6) <| st_rdev := input_dev_rdev kind |>
  else match f_vnode f with Some vn => node_stat (k_vfs k) vn | None => fill_stat 1 1 (f_size f) 0x81A4 end.

Definition bad_fd (k : kernel) (fd : Z) : bool := (fd <? 0) || (MAX_FILES <=? fd) || negb (f_in_use (file k fd)).

Definition sys_fstat (fd ust : Z) : ST kernel Z :=
  let! k := st_get in
  if bad_fd k fd then st_ret (- EBADF) else copy_stat ust (fstat_of k (file k fd)).

(** ** access and readlink *)

Definition resolved_path_exists (p : cstr) : ST kernel bool :=
  let! pl := pseudo_lookup p in
  if is_some pl then st_ret true
  else let! vn := on_vfs (vfs_lookup p) in st_ret (is_some vn || (0 <? bootfs_file_size p)).

Definition sys_access_resolved (p : cstr) (mode : Z) : ST kernel Z :=
  let! e := resolved_path_exists p in
  let tp := if hd 0 p =? SLASH then tail p else p in
  st_ret (if e || eq (take 5 tp) (cs "TEST."%string) then 0 else - ENOENT).
Definition sys_access (path mode : Z) : ST kernel Z := on_path path (fun p => sys_access_resolved p mode).

Definition sys_readlink_resolved (p : cstr) (buf size : Z) : ST kernel Z :=
  let! n := on_vfs (vfs_lookup p) in
  let! k := st_get in
  let t := match n with
           | Some n => if vfs_type (k_vfs k) (Some n) =? VFS_NODE_SYMLINK then vfs_link_target (k_vfs k) (Some n) else None
           | None => None
           end in
  let t := match t with
           | Some t => Some t
           | None => if eq p (cs "/proc/self/exe"%string) || eq p (cs "/proc/1/exe"%string) then Some (k_current_exe k) else None
           end in
  match t with
  | None => st_ret (- ENOENT)
  | Some t =>
      let l := take (Z.to_nat size) t in
      if is_nil l then st_ret 0
      else let! r := user_copy_to buf l in st_ret (if negb (r =? 0) then - EFAULT else Z.of_nat (length l))
  end.
Definition sys_readlink (path buf size : Z) : ST kernel Z := on_path path (fun p => sys_readlink_resolved p buf size).

(** ** getdents64 *)

(** The bytes of the buffer on the kernel stack, which is not cleared. *)
Variable stack_byte : Z -> Z.

Definition reclen (name : cstr) : Z := (20 + Z.of_nat (length name) + 7) / 8 * 8.

(** The entry at [pos], [None] when it does not fit. *)
Definition dirent_put (cap : Z) (out : list Z) (ino type : Z) (name : cstr) (next : Z) : option (list Z) :=
  let pos := Z.of_nat (length out) in
  if cap <? pos + reclen name then None
  else
    let used := 20 + Z.of_nat (length name) in
    Some (out ++ word_bytes ino ++ word_bytes next ++ take 2 (int_bytes (reclen name)) ++ [type] ++ name ++ [0] ++
          map (fun i => stack_byte (pos + i)) (seqZ used (reclen name - used))).

Definition dirent_type (s : vfs) (n : Z) : Z := if vfs_is_dir s n then 4 else if vfs_type s (Some n) =? VFS_NODE_SYMLINK then 10 else 8.

(** The loop over the children from [child] on: the buffer, and the index of
    the next entry. *)
Fixpoint dirents (todo : nat) (s : vfs) (d cap child idx : Z) (out : list Z) : list Z * Z :=
  match todo with
  | O => (out, idx)
  | S todo =>
      match vfs_child_at s d child with
      | None => (out, idx)
      | Some n =>
          match dirent_put cap out (vfs_ino s (Some n)) (dirent_type s n) (n_name (nd s n)) (child + 3) with
          | None => (out, idx)
          | Some out => dirents todo s d cap (child + 1) (child + 3) out
          end
      end
  end.

Definition getdents_done (fd udirent : Z) (out : list Z) (idx : Z) : ST kernel Z :=
  upd_file fd (fun f => f <| f_offset := idx |>) ;;;
  if is_nil out then st_ret 0
  else let! r := user_copy_to udirent out in st_ret (if negb (r =? 0) then - EFAULT else Z.of_nat (length out)).

Definition sys_getdents64 (fd udirent count : Z) : ST kernel Z :=
  let! k := st_get in
  if bad_fd k fd then st_ret (- EBADF)
  else
    let f := file k fd in
    let s := k_vfs k in
    match (if f_type f =? FD_PSEUDO then f_vnode f else None) with
    | None => st_ret (- ENOTDIR)
    | Some d =>
        if negb (vfs_is_dir s d) then st_ret (- ENOTDIR)
        else
          let cap := if count <? 1024 then count else 1024 in
          let dot := if f_offset f =? 0 then dirent_put cap [] (vfs_ino s (Some d)) 4 DOT 1 else Some [] in
          match dot with
          | None => st_ret 0
          | Some out =>
              let idx := if f_offset f =? 0 then 1 else f_offset f in
              let parent := match n_parent (nd s d) with Some p => p | None => d end in
              match (if idx =? 1 then dirent_put cap out (vfs_ino s (Some parent)) 4 DOTDOT 2 else Some out) with
              | None => getdents_done fd udirent out 1
              | Some out =>
                  let idx := if idx =? 1 then 2 else idx in
                  let child := idx - 2 in
                  let '(out, idx) := dirents (Z.to_nat (vfs_child_count s d - child)) s d cap child idx out in
                  getdents_done fd udirent out idx
              end
          end
    end.

(** ** Changing directories *)

Definition is_x11_dir (p : cstr) : bool := eq (take 14 p) (cs "/tmp/.X11-unix"%string).

Definition sys_mkdir (path mode : Z) : ST kernel Z :=
  on_path path (fun p =>
    let! existing := on_vfs (vfs_lookup p) in
    let! k := st_get in
    match existing with
    | Some n =>
        if negb (vfs_is_dir (k_vfs k) n) then st_ret (- EEXIST)
        else
          let want := Z.land mode 0xFFF in
          let have := Z.land (vfs_mode (k_vfs k) (Some n)) 0xFFF in
          if have =? want then st_ret 0
          else if is_x11_dir p && (want =? 0x3FF) then
            on_vfs (upd n (fun x => with_mode (Z.lor (Z.land (n_mode x) 0xFFFFF000) 0x3FF) x)) ;;; st_ret 0
          else st_ret (- EINVAL)
    | None => let! n := on_vfs (vfs_mkdir p (u32 mode)) in st_ret (if is_some n then 0 else - ENOENT)
    end).

(** Two paths: the errors of the copies come before those of the names. *)
Definition on_two_paths (oldpath newpath : Z) (call : cstr -> cstr -> ST kernel Z) : ST kernel Z :=
  let! k := st_get in
  match user_copy_cstr k oldpath PATH_CAP, user_copy_cstr k newpath PATH_CAP with
  | (0, ro), (0, rn) =>
      match resolve_process_path k ro PATH_CAP, resolve_process_path k rn PATH_CAP with
      | inr ao, inr an => call ao an
      | _, _ => st_ret (- ENAMETOOLONG)
      end
  | _, _ => st_ret (- EFAULT)
  end.

Definition sys_link (oldpath newpath : Z) : ST kernel Z :=
  on_two_paths oldpath newpath (fun ao an =>
    let! src := on_vfs (vfs_lookup ao) in
    let! k := st_get in
    match src with
    | None => st_ret (- ENOENT)
    | Some src =>
        if vfs_is_dir (k_vfs k) src then st_ret (- EISDIR)
        else
          let! there := on_vfs (vfs_lookup an) in
          if is_some there then st_ret (- EEXIST)
          else
            let! rc := on_vfs (vfs_link ao an) in
            st_ret (if rc =? 0 then 0 else if rc =? -2 then - EEXIST else - EIO)
    end).

Definition unbind (s : unix_socket_state) : unix_socket_state := s <| sk_bound := false |> <| sk_path := [] |>.

Definition sys_unlink (path : Z) : ST kernel Z :=
  on_path path (fun p =>
    let! n := on_vfs (vfs_lookup p) in
    let! k := st_get in
    match n with
    | None =>
        match find (is_bound_to k p) all_socks with
        | Some i => st_mod (upd_sock i unbind) ;;; st_ret 0
        | None => st_ret (- ENOENT)
        end
    | Some n =>
        if vfs_is_dir (k_vfs k) n then st_ret (- EISDIR)
        else
          let is_socket := vfs_type (k_vfs k) (Some n) =? VFS_NODE_SOCKET in
          let! r := on_vfs (vfs_unlink p) in
          if negb (r =? 0) then st_ret (- EIO)
          else if is_socket then
            st_mod (fun k => foldl (fun k i => if is_bound_to k p i then upd_sock i unbind k else k) k all_socks) ;;; st_ret 0
          else st_ret 0
    end).

Definition sys_rmdir (path : Z) : ST kernel Z :=
  on_path path (fun p =>
    let! n := on_vfs (vfs_lookup p) in
    let! k := st_get in
    match n with
    | None => st_ret (- ENOENT)
    | Some n =>
        if negb (vfs_is_dir (k_vfs k) n) then st_ret (- ENOTDIR)
        else if negb (vfs_child_count (k_vfs k) n =? 0) then st_ret (- ENOTEMPTY)
        else
          let! rr := on_vfs (vfs_rmdir p) in
          st_ret (if rr =? -2 then - ENOTEMPTY else if negb (rr =? 0) then - EIO else 0)
    end).

(** The target of a rename to the directory [an]: its own last name below it;
    [None] when it gets too long. *)
Definition into_dir (an : cstr) : option cstr :=
  let base := base_name an in
  let target := take (Z.to_nat (PATH_CAP - 1)) an in
  let n := Z.of_nat (length target) in
  let target := if (1 <? n) && (hd 0 (rev target) =? SLASH) then removelast target else target in
  let n := Z.of_nat (length target) in
  if PATH_CAP <=? n + 1 then None
  else
    let target := if 1 <? n then target ++ [SLASH] else target in
    Some (take (Z.to_nat (PATH_CAP - 1)) (target ++ base)).

Definition sys_rename (oldpath newpath : Z) : ST kernel Z :=
  on_two_paths oldpath newpath (fun ao an =>
    let! src := on_vfs (vfs_lookup ao) in
    if negb (is_some src) then st_ret (- ENOENT)
    else
      let! parent := on_vfs (vfs_lookup an) in
      let! k := st_get in
      let an := match parent with
                | Some d => if vfs_is_dir (k_vfs k) d then into_dir an else Some an
                | None => Some an
                end in
      match an with
      | None => st_ret (- ENAMETOOLONG)
      | Some an => let! r := on_vfs (vfs_rename ao an) in st_ret (if r =? 0 then 0 else - EIO)
      end).

(** ** Paths relative to a directory *)

Definition AT_FDCWD : Z := -100.

(** The error, or the path given and the path resolved. *)
Definition resolve_at_path (k : kernel) (dirfd upath : Z) : Z + cstr * cstr :=
  match user_copy_cstr k upath PATH_CAP with
  | (0, raw) =>
      if is_nil raw then inl (- ENOENT)
      else if (hd 0 raw =? SLASH) || (dirfd =? AT_FDCWD) then
        match resolve_process_path k raw PATH_CAP with inl e => inl e | inr p => inr (raw, p) end
      else if bad_fd k dirfd then inl (- EBADF)
      else
        let d := file k dirfd in
        match f_vnode d with
        | None => inl (- ENOTDIR)
        | Some vn =>
            if negb (vfs_is_dir (k_vfs k) vn) then inl (- ENOTDIR)
            else
              let base := f_boot_path d in
              if is_nil base then inl (- ENOENT)
              else if 256 <=? Z.of_nat (length base) then inl (- ENAMETOOLONG)
              else
                let joined := if (1 <? Z.of_nat (length base)) && negb (hd 0 (rev base) =? SLASH) then base ++ [SLASH] else base in
                if 256 <=? Z.of_nat (length joined + length raw) then inl (- ENAMETOOLONG)
                else match normalize_abs_path (joined ++ raw) PATH_CAP with inl e => inl e | inr p => inr (raw, p) end
        end
  | _ => inl (- EFAULT)
  end.

Definition on_path_at (dirfd path : Z) (call : cstr -> ST kernel Z) : ST kernel Z :=
  let! k := st_get in
  match resolve_at_path k dirfd path with inl e => st_ret e | inr (_, p) => call p end.

Definition sys_openat (dirfd path flags : Z) : ST kernel Z :=
  on_path_at dirfd path (fun p => sys_open_resolved bootfs_file_size cpuid graphics_fb_size p flags).

(** An empty path with AT_EMPTY_PATH is the descriptor itself. *)
Definition sys_newfstatat (dirfd path st flags : Z) : ST kernel Z :=
  let! k := st_get in
  match user_copy_cstr k path PATH_CAP with
  | (0, raw) =>
      if is_nil raw && has flags 0x1000 then sys_fstat dirfd st
      else on_path_at dirfd path (fun p => sys_stat_resolved p st)
  | _ => st_ret (- EFAULT)
  end.

Definition sys_faccessat (dirfd path mode : Z) : ST kernel Z := on_path_at dirfd path (fun p => sys_access_resolved p mode).
Definition sys_readlinkat (dirfd path buf size : Z) : ST kernel Z := on_path_at dirfd path (fun p => sys_readlink_resolved p buf size).

(** ** Modes and owners *)

Definition chmod_mode_supported (mode : Z) : bool := negb (has mode 0xFFFFF000).
Definition exists_or_enoent (p : cstr) : ST kernel Z := let! e := resolved_path_exists p in st_ret (if e then 0 else - ENOENT).

Definition sys_chmod (path mode : Z) : ST kernel Z :=
  if negb (chmod_mode_supported mode) then st_ret (- EINVAL) else on_path path exists_or_enoent.
Definition fd_or_ebadf (fd : Z) : ST kernel Z := let! k := st_get in st_ret (if bad_fd k fd then - EBADF else 0).
Definition sys_fchmod (fd mode : Z) : ST kernel Z :=
  if negb (chmod_mode_supported mode) then st_ret (- EINVAL) else fd_or_ebadf fd.
Definition sys_fchmodat (dirfd path mode : Z) : ST kernel Z :=
  if negb (chmod_mode_supported mode) then st_ret (- EINVAL) else on_path_at dirfd path exists_or_enoent.

Definition ownership_ids_supported (uid gid : Z) : bool := ((uid =? 0) || (uid =? UINT32_MAX)) && ((gid =? 0) || (gid =? UINT32_MAX)).

Definition sys_fchown (fd uid gid : Z) : ST kernel Z :=
  if negb (ownership_ids_supported uid gid) then st_ret (- EPERM) else fd_or_ebadf fd.
Definition sys_fchownat (dirfd path uid gid flags : Z) : ST kernel Z :=
  if negb (ownership_ids_supported uid gid) then st_ret (- EPERM)
  else if negb (Z.land flags (Z.lnot 0x1100) =? 0) then st_ret (- EINVAL)
  else
    let! k := st_get in
    match user_copy_cstr k path PATH_CAP with
    | (0, raw) => if is_nil raw && has flags 0x1000 then sys_fchown dirfd uid gid else on_path_at dirfd path exists_or_enoent
    | _ => st_ret (- EFAULT)
    end.
Definition sys_chown (path uid gid : Z) : ST kernel Z := sys_fchownat AT_FDCWD path uid gid 0.
Definition sys_lchown : Z -> Z -> Z -> ST kernel Z := sys_chown.
End Bootfs.
