(* ===== verification/FileIo.v ===== *)
(** * Reading and writing descriptors

    The branches of read and write for files, the console and the other
    devices, the two calls as a whole, and the calls that move the position of
    a file ([src/kernel/main.c]).  The bytes of a boot file (bootfs_read_root_file,
    main.rs) are a parameter; what the console shows is not modelled. *)

From Stdlib Require Import String.
From S2P Require Import Prelude Words Pmm Vmm CStr Vfs Kernel Tty Fd Sched UserCopy Signals Pipe PtyIo Socket Events Poll Mmap Input Pseudo Paths.
Local Open Scope Z_scope.
Local Open Scope st_scope.

Definition ESPIPE : Z := 29.
Definition INT64_MAX : Z := 2 ^ 63 - 1.
Definition INT64_MIN : Z := - 2 ^ 63.

(** The vnode of a descriptor, where it is a regular file. *)
Definition regular_vnode (k : kernel) (f : file_desc) : option Z :=
  match f_vnode f with Some v => if vfs_file_is_regular (k_vfs k) v then Some v else None | None => None end.

(** [fd] is not an open descriptor. *)
Definition closed_fd (k : kernel) (fd : Z) : bool := (fd <? 0) || (MAX_FILES <=? fd) || negb (f_in_use (file k fd)).

(** ** Regular files *)

(** The loop of the write: [inl] when it returns from within, [inr] with the
    position and the bytes written when it ends. *)
Fixpoint file_write_loop (fuel : nat) (vn : Z) (append : bool) (buf count off done : Z) : ST kernel (Z + Z * Z) :=
  if count <=? done then st_ret (inr (off, done))
  else
    match fuel with
    | O => st_ret (inr (off, done))
    | S fuel =>
        let n := Z.min (count - done) TMP_SIZE in
        let! k := st_get in
        match user_copy_from k (u64 (buf + done)) n with
        | None => st_ret (inl (if negb (done =? 0) then done else - EFAULT))
        | Some tmp =>
            let off := if append then vfs_file_size (k_vfs k) vn else off in
            let! w := on_vfs (vfs_file_write vn off (Some tmp) n) in
            if w <? 0 then st_ret (inl (if negb (done =? 0) then done else w))
            else if w <? n then st_ret (inr (u64 (off + w), done + w))
            else file_write_loop fuel vn append buf count (u64 (off + w)) (done + w)
        end
    end.

(** The FD_FILE branch of sys_write; [t] is the current table. *)
Definition file_write (t fd buf count : Z) : ST kernel Z :=
  let! k := st_get in
  let f := fdesc k t fd in
  match regular_vnode k f with
  | None => st_ret (- EBADF)
  | Some vn =>
      if Z.land (f_flags f) 3 =? 0 then st_ret (- EBADF)
      else
        let! r := file_write_loop (Z.to_nat count) vn (has (f_flags f) O_APPEND) buf count (fd_offset_get k t fd) 0 in
        match r with
        | inl r => st_ret r
        | inr (off, done) =>
            fd_offset_set t fd off ;;;
            st_mod (fun k => upd_fdesc t fd (fun f => f <| f_size := vfs_file_size (k_vfs k) vn |>) k) ;;;
            st_ret done
        end
  end.

Section Files.
Variable bootfs_read_root_file : cstr -> Z -> Z -> list Z.

(** The loop over chunks of a boot file: the bytes read, or the result when it
    returns from within. *)
Fixpoint boot_read_loop (fuel : nat) (bp : cstr) (pos buf want done : Z) : ST kernel (Z + Z) :=
  if want <=? done then st_ret (inr done)
  else
    match fuel with
    | O => st_ret (inr done)
    | S fuel =>
        let n := Z.min (want - done) 4096 in
        let l := bootfs_read_root_file bp (pos + done) n in
        let got := Z.of_nat (length l) in
        if got =? 0 then st_ret (inl (if negb (done =? 0) then done else - EIO))
        else
          let! r := user_copy_to (u64 (buf + done)) l in
          if negb (r =? 0) then st_ret (inl (if negb (done =? 0) then done else - EFAULT))
          else if negb (got =? n) then st_ret (inr (done + got))
          else boot_read_loop fuel bp pos buf want (done + got)
    end.

(** The data of a file that is not a boot file: its size and where it is. *)
Definition file_data (k : kernel) (f : file_desc) : Z * option data_ptr :=
  match regular_vnode k f with
  | Some v => (vfs_file_size (k_vfs k) v, option_map DSlot (vfs_file_data (k_vfs k) v))
  | None => (f_size f, f_data f)
  end.

(** Nothing is copied when there is no data; the result of the copy. *)
Definition copy_data (buf : Z) (p : option data_ptr) (pos n : Z) : ST kernel Z :=
  let! k := st_get in
  match p with
  | Some p => if n =? 0 then st_ret 0 else user_copy_to buf (ptr_bytes k p pos n)
  | None => st_ret 0
  end.

(** The FD_FILE branch of sys_read. *)
Definition file_read (t fd buf count : Z) : ST kernel Z :=
  let! k := st_get in
  let f := fdesc k t fd in
  let cur := fd_offset_get k t fd in
  if fd_uses_bootfs k t fd then
    let size := match f_vnode f with Some v => vfs_file_size (k_vfs k) v | None => f_size f end in
    match fd_bootfs_path k f with
    | None => st_ret (- EIO)
    | Some bp =>
        if size <=? cur then st_ret 0
        else
          let! r := boot_read_loop (Z.to_nat count) bp cur buf (if count <? size - cur then count else size - cur) 0 in
          match r with
          | inl r => st_ret r
          | inr done => fd_offset_set t fd (cur + done) ;;; st_ret done
          end
    end
  else
    let '(size, data) := file_data k f in
    let avail := if cur <? size then size - cur else 0 in
    let n := if count <? avail then count else avail in
    let! r := copy_data buf data cur n in
    if negb (r =? 0) then st_ret (- EFAULT)
    else fd_offset_set t fd (cur + n) ;;; st_mod (upd_fdesc t fd (fun f => f <| f_size := size |>)) ;;; st_ret n.

Definition sys_pread64 (fd buf count off : Z) : ST kernel Z :=
  let! k := st_get in
  let t := current_files k in
  let f := file k fd in
  if closed_fd k fd then st_ret (- EBADF)
  else if negb (f_type f =? FD_FILE) then st_ret (- ESPIPE)
  else if fd_uses_bootfs k t fd then
    match fd_bootfs_path k f with
    | None => st_ret (- EIO)
    | Some bp =>
        if f_size f <=? off then st_ret 0
        else
          let! r := boot_read_loop (Z.to_nat count) bp off buf (if count <? f_size f - off then count else f_size f - off) 0 in
          match r with inl r => st_ret r | inr done => st_ret done end
    end
  else
    let '(size, data) := file_data k f in
    if size <=? off then st_ret 0
    else
      let n := if count <? size - off then count else size - off in
      let! r := copy_data buf data off n in
      st_ret (if negb (r =? 0) then - EFAULT else n).

Definition sys_lseek (fd off whence : Z) : ST kernel Z :=
  let! k := st_get in
  if closed_fd k fd then st_ret (- EBADF)
  else
    let t := current_files k in
    let f := file k fd in
    if negb (f_type f =? FD_FILE) then st_ret (- ESPIPE)
    else
      let cur := fd_offset_get k t fd in
      let size := match f_vnode f with Some v => vfs_file_size (k_vfs k) v | None => f_size f end in
      let base := if whence =? 0 then 0 else if whence =? 1 then s64 cur else if whence =? 2 then s64 size else INT64_MIN in
      if base =? INT64_MIN then st_ret (- EINVAL)
      else if ((0 <? off) && (INT64_MAX - off <? base)) || ((off <? 0) && (base <? INT64_MIN - off)) then st_ret (- EINVAL)
      else
        let n := base + off in
        if n <? 0 then st_ret (- EINVAL) else fd_offset_set t fd n ;;; st_ret n.

Definition sys_ftruncate (fd len : Z) : ST kernel Z :=
  let! k := st_get in
  if closed_fd k fd then st_ret (- EBADF)
  else if negb (f_type (file k fd) =? FD_FILE) then st_ret (- ESPIPE)
  else
    match regular_vnode k (file k fd) with
    | None => st_ret (- EINVAL)
    | Some v =>
        let! r := on_vfs (vfs_file_truncate v len) in
        if negb (r =? 0) then st_ret (- EINVAL) else upd_file fd (fun f => f <| f_size := len |>) ;;; st_ret 0
    end.

(** ** The console *)

Definition ESC_KEYS : list (Z * cstr) :=
  [(0x80, cs "[A"); (0x81, cs "[B"); (0x82, cs "[D"); (0x83, cs "[C"); (0x85, cs "[H"); (0x86, cs "[F");
   (0x87, cs "[3~"); (0x88, cs "[5~"); (0x89, cs "[6~"); (0x8A, cs "[2~")]%string.

(** The characters of the scancodes below 58; 0 for none. *)
Definition normal_keys : list Z :=
  [0; 27] ++ cs "1234567890-="%string ++ [8; 9] ++ cs "qwertyuiop[]"%string ++ [13; 0] ++ cs "asdfghjkl;'`"%string ++ [0; 92] ++
  cs "zxcvbnm,./"%string ++ [0; 42; 0; 32].
Definition shifted_keys : list Z :=
  [0; 27] ++ cs "!@#$%^&*()_+"%string ++ [8; 9] ++ cs "QWERTYUIOP{}"%string ++ [10; 0] ++ cs "ASDFGHJKL:"%string ++ [34; 126] ++ [0; 124] ++
  cs "ZXCVBNM<>?"%string ++ [0; 42; 0; 32].

Definition is_alpha_key (sc : Z) : bool :=
  ((0x10 <=? sc) && (sc <=? 0x19)) || ((0x1e <=? sc) && (sc <=? 0x26)) || ((0x2c <=? sc) && (sc <=? 0x32)).

(** The character of a key of the queue, before the settings of the terminal apply. *)
Definition key_char (i : input_state) (foreground_app : bool) (sc : Z) : Z :=
  if foreground_app && (sc =? 0x0E) then 127
  else if sc <? 58 then
    let use_shift := xorb (in_shift i) (is_alpha_key sc && in_caps_lock i) in
    nth (Z.to_nat sc) (if use_shift then shifted_keys else normal_keys) 0
  else 0.

(** Carriage return and line feed by the input flags. *)
Definition input_char (iflag ch : Z) : Z :=
  if ch =? CH_CR then if has iflag IGNCR then 0 else if has iflag ICRNL then CH_NL else CH_CR
  else if (ch =? CH_NL) && has iflag INLCR then CH_CR
  else ch.

Definition put_byte (buf ch : Z) : ST kernel Z := let! r := user_copy_to buf [ch] in st_ret (if r =? 0 then 1 else - EFAULT).

Definition console_foreground_app (k : kernel) : bool :=
  foreground_job k && (t_pgrp (task k (k_current k)) =? k_console_fg_pgrp k).

(** The byte a key gives to the reader. *)
Definition tty_key (buf sc : Z) : ST kernel Z :=
  let! k := st_get in
  let app := console_foreground_app k in
  if (0xA0 <=? sc) && (sc <=? 0xB9) then put_byte buf (sc - 0xA0 + 1)
  else if ((0x80 <=? sc) && (sc <=? 0x83)) || ((0x85 <=? sc) && (sc <=? 0x8A)) then
    if negb app then put_byte buf sc
    else
      let seq := match find (fun p => fst p =? sc) ESC_KEYS with Some (_, s) => s | None => cs "["%string end in
      upd_input (fun i => i <| in_pending_bytes := foldl (fun m j => <[j := nth (Z.to_nat j) seq 0]> m) (in_pending_bytes i) [0; 1; 2] |>
        <| in_pending_pos := 0 |> <| in_pending_len := Z.of_nat (length seq) |>
        <| in_pending_pid := if task_ok (k_current k) then t_pid (task k (k_current k)) else -1 |>) ;;;
      put_byte buf 27
  else
    let ch := if sc =? 0x84 then 3 else key_char (k_input k) app sc in
    let t := k_console_termios k in
    if (sc =? 0x84) && ((has (tty_lflag t) ISIG && (ch =? tty_cc t VINTR)) || foreground_job k) then
      console_tty_pgrp_signal SIGINT ;;; st_ret (- EAGAIN)
    else
      let ch := input_char (tty_iflag t) ch in
      if ch =? 0 then st_ret (- EAGAIN)
      else let! r := put_byte buf ch in st_ret (if r =? 1 then 1 else - EAGAIN).

Definition drop_pending (i : input_state) : input_state := i <| in_pending_pos := 0 |> <| in_pending_len := 0 |> <| in_pending_pid := -1 |>.

Section Irq.
Variable kernel_wait_tick : kernel -> kernel.

(** The DEV_TTY branch of sys_read; [flags] of the descriptor. *)
Definition tty_read (fuel : nat) (f : regs) (flags buf count : Z) (k : kernel) : option (Z * kernel) :=
  if count =? 0 then Some (0, k)
  else
    let this_pid := if task_ok (k_current k) then t_pid (task k (k_current k)) else -1 in
    let i := k_input k in
    let pending := in_pending_pos i <? in_pending_len i in
    if pending && (in_pending_pid i =? this_pid) then
      let i' := i <| in_pending_pos := in_pending_pos i + 1 |> in
      let i' := if in_pending_len i <=? in_pending_pos i + 1 then drop_pending i' else i' in
      Some (put_byte buf (arr (in_pending_bytes i) (in_pending_pos i)) (k <| k_input := i' |>))
    else
      let k := if pending then k <| k_input := drop_pending i |> else k in
      if in_key_head (k_input k) =? in_key_tail (k_input k) then
        if has flags O_NONBLOCK then Some (- EAGAIN, k)
        else
          match task_block_io kernel_wait_tick fuel f IO_WAIT_TTY 0 k with
          | None => None
          | Some (r, k) => Some (if r =? 0 then 0 else - EAGAIN, k)
          end
      else Some ((let! sc := get_key in tty_key buf sc) k).

(** ** Other devices *)

(** [count] bytes in pieces of [size], made by [make]. *)
Fixpoint fill_user (fuel : nat) (size : Z) (make : Z -> ST kernel (list Z)) (buf count done : Z) : ST kernel Z :=
  if count <=? done then st_ret count
  else
    match fuel with
    | O => st_ret count
    | S fuel =>
        let n := Z.min (count - done) size in
        let! l := make n in
        let! r := user_copy_to (u64 (buf + done)) l in
        if negb (r =? 0) then st_ret (- EFAULT) else fill_user fuel size make buf count (done + n)
    end.

Definition zero_read (buf count : Z) : ST kernel Z := fill_user (Z.to_nat count) 128 (fun n => st_ret (repeat 0 (Z.to_nat n))) buf count 0.

(** One step of the generator of /dev/random and getrandom. *)
Definition xorshift (s : Z) : Z :=
  let s := Z.lxor s (u32 (Z.shiftl s 13)) in
  let s := Z.lxor s (Z.shiftr s 17) in
  Z.lxor s (u32 (Z.shiftl s 5)).

Fixpoint random_bytes (n : nat) : ST kernel (list Z) :=
  match n with
  | O => st_ret []
  | S n =>
      st_mod (fun k => k <| k_rand_state := xorshift (k_rand_state k) |>) ;;;
      let! k := st_get in
      let! l := random_bytes n in
      st_ret (Z.land (k_rand_state k) 0xFF :: l)
  end.

Definition random_read (buf count : Z) : ST kernel Z := fill_user (Z.to_nat count) 64 (fun n => random_bytes (Z.to_nat n)) buf count 0.

Definition sys_getrandom (buf len : Z) : ST kernel Z := if 0x100000 <? len then st_ret (- EINVAL) else random_read buf len.

Variable cpuid : Z -> Z -> Z * Z * Z * Z.

(** The file of /proc whose text a read makes again, by the first letters of its name. *)
Definition proc_path (name : cstr) : option cstr :=
  let starts s := eq (take 2 name) (cs s) in
  if starts "cp"%string then Some (cs "/proc/cpuinfo"%string)
  else if starts "me"%string then Some (cs "/proc/meminfo"%string)
  else if starts "up"%string then Some (cs "/proc/uptime"%string)
  else if starts "ve"%string then Some (cs "/proc/version"%string)
  else None.

Definition proc_refresh (t fd : Z) : ST kernel unit :=
  let! k := st_get in
  let f := fdesc k t fd in
  match f_vnode f, f_data f with
  | Some v, Some (DPseudoBuf b) =>
      match proc_path (vfs_node_name (k_vfs k) v) with
      | Some p =>
          let! text := pseudo_make_proc cpuid 4096 p in
          st_mod (pseudo_store b p text) ;;;
          st_mod (upd_fdesc t fd (fun f => f <| f_size := Z.of_nat (length text) |>))
      | None => st_ret tt
      end
  | _, _ => st_ret tt
  end.

(** The end of the FD_PSEUDO branch.  A device without data, the framebuffer,
    is copied from address 0: [None], the kernel faults. *)
Definition pseudo_read (t fd kind buf count : Z) (k : kernel) : option (Z * kernel) :=
  let k := if kind =? PSEUDO_PROC_FILE then exec (proc_refresh t fd) k else k in
  let f := fdesc k t fd in
  let cur := fd_offset_get k t fd in
  let avail := if cur <? f_size f then f_size f - cur else 0 in
  let n := if count <? avail then count else avail in
  match f_data f with
  | None => if n =? 0 then Some ((fd_offset_set t fd (cur + n) ;;; st_ret n) k) else None
  | Some p =>
      Some ((let! r := if n =? 0 then st_ret 0 else user_copy_to buf (ptr_bytes k p cur n) in
             if negb (r =? 0) then st_ret (- EFAULT) else fd_offset_set t fd (cur + n) ;;; st_ret n) k)
  end.

Definition device_read (fuel : nat) (f : regs) (fd kind buf count : Z) (k : kernel) : option (Z * kernel) :=
  let t := current_files k in
  if kind =? DEV_NULL then Some (0, k)
  else if kind =? DEV_INPUT then evdev_read kernel_wait_tick fuel f fd false buf count k
  else if kind =? DEV_INPUT_MOUSE then evdev_read kernel_wait_tick fuel f fd true buf count k
  else if kind =? DEV_TTY then tty_read fuel f (f_flags (fdesc k t fd)) buf count k
  else if kind =? DEV_CONSOLE then Some (0, k)
  else if kind =? DEV_ZERO then Some (zero_read buf count k)
  else if (kind =? DEV_RANDOM) || (kind =? DEV_URANDOM) then Some (random_read buf count k)
  else pseudo_read t fd kind buf count k.

(** ** read *)

(** The seconds and nanoseconds rtc_now reads from the real-time clock. *)
Variable rtc_now : Z * Z.

(** The objects behind descriptors; a terminal without one is refused, a
    device is the number in private_data. *)
Definition pty_of (f : file_desc) : option Z := match f_private f with PPty i => Some i | _ => None end.
Definition device_of (f : file_desc) : Z := match f_private f with PDev kind => kind | _ => 0 end.

(** [None] for a null pointer to the object. *)
Definition on_object {A} (o : option Z) (c : Z -> option A) : option A := match o with Some i => c i | None => None end.

Definition sys_read (fuel : nat) (sf : regs) (fd buf count : Z) (k : kernel) : option (Z * kernel) :=
  let t := current_files k in
  let f := file k fd in
  let type := f_type f in
  if closed_fd k fd then Some (- EBADF, k)
  else if type =? FD_SOCKET then sys_recvfrom kernel_wait_tick fuel sf fd buf (s32 count) 0 k
  else if (buf =? 0) && negb (count =? 0) then Some (- EINVAL, k)
  else if negb (count =? 0) && negb (user_range_ok k buf count true) then Some (- EFAULT, k)
  else if (type =? FD_PTY_MASTER) || (type =? FD_PTY_SLAVE) then
    match pty_of f with
    | None => Some (- EIO, k)
    | Some i => sys_read_pty kernel_wait_tick fuel sf i (f_flags f) (type =? FD_PTY_MASTER) buf count k
    end
  else if type =? FD_PSEUDO then device_read fuel sf fd (device_of f) buf count k
  else if type =? FD_EVENTFD then on_object (match f_private f with PEventfd i => Some i | _ => None end) (fun i => Some (eventfd_read i buf count k))
  else if type =? FD_TIMERFD then
    on_object (match f_private f with PTimerfd i => Some i | _ => None end) (fun i => Some (timerfd_read rtc_now i buf count k))
  else if type =? FD_PIPE_R then on_object (match f_private f with PPipe i => Some i | _ => None end) (fun i => Some (pipe_read i buf count k))
  else if negb (type =? FD_FILE) then Some (- EBADF, k)
  else Some (file_read t fd buf count k).

(** ** write *)

(** The pages of the buffer: all can be read by the user. *)
Fixpoint console_pages (fuel : nat) (m : machine) (va rem : Z) : bool :=
  if rem <=? 0 then true
  else
    match fuel with
    | O => true
    | S fuel =>
        let n := Z.min (PAGE_SIZE - Z.land va (PAGE_SIZE - 1)) rem in
        match vmm_user_translate m (Z.land va PAGE_MASK) with
        | Some (_, pte) => has pte PTE_U && console_pages fuel m (u64 (va + n)) (rem - n)
        | None => false
        end
    end.

(** What is written to the console is shown. *)
Definition console_write (k : kernel) (buf count : Z) : Z := if console_pages (Z.to_nat count) (k_vm k) buf count then count else - EFAULT.

Definition device_write (kind buf count : Z) : ST kernel Z :=
  let! k := st_get in
  if kind =? DEV_NULL then st_ret count
  else if (kind =? DEV_CONSOLE) || (kind =? DEV_TTY) then st_ret (console_write k buf count)
  else st_ret (- EBADF).

Definition sys_write (fuel : nat) (sf : regs) (fd buf count : Z) (k : kernel) : option (Z * kernel) :=
  let t := current_files k in
  let f := file k fd in
  let type := f_type f in
  if negb (closed_fd k fd) && (type =? FD_SOCKET) then sys_sendto kernel_wait_tick fuel sf fd buf (s32 count) 1 k
  else if (fd <? 0) || (MAX_FILES <=? fd) then Some (- EBADF, k)
  else if (0x100000 <? count) || ((buf =? 0) && negb (count =? 0)) then Some (- EINVAL, k)
  else if count =? 0 then Some (0, k)
  else if negb (user_range_ok k buf count false) then Some (- EFAULT, k)
  else if ((fd =? 1) || (fd =? 2)) && fd_is_console_stream k fd then Some (console_write k buf count, k)
  else if closed_fd k fd then Some (- EBADF, k)
  else if (type =? FD_PTY_MASTER) || (type =? FD_PTY_SLAVE) then
    match pty_of f with
    | None => Some (- EIO, k)
    | Some i => Some (sys_write_pty i (type =? FD_PTY_MASTER) buf count k)
    end
  else if type =? FD_PSEUDO then Some (device_write (device_of f) buf count k)
  else if type =? FD_EVENTFD then on_object (match f_private f with PEventfd i => Some i | _ => None end) (fun i => Some (eventfd_write i buf count k))
  else if type =? FD_TIMERFD then Some (- EINVAL, k)
  else if type =? FD_PIPE_W then on_object (match f_private f with PPipe i => Some i | _ => None end) (fun i => Some (pipe_write i (f_flags f) buf count k))
  else if negb (type =? FD_FILE) then Some (- EBADF, k)
  else Some (file_write t fd buf count k).

(** ** readv and writev *)

(** The entry [i] of the vector. *)
Definition iovec_at (k : kernel) (uiov i : Z) : option (Z * Z) :=
  match user_copy_from k (u64 (uiov + 16 * i)) 16 with
  | Some l => Some (bytes_word (take 8 l), bytes_word (drop 8 l))
  | None => None
  end.

(** The loop over the entries: [io base len total] transfers one. *)
Fixpoint iovec_loop (todo : nat) (io : Z -> Z -> Z -> kernel -> option (Z * kernel)) (uiov i total : Z) (k : kernel) : option (Z * kernel) :=
  match todo with
  | O => Some (total, k)
  | S todo =>
      match iovec_at k uiov i with
      | None => Some (- EFAULT, k)
      | Some (base, len) =>
          match io base len total k with
          | None => None
          | Some (n, k) =>
              if n <? 0 then Some (if negb (total =? 0) then total else n, k)
              else if n <? len then Some (total + n, k)
              else iovec_loop todo io uiov (i + 1) (total + n) k
          end
      end
  end.

(** The first entry of a readv may wait for a pipe. *)
Definition readv_io (fuel : nat) (sf : regs) (fd base len total : Z) (k : kernel) : option (Z * kernel) :=
  let f := file k fd in
  match f_private f with
  | PPipe i =>
      if negb (closed_fd k fd) && (f_type f =? FD_PIPE_R) && negb (len =? 0) && (pi_count (pipe k i) =? 0) && negb (pi_writers (pipe k i) =? 0) &&
         negb (has (f_flags f) O_NONBLOCK) && (total =? 0)
      then Some (sys_pipe_read_dispatch sf fd i (f_flags f) base len k)
      else sys_read fuel sf fd base len k
  | _ => sys_read fuel sf fd base len k
  end.

Definition sys_readv (fuel : nat) (sf : regs) (fd uiov cnt : Z) (k : kernel) : option (Z * kernel) :=
  if (cnt <? 0) || (1024 <? cnt) then Some (- EINVAL, k) else iovec_loop (Z.to_nat cnt) (readv_io fuel sf fd) uiov 0 0 k.

Definition sys_writev (fuel : nat) (sf : regs) (fd uiov cnt : Z) (k : kernel) : option (Z * kernel) :=
  if (cnt <? 0) || (1024 <? cnt) then Some (- EINVAL, k)
  else iovec_loop (Z.to_nat cnt) (fun base len _ => sys_write fuel sf fd base len) uiov 0 0 k.
End Irq.
End Files.

(** ** pipe2 *)

(** The flags of both ends are set after the pair was stored, as found there. *)
Definition sys_pipe2 (fds flags : Z) : ST kernel Z :=
  let! r := sys_pipe fds in
  if r <? 0 then st_ret r
  else
    let! k := st_get in
    match user_copy_from k fds 4, user_copy_from k (u64 (fds + 4)) 4 with
    | Some a, Some b =>
        let set bit fd := upd_file (s32 (bytes_word fd)) (fun f => f <| f_flags := Z.lor (f_flags f) bit |>) in
        (if has flags 0x800 then set 0x800 a ;;; set 0x800 b else st_ret tt) ;;;
        (if has flags 0x80000 then set 0x80000 a ;;; set 0x80000 b else st_ret tt) ;;;
        st_ret 0
    | _, _ => st_ret (- EFAULT)
    end.
