(* ===== verification/FileFacts.v ===== *)
(** * What reads and writes of files do

    A write goes to the file in pieces of 256 bytes; together they are one
    write of what fits. *)

From S2P Require Import Prelude Words Pmm PmmFacts PageAlloc Vmm VmmFacts VmmMap CStr Vfs VfsFacts VfsOps VfsSafe VfsThms.
From S2P Require Import Kernel Tty Fd Sched UserCopy UserMem UserMemThms Signals SignalFacts Pipe Poll PollFacts Mmap Paths FileIo.
Local Open Scope Z_scope.
Local Open Scope st_scope.

(** ** Parts of a copy from user space *)

Lemma copy_from_part k src len l i n : is_u64 src -> src + len <= 2 ^ 64 -> 0 <= len -> user_copy_from k src len = Some l ->
  0 <= i -> 0 <= n -> i + n <= len -> user_copy_from k (u64 (src + i)) n = Some (take (Z.to_nat n) (drop (Z.to_nat i) l)).
Proof.
  intros Hs Ht Hl. unfold user_copy_from. rewrite user_copy_from_reads by done. destruct (syscall_cr3 k =? 0) eqn:Ecr; [done|].
  intros E Hi Hn Hin. rewrite user_copy_from_reads, Ecr by (apply u64_range || lia). apply mapM_Some in E. apply mapM_Some. pose proof (Forall2_length _ _ _ E) as Hlen. rewrite length_seqZ in Hlen.
  apply Forall2_same_length_lookup. split; [rewrite length_seqZ, length_take, length_drop; lia|]. intros j x b Hx Hb.
  apply lookup_seqZ in Hx as [-> Hj]. apply lookup_take_Some in Hb as [Hb Hj']. rewrite lookup_drop in Hb.
  rewrite Forall2_same_length_lookup in E. destruct E as [_ E]. specialize (E (Z.to_nat i + j)%nat (0 + Z.of_nat (Z.to_nat i + j)) b).
  rewrite <- E; [|by apply lookup_seqZ; split; [|lia] | done]. f_equal. unfold u64. rewrite Zplus_mod_idemp_l. f_equal. lia.
Qed.

Lemma copied_length k src len l : is_u64 src -> 0 <= len -> user_copy_from k src len = Some l -> Z.of_nat (length l) = len.
Proof.
  intros Hs Hl. unfold user_copy_from. rewrite user_copy_from_reads by done. destruct (_ =? 0); [done|]. intros E%mapM_Some%Forall2_length.
  rewrite length_seqZ in E. lia.
Qed.

(** ** Writes to the file system *)

(** [l] was written at [off]: the file is [l] there and as before elsewhere. *)
Record wrote (s s' : vfs) (n off : Z) (l : list Z) : Prop := {
  wr_ok : vfs_ok s';
  wr_file : is_file s' n;
  wr_cap : file_cap s' n = file_cap s n;
  wr_size : vfs_file_size s' n = if is_nil l then vfs_file_size s n else Z.max (vfs_file_size s n) (off + Z.of_nat (length l));
  wr_bytes : forall i, file_byte s' n i =
    if (off <=? i) && (i <? off + Z.of_nat (length l)) then default 0 (l !! Z.to_nat (i - off)) else file_byte s n i
}.

Lemma wrote_nothing s n off : vfs_ok s -> is_file s n -> wrote s s n off [].
Proof. intros Hs Hn. split; try done. intros i. cbn [length]. destruct (Z.leb_spec off i), (Z.ltb_spec i (off + Z.of_nat 0)); try lia; done. Qed.

Lemma wrote_app s s1 s2 n off l1 l2 : wrote s s1 n off l1 -> wrote s1 s2 n (off + Z.of_nat (length l1)) l2 -> wrote s s2 n off (l1 ++ l2).
Proof.
  intros [O1 F1 C1 S1 B1] [O2 F2 C2 S2 B2]. split; try done; [congruence | |].
  - rewrite S2, S1. destruct l1 as [|x l1], l2 as [|y l2]; cbn [is_nil app length]; rewrite ?length_app; cbn [length]; lia.
  - intros i. rewrite B2, B1, length_app. destruct (Z.leb_spec off i), (Z.leb_spec (off + Z.of_nat (length l1)) i), (Z.ltb_spec i (off + Z.of_nat (length l1))); cbn [andb]; try lia.
    + destruct (Z.ltb_spec i (off + Z.of_nat (length l1) + Z.of_nat (length l2))), (Z.ltb_spec i (off + Z.of_nat (length l1 + length l2))); try lia; try reflexivity.
      rewrite lookup_app_r by lia. do 2 f_equal. lia.
    + destruct (Z.ltb_spec i (off + Z.of_nat (length l1 + length l2))); [|lia]. by rewrite lookup_app_l by lia.
Qed.

(** One piece. *)
Lemma write_piece s n off l : vfs_ok s -> is_file s n -> 0 <= off -> l <> [] ->
  let r := Z.min (Z.of_nat (length l)) (file_cap s n - off) in
  if file_cap s n <=? off then vfs_file_write n off (Some l) (Z.of_nat (length l)) s = (- ENOSPC, s)
  else exists s', vfs_file_write n off (Some l) (Z.of_nat (length l)) s = (r, s') /\ wrote s s' n off (take (Z.to_nat r) l).
Proof.
  intros Hs Hn Hoff Hne r. destruct (vfs_file_write n off (Some l) (Z.of_nat (length l)) s) as [x s'] eqn:E.
  assert (Hl : (0 < length l)%nat) by (destruct l; [done | cbn; lia]).
  destruct (file_write_spec s n off l x s' Hs Hn Hoff E) as [(Hc & -> & ->)|(Hc & Hx & Hz & Hb & _)].
  - by rewrite (proj2 (Z.leb_le _ _)).
  - rewrite (proj2 (Z.leb_gt _ _)) by done. exists s'. subst x. fold r in Hb, Hz |- *. split; [done|].
    pose proof (file_write_file s n off l n Hs Hn Hoff Hn) as (Hf & Hcap & _). rewrite E in Hf, Hcap. cbn [snd] in Hf, Hcap.
    destruct Hs as [K W]. pose proof (safe_write s K n off (Some l) (Z.of_nat (length l)) W (proj1 Hn) Hoff ltac:(lia)) as Hok. rewrite E in Hok. cbn [snd] in Hok.
    assert (Hr : Z.of_nat (length (take (Z.to_nat r) l)) = r) by (rewrite length_take; lia). split; try done.
    + rewrite Hz, Hr. destruct (take (Z.to_nat r) l) eqn:Et; [cbn in Hr; lia | done].
    + intros i. rewrite Hb, Hr. destruct (Z.leb_spec off i), (Z.ltb_spec i (off + r)); cbn [andb]; try done. by rewrite lookup_take_lt by lia.
Qed.

(** ** The loop of a write *)

(** Where a piece goes: to the end of the file when the descriptor appends. *)
Definition write_pos (s : vfs) (n : Z) (append : bool) (off : Z) : Z := if append then vfs_file_size s n else off.

(** How much more the file can hold from there. *)
Definition room_at (s : vfs) (n off : Z) : Z := Z.max 0 (file_cap s n - off).

(** The loop came to a file that is full with bytes left: it returns from
    within, and the position stays. *)
Definition stuck (room count : Z) : bool := (room <? count) && (room mod TMP_SIZE =? 0).

Lemma with_vfs k s : user_copy_from (k <| k_vfs := s |>) = user_copy_from k.
Proof. done. Qed.

Lemma write_loop_done vn append buf count fuel k off done l :
  let s := k_vfs k in let pos := write_pos s vn append off in let room := room_at s vn pos in let w := Z.min (Z.of_nat (length l)) room in
  l = [] -> count - done = Z.of_nat (length l) -> (append = false \/ l <> [] \/ off = pos) -> vfs_ok s -> is_file s vn ->
  exists s', file_write_loop fuel vn append buf count off done k =
    (if stuck room (Z.of_nat (length l)) then inl (if done + room =? 0 then - ENOSPC else done + room) else inr (pos + w, done + w), k <| k_vfs := s' |>) /\
    wrote s s' vn pos (take (Z.to_nat w) l).
Proof.
  intros s pos room w -> Hc Ha Hs Hn. cbn [length] in *. exists s. rewrite take_nil. split; [|by apply wrote_nothing].
  assert (Ew : w = 0) by (unfold w, room, room_at; lia). assert (Eo : off = pos) by (destruct Ha as [->|[?|?]]; done).
  assert (Est : stuck room (Z.of_nat 0) = false) by (unfold stuck, room, room_at; apply andb_false_iff; left; apply Z.ltb_ge; lia).
  rewrite Est, Ew, !Z.add_0_r, <- Eo. assert (Ek : k <| k_vfs := s |> = k) by (by destruct k). rewrite Ek.
  destruct fuel; cbn [file_write_loop]; by rewrite (proj2 (Z.leb_le _ _)) by lia.
Qed.

Lemma write_loop_spec vn append buf count fuel : forall k off done l,
  let s := k_vfs k in let pos := write_pos s vn append off in let room := room_at s vn pos in let w := Z.min (Z.of_nat (length l)) room in
  count - done = Z.of_nat (length l) -> (length l <= fuel)%nat -> (append = false \/ l <> [] \/ off = pos) ->
  (forall i n, 0 <= i -> 0 <= n -> i + n <= Z.of_nat (length l) -> user_copy_from k (u64 (buf + done + i)) n = Some (take (Z.to_nat n) (drop (Z.to_nat i) l))) ->
  vfs_ok s -> is_file s vn -> 0 <= pos -> pos + Z.of_nat (length l) < 2 ^ 64 -> 0 <= done ->
  exists s', file_write_loop fuel vn append buf count off done k =
    (if stuck room (Z.of_nat (length l)) then inl (if done + room =? 0 then - ENOSPC else done + room) else inr (pos + w, done + w), k <| k_vfs := s' |>) /\
    wrote s s' vn pos (take (Z.to_nat w) l).
Proof.
  induction fuel as [|fuel IH]; intros k off done l s pos room w Hc Hf Ha Hu Hs Hn Hp Ht Hd.
  { apply (write_loop_done vn append buf count 0 k off done l); try done. destruct l; [done | cbn in Hf; lia]. }
  destruct (decide (l = [])) as [Hl|Hne]; [by apply (write_loop_done vn append buf count (S fuel) k off done l)|].
  assert (Hpos : (0 < length l)%nat) by (destruct l; [done | cbn; lia]). cbn [file_write_loop]. rewrite (proj2 (Z.leb_gt _ _)) by lia.
  set (n := Z.min (count - done) TMP_SIZE). assert (Hn0 : 0 < n <= Z.of_nat (length l) /\ n <= 256) by (unfold n, TMP_SIZE; lia).
  rewrite bind_get. pose proof (Hu 0 n ltac:(lia) ltac:(lia) ltac:(lia)) as Hu0. rewrite Z.add_0_r in Hu0. change (drop (Z.to_nat 0) l) with l in Hu0. rewrite Hu0.
  set (l1 := take (Z.to_nat n) l). assert (Hl1 : Z.of_nat (length l1) = n) by (unfold l1; rewrite length_take; lia).
  assert (Hl1n : l1 <> []) by (intros E; rewrite E in Hl1; cbn in Hl1; lia). change (if append then vfs_file_size (k_vfs k) vn else off) with pos.
  pose proof (write_piece s vn pos l1 Hs Hn Hp Hl1n) as Hw. cbv zeta in Hw. rewrite Hl1 in Hw. cbv zeta. unfold st_bind at 1, on_vfs. fold s.
  destruct (Z.leb_spec (file_cap s vn) pos) as [Hfull|Hroom].
  - rewrite Hw. cbn [Z.ltb Z.compare Z.opp ENOSPC]. assert (Er : room = 0) by (unfold room, room_at; lia). exists s. assert (Ew : w = 0) by (unfold w; lia).
    rewrite Ew. split; [|by apply wrote_nothing]. assert (Est : stuck room (Z.of_nat (length l)) = true) by (unfold stuck; rewrite Er; apply andb_true_iff; split; [apply Z.ltb_lt; lia | done]).
    rewrite Est, Er, Z.add_0_r. unfold st_ret. by destruct (done =? 0).
  - destruct Hw as (s1 & Ew1 & W1). rewrite Ew1. assert (Er : room = file_cap s vn - pos) by (unfold room, room_at; lia). rewrite <- Er in *.
    rewrite (proj2 (Z.ltb_ge _ 0)) by lia. destruct (Z.ltb_spec (Z.min n room) n) as [Hlt|Hge].
    + assert (Ew : w = room) by (unfold w; lia). assert (Em : Z.min n room = room) by lia. rewrite Em in *. exists s1. rewrite Ew.
      assert (Est : stuck room (Z.of_nat (length l)) = false) by (unfold stuck, TMP_SIZE; rewrite Z.mod_small by lia; apply andb_false_iff; right; apply Z.eqb_neq; lia).
      rewrite Est, u64_small by lia. split; [done|]. unfold l1 in W1. rewrite take_take in W1. by replace (Z.to_nat room `min` Z.to_nat n)%nat with (Z.to_nat room) in W1 by lia.
    + assert (Em : Z.min n room = n) by lia. rewrite Em in *. rewrite u64_small by lia. rewrite (take_ge l1) in W1 by lia.
      set (l2 := drop (Z.to_nat n) l). assert (Hl2 : Z.of_nat (length l2) = Z.of_nat (length l) - n) by (unfold l2; rewrite length_drop; lia).
      assert (Ep : write_pos s1 vn append (pos + n) = pos + n).
      { unfold write_pos. destruct append eqn:Ea; [|done]. rewrite (wr_size _ _ _ _ _ W1), Hl1. unfold pos, write_pos. destruct l1; [done|]. cbn [is_nil]. lia. }
      assert (Er2 : room_at s1 vn (pos + n) = room - n) by (unfold room_at; rewrite (wr_cap _ _ _ _ _ W1); lia).
      destruct (IH (k <| k_vfs := s1 |>) (pos + n) (done + n) l2) as (s2 & E2 & W2).
      * lia.
      * lia.
      * right. right. symmetry. exact Ep.
      * intros i m Hi Hm Him. rewrite with_vfs. replace (buf + (done + n) + i) with (buf + done + (n + i)) by lia. rewrite Hu by lia.
        unfold l2. rewrite drop_drop. by replace (Z.to_nat n + Z.to_nat i)%nat with (Z.to_nat (n + i)) by lia.
      * apply W1.
      * apply W1.
      * cbn [k_vfs]. change (0 <= write_pos s1 vn append (pos + n)). lia.
      * change (write_pos s1 vn append (pos + n) + Z.of_nat (length l2) < 2 ^ 64). lia.
      * lia.
      * change (k_vfs (k <| k_vfs := s1 |>)) with s1 in *. rewrite Ep, Er2, Hl2 in *. exists s2. rewrite E2.
        assert (Est : stuck (room - n) (Z.of_nat (length l) - n) = stuck room (Z.of_nat (length l))).
        { unfold stuck. destruct (Z.ltb_spec room (Z.of_nat (length l))), (Z.ltb_spec (room - n) (Z.of_nat (length l) - n)); try (lia || done). cbn [andb].
          assert (n = TMP_SIZE) as -> by (unfold n, TMP_SIZE in *; lia). unfold TMP_SIZE. by rewrite Zminus_mod, Z_mod_same_full, Z.sub_0_r, Zmod_mod. }
        assert (Ed : done + n + (room - n) = done + room) by lia. rewrite Est, Ed. set (w2 := Z.min _ (room - n)).
        assert (Ew : w = n + w2) by (unfold w, w2; lia). rewrite Ew. split; [by rewrite !Z.add_assoc|].
        replace (take (Z.to_nat (n + w2)) l) with (l1 ++ take (Z.to_nat w2) l2).
        { eapply wrote_app; [exact W1|]. by rewrite Hl1. }
        unfold l1, l2. rewrite take_take_drop. f_equal. lia.
Qed.

(** A file that can hold a byte has a buffer. *)
Lemma file_buffer s n : vfs_ok s -> is_file s n -> 0 < file_cap s n -> exists d, vfs_file_data s n = Some d.
Proof.
  intros [K W] Hf Hc. destruct (write_state s K n 0 [] W Hf ltac:(lia)) as (_ & _ & d & Hd & _). exists d. by rewrite file_data_eq.
Qed.

(** ** Positions *)

(** Only positions and sizes kept with descriptors changed. *)
Definition positions_only (k k' : kernel) : Prop :=
  (exists tabs ods, k' = k <| k_fd_tables := tabs |> <| k_open_descs := ods |>) /\
  forall t fd, exists q z, fdesc k' t fd = (fdesc k t fd) <| f_offset := q |> <| f_size := z |>.

#[export] Instance positions_preorder : PreOrder positions_only.
Proof.
  split.
  - intros k. split; [exists (k_fd_tables k), (k_open_descs k); by destruct k|]. intros t fd. exists (f_offset (fdesc k t fd)), (f_size (fdesc k t fd)). by destruct (fdesc k t fd).
  - intros k1 k2 k3 [(t1 & o1 & E1) F1] [(t2 & o2 & E2) F2]. split; [exists t2, o2; by rewrite E2, E1|].
    intros t fd. destruct (F1 t fd) as (q1 & z1 & H1), (F2 t fd) as (q2 & z2 & H2). exists q2, z2. by rewrite H2, H1.
Qed.

Lemma offset_set_spec t fd v k : let k' := exec (fd_offset_set t fd v) k in positions_only k k' /\ fd_offset_get k' t fd = v.
Proof.
  unfold fd_offset_set. run_exec. set (k1 := upd_fdesc t fd _ k). cbv zeta.
  assert (F1 : forall t' fd', fdesc k1 t' fd' = if decide ((t, fd) = (t', fd')) then (fdesc k t fd) <| f_offset := v |> else fdesc k t' fd') by (intros; apply fdesc_upd).
  assert (Q1 : forall t' fd', exists q z, fdesc k1 t' fd' = (fdesc k t' fd') <| f_offset := q |> <| f_size := z |>).
  { intros t' fd'. rewrite F1. destruct (decide _) as [E|_]; [injection E as <- <-; exists v, (f_size (fdesc k t fd)); by destruct (fdesc k t fd)|].
    exists (f_offset (fdesc k t' fd')), (f_size (fdesc k t' fd')). by destruct (fdesc k t' fd'). }
  assert (S1 : fdesc k1 t fd = (fdesc k t fd) <| f_offset := v |>) by (rewrite F1, decide_True by done; done).
  unfold fd_offset_get. destruct (f_shared_offset (fdesc k1 t fd)) as [i|] eqn:Ei.
  - set (k2 := exec _ k1). assert (F2 : forall t' fd', fdesc k2 t' fd' = fdesc k1 t' fd') by done. rewrite F2, Ei.
    split; [split; [exists (k_fd_tables k2), (k_open_descs k2); by destruct k | intros; rewrite F2; apply Q1]|].
    unfold k2, exec, st_mod, open_desc, set_open_desc. cbn. by rewrite cell_insert, Z.eqb_refl.
  - rewrite exec_ret, Ei. split; [split; [exists (k_fd_tables k1), (k_open_descs k); by destruct k | done] | by rewrite S1].
Qed.

Lemma size_set_spec t fd z k : let k' := upd_fdesc t fd (fun f => f <| f_size := z |>) k in positions_only k k' /\ fd_offset_get k' t fd = fd_offset_get k t fd.
Proof.
  cbv zeta. set (k1 := upd_fdesc t fd _ k).
  assert (F1 : forall t' fd', fdesc k1 t' fd' = if decide ((t, fd) = (t', fd')) then (fdesc k t fd) <| f_size := z |> else fdesc k t' fd') by (intros; apply fdesc_upd).
  split; [split|].
  - exists (k_fd_tables k1), (k_open_descs k). by destruct k.
  - intros t' fd'. rewrite F1. destruct (decide _) as [E|_]; [injection E as <- <-; exists (f_offset (fdesc k t fd)), z; by destruct (fdesc k t fd)|].
    exists (f_offset (fdesc k t' fd')), (f_size (fdesc k t' fd')). by destruct (fdesc k t' fd').
  - unfold fd_offset_get. rewrite F1, decide_True by done. done.
Qed.

Section Positions.
Context (k k' : kernel) (H : positions_only k k').

Lemma po_vm : k_vm k' = k_vm k.
Proof. by destruct H as [(? & ? & ->) _]. Qed.
Lemma po_vfs : k_vfs k' = k_vfs k.
Proof. by destruct H as [(? & ? & ->) _]. Qed.
Lemma po_files : current_files k' = current_files k.
Proof. by destruct H as [(? & ? & ->) _]. Qed.
Lemma po_desc t fd : f_in_use (fdesc k' t fd) = f_in_use (fdesc k t fd) /\ f_type (fdesc k' t fd) = f_type (fdesc k t fd) /\
  f_vnode (fdesc k' t fd) = f_vnode (fdesc k t fd) /\ f_flags (fdesc k' t fd) = f_flags (fdesc k t fd).
Proof. destruct (proj2 H t fd) as (q & z & ->). done. Qed.
End Positions.

Lemma is_file_regular k vn f : is_file (k_vfs k) vn -> f_vnode f = Some vn -> regular_vnode k f = Some vn.
Proof. intros [_ Ht] Hv. unfold regular_vnode, vfs_file_is_regular. by rewrite Hv, Ht. Qed.

(** ** write on a descriptor *)

Lemma file_write_run t fd buf count l vn k : let f := fdesc k t fd in let s := k_vfs k in
  vfs_ok s -> is_file s vn -> f_vnode f = Some vn -> Z.land (f_flags f) 3 <> 0 ->
  is_u64 buf -> 0 < count -> buf + count <= 2 ^ 64 -> user_copy_from k buf count = Some l ->
  let pos := write_pos s vn (has (f_flags f) O_APPEND) (fd_offset_get k t fd) in
  0 <= pos -> pos + count < 2 ^ 64 ->
  let room := room_at s vn pos in let w := Z.min count room in
  exists k', file_write t fd buf count k = (if stuck room count && (room =? 0) then - ENOSPC else w, k') /\
    positions_only (k <| k_vfs := k_vfs k' |>) k' /\ wrote s (k_vfs k') vn pos (take (Z.to_nat w) l) /\
    fd_offset_get k' t fd = (if stuck room count then fd_offset_get k t fd else pos + w).
Proof.
  intros f s Hs Hn Hv Hfl Hb Hc Ht Hu pos Hp Hpt room w. pose proof (copied_length k buf count l Hb ltac:(lia) Hu) as Hl.
  unfold file_write. rewrite bind_get. fold f. rewrite (is_file_regular k vn f Hn Hv), (proj2 (Z.eqb_neq _ 0)) by done.
  destruct (write_loop_spec vn (has (f_flags f) O_APPEND) buf count (Z.to_nat count) k (fd_offset_get k t fd) 0 l) as (s' & E & W);
    [lia | lia | right; left; intros ->; cbn in Hl; lia | | done | done | done | fold s pos; lia | lia |].
  { intros i n Hi Hn' Hin. rewrite Z.add_0_r. apply (copy_from_part k buf count); (done || lia). }
  fold s pos in E, W. fold room in E, W. rewrite Hl in E, W. fold w in E, W. unfold st_bind at 1. rewrite E.
  assert (Hroom : 0 <= room) by (unfold room, room_at; lia). destruct (stuck room count) eqn:Est; cbn [andb].
  - exists (k <| k_vfs := s' |>). assert (Ew : w = room) by (unfold stuck in Est; apply andb_prop in Est as [?%Z.ltb_lt _]; unfold w; lia).
    rewrite Z.add_0_l, Ew in *. split; [done|]. split; [done|]. split; [exact W|]. reflexivity.
  - destruct (offset_set_spec t fd (pos + w) (k <| k_vfs := s' |>)) as [P1 O1]. set (k1 := exec _ _) in *.
    destruct (size_set_spec t fd (vfs_file_size (k_vfs k1) vn) k1) as [P2 O2]. set (k2 := upd_fdesc _ _ _ k1) in *.
    exists k2. assert (Ev : k_vfs k2 = s') by (rewrite (po_vfs _ _ P2), (po_vfs _ _ P1); done). rewrite Ev.
    split; [rewrite bind_eq; change (exec (fd_offset_set t fd (pos + w)) _) with k1; by rewrite Z.add_0_l|]. split; [by transitivity k1|]. split; [exact W|]. by rewrite O2, O1.
Qed.
