(* ===== verification/FileThms.v ===== *)
(** * Properties of reading and writing files

    What write, lseek and read do to a regular file, and that a program reads
    back what it wrote. *)

From Stdlib Require Import String.
From S2P Require Import Prelude Words Pmm PmmFacts PmmInit PmmThms PageAlloc Vmm VmmFacts VmmMap VmmSpace VmmThms.
From S2P Require Import CStr Vfs VfsFacts VfsOps VfsSafe VfsThms.
From S2P Require Import Kernel Tty Fd Sched UserCopy UserMem UserMemThms Signals SignalFacts Pipe Poll PollFacts SocketThms PollThms Mmap Paths FileIo FileFacts.
Local Open Scope Z_scope.
Local Open Scope st_scope.

(** C35. A write to a regular file is one write of the bytes in the user's
    buffer, although the kernel moves them 256 at a time: the bytes that fit in
    the file are stored at the position of the descriptor, or at the end of the
    file if it appends, and the file is as before elsewhere.  The result is how
    many fit, -ENOSPC when none does, and the position moves past them; but when
    the file fills up at the end of a piece with bytes left the position stays
    where it was. *)
Theorem file_write_correct t fd buf count l vn k : let f := fdesc k t fd in let s := k_vfs k in
  vfs_ok s -> is_file s vn -> f_vnode f = Some vn -> Z.land (f_flags f) 3 <> 0 ->
  is_u64 buf -> 0 < count -> buf + count <= 2 ^ 64 -> user_copy_from k buf count = Some l ->
  let pos := write_pos s vn (has (f_flags f) O_APPEND) (fd_offset_get k t fd) in
  0 <= pos -> pos + count < 2 ^ 64 ->
  let room := room_at s vn pos in let w := Z.min count room in
  exists k', file_write t fd buf count k = (if stuck room count && (room =? 0) then - ENOSPC else w, k') /\
    positions_only (k <| k_vfs := k_vfs k' |>) k' /\ wrote s (k_vfs k') vn pos (take (Z.to_nat w) l) /\
    fd_offset_get k' t fd = (if stuck room count then fd_offset_get k t fd else pos + w).
Proof. apply file_write_run. Qed.

(** ** Seeking *)

(** Where lseek starts from. *)
Definition seek_base (k : kernel) (fd whence : Z) : option Z :=
  let f := file k fd in
  if whence =? 0 then Some 0
  else if whence =? 1 then Some (s64 (fd_offset_get k (current_files k) fd))
  else if whence =? 2 then Some (s64 (match f_vnode f with Some v => vfs_file_size (k_vfs k) v | None => f_size f end))
  else None.

Lemma s64_range x : INT64_MIN <= s64 x <= INT64_MAX.
Proof. unfold s64, INT64_MIN, INT64_MAX. pose proof (u64_range x). destruct (Z.ltb_spec (u64 x) (2 ^ 63)); lia. Qed.

(** C36. lseek on a file sets the position to the base that [whence] names plus
    the offset exactly when the sum is a signed 64-bit number that is not
    negative, whatever the two are: the tests before the addition refuse every
    sum that would overflow and no other.  It gives EINVAL for the rest and
    changes nothing then. *)
Theorem lseek_correct fd off whence k : INT64_MIN <= off <= INT64_MAX -> closed_fd k fd = false -> f_type (file k fd) = FD_FILE ->
  match seek_base k fd whence with
  | Some base =>
      let n := base + off in
      if (0 <=? n) && (n <=? INT64_MAX)
      then exists k', sys_lseek fd off whence k = (n, k') /\ positions_only k k' /\ fd_offset_get k' (current_files k) fd = n
      else sys_lseek fd off whence k = (- EINVAL, k)
  | None => sys_lseek fd off whence k = (- EINVAL, k)
  end.
Proof.
  intros Ho Hc Ht. unfold sys_lseek. rewrite bind_get, Hc, Ht. change (negb (FD_FILE =? FD_FILE)) with false. cbv zeta. unfold seek_base.
  set (z := match f_vnode _ with Some _ => _ | None => _ end).
  assert (Hgen : forall base call, INT64_MIN <= base <= INT64_MAX ->
    call = (if base =? INT64_MIN then st_ret (- EINVAL)
            else if ((0 <? off) && (INT64_MAX - off <? base)) || ((off <? 0) && (base <? INT64_MIN - off)) then st_ret (- EINVAL)
            else if base + off <? 0 then st_ret (- EINVAL) else fd_offset_set (current_files k) fd (base + off) ;;; st_ret (base + off)) k ->
    if (0 <=? base + off) && (base + off <=? INT64_MAX)
    then exists k', call = (base + off, k') /\ positions_only k k' /\ fd_offset_get k' (current_files k) fd = base + off
    else call = (- EINVAL, k)).
  { unfold INT64_MIN, INT64_MAX in *. intros base call Hb ->. destruct (Z.leb_spec 0 (base + off)), (Z.leb_spec (base + off) (2 ^ 63 - 1)); cbn [andb].
    1: { rewrite (proj2 (Z.eqb_neq base _)), (proj2 (Z.ltb_ge (2 ^ 63 - 1 - off) base)), (proj2 (Z.ltb_ge (base + off) 0)) by lia. rewrite andb_false_r.
         assert (Hx : (off <? 0) && (base <? - 2 ^ 63 - off) = false) by (destruct (Z.ltb_spec off 0), (Z.ltb_spec base (- 2 ^ 63 - off)); try done; lia).
         rewrite Hx. cbn [orb]. destruct (offset_set_spec (current_files k) fd (base + off) k) as [P1 O1]. eexists. split; [by rewrite bind_eq|]. by split. }
    all: destruct (base =? - 2 ^ 63); [done|]; destruct (Z.ltb_spec 0 off), (Z.ltb_spec (2 ^ 63 - 1 - off) base), (Z.ltb_spec off 0), (Z.ltb_spec base (- 2 ^ 63 - off)); cbn [andb orb]; try done; try lia;
      rewrite (proj2 (Z.ltb_lt (base + off) 0)) by lia; done. }
  destruct (whence =? 0); [apply (Hgen 0); [unfold INT64_MIN, INT64_MAX; lia | done]|]. destruct (whence =? 1); [by apply Hgen, eq_refl; apply s64_range|].
  destruct (whence =? 2); [by apply Hgen, eq_refl; apply s64_range|]. reflexivity.
Qed.

(** ** Writing and reading back *)

Section Roundtrip.
Context {HB : HhdmBase} {inv : pmm -> Prop} {held : pmm -> Z -> Prop} `{PA : !PageAllocator inv held}.
Local Abbreviation call_space := (call_space (inv := inv) (held := held)).
Variable bootfs_read_root_file : cstr -> Z -> Z -> list Z.
Variable kernel_wait_tick : kernel -> kernel.
Variable cpuid : Z -> Z -> Z * Z * Z * Z.
Variable rtc_now : Z * Z.

(** Descriptor [fd] is open on the regular file [vn]. *)
Record file_fd (k : kernel) (fd vn : Z) : Prop := {
  ff_open : closed_fd k fd = false;
  ff_type : f_type (file k fd) = FD_FILE;
  ff_node : f_vnode (file k fd) = Some vn;
  ff_file : is_file (k_vfs k) vn
}.

Lemma file_fd_positions k k' fd vn : positions_only k k' -> file_fd k fd vn -> file_fd k' fd vn.
Proof.
  intros P [H1 H2 H3 H4]. destruct (po_desc k k' P (current_files k) fd) as (E1 & E2 & E3 & _). unfold closed_fd, file in *.
  split; unfold closed_fd, file; rewrite ?(po_files _ _ P), ?E1, ?E2, ?E3, ?(po_vfs _ _ P); done.
Qed.

Lemma call_space_positions k s k' : positions_only (k <| k_vfs := s |>) k' -> call_space k -> call_space k'.
Proof. intros [(? & ? & ->) _] [H1 H2]. by split. Qed.

(** What a read copies. *)
Lemma file_bytes k vn d off n : vfs_file_data (k_vfs k) vn = Some d -> ptr_bytes k (DSlot d) off n = map (fun i => file_byte (k_vfs k) vn (off + i)) (seqZ 0 n).
Proof. intros Hd. unfold ptr_bytes, data_bytes, file_byte. by rewrite Hd. Qed.

Lemma wrote_reads s s' vn off l : wrote s s' vn off l -> map (fun i => file_byte s' vn (off + i)) (seqZ 0 (Z.of_nat (length l))) = l.
Proof.
  intros W. apply list_eq. intros j. rewrite list_lookup_fmap. destruct (decide (Z.of_nat j < Z.of_nat (length l))).
  - rewrite lookup_seqZ_lt by lia. cbn [fmap option_fmap option_map]. rewrite (wr_bytes _ _ _ _ _ W), (proj2 (Z.leb_le _ _)), (proj2 (Z.ltb_lt _ _)) by lia. cbn [andb].
    replace (Z.to_nat (off + (0 + Z.of_nat j) - off)) with j by lia. destruct (lookup_lt_is_Some_2 l j) as [x ->]; [lia | done].
  - rewrite lookup_seqZ_ge by lia. cbn. symmetry. apply lookup_ge_None. lia.
Qed.
Lemma file_size_cap s vn : vfs_ok s -> is_file s vn -> 0 <= vfs_file_size s vn <= file_cap s vn.
Proof.
  intros [K W] Hf. destruct Hf as [Hl Ht]. destruct (w_owner _ _ _ W vn Hl Ht) as (o & Ho & Hi). rewrite file_size_eq by done.
  unfold file_cap, owner_of. rewrite Ho. exact (proj1 (w_buffer _ _ _ W o Hi)).
Qed.

(** A read copies the bytes at the position, up to the end of the file. *)
Lemma file_read_run t fd buf count vn k : f_vnode (fdesc k t fd) = Some vn -> is_file (k_vfs k) vn -> vfs_ok (k_vfs k) -> call_space k ->
  0 <= buf -> 0 <= count -> buf + count <= USER_TOP -> let cur := fd_offset_get k t fd in 0 <= cur ->
  let n := Z.min count (Z.max 0 (vfs_file_size (k_vfs k) vn - cur)) in
  let l := map (fun i => file_byte (k_vfs k) vn (cur + i)) (seqZ 0 n) in Forall is_byte l ->
  exists rc k', file_read bootfs_read_root_file t fd buf count k = (if rc =? 0 then n else - EFAULT, k') /\
    copied_to (k_vm k) (k_vm k') buf l rc /\ k_vfs k' = k_vfs k /\ fd_offset_get k' t fd = (if rc =? 0 then cur + n else cur).
Proof.
  intros Hv Hf Hs Hc Hb Hcount Ht cur Hcur n l Hl. unfold file_read. rewrite bind_get. fold cur. unfold fd_uses_bootfs. rewrite Hv.
  unfold vfs_is_boot_file. rewrite (proj2 Hf). change (VFS_NODE_FILE =? VFS_NODE_BOOT_FILE) with false. cbv iota.
  unfold file_data. rewrite (is_file_regular k vn _ Hf Hv). set (z := vfs_file_size (k_vfs k) vn) in *. cbv iota beta zeta.
  assert (En : (if count <? (if cur <? z then z - cur else 0) then count else if cur <? z then z - cur else 0) = n).
  { unfold n. destruct (Z.ltb_spec cur z); destruct (Z.ltb_spec count (z - cur)); destruct (Z.ltb_spec count 0); lia. }
  rewrite En. assert (Hn : 0 <= n <= count) by (unfold n; lia).
  assert (Hlen : Z.of_nat (length l) = n) by (unfold l; rewrite length_map, length_seqZ; lia).
  assert (Ecp : exists rc k1, copy_data buf (option_map DSlot (vfs_file_data (k_vfs k) vn)) cur n k = (rc, k1) /\ k1 = k <| k_vm := k_vm k1 |> /\ copied_to (k_vm k) (k_vm k1) buf l rc).
  { unfold copy_data. rewrite bind_get. destruct (Z.eqb_spec n 0) as [Hz|Hz].
    - exists 0, k. split; [by destruct (option_map _ _)|]. split; [by destruct k|]. left. split; [done|]. destruct l; [|cbn in Hlen; lia]. split; [by apply stored_nil | intros a; cbn; lia].
    - destruct (file_buffer (k_vfs k) vn Hs Hf) as [d Hd]; [pose proof (file_size_cap _ _ Hs Hf); lia|]. rewrite Hd. cbn [option_map]. rewrite (file_bytes k vn d cur n Hd). fold l.
      destruct (user_copy_to buf l k) as [rc k1] eqn:E1. exists rc, k1. split; [done|].
      pose proof (user_copy_to_vm buf l k) as Ek. unfold exec in Ek. rewrite E1 in Ek. split; [exact Ek|]. by destruct (copy_to_call k buf l rc k1 Hc Hb ltac:(lia) Hl E1) as (_ & _ & _ & ?). }
  destruct Ecp as (rc & k1 & Ec & Ek1 & Hcp). exists rc. unfold st_bind at 1. rewrite Ec. destruct (rc =? 0) eqn:Er; cbn [negb].
  - destruct (offset_set_spec t fd (cur + n) k1) as [P1 O1]. set (k2 := exec _ _) in *. destruct (size_set_spec t fd z k2) as [P2 O2]. set (k3 := upd_fdesc _ _ _ k2) in *.
    exists k3. split; [rewrite bind_eq; change (exec (fd_offset_set t fd (cur + n)) k1) with k2; reflexivity|].
    rewrite (po_vm _ _ P2), (po_vm _ _ P1), (po_vfs _ _ P2), (po_vfs _ _ P1), O2, O1. split; [exact Hcp|]. split; [by rewrite Ek1 | done].
  - exists k1. split; [done|]. split; [exact Hcp|]. rewrite Ek1. done.
Qed.
(** What sys_write and sys_read do before they come to the file. *)
Lemma sys_write_file fuel sf k fd vn buf count : file_fd k fd vn -> 0 < count <= 0x100000 -> 0 < buf -> user_range_ok k buf count false = true ->
  sys_write kernel_wait_tick fuel sf fd buf count k = Some (file_write (current_files k) fd buf count k).
Proof.
  intros [F1 F2 _ _] Hc Hb Hr. unfold sys_write. rewrite F1, F2. change (FD_FILE =? FD_SOCKET) with false. cbn [negb andb].
  assert (Hfd : (fd <? 0) || (MAX_FILES <=? fd) = false) by (unfold closed_fd in F1; by apply orb_false_iff in F1 as [? _]).
  assert (Hcon : fd_is_console_stream k fd = false) by (unfold fd_is_console_stream; rewrite F2; change (FD_FILE =? FD_PSEUDO) with false; cbn [negb]; by rewrite orb_true_r).
  rewrite Hfd, Hr, Hcon, andb_false_r, (proj2 (Z.ltb_ge _ count)), (proj2 (Z.eqb_neq count 0)), (proj2 (Z.eqb_neq buf 0)) by lia. done.
Qed.

Lemma sys_read_file fuel sf k fd vn buf count : file_fd k fd vn -> 0 < count -> 0 < buf -> user_range_ok k buf count true = true ->
  sys_read bootfs_read_root_file kernel_wait_tick cpuid rtc_now fuel sf fd buf count k = Some (file_read bootfs_read_root_file (current_files k) fd buf count k).
Proof.
  intros [F1 F2 _ _] Hc Hb Hr. unfold sys_read. rewrite F1, F2, Hr, (proj2 (Z.eqb_neq count 0)), (proj2 (Z.eqb_neq buf 0)) by lia. done.
Qed.

(** C37. A program reads back what it wrote: a write to a regular file that fits
    stores all the bytes, seeking back by their number returns the position
    the write began at, and reading as many bytes from there into any other
    buffer delivers the very bytes written and leaves the position where the
    write left it, or fails because the buffer cannot be written. *)
Theorem file_roundtrip fuel sf fd buf count buf2 l vn k : let t := current_files k in let s := k_vfs k in
  vfs_ok s -> call_space k -> file_fd k fd vn -> Z.land (f_flags (file k fd)) 3 <> 0 ->
  0 < buf -> 0 < count <= 0x100000 -> buf + count <= USER_TOP -> user_range_ok k buf count false = true -> user_copy_from k buf count = Some l -> Forall is_byte l ->
  0 < buf2 -> buf2 + count <= USER_TOP -> user_range_ok k buf2 count true = true ->
  let pos := write_pos s vn (has (f_flags (file k fd)) O_APPEND) (fd_offset_get k t fd) in
  0 <= pos -> pos + count <= file_cap s vn -> pos + count <= INT64_MAX ->
  exists k1 k2 k3 rc,
    sys_write kernel_wait_tick fuel sf fd buf count k = Some (count, k1) /\
    sys_lseek fd (- count) 1 k1 = (pos, k2) /\
    sys_read bootfs_read_root_file kernel_wait_tick cpuid rtc_now fuel sf fd buf2 count k2 = Some (if rc =? 0 then count else - EFAULT, k3) /\
    copied_to (k_vm k) (k_vm k3) buf2 l rc /\
    (rc = 0 -> fd_offset_get k3 t fd = fd_offset_get k1 t fd).
Proof.
  intros t s Hs Hc Hf Hfl Hb Hcount Ht Hr Hu Hl Hb2 Ht2 Hr2 pos Hp Hroom Hmax. unfold INT64_MAX in Hmax. destruct Hf as [F1 F2 F3 F4].
  assert (Hus : is_u64 buf) by (unfold is_u64, USER_TOP in *; lia). pose proof (copied_length k buf count l Hus ltac:(lia) Hu) as Hlen.
  assert (Hst : stuck (room_at s vn pos) count = false) by (unfold stuck, room_at; rewrite (proj2 (Z.ltb_ge _ _)) by lia; done).
  assert (H64 : pos + count < 2 ^ 64) by lia. assert (Hb64 : buf + count <= 2 ^ 64) by (unfold USER_TOP in Ht; lia).
  destruct (file_write_run t fd buf count l vn k Hs F4 F3 Hfl Hus (proj1 Hcount) Hb64 Hu Hp H64) as (k1 & E1 & P1 & W & O1).
  change (fdesc k t fd) with (file k fd) in E1, W, O1. fold s pos in E1, W, O1. rewrite Hst in E1, O1. cbn [andb] in E1.
  assert (Em : Z.min count (room_at s vn pos) = count) by (unfold room_at; lia). rewrite Em in E1, W, O1. rewrite (take_ge l) in W by lia.
  set (k1' := k <| k_vfs := k_vfs k1 |>) in P1. assert (Ft : current_files k1 = t) by (by rewrite (po_files _ _ P1)).
  assert (F' : file_fd k1 fd vn) by (apply (file_fd_positions k1' k1 fd vn P1); split; [done | done | done | apply W]).
  destruct F' as [G1 G2 G3 G4].
  pose proof (lseek_correct fd (- count) 1 k1 ltac:(unfold INT64_MIN, INT64_MAX; lia) G1 G2) as Hk. unfold seek_base in Hk. cbn [Z.eqb Pos.eqb] in Hk. rewrite Ft, O1 in Hk.
  replace (s64 (pos + count)) with (pos + count) in Hk by (unfold s64; rewrite u64_small, (proj2 (Z.ltb_lt _ _)) by lia; done).
  replace (pos + count + - count) with pos in Hk by lia. cbv zeta in Hk. rewrite (proj2 (Z.leb_le 0 pos)), (proj2 (Z.leb_le pos INT64_MAX)) in Hk by (unfold INT64_MAX; lia). cbn [andb] in Hk.
  destruct Hk as (k2 & E2 & P2 & O2). pose proof (file_fd_positions k1 k2 fd vn P2 (Build_file_fd k1 fd vn G1 G2 G3 G4)) as FD2. pose proof FD2 as [H1 H2 H3 H4].
  assert (Ft2 : current_files k2 = t) by (by rewrite (po_files _ _ P2)).
  assert (Ev : k_vm k2 = k_vm k) by (rewrite (po_vm _ _ P2), (po_vm _ _ P1); done). assert (Es : k_vfs k2 = k_vfs k1) by apply (po_vfs _ _ P2).
  assert (Hz : vfs_file_size (k_vfs k1) vn - pos >= count).
  { rewrite (wr_size _ _ _ _ _ W). destruct l; [cbn in Hlen; lia|]. cbn [is_nil]. lia. }
  assert (Hc2 : call_space k2).
  { apply (call_space_positions k1 (k_vfs k1) k2); [|by apply (call_space_positions k (k_vfs k1) k1)]. assert (Ek : k1 <| k_vfs := k_vfs k1 |> = k1) by (by destruct k1). by rewrite Ek. }
  pose proof (wrote_reads _ _ _ _ _ W) as Hrd. rewrite Hlen in Hrd. unfold file in H3. rewrite Ft2 in H3.
  destruct (file_read_run t fd buf2 count vn k2 H3 H4) as (rc & k3 & E3 & Hcp & _ & O3).
  { rewrite Es. apply W. }
  { exact Hc2. }
  { lia. }
  { lia. }
  { exact Ht2. }
  { rewrite O2. exact Hp. }
  { rewrite Es, O2. rewrite Z.min_l by lia. by rewrite Hrd. }
  rewrite Es, O2 in E3, O3, Hcp. rewrite Z.min_l in E3, O3, Hcp by lia. rewrite Hrd, Ev in Hcp. rewrite <- O1 in O3.
  exists k1, k2, k3, rc. split; [|split; [exact E2|split; [|split; [exact Hcp|]]]].
  - rewrite (sys_write_file fuel sf k fd vn buf count (Build_file_fd k fd vn F1 F2 F3 F4) Hcount Hb Hr). fold t. by rewrite E1.
  - rewrite (sys_read_file fuel sf k2 fd vn buf2 count FD2), Ft2, E3; [done | lia | done |]. unfold user_range_ok in *. by rewrite Ev.
  - intros ->. exact O3.
Qed.
End Roundtrip.

(** ** The theorems at concrete inputs *)

#[local] Existing Instance demo_hhdm.

(** /tmp/a is open as descriptor 3 at position [off]. *)
Definition file_kernel (off : Z) : kernel :=
  set_fdesc 0 3 (blank_file_desc <| f_in_use := true |> <| f_type := FD_FILE |> <| f_flags := 2 |> <| f_vnode := Some 59 |> <| f_offset := off |>)
    (set_table_refs 0 1 (blank_kernel <| k_vm := event_machine |> <| k_vfs := demo_created |>)).

Lemma file_kernel_parts off : k_vm (file_kernel off) = event_machine /\ k_vfs (file_kernel off) = demo_created /\ current_files (file_kernel off) = 0 /\
  fdesc (file_kernel off) 0 3 = blank_file_desc <| f_in_use := true |> <| f_type := FD_FILE |> <| f_flags := 2 |> <| f_vnode := Some 59 |> <| f_offset := off |>.
Proof. unfold file_kernel. generalize event_machine demo_created. intros m s. split_and!; reflexivity. Qed.

Lemma file_kernel_pos off o : write_pos demo_created 59 (has (f_flags (fdesc (file_kernel off) 0 3)) O_APPEND) o = o.
Proof. destruct (file_kernel_parts off) as (_ & _ & _ & ->). reflexivity. Qed.

Lemma demo_file : is_file demo_created 59.
Proof. apply is_file_check. vm_compute. reflexivity. Qed.

Lemma file_space off : call_space (inv := pmm_wf) (held := pool_held) (file_kernel off).
Proof.
  destruct (file_kernel_parts off) as (Em & _). split; rewrite Em.
  - assert (H := event_space). destruct H as [H _]. rewrite event_vm in H. exact H.
  - unfold syscall_cr3. rewrite Em. change (k_syscall_user_cr3 (file_kernel off)) with 0. reflexivity.
Qed.

(** 300 bytes written where only 256 more fit: they are stored, and the position stays. *)
Definition near_end : Z := VFS_DATA_SLOT_SIZE - 256.
Definition full_kernel : kernel := file_kernel near_end.
Definition long_buffer : list Z := default [] (user_copy_from full_kernel 0x400200 300).
Lemma long_copied : user_copy_from full_kernel 0x400200 300 = Some long_buffer /\ length long_buffer = 300%nat.
Proof. vm_compute. done. Qed.
Lemma full_position : fd_offset_get full_kernel 0 3 = near_end /\ room_at demo_created 59 near_end = 256.
Proof. vm_compute. done. Qed.

Lemma file_write_witness : exists k', file_write 0 3 0x400200 300 full_kernel = (256, k') /\ wrote demo_created (k_vfs k') 59 near_end (take 256 long_buffer) /\
  fd_offset_get k' 0 3 = near_end.
Proof.
  pose proof (file_write_correct 0 3 0x400200 300 long_buffer 59 full_kernel) as H. destruct (file_kernel_parts near_end) as (_ & Es & _ & Ef).
  cbv zeta in H. fold full_kernel in Es, Ef. rewrite Es in H. pose proof (file_kernel_pos near_end) as Hw. fold full_kernel in Hw. rewrite !Hw, Ef in H.
  destruct full_position as [P1 P2]. rewrite P1, P2 in H.
  destruct (H demo_created_ok demo_file eq_refl ltac:(done) ltac:(unfold is_u64; lia) ltac:(lia) ltac:(lia) (proj1 long_copied) ltac:(done) ltac:(done)) as (k' & E & _ & W & O).
  exists k'. split; [exact E|]. split; [exact W | exact O].
Defined.

(** 12 bytes written, and read back behind them. *)
Definition short_kernel : kernel := file_kernel 0.
Definition short_buffer : list Z := [1; 0; 0; 0; 9; 0; 0; 0; 0; 0; 0; 0].
Lemma short_copied : user_copy_from short_kernel 0x400200 12 = Some short_buffer.
Proof. vm_compute. reflexivity. Qed.
Lemma short_bytes : Forall is_byte short_buffer.
Proof. repeat (apply Forall_cons_2; [unfold is_byte; lia|]). by apply Forall_nil_2. Qed.
Lemma short_checks : user_range_ok short_kernel 0x400200 12 false = true /\ user_range_ok short_kernel 0x400500 12 true = true /\
  fd_offset_get short_kernel 0 3 = 0 /\ file_cap demo_created 59 = VFS_DATA_SLOT_SIZE /\ closed_fd short_kernel 3 = false.
Proof. vm_compute. done. Qed.

(** The result of the read. *)
Definition short_run : option (Z * kernel) :=
  let k1 := after (sys_write id 0 blank_regs 3 0x400200 12 short_kernel) in
  sys_read (fun _ _ _ => []) id (fun _ _ => (0, 0, 0, 0)) (0, 0) 0 blank_regs 3 0x400500 12 (exec (sys_lseek 3 (- 12) 1) k1).
Lemma short_run_ok : option_map fst short_run = Some 12.
Proof. vm_compute. reflexivity. Qed.

Lemma file_roundtrip_witness : stored event_machine (k_vm (after short_run)) 0x400500 short_buffer.
Proof.
  destruct (file_kernel_parts 0) as (Ev & Es & Et & Ef). fold short_kernel in Ev, Es, Et, Ef. destruct short_checks as (R1 & R2 & P1 & Cp & Op).
  pose proof (file_roundtrip (inv := pmm_wf) (held := pool_held) (fun _ _ _ => []) id (fun _ _ => (0, 0, 0, 0)) (0, 0) 0 blank_regs 3 0x400200 12 0x400500 short_buffer 59 short_kernel) as H.
  assert (Efd : file short_kernel 3 = fdesc short_kernel 0 3) by (unfold file; by rewrite Et).
  assert (HF : file_fd short_kernel 3 59) by (split; [exact Op | by rewrite Efd, Ef | by rewrite Efd, Ef | rewrite Es; exact demo_file]).
  rewrite Et, Es, Efd in H. cbv zeta in H. pose proof (file_kernel_pos 0) as Hw. fold short_kernel in Hw. rewrite !Hw, Ef in H. rewrite P1, Cp in H.
  destruct (H demo_created_ok (file_space 0) HF ltac:(done) ltac:(lia) ltac:(lia) ltac:(unfold USER_TOP; lia) R1 short_copied short_bytes ltac:(lia) ltac:(unfold USER_TOP; lia) R2
    ltac:(lia) ltac:(done) ltac:(done)) as (k1 & k2 & k3 & rc & E1 & E2 & E3 & Hcp & _).
  destruct (after_inv _ _ _ E1) as [Ek1 _]. assert (Ek2 : exec (sys_lseek 3 (- 12) 1) k1 = k2) by (change (Z.opp 12) with (-12) in E2; unfold exec; by rewrite E2).
  rewrite <- Ek2, <- Ek1 in E3. destruct (after_inv _ _ _ E3) as [Ek3 Hr]. change (sys_read _ _ _ _ _ _ _ _ _ _) with short_run in Ek3, Hr. rewrite short_run_ok in Hr.
  rewrite Ek3. rewrite Ev in Hcp. destruct Hcp as [(_ & Hst & _)|(Hrc & _)]; [exact Hst | rewrite Hrc in Hr; discriminate Hr].
Defined.

(** From the end of the file of 3 bytes, one byte back and too far. *)
Lemma lseek_witness : fst (sys_lseek 3 5 0 short_kernel) = 5 /\ fst (sys_lseek 3 (- 1) 1 short_kernel) = - EINVAL /\ fst (sys_lseek 3 INT64_MAX 3 short_kernel) = - EINVAL.
Proof.
  destruct (file_kernel_parts 0) as (Ev & Es & Et & Ef). fold short_kernel in Ev, Es, Et, Ef. destruct short_checks as (_ & _ & P1 & _ & Op).
  assert (Hty : f_type (file short_kernel 3) = FD_FILE) by (unfold file; by rewrite Et, Ef).
  split; [|split].
  - destruct (lseek_correct 3 5 0 short_kernel ltac:(unfold INT64_MIN, INT64_MAX; lia) Op Hty) as (k' & -> & _). reflexivity.
  - pose proof (lseek_correct 3 (- 1) 1 short_kernel ltac:(unfold INT64_MIN, INT64_MAX; lia) Op Hty) as H. unfold seek_base in H. rewrite Et in H. cbn [Z.eqb Pos.eqb] in H. rewrite P1 in H. by rewrite H.
  - pose proof (lseek_correct 3 INT64_MAX 3 short_kernel ltac:(unfold INT64_MIN, INT64_MAX; lia) Op Hty) as H. by rewrite H.
Defined.
