(* ===== verification/PathThms.v ===== *)
(** * Properties of paths

    The normal form normalize_abs_path gives a path, against a reference that
    splits the path at its slashes and keeps a stack of names. *)

From Stdlib Require Import String.
From S2P Require Import Prelude Words Pmm Vmm CStr Vfs Kernel Tty Fd Sched UserCopy Poll Mmap Pseudo Paths.
Local Open Scope Z_scope.

(** ** The reference *)

(** The pieces between the slashes of a path, the empty ones too. *)
Fixpoint split_slash (p : cstr) : list cstr :=
  match p with
  | [] => [[]]
  | c :: p =>
      if c =? SLASH then [] :: split_slash p
      else match split_slash p with w :: ws => (c :: w) :: ws | [] => [[c]] end
  end.

Definition path_parts (p : cstr) : list cstr := List.filter (fun w => negb (is_nil w)) (split_slash p).

(** One part walked; the innermost name is the head of the stack. *)
Definition walk (names : list cstr) (w : cstr) : list cstr :=
  if bool_decide (w = DOT) then names else if bool_decide (w = DOTDOT) then tail names else w :: names.

(** The names are short enough, and never more than 32 of them are open. *)
Fixpoint walk_fits (names : list cstr) (parts : list cstr) : bool :=
  match parts with
  | [] => true
  | w :: parts => (length w <=? VFS_NAME_MAX)%nat && (length (walk names w) <=? 32)%nat && walk_fits (walk names w) parts
  end.

(** The path with these names, the outermost first. *)
Definition abs_path (names : list cstr) : cstr := match names with [] => [SLASH] | _ => concat (map (cons SLASH) names) end.

Definition resolved (p : cstr) : list cstr := rev (foldl walk [] (path_parts p)).

(** ** The code takes the same parts *)

Lemma split_slash_cons c p : exists w ws, split_slash p = w :: ws /\ split_slash (c :: p) = if c =? SLASH then [] :: w :: ws else (c :: w) :: ws.
Proof. destruct (split_slash p) as [|w ws] eqn:E; [destruct p as [|d p]; cbn in E; [done|]; destruct (d =? SLASH), (split_slash p); done|]. exists w, ws. cbn [split_slash]. by rewrite E. Qed.

Lemma parts_slash p : path_parts (SLASH :: p) = path_parts p.
Proof. unfold path_parts. destruct (split_slash_cons SLASH p) as (w & ws & E1 & E2). by rewrite E1, E2. Qed.

Lemma parts_skip p : path_parts (skip_slashes p) = path_parts p.
Proof.
  induction p as [|c p IH]; [done|]. cbn [skip_slashes]. destruct (Z.eqb_spec c SLASH) as [->|]; [|done]. by rewrite IH, parts_slash.
Qed.

Lemma parts_span p : match split_slash p with
  | w :: ws => w = fst (span_part p) /\ List.filter (fun w => negb (is_nil w)) ws = path_parts (snd (span_part p))
  | [] => False
  end.
Proof.
  induction p as [|c p IH]; [done|]. destruct (split_slash_cons c p) as (w & ws & E1 & E2). rewrite E1 in IH. rewrite E2. cbn [span_part].
  destruct (Z.eqb_spec c SLASH) as [->|]; cbn [fst snd].
  - split; [done|]. rewrite parts_slash. unfold path_parts. by rewrite E1.
  - destruct (span_part p) as [a r]. cbn [fst snd] in *. destruct IH as [-> H]. done.
Qed.

Lemma span_head c p : c <> SLASH -> exists w, fst (span_part (c :: p)) = c :: w /\ (length (snd (span_part (c :: p))) <= length p)%nat.
Proof.
  intros Hc. cbn [span_part]. rewrite (proj2 (Z.eqb_neq _ _)) by done. pose proof (span_part_le p). destruct (span_part p) as [a r]. by exists a.
Qed.

Lemma skip_head p c q : skip_slashes p = c :: q -> c <> SLASH /\ (length q < length p)%nat.
Proof.
  intros E. pose proof (skip_slashes_le p) as Hl. rewrite E in Hl. cbn in Hl. split; [|lia]. revert E. clear Hl. induction p as [|d p IH]; [done|]. cbn [skip_slashes].
  destruct (Z.eqb_spec d SLASH); [done|]. by intros [= -> ->].
Qed.

Lemma parts_next p c q : skip_slashes p = c :: q ->
  path_parts p = fst (span_part (c :: q)) :: path_parts (snd (span_part (c :: q))) /\ fst (span_part (c :: q)) <> [] /\ (length (snd (span_part (c :: q))) < length p)%nat.
Proof.
  intros E. destruct (skip_head p c q E) as [Hc Hl]. destruct (span_head c q Hc) as (w & Hw & Hr). rewrite <- parts_skip, E. pose proof (parts_span (c :: q)) as H.
  unfold path_parts at 1. destruct (split_slash (c :: q)) as [|x ws]; [done|]. destruct H as [-> H]. cbn [List.filter]. rewrite Hw, <- Hw, H. cbn [is_nil negb]. rewrite Hw. cbn [is_nil negb].
  split; [done|]. split; [done | lia].
Qed.

Lemma walk_length names w : (length (walk names w) <= S (length names))%nat.
Proof. unfold walk. repeat case_bool_decide; cbn [length]; rewrite ?length_tl; lia. Qed.

Lemma eq_decide a b : eq a b = bool_decide (a = b).
Proof. apply Bool.eq_iff_eq_true. by rewrite eq_spec, bool_decide_eq_true. Qed.

Lemma normal_parts_walk fuel : forall names p, (length p < fuel)%nat -> (length names <= 32)%nat ->
  normal_parts fuel names p = if walk_fits names (path_parts p) then inr (foldl walk names (path_parts p)) else inl (- ENAMETOOLONG).
Proof.
  induction fuel as [|fuel IH]; intros names p Hf Hn; [lia|]. cbn [normal_parts]. destruct (skip_slashes p) as [|c q] eqn:E.
  - rewrite <- parts_skip, E. done.
  - destruct (parts_next p c q E) as (Ep & Hne & Hl). rewrite Ep. destruct (span_part (c :: q)) as [w rest]. cbn [fst snd] in *. cbn [walk_fits foldl].
    destruct (Nat.ltb_spec VFS_NAME_MAX (length w)), (Nat.leb_spec (length w) VFS_NAME_MAX); try lia; cbn [andb]; [done|].
    rewrite !eq_decide. assert (Hw : walk names w = if bool_decide (w = DOT) then names else if bool_decide (w = DOTDOT) then tail names else w :: names) by done.
    revert Hw. case_bool_decide; [|case_bool_decide]; intros ->.
    + rewrite (proj2 (Nat.leb_le _ _)) by done. apply IH; lia.
    + rewrite (proj2 (Nat.leb_le _ _)) by (rewrite length_tl; lia). apply IH; [lia | rewrite length_tl; lia].
    + cbn [length]. destruct (Nat.leb_spec 32 (length names)), (Nat.leb_spec (S (length names)) 32); try lia; cbn [andb]; [done|]. apply IH; cbn [length]; lia.
Qed.

(** ** The path built from the names *)

Lemma put_more cap names : Forall (fun w => w <> []) names -> forall out, 1 < Z.of_nat (length out) < cap ->
  let r := out ++ concat (map (cons SLASH) names) in put_parts cap out names = if Z.of_nat (length r) <? cap then Some r else None.
Proof.
  induction 1 as [|w names Hw _ IH]; intros out Ho; cbn [map concat put_parts]; cbv zeta.
  - rewrite app_nil_r. by rewrite (proj2 (Z.ltb_lt _ _)) by lia.
  - assert (Hlw : (0 < length w)%nat) by (destruct w; [done | cbn; lia]). rewrite (proj2 (Z.ltb_lt 1 _)) by lia. cbn [andb]. rewrite !length_app. cbn [length].
    destruct (Z.leb_spec cap (Z.of_nat (length out) + 1)); [by rewrite (proj2 (Z.ltb_ge _ _)) by lia|].
    destruct (Z.leb_spec cap (Z.of_nat (length out + 1) + Z.of_nat (length w))); [by rewrite (proj2 (Z.ltb_ge _ _)) by lia|].
    rewrite IH by (rewrite !length_app; cbn [length]; lia). rewrite <- !app_assoc. cbn [app]. rewrite !length_app. cbn [length]. by rewrite !length_app.
Qed.

Lemma put_all cap names : 2 <= cap -> Forall (fun w => w <> []) names ->
  put_parts cap [SLASH] names = if Z.of_nat (length (abs_path names)) <? cap then Some (abs_path names) else None.
Proof.
  intros Hc Hn. destruct Hn as [|w names Hw Hn]; cbn [put_parts]; [by rewrite (proj2 (Z.ltb_lt _ _)) by (cbn; lia)|].
  assert (Hlw : (0 < length w)%nat) by (destruct w; [done | cbn; lia]). change (1 <? Z.of_nat (length [SLASH])) with false. cbn [andb].
  unfold abs_path. cbn [map concat app length]. destruct (Z.leb_spec cap (Z.of_nat 1 + Z.of_nat (length w))); [by rewrite (proj2 (Z.ltb_ge _ _)) by (rewrite length_app; lia)|].
  rewrite put_more by (done || (cbn [length]; lia)). done.
Qed.

(** What the walk keeps: names that are neither empty nor dots. *)
Definition real_name (w : cstr) : Prop := w <> [] /\ w <> DOT /\ w <> DOTDOT /\ SLASH ∉ w.

Lemma parts_clean p : Forall (fun w => w <> [] /\ SLASH ∉ w) (path_parts p).
Proof.
  assert (H : Forall (fun w => SLASH ∉ w) (split_slash p)).
  { induction p as [|c p IH]; [by repeat constructor; apply not_elem_of_nil|]. destruct (split_slash_cons c p) as (w & ws & E1 & E2). rewrite E1 in IH. rewrite E2.
    destruct (Z.eqb_spec c SLASH); [constructor; [apply not_elem_of_nil | done]|]. apply Forall_cons in IH as [IH1 IH2]. constructor; [|done]. rewrite not_elem_of_cons. by split. }
  unfold path_parts. induction H as [|w ws Hw _ IH]; [done|]. cbn [List.filter]. destruct w; cbn [is_nil negb]; [done|]. by constructor.
Qed.

Lemma walk_real parts : Forall (fun w => w <> [] /\ SLASH ∉ w) parts -> forall names, Forall real_name names -> Forall real_name (foldl walk names parts).
Proof.
  induction 1 as [|w parts [Hw Hs] _ IH]; intros names Hn; [done|]. cbn [foldl]. apply IH. unfold walk. repeat case_bool_decide; [done | | by constructor].
  destruct Hn; [done | done].
Qed.

Lemma resolved_real p : Forall real_name (resolved p).
Proof. unfold resolved. apply Forall_rev, walk_real; [apply parts_clean | done]. Qed.

Lemma span_clean w r : SLASH ∉ w -> (r = [] \/ hd 0 r = SLASH) -> span_part (w ++ r) = (w, r).
Proof.
  intros Hw Hr. induction w as [|c w IH]; cbn [app].
  - destruct r as [|c r]; [done|]. cbn [span_part]. destruct Hr as [|Hr]; [done|]. cbn in Hr. by rewrite Hr, Z.eqb_refl.
  - rewrite not_elem_of_cons in Hw. destruct Hw as [Hc Hw]. cbn [span_part]. rewrite (proj2 (Z.eqb_neq c SLASH)) by done. by rewrite IH.
Qed.

Lemma parts_abs names : Forall real_name names -> path_parts (abs_path names) = names.
Proof.
  assert (H : Forall real_name names -> path_parts (concat (map (cons SLASH) names)) = names).
  { induction 1 as [|w names (Hw & _ & _ & Hs) _ IH]; [done|]. cbn [map concat app]. rewrite parts_slash. destruct w as [|c w]; [done|].
    assert (Es : skip_slashes ((c :: w) ++ concat (map (cons SLASH) names)) = c :: (w ++ concat (map (cons SLASH) names))).
    { rewrite not_elem_of_cons in Hs. cbn [app skip_slashes]. by rewrite (proj2 (Z.eqb_neq c SLASH)) by (symmetry; tauto). }
    destruct (parts_next _ _ _ Es) as (-> & _). change (c :: w ++ ?r) with ((c :: w) ++ r). rewrite span_clean; [|done | destruct names; [by left | by right]].
    cbn [fst snd]. by rewrite IH. }
  destruct names; [done | exact H].
Qed.

Lemma walk_names names : Forall real_name names -> forall st, foldl walk st names = rev names ++ st.
Proof.
  induction 1 as [|w names (_ & H1 & H2 & _) _ IH]; intros st; [done|]. cbn [foldl rev]. rewrite IH, <- app_assoc. unfold walk. by rewrite !bool_decide_false.
Qed.

(** The names and the stack are within the limits. *)
Definition within (names : list cstr) : Prop := (length names <= 32)%nat /\ Forall (fun w => (length w <= VFS_NAME_MAX)%nat) names.

Lemma walk_fits_within parts : forall st, within st -> walk_fits st parts = true -> within (foldl walk st parts).
Proof.
  induction parts as [|w parts IH]; intros st Hst Hf; [done|]. cbn [walk_fits foldl] in *. apply andb_prop in Hf as [[Hw%Nat.leb_le Hl%Nat.leb_le]%andb_prop Hf].
  apply IH; [|done]. destruct Hst as [_ Hs]. split; [done|]. unfold walk. repeat case_bool_decide; [done | by apply Forall_tail | by constructor].
Qed.

Lemma names_fit names : Forall real_name names -> forall st, within (rev names ++ st) -> walk_fits st names = true.
Proof.
  induction 1 as [|w names (_ & H1 & H2 & _) _ IH]; intros st Hin; [done|]. cbn [walk_fits rev] in *. rewrite <- app_assoc in Hin. cbn [app] in Hin.
  assert (Ew : walk st w = w :: st) by (unfold walk; by rewrite !bool_decide_false). rewrite Ew. rewrite IH by done.
  destruct Hin as [Hl Hs]. rewrite length_app in Hl. apply Forall_app in Hs as [_ Hs]. apply Forall_cons in Hs as [Hw _]. rewrite andb_true_r. apply andb_true_intro.
  split; apply Nat.leb_le; cbn [length] in *; [done | lia].
Qed.

Lemma normalize_exact p cap :
  normalize_abs_path p cap =
    if (cap <? 2) || negb (hd 0 p =? SLASH) then inl (- EINVAL)
    else if walk_fits [] (path_parts p) && (Z.of_nat (length (abs_path (resolved p))) <? cap) then inr (abs_path (resolved p))
    else inl (- ENAMETOOLONG).
Proof.
  destruct p as [|c p]; [by rewrite orb_true_r|]. cbn [normalize_abs_path hd]. destruct ((cap <? 2) || _) eqn:E; [done|].
  apply orb_false_iff in E as [Hc%Z.ltb_ge Hs]. apply negb_false_iff, Z.eqb_eq in Hs as ->. rewrite normal_parts_walk by (cbn [length]; lia). unfold resolved. rewrite parts_slash.
  destruct (walk_fits [] (path_parts p)); cbn [andb]; [|done]. rewrite put_all; [by destruct (_ <? cap) | done|].
  pose proof (resolved_real (SLASH :: p)) as H. unfold resolved in H. rewrite parts_slash in H. eapply Forall_impl; [exact H|]. by intros w [? _].
Qed.

(** C38. normalize_abs_path gives a path that starts at the root the path with the
    names a walk over its parts leaves open: empty parts and dots do nothing,
    two dots close the innermost name, and stay at the root when none is open.
    It fails with EINVAL when the path does not start with a slash, and with
    ENAMETOOLONG exactly when a part is longer than a name may be, more than 32
    names are open at a time or the result does not fit in the buffer; its loop
    ends for every path. *)
Theorem normalize_correct p cap :
  normalize_abs_path p cap =
    if (cap <? 2) || negb (hd 0 p =? SLASH) then inl (- EINVAL)
    else if walk_fits [] (path_parts p) && (Z.of_nat (length (abs_path (resolved p))) <? cap) then inr (abs_path (resolved p))
    else inl (- ENAMETOOLONG).
Proof. apply normalize_exact. Qed.

(** What normalize_abs_path returns is in normal form: its parts are the names
    of the walk, none of them empty or made of dots alone, with a slash before
    each, and normalizing it again gives the same path. *)
Theorem normalize_normal p cap q : normalize_abs_path p cap = inr q ->
  path_parts q = resolved p /\ q = abs_path (path_parts q) /\ Forall real_name (path_parts q) /\ normalize_abs_path q cap = inr q.
Proof.
  intros H. rewrite normalize_exact in H. destruct ((cap <? 2) || _) eqn:E; [done|]. apply orb_false_iff in E as [Hc _].
  destruct (walk_fits [] (path_parts p) && _) eqn:E; [|done]. injection H as <-. apply andb_prop in E as [Hf Hl].
  pose proof (resolved_real p) as Hr. pose proof (parts_abs _ Hr) as Ep. rewrite Ep. split; [done|]. split; [done|]. split; [done|].
  assert (Hw : within (rev (resolved p) ++ [])).
  { rewrite app_nil_r. unfold resolved. rewrite rev_involutive. apply walk_fits_within; [by split; [cbn; lia|] | done]. }
  assert (Hq : resolved (abs_path (resolved p)) = resolved p) by (unfold resolved at 1; by rewrite Ep, walk_names, app_nil_r, rev_involutive).
  rewrite normalize_exact, Ep, Hq, Hc, Hl, (names_fit _ Hr [] Hw). assert (Hh : hd 0 (abs_path (resolved p)) = SLASH) by (by destruct (resolved p)). by rewrite Hh.
Qed.

(** ** The theorem at a concrete path *)

Definition crooked_path : cstr := cs "/usr//./lib/../share/doc/../../bin/".

Lemma normalize_witness : normalize_abs_path crooked_path 128 = inr (cs "/usr/bin"%string) /\ path_parts (cs "/usr/bin"%string) = resolved crooked_path.
Proof.
  assert (H : normalize_abs_path crooked_path 128 = inr (cs "/usr/bin"%string)) by (vm_compute; reflexivity).
  destruct (normalize_normal crooked_path 128 _ H) as (E & _). exact (conj H E).
Defined.
