(* ===== verification/Elf.v ===== *)
(** * The program loader

    Parsing an ELF file, mapping and filling its segments, and building the
    first stack of a program ([src/kernel/main.c]).  A reader is the function
    elf_read_at_fn with its context: [Some] of the bytes it stores, or [None] for
    a negative result.  The boot medium (bootfs_file_size and
    bootfs_read_root_file, main.rs) is a parameter; traces are left out. *)

From Stdlib Require Import String.
From S2P Require Import Prelude Words Pmm Vmm CStr Vfs Kernel Tty Fd Sched UserCopy Signals LazyMmap Mmap.
Local Open Scope Z_scope.
Local Open Scope st_scope.

Definition USER_STACK_TOP : Z := 0x00007FFFFFFFF000.
Definition USER_STACK_SIZE : Z := 0x00040000.
Definition KYRONIX_PIE_BASE : Z := 0x0000000000400000.
Definition KYRONIX_INTERP_BASE : Z := 0x00007f0000000000.
Definition ELF_INTERP_PATH_MAX : Z := 256.

Definition PT_LOAD : Z := 1.
Definition PT_INTERP : Z := 3.
Definition PT_PHDR : Z := 6.

(** ** Headers *)

Record Elf64_Ehdr := Ehdr {
  e_ident : list Z;
  e_type : Z;
  e_machine : Z;
  e_version : Z;
  e_entry : Z;
  e_phoff : Z;
  e_shoff : Z;
  e_flags : Z;
  e_ehsize : Z;
  e_phentsize : Z;
  e_phnum : Z;
  e_shentsize : Z;
  e_shnum : Z;
  e_shstrndx : Z
}.

Record Elf64_Phdr := Phdr {
  p_type : Z;
  p_flags : Z;
  p_offset : Z;
  p_vaddr : Z;
  p_paddr : Z;
  p_filesz : Z;
  p_memsz : Z;
  p_align : Z
}.

Definition EHDR_SIZE : Z := 64.
Definition PHDR_SIZE : Z := 56.

(** The field of [n] bytes at [off] of a structure in memory. *)
Definition elf_field (l : list Z) (off n : nat) : Z := bytes_word (take n (drop off l)).

Definition bytes_ehdr (l : list Z) : Elf64_Ehdr :=
  Ehdr (take 16 l) (elf_field l 16 2) (elf_field l 18 2) (elf_field l 20 4) (elf_field l 24 8) (elf_field l 32 8) (elf_field l 40 8)
    (elf_field l 48 4) (elf_field l 52 2) (elf_field l 54 2) (elf_field l 56 2) (elf_field l 58 2) (elf_field l 60 2) (elf_field l 62 2).

Definition bytes_phdr (l : list Z) : Elf64_Phdr :=
  Phdr (elf_field l 0 4) (elf_field l 4 4) (elf_field l 8 8) (elf_field l 16 8) (elf_field l 24 8) (elf_field l 32 8) (elf_field l 40 8) (elf_field l 48 8).

(** The magic number, 64 bits and little-endian. *)
Definition elf_ident_ok (e : Elf64_Ehdr) : bool := bool_decide (take 6 (e_ident e) = [0x7F; 69; 76; 70; 2; 1]).

(** ** Reading the file *)

Section Reader.
Variable reader : Z -> Z -> option (list Z).
Variable size : Z.

Definition elf_reader_read_exact (offset len : Z) : option (list Z) :=
  if (size <? offset) || (size - offset <? len) then None
  else match reader offset len with
       | Some l => if Z.of_nat (length l) =? len then Some l else None
       | None => None
       end.

(** The program headers, one by one. *)
Fixpoint read_phdrs (n : nat) (e : Elf64_Ehdr) (i : Z) : option (list Elf64_Phdr) :=
  match n with
  | O => Some []
  | S n =>
      match elf_reader_read_exact (u64 (e_phoff e + i * e_phentsize e)) PHDR_SIZE with
      | None => None
      | Some l => option_map (cons (bytes_phdr l)) (read_phdrs n e (i + 1))
      end
  end.

(** The checks before the address space is made. *)
Definition elf_headers : option (Elf64_Ehdr * list Elf64_Phdr) :=
  if size <? EHDR_SIZE then None
  else
    match elf_reader_read_exact 0 EHDR_SIZE with
    | None => None
    | Some l =>
        let e := bytes_ehdr l in
        if negb (elf_ident_ok e) || (negb (e_type e =? 2) && negb (e_type e =? 3)) || negb (e_machine e =? 0x3E) || negb (e_version e =? 1) ||
           (e_ehsize e <? EHDR_SIZE) then None
        else if (e_phentsize e <? PHDR_SIZE) || (e_phnum e =? 0) || (128 <? e_phnum e) then None
        else
          let ph_bytes := e_phnum e * e_phentsize e in
          if (size <? e_phoff e) || (size - e_phoff e <? ph_bytes) then None
          else option_map (pair e) (read_phdrs (Z.to_nat (e_phnum e)) e 0)
    end.
End Reader.

Definition elf_memory_reader_read (data : list Z) (size offset len : Z) : option (list Z) :=
  if (size <? offset) || (size - offset <? len) || (2 ^ 63 - 1 <? len) then None else Some (take (Z.to_nat len) (drop (Z.to_nat offset) data)).

(** ** Mapping *)

Definition create_user_space : ST machine Z :=
  let! r := vmm_user_space_create in
  if negb (r =? 0) then st_ret (-1)
  else
    st_mod (fun m => if m_kernel_cr3 m =? 0 then
      Machine (m_pmm m) (m_mem m) (m_cr3 m) (m_tlb m) (Z.land (m_cr3 m) PAGE_MASK) (m_fb_phys m) (m_fb_size m) (m_user_pml4 m) (m_user_valid m) else m) ;;;
    let! m := st_get in
    st_ret (if negb (vmm_user_cr3 m =? 0) then 0 else -1).

(** A page that is there already gets the rights of both. *)
Definition merged_flags (pte p_flags : Z) : Z :=
  Z.lor (if has pte PTE_W || has p_flags 2 then PTE_W else 0) (if has pte PTE_NX && negb (has p_flags 1) then PTE_NX else 0).

(** A new page, mapped and then cleared. *)
Definition map_clear_page (va flags : Z) : ST machine bool :=
  let! phys := alloc_page in
  if phys =? 0 then st_ret false
  else
    let! r := vmm_user_map va phys flags in
    if negb (r =? 0) then st_ret false
    else
      let! m := st_get in
      match pmm_phys_to_virt (m_pmm m) phys with
      | None => st_ret false
      | Some _ => zero_page phys ;;; st_ret true
      end.

Definition segment_flags (p_flags : Z) : Z := Z.lor (if has p_flags 2 then PTE_W else 0) (if has p_flags 1 then 0 else PTE_NX).

Definition map_page (p_flags va : Z) : ST machine bool :=
  let! m := st_get in
  match vmm_user_translate m va with
  | Some (_, pte) =>
      if has pte PTE_P then let! r := vmm_user_protect va (merged_flags pte p_flags) in st_ret (r =? 0)
      else map_clear_page va (segment_flags p_flags)
  | None => map_clear_page va (segment_flags p_flags)
  end.

Fixpoint map_pages (n : nat) (p_flags va : Z) : ST machine Z :=
  match n with
  | O => st_ret 0
  | S n => let! ok := map_page p_flags va in if negb ok then st_ret (-1) else map_pages n p_flags (va + PAGE_SIZE)
  end.

Definition map_user_range (start end_ p_flags : Z) : ST machine Z :=
  if (end_ <=? start) || (USER_LIMIT <? end_) then st_ret (-1)
  else
    let first := Z.land start PAGE_MASK in
    let last := page_up end_ in
    map_pages (pages_of (last - first)) p_flags first.

Fixpoint stack_pages (n : nat) (va : Z) : ST machine Z :=
  match n with
  | O => st_ret 0
  | S n =>
      let! ok := map_clear_page va (Z.lor PTE_W PTE_NX) in
      if negb ok then st_ret (-1) else stack_pages n (va + PAGE_SIZE)
  end.

Definition map_user_stack : ST machine Z := stack_pages (pages_of USER_STACK_SIZE) (USER_STACK_TOP - USER_STACK_SIZE).

(** ** Segments *)

(** The loop that copies a segment from the file; false when it fails. *)
Fixpoint copy_chunks (fuel : nat) (read : Z -> Z -> option (list Z)) (cr3 va off filesz copied : Z) : ST machine bool :=
  if filesz <=? copied then st_ret true
  else
    match fuel with
    | O => st_ret false
    | S fuel =>
        let chunk := Z.min (filesz - copied) 4096 in
        match read (off + copied) chunk with
        | None => st_ret false
        | Some l =>
            let! r := copy_to_user_loader cr3 (va + copied) l in
            if negb (r =? 0) then st_ret false else copy_chunks fuel read cr3 va off filesz (copied + chunk)
        end
    end.

(** Mapping the pages of the segment [ph] at [va] and filling them. *)
Definition put_segment (read : Z -> Z -> option (list Z)) (cr3 va : Z) (ph : Elf64_Phdr) : ST machine bool :=
  let end_ := va + p_memsz ph in
  let map_start := Z.land va PAGE_MASK in
  let map_end := page_up end_ in
  if map_end <=? map_start then st_ret false
  else
    let! r := map_user_range map_start map_end (p_flags ph) in
    if negb (r =? 0) then st_ret false
    else
      let! ok := copy_chunks (Z.to_nat (p_filesz ph)) read cr3 va (p_offset ph) (p_filesz ph) 0 in
      if negb ok then st_ret false
      else if p_filesz ph <? p_memsz ph then
        let! r := zero_user_loader cr3 (va + p_filesz ph) (p_memsz ph - p_filesz ph) in st_ret (r =? 0)
      else st_ret true.

(** What the loops over the segments keep: how many there were, whether one
    holds the entry and may be executed, and the end of the image. *)
Record load_state := Load { load_count : Z; entry_exec : bool; image_end : Z }.

Definition holds_entry (ph : Elf64_Phdr) (entry va : Z) : bool := has (p_flags ph) 1 && (va <=? entry) && (entry <? va + p_memsz ph).

(** A range of the file, and a place below the limit. *)
Definition segment_ok (size bias : Z) (ph : Elf64_Phdr) : bool :=
  (p_filesz ph <=? p_memsz ph) && (p_offset ph <=? size) && (p_filesz ph <=? size - p_offset ph) && (p_vaddr ph <=? UINT64_MAX - p_memsz ph) &&
  (let va := u64 (p_vaddr ph + bias) in let end_ := u64 (va + p_memsz ph) in
   (p_vaddr ph <=? va) && (va <? USER_LIMIT) && (end_ <=? USER_LIMIT) && (va <=? end_)).

Section Load.
Variable read : Z -> Z -> option (list Z).
Variables (size bias entry cr3 : Z).

(** One turn of the loop of load_elf_with_args_reader; [None] when it fails. *)
Definition load_segment (ph : Elf64_Phdr) (s : load_state) : ST machine (option load_state) :=
  if negb (p_type ph =? PT_LOAD) then st_ret (Some s)
  else
    let s := Load (load_count s + 1) (entry_exec s) (image_end s) in
    if p_memsz ph =? 0 then st_ret (Some s)
    else if negb (segment_ok size bias ph) then st_ret None
    else
      let va := u64 (p_vaddr ph + bias) in
      let end_ := va + p_memsz ph in
      let! ok := put_segment read cr3 va ph in
      if negb ok then st_ret None
      else st_ret (Some (Load (load_count s) (entry_exec s || holds_entry ph entry va) (Z.max (image_end s) end_))).

(** One turn of the loop of load_bootfs_elf_image, which refuses empty segments. *)
Definition load_interp_segment (ph : Elf64_Phdr) (s : load_state) : ST machine (option load_state) :=
  if negb (p_type ph =? PT_LOAD) then st_ret (Some s)
  else if (p_memsz ph =? 0) || negb (segment_ok size bias ph) then st_ret None
  else
    let va := u64 (p_vaddr ph + bias) in
    let! ok := put_segment read cr3 va ph in
    if negb ok then st_ret None else st_ret (Some (Load (load_count s + 1) (entry_exec s || holds_entry ph entry va) (image_end s))).

Fixpoint load_segments (one : Elf64_Phdr -> load_state -> ST machine (option load_state)) (l : list Elf64_Phdr) (s : load_state) : ST machine (option load_state) :=
  match l with
  | [] => st_ret (Some s)
  | ph :: l => let! r := one ph s in match r with None => st_ret None | Some s => load_segments one l s end
  end.
End Load.

Definition no_segment : load_state := Load 0 false 0.

Section Bootfs.
Variable bootfs_file_size : cstr -> Z.
Variable bootfs_read_root_file : cstr -> Z -> Z -> list Z.

Definition bootfs_read_exact (path : cstr) (off n : Z) : option (list Z) :=
  let l := bootfs_read_root_file path off n in if Z.of_nat (length l) =? n then Some l else None.

(** The program header [i] of the interpreter, in the first 4096 bytes of the
    file; what was not read is what the stack held, [junk]. *)
Definition interp_phdr (hdr : list Z) (e : Elf64_Ehdr) (i : Z) : Elf64_Phdr := bytes_phdr (drop (Z.to_nat (e_phoff e + i * e_phentsize e)) hdr).

Definition interp_headers (junk : list Z) (path : cstr) (file_size : Z) : option (Elf64_Ehdr * list Elf64_Phdr) :=
  let got := bootfs_read_root_file path 0 4096 in
  if Z.of_nat (length got) <? EHDR_SIZE then None
  else
    let hdr := got ++ drop (length got) junk in
    let e := bytes_ehdr hdr in
    if negb (elf_ident_ok e) || negb (e_machine e =? 0x3E) || (negb (e_type e =? 2) && negb (e_type e =? 3)) || (e_phentsize e <? PHDR_SIZE) || (e_phnum e =? 0) then None
    else
      let ph_bytes := e_phnum e * e_phentsize e in
      if (file_size <? e_phoff e) || (file_size - e_phoff e <? ph_bytes) || (4096 <? e_phoff e) || (4096 - e_phoff e <? ph_bytes) then None
      else Some (e, map (interp_phdr hdr e) (seqZ 0 (e_phnum e))).

(** The entry of the interpreter. *)
Definition load_bootfs_elf_image (junk : list Z) (cr3 : Z) (path : cstr) (bias : Z) : ST machine (option Z) :=
  let file_size := bootfs_file_size path in
  if is_nil path || (file_size <? EHDR_SIZE) || (Z.shiftl 64 20 <? file_size) then st_ret None
  else
    match interp_headers junk path file_size with
    | None => st_ret None
    | Some (e, phdrs) =>
        let entry := u64 (e_entry e + bias) in
        let! r := load_segments (load_interp_segment (bootfs_read_exact path) file_size bias entry cr3) phdrs no_segment in
        match r with
        | None => st_ret None
        | Some s => st_ret (if (load_count s =? 0) || negb (entry_exec s) || (USER_LIMIT <=? entry) then None else Some entry)
        end
    end.
End Bootfs.
