(* ===== verification/Exec.v ===== *)
(** * Starting a program

    The first stack of a program, the whole loader and the execve system call
    ([src/kernel/main.c], kernel_execve_file_args of [src/kernel/main.rs]).
    The files of the boot medium are a parameter; traces are left out. *)

From Stdlib Require Import String.
From S2P Require Import Prelude Words Pmm Vmm CStr Vfs Kernel Tty Fd Sched UserCopy Pipe Signals LazyMmap Poll Mmap Process Elf.
Local Open Scope Z_scope.
Local Open Scope st_scope.

Definition E2BIG : Z := 7.
Definition ENOEXEC : Z := 8.

(** ** The first stack *)

(** The address of the program headers in memory, 0 when there is none. *)
Definition phdr_address (e : Elf64_Ehdr) (phdrs : list Elf64_Phdr) (bias : Z) : Z :=
  let named := match find (fun ph => p_type ph =? PT_PHDR) phdrs with Some ph => u64 (p_vaddr ph + bias) | None => 0 end in
  if negb (named =? 0) then named
  else
    match find (fun ph => (p_type ph =? PT_LOAD) && (p_offset ph <=? e_phoff e) && (e_phoff e <? u64 (p_offset ph + p_filesz ph))) phdrs with
    | Some ph => u64 (p_vaddr ph + (e_phoff e - p_offset ph) + bias)
    | None => 0
    end.

(** The name of the program, with a slash before it, in 127 bytes. *)
Definition execfn (exec_path : cstr) : cstr :=
  match exec_path with
  | [] => [SLASH; 63]
  | c :: _ => take 127 (if c =? SLASH then exec_path else SLASH :: exec_path)
  end.

Definition random_words : list Z := [0x51; 0x8b; 0x2d; 0x71; 0x19; 0xc4; 0x63; 0xa7; 0x9e; 0x42; 0xd8; 0x05; 0x6c; 0xf1; 0x37; 0xb0].

Definition down16 (x : Z) : Z := Z.land x (not64 0xF).

Definition execfn_va : Z := down16 (USER_STACK_TOP - 64).
Definition random_va : Z := down16 (execfn_va - 16).

(** copy_to_user(user_cr3, va, l, len) == 0, followed by [rest]. *)
Definition put {A} (cr3 va : Z) (l : list Z) (rest : ST machine (option A)) : ST machine (option A) :=
  let! r := copy_to_user cr3 va l in if negb (r =? 0) then st_ret None else rest.

(** The strings below one another from [cursor] down; their addresses and the
    new cursor. *)
Fixpoint put_strings (cr3 : Z) (l : list cstr) (cursor : Z) (vas : list Z) : ST machine (option (list Z * Z)) :=
  match l with
  | [] => st_ret (Some (vas, cursor))
  | s :: l =>
      if (255 <? length s)%nat then st_ret None
      else
        let cursor := down16 (u64 (cursor - (Z.of_nat (length s) + 1))) in
        put cr3 cursor (s ++ [0]) (put_strings cr3 l cursor (vas ++ [cursor]))
  end.

(** The words from [pos] on, one copy each. *)
Fixpoint put_words (cr3 pos : Z) (l : list Z) (rest : ST machine (option Z)) : ST machine (option Z) :=
  match l with
  | [] => rest
  | w :: l => put cr3 pos (word_bytes w) (put_words cr3 (pos + 8) l rest)
  end.

Definition auxv_words (phdr_va phnum entry interp_base : Z) : list Z :=
  (if negb (phdr_va =? 0) then [3; phdr_va] else []) ++ [4; PHDR_SIZE; 5; phnum; 6; PAGE_SIZE; 9; entry] ++
  (if negb (interp_base =? 0) then [7; interp_base] else []) ++ [25; random_va; 31; execfn_va; 0; 0].

(** argc, the addresses of the arguments, those of the environment, a null word
    behind each. *)
Definition stack_vector (argv_va envp_va : list Z) : list Z := Z.of_nat (length argv_va) :: argv_va ++ [0] ++ envp_va ++ [0].

Definition vector_bytes (argv_va envp_va auxv : list Z) : Z := 8 * Z.of_nat (length (stack_vector argv_va envp_va) + length auxv).

(** Where the vector starts below the strings. *)
Definition vector_base (cursor bytes : Z) : Z := Z.lor (down16 (cursor - 16 - bytes - 8)) 8.

(** The last check: the vector can be written and is clear of the strings. *)
Definition check_vector (cursor sp bytes : Z) : ST machine (option Z) :=
  let! m := st_get in st_ret (if negb (vmm_user_range_ok m sp bytes true) || (cursor - 16 <? sp + bytes) then None else Some sp).

(** The vector below the strings; the stack pointer, [None] for -1. *)
Definition put_vector (cr3 cursor : Z) (argv_va envp_va auxv : list Z) : ST machine (option Z) :=
  let bytes := vector_bytes argv_va envp_va auxv in
  let sp := vector_base cursor bytes in
  if (cursor <? bytes + 16 + 8) || (cursor - 16 <? sp + bytes) then st_ret None
  else
    let l := stack_vector argv_va envp_va in
    put_words cr3 sp l (put cr3 (sp + 8 * Z.of_nat (length l)) (concat (map word_bytes auxv)) (check_vector cursor sp bytes)).

(** The strings, then the vector. *)
Definition put_args (cr3 : Z) (argv envp : list cstr) (auxv : list Z) : ST machine (option Z) :=
  let! a := put_strings cr3 argv random_va [] in
  match a with
  | None => st_ret None
  | Some (argv_va, cursor) =>
      let! b := put_strings cr3 envp cursor [] in
      match b with
      | None => st_ret None
      | Some (envp_va, cursor) => put_vector cr3 cursor argv_va envp_va auxv
      end
  end.

Definition init_user_stack (cr3 : Z) (e : Elf64_Ehdr) (phdrs : list Elf64_Phdr) (exec_path : cstr) (argv envp : list cstr) (bias entry interp_base : Z)
  : ST machine (option Z) :=
  let fn := execfn exec_path in
  if (16 <? length argv)%nat || (16 <? length envp)%nat then st_ret None
  else
    let auxv := auxv_words (phdr_address e phdrs bias) (e_phnum e) (if negb (entry =? 0) then entry else u64 (e_entry e + bias)) interp_base in
    put cr3 execfn_va (fn ++ [0]) (put cr3 random_va random_words (put_args cr3 (if is_nil argv then [fn] else argv) envp auxv)).

(** ** Loading a program *)

Definition user_heap_reset_for_image (image_end : Z) : ST kernel unit :=
  let base := if USER_HEAP_BASE <? image_end then page_up image_end else USER_HEAP_BASE in
  let base := if base <? USER_HEAP_BASE then USER_HEAP_BASE else base in
  let base := if USER_HEAP_MAX <=? base then USER_HEAP_MAX - PAGE_SIZE else base in
  let! k := st_get in
  if task_ok (k_current k) && t_used (task k (k_current k)) then
    st_mod (upd_task (k_current k) (fun t => t <| t_heap_base := base |> <| t_heap_end := base |>))
  else st_ret tt.

(** The string in a buffer. *)
Fixpoint until_nul (l : list Z) : cstr :=
  match l with
  | [] => []
  | c :: l => if c =? 0 then [] else c :: until_nul l
  end.

(** The path of the interpreter, empty when the file names none; [None] when it cannot be read. *)
Definition interp_path (reader : Z -> Z -> option (list Z)) (size : Z) (phdrs : list Elf64_Phdr) : option cstr :=
  match find (fun ph => p_type ph =? PT_INTERP) phdrs with
  | None => Some []
  | Some ph =>
      if (p_filesz ph =? 0) || (ELF_INTERP_PATH_MAX <=? p_filesz ph) || (size <? p_offset ph) || (size - p_offset ph <? p_filesz ph) then None
      else option_map (fun l => until_nul (take (Z.to_nat (p_filesz ph - 1)) l)) (elf_reader_read_exact reader size (p_offset ph) (p_filesz ph))
  end.

Section Bootfs.
(** The size of the file with this path on the boot medium. *)
Variable find_file_in_root : cstr -> option Z.
Variable bootfs_read_root_file : cstr -> Z -> Z -> list Z.
(** What the stack holds where the header of the interpreter is read to. *)
Variable junk : list Z.

Definition bootfs_file_size (path : cstr) : Z := default 0 (find_file_in_root path).

(** The entry and the stack pointer, [None] for the result 0. *)
Definition load_elf_with_args_reader (reader : Z -> Z -> option (list Z)) (size : Z) (exec_path : cstr) (argv envp : list cstr) : ST kernel (option (Z * Z)) :=
  match elf_headers reader size with
  | None => st_ret None
  | Some (e, phdrs) =>
      let! r := on_vm create_user_space in
      if negb (r =? 0) then st_ret None
      else
        let! k := st_get in
        let cr3 := vmm_user_cr3 (k_vm k) in
        let bias := if e_type e =? 3 then KYRONIX_PIE_BASE else 0 in
        let entry := u64 (e_entry e + bias) in
        if entry <? e_entry e then st_ret None
        else
          let! s := on_vm (load_segments (load_segment (elf_reader_read_exact reader size) size bias entry cr3) phdrs no_segment) in
          match s with
          | None => st_ret None
          | Some s =>
              if (load_count s =? 0) || negb (entry_exec s) || (USER_LIMIT <=? entry) then st_ret None
              else
                user_heap_reset_for_image (image_end s) ;;;
                match interp_path reader size phdrs with
                | None => st_ret None
                | Some path =>
                    let base := if is_nil path then 0 else KYRONIX_INTERP_BASE in
                    let! i := if is_nil path then st_ret (Some 0) else on_vm (load_bootfs_elf_image bootfs_file_size bootfs_read_root_file junk cr3 path base) in
                    match i with
                    | None => st_ret None
                    | Some interp_entry =>
                        let! r := on_vm map_user_stack in
                        if negb (r =? 0) then st_ret None
                        else
                          let! sp := on_vm (init_user_stack cr3 e phdrs exec_path argv envp bias entry base) in
                          st_ret (option_map (pair (if negb (interp_entry =? 0) then interp_entry else entry)) sp)
                    end
                end
          end
  end.

Definition load_elf_with_args (data : list Z) (exec_path : cstr) (argv envp : list cstr) : ST kernel (option (Z * Z)) :=
  let size := Z.of_nat (length data) in load_elf_with_args_reader (elf_memory_reader_read data size) size exec_path argv envp.

Definition load_elf (data : list Z) (exec_path : cstr) : ST kernel (option (Z * Z)) := load_elf_with_args data exec_path [] [].

(** ** execve *)

Definition MAX_EXEC_FILE : Z := 128 * 1024 * 1024.

(** kernel_execve_source_read for a file of the tables and for one of the boot medium. *)
Definition exec_source_read (size : Z) (source : Z -> Z -> list Z) (offset len : Z) : option (list Z) :=
  if (size <? offset) || (size - offset <? len) then None else Some (if len =? 0 then [] else source offset len).

(** The error, or the entry and the stack pointer. *)
Definition kernel_execve_file_args (path : cstr) (argv envp : list cstr) : ST kernel (Z + Z * Z) :=
  let exec_path := if hd 0 path =? SLASH then path else SLASH :: path in
  let load size source :=
    let! r := load_elf_with_args_reader (exec_source_read size source) size exec_path argv envp in
    st_ret (match r with Some p => inr p | None => inl (- ENOEXEC) end) in
  if 259 <=? Z.of_nat (length exec_path) then st_ret (inl (- ENAMETOOLONG))
  else
    match find_file_in_root exec_path with
    | Some size => if (size =? 0) || (MAX_EXEC_FILE <? size) then st_ret (inl (- ENOEXEC)) else load size (bootfs_read_root_file exec_path)
    | None =>
        let! vn := on_vfs (vfs_lookup exec_path) in
        let! k := st_get in
        match vn with
        | Some vn =>
            if negb (vfs_file_is_regular (k_vfs k) vn) then st_ret (inl (- ENOENT))
            else
              let size := vfs_file_size (k_vfs k) vn in
              if (size =? 0) || (MAX_EXEC_FILE <? size) then st_ret (inl (- ENOEXEC))
              else
                match vfs_file_data (k_vfs k) vn with
                | None => st_ret (inl (- ENOEXEC))
                | Some d => load size (fun off n => data_bytes k (Some d) off n)
                end
        | None => st_ret (inl (- ENOENT))
        end
    end.

(** The entry may be executed and the stack written by the user. *)
Definition exec_target_valid (m : machine) (cr3 entry stack : Z) : bool :=
  if (entry =? 0) || (stack =? 0) || (USER_LIMIT <=? entry) || (USER_STACK_TOP <? stack) || (stack <? 16) then false
  else
    let entry_page := Z.land entry PAGE_MASK in
    let stack_page := Z.land (stack - 1) PAGE_MASK in
    match vmm_user_translate_cr3 m cr3 entry_page, vmm_user_translate_cr3 m cr3 stack_page with
    | Some (_, pe), Some (_, ps) =>
        (vmm_user_validate_page_cr3 m cr3 entry_page false true =? 0) && has pe PTE_P && has pe PTE_U && negb (has pe PTE_NX) &&
        (vmm_user_validate_page_cr3 m cr3 stack_page true false =? 0) && has ps PTE_P && has ps PTE_U && has ps PTE_W &&
        vmm_user_range_ok m (stack - 16) 16 true
    | _, _ => false
    end.

(** The array of strings at [ptr]: at most 15 before the null pointer; the error
    or the strings. *)
Fixpoint user_strings (n : nat) (k : kernel) (ptr i : Z) : Z + list cstr :=
  match n with
  | O => inl (- E2BIG)
  | S n =>
      match user_copy_from k (u64 (ptr + i * 8)) 8 with
      | None => inl (- EFAULT)
      | Some l =>
          if bytes_word l =? 0 then inr []
          else
            match user_copy_cstr k (bytes_word l) 256 with
            | (0, s) => match user_strings n k ptr (i + 1) with inl e => inl e | inr r => inr (s :: r) end
            | _ => inl (- EFAULT)
            end
      end
  end.

Definition strings_arg (k : kernel) (ptr : Z) : Z + list cstr := if ptr =? 0 then inr [] else user_strings 16 k ptr 0.

(** An empty name becomes the path. *)
Definition name_argv0 (path : cstr) (argv : list cstr) : list cstr :=
  match argv with [] :: rest => if is_nil path then argv else take 255 path :: rest | _ => argv end.

(** The descriptors that are closed when a program starts. *)
Fixpoint close_on_exec (n : nat) (fd : Z) : ST kernel unit :=
  match n with
  | O => st_ret tt
  | S n =>
      let! k := st_get in
      (if f_in_use (file k fd) && has (f_flags (file k fd)) 0x80000 then let! _ := sys_close fd in st_ret tt else st_ret tt) ;;;
      close_on_exec n (fd + 1)
  end.

(** The task [ti] runs the new program. *)
Definition enter_image (ti cr3 entry stack : Z) : ST kernel unit :=
  st_mod (upd_task ti (fun t =>
    let c := set_reg (set_reg (set_reg (t_ctx t) RAX 0) RSP stack) RIP entry in
    let c := set_reg (set_reg (set_reg (set_reg c RFLAGS 0x202) CR3 cr3) FS_BASE 0) GS_BASE 0 in
    t <| t_mmap_next := USER_MMAP_MIN |> <| t_lazy_mmaps := replicate (Z.to_nat MAX_LAZY_USER_MMAPS) blank_lazy_user_mmap_t |> <| t_ctx := c |>)) ;;;
  st_mod (fun k => k <| k_syscall_user_cr3 := cr3 |> <| k_syscall_user_rip := entry |> <| k_syscall_user_rsp := stack |> <| k_syscall_user_rflags := 0x202 |>
    <| k_syscall_saved_rax := 0 |> <| k_user_exec_pending := true |>).

(** From the address space with the new program on. *)
Definition exec_commit (path : cstr) (entry stack : Z) : ST kernel Z :=
  let! k := st_get in
  let cr3 := vmm_user_cr3 (k_vm k) in
  if cr3 =? 0 then st_ret (- ENOMEM)
  else
    st_mod (fun k => if is_nil path then k else k <| k_current_exe := take 127 path |>) ;;;
    if negb (exec_target_valid (k_vm k) cr3 entry stack) then st_ret (- ENOMEM)
    else
      task_init_root ;;;
      let! k := st_get in
      let ti := k_current k in
      if negb (task_ok ti) || negb (t_used (task k ti)) then st_ret (-3)
      else
        let old := Z.land (t_ctx (task k ti) CR3) PAGE_MASK in
        (if negb (old =? 0) && negb (old =? Z.land cr3 PAGE_MASK) && negb (task_cr3_is_shared k ti)
         then let! _ := on_vm (vmm_user_space_destroy old) in st_ret tt else st_ret tt) ;;;
        close_on_exec (Z.to_nat MAX_FILES) 0 ;;;
        enter_image ti cr3 entry stack ;;;
        st_ret 0.

Definition sys_execve (path argv envp : Z) : ST kernel Z :=
  let! k := st_get in
  let! r := if k_syscall_user_cr3 k =? 0 then st_ret (-1) else on_vm (vmm_user_activate (k_syscall_user_cr3 k)) in
  if negb (r =? 0) then st_ret (- EFAULT)
  else
    let! k := st_get in
    match user_copy_cstr k path 128 with
    | (0, kpath) =>
        match strings_arg k argv, strings_arg k envp with
        | inr args, inr env =>
            let! r := kernel_execve_file_args kpath (name_argv0 kpath args) env in
            match r with
            | inl e => st_ret e
            | inr (entry, stack) => exec_commit kpath entry stack
            end
        | inl e, _ => st_ret e
        | _, inl e => st_ret e
        end
    | _ => st_ret (- EFAULT)
    end.
End Bootfs.
