(* ===== verification/ElfFacts.v ===== *)
(** * What loading a program does to memory

    The reference: a flat memory that maps each address to a byte and its
    rights.  The page tables and frames of the kernel refine it, page by page and
    segment by segment, up to the loading of a whole file. *)

From Stdlib Require Import String.
From S2P Require Import Prelude Words Pmm PmmFacts PmmInit PmmThms PageAlloc Vmm VmmFacts VmmMap VmmSpace VmmThms CStr Vfs Kernel.
From S2P Require Import Tty Fd Sched UserCopy UserMem UserMemThms LazyMmap LazyFacts Signals SignalFacts Mmap MmapFacts Elf.
Local Open Scope Z_scope.
Local Open Scope st_scope.

(** ** Flat memory *)

Record spot := Spot { sp_byte : Z; sp_write : bool; sp_exec : bool }.
Definition image : Type := Z -> option spot.

Definition empty_image : image := fun _ => None.

Definition in_range (lo hi a : Z) : bool := (lo <=? a) && (a <? hi).

(** Pages from [lo] to [hi] with these rights: new ones are zero, those that are
    there keep their bytes and get the rights of both. *)
Definition map_image (lo hi : Z) (w x : bool) (U : image) : image := fun a =>
  if in_range lo hi a then
    Some (match U a with Some s => Spot (sp_byte s) (sp_write s || w) (sp_exec s || x) | None => Spot 0 w x end)
  else U a.

(** New pages of zeroes, whatever was there. *)
Definition clear_image (lo hi : Z) (w x : bool) (U : image) : image := fun a => if in_range lo hi a then Some (Spot 0 w x) else U a.

(** The bytes [l] stored from [dst] on. *)
Definition poke_image (dst : Z) (l : list Z) (U : image) : image := fun a =>
  if in_range dst (dst + Z.of_nat (length l)) a
  then option_map (fun s => Spot (nth (Z.to_nat (a - dst)) l 0) (sp_write s) (sp_exec s)) (U a)
  else U a.

Lemma in_range_true lo hi a : lo <= a < hi -> in_range lo hi a = true.
Proof. unfold in_range. lia. Qed.
Lemma in_range_false lo hi a : ~ lo <= a < hi -> in_range lo hi a = false.
Proof. unfold in_range. lia. Qed.
Lemma in_range_spec lo hi a : reflect (lo <= a < hi) (in_range lo hi a).
Proof. destruct (in_range lo hi a) eqn:E; constructor; unfold in_range in E; lia. Qed.

Ltac in_ranges := repeat match goal with |- context [in_range ?l ?h ?a] => destruct (in_range_spec l h a) end.

(** Two images a process cannot tell apart. *)
Definition same_image (U V : image) : Prop := forall a, user_va a -> U a = V a.

#[export] Instance same_image_equiv : Equivalence same_image.
Proof.
  split; [done | by intros U V H a Ha; rewrite H | by intros U V W H1 H2 a Ha; rewrite H1, H2].
Qed.
#[export] Instance map_image_proper lo hi w x : Proper (same_image ==> same_image) (map_image lo hi w x).
Proof. intros U V H a Ha. unfold map_image. by rewrite H. Qed.
#[export] Instance clear_image_proper lo hi w x : Proper (same_image ==> same_image) (clear_image lo hi w x).
Proof. intros U V H a Ha. unfold clear_image. by rewrite H. Qed.
#[export] Instance poke_image_proper dst l : Proper (same_image ==> same_image) (poke_image dst l).
Proof. intros U V H a Ha. unfold poke_image. by rewrite H. Qed.

Lemma map_image_next lo mid hi w x U : lo <= mid <= hi -> same_image (map_image mid hi w x (map_image lo mid w x U)) (map_image lo hi w x U).
Proof. intros H a _. unfold map_image. in_ranges; (done || lia). Qed.

Lemma clear_image_next lo mid hi w x U : lo <= mid <= hi -> same_image (clear_image mid hi w x (clear_image lo mid w x U)) (clear_image lo hi w x U).
Proof. intros H a _. unfold clear_image. in_ranges; (done || lia). Qed.

Lemma poke_image_app dst l1 l2 U : same_image (poke_image (dst + Z.of_nat (length l1)) l2 (poke_image dst l1 U)) (poke_image dst (l1 ++ l2) U).
Proof.
  intros a _. unfold poke_image. rewrite length_app. destruct (U a) as [s|]; [|by in_ranges]. in_ranges; try (done || lia); cbn [option_map sp_write sp_exec].
  - rewrite app_nth2 by lia. do 3 f_equal. lia.
  - by rewrite app_nth1 by lia.
Qed.

Lemma poke_image_nil dst U : same_image (poke_image dst [] U) U.
Proof. intros a _. unfold poke_image. cbn [length]. in_ranges; (done || lia). Qed.

Section Load.
Context {HB : HhdmBase} {inv : pmm -> Prop} {held : pmm -> Z -> Prop} `{PA : !PageAllocator inv held}.
Local Abbreviation space_ok := (space_ok (inv := inv) (held := held)).
Local Abbreviation data_page := (data_page (held := held)).

(** ** The flat memory of the active address space *)

Definition seen (m : machine) : image := fun a =>
  match ubyte m (m_user_pml4 m) a with
  | Some b => Some (Spot b (has (upte m a) PTE_W) (negb (has (upte m a) PTE_NX)))
  | None => None
  end.

(** An address space whose pages are the user's, its own and not shared. *)
Record loading (m : machine) (U : image) : Prop := {
  ld_space : space_ok m;
  ld_leaf : forall a, user_va a -> has (upte m a) PTE_P = true -> has (upte m a) PTE_U = true /\ has (upte m a) PTE_COW = false;
  ld_seen : same_image (seen m) U
}.

Lemma loading_same m U V : same_image U V -> loading m U -> loading m V.
Proof. intros E [H1 H2 H3]. split; [done | done | by rewrite H3]. Qed.

Lemma loading_present m U a : loading m U -> user_va a -> has (upte m a) PTE_P = upresent m a /\ upresent m a = is_some (U a).
Proof.
  intros [Hs Hl Hv] Ha. split.
  - unfold upresent. destruct (has (upte m a) PTE_P) eqn:E; [|done]. by destruct (Hl a Ha E) as [-> _].
  - rewrite <- (Hv a Ha). unfold seen. rewrite ubyte_eq by done. by destruct (upresent m a).
Qed.

Lemma loading_some m U a s : loading m U -> user_va a -> U a = Some s -> has (upte m a) PTE_W = sp_write s /\ has (upte m a) PTE_NX = negb (sp_exec s).
Proof.
  intros H Ha E. pose proof (ld_seen _ _ H a Ha) as Hs. rewrite E in Hs. unfold seen in Hs. destruct (ubyte _ _ _); [|done].
  injection Hs as <-. cbn [sp_write sp_exec]. by rewrite negb_involutive.
Qed.

(** Changes that the process does not see. *)
Lemma loading_view m m' U : space_ok m' -> same_view m m' -> loading m U -> loading m' U.
Proof.
  intros Hs [Er Hv] [_ H2 H3]. split; [done | |].
  - intros a Ha. rewrite (proj1 (Hv a Ha)). by apply H2.
  - intros a Ha. rewrite <- H3 by done. unfold seen. destruct (Hv a Ha) as [-> B]. by rewrite Er, B.
Qed.

(** ** Pages *)

Lemma segment_flags_spec p : has (segment_flags p) PTE_W = has p 2 /\ has (segment_flags p) PTE_NX = negb (has p 1).
Proof. unfold segment_flags. destruct (has p 2), (has p 1); vm_compute; done. Qed.

Lemma leaf_pte_u64 p flags : is_u64 (leaf_pte p flags).
Proof.
  pose proof (addr_of_range p) as Hx. unfold addr_of in Hx. unfold leaf_pte, is_u64.
  apply lor_range; [lia | apply lor_range; [lia | apply lor_range; [lia | lia |] |] | apply (land_range _ _ 64); [lia|]]; vm_compute; split; congruence.
Qed.

Lemma zero_fill_bytes m va m' : space_ok m -> page_va va -> upresent m va = true ->
  m' = set_mem (write_bytes (m_mem m) (addr_of (upte m va)) (replicate (Z.to_nat PAGE_SIZE) 0)) m ->
  space_ok m' /\ (forall a, user_va a -> upte m' a = upte m a) /\
  forall a, user_va a -> ubyte m' (m_user_pml4 m) a = if a / PAGE_SIZE =? va / PAGE_SIZE then Some 0 else ubyte m (m_user_pml4 m) a.
Proof.
  intros Hs [Hv _] Hp. assert (Hlen : Z.of_nat (length (replicate (Z.to_nat PAGE_SIZE) 0)) = PAGE_SIZE) by (rewrite length_replicate; done).
  assert (Hb : Forall (fun b => 0 <= b < 256) (replicate (Z.to_nat PAGE_SIZE) 0)) by (apply Forall_replicate; lia).
  assert (Hn : forall j, nth j (replicate (Z.to_nat PAGE_SIZE) 0) 0 = 0) by (intros; apply nth_zeroes).
  revert Hlen Hb Hn. generalize (replicate (Z.to_nat PAGE_SIZE) 0). intros l Hlen Hb Hn.
  destruct (store_page m va 0 l Hs Hv Hp Hb (Z.le_refl 0) ltac:(lia)) as (H1 & H2 & H3). rewrite Z.add_0_r in H1, H2, H3. intros ->. split; [exact H1|]. split; [exact H2|].
  intros a Ha. rewrite H3, Hn by done. assert (0 <= a mod PAGE_SIZE < PAGE_SIZE) by (apply Z.mod_pos_bound; done). destruct (Z.eqb_spec (a / PAGE_SIZE) (va / PAGE_SIZE)); [|done]. cbn [andb].
  by rewrite (proj2 (Z.leb_le _ _)), (proj2 (Z.ltb_lt _ _)) by lia.
Qed.

Lemma map_clear_spec m U va flags ok m' : loading m U -> page_va va -> map_clear_page va flags m = (ok, m') ->
  (ok = true /\ m_user_pml4 m' = m_user_pml4 m /\ loading m' (clear_image va (va + PAGE_SIZE) (has flags PTE_W) (negb (has flags PTE_NX)) U)) \/ ok = false.
Proof.
  intros Hm Hva. unfold map_clear_page, st_bind at 1. destruct (alloc_page m) as [p m1] eqn:Ea.
  destruct (alloc_same_view m p m1 (ld_space _ _ Hm) Ea) as (Hs1 & Hv1 & _ & _ & Hp). destruct (Z.eqb_spec p 0) as [->|Hp0]; [intros [= <- <-]; by right|].
  destruct (Hp Hp0) as [Hd1 Hf1]. destruct (data_page_reach m1 p (so_user _ Hs1) Hd1) as (Hal & Hr & _). pose proof (loading_view m m1 U Hs1 Hv1 Hm) as Hm1.
  unfold st_bind at 1. destruct (vmm_user_map va p flags m1) as [r m2] eqn:Em.
  destruct (vmm_user_map_spec m1 va p flags r m2 (so_user _ Hs1) Hva) as [[-> Hl]|(-> & _)]; [split; [done | unfold PMM_TRACK_LIMIT in *; lia] | done | | intros [= <- <-]; by right].
  change (negb (0 =? 0)) with false. cbv iota. destruct (leaf_pte_spec p flags Hal) as (Ea' & EP & EU & EC & EW & EN); [unfold PMM_TRACK_LIMIT in *; lia|].
  assert (Hs2 : space_ok m2).
  { apply (leaf_space m1 m2 va _ Hs1 (proj1 Hva) Hl). intros _. rewrite Ea'. split; [apply leaf_pte_u64|].
    split; [by apply (leaf_data_page m1 m2 va _ Hl)|]. intros a Ha Hpa _. by apply Hf1. }
  pose proof (leaf_upte m1 m2 va _ Hl va (proj1 Hva)) as Ew. rewrite Z.eqb_refl in Ew.
  assert (Hpv : upresent m2 va = true) by (unfold upresent; by rewrite Ew, EP, EU).
  unfold st_bind at 1, st_get. assert (Hd2 : data_page m2 p) by (by apply (leaf_data_page m1 m2 va _ Hl)).
  destruct (data_page_reach m2 p (so_user _ Hs2) Hd2) as (_ & _ & Hreach). destruct (pmm_phys_to_virt _ _); [clear Hreach|done].
  pose proof (zero_fill_bytes m2 va _ Hs2 Hva Hpv eq_refl) as Hz. rewrite Ew, Ea' in Hz. unfold st_bind, zero_page, st_mod, st_ret. revert Hz.
  generalize (write_bytes (m_mem m2) p (replicate (Z.to_nat PAGE_SIZE) 0)). intros mem (Hs3 & He3 & Hb3) [= <- <-]. left. split; [done|]. set (m3 := set_mem mem m2) in *.
  pose proof (ls_user _ _ _ _ _ Hl) as [Er _]. pose proof (Er : m_user_pml4 m3 = m_user_pml4 m1) as Er3. clearbody m3. rewrite Er in Hb3.
  split; [rewrite Er3; apply Hv1|]. pose proof (proj2 Hva : aligned va) as Halv.
  assert (Hpg : forall a, in_range va (va + PAGE_SIZE) a = (a / PAGE_SIZE =? va / PAGE_SIZE)).
  { intros a. pose proof (same_page_range va a Halv). destruct (in_range_spec va (va + PAGE_SIZE) a), (Z.eqb_spec (a / PAGE_SIZE) (va / PAGE_SIZE)); tauto. }
  split; [exact Hs3 | |].
  - intros a Ha. rewrite He3, (leaf_upte m1 m2 va _ Hl a Ha) by done. destruct (_ =? _); [done | by apply (ld_leaf _ _ Hm1)].
  - intros a Ha. unfold seen, clear_image. rewrite Er3, Hb3, He3, (leaf_upte m1 m2 va _ Hl a Ha), Hpg by done. destruct (Z.eqb_spec (a / PAGE_SIZE) (va / PAGE_SIZE)) as [E|E].
    + by rewrite EW, EN.
    + rewrite (leaf_ubyte m1 m2 va _ Hs1 Hl) by done. apply (ld_seen _ _ Hm1 a Ha).
Qed.

Lemma page_range va a : aligned va -> in_range va (va + PAGE_SIZE) a = (a / PAGE_SIZE =? va / PAGE_SIZE).
Proof. intros Hal. pose proof (same_page_range va a Hal). destruct (in_range_spec va (va + PAGE_SIZE) a), (Z.eqb_spec (a / PAGE_SIZE) (va / PAGE_SIZE)); tauto. Qed.

Lemma merged_flags_spec pte p : has (merged_flags pte p) PTE_W = has pte PTE_W || has p 2 /\ has (merged_flags pte p) PTE_NX = has pte PTE_NX && negb (has p 1).
Proof. unfold merged_flags. destruct (has pte PTE_W || has p 2), (has pte PTE_NX && negb (has p 1)); vm_compute; done. Qed.

(** A page that is there gets the rights of both. *)
Lemma merge_spec m U va p r m' : loading m U -> page_va va -> has (upte m va) PTE_P = true ->
  vmm_user_protect va (merged_flags (upte m va) p) m = (r, m') ->
  r = 0 /\ m_user_pml4 m' = m_user_pml4 m /\ loading m' (map_image va (va + PAGE_SIZE) (has p 2) (has p 1) U).
Proof.
  intros Hm Hva HP E. pose proof (ld_space _ _ Hm) as Hs. destruct (ld_leaf _ _ Hm va (proj1 Hva) HP) as [HU HC].
  pose proof (vmm_user_protect_spec m va _ r m' (so_user _ Hs) Hva (space_cow_sound m va Hs (proj1 Hva)) E) as H. cbv zeta in H. fold (upte m va) in H.
  set (flags := merged_flags (upte m va) p) in *. rewrite HC, andb_false_r in H.
  destruct H as [(_ & H & _)|[(-> & _ & _ & Hl)|[(_ & H & _)|(_ & H & _)]]]; [congruence | | unfold cow_pte in H; rewrite HC, andb_false_r in H; done | done].
  split; [done|]. pose proof (ls_user _ _ _ _ _ Hl) as [Er _]. split; [done|]. set (pg := addr_of (upte m va)) in *.
  assert (Hpv : upresent m va = true) by (unfold upresent; by rewrite HP, HU). pose proof (so_page _ Hs va (proj1 Hva) Hpv) as Hd. fold pg in Hd.
  destruct (data_page_reach m pg (so_user _ Hs) Hd) as (Hal & Hr & _). destruct (leaf_pte_spec pg flags Hal) as (Ea & EP & EU & EC & EW & EN); [unfold PMM_TRACK_LIMIT in *; lia|].
  assert (Hs' : space_ok m').
  { apply (leaf_space m m' va _ Hs (proj1 Hva) Hl). intros _. rewrite Ea. split; [apply leaf_pte_u64|]. split; [by apply (leaf_data_page m m' va _ Hl)|].
    intros a Ha Hpa Hne Eq. apply Hne, (so_private _ Hs); try done. apply Hva. }
  destruct (merged_flags_spec (upte m va) p) as [FW FN]. fold flags in FW, FN. split; [done | |].
  - intros a Ha. rewrite (leaf_upte m m' va _ Hl a Ha). destruct (_ =? _); [done | by apply (ld_leaf _ _ Hm)].
  - intros a Ha. unfold seen, map_image. rewrite Er, (leaf_upte m m' va _ Hl a Ha), (page_range va a (proj2 Hva)). destruct (Z.eqb_spec (a / PAGE_SIZE) (va / PAGE_SIZE)) as [E1|E1].
    + pose proof (upte_page m a va Ha (proj1 Hva) E1) as Eu. destruct (loading_present m U a Hm Ha) as [_ Hsome].
      assert (Hpa : upresent m a = true) by (unfold upresent; rewrite Eu; by fold (upresent m va)). rewrite Hpa in Hsome. destruct (U a) as [sp|] eqn:EUa; [|done].
      destruct (loading_some m U a sp Hm Ha EUa) as [W N]. rewrite Eu in W, N.
      assert (Eb : ubyte m' (m_user_pml4 m) a = ubyte m (m_user_pml4 m) a).
      { rewrite <- Er at 1. rewrite (ubyte_eq m' a Hs' Ha), (ubyte_eq m a Hs Ha), Hpa. unfold upresent. rewrite (leaf_upte m m' va _ Hl a Ha), (proj2 (Z.eqb_eq _ _)), EP, EU by done.
        cbn [andb]. rewrite Ea, Eu. fold pg. f_equal. assert (Hj : 0 <= a mod PAGE_SIZE < PAGE_SIZE) by (apply Z.mod_pos_bound; done). destruct Hd as [Hh Hn].
        apply ld8_agree. apply (ls_data _ _ _ _ _ Hl); by rewrite byte_word. }
      rewrite Eb, EW, EN, FW, FN, W, N. pose proof (ld_seen _ _ Hm a Ha) as Hsa. unfold seen in Hsa. rewrite EUa in Hsa. destruct (ubyte m _ a); [|done]. injection Hsa as <-. cbn [sp_byte sp_write sp_exec].
      by rewrite negb_andb, !negb_involutive.
    + rewrite (leaf_ubyte m m' va _ Hs Hl) by done. apply (ld_seen _ _ Hm a Ha).
Qed.

Lemma translated m va : space_ok m -> user_va va ->
  vmm_user_translate m va = if has (upte m va) PTE_P then Some (Z.lor (addr_of (upte m va)) (Z.land va 0xfff), upte m va) else None.
Proof. intros Hs Hv. rewrite user_translate_eq by (apply Hs || done). done. Qed.

Lemma map_page_spec m U va p ok m' : loading m U -> page_va va -> map_page p va m = (ok, m') ->
  (ok = true /\ m_user_pml4 m' = m_user_pml4 m /\ loading m' (map_image va (va + PAGE_SIZE) (has p 2) (has p 1) U)) \/ ok = false.
Proof.
  intros Hm Hva. unfold map_page. rewrite bind_get, (translated m va (ld_space _ _ Hm) (proj1 Hva)). destruct (has (upte m va) PTE_P) eqn:EP.
  - rewrite EP. unfold st_bind. destruct (vmm_user_protect va _ m) as [r1 m2] eqn:E1. destruct (merge_spec m U va p r1 m2 Hm Hva EP E1) as (-> & Er & Hm2). intros [= <- <-]. by left.
  - intros E1. destruct (map_clear_spec m U va _ ok m' Hm Hva E1) as [(-> & Er & Hm1)|]; [left|by right]. split; [done|]. split; [done|]. refine (loading_same _ _ _ _ Hm1).
    destruct (segment_flags_spec p) as [-> ->]. rewrite negb_involutive. intros a Ha. unfold clear_image, map_image. destruct (in_range va (va + PAGE_SIZE) a) eqn:Er1; [|done].
    rewrite page_range in Er1 by apply Hva. apply Z.eqb_eq in Er1. destruct (loading_present m U a Hm Ha) as [HPa Hsa]. rewrite (upte_page m a va Ha (proj1 Hva) Er1), EP in HPa.
    rewrite <- HPa in Hsa. by destruct (U a).
Qed.

Lemma map_pages_spec n p : forall va m U r m', loading m U -> aligned va -> 0 <= va -> va + Z.of_nat n * PAGE_SIZE <= USER_TOP -> map_pages n p va m = (r, m') ->
  (r = 0 /\ m_user_pml4 m' = m_user_pml4 m /\ loading m' (map_image va (va + Z.of_nat n * PAGE_SIZE) (has p 2) (has p 1) U)) \/ r = -1.
Proof.
  induction n as [|n IH]; intros va m U r m' Hm Hal H0 Ht; cbn [map_pages].
  - intros [= <- <-]. left. split; [done|]. split; [done|]. refine (loading_same _ _ _ _ Hm). intros a _. unfold map_image. in_ranges; (done || lia).
  - assert (Hva : page_va va) by (split; [unfold user_va, PAGE_SIZE in *; lia | exact Hal]). unfold st_bind at 1. destruct (map_page p va m) as [ok m1] eqn:E1.
    destruct (map_page_spec m U va p ok m1 Hm Hva E1) as [(-> & Er & Hm1)| ->]; cbn [negb]; [|intros [= <- <-]; by right].
    intros E2. destruct (IH (va + PAGE_SIZE) m1 _ r m' Hm1) as [(-> & Er2 & Hm2)|]; [unfold aligned, PAGE_SIZE in *; dlia | unfold PAGE_SIZE; lia | unfold PAGE_SIZE in *; lia | exact E2 | left | by right].
    split; [done|]. split; [congruence|]. refine (loading_same _ _ _ _ Hm2). replace (va + Z.of_nat (S n) * PAGE_SIZE) with (va + PAGE_SIZE + Z.of_nat n * PAGE_SIZE) by lia.
    apply map_image_next. unfold PAGE_SIZE. lia.
Qed.

(** The whole pages a range touches. *)
Definition page_floor (x : Z) : Z := Z.land x PAGE_MASK.

Lemma page_floor_spec x : user_va x -> aligned (page_floor x) /\ 0 <= page_floor x <= x /\ x < page_floor x + PAGE_SIZE.
Proof.
  intros Hx. destruct (page_mask_user x Hx) as ([H1 H2] & H3 & H4). unfold page_floor in *. unfold aligned, user_va, PAGE_SIZE in *. split; [done|]. dlia.
Qed.

Lemma map_range_spec m U start end_ p r m' : loading m U -> aligned start -> aligned end_ -> 0 <= start -> map_user_range start end_ p m = (r, m') ->
  (r = 0 /\ start < end_ <= USER_TOP /\ m_user_pml4 m' = m_user_pml4 m /\ loading m' (map_image start end_ (has p 2) (has p 1) U)) \/ r = -1.
Proof.
  intros Hm Hs He H0. unfold map_user_range. destruct (Z.leb_spec end_ start); [intros [= <- <-]; by right|]. destruct (Z.ltb_spec USER_LIMIT end_); [intros [= <- <-]; by right|]. cbn [orb].
  assert (Hu : user_va start) by (unfold user_va, USER_TOP, USER_LIMIT in *; lia). destruct (page_floor_spec start Hu) as (A1 & A2 & A3). unfold page_floor in *.
  assert (Ef : Z.land start PAGE_MASK = start) by (unfold aligned, PAGE_SIZE in *; dlia).
  destruct (page_up_spec end_) as [B1 B2]; [unfold UINT64_MAX, USER_LIMIT, PAGE_SIZE in *; lia|].
  assert (Eu : page_up end_ = end_) by (unfold aligned, PAGE_SIZE in *; dlia). rewrite Ef, Eu. intros E.
  assert (En : start + Z.of_nat (pages_of (end_ - start)) * PAGE_SIZE = end_).
  { unfold pages_of. rewrite Z2Nat.id by (apply Z.div_pos; unfold PAGE_SIZE; lia). unfold aligned, PAGE_SIZE in *. dlia. }
  destruct (map_pages_spec (pages_of (end_ - start)) p start m U r m' Hm Hs H0) as [(-> & Er & Hm')|]; [rewrite En; unfold USER_TOP, USER_LIMIT in *; lia | exact E | left | by right].
  rewrite En in Hm'. split; [done|]. split; [unfold USER_TOP, USER_LIMIT in *; lia|]. by split.
Qed.

Lemma stack_pages_spec n : forall va m U r m', loading m U -> aligned va -> 0 <= va -> va + Z.of_nat n * PAGE_SIZE <= USER_TOP -> stack_pages n va m = (r, m') ->
  (r = 0 /\ m_user_pml4 m' = m_user_pml4 m /\ loading m' (clear_image va (va + Z.of_nat n * PAGE_SIZE) true false U)) \/ r = -1.
Proof.
  induction n as [|n IH]; intros va m U r m' Hm Hal H0 Ht; cbn [stack_pages].
  - intros [= <- <-]. left. split; [done|]. split; [done|]. refine (loading_same _ _ _ _ Hm). intros a _. unfold clear_image. in_ranges; (done || lia).
  - assert (Hva : page_va va) by (split; [unfold user_va, PAGE_SIZE in *; lia | exact Hal]). unfold st_bind at 1. destruct (map_clear_page va _ m) as [ok m1] eqn:E1.
    destruct (map_clear_spec m U va _ ok m1 Hm Hva E1) as [(-> & Er & Hm1)| ->]; cbn [negb]; [|intros [= <- <-]; by right].
    change (has (Z.lor PTE_W PTE_NX) PTE_W) with true in Hm1. change (negb (has (Z.lor PTE_W PTE_NX) PTE_NX)) with false in Hm1.
    intros E2. destruct (IH (va + PAGE_SIZE) m1 _ r m' Hm1) as [(-> & Er2 & Hm2)|]; [unfold aligned, PAGE_SIZE in *; dlia | unfold PAGE_SIZE; lia | unfold PAGE_SIZE in *; lia | exact E2 | left | by right].
    split; [done|]. split; [congruence|]. refine (loading_same _ _ _ _ Hm2). replace (va + Z.of_nat (S n) * PAGE_SIZE) with (va + PAGE_SIZE + Z.of_nat n * PAGE_SIZE) by lia.
    apply clear_image_next. unfold PAGE_SIZE. lia.
Qed.

(** ** Stores *)

Definition spot_ok (ok : spot -> bool) (o : option spot) : bool := match o with Some s => ok s | None => false end.

Lemma poke_loading m U dst l n : loading m U -> user_va dst -> is_some (U dst) = true -> Forall (fun b => 0 <= b < 256) l ->
  0 < n <= Z.of_nat (length l) -> dst mod PAGE_SIZE + n <= PAGE_SIZE -> dst + n <= USER_TOP ->
  let m' := set_mem (write_bytes (m_mem m) (addr_of (upte m dst) + Z.land dst (PAGE_SIZE - 1)) (take (Z.to_nat n) l)) m in
  loading m' (poke_image dst (take (Z.to_nat n) l) U).
Proof.
  intros Hm Hv Hd Hb Hn Hp Ht. destruct (loading_present m U dst Hm Hv) as [_ Hpr]. rewrite Hd in Hpr.
  destruct (store_part m dst l n (ld_space _ _ Hm) Hv Hpr Hb Hn Hp Ht) as (Hs & He & Hst). cbv zeta.
  set (m' := set_mem _ m) in *. pose proof (eq_refl : m_user_pml4 m' = m_user_pml4 m) as Er. clearbody m'. split; [exact Hs | |].
  - intros a Ha. rewrite He by done. by apply (ld_leaf _ _ Hm).
  - intros a Ha. unfold seen, poke_image. rewrite Er, Hst, He by done. pose proof (ld_seen _ _ Hm a Ha) as Hsa. unfold seen in Hsa. rewrite <- Hsa.
    fold (in_range dst (dst + Z.of_nat (length (take (Z.to_nat n) l))) a). destruct (in_range_spec dst (dst + Z.of_nat (length (take (Z.to_nat n) l))) a) as [Hr|]; [|done].
    assert (E : a / PAGE_SIZE = dst / PAGE_SIZE) by (rewrite length_take in Hr; unfold PAGE_SIZE in *; dlia).
    rewrite ubyte_eq by (apply Hm || done). unfold upresent in *. rewrite (upte_page m a dst) by done. by rewrite Hpr.
Qed.

Section Store.
Variable ok : spot -> bool.
Variable frame_of : machine -> Z -> option Z.
Hypothesis Hok : forall s b, ok (Spot b (sp_write s) (sp_exec s)) = ok s.
Hypothesis Hframe : forall m U va, loading m U -> user_va va ->
  frame_of m (Z.land va PAGE_MASK) = if spot_ok ok (U va) then Some (addr_of (upte m va)) else None.

(** The rights are those of the page. *)
Lemma same_page_ok m U a b : loading m U -> user_va a -> user_va b -> a / PAGE_SIZE = b / PAGE_SIZE -> spot_ok ok (U a) = spot_ok ok (U b).
Proof.
  intros Hm Ha Hb E. pose proof (Hframe m U a Hm Ha) as H1. pose proof (Hframe m U b Hm Hb) as H2.
  assert (El : Z.land a PAGE_MASK = Z.land b PAGE_MASK) by (unfold user_va, USER_TOP in *; rewrite !land_PAGE_MASK by lia; unfold PAGE_SIZE in *; dlia).
  rewrite El, H2 in H1. by destruct (spot_ok ok (U a)), (spot_ok ok (U b)).
Qed.

Lemma store_loop_spec fuel : forall m U dst l r m', loading m U -> 0 <= dst -> dst + Z.of_nat (length l) <= USER_TOP -> Forall (fun b => 0 <= b < 256) l ->
  (length l <= fuel)%nat -> store_loop fuel frame_of dst l m = (r, m') ->
  m_user_pml4 m' = m_user_pml4 m /\
  ((r = 0 /\ loading m' (poke_image dst l U) /\ forall a, dst <= a < dst + Z.of_nat (length l) -> spot_ok ok (U a) = true) \/
   (r = - EFAULT /\ exists a, dst <= a < dst + Z.of_nat (length l) /\ spot_ok ok (U a) = false)).
Proof.
  induction fuel as [|fuel IH]; intros m U dst l r m' Hm Hd Ht Hb Hf.
  { destruct l; [|cbn in Hf; lia]. cbn. intros [= <- <-]. split; [done|]. left. split; [done|]. split; [|intros a; cbn [length]; lia]. refine (loading_same _ _ _ _ Hm). by rewrite poke_image_nil. }
  destruct l as [|b0 l0]; [cbn; intros [= <- <-]; split; [done|]; left; split; [done|]; split; [|intros a; cbn [length]; lia]; refine (loading_same _ _ _ _ Hm); by rewrite poke_image_nil|].
  cbn [store_loop]. set (l := b0 :: l0) in *. assert (Hl0 : 0 < Z.of_nat (length l)) by (cbn [length l]; lia).
  destruct (page_part_bounds dst _ Hl0) as [Hn Hp]. set (n := page_part dst (Z.of_nat (length l))) in *. assert (Hv : user_va dst) by (unfold user_va; lia).
  rewrite bind_get, (Hframe m U dst Hm Hv). destruct (spot_ok ok (U dst)) eqn:Eo; [|intros [= <- <-]; split; [done|]; right; split; [done|]; exists dst; split; [lia | done]].
  assert (Hsome : is_some (U dst) = true) by (by destruct (U dst)). destruct (loading_present m U dst Hm Hv) as [_ Hpr]. rewrite Hsome in Hpr. pose proof (ld_space _ _ Hm) as Hs.
  destruct (data_page_reach m _ (so_user _ Hs) (so_page _ Hs dst Hv Hpr)) as (_ & _ & Hr). destruct (pmm_phys_to_virt _ _); [clear Hr|done]. unfold st_bind at 1, st_mod.
  pose proof (poke_loading m U dst l n Hm Hv Hsome Hb ltac:(lia) Hp ltac:(lia)) as Hm2. cbv zeta in Hm2. set (m2 := set_mem _ m) in *.
  pose proof (eq_refl : m_user_pml4 m2 = m_user_pml4 m) as Er2. clearbody m2. rewrite u64_small by (unfold USER_TOP in *; lia). intros E.
  assert (Hld : Z.of_nat (length (drop (Z.to_nat n) l)) = Z.of_nat (length l) - n) by (rewrite length_drop; lia).
  destruct (IH m2 _ (dst + n) (drop (Z.to_nat n) l) r m' Hm2) as (Er & [(-> & Hm' & Hall)|(-> & a & Ha & Hoa)]); [lia | rewrite Hld; lia | by apply Forall_drop | rewrite length_drop; lia | exact E | |].
  - split; [congruence|]. left. split; [done|]. split.
    + refine (loading_same _ _ _ _ Hm'). rewrite <- (take_drop (Z.to_nat n) l) at 3.
      rewrite <- poke_image_app. replace (Z.of_nat (length (take (Z.to_nat n) l))) with n by (rewrite length_take; lia). done.
    + intros a Ha. destruct (Z.lt_ge_cases a (dst + n)) as [Hlt|Hge].
      * rewrite <- Eo. apply (same_page_ok m U); [done | unfold user_va; lia | done | unfold PAGE_SIZE in *; dlia].
      * rewrite Hld in Hall. specialize (Hall a ltac:(lia)). revert Hall. unfold poke_image. destruct (in_range _ _ _); [|done]. destruct (U a) as [s|]; [|done]. cbn [option_map spot_ok]. by rewrite Hok.
  - split; [congruence|]. right. split; [done|]. exists a. split; [rewrite Hld in Ha; lia|]. rewrite <- Hoa. unfold poke_image. destruct (in_range _ _ _); [|done].
    destruct (U a) as [s|]; [|done]. cbn [option_map spot_ok]. by rewrite Hok.
Qed.
End Store.

Lemma frame_present m U va : loading m U -> user_va va -> user_present m (Z.land va PAGE_MASK) = if spot_ok (fun _ => true) (U va) then Some (addr_of (upte m va)) else None.
Proof.
  intros Hm Hv. destruct (page_mask_user va Hv) as (Hv' & Hal & Hd). unfold user_present. rewrite (translated m _ (ld_space _ _ Hm) Hv'), (upte_page m _ va Hv' Hv Hd).
  destruct (loading_present m U va Hm Hv) as [H1 H2]. change 0xfff with (PAGE_SIZE - 1). rewrite land_low12, Hal, Z.lor_0_r. destruct (has (upte m va) PTE_P) eqn:EP.
  - destruct (ld_leaf _ _ Hm va Hv EP) as [-> _]. rewrite EP. cbn [negb orb]. rewrite <- H1 in H2. by destruct (U va).
  - rewrite <- H1 in H2. by destruct (U va).
Qed.

Lemma frame_writable m U va : loading m U -> user_va va -> user_writable m (Z.land va PAGE_MASK) = if spot_ok sp_write (U va) then Some (addr_of (upte m va)) else None.
Proof.
  intros Hm Hv. destruct (page_mask_user va Hv) as (Hv' & Hal & Hd). unfold user_writable. rewrite (translated m _ (ld_space _ _ Hm) Hv'), (upte_page m _ va Hv' Hv Hd).
  destruct (loading_present m U va Hm Hv) as [H1 H2]. change 0xfff with (PAGE_SIZE - 1). rewrite land_low12, Hal, Z.lor_0_r. rewrite <- H1 in H2. destruct (has (upte m va) PTE_P) eqn:EP.
  - destruct (ld_leaf _ _ Hm va Hv EP) as [-> _]. destruct (U va) as [s|] eqn:E; [|done]. destruct (loading_some m U va s Hm Hv E) as [-> _]. cbn [negb orb spot_ok]. by destruct (sp_write s).
  - by destruct (U va).
Qed.

(** The active space is the one that is loaded. *)
Lemma loading_cr3 m U : loading m U -> (vmm_user_cr3 m =? 0) = false /\ vmm_user_cr3 m = m_user_pml4 m.
Proof.
  intros [Hs _ _]. unfold vmm_user_cr3. rewrite (uo_valid _ (so_user _ Hs)). split; [|done]. by apply space_root.
Qed.

Lemma loader_copy_spec m U dst l r m' : loading m U -> 0 <= dst -> dst + Z.of_nat (length l) <= USER_TOP -> Forall (fun b => 0 <= b < 256) l ->
  copy_to_user_loader (vmm_user_cr3 m) dst l m = (r, m') ->
  m_user_pml4 m' = m_user_pml4 m /\
  ((r = 0 /\ loading m' (poke_image dst l U)) \/ (r = - EFAULT /\ exists a, dst <= a < dst + Z.of_nat (length l) /\ U a = None)).
Proof.
  intros Hm Hd Ht Hb. unfold copy_to_user_loader. rewrite bind_get. destruct (loading_cr3 m U Hm) as [-> _]. rewrite Z.eqb_refl. cbn [negb orb]. intros E.
  destruct (store_loop_spec (fun _ => true) user_present (fun _ _ => eq_refl) frame_present (length l) m U dst l r m' Hm Hd Ht Hb (le_n _) E) as [Er [H|(H & a & Ha & Hoa)]].
  - destruct H as (H1 & H2 & _). split; [done|]. by left.
  - split; [done|]. right. split; [done|]. exists a. split; [done|]. by destruct (U a).
Qed.

Lemma loader_zero_spec m U dst len r m' : loading m U -> 0 <= dst -> 0 <= len -> dst + len <= USER_TOP -> zero_user_loader (vmm_user_cr3 m) dst len m = (r, m') ->
  m_user_pml4 m' = m_user_pml4 m /\
  ((r = 0 /\ loading m' (poke_image dst (replicate (Z.to_nat len) 0) U)) \/ (r = - EFAULT /\ exists a, dst <= a < dst + len /\ U a = None)).
Proof.
  intros Hm Hd Hl Ht E. assert (Hlen : Z.of_nat (length (replicate (Z.to_nat len) 0)) = len) by (rewrite length_replicate; lia).
  assert (Hz : copy_to_user_loader (vmm_user_cr3 m) dst (replicate (Z.to_nat len) 0) m = (r, m')).
  { rewrite <- E. unfold copy_to_user_loader, zero_user_loader. by rewrite length_replicate. }
  destruct (loader_copy_spec m U dst _ r m' Hm Hd ltac:(rewrite Hlen; lia) ltac:(apply Forall_replicate; lia) Hz) as [Er H]. rewrite Hlen in H. by split.
Qed.

Lemma user_store_spec m U dst l r m' : loading m U -> 0 <= dst -> dst + Z.of_nat (length l) <= USER_TOP -> Forall (fun b => 0 <= b < 256) l ->
  copy_to_user (vmm_user_cr3 m) dst l m = (r, m') ->
  m_user_pml4 m' = m_user_pml4 m /\
  ((r = 0 /\ loading m' (poke_image dst l U) /\ forall a, dst <= a < dst + Z.of_nat (length l) -> spot_ok sp_write (U a) = true) \/
   (r = - EFAULT /\ exists a, dst <= a < dst + Z.of_nat (length l) /\ spot_ok sp_write (U a) = false)).
Proof.
  intros Hm Hd Ht Hb. unfold copy_to_user. rewrite bind_get. destruct (loading_cr3 m U Hm) as [-> _]. rewrite Z.eqb_refl. cbn [negb orb].
  apply (store_loop_spec sp_write user_writable (fun _ _ => eq_refl) frame_writable (length l) m U dst l r m' Hm Hd Ht Hb (le_n _)).
Qed.
End Load.

(** ** Loading segments

    The loops of the loader against the flat memory: a segment is its pages, the
    bytes of the file and zeroes behind them. *)

(** [n] bytes of a file from [off] on. *)
Definition slice (off n : Z) (file : list Z) : list Z := take (Z.to_nat n) (drop (Z.to_nat off) file).

Lemma slice_length off n file : 0 <= off -> 0 <= n -> off + n <= Z.of_nat (length file) -> Z.of_nat (length (slice off n file)) = n.
Proof. intros. unfold slice. rewrite length_take, length_drop. lia. Qed.

Lemma slice_bytes off n file : Forall is_byte file -> Forall is_byte (slice off n file).
Proof. intros. by apply Forall_take, Forall_drop. Qed.

Lemma slice_app off n1 n2 file : 0 <= off -> 0 <= n1 -> 0 <= n2 -> slice off n1 file ++ slice (off + n1) n2 file = slice off (n1 + n2) file.
Proof.
  intros. unfold slice. rewrite (Z2Nat.inj_add off n1), (Z2Nat.inj_add n1 n2), <- drop_drop by lia. apply take_take_drop.
Qed.

(** A reader that gives the bytes of the file [file]. *)
Definition reads (read : Z -> Z -> option (list Z)) (file : list Z) : Prop :=
  forall off n, 0 <= off -> 0 <= n -> off + n <= Z.of_nat (length file) -> read off n = Some (slice off n file).

Lemma reads_exact read file : reads read file -> reads (elf_reader_read_exact read (Z.of_nat (length file))) file.
Proof.
  intros H off n Ho Hn Ht. unfold elf_reader_read_exact. rewrite (proj2 (Z.ltb_ge _ _)), (proj2 (Z.ltb_ge _ _)) by lia. cbn [orb]. rewrite H by done.
  by rewrite slice_length, Z.eqb_refl by done.
Qed.


(** What the segment [ph], placed at [va], makes of memory. *)
Definition segment_image (file : list Z) (va : Z) (ph : Elf64_Phdr) (U : image) : image :=
  poke_image (va + p_filesz ph) (replicate (Z.to_nat (p_memsz ph - p_filesz ph)) 0)
    (poke_image va (slice (p_offset ph) (p_filesz ph) file)
      (map_image (page_floor va) (page_up (va + p_memsz ph)) (has (p_flags ph) 2) (has (p_flags ph) 1) U)).

Definition loadable (ph : Elf64_Phdr) : bool := (p_type ph =? PT_LOAD) && negb (p_memsz ph =? 0).

(** The segments in the order of the table; later ones go over earlier ones. *)
Definition load_image (file : list Z) (bias : Z) (phs : list Elf64_Phdr) (U : image) : image :=
  foldl (fun U ph => if loadable ph then segment_image file (p_vaddr ph + bias) ph U else U) U phs.

#[export] Instance segment_image_proper file va ph : Proper (same_image ==> same_image) (segment_image file va ph).
Proof. intros U V H. unfold segment_image. by rewrite H. Qed.

(** The fields of a header are within their widths. *)
Definition phdr_ok (ph : Elf64_Phdr) : Prop := is_u64 (p_offset ph) /\ is_u64 (p_vaddr ph) /\ is_u64 (p_filesz ph) /\ is_u64 (p_memsz ph).

Lemma elf_field_range l off n : Forall is_byte l -> (n <= 8)%nat -> is_u64 (elf_field l off n).
Proof. intros Hl Hn. apply bytes_word_u64; [by apply Forall_take, Forall_drop | rewrite length_take; lia]. Qed.

Lemma bytes_phdr_ok l : Forall is_byte l -> phdr_ok (bytes_phdr l).
Proof. intros H. unfold phdr_ok, bytes_phdr. cbn [p_offset p_vaddr p_filesz p_memsz]. split_and!; apply elf_field_range; (done || lia). Qed.

(** What the checks of a segment ensure: nothing wraps around. *)
Lemma segment_ok_spec size bias ph : phdr_ok ph -> is_u64 bias -> segment_ok size bias ph = true ->
  let va := p_vaddr ph + bias in u64 (p_vaddr ph + bias) = va /\ 0 <= va /\ va + p_memsz ph <= USER_TOP /\
  0 <= p_filesz ph <= p_memsz ph /\ 0 <= p_offset ph /\ p_offset ph + p_filesz ph <= size.
Proof.
  intros (H1 & H2 & H3 & H4) Hb. unfold segment_ok. intros H. apply andb_prop in H as [[[[A%Z.leb_le B%Z.leb_le]%andb_prop C%Z.leb_le]%andb_prop D%Z.leb_le]%andb_prop H].
  apply andb_prop in H as [[[E%Z.leb_le F%Z.ltb_lt]%andb_prop G%Z.leb_le]%andb_prop I%Z.leb_le].
  assert (Hva : u64 (p_vaddr ph + bias) = p_vaddr ph + bias) by (unfold is_u64, u64 in *; dlia). rewrite Hva in *.
  assert (He : u64 (p_vaddr ph + bias + p_memsz ph) = p_vaddr ph + bias + p_memsz ph) by (unfold is_u64, u64, USER_LIMIT in *; dlia). rewrite He in *.
  unfold is_u64, USER_TOP, USER_LIMIT in *. cbv zeta. lia.
Qed.

Section Load.
Context {HB : HhdmBase} {inv : pmm -> Prop} {held : pmm -> Z -> Prop} `{PA : !PageAllocator inv held}.
Local Abbreviation loading := (loading (inv := inv) (held := held)).

Lemma same_cr3 m m' U V : loading m U -> loading m' V -> m_user_pml4 m' = m_user_pml4 m -> vmm_user_cr3 m' = vmm_user_cr3 m.
Proof. intros H1 H2 E. destruct (loading_cr3 m U H1) as [_ ->], (loading_cr3 m' V H2) as [_ ->]. done. Qed.

Section File.
Context (read : Z -> Z -> option (list Z)) (file : list Z).
Hypothesis (Hread : reads read file) (Hfile : Forall is_byte file).

(** The loop over the chunks stores the bytes of the file; it cannot fail on mapped memory. *)
Lemma copy_chunks_spec fuel : forall m U va off filesz copied ok m', loading m U -> 0 <= off -> off + filesz <= Z.of_nat (length file) -> 0 <= copied -> filesz - copied <= Z.of_nat fuel ->
  0 <= va -> va + filesz <= USER_TOP -> (forall a, va <= a < va + filesz -> is_some (U a) = true) -> copied <= filesz ->
  copy_chunks fuel read (vmm_user_cr3 m) va off filesz copied m = (ok, m') ->
  ok = true /\ m_user_pml4 m' = m_user_pml4 m /\ loading m' (poke_image (va + copied) (slice (off + copied) (filesz - copied) file) U).
Proof.
  induction fuel as [|fuel IH]; intros m U va off filesz copied ok m' Hm Ho Hoff Hc Hf Hva Ht HU Hle.
  { cbn [copy_chunks]. rewrite (proj2 (Z.leb_le _ _)) by lia. intros [= <- <-]. split; [done|]. split; [done|]. refine (loading_same _ _ _ _ Hm).
    replace (filesz - copied) with 0 by lia. by rewrite poke_image_nil. }
  cbn [copy_chunks]. destruct (Z.leb_spec filesz copied) as [Hd|Hd].
  { intros [= <- <-]. split; [done|]. split; [done|]. refine (loading_same _ _ _ _ Hm). replace (filesz - copied) with 0 by lia. by rewrite poke_image_nil. }
  set (chunk := Z.min (filesz - copied) 4096). assert (Hch : 0 < chunk <= filesz - copied) by (unfold chunk; lia).
  rewrite Hread by lia. set (l := slice (off + copied) chunk file). assert (Hl : Z.of_nat (length l) = chunk) by (apply slice_length; lia).
  unfold st_bind at 1. destruct (copy_to_user_loader (vmm_user_cr3 m) (va + copied) l m) as [r m1] eqn:E1.
  destruct (loader_copy_spec m U (va + copied) l r m1 Hm ltac:(lia) ltac:(lia) ltac:(by apply slice_bytes) E1) as (Er & [(-> & Hm1)|(_ & a & Ha & HUa)]).
  2: { exfalso. specialize (HU a ltac:(lia)). by rewrite HUa in HU. }
  change (negb (0 =? 0)) with false. cbv iota. rewrite <- (same_cr3 m m1 U _ Hm Hm1 Er). intros E.
  destruct (IH m1 _ va off filesz (copied + chunk) ok m' Hm1 Ho Hoff) as (-> & Er2 & Hm2); try lia; try done.
  { intros a Ha. unfold poke_image. destruct (in_range _ _ a); [|by apply HU]. specialize (HU a Ha). by destruct (U a). }
  split; [done|]. split; [congruence|]. refine (loading_same _ _ _ _ Hm2). replace (filesz - copied) with (chunk + (filesz - (copied + chunk))) by lia.
  rewrite <- slice_app by lia. fold l. rewrite <- poke_image_app, Hl. by rewrite !Z.add_assoc.
Qed.

Lemma put_segment_spec m U va ph ok m' : loading m U -> 0 <= va -> 0 < p_memsz ph -> va + p_memsz ph <= USER_TOP -> 0 <= p_filesz ph <= p_memsz ph ->
  0 <= p_offset ph -> p_offset ph + p_filesz ph <= Z.of_nat (length file) ->
  put_segment read (vmm_user_cr3 m) va ph m = (ok, m') ->
  (ok = true /\ m_user_pml4 m' = m_user_pml4 m /\ loading m' (segment_image file va ph U)) \/ ok = false.
Proof.
  intros Hm H0 Hsz Ht Hfs Ho Hof. unfold put_segment. destruct (Z.leb_spec (page_up (va + p_memsz ph)) (Z.land va PAGE_MASK)) as [|Hlt]; [intros [= <- <-]; by right|].
  fold (page_floor va) in *. assert (Hv : user_va va) by (unfold user_va; lia). destruct (page_floor_spec va Hv) as (A1 & A2 & A3).
  destruct (page_up_spec (va + p_memsz ph)) as [B1 B2]; [unfold UINT64_MAX, USER_TOP, PAGE_SIZE in *; lia|].
  unfold st_bind at 1. destruct (map_user_range (page_floor va) _ _ m) as [r m1] eqn:E1.
  destruct (map_range_spec m U _ _ _ r m1 Hm A1 B1 ltac:(lia) E1) as [(-> & Hr & Er1 & Hm1)| ->]; [|intros [= <- <-]; by right].
  change (negb (0 =? 0)) with false. cbv iota. set (U1 := map_image _ _ _ _ U) in *.
  assert (HU1 : forall a, va <= a < va + p_memsz ph -> is_some (U1 a) = true) by (intros a Ha; unfold U1, map_image; rewrite in_range_true by lia; done).
  unfold st_bind at 1. destruct (copy_chunks _ _ _ _ _ _ _ m1) as [ok1 m2] eqn:E2. rewrite <- (same_cr3 m m1 U U1 Hm Hm1 Er1) in E2.
  destruct (copy_chunks_spec (Z.to_nat (p_filesz ph)) m1 U1 va (p_offset ph) (p_filesz ph) 0 ok1 m2 Hm1) as (-> & Er2 & Hm2); try lia; try done.
  { intros a Ha. apply HU1. lia. }
  rewrite !Z.add_0_r, Z.sub_0_r in Hm2. cbn [negb]. destruct (Z.ltb_spec (p_filesz ph) (p_memsz ph)) as [Hz|Hz].
  - unfold st_bind. destruct (zero_user_loader _ _ _ m2) as [r3 m3] eqn:E3. rewrite <- (same_cr3 m m1 U U1 Hm Hm1 Er1), <- (same_cr3 m1 m2 U1 _ Hm1 Hm2 Er2) in E3.
    destruct (loader_zero_spec m2 _ (va + p_filesz ph) (p_memsz ph - p_filesz ph) r3 m3 Hm2 ltac:(lia) ltac:(lia) ltac:(lia) E3) as (Er3 & [(-> & Hm3)|(_ & a & Ha & HUa)]).
    + intros [= <- <-]. left. split; [done|]. split; [congruence|]. exact Hm3.
    + exfalso. unfold poke_image in HUa. specialize (HU1 a ltac:(lia)). destruct (in_range _ _ a); destruct (U1 a); done.
  - intros [= <- <-]. left. split; [done|]. split; [congruence|]. refine (loading_same _ _ _ _ Hm2). unfold segment_image. fold U1.
    replace (p_memsz ph - p_filesz ph) with 0 by lia. by rewrite poke_image_nil.
Qed.

(** ** The loops over the program headers *)

Context (bias entry : Z).
Hypothesis Hbias : is_u64 bias.
Local Abbreviation size := (Z.of_nat (length file)).

Definition one_image (ph : Elf64_Phdr) (U : image) : image := if loadable ph then segment_image file (p_vaddr ph + bias) ph U else U.

(** The segment may be executed and holds the entry. *)
Definition enters (ph : Elf64_Phdr) : bool := loadable ph && holds_entry ph entry (p_vaddr ph + bias).

Lemma put_turn m U ph ok m' : loading m U -> phdr_ok ph -> (p_memsz ph =? 0) = false -> segment_ok size bias ph = true ->
  put_segment read (vmm_user_cr3 m) (u64 (p_vaddr ph + bias)) ph m = (ok, m') -> ok = true ->
  u64 (p_vaddr ph + bias) = p_vaddr ph + bias /\ m_user_pml4 m' = m_user_pml4 m /\ loading m' (segment_image file (p_vaddr ph + bias) ph U).
Proof.
  intros Hm Hp Hz%Z.eqb_neq Hok E ->. destruct (segment_ok_spec size bias ph Hp Hbias Hok) as (Hva & H1 & H2 & H3 & H4 & H5). rewrite Hva in *.
  destruct Hp as (_ & _ & _ & Hsz). unfold is_u64 in Hsz.
  destruct (put_segment_spec m U _ ph true m' Hm H1 ltac:(lia) H2 H3 H4 H5 E) as [(_ & ? & ?)|?]; done.
Qed.

Lemma load_turn m0 U0 : loading m0 U0 -> forall m U ph s s' m', m_user_pml4 m = m_user_pml4 m0 -> loading m U -> phdr_ok ph ->
  load_segment read size bias entry (vmm_user_cr3 m0) ph s m = (Some s', m') ->
    m_user_pml4 m' = m_user_pml4 m /\ loading m' (one_image ph U) /\ entry_exec s' = entry_exec s || enters ph.
Proof.
  intros Hm0 m U ph s s' m' Er0 Hm Hp. unfold load_segment, one_image, enters, loadable. destruct (p_type ph =? PT_LOAD); cbn [negb andb]; [|intros [= <- <-]; by rewrite orb_false_r].
  destruct (p_memsz ph =? 0) eqn:Ez; cbn [negb andb]; [intros [= <- <-]; by rewrite orb_false_r|]. destruct (segment_ok size bias ph) eqn:Eok; cbn [negb]; [|done].
  unfold st_bind at 1. destruct (put_segment _ _ _ ph m) as [ok m1] eqn:E1. destruct ok; cbn [negb]; [|done]. rewrite <- (same_cr3 m0 m U0 U Hm0 Hm Er0) in E1.
  destruct (put_turn m U ph true m1 Hm Hp Ez Eok E1 eq_refl) as (Hva & Er & Hm1). rewrite Hva. intros [= <- <-]. by split.
Qed.

Lemma interp_turn m0 U0 : loading m0 U0 -> forall m U ph s s' m', m_user_pml4 m = m_user_pml4 m0 -> loading m U -> phdr_ok ph ->
  load_interp_segment read size bias entry (vmm_user_cr3 m0) ph s m = (Some s', m') ->
    m_user_pml4 m' = m_user_pml4 m /\ loading m' (one_image ph U) /\ entry_exec s' = entry_exec s || enters ph.
Proof.
  intros Hm0 m U ph s s' m' Er0 Hm Hp. unfold load_interp_segment, one_image, enters, loadable. destruct (p_type ph =? PT_LOAD); cbn [negb andb]; [|intros [= <- <-]; by rewrite orb_false_r].
  destruct (p_memsz ph =? 0) eqn:Ez; cbn [negb andb orb]; [done|]. destruct (segment_ok size bias ph) eqn:Eok; cbn [negb]; [|done].
  unfold st_bind at 1. destruct (put_segment _ _ _ ph m) as [ok m1] eqn:E1. destruct ok; cbn [negb]; [|done]. rewrite <- (same_cr3 m0 m U0 U Hm0 Hm Er0) in E1.
  destruct (put_turn m U ph true m1 Hm Hp Ez Eok E1 eq_refl) as (Hva & Er & Hm1). rewrite Hva. intros [= <- <-]. by split.
Qed.

Lemma load_segments_spec (one : Elf64_Phdr -> load_state -> ST machine (option load_state)) m0 :
  (forall m U ph s s' m', m_user_pml4 m = m_user_pml4 m0 -> loading m U -> phdr_ok ph -> one ph s m = (Some s', m') ->
    m_user_pml4 m' = m_user_pml4 m /\ loading m' (one_image ph U) /\ entry_exec s' = entry_exec s || enters ph) ->
  forall phs m U s s' m', m_user_pml4 m = m_user_pml4 m0 -> loading m U -> Forall phdr_ok phs -> load_segments one phs s m = (Some s', m') ->
    m_user_pml4 m' = m_user_pml4 m0 /\ loading m' (load_image file bias phs U) /\ entry_exec s' = entry_exec s || existsb enters phs.
Proof.
  intros Hone phs. induction phs as [|ph phs IH]; intros m U s s' m' Er Hm Hp; cbn [load_segments existsb load_image foldl].
  - intros [= <- <-]. by rewrite orb_false_r.
  - apply Forall_cons in Hp as [Hp Hps]. unfold st_bind at 1. destruct (one ph s m) as [[s1|] m1] eqn:E1; [|done]. destruct (Hone m U ph s s1 m1 Er Hm Hp E1) as (Er1 & Hm1 & Ex1).
    intros E. destruct (IH m1 _ s1 s' m' ltac:(congruence) Hm1 Hps E) as (Er2 & Hm2 & Ex2). split; [done|]. split; [exact Hm2|]. by rewrite Ex2, Ex1, orb_assoc.
Qed.
End File.

(** ** Creating the address space *)

Lemma created_empty m m' : created (inv := inv) (held := held) m m' -> loading m' empty_image.
Proof.
  intros Hc. pose proof (cr_ok _ _ Hc) as Ho.
  assert (Hn : forall a, user_va a -> has (upte m' a) PTE_P = false).
  { intros a Ha. pose proof (cr_empty _ _ Hc a Ha) as H. rewrite user_translate_eq in H by done. cbv zeta in H. fold (upte m' a) in H. by destruct (has (upte m' a) PTE_P). }
  assert (Hu : forall a, user_va a -> upresent m' a = false) by (intros a Ha; unfold upresent; by rewrite Hn).
  assert (Hs : space_ok (inv := inv) (held := held) m') by (split; [done | intros a Ha | intros a Ha | intros a b Ha Hb]; by rewrite Hu).
  split; [done | intros a Ha; by rewrite Hn |]. intros a Ha. unfold seen. rewrite ubyte_eq, Hu by done. done.
Qed.

(** The register kept for the kernel's own tables is no part of the space. *)
Lemma loading_kernel m m' U : m_pmm m' = m_pmm m -> m_mem m' = m_mem m -> m_user_pml4 m' = m_user_pml4 m -> m_user_valid m' = m_user_valid m -> loading m U -> loading m' U.
Proof.
  destruct m as [p mem c t kc fp fs u v], m' as [p' mem' c' t' kc' fp' fs' u' v']. cbn [m_pmm m_mem m_user_pml4 m_user_valid]. intros -> -> -> ->.
  intros [[[[I1 I2] V [T1 T2]] W P Q] L S]. split; [split; [split; [by split | done | by split] | exact W | exact P | exact Q] | exact L | exact S].
Qed.

Lemma create_space_spec m r m' : vm_inv (inv := inv) m -> cr3_ok m -> pmm_page_is_reserved (m_pmm m) (source_of m) = 1 -> create_user_space m = (r, m') ->
  (r = 0 /\ loading m' empty_image) \/ r = -1.
Proof.
  intros Hi Hc Hr. unfold create_user_space, st_bind at 1. destruct (vmm_user_space_create m) as [r1 m1] eqn:E1.
  destruct (vmm_user_space_create_spec m r1 m1 Hi Hc Hr E1) as [(-> & Hcr)|(-> & _)]; [|intros [= <- <-]; by right].
  change (negb (0 =? 0)) with false. cbv iota. unfold st_bind, st_mod, st_get, st_ret. set (m2 := if m_kernel_cr3 m1 =? 0 then _ else m1).
  assert (Hm2 : loading m2 empty_image) by (apply (loading_kernel m1); [unfold m2; by destruct (_ =? 0) .. | by apply (created_empty m)]).
  destruct (loading_cr3 m2 _ Hm2) as [-> _]. intros [= <- <-]. by left.
Qed.
End Load.
