(* ===== verification/ExecFacts.v ===== *)
(** * The first stack of a program

    Where init_user_stack puts the strings and the vector, and that each can be
    read back: the strings lie below one another, the vector below them. *)

From Stdlib Require Import String.
From S2P Require Import Prelude Words Pmm PmmFacts PmmInit PmmThms PageAlloc Vmm VmmFacts VmmMap VmmSpace VmmThms.
From S2P Require Import CStr Vfs Kernel Tty Fd Sched UserCopy UserMem UserMemThms Signals SignalFacts LazyMmap LazyFacts Mmap MmapFacts Process Elf Exec ElfFacts.
Local Open Scope Z_scope.
Local Open Scope st_scope.

Definition STACK_BASE : Z := USER_STACK_TOP - USER_STACK_SIZE.

(** ** Changes of a range *)

Definition rights (s : spot) : bool * bool := (sp_write s, sp_exec s).

(** Only bytes from [lo] to [hi] changed. *)
Definition changed (lo hi : Z) (U V : image) : Prop := forall a, user_va a ->
  if in_range lo hi a then option_map rights (V a) = option_map rights (U a) else V a = U a.

(** The bytes [l] are at [va]. *)
Definition bytes_at (V : image) (va : Z) (l : list Z) : Prop := forall i b, l !! i = Some b -> option_map sp_byte (V (va + Z.of_nat i)) = Some b.

(** The stack is mapped and may be written. *)
Definition stack_ready (U : image) : Prop := forall a, STACK_BASE <= a < USER_STACK_TOP -> spot_ok sp_write (U a) = true.

Lemma changed_refl lo hi U : changed lo hi U U.
Proof. intros a _. by destruct (in_range _ _ _). Qed.

Lemma changed_trans lo hi U V W : changed lo hi U V -> changed lo hi V W -> changed lo hi U W.
Proof. intros H1 H2 a Ha. specialize (H1 a Ha). specialize (H2 a Ha). destruct (in_range lo hi a); congruence. Qed.

Lemma changed_wider lo hi lo' hi' U V : lo' <= lo -> hi <= hi' -> changed lo hi U V -> changed lo' hi' U V.
Proof. intros H1 H2 H a Ha. specialize (H a Ha). in_ranges; (done || (destruct (in_range_spec lo hi a); (congruence || lia))). Qed.

Lemma changed_poke dst l U : changed dst (dst + Z.of_nat (length l)) U (poke_image dst l U).
Proof. intros a _. unfold poke_image. destruct (in_range _ _ a); [by destruct (U a) | done]. Qed.

Lemma changed_same lo hi U V W : same_image V W -> changed lo hi U V -> changed lo hi U W.
Proof. intros H1 H2 a Ha. rewrite <- H1 by done. by apply H2. Qed.

Lemma changed_ready lo hi U V : changed lo hi U V -> stack_ready U -> stack_ready V.
Proof.
  intros H HU a Ha. specialize (HU a Ha). specialize (H a ltac:(unfold user_va, USER_TOP, STACK_BASE, USER_STACK_TOP, USER_STACK_SIZE in *; lia)).
  destruct (in_range lo hi a); [|by rewrite H]. destruct (U a), (V a); cbn in *; try done. injection H as -> _. done.
Qed.

Lemma bytes_at_changed lo hi U V va l : changed lo hi U V -> bytes_at U va l -> 0 <= va -> va + Z.of_nat (length l) <= USER_TOP ->
  (va + Z.of_nat (length l) <= lo \/ hi <= va) -> bytes_at V va l.
Proof.
  intros H HU H0 Ht Hd i b Hi. pose proof (lookup_lt_Some _ _ _ Hi). specialize (H (va + Z.of_nat i) ltac:(unfold user_va; lia)). rewrite in_range_false in H by lia.
  rewrite H. by apply HU.
Qed.

Lemma bytes_at_poke U va l : (forall a, va <= a < va + Z.of_nat (length l) -> is_some (U a) = true) -> bytes_at (poke_image va l U) va l.
Proof.
  intros HU i b Hi. pose proof (lookup_lt_Some _ _ _ Hi). unfold poke_image. rewrite in_range_true by lia. specialize (HU (va + Z.of_nat i) ltac:(lia)).
  destruct (U (va + Z.of_nat i)); [|done]. cbn. f_equal. replace (Z.to_nat (va + Z.of_nat i - va)) with i by lia. by apply nth_lookup_Some with (d := 0).
Qed.

Lemma bytes_at_app V va l1 l2 : bytes_at V va (l1 ++ l2) <-> bytes_at V va l1 /\ bytes_at V (va + Z.of_nat (length l1)) l2.
Proof.
  split.
  - intros H. split; intros i b Hi; [apply H; by apply lookup_app_l_Some|]. rewrite <- Z.add_assoc, <- Nat2Z.inj_add. apply H. rewrite lookup_app_r by lia. by replace (length l1 + i - length l1)%nat with i by lia.
  - intros [H1 H2] i b Hi. apply lookup_app_Some in Hi as [Hi|[Hl Hi]]; [by apply H1|]. replace (va + Z.of_nat i) with (va + Z.of_nat (length l1) + Z.of_nat (i - length l1)) by lia. by apply H2.
Qed.

Lemma bytes_at_same V W va l : same_image V W -> 0 <= va -> va + Z.of_nat (length l) <= USER_TOP -> bytes_at V va l -> bytes_at W va l.
Proof. intros H H0 Ht HV i b Hi. pose proof (lookup_lt_Some _ _ _ Hi). rewrite <- H by (unfold user_va; lia). by apply HV. Qed.

(** ** Alignment *)

Lemma down16_spec x : 0 <= x < 2 ^ 64 -> down16 x = x - x mod 16.
Proof.
  intros Hx. unfold down16. assert (E : Z.land x (not64 0xF) = Z.ldiff x (Z.ones 4)).
  { apply Z.bits_inj'. intros i Hi. rewrite Z.land_spec, Z.ldiff_spec, testbit_not64 by done. change 0xF with (Z.ones 4).
    destruct (Z.ltb_spec i 64); [by destruct (Z.testbit (Z.ones 4) i)|]. rewrite (testbit_high x 64 i) by lia. done. }
  rewrite E, Z.ldiff_ones_r by lia. rewrite Z.shiftl_mul_pow2, Z.shiftr_div_pow2 by lia. change (2 ^ 4) with 16. dlia.
Qed.

Section Stack.
Context {HB : HhdmBase} {inv : pmm -> Prop} {held : pmm -> Z -> Prop} `{PA : !PageAllocator inv held}.
Local Abbreviation loading := (loading (inv := inv) (held := held)).

(** ** One store *)

Lemma put_spec {A} m U va l (rest : ST machine (option A)) : loading m U -> stack_ready U -> STACK_BASE <= va -> va + Z.of_nat (length l) <= USER_STACK_TOP -> Forall is_byte l ->
  exists m1 V, put (vmm_user_cr3 m) va l rest m = rest m1 /\ m_user_pml4 m1 = m_user_pml4 m /\ vmm_user_cr3 m1 = vmm_user_cr3 m /\ loading m1 V /\
    changed va (va + Z.of_nat (length l)) U V /\ bytes_at V va l /\ stack_ready V.
Proof.
  intros Hm HU Hb Ht Hl. unfold put, st_bind. destruct (copy_to_user (vmm_user_cr3 m) va l m) as [r m1] eqn:E.
  assert (Hrange : 0 <= va /\ va + Z.of_nat (length l) <= USER_TOP) by (unfold STACK_BASE, USER_STACK_TOP, USER_STACK_SIZE, USER_TOP in *; lia).
  destruct (user_store_spec m U va l r m1 Hm (proj1 Hrange) (proj2 Hrange) Hl E) as (Er & [(-> & Hm1 & _)|(_ & a & Ha & Hoa)]).
  - change (negb (0 =? 0)) with false. cbv iota. exists m1, (poke_image va l U). split; [done|]. split; [done|]. split; [by apply (same_cr3 m m1 U _ Hm Hm1)|].
    split; [done|]. split; [apply changed_poke|]. split.
    + apply bytes_at_poke. intros a Ha. specialize (HU a ltac:(lia)). by destruct (U a).
    + exact (changed_ready _ _ _ _ (changed_poke va l U) HU).
  - exfalso. rewrite (HU a) in Hoa by lia. done.
Qed.

(** ** The strings *)

Definition string_at (V : image) (va : Z) (s : cstr) : Prop := bytes_at V va (s ++ [0]).

(** The strings [l] at the addresses [vas], from [lo] to [hi]. *)
Definition strings_at (V : image) (lo hi : Z) (vas : list Z) (l : list cstr) : Prop :=
  Forall2 (fun va s => lo <= va /\ va + Z.of_nat (length s) + 1 <= hi /\ string_at V va s) vas l.

Lemma strings_at_changed lo hi U V a b vas l : changed lo hi U V -> strings_at U a b vas l -> 0 <= a -> b <= USER_TOP -> (b <= lo \/ hi <= a) -> strings_at V a b vas l.
Proof.
  intros H HU H0 Ht Hd. eapply Forall2_impl; [exact HU|]. intros va s (H1 & H2 & H3). split; [done|]. split; [done|].
  apply (bytes_at_changed lo hi U V); rewrite ?length_app; cbn [length]; (done || lia).
Qed.

Lemma strings_at_wider V a b a' b' vas l : a' <= a -> b <= b' -> strings_at V a b vas l -> strings_at V a' b' vas l.
Proof. intros H1 H2 H. eapply Forall2_impl; [exact H|]. intros va s (? & ? & ?). split_and!; (done || lia). Qed.

Definition short (s : cstr) : bool := (length s <=? 255)%nat.

Lemma put_strings_spec (l : list cstr) : forall m U cursor vas, loading m U -> stack_ready U -> Forall (Forall is_byte) l ->
  STACK_BASE + 272 * Z.of_nat (length l) <= cursor -> cursor <= USER_STACK_TOP ->
  if forallb short l
  then exists vs c m1 V, put_strings (vmm_user_cr3 m) l cursor vas m = (Some (vas ++ vs, c), m1) /\ vmm_user_cr3 m1 = vmm_user_cr3 m /\ m_user_pml4 m1 = m_user_pml4 m /\ loading m1 V /\
         changed c cursor U V /\ stack_ready V /\ strings_at V c cursor vs l /\ cursor - 272 * Z.of_nat (length l) <= c <= cursor
  else fst (put_strings (vmm_user_cr3 m) l cursor vas m) = None.
Proof.
  induction l as [|s l IH]; intros m U cursor vas Hm HU Hl Hc Ht; cbn [forallb put_strings].
  - exists [], cursor, m, U. rewrite app_nil_r. split_and!; try done; try (cbn [length]; lia); [apply changed_refl | by apply Forall2_nil].
  - apply Forall_cons in Hl as [Hs Hl]. cbn [length] in Hc. unfold short at 1. destruct (Nat.ltb_spec 255 (length s)), (Nat.leb_spec (length s) 255); try lia; cbn [andb]; [done|].
    assert (Hu : 0 <= cursor - (Z.of_nat (length s) + 1) < 2 ^ 64) by (unfold STACK_BASE, USER_STACK_TOP, USER_STACK_SIZE in *; lia).
    rewrite u64_small, down16_spec by exact Hu. set (x := cursor - (Z.of_nat (length s) + 1)) in *. pose proof (Z.mod_pos_bound x 16 ltac:(lia)) as Hx. set (va := x - x mod 16).
    assert (Hva : cursor - 272 <= va /\ va + Z.of_nat (length (s ++ [0])) <= cursor) by (rewrite length_app; cbn [length]; lia).
    destruct (put_spec m U va (s ++ [0]) (put_strings (vmm_user_cr3 m) l va (vas ++ [va])) Hm HU ltac:(lia) ltac:(lia)) as (m1 & V1 & E1 & Er1 & Ec1 & Hm1 & Hc1 & Hb1 & HU1).
    { apply Forall_app. split; [done|]. apply Forall_cons_2; [unfold is_byte; lia | apply Forall_nil_2]. }
    rewrite E1, <- Ec1. specialize (IH m1 V1 va (vas ++ [va]) Hm1 HU1 Hl ltac:(lia) ltac:(lia)). destruct (forallb short l).
    + destruct IH as (vs & c & m2 & V2 & E2 & Ec2 & Er2 & Hm2 & Hc2 & HU2 & Hs2 & Hcb). exists (va :: vs), c, m2, V2. rewrite E2, <- app_assoc. cbn [app].
      split; [done|]. split; [congruence|]. split; [congruence|]. split; [done|]. split; [|split; [done|split; [|cbn [length]; lia]]].
      * apply (changed_trans _ _ U V1); [apply (changed_wider va (va + Z.of_nat (length (s ++ [0])))); (done || lia) | apply (changed_wider c va); (done || lia)].
      * apply Forall2_cons. rewrite length_app in Hva. cbn [length] in Hva. split.
        -- split; [lia|]. split; [lia|]. apply (bytes_at_changed c va V1 V2); rewrite ?length_app; cbn [length]; unfold STACK_BASE, USER_STACK_TOP, USER_STACK_SIZE, USER_TOP in *; (done || lia).
        -- apply (strings_at_wider V2 c va); (done || lia).
    + exact IH.
Qed.

(** ** The vector *)

Lemma concat_words_length l : length (concat (map word_bytes l)) = (8 * length l)%nat.
Proof. induction l as [|w l IH]; [done|]. cbn [map concat length]. rewrite length_app, word_bytes_length, IH. lia. Qed.

Lemma concat_words_bytes l : Forall is_byte (concat (map word_bytes l)).
Proof. induction l as [|w l IH]; [done|]. cbn [map concat]. apply Forall_app. split; [apply word_bytes_range | done]. Qed.

Definition words_at (V : image) (va : Z) (l : list Z) : Prop := bytes_at V va (concat (map word_bytes l)).

Lemma put_words_spec l : forall m U pos rest, loading m U -> stack_ready U -> STACK_BASE <= pos -> pos + 8 * Z.of_nat (length l) <= USER_STACK_TOP ->
  exists m1 V, put_words (vmm_user_cr3 m) pos l rest m = rest m1 /\ vmm_user_cr3 m1 = vmm_user_cr3 m /\ m_user_pml4 m1 = m_user_pml4 m /\ loading m1 V /\
    changed pos (pos + 8 * Z.of_nat (length l)) U V /\ words_at V pos l /\ stack_ready V.
Proof.
  induction l as [|w l IH]; intros m U pos rest Hm HU Hb Ht; cbn [put_words].
  - exists m, U. split_and!; try done. apply changed_refl.
  - cbn [length] in Ht |- *. destruct (put_spec m U pos (word_bytes w) (put_words (vmm_user_cr3 m) (pos + 8) l rest) Hm HU Hb) as (m1 & V1 & E1 & Er1 & Ec1 & Hm1 & Hc1 & Hb1 & HU1);
      [rewrite word_bytes_length; lia | apply word_bytes_range|]. rewrite word_bytes_length in Hc1.
    rewrite E1, <- Ec1. destruct (IH m1 V1 (pos + 8) rest Hm1 HU1 ltac:(lia) ltac:(lia)) as (m2 & V2 & E2 & Ec2 & Er2 & Hm2 & Hc2 & Hb2 & HU2).
    exists m2, V2. split; [done|]. split; [congruence|]. split; [congruence|]. split; [done|]. split; [|split; [|done]].
    + apply (changed_trans _ _ U V1); [apply (changed_wider pos (pos + Z.of_nat 8)); (done || lia) | apply (changed_wider (pos + 8) (pos + 8 + 8 * Z.of_nat (length l))); (done || lia)].
    + unfold words_at. cbn [map concat]. apply bytes_at_app. rewrite word_bytes_length. split; [|exact Hb2].
      apply (bytes_at_changed (pos + 8) (pos + 8 + 8 * Z.of_nat (length l)) V1 V2); try done; rewrite ?word_bytes_length; unfold STACK_BASE, USER_STACK_TOP, USER_STACK_SIZE, USER_TOP in *; lia.
Qed.

(** The stack can be written from user space. *)
Lemma stack_range_ok m V va len : loading m V -> stack_ready V -> STACK_BASE <= va -> 0 < len -> va + len <= USER_STACK_TOP -> vmm_user_range_ok m va len true = true.
Proof.
  intros Hm HV Hb Hl Ht. pose proof (ld_space _ _ Hm) as Hs. assert (H0 : 0 <= va /\ va + len <= USER_TOP) by (unfold STACK_BASE, USER_STACK_TOP, USER_STACK_SIZE, USER_TOP in *; lia).
  apply range_ok_spec; [apply Hs | apply Hs | lia | lia |]. split; [done|]. split; [lia|]. intros a Ha. apply range_page_ok_iff. assert (Hu : user_va a) by (unfold user_va; lia).
  specialize (HV a ltac:(lia)). destruct (V a) as [s|] eqn:E; [|done]. destruct (loading_present m V a Hm Hu) as [H1 H2]. rewrite E in H2. rewrite H2 in H1. cbn in H1, HV.
  destruct (loading_some m V a s Hm Hu E) as [HW _]. unfold user_access. rewrite (translated m a Hs Hu), H1. do 2 eexists. split; [done|]. split; [by apply (ld_leaf _ _ Hm)|].
  intros _. left. by rewrite HW.
Qed.

Lemma put_vector_spec m U cursor argv_va envp_va auxv : loading m U -> stack_ready U ->
  let bytes := vector_bytes argv_va envp_va auxv in STACK_BASE + bytes + 48 <= cursor -> cursor <= USER_STACK_TOP ->
  exists m1 V sp, put_vector (vmm_user_cr3 m) cursor argv_va envp_va auxv m = (Some sp, m1) /\ vmm_user_cr3 m1 = vmm_user_cr3 m /\ m_user_pml4 m1 = m_user_pml4 m /\ loading m1 V /\
    changed sp cursor U V /\ words_at V sp (stack_vector argv_va envp_va ++ auxv) /\ stack_ready V /\
    sp mod 16 = 8 /\ STACK_BASE <= sp /\ sp + bytes + 16 <= cursor.
Proof.
  intros Hm HU bytes Hb Ht. unfold put_vector. cbv zeta. fold bytes. assert (Hbig : 2 ^ 46 <= cursor < 2 ^ 47) by (unfold STACK_BASE, USER_STACK_TOP, USER_STACK_SIZE, bytes, vector_bytes in *; lia).
  set (l := stack_vector argv_va envp_va) in *. assert (Hby : bytes = 8 * Z.of_nat (length l) + 8 * Z.of_nat (length auxv)) by (unfold bytes, vector_bytes; fold l; lia).
  assert (Hl : (0 < length l)%nat) by (unfold l, stack_vector; cbn [length]; lia).
  unfold vector_base. set (x := cursor - 16 - bytes - 8). assert (Hx : 0 <= x < 2 ^ 64) by (unfold STACK_BASE, USER_STACK_TOP, USER_STACK_SIZE in *; lia).
  assert (Esp : Z.lor (down16 x) 8 = x - x mod 16 + 8).
  { rewrite down16_spec by done. rewrite <- Z.lxor_lor, <- Z.add_nocarry_lxor; [done | |]; change 8 with (2 ^ 3); apply Z.bits_inj'; intros i Hi; rewrite Z.land_spec, Z.bits_0, Z.pow2_bits_eqb by lia;
      (destruct (Z.eqb_spec 3 i) as [<-|]; [|by rewrite andb_false_r]); rewrite andb_true_r; replace (x - x mod 16) with (x / 2 ^ 4 * 2 ^ 4) by dlia; by rewrite Z.mul_pow2_bits_low by lia. }
  rewrite Esp. pose proof (Z.mod_pos_bound x 16 ltac:(lia)) as Hm16. set (sp := x - x mod 16 + 8).
  assert (Hsp : STACK_BASE <= sp /\ sp + bytes + 16 <= cursor /\ sp mod 16 = 8) by (split; [lia|]; split; [lia | dlia]). destruct Hsp as (Hsp1 & Hsp2 & Hsp3).
  rewrite (proj2 (Z.ltb_ge _ _)), (proj2 (Z.ltb_ge _ _)) by (unfold STACK_BASE, USER_STACK_TOP, USER_STACK_SIZE in *; lia). cbn [orb].
  destruct (put_words_spec l m U sp (put (vmm_user_cr3 m) (sp + 8 * Z.of_nat (length l)) (concat (map word_bytes auxv))
    (check_vector cursor sp bytes)) Hm HU Hsp1 ltac:(lia)) as (m1 & V1 & E1 & Ec1 & Er1 & Hm1 & Hc1 & Hw1 & HU1).
  rewrite E1, <- Ec1. destruct (put_spec m1 V1 (sp + 8 * Z.of_nat (length l)) (concat (map word_bytes auxv))
    (check_vector cursor sp bytes) Hm1 HU1 ltac:(lia)) as (m2 & V2 & E2 & Er2 & Ec2 & Hm2 & Hc2 & Hb2 & HU2);
    [rewrite concat_words_length; lia | apply concat_words_bytes|]. rewrite E2. unfold check_vector. rewrite bind_get, (stack_range_ok m2 V2) by (done || lia). rewrite (proj2 (Z.ltb_ge _ _)) by lia. cbn [negb orb].
  rewrite concat_words_length in Hc2. exists m2, V2, sp. split; [done|]. split; [congruence|]. split; [congruence|]. split; [done|]. split; [|split; [|done]].
  - apply (changed_trans _ _ U V1); [apply (changed_wider sp (sp + 8 * Z.of_nat (length l))); (done || lia)|].
    apply (changed_wider (sp + 8 * Z.of_nat (length l)) (sp + 8 * Z.of_nat (length l) + Z.of_nat (8 * length auxv))); (done || lia).
  - unfold words_at. rewrite map_app, concat_app. apply bytes_at_app. rewrite concat_words_length. split.
    + apply (bytes_at_changed (sp + 8 * Z.of_nat (length l)) (sp + 8 * Z.of_nat (length l) + Z.of_nat (8 * length auxv)) V1 V2); try done; rewrite ?concat_words_length; unfold STACK_BASE, USER_STACK_TOP, USER_STACK_SIZE, USER_TOP in *; lia.
    + replace (sp + Z.of_nat (8 * length l)) with (sp + 8 * Z.of_nat (length l)) by lia. exact Hb2.
Qed.

(** ** The whole stack *)

Lemma put_fails {A} m U va l (rest : ST machine (option A)) a : loading m U -> 0 <= va -> va + Z.of_nat (length l) <= USER_TOP -> Forall is_byte l ->
  va <= a < va + Z.of_nat (length l) -> spot_ok sp_write (U a) = false -> fst (put (vmm_user_cr3 m) va l rest m) = None.
Proof.
  intros Hm H0 Ht Hl Ha HU. unfold put, st_bind. destruct (copy_to_user (vmm_user_cr3 m) va l m) as [r m1] eqn:E.
  destruct (user_store_spec m U va l r m1 Hm H0 Ht Hl E) as (_ & [(_ & _ & Hall)|(-> & _)]); [by rewrite Hall in HU by done | done].
Qed.

(** What a program finds on its stack: at the stack pointer the number of its
    arguments, then the addresses of their strings, a null word, those of the
    environment, a null word, and the auxiliary vector; the strings are above. *)
Record program_stack (V : image) (sp : Z) (args envp : list cstr) (auxv : list Z) : Prop := {
  ps_aligned : sp mod 16 = 8;
  ps_base : STACK_BASE <= sp;
  ps_strings : exists argv_va envp_va lo,
    words_at V sp (Z.of_nat (length args) :: argv_va ++ [0] ++ envp_va ++ [0] ++ auxv) /\
    sp + 8 * Z.of_nat (1 + length args + 1 + length envp + 1 + length auxv) <= lo /\
    strings_at V lo random_va argv_va args /\ strings_at V lo random_va envp_va envp
}.

Definition stack_args (exec_path : cstr) (argv : list cstr) : list cstr := if is_nil argv then [execfn exec_path] else argv.

Lemma execfn_bytes p : Forall is_byte p -> Forall is_byte (execfn p) /\ (length (execfn p) <= 127)%nat.
Proof.
  intros Hp. unfold execfn. destruct p as [|c p]; [split; [repeat (apply Forall_cons_2; [unfold is_byte, SLASH; lia|]); apply Forall_nil_2 | cbn; lia]|].
  split; [|rewrite length_take; lia]. apply Forall_take. destruct (c =? SLASH); [done|]. apply Forall_cons_2; [unfold is_byte, SLASH; lia | done].
Qed.

Lemma random_words_bytes : Forall is_byte random_words /\ length random_words = 16%nat.
Proof. split; [repeat (apply Forall_cons_2; [unfold is_byte; lia|]); apply Forall_nil_2 | done]. Qed.

Lemma stack_places : execfn_va = USER_STACK_TOP - 64 /\ random_va = USER_STACK_TOP - 80.
Proof. vm_compute. done. Qed.

Lemma auxv_length a b c d : (length (auxv_words a b c d) <= 18)%nat.
Proof. unfold auxv_words. destruct (negb (a =? 0)), (negb (d =? 0)); cbn; lia. Qed.

Definition stack_auxv (e : Elf64_Ehdr) (phdrs : list Elf64_Phdr) (bias entry interp_base : Z) : list Z :=
  auxv_words (phdr_address e phdrs bias) (e_phnum e) (if negb (entry =? 0) then entry else u64 (e_entry e + bias)) interp_base.

(** The strings and the vector, once the name of the program is in place. *)
Lemma put_args_spec m U (args envp : list cstr) auxv : loading m U -> stack_ready U -> Forall (Forall is_byte) args -> Forall (Forall is_byte) envp ->
  (length args <= 16)%nat -> (length envp <= 16)%nat -> (length auxv <= 18)%nat ->
  let call := put_args (vmm_user_cr3 m) args envp auxv m in
  if forallb short args && forallb short envp
  then exists sp m1 V, call = (Some sp, m1) /\ vmm_user_cr3 m1 = vmm_user_cr3 m /\ loading m1 V /\ changed sp random_va U V /\ program_stack V sp args envp auxv
  else fst call = None.
Proof.
  intros Hm HU Ha He La Le Lx call. destruct stack_places as [_ Er].
  pose proof (put_strings_spec args m U random_va [] Hm HU Ha ltac:(unfold STACK_BASE, USER_STACK_SIZE; lia) ltac:(lia)) as H1. destruct (forallb short args); cbn [andb].
  2: { destruct (put_strings (vmm_user_cr3 m) args random_va [] m) as [r1 m1] eqn:E. cbn [fst] in H1. subst r1. unfold call, put_args, st_bind. by rewrite E. }
  destruct H1 as (avas & c1 & m1 & V1 & E1 & Ec1 & _ & Hm1 & Hc1 & HU1 & Hs1 & Hb1). cbn [app] in E1.
  pose proof (put_strings_spec envp m1 V1 c1 [] Hm1 HU1 He ltac:(unfold STACK_BASE, USER_STACK_SIZE; lia) ltac:(lia)) as H2. destruct (forallb short envp).
  2: { destruct (put_strings (vmm_user_cr3 m1) envp c1 [] m1) as [r2 m2] eqn:E. cbn [fst] in H2. subst r2. unfold call, put_args, st_bind. by rewrite E1, <- Ec1, E. }
  destruct H2 as (evas & c2 & m2 & V2 & E2 & Ec2 & _ & Hm2 & Hc2 & HU2 & Hs2 & Hb2). cbn [app] in E2.
  pose proof (Forall2_length _ _ _ Hs1 : length avas = @length cstr args) as L1. pose proof (Forall2_length _ _ _ Hs2 : length evas = @length cstr envp) as L2.
  assert (Hbytes : vector_bytes avas evas auxv = 8 * Z.of_nat (1 + length args + 1 + length envp + 1 + length auxv)).
  { unfold vector_bytes, stack_vector. rewrite ?length_app. cbn [length]. rewrite ?length_app. cbn [length]. rewrite ?length_app. cbn [length]. lia. }
  destruct (put_vector_spec m2 V2 c2 avas evas auxv Hm2 HU2) as (m3 & V3 & sp & E3 & Ec3 & _ & Hm3 & Hc3 & Hw3 & HU3 & Hal & Hb3 & Hlo); [rewrite Hbytes; unfold STACK_BASE, USER_STACK_SIZE; lia | lia|].
  exists sp, m3, V3. split; [unfold call, put_args, st_bind; by rewrite E1, <- Ec1, E2, <- Ec2|]. split; [congruence|]. split; [done|]. assert (Hrange : sp <= c2 <= c1 /\ c1 <= random_va) by lia.
  assert (H0 : 0 <= c2 /\ random_va <= USER_TOP) by (unfold STACK_BASE, USER_STACK_TOP, USER_STACK_SIZE, USER_TOP in *; lia). split.
  - apply (changed_trans _ _ U V2); [apply (changed_trans _ _ U V1)|]; [apply (changed_wider c1 random_va) | apply (changed_wider c2 c1) | apply (changed_wider sp c2)]; (done || lia).
  - split; [done | done |]. exists avas, evas, c2. split; [|split; [rewrite Hbytes in Hlo; lia|split]].
    + unfold stack_vector in Hw3. rewrite L1 in Hw3. cbn [app] in Hw3. rewrite <- app_assoc in Hw3. cbn [app] in Hw3. rewrite <- app_assoc in Hw3. exact Hw3.
    + apply (strings_at_wider V3 c1 random_va); [lia | lia|]. apply (strings_at_changed sp c2 V2 V3); [done | | lia | lia | lia]. apply (strings_at_changed c2 c1 V1 V2); (done || lia).
    + apply (strings_at_wider V3 c2 c1); [lia | lia|]. apply (strings_at_changed sp c2 V2 V3); (done || lia).
Qed.
End Stack.
