(* ===== verification/ExecThms.v ===== *)
(** * Properties of the program loader

    The memory of a program that was loaded is the image its file describes,
    with its arguments on the stack. *)

From Stdlib Require Import String.
From S2P Require Import Prelude Words Pmm PmmFacts PmmInit PmmThms PageAlloc Vmm VmmFacts VmmMap VmmSpace VmmThms.
From S2P Require Import CStr Vfs Kernel Tty Fd Sched UserCopy UserMem UserMemThms Signals SignalFacts LazyMmap LazyFacts Mmap MmapFacts Process Elf Exec ElfFacts ExecFacts.
Local Open Scope Z_scope.
Local Open Scope st_scope.

Section Claims.
Context {HB : HhdmBase} {inv : pmm -> Prop} {held : pmm -> Z -> Prop} `{PA : !PageAllocator inv held}.
Local Abbreviation loading := (loading (inv := inv) (held := held)).

Lemma init_stack_run m U e phdrs exec_path (argv envp : list cstr) bias entry base : loading m U -> stack_ready U -> Forall is_byte exec_path ->
  Forall (Forall is_byte) argv -> Forall (Forall is_byte) envp -> (length (execfn exec_path) <= 63)%nat ->
  let args := stack_args exec_path argv in let call := init_user_stack (vmm_user_cr3 m) e phdrs exec_path argv envp bias entry base m in
  if (length argv <=? 16)%nat && (length envp <=? 16)%nat && forallb short args && forallb short envp
  then exists sp m1 V, call = (Some sp, m1) /\ loading m1 V /\ changed sp USER_STACK_TOP U V /\
    program_stack V sp args envp (stack_auxv e phdrs bias entry base) /\ string_at V execfn_va (execfn exec_path) /\ bytes_at V random_va random_words
  else fst call = None.
Proof.
  intros Hm HU Hx Ha He Hfn args call. destruct (execfn_bytes exec_path Hx) as [Hfb _]. destruct random_words_bytes as [Hrb Hrl]. destruct stack_places as [Ef Er].
  unfold call, init_user_stack. destruct (Nat.ltb_spec 16 (length argv)), (Nat.leb_spec (length argv) 16); try lia; cbn [orb andb]; [done|].
  destruct (Nat.ltb_spec 16 (length envp)), (Nat.leb_spec (length envp) 16); try lia; cbn [orb andb]; [done|].
  set (rest := put (vmm_user_cr3 m) random_va random_words _).
  destruct (put_spec m U execfn_va (execfn exec_path ++ [0]) rest Hm HU) as (m1 & V1 & E1 & _ & Ec1 & Hm1 & Hc1 & Hb1 & HU1).
  { rewrite Ef. unfold STACK_BASE, USER_STACK_SIZE. lia. }
  { rewrite Ef, length_app. cbn [length]. lia. }
  { apply Forall_app. split; [done|]. apply Forall_cons_2; [unfold is_byte; lia | apply Forall_nil_2]. }
  rewrite E1. unfold rest. clear rest E1. rewrite <- Ec1. set (rest := put_args _ _ _ _).
  destruct (put_spec m1 V1 random_va random_words rest Hm1 HU1) as (m2 & V2 & E2 & _ & Ec2 & Hm2 & Hc2 & Hb2 & HU2); [rewrite Er; unfold STACK_BASE, USER_STACK_SIZE; lia | rewrite Er, Hrl; lia | done |].
  rewrite E2. unfold rest. clear rest E2. rewrite <- Ec2. fold args.
  assert (Hargs : Forall (Forall is_byte) args /\ (length args <= 16)%nat) by (unfold args, stack_args; destruct argv; cbn [is_nil]; [split; [by apply Forall_cons_2|cbn; lia] | done]).
  pose proof (put_args_spec m2 V2 args envp (stack_auxv e phdrs bias entry base) Hm2 HU2 (proj1 Hargs) He (proj2 Hargs) ltac:(lia) (auxv_length _ _ _ _)) as HA.
  cbv zeta in HA. destruct (forallb short args && forallb short envp) eqn:Es.
  - destruct HA as (sp & m3 & V3 & E3 & _ & Hm3 & Hc3 & Hp3). exists sp, m3, V3. split; [exact E3|]. split; [done|]. pose proof (ps_base _ _ _ _ _ Hp3) as Hb3.
    destruct (ps_strings _ _ _ _ _ Hp3) as (avas & evas & lo & _ & Hlo & Hs & _).
    assert (Hsp : sp <= random_va).
    { destruct Hargs as [_ _]. assert (args <> []) by (unfold args, stack_args; by destruct argv). destruct args as [|a0 args']; [done|]. apply Forall2_cons_inv_r in Hs as (va & vas & (? & ? & _) & _). lia. }
    rewrite Ef, Er in *. split; [|split; [done|split]].
    + apply (changed_trans _ _ U V2); [apply (changed_trans _ _ U V1)|].
      * apply (changed_wider (USER_STACK_TOP - 64) (USER_STACK_TOP - 64 + Z.of_nat (length (execfn exec_path ++ [0])))); [lia | rewrite length_app; cbn [length]; lia | done].
      * apply (changed_wider (USER_STACK_TOP - 80) (USER_STACK_TOP - 80 + Z.of_nat (length random_words))); [lia | rewrite Hrl; lia | done].
      * apply (changed_wider sp (USER_STACK_TOP - 80)); (done || lia).
    + unfold string_at. apply (bytes_at_changed sp (USER_STACK_TOP - 80) V2 V3); [done | | unfold USER_STACK_TOP; lia | rewrite length_app; cbn [length]; unfold USER_STACK_TOP, USER_TOP; lia | right; lia].
      apply (bytes_at_changed (USER_STACK_TOP - 80) (USER_STACK_TOP - 80 + Z.of_nat (length random_words)) V1 V2); [done | done | unfold USER_STACK_TOP; lia | rewrite length_app; cbn [length]; unfold USER_STACK_TOP, USER_TOP; lia | right; rewrite Hrl; lia].
    + apply (bytes_at_changed sp (USER_STACK_TOP - 80) V2 V3); [done | done | unfold USER_STACK_TOP; lia | rewrite Hrl; unfold USER_STACK_TOP, USER_TOP; lia | right; lia].
  - exact HA.
Qed.

(** C31. init_user_stack gives a program its arguments: whatever they are, when
    there are at most 16 arguments and 16 strings of the environment of at most 255 bytes,
    the program finds at its stack pointer the number of arguments, their
    addresses, those of the environment and the auxiliary vector, every string
    where its address says, and nothing below the stack pointer changes.  It
    fails in every other case, and also for each program whose path, with its
    slash, is longer than 63 bytes, since its name runs over the end of the stack. *)
Theorem init_user_stack_correct m U e phdrs exec_path (argv envp : list cstr) bias entry base : loading m U -> stack_ready U ->
  spot_ok sp_write (U USER_STACK_TOP) = false -> Forall is_byte exec_path -> Forall (Forall is_byte) argv -> Forall (Forall is_byte) envp ->
  let args := stack_args exec_path argv in let call := init_user_stack (vmm_user_cr3 m) e phdrs exec_path argv envp bias entry base m in
  if (length (execfn exec_path) <=? 63)%nat && ((length argv <=? 16)%nat && (length envp <=? 16)%nat && forallb short args && forallb short envp)
  then exists sp m1 V, call = (Some sp, m1) /\ loading m1 V /\ changed sp USER_STACK_TOP U V /\
    program_stack V sp args envp (stack_auxv e phdrs bias entry base) /\ string_at V execfn_va (execfn exec_path) /\ bytes_at V random_va random_words
  else fst call = None.
Proof.
  intros Hm HU Htop Hx Ha He args call. destruct (Nat.leb_spec (length (execfn exec_path)) 63) as [Hl|Hl]; cbn [andb]; [by apply init_stack_run|].
  unfold call, init_user_stack. destruct (_ || _); [done|]. destruct (execfn_bytes exec_path Hx) as [Hfb Hfl]. destruct stack_places as [Ef _].
  apply (put_fails m U execfn_va (execfn exec_path ++ [0]) _ USER_STACK_TOP); [done | rewrite Ef; unfold USER_STACK_TOP; lia | | | | done].
  - rewrite Ef, length_app. cbn [length]. unfold USER_STACK_TOP, USER_TOP. lia.
  - apply Forall_app. split; [done|]. apply Forall_cons_2; [unfold is_byte; lia | apply Forall_nil_2].
  - rewrite Ef, length_app. cbn [length]. unfold USER_STACK_TOP. lia.
Qed.

(** ** The whole loader *)

Lemma read_phdrs_ok reader (file : list Z) e n : reads reader file -> Forall is_byte file -> forall i l, read_phdrs reader (Z.of_nat (length file)) n e i = Some l -> Forall phdr_ok l.
Proof.
  intros Hr Hf. induction n as [|n IH]; intros i l; cbn [read_phdrs]; [by intros [= <-]|]. destruct (elf_reader_read_exact _ _ _ _) as [b|] eqn:Eb; [|done].
  destruct (read_phdrs _ _ n e (i + 1)) as [l'|] eqn:El; [|done]. intros [= <-]. apply Forall_cons. split; [|by apply (IH (i + 1))]. apply bytes_phdr_ok.
  unfold elf_reader_read_exact in Eb. destruct (Z.ltb_spec (Z.of_nat (length file)) (u64 (e_phoff e + i * e_phentsize e))); [done|].
  destruct (Z.ltb_spec (Z.of_nat (length file) - u64 (e_phoff e + i * e_phentsize e)) PHDR_SIZE); [done|]. cbn [orb] in Eb.
  pose proof (u64_range (e_phoff e + i * e_phentsize e)). rewrite Hr in Eb by (unfold PHDR_SIZE in *; lia). destruct (_ =? _) in Eb; [|done]. injection Eb as <-. by apply slice_bytes.
Qed.

Lemma headers_ok reader (file : list Z) e phdrs : reads reader file -> Forall is_byte file -> elf_headers reader (Z.of_nat (length file)) = Some (e, phdrs) -> Forall phdr_ok phdrs.
Proof.
  intros Hr Hf. unfold elf_headers. destruct (_ <? EHDR_SIZE); [done|]. destruct (elf_reader_read_exact _ _ _ _) as [b|]; [|done]. cbv zeta. repeat (destruct (_ || _); [done|]).
  destruct (read_phdrs _ _ _ _ _) as [l|] eqn:El; [|done]. intros [= <- <-]. by apply (read_phdrs_ok _ _ _ _ Hr Hf _ _ El).
Qed.

Lemma heap_reset_vm image_end k : k_vm (exec (user_heap_reset_for_image image_end) k) = k_vm k.
Proof. unfold user_heap_reset_for_image. rewrite exec_get. by destruct (_ && _). Qed.

Section Boot.
Variable find_file_in_root : cstr -> option Z.
Variable bootfs_read_root_file : cstr -> Z -> Z -> list Z.
Variable junk : list Z.
(** The contents of the files of the boot medium. *)
Variable boot : cstr -> list Z.
Hypothesis boot_size : forall p, default 0 (find_file_in_root p) = Z.of_nat (length (boot p)).
Hypothesis boot_read : forall p off n, 0 <= off -> 0 <= n -> bootfs_read_root_file p off n = slice off n (boot p).
Hypothesis boot_bytes : forall p, Forall is_byte (boot p).
Hypothesis junk_bytes : Forall is_byte junk.

(** The program headers of an interpreter. *)
Definition interp_of (p : cstr) : option (Elf64_Ehdr * list Elf64_Phdr) := interp_headers bootfs_read_root_file junk p (Z.of_nat (length (boot p))).

(** The image of a program: its segments, then those of its interpreter. *)
Definition program_image (reader : Z -> Z -> option (list Z)) (file : list Z) (e : Elf64_Ehdr) (phdrs : list Elf64_Phdr) : image :=
  let own := load_image file (if e_type e =? 3 then KYRONIX_PIE_BASE else 0) phdrs empty_image in
  match interp_path reader (Z.of_nat (length file)) phdrs with
  | Some (c :: p) => match interp_of (c :: p) with Some (_, phs) => load_image (boot (c :: p)) KYRONIX_INTERP_BASE phs own | None => own end
  | _ => own
  end.

Lemma interp_phdrs_ok p e phs : interp_of p = Some (e, phs) -> Forall phdr_ok phs.
Proof.
  unfold interp_of, interp_headers. destruct (_ <? EHDR_SIZE); [done|]. cbv zeta. repeat (destruct (_ || _); [done|]). intros [= <- <-]. apply Forall_map, Forall_forall. intros i _.
  unfold interp_phdr. apply bytes_phdr_ok, Forall_drop, Forall_app. split; [|by apply Forall_drop]. rewrite boot_read by lia. by apply slice_bytes.
Qed.

Lemma boot_reads p : reads (bootfs_read_exact bootfs_read_root_file p) (boot p).
Proof. intros off n Ho Hn Ht. unfold bootfs_read_exact. by rewrite boot_read, slice_length, Z.eqb_refl by lia. Qed.

(** The interpreter that was loaded. *)
Lemma interp_spec m U p entry m' : loading m U -> p <> [] ->
  load_bootfs_elf_image (bootfs_file_size find_file_in_root) bootfs_read_root_file junk (vmm_user_cr3 m) p KYRONIX_INTERP_BASE m = (Some entry, m') ->
  m_user_pml4 m' = m_user_pml4 m /\ exists e phs, interp_of p = Some (e, phs) /\ entry = u64 (e_entry e + KYRONIX_INTERP_BASE) /\
    loading m' (load_image (boot p) KYRONIX_INTERP_BASE phs U) /\ existsb (enters KYRONIX_INTERP_BASE entry) phs = true.
Proof.
  intros Hm Hp. unfold load_bootfs_elf_image, bootfs_file_size. rewrite boot_size. destruct (_ || _); [done|]. fold (interp_of p). destruct (interp_of p) as [[e phs]|] eqn:Ei; [|done].
  unfold st_bind. set (entry0 := u64 (e_entry e + KYRONIX_INTERP_BASE)). destruct (load_segments _ phs no_segment m) as [[s|] m1] eqn:El; [|done].
  assert (Hb : is_u64 KYRONIX_INTERP_BASE) by (unfold is_u64, KYRONIX_INTERP_BASE; lia).
  destruct (load_segments_spec (boot p) KYRONIX_INTERP_BASE entry0 _ m (interp_turn _ (boot p) (boot_reads p) (boot_bytes p) KYRONIX_INTERP_BASE entry0 Hb m U Hm)
    phs m U no_segment s m1 eq_refl Hm (interp_phdrs_ok p e phs Ei) El) as (Er & Hm1 & Hx).
  destruct ((load_count s =? 0) || _ || _) eqn:Ec; [done|]. intros [= <- <-]. split; [done|]. exists e, phs. split; [done|]. split; [done|]. split; [done|].
  apply orb_false_iff in Ec as [[_ Ec%negb_false_iff]%orb_false_iff _]. by rewrite Ec in Hx.
Qed.

Definition load_bias (e : Elf64_Ehdr) : Z := if e_type e =? 3 then KYRONIX_PIE_BASE else 0.
Definition own_entry (e : Elf64_Ehdr) : Z := u64 (e_entry e + load_bias e).

(** Where the program starts: in its interpreter when it names one. *)
Definition starts_at (reader : Z -> Z -> option (list Z)) (file : list Z) (e : Elf64_Ehdr) (phdrs : list Elf64_Phdr) (entry : Z) : Prop :=
  match interp_path reader (Z.of_nat (length file)) phdrs with
  | Some (c :: p) => exists ie phs, interp_of (c :: p) = Some (ie, phs) /\ entry = u64 (e_entry ie + KYRONIX_INTERP_BASE) /\ existsb (enters KYRONIX_INTERP_BASE entry) phs = true
  | _ => entry = own_entry e
  end.

Definition interp_base (reader : Z -> Z -> option (list Z)) (file : list Z) (phdrs : list Elf64_Phdr) : Z :=
  match interp_path reader (Z.of_nat (length file)) phdrs with Some (_ :: _) => KYRONIX_INTERP_BASE | _ => 0 end.

Lemma enters_positive entry phs : Forall phdr_ok phs -> existsb (enters KYRONIX_INTERP_BASE entry) phs = true -> entry <> 0.
Proof.
  intros Hp Hx. apply existsb_exists in Hx as (ph & Hin & Hx). apply list_elem_of_In in Hin. rewrite Forall_forall in Hp. destruct (Hp ph Hin) as (_ & Hv & _).
  unfold enters, holds_entry in Hx. apply andb_prop in Hx as [_ [[_ Hx%Z.leb_le]%andb_prop _]%andb_prop]. unfold is_u64, KYRONIX_INTERP_BASE in *. lia.
Qed.

Lemma clear_ready U : stack_ready (clear_image STACK_BASE USER_STACK_TOP true false U).
Proof. intros a Ha. unfold clear_image. by rewrite in_range_true. Qed.

Lemma map_stack_spec m U r m' : loading m U -> map_user_stack m = (r, m') ->
  (r = 0 /\ m_user_pml4 m' = m_user_pml4 m /\ loading m' (clear_image STACK_BASE USER_STACK_TOP true false U)) \/ r = -1.
Proof.
  intros Hm E. destruct (stack_pages_spec (pages_of USER_STACK_SIZE) STACK_BASE m U r m' Hm) as [H|H]; [done | unfold STACK_BASE; vm_compute; done | vm_compute; done | exact E | left; exact H | by right].
Qed.

(** C32. A program that is loaded gets the memory its file describes, refined
    through frames and page tables: each page of a segment once, with the rights
    of all segments that touch it, the bytes of the file and zeroes behind them,
    the segments in the order of the table, then those of the interpreter the
    file names, then a stack of zeroes with the arguments and the environment
    on it; nothing else is mapped.  It starts inside a segment that may be executed,
    in the interpreter when there is one. *)
Theorem load_elf_correct reader (file : list Z) exec_path (argv envp : list cstr) k entry sp k' :
  reads reader file -> Forall is_byte file -> Forall is_byte exec_path -> Forall (Forall is_byte) argv -> Forall (Forall is_byte) envp -> (length (execfn exec_path) <= 63)%nat ->
  vm_inv (inv := inv) (k_vm k) -> cr3_ok (k_vm k) -> pmm_page_is_reserved (m_pmm (k_vm k)) (source_of (k_vm k)) = 1 ->
  load_elf_with_args_reader find_file_in_root bootfs_read_root_file junk reader (Z.of_nat (length file)) exec_path argv envp k = (Some (entry, sp), k') ->
  exists e phdrs V, elf_headers reader (Z.of_nat (length file)) = Some (e, phdrs) /\ loading (k_vm k') V /\
    changed sp USER_STACK_TOP (clear_image STACK_BASE USER_STACK_TOP true false (program_image reader file e phdrs)) V /\
    program_stack V sp (stack_args exec_path argv) envp (stack_auxv e phdrs (load_bias e) (own_entry e) (interp_base reader file phdrs)) /\
    existsb (enters (load_bias e) (own_entry e)) phdrs = true /\ starts_at reader file e phdrs entry.
Proof.
  intros Hr Hf Hx Ha He Hfn Hi Hc Hs. unfold load_elf_with_args_reader. destruct (elf_headers reader _) as [[e phdrs]|] eqn:Eh; [|done].
  pose proof (headers_ok reader file e phdrs Hr Hf Eh) as Hph. unfold st_bind at 1, on_vm at 1. destruct (create_user_space (k_vm k)) as [r0 m0] eqn:E0.
  destruct (create_space_spec (k_vm k) r0 m0 Hi Hc Hs E0) as [[-> Hm0]| ->]; [|done]. change (negb (0 =? 0)) with false. cbv iota. rewrite bind_get. cbv zeta.
  change (k_vm (k <| k_vm := m0 |>)) with m0. fold (load_bias e) (own_entry e). destruct (own_entry e <? e_entry e); [done|].
  unfold st_bind at 1, on_vm at 1. change (k_vm (k <| k_vm := m0 |>)) with m0. destruct (load_segments _ phdrs no_segment m0) as [[s|] m1] eqn:E1; [|done].
  assert (Hb : is_u64 (load_bias e)) by (unfold load_bias, is_u64, KYRONIX_PIE_BASE; destruct (_ =? _); lia).
  destruct (load_segments_spec file (load_bias e) (own_entry e) _ m0 (load_turn _ file (reads_exact reader file Hr) Hf (load_bias e) (own_entry e) Hb m0 empty_image Hm0)
    phdrs m0 empty_image no_segment s m1 eq_refl Hm0 Hph E1) as (Er1 & Hm1 & Hx1).
  destruct ((load_count s =? 0) || _ || _) eqn:Ec; [done|]. apply orb_false_iff in Ec as [[_ Ec%negb_false_iff]%orb_false_iff _]. rewrite Ec in Hx1. cbn [no_segment entry_exec orb] in Hx1.
  rewrite bind_eq. set (k1 := exec (user_heap_reset_for_image _) _). assert (Ek1 : k_vm k1 = m1) by (unfold k1; by rewrite heap_reset_vm). clearbody k1.
  assert (Ecr1 : vmm_user_cr3 m0 = vmm_user_cr3 m1) by (symmetry; by apply (same_cr3 m0 m1 empty_image _ Hm0 Hm1)). rewrite Ecr1.
  set (own := load_image file (load_bias e) phdrs empty_image) in *.
  (* The interpreter. *)
  destruct (interp_path reader (Z.of_nat (length file)) phdrs) as [path|] eqn:Ep; [|done].
  set (base := if is_nil path then 0 else KYRONIX_INTERP_BASE).
  assert (Ebase : base = interp_base reader file phdrs) by (unfold base, interp_base; rewrite Ep; by destruct path).
  assert (Hint : forall ie k2, (if is_nil path then st_ret (Some 0) else on_vm (load_bootfs_elf_image (bootfs_file_size find_file_in_root) bootfs_read_root_file junk (vmm_user_cr3 m1) path base)) k1 = (Some ie, k2) ->
    loading (k_vm k2) (program_image reader file e phdrs) /\ m_user_pml4 (k_vm k2) = m_user_pml4 m1 /\ starts_at reader file e phdrs (if negb (ie =? 0) then ie else own_entry e)).
  { intros ie k2. unfold program_image, starts_at. rewrite Ep. fold (load_bias e). fold own. destruct path as [|c p]; cbn [is_nil].
    - intros [= <- <-]. rewrite Ek1. done.
    - unfold on_vm. rewrite Ek1. change base with KYRONIX_INTERP_BASE. destruct (load_bootfs_elf_image _ _ _ _ _ _ m1) as [[ie'|] m2] eqn:E2; [|done]. intros [= <- <-].
      destruct (interp_spec m1 own (c :: p) ie' m2 Hm1 ltac:(done) E2) as (Er2 & ie & phs & Ei & Een & Hm2 & Hx2). rewrite Ei. split; [done|]. split; [done|].
      assert (Hne : ie' <> 0) by (apply (enters_positive ie' phs); [by apply (interp_phdrs_ok (c :: p) ie) | done]). rewrite (proj2 (Z.eqb_neq _ _)) by done. cbn [negb].
      exists ie, phs. done. }
  unfold st_bind at 1. lazymatch goal with |- context [if is_nil path then ?a else ?b] => destruct ((if is_nil path then a else b) k1) as [[ie|] k2] eqn:E2 end; [|done].
  destruct (Hint ie k2 eq_refl) as (Hm2 & Er2 & Hst). clear Hint E2.
  (* The stack. *)
  unfold st_bind at 1, on_vm at 1. destruct (map_user_stack (k_vm k2)) as [r3 m3] eqn:E3. destruct (map_stack_spec (k_vm k2) _ r3 m3 Hm2 E3) as [(-> & Er3 & Hm3)| ->]; [|done].
  change (negb (0 =? 0)) with false. cbv iota. unfold st_bind, on_vm. change (k_vm (k2 <| k_vm := m3 |>)) with m3.
  assert (Ecr3 : vmm_user_cr3 m1 = vmm_user_cr3 m3) by (symmetry; apply (same_cr3 m1 m3 own _ Hm1 Hm3); congruence). rewrite Ecr3.
  pose proof (init_stack_run m3 _ e phdrs exec_path argv envp (load_bias e) (own_entry e) base Hm3 (clear_ready _) Hx Ha He Hfn) as H4. cbv zeta in H4.
  destruct (_ && _ && _ && _) in H4.
  - destruct H4 as (sp' & m4 & V & E4 & Hm4 & Hc4 & Hp4 & _). rewrite E4. cbn [option_map]. intros [= <- <- <-]. exists e, phdrs, V. rewrite <- Ebase. split_and!; done.
  - destruct (init_user_stack _ _ _ _ _ _ _ _ _ m3) as [r4 m4]. cbn [fst] in H4. subst r4. done.
Qed.
End Boot.
End Claims.

(** ** A small program *)

(** A reader of a file that is in memory. *)
Lemma memory_reads (file : list Z) : Z.of_nat (length file) < 2 ^ 63 -> reads (elf_memory_reader_read file (Z.of_nat (length file))) file.
Proof.
  intros Hl off n Ho Hn Ht. unfold elf_memory_reader_read. rewrite !(proj2 (Z.ltb_ge _ _)) by lia. done.
Qed.

Definition run_memmap : list (option limine_memmap_entry) := [Some (MemmapEntry 0xFFF000 0x100000 0); Some (MemmapEntry 0x2000000 0x3800 0)].
Definition run_boot : pmm := pmm_init demo_mem 0x2000000 (Some run_memmap) 0xFFFF800000000000 0x1000000 0x1001800 pmm_blank.
Definition run_vm : machine := Machine run_boot demo_mem 0x2000000 [] 0 0 0 0 false.
#[local] Instance run_hhdm : HhdmBase := 0xFFFF800000000000.

Lemma run_boot_wf : pmm_wf run_boot.
Proof.
  apply pmm_init_sound; [| by vm_compute | by vm_compute | by vm_compute | discriminate | vm_compute; discriminate].
  split; [repeat constructor; vm_compute; intros; discriminate|]. unfold run_memmap. repeat constructor; cbn; unfold usable_entry; cbn; lia.
Qed.

Lemma run_vm_inv : vm_inv (inv := pmm_wf) run_vm.
Proof.
  split; [exact run_boot_wf|]. assert (E : g_hhdm (m_pmm run_vm) = 0xFFFF800000000000) by (vm_compute; reflexivity).
  rewrite E. unfold hhdm_ok, PMM_TRACK_LIMIT. split; [reflexivity | lia].
Qed.

Definition field (n : nat) (v : Z) : list Z := take n (word_bytes v).

(** A header, one segment that may be executed, and four bytes of code. *)
Definition run_file : list Z :=
  [0x7F; 69; 76; 70; 2; 1] ++ replicate 10 0 ++ field 2 2 ++ field 2 0x3E ++ field 4 1 ++ field 8 0x400078 ++ field 8 64 ++ field 8 0 ++
  field 4 0 ++ field 2 64 ++ field 2 56 ++ field 2 1 ++ replicate 6 0 ++
  field 4 1 ++ field 4 5 ++ field 8 0 ++ field 8 0x400000 ++ field 8 0x400000 ++ field 8 124 ++ field 8 256 ++ field 8 4096 ++
  [0x90; 0x90; 0x0F; 0x05].

Definition run_args : list cstr := [[114; 117; 110]; []].
Definition run_env : list cstr := [[65; 61; 49]].

Definition run_space : machine := snd (create_user_space run_vm).
Definition run_stack : machine := snd (map_user_stack run_space).
Definition stack_only : image := clear_image STACK_BASE USER_STACK_TOP true false empty_image.

Lemma run_space_empty : loading (inv := pmm_wf) (held := pool_held) run_space empty_image.
Proof.
  assert (E : fst (create_user_space run_vm) = 0) by (vm_compute; reflexivity).
  destruct (create_space_spec (inv := pmm_wf) (held := pool_held) run_vm _ _ run_vm_inv ltac:(unfold cr3_ok; split_and!; vm_compute; congruence)
    ltac:(vm_compute; reflexivity) (surjective_pairing _)) as [[_ H]|H]; [exact H|]. rewrite E in H. discriminate H.
Qed.

Lemma run_stack_clear : loading (inv := pmm_wf) (held := pool_held) run_stack stack_only.
Proof.
  assert (E : fst (map_user_stack run_space) = 0) by (vm_compute; reflexivity).
  destruct (map_stack_spec (inv := pmm_wf) (held := pool_held) run_space _ _ _ run_space_empty (surjective_pairing _)) as [(_ & _ & H)|H]; [exact H|]. rewrite E in H. discriminate H.
Qed.

Definition run_ehdr : Elf64_Ehdr := bytes_ehdr run_file.

Lemma init_user_stack_witness : exists sp m1 V,
  init_user_stack (vmm_user_cr3 run_stack) run_ehdr [] [47; 97] run_args run_env 0 0x400078 0 run_stack = (Some sp, m1) /\
  program_stack V sp run_args run_env (stack_auxv run_ehdr [] 0 0x400078 0).
Proof.
  pose proof (init_user_stack_correct (inv := pmm_wf) (held := pool_held) run_stack stack_only run_ehdr [] [47; 97] run_args run_env 0 0x400078 0
    run_stack_clear (clear_ready empty_image) ltac:(vm_compute; reflexivity) ltac:(repeat constructor; vm_compute; congruence)
    ltac:(repeat constructor; vm_compute; congruence) ltac:(repeat constructor; vm_compute; congruence)) as H.
  cbv zeta in H. lazymatch type of H with context [if ?c then _ else _] => change c with true in H end. destruct H as (sp & m1 & V & E & _ & _ & Hp & _). exists sp, m1, V. split; [exact E | exact Hp].
Defined.

Definition run_kernel : kernel := blank_kernel <| k_vm := run_vm |>.

Definition run_load : option (Z * Z) * kernel := load_elf_with_args (fun _ => None) (fun _ _ _ => []) [] run_file [47; 97] run_args run_env run_kernel.

Lemma load_elf_witness : exists sp V, fst run_load = Some (0x400078, sp) /\ loading (inv := pmm_wf) (held := pool_held) (k_vm (snd run_load)) V /\
  program_stack V sp run_args run_env (stack_auxv run_ehdr [bytes_phdr (drop 64 run_file)] 0 0x400078 0).
Proof.
  assert (E : exists sp, fst run_load = Some (0x400078, sp)) by (vm_compute; eexists; reflexivity). destruct E as [sp E].
  assert (Eh : elf_headers (elf_memory_reader_read run_file (Z.of_nat (length run_file))) (Z.of_nat (length run_file)) = Some (run_ehdr, [bytes_phdr (drop 64 run_file)]))
    by (vm_compute; reflexivity).
  destruct (load_elf_correct (inv := pmm_wf) (held := pool_held) (fun _ => None) (fun _ _ _ => []) [] (fun _ => []) ltac:(done)
    ltac:(intros p off n _ _; unfold slice; by rewrite drop_nil, take_nil) ltac:(done) ltac:(done)
    (elf_memory_reader_read run_file (Z.of_nat (length run_file))) run_file [47; 97] run_args run_env run_kernel 0x400078 sp (snd run_load)) as (e & phdrs & V & Eh' & H).
  - apply memory_reads. vm_compute. reflexivity.
  - repeat constructor; vm_compute; congruence.
  - repeat constructor; vm_compute; congruence.
  - repeat constructor; vm_compute; congruence.
  - repeat constructor; vm_compute; congruence.
  - vm_compute. lia.
  - exact run_vm_inv.
  - unfold cr3_ok; split_and!; vm_compute; congruence.
  - vm_compute. reflexivity.
  - rewrite <- E. unfold run_load, load_elf_with_args. cbv zeta. apply surjective_pairing.
  - rewrite Eh in Eh'. injection Eh' as <- <-. destruct H as (Hl & _ & Hp & _). exists sp, V. split; [exact E|]. split; [exact Hl | exact Hp].
Defined.
