(* ===== verification/Dispatch.v ===== *)
(** * The system call dispatcher

    syscall_dispatch of [src/kernel/main.c]: the address space and the child to
    collect, the table of calls, and the end of the call, with every argument
    converted to the type of its parameter.  What the calls need of the rest of
    the machine is the record [world]. *)

From Stdlib Require Import String.
From S2P Require Import Prelude Words Pmm Vmm CStr Vfs Kernel Tty Fd Sched UserCopy Pipe Signals Process Mmap Socket Events Poll.
From S2P Require Import Input Ident Clock Pseudo Paths PathCalls FileIo Elf Exec Ioctl.
Local Open Scope Z_scope.
Local Open Scope st_scope.

(** The parameters of the model: what interrupts do while the processor waits,
    the boot medium, the processor and the framebuffer, the registers of the
    real-time clock, and bytes of the kernel stack that are not cleared. *)
Record world := World {
  w_wait_tick : kernel -> kernel;
  w_find_file : cstr -> option Z;
  w_is_dir : cstr -> Z;
  w_read_file : cstr -> Z -> Z -> list Z;
  w_cpuid : Z -> Z -> Z * Z * Z * Z;
  w_fb_info : option (list Z);
  w_fb_phys : Z;
  w_fb_size : Z;
  w_console_size : option (list Z);
  w_cmos : Z -> Z;
  w_junk : list Z;
  w_stack_byte : Z -> Z
}.

(** ** The keys of the console, read one at a time *)

Definition NORMAL : list Z :=
  [0; 27] ++ cs "1234567890-="%string ++ [8; 9] ++ cs "qwertyuiop[]"%string ++ [13; 0] ++ cs "asdfghjkl;'`"%string ++ [0] ++ cs "\zxcvbnm,./"%string
  ++ [0; 42; 0; 32].
Definition SHIFTED : list Z :=
  [0; 27] ++ cs "!@#$%^&*()_+"%string ++ [8; 9] ++ cs "QWERTYUIOP{}"%string ++ [13; 0] ++ cs "ASDFGHJKL:"%string ++ [34] ++ cs "~"%string ++ [0]
  ++ cs "|ZXCVBNM<>?"%string ++ [0; 42; 0; 32].

(** Caps lock inverts [shift_pressed] bit by bit, which leaves no state in which it is zero. *)
Definition scancode_to_ascii (i : input_state) (scancode : Z) : Z :=
  if Z.of_nat (length NORMAL) <=? scancode then 0
  else
    let alpha := ((16 <=? scancode) && (scancode <=? 25)) || ((30 <=? scancode) && (scancode <=? 38)) || ((44 <=? scancode) && (scancode <=? 50)) in
    nth (Z.to_nat scancode) (if (alpha && in_caps_lock i) || in_shift i then SHIFTED else NORMAL) 0.

Definition input_read_key : ST kernel Z :=
  let! key := get_key in
  if key =? 0 then st_ret 0 else let! k := st_get in st_ret (scancode_to_ascii (k_input k) key).

(** ** The table *)

Section Dispatch.
Variable w : world.
Variable fuel : nat.

Definition boot_size : cstr -> Z := bootfs_file_size (w_find_file w).
Definition now : Z * Z := Clock.rtc_now (w_cmos w).

(** The reads of the dispatcher: an empty pipe puts the task to sleep. *)
Definition read_dispatch (f : regs) (fd buf count : Z) (k : kernel) : option (Z * kernel) :=
  let d := file k fd in
  if closed_fd k fd then Some (- EBADF, k)
  else if negb (f_type d =? FD_PIPE_R) then sys_read (w_read_file w) (w_wait_tick w) (w_cpuid w) now fuel f fd buf count k
  else on_object (match f_private d with PPipe i => Some i | _ => None end) (fun i => Some (sys_pipe_read_dispatch f fd i (f_flags d) buf count k)).

(** Powering off and starting again do not return: [None], as for a call that
    never ends. *)
Definition sys_reboot (a1 a2 a3 : Z) (k : kernel) : option (Z * kernel) :=
  if (a1 =? 0) && (a2 =? 0) then None
  else if negb (a1 =? 0xfee1dead) || negb (a2 =? 0x28121969) then Some (-22, k)
  else if (a3 =? 0x01234567) || (a3 =? 0x4321fedc) then None
  else Some (-22, k).

(** The console gets the framebuffer back when nobody else uses it. *)
Definition framebuffer_restore : ST kernel Z :=
  let! k := st_get in
  (if k_framebuffer_users k =? 0 then st_mod (fun k => k <| k_framebuffer_console_active := true |>) else st_ret tt) ;;; st_ret 0.

(** A call that does not wait, and one that only gives a number. *)
Definition run (c : ST kernel Z) (k : kernel) : option (Z * kernel) := Some (c k).
Definition answer (r : Z) : kernel -> option (Z * kernel) := run (st_ret r).

(** The switch on the number [nr], the arguments [a1] to [a6] in their registers. *)
Definition call (nr : Z) (f : regs) : kernel -> option (Z * kernel) :=
  let a1 := f RDI in let a2 := f RSI in let a3 := f RDX in let a4 := f R10 in let a5 := f R8 in let a6 := f R9 in
  match nr with
  | 168 => answer 0
  | 454 => run framebuffer_restore
  | 169 => sys_reboot a1 a2 a3
  | 0 => read_dispatch f (s32 a1) a2 a3
  | 1 => sys_write (w_wait_tick w) fuel f (s32 a1) a2 a3
  | 2 => run (sys_open boot_size (w_cpuid w) (w_fb_size w) a1 (s32 a2))
  | 3 => run (sys_close (s32 a1))
  | 4 => run (sys_stat boot_size (w_cpuid w) (w_fb_size w) a1 a2)
  | 5 => run (sys_fstat (w_fb_size w) (s32 a1) a2)
  | 7 => sys_poll now (w_wait_tick w) fuel f a1 a2 (s32 a3)
  | 8 => run (sys_lseek (s32 a1) (s64 a2) (s32 a3))
  | 9 => run (sys_mmap (w_read_file w) a1 a2 a3 a4 (s32 a5) a6)
  | 10 => run (sys_mprotect a1 a2 a3)
  | 11 => run (sys_munmap a1 a2)
  | 12 => run (sys_brk a1)
  | 13 => run (sys_rt_sigaction (s32 a1) a2 a3 a4)
  | 28 => answer (sys_madvise a1 a2 (s32 a3))
  | 14 => run (sys_rt_sigprocmask (s32 a1) a2 a3 a4)
  | 16 => sys_ioctl (w_wait_tick w) (w_fb_info w) (w_fb_phys w) (w_console_size w) fuel f (s32 a1) a2 a3
  | 17 => run (sys_pread64 (w_read_file w) (s32 a1) a2 a3 a4)
  | 19 => sys_readv (w_read_file w) (w_wait_tick w) (w_cpuid w) now fuel f (s32 a1) a2 (s32 a3)
  | 20 => sys_writev (w_wait_tick w) fuel f (s32 a1) a2 (s32 a3)
  | 21 => run (sys_access boot_size a1 (s32 a2))
  | 22 => run (sys_pipe a1)
  | 23 => sys_select now (w_wait_tick w) fuel f (s32 a1) a2 a3 a4 a5
  | 270 => sys_pselect6 now (w_wait_tick w) fuel f (s32 a1) a2 a3 a4 a5
  | 271 => sys_ppoll now (w_wait_tick w) fuel f a1 a2 a3
  | 24 => run (sys_sched_yield (w_wait_tick w) f)
  | 140 => run (sys_getpriority (s32 a1) (s32 a2))
  | 141 => run (sys_setpriority (s32 a1) (s32 a2) (s32 a3))
  | 32 => run (sys_dup (s32 a1))
  | 33 => run (sys_dup2 (s32 a1) (s32 a2))
  | 292 => run (sys_dup3 (s32 a1) (s32 a2) (s32 a3))
  | 39 => run sys_getpid
  | 41 => run (sys_socket (s32 a1) (s32 a2) (s32 a3))
  | 42 => run (sys_connect (s32 a1) a2 (s32 a3))
  | 43 => sys_accept (w_wait_tick w) fuel f (s32 a1) a2 a3
  | 288 => sys_accept4 (w_wait_tick w) fuel f (s32 a1) a2 a3 (s32 a4)
  | 44 => sys_sendto (w_wait_tick w) fuel f (s32 a1) a2 (s32 a3) 44
  | 45 => sys_recvfrom (w_wait_tick w) fuel f (s32 a1) a2 (s32 a3) 45
  | 46 => sys_sendmsg (w_wait_tick w) fuel f (s32 a1) a2 (s32 a3)
  | 47 => sys_recvmsg (w_wait_tick w) fuel f (s32 a1) a2 (s32 a3)
  | 48 => run (sys_shutdown (s32 a1) (s32 a2))
  | 49 => run (sys_bind (s32 a1) a2 (s32 a3))
  | 50 => run (sys_listen (s32 a1) (s32 a2))
  | 51 => run (sys_getsockname (s32 a1) a2 a3)
  | 52 => run (sys_getpeername (s32 a1) a2 a3)
  | 109 => run (sys_setpgid (s32 a1) (s32 a2))
  | 112 => run sys_setsid
  | 121 => run (sys_getpgid (s32 a1))
  | 122 => run sys_getpgrp
  | 53 => run (sys_socketpair (s32 a1) (s32 a2) a4)
  | 54 => run (sys_setsockopt (s32 a1) (s32 a2) (s32 a3) (s32 a5))
  | 55 => run (sys_getsockopt (s32 a1) (s32 a2) (s32 a3) a4 a5)
  | 60 => run (sys_exit (s32 a1))
  | 63 => run (sys_uname a1)
  | 72 => run (sys_fcntl (s32 a1) (s32 a2) a3)
  | 79 => run (sys_getcwd a1 a2)
  | 80 => run (sys_chdir (w_is_dir w) a1)
  | 82 => run (sys_rename a1 a2)
  | 83 => run (sys_mkdir a1 (s32 a2))
  | 84 => run (sys_rmdir a1)
  | 86 => run (sys_link a1 a2)
  | 87 => run (sys_unlink a1)
  | 89 => run (sys_readlink a1 a2 a3)
  | 217 => run (sys_getdents64 (w_stack_byte w) (s32 a1) a2 a3)
  | 96 => run (sys_gettimeofday (w_cmos w) a1)
  | 99 => run (sys_sysinfo a1)
  | 90 => run (sys_chmod boot_size a1 (u32 a2))
  | 91 => run (sys_fchmod (s32 a1) (u32 a2))
  | 92 => run (sys_chown boot_size a1 (u32 a2) (u32 a3))
  | 93 => run (sys_fchown (s32 a1) (u32 a2) (u32 a3))
  | 94 => run (sys_lchown boot_size a1 (u32 a2) (u32 a3))
  | 102 => answer sys_getuid
  | 104 => answer sys_getgid
  | 105 => answer (sys_setuid (u32 a1))
  | 106 => answer (sys_setgid (u32 a1))
  | 107 => answer sys_geteuid
  | 108 => answer sys_getegid
  | 113 => answer (sys_setreuid (u32 a1) (u32 a2))
  | 114 => answer (sys_setregid (u32 a1) (u32 a2))
  | 117 => answer (sys_setresuid (u32 a1) (u32 a2) (u32 a3))
  | 119 => answer (sys_setresgid (u32 a1) (u32 a2) (u32 a3))
  | 110 => run sys_getppid
  | 158 => run (sys_arch_prctl a1 a2)
  | 186 => run sys_gettid
  | 201 => answer (sys_time (w_cmos w))
  | 202 => run (sys_futex f a1 (s32 a2) (u32 a3) a4)
  | 218 => run (sys_set_tid_address a1)
  | 62 => run (sys_kill (s32 a1) (s32 a2))
  | 127 => run (sys_rt_sigpending a1 a2)
  | 131 => run (sys_sigaltstack a1 a2)
  | 228 => run (sys_clock_gettime (w_cmos w) (s32 a1) a2)
  | 229 => run (sys_clock_getres (s32 a1) a2)
  | 231 => run (sys_exit_group (s32 a1))
  | 6 => run (sys_lstat boot_size (w_cpuid w) (w_fb_size w) a1 a2)
  | 56 => run (sys_clone f a1 a2 a3 a4 a5)
  | 57 => run (sys_fork f)
  | 59 => run (sys_execve (w_find_file w) (w_read_file w) (w_junk w) a1 a2 a3)
  | 61 => run (sys_wait4 f (s32 a1) a2 (s32 a3))
  | 74 | 75 => answer 0
  | 77 => run (sys_ftruncate (s32 a1) a2)
  | 95 => run (sys_umask a1)
  | 97 => run (sys_getrlimit (s32 a1) a2)
  | 157 => run (sys_prctl (s32 a1) a2)
  | 232 => sys_epoll_wait now (w_wait_tick w) fuel f (s32 a1) a2 (s32 a3) (s32 a4)
  | 281 => sys_epoll_pwait now (w_wait_tick w) fuel f (s32 a1) a2 (s32 a3) (s32 a4)
  | 233 => run (sys_epoll_ctl (s32 a1) (s32 a2) (s32 a3) a4)
  | 234 => run (sys_tgkill (s32 a1) (s32 a2) (s32 a3))
  | 257 => run (sys_openat boot_size (w_cpuid w) (w_fb_size w) (s32 a1) a2 (s32 a3))
  | 260 => run (sys_fchownat boot_size (s32 a1) a2 (u32 a3) (u32 a4) (s32 a5))
  | 262 => run (sys_newfstatat boot_size (w_cpuid w) (w_fb_size w) (s32 a1) a2 a3 (s32 a4))
  | 267 => run (sys_readlinkat (s32 a1) a2 a3 a4)
  | 268 => run (sys_fchmodat boot_size (s32 a1) a2 (u32 a3))
  | 269 => run (sys_faccessat boot_size (s32 a1) a2 (s32 a3))
  | 289 => run (sys_eventfd2 (u32 a1) (s32 a2))
  | 291 => run (sys_epoll_create1 (s32 a1))
  | 293 => run (sys_pipe2 a1 (s32 a2))
  | 302 => run (sys_prlimit64 (s32 a1) (s32 a2) a3 a4)
  | 325 => run (sys_timerfd_create (s32 a1) (s32 a2))
  | 326 => run (sys_timerfd_settime now (s32 a1) a3 a4)
  | 35 => sys_nanosleep (w_wait_tick w) fuel f a1 a2
  | 78 => run (sys_getdents64 (w_stack_byte w) (s32 a1) a2 a3)
  | 203 => run (sys_sched_setaffinity a2 a3)
  | 204 => run (sys_sched_getaffinity a2 a3)
  | 273 => run (sys_set_robust_list a1 a2)
  | 274 => run (sys_get_robust_list (s32 a1) a2 a3)
  | 309 => run (sys_getcpu a1 a2)
  | 318 => run (sys_getrandom a1 a2)
  | 452 => run input_read_key
  | 453 => sys_input_wait_key (w_wait_tick w) fuel
  | _ => answer (- ENOSYS)
  end.

(** ** One system call *)

(** write and sendto have the registers of the caller saved before they begin. *)
Definition save_caller (nr : Z) (f : regs) : ST kernel unit :=
  let! k := st_get in
  if ((nr =? 1) || (nr =? 44)) && task_ok (k_current k) && t_used (task k (k_current k)) then task_save_from_frame (k_current k) f else st_ret tt.

(** The frame the program goes on with; [None] when the call does not end
    within [fuel] interrupts. *)
Definition syscall_dispatch (f : regs) (k : kernel) : option (regs * kernel) :=
  let nr := f RAX in
  let k := exec (syscall_enter f ;;; save_caller nr f) k in
  if nr =? 15 then Some (sigreturn_dispatch f k)
  else
    match call nr f k with
    | None => None
    | Some (ret, k) => Some (syscall_finish nr ret f k)
    end.
End Dispatch.

(** mremap has a function and no case in the table. *)
Lemma mremap_refused w fuel f k : call w fuel 25 f k = Some (- ENOSYS, k).
Proof. reflexivity. Qed.

(** A number without a case changes nothing but what every system call changes. *)
Lemma unknown_refused w fuel nr f k : 454 < nr -> call w fuel nr f k = Some (- ENOSYS, k).
Proof. intros H. unfold call. repeat (case_match; try lia; try reflexivity). Qed.
